(* ===== verification/_CoqProject ===== *)
-Q . S2P
Prelude.v
Bits.v
Interfaces.v
Edma.v
EdmaTheory.v
EdmaProps.v
Clock.v
ClockTheory.v
Topology.v
Access.v
AccessTheory.v
CharMux.v
Lpuart.v
LpuartTheory.v
LpuartDriver.v
LpuartDriverTheory.v
LpuartDriverProps.v
Soc.v
Board.v
BoardTheory.v
BoardProps.v
CMemory.v
FreeRTOSList.v
FreeRTOSListTheory.v
FreeRTOSListStore.v
FreeRTOSListFrame.v
FreeRTOSHeap.v
FreeRTOSObjects.v
FreeRTOSTasks.v
FreeRTOSTasksTheory.v
FreeRTOSTasksCalls.v
FreeRTOSTasksInvariant.v
FreeRTOSTasksEvents.v
FreeRTOSTasksTime.v
FreeRTOSTasksFrame.v
FreeRTOSTasksRouse.v
FreeRTOSTasksBoot.v
FreeRTOSQueue.v
FreeRTOSQueueFrame.v
FreeRTOSQueueTheory.v
FreeRTOSQueueCalls.v
FreeRTOSQueueWait.v
FreeRTOSSystem.v
FreeRTOSSystemTheory.v
FreeRTOSSystemEvents.v
FreeRTOSSystemTasks.v
FreeRTOSSystemSteps.v
FreeRTOSTimers.v
FreeRTOSTimersTheory.v
FreeRTOSTimersService.v
FreeRTOSTimersCalls.v
FreeRTOSBoot.v
FreeRTOSTasksApi.v
FreeRTOSKernelProps.v
FreeRTOSTimersProps.v
FreeRTOSEventGroups.v
FreeRTOSEventGroupsTheory.v
FreeRTOSEventGroupsCalls.v
FreeRTOSEventGroupsProps.v
FreeRTOSSystemProps.v
FreeRTOSStreamBuffer.v
FreeRTOSStreamTheory.v
FreeRTOSStreamProps.v
DemoApp.v
DemoAppProps.v
