(* ===== verification/Prelude.v ===== *)
(** * A verification development for the S32K3X8EVB board of QEMU and its FreeRTOS firmware

    The repository adds a machine to QEMU, the NXP S32K3X8EVB evaluation board
    with the S32K358 microcontroller, and a FreeRTOS demo that runs on it.  This
    library models the devices and the parts of QEMU they rest on, the board
    that connects them, and data structures of the FreeRTOS kernel, and proves
    them correct.  Paths below are relative to [src/].

    ** Parts and files

    - [Prelude]: C integers as [Z] with their wrap-around ([wrapu], [wraps]),
      the error monad [res] whose faults are the ways a C program stops (a failed
      assertion, a division by zero, a wild pointer, an index out of bounds).
      [Bits]: [registerfields.h] and [bitops.h].  [Interfaces]: what a device
      needs of the machine, as type classes with laws ([DmaEnv], [Machine]).
    - [Edma], [EdmaTheory], [EdmaProps]: the eDMA controller,
      [qemu/hw/dma/nxps32k358_edma.c].  The record [NXPS32K358EDMAState] has the
      fields of the C structure and the static variable of
      [nxps32k358_edma_arbitrate]; each C function is a definition of the same
      name.  The bus and the interrupt lines are the environment [DmaEnv].
    - [Lpuart], [LpuartTheory]: the serial port, [qemu/hw/char/nxps32k358_lpuart.c].
      [CharMux]: the character multiplexer that may sit behind it,
      [qemu/chardev/char-mux.c].
    - [LpuartDriver], [LpuartDriverTheory], [LpuartDriverProps]: the firmware's driver
      of that port, [FreeRTOS_Demo/RTD/src/Lpuart_Uart_Ip.c], over the registers of
      [Lpuart]: the monad [UM] has the state structure of the driver, the memory with
      the buffers, the device and its back end.  The header with the layout of the
      registers is not in the repository: the bits the device uses are those of the
      device, the others are the parameter [lpuart_layout].
    - [Clock], [ClockTheory]: clock trees, [qemu/hw/core/clock.c], as a heap of
      clocks with parent and child links.
    - [Topology]: memory regions and their rendering to a flat view,
      [qemu/system/memory.c].  [Access], [AccessTheory]: accesses through the flat
      view, [qemu/system/memory.c] and [qemu/system/physmem.c].
    - [Soc], [Board], [BoardTheory], [BoardProps]: the microcontroller and the
      board, [qemu/hw/arm/nxps32k358_soc.c] and [qemu/hw/arm/nxps32k3x8evb.c].
      Realizing the board is computed: its memory map, clock tree and interrupt
      wires are values.  [Board] puts the devices behind the memory map: a guest
      access goes through the access code to the handler of the device, and
      [board_bus] gives the eDMA that same memory, which discharges the laws of
      [DmaEnv] for the real board.
    - The FreeRTOS kernel, under [FreeRTOS_Demo/FreeRTOS/Source/].
      [FreeRTOSList], [FreeRTOSListTheory], [FreeRTOSListStore]: the lists of
      [list.c], as a heap of nodes with pointers, and the sequences they stand
      for.  [FreeRTOSHeap]: the allocator [heap_1.c].  [CMemory]: [memcpy].
    - [FreeRTOSTasks]: the scheduler, [tasks.c].  The record [kernel] has its
      static variables, the task control blocks and the heap of lists; a function
      of C is a definition of the same name in the monad [KM] of that state, and
      a failed [configASSERT] is a fault.  [FreeRTOSTasksTheory] states the
      invariant and the rules of the monad, [FreeRTOSTasksCalls],
      [FreeRTOSTasksInvariant] and [FreeRTOSTasksEvents] show that the functions
      keep it, [FreeRTOSTasksTime] what ticks and switches do to the tasks,
      [FreeRTOSTasksFrame] what the scheduler leaves alone, [FreeRTOSListFrame]
      and [FreeRTOSTasksRouse] which tasks it moves between lists.
    - [FreeRTOSObjects], [FreeRTOSQueue]: queues, semaphores and mutexes,
      [queue.c].  A call that can block is a sequence of steps, [wait_step], one
      for each stretch of code that others cannot interrupt.
      [FreeRTOSQueueTheory]: the storage as a ring; [FreeRTOSQueueFrame],
      [FreeRTOSQueueCalls], [FreeRTOSQueueWait]: the calls in a running kernel.
    - [FreeRTOSSystem]: the tasks and the interrupts on shared queues, as a
      machine whose steps are ticks, switches, calls in interrupts and the steps
      of blocking calls.  [FreeRTOSSystemTheory] states its invariant,
      [FreeRTOSSystemEvents], [FreeRTOSSystemTasks] and [FreeRTOSSystemSteps] show
      that every step keeps it, [FreeRTOSSystemProps] has the theorems.
    - [FreeRTOSTimers]: software timers and pended calls, [timers.c].  Only the
      timer task works on the lists of the active timers; those functions are in
      the monad [TM] of the static variables of the file, the record
      [timer_state], which also has the log of the callbacks.
      [FreeRTOSTimersTheory]: the lists in absolute time, where the tick counter
      does not wrap; [FreeRTOSTimersService]: passes of the timer task and commands;
      [FreeRTOSTimersCalls]: the same in a running kernel; [FreeRTOSTimersProps]:
      the theorems.
    - [FreeRTOSEventGroups]: event groups, [event_groups.c]; a call that can block
      is a part until the task blocks and a part after it.
      [FreeRTOSEventGroupsTheory]: the walk of the waiting tasks and their
      placement; [FreeRTOSEventGroupsCalls]: the calls; [FreeRTOSEventGroupsProps]:
      the theorems.
    - [FreeRTOSTasksBoot], [FreeRTOSBoot]: task creation, the start of the
      scheduler and the kernel calls of [main] in [FreeRTOS_Demo/src/main.c].
      [FreeRTOSTasksApi]: the functions as steps of one machine.
      [FreeRTOSKernelProps]: the theorems about the running kernel.
    - [FreeRTOSStreamBuffer], [FreeRTOSStreamTheory], [FreeRTOSStreamProps]:
      stream and message buffers, [stream_buffer.c].
    - [DemoApp], [DemoAppProps]: the tasks of [FreeRTOS_Demo/src/main.c] and the callback
      of the DMA channel, as programs that interleave.  What they use of the parts
      above is there as the theorems about those parts give it: a binary semaphore is
      a flag, a request of the channel copies the buffer, a message that is handed to
      the serial driver goes out.

    ** What the theorems show

    - eDMA: a programmed channel copies memory, request by request, to the end
      of the major loop, on any bus that satisfies the laws and on the board's
      own; every reachable state is well formed and its interrupt lines agree
      with the status register; arbitration is round robin and starves no
      channel; registers read back what was written; accesses stay in bounds;
      an access ends the emulator exactly on the values the code asserts
      against; and the behaviours that differ from the documented ones.
    - Memory: the rendered view answers like a search of the region tree by
      priority; an access of any length ends, is split into legal sizes, and
      memory reads back what was written; a device that re-enters itself is
      refused.
    - Clocks: setting a clock or connecting it leaves every clock below it
      consistent with its source; frequencies round trip.
    - Serial port: reachable states are consistent with the interrupt line, a
      received byte is read back, transmitted bytes reach the back end, and the
      multiplexer's rings are queues.
    - Driver of the serial port: from its initialisation on, what is received by
      interrupts and sent by interrupts goes out unchanged and the interrupts end;
      polled sending and receiving move exactly the bytes that their time-outs allow;
      the search for a baud rate finds the best one; and the cases in which the status
      it reports is wrong.
    - Board: the address map, the interrupt wiring and the clock tree; a guest
      that programs the eDMA copies memory.
    - FreeRTOS kernel: [main] boots into a state that satisfies the invariant of
      the scheduler; every call its documentation allows, in any order, returns
      and keeps it, and the running task is then a ready one of the highest
      priority; ticks wake the tasks that are due and delays last exactly as
      long as asked, also when the tick counter wraps; time-outs are exact;
      queues and semaphores refine bounded double-ended queues.
    - Shared queues: with tasks that block, time out and are woken, and interrupts
      at any point between the steps, no call faults, the calls are linearizable
      and no wake-up is lost.
    - Software timers: every expiry leads to exactly one call, never early, also
      when the counter wraps and when the timer task runs late; commands are
      carried out in order and count from the time they were given; the timer
      task sleeps until exactly the first deadline or the wrap of the counter;
      deleting a timer stops the firmware, because the heap cannot free.
    - Event groups: setting bits lets go exactly the tasks whose condition holds
      and clears exactly what they want cleared; a call that waits returns, or
      blocks with its condition recorded; a task that was let go gets the bits that
      let it go; the last task of a rendezvous lets all the others go, and all of
      them get the same bits.
    - FreeRTOS data: insertion keeps a list sorted and stable, removal undoes it,
      the scheduler's walk visits every entry in turn; heap blocks are disjoint,
      aligned and inside the heap; stream buffers refine a queue of bytes and
      message buffers a queue of messages, a task that waits for space sends all
      its data, and one writer and one reader need no lock.

    - Demo application: its output is the greeting and a beginning of the rounds that
      the seeds determine, in every interleaving; the semaphores pass one token
      around, nothing is written while it is copied or compared, and the application
      goes on.

    ** Bounds and fuel

    Recursion that is not structural has fuel.  [clock_propagate_period] gets
    the number of clocks, which bounds the depth of an acyclic tree; an access
    gets its length in bytes, because each round moves at least one; the loop of
    [vListInsert] gets the length of the list; the loop of [prvReloadTimer] gets
    the number of periods that fit in the time it catches up with, that of
    [prvSwitchTimerLists] the length of the list it empties and that of
    [prvProcessReceivedCommands] the number of messages; the loops of
    [xEventGroupSetBits] and [vEventGroupDelete] get the length of the list of the
    group; the loops of the serial driver over a buffer get its length, its waits in
    interrupts the time-out.  In each case a theorem or its lemmas show that the fuel
    is enough.  A call that blocks is run against the list of its wake-ups, and is
    still blocked when they are used up; a call of the serial driver that polls is run
    against the list of what the host sends at each poll, and still polls when it is
    used up; no fuel is involved.

    ** What is not modelled

    - The processor, the interrupt controller and the system timer: the
      interrupt controller is represented by the levels of its input lines.
    - The rest of QEMU: object model, migration, tracing, host I/O; of
      [memory.c] transactions, listeners, ioeventfds and IOMMUs; the monitor and
      timestamps of the multiplexer.
    - Of [tasks.c] the names and the stacks of the tasks and the functions that
      report on them.  A callback of a timer is code of the application: the model
      logs the call.  The port is assembly: the switch of the registers and the
      critical sections are represented by the atomicity of the definitions.  What the
      stream buffers need of the scheduler is the interface [TaskNotify].
    - The other vendor drivers, for DMA, clocks, pins and interrupts: the headers with
      their registers are not in the repository; of the serial driver, the DMA
      transfers and the loopback, which the configuration turns off.  Of the generated
      configuration, the constants the modelled code uses are definitions.  In the
      model of the kernel the tasks are arbitrary sequences of calls; in [DemoApp] the
      random numbers of the C library are parameters. *)

From Stdlib Require Export ZArith Lia Bool.
From stdpp Require Export base tactics list numbers option gmap.

#[global] Open Scope Z_scope.

(** ** C integers

    A C integer of [w] bits is a [Z]; conversions to a width are written out. *)

Definition wrapu (w z : Z) : Z := z mod 2 ^ w.

Definition wraps (w z : Z) : Z := (z + 2 ^ (w - 1)) mod 2 ^ w - 2 ^ (w - 1).

Abbreviation u8 := (wrapu 8).
Abbreviation u16 := (wrapu 16).
Abbreviation u32 := (wrapu 32).
Abbreviation u64 := (wrapu 64).
Abbreviation s16 := (wraps 16).
Abbreviation s32 := (wraps 32).

Declare Scope c_scope.
Delimit Scope c_scope with C.
Notation "a .& b" := (Z.land a b) (at level 40, left associativity) : c_scope.
Notation "a .| b" := (Z.lor a b) (at level 50, left associativity) : c_scope.
Notation "a .<< b" := (Z.shiftl a b) (at level 35, right associativity) : c_scope.
Notation "a .>> b" := (Z.shiftr a b) (at level 35, right associativity) : c_scope.
Notation ".~ a" := (Z.lnot a) (at level 33, right associativity) : c_scope.
#[global] Open Scope c_scope.

(** C's truth of an integer. *)
Definition truthy (z : Z) : bool := negb (z =? 0).

(** ** Faults and the error monad

    A step of emulator code either returns or ends the emulator process: a
    failed [assert], a division by zero, a wild host pointer.  [OutOfFuel]
    marks the recursion bound of a model of a recursive function; theorems
    show that the bounds in use are not reached. *)

Inductive fault : Set :=
  | AssertFailed
  | DivisionByZero
  | WildHostPointer
  | ArrayOutOfBounds
  | OutOfFuel.

#[export] Instance fault_eq_dec : EqDecision fault.
Proof. solve_decision. Defined.

Inductive res (A : Type) : Type :=
  | Ok (a : A)
  | Fault (f : fault).
Arguments Ok {A} a.
Arguments Fault {A} f.

#[export] Instance res_ret : MRet res := fun A a => Ok a.
#[export] Instance res_bind : MBind res :=
  fun A B k r => match r with Ok a => k a | Fault f => Fault f end.

(** [assert(b)]: the emulator aborts when [b] is false. *)
Definition c_assert (b : bool) : res unit :=
  if b then Ok tt else Fault AssertFailed.

Definition is_ok {A} (r : res A) : bool :=
  match r with Ok _ => true | Fault _ => false end.

Lemma res_bind_Ok {A B} (k : A -> res B) (a : A) : (Ok a ≫= k) = k a.
Proof. reflexivity. Qed.

Lemma res_bind_inv {A B} (k : A -> res B) (r : res A) (b : B) :
  (r ≫= k) = Ok b -> exists a, r = Ok a /\ k a = Ok b.
Proof. destruct r; cbn; [eauto | discriminate]. Qed.

Lemma Ok_pair_inv {A B} (a c : A) (b d : B) : Ok (a, b) = Ok (c, d) -> c = a /\ d = b.
Proof. by intros [= <- <-]. Qed.

Lemma c_assert_inv (b : bool) (u : unit) : c_assert b = Ok u -> b = true.
Proof. destruct b; [done | discriminate]. Qed.

(** The computation does not end in the fault [f]. *)
Definition avoids {A} (f : fault) (r : res A) : Prop := r <> Fault f.

Lemma avoids_bind {A B} (f : fault) (r : res A) (k : A -> res B) :
  avoids f r -> (forall a, r = Ok a -> avoids f (k a)) -> avoids f (r ≫= k).
Proof. intros Hr Hk. destruct r as [a|g]; [by apply Hk|]. intros [= ->]. by apply Hr. Qed.

Lemma avoids_Ok {A} (f : fault) (a : A) : avoids f (Ok a).
Proof. discriminate. Qed.

Lemma avoids_assert (f : fault) (b : bool) : f <> AssertFailed -> avoids f (c_assert b).
Proof. intros Hf. destruct b; [discriminate|]. by intros [= <-]. Qed.

(** [inv_res H] opens a chain of successful binds in [H]. *)
Ltac inv_res H :=
  repeat first
    [ apply res_bind_inv in H;
      let x := fresh "r" in let E := fresh "E" in
      destruct H as (x & E & H)
    | progress (injection H as H) ];
  repeat match goal with
         | E : c_assert _ = Ok _ |- _ => apply c_assert_inv in E
         | E : Ok _ = Ok _ |- _ => injection E as E
         end.

(** ** Arithmetic lemmas *)

Create HintDb cint.
Create Rewrite HintDb cint.

Lemma wrapu_range (w z : Z) : 0 <= w -> 0 <= wrapu w z < 2 ^ w.
Proof. intros Hw. apply Z.mod_pos_bound. lia. Qed.

Lemma wrapu_small (w z : Z) : 0 <= z < 2 ^ w -> wrapu w z = z.
Proof. apply Z.mod_small. Qed.

Lemma wrapu_idem (w z : Z) : wrapu w (wrapu w z) = wrapu w z.
Proof. apply Zmod_mod. Qed.

Lemma wrapu_add_l (w a b : Z) : wrapu w (wrapu w a + b) = wrapu w (a + b).
Proof. apply Zplus_mod_idemp_l. Qed.

Lemma wrapu_add_r (w a b : Z) : wrapu w (a + wrapu w b) = wrapu w (a + b).
Proof. apply Zplus_mod_idemp_r. Qed.

Lemma wrapu_land (w z : Z) : 0 <= w -> wrapu w z = Z.land z (Z.ones w).
Proof. intros Hw. by rewrite Z.land_ones. Qed.

Lemma wraps_range (w z : Z) : 0 < w -> - 2 ^ (w - 1) <= wraps w z < 2 ^ (w - 1).
Proof.
  intros Hw. unfold wraps.
  pose proof (Z.mod_pos_bound (z + 2 ^ (w - 1)) (2 ^ w) ltac:(lia)).
  replace w with (Z.succ (w - 1)) in * by lia.
  rewrite Z.pow_succ_r in * by lia.
  replace (Z.succ (w - 1) - 1) with (w - 1) in * by lia. lia.
Qed.

Lemma wrapu_wraps (w z : Z) : 0 < w -> wrapu w (wraps w z) = wrapu w z.
Proof.
  intros Hw. unfold wrapu, wraps. rewrite Zminus_mod_idemp_l. f_equal. lia.
Qed.

#[export] Hint Resolve wrapu_range wraps_range : cint.
#[export] Hint Rewrite wrapu_idem wrapu_add_l wrapu_add_r : cint.

(** A range test in C style, and the unsigned ranges of the source's types. *)
Definition in_range (w z : Z) : Prop := 0 <= z < 2 ^ w.

Lemma in_range_wrapu (w z : Z) : 0 <= w -> in_range w (wrapu w z).
Proof. apply wrapu_range. Qed.

Lemma in_range_testbit (w z : Z) :
  0 <= w -> in_range w z <-> (forall i, w <= i -> Z.testbit z i = false) /\ 0 <= z.
Proof.
  intros Hw. split.
  - intros [H0 H1]. split; [|done]. intros i Hi.
    rewrite <- (Z.mod_small z (2 ^ w)) by done. by apply Z.mod_pow2_bits_high.
  - intros [Hb H0]. split; [done|].
    replace z with (z mod 2 ^ w); [apply Z.mod_pos_bound; lia|].
    apply Z.bits_inj'. intros i Hi. destruct (Z.lt_ge_cases i w).
    + by rewrite Z.mod_pow2_bits_low.
    + rewrite Z.mod_pow2_bits_high by lia. symmetry. by apply Hb.
Qed.

Lemma in_range_land (w a b : Z) : 0 <= w -> in_range w a -> 0 <= b -> in_range w (Z.land a b).
Proof.
  intros Hw Ha Hb. apply in_range_testbit in Ha as [Ha H0]; [|done].
  apply in_range_testbit; [done|]. split.
  - intros i Hi. by rewrite Z.land_spec, Ha.
  - apply Z.land_nonneg. by left.
Qed.

Lemma in_range_land_l (w a b : Z) : 0 <= w -> in_range w a -> in_range w (Z.land a b).
Proof.
  intros Hw Ha. apply in_range_testbit in Ha as [Ha H0]; [|done].
  apply in_range_testbit; [done|]. split.
  - intros i Hi. by rewrite Z.land_spec, Ha.
  - apply Z.land_nonneg. by left.
Qed.

Lemma in_range_land_r (w a b : Z) : 0 <= w -> in_range w b -> in_range w (Z.land a b).
Proof. intros. rewrite Z.land_comm. by apply in_range_land_l. Qed.

Lemma in_range_lor (w a b : Z) : 0 <= w -> in_range w a -> in_range w b -> in_range w (Z.lor a b).
Proof.
  intros Hw Ha Hb.
  apply in_range_testbit in Ha as [Ha H0]; [|done].
  apply in_range_testbit in Hb as [Hb H1]; [|done].
  apply in_range_testbit; [done|]. split.
  - intros i Hi. by rewrite Z.lor_spec, Ha, Hb.
  - by apply Z.lor_nonneg.
Qed.

Lemma in_range_weaken (v w z : Z) : v <= w -> in_range v z -> in_range w z.
Proof.
  intros Hvw [H0 H1]. split; [done|].
  destruct (Z.lt_ge_cases v 0).
  - rewrite Z.pow_neg_r in H1; lia.
  - pose proof (Z.pow_le_mono_r 2 v w). lia.
Qed.

#[export] Hint Resolve in_range_wrapu in_range_land_l in_range_land_r in_range_lor : cint.
