(* ===== verification/Bits.v ===== *)
(** * Register fields

    The bit-field helpers of [qemu/include/qemu/bitops.h] and
    [qemu/include/hw/registerfields.h] that every device model uses. *)

From S2P Require Import Prelude.

(** [MAKE_64BIT_MASK(shift, length)]: [((~0ULL) >> (64 - length)) << shift]. *)
Definition MAKE_64BIT_MASK (shift length : Z) : Z :=
  u64 ((u64 (.~ 0) .>> (64 - length)) .<< shift).

(** [extract32(value, start, length)]. *)
Definition extract32 (value start length : Z) : Z :=
  (value .>> start) .& (u32 (.~ 0) .>> (32 - length)).

(** [extract16]: the value is converted to [uint16_t] first. *)
Definition extract16 (value start length : Z) : Z :=
  u16 (extract32 (u16 value) start length).

(** [deposit32(value, start, length, fieldval)]. *)
Definition deposit32 (value start length fieldval : Z) : Z :=
  let mask := u32 ((u32 (.~ 0) .>> (32 - length)) .<< start) in
  (value .& u32 (.~ mask)) .| (u32 (fieldval .<< start) .& mask).

(** [FIELD(reg, field, shift, length)] *)
Record field : Set := FIELD { field_shift : Z; field_length : Z }.

Definition field_mask (f : field) : Z := MAKE_64BIT_MASK (field_shift f) (field_length f).

Definition FIELD_EX32 (storage : Z) (f : field) : Z :=
  extract32 (u32 storage) (field_shift f) (field_length f).

Definition FIELD_EX16 (storage : Z) (f : field) : Z :=
  extract16 storage (field_shift f) (field_length f).

(** The value goes through an unsigned bit-field of the field's length. *)
Definition FIELD_DP16 (storage : Z) (f : field) (val : Z) : Z :=
  u16 (deposit32 (u32 storage) (field_shift f) (field_length f)
         (wrapu (field_length f) val)).

Definition FIELD_DP32 (storage : Z) (f : field) (val : Z) : Z :=
  u32 (deposit32 (u32 storage) (field_shift f) (field_length f)
         (wrapu (field_length f) val)).

(** ** Fields in use

    [extract32] and [deposit32] assert that the field lies in 32 bits; the
    fields are compile-time constants, so the assertion is a static check. *)

Definition field_ok (w : Z) (f : field) : bool :=
  (0 <=? field_shift f) && (0 <? field_length f) &&
  (field_shift f + field_length f <=? w).

Lemma field_ok_bounds (w : Z) (f : field) :
  field_ok w f = true ->
  0 <= field_shift f /\ 0 < field_length f /\ field_shift f + field_length f <= w.
Proof. unfold field_ok. rewrite !andb_true_iff, !Z.leb_le, Z.ltb_lt. lia. Qed.

(** Bit [i] lies inside the field. *)
Definition in_field (f : field) (i : Z) : bool :=
  (field_shift f <=? i) && (i <? field_shift f + field_length f).

(** ** Bit-level specifications *)

Lemma ones_shiftr (w l i : Z) :
  0 < l <= w -> 0 <= i ->
  Z.testbit (wrapu w (.~ 0) .>> (w - l)) i = (i <? l).
Proof.
  intros Hl Hi. rewrite Z.shiftr_spec, wrapu_land, Z.land_spec, Z.lnot_spec by lia.
  rewrite Z.bits_0, Z.testbit_ones by lia. cbn.
  destruct (Z.ltb_spec i l), (Z.ltb_spec (i + (w - l)) w); try lia;
    destruct (Z.leb_spec 0 (i + (w - l))); lia.
Qed.

Lemma wrapu_testbit (w z i : Z) :
  0 <= w -> 0 <= i -> Z.testbit (wrapu w z) i = (i <? w) && Z.testbit z i.
Proof.
  intros Hw Hi. unfold wrapu. destruct (Z.ltb_spec i w); cbn.
  - by rewrite Z.mod_pow2_bits_low.
  - rewrite Z.mod_pow2_bits_high by lia. done.
Qed.

Lemma mask_testbit (f : field) (i : Z) :
  field_ok 64 f = true -> 0 <= i ->
  Z.testbit (field_mask f) i = in_field f i.
Proof.
  intros Hf Hi. apply field_ok_bounds in Hf as (Hs & Hl & Hsl).
  unfold field_mask, MAKE_64BIT_MASK, in_field.
  rewrite wrapu_testbit, Z.shiftl_spec by lia.
  destruct (Z.leb_spec (field_shift f) i).
  - rewrite ones_shiftr by lia.
    destruct (Z.ltb_spec i 64), (Z.ltb_spec (i - field_shift f) (field_length f)),
      (Z.ltb_spec i (field_shift f + field_length f)); cbn; lia.
  - rewrite Z.testbit_neg_r by lia. by rewrite andb_false_r.
Qed.

Lemma field_mask_range (f : field) (w : Z) :
  0 <= w <= 64 -> field_ok w f = true -> in_range w (field_mask f).
Proof.
  intros Hw Hf. pose proof (field_ok_bounds _ _ Hf).
  apply in_range_testbit; [lia|]. split.
  - intros i Hi. rewrite mask_testbit; [|unfold field_ok in *; lia|lia].
    unfold in_field. lia.
  - apply Z.mod_pos_bound. lia.
Qed.

Lemma extract32_testbit (v s l i : Z) :
  0 <= s -> 0 < l <= 32 - s -> 0 <= i ->
  Z.testbit (extract32 v s l) i = (i <? l) && Z.testbit v (i + s).
Proof.
  intros Hs Hl Hi. unfold extract32.
  rewrite Z.land_spec, ones_shiftr, Z.shiftr_spec by lia. apply andb_comm.
Qed.

Lemma extract32_div (v s l : Z) :
  0 <= s -> 0 < l <= 32 - s -> extract32 v s l = (v / 2 ^ s) mod 2 ^ l.
Proof.
  intros Hs Hl. apply Z.bits_inj'. intros i Hi.
  rewrite extract32_testbit by lia. fold (wrapu l (v / 2 ^ s)).
  rewrite wrapu_testbit by lia. f_equal.
  rewrite <- Z.shiftr_div_pow2, Z.shiftr_spec by lia. done.
Qed.

Lemma FIELD_EX16_testbit (v i : Z) (f : field) :
  field_ok 16 f = true -> 0 <= i ->
  Z.testbit (FIELD_EX16 v f) i = (i <? field_length f) && Z.testbit v (i + field_shift f).
Proof.
  intros Hf Hi. apply field_ok_bounds in Hf. unfold FIELD_EX16, extract16.
  rewrite wrapu_testbit, extract32_testbit, wrapu_testbit by lia.
  destruct (Z.ltb_spec i (field_length f)); [|by rewrite andb_false_r].
  destruct (Z.ltb_spec i 16), (Z.ltb_spec (i + field_shift f) 16); cbn; done || lia.
Qed.

Lemma FIELD_EX32_testbit (v i : Z) (f : field) :
  field_ok 32 f = true -> 0 <= i ->
  Z.testbit (FIELD_EX32 v f) i = (i <? field_length f) && Z.testbit v (i + field_shift f).
Proof.
  intros Hf Hi. apply field_ok_bounds in Hf. unfold FIELD_EX32.
  rewrite extract32_testbit, wrapu_testbit by lia.
  destruct (Z.ltb_spec i (field_length f)); cbn; [|done].
  destruct (Z.ltb_spec (i + field_shift f) 32); cbn; done || lia.
Qed.

Lemma FIELD_EX32_div (v : Z) (f : field) :
  field_ok 32 f = true -> FIELD_EX32 v f = v / 2 ^ field_shift f mod 2 ^ field_length f.
Proof.
  intros Hf. pose proof (field_ok_bounds _ _ Hf) as (Hs & Hl & _). apply Z.bits_inj'. intros i Hi.
  rewrite FIELD_EX32_testbit by done. fold (wrapu (field_length f) (v / 2 ^ field_shift f)).
  rewrite wrapu_testbit, Z.div_pow2_bits by lia. done.
Qed.

Lemma deposit32_testbit (v s l x i : Z) :
  0 <= s -> 0 < l <= 32 - s -> in_range 32 v -> 0 <= i ->
  Z.testbit (deposit32 v s l x) i =
    if (s <=? i) && (i <? s + l) then Z.testbit x (i - s) else Z.testbit v i.
Proof.
  intros Hs Hl Hv Hi. unfold deposit32.
  assert (Hm : Z.testbit (u32 ((u32 (.~ 0) .>> (32 - l)) .<< s)) i
               = (s <=? i) && (i <? s + l)).
  { rewrite wrapu_testbit, Z.shiftl_spec by lia.
    destruct (Z.leb_spec s i).
    - rewrite ones_shiftr by lia.
      destruct (Z.ltb_spec i 32), (Z.ltb_spec (i - s) l), (Z.ltb_spec i (s + l)); cbn; lia.
    - rewrite Z.testbit_neg_r by lia. by rewrite andb_false_r. }
  rewrite Z.lor_spec, !Z.land_spec, (wrapu_testbit 32 (.~ _)), Z.lnot_spec by lia.
  rewrite (wrapu_testbit 32 (x .<< s)), Z.shiftl_spec, !Hm by lia.
  destruct (Z.leb_spec s i), (Z.ltb_spec i (s + l)), (Z.ltb_spec i 32); cbn;
    rewrite ?andb_false_r, ?andb_true_r, ?orb_false_r; cbn; try done; try lia.
  all: apply in_range_testbit in Hv as [Hv _]; [|lia]; by rewrite Hv.
Qed.

Lemma FIELD_DP16_testbit (v x i : Z) (f : field) :
  field_ok 16 f = true -> in_range 16 v -> 0 <= i ->
  Z.testbit (FIELD_DP16 v f x) i =
    if in_field f i then Z.testbit x (i - field_shift f) else Z.testbit v i.
Proof.
  intros Hf Hv Hi. apply field_ok_bounds in Hf as (Hs & Hl & Hsl).
  assert (Hv32 : in_range 32 v) by (by eapply in_range_weaken; [|exact Hv]).
  unfold FIELD_DP16, in_field.
  rewrite wrapu_testbit, (wrapu_small 32 v), deposit32_testbit by (done || lia).
  destruct (Z.leb_spec (field_shift f) i), (Z.ltb_spec i (field_shift f + field_length f)); cbn.
  2-4: destruct (Z.ltb_spec i 16); cbn; [done|];
       apply in_range_testbit in Hv as [Hv _]; [|lia]; by rewrite Hv.
  rewrite wrapu_testbit by lia.
  destruct (Z.ltb_spec i 16), (Z.ltb_spec (i - field_shift f) (field_length f)); cbn; done || lia.
Qed.

(** Reading back a deposited field gives the value cut to the field. *)
Lemma FIELD_EX_DP16 (v x : Z) (f : field) :
  field_ok 16 f = true -> in_range 16 v ->
  FIELD_EX16 (FIELD_DP16 v f x) f = wrapu (field_length f) x.
Proof.
  intros Hf Hv. pose proof (field_ok_bounds _ _ Hf) as (Hs & Hl & Hsl).
  apply Z.bits_inj'. intros i Hi.
  rewrite FIELD_EX16_testbit, FIELD_DP16_testbit, wrapu_testbit by (done || lia).
  unfold in_field. destruct (Z.ltb_spec i (field_length f)); cbn; [|done].
  destruct (Z.leb_spec (field_shift f) (i + field_shift f)),
    (Z.ltb_spec (i + field_shift f) (field_shift f + field_length f)); cbn; try lia.
  f_equal. lia.
Qed.

Lemma FIELD_DP16_range (v x : Z) (f : field) : in_range 16 (FIELD_DP16 v f x).
Proof. by apply in_range_wrapu. Qed.

Lemma u16_FIELD_DP16 (v x : Z) (f : field) : u16 (FIELD_DP16 v f x) = FIELD_DP16 v f x.
Proof. apply wrapu_idem. Qed.

Lemma FIELD_EX16_range (v : Z) (f : field) :
  field_ok 16 f = true -> in_range (field_length f) (FIELD_EX16 v f).
Proof.
  intros Hf. pose proof (field_ok_bounds _ _ Hf) as (Hs & Hl & Hsl).
  apply in_range_testbit; [lia|]. split.
  - intros i Hi. rewrite FIELD_EX16_testbit by (done || lia).
    destruct (Z.ltb_spec i (field_length f)); [lia|done].
  - by apply (in_range_wrapu 16).
Qed.

Lemma FIELD_EX32_range (v : Z) (f : field) :
  field_ok 32 f = true -> in_range (field_length f) (FIELD_EX32 v f).
Proof.
  intros Hf. pose proof (field_ok_bounds _ _ Hf) as (Hs & Hl & Hsl).
  apply in_range_testbit; [lia|]. split.
  - intros i Hi. rewrite FIELD_EX32_testbit by (done || lia).
    destruct (Z.ltb_spec i (field_length f)); [lia|done].
  - unfold FIELD_EX32, extract32. apply Z.land_nonneg. left.
    apply Z.shiftr_nonneg. by apply (in_range_wrapu 32).
Qed.

(** ** One-bit flags *)

Definition flag (shift : Z) : field := FIELD shift 1.

Lemma in_field_flag (n i : Z) : in_field (flag n) i = (i =? n).
Proof. unfold in_field, flag; cbn. lia. Qed.

Lemma truthy_testbit (x : Z) : truthy x = true <-> exists i, 0 <= i /\ Z.testbit x i = true.
Proof.
  unfold truthy. rewrite negb_true_iff, Z.eqb_neq. split.
  - intros Hx. destruct (Z.eq_dec x 0) as [|_]; [done|].
    destruct (Z.lt_ge_cases x 0) as [Hn|Hp].
    + destruct (Z.bits_iff_neg_ex x) as [Hex _].
      destruct (Hex Hn) as [k Hk]. exists (Z.max 0 (k + 1)). split; [lia|]. apply Hk. lia.
    + exists (Z.log2 x). split; [apply Z.log2_nonneg|]. apply Z.bit_log2. lia.
  - intros (i & Hi & Hb) ->. by rewrite Z.bits_0 in Hb.
Qed.

(** [x & R_..._MASK] as a condition is the flag's bit. *)
Lemma truthy_flag (x n : Z) :
  0 <= n < 64 -> truthy (x .& field_mask (flag n)) = Z.testbit x n.
Proof.
  intros Hn. apply eq_bool_prop_intro. rewrite !Is_true_true, truthy_testbit. split.
  - intros (i & Hi & Hb). rewrite Z.land_spec, mask_testbit, in_field_flag in Hb
      by (unfold field_ok; cbn; lia).
    apply andb_true_iff in Hb as [Hb Hin]. apply Z.eqb_eq in Hin. by subst.
  - intros Hb. exists n. split; [lia|].
    rewrite Z.land_spec, mask_testbit, in_field_flag, Hb by (unfold field_ok; cbn; lia).
    by rewrite Z.eqb_refl.
Qed.

(** [FIELD_EX32] of a one-bit field is the flag's bit. *)
Lemma FIELD_EX32_flag (x n : Z) :
  0 <= n < 32 -> FIELD_EX32 x (flag n) = Z.b2z (Z.testbit x n).
Proof.
  intros Hn. apply Z.bits_inj'. intros i Hi.
  rewrite FIELD_EX32_testbit by (unfold field_ok; cbn; lia). cbn.
  destruct (Z.ltb_spec i 1).
  - replace i with 0 by lia. cbn -[Z.testbit]. rewrite Z.b2z_bit0. done.
  - cbn. destruct (Z.testbit x n); cbn; [|by rewrite Z.bits_0].
    rewrite Z.bits_above_log2; [done|lia|cbn; lia].
Qed.

Lemma truthy_b2z (b : bool) : truthy (Z.b2z b) = b.
Proof. by destruct b. Qed.

(** Setting and clearing the masked bits. *)
Lemma set_mask_testbit (x n i : Z) :
  0 <= n < 64 -> 0 <= i ->
  Z.testbit (x .| field_mask (flag n)) i = (i =? n) || Z.testbit x i.
Proof.
  intros Hn Hi. rewrite Z.lor_spec, mask_testbit, in_field_flag by (unfold field_ok; cbn; lia).
  apply orb_comm.
Qed.

Lemma clear_mask_testbit (x n i : Z) :
  0 <= n < 64 -> 0 <= i ->
  Z.testbit (x .& .~ field_mask (flag n)) i = negb (i =? n) && Z.testbit x i.
Proof.
  intros Hn Hi. rewrite Z.land_spec, Z.lnot_spec, mask_testbit, in_field_flag
    by (unfold field_ok; cbn; lia).
  apply andb_comm.
Qed.
