(* ===== verification/Interfaces.v ===== *)
(** * What a device model uses of the rest of the emulator

    A device reaches the rest of the machine through the physical address
    space and through its interrupt lines.  The device files are written
    against these classes; [Soc.v] gives the board's instance and discharges
    the laws. *)

From S2P Require Import Prelude.

(** The operations a bus-mastering device calls: [cpu_physical_memory_read],
    [cpu_physical_memory_write] and [qemu_set_irq] on its own output lines.
    An access may run another device's register handler, so it can change the
    environment and can fault. *)
Class DmaEnv (E : Type) := {
  bus_read : Z -> nat -> E -> res (list Z * E);
  bus_write : Z -> list Z -> E -> res E;
  qemu_set_irq : nat -> bool -> E -> E
}.

(** The laws of the memory behind the bus: which addresses are backed by
    readable and by writable host memory, and how accesses act there. *)
Class DmaEnvLaws (E : Type) `{DmaEnv E} := {
  readable : Z -> bool;
  writable : Z -> bool;
  byte_at : E -> Z -> Z;
  irq_level : E -> nat -> bool;

  writable_readable (a : Z) : writable a = true -> readable a = true;

  bus_read_mem (a : Z) (n : nat) (e : E) :
    (forall x, a <= x < a + Z.of_nat n -> readable x = true) ->
    bus_read a n e = Ok (byte_at e <$> seqZ a (Z.of_nat n), e);

  bus_write_mem (a : Z) (bs : list Z) (e : E) :
    (forall x, a <= x < a + Z.of_nat (length bs) -> writable x = true) ->
    (forall b, b ∈ bs -> in_range 8 b) ->
    exists e', bus_write a bs e = Ok e' /\
      (forall x, byte_at e' x =
         if (a <=? x) && (x <? a + Z.of_nat (length bs))
         then nth (Z.to_nat (x - a)) bs 0 else byte_at e x);

  byte_at_range (e : E) (a : Z) : in_range 8 (byte_at e a);

  set_irq_bytes (n : nat) (b : bool) (e : E) (a : Z) :
    byte_at (qemu_set_irq n b e) a = byte_at e a;

  set_irq_level (n : nat) (b : bool) (e : E) (m : nat) :
    irq_level (qemu_set_irq n b e) m = if decide (m = n) then b else irq_level e m;

  bus_read_irq (a : Z) (n : nat) (e e' : E) (bs : list Z) (m : nat) :
    bus_read a n e = Ok (bs, e') -> irq_level e' m = irq_level e m;

  bus_read_length (a : Z) (n : nat) (e e' : E) (bs : list Z) :
    bus_read a n e = Ok (bs, e') ->
    length bs = n /\ (forall b, b ∈ bs -> in_range 8 b);

  bus_write_irq (a : Z) (bs : list Z) (e e' : E) (m : nat) :
    bus_write a bs e = Ok e' -> irq_level e' m = irq_level e m
}.

(** ** Memory effects seen through [byte_at] *)

Section Effects.
Context {E : Type} {Env : DmaEnv E} {Laws : DmaEnvLaws E}.

(** [e'] is [e] with the [len] bytes at [src] copied to [dst]. *)
Definition copied (src dst len : Z) (e e' : E) : Prop :=
  forall x, byte_at e' x =
    if (dst <=? x) && (x <? dst + len) then byte_at e (src + (x - dst)) else byte_at e x.

(** The ranges [a, a+n) and [b, b+n) have no address in common. *)
Definition disjoint_ranges (a b n : Z) : Prop := a + n <= b \/ b + n <= a.

Lemma copied_0 (src dst : Z) (e : E) : copied src dst 0 e e.
Proof. intros x. destruct (Z.leb_spec dst x), (Z.ltb_spec x (dst + 0)); cbn; done || lia. Qed.

Lemma copied_ext (src dst len : Z) (e e1 e2 : E) :
  copied src dst len e e1 -> (forall x, byte_at e2 x = byte_at e1 x) -> copied src dst len e e2.
Proof. intros Hc Hx x. rewrite Hx. apply Hc. Qed.

(** Two adjacent copies are one copy, when the source is not overwritten. *)
Lemma copied_app (src dst n m : Z) (e e1 e2 : E) :
  0 <= n -> 0 <= m -> disjoint_ranges src dst (n + m) ->
  copied src dst n e e1 -> copied (src + n) (dst + n) m e1 e2 ->
  copied src dst (n + m) e e2.
Proof.
  intros Hn Hm Hd H1 H2 x. rewrite H2, !H1. unfold disjoint_ranges in Hd.
  destruct (Z.leb_spec (dst + n) x), (Z.ltb_spec x (dst + n + m)), (Z.leb_spec dst x),
    (Z.ltb_spec x (dst + (n + m))), (Z.ltb_spec x (dst + n)); cbn; try lia; try done.
  destruct (Z.leb_spec dst (src + n + (x - (dst + n)))),
    (Z.ltb_spec (src + n + (x - (dst + n))) (dst + n)); cbn; try lia; f_equal; lia.
Qed.

End Effects.

(** ** A flat environment

    One byte-addressed memory and a level per line: the smallest environment
    that obeys the laws, used to evaluate the models on concrete inputs. *)

Record flat_env : Type := mkFlat { fe_mem : gmap Z Z; fe_irq : gmap nat bool }.

Definition flat_byte (e : flat_env) (a : Z) : Z := u8 (default 0 (fe_mem e !! a)).

Fixpoint flat_store (a : Z) (bs : list Z) (m : gmap Z Z) : gmap Z Z :=
  match bs with
  | [] => m
  | b :: bs => flat_store (a + 1) bs (<[a := b]> m)
  end.

#[export] Instance flat_dma_env : DmaEnv flat_env := {
  bus_read a n e := Ok (flat_byte e <$> seqZ a (Z.of_nat n), e);
  bus_write a bs e := Ok (mkFlat (flat_store a bs (fe_mem e)) (fe_irq e));
  qemu_set_irq n b e := mkFlat (fe_mem e) (<[n := b]> (fe_irq e))
}.

Lemma flat_store_lookup (bs : list Z) (a x : Z) (m : gmap Z Z) :
  flat_store a bs m !! x =
    if (a <=? x) && (x <? a + Z.of_nat (length bs))
    then Some (nth (Z.to_nat (x - a)) bs 0) else m !! x.
Proof.
  revert a m. induction bs as [|b bs IH]; intros a m; cbn [flat_store length].
  - destruct (Z.leb_spec a x), (Z.ltb_spec x (a + Z.of_nat 0)); cbn; done || lia.
  - rewrite IH. destruct (decide (x = a)) as [->|Hne].
    + rewrite lookup_insert_eq, Z.sub_diag.
      destruct (Z.leb_spec (a + 1) a), (Z.leb_spec a a),
        (Z.ltb_spec a (a + Z.of_nat (S (length bs)))); cbn; done || lia.
    + rewrite lookup_insert_ne by done.
      destruct (Z.leb_spec (a + 1) x), (Z.ltb_spec x (a + 1 + Z.of_nat (length bs))),
        (Z.leb_spec a x), (Z.ltb_spec x (a + Z.of_nat (S (length bs)))); cbn -[nth]; try done; try lia.
      replace (Z.to_nat (x - a)) with (S (Z.to_nat (x - (a + 1)))) by lia. done.
Qed.

#[export] Program Instance flat_dma_laws : DmaEnvLaws flat_env := {
  readable _ := true;
  writable _ := true;
  byte_at := flat_byte;
  irq_level e n := default false (fe_irq e !! n)
}.
Next Obligation. done. Qed.
Next Obligation. done. Qed.
Next Obligation.
  intros a bs e _ Hb. eexists. split; [done|]. intros x. unfold flat_byte; cbn.
  rewrite flat_store_lookup. destruct (_ && _) eqn:Hx; [|done]. cbn.
  apply wrapu_small, Hb, list_elem_of_In, nth_In. lia.
Qed.
Next Obligation. intros. by apply in_range_wrapu. Qed.
Next Obligation. done. Qed.
Next Obligation.
  intros n b e m; cbn. case_decide; [subst; by rewrite lookup_insert_eq|].
  by rewrite lookup_insert_ne.
Qed.
Next Obligation. intros a n e e' bs m [= <- <-]. done. Qed.
Next Obligation.
  intros a n e e' bs [= <- <-]. rewrite length_fmap, length_seqZ, Nat2Z.id. split; [done|].
  intros b (x & -> & _)%list_elem_of_fmap. by apply in_range_wrapu.
Qed.
Next Obligation. intros a bs e e' m [= <-]. done. Qed.
