(* ===== verification/Edma.v ===== *)
(** * The eDMA controller

    [qemu/hw/dma/nxps32k358_edma.c] with the registers of
    [qemu/include/hw/dma/nxps32k358_edma.h] and
    [qemu/include/hw/dma/nxps32k358_tcd.h]. *)

From S2P Require Import Prelude Bits Interfaces.

(** ** Registers of a channel ([nxps32k358_tcd.h]) *)

Definition A_CH_CSR : Z := 0x0.
Definition CH_CSR_EEI : field := FIELD 2 1.
Definition CH_CSR_DONE : field := FIELD 30 1.
Definition CH_CSR_ACTIVE : field := FIELD 31 1.
Definition A_CH_ES : Z := 0x4.
Definition CH_ES_ERR : field := FIELD 31 1.
Definition A_CH_INT : Z := 0x8.
Definition CH_INT_INT : field := FIELD 0 1.
Definition A_CH_SBR : Z := 0xC.
Definition A_CH_PRI : Z := 0x10.
Definition A_TCD_SADDR : Z := 0x20.
Definition A_TCD_SOFF : Z := 0x24.
Definition A_TCD_ATTR : Z := 0x26.
Definition TCD_ATTR_SSIZE : field := FIELD 8 3.
Definition TCD_ATTR_DSIZE : field := FIELD 0 3.
Definition A_TCD_NBYTES_MLOFF : Z := 0x28.
Definition TCD_NBYTES_MLOFF_NBYTES : field := FIELD 0 30.
Definition TCD_NBYTES_MLOFF_DMLOE : field := FIELD 30 1.
Definition TCD_NBYTES_MLOFF_SMLOE : field := FIELD 31 1.
Definition A_TCD_SLAST_SDA : Z := 0x2C.
Definition TCD_SLAST_SDA_SLAST_SDA : field := FIELD 0 32.
Definition A_TCD_DADDR : Z := 0x30.
Definition A_TCD_DOFF : Z := 0x34.
Definition A_TCD_CITER : Z := 0x36.
Definition TCD_CITER_ELINK : field := FIELD 15 1.
Definition TCD_CITER_CITER : field := FIELD 0 15.
Definition A_TCD_DLAST_SGA : Z := 0x38.
Definition TCD_DLAST_SGA_DLAST_SGA : field := FIELD 0 32.
Definition A_TCD_CSR : Z := 0x3C.
Definition TCD_CSR_START : field := FIELD 0 1.
Definition TCD_CSR_INTMAJOR : field := FIELD 1 1.
Definition TCD_CSR_INTHALF : field := FIELD 2 1.
Definition TCD_CSR_ESG : field := FIELD 4 1.
Definition TCD_CSR_ESDA : field := FIELD 7 1.
Definition TCD_CSR_MAJORELINK : field := FIELD 5 1.
Definition A_TCD_BITER : Z := 0x3E.
Definition TCD_BITER_ELINK : field := FIELD 15 1.
Definition TCD_BITER_BITER : field := FIELD 0 15.

(** [struct NXPS32K358EDMATCDState], less its output line, which belongs to
    the environment. [tcd_soff] is an [int16_t], [tcd_doff] a [uint16_t]. *)
Record NXPS32K358EDMATCDState : Set := mkTCD {
  ch_csr : Z;
  ch_es : Z;
  ch_int : Z;
  ch_sbr : Z;
  ch_pri : Z;
  tcd_saddr : Z;
  tcd_soff : Z;
  tcd_attr : Z;
  tcd_nbytes_mloff : Z;
  tcd_slast_sda : Z;
  tcd_daddr : Z;
  tcd_doff : Z;
  tcd_citer : Z;
  tcd_dlast_sga : Z;
  tcd_csr : Z;
  tcd_biter : Z
}.

(** Field assignments: the right-hand side is converted to the field's type. *)

Definition set_ch_csr (v : Z) (c : NXPS32K358EDMATCDState) : NXPS32K358EDMATCDState :=
  mkTCD (u32 v) (ch_es c) (ch_int c) (ch_sbr c) (ch_pri c) (tcd_saddr c)
    (tcd_soff c) (tcd_attr c) (tcd_nbytes_mloff c) (tcd_slast_sda c)
    (tcd_daddr c) (tcd_doff c) (tcd_citer c) (tcd_dlast_sga c) (tcd_csr c)
    (tcd_biter c).

Definition set_ch_es (v : Z) (c : NXPS32K358EDMATCDState) : NXPS32K358EDMATCDState :=
  mkTCD (ch_csr c) (u32 v) (ch_int c) (ch_sbr c) (ch_pri c) (tcd_saddr c)
    (tcd_soff c) (tcd_attr c) (tcd_nbytes_mloff c) (tcd_slast_sda c)
    (tcd_daddr c) (tcd_doff c) (tcd_citer c) (tcd_dlast_sga c) (tcd_csr c)
    (tcd_biter c).

Definition set_ch_int (v : Z) (c : NXPS32K358EDMATCDState) : NXPS32K358EDMATCDState :=
  mkTCD (ch_csr c) (ch_es c) (u32 v) (ch_sbr c) (ch_pri c) (tcd_saddr c)
    (tcd_soff c) (tcd_attr c) (tcd_nbytes_mloff c) (tcd_slast_sda c)
    (tcd_daddr c) (tcd_doff c) (tcd_citer c) (tcd_dlast_sga c) (tcd_csr c)
    (tcd_biter c).

Definition set_ch_sbr (v : Z) (c : NXPS32K358EDMATCDState) : NXPS32K358EDMATCDState :=
  mkTCD (ch_csr c) (ch_es c) (ch_int c) (u32 v) (ch_pri c) (tcd_saddr c)
    (tcd_soff c) (tcd_attr c) (tcd_nbytes_mloff c) (tcd_slast_sda c)
    (tcd_daddr c) (tcd_doff c) (tcd_citer c) (tcd_dlast_sga c) (tcd_csr c)
    (tcd_biter c).

Definition set_ch_pri (v : Z) (c : NXPS32K358EDMATCDState) : NXPS32K358EDMATCDState :=
  mkTCD (ch_csr c) (ch_es c) (ch_int c) (ch_sbr c) (u32 v) (tcd_saddr c)
    (tcd_soff c) (tcd_attr c) (tcd_nbytes_mloff c) (tcd_slast_sda c)
    (tcd_daddr c) (tcd_doff c) (tcd_citer c) (tcd_dlast_sga c) (tcd_csr c)
    (tcd_biter c).

Definition set_tcd_saddr (v : Z) (c : NXPS32K358EDMATCDState) : NXPS32K358EDMATCDState :=
  mkTCD (ch_csr c) (ch_es c) (ch_int c) (ch_sbr c) (ch_pri c) (u32 v)
    (tcd_soff c) (tcd_attr c) (tcd_nbytes_mloff c) (tcd_slast_sda c)
    (tcd_daddr c) (tcd_doff c) (tcd_citer c) (tcd_dlast_sga c) (tcd_csr c)
    (tcd_biter c).

Definition set_tcd_soff (v : Z) (c : NXPS32K358EDMATCDState) : NXPS32K358EDMATCDState :=
  mkTCD (ch_csr c) (ch_es c) (ch_int c) (ch_sbr c) (ch_pri c) (tcd_saddr c)
    (s16 v) (tcd_attr c) (tcd_nbytes_mloff c) (tcd_slast_sda c) (tcd_daddr c)
    (tcd_doff c) (tcd_citer c) (tcd_dlast_sga c) (tcd_csr c) (tcd_biter c).

Definition set_tcd_attr (v : Z) (c : NXPS32K358EDMATCDState) : NXPS32K358EDMATCDState :=
  mkTCD (ch_csr c) (ch_es c) (ch_int c) (ch_sbr c) (ch_pri c) (tcd_saddr c)
    (tcd_soff c) (u16 v) (tcd_nbytes_mloff c) (tcd_slast_sda c) (tcd_daddr c)
    (tcd_doff c) (tcd_citer c) (tcd_dlast_sga c) (tcd_csr c) (tcd_biter c).

Definition set_tcd_nbytes_mloff (v : Z) (c : NXPS32K358EDMATCDState) : NXPS32K358EDMATCDState :=
  mkTCD (ch_csr c) (ch_es c) (ch_int c) (ch_sbr c) (ch_pri c) (tcd_saddr c)
    (tcd_soff c) (tcd_attr c) (u32 v) (tcd_slast_sda c) (tcd_daddr c)
    (tcd_doff c) (tcd_citer c) (tcd_dlast_sga c) (tcd_csr c) (tcd_biter c).

Definition set_tcd_slast_sda (v : Z) (c : NXPS32K358EDMATCDState) : NXPS32K358EDMATCDState :=
  mkTCD (ch_csr c) (ch_es c) (ch_int c) (ch_sbr c) (ch_pri c) (tcd_saddr c)
    (tcd_soff c) (tcd_attr c) (tcd_nbytes_mloff c) (u32 v) (tcd_daddr c)
    (tcd_doff c) (tcd_citer c) (tcd_dlast_sga c) (tcd_csr c) (tcd_biter c).

Definition set_tcd_daddr (v : Z) (c : NXPS32K358EDMATCDState) : NXPS32K358EDMATCDState :=
  mkTCD (ch_csr c) (ch_es c) (ch_int c) (ch_sbr c) (ch_pri c) (tcd_saddr c)
    (tcd_soff c) (tcd_attr c) (tcd_nbytes_mloff c) (tcd_slast_sda c) (u32 v)
    (tcd_doff c) (tcd_citer c) (tcd_dlast_sga c) (tcd_csr c) (tcd_biter c).

Definition set_tcd_doff (v : Z) (c : NXPS32K358EDMATCDState) : NXPS32K358EDMATCDState :=
  mkTCD (ch_csr c) (ch_es c) (ch_int c) (ch_sbr c) (ch_pri c) (tcd_saddr c)
    (tcd_soff c) (tcd_attr c) (tcd_nbytes_mloff c) (tcd_slast_sda c)
    (tcd_daddr c) (u16 v) (tcd_citer c) (tcd_dlast_sga c) (tcd_csr c)
    (tcd_biter c).

Definition set_tcd_citer (v : Z) (c : NXPS32K358EDMATCDState) : NXPS32K358EDMATCDState :=
  mkTCD (ch_csr c) (ch_es c) (ch_int c) (ch_sbr c) (ch_pri c) (tcd_saddr c)
    (tcd_soff c) (tcd_attr c) (tcd_nbytes_mloff c) (tcd_slast_sda c)
    (tcd_daddr c) (tcd_doff c) (u16 v) (tcd_dlast_sga c) (tcd_csr c)
    (tcd_biter c).

Definition set_tcd_dlast_sga (v : Z) (c : NXPS32K358EDMATCDState) : NXPS32K358EDMATCDState :=
  mkTCD (ch_csr c) (ch_es c) (ch_int c) (ch_sbr c) (ch_pri c) (tcd_saddr c)
    (tcd_soff c) (tcd_attr c) (tcd_nbytes_mloff c) (tcd_slast_sda c)
    (tcd_daddr c) (tcd_doff c) (tcd_citer c) (u32 v) (tcd_csr c) (tcd_biter c).

Definition set_tcd_csr (v : Z) (c : NXPS32K358EDMATCDState) : NXPS32K358EDMATCDState :=
  mkTCD (ch_csr c) (ch_es c) (ch_int c) (ch_sbr c) (ch_pri c) (tcd_saddr c)
    (tcd_soff c) (tcd_attr c) (tcd_nbytes_mloff c) (tcd_slast_sda c)
    (tcd_daddr c) (tcd_doff c) (tcd_citer c) (tcd_dlast_sga c) (u16 v)
    (tcd_biter c).

Definition set_tcd_biter (v : Z) (c : NXPS32K358EDMATCDState) : NXPS32K358EDMATCDState :=
  mkTCD (ch_csr c) (ch_es c) (ch_int c) (ch_sbr c) (ch_pri c) (tcd_saddr c)
    (tcd_soff c) (tcd_attr c) (tcd_nbytes_mloff c) (tcd_slast_sda c)
    (tcd_daddr c) (tcd_doff c) (tcd_citer c) (tcd_dlast_sga c) (tcd_csr c)
    (u16 v).

(** ** The controller ([nxps32k358_edma.h]) *)

Definition A_EDMA_CSR : Z := 0x00.
Definition EDMA_CSR_EDBG : field := FIELD 1 1.
Definition EDMA_CSR_ERCA : field := FIELD 2 1.
Definition EDMA_CSR_HALT : field := FIELD 5 1.
Definition EDMA_CSR_ECX : field := FIELD 8 1.
Definition EDMA_CSR_CX : field := FIELD 9 1.
Definition EDMA_CSR_ACTIVE_ID : field := FIELD 24 5.
Definition EDMA_CSR_ACTIVE : field := FIELD 31 1.
Definition A_EDMA_ES : Z := 0x04.
Definition EDMA_ES_ECX : field := FIELD 8 1.
Definition EDMA_ES_ERRCHN : field := FIELD 24 5.
Definition EDMA_ES_VLD : field := FIELD 31 1.
Definition A_EDMA_INT : Z := 0x08.
Definition EDMA_INT_INT : field := FIELD 0 32.
Definition A_EDMA_HRS : Z := 0x0C.
Definition EDMA_HRS_HRS : field := FIELD 0 32.
Definition EDMA_CHN_GRPRI_BASE_ADDR : Z := 0x100.
Definition EDMA_CHN_GRPRI_NUM : Z := 32.
Definition A_EDMA_CHN_GRPRI (n : Z) : Z := u32 (EDMA_CHN_GRPRI_BASE_ADDR + 4 * n).
Definition EDMA_CSR_RESET : Z := 0x00300000.
Definition EDMA_ES_RESET : Z := 0x00000000.
Definition EDMA_INT_RESET : Z := 0x00000000.
Definition EDMA_HRS_RESET : Z := 0x00000000.
Definition EDMA_CHN_GRPRI_RESET : Z := 0x00000000.
Definition EDMA_CHANNELS : nat := 32.
Definition MAX_SIZE : nat := 64.

(** [struct NXPS32K358EDMAState]; [arb_offset] is the [static int offset] of
    [nxps32k358_edma_arbitrate], which outlives every call and every reset. *)
Record NXPS32K358EDMAState : Set := mkEDMA {
  edma_csr : Z;
  edma_es : Z;
  edma_int : Z;
  edma_hrs : Z;
  edma_chn_grpri : list Z;
  edma_tcd : list NXPS32K358EDMATCDState;
  arb_offset : nat
}.

Definition set_edma_csr (v : Z) (s : NXPS32K358EDMAState) : NXPS32K358EDMAState :=
  mkEDMA (u32 v) (edma_es s) (edma_int s) (edma_hrs s) (edma_chn_grpri s) (edma_tcd s)
    (arb_offset s).

Definition set_edma_es (v : Z) (s : NXPS32K358EDMAState) : NXPS32K358EDMAState :=
  mkEDMA (edma_csr s) (u32 v) (edma_int s) (edma_hrs s) (edma_chn_grpri s) (edma_tcd s)
    (arb_offset s).

Definition set_edma_int (v : Z) (s : NXPS32K358EDMAState) : NXPS32K358EDMAState :=
  mkEDMA (edma_csr s) (edma_es s) (u32 v) (edma_hrs s) (edma_chn_grpri s) (edma_tcd s)
    (arb_offset s).

Definition set_edma_hrs (v : Z) (s : NXPS32K358EDMAState) : NXPS32K358EDMAState :=
  mkEDMA (edma_csr s) (edma_es s) (edma_int s) (u32 v) (edma_chn_grpri s) (edma_tcd s)
    (arb_offset s).

Definition set_edma_chn_grpri (n : nat) (v : Z) (s : NXPS32K358EDMAState) : NXPS32K358EDMAState :=
  mkEDMA (edma_csr s) (edma_es s) (edma_int s) (edma_hrs s)
    (<[n := u32 v]> (edma_chn_grpri s)) (edma_tcd s) (arb_offset s).

Definition set_arb_offset (n : nat) (s : NXPS32K358EDMAState) : NXPS32K358EDMAState :=
  mkEDMA (edma_csr s) (edma_es s) (edma_int s) (edma_hrs s) (edma_chn_grpri s) (edma_tcd s) n.

(** [s->tcd[c]], read and written through the pointer [ch]. *)
Definition get_tcd (s : NXPS32K358EDMAState) (c : nat) : res NXPS32K358EDMATCDState :=
  match edma_tcd s !! c with Some ch => Ok ch | None => Fault ArrayOutOfBounds end.

Definition put_tcd (c : nat) (ch : NXPS32K358EDMATCDState) (s : NXPS32K358EDMAState)
  : NXPS32K358EDMAState :=
  mkEDMA (edma_csr s) (edma_es s) (edma_int s) (edma_hrs s) (edma_chn_grpri s)
    (<[c := ch]> (edma_tcd s)) (arb_offset s).

Definition get_grpri (s : NXPS32K358EDMAState) (n : nat) : res Z :=
  match edma_chn_grpri s !! n with Some v => Ok v | None => Fault ArrayOutOfBounds end.

(** Little-endian loads, as [memcpy] into a struct performs them on the host. *)
Definition le16 (b0 b1 : Z) : Z := b0 .| (b1 .<< 8).

Definition le32 (b0 b1 b2 b3 : Z) : Z := le16 b0 b1 .| (le16 b2 b3 .<< 16).

(** [memcpy(&ch->tcd_saddr, next_tcd_data, 32)]: the eleven fields from
    [tcd_saddr] on occupy 32 bytes without padding. *)
Definition load_tcd (d : list Z) (c : NXPS32K358EDMATCDState) : NXPS32K358EDMATCDState :=
  let b i := nth i d 0 in
  mkTCD (ch_csr c) (ch_es c) (ch_int c) (ch_sbr c) (ch_pri c)
    (le32 (b 0%nat) (b 1%nat) (b 2%nat) (b 3%nat))
    (s16 (le16 (b 4%nat) (b 5%nat)))
    (le16 (b 6%nat) (b 7%nat))
    (le32 (b 8%nat) (b 9%nat) (b 10%nat) (b 11%nat))
    (le32 (b 12%nat) (b 13%nat) (b 14%nat) (b 15%nat))
    (le32 (b 16%nat) (b 17%nat) (b 18%nat) (b 19%nat))
    (le16 (b 20%nat) (b 21%nat))
    (le16 (b 22%nat) (b 23%nat))
    (le32 (b 24%nat) (b 25%nat) (b 26%nat) (b 27%nat))
    (le16 (b 28%nat) (b 29%nat))
    (le16 (b 30%nat) (b 31%nat)).

Section Edma.
Context {E : Type} {Env : DmaEnv E}.

(** [nxps32k358_edma_tcd_update_irq] *)
Definition nxps32k358_edma_tcd_update_irq (tcd_no : nat) (s : NXPS32K358EDMAState) (e : E)
  : res (NXPS32K358EDMAState * E) :=
  ch ← get_tcd s tcd_no;
  let ch :=
    if truthy (FIELD_EX32 (tcd_csr ch) TCD_CSR_INTHALF) &&
       (FIELD_EX16 (tcd_citer ch) TCD_CITER_CITER >=?
          FIELD_EX16 (tcd_biter ch) TCD_BITER_BITER / 2)
    then set_ch_int (ch_int ch .| field_mask CH_INT_INT) ch else ch in
  let ch :=
    if truthy (FIELD_EX32 (tcd_csr ch) TCD_CSR_INTMAJOR) &&
       (FIELD_EX16 (tcd_citer ch) TCD_CITER_CITER =? 0)
    then set_ch_int (ch_int ch .| field_mask CH_INT_INT) ch else ch in
  let s := put_tcd tcd_no ch s in
  if truthy (ch_int ch .& field_mask CH_INT_INT) then
    Ok (set_edma_int (edma_int s .| (1 .<< Z.of_nat tcd_no)) s, qemu_set_irq tcd_no true e)
  else
    Ok (set_edma_int (edma_int s .& .~ (1 .<< Z.of_nat tcd_no)) s, qemu_set_irq tcd_no false e).

(** The inner [for] loops of [nxps32k358_edma_transmit]: [n] reads of [ssize]
    bytes to the start of [buf], and [n] writes of its first [dsize] bytes. *)
Fixpoint transmit_reads (n : nat) (ssize : nat) (soff : Z) (saddr : Z) (buf : list Z) (e : E)
  : res (Z * list Z * E) :=
  match n with
  | O => Ok (saddr, buf, e)
  | S n =>
      '(bs, e) ← bus_read saddr ssize e;
      transmit_reads n ssize soff (u32 (saddr + soff)) (bs ++ drop ssize buf) e
  end.

Fixpoint transmit_writes (n : nat) (dsize : nat) (doff : Z) (daddr : Z) (buf : list Z) (e : E)
  : res (Z * E) :=
  match n with
  | O => Ok (daddr, e)
  | S n =>
      e ← bus_write daddr (take dsize buf) e;
      transmit_writes n dsize doff (u32 (daddr + doff)) buf e
  end.

(** The minor loop: [nbytes / max_size] rounds. *)
Fixpoint transmit_minor (n : nat) (nr nw : nat) (ssize dsize : nat) (soff doff : Z)
    (saddr daddr : Z) (buf : list Z) (e : E) : res (Z * Z * list Z * E) :=
  match n with
  | O => Ok (saddr, daddr, buf, e)
  | S n =>
      '(saddr, buf, e) ← transmit_reads nr ssize soff saddr buf e;
      '(daddr, e) ← transmit_writes nw dsize doff daddr buf e;
      transmit_minor n nr nw ssize dsize soff doff saddr daddr buf e
  end.

(** The part of [nxps32k358_edma_transmit] under "Major loop completed". *)
Definition transmit_major_done (tcd_no : nat) (s : NXPS32K358EDMAState) (e : E)
  : res (NXPS32K358EDMAState * E) :=
  ch ← get_tcd s tcd_no;
  let esda := u8 (FIELD_EX32 (tcd_csr ch) TCD_CSR_ESDA) in
  ch ← (if truthy esda then Fault WildHostPointer
        else Ok (set_tcd_saddr (tcd_saddr ch
                   + FIELD_EX32 (tcd_slast_sda ch) TCD_SLAST_SDA_SLAST_SDA) ch));
  let esg := u8 (FIELD_EX32 (tcd_csr ch) TCD_CSR_ESG) in
  '(ch, e) ← (if truthy esg then
                let dlast_sga := FIELD_EX32 (tcd_dlast_sga ch) TCD_DLAST_SGA_DLAST_SGA in
                '(next_tcd_data, e) ← bus_read dlast_sga 32 e;
                Ok (load_tcd next_tcd_data ch, e)
              else
                Ok (set_tcd_daddr (tcd_daddr ch
                      + FIELD_EX32 (tcd_dlast_sga ch) TCD_DLAST_SGA_DLAST_SGA) ch, e));
  let ch := set_tcd_citer (FIELD_DP16 (tcd_citer ch) TCD_CITER_CITER
                             (FIELD_EX16 (tcd_biter ch) TCD_BITER_BITER)) ch in
  let ch := set_ch_csr (ch_csr ch .| field_mask CH_CSR_DONE) ch in
  let ch := set_ch_int (ch_int ch .| field_mask CH_INT_INT) ch in
  Ok (put_tcd tcd_no ch s, e).

(** [nxps32k358_edma_transmit]; [buf] is the uninitialised stack buffer. *)
Definition nxps32k358_edma_transmit (buf : list Z) (tcd_no : nat) (s : NXPS32K358EDMAState) (e : E)
  : res (NXPS32K358EDMAState * E) :=
  ch ← get_tcd s tcd_no;
  let ssize := FIELD_EX16 (tcd_attr ch) TCD_ATTR_SSIZE in
  let dsize := FIELD_EX16 (tcd_attr ch) TCD_ATTR_DSIZE in
  _ ← c_assert (negb (ssize =? 7));
  _ ← c_assert (negb (dsize =? 7));
  let ssize := u32 (1 .<< ssize) in
  let dsize := u32 (1 .<< dsize) in
  let nbytes := FIELD_EX32 (tcd_nbytes_mloff ch) TCD_NBYTES_MLOFF_NBYTES in
  let max_size := if ssize >? dsize then ssize else dsize in
  '(s, e) ←
    (if FIELD_EX16 (tcd_citer ch) TCD_CITER_CITER >? 0 then
       '(saddr, daddr, _, e) ←
         transmit_minor (Z.to_nat (nbytes / max_size))
           (Z.to_nat (max_size / ssize)) (Z.to_nat (max_size / dsize))
           (Z.to_nat ssize) (Z.to_nat dsize) (tcd_soff ch) (tcd_doff ch)
           (tcd_saddr ch) (tcd_daddr ch) buf e;
       let ch := set_tcd_saddr saddr ch in
       let ch := set_tcd_daddr daddr ch in
       let next_citer := u32 (FIELD_EX16 (tcd_citer ch) TCD_CITER_CITER - 1) in
       let ch := set_tcd_citer (FIELD_DP16 (tcd_citer ch) TCD_CITER_CITER next_citer) ch in
       let ch := set_ch_csr (ch_csr ch .& .~ field_mask CH_CSR_ACTIVE) ch in
       nxps32k358_edma_tcd_update_irq tcd_no (put_tcd tcd_no ch s) e
     else Ok (s, e));
  ch ← get_tcd s tcd_no;
  if FIELD_EX16 (tcd_citer ch) TCD_CITER_CITER =? 0
  then transmit_major_done tcd_no s e
  else Ok (s, e).

(** [nxps32k358_edma_arbitrate]: the body of the [if] for a channel [j] that
    requests service, and the [for] loop with [k] rounds left, at [i]. *)
Definition arbitrate_service (buf : list Z) (j : nat) (s : NXPS32K358EDMAState) (e : E)
  : res (NXPS32K358EDMAState * E) :=
  ch ← get_tcd s j;
  let ch := set_ch_csr (ch_csr ch .& .~ field_mask CH_CSR_DONE) ch in
  let ch := set_tcd_csr (tcd_csr ch .& .~ field_mask TCD_CSR_START) ch in
  let ch := set_ch_csr (ch_csr ch .| field_mask CH_CSR_ACTIVE) ch in
  '(s, e) ← nxps32k358_edma_transmit buf j (put_tcd j ch s) e;
  Ok (set_arb_offset ((j + 1) mod EDMA_CHANNELS)%nat s, e).

Fixpoint arbitrate_loop (k : nat) (i : nat) (buf : list Z) (s : NXPS32K358EDMAState) (e : E)
  : res (NXPS32K358EDMAState * E) :=
  match k with
  | O => Ok (s, e)
  | S k =>
      let j := ((i + arb_offset s) mod EDMA_CHANNELS)%nat in
      ch ← get_tcd s j;
      if truthy (tcd_csr ch .& field_mask TCD_CSR_START)
      then arbitrate_service buf j s e
      else arbitrate_loop k (S i) buf s e
  end.

Definition nxps32k358_edma_arbitrate (buf : list Z) (s : NXPS32K358EDMAState) (e : E)
  : res (NXPS32K358EDMAState * E) :=
  arbitrate_loop EDMA_CHANNELS 0 buf s e.

(** [nxps32k358_edma_tcd_read]: the [switch], and the handler. *)
Definition tcd_read_reg (offset : Z) (ch : NXPS32K358EDMATCDState) : Z :=
  u32 (if offset =? A_CH_CSR then ch_csr ch
       else if offset =? A_CH_ES then ch_es ch
       else if offset =? A_CH_INT then ch_int ch
       else if offset =? A_CH_SBR then ch_sbr ch
       else if offset =? A_CH_PRI then ch_pri ch
       else if offset =? A_TCD_SADDR then tcd_saddr ch
       else if offset =? A_TCD_SOFF then tcd_soff ch
       else if offset =? A_TCD_ATTR then tcd_attr ch
       else if offset =? A_TCD_NBYTES_MLOFF then tcd_nbytes_mloff ch
       else if offset =? A_TCD_SLAST_SDA then tcd_slast_sda ch
       else if offset =? A_TCD_DADDR then tcd_daddr ch
       else if offset =? A_TCD_DOFF then tcd_doff ch
       else if offset =? A_TCD_CITER then tcd_citer ch
       else if offset =? A_TCD_DLAST_SGA then tcd_dlast_sga ch
       else if offset =? A_TCD_CSR then tcd_csr ch
       else if offset =? A_TCD_BITER then tcd_biter ch
       else 0).

Definition nxps32k358_edma_tcd_read (offset size : Z) (c : nat) (s : NXPS32K358EDMAState) : res Z :=
  ch ← get_tcd s c;
  Ok (tcd_read_reg offset ch).

(** [nxps32k358_edma_tcd_write] *)
Definition nxps32k358_edma_tcd_write (buf : list Z) (offset value size : Z) (c : nat)
    (s : NXPS32K358EDMAState) (e : E) : res (NXPS32K358EDMAState * E) :=
  ch ← get_tcd s c;
  let put ch := Ok (put_tcd c ch s, e) in
  if offset =? A_CH_CSR then
    let ch := set_ch_csr (ch_csr ch .& .~ field_mask CH_CSR_DONE) ch in
    put (set_ch_csr (ch_csr ch .| (value .& field_mask CH_CSR_DONE)) ch)
  else if offset =? A_CH_ES then
    let ch := set_ch_es (ch_es ch .& .~ field_mask CH_ES_ERR) ch in
    put (set_ch_es (ch_es ch .| (value .& field_mask CH_ES_ERR)) ch)
  else if offset =? A_CH_INT then
    let ch := if truthy (value .& field_mask CH_INT_INT)
              then set_ch_int (ch_int ch .& .~ field_mask CH_INT_INT) ch else ch in
    nxps32k358_edma_tcd_update_irq c (put_tcd c ch s) e
  else if (offset =? A_CH_SBR) || (offset =? A_CH_PRI) then Ok (s, e)
  else if offset =? A_TCD_SADDR then put (set_tcd_saddr value ch)
  else if offset =? A_TCD_SOFF then put (set_tcd_soff value ch)
  else if offset =? A_TCD_ATTR then put (set_tcd_attr value ch)
  else if offset =? A_TCD_NBYTES_MLOFF then
    _ ← c_assert (value .& field_mask TCD_NBYTES_MLOFF_SMLOE =? 0);
    _ ← c_assert (value .& field_mask TCD_NBYTES_MLOFF_DMLOE =? 0);
    put (set_tcd_nbytes_mloff value ch)
  else if offset =? A_TCD_SLAST_SDA then put (set_tcd_slast_sda value ch)
  else if offset =? A_TCD_DADDR then put (set_tcd_daddr value ch)
  else if offset =? A_TCD_DOFF then put (set_tcd_doff value ch)
  else if offset =? A_TCD_CITER then
    _ ← c_assert (value .& field_mask TCD_CITER_ELINK =? 0);
    _ ← c_assert (value =? FIELD_EX32 (tcd_biter ch) TCD_BITER_BITER);
    put (set_tcd_citer value ch)
  else if offset =? A_TCD_DLAST_SGA then put (set_tcd_dlast_sga value ch)
  else if offset =? A_TCD_CSR then
    _ ← c_assert (value .& field_mask TCD_CSR_MAJORELINK =? 0);
    let s := put_tcd c (set_tcd_csr value ch) s in
    if truthy (value .& field_mask TCD_CSR_START)
    then nxps32k358_edma_arbitrate buf s e
    else Ok (s, e)
  else if offset =? A_TCD_BITER then
    _ ← c_assert (value .& field_mask TCD_BITER_ELINK =? 0);
    put (set_tcd_biter value ch)
  else Ok (s, e).

(** [nxps32k358_edma_tcd_reset] *)
Definition nxps32k358_edma_tcd_reset : NXPS32K358EDMATCDState :=
  mkTCD 0 0 0 0x00008002 0 0 0 0 0 0 0 0 0 0 0 0.

(** [nxps32k358_edma_global_read] *)
Definition nxps32k358_edma_global_read (offset size : Z) (s : NXPS32K358EDMAState) : res Z :=
  if offset =? A_EDMA_CSR then Ok (u32 (edma_csr s))
  else if offset =? A_EDMA_ES then Ok (u32 (edma_es s))
  else if offset =? A_EDMA_INT then Ok (u32 (edma_int s))
  else if offset =? A_EDMA_HRS then Ok (u32 (edma_hrs s))
  else if (offset >=? A_EDMA_CHN_GRPRI 0) && (offset <? A_EDMA_CHN_GRPRI (Z.of_nat EDMA_CHANNELS))
  then v ← get_grpri s (Z.to_nat ((offset - A_EDMA_CHN_GRPRI 0) / 4)); Ok (u32 v)
  else Ok 0.

(** [nxps32k358_edma_global_write] *)
Definition CSR_WR_MASK : Z := 0x000003f6.
Definition GRPRI_WR_MASK : Z := 0x0000001f.

Definition nxps32k358_edma_global_write (offset value size : Z) (s : NXPS32K358EDMAState)
  : res NXPS32K358EDMAState :=
  if offset =? A_EDMA_CSR then
    let s := set_edma_csr (edma_csr s .& .~ CSR_WR_MASK) s in
    Ok (set_edma_csr (edma_csr s .| (value .& CSR_WR_MASK)) s)
  else if (offset =? A_EDMA_ES) || (offset =? A_EDMA_INT) || (offset =? A_EDMA_HRS) then Ok s
  else if (offset >=? A_EDMA_CHN_GRPRI 0) && (offset <? A_EDMA_CHN_GRPRI (Z.of_nat EDMA_CHANNELS))
  then
    let n := Z.to_nat ((offset - A_EDMA_CHN_GRPRI 0) / 4) in
    v ← get_grpri s n;
    let s := set_edma_chn_grpri n (v .& .~ GRPRI_WR_MASK) s in
    v ← get_grpri s n;
    Ok (set_edma_chn_grpri n (v .| (value .& GRPRI_WR_MASK)) s)
  else Ok s.

(** [nxps32k358_edma0_read], [nxps32k358_edma0_write]: the handlers of the
    region that holds the global registers and the channels 0 to 11. *)
Definition nxps32k358_edma0_read (offset size : Z) (s : NXPS32K358EDMAState) : res Z :=
  if offset >=? 0x4000 then
    nxps32k358_edma_tcd_read (offset mod 0x4000) size
      (Z.to_nat (u32 ((offset - 0x4000) / 0x4000))) s
  else nxps32k358_edma_global_read offset size s.

Definition nxps32k358_edma0_write (buf : list Z) (offset value size : Z)
    (s : NXPS32K358EDMAState) (e : E) : res (NXPS32K358EDMAState * E) :=
  if offset >=? 0x4000 then
    nxps32k358_edma_tcd_write buf (offset mod 0x4000) value size
      (Z.to_nat (u32 ((offset - 0x4000) / 0x4000))) s e
  else s ← nxps32k358_edma_global_write offset value size s; Ok (s, e).

(** [nxps32k358_edma12_read], [nxps32k358_edma12_write]: channels 12 to 31. *)
Definition nxps32k358_edma12_read (offset size : Z) (s : NXPS32K358EDMAState) : res Z :=
  nxps32k358_edma_tcd_read (offset mod 0x4000) size (Z.to_nat (u32 (offset / 0x4000 + 12))) s.

Definition nxps32k358_edma12_write (buf : list Z) (offset value size : Z)
    (s : NXPS32K358EDMAState) (e : E) : res (NXPS32K358EDMAState * E) :=
  nxps32k358_edma_tcd_write buf (offset mod 0x4000) value size
    (Z.to_nat (u32 (offset / 0x4000 + 12))) s e.

(** [nxps32k358_edma_reset]: the loop body for channels [i], [i+1], ... *)
Fixpoint edma_reset_loop (k : nat) (i : nat) (s : NXPS32K358EDMAState) (e : E)
  : res (NXPS32K358EDMAState * E) :=
  match k with
  | O => Ok (s, e)
  | S k =>
      let s := set_edma_chn_grpri i EDMA_CHN_GRPRI_RESET s in
      let s := put_tcd i nxps32k358_edma_tcd_reset s in
      '(s, e) ← nxps32k358_edma_tcd_update_irq i s e;
      edma_reset_loop k (S i) s e
  end.

Definition nxps32k358_edma_reset (s : NXPS32K358EDMAState) (e : E)
  : res (NXPS32K358EDMAState * E) :=
  let s := set_edma_csr EDMA_CSR_RESET s in
  let s := set_edma_es EDMA_ES_RESET s in
  let s := set_edma_int EDMA_INT_RESET s in
  let s := set_edma_hrs EDMA_HRS_RESET s in
  edma_reset_loop EDMA_CHANNELS 0 s e.

(** [nxps32k358_edma_realize] *)
Definition nxps32k358_edma_realize (s : NXPS32K358EDMAState) (e : E)
  : res (NXPS32K358EDMAState * E) :=
  nxps32k358_edma_reset s e.

End Edma.

(** [nxps32k358_edma_init]: the two register windows and one line per channel. *)
Definition EDMA_MMIO0_SIZE : Z := 0x4000 * 13.
Definition EDMA_MMIO12_SIZE : Z := 0x4000 * 20.

(** A freshly allocated device: QOM objects start zeroed. *)
Definition edma_zero : NXPS32K358EDMAState :=
  mkEDMA 0 0 0 0 (replicate EDMA_CHANNELS 0)
    (replicate EDMA_CHANNELS (mkTCD 0 0 0 0 0 0 0 0 0 0 0 0 0 0 0 0)) 0.
