(* ===== verification/EdmaTheory.v ===== *)
(** * Correctness of the eDMA controller

    The type invariant, the interrupt invariant over every reachable state,
    the transfer engine as a memory copy, the arbitration and the conditions
    under which a guest access aborts the emulator. *)

From S2P Require Import Prelude Bits Interfaces Edma.

(** ** The type invariant *)

(** Every field holds a value of its C type. *)
Record wf_tcd (c : NXPS32K358EDMATCDState) : Prop := {
  wf_ch_csr : in_range 32 (ch_csr c);
  wf_ch_es : in_range 32 (ch_es c);
  wf_ch_int : in_range 32 (ch_int c);
  wf_ch_sbr : in_range 32 (ch_sbr c);
  wf_ch_pri : in_range 32 (ch_pri c);
  wf_tcd_saddr : in_range 32 (tcd_saddr c);
  wf_tcd_soff : - 2 ^ (16 - 1) <= tcd_soff c < 2 ^ (16 - 1);
  wf_tcd_attr : in_range 16 (tcd_attr c);
  wf_tcd_nbytes_mloff : in_range 32 (tcd_nbytes_mloff c);
  wf_tcd_slast_sda : in_range 32 (tcd_slast_sda c);
  wf_tcd_daddr : in_range 32 (tcd_daddr c);
  wf_tcd_doff : in_range 16 (tcd_doff c);
  wf_tcd_citer : in_range 16 (tcd_citer c);
  wf_tcd_dlast_sga : in_range 32 (tcd_dlast_sga c);
  wf_tcd_csr : in_range 16 (tcd_csr c);
  wf_tcd_biter : in_range 16 (tcd_biter c)
}.

Record wf_edma (s : NXPS32K358EDMAState) : Prop := {
  wf_edma_csr : in_range 32 (edma_csr s);
  wf_edma_es : in_range 32 (edma_es s);
  wf_edma_int : in_range 32 (edma_int s);
  wf_edma_hrs : in_range 32 (edma_hrs s);
  wf_grpri_length : length (edma_chn_grpri s) = EDMA_CHANNELS;
  wf_grpri : Forall (in_range 32) (edma_chn_grpri s);
  wf_tcd_length : length (edma_tcd s) = EDMA_CHANNELS;
  wf_tcds : Forall wf_tcd (edma_tcd s);
  wf_offset : (arb_offset s < EDMA_CHANNELS)%nat
}.

Create HintDb edma.

(** Splits a record goal and closes the conversions. *)
Ltac solve_wf :=
  repeat match goal with H : wf_tcd _ |- _ => destruct H end;
  repeat match goal with H : wf_edma _ |- _ => destruct H end;
  split; cbn [ch_csr ch_es ch_int ch_sbr ch_pri tcd_saddr tcd_soff tcd_attr tcd_nbytes_mloff
              tcd_slast_sda tcd_daddr tcd_doff tcd_citer tcd_dlast_sga tcd_csr tcd_biter
              edma_csr edma_es edma_int edma_hrs edma_chn_grpri edma_tcd arb_offset];
  auto; first [apply in_range_wrapu; lia | apply wraps_range; lia | idtac].

Lemma wf_set_ch_csr v c : wf_tcd c -> wf_tcd (set_ch_csr v c).
Proof. intros. solve_wf. Qed.
Lemma wf_set_ch_es v c : wf_tcd c -> wf_tcd (set_ch_es v c).
Proof. intros. solve_wf. Qed.
Lemma wf_set_ch_int v c : wf_tcd c -> wf_tcd (set_ch_int v c).
Proof. intros. solve_wf. Qed.
Lemma wf_set_tcd_saddr v c : wf_tcd c -> wf_tcd (set_tcd_saddr v c).
Proof. intros. solve_wf. Qed.
Lemma wf_set_tcd_soff v c : wf_tcd c -> wf_tcd (set_tcd_soff v c).
Proof. intros. solve_wf. Qed.
Lemma wf_set_tcd_attr v c : wf_tcd c -> wf_tcd (set_tcd_attr v c).
Proof. intros. solve_wf. Qed.
Lemma wf_set_tcd_nbytes v c : wf_tcd c -> wf_tcd (set_tcd_nbytes_mloff v c).
Proof. intros. solve_wf. Qed.
Lemma wf_set_tcd_slast v c : wf_tcd c -> wf_tcd (set_tcd_slast_sda v c).
Proof. intros. solve_wf. Qed.
Lemma wf_set_tcd_daddr v c : wf_tcd c -> wf_tcd (set_tcd_daddr v c).
Proof. intros. solve_wf. Qed.
Lemma wf_set_tcd_doff v c : wf_tcd c -> wf_tcd (set_tcd_doff v c).
Proof. intros. solve_wf. Qed.
Lemma wf_set_tcd_citer v c : wf_tcd c -> wf_tcd (set_tcd_citer v c).
Proof. intros. solve_wf. Qed.
Lemma wf_set_tcd_dlast v c : wf_tcd c -> wf_tcd (set_tcd_dlast_sga v c).
Proof. intros. solve_wf. Qed.
Lemma wf_set_tcd_csr v c : wf_tcd c -> wf_tcd (set_tcd_csr v c).
Proof. intros. solve_wf. Qed.
Lemma wf_set_tcd_biter v c : wf_tcd c -> wf_tcd (set_tcd_biter v c).
Proof. intros. solve_wf. Qed.

#[export] Hint Resolve wf_set_ch_csr wf_set_ch_es wf_set_ch_int wf_set_tcd_saddr wf_set_tcd_soff
  wf_set_tcd_attr wf_set_tcd_nbytes wf_set_tcd_slast wf_set_tcd_daddr wf_set_tcd_doff
  wf_set_tcd_citer wf_set_tcd_dlast wf_set_tcd_csr wf_set_tcd_biter : edma.

Lemma le16_range b0 b1 : in_range 8 b0 -> in_range 8 b1 -> in_range 16 (le16 b0 b1).
Proof.
  intros H0 H1. apply in_range_lor; [lia|by eapply in_range_weaken; [|exact H0]|].
  rewrite Z.shiftl_mul_pow2 by lia. unfold in_range in *. lia.
Qed.

Lemma le32_range b0 b1 b2 b3 :
  in_range 8 b0 -> in_range 8 b1 -> in_range 8 b2 -> in_range 8 b3 ->
  in_range 32 (le32 b0 b1 b2 b3).
Proof.
  intros H0 H1 H2 H3. pose proof (le16_range _ _ H0 H1) as Hl.
  pose proof (le16_range _ _ H2 H3) as Hh.
  apply in_range_lor; [lia|by eapply in_range_weaken; [|exact Hl]|].
  rewrite Z.shiftl_mul_pow2 by lia. unfold in_range in *. lia.
Qed.

Lemma nth_byte (d : list Z) (i : nat) :
  (forall b, b ∈ d -> in_range 8 b) -> in_range 8 (nth i d 0).
Proof.
  intros Hd. destruct (nth_in_or_default i d 0) as [Hin| ->].
  - by apply Hd, list_elem_of_In.
  - done.
Qed.

Lemma wf_load_tcd d c :
  (forall b, b ∈ d -> in_range 8 b) -> wf_tcd c -> wf_tcd (load_tcd d c).
Proof.
  intros Hd Hc. destruct Hc. split; cbn [load_tcd ch_csr ch_es ch_int ch_sbr ch_pri tcd_saddr
    tcd_soff tcd_attr tcd_nbytes_mloff tcd_slast_sda tcd_daddr tcd_doff tcd_citer tcd_dlast_sga
    tcd_csr tcd_biter]; auto using le16_range, le32_range, nth_byte.
  apply wraps_range. lia.
Qed.

Lemma get_tcd_wf s c ch : wf_edma s -> get_tcd s c = Ok ch -> wf_tcd ch.
Proof.
  intros [] Hg. unfold get_tcd in Hg. destruct (edma_tcd s !! c) eqn:Hc; [|done].
  injection Hg as <-. by eapply Forall_lookup_1.
Qed.

Lemma wf_put_tcd s c ch : wf_edma s -> wf_tcd ch -> wf_edma (put_tcd c ch s).
Proof.
  intros Hs Hch. destruct Hs. split; cbn; auto.
  - by rewrite length_insert.
  - by apply Forall_insert.
Qed.

Lemma wf_set_edma_int v s : wf_edma s -> wf_edma (set_edma_int v s).
Proof. intros. solve_wf. Qed.
Lemma wf_set_edma_csr v s : wf_edma s -> wf_edma (set_edma_csr v s).
Proof. intros. solve_wf. Qed.
Lemma wf_set_edma_es v s : wf_edma s -> wf_edma (set_edma_es v s).
Proof. intros. solve_wf. Qed.
Lemma wf_set_edma_hrs v s : wf_edma s -> wf_edma (set_edma_hrs v s).
Proof. intros. solve_wf. Qed.
Lemma wf_set_grpri n v s : wf_edma s -> wf_edma (set_edma_chn_grpri n v s).
Proof.
  intros Hs. destruct Hs. split; cbn; auto.
  - by rewrite length_insert.
  - apply Forall_insert; [done|]. by apply in_range_wrapu.
Qed.
Lemma wf_set_arb_offset n s : (n < EDMA_CHANNELS)%nat -> wf_edma s -> wf_edma (set_arb_offset n s).
Proof. intros. solve_wf. Qed.

#[export] Hint Resolve wf_put_tcd wf_set_edma_int wf_set_edma_csr wf_set_edma_es wf_set_edma_hrs
  wf_set_grpri wf_load_tcd : edma.

(** ** The interrupt invariant *)

Section Invariant.
Context {E : Type} {Env : DmaEnv E} {Laws : DmaEnvLaws E}.

(** [edma_int] mirrors the level driven on each channel's line. *)
Definition irq_ok (s : NXPS32K358EDMAState) (e : E) : Prop :=
  forall i, (i < EDMA_CHANNELS)%nat -> Z.testbit (edma_int s) (Z.of_nat i) = irq_level e i.

Definition edma_inv (s : NXPS32K358EDMAState) (e : E) : Prop := wf_edma s /\ irq_ok s e.

Definition same_irq (e e' : E) : Prop := forall m, irq_level e' m = irq_level e m.

#[local] Instance same_irq_preorder : PreOrder same_irq.
Proof. split; [done|]. intros a b c H1 H2 m. by rewrite H2, H1. Qed.

Lemma irq_ok_same s e s' e' :
  edma_int s' = edma_int s -> same_irq e e' -> irq_ok s e -> irq_ok s' e'.
Proof. intros Hi Hs Hok i Hlt. rewrite Hi, Hs. by apply Hok. Qed.

Lemma edma_inv_put s e c ch : edma_inv s e -> wf_tcd ch -> edma_inv (put_tcd c ch s) e.
Proof. intros [? ?] ?. split; [by apply wf_put_tcd|done]. Qed.

Lemma testbit_1_shiftl (n i : Z) : 0 <= n -> 0 <= i -> Z.testbit (1 .<< n) i = (i =? n).
Proof.
  intros Hn Hi. rewrite Z.shiftl_spec by lia. destruct (Z.eqb_spec i n).
  - subst. by rewrite Z.sub_diag.
  - destruct (Z.lt_ge_cases (i - n) 0); [by rewrite Z.testbit_neg_r|].
    apply Z.bits_above_log2; [lia|]. cbn. lia.
Qed.

Lemma set_line_inv s e c (b : bool) :
  edma_inv s e -> (c < EDMA_CHANNELS)%nat ->
  edma_inv (set_edma_int (if b then edma_int s .| (1 .<< Z.of_nat c)
                          else edma_int s .& .~ (1 .<< Z.of_nat c)) s)
    (qemu_set_irq c b e).
Proof.
  intros [Hwf Hirq] Hc. split; [by apply wf_set_edma_int|].
  intros i Hi. cbn. rewrite wrapu_testbit, set_irq_level by lia.
  destruct (Z.ltb_spec (Z.of_nat i) 32); [|unfold EDMA_CHANNELS in *; lia]. cbn.
  rewrite <- (Hirq i) by done.
  destruct b; rewrite ?Z.lor_spec, ?Z.land_spec, ?Z.lnot_spec, testbit_1_shiftl by lia;
    case_decide; subst; rewrite ?Z.eqb_refl, ?orb_true_r, ?andb_false_r; try done;
    destruct (Z.eqb_spec (Z.of_nat i) (Z.of_nat c)); try lia;
    by rewrite ?orb_false_r, ?andb_true_r.
Qed.

Lemma get_tcd_lt s c ch : wf_edma s -> get_tcd s c = Ok ch -> (c < EDMA_CHANNELS)%nat.
Proof.
  intros [] Hg. unfold get_tcd in Hg. destruct (edma_tcd s !! c) eqn:Hc; [|done].
  apply lookup_lt_Some in Hc. congruence.
Qed.

Lemma update_irq_inv c s e s' e' :
  edma_inv s e -> nxps32k358_edma_tcd_update_irq c s e = Ok (s', e') -> edma_inv s' e'.
Proof.
  intros Hinv Hu. unfold nxps32k358_edma_tcd_update_irq in Hu.
  apply res_bind_inv in Hu as (ch & Hg & Hu).
  pose proof (get_tcd_lt _ _ _ (proj1 Hinv) Hg) as Hc.
  pose proof (get_tcd_wf _ _ _ (proj1 Hinv) Hg) as Hch. cbv zeta in Hu. revert Hu.
  set (c1 := if _ && _ then _ else ch). set (c2 := if _ && _ then _ else c1).
  assert (Hc2 : wf_tcd c2) by (subst c2 c1; repeat case_match; auto with edma).
  clearbody c2. clear c1. pose proof (edma_inv_put _ _ c _ Hinv Hc2) as Hp.
  destruct (truthy _); intros [= <- <-].
  - apply (set_line_inv _ _ c true Hp Hc).
  - apply (set_line_inv _ _ c false Hp Hc).
Qed.

Lemma transmit_reads_irq n ssize soff a buf e a' buf' e' :
  transmit_reads n ssize soff a buf e = Ok (a', buf', e') -> same_irq e e'.
Proof.
  revert a buf e. induction n as [|n IH]; intros a buf e; cbn [transmit_reads].
  - by intros [= <- <- <-].
  - intros ([bs e1] & Hr & Hk)%res_bind_inv. etrans; [|by eapply IH].
    intros m. by eapply bus_read_irq.
Qed.

Lemma transmit_writes_irq n dsize doff a buf e a' e' :
  transmit_writes n dsize doff a buf e = Ok (a', e') -> same_irq e e'.
Proof.
  revert a e. induction n as [|n IH]; intros a e; cbn [transmit_writes].
  - by intros [= <- <-].
  - intros (e1 & Hr & Hk)%res_bind_inv. etrans; [|by eapply IH].
    intros m. by eapply bus_write_irq.
Qed.

Lemma transmit_minor_irq n nr nw ssize dsize soff doff sa da buf e sa' da' buf' e' :
  transmit_minor n nr nw ssize dsize soff doff sa da buf e = Ok (sa', da', buf', e') ->
  same_irq e e'.
Proof.
  revert sa da buf e. induction n as [|n IH]; intros sa da buf e; cbn [transmit_minor].
  - by intros [= <- <- <- <-].
  - intros ([[sa1 buf1] e1] & Hr & Hk)%res_bind_inv.
    apply res_bind_inv in Hk as ([da1 e2] & Hw & Hk).
    etrans; [by eapply transmit_reads_irq|]. etrans; [by eapply transmit_writes_irq|]. eauto.
Qed.

Lemma major_done_inv c s e s' e' :
  edma_inv s e -> transmit_major_done c s e = Ok (s', e') -> edma_inv s' e'.
Proof.
  intros Hinv Hd. unfold transmit_major_done in Hd.
  apply res_bind_inv in Hd as (ch & Hg & Hd).
  pose proof (get_tcd_wf _ _ _ (proj1 Hinv) Hg) as Hch.
  apply res_bind_inv in Hd as (ch1 & H1 & Hd).
  assert (Hch1 : wf_tcd ch1).
  { destruct (truthy _); [discriminate H1|]. injection H1 as <-. auto with edma. }
  apply res_bind_inv in Hd as ([ch2 e2] & H2 & Hd).
  assert (wf_tcd ch2 /\ same_irq e e2) as [Hch2 Hirq].
  { destruct (truthy _) in H2.
    - apply res_bind_inv in H2 as ([d e3] & Hr & [= <- <-]).
      pose proof (bus_read_length _ _ _ _ _ Hr) as [_ Hd'].
      split; [auto with edma|]. intros m. by eapply bus_read_irq.
    - injection H2 as <- <-. split; [auto with edma|done]. }
  injection Hd as <- <-. destruct Hinv as [Hwf Hok].
  split; [auto with edma|]. by eapply irq_ok_same; [| |exact Hok].
Qed.

Lemma transmit_inv buf c s e s' e' :
  edma_inv s e -> nxps32k358_edma_transmit buf c s e = Ok (s', e') -> edma_inv s' e'.
Proof.
  intros Hinv Ht. unfold nxps32k358_edma_transmit in Ht.
  apply res_bind_inv in Ht as (ch & Hg & Ht).
  pose proof (get_tcd_wf _ _ _ (proj1 Hinv) Hg) as Hch.
  apply res_bind_inv in Ht as (? & _ & Ht). apply res_bind_inv in Ht as (? & _ & Ht).
  apply res_bind_inv in Ht as ([s1 e1] & H1 & Ht).
  assert (Hinv1 : edma_inv s1 e1).
  { case_match; [|by injection H1 as <- <-].
    apply res_bind_inv in H1 as ([[[sa da] b] e2] & Hm & Hu).
    eapply update_irq_inv; [|exact Hu]. destruct Hinv as [Hwf Hok].
    split; [auto 7 with edma|]. eapply irq_ok_same; [| |exact Hok]; [done|].
    by eapply transmit_minor_irq. }
  apply res_bind_inv in Ht as (ch1 & Hg1 & Ht).
  case_match; [by eapply major_done_inv|]. by injection Ht as <- <-.
Qed.

Lemma arbitrate_service_inv buf j s e s' e' :
  edma_inv s e -> arbitrate_service buf j s e = Ok (s', e') -> edma_inv s' e'.
Proof.
  intros Hinv (ch & Hg & Hk)%res_bind_inv.
  apply res_bind_inv in Hk as ([s1 e1] & Ht & Hk).
  pose proof (get_tcd_wf _ _ _ (proj1 Hinv) Hg) as Hch.
  apply transmit_inv in Ht as [Hwf Hok]; [|apply edma_inv_put; auto with edma].
  apply Ok_pair_inv in Hk as [-> ->]. split; [|exact Hok].
  apply wf_set_arb_offset; [by apply Nat.mod_upper_bound|done].
Qed.

Lemma arbitrate_loop_inv k i buf s e s' e' :
  edma_inv s e -> arbitrate_loop k i buf s e = Ok (s', e') -> edma_inv s' e'.
Proof.
  revert i. induction k as [|k IH]; intros i Hinv; cbn [arbitrate_loop].
  - by intros [= <- <-].
  - intros (ch & Hg & Hk)%res_bind_inv. case_match; [|eauto].
    by eapply arbitrate_service_inv.
Qed.

Lemma tcd_write_inv buf off v sz c s e s' e' :
  edma_inv s e -> nxps32k358_edma_tcd_write buf off v sz c s e = Ok (s', e') -> edma_inv s' e'.
Proof.
  intros Hinv Hw. unfold nxps32k358_edma_tcd_write in Hw.
  apply res_bind_inv in Hw as (ch & Hg & Hw).
  pose proof (get_tcd_wf _ _ _ (proj1 Hinv) Hg) as Hch.
  repeat match type of Hw with
    | (if ?b then _ else _) = _ => destruct b
    | (_ ≫= _) = Ok _ => apply res_bind_inv in Hw as (? & _ & Hw)
    | Ok _ = Ok _ => injection Hw as <- <-
    | nxps32k358_edma_tcd_update_irq _ _ _ = _ => apply update_irq_inv in Hw; [exact Hw|]
    | nxps32k358_edma_arbitrate _ _ _ = _ => apply arbitrate_loop_inv in Hw; [exact Hw|]
    end; try exact Hinv; apply edma_inv_put; auto with edma.
  case_match; auto with edma.
Qed.

Lemma global_write_inv off v sz s e s' :
  edma_inv s e -> nxps32k358_edma_global_write off v sz s = Ok s' -> edma_inv s' e.
Proof.
  intros [Hwf Hok] Hw. unfold nxps32k358_edma_global_write in Hw.
  repeat match type of Hw with
    | (if ?b then _ else _) = _ => destruct b
    | (_ ≫= _) = Ok _ => apply res_bind_inv in Hw as (? & _ & Hw)
    | Ok _ = Ok _ => injection Hw as <-
    end; split; auto with edma.
Qed.

Lemma edma0_write_inv buf off v sz s e s' e' :
  edma_inv s e -> nxps32k358_edma0_write buf off v sz s e = Ok (s', e') -> edma_inv s' e'.
Proof.
  intros Hinv Hw. unfold nxps32k358_edma0_write in Hw. case_match; [by eapply tcd_write_inv|].
  apply res_bind_inv in Hw as (s1 & Hw & [= <- <-]). by eapply global_write_inv.
Qed.

Lemma edma12_write_inv buf off v sz s e s' e' :
  edma_inv s e -> nxps32k358_edma12_write buf off v sz s e = Ok (s', e') -> edma_inv s' e'.
Proof. apply tcd_write_inv. Qed.

(** ** Reset *)

(** The state after a reset: everything but the arbiter's cursor. *)
Definition edma_after_reset (off : nat) : NXPS32K358EDMAState :=
  mkEDMA EDMA_CSR_RESET 0 0 0 (replicate EDMA_CHANNELS 0)
    (replicate EDMA_CHANNELS nxps32k358_edma_tcd_reset) off.

Lemma take_insert_snoc {A} (i : nat) (x : A) (l : list A) :
  (i < length l)%nat -> take (S i) (<[i := x]> l) = take i l ++ [x].
Proof.
  intros Hi. rewrite (take_S_r _ _ x) by (by apply list_lookup_insert_eq).
  by rewrite take_insert_ge.
Qed.

Lemma update_irq_reset i s e :
  edma_tcd s !! i = Some nxps32k358_edma_tcd_reset -> edma_int s = 0 ->
  nxps32k358_edma_tcd_update_irq i s e = Ok (s, qemu_set_irq i false e).
Proof.
  intros Hi H0. unfold nxps32k358_edma_tcd_update_irq, get_tcd. rewrite Hi, res_bind_Ok.
  cbv zeta. cbn [tcd_csr nxps32k358_edma_tcd_reset].
  change (truthy (FIELD_EX32 0 TCD_CSR_INTHALF)) with false. cbn [andb].
  cbn [tcd_csr nxps32k358_edma_tcd_reset].
  change (truthy (FIELD_EX32 0 TCD_CSR_INTMAJOR)) with false. cbn [andb ch_int].
  change (truthy (0 .& field_mask CH_INT_INT)) with false.
  cbn [put_tcd edma_int]. rewrite H0. unfold set_edma_int, put_tcd.
  cbn [edma_csr edma_es edma_hrs edma_chn_grpri edma_tcd arb_offset edma_int].
  rewrite list_insert_id by done. rewrite Z.land_0_l. destruct s. cbn in *. by subst.
Qed.

(** The lines [i .. i+k-1] lowered, in order. *)
Fixpoint lower_lines (k i : nat) (e : E) : E :=
  match k with O => e | S k => lower_lines k (S i) (qemu_set_irq i false e) end.

Lemma lower_lines_level k i e m :
  irq_level (lower_lines k i e) m =
    if decide (i <= m < i + k)%nat then false else irq_level e m.
Proof.
  revert i e. induction k as [|k IH]; intros i e; cbn [lower_lines].
  - case_decide; [lia|done].
  - rewrite IH, set_irq_level. repeat case_decide; done || lia.
Qed.

Lemma lower_lines_bytes k i e a : byte_at (lower_lines k i e) a = byte_at e a.
Proof.
  revert i e. induction k as [|k IH]; intros i e; cbn [lower_lines]; [done|].
  by rewrite IH, set_irq_bytes.
Qed.

Lemma reset_loop_spec k i s e :
  (i + k)%nat = EDMA_CHANNELS -> edma_int s = 0 ->
  length (edma_chn_grpri s) = EDMA_CHANNELS -> length (edma_tcd s) = EDMA_CHANNELS ->
  edma_reset_loop k i s e =
    Ok (mkEDMA (edma_csr s) (edma_es s) 0 (edma_hrs s)
          (take i (edma_chn_grpri s) ++ replicate k 0)
          (take i (edma_tcd s) ++ replicate k nxps32k358_edma_tcd_reset) (arb_offset s),
        lower_lines k i e).
Proof.
  revert i s e. induction k as [|k IH]; intros i s e Hik H0 Hg Ht; cbn [edma_reset_loop].
  - cbn [replicate lower_lines]. rewrite !app_nil_r, !take_ge by lia.
    destruct s; cbn in *; by subst.
  - rewrite update_irq_reset; [|cbn; apply list_lookup_insert_eq; lia|done].
    rewrite res_bind_Ok, IH; cbn [put_tcd set_edma_chn_grpri edma_csr edma_es edma_int edma_hrs
      edma_chn_grpri edma_tcd arb_offset]; rewrite ?length_insert; try lia.
    rewrite !take_insert_snoc by lia. rewrite <- !app_assoc. done.
Qed.

Lemma reset_spec s e :
  length (edma_chn_grpri s) = EDMA_CHANNELS -> length (edma_tcd s) = EDMA_CHANNELS ->
  nxps32k358_edma_reset s e =
    Ok (edma_after_reset (arb_offset s), lower_lines EDMA_CHANNELS 0 e).
Proof.
  intros Hg Ht. unfold nxps32k358_edma_reset. cbv zeta. by rewrite reset_loop_spec.
Qed.

Lemma wf_after_reset off : (off < EDMA_CHANNELS)%nat -> wf_edma (edma_after_reset off).
Proof.
  intros Ho. split; cbn [edma_after_reset edma_csr edma_es edma_int edma_hrs edma_chn_grpri
    edma_tcd arb_offset]; try done; apply Forall_replicate; done.
Qed.

Lemma after_reset_inv off e :
  (off < EDMA_CHANNELS)%nat ->
  edma_inv (edma_after_reset off) (lower_lines EDMA_CHANNELS 0 e).
Proof.
  intros Ho. split; [by apply wf_after_reset|]. intros i Hi.
  rewrite lower_lines_level. case_decide; [|lia]. cbn. by rewrite Z.bits_0.
Qed.

(** ** Reachable states *)

(** What can happen to a realized controller: a guest access to one of its two
    register windows (with any contents of the stack buffer), a device reset,
    or any change of the rest of the machine that leaves its lines alone. *)
Inductive edma_step : NXPS32K358EDMAState * E -> NXPS32K358EDMAState * E -> Prop :=
  | step_mmio0 buf off v sz s e s' e' :
      0 <= off < EDMA_MMIO0_SIZE ->
      nxps32k358_edma0_write buf off v sz s e = Ok (s', e') ->
      edma_step (s, e) (s', e')
  | step_mmio12 buf off v sz s e s' e' :
      0 <= off < EDMA_MMIO12_SIZE ->
      nxps32k358_edma12_write buf off v sz s e = Ok (s', e') ->
      edma_step (s, e) (s', e')
  | step_reset s e s' e' :
      nxps32k358_edma_reset s e = Ok (s', e') -> edma_step (s, e) (s', e')
  | step_env s e e' :
      same_irq e e' -> edma_step (s, e) (s, e').

Inductive edma_reachable : NXPS32K358EDMAState * E -> Prop :=
  | reach_realize e s' e' :
      nxps32k358_edma_realize edma_zero e = Ok (s', e') -> edma_reachable (s', e')
  | reach_step p q : edma_reachable p -> edma_step p q -> edma_reachable q.

Lemma edma_step_inv p q : edma_step p q -> edma_inv p.1 p.2 -> edma_inv q.1 q.2.
Proof.
  intros Hst Hinv.
  destruct Hst as [? ? ? ? ? ? ? ? _ Hw|? ? ? ? ? ? ? ? _ Hw|s e s' e' Hr|s e e' Hs];
    cbn [fst snd] in *.
  - by eapply edma0_write_inv.
  - by eapply edma12_write_inv.
  - destruct Hinv as [Hwf _]. rewrite reset_spec in Hr by apply Hwf.
    apply Ok_pair_inv in Hr as [-> ->]. apply after_reset_inv, Hwf.
  - destruct Hinv as [Hwf Hok]. split; [done|]. by eapply irq_ok_same; [| |exact Hok].
Qed.

Lemma realize_inv s e s' e' :
  length (edma_chn_grpri s) = EDMA_CHANNELS -> length (edma_tcd s) = EDMA_CHANNELS ->
  (arb_offset s < EDMA_CHANNELS)%nat ->
  nxps32k358_edma_realize s e = Ok (s', e') -> edma_inv s' e'.
Proof.
  intros Hg Ht Ho Hr. unfold nxps32k358_edma_realize in Hr. rewrite reset_spec in Hr by done.
  apply Ok_pair_inv in Hr as [-> ->]. by apply after_reset_inv.
Qed.

Lemma edma_reachable_inv p : edma_reachable p -> edma_inv p.1 p.2.
Proof.
  induction 1 as [e s' e' Hr|p q _ IH Hst].
  - apply (realize_inv edma_zero e); [reflexivity|reflexivity|apply Nat.lt_0_succ|exact Hr].
  - exact (edma_step_inv _ _ Hst IH).
Qed.

End Invariant.

(** ** The transfer engine as a memory copy *)

Section Copy.
Context {E : Type} {Env : DmaEnv E} {Laws : DmaEnvLaws E}.

(** One round of the minor loop with equal element sizes reads an element
    and writes it. *)
Lemma round_copy (sz : nat) (off sa da : Z) (buf : list Z) (e : E) :
  (forall x, sa <= x < sa + Z.of_nat sz -> readable x = true) ->
  (forall x, da <= x < da + Z.of_nat sz -> writable x = true) ->
  exists buf' e',
    transmit_reads 1 sz off sa buf e = Ok (u32 (sa + off), buf', e) /\
    transmit_writes 1 sz off da buf' e = Ok (u32 (da + off), e') /\
    copied sa da (Z.of_nat sz) e e'.
Proof.
  intros Hr Hw. set (bs := byte_at e <$> seqZ sa (Z.of_nat sz)).
  assert (Hlen : length bs = sz).
  { unfold bs. rewrite length_fmap, length_seqZ. lia. }
  destruct (bus_write_mem da bs e) as (e' & He' & Hby).
  { by rewrite Hlen. }
  { intros b (x & -> & _)%list_elem_of_fmap. apply byte_at_range. }
  exists (bs ++ drop sz buf), e'. split; [|split].
  - cbn [transmit_reads]. rewrite bus_read_mem by done. done.
  - cbn [transmit_writes]. rewrite take_app_le, take_ge by lia. by rewrite He'.
  - intros x. rewrite Hby, Hlen. destruct (Z.leb_spec da x), (Z.ltb_spec x (da + Z.of_nat sz));
      cbn [andb]; try done.
    rewrite nth_lookup. unfold bs. rewrite list_lookup_fmap, lookup_seqZ_lt by lia. cbn.
    f_equal. lia.
Qed.

Lemma minor_copy (n sz : nat) (sa da : Z) (buf : list Z) (e : E) :
  let len := Z.of_nat n * Z.of_nat sz in
  0 <= sa -> 0 <= da -> sa + len <= 2 ^ 32 -> da + len <= 2 ^ 32 -> (0 < sz)%nat ->
  (forall x, sa <= x < sa + len -> readable x = true) ->
  (forall x, da <= x < da + len -> writable x = true) ->
  disjoint_ranges sa da len ->
  exists buf' e',
    transmit_minor n 1 1 sz sz (Z.of_nat sz) (Z.of_nat sz) (u32 sa) (u32 da) buf e =
      Ok (u32 (sa + len), u32 (da + len), buf', e') /\
    copied sa da len e e'.
Proof.
  revert sa da buf e. induction n as [|n IH]; intros sa da buf e len Hsa Hda Hse Hde Hsz Hr Hw Hd.
  - exists buf, e. subst len. cbn [transmit_minor]. rewrite !Z.add_0_r.
    split; [done|apply copied_0].
  - assert (Hlen : len = Z.of_nat sz + Z.of_nat n * Z.of_nat sz) by (subst len; lia).
    assert (0 <= Z.of_nat n * Z.of_nat sz) by lia.
    destruct (round_copy sz (Z.of_nat sz) sa da buf e) as (buf1 & e1 & H1 & H2 & Hc1).
    { intros x Hx. apply Hr. lia. }
    { intros x Hx. apply Hw. lia. }
    destruct (IH (sa + Z.of_nat sz) (da + Z.of_nat sz) buf1 e1) as (buf2 & e2 & H3 & Hc2);
      [lia|lia|lia|lia|done|intros; apply Hr; lia|intros; apply Hw; lia
      |unfold disjoint_ranges in *; lia|].
    exists buf2, e2. cbn [transmit_minor].
    rewrite (wrapu_small 32 sa), (wrapu_small 32 da) by lia.
    rewrite H1, res_bind_Ok, H2, res_bind_Ok, H3. split.
    + by rewrite Hlen, !Z.add_assoc.
    + rewrite Hlen. apply (copied_app _ _ _ _ e e1); try lia; [|done|done].
      unfold disjoint_ranges in *; lia.
Qed.

End Copy.

(** ** The interrupt update *)

Section Irq.
Context {E : Type} {Env : DmaEnv E} {Laws : DmaEnvLaws E}.

Definition citer_of (ch : NXPS32K358EDMATCDState) : Z := FIELD_EX16 (tcd_citer ch) TCD_CITER_CITER.
Definition biter_of (ch : NXPS32K358EDMATCDState) : Z := FIELD_EX16 (tcd_biter ch) TCD_BITER_BITER.

Lemma citer_range ch : in_range 15 (citer_of ch).
Proof. exact (FIELD_EX16_range (tcd_citer ch) TCD_CITER_CITER eq_refl). Qed.

Lemma biter_range ch : in_range 15 (biter_of ch).
Proof. exact (FIELD_EX16_range (tcd_biter ch) TCD_BITER_BITER eq_refl). Qed.

(** The two enabled conditions that set the channel's interrupt flag. *)
Definition irq_raise (ch : NXPS32K358EDMATCDState) : bool :=
  (Z.testbit (tcd_csr ch) 2 && (citer_of ch >=? biter_of ch / 2)) ||
  (Z.testbit (tcd_csr ch) 1 && (citer_of ch =? 0)).

Definition irq_latch (ch : NXPS32K358EDMATCDState) : NXPS32K358EDMATCDState :=
  if irq_raise ch then set_ch_int (ch_int ch .| field_mask CH_INT_INT) ch else ch.

Definition int_flag (ch : NXPS32K358EDMATCDState) : bool := Z.testbit (ch_int ch) 0.

(** [edma_int] with bit [c] set to [b]. *)
Definition put_int (c : nat) (b : bool) (s : NXPS32K358EDMAState) : NXPS32K358EDMAState :=
  set_edma_int (if b then edma_int s .| (1 .<< Z.of_nat c)
                else edma_int s .& .~ (1 .<< Z.of_nat c)) s.

Lemma csr_flag_INTHALF csr : truthy (FIELD_EX32 csr TCD_CSR_INTHALF) = Z.testbit csr 2.
Proof. change TCD_CSR_INTHALF with (flag 2). by rewrite FIELD_EX32_flag, truthy_b2z. Qed.
Lemma csr_flag_INTMAJOR csr : truthy (FIELD_EX32 csr TCD_CSR_INTMAJOR) = Z.testbit csr 1.
Proof. change TCD_CSR_INTMAJOR with (flag 1). by rewrite FIELD_EX32_flag, truthy_b2z. Qed.
Lemma csr_flag_ESDA csr : truthy (u8 (FIELD_EX32 csr TCD_CSR_ESDA)) = Z.testbit csr 7.
Proof.
  change TCD_CSR_ESDA with (flag 7). rewrite FIELD_EX32_flag by done.
  by destruct (Z.testbit csr 7).
Qed.
Lemma csr_flag_ESG csr : truthy (u8 (FIELD_EX32 csr TCD_CSR_ESG)) = Z.testbit csr 4.
Proof.
  change TCD_CSR_ESG with (flag 4). rewrite FIELD_EX32_flag by done.
  by destruct (Z.testbit csr 4).
Qed.

Lemma set_int_twice ch :
  set_ch_int (ch_int (set_ch_int (ch_int ch .| field_mask CH_INT_INT) ch) .| field_mask CH_INT_INT)
    (set_ch_int (ch_int ch .| field_mask CH_INT_INT) ch)
  = set_ch_int (ch_int ch .| field_mask CH_INT_INT) ch.
Proof.
  unfold set_ch_int; cbn [ch_csr ch_es ch_int ch_sbr ch_pri tcd_saddr tcd_soff tcd_attr
    tcd_nbytes_mloff tcd_slast_sda tcd_daddr tcd_doff tcd_citer tcd_dlast_sga tcd_csr tcd_biter].
  f_equal. apply Z.bits_inj'. intros i Hi. change CH_INT_INT with (flag 0).
  rewrite !wrapu_testbit, !set_mask_testbit, !wrapu_testbit, !set_mask_testbit by lia.
  destruct (i <? 32), (i =? 0), (Z.testbit (ch_int ch) i); done.
Qed.

Lemma update_irq_spec c s e ch :
  edma_tcd s !! c = Some ch ->
  nxps32k358_edma_tcd_update_irq c s e =
    Ok (put_int c (int_flag (irq_latch ch)) (put_tcd c (irq_latch ch) s),
        qemu_set_irq c (int_flag (irq_latch ch)) e).
Proof.
  intros Hc. unfold nxps32k358_edma_tcd_update_irq, get_tcd. rewrite Hc, res_bind_Ok. cbv zeta.
  rewrite csr_flag_INTHALF. fold (citer_of ch) (biter_of ch).
  set (c1 := if _ && _ then _ else ch).
  assert (Hc1 : tcd_csr c1 = tcd_csr ch /\ citer_of c1 = citer_of ch)
    by (subst c1; case_match; done).
  destruct Hc1 as [Hcsr Hci]. rewrite csr_flag_INTMAJOR.
  fold (citer_of c1). rewrite Hcsr, Hci.
  set (c2 := if _ && _ then _ else c1).
  assert (Hc2 : c2 = irq_latch ch).
  { subst c2 c1. unfold irq_latch, irq_raise.
    destruct (Z.testbit (tcd_csr ch) 2 && _), (Z.testbit (tcd_csr ch) 1 && _); cbn [orb]; try done.
    apply set_int_twice. }
  rewrite Hc2. change CH_INT_INT with (flag 0). rewrite truthy_flag by lia. unfold put_int.
  fold (int_flag (irq_latch ch)). by destruct (int_flag (irq_latch ch)).
Qed.

End Irq.

Lemma irq_latch_saddr ch : tcd_saddr (irq_latch ch) = tcd_saddr ch.
Proof. unfold irq_latch. by case_match. Qed.
Lemma irq_latch_daddr ch : tcd_daddr (irq_latch ch) = tcd_daddr ch.
Proof. unfold irq_latch. by case_match. Qed.
Lemma irq_latch_slast ch : tcd_slast_sda (irq_latch ch) = tcd_slast_sda ch.
Proof. unfold irq_latch. by case_match. Qed.
Lemma irq_latch_dlast ch : tcd_dlast_sga (irq_latch ch) = tcd_dlast_sga ch.
Proof. unfold irq_latch. by case_match. Qed.
Lemma irq_latch_ch_csr ch : ch_csr (irq_latch ch) = ch_csr ch.
Proof. unfold irq_latch. by case_match. Qed.
Lemma irq_latch_csr ch : tcd_csr (irq_latch ch) = tcd_csr ch.
Proof. unfold irq_latch. by case_match. Qed.
Lemma irq_latch_tcd_citer ch : tcd_citer (irq_latch ch) = tcd_citer ch.
Proof. unfold irq_latch. by case_match. Qed.
Lemma irq_latch_citer ch : citer_of (irq_latch ch) = citer_of ch.
Proof. unfold irq_latch. by case_match. Qed.
Lemma irq_latch_biter ch : biter_of (irq_latch ch) = biter_of ch.
Proof. unfold irq_latch. by case_match. Qed.

Create Rewrite HintDb edma.
#[export] Hint Rewrite irq_latch_saddr irq_latch_daddr irq_latch_slast irq_latch_dlast
  irq_latch_ch_csr irq_latch_csr irq_latch_tcd_citer irq_latch_citer irq_latch_biter : edma.

(** ** One service request *)

(** A channel set up for a plain block copy: equal element sizes [2^k], both
    offsets one element, no scatter/gather and no destination-address store. *)
Record copy_cfg (ch : NXPS32K358EDMATCDState) (k : Z) : Prop := {
  cfg_k : 0 <= k <= 6;
  cfg_ssize : FIELD_EX16 (tcd_attr ch) TCD_ATTR_SSIZE = k;
  cfg_dsize : FIELD_EX16 (tcd_attr ch) TCD_ATTR_DSIZE = k;
  cfg_soff : tcd_soff ch = 2 ^ k;
  cfg_doff : tcd_doff ch = 2 ^ k;
  cfg_esda : Z.testbit (tcd_csr ch) 7 = false;
  cfg_esg : Z.testbit (tcd_csr ch) 4 = false
}.

(** The bytes one request moves: whole elements only. *)
Definition copy_len (ch : NXPS32K358EDMATCDState) (k : Z) : Z :=
  FIELD_EX32 (tcd_nbytes_mloff ch) TCD_NBYTES_MLOFF_NBYTES / 2 ^ k * 2 ^ k.

Definition after_minor (ch : NXPS32K358EDMATCDState) (len : Z) : NXPS32K358EDMATCDState :=
  let ch1 := set_tcd_daddr (tcd_daddr ch + len) (set_tcd_saddr (tcd_saddr ch + len) ch) in
  set_ch_csr (ch_csr ch .& .~ field_mask CH_CSR_ACTIVE)
    (set_tcd_citer (FIELD_DP16 (tcd_citer ch) TCD_CITER_CITER (citer_of ch - 1)) ch1).

Definition after_major (ch : NXPS32K358EDMATCDState) : NXPS32K358EDMATCDState :=
  let ch1 := set_tcd_daddr (tcd_daddr ch + tcd_dlast_sga ch)
               (set_tcd_saddr (tcd_saddr ch + tcd_slast_sda ch) ch) in
  set_ch_int (ch_int ch .| field_mask CH_INT_INT)
    (set_ch_csr (ch_csr ch .| field_mask CH_CSR_DONE)
       (set_tcd_citer (FIELD_DP16 (tcd_citer ch) TCD_CITER_CITER (biter_of ch)) ch1)).

Definition after_request (ch : NXPS32K358EDMATCDState) (len : Z) : NXPS32K358EDMATCDState :=
  let ch1 := irq_latch (after_minor ch len) in
  if citer_of ch1 =? 0 then after_major ch1 else ch1.

Ltac tcd_cbn :=
  cbn [set_ch_csr set_ch_es set_ch_int set_tcd_saddr set_tcd_soff set_tcd_attr set_tcd_nbytes_mloff
       set_tcd_slast_sda set_tcd_daddr set_tcd_doff set_tcd_citer set_tcd_dlast_sga set_tcd_csr
       set_tcd_biter ch_csr ch_es ch_int ch_sbr ch_pri tcd_saddr tcd_soff tcd_attr tcd_nbytes_mloff
       tcd_slast_sda tcd_daddr tcd_doff tcd_citer tcd_dlast_sga tcd_csr tcd_biter].

Section Request.
Context {E : Type} {Env : DmaEnv E} {Laws : DmaEnvLaws E}.

Lemma get_tcd_Some s c ch : edma_tcd s !! c = Some ch -> get_tcd s c = Ok ch.
Proof. unfold get_tcd. by intros ->. Qed.

Lemma put_tcd_lookup s c ch x :
  edma_tcd s !! c = Some x -> edma_tcd (put_tcd c ch s) !! c = Some ch.
Proof. intros Hc. cbn. apply list_lookup_insert_eq. by eapply lookup_lt_Some. Qed.

Lemma put_tcd_put s c a b : put_tcd c a (put_tcd c b s) = put_tcd c a s.
Proof. unfold put_tcd; cbn. by rewrite list_insert_insert_eq. Qed.

Lemma put_tcd_put_int s c a b : put_tcd c a (put_int c b s) = put_int c b (put_tcd c a s).
Proof. by destruct b. Qed.

(** What the memory under a block copy must provide. *)
Record copy_mem (sa da len : Z) : Prop := {
  cm_src : 0 <= sa;
  cm_dst : 0 <= da;
  cm_src_end : sa + len <= 2 ^ 32;
  cm_dst_end : da + len <= 2 ^ 32;
  cm_readable x : sa <= x < sa + len -> readable x = true;
  cm_writable x : da <= x < da + len -> writable x = true;
  cm_disjoint : disjoint_ranges sa da len
}.

Lemma FIELD32_id x : in_range 32 x -> FIELD_EX32 x (FIELD 0 32) = x.
Proof.
  intros Hx. apply Z.bits_inj'. intros i Hi.
  rewrite FIELD_EX32_testbit by (done || lia). cbn. rewrite Z.add_0_r.
  destruct (Z.ltb_spec i 32); [done|]. cbn.
  apply in_range_testbit in Hx as [Hx _]; [|lia]. by rewrite Hx.
Qed.

Lemma major_done_plain c s e ch :
  edma_tcd s !! c = Some ch -> wf_tcd ch ->
  Z.testbit (tcd_csr ch) 7 = false -> Z.testbit (tcd_csr ch) 4 = false ->
  transmit_major_done c s e = Ok (put_tcd c (after_major ch) s, e).
Proof.
  intros Hc Hwf H7 H4. unfold transmit_major_done. rewrite (get_tcd_Some _ _ _ Hc), res_bind_Ok.
  cbv zeta. rewrite csr_flag_ESDA, H7, res_bind_Ok, csr_flag_ESG. tcd_cbn. rewrite H4, res_bind_Ok.
  unfold TCD_SLAST_SDA_SLAST_SDA, TCD_DLAST_SGA_DLAST_SGA.
  rewrite !FIELD32_id by (apply Hwf). done.
Qed.

Lemma copy_sizes k : 0 <= k <= 6 -> u32 (1 .<< k) = 2 ^ k /\ (k =? 7) = false.
Proof.
  intros Hk. rewrite Z.shiftl_1_l. split; [|lia]. apply wrapu_small. split; [lia|].
  apply Z.pow_lt_mono_r; lia.
Qed.

Lemma transmit_copy buf c s e ch k :
  edma_tcd s !! c = Some ch -> wf_tcd ch -> copy_cfg ch k -> 0 < citer_of ch ->
  copy_mem (tcd_saddr ch) (tcd_daddr ch) (copy_len ch k) ->
  let lvl := int_flag (irq_latch (after_minor ch (copy_len ch k))) in
  exists e1,
    nxps32k358_edma_transmit buf c s e =
      Ok (put_int c lvl (put_tcd c (after_request ch (copy_len ch k)) s), qemu_set_irq c lvl e1) /\
    copied (tcd_saddr ch) (tcd_daddr ch) (copy_len ch k) e e1.
Proof.
  intros Hc Hwf [Hk Hss Hds Hso Hdo H7 H4] Hci [] lvl.
  destruct (copy_sizes k Hk) as [Hsz Hk7]. unfold nxps32k358_edma_transmit.
  rewrite (get_tcd_Some _ _ _ Hc), res_bind_Ok. cbv zeta.
  rewrite Hss, Hds, Hk7. change (c_assert (negb false)) with (Ok tt).
  rewrite !res_bind_Ok, Hsz. fold (citer_of ch).
  destruct (Z.gtb_spec (citer_of ch) 0); [|lia].
  rewrite Z.gtb_ltb, Z.ltb_irrefl, Z.div_same by lia.
  set (nb := FIELD_EX32 (tcd_nbytes_mloff ch) TCD_NBYTES_MLOFF_NBYTES) in *.
  assert (Hnb : 0 <= nb) by (apply FIELD_EX32_range; done).
  assert (Hp : 0 < 2 ^ k) by lia.
  assert (Hq : 0 <= nb / 2 ^ k) by (apply Z.div_pos; lia).
  assert (Hlen : Z.of_nat (Z.to_nat (nb / 2 ^ k)) * Z.of_nat (Z.to_nat (2 ^ k)) = copy_len ch k)
    by (rewrite !Z2Nat.id by lia; done).
  destruct (minor_copy (Z.to_nat (nb / 2 ^ k)) (Z.to_nat (2 ^ k)) (tcd_saddr ch) (tcd_daddr ch)
              buf e) as (buf' & e1 & Hm & Hcp); rewrite ?Hlen; try done; [lia|].
  rewrite Hlen in Hm, Hcp. rewrite Z2Nat.id in Hm by lia.
  rewrite (wrapu_small 32 (tcd_saddr ch)), (wrapu_small 32 (tcd_daddr ch)) in Hm by apply Hwf.
  change (Z.to_nat 1) with 1%nat. rewrite Hso, Hdo, Hm, res_bind_Ok. tcd_cbn.
  fold (citer_of ch).
  assert (Hci15 : citer_of ch < 2 ^ 15) by (apply (FIELD_EX16_range _ TCD_CITER_CITER); done).
  rewrite (wrapu_small 32 (citer_of ch - 1)) by lia.
  exists e1. split; [|done].
  match goal with
  | |- context [nxps32k358_edma_tcd_update_irq c (put_tcd c ?x s) e1] =>
      replace x with (after_minor ch (copy_len ch k))
  end; [|unfold after_minor, set_tcd_daddr, set_tcd_saddr; by rewrite !wrapu_idem].
  set (am := after_minor ch (copy_len ch k)) in *.
  rewrite (update_irq_spec _ _ _ am), res_bind_Ok by (by eapply put_tcd_lookup).
  fold lvl. rewrite put_tcd_put.
  assert (Hl : edma_tcd (put_int c lvl (put_tcd c (irq_latch am) s)) !! c = Some (irq_latch am)).
  { unfold put_int. cbn. apply list_lookup_insert_eq. by eapply lookup_lt_Some. }
  rewrite (get_tcd_Some _ _ _ Hl), res_bind_Ok. fold (citer_of (irq_latch am)).
  unfold after_request. fold am. destruct (citer_of (irq_latch am) =? 0); [|done].
  rewrite (major_done_plain _ _ _ _ Hl).
  - by rewrite put_tcd_put_int, put_tcd_put.
  - unfold irq_latch, am, after_minor. case_match; auto 7 with edma.
  - unfold irq_latch, am, after_minor. by case_match.
  - unfold irq_latch, am, after_minor. by case_match.
Qed.

End Request.

(** ** Arbitration *)

(** Channel [j] has its START bit set. *)
Definition start_pending (s : NXPS32K358EDMAState) (j : nat) : bool :=
  match edma_tcd s !! j with Some ch => Z.testbit (tcd_csr ch) 0 | None => false end.

Section Arbitration.
Context {E : Type} {Env : DmaEnv E} {Laws : DmaEnvLaws E}.

Lemma arbitrate_step k i buf s e :
  length (edma_tcd s) = EDMA_CHANNELS ->
  arbitrate_loop (S k) i buf s e =
    let j := ((i + arb_offset s) mod EDMA_CHANNELS)%nat in
    if start_pending s j then arbitrate_service buf j s e else arbitrate_loop k (S i) buf s e.
Proof.
  intros Hl. cbn [arbitrate_loop]. cbv zeta.
  set (j := ((i + arb_offset s) mod EDMA_CHANNELS)%nat).
  assert (Hj : (j < length (edma_tcd s))%nat).
  { rewrite Hl. by apply Nat.mod_upper_bound. }
  apply lookup_lt_is_Some_2 in Hj as [ch Hch]. unfold start_pending.
  rewrite (get_tcd_Some _ _ _ Hch), res_bind_Ok, Hch.
  change TCD_CSR_START with (flag 0). by rewrite truthy_flag by lia.
Qed.

(** The loop services the first requesting channel in cyclic order. *)
Lemma arbitrate_loop_first k i d buf s e :
  length (edma_tcd s) = EDMA_CHANNELS -> (d < k)%nat ->
  (forall d', (d' < d)%nat ->
     start_pending s ((i + d' + arb_offset s) mod EDMA_CHANNELS)%nat = false) ->
  start_pending s ((i + d + arb_offset s) mod EDMA_CHANNELS)%nat = true ->
  arbitrate_loop k i buf s e =
    arbitrate_service buf ((i + d + arb_offset s) mod EDMA_CHANNELS)%nat s e.
Proof.
  revert i d. induction k as [|k IH]; intros i d Hl Hd Hno Hyes; [lia|].
  rewrite arbitrate_step by done. cbv zeta. destruct d as [|d].
  - rewrite Nat.add_0_r in *. by rewrite Hyes.
  - specialize (Hno 0%nat ltac:(lia)) as H0. rewrite Nat.add_0_r in H0. rewrite H0.
    rewrite (IH (S i) d); [|done|lia| |].
    + do 2 f_equal. lia.
    + intros d' Hd'. specialize (Hno (S d') ltac:(lia)).
      by replace (S i + d' + arb_offset s)%nat with (i + S d' + arb_offset s)%nat by lia.
    + by replace (S i + d + arb_offset s)%nat with (i + S d + arb_offset s)%nat by lia.
Qed.

Lemma arbitrate_loop_none k i buf s e :
  length (edma_tcd s) = EDMA_CHANNELS ->
  (forall j, (j < EDMA_CHANNELS)%nat -> start_pending s j = false) ->
  arbitrate_loop k i buf s e = Ok (s, e).
Proof.
  revert i. induction k as [|k IH]; intros i Hl Hno; [done|].
  rewrite arbitrate_step by done. cbv zeta.
  rewrite Hno by (by apply Nat.mod_upper_bound). by apply IH.
Qed.

(** The distance of channel [j] from the cursor, in the order of the scan. *)
Definition arb_dist (s : NXPS32K358EDMAState) (j : nat) : nat :=
  ((j + EDMA_CHANNELS - arb_offset s) mod EDMA_CHANNELS)%nat.

Lemma arb_dist_pos (n o j : nat) :
  (0 < n)%nat -> (j < n)%nat -> (o < n)%nat -> (((j + n - o) mod n + o) mod n)%nat = j.
Proof.
  intros Hn Hj Ho. rewrite Nat.Div0.add_mod_idemp_l.
  replace (j + n - o + o)%nat with (j + 1 * n)%nat by lia.
  rewrite Nat.Div0.mod_add. by apply Nat.mod_small.
Qed.

Lemma arb_dist_inj (n o d j : nat) :
  (d < n)%nat -> (o < n)%nat -> j = ((d + o) mod n)%nat -> ((j + n - o) mod n)%nat = d.
Proof.
  intros Hd Ho ->. destruct (Nat.lt_ge_cases (d + o) n).
  - rewrite (Nat.mod_small (d + o)) by lia.
    replace (d + o + n - o)%nat with (d + 1 * n)%nat by lia.
    rewrite Nat.Div0.mod_add. by apply Nat.mod_small.
  - replace (d + o)%nat with ((d + o - n) + 1 * n)%nat at 1 by lia.
    rewrite Nat.Div0.mod_add, (Nat.mod_small (d + o - n)) by lia.
    replace (d + o - n + n - o)%nat with d by lia. by apply Nat.mod_small.
Qed.

(** Among the requesting channels the nearest to the cursor is serviced. *)
Lemma arbitrate_nearest buf s e j :
  wf_edma s -> (j < EDMA_CHANNELS)%nat -> start_pending s j = true ->
  (forall i, (i < EDMA_CHANNELS)%nat -> start_pending s i = true ->
     (arb_dist s j <= arb_dist s i)%nat) ->
  nxps32k358_edma_arbitrate buf s e = arbitrate_service buf j s e.
Proof.
  intros Hwf Hj Hp Hmin. pose proof (wf_offset _ Hwf) as Ho.
  assert (Hd : (arb_dist s j < EDMA_CHANNELS)%nat) by (by apply Nat.mod_upper_bound).
  assert (Hpos : ((0 + arb_dist s j + arb_offset s) mod EDMA_CHANNELS)%nat = j)
    by (apply arb_dist_pos; unfold EDMA_CHANNELS in *; lia).
  unfold nxps32k358_edma_arbitrate.
  rewrite (arbitrate_loop_first _ 0 (arb_dist s j)); rewrite ?Hpos; try done; [apply Hwf|].
  intros d' Hd'. apply not_true_is_false. intros Hs.
  apply Hmin in Hs; [|by apply Nat.mod_upper_bound].
  unfold arb_dist at 2 in Hs. rewrite (arb_dist_inj _ _ d') in Hs by (done || lia). lia.
Qed.

(** With one requesting channel, that channel is serviced. *)
Lemma arbitrate_only buf s e j :
  wf_edma s -> (j < EDMA_CHANNELS)%nat -> start_pending s j = true ->
  (forall i, i <> j -> start_pending s i = false) ->
  nxps32k358_edma_arbitrate buf s e = arbitrate_service buf j s e.
Proof.
  intros Hwf Hj Hp Ho. apply arbitrate_nearest; try done.
  intros i _ Hi. destruct (decide (i = j)) as [->|Hne]; [lia|].
  by rewrite Ho in Hi.
Qed.

End Arbitration.

(** ** A software start and a whole major loop *)

Section MajorLoop.
Context {E : Type} {Env : DmaEnv E} {Laws : DmaEnvLaws E}.

(** The channel as [nxps32k358_edma_transmit] finds it, after the guest wrote
    [v] to its control register and the arbiter took the request. *)
Definition request_start (v : Z) (ch : NXPS32K358EDMATCDState) : NXPS32K358EDMATCDState :=
  let ch1 := set_tcd_csr v ch in
  let ch2 := set_ch_csr (ch_csr ch1 .& .~ field_mask CH_CSR_DONE) ch1 in
  let ch3 := set_tcd_csr (tcd_csr ch2 .& .~ field_mask TCD_CSR_START) ch2 in
  set_ch_csr (ch_csr ch3 .| field_mask CH_CSR_ACTIVE) ch3.

(** A control word that starts the channel without linking, scatter/gather or
    destination-address store. *)
Record start_word (v : Z) : Prop := {
  sw_start : Z.testbit v 0 = true;
  sw_elink : Z.testbit v 5 = false;
  sw_esg : Z.testbit v 4 = false;
  sw_esda : Z.testbit v 7 = false
}.

Lemma request_csr v ch i :
  0 <= i < 16 -> Z.testbit (tcd_csr (request_start v ch)) i = negb (i =? 0) && Z.testbit v i.
Proof.
  intros Hi. unfold request_start. tcd_cbn. change TCD_CSR_START with (flag 0).
  rewrite wrapu_testbit, clear_mask_testbit, wrapu_testbit by lia.
  destruct (Z.ltb_spec i 16); [done|lia].
Qed.

Lemma field_flag_zero v n : 0 <= n < 64 -> (v .& field_mask (flag n) =? 0) = negb (Z.testbit v n).
Proof. intros Hn. rewrite <- (truthy_flag v n Hn). unfold truthy. by rewrite negb_involutive. Qed.

Lemma wf_request_start v ch : wf_tcd ch -> wf_tcd (request_start v ch).
Proof. intros. unfold request_start. auto with edma. Qed.

(** Writing a start word to the only requesting channel runs its transfer. *)
Lemma start_write buf v sz c s e ch :
  wf_edma s -> edma_tcd s !! c = Some ch ->
  Z.testbit v 0 = true -> Z.testbit v 5 = false ->
  (forall j, j <> c -> start_pending s j = false) ->
  nxps32k358_edma_tcd_write buf A_TCD_CSR v sz c s e =
    ('(s, e) ← nxps32k358_edma_transmit buf c (put_tcd c (request_start v ch) s) e;
     Ok (set_arb_offset ((c + 1) mod EDMA_CHANNELS)%nat s, e)).
Proof.
  intros Hwf Hc H0 H5 Hno.
  assert (Hlt : (c < EDMA_CHANNELS)%nat).
  { rewrite <- (wf_tcd_length _ Hwf). by eapply lookup_lt_Some. }
  set (s1 := put_tcd c (set_tcd_csr v ch) s).
  assert (Hs1 : edma_tcd s1 !! c = Some (set_tcd_csr v ch)) by (by eapply put_tcd_lookup).
  transitivity (nxps32k358_edma_arbitrate buf s1 e).
  { unfold nxps32k358_edma_tcd_write. rewrite (get_tcd_Some _ _ _ Hc), res_bind_Ok.
    unfold A_TCD_CSR. cbv zeta. cbn [orb].
    change TCD_CSR_MAJORELINK with (flag 5). rewrite field_flag_zero, H5 by lia.
    change TCD_CSR_START with (flag 0). rewrite truthy_flag, H0 by lia. done. }
  rewrite (arbitrate_only _ _ _ c); [|apply wf_put_tcd; [done|];
    apply wf_set_tcd_csr; by eapply Forall_lookup_1; [apply Hwf|]|done| |].
  - unfold arbitrate_service. rewrite (get_tcd_Some _ _ _ Hs1), res_bind_Ok. cbv zeta.
    unfold s1. by rewrite put_tcd_put.
  - unfold start_pending. rewrite Hs1. tcd_cbn. rewrite wrapu_testbit by lia. done.
  - intros j Hj. specialize (Hno j Hj). unfold start_pending in *. unfold s1. cbn.
    by rewrite list_lookup_insert_ne.
Qed.

(** The settings of a channel that a transfer leaves alone. *)
Definition same_setup (a b : NXPS32K358EDMATCDState) : Prop :=
  tcd_attr b = tcd_attr a /\ tcd_soff b = tcd_soff a /\ tcd_doff b = tcd_doff a /\
  tcd_nbytes_mloff b = tcd_nbytes_mloff a /\ tcd_slast_sda b = tcd_slast_sda a /\
  tcd_dlast_sga b = tcd_dlast_sga a /\ tcd_biter b = tcd_biter a.

Lemma citer_after_minor ch len :
  wf_tcd ch -> 0 < citer_of ch -> citer_of (irq_latch (after_minor ch len)) = citer_of ch - 1.
Proof.
  intros Hwf Hc. rewrite irq_latch_citer.
  unfold citer_of at 1, after_minor. tcd_cbn.
  rewrite u16_FIELD_DP16.
  rewrite FIELD_EX_DP16; [|done|apply Hwf].
  apply wrapu_small. pose proof (FIELD_EX16_range (tcd_citer ch) TCD_CITER_CITER eq_refl) as Hr.
  fold (citer_of ch) in Hr. unfold in_range in Hr. cbn [field_length TCD_CITER_CITER] in *. lia.
Qed.

(** The part of [copy_cfg] that does not come from the start word. *)
Record copy_setup (ch : NXPS32K358EDMATCDState) (k : Z) : Prop := {
  cs_k : 0 <= k <= 6;
  cs_ssize : FIELD_EX16 (tcd_attr ch) TCD_ATTR_SSIZE = k;
  cs_dsize : FIELD_EX16 (tcd_attr ch) TCD_ATTR_DSIZE = k;
  cs_soff : tcd_soff ch = 2 ^ k;
  cs_doff : tcd_doff ch = 2 ^ k
}.

Lemma copy_cfg_request v ch k : start_word v -> copy_setup ch k -> copy_cfg (request_start v ch) k.
Proof.
  intros [] []. split; try done; by rewrite request_csr by lia.
Qed.

(** The state after one request on channel [c]. *)
Definition requested (v : Z) (c : nat) (ch : NXPS32K358EDMATCDState) (len : Z)
    (s : NXPS32K358EDMAState) : NXPS32K358EDMAState :=
  let lvl := int_flag (irq_latch (after_minor (request_start v ch) len)) in
  set_arb_offset ((c + 1) mod EDMA_CHANNELS)%nat
    (put_int c lvl (put_tcd c (after_request (request_start v ch) len) s)).

Lemma request_copy buf v sz c s e ch k :
  wf_edma s -> edma_tcd s !! c = Some ch -> start_word v -> copy_setup ch k ->
  0 < citer_of ch -> copy_mem (tcd_saddr ch) (tcd_daddr ch) (copy_len ch k) ->
  (forall j, j <> c -> start_pending s j = false) ->
  exists e1,
    nxps32k358_edma_tcd_write buf A_TCD_CSR v sz c s e = Ok (requested v c ch (copy_len ch k) s, e1) /\
    copied (tcd_saddr ch) (tcd_daddr ch) (copy_len ch k) e e1 /\
    irq_level e1 c = int_flag (irq_latch (after_minor (request_start v ch) (copy_len ch k))).
Proof.
  intros Hwf Hc Hsw Hcs Hci Hcm Hno. rewrite (start_write _ _ _ _ _ _ ch) by (done || apply Hsw).
  assert (Hwc : wf_tcd ch) by (by eapply Forall_lookup_1; [apply Hwf|]).
  destruct (transmit_copy buf c (put_tcd c (request_start v ch) s) e (request_start v ch) k)
    as (e1 & Ht & Hcp); try done.
  - by eapply put_tcd_lookup.
  - by apply wf_request_start.
  - by apply copy_cfg_request.
  - rewrite Ht, res_bind_Ok. eexists. split; [unfold requested; by rewrite put_tcd_put|].
    split; [|rewrite set_irq_level; by case_decide].
    eapply copied_ext; [exact Hcp|]. intros x. apply set_irq_bytes.
Qed.

Lemma request_setup v ch len : same_setup ch (after_request (request_start v ch) len).
Proof.
  unfold after_request, irq_latch.
  repeat case_match; repeat split; reflexivity.
Qed.

(** A request that does not end the major loop. *)
Lemma request_more v ch len :
  wf_tcd ch -> 1 < citer_of ch ->
  let ch' := after_request (request_start v ch) len in
  citer_of ch' = citer_of ch - 1 /\ tcd_saddr ch' = u32 (tcd_saddr ch + len) /\
  tcd_daddr ch' = u32 (tcd_daddr ch + len).
Proof.
  intros Hwf Hc ch'. subst ch'. unfold after_request.
  rewrite citer_after_minor by (by apply wf_request_start || (change (0 < citer_of ch); lia)).
  change (citer_of (request_start v ch)) with (citer_of ch).
  destruct (Z.eqb_spec (citer_of ch - 1) 0); [lia|].
  rewrite citer_after_minor by (by apply wf_request_start || (change (0 < citer_of ch); lia)).
  by autorewrite with edma.
Qed.

(** The request that ends the major loop. *)
Lemma request_last v ch len :
  wf_tcd ch -> citer_of ch = 1 ->
  let ch' := after_request (request_start v ch) len in
  citer_of ch' = biter_of ch /\
  tcd_saddr ch' = u32 (tcd_saddr ch + len + tcd_slast_sda ch) /\
  tcd_daddr ch' = u32 (tcd_daddr ch + len + tcd_dlast_sga ch) /\
  Z.testbit (ch_csr ch') 30 = true /\ Z.testbit (ch_csr ch') 31 = false /\
  int_flag ch' = true /\ Z.testbit (tcd_csr ch') 0 = false.
Proof.
  intros Hwf Hc ch'. subst ch'. unfold after_request.
  rewrite citer_after_minor by (by apply wf_request_start || (change (0 < citer_of ch); lia)).
  change (citer_of (request_start v ch)) with (citer_of ch). rewrite Hc. change (1 - 1 =? 0) with true. cbv iota.
  set (am := after_minor (request_start v ch) len).
  assert (Ham : in_range 16 (tcd_citer am)) by (by apply in_range_wrapu).
  unfold after_major. change CH_CSR_DONE with (flag 30). change CH_INT_INT with (flag 0).
  autorewrite with edma.
  split; [|split; [|split; [|split; [|split; [|split]]]]].
  - unfold citer_of. tcd_cbn. rewrite u16_FIELD_DP16.
    rewrite FIELD_EX_DP16 by done. change (biter_of am) with (biter_of ch).
    apply wrapu_small, biter_range.
  - unfold am, after_minor, request_start. tcd_cbn. apply wrapu_add_l.
  - unfold am, after_minor, request_start. tcd_cbn. apply wrapu_add_l.
  - tcd_cbn. rewrite wrapu_testbit, set_mask_testbit by lia. done.
  - tcd_cbn. rewrite wrapu_testbit, set_mask_testbit by lia.
    unfold am, after_minor. tcd_cbn. change CH_CSR_ACTIVE with (flag 31).
    rewrite wrapu_testbit, clear_mask_testbit by lia. done.
  - unfold int_flag. tcd_cbn. rewrite wrapu_testbit, set_mask_testbit by lia. done.
  - tcd_cbn. rewrite irq_latch_csr.
    exact (request_csr v ch 0 ltac:(lia)).
Qed.

(** A start request repeated [n] times. *)
Fixpoint run_starts (n : nat) (buf : list Z) (v sz : Z) (c : nat) (s : NXPS32K358EDMAState) (e : E)
  : res (NXPS32K358EDMAState * E) :=
  match n with
  | O => Ok (s, e)
  | S n =>
      '(s, e) ← nxps32k358_edma_tcd_write buf A_TCD_CSR v sz c s e;
      run_starts n buf v sz c s e
  end.

Lemma requested_lookup v c ch len s :
  (c < length (edma_tcd s))%nat ->
  edma_tcd (requested v c ch len s) !! c = Some (after_request (request_start v ch) len).
Proof. intros Hc. unfold requested. cbn. by apply list_lookup_insert_eq. Qed.

Lemma requested_other v c ch len s j :
  j <> c -> edma_tcd (requested v c ch len s) !! j = edma_tcd s !! j.
Proof. intros Hj. unfold requested. cbn. by apply list_lookup_insert_ne. Qed.

Lemma requested_pending v c ch len s j :
  j <> c -> start_pending (requested v c ch len s) j = start_pending s j.
Proof. intros Hj. unfold start_pending. by rewrite requested_other. Qed.

Lemma wf_after_request v ch len : wf_tcd ch -> wf_tcd (after_request (request_start v ch) len).
Proof.
  intros Hwf. apply (wf_request_start v) in Hwf. unfold after_request.
  assert (wf_tcd (irq_latch (after_minor (request_start v ch) len))).
  { unfold irq_latch, after_minor. case_match; auto 7 with edma. }
  case_match; [|done]. unfold after_major. auto 7 with edma.
Qed.

Lemma wf_requested v c ch len s : wf_edma s -> wf_tcd ch -> wf_edma (requested v c ch len s).
Proof.
  intros Hs Hc. apply wf_set_arb_offset; [by apply Nat.mod_upper_bound|].
  apply wf_set_edma_int, wf_put_tcd; [done|]. by apply wf_after_request.
Qed.

Lemma copy_mem_head sa da l m : 0 <= l -> 0 <= m -> copy_mem sa da (l + m) -> copy_mem sa da l.
Proof.
  intros Hl Hm [? ? ? ? Hr Hw Hd]. split; try lia; [intros; apply Hr; lia|intros; apply Hw; lia|].
  unfold disjoint_ranges in *. lia.
Qed.

Lemma copy_mem_tail sa da l m :
  0 <= l -> 0 <= m -> copy_mem sa da (l + m) -> copy_mem (sa + l) (da + l) m.
Proof.
  intros Hl Hm [? ? ? ? Hr Hw Hd]. split; try lia; [intros; apply Hr; lia|intros; apply Hw; lia|].
  unfold disjoint_ranges in *. lia.
Qed.

Lemma copy_len_nonneg ch k : 0 <= k -> 0 <= copy_len ch k.
Proof.
  intros Hk. apply Z.mul_nonneg_nonneg; [|lia]. apply Z.div_pos; [|lia].
  exact (proj1 (FIELD_EX32_range _ TCD_NBYTES_MLOFF_NBYTES eq_refl)).
Qed.

(** The last request raises the line when INTMAJOR is enabled. *)
Lemma last_request_level v ch len :
  wf_tcd ch -> citer_of ch = 1 -> Z.testbit v 1 = true ->
  int_flag (irq_latch (after_minor (request_start v ch) len)) = true.
Proof.
  intros Hwf Hc Hv. set (am := after_minor (request_start v ch) len).
  assert (H0 : citer_of am = 0).
  { rewrite <- (irq_latch_citer am). unfold am.
    rewrite citer_after_minor; [change (citer_of ch - 1 = 0); lia|by apply wf_request_start|].
    change (0 < citer_of ch). lia. }
  assert (H1 : Z.testbit (tcd_csr am) 1 = true).
  { change (tcd_csr am) with (tcd_csr (request_start v ch)). by rewrite request_csr, Hv. }
  unfold irq_latch, irq_raise. rewrite H0, H1, orb_true_r. unfold int_flag. tcd_cbn.
  change CH_INT_INT with (flag 0). by rewrite wrapu_testbit, set_mask_testbit.
Qed.

(** What holds when a major loop of [len] bytes has been run on channel [c]. *)
Record loop_done (v : Z) (c : nat) (len : Z) (ch : NXPS32K358EDMATCDState)
    (s : NXPS32K358EDMAState) (e : E) (s' : NXPS32K358EDMAState) (e' : E) : Prop := {
  ld_copied : copied (tcd_saddr ch) (tcd_daddr ch) len e e';
  ld_channel : exists ch', edma_tcd s' !! c = Some ch' /\ same_setup ch ch' /\
    citer_of ch' = biter_of ch /\
    tcd_saddr ch' = u32 (tcd_saddr ch + len + tcd_slast_sda ch) /\
    tcd_daddr ch' = u32 (tcd_daddr ch + len + tcd_dlast_sga ch) /\
    Z.testbit (ch_csr ch') 30 = true /\ Z.testbit (ch_csr ch') 31 = false /\
    int_flag ch' = true /\ Z.testbit (tcd_csr ch') 0 = false;
  ld_others j : j <> c -> edma_tcd s' !! j = edma_tcd s !! j;
  ld_irq : Z.testbit v 1 = true -> irq_level e' c = true;
  ld_wf : wf_edma s'
}.

Lemma run_starts_copy buf v sz c k (n : nat) s e ch :
  wf_edma s -> edma_tcd s !! c = Some ch -> start_word v -> copy_setup ch k ->
  citer_of ch = Z.of_nat (S n) ->
  copy_mem (tcd_saddr ch) (tcd_daddr ch) (Z.of_nat (S n) * copy_len ch k) ->
  (forall j, j <> c -> start_pending s j = false) ->
  exists s' e', run_starts (S n) buf v sz c s e = Ok (s', e') /\
    loop_done v c (Z.of_nat (S n) * copy_len ch k) ch s e s' e'.
Proof.
  revert s e ch. induction n as [|n IH]; intros s e ch Hwf Hc Hsw Hcs Hci Hcm Hno.
  all: assert (Hwc : wf_tcd ch) by (by eapply Forall_lookup_1; [apply Hwf|]).
  all: assert (Hlt : (c < length (edma_tcd s))%nat) by (by eapply lookup_lt_Some).
  all: assert (HL : 0 <= copy_len ch k) by (apply copy_len_nonneg, Hcs).
  all: set (L := copy_len ch k) in *.
  - change (Z.of_nat 1) with 1 in *. rewrite Z.mul_1_l in *.
    destruct (request_copy buf v sz c s e ch k Hwf Hc Hsw Hcs ltac:(lia) Hcm Hno)
      as (e1 & Hw & Hcp & Hlv).
    exists (requested v c ch L s), e1. cbn [run_starts]. fold L in Hw. rewrite Hw.
    split; [reflexivity|]. split.
    + exact Hcp.
    + exists (after_request (request_start v ch) L).
      split; [exact (requested_lookup v c ch L s Hlt)|].
      split; [exact (request_setup v ch L)|]. exact (request_last v ch L Hwc Hci).
    + intros j Hj. exact (requested_other v c ch L s j Hj).
    + intros Hv. rewrite Hlv. exact (last_request_level v ch L Hwc Hci Hv).
    + exact (wf_requested v c ch L s Hwf Hwc).
  - assert (Hsum : Z.of_nat (S (S n)) * L = L + Z.of_nat (S n) * L) by lia.
    assert (Hrest : L <= Z.of_nat (S n) * L) by lia.
    rewrite Hsum in *.
    destruct (request_copy buf v sz c s e ch k Hwf Hc Hsw Hcs ltac:(lia)
                (copy_mem_head _ _ L (Z.of_nat (S n) * L) HL ltac:(lia) Hcm) Hno) as (e1 & Hw & Hcp & Hlv).
    destruct (request_more v ch L Hwc ltac:(lia)) as (Hc' & Hsa & Hda).
    destruct (request_setup v ch L) as (S1 & S2 & S3 & S4 & S5 & S6 & S7).
    pose proof (requested_lookup v c ch L s Hlt) as Hl1.
    pose proof (wf_requested v c ch L s Hwf Hwc) as Hwf1.
    pose proof (fun j => requested_other v c ch L s j) as Ho1.
    pose proof (fun j => requested_pending v c ch L s j) as Hp1.
    pose proof (wf_tcd_saddr _ Hwc) as Hws. pose proof (wf_tcd_daddr _ Hwc) as Hwd.
    pose proof (cm_src_end _ _ _ Hcm). pose proof (cm_dst_end _ _ _ Hcm). unfold in_range in Hws, Hwd.
    revert Hw Hc' Hsa Hda S1 S2 S3 S4 S5 S6 S7 Hl1 Hwf1 Ho1 Hp1. fold L.
    generalize (after_request (request_start v ch) L) as ch1. generalize (requested v c ch L s) as s1.
    intros s1 ch1 Hw Hc' Hsa Hda S1 S2 S3 S4 S5 S6 S7 Hl1 Hwf1 Ho1 Hp1.
    rewrite wrapu_small in Hsa by lia. rewrite wrapu_small in Hda by lia.
    assert (HL1 : copy_len ch1 k = L) by (unfold L, copy_len; by rewrite S4).
    destruct (IH s1 e1 ch1) as (s' & e' & Hrun & [Dc Dch Do Di Dw]).
    + exact Hwf1.
    + exact Hl1.
    + exact Hsw.
    + destruct Hcs. split; congruence.
    + rewrite Hc', Hci. lia.
    + rewrite HL1, Hsa, Hda. exact (copy_mem_tail _ _ L (Z.of_nat (S n) * L) HL ltac:(lia) Hcm).
    + intros j Hj. rewrite (Hp1 j Hj). exact (Hno j Hj).
    + exists s', e'. split; [cbn [run_starts] in Hrun |- *; by rewrite Hw, res_bind_Ok|].
      rewrite HL1, Hsa, Hda in Dc. rewrite HL1 in Dch. split.
      * eapply copied_app; [lia|lia| |exact Hcp|exact Dc]. apply Hcm.
      * destruct Dch as (ch' & Hl' & (T1 & T2 & T3 & T4 & T5 & T6 & T7) & D1 & D2 & D3 & D4).
        exists ch'. split; [exact Hl'|]. split; [unfold same_setup; repeat split; congruence|].
        split; [unfold biter_of in *; congruence|].
        rewrite D2, D3, S5, S6, Hsa, Hda, !Z.add_assoc. auto.
      * intros j Hj. rewrite (Do j Hj). exact (Ho1 j Hj).
      * exact Di.
      * exact Dw.
Qed.

End MajorLoop.
