(* ===== verification/EdmaProps.v ===== *)
(** * The contract of the eDMA controller

    Frame lemmas (what an operation on one channel leaves alone), starvation
    freedom of the arbiter, the register file seen through the two windows,
    the accesses that abort the emulator, and the stated properties of the
    device, each with a witness in the flat environment. *)

From S2P Require Import Prelude Bits Interfaces Edma EdmaTheory.

(** ** What an operation on channel [c] leaves alone *)

Record same_but (c : nat) (s s' : NXPS32K358EDMAState) : Prop := {
  sb_offset : arb_offset s' = arb_offset s;
  sb_csr : edma_csr s' = edma_csr s;
  sb_es : edma_es s' = edma_es s;
  sb_hrs : edma_hrs s' = edma_hrs s;
  sb_grpri : edma_chn_grpri s' = edma_chn_grpri s;
  sb_tcd i : i <> c -> edma_tcd s' !! i = edma_tcd s !! i;
  sb_int i : i <> c -> (i < EDMA_CHANNELS)%nat ->
    Z.testbit (edma_int s') (Z.of_nat i) = Z.testbit (edma_int s) (Z.of_nat i)
}.

#[export] Instance same_but_preorder c : PreOrder (same_but c).
Proof.
  split.
  - intros s. split; done.
  - intros s1 s2 s3 [O C S H G T I] [O' C' S' H' G' T' I']. split; try congruence.
    + intros i Hi. by rewrite T', T.
    + intros i Hi Hlt. by rewrite I', I.
Qed.

Lemma same_but_put_tcd c ch s : same_but c s (put_tcd c ch s).
Proof. split; try done. intros i Hi. cbn. by rewrite list_lookup_insert_ne. Qed.

Lemma same_but_put_int c b s : same_but c s (put_int c b s).
Proof.
  split; try done. intros i Hi Hlt. unfold put_int, set_edma_int; cbn [edma_int].
  unfold EDMA_CHANNELS in Hlt. rewrite wrapu_testbit by lia.
  destruct (Z.ltb_spec (Z.of_nat i) 32); [|lia].
  destruct b.
  - rewrite Z.lor_spec, testbit_1_shiftl by lia.
    destruct (Z.eqb_spec (Z.of_nat i) (Z.of_nat c)); [lia|by rewrite orb_false_r].
  - rewrite Z.land_spec, Z.lnot_spec, testbit_1_shiftl by lia.
    destruct (Z.eqb_spec (Z.of_nat i) (Z.of_nat c)); [lia|by rewrite andb_true_r].
Qed.

Section Frame.
Context {E : Type} {Env : DmaEnv E}.

Lemma get_tcd_inv s c ch : get_tcd s c = Ok ch -> edma_tcd s !! c = Some ch.
Proof. unfold get_tcd. destruct (edma_tcd s !! c); [by intros [= ->]|discriminate]. Qed.

Lemma update_irq_frame c s (e : E) s' e' :
  nxps32k358_edma_tcd_update_irq c s e = Ok (s', e') -> same_but c s s'.
Proof.
  intros Hu. pose proof Hu as Hg. apply res_bind_inv in Hg as (ch & Hg%get_tcd_inv & _).
  rewrite (update_irq_spec c s e ch Hg) in Hu. apply Ok_pair_inv in Hu as [-> _].
  etrans; [apply same_but_put_tcd|apply same_but_put_int].
Qed.

Lemma major_done_frame c s (e : E) s' e' :
  transmit_major_done c s e = Ok (s', e') -> same_but c s s'.
Proof.
  intros (ch & _ & Hd)%res_bind_inv. apply res_bind_inv in Hd as (ch1 & _ & Hd).
  apply res_bind_inv in Hd as ([ch2 e2] & _ & Hd). apply Ok_pair_inv in Hd as [-> _].
  apply same_but_put_tcd.
Qed.

Lemma transmit_frame buf c s (e : E) s' e' :
  nxps32k358_edma_transmit buf c s e = Ok (s', e') -> same_but c s s'.
Proof.
  intros (ch & _ & Ht)%res_bind_inv. cbv zeta in Ht.
  apply res_bind_inv in Ht as (? & _ & Ht). apply res_bind_inv in Ht as (? & _ & Ht).
  apply res_bind_inv in Ht as ([s1 e1] & H1 & Ht). trans s1.
  { case_match; [|by apply Ok_pair_inv in H1 as [-> _]].
    apply res_bind_inv in H1 as ([[[sa da] b] e2] & _ & Hu%update_irq_frame).
    etrans; [apply same_but_put_tcd|exact Hu]. }
  apply res_bind_inv in Ht as (ch1 & _ & Ht).
  case_match; [by eapply major_done_frame|]. by apply Ok_pair_inv in Ht as [-> _].
Qed.

(** Serving channel [j] changes channel [j] and points the arbiter past it. *)
Lemma service_frame buf j s (e : E) s' e' :
  arbitrate_service buf j s e = Ok (s', e') ->
  arb_offset s' = ((j + 1) mod EDMA_CHANNELS)%nat /\
  forall i, i <> j -> edma_tcd s' !! i = edma_tcd s !! i.
Proof.
  intros (ch & _ & Hs)%res_bind_inv. cbv zeta in Hs.
  apply res_bind_inv in Hs as ([s1 e1] & Ht%transmit_frame & Hs).
  apply Ok_pair_inv in Hs as [-> _]. split; [done|]. intros i Hi. cbn.
  rewrite (sb_tcd _ _ _ Ht i Hi). exact (sb_tcd _ _ _ (same_but_put_tcd j _ s) i Hi).
Qed.

Lemma service_pending buf j s (e : E) s' e' i :
  arbitrate_service buf j s e = Ok (s', e') -> i <> j -> start_pending s' i = start_pending s i.
Proof. intros [_ H]%service_frame Hi. unfold start_pending. by rewrite H. Qed.

End Frame.

(** ** The arbiter is starvation free *)

Section Fairness.
Context {E : Type} {Env : DmaEnv E} {Laws : DmaEnvLaws E}.

Lemma mod_shift (n x p : nat) :
  (x < n)%nat -> (p < n)%nat ->
  ((x + n - p) mod n = if decide (p <= x) then x - p else x + n - p)%nat.
Proof.
  intros Hx Hp. case_decide.
  - replace (x + n - p)%nat with (x - p + 1 * n)%nat by lia.
    rewrite Nat.Div0.mod_add. apply Nat.mod_small. lia.
  - apply Nat.mod_small. lia.
Qed.

(** The distance to a pending channel shrinks when another one is served. *)
Lemma arb_dist_shift (n o i j : nat) :
  (o < n)%nat -> (i < n)%nat -> (j < n)%nat -> i <> j ->
  ((j + n - o) mod n <= (i + n - o) mod n)%nat ->
  ((i + n - (j + 1) mod n) mod n < (i + n - o) mod n)%nat.
Proof.
  intros Ho Hi Hj Hne Hle.
  assert (Hj1 : ((j + 1) mod n = if decide (j + 1 = n) then 0 else j + 1)%nat).
  { clear Hle. case_decide as Hd; [by rewrite Hd, Nat.Div0.mod_same|apply Nat.mod_small; lia]. }
  rewrite !mod_shift in Hle by lia. rewrite (mod_shift n i o) by lia.
  rewrite mod_shift by (rewrite ?Hj1; case_decide; lia). rewrite Hj1.
  repeat case_decide; lia.
Qed.

Lemma nearest_pending s i :
  (i < EDMA_CHANNELS)%nat -> start_pending s i = true ->
  exists j, (j < EDMA_CHANNELS)%nat /\ start_pending s j = true /\
    (arb_dist s j <= arb_dist s i)%nat /\
    forall x, (x < EDMA_CHANNELS)%nat -> start_pending s x = true ->
      (arb_dist s j <= arb_dist s x)%nat.
Proof.
  remember (arb_dist s i) as d eqn:Hd. revert i Hd.
  induction (lt_wf d) as [d _ IH]. intros i -> Hi Hp.
  destruct (decide (Exists (fun x => start_pending s x = true /\ (arb_dist s x < arb_dist s i)%nat)
                      (seq 0 EDMA_CHANNELS))) as [(x & Hx & Hpx & Hlt)%Exists_exists|Hno].
  - apply elem_of_seq in Hx.
    destruct (IH _ Hlt x eq_refl ltac:(lia) Hpx) as (j & Hj & Hpj & Hjx & Hmin).
    exists j. repeat split; [done|done|lia|done].
  - exists i. repeat split; [done|done|lia|]. intros x Hx Hpx.
    destruct (Nat.le_gt_cases (arb_dist s i) (arb_dist s x)) as [|Hgt]; [done|].
    destruct Hno. apply Exists_exists. exists x. split; [apply elem_of_seq; lia|done].
Qed.

(** [n] arbitrations in a row. *)
Fixpoint arbitrations (n : nat) (buf : list Z) (s : NXPS32K358EDMAState) (e : E)
  : res (NXPS32K358EDMAState * E) :=
  match n with
  | O => Ok (s, e)
  | S n => '(s, e) ← nxps32k358_edma_arbitrate buf s e; arbitrations n buf s e
  end.

Lemma arbitrations_serve n buf s e i r :
  edma_inv s e -> (i < EDMA_CHANNELS)%nat -> start_pending s i = true ->
  (arb_dist s i < n)%nat -> arbitrations n buf s e = Ok r ->
  exists k s1 e1, (k <= arb_dist s i)%nat /\ arbitrations k buf s e = Ok (s1, e1) /\
    start_pending s1 i = true /\
    nxps32k358_edma_arbitrate buf s1 e1 = arbitrate_service buf i s1 e1.
Proof.
  revert s e. induction n as [|n IH]; intros s e Hinv Hi Hp Hd Hrun; [lia|].
  destruct (nearest_pending s i Hi Hp) as (j & Hj & Hpj & Hji & Hmin).
  pose proof (arbitrate_nearest buf s e j (proj1 Hinv) Hj Hpj Hmin) as Harb.
  destruct (decide (j = i)) as [->|Hne].
  { exists 0%nat, s, e. repeat split; [lia|done|done]. }
  apply res_bind_inv in Hrun as ([s1 e1] & Ha & Hrun).
  pose proof Ha as Hs. rewrite Harb in Hs.
  pose proof (service_frame _ _ _ _ _ _ Hs) as [Ho _].
  pose proof (arb_dist_shift EDMA_CHANNELS (arb_offset s) i j (wf_offset _ (proj1 Hinv)) Hi Hj
                (not_eq_sym Hne) Hji) as Hlt.
  assert (Hd1 : (arb_dist s1 i < arb_dist s i)%nat) by (unfold arb_dist; by rewrite Ho).
  destruct (IH s1 e1) as (k & s2 & e2 & Hk & Hk1 & Hp2 & Hk2); [..|].
  - by eapply arbitrate_service_inv.
  - done.
  - by rewrite (service_pending _ _ _ _ _ _ _ Hs).
  - lia.
  - done.
  - exists (S k), s2, e2. repeat split; [lia| |done|done]. cbn [arbitrations]. by rewrite Ha, res_bind_Ok.
Qed.

End Fairness.

(** ** The register file of a channel *)

(** What a plain data register of a TCD holds after [v] is written to it:
    the value at the width and signedness of its field. *)
Definition plain_image (off v : Z) : option Z :=
  if bool_decide (off ∈ [A_TCD_SADDR; A_TCD_NBYTES_MLOFF; A_TCD_SLAST_SDA; A_TCD_DADDR; A_TCD_DLAST_SGA])
  then Some (u32 v)
  else if bool_decide (off ∈ [A_TCD_ATTR; A_TCD_DOFF; A_TCD_CITER; A_TCD_CSR; A_TCD_BITER])
  then Some (u16 v)
  else if off =? A_TCD_SOFF then Some (u32 (s16 v)) else None.

(** The assertions of [nxps32k358_edma_tcd_write], as a predicate on the
    written value: the features the model does not support. *)
Definition write_supported (off v : Z) (ch : NXPS32K358EDMATCDState) : bool :=
  if off =? A_TCD_NBYTES_MLOFF then negb (Z.testbit v 31) && negb (Z.testbit v 30)
  else if off =? A_TCD_CITER then negb (Z.testbit v 15) && (v =? biter_of ch)
  else if off =? A_TCD_CSR then negb (Z.testbit v 5)
  else if off =? A_TCD_BITER then negb (Z.testbit v 15)
  else true.

(** The access does not start a transfer. *)
Definition no_start (off v : Z) : bool := negb ((off =? A_TCD_CSR) && Z.testbit v 0).

Lemma plain_cases off v x :
  plain_image off v = Some x ->
  (off ∈ [A_TCD_SADDR; A_TCD_NBYTES_MLOFF; A_TCD_SLAST_SDA; A_TCD_DADDR; A_TCD_DLAST_SGA] /\ x = u32 v) \/
  (off ∈ [A_TCD_ATTR; A_TCD_DOFF; A_TCD_CITER; A_TCD_CSR; A_TCD_BITER] /\ x = u16 v) \/
  (off = A_TCD_SOFF /\ x = u32 (s16 v)).
Proof.
  unfold plain_image. repeat case_bool_decide; [intros [= <-]; by left|intros [= <-]; by right; left|].
  destruct (Z.eqb_spec off A_TCD_SOFF); [intros [= <-]; by right; right|discriminate].
Qed.

Lemma biter_of_32 ch : FIELD_EX32 (tcd_biter ch) TCD_BITER_BITER = biter_of ch.
Proof.
  apply Z.bits_inj'. intros i Hi. unfold biter_of.
  by rewrite FIELD_EX32_testbit, FIELD_EX16_testbit.
Qed.

Lemma csr_start_truthy v : truthy (v .& field_mask TCD_CSR_START) = Z.testbit v 0.
Proof. change TCD_CSR_START with (flag 0). by rewrite truthy_flag by lia. Qed.

Section Registers.
Context {E : Type} {Env : DmaEnv E}.

(** The offsets at which the handler does something. *)
Ltac off_cases :=
  repeat match goal with
    | |- context [if (?o =? ?k) || _ then _ else _] => destruct (Z.eqb_spec o k); cbn [orb]
    | |- context [if ?o =? ?k then _ else _] => destruct (Z.eqb_spec o k)
    end.

Lemma tcd_write_total buf off v sz c s (e : E) ch :
  edma_tcd s !! c = Some ch -> no_start off v = true ->
  if write_supported off v ch
  then is_ok (nxps32k358_edma_tcd_write buf off v sz c s e) = true
  else nxps32k358_edma_tcd_write buf off v sz c s e = Fault AssertFailed.
Proof.
  intros Hc Hns. unfold nxps32k358_edma_tcd_write. rewrite (get_tcd_Some _ _ _ Hc), res_bind_Ok.
  cbv zeta. unfold write_supported.
  change TCD_NBYTES_MLOFF_SMLOE with (flag 31). change TCD_NBYTES_MLOFF_DMLOE with (flag 30).
  change TCD_CITER_ELINK with (flag 15). change TCD_BITER_ELINK with (flag 15).
  change TCD_CSR_MAJORELINK with (flag 5). rewrite !field_flag_zero, biter_of_32 by lia.
  assert (Hirq : forall x, is_ok (nxps32k358_edma_tcd_update_irq c (put_tcd c x s) e) = true).
  { intros x. by rewrite (update_irq_spec _ _ _ x) by (by eapply put_tcd_lookup). }
  unfold no_start in Hns.
  destruct (Z.eqb_spec off A_TCD_CSR) as [->|_]; cbn [andb negb] in Hns.
  { cbn -[Z.testbit nxps32k358_edma_arbitrate]. apply negb_true_iff in Hns.
    rewrite csr_start_truthy, Hns. by destruct (Z.testbit v 5). }
  destruct (Z.eqb_spec off A_CH_INT) as [->|_]; [apply Hirq|].
  off_cases; subst; try done; cbn -[Z.testbit];
    destruct (Z.testbit v 31), (Z.testbit v 30), (Z.testbit v 15), (v =? biter_of ch); done.
Qed.

(** One plain register write: reading back gives the stored value, every other
    register of the channel and everything else in the device is unchanged. *)
Definition reads_back (off x sz : Z) (c : nat) (s s' : NXPS32K358EDMAState) : Prop :=
  nxps32k358_edma_tcd_read off sz c s' = Ok x /\
  (forall off', off' <> off ->
     nxps32k358_edma_tcd_read off' sz c s' = nxps32k358_edma_tcd_read off' sz c s) /\
  same_but c s s'.

Lemma tcd_read_Some off sz c s ch :
  edma_tcd s !! c = Some ch -> nxps32k358_edma_tcd_read off sz c s = Ok (tcd_read_reg off ch).
Proof. intros Hc. unfold nxps32k358_edma_tcd_read. by rewrite (get_tcd_Some _ _ _ Hc). Qed.

Lemma reads_back_put off sz c s ch ch' :
  edma_tcd s !! c = Some ch ->
  (forall off', off' <> off -> tcd_read_reg off' ch' = tcd_read_reg off' ch) ->
  reads_back off (tcd_read_reg off ch') sz c s (put_tcd c ch' s).
Proof.
  intros Hc Hother. pose proof (put_tcd_lookup s c ch' ch Hc) as Hc'.
  split; [by apply tcd_read_Some|]. split; [|apply same_but_put_tcd].
  intros off' Hne. by rewrite (tcd_read_Some _ _ _ _ _ Hc'), (tcd_read_Some _ _ _ _ _ Hc), Hother.
Qed.

Lemma u32_u16 v : u32 (u16 v) = u16 v.
Proof. apply wrapu_small. pose proof (wrapu_range 16 v ltac:(lia)). lia. Qed.

(** [nxps32k358_edma_tcd_write] on a plain register stores one field. *)
Lemma plain_write buf off v x sz c s (e : E) ch s' e' :
  edma_tcd s !! c = Some ch -> plain_image off v = Some x -> no_start off v = true ->
  nxps32k358_edma_tcd_write buf off v sz c s e = Ok (s', e') ->
  exists ch', s' = put_tcd c ch' s /\ e' = e /\ tcd_read_reg off ch' = x /\
    forall off', off' <> off -> tcd_read_reg off' ch' = tcd_read_reg off' ch.
Proof.
  intros Hc Hx Hns Hw. unfold nxps32k358_edma_tcd_write in Hw.
  rewrite (get_tcd_Some _ _ _ Hc), res_bind_Ok in Hw. cbv zeta in Hw. unfold no_start in Hns.
  apply plain_cases in Hx as [[Hin ->]|[[Hin ->]|[-> ->]]];
  repeat match goal with
    | H : _ ∈ _ :: _ |- _ => apply elem_of_cons in H as [->|H]
    | H : _ ∈ [] |- _ => by apply elem_of_nil in H
    end;
  cbn -[Z.testbit nxps32k358_edma_arbitrate] in Hw;
  repeat match type of Hw with
    | (_ ≫= _) = Ok _ => apply res_bind_inv in Hw as (? & _ & Hw)
    | (if truthy (_ .& field_mask TCD_CSR_START) then _ else _) = _ =>
        rewrite csr_start_truthy in Hw; cbn -[Z.testbit] in Hns; apply negb_true_iff in Hns; rewrite Hns in Hw
    end;
  apply Ok_pair_inv in Hw as [-> ->]; eexists; (split; [reflexivity|]); (split; [done|]);
  (split; [unfold tcd_read_reg; cbn; apply wrapu_idem || apply u32_u16 || done|]);
  intros off' Hne; unfold tcd_read_reg; tcd_cbn;
  repeat match goal with
    | |- context [off' =? ?k] => destruct (Z.eqb_spec off' k); [done || congruence|]
    end; done.
Qed.

Lemma tcd_read_back buf off v x sz c s (e : E) ch s' e' :
  edma_tcd s !! c = Some ch -> plain_image off v = Some x -> no_start off v = true ->
  nxps32k358_edma_tcd_write buf off v sz c s e = Ok (s', e') ->
  reads_back off x sz c s s' /\ e' = e.
Proof.
  intros Hc Hx Hns Hw. destruct (plain_write _ _ _ _ _ _ _ _ _ _ _ Hc Hx Hns Hw) as (ch' & -> & -> & <- & Ho).
  split; [by eapply reads_back_put|done].
Qed.

End Registers.

(** ** No access leaves the arrays

    With a bus whose accesses do not index out of range, no register access
    in the two windows does either: the channel number a window computes is
    below 32, and so is every index the handlers use. *)

Section NoOutOfBounds.
Context {E : Type} {Env : DmaEnv E} {Laws : DmaEnvLaws E}.
Hypothesis read_in_bounds : forall a n (e : E), avoids ArrayOutOfBounds (bus_read a n e).
Hypothesis write_in_bounds : forall a bs (e : E), avoids ArrayOutOfBounds (bus_write a bs e).

Abbreviation in_bounds := (avoids ArrayOutOfBounds).

Lemma get_tcd_bounds s c : wf_edma s -> (c < EDMA_CHANNELS)%nat -> in_bounds (get_tcd s c).
Proof.
  intros Hwf Hc. unfold get_tcd. rewrite <- (wf_tcd_length _ Hwf) in Hc.
  apply lookup_lt_is_Some in Hc as [ch ->]. discriminate.
Qed.

Lemma update_irq_bounds c s (e : E) :
  wf_edma s -> (c < EDMA_CHANNELS)%nat -> in_bounds (nxps32k358_edma_tcd_update_irq c s e).
Proof.
  intros Hwf Hc. apply avoids_bind; [by apply get_tcd_bounds|]. intros ch _. cbv zeta.
  case_match; discriminate.
Qed.

Lemma reads_bounds n ssize soff a buf (e : E) : in_bounds (transmit_reads n ssize soff a buf e).
Proof.
  revert a buf e. induction n as [|n IH]; intros a buf e; [discriminate|].
  apply avoids_bind; [apply read_in_bounds|]. intros [bs e1] _. apply IH.
Qed.

Lemma writes_bounds n dsize doff a buf (e : E) : in_bounds (transmit_writes n dsize doff a buf e).
Proof.
  revert a e. induction n as [|n IH]; intros a e; [discriminate|].
  apply avoids_bind; [apply write_in_bounds|]. intros e1 _. apply IH.
Qed.

Lemma minor_bounds n nr nw ssize dsize soff doff sa da buf (e : E) :
  in_bounds (transmit_minor n nr nw ssize dsize soff doff sa da buf e).
Proof.
  revert sa da buf e. induction n as [|n IH]; intros sa da buf e; [discriminate|].
  apply avoids_bind; [apply reads_bounds|]. intros [[sa1 b1] e1] _.
  apply avoids_bind; [apply writes_bounds|]. intros [da1 e2] _. apply IH.
Qed.

Lemma major_done_bounds c s (e : E) :
  wf_edma s -> (c < EDMA_CHANNELS)%nat -> in_bounds (transmit_major_done c s e).
Proof.
  intros Hwf Hc. apply avoids_bind; [by apply get_tcd_bounds|]. intros ch _. cbv zeta.
  apply avoids_bind; [by case_match|]. intros ch1 _.
  apply avoids_bind; [|by intros [ch2 e2] _].
  destruct (truthy _) in |- *; [|done].
  apply avoids_bind; [apply read_in_bounds|by intros [d e1] _].
Qed.

Lemma transmit_bounds buf c s (e : E) :
  edma_inv s e -> (c < EDMA_CHANNELS)%nat -> in_bounds (nxps32k358_edma_transmit buf c s e).
Proof.
  intros [Hwf Hok] Hc. apply avoids_bind; [by apply get_tcd_bounds|]. intros ch Hg. cbv zeta.
  pose proof (get_tcd_wf _ _ _ Hwf Hg) as Hch.
  apply avoids_bind; [by apply avoids_assert|intros _ _].
  apply avoids_bind; [by apply avoids_assert|intros _ _].
  assert (Hput : forall sa da ci cs, wf_edma (put_tcd c (set_ch_csr cs
            (set_tcd_citer ci (set_tcd_daddr da (set_tcd_saddr sa ch)))) s)) by (auto 7 with edma).
  apply avoids_bind.
  { case_match; [|done]. apply avoids_bind; [apply minor_bounds|]. intros [[[sa da] b] e1] _.
    apply update_irq_bounds; [apply Hput|done]. }
  intros [s1 e1] H1. assert (Hwf1 : wf_edma s1).
  { case_match; [|by apply Ok_pair_inv in H1 as [-> _]].
    apply res_bind_inv in H1 as ([[[sa da] b] e2] & Hm & Hu).
    eapply update_irq_inv in Hu as [Hu _]; [exact Hu|]. split; [apply Hput|].
    eapply irq_ok_same; [done| |exact Hok]. by eapply transmit_minor_irq. }
  apply avoids_bind; [by apply get_tcd_bounds|]. intros ch1 _. clear H1.
  case_match; [by apply major_done_bounds|done].
Qed.

Lemma arbitrate_bounds k i buf s (e : E) :
  edma_inv s e -> in_bounds (arbitrate_loop k i buf s e).
Proof.
  intros Hinv. revert i. induction k as [|k IH]; intros i; [discriminate|]. cbn [arbitrate_loop]. cbv zeta.
  assert (Hj : ((i + arb_offset s) mod EDMA_CHANNELS < EDMA_CHANNELS)%nat)
    by (by apply Nat.mod_upper_bound).
  revert Hj. generalize ((i + arb_offset s) mod EDMA_CHANNELS)%nat as j. intros j Hj.
  pose proof (get_tcd_bounds s j (proj1 Hinv) Hj) as Hgb.
  apply avoids_bind; [done|]. intros ch Hg. destruct (truthy _); [|apply IH].
  apply avoids_bind; [done|]. intros ch1 Hg1. cbv zeta.
  apply avoids_bind; [|by intros [s1 e1] _].
  apply transmit_bounds; [|done]. apply edma_inv_put; [done|].
  pose proof (get_tcd_wf _ _ _ (proj1 Hinv) Hg1). auto with edma.
Qed.

Lemma tcd_write_bounds buf off v sz c s (e : E) :
  edma_inv s e -> (c < EDMA_CHANNELS)%nat ->
  in_bounds (nxps32k358_edma_tcd_write buf off v sz c s e).
Proof.
  intros Hinv Hc. apply avoids_bind; [apply get_tcd_bounds; [apply Hinv|done]|]. intros ch Hg. cbv zeta.
  pose proof (get_tcd_wf _ _ _ (proj1 Hinv) Hg) as Hch.
  repeat match goal with
    | |- in_bounds (if ?b then _ else _) => destruct b
    | |- in_bounds (Ok _) => discriminate
    | |- in_bounds (_ ≫= _) => apply avoids_bind; [by apply avoids_assert|intros _ _]
    | |- in_bounds (nxps32k358_edma_tcd_update_irq _ _ _) =>
        apply update_irq_bounds; [apply wf_put_tcd; [apply Hinv|case_match; auto with edma]|done]
    | |- in_bounds (nxps32k358_edma_arbitrate _ _ _) =>
        apply arbitrate_bounds, edma_inv_put; auto with edma
    end.
Qed.

Lemma grpri_bounds s (n : nat) :
  length (edma_chn_grpri s) = EDMA_CHANNELS -> (n < EDMA_CHANNELS)%nat -> in_bounds (get_grpri s n).
Proof.
  intros Hl Hn. unfold get_grpri. rewrite <- Hl in Hn.
  apply lookup_lt_is_Some in Hn as [v ->]. discriminate.
Qed.

Lemma grpri_index off :
  (off >=? A_EDMA_CHN_GRPRI 0) && (off <? A_EDMA_CHN_GRPRI (Z.of_nat EDMA_CHANNELS)) = true ->
  (Z.to_nat ((off - A_EDMA_CHN_GRPRI 0) / 4) < EDMA_CHANNELS)%nat.
Proof.
  intros [H0%Z.geb_le H1%Z.ltb_lt]%andb_prop.
  change (A_EDMA_CHN_GRPRI (Z.of_nat EDMA_CHANNELS)) with (A_EDMA_CHN_GRPRI 0 + 4 * 32) in H1.
  assert (0 <= (off - A_EDMA_CHN_GRPRI 0) / 4 < 32)
    by (split; [apply Z.div_pos; lia|apply Z.div_lt_upper_bound; lia]).
  unfold EDMA_CHANNELS. lia.
Qed.

Lemma global_write_bounds off v sz s :
  wf_edma s -> in_bounds (nxps32k358_edma_global_write off v sz s).
Proof.
  intros Hwf. unfold nxps32k358_edma_global_write. destruct (off =? A_EDMA_CSR); [done|].
  destruct (_ || _); [done|]. destruct (_ && _) eqn:Hr; [|done]. cbv zeta.
  pose proof (grpri_index off Hr) as Hn. pose proof (wf_grpri_length _ Hwf) as Hl.
  apply avoids_bind; [by apply grpri_bounds|]. intros x _.
  apply avoids_bind; [apply grpri_bounds; [cbn; by rewrite length_insert|done]|done].
Qed.

Lemma channel0_lt off :
  0 <= off < EDMA_MMIO0_SIZE -> 0x4000 <= off ->
  (Z.to_nat (u32 ((off - 0x4000) / 0x4000)) < EDMA_CHANNELS)%nat.
Proof.
  unfold EDMA_MMIO0_SIZE, EDMA_CHANNELS. intros H0 H1.
  assert (0 <= (off - 0x4000) / 0x4000 < 12)
    by (split; [apply Z.div_pos; lia|apply Z.div_lt_upper_bound; lia]).
  rewrite wrapu_small by lia. lia.
Qed.

Lemma channel12_lt off :
  0 <= off < EDMA_MMIO12_SIZE -> (Z.to_nat (u32 (off / 0x4000 + 12)) < EDMA_CHANNELS)%nat.
Proof.
  unfold EDMA_MMIO12_SIZE, EDMA_CHANNELS. intros H0.
  assert (0 <= off / 0x4000 < 20)
    by (split; [apply Z.div_pos; lia|apply Z.div_lt_upper_bound; lia]).
  rewrite wrapu_small by lia. lia.
Qed.

Lemma edma0_write_bounds buf off v sz s (e : E) :
  edma_inv s e -> 0 <= off < EDMA_MMIO0_SIZE ->
  in_bounds (nxps32k358_edma0_write buf off v sz s e).
Proof.
  intros Hinv Hoff. unfold nxps32k358_edma0_write. destruct (off >=? 0x4000) eqn:Hge.
  - apply tcd_write_bounds; [done|]. apply channel0_lt; [done|]. by apply Z.geb_le.
  - apply avoids_bind; [by apply global_write_bounds, Hinv|done].
Qed.

Lemma edma12_write_bounds buf off v sz s (e : E) :
  edma_inv s e -> 0 <= off < EDMA_MMIO12_SIZE ->
  in_bounds (nxps32k358_edma12_write buf off v sz s e).
Proof. intros Hinv Hoff. apply tcd_write_bounds; [done|]. by apply channel12_lt. Qed.

End NoOutOfBounds.

(** ** Reads, the interrupt acknowledge, the global registers *)

Lemma tcd_read_range off ch : in_range 32 (tcd_read_reg off ch).
Proof. by apply in_range_wrapu. Qed.

Lemma tcd_read_total off sz c s :
  wf_edma s -> (c < EDMA_CHANNELS)%nat ->
  exists v, nxps32k358_edma_tcd_read off sz c s = Ok v /\ in_range 32 v.
Proof.
  intros Hwf Hc. rewrite <- (wf_tcd_length _ Hwf) in Hc. apply lookup_lt_is_Some in Hc as [ch Hc].
  exists (tcd_read_reg off ch). split; [by apply tcd_read_Some|apply tcd_read_range].
Qed.

Lemma global_read_total off sz s :
  wf_edma s -> exists v, nxps32k358_edma_global_read off sz s = Ok v /\ in_range 32 v.
Proof.
  intros Hwf. unfold nxps32k358_edma_global_read.
  repeat match goal with
    | |- context [off =? ?k] => destruct (off =? k); [eexists; split; [done|by apply in_range_wrapu]|]
    end.
  destruct (_ && _) eqn:Hr; [|by exists 0].
  pose proof (grpri_index off Hr) as Hn. rewrite <- (wf_grpri_length _ Hwf) in Hn.
  apply lookup_lt_is_Some in Hn as [v Hv]. unfold get_grpri. rewrite Hv, res_bind_Ok.
  eexists; split; [done|by apply in_range_wrapu].
Qed.

Section Acknowledge.
Context {E : Type} {Env : DmaEnv E} {Laws : DmaEnvLaws E}.

(** The channel after a write of [v] to [CH_INT]. *)
Definition int_written (v : Z) (ch : NXPS32K358EDMATCDState) : NXPS32K358EDMATCDState :=
  if Z.testbit v 0 then set_ch_int (ch_int ch .& .~ field_mask CH_INT_INT) ch else ch.

Lemma int_written_flag v ch :
  wf_tcd ch -> int_flag (int_written v ch) = negb (Z.testbit v 0) && int_flag ch.
Proof.
  intros Hch. unfold int_written, int_flag. destruct (Z.testbit v 0); [|done].
  tcd_cbn. rewrite wrapu_testbit by lia. change CH_INT_INT with (flag 0).
  by rewrite clear_mask_testbit by lia.
Qed.

Lemma int_written_raise v ch : irq_raise (int_written v ch) = irq_raise ch.
Proof. unfold int_written. by destruct (Z.testbit v 0). Qed.

Lemma irq_latch_flag ch : int_flag (irq_latch ch) = irq_raise ch || int_flag ch.
Proof.
  unfold irq_latch. destruct (irq_raise ch); [|done]. unfold int_flag. tcd_cbn.
  rewrite wrapu_testbit by lia. change CH_INT_INT with (flag 0).
  by rewrite set_mask_testbit by lia.
Qed.

Lemma int_write_spec buf v sz c s e ch :
  edma_tcd s !! c = Some ch ->
  nxps32k358_edma_tcd_write buf A_CH_INT v sz c s e =
    let ch' := irq_latch (int_written v ch) in
    Ok (put_int c (int_flag ch') (put_tcd c ch' s), qemu_set_irq c (int_flag ch') e).
Proof.
  intros Hc. unfold nxps32k358_edma_tcd_write. rewrite (get_tcd_Some _ _ _ Hc), res_bind_Ok.
  cbv zeta. unfold A_CH_INT. cbn -[Z.testbit nxps32k358_edma_tcd_update_irq field_mask].
  change CH_INT_INT with (flag 0). rewrite truthy_flag by lia.
  change (flag 0) with CH_INT_INT. fold (int_written v ch).
  rewrite (update_irq_spec _ _ _ (int_written v ch)) by (by eapply put_tcd_lookup).
  cbv zeta. by rewrite put_tcd_put.
Qed.

Lemma put_int_bit c b s :
  (c < EDMA_CHANNELS)%nat -> Z.testbit (edma_int (put_int c b s)) (Z.of_nat c) = b.
Proof.
  unfold EDMA_CHANNELS. intros Hc. unfold put_int, set_edma_int; cbn [edma_int].
  rewrite wrapu_testbit by lia. destruct (Z.ltb_spec (Z.of_nat c) 32); [|lia]. destruct b.
  - rewrite Z.lor_spec, testbit_1_shiftl, Z.eqb_refl by lia. by rewrite orb_true_r.
  - rewrite Z.land_spec, Z.lnot_spec, testbit_1_shiftl, Z.eqb_refl by lia. by rewrite andb_false_r.
Qed.

End Acknowledge.

(** What a global register holds after a write of [v] over the value [old]. *)
Definition masked_write (mask old v : Z) : Z := (old .& .~ mask) .| (v .& mask).

Definition global_image (off old v : Z) : Z :=
  if off =? A_EDMA_CSR then masked_write CSR_WR_MASK old v
  else if (off >=? A_EDMA_CHN_GRPRI 0) && (off <? A_EDMA_CHN_GRPRI (Z.of_nat EDMA_CHANNELS))
  then masked_write GRPRI_WR_MASK old v
  else old.

Lemma masked_write_range w mask old v :
  0 <= w -> in_range w old -> in_range w mask -> in_range w (masked_write mask old v).
Proof. intros. unfold masked_write. auto with cint. Qed.

(** Both steps of a masked update go through the 32-bit register. *)
Lemma masked_steps mask old v :
  in_range 32 old -> in_range 32 mask ->
  u32 (u32 (u32 (old .& .~ mask) .| (v .& mask))) = masked_write mask old v.
Proof.
  intros Ho Hm. rewrite wrapu_idem. rewrite (wrapu_small 32 (old .& .~ mask)).
  - apply wrapu_small. exact (masked_write_range 32 mask old v ltac:(lia) Ho Hm).
  - exact (in_range_land_l 32 old (.~ mask) ltac:(lia) Ho).
Qed.

Lemma get_grpri_Some s n v : edma_chn_grpri s !! n = Some v -> get_grpri s n = Ok v.
Proof. unfold get_grpri. by intros ->. Qed.

Lemma global_write_spec off v sz s old :
  wf_edma s -> nxps32k358_edma_global_read off sz s = Ok old ->
  exists s', nxps32k358_edma_global_write off v sz s = Ok s' /\
    nxps32k358_edma_global_read off sz s' = Ok (global_image off old v) /\
    (forall off', off' / 4 <> off / 4 ->
       nxps32k358_edma_global_read off' sz s' = nxps32k358_edma_global_read off' sz s) /\
    edma_tcd s' = edma_tcd s /\ arb_offset s' = arb_offset s.
Proof.
  intros Hwf. unfold nxps32k358_edma_global_read, nxps32k358_edma_global_write, global_image.
  destruct (Z.eqb_spec off A_EDMA_CSR) as [->|H1].
  { intros [= <-]. eexists. split; [done|].
    rewrite (wrapu_small 32 (edma_csr s)) by apply Hwf. split.
    { cbn [set_edma_csr edma_csr]. f_equal. apply masked_steps; [apply Hwf|done]. }
    split; [|done]. intros off' Hoff'.
    destruct (Z.eqb_spec off' A_EDMA_CSR) as [->|_]; [done|]. done. }
  destruct (Z.eqb_spec off A_EDMA_ES) as [->|H2]; [intros [= <-]; by eexists|].
  destruct (Z.eqb_spec off A_EDMA_INT) as [->|H3]; [intros [= <-]; by eexists|].
  destruct (Z.eqb_spec off A_EDMA_HRS) as [->|H4]; [intros [= <-]; by eexists|]. cbn [orb].
  destruct (_ && _) eqn:Hr; [|intros [= <-]; by eexists].
  pose proof (grpri_index off Hr) as Hn. set (n := Z.to_nat _) in *.
  rewrite <- (wf_grpri_length _ Hwf) in Hn. pose proof Hn as Hlt.
  apply lookup_lt_is_Some in Hn as [x Hx]. rewrite (get_grpri_Some s n x Hx), !res_bind_Ok.
  intros [= <-]. cbv zeta.
  rewrite (get_grpri_Some (set_edma_chn_grpri n (x .& .~ GRPRI_WR_MASK) s) n (u32 (x .& .~ GRPRI_WR_MASK)))
    by (by apply list_lookup_insert_eq).
  rewrite res_bind_Ok. eexists. split; [done|].
  assert (Hrx : in_range 32 x) by (by eapply (Forall_lookup_1 _ _ _ _ (wf_grpri _ Hwf))).
  rewrite (wrapu_small 32 x) by done. split; [|split; [|done]].
  - erewrite get_grpri_Some by (cbn; apply list_lookup_insert_eq; by rewrite length_insert).
    rewrite res_bind_Ok. f_equal. by apply masked_steps.
  - intros off' Hoff'. cbn [set_edma_chn_grpri edma_csr edma_es edma_int edma_hrs].
    destruct (off' =? A_EDMA_CSR), (off' =? A_EDMA_ES), (off' =? A_EDMA_INT),
      (off' =? A_EDMA_HRS); try done.
    destruct (_ && _) eqn:Hr' in |- *; [|done]. unfold get_grpri. cbn [set_edma_chn_grpri edma_chn_grpri].
    rewrite !list_lookup_insert_ne; [done|..];
      apply andb_prop in Hr as [Hr%Z.geb_le _], Hr' as [Hr'%Z.geb_le _];
      change (A_EDMA_CHN_GRPRI 0) with 0x100 in *;
      unfold n; intros Heq%Z2Nat.inj; try (apply Z.div_pos; lia);
      apply Hoff'; Z.to_euclidean_division_equations; lia.
Qed.

(** ** Transfers between different sizes

    Each read of the source goes to the start of the buffer, and each write
    to the destination takes the start of the buffer. *)

Section Mismatch.
Context {E : Type} {Env : DmaEnv E} {Laws : DmaEnvLaws E}.

Lemma reads_spec (n ssize : nat) soff a buf e :
  (forall i x, 0 <= i <= Z.of_nat n ->
     u32 (a + i * soff) <= x < u32 (a + i * soff) + Z.of_nat ssize -> readable x = true) ->
  in_range 32 a ->
  transmit_reads (S n) ssize soff a buf e =
    Ok (u32 (a + Z.of_nat (S n) * soff),
        (byte_at e <$> seqZ (u32 (a + Z.of_nat n * soff)) (Z.of_nat ssize)) ++ drop ssize buf, e).
Proof.
  revert a buf. induction n as [|n IH]; intros a buf Hr Ha.
  - cbn [transmit_reads]. rewrite bus_read_mem; [rewrite res_bind_Ok|].
    + rewrite Z.add_0_r, Z.mul_1_l, (wrapu_small 32 a) by apply Ha. done.
    + intros x Hx. apply (Hr 0 x); [lia|]. rewrite Z.add_0_r, wrapu_small by apply Ha. done.
  - cbn [transmit_reads]. rewrite bus_read_mem; [rewrite res_bind_Ok|].
    2: { intros x Hx. apply (Hr 0 x); [lia|]. rewrite Z.add_0_r, wrapu_small by apply Ha. done. }
    change (transmit_reads (S n) ssize soff (u32 (a + soff))
              ((byte_at e <$> seqZ a (Z.of_nat ssize)) ++ drop ssize buf) e = 
            Ok (u32 (a + Z.of_nat (S (S n)) * soff),
        (byte_at e <$> seqZ (u32 (a + Z.of_nat (S n) * soff)) (Z.of_nat ssize)) ++ drop ssize buf, e)).
    rewrite IH.
    + rewrite !wrapu_add_l, drop_app_length'.
      2: { rewrite length_fmap, length_seqZ. lia. }
      do 3 f_equal; [f_equal; lia|]. do 4 f_equal. lia.
    + intros i x Hi. rewrite wrapu_add_l. intros Hx. apply (Hr (i + 1) x); [lia|].
      replace (a + (i + 1) * soff) with (a + soff + i * soff) by lia. done.
    + by apply in_range_wrapu.
Qed.

End Mismatch.

(** * Properties of the device *)

(** ** A concrete machine for the witnesses *)

(** Channel 3 copies two blocks of eight bytes from 0x1000 to 0x2000, word by
    word, with an interrupt at the end of the major loop. *)
Definition demo_channel : NXPS32K358EDMATCDState :=
  mkTCD 0 0 0 0x8002 0 0x1000 4 0x0202 8 0 0x2000 4 2 0 0 2.

Definition demo_edma : NXPS32K358EDMAState := put_tcd 3 demo_channel (edma_after_reset 0).

Definition demo_env : flat_env :=
  mkFlat (list_to_map (zip (seqZ 0x1000 16) (seqZ 1 16))) ∅.

Lemma wf_demo_channel : wf_tcd demo_channel.
Proof. split; vm_compute; split; congruence. Qed.

Lemma wf_demo : wf_edma demo_edma.
Proof. apply wf_put_tcd; [apply wf_after_reset; unfold EDMA_CHANNELS; lia|apply wf_demo_channel]. Qed.

Lemma demo_irq_ok : irq_ok demo_edma demo_env.
Proof. intros i Hi. by rewrite Z.bits_0. Qed.

Lemma demo_inv : edma_inv demo_edma demo_env.
Proof. split; [apply wf_demo|apply demo_irq_ok]. Qed.

Lemma demo_copy_setup : copy_setup demo_channel 2.
Proof. by split. Qed.

Lemma demo_idle j : start_pending demo_edma j = false.
Proof.
  do 32 (destruct j as [|j]; [done|]). done.
Qed.

Lemma flat_copy_mem sa da len :
  0 <= sa -> 0 <= da -> sa + len <= 2 ^ 32 -> da + len <= 2 ^ 32 -> disjoint_ranges sa da len ->
  copy_mem (E := flat_env) sa da len.
Proof. by split. Qed.

Lemma flat_read_bounds a n (e : flat_env) : avoids ArrayOutOfBounds (bus_read a n e).
Proof. discriminate. Qed.

Lemma flat_write_bounds a bs (e : flat_env) : avoids ArrayOutOfBounds (bus_write a bs e).
Proof. discriminate. Qed.

(** ** The transfer *)

(** C1: A channel programmed with equal source and destination sizes and
    matching offsets copies its whole block.  [n + 1] START writes, one per
    iteration of the major loop, return; memory then differs from before by
    the copy of [(n + 1) * copy_len] bytes from SADDR to DADDR and by nothing
    else.  The channel has DONE set, ACTIVE and START clear, CITER reloaded
    from BITER and its addresses adjusted by SLAST and DLAST; the other
    channels are untouched, and with INTMAJOR the interrupt line is high. *)
Theorem edma_major_loop_copies {E} `{Laws : DmaEnvLaws E} buf v sz c k (n : nat)
    s (e : E) ch :
  wf_edma s -> edma_tcd s !! c = Some ch -> start_word v -> copy_setup ch k ->
  citer_of ch = Z.of_nat (S n) ->
  copy_mem (tcd_saddr ch) (tcd_daddr ch) (Z.of_nat (S n) * copy_len ch k) ->
  (forall j, j <> c -> start_pending s j = false) ->
  exists s' e', run_starts (S n) buf v sz c s e = Ok (s', e') /\
    loop_done v c (Z.of_nat (S n) * copy_len ch k) ch s e s' e'.
Proof. apply run_starts_copy. Qed.

Lemma edma_major_loop_copies_witness :
  exists s' e', run_starts 2 [] 3 2 3 demo_edma demo_env = Ok (s', e') /\
    loop_done 3 3 16 demo_channel demo_edma demo_env s' e'.
Proof.
  apply (edma_major_loop_copies [] 3 2 3 2 1 demo_edma demo_env demo_channel);
    [apply wf_demo|done|by split|apply demo_copy_setup|done| |intros; apply demo_idle].
  apply flat_copy_mem; [done|done|done|done|]. vm_compute; by left.
Defined.

(** One START write on an idle controller is one minor loop: the access
    returns, memory receives exactly the NBYTES block, and the channel and
    the device are the ones [requested] describes, with the interrupt line at
    the level of the channel's latched interrupt flag. *)
Theorem edma_start_write_copies {E} `{Laws : DmaEnvLaws E} buf v sz c s (e : E) ch k :
  wf_edma s -> edma_tcd s !! c = Some ch -> start_word v -> copy_setup ch k ->
  0 < citer_of ch -> copy_mem (tcd_saddr ch) (tcd_daddr ch) (copy_len ch k) ->
  (forall j, j <> c -> start_pending s j = false) ->
  exists e1,
    nxps32k358_edma_tcd_write buf A_TCD_CSR v sz c s e = Ok (requested v c ch (copy_len ch k) s, e1) /\
    copied (tcd_saddr ch) (tcd_daddr ch) (copy_len ch k) e e1 /\
    irq_level e1 c = int_flag (irq_latch (after_minor (request_start v ch) (copy_len ch k))).
Proof. apply request_copy. Qed.

Lemma edma_start_write_copies_witness :
  exists e1,
    nxps32k358_edma_tcd_write [] A_TCD_CSR 3 2 3 demo_edma demo_env =
      Ok (requested 3 3 demo_channel 8 demo_edma, e1) /\
    copied 0x1000 0x2000 8 demo_env e1 /\
    irq_level e1 3 = int_flag (irq_latch (after_minor (request_start 3 demo_channel) 8)).
Proof.
  apply (edma_start_write_copies [] 3 2 3 demo_edma demo_env demo_channel 2);
    [apply wf_demo|done|by split|apply demo_copy_setup|done| |intros; apply demo_idle].
  apply flat_copy_mem; [done|done|done|done|]. vm_compute; by left.
Defined.

(** C40: When the source size is smaller than the destination size, one round
    of the minor loop does not gather the source elements: the destination
    gets the last element read, followed by the bytes the uninitialised stack
    buffer held. *)
Theorem edma_small_source_leaks_buffer {E} `{Laws : DmaEnvLaws E} (nr ssize dsize : nat)
    soff doff sa da buf (e : E) :
  (ssize < dsize)%nat -> (dsize <= length buf)%nat -> Forall (in_range 8) buf -> in_range 32 sa ->
  (forall i x, 0 <= i <= Z.of_nat nr ->
     u32 (sa + i * soff) <= x < u32 (sa + i * soff) + Z.of_nat ssize -> readable x = true) ->
  (forall x, da <= x < da + Z.of_nat dsize -> writable x = true) ->
  exists buf' e',
    transmit_minor 1 (S nr) 1 ssize dsize soff doff sa da buf e =
      Ok (u32 (sa + Z.of_nat (S nr) * soff), u32 (da + doff), buf', e') /\
    forall i, (i < dsize)%nat ->
      byte_at e' (da + Z.of_nat i) =
        if decide (i < ssize)%nat
        then byte_at e (u32 (sa + Z.of_nat nr * soff) + Z.of_nat i)
        else nth i buf 0.
Proof.
  intros Hlt Hlen Hbuf Hsa Hr Hw. cbn [transmit_minor]. rewrite reads_spec by done.
  rewrite res_bind_Ok. cbn [transmit_writes].
  set (last := byte_at e <$> _). assert (Hl : length last = ssize)
    by (unfold last; rewrite length_fmap, length_seqZ; lia).
  assert (Htl : length (take dsize (last ++ drop ssize buf)) = dsize)
    by (rewrite length_take, length_app, length_drop; lia).
  destruct (bus_write_mem da (take dsize (last ++ drop ssize buf)) e) as (e' & -> & Hb).
  { by rewrite Htl. }
  { intros b [i Hi]%list_elem_of_lookup. rewrite lookup_take in Hi. case_decide; [|done].
    apply lookup_app_Some in Hi as [Hi|[_ Hi]].
    - apply list_elem_of_lookup_2, list_elem_of_fmap in Hi as (x & -> & _). apply byte_at_range.
    - rewrite lookup_drop in Hi. by eapply Forall_lookup_1. }
  rewrite !res_bind_Ok. eexists _, e'. split; [done|]. intros i Hi. rewrite Hb, Htl.
  destruct (Z.leb_spec da (da + Z.of_nat i)), (Z.ltb_spec (da + Z.of_nat i) (da + Z.of_nat dsize));
    cbn [andb]; try lia.
  replace (Z.to_nat (da + Z.of_nat i - da)) with i by lia.
  rewrite !nth_lookup, lookup_take. rewrite decide_True by done. case_decide as His.
  - rewrite lookup_app_l by lia. unfold last. rewrite list_lookup_fmap.
    rewrite lookup_seqZ_lt by lia. done.
  - rewrite lookup_app_r, lookup_drop by lia. do 2 f_equal. lia.
Qed.

Lemma edma_small_source_leaks_buffer_witness :
  exists buf' e',
    transmit_minor 1 4 1 1 4 1 4 0x1000 0x2000 (replicate 64 0xAA) demo_env =
      Ok (0x1004, 0x2004, buf', e') /\
    forall i, (i < 4)%nat ->
      byte_at e' (0x2000 + Z.of_nat i) =
        if decide (i < 1)%nat then byte_at demo_env (0x1003 + Z.of_nat i) else nth i (replicate 64 0xAA) 0.
Proof.
  apply (edma_small_source_leaks_buffer 3 1 4 1 4 0x1000 0x2000 (replicate 64 0xAA) demo_env);
    [lia|cbn; lia|by repeat constructor|by split|done|done].
Defined.

(** ** Invariants and interrupts *)

(** C8: In every state reachable from realisation by register writes in the
    two windows, resets and steps of the rest of the machine that leave the
    lines alone, every register holds a value of its C type, the arbiter's
    pointer is a channel number, and bit [i] of the global interrupt status
    register equals the level of interrupt line [i]. *)
Theorem edma_reachable_invariant {E} `{Laws : DmaEnvLaws E} (p : NXPS32K358EDMAState * E) :
  edma_reachable p -> wf_edma p.1 /\ irq_ok p.1 p.2.
Proof. apply edma_reachable_inv. Qed.

Lemma edma_reachable_invariant_witness :
  let s := edma_after_reset 0 in
  let e := lower_lines EDMA_CHANNELS 0 demo_env in
  wf_edma s /\ irq_ok s e.
Proof.
  apply (edma_reachable_invariant (edma_after_reset 0, lower_lines EDMA_CHANNELS 0 demo_env)).
  apply (reach_realize demo_env). unfold nxps32k358_edma_realize.
  by rewrite (reset_spec edma_zero demo_env eq_refl eq_refl).
Defined.

(** Writing [CH_INT] acknowledges the interrupt with a 1 in bit 0 and
    re-evaluates the causes: afterwards the channel's flag, its bit of the
    global status register and its line all have the same level, which is
    high exactly when a cause still holds (INTHALF with CITER at or above half
    of BITER, INTMAJOR with CITER zero) or the flag was set and not cleared. *)
Theorem edma_interrupt_acknowledge {E} `{Laws : DmaEnvLaws E} buf v sz c s (e : E) ch :
  wf_edma s -> edma_tcd s !! c = Some ch ->
  exists s' e' ch',
    nxps32k358_edma_tcd_write buf A_CH_INT v sz c s e = Ok (s', e') /\
    edma_tcd s' !! c = Some ch' /\
    int_flag ch' = irq_raise ch || (negb (Z.testbit v 0) && int_flag ch) /\
    Z.testbit (edma_int s') (Z.of_nat c) = int_flag ch' /\
    irq_level e' c = int_flag ch' /\ same_but c s s'.
Proof.
  intros Hwf Hc. pose proof (lookup_lt_Some _ _ _ Hc) as Hlt. pose proof Hlt as Hlt'.
  rewrite (wf_tcd_length _ Hwf) in Hlt'. rewrite int_write_spec with (ch := ch) by done. cbv zeta.
  eexists _, _, _. split; [done|]. split; [by apply list_lookup_insert_eq|].
  split.
  { rewrite irq_latch_flag, int_written_raise, int_written_flag; [done|].
    by eapply Forall_lookup_1; [apply Hwf|]. }
  split; [by apply put_int_bit|]. split; [rewrite set_irq_level; by rewrite decide_True|].
  etrans; [apply same_but_put_tcd|apply same_but_put_int].
Qed.

Lemma edma_interrupt_acknowledge_witness :
  exists s' e' ch',
    nxps32k358_edma_tcd_write [] A_CH_INT 1 4 3 demo_edma demo_env = Ok (s', e') /\
    edma_tcd s' !! 3%nat = Some ch' /\
    int_flag ch' = irq_raise demo_channel || (negb (Z.testbit 1 0) && int_flag demo_channel) /\
    Z.testbit (edma_int s') (Z.of_nat 3) = int_flag ch' /\
    irq_level e' 3 = int_flag ch' /\ same_but 3 demo_edma s'.
Proof. apply (edma_interrupt_acknowledge [] 1 4 3 demo_edma demo_env demo_channel); [apply wf_demo|done]. Defined.

(** A channel with INTHALF whose current count is at or above half of its
    initial count keeps its interrupt line high: no write to [CH_INT] clears
    it.  This is the state every channel is in after its major loop reloads
    CITER from BITER. *)
Theorem edma_inthalf_interrupt_stuck {E} `{Laws : DmaEnvLaws E} buf v sz c s (e : E) ch :
  wf_edma s -> edma_tcd s !! c = Some ch ->
  Z.testbit (tcd_csr ch) 2 = true -> citer_of ch = biter_of ch ->
  exists s' e', nxps32k358_edma_tcd_write buf A_CH_INT v sz c s e = Ok (s', e') /\
    irq_level e' c = true.
Proof.
  intros Hwf Hc H2 Hci. rewrite int_write_spec with (ch := ch) by done. cbv zeta.
  eexists _, _. split; [done|]. rewrite set_irq_level, decide_True by done.
  rewrite irq_latch_flag, int_written_raise. unfold irq_raise. rewrite H2, Hci.
  pose proof (biter_range ch) as [Hb _].
  assert (Hle : biter_of ch / 2 <= biter_of ch) by (apply Z.div_le_upper_bound; lia).
  apply Z.geb_le in Hle. by rewrite Hle.
Qed.

Lemma edma_inthalf_interrupt_stuck_witness :
  let s := put_tcd 3 (set_tcd_csr 4 demo_channel) demo_edma in
  exists s' e', nxps32k358_edma_tcd_write [] A_CH_INT 1 4 3 s demo_env = Ok (s', e') /\
    irq_level e' 3 = true.
Proof.
  apply (edma_inthalf_interrupt_stuck [] 1 4 3 (put_tcd 3 (set_tcd_csr 4 demo_channel) demo_edma) demo_env
           (set_tcd_csr 4 demo_channel)); [|done|done|done].
  apply wf_put_tcd; [apply wf_demo|apply wf_set_tcd_csr, wf_demo_channel].
Defined.

Lemma after_minor_csr ch len : tcd_csr (after_minor ch len) = tcd_csr ch.
Proof. reflexivity. Qed.
Lemma after_minor_int ch len : int_flag (after_minor ch len) = int_flag ch.
Proof. reflexivity. Qed.
Lemma request_int v ch : int_flag (request_start v ch) = int_flag ch.
Proof. reflexivity. Qed.

(** A major loop that ends on a channel without INTMAJOR and INTHALF sets
    the channel's interrupt flag but neither its bit of the global status
    register nor its interrupt line. *)
Theorem edma_major_done_flag_without_line {E} `{Laws : DmaEnvLaws E} buf v sz c s (e : E) ch k :
  wf_edma s -> edma_tcd s !! c = Some ch -> start_word v -> copy_setup ch k ->
  Z.testbit v 1 = false -> Z.testbit v 2 = false -> int_flag ch = false ->
  citer_of ch = 1 -> copy_mem (tcd_saddr ch) (tcd_daddr ch) (copy_len ch k) ->
  (forall j, j <> c -> start_pending s j = false) ->
  exists s' e' ch', nxps32k358_edma_tcd_write buf A_TCD_CSR v sz c s e = Ok (s', e') /\
    edma_tcd s' !! c = Some ch' /\ int_flag ch' = true /\
    Z.testbit (edma_int s') (Z.of_nat c) = false /\ irq_level e' c = false.
Proof.
  intros Hwf Hc Hv Hcs H1 H2 Hf Hci Hcm Hno. pose proof (lookup_lt_Some _ _ _ Hc) as Hlt.
  pose proof (Forall_lookup_1 _ _ _ _ (wf_tcds _ Hwf) Hc) as Hwc.
  destruct (request_copy buf v sz c s e ch k) as (e1 & Hw & _ & Hirq); [done..|lia|done|done|].
  set (lvl := int_flag (irq_latch (after_minor (request_start v ch) (copy_len ch k)))) in *.
  assert (Hl : lvl = false).
  { unfold lvl. rewrite irq_latch_flag. unfold irq_raise.
    rewrite after_minor_csr, !request_csr, after_minor_int, request_int, H1, H2 by lia. exact Hf. }
  exists (requested v c ch (copy_len ch k) s), e1, (after_request (request_start v ch) (copy_len ch k)).
  split; [done|]. split; [by apply requested_lookup|].
  destruct (request_last v ch (copy_len ch k) Hwc Hci) as (_ & _ & _ & _ & _ & Hi & _).
  split; [exact Hi|].
  split; [|by rewrite Hirq].
  unfold requested. fold lvl. cbn [set_arb_offset edma_int]. rewrite Hl.
  apply put_int_bit. by rewrite <- (wf_tcd_length _ Hwf).
Qed.

Lemma edma_major_done_flag_without_line_witness :
  let ch := set_tcd_citer 1 demo_channel in
  exists s' e' ch', nxps32k358_edma_tcd_write [] A_TCD_CSR 1 2 3 (put_tcd 3 ch demo_edma) demo_env = Ok (s', e') /\
    edma_tcd s' !! 3%nat = Some ch' /\ int_flag ch' = true /\
    Z.testbit (edma_int s') (Z.of_nat 3) = false /\ irq_level e' 3 = false.
Proof.
  intros ch. apply (edma_major_done_flag_without_line [] 1 2 3 (put_tcd 3 ch demo_edma) demo_env ch 2);
    [|done|by split|by split|done|done|done|done| |].
  - apply wf_put_tcd; [apply wf_demo|apply wf_set_tcd_citer, wf_demo_channel].
  - apply flat_copy_mem; [done|done|done|done|]. vm_compute; by left.
  - intros j Hj. unfold start_pending. cbn [put_tcd edma_tcd]. rewrite list_lookup_insert_ne by done.
    apply demo_idle.
Defined.

(** Reset, from any state: every register of the device and of the 32
    channels takes its documented reset value and every interrupt line goes
    low; memory is untouched and only the arbiter's pointer survives. *)
Theorem edma_reset_state {E} `{Laws : DmaEnvLaws E} s (e : E) :
  length (edma_chn_grpri s) = EDMA_CHANNELS -> length (edma_tcd s) = EDMA_CHANNELS ->
  exists e', nxps32k358_edma_reset s e = Ok (edma_after_reset (arb_offset s), e') /\
    (forall i, irq_level e' i = if decide (i < EDMA_CHANNELS)%nat then false else irq_level e i) /\
    (forall a, byte_at e' a = byte_at e a).
Proof.
  intros Hg Ht. eexists. split; [by apply reset_spec|]. split.
  - intros i. rewrite lower_lines_level. repeat case_decide; done || lia.
  - intros a. apply lower_lines_bytes.
Qed.

Lemma edma_reset_state_witness :
  exists e', nxps32k358_edma_reset demo_edma demo_env = Ok (edma_after_reset 0, e') /\
    (forall i, irq_level e' i = if decide (i < EDMA_CHANNELS)%nat then false else irq_level demo_env i) /\
    (forall a, byte_at e' a = byte_at demo_env a).
Proof. exact (edma_reset_state demo_edma demo_env eq_refl eq_refl). Defined.

(** ** Arbitration *)

(** The arbiter serves the pending channel nearest after its round-robin
    pointer, and does nothing when no channel is pending. *)
Theorem edma_arbitrate_round_robin {E} `{Laws : DmaEnvLaws E} buf s (e : E) :
  wf_edma s ->
  (forall j, (j < EDMA_CHANNELS)%nat -> start_pending s j = true ->
     (forall i, (i < EDMA_CHANNELS)%nat -> start_pending s i = true ->
        (arb_dist s j <= arb_dist s i)%nat) ->
     nxps32k358_edma_arbitrate buf s e = arbitrate_service buf j s e) /\
  ((forall j, (j < EDMA_CHANNELS)%nat -> start_pending s j = false) ->
     nxps32k358_edma_arbitrate buf s e = Ok (s, e)).
Proof.
  intros Hwf. split.
  - intros j. by apply arbitrate_nearest.
  - intros Hno. apply arbitrate_loop_none; [apply Hwf|done].
Qed.

Lemma edma_arbitrate_round_robin_witness :
  nxps32k358_edma_arbitrate [] demo_edma demo_env = Ok (demo_edma, demo_env).
Proof. apply (edma_arbitrate_round_robin [] demo_edma demo_env wf_demo). intros; apply demo_idle. Defined.

(** Channel 3 of the demonstration with its START bit pending. *)
Definition demo_pending : NXPS32K358EDMAState := put_tcd 3 (set_tcd_csr 1 demo_channel) demo_edma.

Lemma demo_pending_inv : edma_inv demo_pending demo_env.
Proof. apply edma_inv_put; [apply demo_inv|apply wf_set_tcd_csr, wf_demo_channel]. Qed.



(** ** Register accesses *)

(** No register access indexes outside the device: with a bus that does
    not either, a write anywhere in the two windows never leaves an array,
    and a read anywhere in the two windows returns a 32-bit value. *)
Theorem edma_access_in_bounds {E} `{Laws : DmaEnvLaws E} buf off v sz s (e : E) :
  (forall a n (e : E), avoids ArrayOutOfBounds (bus_read a n e)) ->
  (forall a bs (e : E), avoids ArrayOutOfBounds (bus_write a bs e)) ->
  edma_inv s e ->
  (0 <= off < EDMA_MMIO0_SIZE ->
     avoids ArrayOutOfBounds (nxps32k358_edma0_write buf off v sz s e) /\
     exists x, nxps32k358_edma0_read off sz s = Ok x /\ in_range 32 x) /\
  (0 <= off < EDMA_MMIO12_SIZE ->
     avoids ArrayOutOfBounds (nxps32k358_edma12_write buf off v sz s e) /\
     exists x, nxps32k358_edma12_read off sz s = Ok x /\ in_range 32 x).
Proof.
  intros Hr Hw Hinv. split; intros Hoff.
  - split; [by apply edma0_write_bounds|]. unfold nxps32k358_edma0_read.
    destruct (off >=? 0x4000) eqn:Hge; [|by apply global_read_total, Hinv].
    apply tcd_read_total; [apply Hinv|]. apply channel0_lt; [done|by apply Z.geb_le].
  - split; [by apply edma12_write_bounds|].
    apply tcd_read_total; [apply Hinv|by apply channel12_lt].
Qed.

Lemma edma_access_in_bounds_witness :
  avoids ArrayOutOfBounds (nxps32k358_edma0_write [] 0x1003C 3 2 demo_edma demo_env) /\
  exists x, nxps32k358_edma0_read 0x1003C 2 demo_edma = Ok x /\ in_range 32 x.
Proof.
  apply (edma_access_in_bounds [] 0x1003C 3 2 demo_edma demo_env flat_read_bounds flat_write_bounds demo_inv).
  by vm_compute.
Defined.

(** Exactly the unsupported values abort the emulator: a write that does
    not start a transfer succeeds when [write_supported] holds and otherwise
    fails an assertion (minor loop offsets, channel linking, a CITER that
    differs from BITER). *)
Theorem edma_write_aborts_iff_unsupported {E} `{Env : DmaEnv E} buf off v sz c s (e : E) ch :
  edma_tcd s !! c = Some ch -> no_start off v = true ->
  if write_supported off v ch
  then is_ok (nxps32k358_edma_tcd_write buf off v sz c s e) = true
  else nxps32k358_edma_tcd_write buf off v sz c s e = Fault AssertFailed.
Proof. apply tcd_write_total. Qed.

Lemma edma_write_aborts_iff_unsupported_witness :
  is_ok (nxps32k358_edma_tcd_write [] A_TCD_CITER 2 2 3 demo_edma demo_env) = true /\
  nxps32k358_edma_tcd_write [] A_TCD_CITER 5 2 3 demo_edma demo_env = Fault AssertFailed.
Proof.
  split.
  - exact (edma_write_aborts_iff_unsupported [] A_TCD_CITER 2 2 3 demo_edma demo_env demo_channel eq_refl eq_refl).
  - exact (edma_write_aborts_iff_unsupported [] A_TCD_CITER 5 2 3 demo_edma demo_env demo_channel eq_refl eq_refl).
Defined.

(** Round trip of the TCD registers: a write to a data register of a
    channel that succeeds and starts no transfer is read back at the width and
    signedness of its field; every other register of that channel and all of
    the rest of the device keep their values, and the environment is
    untouched. *)
Theorem edma_register_round_trip {E} `{Env : DmaEnv E} buf off v x sz c s (e : E) ch s' e' :
  edma_tcd s !! c = Some ch -> plain_image off v = Some x -> no_start off v = true ->
  nxps32k358_edma_tcd_write buf off v sz c s e = Ok (s', e') ->
  reads_back off x sz c s s' /\ e' = e.
Proof. apply tcd_read_back. Qed.

Lemma edma_register_round_trip_witness :
  exists s', nxps32k358_edma_tcd_write [] A_TCD_SOFF 0x1FFFC 2 3 demo_edma demo_env = Ok (s', demo_env) /\
    reads_back A_TCD_SOFF 0xFFFFFFFC 2 3 demo_edma s'.
Proof.
  eexists. split; [reflexivity|].
  eapply (edma_register_round_trip [] A_TCD_SOFF 0x1FFFC 0xFFFFFFFC 2 3 demo_edma demo_env demo_channel);
    reflexivity.
Defined.

(** The global registers: a write changes the writable bits of CSR and of
    the group priorities and no other bit, ES, INT, HRS and reserved offsets
    ignore it, and no other word of the window and no channel changes. *)
Theorem edma_global_round_trip off v sz s old :
  wf_edma s -> nxps32k358_edma_global_read off sz s = Ok old ->
  exists s', nxps32k358_edma_global_write off v sz s = Ok s' /\
    nxps32k358_edma_global_read off sz s' = Ok (global_image off old v) /\
    (forall off', off' / 4 <> off / 4 ->
       nxps32k358_edma_global_read off' sz s' = nxps32k358_edma_global_read off' sz s) /\
    edma_tcd s' = edma_tcd s /\ arb_offset s' = arb_offset s.
Proof. apply global_write_spec. Qed.

Lemma edma_global_round_trip_witness :
  exists s', nxps32k358_edma_global_write 0x104 0xFF 4 demo_edma = Ok s' /\
    nxps32k358_edma_global_read 0x104 4 s' = Ok 0x1F /\
    (forall off', off' / 4 <> 0x104 / 4 ->
       nxps32k358_edma_global_read off' 4 s' = nxps32k358_edma_global_read off' 4 demo_edma) /\
    edma_tcd s' = edma_tcd demo_edma /\ arb_offset s' = arb_offset demo_edma.
Proof. exact (edma_global_round_trip 0x104 0xFF 4 demo_edma 0 wf_demo eq_refl). Defined.
