(* ===== verification/Clock.v ===== *)
(** * The clock tree

    [hw/core/clock.c] and [include/hw/clock.h]: clocks with a period in units
    of 2^-32 ns, the ratio they apply to their children, and the propagation
    of a period down the tree.  The heap of clocks is a map from a clock's
    identity to its structure; callbacks are recorded in a trace in the order
    they are called. *)

From S2P Require Import Prelude Bits.

(** ** Data *)

Inductive ClockEvent : Set := ClockUpdate | ClockPreUpdate.

Definition clock_event_bit (ev : ClockEvent) : Z :=
  match ev with ClockUpdate => 1 | ClockPreUpdate => 2 end.

Record Clock : Type := mkClock {
  period : Z;
  callback : bool;
  callback_events : Z;
  multiplier : Z;
  divider : Z;
  source : option nat;
  children : list nat
}.

Definition set_period (v : Z) (c : Clock) : Clock :=
  mkClock (u64 v) (callback c) (callback_events c) (multiplier c) (divider c) (source c) (children c).

Record clock_heap : Type := mkHeap {
  clocks : gmap nat Clock;
  calls : list (nat * ClockEvent)
}.

Definition get_clock (h : clock_heap) (i : nat) : res Clock :=
  match clocks h !! i with Some c => Ok c | None => Fault WildHostPointer end.

Definition put_clock (i : nat) (c : Clock) (h : clock_heap) : clock_heap :=
  mkHeap (<[i := c]> (clocks h)) (calls h).

(** ** Periods and frequencies *)

Definition CLOCK_PERIOD_1SEC : Z := u64 (1000000000 .<< 32).
Definition CLOCK_PERIOD_FROM_NS (ns : Z) : Z := u64 (ns * (CLOCK_PERIOD_1SEC / 1000000000)).
Definition CLOCK_PERIOD_FROM_HZ (hz : Z) : Z :=
  if negb (hz =? 0) then CLOCK_PERIOD_1SEC / hz else 0.
Definition CLOCK_PERIOD_TO_HZ (per : Z) : Z :=
  if negb (per =? 0) then CLOCK_PERIOD_1SEC / per else 0.

(** [muldiv64]: the product is computed in 128 bits. *)
Definition muldiv64 (a b c : Z) : res Z :=
  if c =? 0 then Fault DivisionByZero else Ok (u64 (a * b / c)).

(** [mulu64]: the low and high halves of a 128-bit product. *)
Definition mulu64 (a b : Z) : Z * Z := (u64 (a * b), u64 ((a * b) .>> 64)).

(** [divu128]: the low half of the quotient of a 128-bit dividend. *)
Definition divu128 (lo hi divisor : Z) : Z := u64 (((hi .<< 64) .| lo) / divisor).

Definition INT64_MAX : Z := 2 ^ 63 - 1.

(** [clock_get], [clock_get_hz], [clock_is_enabled] *)
Definition clock_get (c : Clock) : Z := period c.
Definition clock_get_hz (c : Clock) : Z := u32 (CLOCK_PERIOD_TO_HZ (clock_get c)).
Definition clock_is_enabled (c : Clock) : bool := negb (clock_get c =? 0).

(** [clock_ticks_to_ns] *)
Definition clock_ticks_to_ns (c : Clock) (ticks : Z) : Z :=
  let '(ns_low, ns_high) := mulu64 (period c) ticks in
  if truthy (ns_high .& MAKE_64BIT_MASK 31 33) then INT64_MAX
  else (ns_low .>> 32) .| u64 (ns_high .<< 32).

(** [clock_ns_to_ticks] *)
Definition clock_ns_to_ticks (c : Clock) (ns : Z) : Z :=
  let lo := u64 (ns .<< 32) in
  let hi := ns .>> 32 in
  if period c =? 0 then 0 else divu128 lo hi (period c).

(** ** The tree *)

(** [clock_initfn]: a new clock is stopped, with ratio 1 and no links. *)
Definition clock_initfn : Clock := mkClock 0 false 0 1 1 None [].

(** [clock_set_callback] *)
Definition clock_set_callback (i : nat) (events : Z) (h : clock_heap) : res clock_heap :=
  c ← get_clock h i;
  Ok (put_clock i (mkClock (period c) true (u32 events) (multiplier c) (divider c)
                     (source c) (children c)) h).

(** [clock_set]: true when the period changed. *)
Definition clock_set (i : nat) (per : Z) (h : clock_heap) : res (bool * clock_heap) :=
  c ← get_clock h i;
  if period c =? per then Ok (false, h)
  else Ok (true, put_clock i (set_period per c) h).

Definition clock_set_hz (i : nat) (hz : Z) (h : clock_heap) : res (bool * clock_heap) :=
  clock_set i (CLOCK_PERIOD_FROM_HZ hz) h.

Definition clock_set_ns (i : nat) (ns : Z) (h : clock_heap) : res (bool * clock_heap) :=
  clock_set i (CLOCK_PERIOD_FROM_NS ns) h.

(** [clock_get_child_period] *)
Definition clock_get_child_period (c : Clock) : res Z :=
  muldiv64 (period c) (multiplier c) (divider c).

(** [clock_call_callback]: the call is appended to the trace. *)
Definition clock_call_callback (i : nat) (ev : ClockEvent) (h : clock_heap) : res clock_heap :=
  c ← get_clock h i;
  if callback c && truthy (callback_events c .& clock_event_bit ev)
  then Ok (mkHeap (clocks h) (calls h ++ [(i, ev)]))
  else Ok h.

(** The body of the [QLIST_FOREACH] of [clock_propagate_period]; [propagate] is the
    recursive call. *)
Fixpoint propagate_children (propagate : nat -> clock_heap -> res clock_heap)
    (call_callbacks : bool) (child_period : Z) (l : list nat) (h : clock_heap) : res clock_heap :=
  match l with
  | [] => Ok h
  | child :: l =>
      c ← get_clock h child;
      h ← (if period c =? child_period then Ok h
           else
             h ← (if call_callbacks then clock_call_callback child ClockPreUpdate h else Ok h);
             c ← get_clock h child;
             let h := put_clock child (set_period child_period c) h in
             h ← (if call_callbacks then clock_call_callback child ClockUpdate h else Ok h);
             propagate child h);
      propagate_children propagate call_callbacks child_period l h
  end.

(** [clock_propagate_period], with a bound on the depth of the recursion. *)
Fixpoint clock_propagate_period (fuel : nat) (call_callbacks : bool) (clk : nat) (h : clock_heap)
  : res clock_heap :=
  match fuel with
  | O => Fault OutOfFuel
  | S fuel =>
      c ← get_clock h clk;
      child_period ← clock_get_child_period c;
      propagate_children (clock_propagate_period fuel call_callbacks)
        call_callbacks child_period (children c) h
  end.

(** The depth of a tree is at most the number of its clocks. *)
Definition clock_fuel (h : clock_heap) : nat := S (size (clocks h)).

(** [clock_propagate], [clock_update], [clock_update_hz], [clock_update_ns] *)
Definition clock_propagate (clk : nat) (h : clock_heap) : res clock_heap :=
  clock_propagate_period (clock_fuel h) true clk h.

Definition clock_update (clk : nat) (per : Z) (h : clock_heap) : res clock_heap :=
  '(changed, h) ← clock_set clk per h;
  if changed : bool then clock_propagate clk h else Ok h.

Definition clock_update_hz (clk : nat) (hz : Z) (h : clock_heap) : res clock_heap :=
  clock_update clk (CLOCK_PERIOD_FROM_HZ hz) h.

Definition clock_update_ns (clk : nat) (ns : Z) (h : clock_heap) : res clock_heap :=
  clock_update clk (CLOCK_PERIOD_FROM_NS ns) h.

(** [clock_set_source] *)
Definition clock_set_source (clk src : nat) (h : clock_heap) : res clock_heap :=
  c ← get_clock h clk;
  _ ← c_assert (match source c with None => true | Some _ => false end);
  p ← get_clock h src;
  per ← clock_get_child_period p;
  let h := put_clock clk (set_period per c) h in
  p ← get_clock h src;
  let h := put_clock src (mkClock (period p) (callback p) (callback_events p) (multiplier p)
                            (divider p) (source p) (clk :: children p)) h in
  c ← get_clock h clk;
  let h := put_clock clk (mkClock (period c) (callback c) (callback_events c) (multiplier c)
                            (divider c) (Some src) (children c)) h in
  clock_propagate_period (clock_fuel h) false clk h.

(** [clock_set_mul_div]: true when the ratio changed. *)
Definition clock_set_mul_div (clk : nat) (mul div : Z) (h : clock_heap)
  : res (bool * clock_heap) :=
  _ ← c_assert (negb (div =? 0));
  c ← get_clock h clk;
  if (multiplier c =? mul) && (divider c =? div) then Ok (false, h)
  else Ok (true, put_clock clk (mkClock (period c) (callback c) (callback_events c)
                                  (u32 mul) (u32 div) (source c) (children c)) h).

(** [clock_disconnect] *)
Definition clock_disconnect (clk : nat) (h : clock_heap) : res clock_heap :=
  c ← get_clock h clk;
  match source c with
  | None => Ok h
  | Some src =>
      let h := put_clock clk (mkClock (period c) (callback c) (callback_events c) (multiplier c)
                                (divider c) None (children c)) h in
      p ← get_clock h src;
      Ok (put_clock src (mkClock (period p) (callback p) (callback_events p) (multiplier p)
                           (divider p) (source p) (filter (fun x => x <> clk) (children p))) h)
  end.
