(* ===== verification/ClockTheory.v ===== *)
(** * Correctness of the clock tree

    Propagation terminates and leaves every clock at the period its source
    prescribes; conversions between frequencies, periods, ticks and
    nanoseconds are exact or off by a bounded amount. *)

From S2P Require Import Prelude Bits Clock.

(** ** Links and consistency *)

(** What propagation does not change of a clock. *)
Definition same_link (a b : Clock) : Prop :=
  callback a = callback b /\ callback_events a = callback_events b /\
  multiplier a = multiplier b /\ divider a = divider b /\
  source a = source b /\ children a = children b.

#[export] Instance same_link_equiv : Equivalence same_link.
Proof.
  unfold same_link. split.
  - intros c. done.
  - intros a b (?&?&?&?&?&?). repeat split; congruence.
  - intros a b c. intros (?&?&?&?&?&?) (?&?&?&?&?&?). repeat split; congruence.
Qed.

Definition same_links (h h' : clock_heap) : Prop :=
  forall i, match clocks h !! i, clocks h' !! i with
            | Some a, Some b => same_link a b
            | None, None => True
            | _, _ => False
            end.

Lemma same_links_lookup h h' i a :
  same_links h h' -> clocks h !! i = Some a -> exists b, clocks h' !! i = Some b /\ same_link a b.
Proof. intros Hs Ha. specialize (Hs i). rewrite Ha in Hs. destruct (clocks h' !! i); [eauto|done]. Qed.

#[export] Instance same_links_equiv : Equivalence same_links.
Proof.
  split.
  - intros h i. by destruct (clocks h !! i).
  - intros h h' Hs i. specialize (Hs i). destruct (clocks h !! i), (clocks h' !! i); try done.
  - intros h1 h2 h3 H1 H2 i. specialize (H1 i); specialize (H2 i).
    destruct (clocks h1 !! i), (clocks h2 !! i), (clocks h3 !! i); try done. by etrans.
Qed.

Lemma same_link_period c v : same_link c (set_period v c).
Proof. by repeat split. Qed.

Lemma same_links_put h i c c' :
  clocks h !! i = Some c -> same_link c c' -> same_links h (put_clock i c' h).
Proof.
  intros Hc Hl j. cbn. destruct (decide (j = i)) as [->|Hne].
  - by rewrite Hc, lookup_insert_eq.
  - rewrite lookup_insert_ne by done. by destruct (clocks h !! j).
Qed.

(** Well-formed trees.  [height] decreases from a clock to the clocks it
    drives, so the links form a forest. *)
Record wf_heap (height : nat -> nat) (h : clock_heap) : Prop := {
  wfh_child p c i : clocks h !! p = Some c -> i ∈ children c ->
    exists d, clocks h !! i = Some d /\ source d = Some p;
  wfh_source p i d : clocks h !! i = Some d -> source d = Some p ->
    exists c, clocks h !! p = Some c /\ i ∈ children c;
  wfh_nodup p c : clocks h !! p = Some c -> NoDup (children c);
  wfh_height p i d : clocks h !! i = Some d -> source d = Some p -> (height i < height p)%nat;
  wfh_divider p c : clocks h !! p = Some c -> divider c <> 0
}.

Lemma wf_heap_same height h h' : same_links h h' -> wf_heap height h -> wf_heap height h'.
Proof.
  intros Hs [Hc Hsrc Hnd Hh Hd].
  assert (Hback : forall i b, clocks h' !! i = Some b -> exists a, clocks h !! i = Some a /\ same_link a b).
  { intros i b Hb. destruct (same_links_lookup h' h i b) as (a & Ha & Hl); [by symmetry|done|].
    exists a. split; [done|by symmetry]. }
  split.
  - intros p c i Hp Hi. destruct (Hback p c Hp) as (a & Ha & Hl).
    destruct (Hc p a i Ha) as (d & Hd' & Hds); [destruct Hl as (_&_&_&_&_&->); done|].
    destruct (same_links_lookup _ _ _ _ Hs Hd') as (d' & ? & Hl').
    exists d'. split; [done|]. destruct Hl' as (_&_&_&_&<-&_). done.
  - intros p i d Hi Hp. destruct (Hback i d Hi) as (a & Ha & Hl).
    destruct (Hsrc p i a Ha) as (c & Hc' & Hin); [destruct Hl as (_&_&_&_&->&_); done|].
    destruct (same_links_lookup _ _ _ _ Hs Hc') as (c' & ? & Hl').
    exists c'. split; [done|]. destruct Hl' as (_&_&_&_&_&<-). done.
  - intros p c Hp. destruct (Hback p c Hp) as (a & Ha & (_&_&_&_&_&<-)). eauto.
  - intros p i d Hi Hp. destruct (Hback i d Hi) as (a & Ha & (_&_&_&_&E&_)). rewrite <- E in Hp. eauto.
  - intros p c Hp. destruct (Hback p c Hp) as (a & Ha & (_&_&_&<-&_&_)). eauto.
Qed.

(** The period a clock prescribes to the clocks it drives. *)
Definition child_period (c : Clock) : Z := u64 (period c * multiplier c / divider c).

Lemma child_period_Ok c : divider c <> 0 -> clock_get_child_period c = Ok (child_period c).
Proof.
  intros Hd. unfold clock_get_child_period, muldiv64. destruct (Z.eqb_spec (divider c) 0); done.
Qed.

(** The clocks that [p] drives run at the period it prescribes. *)
Definition drives (h : clock_heap) (p : nat) : Prop :=
  forall c i d, clocks h !! p = Some c -> clocks h !! i = Some d -> source d = Some p ->
    period d = child_period c.

Definition consistent (h : clock_heap) : Prop := forall p, drives h p.

(** [i] is strictly below [p] in the tree. *)
Inductive below (h : clock_heap) : nat -> nat -> Prop :=
  | below_child p i d : clocks h !! i = Some d -> source d = Some p -> below h i p
  | below_trans p q i d : clocks h !! i = Some d -> source d = Some q -> below h q p -> below h i p.

Lemma below_same h h' i p : same_links h h' -> below h i p -> below h' i p.
Proof.
  intros Hs. induction 1 as [p i d Hi Hp|p q i d Hi Hq _ IH];
    destruct (same_links_lookup _ _ _ _ Hs Hi) as (d' & Hd' & (_&_&_&_&E&_)); rewrite E in *.
  - by eapply below_child.
  - by eapply below_trans.
Qed.

Lemma below_height height h i p : wf_heap height h -> below h i p -> (height i < height p)%nat.
Proof.
  intros Hwf. induction 1 as [p i d Hi Hp|p q i d Hi Hq _ IH].
  - by eapply wfh_height.
  - pose proof (wfh_height _ _ Hwf _ _ _ Hi Hq). lia.
Qed.

Lemma below_extend h i c p d :
  below h i c -> clocks h !! c = Some d -> source d = Some p -> below h i p.
Proof.
  induction 1 as [q i d' Hi Hp|p' q i d' Hi Hq _ IH]; intros Hc Hs.
  - eapply below_trans; [done|done|]. by eapply below_child.
  - eapply below_trans; [done|done|]. by apply IH.
Qed.

(** ** Propagation *)

(** What [clock_propagate_period] on [clk] achieves: the links stay, [clk]
    drives its children, no other clock stops driving its own, and only
    clocks below [clk] change. *)
Record propagated (h : clock_heap) (clk : nat) (h' : clock_heap) : Prop := {
  pr_links : same_links h h';
  pr_drives p : p = clk \/ drives h p -> drives h' p;
  pr_frame i : ~ below h i clk -> clocks h' !! i = clocks h !! i
}.

Lemma get_clock_Some h i c : clocks h !! i = Some c -> get_clock h i = Ok c.
Proof. unfold get_clock. by intros ->. Qed.

Lemma call_callback_ok h i c ev :
  clocks h !! i = Some c -> exists h', clock_call_callback i ev h = Ok h' /\ clocks h' = clocks h.
Proof.
  intros Hc. unfold clock_call_callback. rewrite (get_clock_Some _ _ _ Hc), res_bind_Ok.
  case_match; eauto.
Qed.

Lemma maybe_callback_ok (b : bool) h i c ev :
  clocks h !! i = Some c ->
  exists h', (if b then clock_call_callback i ev h else Ok h) = Ok h' /\ clocks h' = clocks h.
Proof. intros Hc. destruct b; [by eapply call_callback_ok|eauto]. Qed.

(** Changing the period of [j] breaks only what [j]'s source and [j] drive. *)
Lemma set_period_drives h h1 clk j c v p :
  clocks h !! j = Some c -> source c = Some clk ->
  clocks h1 = <[j := set_period v c]> (clocks h) ->
  p <> clk -> p <> j -> drives h p -> drives h1 p.
Proof.
  intros Hj Hs H1 Hpc Hpj Hd cp i d Hp Hi Hsrc. rewrite H1 in Hp, Hi.
  rewrite lookup_insert_ne in Hp by done.
  destruct (decide (i = j)) as [->|Hij].
  - rewrite lookup_insert_eq in Hi. injection Hi as <-. cbn in Hsrc. congruence.
  - rewrite lookup_insert_ne in Hi by done. by eapply Hd.
Qed.

Section Propagate.
Context (height : nat -> nat) (call_callbacks : bool).

(** One round of the loop over the children of [clk]. *)
Lemma propagate_child (propagate : nat -> clock_heap -> res clock_heap) clk j v c h :
  v = u64 v -> wf_heap height h -> clocks h !! j = Some c -> source c = Some clk ->
  (forall h1, wf_heap height h1 -> is_Some (clocks h1 !! j) ->
     exists h2, propagate j h1 = Ok h2 /\ propagated h1 j h2) ->
  exists h2,
    (if period c =? v then Ok h
     else
       h ← (if call_callbacks then clock_call_callback j ClockPreUpdate h else Ok h);
       c ← get_clock h j;
       let h := put_clock j (set_period v c) h in
       h ← (if call_callbacks then clock_call_callback j ClockUpdate h else Ok h);
       propagate j h) = Ok h2 /\
    same_links h h2 /\ (forall p, p <> clk -> drives h p -> drives h2 p) /\
    (exists d, clocks h2 !! j = Some d /\ period d = v) /\
    (forall i, i <> j -> ~ below h i j -> clocks h2 !! i = clocks h !! i).
Proof.
  intros Hv Hwf Hj Hs Hrec. destruct (Z.eqb_spec (period c) v) as [Heq|Hne].
  { exists h. split; [done|]. split; [done|]. split; [done|]. split; [by exists c|done]. }
  destruct (maybe_callback_ok call_callbacks h j c ClockPreUpdate Hj) as (ha & -> & Ha).
  rewrite res_bind_Ok, (get_clock_Some ha j c) by (by rewrite Ha). rewrite res_bind_Ok. cbv zeta.
  destruct (maybe_callback_ok call_callbacks (put_clock j (set_period v c) ha) j (set_period v c)
              ClockUpdate) as (hb & -> & Hb); [apply lookup_insert_eq|].
  rewrite res_bind_Ok. cbn in Hb. rewrite Ha in Hb.
  assert (Hlinks : same_links h hb).
  { intros i. rewrite Hb. exact (same_links_put h j c (set_period v c) Hj (same_link_period c v) i). }
  assert (Hjb : clocks hb !! j = Some (set_period v c)) by (by rewrite Hb, lookup_insert_eq).
  pose proof (wf_heap_same _ _ _ Hlinks Hwf) as Hwfb.
  destruct (Hrec hb Hwfb) as (h2 & Hok & [Hl2 Hd2 Hf2]); [by rewrite Hjb|].
  assert (Hself : ~ below hb j j) by (intros Hbl; pose proof (below_height _ _ _ _ Hwfb Hbl); lia).
  exists h2. split; [done|]. split; [by etrans|]. split; [|split].
  - intros p Hp Hdp. destruct (decide (p = j)) as [->|Hpj]; [apply Hd2; by left|].
    apply Hd2. right. by apply (set_period_drives h hb clk j c v p).
  - exists (set_period v c). rewrite Hf2 by done. split; [done|]. cbn. by rewrite <- Hv.
  - intros i Hij Hnb. rewrite Hf2.
    + by rewrite Hb, lookup_insert_ne.
    + intros Hbl. apply Hnb. eapply below_same; [|exact Hbl]. by symmetry.
Qed.

Lemma propagate_children_ok (propagate : nat -> clock_heap -> res clock_heap) clk c v l h :
  v = child_period c -> wf_heap height h -> clocks h !! clk = Some c ->
  (forall j, j ∈ l -> j ∈ children c) -> NoDup l ->
  (forall j h1, j ∈ l -> wf_heap height h1 -> is_Some (clocks h1 !! j) ->
     exists h2, propagate j h1 = Ok h2 /\ propagated h1 j h2) ->
  exists h', propagate_children propagate call_callbacks v l h = Ok h' /\
    same_links h h' /\ (forall p, p <> clk -> drives h p -> drives h' p) /\
    (forall j, j ∈ l -> exists d, clocks h' !! j = Some d /\ period d = v) /\
    (forall i, i ∉ l -> (forall j, j ∈ l -> ~ below h i j) -> clocks h' !! i = clocks h !! i).
Proof.
  intros Hv. revert h. induction l as [|j l IH]; intros h Hwf Hc Hin Hnd Hrec.
  { exists h. repeat split; try done. intros j Hj. by apply elem_of_nil in Hj. }
  apply NoDup_cons in Hnd as [Hjl Hnd]. cbn [propagate_children].
  destruct (wfh_child _ _ Hwf clk c j Hc) as (cj & Hj & Hs); [apply Hin; left|].
  rewrite (get_clock_Some _ _ _ Hj), res_bind_Ok.
  destruct (propagate_child propagate clk j v cj h) as (h2 & Hok2 & Hl2 & Hd2 & (d & Hdj & Hdp) & Hf2);
    [subst v; unfold child_period; by rewrite wrapu_idem|done|done|done|intros; apply Hrec; [left|done..]|].
  cbv zeta in Hok2 |- *. rewrite Hok2, res_bind_Ok. pose proof (wf_heap_same _ _ _ Hl2 Hwf) as Hwf2.
  pose proof (wfh_height _ _ Hwf _ _ _ Hj Hs) as Hhj.
  assert (Hc2 : clocks h2 !! clk = Some c).
  { rewrite Hf2; [done|intros ->; lia|]. intros Hb%(below_height height); [lia|done]. }
  destruct (IH h2 Hwf2 Hc2) as (h3 & Hok & Hl3 & Hd3 & Hp3 & Hf3);
    [intros; apply Hin; by right|done|intros; apply Hrec; [by right|done..]|].
  exists h3. split; [done|]. split; [by etrans|]. split; [auto|]. split.
  - intros k [->|Hk]%elem_of_cons; [|by apply Hp3]. exists d. split; [|done]. rewrite Hf3; [done|done|].
    intros k Hk Hb. destruct (wfh_child _ _ Hwf clk c k Hc) as (ck & Hck & Hsk); [apply Hin; by right|].
    pose proof (wfh_height _ _ Hwf _ _ _ Hck Hsk) as Hhk.
    apply (below_same _ h) in Hb; [|by symmetry].
    inversion Hb as [? ? d0 H0 H1|? q ? d0 H0 H1 H2]; subst; rewrite Hj in H0; injection H0 as <-.
    + rewrite Hs in H1. injection H1 as ->. lia.
    + rewrite Hs in H1. injection H1 as ->. apply (below_height height) in H2; [lia|done].
  - intros i Hi Hnb. rewrite Hf3.
    + apply Hf2; [|apply Hnb; left]. intros ->. apply Hi. left.
    + intros Hil. apply Hi. by right.
    + intros k Hk Hb. apply (Hnb k); [by right|]. eapply below_same; [|exact Hb]. by symmetry.
Qed.

Lemma propagate_period_ok fuel clk h :
  wf_heap height h -> is_Some (clocks h !! clk) -> (height clk < fuel)%nat ->
  exists h', clock_propagate_period fuel call_callbacks clk h = Ok h' /\ propagated h clk h'.
Proof.
  revert clk h. induction fuel as [|fuel IH]; intros clk h Hwf [c Hc] Hf; [lia|].
  cbn [clock_propagate_period]. rewrite (get_clock_Some _ _ _ Hc), res_bind_Ok.
  rewrite child_period_Ok, res_bind_Ok by (by eapply wfh_divider).
  destruct (propagate_children_ok (clock_propagate_period fuel call_callbacks) clk c
              (child_period c) (children c) h) as (h' & -> & Hl & Hd & Hp & Hfr);
    [done|done|done|done|by eapply wfh_nodup| |].
  { intros j h1 Hj Hwf1 Hsome. apply IH; [done|done|].
    destruct (wfh_child _ _ Hwf clk c j Hc Hj) as (d & Hd & Hs).
    pose proof (wfh_height _ _ Hwf _ _ _ Hd Hs). lia. }
  exists h'. split; [done|].
  assert (Hfr' : forall i, ~ below h i clk -> clocks h' !! i = clocks h !! i).
  { intros i Hi. apply Hfr.
    - intros Hin. destruct (wfh_child _ _ Hwf clk c i Hc Hin) as (d & Hd' & Hs).
      apply Hi. by eapply below_child.
    - intros j Hj Hb. destruct (wfh_child _ _ Hwf clk c j Hc Hj) as (d & Hd' & Hs).
      apply Hi. by eapply below_extend. }
  assert (Hclk : drives h' clk).
  { intros c' i d Hc' Hi Hs.
    assert (Hsame : clocks h' !! clk = Some c)
      by (rewrite Hfr'; [done|intros Hb%(below_height height); [lia|done]]).
    rewrite Hsame in Hc'. injection Hc' as <-.
    destruct (wfh_source _ _ (wf_heap_same _ _ _ Hl Hwf) _ _ _ Hi Hs) as (c2 & Hc2 & Hin).
    rewrite Hsame in Hc2. injection Hc2 as <-.
    destruct (Hp i Hin) as (d' & Hd' & <-). congruence. }
  split; [done| |done]. intros p [->|Hdp]; [done|].
  destruct (decide (p = clk)) as [->|Hne]; [done|by apply Hd].
Qed.

End Propagate.

(** ** Arithmetic *)

Lemma high_mask_truthy x :
  in_range 64 x -> truthy (x .& MAKE_64BIT_MASK 31 33) = (2 ^ 31 <=? x).
Proof.
  intros Hx. replace (x .& MAKE_64BIT_MASK 31 33) with (2 ^ 31 * (x / 2 ^ 31)).
  - unfold truthy. assert (0 <= x / 2 ^ 31) by (apply Z.div_pos; [apply Hx|lia]).
    destruct (Z.leb_spec (2 ^ 31) x) as [Hle|Hlt].
    + assert (1 <= x / 2 ^ 31) by (apply Z.div_le_lower_bound; lia).
      destruct (Z.eqb_spec (2 ^ 31 * (x / 2 ^ 31)) 0); [lia|done].
    + rewrite Z.div_small; [done|]. destruct Hx. lia.
  - apply Z.bits_inj'. intros i Hi. rewrite Z.mul_comm, <- Z.shiftl_mul_pow2, <- Z.shiftr_div_pow2 by lia.
    rewrite Z.land_spec. change (MAKE_64BIT_MASK 31 33) with (Z.shiftl (Z.ones 33) 31).
    rewrite !Z.shiftl_spec by done. destruct (Z.lt_ge_cases i 31).
    + rewrite !(Z.testbit_neg_r _ (i - 31)) by lia. by rewrite andb_false_r.
    + rewrite Z.shiftr_spec by lia. replace (i - 31 + 31) with i by lia.
      destruct (Z.lt_ge_cases i 64).
      * rewrite Z.ones_spec_low by lia. by rewrite andb_true_r.
      * apply in_range_testbit in Hx as [Hx _]; [|lia]. by rewrite Hx.
Qed.

(** [clock_ticks_to_ns] is the exact time, saturated at [INT64_MAX]. *)
Lemma ticks_to_ns_spec c t :
  in_range 64 (period c) -> in_range 64 t ->
  clock_ticks_to_ns c t = Z.min (period c * t / 2 ^ 32) INT64_MAX.
Proof.
  intros [Hp0 Hp1] [Ht0 Ht1]. unfold clock_ticks_to_ns, mulu64. set (X := period c * t).
  assert (HX : 0 <= X < 2 ^ 128) by (unfold X; nia).
  assert (Hhi : u64 (X .>> 64) = X / 2 ^ 64).
  { rewrite Z.shiftr_div_pow2 by lia. apply wrapu_small.
    split; [apply Z.div_pos; lia|apply Z.div_lt_upper_bound; lia]. }
  rewrite Hhi, high_mask_truthy.
  2: { split; [apply Z.div_pos; lia|apply Z.div_lt_upper_bound; lia]. }
  unfold INT64_MAX. destruct (Z.leb_spec (2 ^ 31) (X / 2 ^ 64)) as [Hle|Hlt].
  - assert (2 ^ 31 * 2 ^ 64 <= X)
      by (pose proof (Z.mul_div_le X (2 ^ 64) ltac:(lia)); lia).
    rewrite Z.min_r; [done|]. pose proof (Z.div_le_lower_bound X (2 ^ 32) (2 ^ 63) ltac:(lia) ltac:(lia)). lia.
  - assert (X < 2 ^ 95).
    { pose proof (Z.div_mod X (2 ^ 64) ltac:(lia)). pose proof (Z.mod_pos_bound X (2 ^ 64) ltac:(lia)). lia. }
    assert (X / 2 ^ 32 < 2 ^ 63) by (apply Z.div_lt_upper_bound; lia).
    rewrite Z.min_l by lia. apply Z.bits_inj'. intros i Hi.
    rewrite <- !Z.shiftr_div_pow2, Z.lor_spec, !Z.shiftr_spec, wrapu_testbit by lia.
    rewrite wrapu_testbit, Z.shiftl_spec by lia.
    destruct (Z.lt_ge_cases i 32).
    + rewrite (Z.testbit_neg_r _ (i - 32)) by lia. rewrite andb_false_r, orb_false_r.
      destruct (Z.ltb_spec (i + 32) 64); [done|lia].
    + rewrite Z.shiftr_spec by lia. replace (i - 32 + 64) with (i + 32) by lia.
      destruct (Z.ltb_spec (i + 32) 64); [lia|]. cbn. destruct (Z.ltb_spec i 64); [done|]. cbn.
      symmetry. rewrite <- (Z.mod_small X (2 ^ 95)) by lia. apply Z.mod_pow2_bits_high. lia.
Qed.

(** [clock_ns_to_ticks] is the exact number of whole ticks, modulo 2^64. *)
Lemma ns_to_ticks_spec c ns :
  in_range 64 ns -> 0 < period c ->
  clock_ns_to_ticks c ns = u64 (ns * 2 ^ 32 / period c).
Proof.
  intros Hns Hp. unfold clock_ns_to_ticks. destruct (Z.eqb_spec (period c) 0); [lia|].
  unfold divu128. do 2 f_equal. apply Z.bits_inj'. intros i Hi.
  rewrite Z.lor_spec, wrapu_testbit, !Z.shiftl_spec, <- Z.shiftl_mul_pow2, Z.shiftl_spec by lia.
  destruct (Z.ltb_spec i 64).
  - by rewrite (Z.testbit_neg_r _ (i - 64)) by lia.
  - rewrite Z.shiftr_spec by lia. rewrite orb_false_r. f_equal. lia.
Qed.

(** ** Properties *)

Lemma clock_set_ok clk per h c :
  clocks h !! clk = Some c -> in_range 64 per ->
  exists b h1, clock_set clk per h = Ok (b, h1) /\ clocks h1 = <[clk := set_period per c]> (clocks h) /\
    (b = false -> h1 = h).
Proof.
  intros Hc Hper. unfold clock_set. rewrite (get_clock_Some _ _ _ Hc), res_bind_Ok.
  destruct (Z.eqb_spec (period c) per) as [Heq|Hne].
  - exists false, h. repeat split. rewrite insert_id; [done|]. rewrite Hc. f_equal.
    unfold set_period. rewrite wrapu_small by done. by destruct c; cbn in *; subst.
  - by eexists true, _.
Qed.

(** Changing the root of a tree spoils nothing but what the root drives. *)
Lemma root_change_drives h h1 clk c c' p :
  clocks h !! clk = Some c -> source c' = None ->
  clocks h1 = <[clk := c']> (clocks h) -> p <> clk -> drives h p -> drives h1 p.
Proof.
  intros Hc Hs H1 Hp Hd cp i d Hcp Hi Hsrc. rewrite H1 in Hcp, Hi.
  rewrite lookup_insert_ne in Hcp by done. destruct (decide (i = clk)) as [->|Hne].
  - rewrite lookup_insert_eq in Hi. injection Hi as <-. congruence.
  - rewrite lookup_insert_ne in Hi by done. by eapply Hd.
Qed.

Lemma not_below_root h clk c i : clocks h !! clk = Some c -> source c = None -> below h clk i -> False.
Proof. intros Hc Hs Hb. inversion Hb; subst; congruence. Qed.

(** C33: [clock_update] on the root of a consistent clock tree terminates
    within the recursion bound and leaves the tree consistent: the root has
    the new period and every clock has exactly the period its source
    prescribes through its multiplier and divider.  The links are unchanged,
    and so is every clock that is not below the root. *)
Theorem clock_update_consistent height clk per h c :
  wf_heap height h -> consistent h -> clocks h !! clk = Some c -> source c = None ->
  (height clk <= size (clocks h))%nat -> in_range 64 per ->
  exists h' c', clock_update clk per h = Ok h' /\ consistent h' /\ same_links h h' /\
    clocks h' !! clk = Some c' /\ period c' = per /\
    (forall i, i <> clk -> ~ below h i clk -> clocks h' !! i = clocks h !! i).
Proof.
  intros Hwf Hcons Hc Hs Hh Hper.
  destruct (clock_set_ok clk per h c Hc Hper) as (b & h1 & Hset & H1 & Hb).
  unfold clock_update. rewrite Hset, res_bind_Ok.
  assert (Hl1 : same_links h h1).
  { intros i. rewrite H1. exact (same_links_put h clk c _ Hc (same_link_period c per) i). }
  assert (Hc1 : clocks h1 !! clk = Some (set_period per c)) by (by rewrite H1, lookup_insert_eq).
  destruct b.
  - pose proof (wf_heap_same _ _ _ Hl1 Hwf) as Hwf1.
    destruct (propagate_period_ok height true (clock_fuel h1) clk h1 Hwf1) as (h' & Hok & [Hl Hd Hf]).
    { by rewrite Hc1. }
    { unfold clock_fuel. rewrite H1, map_size_insert_Some; [lia|by rewrite Hc]. }
    exists h', (set_period per c). split; [done|]. split.
    { intros p. apply Hd. destruct (decide (p = clk)) as [->|Hp]; [by left|right].
      by apply (root_change_drives h h1 clk c (set_period per c)). }
    split; [by etrans|]. split.
    { rewrite Hf; [done|]. intros Hbl. exact (not_below_root h1 clk (set_period per c) clk Hc1 Hs Hbl). }
    split; [by apply wrapu_small|]. intros i Hi Hnb. rewrite Hf.
    + by rewrite H1, lookup_insert_ne.
    + intros Hbl. apply Hnb. eapply below_same; [|exact Hbl]. by symmetry.
  - rewrite (Hb eq_refl) in *. exists h, (set_period per c). split; [done|].
    repeat split; [done..|by apply wrapu_small].
Qed.

(** Three clocks in a chain; the middle one divides by eight for the last. *)
Definition demo_clocks : clock_heap :=
  mkHeap (<[0%nat := mkClock 0 false 0 1 1 None [1%nat]]>
          (<[1%nat := mkClock 0 false 0 8 1 (Some 0%nat) [2%nat]]>
           {[2%nat := mkClock 0 true 1 1 1 (Some 1%nat) []]})) [].

Definition demo_height (i : nat) : nat := (2 - i)%nat.

(** Reads a lookup in a concrete heap. *)
Ltac lookup_cases H :=
  cbn in H; repeat (apply lookup_insert_Some in H as [[<- <-]|[_ H]]);
  try apply lookup_singleton_Some in H as [<- <-].

Lemma wf_demo_clocks : wf_heap demo_height demo_clocks.
Proof.
  split.
  - intros p c i Hp Hi. lookup_cases Hp; cbn in Hi;
      repeat (apply elem_of_cons in Hi as [->|Hi]); try (by apply elem_of_nil in Hi);
      eexists; split; reflexivity.
  - intros p i d Hi Hs. lookup_cases Hi; cbn in Hs; simplify_eq;
      eexists; (split; [reflexivity|left]).
  - intros p c Hp. lookup_cases Hp; cbn; repeat constructor; intros Hin; by apply elem_of_nil in Hin.
  - intros p i d Hi Hs. lookup_cases Hi; cbn in Hs; simplify_eq; unfold demo_height; lia.
  - intros p c Hp. by lookup_cases Hp.
Qed.

Lemma demo_clocks_consistent : consistent demo_clocks.
Proof. intros p c i d Hp Hi Hs. lookup_cases Hi; cbn in Hs; simplify_eq; vm_compute in Hp; by simplify_eq. Qed.

Lemma clock_update_consistent_witness :
  exists h' c', clock_update 0 26843545600 demo_clocks = Ok h' /\ consistent h' /\
    same_links demo_clocks h' /\ clocks h' !! 0%nat = Some c' /\ period c' = 26843545600 /\
    (forall i, i <> 0%nat -> ~ below demo_clocks i 0 -> clocks h' !! i = clocks demo_clocks !! i).
Proof.
  apply (clock_update_consistent demo_height 0 26843545600 demo_clocks (mkClock 0 false 0 1 1 None [1%nat]));
    [apply wf_demo_clocks|apply demo_clocks_consistent|done|done|vm_compute; lia|by vm_compute].
Defined.

(** The heap after [clk] is linked below [src]. *)
Definition linked_child (per : Z) (src : nat) (c : Clock) : Clock :=
  mkClock (u64 per) (callback c) (callback_events c) (multiplier c) (divider c) (Some src) (children c).

Definition linked_parent (clk : nat) (p : Clock) : Clock :=
  mkClock (period p) (callback p) (callback_events p) (multiplier p) (divider p) (source p)
    (clk :: children p).

Section SetSource.
Context (height : nat -> nat) (clk src : nat) (h h1 : clock_heap) (c p : Clock).
Context (Hwf : wf_heap height h) (Hc : clocks h !! clk = Some c) (Hp : clocks h !! src = Some p).
Context (Hroot : source c = None) (Hheight : (height clk < height src)%nat).
Context (H1 : clocks h1 =
  <[clk := linked_child (child_period p) src c]> (<[src := linked_parent clk p]> (clocks h))).

Lemma set_source_ne : clk <> src.
Proof. intros ->. lia. Qed.

(** The entry of any clock of the linked heap, in terms of the old one. *)
Lemma linked_lookup i d :
  clocks h1 !! i = Some d ->
  exists d0, clocks h !! i = Some d0 /\ divider d = divider d0 /\
    ((i = clk /\ d = linked_child (child_period p) src c) \/
     (i <> clk /\ i = src /\ d = linked_parent clk p) \/ (i <> clk /\ i <> src /\ d = d0)).
Proof.
  rewrite H1. intros Hd. destruct (decide (i = clk)) as [->|Hi].
  { rewrite lookup_insert_eq in Hd. injection Hd as <-. exists c. naive_solver. }
  rewrite lookup_insert_ne in Hd by done. destruct (decide (i = src)) as [->|Hi'].
  { rewrite lookup_insert_eq in Hd. injection Hd as <-. exists p. naive_solver. }
  rewrite lookup_insert_ne in Hd by done. exists d. naive_solver.
Qed.

Lemma linked_old i d :
  clocks h !! i = Some d -> i <> clk -> exists d', clocks h1 !! i = Some d' /\ source d' = source d /\
    (forall j, j ∈ children d -> j ∈ children d').
Proof.
  intros Hd Hi. rewrite H1, lookup_insert_ne by done. destruct (decide (i = src)) as [->|Hi'].
  - exists (linked_parent clk p). rewrite lookup_insert_eq. simplify_eq. split; [done|].
    split; [done|]. intros j Hj. by right.
  - rewrite lookup_insert_ne by done. by exists d.
Qed.

Lemma linked_clk : clocks h1 !! clk = Some (linked_child (child_period p) src c).
Proof. by rewrite H1, lookup_insert_eq. Qed.

(** A clock with a source is not [clk], which had none. *)
Lemma child_not_clk q cq i : clocks h !! q = Some cq -> i ∈ children cq -> i <> clk.
Proof. intros Hq Hi ->. destruct (wfh_child _ _ Hwf _ _ _ Hq Hi) as (d & Hd & Hs). congruence. Qed.

Lemma linked_wf : wf_heap height h1.
Proof.
  pose proof set_source_ne as Hne. split.
  - intros q cq i Hq Hi. destruct (linked_lookup _ _ Hq) as (d0 & Hd0 & _ & Hcase).
    assert (Hold : i ∈ children d0 -> exists d, clocks h1 !! i = Some d /\ source d = Some q).
    { intros Hin. destruct (wfh_child _ _ Hwf _ _ _ Hd0 Hin) as (d & Hd & Hs).
      destruct (linked_old i d Hd) as (d' & Hd' & Hs' & _); [exact (child_not_clk q d0 i Hd0 Hin)|].
      exists d'. split; [done|congruence]. }
    destruct Hcase as [[-> ->]|[(_ & -> & ->)|(_ & _ & ->)]]; [..|by apply Hold].
    + apply Hold. by simplify_eq.
    + cbn in Hi. apply elem_of_cons in Hi as [->|Hi]; [|apply Hold; by simplify_eq].
      eexists. split; [apply linked_clk|done].
  - intros q i d Hi Hs. destruct (linked_lookup _ _ Hi) as (d0 & Hd0 & _ & Hcase).
    destruct Hcase as [[-> ->]|Hcase].
    + cbn in Hs. injection Hs as <-. exists (linked_parent clk p).
      rewrite H1, lookup_insert_ne, lookup_insert_eq by done. split; [done|left].
    + assert (Hs0 : source d0 = Some q) by (destruct Hcase as [(_ & -> & ->)|(_ & _ & ->)]; [by simplify_eq|done]).
      destruct (wfh_source _ _ Hwf _ _ _ Hd0 Hs0) as (cq & Hq & Hin).
      destruct (decide (q = clk)) as [->|Hq'].
      * eexists. split; [apply linked_clk|]. cbn. by simplify_eq.
      * destruct (linked_old _ _ Hq Hq') as (d' & ? & _ & Hsub). eauto.
  - intros q cq Hq. destruct (linked_lookup _ _ Hq) as (d0 & Hd0 & _ & Hcase).
    pose proof (wfh_nodup _ _ Hwf _ _ Hd0).
    destruct Hcase as [[-> ->]|[(_ & -> & ->)|(_ & _ & ->)]]; cbn; simplify_eq; [done| |done].
    constructor; [|done]. intros Hin. exact (child_not_clk src _ clk Hp Hin eq_refl).
  - intros q i d Hi Hs. destruct (linked_lookup _ _ Hi) as (d0 & Hd0 & _ & Hcase).
    destruct Hcase as [[-> ->]|[(_ & -> & ->)|(_ & _ & ->)]]; cbn in Hs.
    + by injection Hs as <-.
    + simplify_eq. by eapply wfh_height.
    + by eapply wfh_height.
  - intros q cq Hq. destruct (linked_lookup _ _ Hq) as (d0 & Hd0 & -> & _). by eapply wfh_divider.
Qed.

Lemma linked_drives q : consistent h -> q <> clk -> drives h1 q.
Proof.
  intros Hcons Hq cq i d Hcq Hi Hs. pose proof set_source_ne as Hne.
  destruct (linked_lookup _ _ Hcq) as (q0 & Hq0 & _ & Hcase).
  assert (Hcp : child_period cq = child_period q0)
    by (destruct Hcase as [[-> _]|[(_ & -> & ->)|(_ & _ & ->)]]; [done|by simplify_eq|done]).
  destruct (linked_lookup _ _ Hi) as (d0 & Hd0 & _ & Hcase').
  destruct Hcase' as [[-> ->]|[(_ & -> & ->)|(_ & _ & ->)]]; cbn in Hs |- *.
  - injection Hs as <-. simplify_eq. rewrite Hcp. unfold child_period. apply wrapu_idem.
  - rewrite Hcp. simplify_eq. by eapply Hcons.
  - rewrite Hcp. by eapply Hcons.
Qed.

End SetSource.

(** [clock_set_source] attaches a clock without a source to a consistent
    tree, and the tree is consistent afterwards: the attached clock and all
    the clocks below it run at the periods their sources prescribe. *)
Theorem clock_set_source_consistent height clk src h c p :
  wf_heap height h -> consistent h -> clocks h !! clk = Some c -> source c = None ->
  clocks h !! src = Some p -> (height clk < height src)%nat -> (height clk <= size (clocks h))%nat ->
  exists h', clock_set_source clk src h = Ok h' /\ consistent h' /\ wf_heap height h' /\
    exists c', clocks h' !! clk = Some c' /\ source c' = Some src /\ period c' = child_period p.
Proof.
  intros Hwf Hcons Hc Hs Hp Hh Hsz. assert (Hne : clk <> src) by (intros ->; lia).
  unfold clock_set_source. rewrite (get_clock_Some _ _ _ Hc), res_bind_Ok, Hs.
  cbn [c_assert]. rewrite res_bind_Ok, (get_clock_Some _ _ _ Hp), res_bind_Ok.
  rewrite child_period_Ok, res_bind_Ok by (by eapply wfh_divider). cbv zeta.
  rewrite (get_clock_Some _ src p) by (cbn; by rewrite lookup_insert_ne). rewrite res_bind_Ok.
  rewrite (get_clock_Some _ clk (set_period (child_period p) c))
    by (cbn; by rewrite lookup_insert_ne, lookup_insert_eq by done). rewrite res_bind_Ok.
  set (h1 := put_clock clk _ _).
  assert (H1 : clocks h1 = <[clk := linked_child (child_period p) src c]>
                             (<[src := linked_parent clk p]> (clocks h))).
  { cbn. rewrite (insert_insert_ne _ src clk) by done. by rewrite insert_insert_eq. }
  clearbody h1. pose proof (linked_wf height clk src h h1 c p Hwf Hc Hp Hs Hh H1) as Hwf1.
  destruct (propagate_period_ok height false (clock_fuel h1) clk h1 Hwf1) as (h' & Hok & [Hl Hd Hf]).
  { by rewrite H1, lookup_insert_eq. }
  { unfold clock_fuel. rewrite H1, map_size_insert_Some, map_size_insert_Some; [lia|by rewrite Hp|].
    by rewrite lookup_insert_ne, Hc. }
  exists h'. split; [done|]. split; [|split; [by eapply wf_heap_same|]].
  - intros q. apply Hd. destruct (decide (q = clk)) as [->|Hq]; [by left|right].
    by eapply (linked_drives height clk src h h1 c p).
  - eexists. rewrite Hf, H1, lookup_insert_eq; [split; [done|]|].
    + cbn. split; [done|]. unfold child_period. apply wrapu_idem.
    + intros Hb%(below_height height); [lia|done].
Qed.

(** The chain, with a fourth clock not yet attached. *)
Definition demo_detached : clock_heap :=
  put_clock 3 (mkClock 0 false 0 1 1 None []) demo_clocks.

Definition demo_detached_height (i : nat) : nat := match i with 3 => 0 | _ => 3 - i end%nat.

Lemma wf_demo_detached : wf_heap demo_detached_height demo_detached.
Proof.
  split.
  - intros p c i Hp Hi. lookup_cases Hp; cbn in Hi;
      repeat (apply elem_of_cons in Hi as [->|Hi]); try (by apply elem_of_nil in Hi);
      eexists; split; reflexivity.
  - intros p i d Hi Hs. lookup_cases Hi; cbn in Hs; simplify_eq;
      eexists; (split; [reflexivity|left]).
  - intros p c Hp. lookup_cases Hp; cbn; repeat constructor; intros Hin; by apply elem_of_nil in Hin.
  - intros p i d Hi Hs. lookup_cases Hi; cbn in Hs; simplify_eq; unfold demo_detached_height; lia.
  - intros p c Hp. by lookup_cases Hp.
Qed.

Lemma demo_detached_consistent : consistent demo_detached.
Proof. intros p c i d Hp Hi Hs. lookup_cases Hi; cbn in Hs; simplify_eq; vm_compute in Hp; by simplify_eq. Qed.

Lemma clock_set_source_consistent_witness :
  exists h', clock_set_source 3 1 demo_detached = Ok h' /\ consistent h' /\
    wf_heap demo_detached_height h' /\
    exists c', clocks h' !! 3%nat = Some c' /\ source c' = Some 1%nat /\ period c' = 0.
Proof.
  apply (clock_set_source_consistent demo_detached_height 3 1 demo_detached
           (mkClock 0 false 0 1 1 None []) (mkClock 0 false 0 8 1 (Some 0%nat) [2%nat]));
    [apply wf_demo_detached|apply demo_detached_consistent|done|done|done|vm_compute; lia|vm_compute; lia].
Defined.

(** Replacing a clock by one with the same links keeps the tree well formed. *)
Lemma wf_heap_replace height h h1 clk c c1 :
  wf_heap height h -> clocks h !! clk = Some c -> source c1 = source c -> children c1 = children c ->
  divider c1 <> 0 -> clocks h1 = <[clk := c1]> (clocks h) -> wf_heap height h1.
Proof.
  intros Hwf Hc Hs1 Hch1 Hd1 H1.
  assert (Hlk : forall i d, clocks h1 !! i = Some d -> exists d0, clocks h !! i = Some d0 /\
            source d = source d0 /\ children d = children d0 /\ divider d <> 0).
  { intros i d Hi. rewrite H1 in Hi. apply lookup_insert_Some in Hi as [[<- <-]|[_ Hi]].
    - by exists c.
    - exists d. repeat split; [done|]. by eapply wfh_divider. }
  assert (Hlk' : forall i d0, clocks h !! i = Some d0 -> exists d, clocks h1 !! i = Some d /\
            source d = source d0 /\ children d = children d0).
  { intros i d0 Hi. rewrite H1. destruct (decide (i = clk)) as [->|Hne].
    - exists c1. rewrite lookup_insert_eq. by simplify_eq.
    - exists d0. by rewrite lookup_insert_ne. }
  split.
  - intros p cp i Hp Hi. destruct (Hlk _ _ Hp) as (p0 & Hp0 & _ & Hch & _). rewrite Hch in Hi.
    destruct (wfh_child _ _ Hwf _ _ _ Hp0 Hi) as (d & Hd & Hs).
    destruct (Hlk' _ _ Hd) as (d' & ? & Hs' & _). exists d'. split; [done|congruence].
  - intros p i d Hi Hs. destruct (Hlk _ _ Hi) as (d0 & Hd' & Hs0 & _). rewrite Hs0 in Hs.
    destruct (wfh_source _ _ Hwf _ _ _ Hd' Hs) as (cp & Hp & Hin).
    destruct (Hlk' _ _ Hp) as (cp' & ? & _ & Hch). exists cp'. split; [done|congruence].
  - intros p cp Hp. destruct (Hlk _ _ Hp) as (p0 & Hp0 & _ & -> & _). by eapply wfh_nodup.
  - intros p i d Hi Hs. destruct (Hlk _ _ Hi) as (d0 & Hd' & Hs0 & _). rewrite Hs0 in Hs.
    by eapply wfh_height.
  - intros p cp Hp. by destruct (Hlk _ _ Hp) as (_ & _ & _ & _ & Hdv).
Qed.

(** Changing the ratio of a clock takes effect with the next propagation:
    [clock_set_mul_div] followed by [clock_propagate] restores a consistent
    tree with the new ratio, and the clock's own period does not change. *)
Theorem clock_ratio_change_consistent height clk mul div h c :
  wf_heap height h -> consistent h -> clocks h !! clk = Some c ->
  (height clk <= size (clocks h))%nat -> in_range 32 mul -> in_range 32 div -> div <> 0 ->
  exists b h1 h' c', clock_set_mul_div clk mul div h = Ok (b, h1) /\
    clock_propagate clk h1 = Ok h' /\ consistent h' /\
    clocks h' !! clk = Some c' /\ period c' = period c /\ multiplier c' = mul /\ divider c' = div.
Proof.
  intros Hwf Hcons Hc Hh Hm Hdr Hd0.
  set (c1 := mkClock (period c) (callback c) (callback_events c) mul div (source c) (children c)).
  assert (exists b h1, clock_set_mul_div clk mul div h = Ok (b, h1) /\
            clocks h1 = <[clk := c1]> (clocks h)) as (b & h1 & Hset & H1).
  { unfold clock_set_mul_div. destruct (Z.eqb_spec div 0); [done|]. cbn [negb c_assert].
    rewrite res_bind_Ok, (get_clock_Some _ _ _ Hc), res_bind_Ok.
    destruct (Z.eqb_spec (multiplier c) mul), (Z.eqb_spec (divider c) div); cbn [andb];
      try (eexists true, _; split; [done|]; cbn; by rewrite !wrapu_small by done).
    exists false, h. split; [done|]. rewrite insert_id; [done|]. rewrite Hc. f_equal.
    unfold c1. subst. by destruct c. }
  exists b, h1. assert (Hc1 : clocks h1 !! clk = Some c1) by (by rewrite H1, lookup_insert_eq).
  pose proof (wf_heap_replace height h h1 clk c c1 Hwf Hc eq_refl eq_refl Hd0 H1) as Hwf1.
  destruct (propagate_period_ok height true (clock_fuel h1) clk h1 Hwf1) as (h' & Hok & [Hl Hd Hf]).
  { by rewrite Hc1. }
  { unfold clock_fuel. rewrite H1, map_size_insert_Some; [lia|by rewrite Hc]. }
  exists h', c1. split; [done|]. split; [done|]. split; [|split; [|done]].
  - intros p. apply Hd. destruct (decide (p = clk)) as [->|Hp]; [by left|right].
    intros cp i d Hcp Hi Hs. rewrite H1 in Hcp, Hi. rewrite lookup_insert_ne in Hcp by done.
    apply lookup_insert_Some in Hi as [[<- <-]|[_ Hi]]; [|by eapply Hcons].
    exact (Hcons p cp clk c Hcp Hc Hs).
  - rewrite Hf; [done|]. intros Hb%(below_height height); [lia|done].
Qed.

Lemma clock_ratio_change_consistent_witness :
  exists b h1 h' c', clock_set_mul_div 0 2 3 demo_clocks = Ok (b, h1) /\
    clock_propagate 0 h1 = Ok h' /\ consistent h' /\
    clocks h' !! 0%nat = Some c' /\ period c' = 0 /\ multiplier c' = 2 /\ divider c' = 3.
Proof.
  apply (clock_ratio_change_consistent demo_height 0 2 3 demo_clocks (mkClock 0 false 0 1 1 None [1%nat]));
    [apply wf_demo_clocks|apply demo_clocks_consistent|done|vm_compute; lia|by vm_compute|by vm_compute|done].
Defined.

(** Setting a frequency and reading it back: the stored period loses
    nothing that shows, so the frequency reads back exactly for every
    frequency up to about 2 GHz. *)
Theorem clock_hz_round_trip hz c :
  0 < hz -> hz * hz <= CLOCK_PERIOD_1SEC -> period c = CLOCK_PERIOD_FROM_HZ hz ->
  clock_get_hz c = hz.
Proof.
  intros H0 Hsq Hc. unfold clock_get_hz, clock_get. rewrite Hc. unfold CLOCK_PERIOD_FROM_HZ, CLOCK_PERIOD_TO_HZ.
  destruct (Z.eqb_spec hz 0); [lia|]. cbn [negb].
  pose proof (Z.div_mod CLOCK_PERIOD_1SEC hz ltac:(lia)) as Hdm.
  pose proof (Z.mod_pos_bound CLOCK_PERIOD_1SEC hz ltac:(lia)) as Hr.
  assert (Hq : hz <= CLOCK_PERIOD_1SEC / hz) by (apply Z.div_le_lower_bound; lia).
  destruct (Z.eqb_spec (CLOCK_PERIOD_1SEC / hz) 0); [lia|]. cbn [negb].
  rewrite <- (Z.div_unique CLOCK_PERIOD_1SEC (CLOCK_PERIOD_1SEC / hz) hz (CLOCK_PERIOD_1SEC mod hz)); [|lia..].
  apply wrapu_small. change CLOCK_PERIOD_1SEC with 4294967296000000000 in Hsq. nia.
Qed.

Lemma clock_hz_round_trip_witness :
  clock_get_hz (set_period (CLOCK_PERIOD_FROM_HZ 160000000) clock_initfn) = 160000000.
Proof. apply (clock_hz_round_trip 160000000); [lia|vm_compute; congruence|reflexivity]. Defined.

(** Ticks and nanoseconds: the conversion of ticks is exact and saturates
    at [INT64_MAX], and for a clock of at most 1 GHz converting back gives the
    same number of ticks or one less. *)
Theorem clock_ticks_round_trip c t :
  in_range 64 (period c) -> in_range 64 t ->
  clock_ticks_to_ns c t = Z.min (period c * t / 2 ^ 32) INT64_MAX /\
  (2 ^ 32 <= period c -> 0 < t -> period c * t < 2 ^ 95 ->
   t - 1 <= clock_ns_to_ticks c (clock_ticks_to_ns c t) <= t).
Proof.
  intros Hp Ht. split; [by apply ticks_to_ns_spec|]. intros H32 Ht0 H95.
  rewrite ticks_to_ns_spec by done. set (n := period c * t / 2 ^ 32).
  assert (Hn : 0 <= n < 2 ^ 63)
    by (split; [apply Z.div_pos; lia|apply Z.div_lt_upper_bound; lia]).
  unfold INT64_MAX. rewrite Z.min_l by lia.
  rewrite ns_to_ticks_spec by (unfold in_range; lia).
  pose proof (Z.mul_div_le (period c * t) (2 ^ 32) ltac:(lia)) as Hle.
  pose proof (Z.mul_succ_div_gt (period c * t) (2 ^ 32) ltac:(lia)) as Hgt. fold n in Hle, Hgt.
  assert (Hlo : t - 1 <= n * 2 ^ 32 / period c) by (apply Z.div_le_lower_bound; nia).
  assert (Hhi : n * 2 ^ 32 / period c <= t) by (apply Z.div_le_upper_bound; lia).
  rewrite wrapu_small; [done|]. destruct Ht. lia.
Qed.

Lemma clock_ticks_round_trip_witness :
  let c := set_period (CLOCK_PERIOD_FROM_HZ 20000000) clock_initfn in
  999 <= clock_ns_to_ticks c (clock_ticks_to_ns c 1000) <= 1000.
Proof.
  intros c. apply (clock_ticks_round_trip c 1000); [by vm_compute|by vm_compute|by vm_compute|lia|by vm_compute].
Defined.
