(* ===== verification/Topology.v ===== *)
(** * The memory topology

    [system/memory.c]: the tree of memory regions, how a container orders its
    subregions, and how the tree is rendered into a flat view, the sorted list
    of disjoint ranges that addresses are resolved in.  The rendering is proved
    equal to a first-match search of the tree. *)

From Stdlib Require Import Sorted.
From S2P Require Import Prelude.

(** ** Data *)

(** [struct AddrRange].  [Int128] is wide enough for every sum below. *)
Record AddrRange : Set := mkRange { ar_start : Z; ar_size : Z }.

Definition addrrange_make (start size : Z) : AddrRange := mkRange start size.
Definition addrrange_end (r : AddrRange) : Z := ar_start r + ar_size r.
Definition addrrange_contains (r : AddrRange) (addr : Z) : bool :=
  (addr >=? ar_start r) && (addr <? addrrange_end r).
Definition addrrange_intersects (r1 r2 : AddrRange) : bool :=
  addrrange_contains r1 (ar_start r2) || addrrange_contains r2 (ar_start r1).
Definition addrrange_intersection (r1 r2 : AddrRange) : AddrRange :=
  let start := Z.max (ar_start r1) (ar_start r2) in
  let stop := Z.min (addrrange_end r1) (addrrange_end r2) in
  addrrange_make start (stop - start).

(** [struct MemoryRegion], the fields that decide the topology.  [mr_id] is
    the identity of the object. *)
Unset Elimination Schemes.
Inductive MemoryRegion : Type := mkMR {
  mr_id : nat;
  mr_addr : Z;
  mr_size : Z;
  mr_enabled : bool;
  mr_readonly : bool;
  mr_nonvolatile : bool;
  mr_unmergeable : bool;
  mr_terminates : bool;
  mr_romd_mode : bool;
  mr_dirty_log_mask : Z;
  mr_priority : Z;
  mr_alias : option MemoryRegion;
  mr_alias_offset : Z;
  mr_subregions : list MemoryRegion
}.
Set Elimination Schemes.

(** [struct FlatRange] *)
Record FlatRange : Set := mkFR {
  fr_mr : nat;
  fr_offset_in_region : Z;
  fr_addr : AddrRange;
  fr_dirty_log_mask : Z;
  fr_romd_mode : bool;
  fr_readonly : bool;
  fr_nonvolatile : bool;
  fr_unmergeable : bool
}.

Definition FlatView : Set := list FlatRange.

(** ** Subregions *)

(** The insertion of [memory_region_update_container_subregions]. *)
Fixpoint update_container_subregions (sub : MemoryRegion) (l : list MemoryRegion)
  : list MemoryRegion :=
  match l with
  | [] => [sub]
  | other :: l' =>
      if mr_priority sub >=? mr_priority other then sub :: l
      else other :: update_container_subregions sub l'
  end.

Definition set_subregions (l : list MemoryRegion) (mr : MemoryRegion) : MemoryRegion :=
  mkMR (mr_id mr) (mr_addr mr) (mr_size mr) (mr_enabled mr) (mr_readonly mr) (mr_nonvolatile mr)
    (mr_unmergeable mr) (mr_terminates mr) (mr_romd_mode mr) (mr_dirty_log_mask mr) (mr_priority mr)
    (mr_alias mr) (mr_alias_offset mr) l.

Definition set_placement (addr prio : Z) (mr : MemoryRegion) : MemoryRegion :=
  mkMR (mr_id mr) addr (mr_size mr) (mr_enabled mr) (mr_readonly mr) (mr_nonvolatile mr)
    (mr_unmergeable mr) (mr_terminates mr) (mr_romd_mode mr) (mr_dirty_log_mask mr) prio
    (mr_alias mr) (mr_alias_offset mr) (mr_subregions mr).

(** [memory_region_add_subregion_overlap], [memory_region_add_subregion] *)
Definition memory_region_add_subregion_overlap (mr : MemoryRegion) (offset : Z) (sub : MemoryRegion)
    (priority : Z) : MemoryRegion :=
  set_subregions (update_container_subregions (set_placement offset priority sub) (mr_subregions mr)) mr.

Definition memory_region_add_subregion (mr : MemoryRegion) (offset : Z) (sub : MemoryRegion)
  : MemoryRegion :=
  memory_region_add_subregion_overlap mr offset sub 0.

(** [memory_region_del_subregion]: the list without the region. *)
Definition memory_region_del_subregion (mr : MemoryRegion) (sub : nat) : MemoryRegion :=
  set_subregions (filter (fun r => mr_id r <> sub) (mr_subregions mr)) mr.

(** [memory_region_set_enabled] *)
Definition memory_region_set_enabled (mr : MemoryRegion) (b : bool) : MemoryRegion :=
  mkMR (mr_id mr) (mr_addr mr) (mr_size mr) b (mr_readonly mr) (mr_nonvolatile mr)
    (mr_unmergeable mr) (mr_terminates mr) (mr_romd_mode mr) (mr_dirty_log_mask mr) (mr_priority mr)
    (mr_alias mr) (mr_alias_offset mr) (mr_subregions mr).

(** ** Rendering *)

(** A range of [mr] as [render_memory_region] inserts it. *)
Definition mk_flat (mr : MemoryRegion) (readonly nonvolatile unmergeable : bool) (base off size : Z)
  : FlatRange :=
  mkFR (mr_id mr) off (addrrange_make base size) (mr_dirty_log_mask mr) (mr_romd_mode mr)
    readonly nonvolatile unmergeable.

(** The [for] loop of [render_memory_region] and the insertion after it:
    [base], [off] and [remain] are what is left of the region, [mk] builds the
    range to insert. *)
Fixpoint render_gaps (mk : Z -> Z -> Z -> FlatRange) (view : FlatView) (base off remain : Z)
  : FlatView :=
  match view with
  | [] => if remain =? 0 then [] else [mk base off remain]
  | r :: view' =>
      if remain =? 0 then view
      else if base >=? addrrange_end (fr_addr r) then r :: render_gaps mk view' base off remain
      else if base <? ar_start (fr_addr r) then
        let now := Z.min remain (ar_start (fr_addr r) - base) in
        let fr := mk base off now in
        let base := base + now in
        let off := off + now in
        let remain := remain - now in
        let now := Z.min (base + remain) (addrrange_end (fr_addr r)) - base in
        fr :: r :: render_gaps mk view' (base + now) (off + now) (remain - now)
      else
        let now := Z.min (base + remain) (addrrange_end (fr_addr r)) - base in
        r :: render_gaps mk view' (base + now) (off + now) (remain - now)
  end.

(** [render_memory_region] *)
Fixpoint render_memory_region (mr : MemoryRegion) (view : FlatView) (base : Z) (clip : AddrRange)
    (readonly nonvolatile unmergeable : bool) : FlatView :=
  if negb (mr_enabled mr) then view
  else
    let base := base + mr_addr mr in
    let readonly := readonly || mr_readonly mr in
    let nonvolatile := nonvolatile || mr_nonvolatile mr in
    let unmergeable := unmergeable || mr_unmergeable mr in
    let tmp := addrrange_make base (mr_size mr) in
    if negb (addrrange_intersects tmp clip) then view
    else
      let clip := addrrange_intersection tmp clip in
      match mr_alias mr with
      | Some alias =>
          render_memory_region alias view (base - mr_addr alias - mr_alias_offset mr) clip
            readonly nonvolatile unmergeable
      | None =>
          let view := (fix subs (l : list MemoryRegion) (view : FlatView) : FlatView :=
                         match l with
                         | [] => view
                         | sub :: l =>
                             subs l (render_memory_region sub view base clip
                                       readonly nonvolatile unmergeable)
                         end) (mr_subregions mr) view in
          if negb (mr_terminates mr) then view
          else render_gaps (mk_flat mr readonly nonvolatile unmergeable) view
                 (ar_start clip) (ar_start clip - base) (ar_size clip)
      end.

(** [can_merge] *)
Definition can_merge (r1 r2 : FlatRange) : bool :=
  (addrrange_end (fr_addr r1) =? ar_start (fr_addr r2))
  && (fr_mr r1 =? fr_mr r2)%nat
  && (fr_offset_in_region r1 + ar_size (fr_addr r1) =? fr_offset_in_region r2)
  && (fr_dirty_log_mask r1 =? fr_dirty_log_mask r2)
  && eqb (fr_romd_mode r1) (fr_romd_mode r2)
  && eqb (fr_readonly r1) (fr_readonly r2)
  && eqb (fr_nonvolatile r1) (fr_nonvolatile r2)
  && negb (fr_unmergeable r1) && negb (fr_unmergeable r2).

Definition grow (r : FlatRange) (n : Z) : FlatRange :=
  mkFR (fr_mr r) (fr_offset_in_region r)
    (addrrange_make (ar_start (fr_addr r)) (ar_size (fr_addr r) + n))
    (fr_dirty_log_mask r) (fr_romd_mode r) (fr_readonly r) (fr_nonvolatile r) (fr_unmergeable r).

(** [flatview_simplify]: [acc] is the range being grown ([ranges[i]]), [last] is
    [ranges[j-1]]. *)
Fixpoint simplify_from (acc last : FlatRange) (l : FlatView) : FlatView :=
  match l with
  | [] => [acc]
  | r :: l =>
      if can_merge last r then simplify_from (grow acc (ar_size (fr_addr r))) r l
      else acc :: simplify_from r r l
  end.

Definition flatview_simplify (view : FlatView) : FlatView :=
  match view with [] => [] | r :: l => simplify_from r r l end.

(** [generate_memory_topology]: the ranges of the view. *)
Definition generate_memory_topology (mr : MemoryRegion) : FlatView :=
  flatview_simplify
    (render_memory_region mr [] 0 (addrrange_make 0 (2 ^ 64)) false false false).

(** ** Lookup *)

(** The range that covers an address ([section_covers_addr]). *)
Definition flatview_lookup (view : FlatView) (a : Z) : option FlatRange :=
  snd <$> list_find (fun r => addrrange_contains (fr_addr r) a = true) view.

(** What an address resolves to: the region, the offset in it, and whether the
    mapping is read-only. *)
Definition fr_target (r : FlatRange) (a : Z) : nat * Z * bool :=
  (fr_mr r, fr_offset_in_region r + (a - ar_start (fr_addr r)), fr_readonly r).

Definition flatview_resolve (view : FlatView) (a : Z) : option (nat * Z * bool) :=
  (fun r => fr_target r a) <$> flatview_lookup view a.

(** ** The reference: a first-match search of the tree

    An address in an enabled region belongs to the aliased region if the
    region is an alias; otherwise to the first subregion, in list order, that
    resolves it; otherwise to the region itself if it terminates. *)
Definition in_window (base size a : Z) : bool := (base <=? a) && (a <? base + size).

Fixpoint mr_resolve (mr : MemoryRegion) (base : Z) (readonly : bool) (a : Z) : option (nat * Z * bool) :=
  let base := base + mr_addr mr in
  let readonly := readonly || mr_readonly mr in
  if negb (mr_enabled mr) || negb (in_window base (mr_size mr) a) then None
  else
    match mr_alias mr with
    | Some alias => mr_resolve alias (base - mr_addr alias - mr_alias_offset mr) readonly a
    | None =>
        match (fix first (l : list MemoryRegion) : option (nat * Z * bool) :=
                 match l with
                 | [] => None
                 | sub :: l =>
                     match mr_resolve sub base readonly a with
                     | Some x => Some x
                     | None => first l
                     end
                 end) (mr_subregions mr) with
        | Some x => Some x
        | None => if mr_terminates mr then Some (mr_id mr, a - base, readonly) else None
        end
    end.

(** Sizes are not negative, anywhere in the tree. *)
Fixpoint region_ok (mr : MemoryRegion) : bool :=
  (0 <=? mr_size mr)
  && match mr_alias mr with Some alias => region_ok alias | None => true end
  && forallb region_ok (mr_subregions mr).

(** ** Induction on the tree *)

Lemma MemoryRegion_ind (P : MemoryRegion -> Prop) :
  (forall mr, (forall al, mr_alias mr = Some al -> P al) -> Forall P (mr_subregions mr) -> P mr) ->
  forall mr, P mr.
Proof.
  intros Hstep. fix IH 1. intros mr. apply Hstep.
  - destruct mr; cbn. intros al Hal. destruct mr_alias0 as [x|]; [|discriminate].
    injection Hal as <-. apply IH.
  - destruct mr; cbn. induction mr_subregions0 as [|x l IHl]; constructor; [apply IH|apply IHl].
Qed.

(** ** Rendering implements the search *)

(** A view in order: the ranges start at or after [lo], are not empty, and do
    not overlap. *)
Fixpoint view_from (lo : Z) (view : FlatView) : Prop :=
  match view with
  | [] => True
  | r :: view => lo <= ar_start (fr_addr r) /\ 0 < ar_size (fr_addr r) /\
                 view_from (addrrange_end (fr_addr r)) view
  end.

Lemma contains_spec r a :
  addrrange_contains r a = true <-> ar_start r <= a < ar_start r + ar_size r.
Proof. unfold addrrange_contains, addrrange_end. rewrite andb_true_iff, Z.geb_le, Z.ltb_lt. lia. Qed.

Lemma contains_false r a :
  addrrange_contains r a = false <-> ~ (ar_start r <= a < ar_start r + ar_size r).
Proof. rewrite <- contains_spec. by destruct (addrrange_contains r a). Qed.

Lemma flatview_resolve_cons r view a :
  flatview_resolve (r :: view) a =
    if addrrange_contains (fr_addr r) a then Some (fr_target r a) else flatview_resolve view a.
Proof.
  unfold flatview_resolve, flatview_lookup. cbn [list_find].
  destruct (decide (addrrange_contains (fr_addr r) a = true)) as [Hc|Hc].
  - by rewrite Hc.
  - apply not_true_is_false in Hc. rewrite Hc. by destruct (list_find _ view) as [[]|].
Qed.

Lemma resolve_below lo view a : view_from lo view -> a < lo -> flatview_resolve view a = None.
Proof.
  revert lo. induction view as [|r view IH]; intros lo; [done|]. intros (Hlo & Hs & Hv) Ha.
  rewrite flatview_resolve_cons. destruct (addrrange_contains _ _) eqn:Hc.
  - apply contains_spec in Hc. lia.
  - eapply IH; [exact Hv|]. unfold addrrange_end. lia.
Qed.

Lemma view_from_weaken lo lo' view : lo' <= lo -> view_from lo view -> view_from lo' view.
Proof. destruct view as [|r v]; [done|]. cbn. intuition lia. Qed.

Section Gaps.
Context (mr : MemoryRegion) (ro nv um : bool).

(** What the loop adds to a view: the part of the region that is not covered. *)
Lemma render_gaps_spec view lo base off remain :
  view_from lo view -> lo <= base \/ remain = 0 -> 0 <= remain ->
  view_from lo (render_gaps (mk_flat mr ro nv um) view base off remain) /\
  forall a, flatview_resolve (render_gaps (mk_flat mr ro nv um) view base off remain) a =
    match flatview_resolve view a with
    | Some x => Some x
    | None => if in_window base remain a then Some (mr_id mr, off + (a - base), ro) else None
    end.
Proof.
  unfold in_window. revert lo base off remain.
  induction view as [|r view IH]; intros lo base off remain Hv Hlo Hrem; cbn [render_gaps].
  { destruct (Z.eqb_spec remain 0) as [->|Hne].
    - split; [done|]. intros a. cbn.
      destruct (Z.leb_spec base a), (Z.ltb_spec a (base + 0)); cbn; done || lia.
    - split; [cbn; repeat split; lia|]. intros a. rewrite flatview_resolve_cons.
      unfold addrrange_contains, addrrange_end. cbn. rewrite Z.geb_leb. done. }
  destruct (Z.eqb_spec remain 0) as [->|Hne].
  { split; [done|]. intros a. destruct (flatview_resolve _ a); [done|].
    destruct (Z.leb_spec base a), (Z.ltb_spec a (base + 0)); cbn; done || lia. }
  destruct Hv as (Hlr & Hsz & Hv). unfold addrrange_end in *.
  destruct (Z.geb_spec base (ar_start (fr_addr r) + ar_size (fr_addr r))) as [Hge|Hlt].
  { destruct (IH _ base off remain Hv ltac:(lia) Hrem) as [Hv' Hres].
    split; [done|]. intros a. rewrite !flatview_resolve_cons, Hres. by destruct (addrrange_contains _ _). }
  set (stop := Z.min (base + remain) (ar_start (fr_addr r) + ar_size (fr_addr r))).
  destruct (IH _ stop (off + (stop - base)) (base + remain - stop) Hv ltac:(lia) ltac:(lia)) as [Hv' Hres].
  destruct (Z.ltb_spec base (ar_start (fr_addr r))) as [Hbs|Hbs]; cbv zeta.
  - set (now := Z.min remain (ar_start (fr_addr r) - base)).
    replace (base + now + (remain - now)) with (base + remain) by lia. fold stop.
    replace (base + now + (stop - (base + now))) with stop by lia.
    replace (off + now + (stop - (base + now))) with (off + (stop - base)) by lia.
    replace (remain - now - (stop - (base + now))) with (base + remain - stop) by lia.
    split; [cbn; unfold addrrange_end; cbn; repeat split; try lia; done|].
    intros a. rewrite (flatview_resolve_cons (mk_flat _ _ _ _ _ _ _)), !flatview_resolve_cons, Hres.
    destruct (addrrange_contains (fr_addr (mk_flat _ _ _ _ _ _ _)) a) eqn:Hf;
      [apply contains_spec in Hf|apply contains_false in Hf]; cbn in Hf;
      destruct (addrrange_contains (fr_addr r) a) eqn:Hr;
      [apply contains_spec in Hr|apply contains_false in Hr|done|apply contains_false in Hr].
    + lia.
    + rewrite (resolve_below _ view a Hv) by lia.
      destruct (Z.leb_spec base a), (Z.ltb_spec a (base + remain)); cbn; done || lia.
    + destruct (flatview_resolve view a); [done|].
      destruct (Z.leb_spec stop a), (Z.ltb_spec a (stop + (base + remain - stop))),
        (Z.leb_spec base a), (Z.ltb_spec a (base + remain)); cbn; try lia; try done. do 3 f_equal. lia.
  - fold stop. replace (base + (stop - base)) with stop by lia.
    replace (remain - (stop - base)) with (base + remain - stop) by lia.
    split; [done|]. intros a. rewrite !flatview_resolve_cons, Hres.
    destruct (addrrange_contains (fr_addr r) a) eqn:Hr; [done|apply contains_false in Hr].
    destruct (flatview_resolve view a); [done|].
    destruct (Z.leb_spec stop a), (Z.ltb_spec a (stop + (base + remain - stop))),
      (Z.leb_spec base a), (Z.ltb_spec a (base + remain)); cbn; try lia; try done. do 3 f_equal. lia.
Qed.

End Gaps.

(** The first answer along a list. *)
Fixpoint first_some {A B} (f : A -> option B) (l : list A) : option B :=
  match l with
  | [] => None
  | x :: l => match f x with Some y => Some y | None => first_some f l end
  end.

Definition render_subs (l : list MemoryRegion) (base : Z) (clip : AddrRange) (ro nv um : bool)
    (view : FlatView) : FlatView :=
  foldl (fun v sub => render_memory_region sub v base clip ro nv um) view l.

Lemma render_eq mr view base clip ro nv um :
  render_memory_region mr view base clip ro nv um =
    let base := base + mr_addr mr in
    let ro := ro || mr_readonly mr in
    let nv := nv || mr_nonvolatile mr in
    let um := um || mr_unmergeable mr in
    let tmp := addrrange_make base (mr_size mr) in
    if negb (mr_enabled mr) || negb (addrrange_intersects tmp clip) then view
    else
      let clip := addrrange_intersection tmp clip in
      match mr_alias mr with
      | Some al => render_memory_region al view (base - mr_addr al - mr_alias_offset mr) clip ro nv um
      | None =>
          let view := render_subs (mr_subregions mr) base clip ro nv um view in
          if negb (mr_terminates mr) then view
          else render_gaps (mk_flat mr ro nv um) view (ar_start clip) (ar_start clip - base) (ar_size clip)
      end.
Proof.
  assert (Hfold : forall l base clip ro nv um view,
    (fix subs (l : list MemoryRegion) (view : FlatView) : FlatView :=
       match l with
       | [] => view
       | sub :: l => subs l (render_memory_region sub view base clip ro nv um)
       end) l view = render_subs l base clip ro nv um view).
  { clear. induction l as [|x l IH]; [done|]. intros. cbn. apply IH. }
  destruct mr; cbn. destruct mr_enabled0; cbn; [|done].
  destruct (negb (addrrange_intersects _ _)); [done|].
  destruct mr_alias0; [done|]. by rewrite Hfold.
Qed.

Lemma mr_resolve_eq mr base ro a :
  mr_resolve mr base ro a =
    let base := base + mr_addr mr in
    let ro := ro || mr_readonly mr in
    if negb (mr_enabled mr) || negb (in_window base (mr_size mr) a) then None
    else
      match mr_alias mr with
      | Some al => mr_resolve al (base - mr_addr al - mr_alias_offset mr) ro a
      | None =>
          match first_some (fun sub => mr_resolve sub base ro a) (mr_subregions mr) with
          | Some x => Some x
          | None => if mr_terminates mr then Some (mr_id mr, a - base, ro) else None
          end
      end.
Proof.
  assert (Hfold : forall l base ro,
    (fix first (l : list MemoryRegion) : option (nat * Z * bool) :=
       match l with
       | [] => None
       | sub :: l => match mr_resolve sub base ro a with Some x => Some x | None => first l end
       end) l = first_some (fun sub => mr_resolve sub base ro a) l).
  { clear. induction l as [|x l IH]; intros; cbn; [done|]. by rewrite IH. }
  destruct mr; cbn. destruct (_ || _); [done|]. destruct mr_alias0; [done|]. by rewrite Hfold.
Qed.

(** What [render_memory_region] adds to a view. *)
Definition renders (mr : MemoryRegion) : Prop :=
  forall view base clip ro nv um,
    view_from 0 view -> 0 <= ar_start clip -> 0 <= ar_size clip ->
    view_from 0 (render_memory_region mr view base clip ro nv um) /\
    forall a, flatview_resolve (render_memory_region mr view base clip ro nv um) a =
      match flatview_resolve view a with
      | Some x => Some x
      | None => if addrrange_contains clip a then mr_resolve mr base ro a else None
      end.

Lemma render_subs_spec l view base clip ro nv um :
  Forall renders l -> view_from 0 view -> 0 <= ar_start clip -> 0 <= ar_size clip ->
  view_from 0 (render_subs l base clip ro nv um view) /\
  forall a, flatview_resolve (render_subs l base clip ro nv um view) a =
    match flatview_resolve view a with
    | Some x => Some x
    | None => if addrrange_contains clip a
              then first_some (fun sub => mr_resolve sub base ro a) l else None
    end.
Proof.
  intros Hl Hv Hs Hsz. revert view Hv. induction Hl as [|sub l Hsub _ IH]; intros view Hv.
  - split; [done|]. intros a. change (render_subs [] base clip ro nv um view) with view.
    destruct (flatview_resolve view a), (addrrange_contains clip a); done.
  - destruct (Hsub view base clip ro nv um Hv Hs Hsz) as [Hv1 Hr1].
    destruct (IH _ Hv1) as [Hv2 Hr2]. split; [done|]. intros a. cbn [render_subs foldl].
    fold (render_subs l base clip ro nv um (render_memory_region sub view base clip ro nv um)).
    rewrite Hr2, Hr1. destruct (flatview_resolve view a); [done|].
    destruct (addrrange_contains clip a); [|done]. cbn. by destruct (mr_resolve sub base ro a).
Qed.

Lemma intersection_spec base size clip :
  addrrange_intersects (addrrange_make base size) clip = true -> 0 <= size ->
  0 <= ar_start clip -> 0 <= ar_size clip ->
  let c := addrrange_intersection (addrrange_make base size) clip in
  0 <= ar_start c /\ 0 <= ar_size c /\ base <= ar_start c /\
  forall a, addrrange_contains c a = in_window base size a && addrrange_contains clip a.
Proof.
  intros Hi Hsz H0 H1. unfold addrrange_intersects in Hi. apply orb_true_iff in Hi.
  rewrite !contains_spec in Hi. cbn in *. unfold addrrange_end; cbn. split; [lia|]. split; [lia|].
  split; [lia|]. intros a. unfold in_window, addrrange_contains, addrrange_intersection, addrrange_end, addrrange_make; cbn. rewrite !Z.geb_leb.
  unfold addrrange_end; cbn [ar_start ar_size].
  destruct (Z.leb_spec (Z.max base (ar_start clip)) a),
    (Z.ltb_spec a (Z.max base (ar_start clip) +
       (Z.min (base + size) (ar_start clip + ar_size clip) - Z.max base (ar_start clip)))),
    (Z.leb_spec base a), (Z.ltb_spec a (base + size)), (Z.leb_spec (ar_start clip) a),
    (Z.ltb_spec a (ar_start clip + ar_size clip)); cbn; done || lia.
Qed.

Lemma no_intersection base size clip a :
  addrrange_intersects (addrrange_make base size) clip = false -> addrrange_contains clip a = true ->
  in_window base size a = false.
Proof.
  unfold addrrange_intersects. rewrite orb_false_iff, !contains_false, contains_spec. cbn.
  intros [H1 H2] H3. unfold in_window.
  destruct (Z.leb_spec base a), (Z.ltb_spec a (base + size)); cbn; done || lia.
Qed.

Lemma region_renders mr : region_ok mr = true -> renders mr.
Proof.
  induction mr as [mr IHal IHsub] using MemoryRegion_ind. intros Hok view base clip ro nv um Hv Hs Hsz.
  assert (0 <= mr_size mr /\ (forall al, mr_alias mr = Some al -> region_ok al = true) /\
          Forall renders (mr_subregions mr)) as (Hsize & Hal & Hsubs).
  { destruct mr as [? ? sz ? ? ? ? ? ? ? ? al ? subs]; cbn in *.
    apply andb_prop in Hok as [[H1%Z.leb_le H2]%andb_prop H3]. split; [done|].
    split; [by intros x ->|]. rewrite Forall_forall in IHsub |- *. intros x Hx. apply IHsub; [done|].
    rewrite forallb_forall in H3. apply H3. by apply list_elem_of_In. }
  rewrite render_eq. cbv zeta.
  pose proof (fun a => mr_resolve_eq mr base ro a) as Hm. cbv zeta in Hm. revert Hm.
  destruct (mr_enabled mr); cbn [negb orb].
  2: { intros Hm. split; [done|]. intros a. rewrite Hm. destruct (flatview_resolve view a), (addrrange_contains clip a); done. }
  destruct (addrrange_intersects (addrrange_make (base + mr_addr mr) (mr_size mr)) clip) eqn:Hi;
    cbn [negb].
  2: { intros Hm. split; [done|]. intros a. rewrite Hm. destruct (flatview_resolve view a); [done|].
       destruct (addrrange_contains clip a) eqn:Hc; [|done]. by rewrite (no_intersection _ _ _ _ Hi Hc). }
  destruct (intersection_spec _ _ _ Hi Hsize Hs Hsz) as (Hcs & Hcz & Hcb & Hcc).
  set (clip' := addrrange_intersection _ clip) in *.
  destruct (mr_alias mr) as [al|] eqn:Heq; intros Hm.
  - destruct (IHal al eq_refl (Hal al eq_refl) view (base + mr_addr mr - mr_addr al - mr_alias_offset mr)
      clip' (ro || mr_readonly mr) (nv || mr_nonvolatile mr) (um || mr_unmergeable mr) Hv Hcs Hcz) as [Hv' Hr].
    split; [done|]. intros a. rewrite Hm, Hr, Hcc.
    destruct (flatview_resolve view a); [done|].
    destruct (in_window _ _ a), (addrrange_contains clip a); done.
  - destruct (render_subs_spec (mr_subregions mr) view (base + mr_addr mr) clip' (ro || mr_readonly mr)
      (nv || mr_nonvolatile mr) (um || mr_unmergeable mr) Hsubs Hv Hcs Hcz) as [Hv' Hr].
    set (v1 := render_subs _ _ _ _ _ _ _) in *. revert Hm. destruct (mr_terminates mr); cbn [negb]; intros Hm.
    + destruct (render_gaps_spec mr (ro || mr_readonly mr) (nv || mr_nonvolatile mr) (um || mr_unmergeable mr)
        v1 0 (ar_start clip') (ar_start clip' - (base + mr_addr mr)) (ar_size clip') Hv' ltac:(lia) Hcz) as [Hv2 Hr2].
      split; [done|]. intros a. rewrite Hm, Hr2, Hr.
      replace (in_window (ar_start clip') (ar_size clip') a) with (addrrange_contains clip' a)
        by (unfold in_window, addrrange_contains; by rewrite Z.geb_leb).
      rewrite Hcc. destruct (flatview_resolve view a); [done|].
      destruct (in_window _ _ a), (addrrange_contains clip a); cbn [andb negb]; try done.
      destruct (first_some _ _); [done|]. do 3 f_equal. lia.
    + split; [done|]. intros a. rewrite Hm, Hr, Hcc. destruct (flatview_resolve view a); [done|].
      destruct (in_window _ _ a), (addrrange_contains clip a); cbn [andb negb]; try done.
      by destruct (first_some _ _).
Qed.

(** ** Merging does not change what addresses resolve to *)

(** [acc] ends where [last] ends, in the address space and in the region. *)
Record ends_with (acc last : FlatRange) : Prop := {
  ew_end : addrrange_end (fr_addr acc) = addrrange_end (fr_addr last);
  ew_mr : fr_mr acc = fr_mr last;
  ew_off : fr_offset_in_region acc + ar_size (fr_addr acc) =
           fr_offset_in_region last + ar_size (fr_addr last);
  ew_ro : fr_readonly acc = fr_readonly last;
  ew_size : 0 < ar_size (fr_addr acc)
}.

Lemma can_merge_spec r1 r2 :
  can_merge r1 r2 = true ->
  addrrange_end (fr_addr r1) = ar_start (fr_addr r2) /\ fr_mr r1 = fr_mr r2 /\
  fr_offset_in_region r1 + ar_size (fr_addr r1) = fr_offset_in_region r2 /\
  fr_readonly r1 = fr_readonly r2.
Proof.
  unfold can_merge. rewrite !andb_true_iff, !Z.eqb_eq, Nat.eqb_eq, !eqb_true_iff. tauto.
Qed.

Lemma simplify_from_spec l acc last lo :
  ends_with acc last -> lo <= ar_start (fr_addr acc) -> view_from (addrrange_end (fr_addr last)) l ->
  view_from lo (simplify_from acc last l) /\
  forall a, flatview_resolve (simplify_from acc last l) a = flatview_resolve (acc :: l) a.
Proof.
  revert acc last lo. induction l as [|r l IH]; intros acc last lo [He Hm Ho Hro Hs] Hlo Hv; cbn [simplify_from].
  { split; [done|]. done. }
  destruct Hv as (Hr & Hrs & Hv). destruct (can_merge last r) eqn:Hc.
  - apply can_merge_spec in Hc as (C1 & C2 & C3 & C4).
    destruct (IH (grow acc (ar_size (fr_addr r))) r lo) as [Hv' Hres].
    { unfold addrrange_end in *. split; unfold addrrange_end; cbn; try lia; congruence. }
    { done. }
    { done. }
    split; [done|]. intros a. rewrite Hres, !flatview_resolve_cons.
    unfold addrrange_end in *. cbn [grow fr_addr].
    destruct (addrrange_contains (addrrange_make _ _) a) eqn:H1;
      [apply contains_spec in H1|apply contains_false in H1]; cbn in H1;
      (destruct (addrrange_contains (fr_addr acc) a) eqn:H2;
      [apply contains_spec in H2|apply contains_false in H2]);
      (destruct (addrrange_contains (fr_addr r) a) eqn:H3;
      [apply contains_spec in H3|apply contains_false in H3]); try lia; try done.
    unfold fr_target. cbn. f_equal. f_equal; [f_equal; [congruence|lia]|congruence].
  - destruct (IH r r (addrrange_end (fr_addr last))) as [Hv' Hres]; [by split|done|done|].
    split; [cbn; rewrite He; done|]. intros a. rewrite !(flatview_resolve_cons acc), Hres. done.
Qed.

Lemma flatview_simplify_spec view :
  view_from 0 view ->
  view_from 0 (flatview_simplify view) /\
  forall a, flatview_resolve (flatview_simplify view) a = flatview_resolve view a.
Proof.
  destruct view as [|r l]; [done|]. intros (H1 & H2 & H3). by apply simplify_from_spec.
Qed.

(** ** The order of subregions *)

(** Subregions in decreasing order of priority. *)
Definition by_priority : list MemoryRegion -> Prop :=
  StronglySorted (fun x y => mr_priority y <= mr_priority x).

Lemma update_container_elem sub l x :
  x ∈ update_container_subregions sub l <-> x = sub \/ x ∈ l.
Proof.
  induction l as [|y l IH]; cbn; [by rewrite elem_of_cons|].
  destruct (mr_priority sub >=? mr_priority y); rewrite !elem_of_cons, ?IH; tauto.
Qed.

Lemma update_container_sorted sub l :
  by_priority l -> by_priority (update_container_subregions sub l).
Proof.
  unfold by_priority. induction 1 as [|y l Hl IH Hy]; cbn; [by repeat constructor|].
  destruct (Z.geb_spec (mr_priority sub) (mr_priority y)).
  - constructor; [by constructor|]. constructor; [lia|].
    eapply Forall_impl; [exact Hy|]. cbn. lia.
  - constructor; [done|]. apply Forall_forall. intros x [->|Hx]%update_container_elem; [lia|].
    by eapply Forall_forall in Hy.
Qed.

Lemma first_some_none {A B} (f : A -> option B) l : (forall x, x ∈ l -> f x = None) -> first_some f l = None.
Proof.
  induction l as [|y l IH]; [done|]. intros H. cbn. rewrite (H y) by left. apply IH. intros. apply H. by right.
Qed.

(** The inserted region answers before every region of its own or of a lower
    priority, and after the regions of a higher one. *)
Lemma update_container_first {B} (f : MemoryRegion -> option B) sub l x :
  by_priority l -> f sub = Some x ->
  (forall y, y ∈ l -> mr_priority sub < mr_priority y -> f y = None) ->
  first_some f (update_container_subregions sub l) = Some x.
Proof.
  intros Hl Hf. induction Hl as [|y l Hl IH Hy]; intros Hno; cbn; [by rewrite Hf|].
  destruct (Z.geb_spec (mr_priority sub) (mr_priority y)); cbn; [by rewrite Hf|].
  rewrite (Hno y) by (left || lia). apply IH. intros z Hz. apply Hno. by right.
Qed.

Lemma update_container_skip {B} (f : MemoryRegion -> option B) sub l :
  f sub = None -> first_some f (update_container_subregions sub l) = first_some f l.
Proof.
  intros Hf. induction l as [|y l IH]; cbn; [by rewrite Hf|].
  destruct (_ >=? _); cbn; [by rewrite Hf|]. by rewrite IH.
Qed.

Lemma generate_search mr :
  region_ok mr = true ->
  view_from 0 (generate_memory_topology mr) /\
  forall a, 0 <= a < 2 ^ 64 ->
    flatview_resolve (generate_memory_topology mr) a = mr_resolve mr 0 false a.
Proof.
  intros Hok. unfold generate_memory_topology.
  destruct (region_renders mr Hok [] 0 (addrrange_make 0 (2 ^ 64)) false false false)
    as [Hv Hr]; [done|done|done|].
  destruct (flatview_simplify_spec _ Hv) as [Hv' Hr']. split; [done|].
  intros a Ha. rewrite Hr', Hr.
  replace (addrrange_contains (addrrange_make 0 (2 ^ 64)) a) with true; [done|].
  symmetry. apply contains_spec. done.
Qed.

(** ** Properties *)

(** C9: Rendering the tree of memory regions and merging the result is the
    same as searching the tree: the flat view is sorted and free of overlaps,
    and every address resolves in it to the region, the offset and the access
    right that the first-match search of the tree finds, or to nothing when
    the search finds nothing. *)
Theorem topology_rendering_is_search mr :
  region_ok mr = true ->
  view_from 0 (generate_memory_topology mr) /\
  forall a, 0 <= a < 2 ^ 64 ->
    flatview_resolve (generate_memory_topology mr) a = mr_resolve mr 0 false a.
Proof. apply generate_search. Qed.

(** A container with a device of 16 bytes over a RAM of 64, and an alias of
    the RAM above them. *)
Definition demo_ram : MemoryRegion :=
  mkMR 1 0 64 true false false false true false 0 0 None 0 [].
Definition demo_device : MemoryRegion :=
  mkMR 2 0 16 true false false false true false 0 0 None 0 [].
Definition demo_alias : MemoryRegion :=
  mkMR 3 0 32 true true false false true false 0 0 (Some demo_ram) 8 [].
Definition demo_container : MemoryRegion :=
  memory_region_add_subregion_overlap
    (memory_region_add_subregion
       (memory_region_add_subregion_overlap
          (mkMR 0 0 (2 ^ 64) true false false false false false 0 0 None 0 []) 0x100 demo_ram (-1))
       0x110 demo_device)
    0x200 demo_alias 0.

Lemma topology_rendering_is_search_witness :
  view_from 0 (generate_memory_topology demo_container) /\
  flatview_resolve (generate_memory_topology demo_container) 0x118 = mr_resolve demo_container 0 false 0x118 /\
  mr_resolve demo_container 0 false 0x118 = Some (2%nat, 8, false) /\
  mr_resolve demo_container 0 false 0x128 = Some (1%nat, 0x28, false) /\
  mr_resolve demo_container 0 false 0x204 = Some (1%nat, 12, true).
Proof.
  split; [apply (topology_rendering_is_search demo_container); reflexivity|].
  split; [apply (topology_rendering_is_search demo_container); [reflexivity|lia]|]. done.
Defined.

(** Adding a subregion keeps the container's subregions ordered by
    priority; an address the new subregion resolves goes to it unless a
    subregion of a higher priority also resolves it, so that it hides the
    earlier subregions of the same priority; other addresses are unaffected. *)
Theorem topology_added_subregion_wins mr offset sub prio a ro :
  by_priority (mr_subregions mr) ->
  let mr' := memory_region_add_subregion_overlap mr offset sub prio in
  let found l := first_some (fun s => mr_resolve s (mr_addr mr) ro a) l in
  by_priority (mr_subregions mr') /\
  (forall x, mr_resolve (set_placement offset prio sub) (mr_addr mr) ro a = Some x ->
     (forall y, y ∈ mr_subregions mr -> prio < mr_priority y -> mr_resolve y (mr_addr mr) ro a = None) ->
     found (mr_subregions mr') = Some x) /\
  (mr_resolve (set_placement offset prio sub) (mr_addr mr) ro a = None ->
     found (mr_subregions mr') = found (mr_subregions mr)).
Proof.
  intros Hs. cbv zeta. cbn. split; [by apply update_container_sorted|]. split.
  - intros x Hx Hno. by apply update_container_first.
  - intros Hn. by apply update_container_skip.
Qed.

Lemma topology_added_subregion_wins_witness :
  first_some (fun s => mr_resolve s 0 false 0x118) (mr_subregions demo_container) = Some (2%nat, 8, false).
Proof.
  pose proof (topology_added_subregion_wins
    (memory_region_add_subregion_overlap
      (mkMR 0 0 (2 ^ 64) true false false false false false 0 0 None 0 []) 0x100 demo_ram (-1))
    0x110 demo_device 0 0x118 false) as H. cbv zeta in H.
  assert (Hs : by_priority (mr_subregions (memory_region_add_subregion_overlap
      (mkMR 0 0 (2 ^ 64) true false false false false false 0 0 None 0 []) 0x100 demo_ram (-1))))
    by (cbn; repeat constructor).
  destruct (H Hs) as (_ & Hw & _). rewrite <- (Hw (2%nat, 8, false)); [reflexivity|reflexivity|].
  intros y Hy. cbn in Hy. apply list_elem_of_singleton in Hy as ->. cbn. lia.
Defined.
