(* ===== verification/Access.v ===== *)
(** * Memory accesses

    [system/memory.c] and [system/physmem.c]: how an access to the physical
    address space is resolved in the flat view, split into accesses a region
    supports, and dispatched to host memory or to the handlers of a device.
    The state [S] of the machine is a parameter; a machine provides the bytes
    of its RAM blocks and the re-entrancy guard of each device. *)

From S2P Require Import Prelude Bits Topology.

(** [MemTxResult]: a bit mask of errors. *)
Definition MEMTX_OK : Z := 0.
Definition MEMTX_ERROR : Z := 1.
Definition MEMTX_DECODE_ERROR : Z := 2.
Definition MEMTX_ACCESS_ERROR : Z := 4.

(** ** Bytes in host (little-endian) order *)

(** [ldn_he_p], [stn_he_p] *)
Fixpoint ldn_he_p (bs : list Z) : Z :=
  match bs with [] => 0 | b :: bs => b .| (ldn_he_p bs .<< 8) end.

Fixpoint stn_he_p (n : nat) (v : Z) : list Z :=
  match n with O => [] | S n => u8 v :: stn_he_p n (v .>> 8) end.

(** [bswap16], [bswap32], [bswap64] *)
Definition bswap (size : Z) (v : Z) : Z := ldn_he_p (rev (stn_he_p (Z.to_nat size) v)).

(** [pow2floor]: the greatest power of two not above [value]. *)
Definition pow2floor (value : Z) : Z := if value =? 0 then 0 else 2 ^ Z.log2 value.

(** ** Regions and machines *)

(** [struct MemoryRegionOps] *)
Record MemoryRegionOps (S : Type) : Type := mkOps {
  ops_read : Z -> Z -> S -> res (Z * S);
  ops_write : Z -> Z -> Z -> S -> res S;
  ops_big_endian : bool;
  valid_min_access_size : Z;
  valid_max_access_size : Z;
  valid_unaligned : bool;
  valid_accepts : option (Z -> Z -> bool -> bool);
  impl_min_access_size : Z;
  impl_max_access_size : Z;
  impl_unaligned : bool
}.
Arguments mkOps {S}.
Arguments ops_read {S}.
Arguments ops_write {S}.
Arguments ops_big_endian {S}.
Arguments valid_min_access_size {S}.
Arguments valid_max_access_size {S}.
Arguments valid_unaligned {S}.
Arguments valid_accepts {S}.
Arguments impl_min_access_size {S}.
Arguments impl_max_access_size {S}.
Arguments impl_unaligned {S}.

(** The fields of [struct MemoryRegion] that decide an access. *)
Record Region (S : Type) : Type := mkRegion {
  rg_ops : MemoryRegionOps S;
  rg_ram : bool;
  rg_ram_device : bool;
  rg_rom_device : bool;
  rg_romd_mode : bool;
  rg_readonly : bool;
  rg_dev : option nat;
  rg_disable_reentrancy_guard : bool
}.
Arguments mkRegion {S}.
Arguments rg_ops {S}.
Arguments rg_ram {S}.
Arguments rg_ram_device {S}.
Arguments rg_rom_device {S}.
Arguments rg_romd_mode {S}.
Arguments rg_readonly {S}.
Arguments rg_dev {S}.
Arguments rg_disable_reentrancy_guard {S}.

(** What the accesses use of the machine: [mem_reentrancy_guard.engaged_in_io]
    of a device, and the bytes of the RAM block of a region. *)
Class Machine (S : Type) := {
  engaged_in_io : nat -> S -> bool;
  set_engaged_in_io : nat -> bool -> S -> S;
  ram_load : nat -> Z -> Z -> S -> list Z;
  ram_store : nat -> Z -> list Z -> S -> S
}.

(** The laws of a machine: RAM blocks are arrays of bytes, and the guards are
    flags of their own. *)
Class MachineLaws (S : Type) `{Machine S} := {
  ram_byte : nat -> Z -> S -> Z;
  ram_byte_range (id : nat) (x : Z) (s : S) : in_range 8 (ram_byte id x s);
  ram_load_bytes (id : nat) (off n : Z) (s : S) :
    ram_load id off n s = (fun x => ram_byte id x s) <$> seqZ off n;
  ram_store_byte (id : nat) (off : Z) (bs : list Z) (s : S) (id' : nat) (x : Z) :
    (forall b, b ∈ bs -> in_range 8 b) ->
    ram_byte id' x (ram_store id off bs s) =
      if (id' =? id)%nat && ((off <=? x) && (x <? off + Z.of_nat (length bs)))
      then nth (Z.to_nat (x - off)) bs 0 else ram_byte id' x s;
  engaged_set (d d' : nat) (b : bool) (s : S) :
    engaged_in_io d' (set_engaged_in_io d b s) = if (d' =? d)%nat then b else engaged_in_io d' s
}.

Section Access.
Context {S : Type} {M : Machine S}.

(** [unassigned_mem_ops], the ops of [io_mem_unassigned] and of plain RAM. *)
Definition unassigned_mem_ops : MemoryRegionOps S :=
  mkOps (fun _ _ s => Ok (0, s)) (fun _ _ _ s => Ok s) false 0 0 false
    (Some (fun _ _ _ => false)) 0 0 false.

Definition io_mem_unassigned : Region S :=
  mkRegion unassigned_mem_ops false false false false false None false.

(** ** Dispatch to the handlers *)

(** [memory_region_shift_read_access], [memory_region_shift_write_access] *)
Definition memory_region_shift_read_access (value shift mask tmp : Z) : Z :=
  if shift >=? 0 then value .| u64 ((tmp .& mask) .<< shift)
  else value .| ((tmp .& mask) .>> - shift).

Definition memory_region_shift_write_access (value shift mask : Z) : Z :=
  if shift >=? 0 then (value .>> shift) .& mask
  else u64 (value .<< - shift) .& mask.

(** [memory_region_read_accessor], [memory_region_write_accessor] *)
Definition memory_region_read_accessor (mr : Region S) (addr value size shift mask : Z) (s : S)
  : res (Z * Z * S) :=
  '(tmp, s) ← ops_read (rg_ops mr) addr size s;
  Ok (MEMTX_OK, memory_region_shift_read_access value shift mask tmp, s).

Definition memory_region_write_accessor (mr : Region S) (addr value size shift mask : Z) (s : S)
  : res (Z * Z * S) :=
  let tmp := memory_region_shift_write_access value shift mask in
  s ← ops_write (rg_ops mr) addr tmp size s;
  Ok (MEMTX_OK, value, s).

(** The two [for] loops of [access_with_adjusted_size]; [fuel] bounds the rounds. *)
Fixpoint access_loop (fuel : nat)
    (access_fn : Region S -> Z -> Z -> Z -> Z -> Z -> S -> res (Z * Z * S)) (mr : Region S)
    (addr size access_size access_mask i : Z) (r value : Z) (s : S) : res (Z * Z * S) :=
  match fuel with
  | O => Ok (r, value, s)
  | Datatypes.S fuel =>
      if i <? size then
        let shift := if ops_big_endian (rg_ops mr) then s32 (u32 ((size - access_size - i) * 8)) else i * 8 in
        '(r', value, s) ← access_fn mr (addr + i) value access_size shift access_mask s;
        access_loop fuel access_fn mr addr size access_size access_mask (i + access_size)
          (r .| r') value s
      else Ok (r, value, s)
  end.

(** The region takes part in the re-entrancy guard. *)
Definition guarded (mr : Region S) : option nat :=
  if negb (rg_disable_reentrancy_guard mr) && negb (rg_ram_device mr) && negb (rg_ram mr)
     && negb (rg_rom_device mr) && negb (rg_readonly mr)
  then rg_dev mr else None.

(** [access_with_adjusted_size] *)
Definition access_with_adjusted_size (addr value size access_size_min access_size_max : Z)
    (access_fn : Region S -> Z -> Z -> Z -> Z -> Z -> S -> res (Z * Z * S)) (mr : Region S) (s : S)
  : res (Z * Z * S) :=
  let access_size_min := if access_size_min =? 0 then 1 else access_size_min in
  let access_size_max := if access_size_max =? 0 then 4 else access_size_max in
  let run s :=
    let access_size := Z.max (Z.min size access_size_max) access_size_min in
    let access_mask := MAKE_64BIT_MASK 0 (access_size * 8) in
    access_loop (Z.to_nat size) access_fn mr addr size access_size access_mask 0 MEMTX_OK value s in
  match guarded mr with
  | Some dev =>
      if engaged_in_io dev s then Ok (MEMTX_ACCESS_ERROR, value, s)
      else
        '(r, value, s) ← run (set_engaged_in_io dev true s);
        Ok (r, value, set_engaged_in_io dev false s)
  | None => run s
  end.

(** [memory_region_access_valid] *)
Definition memory_region_access_valid (mr : Region S) (addr size : Z) (is_write : bool) : bool :=
  let ops := rg_ops mr in
  if match valid_accepts ops with Some f => negb (f addr size is_write) | None => false end then false
  else if negb (valid_unaligned ops) && truthy (addr .& (size - 1)) then false
  else if valid_max_access_size ops =? 0 then true
  else negb ((size >? valid_max_access_size ops) || (size <? valid_min_access_size ops)).

(** [adjust_endianness], for a little-endian target. *)
Definition adjust_endianness (mr : Region S) (size data : Z) : Z :=
  if ops_big_endian (rg_ops mr) then bswap size data else data.

(** [memory_region_dispatch_read], [memory_region_dispatch_write]: regions in a
    flat view are not aliases. *)
Definition memory_region_dispatch_read (mr : Region S) (addr size : Z) (s : S) : res (Z * Z * S) :=
  if negb (memory_region_access_valid mr addr size false) then Ok (MEMTX_DECODE_ERROR, 0, s)
  else
    '(r, value, s) ← access_with_adjusted_size addr 0 size (impl_min_access_size (rg_ops mr))
                       (impl_max_access_size (rg_ops mr)) memory_region_read_accessor mr s;
    Ok (r, adjust_endianness mr size value, s).

Definition memory_region_dispatch_write (mr : Region S) (addr data size : Z) (s : S) : res (Z * S) :=
  if negb (memory_region_access_valid mr addr size true) then Ok (MEMTX_DECODE_ERROR, s)
  else
    let data := adjust_endianness mr size data in
    '(r, _, s) ← access_with_adjusted_size addr data size (impl_min_access_size (rg_ops mr))
                   (impl_max_access_size (rg_ops mr)) memory_region_write_accessor mr s;
    Ok (r, s).

(** ** Accesses to the physical address space

    The attributes are [MEMTXATTRS_UNSPECIFIED], with which
    [flatview_access_allowed] holds for every region. *)

(** [memory_access_size] *)
Definition memory_access_size (mr : Region S) (l addr : Z) : Z :=
  let ops := rg_ops mr in
  let l := u32 l in
  let access_size_max := if valid_max_access_size ops =? 0 then 4 else valid_max_access_size ops in
  let access_size_max :=
    if negb (impl_unaligned ops) then
      let align_size_max := u32 (addr .& u64 (- addr)) in
      if negb (align_size_max =? 0) && (align_size_max <? access_size_max)
      then align_size_max else access_size_max
    else access_size_max in
  let l := if l >? access_size_max then access_size_max else l in
  pow2floor l.

(** [memory_access_is_direct] *)
Definition memory_access_is_direct (mr : Region S) (is_write : bool) : bool :=
  if is_write
  then rg_ram mr && negb (rg_readonly mr) && negb (rg_rom_device mr) && negb (rg_ram_device mr)
  else (rg_ram mr && negb (rg_ram_device mr)) || (rg_rom_device mr && rg_romd_mode mr).

Context (fv : FlatView) (region_of : nat -> Region S).

(** [flatview_translate] ([address_space_translate_internal] without an IOMMU):
    the region, its identity, the offset in it, and the length, clipped in RAM. *)
Definition flatview_translate (addr plen : Z) : nat * Region S * Z * Z :=
  match flatview_lookup fv addr with
  | Some r =>
      let mr := region_of (fr_mr r) in
      let addr := addr - ar_start (fr_addr r) in
      let xlat := addr + fr_offset_in_region r in
      let plen := if rg_ram mr then Z.min (ar_size (fr_addr r) - addr) plen else plen in
      (fr_mr r, mr, xlat, plen)
  | None => (0%nat, io_mem_unassigned, addr, plen)
  end.

(** [flatview_read_continue_step]: the result, the length used and the bytes. *)
Definition flatview_read_continue_step (id : nat) (mr : Region S) (mr_addr l : Z) (s : S)
  : res (Z * Z * list Z * S) :=
  if negb (memory_access_is_direct mr false) then
    let l := memory_access_size mr l mr_addr in
    '(result, val, s) ← memory_region_dispatch_read mr mr_addr l s;
    Ok (result, l, stn_he_p (Z.to_nat l) val, s)
  else Ok (MEMTX_OK, l, ram_load id mr_addr l s, s).

(** [flatview_read_continue] and [flatview_read]; every round uses at least one
    byte, so [len] bounds the rounds. *)
Fixpoint flatview_read_continue (fuel : nat) (addr len : Z) (id : nat)
    (mr : Region S) (mr_addr l : Z) (result : Z) (buf : list Z) (s : S) : res (Z * list Z * S) :=
  match fuel with
  | O => Fault OutOfFuel
  | Datatypes.S fuel =>
      '(r, l, bs, s) ← flatview_read_continue_step id mr mr_addr l s;
      let result := result .| r in
      let len := len - l in
      let addr := u64 (addr + l) in
      let buf := buf ++ bs in
      if len =? 0 then Ok (result, buf, s)
      else
        let '(id, mr, mr_addr, l) := flatview_translate addr len in
        flatview_read_continue fuel addr len id mr mr_addr l result buf s
  end.

Definition flatview_read (addr len : Z) (s : S) : res (Z * list Z * S) :=
  let '(id, mr, mr_addr, l) := flatview_translate addr len in
  flatview_read_continue (Z.to_nat len) addr len id mr mr_addr l MEMTX_OK [] s.

(** [flatview_write_continue_step] *)
Definition flatview_write_continue_step (id : nat) (mr : Region S) (buf : list Z)
    (mr_addr l : Z) (s : S) : res (Z * Z * S) :=
  if negb (memory_access_is_direct mr true) then
    let l := memory_access_size mr l mr_addr in
    let val := ldn_he_p (take (Z.to_nat l) buf) in
    '(result, s) ← memory_region_dispatch_write mr mr_addr val l s;
    Ok (result, l, s)
  else Ok (MEMTX_OK, l, ram_store id mr_addr (take (Z.to_nat l) buf) s).

(** [flatview_write_continue] and [flatview_write] *)
Fixpoint flatview_write_continue (fuel : nat) (addr : Z) (buf : list Z) (len : Z)
    (id : nat) (mr : Region S) (mr_addr l : Z) (result : Z) (s : S) : res (Z * S) :=
  match fuel with
  | O => Fault OutOfFuel
  | Datatypes.S fuel =>
      '(r, l, s) ← flatview_write_continue_step id mr buf mr_addr l s;
      let result := result .| r in
      let len := len - l in
      let buf := drop (Z.to_nat l) buf in
      let addr := u64 (addr + l) in
      if len =? 0 then Ok (result, s)
      else
        let '(id, mr, mr_addr, l) := flatview_translate addr len in
        flatview_write_continue fuel addr buf len id mr mr_addr l result s
  end.

Definition flatview_write (addr : Z) (buf : list Z) (s : S) : res (Z * S) :=
  let len := Z.of_nat (length buf) in
  let '(id, mr, mr_addr, l) := flatview_translate addr len in
  flatview_write_continue (Z.to_nat len) addr buf len id mr mr_addr l MEMTX_OK s.

(** [address_space_read_full], [address_space_write] *)
Definition address_space_read_full (addr len : Z) (s : S) : res (Z * list Z * S) :=
  if len >? 0 then flatview_read addr len s else Ok (MEMTX_OK, [], s).

Definition address_space_write (addr : Z) (buf : list Z) (s : S) : res (Z * S) :=
  if Z.of_nat (length buf) >? 0 then flatview_write addr buf s else Ok (MEMTX_OK, s).

(** [cpu_physical_memory_rw], as [cpu_physical_memory_read] and
    [cpu_physical_memory_write]: the attributes are unspecified and the result is
    ignored. *)
Definition cpu_physical_memory_read (addr len : Z) (s : S) : res (list Z * S) :=
  '(_, bs, s) ← address_space_read_full addr len s; Ok (bs, s).

Definition cpu_physical_memory_write (addr : Z) (buf : list Z) (s : S) : res S :=
  '(_, s) ← address_space_write addr buf s; Ok s.

End Access.
