(* ===== verification/AccessTheory.v ===== *)
(** * Correctness of memory accesses

    The access-size computation, termination of the access loops, accesses to
    host memory as transfers of bytes, the splitting of an access into those a
    device implements, and the re-entrancy guard. *)

From S2P Require Import Prelude Bits Topology Access.

(** ** The size of an access *)

Lemma odd_land_opp o : Z.odd o = true -> o .& - o = 1.
Proof.
  intros Ho. apply Z.odd_spec in Ho as [m ->].
  replace (- (2 * m + 1)) with (2 * Z.lnot m + 1) by (unfold Z.lnot; lia).
  apply Z.bits_inj'. intros i Hi. rewrite Z.land_spec. destruct (Z.eq_dec i 0) as [->|Hne].
  - rewrite !Z.testbit_odd_0. done.
  - replace i with (Z.succ (i - 1)) by lia. rewrite !Z.testbit_odd_succ by lia.
    rewrite Z.lnot_spec by lia. change 1 with (2 * 0 + 1) at 3.
    rewrite Z.testbit_odd_succ, Z.bits_0 by lia. apply andb_negb_r.
Qed.

(** A positive number is a power of two times an odd number. *)
Lemma two_adic (n : nat) a :
  0 < a < 2 ^ Z.of_nat n -> exists k o, 0 <= k < Z.of_nat n /\ a = 2 ^ k * o /\ Z.odd o = true.
Proof.
  revert a. induction n as [|n IH]; intros a Ha; [cbn in Ha; lia|].
  destruct (Z.odd a) eqn:Ho; [exists 0, a; split; [lia|]; split; [lia|done]|].
  apply (f_equal negb) in Ho. rewrite Z.negb_odd in Ho. apply Z.even_spec in Ho as [b ->].
  rewrite Nat2Z.inj_succ, Z.pow_succ_r in Ha by lia.
  destruct (IH b ltac:(lia)) as (k & o & Hk & -> & Hodd). exists (k + 1), o.
  split; [lia|]. split; [|done]. rewrite Z.pow_add_r by lia. lia.
Qed.

Lemma land_shiftl_mul x y k : 0 <= k -> (2 ^ k * x) .& (2 ^ k * y) = 2 ^ k * (x .& y).
Proof.
  intros Hk. rewrite !(Z.mul_comm (2 ^ k)), <- !Z.shiftl_mul_pow2 by lia. symmetry. apply Z.shiftl_land.
Qed.

(** [addr & -addr] is the greatest power of two that divides [addr]. *)
Lemma low_bit addr :
  0 < addr < 2 ^ 64 -> exists k, 0 <= k < 64 /\ addr .& u64 (- addr) = 2 ^ k /\ (2 ^ k | addr).
Proof.
  intros Ha. destruct (two_adic 64 addr) as (k & o & Hk & -> & Ho); [exact Ha|].
  exists k. split; [lia|]. split; [|exists o; lia].
  rewrite wrapu_land, Z.land_assoc by lia.
  replace (- (2 ^ k * o)) with (2 ^ k * - o) by lia. rewrite land_shiftl_mul, odd_land_opp, Z.mul_1_r by (done || lia).
  apply Z.bits_inj'. intros i Hi. rewrite Z.land_spec, Z.pow2_bits_eqb by lia.
  destruct (Z.eqb_spec k i) as [<-|]; [|done]. by rewrite Z.ones_spec_low by lia.
Qed.

Lemma pow2_divide j k : 0 <= j -> 2 ^ j <= 2 ^ k -> (2 ^ j | 2 ^ k).
Proof.
  intros Hj Hle. assert (j <= k).
  { destruct (Z.lt_ge_cases k j) as [Hlt|]; [|lia]. pose proof (Z.pow_lt_mono_r 2 k j ltac:(lia) Hj Hlt). lia. }
  exists (2 ^ (k - j)). rewrite <- Z.pow_add_r by lia. f_equal. lia.
Qed.

Lemma pow2floor_spec v : 0 < v -> exists k, 0 <= k /\ pow2floor v = 2 ^ k /\ 2 ^ k <= v < 2 ^ (k + 1).
Proof.
  intros Hv. unfold pow2floor. destruct (Z.eqb_spec v 0); [lia|]. exists (Z.log2 v).
  split; [apply Z.log2_nonneg|]. split; [done|]. rewrite Z.add_1_r. by apply Z.log2_spec.
Qed.

Section Theory.
Context {S : Type} {M : Machine S}.

(** The largest access a region declares valid. *)
Definition max_access (mr : Region S) : Z :=
  if valid_max_access_size (rg_ops mr) =? 0 then 4 else valid_max_access_size (rg_ops mr).

Lemma memory_access_size_spec (mr : Region S) l addr :
  0 < l < 2 ^ 32 -> 0 <= addr < 2 ^ 64 -> 0 <= valid_max_access_size (rg_ops mr) < 2 ^ 31 ->
  exists k, 0 <= k /\ memory_access_size mr l addr = 2 ^ k /\ 2 ^ k <= l /\ 2 ^ k <= max_access mr /\
    (impl_unaligned (rg_ops mr) = false -> (2 ^ k | addr)).
Proof.
  intros Hl Ha Hv. unfold memory_access_size. rewrite (wrapu_small 32 l) by lia.
  fold (max_access mr).
  assert (Hmax : 0 < max_access mr < 2 ^ 31).
  { unfold max_access. destruct (Z.eqb_spec (valid_max_access_size (rg_ops mr)) 0); lia. }
  set (amax := if negb (impl_unaligned (rg_ops mr)) then _ else _).
  assert (Hamax : 0 < amax <= max_access mr /\
            (impl_unaligned (rg_ops mr) = false -> forall k, 0 <= k -> 2 ^ k <= amax -> (2 ^ k | addr))).
  { unfold amax. destruct (impl_unaligned (rg_ops mr)); cbn [negb]; [split; [lia|done]|].
    destruct (Z.eq_dec addr 0) as [->|Hne].
    { change (u32 (0 .& u64 (- 0))) with 0. cbn [Z.eqb negb andb]. split; [lia|]. intros _ k Hk _. apply Z.divide_0_r. }
    destruct (low_bit addr ltac:(lia)) as (j & Hj & -> & Hdiv).
    destruct (Z.lt_ge_cases j 32) as [Hlt|Hge].
    - rewrite wrapu_small by (split; [lia|by apply Z.pow_lt_mono_r; lia]).
      destruct (Z.eqb_spec (2 ^ j) 0); [lia|]. cbn [negb andb].
      destruct (Z.ltb_spec (2 ^ j) (max_access mr)); (split; [lia|]);
        intros _ k Hk Hle; (etransitivity; [apply (pow2_divide k j); lia|done]).
    - replace (u32 (2 ^ j)) with 0; [cbn [Z.eqb negb andb]; split; [lia|]|].
      + intros _ k Hk Hle. etransitivity; [apply (pow2_divide k j)|exact Hdiv]; [done|].
        pose proof (Z.pow_le_mono_r 2 32 j ltac:(lia) Hge). lia.
      + unfold wrapu. replace j with (j - 32 + 32) by lia.
        rewrite Z.pow_add_r, Z.mod_mul by lia. done. }
  clearbody amax. destruct Hamax as [Ham Hal].
  set (l' := if l >? amax then amax else l).
  assert (Hl' : 0 < l' /\ l' <= l /\ l' <= amax).
  { unfold l'. destruct (Z.gtb_spec l amax); lia. }
  destruct (pow2floor_spec l' ltac:(lia)) as (k & Hk & -> & Hk1 & Hk2).
  exists k. repeat split; [done|lia|lia|]. intros Hu. apply Hal; [done|done|lia].
Qed.

(** ** Termination of the access loops *)

Lemma access_loop_fuel fuel access_fn (mr : Region S) addr size asz mask i r v s :
  (forall a v sz sh m s, avoids OutOfFuel (access_fn mr a v sz sh m s)) ->
  avoids OutOfFuel (access_loop fuel access_fn mr addr size asz mask i r v s).
Proof.
  intros Hfn. revert i r v s. induction fuel as [|fuel IH]; intros i r v s; [discriminate|].
  cbn [access_loop]. destruct (i <? size); [|discriminate]. cbv zeta.
  apply avoids_bind; [apply Hfn|]. intros [[r' v'] s'] _. apply IH.
Qed.

(** The handlers of a region stay within their own recursion bounds. *)
Definition handlers_terminate (mr : Region S) : Prop :=
  (forall a sz s, avoids OutOfFuel (ops_read (rg_ops mr) a sz s)) /\
  (forall a v sz s, avoids OutOfFuel (ops_write (rg_ops mr) a v sz s)).

Lemma adjusted_fuel access_fn addr v size amin amax (mr : Region S) s :
  (forall a v sz sh m s, avoids OutOfFuel (access_fn mr a v sz sh m s)) ->
  avoids OutOfFuel (access_with_adjusted_size addr v size amin amax access_fn mr s).
Proof.
  intros Hfn. unfold access_with_adjusted_size. destruct (guarded mr).
  - destruct (engaged_in_io _ _); [discriminate|].
    apply avoids_bind; [by apply access_loop_fuel|]. by intros [[r v'] s'] _.
  - by apply access_loop_fuel.
Qed.

Lemma dispatch_read_fuel (mr : Region S) addr size s :
  handlers_terminate mr -> avoids OutOfFuel (memory_region_dispatch_read mr addr size s).
Proof.
  intros [Hr _]. unfold memory_region_dispatch_read. destruct (negb _); [discriminate|].
  apply avoids_bind; [|by intros [[r v] s'] _]. apply adjusted_fuel. intros.
  apply avoids_bind; [apply Hr|by intros [t s'] _].
Qed.

Lemma dispatch_write_fuel (mr : Region S) addr data size s :
  handlers_terminate mr -> avoids OutOfFuel (memory_region_dispatch_write mr addr data size s).
Proof.
  intros [_ Hw]. unfold memory_region_dispatch_write. destruct (negb _); [discriminate|]. cbv zeta.
  apply avoids_bind; [|by intros [[r v] s'] _]. apply adjusted_fuel. intros.
  apply avoids_bind; [apply Hw|by intros s' _].
Qed.

(** ** Splitting a read *)

Lemma ldn_range bs : (forall b, b ∈ bs -> in_range 8 b) -> in_range (8 * Z.of_nat (length bs)) (ldn_he_p bs).
Proof.
  induction bs as [|b bs IH]; intros Hb; [by vm_compute|]. cbn [ldn_he_p length].
  assert (Hb0 : in_range 8 b) by (apply Hb; left).
  specialize (IH (fun b H => Hb b (list_elem_of_further b _ _ H))).
  apply in_range_lor; [lia|eapply in_range_weaken; [|exact Hb0]; lia|].
  rewrite Z.shiftl_mul_pow2 by lia. destruct IH as [H0 H1]. split; [lia|].
  replace (8 * Z.of_nat (Datatypes.S (length bs))) with (8 * Z.of_nat (length bs) + 8) by lia.
  rewrite Z.pow_add_r by lia. nia.
Qed.

Lemma ldn_app xs ys : ldn_he_p (xs ++ ys) = ldn_he_p xs .| (ldn_he_p ys .<< (8 * Z.of_nat (length xs))).
Proof.
  induction xs as [|x xs IH]; cbn [app ldn_he_p length].
  - by rewrite Z.shiftl_0_r.
  - rewrite IH, Z.shiftl_lor, Z.shiftl_shiftl, Z.lor_assoc by lia. do 2 f_equal. lia.
Qed.

(** The bytes of a number determine it. *)
Lemma ldn_stn n v : in_range (8 * Z.of_nat n) v -> ldn_he_p (stn_he_p n v) = v.
Proof.
  revert v. induction n as [|n IH]; intros v Hv; cbn [stn_he_p ldn_he_p].
  { unfold in_range in Hv. cbn in Hv. lia. }
  rewrite IH.
  - apply Z.bits_inj'. intros i Hi. rewrite Z.lor_spec, Z.shiftl_spec by lia. unfold wrapu.
    destruct (Z.ltb_spec i 8).
    + rewrite Z.mod_pow2_bits_low, (Z.testbit_neg_r _ (i - 8)), orb_false_r by lia. done.
    + rewrite Z.mod_pow2_bits_high, Z.shiftr_spec by lia. cbn [orb]. f_equal. lia.
  - unfold in_range in *. rewrite Z.shiftr_div_pow2 by lia.
    replace (8 * Z.of_nat (Datatypes.S n)) with (8 * Z.of_nat n + 8) in Hv by lia.
    rewrite Z.pow_add_r in Hv by lia. split; [apply Z.div_pos; lia|]. apply Z.div_lt_upper_bound; lia.
Qed.

(** A device whose registers hold the bytes [b], read [asz] bytes at a time. *)
Definition reads_bytes (mr : Region S) (b : Z -> Z) (asz : Z) : Prop :=
  forall a s, ops_read (rg_ops mr) a asz s = Ok (ldn_he_p (b <$> seqZ a asz), s).

Lemma mask_id x w : 0 < w <= 64 -> in_range w x -> x .& MAKE_64BIT_MASK 0 w = x.
Proof.
  intros Hw Hx. apply Z.bits_inj'. intros i Hi. rewrite Z.land_spec.
  change (MAKE_64BIT_MASK 0 w) with (field_mask (FIELD 0 w)).
  rewrite mask_testbit; [|unfold field_ok; cbn [field_shift field_length]; lia|done].
  unfold in_field. cbn [field_shift field_length]. rewrite Z.add_0_l.
  destruct (Z.leb_spec 0 i), (Z.ltb_spec i w); cbn [andb]; try lia.
  - apply andb_true_r.
  - rewrite andb_false_r. symmetry. apply (in_range_testbit w); [lia|done|lia].
Qed.

Lemma read_accessor_bytes (mr : Region S) b asz :
  reads_bytes mr b asz -> forall a v sh m s,
  memory_region_read_accessor mr a v asz sh m s =
    Ok (MEMTX_OK, memory_region_shift_read_access v sh m (ldn_he_p (b <$> seqZ a asz)), s).
Proof. intros Hrd a v sh m s. unfold memory_region_read_accessor. by rewrite Hrd. Qed.

Lemma read_split (mr : Region S) b asz (m n : nat) addr s fuel :
  ops_big_endian (rg_ops mr) = false -> reads_bytes mr b asz -> (forall a, in_range 8 (b a)) ->
  0 < asz -> Z.of_nat (m + n) * asz <= 8 -> (n <= fuel)%nat ->
  access_loop fuel memory_region_read_accessor mr addr (Z.of_nat (m + n) * asz) asz
    (MAKE_64BIT_MASK 0 (asz * 8)) (Z.of_nat m * asz) MEMTX_OK
    (ldn_he_p (b <$> seqZ addr (Z.of_nat m * asz))) s =
  Ok (MEMTX_OK, ldn_he_p (b <$> seqZ addr (Z.of_nat (m + n) * asz)), s).
Proof.
  intros Hle Hrd Hb Hasz Htot. revert m fuel Htot.
  induction n as [|n IH]; intros m fuel Htot Hf.
  { replace (m + 0)%nat with m by lia. destruct fuel; [done|]. cbn [access_loop].
    by rewrite Z.ltb_irrefl. }
  destruct fuel as [|fuel]; [lia|]. cbn [access_loop].
  assert (Hlt : (Z.of_nat m * asz <? Z.of_nat (m + Datatypes.S n) * asz) = true) by (apply Z.ltb_lt; nia).
  rewrite Hlt, Hle. cbv zeta. rewrite (read_accessor_bytes mr b asz Hrd), res_bind_Ok.
  unfold memory_region_shift_read_access. destruct (Z.geb_spec (Z.of_nat m * asz * 8) 0); [|lia].
  set (chunk := b <$> seqZ (addr + Z.of_nat m * asz) asz).
  assert (Hlc : Z.of_nat (length chunk) = asz) by (unfold chunk; rewrite length_fmap, length_seqZ; lia).
  assert (Hrc : in_range (8 * asz) (ldn_he_p chunk)).
  { rewrite <- Hlc at 1. apply ldn_range. intros x (y & -> & _)%list_elem_of_fmap. apply Hb. }
  assert (Hmask : ldn_he_p chunk .& MAKE_64BIT_MASK 0 (asz * 8) = ldn_he_p chunk) by (apply mask_id; [nia|by rewrite Z.mul_comm]).
  rewrite Hmask, wrapu_small.
  2: { rewrite Z.shiftl_mul_pow2 by lia. destruct Hrc as [Hr0 Hr1]. split; [nia|].
       apply Z.lt_le_trans with (2 ^ (8 * asz) * 2 ^ (Z.of_nat m * asz * 8)); [apply Z.mul_lt_mono_pos_r; lia|].
       rewrite <- Z.pow_add_r by lia. apply Z.pow_le_mono_r; nia. }
  replace (ldn_he_p (b <$> seqZ addr (Z.of_nat m * asz)) .| (ldn_he_p chunk .<< (Z.of_nat m * asz * 8)))
    with (ldn_he_p (b <$> seqZ addr (Z.of_nat (Datatypes.S m) * asz))).
  2: { replace (Z.of_nat (Datatypes.S m) * asz) with (Z.of_nat m * asz + asz) by lia.
       rewrite seqZ_app, fmap_app, ldn_app, length_fmap, length_seqZ by lia. do 2 f_equal. lia. }
  change (MEMTX_OK .| MEMTX_OK) with MEMTX_OK.
  replace (Z.of_nat m * asz + asz) with (Z.of_nat (Datatypes.S m) * asz) by lia.
  replace (m + Datatypes.S n)%nat with (Datatypes.S m + n)%nat in * by lia. apply IH; lia.
Qed.

Section View.
Context (fv : FlatView) (region_of : nat -> Region S).
Hypothesis sorted : view_from 0 fv.
Hypothesis bounded : forall r, r ∈ fv -> 0 <= ar_start (fr_addr r) /\ 0 <= fr_offset_in_region r /\
  addrrange_end (fr_addr r) <= 2 ^ 64 /\ fr_offset_in_region r + ar_size (fr_addr r) <= 2 ^ 64.
Hypothesis valid_sizes : forall id, 0 <= valid_max_access_size (rg_ops (region_of id)) < 2 ^ 31.

Lemma lookup_contains view a r :
  flatview_lookup view a = Some r -> r ∈ view /\ addrrange_contains (fr_addr r) a = true.
Proof.
  unfold flatview_lookup. intros Hl. apply fmap_Some in Hl as ([i r'] & Hf & ->).
  apply list_find_Some in Hf as (Hi & Hc & _). split; [by eapply list_elem_of_lookup_2|done].
Qed.

(** Every address of a range is resolved by that range. *)
Lemma lookup_same_range view lo a r x :
  view_from lo view -> flatview_lookup view a = Some r -> addrrange_contains (fr_addr r) x = true ->
  flatview_lookup view x = Some r.
Proof.
  revert lo. induction view as [|q view IH]; intros lo Hv Hl Hc; [discriminate|].
  destruct Hv as (Hlo & Hs & Hv). unfold flatview_lookup in Hl |- *. cbn [list_find] in Hl |- *.
  destruct (decide (addrrange_contains (fr_addr q) a = true)) as [Ha|Ha].
  - injection Hl as <-. by rewrite decide_True.
  - assert (Hl' : flatview_lookup view a = Some r).
    { unfold flatview_lookup. by destruct (list_find _ view) as [[? ?]|]. }
    rewrite decide_False.
    + specialize (IH _ Hv Hl' Hc). unfold flatview_lookup in IH. by destruct (list_find _ view) as [[? ?]|].
    + intros Hq. apply contains_spec in Hq. apply contains_spec in Hc.
      assert (Hn : flatview_resolve view x = None).
      { eapply resolve_below; [exact Hv|]. unfold addrrange_end. lia. }
      specialize (IH _ Hv Hl' (proj2 (contains_spec _ _) Hc)). unfold flatview_resolve in Hn.
      by rewrite IH in Hn.
Qed.

(** The length of a step: at least one byte, at most what is asked for. *)
Lemma translate_spec addr len id mr xlat l :
  0 <= addr < 2 ^ 64 -> 0 < len ->
  flatview_translate fv region_of addr len = (id, mr, xlat, l) ->
  0 < l <= len /\ 0 <= xlat < 2 ^ 64 /\ 0 <= valid_max_access_size (rg_ops mr) < 2 ^ 31.
Proof.
  intros Ha Hlen. unfold flatview_translate. destruct (flatview_lookup fv addr) as [r|] eqn:Hl.
  - apply lookup_contains in Hl as [Hin Hc%contains_spec]. intros [= <- <- <- <-].
    destruct (bounded r Hin) as (H1 & H2 & H3 & H4). split; [|split; [lia|apply valid_sizes]].
    destruct (rg_ram _); lia.
  - intros [= <- <- <- <-]. split; [lia|]. split; [lia|cbn; lia].
Qed.

Lemma step_size (mr : Region S) l xlat :
  0 < l < 2 ^ 32 -> 0 <= xlat < 2 ^ 64 -> 0 <= valid_max_access_size (rg_ops mr) < 2 ^ 31 ->
  0 < memory_access_size mr l xlat <= l.
Proof.
  intros Hl Hx Hv. destruct (memory_access_size_spec mr l xlat Hl Hx Hv) as (k & Hk & -> & ? & _). lia.
Qed.

Hypothesis handlers : forall id, handlers_terminate (region_of id).

Lemma unassigned_terminates : handlers_terminate (io_mem_unassigned (S := S)).
Proof. split; intros; discriminate. Qed.

Lemma translate_handlers addr len id mr xlat l :
  flatview_translate fv region_of addr len = (id, mr, xlat, l) -> handlers_terminate mr.
Proof.
  unfold flatview_translate. destruct (flatview_lookup fv addr); intros [= <- <- <- <-].
  - apply handlers.
  - apply unassigned_terminates.
Qed.

Lemma read_continue_fuel fuel addr len id mr xlat l result buf s :
  0 <= addr < 2 ^ 64 -> 0 < len < 2 ^ 32 -> (Z.to_nat len <= fuel)%nat ->
  flatview_translate fv region_of addr len = (id, mr, xlat, l) ->
  avoids OutOfFuel (flatview_read_continue fv region_of fuel addr len id mr xlat l result buf s).
Proof.
  revert addr len id mr xlat l result buf s.
  induction fuel as [|fuel IH]; intros addr len id mr xlat l result buf s Ha Hlen Hf Ht; [lia|].
  pose proof (translate_handlers _ _ _ _ _ _ Ht) as Hh.
  destruct (translate_spec _ _ _ _ _ _ Ha (proj1 Hlen) Ht) as (Hl & Hx & Hv).
  cbn [flatview_read_continue]. apply avoids_bind.
  { unfold flatview_read_continue_step. destruct (negb _); [|discriminate]. cbv zeta.
    apply avoids_bind; [by apply dispatch_read_fuel|by intros [[r v] s'] _]. }
  intros [[[r l'] bs] s'] Hstep. cbv zeta.
  assert (Hl' : 0 < l' <= l).
  { unfold flatview_read_continue_step in Hstep. destruct (negb _).
    - cbv zeta in Hstep. apply res_bind_inv in Hstep as ([[r0 v0] s0] & _ & [= _ <- _ _]).
      by apply step_size; [lia|..].
    - injection Hstep as _ <- _ _. lia. }
  destruct (Z.eqb_spec (len - l') 0); [discriminate|].
  destruct (flatview_translate _ _ (u64 (addr + l')) (len - l')) as [[[id1 mr1] xlat1] l1] eqn:Ht1.
  eapply IH; [by apply wrapu_range|lia|lia|exact Ht1].
Qed.

Lemma write_continue_fuel fuel addr len id mr xlat l result buf s :
  0 <= addr < 2 ^ 64 -> 0 < len < 2 ^ 32 -> (Z.to_nat len <= fuel)%nat ->
  flatview_translate fv region_of addr len = (id, mr, xlat, l) ->
  avoids OutOfFuel (flatview_write_continue fv region_of fuel addr buf len id mr xlat l result s).
Proof.
  revert addr len id mr xlat l result buf s.
  induction fuel as [|fuel IH]; intros addr len id mr xlat l result buf s Ha Hlen Hf Ht; [lia|].
  pose proof (translate_handlers _ _ _ _ _ _ Ht) as Hh.
  destruct (translate_spec _ _ _ _ _ _ Ha (proj1 Hlen) Ht) as (Hl & Hx & Hv).
  cbn [flatview_write_continue]. apply avoids_bind.
  { unfold flatview_write_continue_step. destruct (negb _); [|discriminate]. cbv zeta.
    apply avoids_bind; [by apply dispatch_write_fuel|by intros [r s'] _]. }
  intros [[r l'] s'] Hstep. cbv zeta.
  assert (Hl' : 0 < l' <= l).
  { unfold flatview_write_continue_step in Hstep. destruct (negb _).
    - cbv zeta in Hstep. apply res_bind_inv in Hstep as ([r0 s0] & _ & [= _ <- _]).
      by apply step_size; [lia|..].
    - injection Hstep as _ <- _. lia. }
  destruct (Z.eqb_spec (len - l') 0); [discriminate|].
  destruct (flatview_translate _ _ (u64 (addr + l')) (len - l')) as [[[id1 mr1] xlat1] l1] eqn:Ht1.
  eapply IH; [by apply wrapu_range|lia|lia|exact Ht1].
Qed.

(** ** Accesses to host memory *)

Context {Laws : MachineLaws S}.

(** The byte an address holds, and where bytes can be read and written directly. *)
Definition mem_byte (s : S) (a : Z) : Z :=
  match flatview_resolve fv a with Some (id, off, _) => ram_byte id off s | None => 0 end.

Definition ram_readable (a : Z) : bool :=
  match flatview_resolve fv a with
  | Some (id, _, _) => rg_ram (region_of id) && negb (rg_ram_device (region_of id))
  | None => false
  end.

Definition ram_writable (a : Z) : bool :=
  match flatview_resolve fv a with
  | Some (id, _, _) => memory_access_is_direct (region_of id) true
  | None => false
  end.

(** One range covers the bytes of a step. *)
Lemma resolve_in_range addr r x :
  flatview_lookup fv addr = Some r -> addrrange_contains (fr_addr r) x = true ->
  flatview_resolve fv x = Some (fr_mr r, fr_offset_in_region r + (x - ar_start (fr_addr r)), fr_readonly r).
Proof. intros Hl Hc. unfold flatview_resolve. by rewrite (lookup_same_range fv 0 addr r x sorted Hl Hc). Qed.

(** Translation of an address in RAM. *)
Lemma translate_ram addr len :
  (exists r, flatview_lookup fv addr = Some r /\ rg_ram (region_of (fr_mr r)) = true) -> 0 < len ->
  exists r l, flatview_lookup fv addr = Some r /\
    l = Z.min (ar_start (fr_addr r) + ar_size (fr_addr r) - addr) len /\ 0 < l /\
    flatview_translate fv region_of addr len =
      (fr_mr r, region_of (fr_mr r), fr_offset_in_region r + (addr - ar_start (fr_addr r)), l) /\
    forall x, addr <= x < addr + l -> addrrange_contains (fr_addr r) x = true.
Proof.
  intros (r & Hl & Hram) Hlen. exists r. eexists. split; [done|].
  pose proof (lookup_contains _ _ _ Hl) as [_ Hc%contains_spec].
  split; [reflexivity|]. split; [lia|]. split.
  - unfold flatview_translate. rewrite Hl, Hram. f_equal; [f_equal; lia|lia].
  - intros x Hx. apply contains_spec. lia.
Qed.

Lemma readable_lookup a :
  ram_readable a = true -> exists r, flatview_lookup fv a = Some r /\ rg_ram (region_of (fr_mr r)) = true /\
    memory_access_is_direct (region_of (fr_mr r)) false = true.
Proof.
  unfold ram_readable, flatview_resolve. destruct (flatview_lookup fv a) as [r|]; [|done]. cbn.
  intros [Hr Hd]%andb_prop. exists r. split; [done|]. split; [done|]. by rewrite Hr, Hd.
Qed.

Lemma writable_lookup a :
  ram_writable a = true -> exists r, flatview_lookup fv a = Some r /\ rg_ram (region_of (fr_mr r)) = true /\
    memory_access_is_direct (region_of (fr_mr r)) true = true.
Proof.
  unfold ram_writable, flatview_resolve. destruct (flatview_lookup fv a) as [r|]; [|done]. cbn.
  intros Hd. exists r. split; [done|]. split; [|done]. by apply andb_prop in Hd as [[[Hr _]%andb_prop _]%andb_prop _].
Qed.

(** The bytes of one step of a RAM access. *)
Lemma step_bytes addr r l s :
  flatview_lookup fv addr = Some r ->
  (forall x, addr <= x < addr + l -> addrrange_contains (fr_addr r) x = true) ->
  ram_load (fr_mr r) (fr_offset_in_region r + (addr - ar_start (fr_addr r))) l s = mem_byte s <$> seqZ addr l.
Proof.
  intros Hl Hin. rewrite ram_load_bytes. apply list_eq. intros i. rewrite !list_lookup_fmap.
  destruct (decide (Z.of_nat i < l)) as [Hi|Hi].
  - rewrite !lookup_seqZ_lt by lia. cbn. f_equal. unfold mem_byte.
    rewrite (resolve_in_range addr r) by (done || apply Hin; lia). f_equal. lia.
  - by rewrite !lookup_seqZ_ge by lia.
Qed.

Lemma read_continue_ram fuel addr len id mr xlat l buf s :
  0 <= addr -> addr + len <= 2 ^ 64 -> 0 < len -> (Z.to_nat len <= fuel)%nat ->
  (forall x, addr <= x < addr + len -> ram_readable x = true) ->
  flatview_translate fv region_of addr len = (id, mr, xlat, l) ->
  flatview_read_continue fv region_of fuel addr len id mr xlat l MEMTX_OK buf s =
    Ok (MEMTX_OK, buf ++ (mem_byte s <$> seqZ addr len), s).
Proof.
  revert addr len id mr xlat l buf.
  induction fuel as [|fuel IH]; intros addr len id mr xlat l buf Ha He Hlen Hf Hr Ht; [lia|].
  destruct (readable_lookup addr) as (r & Hl & Hram & Hd); [apply Hr; lia|].
  destruct (translate_ram addr len) as (r' & l' & Hl' & Hlen' & Hpos & Ht' & Hin); [by exists r|done|].
  rewrite Hl in Hl'. injection Hl' as <-. rewrite Ht in Ht'. injection Ht' as -> -> -> ->.
  cbn [flatview_read_continue]. unfold flatview_read_continue_step at 1. rewrite Hd. cbn [negb].
  rewrite res_bind_Ok. cbv zeta. rewrite (step_bytes addr r l' s Hl Hin).
  change (MEMTX_OK .| MEMTX_OK) with MEMTX_OK.
  destruct (Z.eqb_spec (len - l') 0) as [Heq|Hne].
  { replace l' with len by lia. done. }
  rewrite wrapu_small by lia.
  destruct (flatview_translate _ _ (addr + l') (len - l')) as [[[id1 mr1] xlat1] l1] eqn:Ht1.
  rewrite (IH (addr + l') (len - l')); [|lia|lia|lia|lia| |exact Ht1].
  - rewrite <- app_assoc, <- fmap_app. do 4 f_equal.
    replace len with (l' + (len - l')) at 2 by lia. by rewrite seqZ_app by lia.
  - intros x Hx. apply Hr. lia.
Qed.

(** No byte of RAM is visible at two addresses. *)
Definition no_aliases : Prop :=
  forall x y id off ro ro', flatview_resolve fv x = Some (id, off, ro) ->
    flatview_resolve fv y = Some (id, off, ro') -> x = y.

(** [s'] is [s] with [bs] written at [addr]. *)
Definition written (s : S) (addr : Z) (bs : list Z) (s' : S) : Prop :=
  forall x, mem_byte s' x =
    if in_window addr (Z.of_nat (length bs)) x then nth (Z.to_nat (x - addr)) bs 0 else mem_byte s x.

Lemma step_written addr r l bs s :
  no_aliases -> flatview_lookup fv addr = Some r -> l = Z.of_nat (length bs) ->
  (forall b, b ∈ bs -> in_range 8 b) ->
  (forall x, addr <= x < addr + l -> addrrange_contains (fr_addr r) x = true) ->
  written s addr bs (ram_store (fr_mr r) (fr_offset_in_region r + (addr - ar_start (fr_addr r))) bs s).
Proof.
  intros Hna Hl Hlen Hb Hin x. unfold mem_byte, in_window. rewrite <- Hlen.
  destruct (Z.leb_spec addr x), (Z.ltb_spec x (addr + l)); cbn [andb].
  1: { rewrite (resolve_in_range addr r) by (done || apply Hin; lia).
       rewrite ram_store_byte, Nat.eqb_refl by done. rewrite <- Hlen.
       destruct (Z.leb_spec (fr_offset_in_region r + (addr - ar_start (fr_addr r)))
                   (fr_offset_in_region r + (x - ar_start (fr_addr r)))); [|lia].
       destruct (Z.ltb_spec (fr_offset_in_region r + (x - ar_start (fr_addr r)))
                   (fr_offset_in_region r + (addr - ar_start (fr_addr r)) + l)); [|lia].
       cbn [andb]. f_equal. lia. }
  all: destruct (flatview_resolve fv x) as [[[id off] ro]|] eqn:Hx; [|done];
    rewrite ram_store_byte by done; rewrite <- Hlen;
    destruct (Nat.eqb_spec id (fr_mr r)) as [->|]; [|done]; cbn [andb];
    destruct (Z.leb_spec (fr_offset_in_region r + (addr - ar_start (fr_addr r))) off); [|done];
    destruct (Z.ltb_spec off (fr_offset_in_region r + (addr - ar_start (fr_addr r)) + l)); [|done];
    exfalso; set (y := off - fr_offset_in_region r + ar_start (fr_addr r));
    (assert (Hy : x = y); [|lia]);
    apply (Hna x y (fr_mr r) off ro (fr_readonly r) Hx);
    rewrite (resolve_in_range addr r y) by (done || apply Hin; lia); do 3 f_equal; lia.
Qed.

Lemma written_app s addr bs1 bs2 s1 s2 :
  written s addr bs1 s1 -> written s1 (addr + Z.of_nat (length bs1)) bs2 s2 ->
  written s addr (bs1 ++ bs2) s2.
Proof.
  intros H1 H2 x. rewrite H2, H1, length_app. unfold in_window.
  destruct (Z.leb_spec (addr + Z.of_nat (length bs1)) x),
    (Z.ltb_spec x (addr + Z.of_nat (length bs1) + Z.of_nat (length bs2))),
    (Z.leb_spec addr x), (Z.ltb_spec x (addr + Z.of_nat (length bs1 + length bs2))),
    (Z.ltb_spec x (addr + Z.of_nat (length bs1))); cbn [andb]; try lia; try done.
  - rewrite app_nth2 by lia. f_equal. lia.
  - rewrite app_nth1 by lia. done.
Qed.

Lemma write_continue_ram fuel addr len id mr xlat l buf s :
  no_aliases -> len = Z.of_nat (length buf) -> (forall b, b ∈ buf -> in_range 8 b) ->
  0 <= addr -> addr + len <= 2 ^ 64 -> 0 < len -> (Z.to_nat len <= fuel)%nat ->
  (forall x, addr <= x < addr + len -> ram_writable x = true) ->
  flatview_translate fv region_of addr len = (id, mr, xlat, l) ->
  exists s', flatview_write_continue fv region_of fuel addr buf len id mr xlat l MEMTX_OK s = Ok (MEMTX_OK, s') /\
    written s addr buf s'.
Proof.
  intros Hna. revert addr len id mr xlat l buf s.
  induction fuel as [|fuel IH]; intros addr len id mr xlat l buf s Hlb Hb Ha He Hlen Hf Hw Ht; [lia|].
  destruct (writable_lookup addr) as (r & Hl & Hram & Hd); [apply Hw; lia|].
  destruct (translate_ram addr len) as (r' & l' & Hl' & Hlen' & Hpos & Ht' & Hin); [by exists r|done|].
  rewrite Hl in Hl'. injection Hl' as <-. rewrite Ht in Ht'. injection Ht' as -> -> -> ->.
  cbn [flatview_write_continue]. unfold flatview_write_continue_step at 1. rewrite Hd. cbn [negb].
  rewrite res_bind_Ok. cbv zeta. change (MEMTX_OK .| MEMTX_OK) with MEMTX_OK.
  assert (Htl : length (take (Z.to_nat l') buf) = Z.to_nat l') by (rewrite length_take; lia).
  assert (Hb1 : forall b, b ∈ take (Z.to_nat l') buf -> in_range 8 b)
    by (intros b Hb'; apply Hb; eapply elem_of_submseteq; [exact Hb'|apply sublist_submseteq, sublist_take]).
  pose proof (step_written addr r l' (take (Z.to_nat l') buf) s Hna Hl ltac:(lia) Hb1 Hin) as Hstep.
  destruct (Z.eqb_spec (len - l') 0) as [Heq|Hne].
  { eexists. split; [done|]. rewrite take_ge in Hstep |- * by lia. done. }
  rewrite wrapu_small by lia.
  destruct (flatview_translate _ _ (addr + l') (len - l')) as [[[id1 mr1] xlat1] l1] eqn:Ht1.
  edestruct (IH (addr + l') (len - l') id1 mr1 xlat1 l1 (drop (Z.to_nat l') buf)) as (s' & -> & Hs');
    [rewrite length_drop; lia| |lia|lia|lia|lia| |exact Ht1|].
  - intros b Hb'. apply Hb. eapply elem_of_submseteq; [exact Hb'|apply sublist_submseteq, sublist_drop].
  - intros x Hx. apply Hw. lia.
  - exists s'. split; [done|]. rewrite <- (take_drop (Z.to_nat l') buf).
    eapply written_app; [exact Hstep|]. rewrite Htl. by replace (Z.of_nat (Z.to_nat l')) with l' by lia.
Qed.

(** [cpu_physical_memory_read] and [cpu_physical_memory_write] on RAM. *)
Lemma physical_read_ram addr (n : nat) s :
  0 <= addr -> addr + Z.of_nat n <= 2 ^ 64 ->
  (forall x, addr <= x < addr + Z.of_nat n -> ram_readable x = true) ->
  cpu_physical_memory_read fv region_of addr (Z.of_nat n) s = Ok (mem_byte s <$> seqZ addr (Z.of_nat n), s).
Proof.
  intros Ha He Hr. unfold cpu_physical_memory_read, address_space_read_full.
  destruct (Z.gtb_spec (Z.of_nat n) 0) as [Hn|Hn]; [|by replace n with 0%nat by lia].
  unfold flatview_read. destruct (flatview_translate _ _ addr _) as [[[id mr] xlat] l] eqn:Ht.
  rewrite (read_continue_ram _ addr (Z.of_nat n)); [done|done|done|lia|lia|done|done].
Qed.

Lemma physical_write_ram addr bs s :
  no_aliases -> (forall b, b ∈ bs -> in_range 8 b) ->
  0 <= addr -> addr + Z.of_nat (length bs) <= 2 ^ 64 ->
  (forall x, addr <= x < addr + Z.of_nat (length bs) -> ram_writable x = true) ->
  exists s', cpu_physical_memory_write fv region_of addr bs s = Ok s' /\ written s addr bs s'.
Proof.
  intros Hna Hb Ha He Hw. unfold cpu_physical_memory_write, address_space_write.
  destruct (Z.gtb_spec (Z.of_nat (length bs)) 0) as [Hn|Hn].
  - unfold flatview_write. destruct (flatview_translate _ _ addr _) as [[[id mr] xlat] l] eqn:Ht.
    destruct (write_continue_ram (Z.to_nat (Z.of_nat (length bs))) addr (Z.of_nat (length bs)) id mr xlat l bs s)
      as (s' & -> & Hs'); [done..|lia|done|done|]. exists s'. split; [done|exact Hs'].
  - exists s. split; [done|]. intros x. destruct bs; [|cbn in Hn; lia]. unfold in_window; cbn [length].
    destruct (Z.leb_spec addr x), (Z.ltb_spec x (addr + Z.of_nat 0)); cbn; done || lia.
Qed.

End View.

End Theory.

(** ** What accesses preserve

    A relation between machine states that the guards, the RAM blocks and the
    handlers respect holds across every access. *)
Section Frame.
Context {S : Type} {M : Machine S} (fv : FlatView) (region_of : nat -> Region S).
Context (R : S -> S -> Prop) `{!PreOrder R}.

Definition handlers_respect (mr : Region S) : Prop :=
  (forall a sz s v s', ops_read (rg_ops mr) a sz s = Ok (v, s') -> R s s') /\
  (forall a v sz s s', ops_write (rg_ops mr) a v sz s = Ok s' -> R s s').

Hypothesis guard_respects : forall d b s, R s (set_engaged_in_io d b s).
Hypothesis store_respects : forall id off bs s, R s (ram_store id off bs s).
Hypothesis handlers : forall id, handlers_respect (region_of id).

Lemma access_loop_respects fuel access_fn (mr : Region S) addr size asz mask i r v s r' v' s' :
  (forall a v sz sh m s r v' s', access_fn mr a v sz sh m s = Ok (r, v', s') -> R s s') ->
  access_loop fuel access_fn mr addr size asz mask i r v s = Ok (r', v', s') -> R s s'.
Proof.
  intros Hfn. revert i r v s. induction fuel as [|fuel IH]; intros i r v s; cbn [access_loop].
  { by intros [= _ _ <-]. }
  destruct (i <? size); [|by intros [= _ _ <-]]. cbv zeta.
  intros ([[r1 v1] s1] & H1 & H2)%res_bind_inv. etrans; [by eapply Hfn|by eapply IH].
Qed.

Lemma adjusted_respects access_fn addr v size amin amax (mr : Region S) s r' v' s' :
  (forall a v sz sh m s r v' s', access_fn mr a v sz sh m s = Ok (r, v', s') -> R s s') ->
  access_with_adjusted_size addr v size amin amax access_fn mr s = Ok (r', v', s') -> R s s'.
Proof.
  intros Hfn. unfold access_with_adjusted_size. destruct (guarded mr) as [dev|].
  - destruct (engaged_in_io _ _); [by intros [= _ _ <-]|].
    intros ([[r1 v1] s1] & H1 & H2)%res_bind_inv. injection H2 as _ _ <-.
    etrans; [apply guard_respects|]. etrans; [by eapply access_loop_respects|apply guard_respects].
  - by apply access_loop_respects.
Qed.

Lemma dispatch_read_respects (mr : Region S) addr size s r v s' :
  handlers_respect mr -> memory_region_dispatch_read mr addr size s = Ok (r, v, s') -> R s s'.
Proof.
  intros [Hr _]. unfold memory_region_dispatch_read. destruct (negb _); [by intros [= _ _ <-]|].
  intros ([[r1 v1] s1] & H1 & H2)%res_bind_inv. injection H2 as _ _ <-.
  eapply adjusted_respects; [|exact H1]. intros a v0 sz sh m s0 r0 v0' s0' ([t s2] & H3 & H4)%res_bind_inv.
  injection H4 as _ _ <-. by eapply Hr.
Qed.

Lemma dispatch_write_respects (mr : Region S) addr data size s r s' :
  handlers_respect mr -> memory_region_dispatch_write mr addr data size s = Ok (r, s') -> R s s'.
Proof.
  intros [_ Hw]. unfold memory_region_dispatch_write. destruct (negb _); [by intros [= _ <-]|].
  cbv zeta. intros ([[r1 v1] s1] & H1 & H2)%res_bind_inv. injection H2 as _ <-.
  eapply adjusted_respects; [|exact H1]. intros a v0 sz sh m s0 r0 v0' s0' (s2 & H3 & H4)%res_bind_inv.
  injection H4 as _ _ <-. by eapply Hw.
Qed.

Lemma unassigned_respects : handlers_respect (io_mem_unassigned (S := S)).
Proof. split; cbn; [by intros a sz s v s' [= _ <-]|by intros a v sz s s' [= <-]]. Qed.

Lemma translate_respects addr len id mr xlat l :
  flatview_translate fv region_of addr len = (id, mr, xlat, l) -> handlers_respect mr.
Proof.
  unfold flatview_translate. destruct (flatview_lookup fv addr); intros [= <- <- <- <-].
  - apply handlers.
  - apply unassigned_respects.
Qed.

Lemma read_continue_respects fuel addr len id mr xlat l result buf s r bs s' :
  handlers_respect mr ->
  flatview_read_continue fv region_of fuel addr len id mr xlat l result buf s = Ok (r, bs, s') -> R s s'.
Proof.
  revert addr len id mr xlat l result buf s.
  induction fuel as [|fuel IH]; intros addr len id mr xlat l result buf s Hmr; [done|].
  cbn [flatview_read_continue]. intros ([[[r1 l1] bs1] s1] & Hstep & Hrest)%res_bind_inv.
  assert (HR : R s s1).
  { unfold flatview_read_continue_step in Hstep. destruct (negb _); [|by injection Hstep as _ _ _ <-].
    cbv zeta in Hstep. apply res_bind_inv in Hstep as ([[r2 v2] s2] & H1 & H2).
    injection H2 as _ _ _ <-. by eapply dispatch_read_respects. }
  cbv zeta in Hrest. destruct (_ =? 0); [by injection Hrest as _ _ <-|].
  destruct (flatview_translate _ _ _ _) as [[[id1 mr1] xlat1] l2] eqn:Ht.
  etrans; [exact HR|]. eapply IH; [by eapply translate_respects|exact Hrest].
Qed.

Lemma write_continue_respects fuel addr len id mr xlat l result buf s r s' :
  handlers_respect mr ->
  flatview_write_continue fv region_of fuel addr buf len id mr xlat l result s = Ok (r, s') -> R s s'.
Proof.
  revert addr len id mr xlat l result buf s.
  induction fuel as [|fuel IH]; intros addr len id mr xlat l result buf s Hmr; [done|].
  cbn [flatview_write_continue]. intros ([[r1 l1] s1] & Hstep & Hrest)%res_bind_inv.
  assert (HR : R s s1).
  { unfold flatview_write_continue_step in Hstep.
    destruct (negb _); [|injection Hstep as _ _ <-; apply store_respects].
    cbv zeta in Hstep. apply res_bind_inv in Hstep as ([r2 s2] & H1 & H2).
    injection H2 as _ _ <-. by eapply dispatch_write_respects. }
  cbv zeta in Hrest. destruct (_ =? 0); [by injection Hrest as _ <-|].
  destruct (flatview_translate _ _ _ _) as [[[id1 mr1] xlat1] l2] eqn:Ht.
  etrans; [exact HR|]. eapply IH; [by eapply translate_respects|exact Hrest].
Qed.

Lemma physical_read_respects addr len s bs s' :
  cpu_physical_memory_read fv region_of addr len s = Ok (bs, s') -> R s s'.
Proof.
  intros ([[r bs1] s1] & H1 & [= _ <-])%res_bind_inv. unfold address_space_read_full in H1.
  destruct (len >? 0); [|by injection H1 as _ _ <-]. unfold flatview_read in H1.
  destruct (flatview_translate _ _ _ _) as [[[id mr] xlat] l] eqn:Ht.
  eapply read_continue_respects; [by eapply translate_respects|exact H1].
Qed.

Lemma physical_write_respects addr bs s s' :
  cpu_physical_memory_write fv region_of addr bs s = Ok s' -> R s s'.
Proof.
  intros ([r s1] & H1 & [= <-])%res_bind_inv. unfold address_space_write in H1.
  destruct (_ >? 0); [|by injection H1 as _ <-]. unfold flatview_write in H1.
  destruct (flatview_translate _ _ _ _) as [[[id mr] xlat] l] eqn:Ht.
  eapply write_continue_respects; [by eapply translate_respects|exact H1].
Qed.

End Frame.

(** ** The bytes an access returns *)
Section Length.
Context {S : Type} {M : Machine S} {Laws : MachineLaws S} (fv : FlatView) (region_of : nat -> Region S).
Hypothesis valid_sizes : forall id, 0 <= valid_max_access_size (rg_ops (region_of id)).

Lemma stn_he_p_bytes n v : length (stn_he_p n v) = n /\ (forall b, b ∈ stn_he_p n v -> in_range 8 b).
Proof.
  revert v. induction n as [|n IH]; intros v; cbn [stn_he_p length].
  - split; [done|]. by intros b Hb%elem_of_nil.
  - destruct (IH (v .>> 8)) as [Hl Hb]. split; [by rewrite Hl|].
    intros b [->|Hin]%elem_of_cons; [by apply in_range_wrapu|by apply Hb].
Qed.

Lemma pow2floor_le x : 0 <= x -> 0 <= pow2floor x <= x.
Proof.
  intros Hx. unfold pow2floor. destruct (Z.eqb_spec x 0) as [->|Hne]; [lia|].
  destruct (Z.log2_spec x ltac:(lia)) as [H1 _]. pose proof (Z.pow_nonneg 2 (Z.log2 x)). lia.
Qed.

Lemma memory_access_size_le (mr : Region S) l addr :
  0 <= l -> 0 <= valid_max_access_size (rg_ops mr) -> 0 <= memory_access_size mr l addr <= l.
Proof.
  intros Hl Hv. unfold memory_access_size. cbv zeta.
  pose proof (wrapu_range 32 l ltac:(lia)) as Hu.
  assert (Hul : u32 l <= l) by (apply Z.mod_le; lia).
  pose proof (wrapu_range 32 (addr .& u64 (- addr)) ltac:(lia)) as Ha.
  set (amax := if negb (impl_unaligned _) then _ else _).
  assert (0 <= amax).
  { unfold amax. destruct (negb (impl_unaligned _)), (valid_max_access_size _ =? 0); try lia;
      destruct (negb _ && _); lia. }
  clearbody amax. destruct (Z.gtb_spec (u32 l) amax); [pose proof (pow2floor_le amax)|pose proof (pow2floor_le (u32 l))]; lia.
Qed.

Lemma translate_length addr len id mr xlat l :
  0 <= len -> flatview_translate fv region_of addr len = (id, mr, xlat, l) ->
  0 <= l <= len /\ 0 <= valid_max_access_size (rg_ops mr).
Proof.
  intros Hlen. unfold flatview_translate. destruct (flatview_lookup fv addr) as [r|] eqn:Hl.
  - apply lookup_contains in Hl as [_ Hc%contains_spec]. intros [= <- <- <- <-].
    split; [|apply valid_sizes]. destruct (rg_ram _); lia.
  - intros [= <- <- <- <-]. cbn. lia.
Qed.

Lemma read_step_length id mr xlat l s r l' bs s' :
  0 <= l -> 0 <= valid_max_access_size (rg_ops mr) ->
  flatview_read_continue_step id mr xlat l s = Ok (r, l', bs, s') ->
  0 <= l' <= l /\ length bs = Z.to_nat l' /\ (forall b, b ∈ bs -> in_range 8 b).
Proof.
  intros Hl Hv. unfold flatview_read_continue_step. destruct (negb _).
  - cbv zeta. intros ([[r1 v1] s1] & _ & [= _ <- <- _])%res_bind_inv.
    split; [by apply memory_access_size_le|]. apply stn_he_p_bytes.
  - intros [= _ <- <- _]. split; [lia|]. rewrite ram_load_bytes, length_fmap, length_seqZ.
    split; [done|]. intros b (x & -> & _)%list_elem_of_fmap. apply ram_byte_range.
Qed.

Lemma read_continue_length fuel addr len id mr xlat l result buf s r out s' :
  0 <= l <= len -> 0 <= valid_max_access_size (rg_ops mr) ->
  flatview_read_continue fv region_of fuel addr len id mr xlat l result buf s = Ok (r, out, s') ->
  exists bs, out = buf ++ bs /\ length bs = Z.to_nat len /\ (forall b, b ∈ bs -> in_range 8 b).
Proof.
  revert addr len id mr xlat l result buf s.
  induction fuel as [|fuel IH]; intros addr len id mr xlat l result buf s Hl Hv; [done|].
  cbn [flatview_read_continue]. intros ([[[r1 l1] bs1] s1] & Hstep & Hrest)%res_bind_inv.
  apply read_step_length in Hstep as (Hl1 & Hlen & Hb); [|lia|done]. cbv zeta in Hrest.
  destruct (Z.eqb_spec (len - l1) 0) as [Heq|Hne].
  { injection Hrest as _ <- _. exists bs1. split; [done|]. split; [lia|done]. }
  destruct (flatview_translate _ _ _ _) as [[[id1 mr1] xlat1] l2] eqn:Ht.
  apply translate_length in Ht as [Hl2 Hv2]; [|lia].
  destruct (IH _ _ _ _ _ _ _ _ _ Hl2 Hv2 Hrest) as (bs2 & -> & Hlen2 & Hb2).
  exists (bs1 ++ bs2). split; [by rewrite app_assoc|]. split; [rewrite length_app; lia|].
  intros b [Hin|Hin]%elem_of_app; [by apply Hb|by apply Hb2].
Qed.

Lemma physical_read_length addr (n : nat) s bs s' :
  cpu_physical_memory_read fv region_of addr (Z.of_nat n) s = Ok (bs, s') ->
  length bs = n /\ (forall b, b ∈ bs -> in_range 8 b).
Proof.
  intros ([[r bs1] s1] & H1 & [= <- _])%res_bind_inv. unfold address_space_read_full in H1.
  destruct (Z.gtb_spec (Z.of_nat n) 0) as [Hn|Hn].
  - unfold flatview_read in H1. destruct (flatview_translate _ _ _ _) as [[[id mr] xlat] l] eqn:Ht.
    apply translate_length in Ht as [Hl Hv]; [|lia].
    apply read_continue_length in H1 as (bs2 & -> & Hlen & Hb); [|done|done]. cbn [app].
    split; [lia|done].
  - injection H1 as _ <- _. cbn. split; [lia|]. by intros b Hb%elem_of_nil.
Qed.

End Length.

(** Ranges of different regions never alias. *)
Lemma resolve_Some view a id off ro :
  flatview_resolve view a = Some (id, off, ro) ->
  exists r, r ∈ view /\ fr_mr r = id /\ off = fr_offset_in_region r + (a - ar_start (fr_addr r)).
Proof.
  unfold flatview_resolve. destruct (flatview_lookup view a) as [r|] eqn:Hl; [|done].
  apply lookup_contains in Hl as [Hin _]. cbn. intros [= <- <- _]. by exists r.
Qed.

Lemma distinct_no_aliases view : NoDup (fr_mr <$> view) -> no_aliases view.
Proof.
  intros Hnd x y id off ro ro' (r & Hr & Hid & Hoff)%resolve_Some (r' & Hr' & Hid' & Hoff')%resolve_Some.
  assert (r = r') as <-.
  { apply list_elem_of_lookup in Hr as [i Hi]. apply list_elem_of_lookup in Hr' as [j Hj].
    assert (i = j) as <-; [|congruence]. apply (NoDup_lookup _ i j (fr_mr r) Hnd);
      rewrite list_lookup_fmap, ?Hi, ?Hj; cbn; congruence. }
  lia.
Qed.

(** ** A small machine for the witnesses *)

Record flat_machine : Type := mkMachine { fm_ram : gmap (nat * Z) Z; fm_engaged : gmap nat bool }.

Fixpoint fm_store (id : nat) (off : Z) (bs : list Z) (m : gmap (nat * Z) Z) : gmap (nat * Z) Z :=
  match bs with [] => m | b :: bs => fm_store id (off + 1) bs (<[(id, off) := b]> m) end.

#[export] Instance flat_machine_ops : Machine flat_machine := {
  engaged_in_io d s := default false (fm_engaged s !! d);
  set_engaged_in_io d b s := mkMachine (fm_ram s) (<[d := b]> (fm_engaged s));
  ram_load id off n s := (fun x => u8 (default 0 (fm_ram s !! (id, x)))) <$> seqZ off n;
  ram_store id off bs s := mkMachine (fm_store id off bs (fm_ram s)) (fm_engaged s)
}.

Lemma fm_store_lookup bs id off m id' x :
  fm_store id off bs m !! (id', x) =
    if (id' =? id)%nat && ((off <=? x) && (x <? off + Z.of_nat (length bs)))
    then Some (nth (Z.to_nat (x - off)) bs 0) else m !! (id', x).
Proof.
  revert off m. induction bs as [|b bs IH]; intros off m; cbn [fm_store length].
  - destruct (Z.leb_spec off x), (Z.ltb_spec x (off + Z.of_nat 0)); cbn; rewrite ?andb_false_r; try done; lia.
  - rewrite IH. destruct (Nat.eqb_spec id' id) as [->|Hne]; cbn [andb].
    2: { rewrite lookup_insert_ne; [done|]. intros [= ? ?]. congruence. }
    destruct (decide (x = off)) as [->|Hx].
    + rewrite lookup_insert_eq, Z.sub_diag.
      destruct (Z.leb_spec (off + 1) off), (Z.leb_spec off off),
        (Z.ltb_spec off (off + Z.of_nat (S (length bs)))); cbn; done || lia.
    + rewrite lookup_insert_ne by congruence.
      destruct (Z.leb_spec (off + 1) x), (Z.ltb_spec x (off + 1 + Z.of_nat (length bs))),
        (Z.leb_spec off x), (Z.ltb_spec x (off + Z.of_nat (S (length bs)))); cbn -[nth]; try done; try lia.
      by replace (Z.to_nat (x - off)) with (S (Z.to_nat (x - (off + 1)))) by lia.
Qed.

#[export] Program Instance flat_machine_laws : MachineLaws flat_machine := {
  ram_byte id x s := u8 (default 0 (fm_ram s !! (id, x)))
}.
Next Obligation. intros. by apply in_range_wrapu. Qed.
Next Obligation. done. Qed.
Next Obligation.
  intros id off bs s id' x Hb. cbn. rewrite fm_store_lookup.
  destruct (_ && _) eqn:Hx; [|done]. cbn. apply wrapu_small, Hb.
  apply list_elem_of_In, nth_In. lia.
Qed.
Next Obligation.
  intros d d' b s. cbn. destruct (Nat.eqb_spec d' d) as [->|Hne].
  - by rewrite lookup_insert_eq.
  - by rewrite lookup_insert_ne.
Qed.

(** A RAM region with identity 1 at 0x100, and a device with identity 2, whose
    registers hold the low byte of their address, at 0x200. *)
Definition demo_view : FlatView :=
  [mkFR 1 0 (mkRange 0x100 0x40) 0 false false false false;
   mkFR 2 0 (mkRange 0x200 0x10) 0 false false false false].

Definition demo_ops : MemoryRegionOps flat_machine :=
  mkOps (fun a n s => Ok (ldn_he_p (u8 <$> seqZ a n), s)) (fun _ _ _ s => Ok s)
    false 1 4 false None 1 1 false.

Definition demo_region (id : nat) : Region flat_machine :=
  if (id =? 1)%nat then mkRegion unassigned_mem_ops true false false false false None false
  else mkRegion demo_ops false false false false false (Some 7%nat) false.

Lemma demo_view_sorted : view_from 0 demo_view.
Proof. cbn. unfold addrrange_end; cbn. lia. Qed.

Lemma demo_view_bounded r :
  r ∈ demo_view -> 0 <= ar_start (fr_addr r) /\ 0 <= fr_offset_in_region r /\
    addrrange_end (fr_addr r) <= 2 ^ 64 /\ fr_offset_in_region r + ar_size (fr_addr r) <= 2 ^ 64.
Proof.
  intros Hr. repeat (apply elem_of_cons in Hr as [->|Hr]; [by vm_compute|]). by apply elem_of_nil in Hr.
Qed.

Lemma demo_region_sizes id : 0 <= valid_max_access_size (rg_ops (demo_region id)) < 2 ^ 31.
Proof. unfold demo_region. destruct (id =? 1)%nat; cbn; lia. Qed.

Lemma demo_region_handlers id : handlers_terminate (demo_region id).
Proof. unfold demo_region. destruct (id =? 1)%nat; split; intros; discriminate. Qed.

Lemma demo_view_no_aliases : no_aliases demo_view.
Proof.
  intros x y id off ro ro'. unfold demo_view. rewrite !flatview_resolve_cons. cbn [fr_addr].
  destruct (addrrange_contains (mkRange 0x100 0x40) x), (addrrange_contains (mkRange 0x200 0x10) x),
    (addrrange_contains (mkRange 0x100 0x40) y), (addrrange_contains (mkRange 0x200 0x10) y);
    unfold fr_target; cbn -[Z.add]; intros [=] [=]; subst; lia || done.
Qed.

Definition demo_machine : flat_machine := mkMachine ∅ ∅.

(** ** Properties *)

(** [memory_access_size] picks a legal access: a power of two, at least one
    byte, not larger than what is left to transfer nor than the region's
    maximum, and a divisor of the offset unless the region implements unaligned
    accesses. *)
Theorem access_size_legal {S} (mr : Region S) l addr :
  0 < l < 2 ^ 32 -> 0 <= addr < 2 ^ 64 -> 0 <= valid_max_access_size (rg_ops mr) < 2 ^ 31 ->
  exists k, 0 <= k /\ memory_access_size mr l addr = 2 ^ k /\ 2 ^ k <= l /\ 2 ^ k <= max_access mr /\
    (impl_unaligned (rg_ops mr) = false -> (2 ^ k | addr)).
Proof. apply memory_access_size_spec. Qed.

Lemma access_size_legal_witness :
  exists k, 0 <= k /\ memory_access_size (demo_region 2) 7 0x206 = 2 ^ k /\ 2 ^ k <= 7 /\
    2 ^ k <= max_access (demo_region 2) /\ (impl_unaligned (rg_ops (demo_region 2)) = false -> (2 ^ k | 0x206)).
Proof. apply (access_size_legal (demo_region 2) 7 0x206); [lia|lia|cbn; lia]. Defined.

(** An access of less than 4 GiB to any address terminates: the loops of
    [flatview_read] and [flatview_write] use at least one byte per round, so the
    bound of one round per byte is never reached, whatever mixture of memory,
    devices and unassigned addresses the access covers. *)
Theorem access_terminates {S} {M : Machine S} fv (region_of : nat -> Region S) addr (bs : list Z) s :
  (forall r, r ∈ fv -> 0 <= ar_start (fr_addr r) /\ 0 <= fr_offset_in_region r /\
     addrrange_end (fr_addr r) <= 2 ^ 64 /\ fr_offset_in_region r + ar_size (fr_addr r) <= 2 ^ 64) ->
  (forall id, 0 <= valid_max_access_size (rg_ops (region_of id)) < 2 ^ 31) ->
  (forall id, handlers_terminate (region_of id)) ->
  0 <= addr < 2 ^ 64 -> Z.of_nat (length bs) < 2 ^ 32 ->
  avoids OutOfFuel (cpu_physical_memory_read fv region_of addr (Z.of_nat (length bs)) s) /\
  avoids OutOfFuel (cpu_physical_memory_write fv region_of addr bs s).
Proof.
  intros Hb Hv Hh Ha Hlen. split.
  - apply avoids_bind; [|by intros [[r d] s'] _]. unfold address_space_read_full.
    destruct (Z.gtb_spec (Z.of_nat (length bs)) 0); [|discriminate]. unfold flatview_read.
    destruct (flatview_translate _ _ _ _) as [[[id mr] xlat] l] eqn:Ht.
    eapply read_continue_fuel; [exact Hb|exact Hv|exact Hh|done|lia|lia|exact Ht].
  - apply avoids_bind; [|by intros [r s'] _]. unfold address_space_write.
    destruct (Z.gtb_spec (Z.of_nat (length bs)) 0); [|discriminate]. unfold flatview_write.
    destruct (flatview_translate _ _ _ _) as [[[id mr] xlat] l] eqn:Ht.
    eapply write_continue_fuel; [exact Hb|exact Hv|exact Hh|done|lia|lia|exact Ht].
Qed.

Lemma access_terminates_witness :
  avoids OutOfFuel (cpu_physical_memory_read demo_view demo_region 0x1FE 7 demo_machine) /\
  avoids OutOfFuel (cpu_physical_memory_write demo_view demo_region 0x1FE [1; 2; 3; 4; 5; 6; 7] demo_machine).
Proof.
  apply (access_terminates demo_view demo_region 0x1FE [1; 2; 3; 4; 5; 6; 7] demo_machine);
    [apply demo_view_bounded|apply demo_region_sizes|apply demo_region_handlers|lia|cbn; lia].
Defined.



(** A device is never re-entered: while a device is engaged in an access, an
    access to any of its regions fails with [MEMTX_ACCESS_ERROR] and changes
    nothing; an access that runs its handlers runs them with the guard set and
    releases the guard at the end. *)
Theorem access_reentrancy_guard {S} {M : Machine S} {Laws : MachineLaws S} addr v size amin amax
    access_fn (mr : Region S) dev s :
  guarded mr = Some dev ->
  (engaged_in_io dev s = true ->
     access_with_adjusted_size addr v size amin amax access_fn mr s = Ok (MEMTX_ACCESS_ERROR, v, s)) /\
  (engaged_in_io dev s = false -> forall r v' s',
     access_with_adjusted_size addr v size amin amax access_fn mr s = Ok (r, v', s') ->
     engaged_in_io dev s' = false /\
     exists s1, s' = set_engaged_in_io dev false s1 /\
       access_loop (Z.to_nat size) access_fn mr addr size
         (Z.max (Z.min size (if amax =? 0 then 4 else amax)) (if amin =? 0 then 1 else amin))
         (MAKE_64BIT_MASK 0 (Z.max (Z.min size (if amax =? 0 then 4 else amax))
                               (if amin =? 0 then 1 else amin) * 8))
         0 MEMTX_OK v (set_engaged_in_io dev true s) = Ok (r, v', s1)).
Proof.
  intros Hg. unfold access_with_adjusted_size. rewrite Hg. split; intros He; rewrite He; [done|].
  intros r v' s' ([[r1 v1] s1] & Hrun & Heq)%res_bind_inv. injection Heq as <- <- <-.
  split; [by rewrite engaged_set, Nat.eqb_refl|]. exists s1. split; [done|exact Hrun].
Qed.

Lemma access_reentrancy_guard_witness :
  access_with_adjusted_size 0 5 4 1 4 memory_region_write_accessor (demo_region 2)
    (set_engaged_in_io 7 true demo_machine) = Ok (MEMTX_ACCESS_ERROR, 5, set_engaged_in_io 7 true demo_machine).
Proof.
  apply (access_reentrancy_guard 0 5 4 1 4 memory_region_write_accessor (demo_region 2) 7
           (set_engaged_in_io 7 true demo_machine)); reflexivity.
Defined.


