(* ===== verification/CharMux.v ===== *)
(** * The multiplexed character device

    [chardev/char-mux.c]: the mux that sits between the terminal and the
    front ends (the UARTs and the monitor) when QEMU runs with
    [-serial mon:stdio].  Each front end has a ring of 32 bytes; the front ends
    are a parameter.  The ring is proved to refine a first-in first-out queue. *)

From S2P Require Import Prelude Bits.

Definition MAX_MUX : nat := 4.
Definition MUX_BUFFER_SIZE : Z := 32.
Definition MUX_BUFFER_MASK : Z := MUX_BUFFER_SIZE - 1.
Definition term_escape_char : Z := 0x01.

(** [struct MuxChardev]; [backends] tells which front ends are attached. *)
Record MuxChardev : Type := mkMux {
  backends : list bool;
  mux_bitset : Z;
  focus : Z;
  term_got_escape : bool;
  buffer : list (list Z);
  prod : list Z;
  cons : list Z;
  timestamps : bool;
  timestamps_start : Z;
  linestart : bool
}.

(** What the escape sequences ask of the rest of the emulator. *)
Inductive mux_event : Set :=
  | MuxPrintHelp
  | MuxQuit
  | MuxCommitAll
  | MuxBreak
  | MuxSwitch (from to : Z).

Definition set_cons (m : nat) (v : Z) (d : MuxChardev) : MuxChardev :=
  mkMux (backends d) (mux_bitset d) (focus d) (term_got_escape d) (buffer d) (prod d)
    (<[m := u32 v]> (cons d)) (timestamps d) (timestamps_start d) (linestart d).

Definition set_escape (b : bool) (d : MuxChardev) : MuxChardev :=
  mkMux (backends d) (mux_bitset d) (focus d) b (buffer d) (prod d) (cons d)
    (timestamps d) (timestamps_start d) (linestart d).

Definition set_focus_field (f : Z) (d : MuxChardev) : MuxChardev :=
  mkMux (backends d) (mux_bitset d) f (term_got_escape d) (buffer d) (prod d) (cons d)
    (timestamps d) (timestamps_start d) (linestart d).

(** [d->buffer[m][d->prod[m]++ & MUX_BUFFER_MASK] = b] *)
Definition ring_put (m : nat) (b : Z) (d : MuxChardev) : res MuxChardev :=
  match buffer d !! m, prod d !! m with
  | Some ring, Some p =>
      Ok (mkMux (backends d) (mux_bitset d) (focus d) (term_got_escape d)
            (<[m := <[Z.to_nat (p .& MUX_BUFFER_MASK) := u8 b]> ring]> (buffer d))
            (<[m := u32 (p + 1)]> (prod d)) (cons d) (timestamps d) (timestamps_start d) (linestart d))
  | _, _ => Fault ArrayOutOfBounds
  end.

(** The indexed fields of the front end in focus. *)
Definition get_idx {A} (l : list A) (i : Z) : res A :=
  if i <? 0 then Fault ArrayOutOfBounds
  else match l !! Z.to_nat i with Some x => Ok x | None => Fault ArrayOutOfBounds end.

(** [find_next_bit(bitset, MAX_MUX, offset)] *)
Fixpoint find_bit_from (n : nat) (bitset : Z) (i : Z) : Z :=
  match n with
  | O => i
  | S n => if Z.testbit bitset i then i else find_bit_from n bitset (i + 1)
  end.

Definition find_next_bit (bitset size offset : Z) : Z :=
  if offset >=? size then size else find_bit_from (Z.to_nat (size - offset)) bitset offset.

(** [mux_chr_attach_frontend]: the tag of the front end, when one is free. *)
Definition mux_chr_attach_frontend (d : MuxChardev) : option (Z * MuxChardev) :=
  let bit := find_next_bit (.~ (mux_bitset d)) (Z.of_nat MAX_MUX) 0 in
  if bit >=? Z.of_nat MAX_MUX then None
  else Some (bit, mkMux (<[Z.to_nat bit := true]> (backends d)) (u64 (mux_bitset d .| (1 .<< bit)))
                    (focus d) (term_got_escape d) (buffer d) (prod d) (cons d)
                    (timestamps d) (timestamps_start d) (linestart d)).

(** [mux_chr_detach_frontend] *)
Definition mux_chr_detach_frontend (tag : Z) (d : MuxChardev) : bool * MuxChardev :=
  let bit := find_next_bit (mux_bitset d) (Z.of_nat MAX_MUX) tag in
  if negb (bit =? tag) then (false, d)
  else (true, mkMux (<[Z.to_nat bit := false]> (backends d)) (u64 (mux_bitset d .& .~ (1 .<< bit)))
                (focus d) (term_got_escape d) (buffer d) (prod d) (cons d)
                (timestamps d) (timestamps_start d) (linestart d)).

(** [mux_set_focus]: the events it sends are [CHR_EVENT_MUX_OUT] to the old
    front end and [CHR_EVENT_MUX_IN] to the new one. *)
Definition mux_set_focus (f : Z) (d : MuxChardev) : res (MuxChardev * list mux_event) :=
  _ ← c_assert (find_next_bit (mux_bitset d) (Z.of_nat MAX_MUX) f =? f);
  Ok (set_focus_field f d, [MuxSwitch (focus d) f]).

(** [mux_proc_byte]: whether the byte goes to the front end. *)
Definition mux_proc_byte (d : MuxChardev) (ch : Z) : res (bool * MuxChardev * list mux_event) :=
  if term_got_escape d then
    let d := set_escape false d in
    if ch =? term_escape_char then Ok (true, d, [])
    else if (ch =? 63) || (ch =? 104) then Ok (false, d, [MuxPrintHelp])
    else if ch =? 120 then Ok (false, d, [MuxQuit])
    else if ch =? 115 then Ok (false, d, [MuxCommitAll])
    else if ch =? 98 then Ok (false, d, [MuxBreak])
    else if ch =? 99 then
      _ ← c_assert (negb (mux_bitset d =? 0));
      let bit := find_next_bit (mux_bitset d) (Z.of_nat MAX_MUX) (focus d + 1) in
      let bit := if bit >=? Z.of_nat MAX_MUX
                 then find_next_bit (mux_bitset d) (Z.of_nat MAX_MUX) 0 else bit in
      '(d, ev) ← mux_set_focus bit d;
      Ok (false, d, ev)
    else if ch =? 116 then
      Ok (false, mkMux (backends d) (mux_bitset d) (focus d) (term_got_escape d) (buffer d) (prod d)
                   (cons d) (negb (timestamps d)) (-1) false, [])
    else Ok (false, d, [])
  else if ch =? term_escape_char then Ok (false, set_escape true d, [])
  else Ok (true, d, []).

Section Mux.
Context {F : Type}.
(** The handlers of the front ends: [chr_can_read] and [chr_read] of one byte. *)
Context (chr_can_read : nat -> F -> bool) (chr_read : nat -> Z -> F -> F).

(** The [while] loop of [mux_chr_accept_input]: [n] bounds the rounds. *)
Fixpoint accept_loop (n : nat) (m : nat) (d : MuxChardev) (f : F) : res (MuxChardev * F) :=
  match n with
  | O => Ok (d, f)
  | S n =>
      be ← get_idx (backends d) (Z.of_nat m);
      p ← get_idx (prod d) (Z.of_nat m);
      c ← get_idx (cons d) (Z.of_nat m);
      if (be : bool) && negb (p =? c) && chr_can_read m f then
        ring ← get_idx (buffer d) (Z.of_nat m);
        b ← get_idx ring (c .& MUX_BUFFER_MASK);
        accept_loop n m (set_cons m (c + 1) d) (chr_read m b f)
      else Ok (d, f)
  end.

(** [mux_chr_accept_input]; the ring holds [prod - cons] bytes, so that many
    rounds are enough. *)
Definition mux_chr_accept_input (d : MuxChardev) (f : F) : res (MuxChardev * F) :=
  _ ← get_idx (backends d) (focus d);
  p ← get_idx (prod d) (focus d);
  c ← get_idx (cons d) (focus d);
  accept_loop (S (Z.to_nat (u32 (p - c)))) (Z.to_nat (focus d)) d f.

(** [mux_chr_can_read] *)
Definition mux_chr_can_read (d : MuxChardev) (f : F) : res bool :=
  be ← get_idx (backends d) (focus d);
  p ← get_idx (prod d) (focus d);
  c ← get_idx (cons d) (focus d);
  if u32 (p - c) <? MUX_BUFFER_SIZE then Ok true
  else if (be : bool) then Ok (chr_can_read (Z.to_nat (focus d)) f)
  else Ok false.

(** The [for] loop of [mux_chr_read]; [m] and [be] are those of the start. *)
Fixpoint mux_read_loop (buf : list Z) (m : nat) (be : bool) (d : MuxChardev) (f : F)
  : res (MuxChardev * F * list mux_event) :=
  match buf with
  | [] => Ok (d, f, [])
  | b :: buf =>
      '(send, d, ev) ← mux_proc_byte d b;
      '(d, f) ←
        (if (send : bool) then
           p ← get_idx (prod d) (Z.of_nat m);
           c ← get_idx (cons d) (Z.of_nat m);
           if (p =? c) && be && chr_can_read m f then Ok (d, chr_read m b f)
           else d ← ring_put m b d; Ok (d, f)
         else Ok (d, f));
      '(d, f, ev') ← mux_read_loop buf m be d f;
      Ok (d, f, ev ++ ev')
  end.

(** [mux_chr_read] *)
Definition mux_chr_read (buf : list Z) (d : MuxChardev) (f : F)
  : res (MuxChardev * F * list mux_event) :=
  be ← get_idx (backends d) (focus d);
  let m := Z.to_nat (focus d) in
  '(d, f) ← mux_chr_accept_input d f;
  mux_read_loop buf m be d f.

End Mux.

(** ** The ring as a queue *)

(** The bytes between [cons] and [prod], oldest first. *)
Definition ring_queue (ring : list Z) (p c : Z) : list Z :=
  (fun i => nth (Z.to_nat ((c + Z.of_nat i) mod 32)) ring 0) <$> seq 0 (Z.to_nat (u32 (p - c))).

Lemma mask_mod x : x .& MUX_BUFFER_MASK = x mod 32.
Proof. change MUX_BUFFER_MASK with (Z.ones 5). by rewrite Z.land_ones. Qed.

Lemma u32_mod32 x : u32 x mod 32 = x mod 32.
Proof.
  unfold wrapu. apply Z.mod_mod_divide. by exists (2 ^ 27).
Qed.

Lemma ring_queue_length ring p c : length (ring_queue ring p c) = Z.to_nat (u32 (p - c)).
Proof. unfold ring_queue. by rewrite length_fmap, length_seq. Qed.

Lemma ring_queue_empty ring p c : in_range 32 p -> in_range 32 c -> ring_queue ring p c = [] <-> p = c.
Proof.
  intros Hp Hc. split.
  - intros Hq. apply (f_equal length) in Hq. rewrite ring_queue_length in Hq. cbn in Hq.
    pose proof (wrapu_range 32 (p - c) ltac:(lia)).
    assert (H0 : u32 (p - c) = 0) by lia. unfold wrapu in H0. unfold in_range in *.
    apply Z.mod_divide in H0 as [k Hk]; [|lia]. assert (k = 0) by nia. lia.
  - intros ->. unfold ring_queue. by rewrite Z.sub_diag.
Qed.

(** Taking the oldest byte. *)
Lemma ring_queue_pop ring p c :
  0 < u32 (p - c) ->
  ring_queue ring p c = nth (Z.to_nat (c .& MUX_BUFFER_MASK)) ring 0 :: ring_queue ring p (u32 (c + 1)).
Proof.
  intros H0. unfold ring_queue. pose proof (wrapu_range 32 (p - c) ltac:(lia)) as Hr.
  assert (Hd : u32 (p - u32 (c + 1)) = u32 (p - c) - 1).
  { unfold wrapu at 1 2. rewrite Zminus_mod_idemp_r.
    replace (p - (c + 1)) with (p - c - 1) by lia. rewrite <- Zminus_mod_idemp_l.
    fold (u32 (p - c)). apply Z.mod_small. lia. }
  rewrite Hd. replace (Z.to_nat (u32 (p - c))) with (S (Z.to_nat (u32 (p - c) - 1))) by lia.
  rewrite <- cons_seq. cbn [fmap list_fmap]. f_equal.
  - by rewrite mask_mod, Z.add_0_r.
  - rewrite <- fmap_S_seq, <- list_fmap_compose. apply list_fmap_ext. intros i x _. cbn.
    rewrite <- (Zplus_mod_idemp_l (u32 (c + 1))), u32_mod32, Zplus_mod_idemp_l.
    do 3 f_equal. lia.
Qed.

(** Adding a byte to a ring that is not full. *)
Lemma ring_queue_push ring p c b :
  length ring = 32%nat -> u32 (p - c) < 32 ->
  ring_queue (<[Z.to_nat (p .& MUX_BUFFER_MASK) := b]> ring) (u32 (p + 1)) c = ring_queue ring p c ++ [b].
Proof.
  intros Hlen Hroom. pose proof (wrapu_range 32 (p - c) ltac:(lia)) as Hr.
  assert (Hd : u32 (u32 (p + 1) - c) = u32 (p - c) + 1).
  { unfold wrapu at 1 2. rewrite Zminus_mod_idemp_l.
    replace (p + 1 - c) with (p - c + 1) by lia. rewrite <- Zplus_mod_idemp_l.
    fold (u32 (p - c)). apply Z.mod_small. lia. }
  assert (Hp : forall i, (c + i) mod 32 = p mod 32 -> 0 <= i <= u32 (p - c) -> i = u32 (p - c)).
  { intros i Hi Hle. assert (Hmod : (u32 (p - c) - i) mod 32 = 0).
    { rewrite <- Zminus_mod_idemp_l, u32_mod32, Zminus_mod_idemp_l.
      replace (p - c - i) with (p - (c + i)) by lia.
      rewrite Zminus_mod, Hi, Z.sub_diag. done. }
    rewrite Z.mod_small in Hmod; lia. }
  unfold ring_queue. rewrite Hd.
  replace (Z.to_nat (u32 (p - c) + 1)) with (Z.to_nat (u32 (p - c)) + 1)%nat by lia.
  rewrite seq_app, fmap_app. f_equal.
  - apply list_fmap_ext. intros i x Hx. apply lookup_seq in Hx as [-> Hx]. rewrite !nth_lookup.
    rewrite list_lookup_insert_ne; [done|]. rewrite mask_mod. intros Heq.
    assert (0 <= p mod 32 < 32 /\ 0 <= (c + Z.of_nat i) mod 32 < 32) as [? ?]
      by (split; apply Z.mod_pos_bound; lia).
    assert (Hi : (c + Z.of_nat i) mod 32 = p mod 32) by (cbn in Heq; lia).
    apply Hp in Hi; lia.
  - cbn. f_equal. rewrite mask_mod.
    assert (Hi : (c + Z.of_nat (Z.to_nat (u32 (p - c)))) mod 32 = p mod 32).
    { rewrite Z2Nat.id by lia. rewrite <- Zplus_mod_idemp_r, u32_mod32, Zplus_mod_idemp_r. f_equal. lia. }
    rewrite Hi, nth_lookup, list_lookup_insert_eq; [done|].
    pose proof (Z.mod_pos_bound p 32 ltac:(lia)). lia.
Qed.

(** ** The mux as a queue per front end *)

(** The device is well formed: one entry per front end, rings of 32 bytes, no
    ring overfull, and a front end in focus. *)
Record mux_ok (d : MuxChardev) : Prop := {
  mo_backends : length (backends d) = MAX_MUX;
  mo_buffer : length (buffer d) = MAX_MUX;
  mo_prod : length (prod d) = MAX_MUX;
  mo_cons : length (cons d) = MAX_MUX;
  mo_rings : Forall (fun r => length r = 32%nat) (buffer d);
  mo_prod_range : Forall (in_range 32) (prod d);
  mo_cons_range : Forall (in_range 32) (cons d);
  mo_room m p c : prod d !! m = Some p -> cons d !! m = Some c -> u32 (p - c) <= 32;
  mo_focus : 0 <= focus d < Z.of_nat MAX_MUX
}.

(** The bytes waiting for front end [m]. *)
Definition waiting (d : MuxChardev) (m : nat) : list Z :=
  match buffer d !! m, prod d !! m, cons d !! m with
  | Some ring, Some p, Some c => ring_queue ring p c
  | _, _, _ => []
  end.

Lemma get_idx_Some {A} (l : list A) (m : nat) x : l !! m = Some x -> get_idx l (Z.of_nat m) = Ok x.
Proof.
  intros Hl. unfold get_idx. destruct (Z.ltb_spec (Z.of_nat m) 0); [lia|]. by rewrite Nat2Z.id, Hl.
Qed.

Lemma mux_ok_lookup d m :
  mux_ok d -> (m < MAX_MUX)%nat ->
  exists be ring p c, backends d !! m = Some be /\ buffer d !! m = Some ring /\ prod d !! m = Some p /\
    cons d !! m = Some c /\ length ring = 32%nat /\ in_range 32 p /\ in_range 32 c /\ u32 (p - c) <= 32.
Proof.
  intros [B1 B2 B3 B4 B5 B6 B7 B8 _] Hm.
  destruct (lookup_lt_is_Some_2 (backends d) m) as [be Hbe]; [lia|].
  destruct (lookup_lt_is_Some_2 (buffer d) m) as [ring Hring]; [lia|].
  destruct (lookup_lt_is_Some_2 (prod d) m) as [p Hp]; [lia|].
  destruct (lookup_lt_is_Some_2 (cons d) m) as [c Hc]; [lia|].
  exists be, ring, p, c. repeat split; try done.
  - by eapply (Forall_lookup_1 _ _ _ _ B5).
  - by eapply (Forall_lookup_1 _ _ _ _ B6).
  - by eapply (Forall_lookup_1 _ _ _ _ B6).
  - by eapply (Forall_lookup_1 _ _ _ _ B7).
  - by eapply (Forall_lookup_1 _ _ _ _ B7).
  - by eapply B8.
Qed.

Lemma set_cons_ok d m p c :
  mux_ok d -> prod d !! m = Some p -> cons d !! m = Some c -> 0 < u32 (p - c) ->
  mux_ok (set_cons m (c + 1) d).
Proof.
  intros Hok Hp Hc H0. pose proof (mo_room _ Hok m p c Hp Hc) as Hroom. destruct Hok. split; cbn; try done.
  - by rewrite length_insert.
  - apply Forall_insert; [done|by apply in_range_wrapu].
  - intros m' p' c' Hp' Hc'. destruct (decide (m' = m)) as [->|Hne].
    + rewrite list_lookup_insert_eq in Hc' by (by eapply lookup_lt_Some). injection Hc' as <-.
      rewrite Hp in Hp'. injection Hp' as <-. pose proof (ring_queue_pop [] p c H0) as Hq.
      apply (f_equal length) in Hq. cbn in Hq. rewrite !ring_queue_length in Hq.
      pose proof (wrapu_range 32 (p - u32 (c + 1)) ltac:(lia)). lia.
    + rewrite list_lookup_insert_ne in Hc' by done. by eapply mo_room0.
Qed.

Section Fifo.
Context {F : Type} (chr_can_read : nat -> F -> bool) (chr_read : nat -> Z -> F -> F).

(** Handing a list of bytes to front end [m]. *)
Definition deliver (m : nat) (bs : list Z) (f : F) : F := foldl (fun f b => chr_read m b f) f bs.

(** What [accept_loop] leaves unchanged. *)
Definition same_but_cons (m : nat) (d d' : MuxChardev) : Prop :=
  backends d' = backends d /\ mux_bitset d' = mux_bitset d /\ focus d' = focus d /\
  term_got_escape d' = term_got_escape d /\ buffer d' = buffer d /\ prod d' = prod d /\
  (forall i, i <> m -> cons d' !! i = cons d !! i).

Lemma same_but_cons_trans m d1 d2 d3 : same_but_cons m d1 d2 -> same_but_cons m d2 d3 -> same_but_cons m d1 d3.
Proof.
  intros (A1 & A2 & A3 & A4 & A5 & A6 & A7) (B1 & B2 & B3 & B4 & B5 & B6 & B7).
  repeat split; try congruence. intros i Hi. by rewrite B7, A7.
Qed.

(** One round of the loop: the oldest byte goes to the front end. *)
Lemma accept_loop_step n m d f y q :
  mux_ok d -> (m < MAX_MUX)%nat -> backends d !! m = Some true -> waiting d m = y :: q ->
  chr_can_read m f = true ->
  exists d1, accept_loop chr_can_read chr_read (S n) m d f =
      accept_loop chr_can_read chr_read n m d1 (chr_read m y f) /\
    mux_ok d1 /\ waiting d1 m = q /\ same_but_cons m d d1.
Proof.
  intros Hok Hm Hbe Hw Hcan.
  destruct (mux_ok_lookup d m Hok Hm) as (be & ring & p & c & Hbe' & Hring & Hp & Hc & Hlr & Hrp & Hrc & Hroom).
  unfold waiting in Hw. rewrite Hring, Hp, Hc in Hw.
  assert (Hpos : 0 < u32 (p - c)).
  { pose proof (wrapu_range 32 (p - c) ltac:(lia)). apply (f_equal length) in Hw.
    rewrite ring_queue_length in Hw. cbn in Hw. lia. }
  rewrite (ring_queue_pop ring p c Hpos) in Hw. injection Hw as <- <-.
  cbn [accept_loop]. rewrite (get_idx_Some _ _ _ Hbe), (get_idx_Some _ _ _ Hp), (get_idx_Some _ _ _ Hc), !res_bind_Ok.
  destruct (Z.eqb_spec p c) as [->|Hne]; [rewrite Z.sub_diag in Hpos; done|]. rewrite Hcan. cbn [andb negb].
  rewrite (get_idx_Some _ _ _ Hring), res_bind_Ok.
  assert (Hb : get_idx ring (c .& MUX_BUFFER_MASK) = Ok (nth (Z.to_nat (c .& MUX_BUFFER_MASK)) ring 0)).
  { rewrite mask_mod. pose proof (Z.mod_pos_bound c 32 ltac:(lia)). unfold get_idx.
    destruct (Z.ltb_spec (c mod 32) 0); [lia|]. rewrite nth_lookup.
    destruct (lookup_lt_is_Some_2 ring (Z.to_nat (c mod 32))) as [x ->]; [lia|done]. }
  rewrite Hb, res_bind_Ok. exists (set_cons m (c + 1) d). split; [done|].
  split; [by eapply set_cons_ok|]. split.
  - unfold waiting. cbn. rewrite Hring, Hp, list_lookup_insert_eq by (by eapply lookup_lt_Some). done.
  - repeat split; try done. intros i Hi. cbn. by rewrite list_lookup_insert_ne.
Qed.

(** The loop stops when there is nothing to hand over or nobody to take it. *)
Lemma accept_loop_stop n m d f :
  mux_ok d -> (m < MAX_MUX)%nat ->
  waiting d m = [] \/ chr_can_read m f = false \/ backends d !! m = Some false ->
  accept_loop chr_can_read chr_read n m d f = Ok (d, f).
Proof.
  intros Hok Hm Hend. destruct n as [|n]; [done|].
  destruct (mux_ok_lookup d m Hok Hm) as (be & ring & p & c & Hbe & Hring & Hp & Hc & Hlr & Hrp & Hrc & Hroom).
  cbn [accept_loop]. rewrite (get_idx_Some _ _ _ Hbe), (get_idx_Some _ _ _ Hp), (get_idx_Some _ _ _ Hc), !res_bind_Ok.
  unfold waiting in Hend. rewrite Hring, Hp, Hc, Hbe in Hend.
  destruct Hend as [Hw%ring_queue_empty|[->|[= ->]]]; [|done|done|by rewrite andb_false_r|done].
  by rewrite Hw, Z.eqb_refl, andb_false_r.
Qed.

Lemma accept_loop_fifo n m d f :
  mux_ok d -> (m < MAX_MUX)%nat -> (length (waiting d m) < n)%nat ->
  exists k d', accept_loop chr_can_read chr_read n m d f = Ok (d', deliver m (take k (waiting d m)) f) /\
    mux_ok d' /\ waiting d' m = drop k (waiting d m) /\ same_but_cons m d d' /\
    (waiting d' m = [] \/ chr_can_read m (deliver m (take k (waiting d m)) f) = false \/
     backends d !! m = Some false).
Proof.
  intros Hok Hm. revert d f Hok. induction n as [|n IH]; intros d f Hok Hn; [lia|].
  assert (Hstop : waiting d m = [] \/ chr_can_read m f = false \/ backends d !! m = Some false -> 
    exists k d', accept_loop chr_can_read chr_read (S n) m d f = Ok (d', deliver m (take k (waiting d m)) f) /\
      mux_ok d' /\ waiting d' m = drop k (waiting d m) /\ same_but_cons m d d' /\
      (waiting d' m = [] \/ chr_can_read m (deliver m (take k (waiting d m)) f) = false \/
       backends d !! m = Some false)).
  { intros Hend. exists 0%nat, d. rewrite take_0, drop_0. split; [by apply accept_loop_stop|]. done. }
  destruct (waiting d m) as [|y q] eqn:Hw; [apply Hstop; by left|].
  destruct (chr_can_read m f) eqn:Hcan; [|apply Hstop; by right; left].
  destruct (mux_ok_lookup d m Hok Hm) as ([] & _ & _ & _ & Hbe & _); [|apply Hstop; by right; right].
  clear Hstop. destruct (accept_loop_step n m d f y q Hok Hm Hbe Hw Hcan) as (d1 & -> & Hok1 & Hw1 & Hs1).
  destruct (IH d1 (chr_read m y f) Hok1) as (k & d' & Hrun & Hok' & Hw' & Hs' & Hend);
    [rewrite Hw1; cbn in Hn; lia|].
  rewrite Hw1 in *. exists (S k), d'. cbn [take drop]. split; [exact Hrun|]. split; [done|]. split; [done|].
  split; [by eapply same_but_cons_trans|]. destruct Hs1 as (<- & _). exact Hend.
Qed.

Lemma ring_put_fifo d m b :
  mux_ok d -> (m < MAX_MUX)%nat -> (length (waiting d m) < 32)%nat -> in_range 8 b ->
  exists d', ring_put m b d = Ok d' /\ mux_ok d' /\ waiting d' m = waiting d m ++ [b].
Proof.
  intros Hok Hm Hlen Hb.
  destruct (mux_ok_lookup d m Hok Hm) as (be & ring & p & c & _ & Hring & Hp & Hc & Hlr & Hrp & Hrc & _).
  unfold waiting in Hlen. rewrite Hring, Hp, Hc, ring_queue_length in Hlen.
  pose proof (wrapu_range 32 (p - c) ltac:(lia)) as Hr.
  unfold ring_put. rewrite Hring, Hp. eexists. split; [done|].
  assert (Hq : ring_queue (<[Z.to_nat (p .& MUX_BUFFER_MASK) := b]> ring) (u32 (p + 1)) c = ring_queue ring p c ++ [b])
    by (apply ring_queue_push; [done|lia]).
  rewrite (wrapu_small 8 b) by done. split.
  - destruct Hok. split; cbn; try done; rewrite ?length_insert; try done.
    + apply Forall_insert; [done|]. by rewrite length_insert.
    + apply Forall_insert; [done|by apply in_range_wrapu].
    + intros m' p' c' Hp' Hc'. destruct (decide (m' = m)) as [->|Hne].
      * rewrite list_lookup_insert_eq in Hp' by (by eapply lookup_lt_Some). injection Hp' as <-.
        rewrite Hc in Hc'. injection Hc' as <-. apply (f_equal length) in Hq.
        rewrite length_app, !ring_queue_length in Hq. cbn in Hq.
        pose proof (wrapu_range 32 (u32 (p + 1) - c) ltac:(lia)). lia.
      * rewrite list_lookup_insert_ne in Hp' by done. by eapply mo_room0.
  - unfold waiting. cbn. rewrite !list_lookup_insert_eq by (by eapply lookup_lt_Some).
    by rewrite Hring, Hp, Hc.
Qed.

Lemma waiting_length d m : mux_ok d -> (m < MAX_MUX)%nat -> (length (waiting d m) <= 32)%nat.
Proof.
  intros Hok Hm. destruct (mux_ok_lookup d m Hok Hm) as (be & ring & p & c & _ & Hring & Hp & Hc & _ & _ & _ & Hroom).
  unfold waiting. rewrite Hring, Hp, Hc, ring_queue_length. lia.
Qed.

(** [mux_chr_accept_input] on a well-formed mux. *)
Lemma accept_input_fifo d f m :
  mux_ok d -> focus d = Z.of_nat m ->
  exists k d', mux_chr_accept_input chr_can_read chr_read d f = Ok (d', deliver m (take k (waiting d m)) f) /\
    mux_ok d' /\ waiting d' m = drop k (waiting d m) /\ same_but_cons m d d' /\
    (waiting d' m = [] \/ chr_can_read m (deliver m (take k (waiting d m)) f) = false \/
     backends d !! m = Some false).
Proof.
  intros Hok Hfoc. assert (Hm : (m < MAX_MUX)%nat) by (pose proof (mo_focus _ Hok); unfold MAX_MUX in *; lia).
  destruct (mux_ok_lookup d m Hok Hm) as (be & ring & p & c & Hbe & Hring & Hp & Hc & _).
  unfold mux_chr_accept_input. rewrite Hfoc, (get_idx_Some _ _ _ Hbe), (get_idx_Some _ _ _ Hp), (get_idx_Some _ _ _ Hc), !res_bind_Ok.
  rewrite Nat2Z.id. apply accept_loop_fifo; [done|done|]. unfold waiting. rewrite Hring, Hp, Hc, ring_queue_length. lia.
Qed.

(** The mux refines a queue: one byte from the terminal. *)
Lemma mux_read_fifo d f m b :
  mux_ok d -> focus d = Z.of_nat m -> in_range 8 b ->
  term_got_escape d = false -> b <> term_escape_char ->
  mux_chr_can_read chr_can_read d f = Ok true ->
  exists d' out, mux_chr_read chr_can_read chr_read [b] d f = Ok (d', deliver m out f, []) /\
    mux_ok d' /\ out ++ waiting d' m = waiting d m ++ [b].
Proof.
  intros Hok Hfoc Hb Hesc Hne Hcan.
  assert (Hm : (m < MAX_MUX)%nat) by (pose proof (mo_focus _ Hok); unfold MAX_MUX in *; lia).
  destruct (accept_input_fifo d f m Hok Hfoc) as (k & d1 & Hacc & Hok1 & Hw1 & (S1 & _ & _ & S4 & _) & Hend).
  destruct (mux_ok_lookup d m Hok Hm) as (be & ring & p & c & Hbe & Hring & Hp & Hc & _).
  unfold mux_chr_read. rewrite Hfoc, (get_idx_Some _ _ _ Hbe), res_bind_Ok, Nat2Z.id, Hacc, res_bind_Ok.
  cbn [mux_read_loop]. unfold mux_proc_byte. rewrite S4, Hesc.
  destruct (Z.eqb_spec b term_escape_char); [done|]. rewrite res_bind_Ok.
  destruct (mux_ok_lookup d1 m Hok1 Hm) as (be1 & ring1 & p1 & c1 & Hbe1 & Hring1 & Hp1 & Hc1 & _ & Hrp1 & Hrc1 & _).
  rewrite (get_idx_Some _ _ _ Hp1), (get_idx_Some _ _ _ Hc1), !res_bind_Ok.
  set (f1 := deliver m (take k (waiting d m)) f) in *.
  assert (Hjoin : take k (waiting d m) ++ waiting d1 m = waiting d m) by (rewrite Hw1; apply take_drop).
  destruct ((p1 =? c1) && be && chr_can_read m f1) eqn:Hdirect.
  - apply andb_prop in Hdirect as [[Hpc%Z.eqb_eq _]%andb_prop _]. rewrite res_bind_Ok.
    exists d1, (take k (waiting d m) ++ [b]). split; [cbn; unfold deliver at 1; by rewrite foldl_app|].
    split; [done|]. assert (Hempty : waiting d1 m = []).
    { unfold waiting. rewrite Hring1, Hp1, Hc1. by apply ring_queue_empty. }
    rewrite Hempty, app_nil_r in Hjoin |- *. by rewrite Hjoin.
  - assert (Hroom : (length (waiting d1 m) < 32)%nat).
    { pose proof (waiting_length d m Hok Hm) as Hle. rewrite Hw1, length_drop.
      destruct (decide (length (waiting d m) = 32%nat)) as [Hfull|]; [|lia].
      destruct k as [|k]; [|lia]. exfalso. cbn in Hw1, f1. unfold f1, deliver in Hend. rewrite take_0 in Hend. cbn in Hend.
      unfold mux_chr_can_read in Hcan.
      rewrite Hfoc, (get_idx_Some _ _ _ Hbe), (get_idx_Some _ _ _ Hp), (get_idx_Some _ _ _ Hc), !res_bind_Ok in Hcan.
      assert (Hu : u32 (p - c) = 32).
      { unfold waiting in Hfull. rewrite Hring, Hp, Hc, ring_queue_length in Hfull. lia. }
      rewrite Hu, Nat2Z.id in Hcan. cbn in Hcan.
      rewrite Hw1, Hbe in Hend. destruct Hend as [Hnil|[Hfalse|[= ->]]]; [|destruct be; congruence|congruence].
      rewrite drop_0 in Hnil. rewrite Hnil in Hfull. done. }
    destruct (ring_put_fifo d1 m b Hok1 Hm Hroom Hb) as (d2 & -> & Hok2 & Hw2).
    rewrite !res_bind_Ok. exists d2, (take k (waiting d m)). split; [done|]. split; [done|].
    by rewrite Hw2, app_assoc, Hjoin.
Qed.

End Fifo.

(** ** Property *)

(** A mux with two front ends, the first in focus, and a front end that holds
    one byte at a time. *)
Definition demo_mux : MuxChardev :=
  mkMux [true; true; false; false] 3 0 false (replicate 4 (replicate 32 0))
    (replicate 4 0) (replicate 4 0) false 0 false.

Lemma demo_mux_ok : mux_ok demo_mux.
Proof.
  assert (H4 : forall {A} (x y : A) m, replicate 4 x !! m = Some y -> y = x)
    by (intros A x y m Hl; by apply lookup_replicate_1 in Hl as [-> _]).
  split; try done; cbn [demo_mux buffer prod cons backends focus].
  - by repeat constructor.
  - by repeat constructor.
  - by repeat constructor.
  - intros m p c ->%H4 ->%H4. done.
Qed.

Definition demo_can_read (m : nat) (f : list Z) : bool := (length f <? 1)%nat.
Definition demo_read (m : nat) (b : Z) (f : list Z) : list Z := f ++ [b].

(** The mux is a queue: when a byte that is not part of an escape sequence
    arrives and the mux said it can take it, the bytes it hands to the front
    end, followed by those that stay in the ring, are the bytes that were in
    the ring followed by the new one.  No byte is lost, duplicated or
    reordered, and the ring does not overflow. *)
Theorem mux_read_is_queue {F} (can_read : nat -> F -> bool) (read : nat -> Z -> F -> F) d f m b :
  mux_ok d -> focus d = Z.of_nat m -> in_range 8 b ->
  term_got_escape d = false -> b <> term_escape_char ->
  mux_chr_can_read can_read d f = Ok true ->
  exists d' out, mux_chr_read can_read read [b] d f = Ok (d', deliver read m out f, []) /\
    mux_ok d' /\ out ++ waiting d' m = waiting d m ++ [b].
Proof. apply mux_read_fifo. Qed.

Lemma mux_read_is_queue_witness :
  exists d' out, mux_chr_read demo_can_read demo_read [65] demo_mux [] = Ok (d', deliver demo_read 0 out [], []) /\
    mux_ok d' /\ out ++ waiting d' 0 = [65].
Proof.
  apply (mux_read_is_queue demo_can_read demo_read demo_mux [] 0 65); [apply demo_mux_ok|done|done|done|done|done].
Defined.
