(* ===== verification/Lpuart.v ===== *)
(** * The LPUART

    [hw/char/nxps32k358_lpuart.c] and [include/hw/char/nxps32k358_lpuart.h]: the
    serial port.  The character back end behind the port is a class; the
    multiplexed device of [CharMux] and a plain device are its instances.  The
    level of the interrupt line is a field of the state. *)

From S2P Require Import Prelude Bits Clock CharMux.

(** ** Registers *)

Definition A_VERID : Z := 0x00.
Definition A_PARAM : Z := 0x04.
Definition A_GLOBAL : Z := 0x08.
Definition GLOBAL_RST : field := FIELD 1 1.
Definition A_PINCFG : Z := 0x0C.
Definition A_BAUD : Z := 0x10.
Definition BAUD_SBR : field := FIELD 0 13.
Definition BAUD_OSR : field := FIELD 24 5.
Definition A_STAT : Z := 0x14.
Definition STAT_RDRF : field := FIELD 21 1.
Definition A_CONTROL : Z := 0x18.
Definition CONTROL_M : field := FIELD 4 1.
Definition CONTROL_M7 : field := FIELD 11 1.
Definition CONTROL_RE : field := FIELD 18 1.
Definition CONTROL_RIE : field := FIELD 21 1.
Definition CONTROL_TCIE : field := FIELD 22 1.
Definition CONTROL_TIE : field := FIELD 23 1.
Definition A_DATA : Z := 0x1C.
Definition A_MATCH : Z := 0x20.
Definition A_MODIR : Z := 0x24.
Definition A_FIFO : Z := 0x28.
Definition A_WATER : Z := 0x2C.
Definition A_DATARO : Z := 0x30.
Definition A_MCR : Z := 0x40.
Definition A_MSR : Z := 0x44.
Definition A_REIR : Z := 0x48.
Definition A_TEIR : Z := 0x4C.
Definition A_HDCR : Z := 0x50.
Definition A_TOCR : Z := 0x58.
Definition A_TOSR : Z := 0x5C.

Definition LPUART_TIMEOUT_NUM : nat := 4.
Definition LPUART_TCBR_NUM : nat := 128.
Definition LPUART_TDBR_NUM : nat := 256.

(** Reset values. *)
Definition LPUART_VERID_RESET (n : Z) : Z := if n <? 2 then 0x04040007 else 0x04040003.
Definition LPUART_PARAM_RESET (n : Z) : Z := if n <? 2 then 0x00000404 else 0x00000202.
Definition LPUART_GLOBAL_RESET : Z := 0x00000002.
Definition LPUART_PINCFG_RESET : Z := 0x00000000.
Definition LPUART_BAUD_RESET : Z := 0x0F000004.
Definition LPUART_STAT_RESET : Z := 0x00C00000.
Definition LPUART_CONTROL_RESET : Z := 0x0000000.
Definition LPUART_DATA_RESET : Z := 0x00001000.
Definition LPUART_MATCH_RESET : Z := 0x00000000.
Definition LPUART_MODIR_RESET : Z := 0x00000000.
Definition LPUART_FIFO_RESET (n : Z) : Z := if n <? 2 then 0x00C00033 else 0x00C00011.
Definition LPUART_WATER_RESET : Z := 0x00000000.
Definition LPUART_DATARO_RESET : Z := 0x00001000.
Definition LPUART_MCR_RESET : Z := 0x00000000.
Definition LPUART_MSR_RESET : Z := 0x00000000.
Definition LPUART_REIR_RESET : Z := 0x00000000.
Definition LPUART_TEIR_RESET : Z := 0x00000000.
Definition LPUART_HDCR_RESET : Z := 0x00000000.
Definition LPUART_TOCR_RESET : Z := 0x00000000.
Definition LPUART_TOSR_RESET : Z := 0x0000000F.
Definition LPUART_TIMEOUT_RESET : Z := 0x00000000.
Definition LPUART_TCB_RESET : Z := 0x00000000.
Definition LPUART_TDB_RESET : Z := 0x00000000.

(** ** State *)

(** [struct NXPS32K358LPUartState]; [lpuart_irq] is the level last set on [irq]. *)
Record NXPS32K358LPUartState : Type := mkLPUart {
  lpuart_port : Z;
  lpuart_verid : Z;
  lpuart_param : Z;
  lpuart_global : Z;
  lpuart_pincfg : Z;
  lpuart_baud : Z;
  lpuart_stat : Z;
  lpuart_control : Z;
  lpuart_data : Z;
  lpuart_match : Z;
  lpuart_modir : Z;
  lpuart_fifo : Z;
  lpuart_water : Z;
  lpuart_dataro : Z;
  lpuart_mcr : Z;
  lpuart_msr : Z;
  lpuart_reir : Z;
  lpuart_teir : Z;
  lpuart_hdcr : Z;
  lpuart_tocr : Z;
  lpuart_tosr : Z;
  lpuart_timeout : list Z;
  lpuart_tcb : list Z;
  lpuart_tdb : list Z;
  lpuart_irq : bool
}.

Definition set_lpuart_global (v : Z) (s : NXPS32K358LPUartState) : NXPS32K358LPUartState :=
  mkLPUart (lpuart_port s) (lpuart_verid s) (lpuart_param s) (u32 v) (lpuart_pincfg s)
    (lpuart_baud s) (lpuart_stat s) (lpuart_control s) (lpuart_data s) (lpuart_match s)
    (lpuart_modir s) (lpuart_fifo s) (lpuart_water s) (lpuart_dataro s) (lpuart_mcr s)
    (lpuart_msr s) (lpuart_reir s) (lpuart_teir s) (lpuart_hdcr s) (lpuart_tocr s) (lpuart_tosr s)
    (lpuart_timeout s) (lpuart_tcb s) (lpuart_tdb s) (lpuart_irq s).

Definition set_lpuart_baud (v : Z) (s : NXPS32K358LPUartState) : NXPS32K358LPUartState :=
  mkLPUart (lpuart_port s) (lpuart_verid s) (lpuart_param s) (lpuart_global s) (lpuart_pincfg s)
    (u32 v) (lpuart_stat s) (lpuart_control s) (lpuart_data s) (lpuart_match s) (lpuart_modir s)
    (lpuart_fifo s) (lpuart_water s) (lpuart_dataro s) (lpuart_mcr s) (lpuart_msr s)
    (lpuart_reir s) (lpuart_teir s) (lpuart_hdcr s) (lpuart_tocr s) (lpuart_tosr s)
    (lpuart_timeout s) (lpuart_tcb s) (lpuart_tdb s) (lpuart_irq s).

Definition set_lpuart_stat (v : Z) (s : NXPS32K358LPUartState) : NXPS32K358LPUartState :=
  mkLPUart (lpuart_port s) (lpuart_verid s) (lpuart_param s) (lpuart_global s) (lpuart_pincfg s)
    (lpuart_baud s) (u32 v) (lpuart_control s) (lpuart_data s) (lpuart_match s) (lpuart_modir s)
    (lpuart_fifo s) (lpuart_water s) (lpuart_dataro s) (lpuart_mcr s) (lpuart_msr s)
    (lpuart_reir s) (lpuart_teir s) (lpuart_hdcr s) (lpuart_tocr s) (lpuart_tosr s)
    (lpuart_timeout s) (lpuart_tcb s) (lpuart_tdb s) (lpuart_irq s).

Definition set_lpuart_control (v : Z) (s : NXPS32K358LPUartState) : NXPS32K358LPUartState :=
  mkLPUart (lpuart_port s) (lpuart_verid s) (lpuart_param s) (lpuart_global s) (lpuart_pincfg s)
    (lpuart_baud s) (lpuart_stat s) (u32 v) (lpuart_data s) (lpuart_match s) (lpuart_modir s)
    (lpuart_fifo s) (lpuart_water s) (lpuart_dataro s) (lpuart_mcr s) (lpuart_msr s)
    (lpuart_reir s) (lpuart_teir s) (lpuart_hdcr s) (lpuart_tocr s) (lpuart_tosr s)
    (lpuart_timeout s) (lpuart_tcb s) (lpuart_tdb s) (lpuart_irq s).

Definition set_lpuart_data (v : Z) (s : NXPS32K358LPUartState) : NXPS32K358LPUartState :=
  mkLPUart (lpuart_port s) (lpuart_verid s) (lpuart_param s) (lpuart_global s) (lpuart_pincfg s)
    (lpuart_baud s) (lpuart_stat s) (lpuart_control s) (u32 v) (lpuart_match s) (lpuart_modir s)
    (lpuart_fifo s) (lpuart_water s) (lpuart_dataro s) (lpuart_mcr s) (lpuart_msr s)
    (lpuart_reir s) (lpuart_teir s) (lpuart_hdcr s) (lpuart_tocr s) (lpuart_tosr s)
    (lpuart_timeout s) (lpuart_tcb s) (lpuart_tdb s) (lpuart_irq s).

Definition set_lpuart_irq (v : bool) (s : NXPS32K358LPUartState) : NXPS32K358LPUartState :=
  mkLPUart (lpuart_port s) (lpuart_verid s) (lpuart_param s) (lpuart_global s) (lpuart_pincfg s)
    (lpuart_baud s) (lpuart_stat s) (lpuart_control s) (lpuart_data s) (lpuart_match s)
    (lpuart_modir s) (lpuart_fifo s) (lpuart_water s) (lpuart_dataro s) (lpuart_mcr s)
    (lpuart_msr s) (lpuart_reir s) (lpuart_teir s) (lpuart_hdcr s) (lpuart_tocr s) (lpuart_tosr s)
    (lpuart_timeout s) (lpuart_tcb s) (lpuart_tdb s) v.

(** A freshly allocated device. *)
Definition lpuart_zero (port : Z) : NXPS32K358LPUartState :=
  mkLPUart port 0 0 0 0 0 0 0 0 0 0 0 0 0 0 0 0 0 0 0 0
    (replicate LPUART_TIMEOUT_NUM 0) (replicate LPUART_TCBR_NUM 0) (replicate LPUART_TDBR_NUM 0) false.

(** ** The character back end

    [qemu_chr_fe_write_all], [qemu_chr_fe_accept_input] and the serial parameters
    of [qemu_chr_fe_ioctl].  Accepting input may call the handlers of the front
    end, which are passed along with its state [L]. *)
Class CharBackend (B : Type) := {
  chr_fe_write_all : list Z -> B -> B;
  chr_fe_accept_input {L : Type} : (L -> bool) -> (Z -> L -> L) -> L -> B -> res (L * B);
  chr_fe_set_params : Z -> B -> B
}.

(** A plain character device: accepting input only wakes the main loop. *)
Record plain_chardev : Type := mkPlain { pc_out : list Z; pc_speed : Z }.

#[export] Instance plain_backend : CharBackend plain_chardev := {
  chr_fe_write_all bs b := mkPlain (pc_out b ++ bs) (pc_speed b);
  chr_fe_accept_input L can read l b := Ok (l, b);
  chr_fe_set_params speed b := mkPlain (pc_out b) speed
}.

(** A front end of a mux, with its tag; what the mux hands to the other front
    ends is recorded. *)
Record mux_chardev : Type := mkMuxChr {
  mc_mux : MuxChardev;
  mc_tag : nat;
  mc_out : list Z;
  mc_others : list (nat * Z)
}.

(** The handlers of the front ends of the mux: those of the port for its tag;
    the others always accept a byte. *)
Definition mux_can_read {L} (tag : nat) (can : L -> bool) (m : nat) (f : L * list (nat * Z)) : bool :=
  if (m =? tag)%nat then can f.1 else true.

Definition mux_read {L} (tag : nat) (read : Z -> L -> L) (m : nat) (b : Z) (f : L * list (nat * Z))
  : L * list (nat * Z) :=
  if (m =? tag)%nat then (read b f.1, f.2) else (f.1, f.2 ++ [(m, b)]).

(** The mux has no [chr_ioctl], so the parameters are not used. *)
#[export] Instance mux_backend : CharBackend mux_chardev := {
  chr_fe_write_all bs b := mkMuxChr (mc_mux b) (mc_tag b) (mc_out b ++ bs) (mc_others b);
  chr_fe_accept_input L can read l b :=
    '(d, f) ← mux_chr_accept_input (mux_can_read (mc_tag b) can) (mux_read (mc_tag b) read)
                (mc_mux b) (l, mc_others b);
    Ok (f.1, mkMuxChr d (mc_tag b) (mc_out b) f.2);
  chr_fe_set_params speed b := b
}.

(** ** Operations *)

(** [nxps32k358_lpuart_can_receive] *)
Definition nxps32k358_lpuart_can_receive (s : NXPS32K358LPUartState) : bool :=
  if truthy (lpuart_stat s .& field_mask STAT_RDRF) then false else true.

(** [nxps32k358_lpuart_update_irq] *)
Definition nxps32k358_lpuart_update_irq (s : NXPS32K358LPUartState) : NXPS32K358LPUartState :=
  let mask := lpuart_stat s .& lpuart_control s in
  if truthy (mask .& (field_mask CONTROL_TIE .| field_mask CONTROL_TCIE .| field_mask CONTROL_RIE))
  then set_lpuart_irq true s
  else set_lpuart_irq false s.

(** [nxps32k358_lpuart_receive] *)
Definition nxps32k358_lpuart_receive (b : Z) (s : NXPS32K358LPUartState) : NXPS32K358LPUartState :=
  if negb (truthy (lpuart_control s .& field_mask CONTROL_RE)) then s
  else
    let s := set_lpuart_data b s in
    let s := set_lpuart_stat (lpuart_stat s .| field_mask STAT_RDRF) s in
    nxps32k358_lpuart_update_irq s.

(** [nxps32k358_lpuart_reset] *)
Definition nxps32k358_lpuart_reset (s : NXPS32K358LPUartState) : NXPS32K358LPUartState :=
  nxps32k358_lpuart_update_irq
    (mkLPUart (lpuart_port s) (LPUART_VERID_RESET (s32 (lpuart_port s)))
       (LPUART_PARAM_RESET (s32 (lpuart_port s))) LPUART_GLOBAL_RESET LPUART_PINCFG_RESET
       LPUART_BAUD_RESET LPUART_STAT_RESET LPUART_CONTROL_RESET LPUART_DATA_RESET
       LPUART_MATCH_RESET LPUART_MODIR_RESET (LPUART_FIFO_RESET (s32 (lpuart_port s)))
       LPUART_WATER_RESET LPUART_DATARO_RESET LPUART_MCR_RESET LPUART_MSR_RESET LPUART_REIR_RESET
       LPUART_TEIR_RESET LPUART_HDCR_RESET LPUART_TOCR_RESET LPUART_TOSR_RESET
       (replicate LPUART_TIMEOUT_NUM LPUART_TIMEOUT_RESET)
       (replicate LPUART_TCBR_NUM LPUART_TCB_RESET)
       (replicate LPUART_TDBR_NUM LPUART_TDB_RESET) (lpuart_irq s)).

(** [LPUART_BAUD_RATE] *)
Definition LPUART_BAUD_RATE (clk : Clock) (s : NXPS32K358LPUartState) : res Z :=
  let sbr := FIELD_EX32 (lpuart_baud s) BAUD_SBR in
  let osr := FIELD_EX32 (lpuart_baud s) BAUD_OSR in
  let div := u32 (sbr * u32 (osr + 1)) in
  if div =? 0 then Fault DivisionByZero else Ok (clock_get_hz clk / div).

Section Lpuart.
Context {B : Type} {Chr : CharBackend B}.

(** [nxps32k358_lpuart_update_params] *)
Definition nxps32k358_lpuart_update_params (clk : Clock) (s : NXPS32K358LPUartState) (b : B) : res B :=
  speed ← LPUART_BAUD_RATE clk s;
  Ok (chr_fe_set_params (s32 speed) b).

(** [nxps32k358_lpuart_read] *)
Definition nxps32k358_lpuart_read (addr size : Z) (s : NXPS32K358LPUartState) (b : B)
  : res (Z * NXPS32K358LPUartState * B) :=
  if addr =? A_VERID then Ok (lpuart_verid s, s, b)
  else if addr =? A_STAT then Ok (lpuart_stat s, s, b)
  else if addr =? A_GLOBAL then Ok (lpuart_global s, s, b)
  else if (addr =? A_DATA) || (addr =? A_DATARO) then
    let s := set_lpuart_stat (lpuart_stat s .& .~ field_mask STAT_RDRF) s in
    '(s, b) ← chr_fe_accept_input nxps32k358_lpuart_can_receive nxps32k358_lpuart_receive s b;
    let s := nxps32k358_lpuart_update_irq s in
    Ok (lpuart_data s, s, b)
  else if addr =? A_CONTROL then Ok (lpuart_control s, s, b)
  else if addr =? A_BAUD then Ok (lpuart_baud s, s, b)
  else Ok (0, s, b).

(** [nxps32k358_lpuart_write]; [clk] is the clock the port is wired to. *)
Definition nxps32k358_lpuart_write (clk : Clock) (addr val64 size : Z) (s : NXPS32K358LPUartState) (b : B)
  : res (NXPS32K358LPUartState * B) :=
  let value := u32 val64 in
  if addr =? A_GLOBAL then
    let s := set_lpuart_global value s in
    if truthy (value .& field_mask GLOBAL_RST) then Ok (nxps32k358_lpuart_reset s, b) else Ok (s, b)
  else if addr =? A_STAT then Ok (s, b)
  else if addr =? A_DATA then
    let is_7bit := truthy (lpuart_control s .& field_mask CONTROL_M7) in
    let is_9bit := truthy (lpuart_control s .& field_mask CONTROL_M) in
    if is_9bit then Ok (s, b)
    else
      let value := if is_7bit then value .& 0x7F else value in
      Ok (s, chr_fe_write_all [u8 value] b)
  else if addr =? A_CONTROL then
    Ok (nxps32k358_lpuart_update_irq (set_lpuart_control value s), b)
  else if addr =? A_BAUD then
    let s := set_lpuart_baud value s in
    b ← nxps32k358_lpuart_update_params clk s b;
    Ok (s, b)
  else Ok (s, b).

End Lpuart.

(** [nxps32k358_lpuart_realize]: false when the clock has no source. *)
Definition nxps32k358_lpuart_realize (clk : Clock) : bool :=
  match source clk with Some _ => true | None => false end.

(** [nxps32k358_lpuart_init]: the size of the register window. *)
Definition LPUART_MMIO_SIZE : Z := 0x4000.
