(* ===== verification/LpuartTheory.v ===== *)
(** * Correctness of the LPUART

    The type and interrupt invariants over every reachable state with any
    character back end, reception, transmission, the baud rate, and what a
    multiplexed back end does to reception. *)

From S2P Require Import Prelude Bits Clock CharMux Lpuart.

(** ** Bits *)

Lemma truthy_lor a b : truthy (a .| b) = truthy a || truthy b.
Proof.
  unfold truthy. destruct (Z.eqb_spec (a .| b) 0) as [H|H].
  - apply Z.lor_eq_0_iff in H as [-> ->]. done.
  - destruct (Z.eqb_spec a 0) as [->|], (Z.eqb_spec b 0) as [->|]; cbn; done.
Qed.

(** The three interrupt sources: transmitter empty, transmission complete,
    receiver full, each with its enable. *)
Definition irq_request (s : NXPS32K358LPUartState) : bool :=
  (Z.testbit (lpuart_stat s) 23 && Z.testbit (lpuart_control s) 23)
  || (Z.testbit (lpuart_stat s) 22 && Z.testbit (lpuart_control s) 22)
  || (Z.testbit (lpuart_stat s) 21 && Z.testbit (lpuart_control s) 21).

Lemma update_irq_eq s : nxps32k358_lpuart_update_irq s = set_lpuart_irq (irq_request s) s.
Proof.
  unfold nxps32k358_lpuart_update_irq, irq_request.
  rewrite !Z.land_lor_distr_r, !truthy_lor. change CONTROL_TIE with (flag 23).
  change CONTROL_TCIE with (flag 22). change CONTROL_RIE with (flag 21).
  rewrite !truthy_flag, !Z.land_spec by lia. by destruct (_ || _).
Qed.

(** ** Invariants *)

Record wf_lpuart (s : NXPS32K358LPUartState) : Prop := {
  wfl_verid : in_range 32 (lpuart_verid s);
  wfl_global : in_range 32 (lpuart_global s);
  wfl_baud : in_range 32 (lpuart_baud s);
  wfl_stat : in_range 32 (lpuart_stat s);
  wfl_control : in_range 32 (lpuart_control s);
  wfl_data : in_range 32 (lpuart_data s)
}.

Record lpuart_inv (s : NXPS32K358LPUartState) : Prop := {
  li_wf : wf_lpuart s;
  li_irq : lpuart_irq s = irq_request s
}.

Create HintDb lpuart.

Ltac solve_wfl :=
  match goal with H : wf_lpuart _ |- _ => destruct H end;
  split; cbn; auto; by apply in_range_wrapu.

Lemma wf_set_lpuart_global v s : wf_lpuart s -> wf_lpuart (set_lpuart_global v s).
Proof. intros. solve_wfl. Qed.
Lemma wf_set_lpuart_baud v s : wf_lpuart s -> wf_lpuart (set_lpuart_baud v s).
Proof. intros. solve_wfl. Qed.
Lemma wf_set_lpuart_stat v s : wf_lpuart s -> wf_lpuart (set_lpuart_stat v s).
Proof. intros. solve_wfl. Qed.
Lemma wf_set_lpuart_control v s : wf_lpuart s -> wf_lpuart (set_lpuart_control v s).
Proof. intros. solve_wfl. Qed.
Lemma wf_set_lpuart_data v s : wf_lpuart s -> wf_lpuart (set_lpuart_data v s).
Proof. intros. solve_wfl. Qed.
Lemma wf_set_lpuart_irq v s : wf_lpuart s -> wf_lpuart (set_lpuart_irq v s).
Proof. intros. solve_wfl. Qed.
#[export] Hint Resolve wf_set_lpuart_global wf_set_lpuart_baud wf_set_lpuart_stat
  wf_set_lpuart_control wf_set_lpuart_data wf_set_lpuart_irq : lpuart.

Lemma lpuart_update_irq_inv s : wf_lpuart s -> lpuart_inv (nxps32k358_lpuart_update_irq s).
Proof. intros Hwf. rewrite update_irq_eq. split; [auto with lpuart|done]. Qed.

Lemma update_irq_wf s : wf_lpuart s -> wf_lpuart (nxps32k358_lpuart_update_irq s).
Proof. intros Hwf. rewrite update_irq_eq. auto with lpuart. Qed.

Lemma receive_inv b s : lpuart_inv s -> lpuart_inv (nxps32k358_lpuart_receive b s).
Proof.
  intros Hinv. unfold nxps32k358_lpuart_receive. destruct (negb _); [done|].
  apply lpuart_update_irq_inv. destruct Hinv. auto with lpuart.
Qed.

Lemma receive_wf b s : wf_lpuart s -> wf_lpuart (nxps32k358_lpuart_receive b s).
Proof.
  intros Hwf. unfold nxps32k358_lpuart_receive. destruct (negb _); [done|].
  apply update_irq_wf. auto with lpuart.
Qed.

Lemma verid_range n : in_range 32 (LPUART_VERID_RESET n).
Proof. unfold LPUART_VERID_RESET. destruct (n <? 2); by vm_compute. Qed.

Lemma reset_inv s : lpuart_inv (nxps32k358_lpuart_reset s).
Proof.
  unfold nxps32k358_lpuart_reset. apply lpuart_update_irq_inv.
  split; cbn [lpuart_verid lpuart_global lpuart_baud lpuart_stat lpuart_control lpuart_data];
    [apply verid_range|by vm_compute..].
Qed.

(** What a front end may rely on: accepting input changes its state only by
    the bytes it is handed, and it is handed bytes only when it can read. *)
Class CharBackendLaws (B : Type) `{CharBackend B} := {
  accept_preserves {L : Type} (P : L -> Prop) (can : L -> bool) (read : Z -> L -> L) l b l' b' :
    P l -> (forall x l, P l -> can l = true -> P (read x l)) ->
    chr_fe_accept_input can read l b = Ok (l', b') -> P l'
}.

#[export] Instance plain_backend_laws : CharBackendLaws plain_chardev.
Proof. split. intros L P can read l b l' b' Hl _. cbn. by intros [= <- <-]. Qed.

Lemma accept_loop_preserves {F} (P : F -> Prop) can read n m d (f : F) d' f' :
  P f -> (forall x f, P f -> can m f = true -> P (read m x f)) ->
  accept_loop can read n m d f = Ok (d', f') -> P f'.
Proof.
  intros Hf Hread. revert d f Hf. induction n as [|n IH]; intros d f Hf; cbn [accept_loop].
  { by intros [= <- <-]. }
  intros (be & _ & Hk)%res_bind_inv. apply res_bind_inv in Hk as (p & _ & Hk).
  apply res_bind_inv in Hk as (c & _ & Hk).
  destruct (be && negb (p =? c) && can m f) eqn:Hc; [|by injection Hk as <- <-].
  apply res_bind_inv in Hk as (ring & _ & Hk). apply res_bind_inv in Hk as (x & _ & Hk).
  apply andb_prop in Hc as [_ Hc]. eapply IH; [|exact Hk]. by apply Hread.
Qed.

#[export] Instance mux_backend_laws : CharBackendLaws mux_chardev.
Proof.
  split. intros L P can read l b l' b' Hl Hread. cbn. intros ([d f] & Hacc & [= <- <-])%res_bind_inv.
  unfold mux_chr_accept_input in Hacc. apply res_bind_inv in Hacc as (? & _ & Hacc).
  apply res_bind_inv in Hacc as (? & _ & Hacc). apply res_bind_inv in Hacc as (? & _ & Hacc).
  refine (accept_loop_preserves (fun f => P f.1) _ _ _ _ _ _ _ _ _ _ Hacc); [exact Hl|].
  intros y [l0 o] Hl0. unfold mux_can_read, mux_read. cbn.
  destruct (_ =? _)%nat; cbn; [by apply Hread|done].
Qed.

Section Invariant.
Context {B : Type} {Chr : CharBackend B} {Laws : CharBackendLaws B}.

Lemma read_inv addr size s (b : B) v s' b' :
  lpuart_inv s -> nxps32k358_lpuart_read addr size s b = Ok (v, s', b') -> lpuart_inv s' /\ in_range 32 v.
Proof.
  intros Hinv. pose proof (li_wf _ Hinv) as Hwf. unfold nxps32k358_lpuart_read.
  repeat match goal with
    | |- context [addr =? ?k] => destruct (addr =? k); cbn [orb]
    | |- Ok _ = Ok _ -> _ => intros [= <- <- <-]; split; [exact Hinv|]; try apply Hwf; by vm_compute
    end.
  all: intros ([s1 b1] & Hacc & [= <- <- <-])%res_bind_inv;
    assert (Hs1 : wf_lpuart s1) by
      (eapply (accept_preserves wf_lpuart); [|intros; by apply receive_wf|exact Hacc];
       auto with lpuart);
    (split; [by apply lpuart_update_irq_inv|rewrite update_irq_eq; apply Hs1]).
Qed.

Lemma write_inv clk addr v size s (b : B) s' b' :
  lpuart_inv s -> nxps32k358_lpuart_write clk addr v size s b = Ok (s', b') -> lpuart_inv s'.
Proof.
  intros Hinv. pose proof (li_wf _ Hinv) as Hwf. unfold nxps32k358_lpuart_write. cbv zeta.
  destruct (addr =? A_GLOBAL).
  { destruct (truthy _); intros [= <- <-]; [apply reset_inv|].
    split; [auto with lpuart|]. apply (li_irq _ Hinv). }
  destruct (addr =? A_STAT); [by intros [= <- <-]|].
  destruct (addr =? A_DATA); [destruct (truthy _); by intros [= <- <-]|].
  destruct (addr =? A_CONTROL).
  { intros [= <- <-]. apply lpuart_update_irq_inv. auto with lpuart. }
  destruct (addr =? A_BAUD); [|by intros [= <- <-]].
  intros (b1 & _ & [= <- <-])%res_bind_inv. split; [auto with lpuart|]. apply (li_irq _ Hinv).
Qed.

(** What can happen to a port: register accesses, input from the back end, and
    reset. *)
Inductive lpuart_step : NXPS32K358LPUartState * B -> NXPS32K358LPUartState * B -> Prop :=
  | lstep_read addr size s b v s' b' :
      nxps32k358_lpuart_read addr size s b = Ok (v, s', b') -> lpuart_step (s, b) (s', b')
  | lstep_write clk addr v size s b s' b' :
      nxps32k358_lpuart_write clk addr v size s b = Ok (s', b') -> lpuart_step (s, b) (s', b')
  | lstep_receive x s b b' :
      nxps32k358_lpuart_can_receive s = true ->
      lpuart_step (s, b) (nxps32k358_lpuart_receive x s, b')
  | lstep_reset s b : lpuart_step (s, b) (nxps32k358_lpuart_reset s, b).

Inductive lpuart_reachable : NXPS32K358LPUartState * B -> Prop :=
  | lreach_new port b : in_range 32 port -> lpuart_reachable (lpuart_zero port, b)
  | lreach_step p q : lpuart_reachable p -> lpuart_step p q -> lpuart_reachable q.

Lemma lpuart_reachable_inv p : lpuart_reachable p -> lpuart_inv p.1.
Proof.
  induction 1 as [port b Hport|p q _ IH Hstep].
  - split; [split; by vm_compute|done].
  - destruct Hstep; cbn in *.
    + by eapply read_inv.
    + by eapply write_inv.
    + by apply receive_inv.
    + apply reset_inv.
Qed.

End Invariant.

(** ** Reception *)

Lemma can_receive_bit s : nxps32k358_lpuart_can_receive s = negb (Z.testbit (lpuart_stat s) 21).
Proof.
  unfold nxps32k358_lpuart_can_receive. change STAT_RDRF with (flag 21).
  rewrite truthy_flag by lia. by destruct (Z.testbit _ 21).
Qed.

Lemma receive_enabled b s :
  Z.testbit (lpuart_control s) 18 = true ->
  nxps32k358_lpuart_receive b s =
    nxps32k358_lpuart_update_irq
      (set_lpuart_stat (lpuart_stat s .| field_mask STAT_RDRF) (set_lpuart_data b s)).
Proof.
  intros Hre. unfold nxps32k358_lpuart_receive. change CONTROL_RE with (flag 18).
  by rewrite truthy_flag, Hre by lia.
Qed.

(** The port after a byte: full, with the byte in DATA. *)
Lemma receive_full b s :
  in_range 8 b -> Z.testbit (lpuart_control s) 18 = true ->
  let s' := nxps32k358_lpuart_receive b s in
  Z.testbit (lpuart_stat s') 21 = true /\ lpuart_data s' = b /\ lpuart_control s' = lpuart_control s /\
  lpuart_irq s' = irq_request s'.
Proof.
  intros Hb Hre. rewrite receive_enabled by done. rewrite update_irq_eq. cbv zeta.
  cbn [set_lpuart_irq set_lpuart_stat set_lpuart_data lpuart_stat lpuart_data lpuart_control lpuart_irq].
  split; [|split; [|split; [done|]]].
  - rewrite wrapu_testbit by lia. change STAT_RDRF with (flag 21). by rewrite set_mask_testbit by lia.
  - apply wrapu_small. destruct Hb. lia.
  - done.
Qed.

(** The port with RDRF cleared, as a read of DATA clears it. *)
Definition rdrf_cleared (s : NXPS32K358LPUartState) : NXPS32K358LPUartState :=
  set_lpuart_stat (lpuart_stat s .& .~ field_mask STAT_RDRF) s.

Lemma rdrf_cleared_bit s : Z.testbit (lpuart_stat (rdrf_cleared s)) 21 = false.
Proof.
  unfold rdrf_cleared. cbn [set_lpuart_stat lpuart_stat]. rewrite wrapu_testbit by lia.
  change STAT_RDRF with (flag 21). rewrite clear_mask_testbit by lia. done.
Qed.

Lemma stat_set_irq v s : lpuart_stat (set_lpuart_irq v s) = lpuart_stat s.
Proof. done. Qed.

Lemma read_data {B} {Chr : CharBackend B} addr size s (b : B) :
  addr = A_DATA \/ addr = A_DATARO ->
  nxps32k358_lpuart_read addr size s b =
    ('(s, b) ← chr_fe_accept_input nxps32k358_lpuart_can_receive nxps32k358_lpuart_receive (rdrf_cleared s) b;
     Ok (lpuart_data (nxps32k358_lpuart_update_irq s), nxps32k358_lpuart_update_irq s, b)).
Proof. by intros [-> | ->]. Qed.

(** ** Properties *)

(** C34: In every state a port can reach by register accesses, input and resets,
    with any character back end, its registers hold 32-bit values and its
    interrupt line is high exactly when an enabled source requests it: the
    transmitter, transmission complete, or a received byte. *)
Theorem lpuart_reachable_invariant {B} {Chr : CharBackend B} {Laws : CharBackendLaws B}
    (p : NXPS32K358LPUartState * B) :
  lpuart_reachable p -> wf_lpuart p.1 /\ lpuart_irq p.1 = irq_request p.1.
Proof. intros [? ?]%lpuart_reachable_inv. done. Qed.

Lemma lpuart_reachable_invariant_witness :
  let s := nxps32k358_lpuart_reset (lpuart_zero 3) in
  wf_lpuart s /\ lpuart_irq s = irq_request s.
Proof.
  apply (lpuart_reachable_invariant (nxps32k358_lpuart_reset (lpuart_zero 3), mkPlain [] 0)).
  eapply lreach_step; [apply (lreach_new 3 (mkPlain [] 0)); by vm_compute|apply lstep_reset].
Defined.

(** Receive and read, with a plain character device: a byte that arrives
    while the receiver is enabled fills the port and raises the line when RIE
    is set; reading DATA or DATARO returns that byte, empties the port, and
    leaves the line at the level of the remaining requests. *)
Theorem lpuart_receive_then_read x s (b : plain_chardev) addr size :
  in_range 8 x -> Z.testbit (lpuart_control s) 18 = true -> addr = A_DATA \/ addr = A_DATARO ->
  let s1 := nxps32k358_lpuart_receive x s in
  nxps32k358_lpuart_can_receive s1 = false /\
  (Z.testbit (lpuart_control s) 21 = true -> lpuart_irq s1 = true) /\
  exists s2, nxps32k358_lpuart_read addr size s1 b = Ok (x, s2, b) /\
    nxps32k358_lpuart_can_receive s2 = true /\ lpuart_irq s2 = irq_request s2 /\
    lpuart_control s2 = lpuart_control s.
Proof.
  intros Hx Hre Haddr. destruct (receive_full x s Hx Hre) as (Hst & Hd & Hc & Hi). cbv zeta.
  split; [by rewrite can_receive_bit, Hst|]. split.
  { intros Hrie. rewrite Hi. unfold irq_request. rewrite Hst, Hc, Hrie. by rewrite orb_true_r. }
  rewrite read_data by done. set (s1 := nxps32k358_lpuart_receive x s) in *. clearbody s1.
  cbn [chr_fe_accept_input plain_backend]. rewrite res_bind_Ok, update_irq_eq.
  exists (set_lpuart_irq (irq_request (rdrf_cleared s1)) (rdrf_cleared s1)).
  split; [do 3 f_equal; exact Hd|]. split; [|split; [done|exact Hc]]. rewrite can_receive_bit.
  by rewrite stat_set_irq, rdrf_cleared_bit.
Qed.

(** A port with the receiver and its interrupt enabled. *)
Definition demo_port : NXPS32K358LPUartState :=
  set_lpuart_control (2 ^ 18 + 2 ^ 21) (nxps32k358_lpuart_reset (lpuart_zero 0)).

Lemma lpuart_receive_then_read_witness :
  let s1 := nxps32k358_lpuart_receive 65 demo_port in
  nxps32k358_lpuart_can_receive s1 = false /\
  exists s2, nxps32k358_lpuart_read A_DATA 4 s1 (mkPlain [] 0) = Ok (65, s2, mkPlain [] 0) /\
    nxps32k358_lpuart_can_receive s2 = true.
Proof.
  destruct (lpuart_receive_then_read 65 demo_port (mkPlain [] 0) A_DATA 4) as (H1 & _ & s2 & H2 & H3 & _);
    [by vm_compute|done|by left|]. split; [exact H1|]. exists s2. split; [exact H2|exact H3].
Defined.

(** Reading DATA with bytes waiting in the mux in focus. *)
Lemma mux_accept_one s (b : mux_chardev) y q :
  mux_ok (mc_mux b) -> focus (mc_mux b) = Z.of_nat (mc_tag b) ->
  backends (mc_mux b) !! mc_tag b = Some true -> waiting (mc_mux b) (mc_tag b) = y :: q ->
  in_range 8 y -> Z.testbit (lpuart_control s) 18 = true -> Z.testbit (lpuart_stat s) 21 = false ->
  exists d, chr_fe_accept_input nxps32k358_lpuart_can_receive nxps32k358_lpuart_receive s b =
      Ok (nxps32k358_lpuart_receive y s, mkMuxChr d (mc_tag b) (mc_out b) (mc_others b)) /\
    mux_ok d /\ waiting d (mc_tag b) = q.
Proof.
  intros Hok Hfoc Hbe Hw Hy Hre Hst. set (m := mc_tag b) in *.
  assert (Hm : (m < MAX_MUX)%nat) by (pose proof (mo_focus _ Hok); unfold MAX_MUX in *; lia).
  destruct (mux_ok_lookup _ m Hok Hm) as (be & ring & p & c & Hbe' & Hring & Hp & Hc & _).
  cbn [chr_fe_accept_input mux_backend]. unfold mux_chr_accept_input.
  rewrite Hfoc, (get_idx_Some _ _ _ Hbe), (get_idx_Some _ _ _ Hp), (get_idx_Some _ _ _ Hc), !res_bind_Ok, Nat2Z.id.
  destruct (accept_loop_step (mux_can_read m nxps32k358_lpuart_can_receive)
              (mux_read m nxps32k358_lpuart_receive) (Z.to_nat (u32 (p - c))) m (mc_mux b)
              (s, mc_others b) y q Hok Hm Hbe Hw) as (d & Hstep & Hok1 & Hw1 & _).
  { unfold mux_can_read. rewrite Nat.eqb_refl, can_receive_bit. cbn [fst]. by rewrite Hst. }
  fold m. rewrite Hstep. unfold mux_read at 2. rewrite Nat.eqb_refl. cbn [fst snd].
  rewrite accept_loop_stop; [|done|done|right; left].
  - rewrite res_bind_Ok. exists d. done.
  - unfold mux_can_read. rewrite Nat.eqb_refl. cbn [fst].
    destruct (receive_full y s Hy Hre) as (Hst' & _). by rewrite can_receive_bit, Hst'.
Qed.

(** C39: With a multiplexed character device that has bytes waiting for the port,
    a read of DATA does not return the byte the port holds: clearing RDRF lets
    the mux hand over the next byte before the value is read, so the read
    returns the next byte, the port is full again, and the byte it held is
    lost. *)
Theorem lpuart_mux_read_skips_byte s (b : mux_chardev) addr size y q :
  mux_ok (mc_mux b) -> focus (mc_mux b) = Z.of_nat (mc_tag b) ->
  backends (mc_mux b) !! mc_tag b = Some true -> waiting (mc_mux b) (mc_tag b) = y :: q ->
  in_range 8 y -> Z.testbit (lpuart_control s) 18 = true -> addr = A_DATA \/ addr = A_DATARO ->
  exists s' b', nxps32k358_lpuart_read addr size s b = Ok (y, s', b') /\
    nxps32k358_lpuart_can_receive s' = false /\ lpuart_data s' = y /\
    waiting (mc_mux b') (mc_tag b') = q.
Proof.
  intros Hok Hfoc Hbe Hw Hy Hre Haddr. rewrite read_data by done.
  destruct (mux_accept_one (rdrf_cleared s) b y q) as (d & -> & Hok1 & Hw1);
    [done|done|done|done|done|exact Hre|apply rdrf_cleared_bit|].
  destruct (receive_full y (rdrf_cleared s) Hy Hre) as (Hst & Hd & _).
  rewrite res_bind_Ok, update_irq_eq. set (s1 := nxps32k358_lpuart_receive y (rdrf_cleared s)) in *.
  clearbody s1. exists (set_lpuart_irq (irq_request s1) s1), (mkMuxChr d (mc_tag b) (mc_out b) (mc_others b)).
  split; [do 3 f_equal; exact Hd|]. split; [by rewrite can_receive_bit, stat_set_irq, Hst|].
  split; [exact Hd|exact Hw1].
Qed.

(** The mux of [CharMux] with the byte 66 waiting, behind port 0, which holds 65. *)
Definition demo_waiting : mux_chardev :=
  mkMuxChr (mkMux [true; true; false; false] 3 0 false
              [(<[0%nat := 66]> (replicate 32 0)); replicate 32 0; replicate 32 0; replicate 32 0]
              [1; 0; 0; 0] [0; 0; 0; 0] false 0 false) 0 [] [].

Lemma demo_waiting_ok : mux_ok (mc_mux demo_waiting).
Proof.
  split; try done; cbn [demo_waiting mc_mux buffer prod cons].
  - repeat (constructor; [done|]). done.
  - repeat (constructor; [done|]). done.
  - repeat (constructor; [done|]). done.
  - intros m p c. do 4 (destruct m as [|m]; [by intros [= <-] [= <-]|]). done.
Qed.

Lemma lpuart_mux_read_skips_byte_witness :
  let s := nxps32k358_lpuart_receive 65 demo_port in
  exists s' b', nxps32k358_lpuart_read A_DATA 4 s demo_waiting = Ok (66, s', b') /\
    nxps32k358_lpuart_can_receive s' = false /\ lpuart_data s' = 66 /\ waiting (mc_mux b') (mc_tag b') = [].
Proof.
  apply (lpuart_mux_read_skips_byte (nxps32k358_lpuart_receive 65 demo_port) demo_waiting A_DATA 4 66 []);
    [apply demo_waiting_ok|done|done|done|by vm_compute|by vm_compute|by left].
Defined.

(** Transmission: writing DATA sends one byte, the low seven bits in 7-bit
    mode and the low eight otherwise, sends nothing in the unsupported 9-bit
    mode, and never changes the port. *)
Theorem lpuart_transmit {B} {Chr : CharBackend B} clk v size s (b : B) :
  nxps32k358_lpuart_write clk A_DATA v size s b =
    Ok (s, if Z.testbit (lpuart_control s) 4 then b
           else chr_fe_write_all [v mod (if Z.testbit (lpuart_control s) 11 then 2 ^ 7 else 2 ^ 8)] b).
Proof.
  unfold nxps32k358_lpuart_write. cbv zeta. cbn [Z.eqb A_DATA A_GLOBAL A_STAT].
  change CONTROL_M7 with (flag 11). change CONTROL_M with (flag 4). rewrite !truthy_flag by lia.
  destruct (Z.testbit (lpuart_control s) 4); [done|]. do 4 f_equal.
  destruct (Z.testbit (lpuart_control s) 11).
  - change 0x7F with (Z.ones 7). rewrite Z.land_ones by lia. unfold wrapu.
    rewrite (Z.mod_small (_ mod 2 ^ 7)) by (pose proof (Z.mod_pos_bound (v mod 2 ^ 32) (2 ^ 7)); lia).
    apply Z.mod_mod_divide. by exists (2 ^ 25).
  - unfold wrapu. apply Z.mod_mod_divide. by exists (2 ^ 24).
Qed.

(** The baud rate: a write to BAUD stores the register and sets the line
    speed to the clock frequency divided by SBR times OSR plus one, and divides
    by zero exactly when SBR is zero. *)
Theorem lpuart_baud_rate {B} {Chr : CharBackend B} clk v size s (b : B) :
  let sbr := v mod 2 ^ 13 in
  let osr := v / 2 ^ 24 mod 2 ^ 5 in
  nxps32k358_lpuart_write clk A_BAUD v size s b =
    if sbr =? 0 then Fault DivisionByZero
    else Ok (set_lpuart_baud v s,
             chr_fe_set_params (s32 (clock_get_hz clk / (sbr * (osr + 1)))) b).
Proof.
  cbv zeta. unfold nxps32k358_lpuart_write. cbv zeta. cbn [Z.eqb A_DATA A_GLOBAL A_STAT A_CONTROL A_BAUD].
  unfold nxps32k358_lpuart_update_params, LPUART_BAUD_RATE. cbn [set_lpuart_baud lpuart_baud].
  unfold FIELD_EX32. rewrite !wrapu_idem. fold (FIELD_EX32 v BAUD_SBR) (FIELD_EX32 v BAUD_OSR).
  rewrite !FIELD_EX32_div by done. cbn [field_shift field_length BAUD_SBR BAUD_OSR].
  rewrite Z.pow_0_r, Z.div_1_r.
  pose proof (Z.mod_pos_bound v (2 ^ 13) ltac:(lia)) as Hsbr.
  pose proof (Z.mod_pos_bound (v / 2 ^ 24) (2 ^ 5) ltac:(lia)) as Hosr.
  set (sbr := v mod 2 ^ 13) in *. set (osr := v / 2 ^ 24 mod 2 ^ 5) in *.
  rewrite (wrapu_small 32 (osr + 1)) by lia. rewrite (wrapu_small 32 (sbr * (osr + 1))) by nia.
  destruct (Z.eqb_spec sbr 0) as [->|Hne]; [done|].
  destruct (Z.eqb_spec (sbr * (osr + 1)) 0); [nia|]. cbn [mbind res_bind]. f_equal. f_equal.
  unfold set_lpuart_baud. by rewrite wrapu_idem.
Qed.

(** Software reset: writing GLOBAL with RST set resets the port, whatever it
    held: the status shows an empty transmitter and an empty receiver, the
    receiver and all interrupts are disabled, and the line is low. *)
Theorem lpuart_software_reset {B} {Chr : CharBackend B} clk v size s (b : B) :
  Z.testbit v 1 = true ->
  exists s', nxps32k358_lpuart_write clk A_GLOBAL v size s b = Ok (s', b) /\
    s' = nxps32k358_lpuart_reset s /\ lpuart_stat s' = LPUART_STAT_RESET /\
    lpuart_control s' = LPUART_CONTROL_RESET /\ lpuart_baud s' = LPUART_BAUD_RESET /\
    nxps32k358_lpuart_can_receive s' = true /\ lpuart_irq s' = false.
Proof.
  intros Hv. unfold nxps32k358_lpuart_write. cbv zeta. cbn [Z.eqb A_GLOBAL].
  change GLOBAL_RST with (flag 1). rewrite truthy_flag, wrapu_testbit, Hv by lia. cbn [Z.ltb andb].
  exists (nxps32k358_lpuart_reset s). split; [done|]. split; [done|].
  unfold nxps32k358_lpuart_reset. rewrite update_irq_eq. done.
Qed.

Lemma lpuart_software_reset_witness :
  exists s', nxps32k358_lpuart_write clock_initfn A_GLOBAL 2 4 demo_port (mkPlain [] 0) = Ok (s', mkPlain [] 0) /\
    s' = nxps32k358_lpuart_reset demo_port /\ lpuart_stat s' = LPUART_STAT_RESET /\
    lpuart_control s' = LPUART_CONTROL_RESET /\ lpuart_baud s' = LPUART_BAUD_RESET /\
    nxps32k358_lpuart_can_receive s' = true /\ lpuart_irq s' = false.
Proof. apply (lpuart_software_reset clock_initfn 2 4 demo_port (mkPlain [] 0)). reflexivity. Defined.
