(* ===== verification/LpuartDriver.v ===== *)
(** * The driver of the serial port

    [FreeRTOS_Demo/RTD/src/Lpuart_Uart_Ip.c] and
    [FreeRTOS_Demo/RTD/include/Lpuart_Uart_Ip_HwAccess.h], the driver of the
    firmware, over the registers of the emulated port of [Lpuart], with the
    configuration of [FreeRTOS_Demo/generate]: one instance, interrupts, no DMA, no
    loopback, development errors detected, the dummy counter of
    [FreeRTOS_Demo/RTD/src/OsIf_Timer.c].  The header with the layout of the registers
    is not part of the repository; the bits that the device uses are those of its
    own header, the others are a parameter. *)

From S2P Require Import Prelude Bits Clock CharMux Lpuart.

(** ** Registers *)

(** The bits that only the driver uses. *)
Record lpuart_layout : Set := mkLayout {
  CTRL_TE : Z;
  CTRL_ORIE : Z;
  CTRL_NEIE : Z;
  CTRL_FEIE : Z;
  CTRL_PEIE : Z;
  CTRL_PE : Z;
  CTRL_PT : Z;
  CTRL_R8T9 : Z;
  CTRL_R9T8 : Z;
  STAT_OR : Z;
  STAT_NF : Z;
  STAT_FE : Z;
  STAT_PF : Z;
  BAUD_BOTHEDGE : Z;
  BAUD_M10 : Z;
  BAUD_SBNS : Z;
  FIFO_RXFLUSH : Z;
  FIFO_TXFLUSH : Z
}.

Definition LPUART_FEATURE_DEFAULT_OSR : Z := 0xF.
Definition LPUART_FEATURE_DEFAULT_SBR : Z := 0x4.
Definition LPUART_FEATURE_STAT_REG_FLAGS_MASK : Z := 0xC01FC000.
Definition LPUART_IP_DATA_MASK_U32 : Z := 0xFF.

(** [Lpuart_Uart_Ip_StatusFlagType] and [Lpuart_Uart_Ip_InterruptType]: the flags for
    transmission are at the places of the bits that enable their interrupts. *)
Inductive Lpuart_Uart_Ip_StatusFlagType : Set :=
  | LPUART_UART_IP_TX_DATA_REG_EMPTY
  | LPUART_UART_IP_TX_COMPLETE
  | LPUART_UART_IP_DATA_REG_FULL
  | LPUART_UART_IP_RX_OVERRUN
  | LPUART_UART_IP_NOISE_DETECT
  | LPUART_UART_IP_FRAME_ERR
  | LPUART_UART_IP_PARITY_ERR.

Inductive Lpuart_Uart_Ip_InterruptType : Set :=
  | LPUART_UART_IP_INT_TX_DATA_REG_EMPTY
  | LPUART_UART_IP_INT_TX_COMPLETE
  | LPUART_UART_IP_INT_RX_DATA_REG_FULL
  | LPUART_UART_IP_INT_RX_OVERRUN
  | LPUART_UART_IP_INT_NOISE_ERR_FLAG
  | LPUART_UART_IP_INT_FRAME_ERR_FLAG
  | LPUART_UART_IP_INT_PARITY_ERR_FLAG.

Definition status_shift (y : lpuart_layout) (f : Lpuart_Uart_Ip_StatusFlagType) : Z :=
  match f with
  | LPUART_UART_IP_TX_DATA_REG_EMPTY => field_shift CONTROL_TIE
  | LPUART_UART_IP_TX_COMPLETE => field_shift CONTROL_TCIE
  | LPUART_UART_IP_DATA_REG_FULL => field_shift STAT_RDRF
  | LPUART_UART_IP_RX_OVERRUN => STAT_OR y
  | LPUART_UART_IP_NOISE_DETECT => STAT_NF y
  | LPUART_UART_IP_FRAME_ERR => STAT_FE y
  | LPUART_UART_IP_PARITY_ERR => STAT_PF y
  end.

Definition interrupt_shift (y : lpuart_layout) (i : Lpuart_Uart_Ip_InterruptType) : Z :=
  match i with
  | LPUART_UART_IP_INT_TX_DATA_REG_EMPTY => field_shift CONTROL_TIE
  | LPUART_UART_IP_INT_TX_COMPLETE => field_shift CONTROL_TCIE
  | LPUART_UART_IP_INT_RX_DATA_REG_FULL => field_shift CONTROL_RIE
  | LPUART_UART_IP_INT_RX_OVERRUN => CTRL_ORIE y
  | LPUART_UART_IP_INT_NOISE_ERR_FLAG => CTRL_NEIE y
  | LPUART_UART_IP_INT_FRAME_ERR_FLAG => CTRL_FEIE y
  | LPUART_UART_IP_INT_PARITY_ERR_FLAG => CTRL_PEIE y
  end.

(** ** Configuration and state *)

Inductive Lpuart_Uart_Ip_BitCountPerCharType : Set :=
  | LPUART_UART_IP_7_BITS_PER_CHAR
  | LPUART_UART_IP_8_BITS_PER_CHAR
  | LPUART_UART_IP_9_BITS_PER_CHAR
  | LPUART_UART_IP_10_BITS_PER_CHAR.

#[export] Instance bit_count_eq_dec : EqDecision Lpuart_Uart_Ip_BitCountPerCharType.
Proof. solve_decision. Defined.

Definition bit_count_value (b : Lpuart_Uart_Ip_BitCountPerCharType) : Z :=
  match b with
  | LPUART_UART_IP_7_BITS_PER_CHAR => 0
  | LPUART_UART_IP_8_BITS_PER_CHAR => 1
  | LPUART_UART_IP_9_BITS_PER_CHAR => 2
  | LPUART_UART_IP_10_BITS_PER_CHAR => 3
  end.

(** [LPUART_UART_IP_PARITY_DISABLED], [EVEN] and [ODD] are 0, 2 and 3. *)
Definition LPUART_UART_IP_PARITY_DISABLED : Z := 0.

Inductive Lpuart_Uart_Ip_StatusType : Set :=
  | LPUART_UART_IP_STATUS_SUCCESS
  | LPUART_UART_IP_STATUS_ERROR
  | LPUART_UART_IP_STATUS_BUSY
  | LPUART_UART_IP_STATUS_TIMEOUT
  | LPUART_UART_IP_STATUS_TX_UNDERRUN
  | LPUART_UART_IP_STATUS_RX_OVERRUN
  | LPUART_UART_IP_STATUS_ABORTED
  | LPUART_UART_IP_STATUS_FRAMING_ERROR
  | LPUART_UART_IP_STATUS_PARITY_ERROR
  | LPUART_UART_IP_STATUS_NOISE_ERROR
  | LPUART_UART_IP_STATUS_DMA_ERROR.

#[export] Instance uart_status_eq_dec : EqDecision Lpuart_Uart_Ip_StatusType.
Proof. solve_decision. Defined.

(** [Lpuart_Uart_Ip_StateStructureType]; the buffers are addresses. *)
Record Lpuart_Uart_Ip_StateStructureType : Set := mkUart {
  BaudRate : Z;
  TxBuff : Z;
  RxBuff : Z;
  TxSize : Z;
  RxSize : Z;
  IsTxBusy : bool;
  IsRxBusy : bool;
  TransmitStatus : Lpuart_Uart_Ip_StatusType;
  ReceiveStatus : Lpuart_Uart_Ip_StatusType
}.

Definition set_BaudRate (rate : Z) (u : Lpuart_Uart_Ip_StateStructureType) : Lpuart_Uart_Ip_StateStructureType :=
  mkUart rate (TxBuff u) (RxBuff u) (TxSize u) (RxSize u) (IsTxBusy u) (IsRxBusy u) (TransmitStatus u) (ReceiveStatus u).
Definition set_Tx (buff size : Z) (u : Lpuart_Uart_Ip_StateStructureType) : Lpuart_Uart_Ip_StateStructureType :=
  mkUart (BaudRate u) buff (RxBuff u) (u32 size) (RxSize u) (IsTxBusy u) (IsRxBusy u) (TransmitStatus u) (ReceiveStatus u).
Definition set_Rx (buff size : Z) (u : Lpuart_Uart_Ip_StateStructureType) : Lpuart_Uart_Ip_StateStructureType :=
  mkUart (BaudRate u) (TxBuff u) buff (TxSize u) (u32 size) (IsTxBusy u) (IsRxBusy u) (TransmitStatus u) (ReceiveStatus u).
Definition set_IsTxBusy (b : bool) (u : Lpuart_Uart_Ip_StateStructureType) : Lpuart_Uart_Ip_StateStructureType :=
  mkUart (BaudRate u) (TxBuff u) (RxBuff u) (TxSize u) (RxSize u) b (IsRxBusy u) (TransmitStatus u) (ReceiveStatus u).
Definition set_IsRxBusy (b : bool) (u : Lpuart_Uart_Ip_StateStructureType) : Lpuart_Uart_Ip_StateStructureType :=
  mkUart (BaudRate u) (TxBuff u) (RxBuff u) (TxSize u) (RxSize u) (IsTxBusy u) b (TransmitStatus u) (ReceiveStatus u).
Definition set_TransmitStatus (s : Lpuart_Uart_Ip_StatusType) (u : Lpuart_Uart_Ip_StateStructureType) : Lpuart_Uart_Ip_StateStructureType :=
  mkUart (BaudRate u) (TxBuff u) (RxBuff u) (TxSize u) (RxSize u) (IsTxBusy u) (IsRxBusy u) s (ReceiveStatus u).
Definition set_ReceiveStatus (s : Lpuart_Uart_Ip_StatusType) (u : Lpuart_Uart_Ip_StateStructureType) : Lpuart_Uart_Ip_StateStructureType :=
  mkUart (BaudRate u) (TxBuff u) (RxBuff u) (TxSize u) (RxSize u) (IsTxBusy u) (IsRxBusy u) (TransmitStatus u) s.

(** [Lpuart_Uart_Ip_UserConfigType], without the pointers: the configuration has no
    callback, and the state structure is the one of the instance. *)
Record Lpuart_Uart_Ip_UserConfigType : Set := mkConfig {
  cfg_BaudRate : Z;
  BaudRateDivisor : Z;
  BaudOverSamplingRatio : Z;
  ParityMode : Z;
  StopBitsCount : Z;
  BitCountPerChar : Lpuart_Uart_Ip_BitCountPerCharType;
}.

Definition Lpuart_Uart_Ip_xHwConfigPB_3 : Lpuart_Uart_Ip_UserConfigType :=
  mkConfig 115942 15 23 LPUART_UART_IP_PARITY_DISABLED 0 LPUART_UART_IP_8_BITS_PER_CHAR.

Definition LPUART_UART_IP_TIMEOUT_VALUE_US : Z := 0.

(** The firmware and the port: the entries of [Lpuart_Uart_Ip_apStateStructuresArray] and
    [Lpuart_Uart_Ip_apUserConfig] of the instance, the memory with the buffers, the
    device and the character back end. *)
Record uart_machine (B : Type) : Type := mkMachine {
  m_state : option Lpuart_Uart_Ip_StateStructureType;
  m_config : option Lpuart_Uart_Ip_UserConfigType;
  m_mem : Z -> Z;
  m_dev : NXPS32K358LPUartState;
  m_chr : B
}.
Arguments mkMachine {B} _ _ _ _ _.
Arguments m_state {B} _.
Arguments m_config {B} _.
Arguments m_mem {B} _.
Arguments m_dev {B} _.
Arguments m_chr {B} _.

Definition set_m_state {B} (u : option Lpuart_Uart_Ip_StateStructureType) (m : uart_machine B) : uart_machine B :=
  mkMachine u (m_config m) (m_mem m) (m_dev m) (m_chr m).
Definition set_m_config {B} (c : option Lpuart_Uart_Ip_UserConfigType) (m : uart_machine B) : uart_machine B :=
  mkMachine (m_state m) c (m_mem m) (m_dev m) (m_chr m).
Definition set_m_mem {B} (f : Z -> Z) (m : uart_machine B) : uart_machine B :=
  mkMachine (m_state m) (m_config m) f (m_dev m) (m_chr m).
Definition set_m_port {B} (d : NXPS32K358LPUartState) (c : B) (m : uart_machine B) : uart_machine B :=
  mkMachine (m_state m) (m_config m) (m_mem m) d c.

(** ** The monad of the driver *)

Definition UM (B A : Type) : Type := uart_machine B -> res (A * uart_machine B).
#[export] Instance UM_ret {B} : MRet (UM B) := fun A a m => Ok (a, m).
#[export] Instance UM_bind {B} : MBind (UM B) := fun A C f x m => match x m with Ok (a, m) => f a m | Fault e => Fault e end.

Definition ufail {B A} (e : fault) : UM B A := fun _ => Fault e.
Definition uassert {B} (b : bool) : UM B unit := fun m => if b then Ok (tt, m) else Fault AssertFailed.
(** The state structure of the instance; a null pointer is not dereferenced. *)
Definition get_uart {B} : UM B Lpuart_Uart_Ip_StateStructureType :=
  fun m => match m_state m with Some u => Ok (u, m) | None => Fault WildHostPointer end.
(** [LPUART_UART_IP_DEV_ASSERT] on the two pointers. *)
Definition assert_uart {B} : UM B unit := fun m => match m_state m with Some _ => Ok (tt, m) | None => Fault AssertFailed end.
Definition assert_config {B} : UM B unit := fun m => match m_config m with Some _ => Ok (tt, m) | None => Fault AssertFailed end.
Definition put_uart {B} (u : Lpuart_Uart_Ip_StateStructureType) : UM B unit := fun m => Ok (tt, set_m_state (Some u) m).
Definition upd_uart {B} (f : Lpuart_Uart_Ip_StateStructureType -> Lpuart_Uart_Ip_StateStructureType) : UM B unit :=
  u ← get_uart; put_uart (f u).
Definition get_config {B} : UM B Lpuart_Uart_Ip_UserConfigType :=
  fun m => match m_config m with Some c => Ok (c, m) | None => Fault WildHostPointer end.
Definition put_config {B} (c : Lpuart_Uart_Ip_UserConfigType) : UM B unit := fun m => Ok (tt, set_m_config (Some c) m).
Definition forget_uart {B} : UM B unit := fun m => Ok (tt, set_m_state None m).
Definition ulift {B A} (r : res A) : UM B A := fun m => match r with Ok a => Ok (a, m) | Fault e => Fault e end.
Definition load_byte {B} (a : Z) : UM B Z := fun m => Ok (m_mem m a, m).
Definition store_byte {B} (a v : Z) : UM B unit :=
  fun m => Ok (tt, set_m_mem (fun i => if i =? a then u8 v else m_mem m i) m).
Definition uwhen {B} (b : bool) (x : UM B unit) : UM B unit := if b then x else mret tt.

Section Driver.
Context {B : Type} {Chr : CharBackend B}.
(** The clock the port is wired to, and the layout of the registers. *)
Context (clk : Clock) (y : lpuart_layout).

(** ** Register accesses *)

Definition read_reg (addr : Z) : UM B Z :=
  fun m => '(v, d, c) ← nxps32k358_lpuart_read addr 4 (m_dev m) (m_chr m); Ok (v, set_m_port d c m).
Definition write_reg (addr v : Z) : UM B unit :=
  fun m => '(d, c) ← nxps32k358_lpuart_write clk addr v 4 (m_dev m) (m_chr m); Ok (tt, set_m_port d c m).

(** [~] on [uint32], and [reg = (reg & ~mask) | v] *)
Definition masked (v mask : Z) : Z := v .& u32 (.~ mask).
Definition update_reg (addr mask v : Z) : UM B unit := r ← read_reg addr; write_reg addr (u32 (masked r mask .| v)).
Definition bit (n : Z) : Z := u32 (1 .<< n).
Definition enabled (b : bool) (n : Z) : Z := if b then bit n else 0.

Definition Lpuart_Uart_Ip_Hw_Init : UM B unit :=
  write_reg A_BAUD (u32 (LPUART_FEATURE_DEFAULT_OSR .<< field_shift BAUD_OSR) .| (LPUART_FEATURE_DEFAULT_SBR .<< field_shift BAUD_SBR));;
  write_reg A_STAT LPUART_FEATURE_STAT_REG_FLAGS_MASK;;
  write_reg A_CONTROL 0.

Definition Lpuart_Uart_Ip_SetTransmitterCmd (Enable : bool) : UM B unit :=
  update_reg A_CONTROL (bit (CTRL_TE y)) (enabled Enable (CTRL_TE y)).
Definition Lpuart_Uart_Ip_SetReceiverCmd (Enable : bool) : UM B unit :=
  update_reg A_CONTROL (field_mask CONTROL_RE) (enabled Enable (field_shift CONTROL_RE)).
Definition Lpuart_Uart_Ip_SetBaudRateDivisor (baudRateDivisor : Z) : UM B unit :=
  update_reg A_BAUD (field_mask BAUD_SBR) (baudRateDivisor .& field_mask BAUD_SBR).
Definition Lpuart_Uart_Ip_SetOversamplingRatio (OverSamplingRatio : Z) : UM B unit :=
  update_reg A_BAUD (field_mask BAUD_OSR) (u32 (OverSamplingRatio .<< field_shift BAUD_OSR) .& field_mask BAUD_OSR).
Definition Lpuart_Uart_Ip_EnableBothEdgeSamplingCmd : UM B unit :=
  r ← read_reg A_BAUD; write_reg A_BAUD (r .| bit (BAUD_BOTHEDGE y)).

Definition Lpuart_Uart_Ip_SetBitCountPerChar (count : Lpuart_Uart_Ip_BitCountPerCharType) (Parity : bool) : UM B unit :=
  let TmpBitCountPerChar := u32 (bit_count_value count + (if Parity then 1 else 0)) in
  if TmpBitCountPerChar =? bit_count_value LPUART_UART_IP_10_BITS_PER_CHAR then
    update_reg A_BAUD (bit (BAUD_M10 y)) (bit (BAUD_M10 y))
  else
    (if decide (count = LPUART_UART_IP_7_BITS_PER_CHAR) then
       if Parity then
         r ← read_reg A_CONTROL; write_reg A_CONTROL (masked r (field_mask CONTROL_M7 .| field_mask CONTROL_M))
       else update_reg A_CONTROL (field_mask CONTROL_M7) (bit (field_shift CONTROL_M7))
     else
       let TmpBitCountPerChar := u32 (TmpBitCountPerChar - 1) in
       update_reg A_CONTROL (field_mask CONTROL_M) (u32 (TmpBitCountPerChar .<< field_shift CONTROL_M)));;
    r ← read_reg A_BAUD; write_reg A_BAUD (masked r (bit (BAUD_M10 y))).

Definition Lpuart_Uart_Ip_SetParityMode (ParityModeType : Z) : UM B unit :=
  update_reg A_CONTROL (bit (CTRL_PE y)) (u32 ((ParityModeType .>> 1) .<< CTRL_PE y));;
  update_reg A_CONTROL (bit (CTRL_PT y)) (u32 ((ParityModeType .& 1) .<< CTRL_PT y)).
Definition Lpuart_Uart_Ip_SetStopBitCount (StopBitCount : Z) : UM B unit :=
  update_reg A_BAUD (bit (BAUD_SBNS y)) (u32 (StopBitCount .<< BAUD_SBNS y)).

Definition Lpuart_Uart_Ip_SetIntMode (IntSrc : Lpuart_Uart_Ip_InterruptType) (Enable : bool) : UM B unit :=
  update_reg A_CONTROL (bit (interrupt_shift y IntSrc)) (enabled Enable (interrupt_shift y IntSrc)).
Definition Lpuart_Uart_Ip_GetIntMode (IntSrc : Lpuart_Uart_Ip_InterruptType) : UM B bool :=
  r ← read_reg A_CONTROL; mret ((r .>> interrupt_shift y IntSrc) .& 1 >? 0).

(** A write of one byte; the handler of the device gets the value and the size. *)
Definition Lpuart_Uart_Ip_Putchar (Data : Z) : UM B unit :=
  fun m => '(d, c) ← nxps32k358_lpuart_write clk A_DATA Data 1 (m_dev m) (m_chr m); Ok (tt, set_m_port d c m).
Definition Lpuart_Uart_Ip_Putchar9 (Data : Z) : UM B unit :=
  let NinthDataBit := u8 ((Data .>> 8) .& 1) in
  update_reg A_CONTROL (bit (CTRL_R9T8 y)) (u32 (NinthDataBit .<< CTRL_R9T8 y));;
  Lpuart_Uart_Ip_Putchar (u8 Data).
Definition Lpuart_Uart_Ip_Putchar10 (Data : Z) : UM B unit :=
  let NinthDataBit := u8 ((Data .>> 8) .& 1) in
  let TenthDataBit := u8 ((Data .>> 9) .& 1) in
  CtrlRegVal ← read_reg A_CONTROL;
  let CtrlRegVal := masked CtrlRegVal (bit (CTRL_R9T8 y)) .| u32 (NinthDataBit .<< CTRL_R9T8 y) in
  let CtrlRegVal := masked CtrlRegVal (bit (CTRL_R8T9 y)) .| u32 (TenthDataBit .<< CTRL_R8T9 y) in
  write_reg A_CONTROL CtrlRegVal;;
  Lpuart_Uart_Ip_Putchar (u8 Data).

Definition Lpuart_Uart_Ip_Getchar : UM B Z := r ← read_reg A_DATA; mret (u8 (r .& LPUART_IP_DATA_MASK_U32)).
Definition Lpuart_Uart_Ip_Getchar9 : UM B Z :=
  r ← read_reg A_CONTROL;
  let ReadData := u16 (((r .>> CTRL_R8T9 y) .& 1) .<< 8) in
  d ← read_reg A_DATA;
  mret (u16 (ReadData .| u8 (d .& LPUART_IP_DATA_MASK_U32))).
Definition Lpuart_Uart_Ip_Getchar10 : UM B Z :=
  r ← read_reg A_CONTROL;
  let ReadData := u16 (((r .>> CTRL_R9T8 y) .& 1) .<< 9) in
  r ← read_reg A_CONTROL;
  let ReadData := u16 (ReadData .| u16 (((r .>> CTRL_R8T9 y) .& 1) .<< 8)) in
  d ← read_reg A_DATA;
  mret (u16 (ReadData .| u8 (d .& LPUART_IP_DATA_MASK_U32))).

Definition Lpuart_Uart_Ip_GetStatusFlag (StatusFlag : Lpuart_Uart_Ip_StatusFlagType) : UM B bool :=
  r ← read_reg A_STAT; mret ((r .>> status_shift y StatusFlag) .& 1 >? 0).
Definition Lpuart_Uart_Ip_ClearStatusFlagWithMask (Mask : Z) : UM B unit :=
  r ← read_reg A_STAT; write_reg A_STAT (masked r LPUART_FEATURE_STAT_REG_FLAGS_MASK .| Mask).
Definition Lpuart_Uart_Ip_ClearStatusFlag (StatusFlag : Lpuart_Uart_Ip_StatusFlagType) : UM B unit :=
  match StatusFlag with
  | LPUART_UART_IP_RX_OVERRUN | LPUART_UART_IP_NOISE_DETECT | LPUART_UART_IP_FRAME_ERR | LPUART_UART_IP_PARITY_ERR =>
      Lpuart_Uart_Ip_ClearStatusFlagWithMask (bit (status_shift y StatusFlag))
  | _ => mret tt
  end.
Definition Lpuart_Uart_Ip_ClearErrorFlags : UM B unit :=
  Lpuart_Uart_Ip_ClearStatusFlagWithMask (bit (STAT_OR y) .| bit (STAT_NF y) .| bit (STAT_FE y) .| bit (STAT_PF y)).
Definition Lpuart_Uart_Ip_FlushTxBuffer : UM B unit := r ← read_reg A_FIFO; write_reg A_FIFO (r .| bit (FIFO_TXFLUSH y)).
Definition Lpuart_Uart_Ip_FlushRxBuffer : UM B unit := r ← read_reg A_FIFO; write_reg A_FIFO (r .| bit (FIFO_RXFLUSH y)).

(** ** Time

    [OsIf_GetElapsed] of the dummy counter is 1 at every call, so that the driver
    counts its checks; [OsIf_MicrosToTicks] is the identity. *)

Definition OsIf_Timer_Dummy_GetElapsed : Z := 1.
Definition OsIf_Timer_Dummy_MicrosToTicks (Micros : Z) : Z := Micros.

(** [Lpuart_Uart_Ip_StartTimeout]: the ticks of the time-out. *)
Definition Lpuart_Uart_Ip_StartTimeout (TimeoutUs : Z) : Z := OsIf_Timer_Dummy_MicrosToTicks TimeoutUs.
(** [Lpuart_Uart_Ip_CheckTimeout]: the answer and the new [*ElapsedTicks]. *)
Definition Lpuart_Uart_Ip_CheckTimeout (ElapsedTicks TimeoutTicks : Z) : bool * Z :=
  let ElapsedTicks := u32 (ElapsedTicks + OsIf_Timer_Dummy_GetElapsed) in
  (ElapsedTicks >=? TimeoutTicks, ElapsedTicks).

(** ** Polling

    While the firmware polls a flag, the main loop of the emulator runs: at each
    poll it may hand a byte to the port, if the port accepts one. *)

Definition host_byte (o : option Z) : UM B unit :=
  fun m =>
    match o with
    | Some v => if nxps32k358_lpuart_can_receive (m_dev m) then Ok (tt, set_m_port (nxps32k358_lpuart_receive v (m_dev m)) (m_chr m) m)
                else Ok (tt, m)
    | None => Ok (tt, m)
    end.

(** [while (!GetStatusFlag(flag) && !CheckTimeout(...)) {}]: the elapsed ticks and
    the rest of the host's bytes; [None] when the polls of the list were not enough. *)
Fixpoint poll (host : list (option Z)) (flag : Lpuart_Uart_Ip_StatusFlagType) (ElapsedTicks TimeoutTicks : Z)
  : UM B (option (Z * list (option Z))) :=
  match host with
  | [] => mret None
  | o :: host =>
      host_byte o;;
      b ← Lpuart_Uart_Ip_GetStatusFlag flag;
      if b : bool then mret (Some (ElapsedTicks, host))
      else
        let '(t, ElapsedTicks) := Lpuart_Uart_Ip_CheckTimeout ElapsedTicks TimeoutTicks in
        if t : bool then mret (Some (ElapsedTicks, host)) else poll host flag ElapsedTicks TimeoutTicks
  end.

(** The same in an interrupt, where no byte comes in; each poll counts, so that
    one more than the ticks of the time-out are enough. *)
Definition poll_alone (flag : Lpuart_Uart_Ip_StatusFlagType) (TimeoutTicks : Z) : UM B Z :=
  r ← poll (replicate (S (Z.to_nat TimeoutTicks)) None) flag 0 TimeoutTicks;
  match r with Some (e, _) => mret e | None => ufail OutOfFuel end.

(** ** Transmission *)

Definition Lpuart_Uart_Ip_PutData : UM B unit :=
  c ← get_config;
  u ← get_uart;
  if bool_decide (BitCountPerChar c = LPUART_UART_IP_7_BITS_PER_CHAR \/ BitCountPerChar c = LPUART_UART_IP_8_BITS_PER_CHAR) then
    Data8b ← load_byte (TxBuff u);
    put_uart (set_Tx (u32 (TxBuff u + 1)) (TxSize u - 1) u);;
    Lpuart_Uart_Ip_Putchar Data8b
  else
    lo ← load_byte (TxBuff u);
    Data16b ←
      (if TxSize u =? 1 then put_uart (set_Tx (u32 (TxBuff u + 1)) (TxSize u - 1) u);; mret (u16 lo)
       else
         hi ← load_byte (u32 (TxBuff u + 1));
         put_uart (set_Tx (u32 (TxBuff u + 2)) (TxSize u - 2) u);;
         mret (u16 (u16 lo .| u16 (hi .<< 8))));
    if decide (BitCountPerChar c = LPUART_UART_IP_9_BITS_PER_CHAR) then Lpuart_Uart_Ip_Putchar9 Data16b
    else Lpuart_Uart_Ip_Putchar10 Data16b.

(** The loop of [Lpuart_Uart_Ip_SyncSend]; each round takes a byte of the buffer. *)
Fixpoint send_loop (fuel : nat) (host : list (option Z)) (ElapsedTicks TimeoutTicks : Z) : UM B (option Z) :=
  u ← get_uart;
  if TxSize u >? 0 then
    let '(t, ElapsedTicks) := Lpuart_Uart_Ip_CheckTimeout ElapsedTicks TimeoutTicks in
    if t : bool then mret (Some ElapsedTicks)
    else
      match fuel with
      | O => ufail OutOfFuel
      | S fuel =>
          Lpuart_Uart_Ip_PutData;;
          r ← poll host LPUART_UART_IP_TX_DATA_REG_EMPTY ElapsedTicks TimeoutTicks;
          match r with
          | None => mret None
          | Some (ElapsedTicks, host) => send_loop fuel host ElapsedTicks TimeoutTicks
          end
      end
  else mret (Some ElapsedTicks).

(** [Lpuart_Uart_Ip_SyncSend]; [None] when it still polls after the bytes of the host. *)
Definition Lpuart_Uart_Ip_SyncSend (host : list (option Z)) (buff size Timeout : Z) : UM B (option Lpuart_Uart_Ip_StatusType) :=
  uassert (negb (buff =? 0));;
  uassert (size >? 0);;
  assert_uart;;
  u ← get_uart;
  if IsTxBusy u then mret (Some LPUART_UART_IP_STATUS_BUSY)
  else
    put_uart (set_TransmitStatus LPUART_UART_IP_STATUS_BUSY (set_Tx buff size (set_IsTxBusy true u)));;
    Lpuart_Uart_Ip_SetIntMode LPUART_UART_IP_INT_TX_DATA_REG_EMPTY false;;
    Lpuart_Uart_Ip_SetIntMode LPUART_UART_IP_INT_TX_COMPLETE false;;
    Lpuart_Uart_Ip_SetTransmitterCmd true;;
    let TimeoutTicks := Lpuart_Uart_Ip_StartTimeout Timeout in
    r ← send_loop (Z.to_nat size) host 0 TimeoutTicks;
    match r with
    | None => mret None
    | Some ElapsedTicks =>
        Lpuart_Uart_Ip_SetTransmitterCmd false;;
        let status := if (Lpuart_Uart_Ip_CheckTimeout ElapsedTicks TimeoutTicks).1 then LPUART_UART_IP_STATUS_TIMEOUT
                      else LPUART_UART_IP_STATUS_SUCCESS in
        upd_uart (fun u => set_IsTxBusy false (set_TransmitStatus status u));;
        mret (Some status)
    end.

Definition Lpuart_Uart_Ip_StartSendDataUsingInt (buff size : Z) : UM B Lpuart_Uart_Ip_StatusType :=
  upd_uart (fun u => set_TransmitStatus LPUART_UART_IP_STATUS_BUSY (set_Tx buff size u));;
  Lpuart_Uart_Ip_SetTransmitterCmd true;;
  Lpuart_Uart_Ip_SetIntMode LPUART_UART_IP_INT_TX_DATA_REG_EMPTY true;;
  mret LPUART_UART_IP_STATUS_SUCCESS.

Definition Lpuart_Uart_Ip_AsyncSend (buff size : Z) : UM B Lpuart_Uart_Ip_StatusType :=
  uassert (negb (buff =? 0));;
  uassert (size >? 0);;
  assert_uart;;
  u ← get_uart;
  if IsTxBusy u then mret LPUART_UART_IP_STATUS_BUSY
  else
    put_uart (set_IsTxBusy true u);;
    assert_config;;
    Lpuart_Uart_Ip_StartSendDataUsingInt buff size.

Definition Lpuart_Uart_Ip_CompleteSendDataUsingInt : UM B unit :=
  u ← get_uart;
  uwhen (negb (bool_decide (TransmitStatus u = LPUART_UART_IP_STATUS_BUSY)))
    (Lpuart_Uart_Ip_SetIntMode LPUART_UART_IP_INT_TX_DATA_REG_EMPTY false);;
  Lpuart_Uart_Ip_SetIntMode LPUART_UART_IP_INT_TX_COMPLETE false;;
  let TimeoutTicks := Lpuart_Uart_Ip_StartTimeout LPUART_UART_IP_TIMEOUT_VALUE_US in
  ElapsedTicks ← poll_alone LPUART_UART_IP_TX_COMPLETE TimeoutTicks;
  uwhen (Lpuart_Uart_Ip_CheckTimeout ElapsedTicks TimeoutTicks).1 (upd_uart (set_TransmitStatus LPUART_UART_IP_STATUS_TIMEOUT));;
  Lpuart_Uart_Ip_SetTransmitterCmd false;;
  upd_uart (fun u =>
    if bool_decide (TransmitStatus u = LPUART_UART_IP_STATUS_BUSY) then set_TransmitStatus LPUART_UART_IP_STATUS_SUCCESS u else u);;
  upd_uart (set_IsTxBusy false).

(** The status and, where the caller asks for it, the number of bytes left. *)
Definition Lpuart_Uart_Ip_GetTransmitStatus : UM B (Lpuart_Uart_Ip_StatusType * Z) :=
  assert_uart;;
  assert_config;;
  u ← get_uart;
  mret (TransmitStatus u, if IsTxBusy u then TxSize u else 0).

Definition Lpuart_Uart_Ip_AbortSendingData : UM B Lpuart_Uart_Ip_StatusType :=
  assert_uart;;
  assert_config;;
  u ← get_uart;
  uwhen (IsTxBusy u)
    (put_uart (set_TransmitStatus LPUART_UART_IP_STATUS_ABORTED u);;
     Lpuart_Uart_Ip_CompleteSendDataUsingInt;;
     Lpuart_Uart_Ip_FlushTxBuffer);;
  u ← get_uart;
  mret (if bool_decide (TransmitStatus u = LPUART_UART_IP_STATUS_TIMEOUT) then LPUART_UART_IP_STATUS_ERROR
        else LPUART_UART_IP_STATUS_SUCCESS).

(** ** Reception *)

Definition Lpuart_Uart_Ip_GetData : UM B unit :=
  c ← get_config;
  u ← get_uart;
  if bool_decide (BitCountPerChar c = LPUART_UART_IP_7_BITS_PER_CHAR \/ BitCountPerChar c = LPUART_UART_IP_8_BITS_PER_CHAR) then
    v ← Lpuart_Uart_Ip_Getchar;
    store_byte (RxBuff u) v;;
    uwhen (bool_decide (BitCountPerChar c = LPUART_UART_IP_7_BITS_PER_CHAR))
      (v ← load_byte (RxBuff u); store_byte (RxBuff u) (v .& 0x7F));;
    put_uart (set_Rx (u32 (RxBuff u + 1)) (RxSize u - 1) u)
  else
    Data16b ← (if decide (BitCountPerChar c = LPUART_UART_IP_9_BITS_PER_CHAR) then Lpuart_Uart_Ip_Getchar9
               else Lpuart_Uart_Ip_Getchar10);
    if RxSize u =? 1 then
      store_byte (RxBuff u) (u8 Data16b);;
      put_uart (set_Rx (u32 (RxBuff u + 1)) (RxSize u - 1) u)
    else
      store_byte (RxBuff u) (u8 (Data16b .& 0xFF));;
      store_byte (u32 (RxBuff u + 1)) (u8 (Data16b .>> 8));;
      put_uart (set_Rx (u32 (RxBuff u + 2)) (RxSize u - 2) u).

(** The loop over the kinds of error of [Lpuart_Uart_Ip_StartGetData]: the mask. *)
Definition receive_errors : list (Lpuart_Uart_Ip_StatusFlagType * Lpuart_Uart_Ip_StatusType) :=
  [(LPUART_UART_IP_RX_OVERRUN, LPUART_UART_IP_STATUS_RX_OVERRUN);
   (LPUART_UART_IP_FRAME_ERR, LPUART_UART_IP_STATUS_FRAMING_ERROR);
   (LPUART_UART_IP_NOISE_DETECT, LPUART_UART_IP_STATUS_NOISE_ERROR);
   (LPUART_UART_IP_PARITY_ERR, LPUART_UART_IP_STATUS_PARITY_ERROR)].

Fixpoint check_errors (l : list (Lpuart_Uart_Ip_StatusFlagType * Lpuart_Uart_Ip_StatusType)) (Mask : Z) : UM B Z :=
  match l with
  | [] => mret Mask
  | (f, s) :: l =>
      b ← Lpuart_Uart_Ip_GetStatusFlag f;
      uwhen b (upd_uart (set_ReceiveStatus s));;
      check_errors l (if b : bool then Mask .| bit (status_shift y f) else Mask)
  end.

(** [Lpuart_Uart_Ip_StartGetData]: the elapsed ticks; each round takes a byte of the
    buffer or ends the loop. *)
Fixpoint Lpuart_Uart_Ip_StartGetData (fuel : nat) (host : list (option Z)) (ElapsedTicks TimeoutTicks : Z) : UM B (option Z) :=
  u ← get_uart;
  if RxSize u >? 0 then
    let '(t, ElapsedTicks) := Lpuart_Uart_Ip_CheckTimeout ElapsedTicks TimeoutTicks in
    if t : bool then mret (Some ElapsedTicks)
    else
      match fuel with
      | O => ufail OutOfFuel
      | S fuel =>
          r ← poll host LPUART_UART_IP_DATA_REG_FULL ElapsedTicks TimeoutTicks;
          match r with
          | None => mret None
          | Some (ElapsedTicks, host) =>
              Mask ← check_errors receive_errors 0;
              if Mask >? 0 then
                Lpuart_Uart_Ip_SetReceiverCmd false;;
                Lpuart_Uart_Ip_ClearStatusFlagWithMask Mask;;
                mret (Some ElapsedTicks)
              else
                Lpuart_Uart_Ip_GetData;;
                Lpuart_Uart_Ip_StartGetData fuel host ElapsedTicks TimeoutTicks
          end
      end
  else mret (Some ElapsedTicks).

Definition Lpuart_Uart_Ip_SyncReceive (host : list (option Z)) (buff size Timeout : Z) : UM B (option Lpuart_Uart_Ip_StatusType) :=
  uassert (negb (buff =? 0));;
  uassert (size >? 0);;
  assert_uart;;
  u ← get_uart;
  if IsRxBusy u then mret (Some LPUART_UART_IP_STATUS_BUSY)
  else
    put_uart (set_ReceiveStatus LPUART_UART_IP_STATUS_BUSY (set_Rx buff size (set_IsRxBusy true u)));;
    Lpuart_Uart_Ip_SetIntMode LPUART_UART_IP_INT_RX_DATA_REG_FULL false;;
    Lpuart_Uart_Ip_SetReceiverCmd true;;
    let TimeoutTicks := Lpuart_Uart_Ip_StartTimeout Timeout in
    r ← Lpuart_Uart_Ip_StartGetData (Z.to_nat size) host 0 TimeoutTicks;
    match r with
    | None => mret None
    | Some ElapsedTicks =>
        uwhen (Lpuart_Uart_Ip_CheckTimeout ElapsedTicks TimeoutTicks).1 (upd_uart (set_ReceiveStatus LPUART_UART_IP_STATUS_TIMEOUT));;
        upd_uart (fun u =>
          if bool_decide (ReceiveStatus u = LPUART_UART_IP_STATUS_BUSY) then set_ReceiveStatus LPUART_UART_IP_STATUS_SUCCESS u else u);;
        upd_uart (fun u =>
          if (RxSize u =? 0) && bool_decide (ReceiveStatus u = LPUART_UART_IP_STATUS_RX_OVERRUN)
          then set_ReceiveStatus LPUART_UART_IP_STATUS_SUCCESS u else u);;
        Lpuart_Uart_Ip_SetReceiverCmd false;;
        upd_uart (set_IsRxBusy false);;
        _ ← Lpuart_Uart_Ip_Getchar;
        u ← get_uart;
        mret (Some (ReceiveStatus u))
    end.

Definition Lpuart_Uart_Ip_StartReceiveDataUsingInt (buff size : Z) : UM B Lpuart_Uart_Ip_StatusType :=
  upd_uart (fun u => set_ReceiveStatus LPUART_UART_IP_STATUS_BUSY (set_Rx buff size (set_IsRxBusy true u)));;
  Lpuart_Uart_Ip_ClearErrorFlags;;
  Lpuart_Uart_Ip_FlushRxBuffer;;
  Lpuart_Uart_Ip_SetReceiverCmd true;;
  Lpuart_Uart_Ip_SetIntMode LPUART_UART_IP_INT_RX_OVERRUN true;;
  Lpuart_Uart_Ip_SetIntMode LPUART_UART_IP_INT_PARITY_ERR_FLAG true;;
  Lpuart_Uart_Ip_SetIntMode LPUART_UART_IP_INT_NOISE_ERR_FLAG true;;
  Lpuart_Uart_Ip_SetIntMode LPUART_UART_IP_INT_FRAME_ERR_FLAG true;;
  Lpuart_Uart_Ip_SetIntMode LPUART_UART_IP_INT_RX_DATA_REG_FULL true;;
  mret LPUART_UART_IP_STATUS_SUCCESS.

Definition Lpuart_Uart_Ip_AsyncReceive (buff size : Z) : UM B Lpuart_Uart_Ip_StatusType :=
  uassert (negb (buff =? 0));;
  uassert (size >? 0);;
  assert_uart;;
  u ← get_uart;
  if IsRxBusy u then mret LPUART_UART_IP_STATUS_BUSY
  else
    put_uart (set_IsRxBusy true u);;
    assert_config;;
    Lpuart_Uart_Ip_StartReceiveDataUsingInt buff size.

Definition Lpuart_Uart_Ip_CompleteReceiveDataUsingInt : UM B unit :=
  Lpuart_Uart_Ip_SetIntMode LPUART_UART_IP_INT_RX_OVERRUN false;;
  Lpuart_Uart_Ip_SetIntMode LPUART_UART_IP_INT_PARITY_ERR_FLAG false;;
  Lpuart_Uart_Ip_SetIntMode LPUART_UART_IP_INT_NOISE_ERR_FLAG false;;
  Lpuart_Uart_Ip_SetIntMode LPUART_UART_IP_INT_FRAME_ERR_FLAG false;;
  Lpuart_Uart_Ip_SetIntMode LPUART_UART_IP_INT_RX_DATA_REG_FULL false;;
  u ← get_uart;
  uwhen (bool_decide (ReceiveStatus u = LPUART_UART_IP_STATUS_ABORTED))
    (let TimeoutTicks := Lpuart_Uart_Ip_StartTimeout LPUART_UART_IP_TIMEOUT_VALUE_US in
     ElapsedTicks ← poll_alone LPUART_UART_IP_DATA_REG_FULL TimeoutTicks;
     uwhen (Lpuart_Uart_Ip_CheckTimeout ElapsedTicks TimeoutTicks).1 (upd_uart (set_ReceiveStatus LPUART_UART_IP_STATUS_TIMEOUT)));;
  Lpuart_Uart_Ip_SetReceiverCmd false;;
  _ ← Lpuart_Uart_Ip_Getchar;
  upd_uart (set_IsRxBusy false);;
  upd_uart (fun u =>
    if bool_decide (ReceiveStatus u = LPUART_UART_IP_STATUS_BUSY) then set_ReceiveStatus LPUART_UART_IP_STATUS_SUCCESS u else u).

Definition Lpuart_Uart_Ip_GetReceiveStatus : UM B (Lpuart_Uart_Ip_StatusType * Z) :=
  assert_uart;;
  assert_config;;
  u ← get_uart;
  mret (ReceiveStatus u, if IsRxBusy u then RxSize u else 0).

Definition Lpuart_Uart_Ip_AbortReceivingData : UM B Lpuart_Uart_Ip_StatusType :=
  assert_uart;;
  assert_config;;
  u ← get_uart;
  uwhen (IsRxBusy u)
    (put_uart (set_ReceiveStatus LPUART_UART_IP_STATUS_ABORTED u);;
     Lpuart_Uart_Ip_CompleteReceiveDataUsingInt;;
     Lpuart_Uart_Ip_ClearErrorFlags;;
     Lpuart_Uart_Ip_FlushRxBuffer);;
  u ← get_uart;
  mret (if bool_decide (ReceiveStatus u = LPUART_UART_IP_STATUS_TIMEOUT) then LPUART_UART_IP_STATUS_ERROR
        else LPUART_UART_IP_STATUS_SUCCESS).

Definition Lpuart_Uart_Ip_SetTxBuffer (buff size : Z) : UM B unit :=
  uassert (negb (buff =? 0));; uassert (size >? 0);; upd_uart (set_Tx buff size).
Definition Lpuart_Uart_Ip_SetRxBuffer (buff size : Z) : UM B unit :=
  uassert (negb (buff =? 0));; uassert (size >? 0);; upd_uart (set_Rx buff size).

(** ** Interrupts *)

(** One of the four branches of [Lpuart_Uart_Ip_ErrIrqHandler]: [IsError] and [IsReturn]. *)
Definition handle_error (f : Lpuart_Uart_Ip_StatusFlagType) (i : Lpuart_Uart_Ip_InterruptType) (s : Lpuart_Uart_Ip_StatusType)
    (IsError IsReturn : bool) : UM B (bool * bool) :=
  b ← Lpuart_Uart_Ip_GetStatusFlag f;
  if b && negb IsReturn then
    e ← Lpuart_Uart_Ip_GetIntMode i;
    if negb e then mret (IsError, true)
    else
      upd_uart (set_ReceiveStatus s);;
      Lpuart_Uart_Ip_ClearStatusFlag f;;
      mret (true, IsReturn)
  else mret (IsError, IsReturn).

Definition Lpuart_Uart_Ip_ErrIrqHandler : UM B unit :=
  '(IsError, IsReturn) ← handle_error LPUART_UART_IP_RX_OVERRUN LPUART_UART_IP_INT_RX_OVERRUN LPUART_UART_IP_STATUS_RX_OVERRUN false false;
  '(IsError, IsReturn) ← handle_error LPUART_UART_IP_FRAME_ERR LPUART_UART_IP_INT_FRAME_ERR_FLAG LPUART_UART_IP_STATUS_FRAMING_ERROR IsError IsReturn;
  '(IsError, IsReturn) ← handle_error LPUART_UART_IP_PARITY_ERR LPUART_UART_IP_INT_PARITY_ERR_FLAG LPUART_UART_IP_STATUS_PARITY_ERROR IsError IsReturn;
  '(IsError, IsReturn) ← handle_error LPUART_UART_IP_NOISE_DETECT LPUART_UART_IP_INT_NOISE_ERR_FLAG LPUART_UART_IP_STATUS_NOISE_ERROR IsError IsReturn;
  uwhen (negb IsReturn && IsError) Lpuart_Uart_Ip_CompleteReceiveDataUsingInt.

Definition Lpuart_Uart_Ip_RxIrqHandler : UM B unit :=
  Lpuart_Uart_Ip_GetData;;
  u ← get_uart;
  uwhen (RxSize u =? 0) Lpuart_Uart_Ip_CompleteReceiveDataUsingInt.

Definition Lpuart_Uart_Ip_TxEmptyIrqHandler : UM B unit :=
  u ← get_uart;
  uwhen (TxSize u >? 0)
    (Lpuart_Uart_Ip_PutData;;
     u ← get_uart;
     uwhen (TxSize u =? 0)
       (Lpuart_Uart_Ip_SetIntMode LPUART_UART_IP_INT_TX_DATA_REG_EMPTY false;;
        Lpuart_Uart_Ip_SetIntMode LPUART_UART_IP_INT_TX_COMPLETE true)).

Definition Lpuart_Uart_Ip_TxCompleteIrqHandler : UM B unit :=
  u ← get_uart;
  uwhen (TxSize u =? 0) Lpuart_Uart_Ip_CompleteSendDataUsingInt.

Definition Lpuart_Uart_Ip_IrqHandler : UM B unit :=
  fun m =>
    match m_state m with
    | None => (_ ← Lpuart_Uart_Ip_Getchar; Lpuart_Uart_Ip_ClearErrorFlags) m
    | Some _ =>
        (Lpuart_Uart_Ip_ErrIrqHandler;;
         full ← Lpuart_Uart_Ip_GetStatusFlag LPUART_UART_IP_DATA_REG_FULL;
         uwhen full
           (e ← Lpuart_Uart_Ip_GetIntMode LPUART_UART_IP_INT_RX_DATA_REG_FULL;
            uwhen e Lpuart_Uart_Ip_RxIrqHandler);;
         empty ← Lpuart_Uart_Ip_GetStatusFlag LPUART_UART_IP_TX_DATA_REG_EMPTY;
         IsReturn ←
           (if empty && negb full then
              e ← Lpuart_Uart_Ip_GetIntMode LPUART_UART_IP_INT_TX_DATA_REG_EMPTY;
              uwhen e Lpuart_Uart_Ip_TxEmptyIrqHandler;;
              mret e
            else mret full);
         complete ← Lpuart_Uart_Ip_GetStatusFlag LPUART_UART_IP_TX_COMPLETE;
         uwhen (complete && negb IsReturn)
           (e ← Lpuart_Uart_Ip_GetIntMode LPUART_UART_IP_INT_TX_COMPLETE;
            uwhen e Lpuart_Uart_Ip_TxCompleteIrqHandler)) m
    end.

(** ** Start and end of the driver *)

(** The state structure after it has been cleared; [LPUART_UART_IP_STATUS_SUCCESS] is 0. *)
Definition cleared_uart : Lpuart_Uart_Ip_StateStructureType :=
  mkUart 0 0 0 0 0 false false LPUART_UART_IP_STATUS_SUCCESS LPUART_UART_IP_STATUS_SUCCESS.

Definition Lpuart_Uart_Ip_Init (c : Lpuart_Uart_Ip_UserConfigType) : UM B unit :=
  fun m =>
    (uassert (match m_state m with None => true | Some _ => false end);;
     uassert (BaudOverSamplingRatio c <=? 0x20);;
     uassert ((BaudRateDivisor c <=? 0x1FFF) && (1 <=? BaudRateDivisor c));;
     put_config c;;
     uassert (bool_decide (BitCountPerChar c <> LPUART_UART_IP_10_BITS_PER_CHAR) || (ParityMode c =? LPUART_UART_IP_PARITY_DISABLED));;
     put_uart cleared_uart;;
     Lpuart_Uart_Ip_Hw_Init;;
     uwhen (BaudOverSamplingRatio c <? 8) Lpuart_Uart_Ip_EnableBothEdgeSamplingCmd;;
     Lpuart_Uart_Ip_SetOversamplingRatio (u32 (BaudOverSamplingRatio c - 1));;
     Lpuart_Uart_Ip_SetBaudRateDivisor (BaudRateDivisor c);;
     Lpuart_Uart_Ip_SetBitCountPerChar (BitCountPerChar c) (negb (ParityMode c =? LPUART_UART_IP_PARITY_DISABLED));;
     Lpuart_Uart_Ip_SetParityMode (ParityMode c);;
     Lpuart_Uart_Ip_SetStopBitCount (StopBitsCount c);;
     upd_uart (fun u => mkUart (cfg_BaudRate c) (TxBuff u) (RxBuff u) (TxSize u) (RxSize u) (IsTxBusy u) (IsRxBusy u)
                               LPUART_UART_IP_STATUS_SUCCESS LPUART_UART_IP_STATUS_SUCCESS)) m.

(** ** The baud rate *)

(** The rate that a pair of [Osr] and [Sbr] gives, and its distance from the desired one. *)
Definition calculated_baud (ClockFrequency Osr Sbr : Z) : res Z :=
  if u32 (Osr * Sbr) =? 0 then Fault DivisionByZero else Ok (ClockFrequency / u32 (Osr * Sbr)).
Definition baud_diff (CalculatedBaud ExpectedBaud : Z) : Z :=
  if CalculatedBaud >? ExpectedBaud then u32 (CalculatedBaud - ExpectedBaud) else u32 (ExpectedBaud - CalculatedBaud).
Definition sbr_of (ClockFrequency ExpectedBaud Osr : Z) : Z := u16 (ClockFrequency / u32 (ExpectedBaud * Osr)).

(** The variables of the search in [Lpuart_Uart_Ip_SetBaudRate]. *)
Record baud_search : Set := mkSearch { bs_Osr : Z; bs_Sbr : Z; bs_BaudDiff : Z; bs_CalculatedBaud : Z }.

(** The loop [for (Idx = 5; Idx <= MaxOsr; Idx++)], over the values of [Idx]. *)
Fixpoint search_osr (ClockFrequency ExpectedBaud : Z) (idxs : list Z) (b : baud_search) : res baud_search :=
  match idxs with
  | [] => Ok b
  | Idx :: idxs =>
      let SbrTemp := sbr_of ClockFrequency ExpectedBaud Idx in
      CalculatedBaud ← calculated_baud ClockFrequency Idx SbrTemp;
      let TempDiff := baud_diff CalculatedBaud ExpectedBaud in
      search_osr ClockFrequency ExpectedBaud idxs
        (if TempDiff <=? bs_BaudDiff b then mkSearch Idx SbrTemp TempDiff CalculatedBaud
         else mkSearch (bs_Osr b) (bs_Sbr b) (bs_BaudDiff b) CalculatedBaud)
  end.

Definition search_baud (ClockFrequency ExpectedBaud : Z) : res baud_search :=
  let Sbr := sbr_of ClockFrequency ExpectedBaud 4 in
  CalculatedBaud ← calculated_baud ClockFrequency 4 Sbr;
  let MaxOsr := Z.min 32 (ClockFrequency / ExpectedBaud) in
  search_osr ClockFrequency ExpectedBaud (seqZ 5 (MaxOsr - 4)) (mkSearch 4 Sbr (baud_diff CalculatedBaud ExpectedBaud) CalculatedBaud).

Definition Lpuart_Uart_Ip_SetBaudRate (ExpectedBaud ClockFrequency : Z) : UM B Lpuart_Uart_Ip_StatusType :=
  assert_uart;;
  u ← get_uart;
  if IsTxBusy u || IsRxBusy u then mret LPUART_UART_IP_STATUS_BUSY
  else
    uassert (ClockFrequency >? 0);;
    uassert (ClockFrequency >=? u32 (ExpectedBaud * 4));;
    b ← ulift (search_baud ClockFrequency ExpectedBaud);
    uwhen (bs_Osr b <? 8) Lpuart_Uart_Ip_EnableBothEdgeSamplingCmd;;
    Lpuart_Uart_Ip_SetOversamplingRatio (u32 (bs_Osr b - 1));;
    Lpuart_Uart_Ip_SetBaudRateDivisor (bs_Sbr b);;
    upd_uart (set_BaudRate (bs_CalculatedBaud b));;
    mret LPUART_UART_IP_STATUS_SUCCESS.

Definition Lpuart_Uart_Ip_GetBaudRate : UM B Z := u ← get_uart; mret (BaudRate u).

(** The loop of [Lpuart_Uart_Ip_Deinit] reads the flags of the state structure, which
    only an interrupt changes; none comes in within its first round. *)
Fixpoint wait_idle (fuel : nat) (ElapsedTicks TimeoutTicks : Z) : UM B Z :=
  u ← get_uart;
  if IsTxBusy u || IsRxBusy u then
    let '(t, ElapsedTicks) := Lpuart_Uart_Ip_CheckTimeout ElapsedTicks TimeoutTicks in
    if t : bool then mret ElapsedTicks
    else match fuel with O => ufail OutOfFuel | S fuel => wait_idle fuel ElapsedTicks TimeoutTicks end
  else mret ElapsedTicks.

Definition Lpuart_Uart_Ip_Deinit : UM B Lpuart_Uart_Ip_StatusType :=
  assert_uart;;
  let TimeoutTicks := Lpuart_Uart_Ip_StartTimeout LPUART_UART_IP_TIMEOUT_VALUE_US in
  ElapsedTicks ← wait_idle (Z.to_nat TimeoutTicks) 0 TimeoutTicks;
  if (Lpuart_Uart_Ip_CheckTimeout ElapsedTicks TimeoutTicks).1 : bool then mret LPUART_UART_IP_STATUS_ERROR
  else
    Lpuart_Uart_Ip_SetIntMode LPUART_UART_IP_INT_TX_DATA_REG_EMPTY false;;
    Lpuart_Uart_Ip_SetIntMode LPUART_UART_IP_INT_TX_COMPLETE false;;
    Lpuart_Uart_Ip_SetIntMode LPUART_UART_IP_INT_RX_DATA_REG_FULL false;;
    Lpuart_Uart_Ip_SetIntMode LPUART_UART_IP_INT_RX_OVERRUN false;;
    Lpuart_Uart_Ip_SetIntMode LPUART_UART_IP_INT_PARITY_ERR_FLAG false;;
    Lpuart_Uart_Ip_SetIntMode LPUART_UART_IP_INT_NOISE_ERR_FLAG false;;
    Lpuart_Uart_Ip_SetIntMode LPUART_UART_IP_INT_FRAME_ERR_FLAG false;;
    forget_uart;;
    mret LPUART_UART_IP_STATUS_SUCCESS.

End Driver.
