(* ===== verification/LpuartDriverTheory.v ===== *)
(** * The driver of the serial port over the device

    What each operation of [LpuartDriver] does to the driver and the port: the bits
    of the control register, the flags the port shows, sending, receiving and the
    interrupts. *)

From S2P Require Import Prelude Bits Clock CharMux Lpuart LpuartTheory.
From S2P Require Import LpuartDriver.

(** ** Words bit by bit *)

Lemma bit_testbit n i : 0 <= n < 32 -> 0 <= i -> Z.testbit (bit n) i = (i =? n).
Proof.
  intros Hn Hi. unfold bit. rewrite wrapu_testbit, Z.shiftl_spec by lia.
  destruct (Z.eqb_spec i n) as [->|Hne].
  - rewrite Z.sub_diag. cbn. lia.
  - destruct (Z.ltb_spec i n).
    + rewrite Z.testbit_neg_r by lia. by rewrite andb_false_r.
    + change 1 with (2 ^ 0). rewrite Z.pow2_bits_false by lia. by rewrite andb_false_r.
Qed.

Lemma u32_lnot_testbit v i : 0 <= i < 32 -> Z.testbit (u32 (.~ v)) i = negb (Z.testbit v i).
Proof.
  intros Hi. rewrite wrapu_testbit, Z.lnot_spec by lia. by destruct (Z.ltb_spec i 32); [|lia].
Qed.

Lemma enabled_testbit b n i : 0 <= n < 32 -> 0 <= i -> Z.testbit (enabled b n) i = b && (i =? n).
Proof. intros Hn Hi. destruct b; cbn; [by apply bit_testbit|apply Z.bits_0]. Qed.

(** A word with a bit set or cleared, as the driver writes it. *)
Definition with_bit (n : Z) (b : bool) (w : Z) : Z := u32 (masked w (bit n) .| enabled b n).

Lemma with_bit_range n b w : in_range 32 (with_bit n b w).
Proof. apply in_range_wrapu. lia. Qed.

Lemma with_bit_testbit n b w i :
  0 <= n < 32 -> 0 <= i < 32 ->
  Z.testbit (with_bit n b w) i = if i =? n then b else Z.testbit w i.
Proof.
  intros Hn Hi. unfold with_bit, masked.
  rewrite wrapu_testbit, Z.lor_spec, Z.land_spec, u32_lnot_testbit, bit_testbit, enabled_testbit by lia.
  destruct (Z.ltb_spec i 32); [|lia]. destruct (Z.eqb_spec i n), b, (Z.testbit w i); cbn; done.
Qed.

(** Two 32-bit words with the same bits are equal. *)
Lemma word_ext v w :
  in_range 32 v -> in_range 32 w -> (forall i, 0 <= i < 32 -> Z.testbit v i = Z.testbit w i) -> v = w.
Proof.
  intros Hv Hw H. apply Z.bits_inj'. intros i Hi.
  apply in_range_testbit in Hv as [Hv _]; [|lia]. apply in_range_testbit in Hw as [Hw _]; [|lia].
  destruct (Z.lt_ge_cases i 32) as [Hl|Hl]; [by apply H|by rewrite Hv, Hw].
Qed.

(** A word with some bits cleared. *)
Definition bits_off (l : list Z) (w : Z) : Z := foldl (fun w n => with_bit n false w) w l.

Lemma bits_off_testbit l : forall w i,
  Forall (fun n => 0 <= n < 32) l -> 0 <= i < 32 ->
  Z.testbit (bits_off l w) i = negb (bool_decide (i ∈ l)) && Z.testbit w i.
Proof.
  induction l as [|n l IH]; intros w i Hl Hi; [done|].
  apply Forall_cons in Hl as [Hn Hl]. cbn [bits_off foldl]. fold (bits_off l (with_bit n false w)).
  rewrite IH, with_bit_testbit by done.
  destruct (Z.eqb_spec i n) as [->|Hne].
  - rewrite (bool_decide_true (n ∈ n :: l)) by (by left). by rewrite andb_false_r.
  - f_equal. f_equal. apply bool_decide_ext. rewrite elem_of_cons. split; [by right|by intros [?|?]].
Qed.

Lemma bits_off_range l w : in_range 32 w -> in_range 32 (bits_off l w).
Proof.
  revert w. induction l as [|n l IH]; intros w Hw; [done|]. apply IH, with_bit_range.
Qed.

(** Membership in a given list. *)
Ltac in_bits := apply (bool_decide_unpack _); vm_compute; exact I.

(** ** The layout *)

(** The bits of the control and status registers that the device uses. *)
Definition device_control_bits : list Z := [4; 11; 18; 21; 22; 23].
Definition device_status_bits : list Z := [21; 22; 23].

(** The other bits of the driver are bits of the registers, apart from those of
    the device. *)
Definition layout_ok (y : lpuart_layout) : Prop :=
  Forall (fun n => 0 <= n < 32 /\ n ∉ device_control_bits) [CTRL_TE y; CTRL_ORIE y; CTRL_NEIE y; CTRL_FEIE y; CTRL_PEIE y] /\
  Forall (fun n => 0 <= n < 32 /\ n ∉ device_status_bits) [STAT_OR y; STAT_NF y; STAT_FE y; STAT_PF y] /\
  Forall (fun n => 13 <= n < 24 \/ 29 <= n < 32) [BAUD_BOTHEDGE y; BAUD_M10 y; BAUD_SBNS y].

(** A layout that meets it. *)
Definition demo_layout : lpuart_layout :=
  mkLayout 19 27 26 25 24 1 0 31 30 19 18 17 16 17 29 13 14 15.

Lemma demo_layout_ok : layout_ok demo_layout.
Proof. unfold layout_ok. apply (bool_decide_unpack _). by vm_compute. Qed.

(** ** Running the driver *)

Lemma ubind_ok {B A C} (x : UM B A) (f : A -> UM B C) m a m' : x m = Ok (a, m') -> (x ≫= f) m = f a m'.
Proof. intros H. unfold mbind, UM_bind. by rewrite H. Qed.

(** One step, by the equation of the operation. *)
Ltac ustep H := (erewrite ubind_ok; [|by eapply H]); cbv beta iota.
Ltac ustep_done := erewrite ubind_ok by done; cbv beta iota.

(** The status register shows an empty transmitter at all times. *)
Definition stat_of (full : bool) : Z := if full then 0x00E00000 else LPUART_STAT_RESET.
Definition line_of (w : Z) (full : bool) : bool := Z.testbit w 23 || Z.testbit w 22 || (full && Z.testbit w 21).

(** The port with control register [w], a byte received or not, and data register [x]. *)
Definition port (d : NXPS32K358LPUartState) (w : Z) (full : bool) (x : Z) : NXPS32K358LPUartState :=
  set_lpuart_irq (line_of w full) (set_lpuart_control w (set_lpuart_stat (stat_of full) (set_lpuart_data x d))).

(** The machine: the driver with state [u] and the configuration of the firmware. *)
Definition machine {B} (u : Lpuart_Uart_Ip_StateStructureType) (mem : Z -> Z) (d : NXPS32K358LPUartState) (w : Z) (full : bool) (x : Z)
    (chr : B) : uart_machine B :=
  mkMachine (Some u) (Some Lpuart_Uart_Ip_xHwConfigPB_3) mem (port d w full x) chr.

Lemma port_line d w full x : lpuart_irq (port d w full x) = line_of w full.
Proof. done. Qed.

Lemma flag_read v n : 0 <= n -> ((v .>> n) .& 1 >? 0) = Z.testbit v n.
Proof.
  intros Hn. change 1 with (Z.ones 1). rewrite Z.land_ones, Z.shiftr_div_pow2 by lia. change (2 ^ 1) with 2.
  rewrite <- Z.testbit_spec' by lia. by destruct (Z.testbit v n).
Qed.

Lemma stat_of_testbit full n :
  0 <= n < 32 -> Z.testbit (stat_of full) n = (n =? 23) || (n =? 22) || (full && (n =? 21)).
Proof.
  intros Hn.
  assert (H : forallb (fun n => eqb (Z.testbit (stat_of full) n) ((n =? 23) || (n =? 22) || (full && (n =? 21)))) (seqZ 0 32) = true)
    by (by destruct full; vm_compute).
  rewrite forallb_forall in H. apply eqb_prop, H, list_elem_of_In, elem_of_seqZ. lia.
Qed.

Lemma stat_of_range full : in_range 32 (stat_of full).
Proof. by destruct full; vm_compute. Qed.

Lemma u32_id v : in_range 32 v -> u32 v = v.
Proof. apply wrapu_small. Qed.

(** The interrupt line follows the control register and the flags. *)
Lemma update_irq_port d w full x v :
  in_range 32 w ->
  nxps32k358_lpuart_update_irq (set_lpuart_irq v (port d w full x)) = port d w full x.
Proof.
  intros Hw. rewrite update_irq_eq. unfold port. unfold irq_request.
  cbn [set_lpuart_irq set_lpuart_control set_lpuart_stat set_lpuart_data lpuart_stat lpuart_control].
  rewrite (u32_id (stat_of full)) by apply stat_of_range. rewrite (u32_id w), !stat_of_testbit by (done || lia).
  unfold set_lpuart_irq, line_of. cbn [lpuart_port lpuart_verid lpuart_param lpuart_global lpuart_pincfg lpuart_baud lpuart_stat
    lpuart_control lpuart_data lpuart_match lpuart_modir lpuart_fifo lpuart_water lpuart_dataro lpuart_mcr lpuart_msr lpuart_reir
    lpuart_teir lpuart_hdcr lpuart_tocr lpuart_tosr lpuart_timeout lpuart_tcb lpuart_tdb].
  f_equal. by destruct full.
Qed.

Section Machine.
Context {B : Type} {Chr : CharBackend B} (clk : Clock) (y : lpuart_layout).

Lemma read_control u mem d w full x (chr : B) :
  in_range 32 w -> read_reg A_CONTROL (machine u mem d w full x chr) = Ok (w, machine u mem d w full x chr).
Proof. intros Hw. unfold read_reg, machine, port. cbn. by rewrite (u32_id w). Qed.

Lemma read_stat u mem d w full x (chr : B) :
  read_reg A_STAT (machine u mem d w full x chr) = Ok (stat_of full, machine u mem d w full x chr).
Proof. unfold read_reg, machine, port. cbn. by rewrite (u32_id (stat_of full)) by apply stat_of_range. Qed.

Lemma write_control v u mem d w full x (chr : B) :
  in_range 32 v -> write_reg clk A_CONTROL v (machine u mem d w full x chr) = Ok (tt, machine u mem d v full x chr).
Proof.
  intros Hv. unfold write_reg, machine, nxps32k358_lpuart_write. cbn -[nxps32k358_lpuart_update_irq].
  rewrite (u32_id v) by done. unfold set_m_port. cbn -[nxps32k358_lpuart_update_irq]. do 3 f_equal.
  exact (update_irq_port d v full x (line_of w full) Hv).
Qed.

Lemma set_control_bit n b u mem d w full x (chr : B) :
  in_range 32 w ->
  update_reg clk A_CONTROL (bit n) (enabled b n) (machine u mem d w full x chr) = Ok (tt, machine u mem d (with_bit n b w) full x chr).
Proof.
  intros Hw. unfold update_reg. ustep (read_control u). apply write_control, with_bit_range.
Qed.

Lemma int_mode_eq i b u mem d w full x (chr : B) :
  in_range 32 w ->
  Lpuart_Uart_Ip_SetIntMode clk y i b (machine u mem d w full x chr) =
    Ok (tt, machine u mem d (with_bit (interrupt_shift y i) b w) full x chr).
Proof. apply set_control_bit. Qed.

Lemma transmitter_eq b u mem d w full x (chr : B) :
  in_range 32 w ->
  Lpuart_Uart_Ip_SetTransmitterCmd clk y b (machine u mem d w full x chr) = Ok (tt, machine u mem d (with_bit (CTRL_TE y) b w) full x chr).
Proof. apply set_control_bit. Qed.

Lemma receiver_eq b u mem d w full x (chr : B) :
  in_range 32 w ->
  Lpuart_Uart_Ip_SetReceiverCmd clk b (machine u mem d w full x chr) = Ok (tt, machine u mem d (with_bit 18 b w) full x chr).
Proof.
  unfold Lpuart_Uart_Ip_SetReceiverCmd. replace (field_mask CONTROL_RE) with (bit 18) by (by vm_compute).
  replace (field_shift CONTROL_RE) with 18 by done. apply set_control_bit.
Qed.

Lemma get_int_mode_eq i u mem d w full x (chr : B) :
  in_range 32 w -> 0 <= interrupt_shift y i ->
  Lpuart_Uart_Ip_GetIntMode y i (machine u mem d w full x chr) =
    Ok (Z.testbit w (interrupt_shift y i), machine u mem d w full x chr).
Proof.
  intros Hw Hi. unfold Lpuart_Uart_Ip_GetIntMode. ustep (read_control u). unfold mret, UM_ret. by rewrite flag_read.
Qed.

(** ** The flags *)

Context (Hy : layout_ok y).

Lemma layout_control n :
  n ∈ [CTRL_TE y; CTRL_ORIE y; CTRL_NEIE y; CTRL_FEIE y; CTRL_PEIE y] -> 0 <= n < 32 /\ n ∉ device_control_bits.
Proof. destruct Hy as (H & _ & _). rewrite Forall_forall in H. apply H. Qed.

Lemma layout_status n : n ∈ [STAT_OR y; STAT_NF y; STAT_FE y; STAT_PF y] -> 0 <= n < 32 /\ n ∉ device_status_bits.
Proof. destruct Hy as (_ & H & _). rewrite Forall_forall in H. apply H. Qed.

Lemma interrupt_shift_range i : 0 <= interrupt_shift y i < 32.
Proof. destruct i; cbn; try lia; apply layout_control; set_solver. Qed.

Lemma TE_range : 0 <= CTRL_TE y < 32.
Proof. apply layout_control. by left. Qed.

(** What the port shows to the driver. *)
Definition flag_of (full : bool) (f : Lpuart_Uart_Ip_StatusFlagType) : bool :=
  match f with
  | LPUART_UART_IP_TX_DATA_REG_EMPTY | LPUART_UART_IP_TX_COMPLETE => true
  | LPUART_UART_IP_DATA_REG_FULL => full
  | _ => false
  end.

Lemma error_bit full n : 0 <= n < 32 /\ n ∉ device_status_bits -> Z.testbit (stat_of full) n = false.
Proof.
  intros [Hn Hd]. rewrite stat_of_testbit by done. unfold device_status_bits in Hd. rewrite !not_elem_of_cons in Hd.
  destruct Hd as (? & ? & ? & _). destruct (Z.eqb_spec n 23), (Z.eqb_spec n 22), (Z.eqb_spec n 21), full; done.
Qed.

Lemma status_flag f u mem d w full x (chr : B) :
  Lpuart_Uart_Ip_GetStatusFlag y f (machine u mem d w full x chr) = Ok (flag_of full f, machine u mem d w full x chr).
Proof.
  unfold Lpuart_Uart_Ip_GetStatusFlag. ustep (read_stat u). unfold mret, UM_ret. do 2 f_equal.
  assert (Hs : 0 <= status_shift y f < 32) by (destruct f; cbn; try lia; apply layout_status; set_solver).
  rewrite flag_read by lia. clear Hs.
  destruct f; cbn [flag_of status_shift]; try (apply error_bit, layout_status; set_solver); by destruct full.
Qed.

Lemma clear_status_eq v u mem d w full x (chr : B) :
  Lpuart_Uart_Ip_ClearStatusFlagWithMask clk v (machine u mem d w full x chr) = Ok (tt, machine u mem d w full x chr).
Proof. unfold Lpuart_Uart_Ip_ClearStatusFlagWithMask. by ustep (read_stat u). Qed.

(** A byte from the host is dropped while the receiver is off. *)
Lemma host_byte_off o u mem d w full x (chr : B) :
  in_range 32 w -> Z.testbit w 18 = false ->
  host_byte o (machine u mem d w full x chr) = Ok (tt, machine u mem d w full x chr).
Proof.
  intros Hw Hre. destruct o as [v|]; [|done]. unfold host_byte, machine. cbn [m_dev].
  assert (Hc : nxps32k358_lpuart_receive v (port d w full x) = port d w full x).
  { unfold nxps32k358_lpuart_receive. change CONTROL_RE with (flag 18). rewrite truthy_flag by lia.
    replace (lpuart_control (port d w full x)) with w by (unfold port; cbn; by rewrite u32_id). by rewrite Hre. }
  rewrite Hc. by destruct (nxps32k358_lpuart_can_receive _).
Qed.

Lemma poll_set host f e T u mem d w full x (chr : B) :
  in_range 32 w -> Z.testbit w 18 = false -> flag_of full f = true -> host <> [] ->
  poll y host f e T (machine u mem d w full x chr) = Ok (Some (e, tail host), machine u mem d w full x chr).
Proof.
  intros Hw Hre Hf Hh. destruct host as [|o host]; [done|]. cbn [poll tail].
  ustep host_byte_off. ustep status_flag. by rewrite Hf.
Qed.

Lemma poll_alone_set f T u mem d w full x (chr : B) :
  flag_of full f = true ->
  poll_alone y f T (machine u mem d w full x chr) = Ok (0, machine u mem d w full x chr).
Proof.
  intros Hf. unfold poll_alone. cbn [replicate].
  assert (H : forall host : list (option Z),
    poll y (None :: host) f 0 T (machine u mem d w full x chr) = Ok (Some (0, host), machine u mem d w full x chr)).
  { intros host. cbn [poll host_byte]. erewrite ubind_ok by done. ustep status_flag. by rewrite Hf. }
  by ustep H.
Qed.

(** ** Sending *)

Definition bytes_ok (mem : Z -> Z) : Prop := forall a, in_range 8 (mem a).
Definition read_bytes (mem : Z -> Z) (a : Z) (n : nat) : list Z := (fun i => mem (a + Z.of_nat i)) <$> seq 0 n.
(** The bytes written to the character back end one by one. *)
Definition chr_send (l : list Z) (chr : B) : B := foldl (fun chr v => chr_fe_write_all [v] chr) chr l.

Lemma read_bytes_S mem a n : read_bytes mem a (S n) = mem a :: read_bytes mem (a + 1) n.
Proof.
  unfold read_bytes. cbn [seq fmap list_fmap]. f_equal; [f_equal; lia|].
  rewrite <- (fmap_S_seq 0 n), <- list_fmap_compose. apply list_fmap_ext. intros i j _. cbn. f_equal. lia.
Qed.

(** The characters are bytes: neither seven nor nine bits. *)
Definition eight_bits (w : Z) : Prop := Z.testbit w 4 = false /\ Z.testbit w 11 = false.

Lemma put_data_eq u mem d w full x (chr : B) :
  in_range 32 w -> eight_bits w -> bytes_ok mem ->
  Lpuart_Uart_Ip_PutData clk y (machine u mem d w full x chr) =
    Ok (tt, machine (set_Tx (u32 (TxBuff u + 1)) (TxSize u - 1) u) mem d w full x (chr_send [mem (TxBuff u)] chr)).
Proof.
  intros Hw [H4 H11] Hb. unfold Lpuart_Uart_Ip_PutData. do 2 (erewrite ubind_ok by done).
  rewrite bool_decide_true by (by right). do 2 (erewrite ubind_ok by done).
  unfold Lpuart_Uart_Ip_Putchar, machine, nxps32k358_lpuart_write.
  cbn -[field_mask truthy wrapu port]. change CONTROL_M with (flag 4). change CONTROL_M7 with (flag 11).
  rewrite !truthy_flag by lia.
  replace (lpuart_control (port d w full x)) with w by (unfold port; cbn; by rewrite u32_id).
  rewrite H4, H11. cbn -[wrapu port]. specialize (Hb (TxBuff u)). unfold in_range in Hb.
  rewrite (wrapu_small 32), (wrapu_small 8) by lia. done.
Qed.

Lemma set_Tx_twice a n b k u : set_Tx a n (set_Tx b k u) = set_Tx a n u.
Proof. done. Qed.

(** How many bytes the loop sends before the time-out, and the ticks it counts. *)
Definition sent (n : nat) (e T : Z) : nat := Nat.min n (Z.to_nat (T - 1 - e)).
Definition sent_ticks (n : nat) (e T : Z) : Z := if (sent n e T <? n)%nat then e + Z.of_nat (sent n e T) + 1 else e + Z.of_nat n.

Lemma sent_S n e T : e + 1 < T -> sent (S n) e T = S (sent n (e + 1) T).
Proof. intros H. unfold sent. lia. Qed.

Lemma sent_ticks_S n e T : e + 1 < T -> sent_ticks (S n) e T = sent_ticks n (e + 1) T.
Proof. intros H. unfold sent_ticks. rewrite sent_S by done. destruct (Nat.ltb_spec (S (sent n (e + 1) T)) (S n)), (Nat.ltb_spec (sent n (e + 1) T) n); lia. Qed.

Lemma send_loop_eq mem d w full x T :
  in_range 32 w -> eight_bits w -> Z.testbit w 18 = false -> bytes_ok mem -> 0 <= T < 2 ^ 32 ->
  forall n u host e (chr : B),
  TxSize u = Z.of_nat n -> 0 <= TxBuff u -> TxBuff u + Z.of_nat n < 2 ^ 32 -> 0 <= e -> e + Z.of_nat n < 2 ^ 32 -> (n <= length host)%nat ->
  send_loop clk y n host e T (machine u mem d w full x chr) =
    Ok (Some (sent_ticks n e T),
        machine (set_Tx (TxBuff u + Z.of_nat (sent n e T)) (Z.of_nat (n - sent n e T)) u) mem d w full x
          (chr_send (read_bytes mem (TxBuff u) (sent n e T)) chr)).
Proof.
  intros Hw H8 Hre Hb HT n. induction n as [|n IH]; intros u host e chr Hs Ha Han He Hen Hh.
  - cbn [send_loop]. erewrite ubind_ok by done. rewrite Hs. cbn -[Z.of_nat]. unfold sent_ticks, sent. cbn.
    rewrite !Z.add_0_r. destruct u. cbn in *. by subst.
  - cbn [send_loop]. erewrite ubind_ok by done. rewrite Hs. destruct (Z.gtb_spec (Z.of_nat (S n)) 0); [|lia].
    unfold Lpuart_Uart_Ip_CheckTimeout, OsIf_Timer_Dummy_GetElapsed. rewrite (wrapu_small 32 (e + 1)) by lia.
    destruct (Z.geb_spec (e + 1) T) as [Ht|Ht].
    + replace (sent_ticks (S n) e T) with (e + 1) by (unfold sent_ticks, sent; replace (Z.to_nat (T - 1 - e)) with 0%nat by lia; cbn; lia).
      replace (sent (S n) e T) with 0%nat by (unfold sent; lia). cbn [read_bytes seq fmap list_fmap chr_send foldl].
      unfold mret, UM_ret. do 2 f_equal. destruct u. cbn in *. subst. unfold set_Tx. cbn. f_equal. rewrite wrapu_small by lia. f_equal. lia.
    + ustep put_data_eq. cbv beta. destruct host as [|o host]; [cbn in Hh; lia|].
      ustep poll_set. cbn [tail]. rewrite wrapu_small by lia. rewrite IH; cbn [set_Tx TxSize TxBuff]; rewrite ?wrapu_small by lia; try lia.
      * rewrite sent_S, sent_ticks_S, read_bytes_S by lia. rewrite set_Tx_twice. do 2 f_equal. f_equal. f_equal; lia.
      * cbn in Hh. lia.
Qed.

(** Setting a bit and clearing it again. *)
Lemma with_bit_off n b w : 0 <= n < 32 -> with_bit n false (with_bit n b w) = with_bit n false w.
Proof.
  intros Hn. apply word_ext; [apply with_bit_range..|]. intros i Hi. rewrite !with_bit_testbit by lia. by destruct (i =? n).
Qed.

(** The bits of the device under the changes of the other bits. *)
Lemma with_TE_device n b w : n ∈ device_control_bits -> Z.testbit (with_bit (CTRL_TE y) b w) n = Z.testbit w n.
Proof.
  intros Hn. destruct (layout_control (CTRL_TE y)) as [Hr Hd]; [by left|].
  assert (0 <= n < 32) by (unfold device_control_bits in Hn; repeat (apply elem_of_cons in Hn as [->|Hn]; [lia|]); by apply elem_of_nil in Hn).
  rewrite with_bit_testbit by lia. destruct (Z.eqb_spec n (CTRL_TE y)); [by subst|done].
Qed.

Lemma with_bit_other n m b w : 0 <= n < 32 -> 0 <= m < 32 -> m <> n -> Z.testbit (with_bit n b w) m = Z.testbit w m.
Proof. intros Hn Hm Hd. rewrite with_bit_testbit by lia. by destruct (Z.eqb_spec m n). Qed.

(** What becomes of the driver when [k] bytes of a buffer have been sent. *)
Definition tx_done (st : Lpuart_Uart_Ip_StatusType) (a : Z) (left : nat) (u : Lpuart_Uart_Ip_StateStructureType)
  : Lpuart_Uart_Ip_StateStructureType :=
  set_IsTxBusy false (set_TransmitStatus st (set_Tx a (Z.of_nat left) u)).

Lemma sent_timeout n T :
  0 <= T < 2 ^ 32 -> Z.of_nat n + 1 < 2 ^ 32 ->
  (Lpuart_Uart_Ip_CheckTimeout (sent_ticks n 0 T) T).1 = negb (Z.of_nat n + 1 <? T).
Proof.
  intros HT Hn. unfold Lpuart_Uart_Ip_CheckTimeout, OsIf_Timer_Dummy_GetElapsed, sent_ticks, sent. cbn [fst].
  destruct (Nat.ltb_spec (n `min` Z.to_nat (T - 1 - 0)) n).
  - rewrite wrapu_small by lia. destruct (Z.ltb_spec (Z.of_nat n + 1) T); [lia|]. apply Z.geb_le. lia.
  - rewrite wrapu_small by lia. destruct (Z.ltb_spec (Z.of_nat n + 1) T); cbn; [apply not_true_iff_false|]; rewrite Z.geb_le; lia.
Qed.

Lemma sync_send_eq mem d w full x T n a host u (chr : B) :
  in_range 32 w -> eight_bits w -> Z.testbit w 18 = false -> bytes_ok mem -> 0 <= T < 2 ^ 32 ->
  IsTxBusy u = false -> 0 < a -> (0 < n)%nat -> a + Z.of_nat n < 2 ^ 32 -> (n <= length host)%nat ->
  let st := if Z.of_nat n + 1 <? T then LPUART_UART_IP_STATUS_SUCCESS else LPUART_UART_IP_STATUS_TIMEOUT in
  let k := sent n 0 T in
  Lpuart_Uart_Ip_SyncSend clk y host a (Z.of_nat n) T (machine u mem d w full x chr) =
    Ok (Some st, machine (tx_done st (a + Z.of_nat k) (n - k) u) mem d (bits_off [23; 22; CTRL_TE y] w) full x
                   (chr_send (read_bytes mem a k) chr)).
Proof.
  intros Hw [H4 H11] Hre Hb HT Hu Ha Hn Han Hh st k. unfold Lpuart_Uart_Ip_SyncSend.
  destruct (Z.eqb_spec a 0); [lia|]. destruct (Z.gtb_spec (Z.of_nat n) 0); [|lia]. do 4 (erewrite ubind_ok by done). rewrite Hu.
  erewrite ubind_ok by done.
  change (set_m_state (Some ?v) (machine u mem d w full x chr)) with (machine v mem d w full x chr).
  ustep int_mode_eq. erewrite ubind_ok by (apply int_mode_eq, with_bit_range). erewrite ubind_ok by (apply transmitter_eq, with_bit_range).
  cbn [interrupt_shift CONTROL_TIE CONTROL_TCIE field_shift]. cbv zeta. rewrite Nat2Z.id. unfold Lpuart_Uart_Ip_StartTimeout, OsIf_Timer_Dummy_MicrosToTicks.
  set (w1 := with_bit (CTRL_TE y) true _).
  assert (Hd : Z.testbit w1 4 = false /\ Z.testbit w1 11 = false /\ Z.testbit w1 18 = false)
    by (unfold w1; by rewrite !with_TE_device, !with_bit_other by (lia || in_bits)).
  destruct Hd as (Hd4 & Hd11 & Hd18).
  erewrite ubind_ok by (apply send_loop_eq; cbn [set_TransmitStatus set_IsTxBusy set_Tx TxSize TxBuff]; rewrite ?wrapu_small by lia;
    first [done | lia | apply with_bit_range]).
  cbv beta iota.
  erewrite ubind_ok by (apply transmitter_eq, with_bit_range). rewrite sent_timeout by lia.
  unfold w1. rewrite with_bit_off by apply TE_range. fold k. subst st.
  by destruct (Z.of_nat n + 1 <? T).
Qed.

(** ** Sending by interrupts *)

Lemma ubind_assoc {A C D} (x : UM B A) (f : A -> UM B C) (g : C -> UM B D) m :
  ((x ≫= f) ≫= g) m = (x ≫= (fun a => f a ≫= g)) m.
Proof. unfold mbind, UM_bind. by destruct (x m) as [[a m']|]. Qed.

Lemma status_flag_any f (m : uart_machine B) : exists b, Lpuart_Uart_Ip_GetStatusFlag y f m = Ok (b, m).
Proof. destruct m. by eexists. Qed.

(** The processor enters the handler again as long as the line is high. *)
Fixpoint serve (fuel : nat) : UM B unit :=
  fun m =>
    if lpuart_irq (m_dev m) then
      match fuel with
      | O => Fault OutOfFuel
      | S fuel => (Lpuart_Uart_Ip_IrqHandler clk y;; serve fuel) m
      end
    else Ok (tt, m).

Lemma handle_error_none f i st e r u mem d w full x (chr : B) :
  flag_of full f = false ->
  handle_error clk y f i st e r (machine u mem d w full x chr) = Ok ((e, r), machine u mem d w full x chr).
Proof. intros Hf. unfold handle_error. ustep status_flag. by rewrite Hf. Qed.

Lemma err_irq_eq u mem d w full x (chr : B) :
  Lpuart_Uart_Ip_ErrIrqHandler clk y (machine u mem d w full x chr) = Ok (tt, machine u mem d w full x chr).
Proof. unfold Lpuart_Uart_Ip_ErrIrqHandler. do 4 ustep handle_error_none. done. Qed.

(** The handler with an empty receiver: at most one of the two interrupts of
    transmission is handled. *)
Lemma irq_transmit u mem d w x (chr : B) :
  in_range 32 w ->
  Lpuart_Uart_Ip_IrqHandler clk y (machine u mem d w false x chr) =
    (if Z.testbit w 23 then Lpuart_Uart_Ip_TxEmptyIrqHandler clk y
     else if Z.testbit w 22 then Lpuart_Uart_Ip_TxCompleteIrqHandler clk y else mret tt) (machine u mem d w false x chr).
Proof.
  intros Hw. unfold Lpuart_Uart_Ip_IrqHandler. cbn [machine m_state]. fold (machine u mem d w false x chr).
  ustep err_irq_eq. ustep status_flag. cbn [flag_of uwhen]. ustep_done. ustep status_flag. cbn [flag_of andb negb].
  assert (Hg : forall i, Lpuart_Uart_Ip_GetIntMode y i (machine u mem d w false x chr) =
    Ok (Z.testbit w (interrupt_shift y i), machine u mem d w false x chr))
    by (intros i; apply get_int_mode_eq; [done|apply interrupt_shift_range]).
  destruct (Z.testbit w 23) eqn:H23; cbv iota.
  - rewrite (ubind_assoc (Lpuart_Uart_Ip_GetIntMode y _)). ustep Hg. cbn [interrupt_shift CONTROL_TIE field_shift]. rewrite H23. cbn [uwhen].
    rewrite ubind_assoc. unfold mbind at 1, UM_bind at 1. destruct (Lpuart_Uart_Ip_TxEmptyIrqHandler clk y _) as [[[] m']|]; [|done].
    ustep_done. destruct (status_flag_any LPUART_UART_IP_TX_COMPLETE m') as [b Hb]. ustep Hb.
    by rewrite andb_false_r.
  - rewrite (ubind_assoc (Lpuart_Uart_Ip_GetIntMode y _)). ustep Hg. cbn [interrupt_shift CONTROL_TIE field_shift]. rewrite H23. cbn [uwhen].
    rewrite ubind_assoc. do 2 ustep_done. ustep status_flag. cbn [flag_of andb negb uwhen]. ustep Hg.
    cbn [interrupt_shift CONTROL_TCIE field_shift]. by destruct (Z.testbit w 22).
Qed.

Lemma with_bit_on n b w : 0 <= n < 32 -> Z.testbit (with_bit n b w) n = b.
Proof. intros Hn. rewrite with_bit_testbit by lia. by rewrite Z.eqb_refl. Qed.

(** The interrupt for an empty transmitter sends a byte; after the last one the
    driver waits for the end of the transmission. *)
Lemma tx_empty_eq n u mem d w full x (chr : B) :
  in_range 32 w -> eight_bits w -> bytes_ok mem -> TxSize u = Z.of_nat (S n) -> Z.of_nat (S n) < 2 ^ 32 -> 0 <= TxBuff u < 2 ^ 32 - 1 ->
  Lpuart_Uart_Ip_TxEmptyIrqHandler clk y (machine u mem d w full x chr) =
    Ok (tt, machine (set_Tx (TxBuff u + 1) (Z.of_nat n) u) mem d
              (if (n =? 0)%nat then with_bit 22 true (with_bit 23 false w) else w) full x (chr_send [mem (TxBuff u)] chr)).
Proof.
  intros Hw H8 Hb Hs Hn Ha. unfold Lpuart_Uart_Ip_TxEmptyIrqHandler. ustep_done. rewrite Hs.
  destruct (Z.gtb_spec (Z.of_nat (S n)) 0); [|lia]. cbn [uwhen]. ustep put_data_eq. ustep_done.
  rewrite (wrapu_small 32 (TxBuff u + 1)) by lia. rewrite Hs. replace (Z.of_nat (S n) - 1) with (Z.of_nat n) by lia.
  cbn [set_Tx TxSize]. rewrite wrapu_small by lia. destruct n as [|n]; cbn [Nat.eqb]; [|by destruct (Z.eqb_spec (Z.of_nat (S n)) 0); [lia|]].
  change (Z.of_nat 0 =? 0) with true. cbn [uwhen]. ustep int_mode_eq. apply int_mode_eq, with_bit_range.
Qed.

(** The interrupt for the end of a transmission; the time-out is 0, so that the
    check after the wait always reports one. *)
Lemma tx_complete_eq u mem d w full x (chr : B) :
  in_range 32 w -> TxSize u = 0 -> TransmitStatus u = LPUART_UART_IP_STATUS_BUSY ->
  Lpuart_Uart_Ip_TxCompleteIrqHandler clk y (machine u mem d w full x chr) =
    Ok (tt, machine (set_IsTxBusy false (set_TransmitStatus LPUART_UART_IP_STATUS_TIMEOUT u)) mem d
              (with_bit (CTRL_TE y) false (with_bit 22 false w)) full x chr).
Proof.
  intros Hw Hs Ht. unfold Lpuart_Uart_Ip_TxCompleteIrqHandler. ustep_done. rewrite Hs. change (0 =? 0) with true. cbn [uwhen].
  unfold Lpuart_Uart_Ip_CompleteSendDataUsingInt. ustep_done. rewrite Ht, bool_decide_true by done. cbn [negb uwhen]. ustep_done.
  ustep int_mode_eq. ustep poll_alone_set. change ((Lpuart_Uart_Ip_CheckTimeout 0 _).1) with true. cbn [uwhen].
  ustep_done. change (set_m_state (Some ?v) (machine u mem d ?z full x chr)) with (machine v mem d z full x chr).
  erewrite ubind_ok by (apply transmitter_eq, with_bit_range). done.
Qed.

Lemma serve_step fuel u mem d w full x (chr : B) :
  line_of w full = true ->
  serve (S fuel) (machine u mem d w full x chr) = (Lpuart_Uart_Ip_IrqHandler clk y;; serve fuel) (machine u mem d w full x chr).
Proof. intros Hl. cbn [serve machine m_dev]. rewrite port_line, Hl. done. Qed.

Lemma serve_stop fuel u mem d w full x (chr : B) :
  line_of w full = false -> serve fuel (machine u mem d w full x chr) = Ok (tt, machine u mem d w full x chr).
Proof. intros Hl. destruct fuel; cbn [serve machine m_dev]; by rewrite port_line, Hl. Qed.

(** After the last byte: the end of the transmission, and the line is low. *)
Lemma serve_complete u mem d w x (chr : B) :
  in_range 32 w -> Z.testbit w 23 = false -> Z.testbit w 22 = true -> TxSize u = 0 -> TransmitStatus u = LPUART_UART_IP_STATUS_BUSY ->
  serve 1 (machine u mem d w false x chr) =
    Ok (tt, machine (set_IsTxBusy false (set_TransmitStatus LPUART_UART_IP_STATUS_TIMEOUT u)) mem d
              (with_bit (CTRL_TE y) false (with_bit 22 false w)) false x chr).
Proof.
  intros Hw H23 H22 Hs Ht. rewrite serve_step by (unfold line_of; by rewrite H23, H22).
  erewrite ubind_ok; [|rewrite irq_transmit by done; rewrite H23, H22; by apply tx_complete_eq].
  apply serve_stop. unfold line_of. by rewrite !with_TE_device, (with_bit_other _ 23), with_bit_on, H23 by (lia || in_bits).
Qed.

Lemma serve_send mem d x : bytes_ok mem ->
  forall n w u (chr : B),
  in_range 32 w -> eight_bits w -> Z.testbit w 23 = true ->
  TxSize u = Z.of_nat (S n) -> TransmitStatus u = LPUART_UART_IP_STATUS_BUSY -> 0 <= TxBuff u -> TxBuff u + Z.of_nat (S n) < 2 ^ 32 ->
  serve (S (S n)) (machine u mem d w false x chr) =
    Ok (tt, machine (tx_done LPUART_UART_IP_STATUS_TIMEOUT (TxBuff u + Z.of_nat (S n)) 0 u) mem d
              (bits_off [23; 22; CTRL_TE y] w) false x (chr_send (read_bytes mem (TxBuff u) (S n)) chr)).
Proof.
  intros Hb n. induction n as [|n IH]; intros w u chr Hw H8 H23 Hs Ht Ha Han;
    (rewrite serve_step by (unfold line_of; by rewrite H23));
    (erewrite ubind_ok; [|rewrite irq_transmit, H23 by done; apply tx_empty_eq; [done|done|done|exact Hs|lia|lia]]).
  - cbn [Nat.eqb]. rewrite serve_complete; [|apply with_bit_range| | |done|done].
    + by rewrite (with_bit_off 22), read_bytes_S by lia.
    + by rewrite with_bit_other, with_bit_on by lia.
    + by rewrite with_bit_on by lia.
  - cbn [Nat.eqb]. cbv iota. rewrite IH; try done; cbn [set_Tx TxSize TxBuff TransmitStatus]; rewrite ?wrapu_small by lia; try lia; try done.
    rewrite (read_bytes_S _ _ (S n)). unfold tx_done. rewrite set_Tx_twice. do 3 f_equal. do 3 f_equal. lia.
Qed.

Lemma send_bits_ok : Forall (fun n => 0 <= n < 32) [23; 22; CTRL_TE y].
Proof. repeat (constructor; [first [lia | apply TE_range]|]). constructor. Qed.

(** Bits that are cleared may have been set before. *)
Lemma clear_with_bit l n b w :
  in_range 32 w -> Forall (fun n => 0 <= n < 32) l -> n ∈ l -> bits_off l (with_bit n b w) = bits_off l w.
Proof.
  intros Hw Hl Hn. assert (Hr : 0 <= n < 32) by (rewrite Forall_forall in Hl; by apply Hl).
  apply word_ext; [apply bits_off_range, with_bit_range|by apply bits_off_range|]. intros i Hi.
  rewrite !bits_off_testbit, with_bit_testbit by done. destruct (Z.eqb_spec i n) as [->|]; [|done].
  by rewrite bool_decide_true by done.
Qed.

(** A transmission by interrupts, with as many interrupts as it takes. *)
Definition send_by_interrupts (a : Z) (n : nat) : UM B Lpuart_Uart_Ip_StatusType :=
  st ← Lpuart_Uart_Ip_AsyncSend clk y a (Z.of_nat n); serve (S n);; mret st.

Lemma async_send_eq mem d w x n a u (chr : B) :
  in_range 32 w -> eight_bits w -> bytes_ok mem -> IsTxBusy u = false -> 0 < a -> (0 < n)%nat -> a + Z.of_nat n < 2 ^ 32 ->
  send_by_interrupts a n (machine u mem d w false x chr) =
    Ok (LPUART_UART_IP_STATUS_SUCCESS,
        machine (tx_done LPUART_UART_IP_STATUS_TIMEOUT (a + Z.of_nat n) 0 u) mem d (bits_off [23; 22; CTRL_TE y] w) false x
          (chr_send (read_bytes mem a n) chr)).
Proof.
  intros Hw [H4 H11] Hb Hu Ha Hn Han. unfold send_by_interrupts.
  set (w1 := with_bit 23 true (with_bit (CTRL_TE y) true w)).
  set (u1 := set_TransmitStatus LPUART_UART_IP_STATUS_BUSY (set_Tx a (Z.of_nat n) (set_IsTxBusy true u))).
  assert (Hs : Lpuart_Uart_Ip_AsyncSend clk y a (Z.of_nat n) (machine u mem d w false x chr) =
    Ok (LPUART_UART_IP_STATUS_SUCCESS, machine u1 mem d w1 false x chr)).
  { unfold Lpuart_Uart_Ip_AsyncSend. destruct (Z.eqb_spec a 0); [lia|]. destruct (Z.gtb_spec (Z.of_nat n) 0); [|lia].
    do 4 ustep_done. rewrite Hu. do 2 ustep_done. unfold Lpuart_Uart_Ip_StartSendDataUsingInt. ustep_done.
    change (set_m_state (Some ?v) (set_m_state (Some ?v') (machine u mem d w false x chr))) with (machine v mem d w false x chr).
    ustep transmitter_eq. by erewrite ubind_ok by (apply int_mode_eq, with_bit_range). }
  ustep Hs. destruct n as [|n]; [lia|].
  erewrite ubind_ok.
  2:{ apply serve_send; try done; cbn [u1 set_TransmitStatus set_IsTxBusy set_Tx TxSize TxBuff]; rewrite ?wrapu_small by lia; try lia; try done.
      - apply with_bit_range.
      - unfold w1. split; by rewrite with_bit_other, with_TE_device by (lia || in_bits).
      - unfold w1. by apply with_bit_on. }
  cbv beta. unfold w1.
  rewrite !clear_with_bit; [done|done|apply send_bits_ok|set_solver|apply with_bit_range|apply send_bits_ok|set_solver].
Qed.

End Machine.

(** ** Receiving

    The port is wired to a plain character device. *)

(** The memory after the bytes have been stored one by one. *)
Fixpoint store_bytes (a : Z) (l : list Z) (mem : Z -> Z) : Z -> Z :=
  match l with
  | [] => mem
  | v :: l => store_bytes (a + 1) l (fun i => if i =? a then u8 v else mem i)
  end.

Lemma store_bytes_before l : forall a mem i, i < a -> store_bytes a l mem i = mem i.
Proof.
  induction l as [|v l IH]; intros a mem i Hi; [done|]. cbn. rewrite IH by lia. by destruct (Z.eqb_spec i a); [lia|].
Qed.

Lemma store_bytes_outside l : forall a mem i, i < a \/ a + Z.of_nat (length l) <= i -> store_bytes a l mem i = mem i.
Proof.
  induction l as [|v l IH]; intros a mem i Hi; [done|]. cbn [store_bytes]. cbn [length] in Hi. rewrite IH by lia.
  by destruct (Z.eqb_spec i a); [lia|].
Qed.

Lemma store_bytes_read l : forall a mem, Forall (in_range 8) l -> read_bytes (store_bytes a l mem) a (length l) = l.
Proof.
  induction l as [|v l IH]; intros a mem Hl; [done|]. apply Forall_cons in Hl as [Hv Hl].
  cbn [length store_bytes]. rewrite read_bytes_S, IH by done. f_equal.
  rewrite store_bytes_before by lia. rewrite Z.eqb_refl. by apply wrapu_small.
Qed.

(** Bytes with the number of polls before each of them, as the polls see them. *)
Definition arrivals (l : list (nat * Z)) : list (option Z) := l ≫= (fun p => replicate p.1 None ++ [Some p.2]).
Definition arrival_ticks (l : list (nat * Z)) : Z := foldr (fun p e => Z.of_nat p.1 + 1 + e) 0 l.

Lemma arrival_ticks_length l : Z.of_nat (length l) <= arrival_ticks l.
Proof. induction l as [|p l IH]; [done|]. cbn [length]. change (arrival_ticks (p :: l)) with (Z.of_nat p.1 + 1 + arrival_ticks l). lia. Qed.

(** What becomes of the driver when a buffer has been filled up to [a]. *)
Definition rx_done (st : Lpuart_Uart_Ip_StatusType) (a : Z) (u : Lpuart_Uart_Ip_StateStructureType)
  : Lpuart_Uart_Ip_StateStructureType :=
  set_IsRxBusy false (set_ReceiveStatus st (set_Rx a 0 u)).

Section Receive.
Context (clk : Clock) (y : lpuart_layout) (Hy : layout_ok y).

(** The flag and the data register of a port. *)
Lemma port_set_stat z v d w full x :
  u32 z = stat_of v -> set_lpuart_stat z (port d w full x) = set_lpuart_irq (line_of w full) (port d w v x).
Proof.
  intros Hz. unfold port.
  transitivity (set_lpuart_irq (line_of w full) (set_lpuart_control w (set_lpuart_stat z (set_lpuart_data x d)))); [reflexivity|].
  assert (He : set_lpuart_stat z (set_lpuart_data x d) = set_lpuart_stat (stat_of v) (set_lpuart_data x d)).
  { unfold set_lpuart_stat. by rewrite Hz, (u32_id (stat_of v)) by apply stat_of_range. }
  rewrite He. reflexivity.
Qed.

Lemma port_set_data z d w full x : set_lpuart_data z (port d w full x) = port d w full z.
Proof. reflexivity. Qed.

Lemma port_stat d w full x : lpuart_stat (port d w full x) = stat_of full.
Proof. change (u32 (stat_of full) = stat_of full). apply u32_id, stat_of_range. Qed.

Lemma port_data d w full x : in_range 8 x -> lpuart_data (port d w full x) = x.
Proof. intros Hx. change (u32 x = x). apply wrapu_small. unfold in_range in Hx. lia. Qed.

Lemma host_byte_on v u mem d w x (chr : plain_chardev) :
  in_range 32 w -> in_range 8 v -> Z.testbit w 18 = true ->
  host_byte (Some v) (machine u mem d w false x chr) = Ok (tt, machine u mem d w true v chr).
Proof.
  intros Hw Hv Hre. unfold host_byte, machine. cbn [m_dev].
  replace (nxps32k358_lpuart_can_receive (port d w false x)) with true by (unfold nxps32k358_lpuart_can_receive; by rewrite port_stat).
  rewrite receive_enabled by (change (Z.testbit (u32 w) 18 = true); by rewrite u32_id).
  rewrite port_set_data, port_stat, (port_set_stat _ true) by (by vm_compute). by rewrite update_irq_port.
Qed.

(** Reading the data register empties the receiver. *)
Lemma getchar_eq u mem d w full x (chr : plain_chardev) :
  in_range 32 w -> in_range 8 x ->
  Lpuart_Uart_Ip_Getchar (machine u mem d w full x chr) = Ok (x, machine u mem d w false x chr).
Proof.
  intros Hw Hx. unfold Lpuart_Uart_Ip_Getchar.
  assert (Hr : read_reg A_DATA (machine u mem d w full x chr) = Ok (x, machine u mem d w false x chr)).
  { unfold read_reg, machine. cbn [m_dev m_chr]. rewrite read_data by (by left). cbn [chr_fe_accept_input plain_backend mbind res_bind].
    unfold rdrf_cleared. rewrite port_stat, (port_set_stat _ false) by (by destruct full; vm_compute).
    by rewrite update_irq_port, port_data by done. }
  ustep Hr. unfold mret, UM_ret. do 2 f_equal. unfold LPUART_IP_DATA_MASK_U32. change 0xFF with (Z.ones 8).
  rewrite <- wrapu_land, wrapu_idem by lia. by apply wrapu_small.
Qed.

Lemma get_data_eq u mem d w full x (chr : plain_chardev) :
  in_range 32 w -> in_range 8 x ->
  Lpuart_Uart_Ip_GetData y (machine u mem d w full x chr) =
    Ok (tt, machine (set_Rx (u32 (RxBuff u + 1)) (RxSize u - 1) u) (fun i => if i =? RxBuff u then u8 x else mem i) d w false x chr).
Proof.
  intros Hw Hx. unfold Lpuart_Uart_Ip_GetData. do 2 ustep_done. rewrite bool_decide_true by (by right). by ustep getchar_eq.
Qed.

Lemma plain_flag f u mem d w full x (chr : plain_chardev) :
  Lpuart_Uart_Ip_GetStatusFlag y f (machine u mem d w full x chr) = Ok (flag_of full f, machine u mem d w full x chr).
Proof. by apply status_flag. Qed.

Lemma check_errors_none u mem d w full x (chr : plain_chardev) :
  check_errors y receive_errors 0 (machine u mem d w full x chr) = Ok (0, machine u mem d w full x chr).
Proof. unfold receive_errors. cbn [check_errors]. do 4 (ustep plain_flag; ustep_done). done. Qed.

(** Waiting for a byte. *)
Lemma poll_arrival v host w u mem d T x (chr : plain_chardev) : forall k e,
  in_range 32 w -> in_range 8 v -> Z.testbit w 18 = true -> 0 <= e -> e + Z.of_nat k < T -> T < 2 ^ 32 ->
  poll y (replicate k None ++ Some v :: host) LPUART_UART_IP_DATA_REG_FULL e T (machine u mem d w false x chr) =
    Ok (Some (e + Z.of_nat k, host), machine u mem d w true v chr).
Proof.
  intros k. induction k as [|k IH]; intros e Hw Hv Hre He HT HT'.
  - cbn [replicate app poll]. ustep host_byte_on. ustep plain_flag. cbn [flag_of]. by rewrite Z.add_0_r.
  - cbn [replicate app poll]. ustep_done. ustep plain_flag. cbn [flag_of].
    unfold Lpuart_Uart_Ip_CheckTimeout, OsIf_Timer_Dummy_GetElapsed. rewrite wrapu_small by lia.
    destruct (Z.geb_spec (e + 1) T); [lia|]. rewrite IH by (done || lia). do 4 f_equal. lia.
Qed.

Lemma set_Rx_twice a n b k u : set_Rx a n (set_Rx b k u) = set_Rx a n u.
Proof. done. Qed.

(** Nothing comes: the driver counts up to the time-out. *)
Lemma poll_silent w u mem d T x (chr : plain_chardev) : forall k e,
  0 <= e < T -> T < 2 ^ 32 -> T <= e + Z.of_nat k ->
  exists host, poll y (replicate k None) LPUART_UART_IP_DATA_REG_FULL e T (machine u mem d w false x chr) =
    Ok (Some (T, host), machine u mem d w false x chr).
Proof.
  intros k. induction k as [|k IH]; intros e He HT Hk; [lia|].
  cbn [replicate poll]. ustep_done. ustep plain_flag. cbn [flag_of].
  unfold Lpuart_Uart_Ip_CheckTimeout, OsIf_Timer_Dummy_GetElapsed. rewrite wrapu_small by lia.
  destruct (Z.geb_spec (e + 1) T); [|apply IH; lia]. eexists. unfold mret, UM_ret. do 4 f_equal. lia.
Qed.

Lemma get_loop_eq w d T host (chr : plain_chardev) :
  in_range 32 w -> Z.testbit w 18 = true -> T < 2 ^ 32 ->
  forall l u mem x e,
  Forall (in_range 8) l.*2 -> in_range 8 x -> 0 <= e -> e + arrival_ticks l < T ->
  RxSize u = Z.of_nat (length l) -> 0 <= RxBuff u -> RxBuff u + Z.of_nat (length l) < 2 ^ 32 ->
  exists x', in_range 8 x' /\
  Lpuart_Uart_Ip_StartGetData clk y (length l) (arrivals l ++ host) e T (machine u mem d w false x chr) =
    Ok (Some (e + arrival_ticks l),
        machine (set_Rx (RxBuff u + Z.of_nat (length l)) 0 u) (store_bytes (RxBuff u) l.*2 mem) d w false x' chr).
Proof.
  intros Hw Hre HT l. induction l as [|[k v] l IH]; intros u mem x e Hl Hx He Ht Hs Ha Han.
  - exists x. split; [done|]. cbn [Lpuart_Uart_Ip_StartGetData length]. ustep_done. rewrite Hs. cbn. rewrite !Z.add_0_r.
    destruct u. cbn in *. by subst.
  - apply Forall_cons in Hl as [Hv Hl]. cbn [snd] in Hv. pose proof (arrival_ticks_length l).
    change (arrival_ticks ((k, v) :: l)) with (Z.of_nat k + 1 + arrival_ticks l) in *. cbn [length] in Hs, Han.
    edestruct (IH (set_Rx (RxBuff u + 1) (RxSize u - 1) u) (fun i => if i =? RxBuff u then u8 v else mem i) v (e + 1 + Z.of_nat k))
      as (x' & Hx' & IH'); [done|done|lia|lia|cbn [set_Rx RxSize RxBuff]; rewrite ?wrapu_small; lia..|].
    exists x'. split; [done|]. cbn [length Lpuart_Uart_Ip_StartGetData]. ustep_done. rewrite Hs.
    destruct (Z.gtb_spec (Z.of_nat (S (length l))) 0); [|lia].
    unfold Lpuart_Uart_Ip_CheckTimeout, OsIf_Timer_Dummy_GetElapsed. rewrite (wrapu_small 32 (e + 1)) by lia.
    destruct (Z.geb_spec (e + 1) T); [lia|].
    replace (arrivals ((k, v) :: l) ++ host) with (replicate k None ++ Some v :: (arrivals l ++ host))
      by (unfold arrivals; cbn [mbind list_bind fst snd]; by rewrite <- !app_assoc).
    erewrite ubind_ok by (apply poll_arrival; done || lia). cbv iota. ustep check_errors_none.
    change (0 >? 0) with false. cbv iota. ustep get_data_eq. rewrite (wrapu_small 32 (RxBuff u + 1)) by lia. rewrite IH'.
    cbn [set_Rx RxBuff fmap list_fmap snd store_bytes]. rewrite set_Rx_twice. do 3 f_equal; [lia|].
    f_equal. lia.
Qed.

(** The driver and the control register during a polled reception. *)
Definition rx_busy (a : Z) (n : nat) (u : Lpuart_Uart_Ip_StateStructureType) : Lpuart_Uart_Ip_StateStructureType :=
  set_ReceiveStatus LPUART_UART_IP_STATUS_BUSY (set_Rx a (Z.of_nat n) (set_IsRxBusy true u)).
Definition rx_polled (w : Z) : Z := with_bit 18 true (with_bit 21 false w).

Lemma sync_receive_wrap host a n T e a' mem' x' u mem d w x (chr : plain_chardev) :
  in_range 32 w -> in_range 8 x' -> IsRxBusy u = false -> 0 < a -> (0 < n)%nat ->
  Lpuart_Uart_Ip_StartGetData clk y n host 0 T (machine (rx_busy a n u) mem d (rx_polled w) false x chr) =
    Ok (Some e, machine (set_Rx a' 0 (rx_busy a n u)) mem' d (rx_polled w) false x' chr) ->
  let st := if (Lpuart_Uart_Ip_CheckTimeout e T).1 then LPUART_UART_IP_STATUS_TIMEOUT else LPUART_UART_IP_STATUS_SUCCESS in
  Lpuart_Uart_Ip_SyncReceive clk y host a (Z.of_nat n) T (machine u mem d w false x chr) =
    Ok (Some st, machine (rx_done st a' u) mem' d (bits_off [21; 18] w) false x' chr).
Proof.
  intros Hw Hx' Hu Ha Hn Hrun st. unfold Lpuart_Uart_Ip_SyncReceive. destruct (Z.eqb_spec a 0); [lia|].
  destruct (Z.gtb_spec (Z.of_nat n) 0); [|lia]. do 4 ustep_done. rewrite Hu. ustep_done.
  change (set_m_state (Some ?v) (machine u mem d w false x chr)) with (machine v mem d w false x chr).
  ustep (int_mode_eq (B := plain_chardev)). erewrite ubind_ok by (apply (receiver_eq (B := plain_chardev)), with_bit_range).
  unfold Lpuart_Uart_Ip_StartTimeout, OsIf_Timer_Dummy_MicrosToTicks. cbv zeta. rewrite Nat2Z.id. ustep Hrun.
  subst st. destruct (Lpuart_Uart_Ip_CheckTimeout e T).1; cbn [uwhen]; do 3 ustep_done;
    (change (set_m_state (Some ?v) (set_m_state ?v' (set_m_state ?v'' (machine ?u' mem' d ?z false x' chr)))) with (machine v mem' d z false x' chr) ||
     change (set_m_state (Some ?v) (set_m_state ?v' (machine ?u' mem' d ?z false x' chr))) with (machine v mem' d z false x' chr));
    erewrite ubind_ok by (apply (receiver_eq (B := plain_chardev)), with_bit_range); ustep_done;
    change (set_m_state (Some ?v) (machine ?u' mem' d ?z false x' chr)) with (machine v mem' d z false x' chr);
    erewrite ubind_ok by (apply getchar_eq; [apply with_bit_range|done]); unfold rx_polled; by rewrite (with_bit_off 18) by lia.
Qed.

Lemma rx_polled_on w : in_range 32 (rx_polled w) /\ Z.testbit (rx_polled w) 18 = true.
Proof. split; [apply with_bit_range|by apply with_bit_on]. Qed.

Lemma sync_receive_eq l host a T u mem d w x (chr : plain_chardev) :
  in_range 32 w -> in_range 8 x -> IsRxBusy u = false -> 0 < a -> l <> [] -> a + Z.of_nat (length l) < 2 ^ 32 ->
  Forall (in_range 8) l.*2 -> arrival_ticks l < T < 2 ^ 32 ->
  let st := if arrival_ticks l + 1 =? T then LPUART_UART_IP_STATUS_TIMEOUT else LPUART_UART_IP_STATUS_SUCCESS in
  exists x',
  Lpuart_Uart_Ip_SyncReceive clk y (arrivals l ++ host) a (Z.of_nat (length l)) T (machine u mem d w false x chr) =
    Ok (Some st, machine (rx_done st (a + Z.of_nat (length l)) u) (store_bytes a l.*2 mem) d (bits_off [21; 18] w) false x' chr).
Proof.
  intros Hw Hx Hu Ha Hl Han Hb HT st. pose proof (arrival_ticks_length l). destruct (rx_polled_on w) as [Hr Hon].
  destruct (get_loop_eq (rx_polled w) d T host chr Hr Hon ltac:(lia) l (rx_busy a (length l) u) mem x 0) as (x' & Hx' & Hrun);
    [done|done|lia|lia|cbn; rewrite ?wrapu_small; lia..|].
  exists x'. assert (Hn : (0 < length l)%nat) by (destruct l; cbn; [done|lia]).
  pose proof (sync_receive_wrap _ a _ T _ _ _ x' u mem d w x chr Hw Hx' Hu Ha Hn Hrun) as Hwrap. cbv zeta in Hwrap.
  rewrite Hwrap. subst st. unfold Lpuart_Uart_Ip_CheckTimeout, OsIf_Timer_Dummy_GetElapsed. cbn [fst].
  rewrite Z.add_0_l, wrapu_small by lia.
  destruct (Z.eqb_spec (arrival_ticks l + 1) T), (Z.geb_spec (arrival_ticks l + 1) T); (lia || done).
Qed.

Lemma sync_receive_silent k a T u mem d w x (chr : plain_chardev) :
  in_range 32 w -> in_range 8 x -> IsRxBusy u = false -> 0 < a < 2 ^ 32 - 1 -> 2 <= T < 2 ^ 32 -> T - 1 <= Z.of_nat k ->
  let st := if T =? 2 ^ 32 - 1 then LPUART_UART_IP_STATUS_SUCCESS else LPUART_UART_IP_STATUS_TIMEOUT in
  Lpuart_Uart_Ip_SyncReceive clk y (replicate k None) a 1 T (machine u mem d w false x chr) =
    Ok (Some st, machine (rx_done st (a + 1) u) (store_bytes a [x] mem) d (bits_off [21; 18] w) false x chr).
Proof.
  intros Hw Hx Hu Ha HT Hk st. destruct (rx_polled_on w) as [Hr Hon].
  destruct (poll_silent (rx_polled w) (rx_busy a 1 u) mem d T x chr k 1) as [host Hp]; [lia..|].
  pose proof (sync_receive_wrap (replicate k None) a 1 T T (a + 1) (store_bytes a [x] mem) x u mem d w x chr Hw Hx Hu ltac:(lia) ltac:(lia)) as Hwrap.
  change (Z.of_nat 1) with 1 in Hwrap. rewrite Hwrap; clear Hwrap.
  - subst st. unfold Lpuart_Uart_Ip_CheckTimeout, OsIf_Timer_Dummy_GetElapsed. cbn [fst].
    destruct (Z.eqb_spec T (2 ^ 32 - 1)) as [->|]; [done|]. rewrite wrapu_small by lia. by destruct (Z.geb_spec (T + 1) T); [|lia].
  - cbn [Lpuart_Uart_Ip_StartGetData]. ustep_done. change (RxSize (rx_busy a 1 u) >? 0) with true. cbv iota.
    unfold Lpuart_Uart_Ip_CheckTimeout at 1, OsIf_Timer_Dummy_GetElapsed. change (u32 (0 + 1)) with 1.
    destruct (Z.geb_spec 1 T); [lia|]. ustep Hp. ustep check_errors_none. change (0 >? 0) with false. cbv iota. ustep get_data_eq. ustep_done.
    change (RxBuff (rx_busy a 1 u)) with a. by rewrite (wrapu_small 32 (a + 1)) by lia.
Qed.

(** ** Receiving by interrupts *)

(** The bytes come in one by one, and the interrupts are served after each of them. *)
Fixpoint feed (l : list Z) : UM plain_chardev unit :=
  match l with
  | [] => mret tt
  | v :: l => host_byte (Some v);; serve clk y 1;; feed l
  end.

Definition receive_bits : list Z := [CTRL_ORIE y; CTRL_PEIE y; CTRL_NEIE y; CTRL_FEIE y; 21; 18].

Lemma receive_bits_ok : Forall (fun n => 0 <= n < 32) receive_bits.
Proof.
  unfold receive_bits. repeat (constructor; [first [lia | apply (layout_control y Hy); set_solver]|]). constructor.
Qed.

Lemma irq_receive u mem d w x (chr : plain_chardev) :
  in_range 32 w -> Z.testbit w 21 = true ->
  Lpuart_Uart_Ip_IrqHandler clk y (machine u mem d w true x chr) = Lpuart_Uart_Ip_RxIrqHandler clk y (machine u mem d w true x chr).
Proof.
  intros Hw H21. unfold Lpuart_Uart_Ip_IrqHandler. cbn [machine m_state]. fold (machine u mem d w true x chr).
  ustep (err_irq_eq (B := plain_chardev)). ustep plain_flag. cbn [flag_of uwhen]. rewrite ubind_assoc.
  erewrite ubind_ok by (apply get_int_mode_eq; [done|by apply interrupt_shift_range]). cbv beta. cbn [interrupt_shift CONTROL_RIE field_shift].
  rewrite H21. cbn [uwhen]. unfold mbind at 1, UM_bind at 1. destruct (Lpuart_Uart_Ip_RxIrqHandler clk y _) as [[[] m']|]; [|done].
  destruct (status_flag_any y LPUART_UART_IP_TX_DATA_REG_EMPTY m') as [b Hb]. ustep Hb. rewrite andb_false_r. ustep_done.
  destruct (status_flag_any y LPUART_UART_IP_TX_COMPLETE m') as [b' Hb']. ustep Hb'. by rewrite andb_false_r.
Qed.

Lemma complete_receive_eq u mem d w full x (chr : plain_chardev) :
  in_range 32 w -> in_range 8 x -> ReceiveStatus u = LPUART_UART_IP_STATUS_BUSY ->
  Lpuart_Uart_Ip_CompleteReceiveDataUsingInt clk y (machine u mem d w full x chr) =
    Ok (tt, machine (set_IsRxBusy false (set_ReceiveStatus LPUART_UART_IP_STATUS_SUCCESS u)) mem d (bits_off receive_bits w) false x chr).
Proof.
  intros Hw Hx Hu. unfold Lpuart_Uart_Ip_CompleteReceiveDataUsingInt. ustep (int_mode_eq (B := plain_chardev)).
  do 4 (erewrite ubind_ok by (apply (int_mode_eq (B := plain_chardev)), with_bit_range)). ustep_done. rewrite Hu. ustep_done.
  erewrite ubind_ok by (apply (receiver_eq (B := plain_chardev)), with_bit_range).
  erewrite ubind_ok by (apply getchar_eq; [apply with_bit_range|done]). ustep_done.
  change (set_m_state (Some ?v) (machine ?u' mem d ?z false x chr)) with (machine v mem d z false x chr).
  unfold upd_uart. ustep_done. cbn [set_IsRxBusy ReceiveStatus]. rewrite Hu, bool_decide_true by done.
  unfold put_uart, bits_off, receive_bits. cbn [foldl interrupt_shift CONTROL_RIE field_shift].
  change (set_m_state (Some ?v) (machine ?u' mem d ?z false x chr)) with (machine v mem d z false x chr). reflexivity.
Qed.

(** One byte by interrupt. *)
Lemma rx_irq_eq n u mem d w x (chr : plain_chardev) :
  in_range 32 w -> in_range 8 x -> RxSize u = Z.of_nat (S n) -> 0 <= RxBuff u < 2 ^ 32 - 1 -> Z.of_nat (S n) < 2 ^ 32 ->
  ReceiveStatus u = LPUART_UART_IP_STATUS_BUSY ->
  let u' := set_Rx (RxBuff u + 1) (Z.of_nat n) u in
  let mem' := fun i => if i =? RxBuff u then u8 x else mem i in
  Lpuart_Uart_Ip_RxIrqHandler clk y (machine u mem d w true x chr) =
    Ok (tt, if (n =? 0)%nat
            then machine (set_IsRxBusy false (set_ReceiveStatus LPUART_UART_IP_STATUS_SUCCESS u')) mem' d (bits_off receive_bits w) false x chr
            else machine u' mem' d w false x chr).
Proof.
  intros Hw Hx Hs Ha Hn Hu u' mem'. unfold Lpuart_Uart_Ip_RxIrqHandler. ustep get_data_eq. rewrite Hs.
  rewrite (wrapu_small 32 (RxBuff u + 1)) by lia. replace (Z.of_nat (S n) - 1) with (Z.of_nat n) by lia. fold u' mem'. ustep_done.
  change (RxSize u') with (u32 (Z.of_nat n)). rewrite wrapu_small by lia.
  destruct n as [|n]; cbn [Nat.eqb]; [|by destruct (Z.eqb_spec (Z.of_nat (S n)) 0); [lia|]].
  change (Z.of_nat 0 =? 0) with true. cbn [uwhen]. by apply complete_receive_eq.
Qed.

Lemma feed_step v l u mem d w x m' (chr : plain_chardev) :
  in_range 32 w -> in_range 8 v -> Z.testbit w 18 = true -> Z.testbit w 21 = true -> lpuart_irq (m_dev m') = false ->
  Lpuart_Uart_Ip_RxIrqHandler clk y (machine u mem d w true v chr) = Ok (tt, m') ->
  feed (v :: l) (machine u mem d w false x chr) = feed l m'.
Proof.
  intros Hw Hv H18 H21 Hm Hi. cbn [feed]. ustep host_byte_on.
  erewrite ubind_ok; [done|]. rewrite serve_step by (unfold line_of; by rewrite H21, andb_true_r, !orb_true_r).
  erewrite ubind_ok by (by rewrite irq_receive). cbn [serve]. by rewrite Hm.
Qed.

Lemma feed_dropped l u mem d w x (chr : plain_chardev) :
  in_range 32 w -> Z.testbit w 18 = false -> line_of w false = false ->
  feed l (machine u mem d w false x chr) = Ok (tt, machine u mem d w false x chr).
Proof.
  intros Hw H18 Hl. induction l as [|v l IH]; [done|]. cbn [feed]. ustep (host_byte_off (B := plain_chardev)).
  erewrite ubind_ok by (by apply serve_stop). done.
Qed.

(** The control register while bytes are received by interrupts. *)
Definition receiving (w : Z) : Prop :=
  in_range 32 w /\ Z.testbit w 18 = true /\ Z.testbit w 21 = true /\ Z.testbit w 22 = false /\ Z.testbit w 23 = false.

Lemma receiving_cleared w :
  receiving w -> let w' := bits_off receive_bits w in in_range 32 w' /\ Z.testbit w' 18 = false /\ line_of w' false = false.
Proof.
  intros (Hw & _ & _ & H22 & H23) w'. split; [by apply bits_off_range|]. unfold w', line_of.
  rewrite !bits_off_testbit by (apply receive_bits_ok || lia). rewrite H22, H23, !andb_false_r.
  split; [|done]. rewrite bool_decide_true; [done|]. unfold receive_bits. set_solver.
Qed.

Lemma feed_eq d w extra (chr : plain_chardev) :
  receiving w ->
  forall l v u mem x,
  Forall (in_range 8) (v :: l) -> RxSize u = Z.of_nat (length (v :: l)) -> ReceiveStatus u = LPUART_UART_IP_STATUS_BUSY ->
  0 <= RxBuff u -> RxBuff u + Z.of_nat (length (v :: l)) < 2 ^ 32 ->
  exists x',
  feed ((v :: l) ++ extra) (machine u mem d w false x chr) =
    Ok (tt, machine (rx_done LPUART_UART_IP_STATUS_SUCCESS (RxBuff u + Z.of_nat (length (v :: l))) u) (store_bytes (RxBuff u) (v :: l) mem) d
              (bits_off receive_bits w) false x' chr).
Proof.
  intros Hr l. pose proof Hr as (Hw & H18 & H21 & H22 & H23). destruct (receiving_cleared w Hr) as (Hc & Hc18 & Hcl).
  induction l as [|v' l IH]; intros v u mem x Hl Hs Hu Ha Han; apply Forall_cons in Hl as [Hv Hl].
  - exists v. cbn [app]. erewrite (feed_step _ _ _ _ _ _ _ _ _ Hw Hv H18 H21); [| |apply (rx_irq_eq 0); (done || cbn in *; lia)]; [by apply feed_dropped|apply Hcl].
  - destruct (IH v' (set_Rx (RxBuff u + 1) (Z.of_nat (length (v' :: l))) u) (fun i => if i =? RxBuff u then u8 v else mem i) v)
      as [x' IH']; [done|cbn [length set_Rx RxSize RxBuff] in *; rewrite ?wrapu_small; (done || lia)..|].
    exists x'. change ((v :: v' :: l) ++ extra) with (v :: ((v' :: l) ++ extra)).
    erewrite (feed_step _ _ _ _ _ _ _ _ _ Hw Hv H18 H21); [| |apply (rx_irq_eq (length (v' :: l))); (done || cbn [length] in *; lia)];
      [|unfold machine, line_of; cbn [length Nat.eqb m_dev]; rewrite port_line; unfold line_of; by rewrite H22, H23].
    cbn [length Nat.eqb] in IH' |- *. rewrite IH'. cbn [set_Rx RxBuff store_bytes]. do 3 f_equal.
    unfold rx_done. rewrite set_Rx_twice. f_equal. f_equal. f_equal. lia.
Qed.

(** The control register after the start of a reception by interrupts. *)
Definition rx_started (w : Z) : Z :=
  foldl (fun w n => with_bit n true w) w [18; CTRL_ORIE y; CTRL_PEIE y; CTRL_NEIE y; CTRL_FEIE y; 21].

Lemma error_enable_device n m b w :
  n ∈ [CTRL_TE y; CTRL_ORIE y; CTRL_NEIE y; CTRL_FEIE y; CTRL_PEIE y] -> m ∈ device_control_bits ->
  Z.testbit (with_bit n b w) m = Z.testbit w m.
Proof.
  intros Hn Hm. destruct (layout_control y Hy n Hn) as [Hr Hd]. apply with_bit_other; [done| |by intros ->].
  unfold device_control_bits in Hm. repeat (apply elem_of_cons in Hm as [->|Hm]; [lia|]). by apply elem_of_nil in Hm.
Qed.

Lemma rx_started_receiving w : Z.testbit w 22 = false -> Z.testbit w 23 = false -> receiving (rx_started w).
Proof.
  intros H22 H23. unfold receiving, rx_started. cbn [foldl]. split; [apply with_bit_range|].
  rewrite with_bit_on, !(with_bit_other 21) by lia.
  split_and!; [| |do 4 (rewrite error_enable_device by (in_bits || set_solver))..]; [|done|by rewrite with_bit_other by lia..].
  do 4 (rewrite error_enable_device by (in_bits || set_solver)). by apply with_bit_on.
Qed.

Lemma rx_started_cleared w : in_range 32 w -> bits_off receive_bits (rx_started w) = bits_off receive_bits w.
Proof.
  intros Hw. unfold rx_started. cbn [foldl].
  do 6 (rewrite clear_with_bit; [|apply with_bit_range || done|apply receive_bits_ok|unfold receive_bits; set_solver]). done.
Qed.

Lemma flush_rx_eq u mem d w full x (chr : plain_chardev) :
  Lpuart_Uart_Ip_FlushRxBuffer clk y (machine u mem d w full x chr) = Ok (tt, machine u mem d w full x chr).
Proof. done. Qed.

Lemma async_receive_start a n u mem d w x (chr : plain_chardev) :
  in_range 32 w -> IsRxBusy u = false -> 0 < a -> (0 < n)%nat ->
  Lpuart_Uart_Ip_AsyncReceive clk y a (Z.of_nat n) (machine u mem d w false x chr) =
    Ok (LPUART_UART_IP_STATUS_SUCCESS, machine (rx_busy a n u) mem d (rx_started w) false x chr).
Proof.
  intros Hw Hu Ha Hn. unfold Lpuart_Uart_Ip_AsyncReceive. destruct (Z.eqb_spec a 0); [lia|].
  destruct (Z.gtb_spec (Z.of_nat n) 0); [|lia]. do 4 ustep_done. rewrite Hu. do 2 ustep_done.
  change (set_m_state (Some ?v) (machine ?u' mem d ?z false x chr)) with (machine v mem d z false x chr).
  unfold Lpuart_Uart_Ip_StartReceiveDataUsingInt. ustep_done.
  change (set_m_state (Some ?v) (machine ?u' mem d ?z false x chr)) with (machine v mem d z false x chr).
  unfold Lpuart_Uart_Ip_ClearErrorFlags. ustep (clear_status_eq (B := plain_chardev)). ustep flush_rx_eq.
  erewrite ubind_ok by (by apply (receiver_eq (B := plain_chardev))).
  do 5 (erewrite ubind_ok by (apply (int_mode_eq (B := plain_chardev)), with_bit_range)).
  unfold rx_started. cbn [foldl]. reflexivity.
Qed.

(** A reception by interrupts while the host sends its bytes. *)
Definition receive_by_interrupts (a : Z) (n : nat) (host : list Z) : UM plain_chardev Lpuart_Uart_Ip_StatusType :=
  st ← Lpuart_Uart_Ip_AsyncReceive clk y a (Z.of_nat n); feed host;; mret st.

Lemma async_receive_eq l extra a u mem d w x (chr : plain_chardev) :
  in_range 32 w -> Z.testbit w 22 = false -> Z.testbit w 23 = false -> IsRxBusy u = false -> 0 < a -> l <> [] ->
  Forall (in_range 8) l -> a + Z.of_nat (length l) < 2 ^ 32 ->
  exists x',
  receive_by_interrupts a (length l) (l ++ extra) (machine u mem d w false x chr) =
    Ok (LPUART_UART_IP_STATUS_SUCCESS,
        machine (rx_done LPUART_UART_IP_STATUS_SUCCESS (a + Z.of_nat (length l)) u) (store_bytes a l mem) d (bits_off receive_bits w) false x' chr).
Proof.
  intros Hw H22 H23 Hu Ha Hl Hb Han. destruct l as [|v l]; [done|].
  destruct (feed_eq d (rx_started w) extra chr (rx_started_receiving w H22 H23) l v (rx_busy a (length (v :: l)) u) mem x)
    as [x' Hf]; [done|cbn [length rx_busy set_ReceiveStatus set_IsRxBusy set_Rx RxSize RxBuff] in *; rewrite ?wrapu_small; (done || lia)..|].
  exists x'. unfold receive_by_interrupts. erewrite ubind_ok by (apply async_receive_start; (done || cbn; lia)). erewrite ubind_ok by exact Hf.
  rewrite rx_started_cleared by done. reflexivity.
Qed.

End Receive.

(** ** Initialisation *)

(** The divider of a baud register. *)
Definition baud_divider (v : Z) : Z := u32 (FIELD_EX32 (u32 v) BAUD_SBR * u32 (FIELD_EX32 (u32 v) BAUD_OSR + 1)).
(** The value the driver programs for the configuration of the firmware. *)
Definition configured_baud : Z := 0x1600000F.
Definition with_speed (speed : Z) (chr : plain_chardev) : plain_chardev := mkPlain (pc_out chr) speed.

Section Init.
Context (clk : Clock) (y : lpuart_layout) (Hy : layout_ok y).

Lemma write_baud v u mem d w full x (chr : plain_chardev) :
  in_range 32 v -> baud_divider v <> 0 ->
  write_reg clk A_BAUD v (machine u mem d w full x chr) =
    Ok (tt, machine u mem (set_lpuart_baud v d) w full x (with_speed (s32 (clock_get_hz clk / baud_divider v)) chr)).
Proof.
  intros Hv Hd. unfold write_reg, machine, nxps32k358_lpuart_write. cbn [m_dev m_chr].
  replace (A_BAUD =? _) with false by done. rewrite (u32_id v) by done.
  change (A_BAUD =? A_BAUD) with true. cbv iota zeta.
  change (set_lpuart_baud v (port d w full x)) with (port (set_lpuart_baud v d) w full x).
  unfold nxps32k358_lpuart_update_params, LPUART_BAUD_RATE.
  change (lpuart_baud (port (set_lpuart_baud v d) w full x)) with (u32 v).
  fold (baud_divider v). by destruct (Z.eqb_spec (baud_divider v) 0).
Qed.

Lemma read_baud v u mem d w full x (chr : plain_chardev) :
  in_range 32 v ->
  read_reg A_BAUD (machine u mem (set_lpuart_baud v d) w full x chr) = Ok (v, machine u mem (set_lpuart_baud v d) w full x chr).
Proof.
  intros Hv. change (Ok (u32 v, machine u mem (set_lpuart_baud v d) w full x chr) = Ok (v, machine u mem (set_lpuart_baud v d) w full x chr)).
  by rewrite u32_id.
Qed.

Lemma update_baud mask z v u mem d w full x (chr : plain_chardev) :
  in_range 32 v -> let v' := u32 (masked v mask .| z) in baud_divider v' <> 0 ->
  update_reg clk A_BAUD mask z (machine u mem (set_lpuart_baud v d) w full x chr) =
    Ok (tt, machine u mem (set_lpuart_baud v' d) w full x (with_speed (s32 (clock_get_hz clk / baud_divider v')) chr)).
Proof.
  intros Hv v' Hd. unfold update_reg. ustep read_baud. rewrite write_baud; [done|apply in_range_wrapu; lia|done].
Qed.

Lemma masked_clear v n : in_range 32 v -> 0 <= n < 32 -> Z.testbit v n = false -> masked v (bit n) = v.
Proof.
  intros Hv Hn Hb. unfold masked. apply word_ext; [|done|].
  - unfold in_range. apply in_range_land_l; [lia|done].
  - intros i Hi. rewrite Z.land_spec, u32_lnot_testbit, bit_testbit by lia.
    destruct (Z.eqb_spec i n) as [->|]; [by rewrite Hb|apply andb_true_r].
Qed.

Lemma layout_baud n : n ∈ [BAUD_BOTHEDGE y; BAUD_M10 y; BAUD_SBNS y] -> masked configured_baud (bit n) = configured_baud.
Proof.
  destruct Hy as (_ & _ & H). rewrite Forall_forall in H. intros Hn. apply H in Hn.
  assert (Hb : forallb (fun n => negb (Z.testbit configured_baud n)) (seqZ 13 11 ++ seqZ 29 3) = true) by (by vm_compute).
  rewrite forallb_forall in Hb. apply masked_clear; [done|lia|]. apply negb_true_iff, Hb, list_elem_of_In, elem_of_app.
  rewrite !elem_of_seqZ. lia.
Qed.

Lemma zero_control mask u mem d full x (chr : plain_chardev) :
  update_reg clk A_CONTROL mask 0 (machine u mem d 0 full x chr) = Ok (tt, machine u mem d 0 full x chr).
Proof. unfold update_reg. erewrite ubind_ok by (by apply read_control). unfold masked. rewrite Z.land_0_l. by apply write_control. Qed.

Lemma with_speed_twice a b chr : with_speed a (with_speed b chr) = with_speed a chr.
Proof. done. Qed.

(** The port with the baud register of the configuration and control register 0. *)
Definition configured u mem d full x (chr : plain_chardev) : uart_machine plain_chardev :=
  machine u mem (set_lpuart_baud configured_baud d) 0 full x (with_speed (s32 (clock_get_hz clk / 345)) chr).

Lemma bit_count_eq u mem d full x (chr : plain_chardev) :
  Lpuart_Uart_Ip_SetBitCountPerChar clk y LPUART_UART_IP_8_BITS_PER_CHAR false (configured u mem d full x chr) =
    Ok (tt, configured u mem d full x chr).
Proof.
  unfold Lpuart_Uart_Ip_SetBitCountPerChar. change (u32 (bit_count_value LPUART_UART_IP_8_BITS_PER_CHAR + 0)) with 1.
  change (1 =? _) with false. cbv iota zeta. rewrite decide_False by done.
  change (u32 (u32 (1 - 1) .<< field_shift CONTROL_M)) with 0. unfold configured. ustep zero_control. ustep read_baud.
  rewrite layout_baud by set_solver. rewrite write_baud by (by vm_compute).
  replace (baud_divider configured_baud) with 345 by (by vm_compute). by rewrite with_speed_twice.
Qed.

Lemma parity_eq u mem d full x (chr : plain_chardev) :
  Lpuart_Uart_Ip_SetParityMode clk y LPUART_UART_IP_PARITY_DISABLED (configured u mem d full x chr) = Ok (tt, configured u mem d full x chr).
Proof.
  unfold Lpuart_Uart_Ip_SetParityMode. change (LPUART_UART_IP_PARITY_DISABLED .>> 1) with 0. change (LPUART_UART_IP_PARITY_DISABLED .& 1) with 0.
  rewrite !Z.shiftl_0_l. change (u32 0) with 0. unfold configured. ustep zero_control. apply zero_control.
Qed.

Lemma stop_bit_eq u mem d full x (chr : plain_chardev) :
  Lpuart_Uart_Ip_SetStopBitCount clk y 0 (configured u mem d full x chr) = Ok (tt, configured u mem d full x chr).
Proof.
  unfold Lpuart_Uart_Ip_SetStopBitCount. rewrite Z.shiftl_0_l. change (u32 0) with 0. unfold configured.
  assert (Hv : u32 (masked configured_baud (bit (BAUD_SBNS y)) .| 0) = configured_baud) by (rewrite layout_baud by set_solver; by vm_compute).
  rewrite update_baud, Hv; [|done|rewrite Hv; by vm_compute].
  replace (baud_divider configured_baud) with 345 by (by vm_compute). by rewrite with_speed_twice.
Qed.

Lemma init_eq c mem d w full x (chr : plain_chardev) :
  in_range 32 w ->
  Lpuart_Uart_Ip_Init clk y Lpuart_Uart_Ip_xHwConfigPB_3 (mkMachine None c mem (port d w full x) chr) =
    Ok (tt, configured (mkUart 115942 0 0 0 0 false false LPUART_UART_IP_STATUS_SUCCESS LPUART_UART_IP_STATUS_SUCCESS) mem d full x chr).
Proof.
  intros Hw. unfold Lpuart_Uart_Ip_Init. cbn [m_state]. do 6 ustep_done.
  change (set_m_state (Some cleared_uart) _) with (machine cleared_uart mem d w full x chr).
  assert (Hi : Lpuart_Uart_Ip_Hw_Init clk (machine cleared_uart mem d w full x chr) =
    Ok (tt, machine cleared_uart mem (set_lpuart_baud 0x0F000004 d) 0 full x (with_speed (s32 (clock_get_hz clk / 64)) chr))).
  { unfold Lpuart_Uart_Ip_Hw_Init. erewrite ubind_ok by (by apply write_baud). ustep_done. by apply write_control. }
  ustep Hi. change (BaudOverSamplingRatio Lpuart_Uart_Ip_xHwConfigPB_3 <? 8) with false. ustep_done.
  unfold Lpuart_Uart_Ip_SetOversamplingRatio. erewrite ubind_ok by (by apply update_baud).
  unfold Lpuart_Uart_Ip_SetBaudRateDivisor. erewrite ubind_ok by (apply update_baud; by vm_compute).
  set (v := u32 (masked _ _ .| (BaudRateDivisor _ .& _))). replace v with configured_baud by (by vm_compute). clear v.
  rewrite !with_speed_twice. replace (baud_divider configured_baud) with 345 by (by vm_compute).
  fold (configured cleared_uart mem d full x chr). erewrite ubind_ok by apply bit_count_eq.
  erewrite ubind_ok by apply parity_eq. erewrite ubind_ok by apply stop_bit_eq. reflexivity.
Qed.

End Init.

(** ** Two dead ends *)

Section DeadEnds.
Context {B : Type} {Chr : CharBackend B} (clk : Clock) (y : lpuart_layout) (Hy : layout_ok y).

(** With a time-out of 0 the driver is never shut down. *)
Lemma deinit_fails u mem d w full x (chr : B) :
  Lpuart_Uart_Ip_Deinit clk y (machine u mem d w full x chr) = Ok (LPUART_UART_IP_STATUS_ERROR, machine u mem d w full x chr).
Proof.
  unfold Lpuart_Uart_Ip_Deinit. ustep_done. change (Z.to_nat (Lpuart_Uart_Ip_StartTimeout LPUART_UART_IP_TIMEOUT_VALUE_US)) with 0%nat.
  cbn [wait_idle]. rewrite ubind_assoc. ustep_done. by destruct (IsTxBusy u || IsRxBusy u).
Qed.

(** A byte received while only the transmitter may interrupt: the handler returns
    without a change, and the line stays high. *)
Lemma irq_stuck u mem d w x (chr : B) :
  in_range 32 w -> Z.testbit w 21 = false -> Z.testbit w 23 = true ->
  Lpuart_Uart_Ip_IrqHandler clk y (machine u mem d w true x chr) = Ok (tt, machine u mem d w true x chr) /\ line_of w true = true.
Proof.
  intros Hw H21 H23. split; [|unfold line_of; by rewrite H23].
  unfold Lpuart_Uart_Ip_IrqHandler. cbn [machine m_state]. fold (machine u mem d w true x chr).
  ustep err_irq_eq. ustep status_flag. cbn [flag_of uwhen]. rewrite ubind_assoc.
  erewrite ubind_ok by (apply get_int_mode_eq; [done|by apply interrupt_shift_range]). cbn [interrupt_shift CONTROL_RIE field_shift].
  rewrite H21. ustep_done. ustep status_flag. ustep_done. ustep status_flag. done.
Qed.

End DeadEnds.

(** ** The search for the baud rate *)

(** The divider for an oversampling ratio, the rate it gives and the distance of that
    rate from the desired one. *)
Definition divider (f e i : Z) : Z := f / (e * i).
Definition rate (f e i : Z) : Z := f / (i * divider f e i).
Definition distance (f e i : Z) : Z := Z.abs (rate f e i - e).

Section Baud.
Context (f e : Z) (He : 0 < e) (He32 : e * 32 < 2 ^ 32) (Hf : e * 4 <= f < 2 ^ 32) (Hsbr : divider f e 4 < 2 ^ 16).

Definition ratios : list Z := seqZ 5 (Z.min 32 (f / e) - 4).

Lemma divider_range i : 4 <= i <= Z.min 32 (f / e) -> 1 <= divider f e i < 2 ^ 16.
Proof.
  intros Hi. unfold divider in *. split.
  - apply Z.div_le_lower_bound; [nia|]. pose proof (Z.mul_div_le f e He).
    assert (e * i <= e * (f / e)) by (apply Z.mul_le_mono_nonneg_l; lia). lia.
  - eapply Z.le_lt_trans; [|exact Hsbr]. apply Z.div_le_compat_l; nia.
Qed.

Lemma sbr_divider i : 4 <= i <= Z.min 32 (f / e) -> sbr_of f e i = divider f e i.
Proof.
  intros Hi. pose proof (divider_range i Hi). unfold sbr_of, divider in *. rewrite (wrapu_small 32) by nia. apply wrapu_small. lia.
Qed.

Lemma divider_le i : 4 <= i -> i * divider f e i <= f.
Proof.
  intros Hi. unfold divider. pose proof (Z.mul_div_le f (e * i) ltac:(nia)).
  assert (0 <= f / (e * i)) by (apply Z.div_pos; nia). nia.
Qed.

Lemma calculated_rate i : 4 <= i <= Z.min 32 (f / e) -> calculated_baud f i (divider f e i) = Ok (rate f e i).
Proof.
  intros Hi. pose proof (divider_range i Hi). pose proof (divider_le i ltac:(lia)). unfold calculated_baud.
  rewrite wrapu_small by nia. by destruct (Z.eqb_spec (i * divider f e i) 0); [nia|].
Qed.

Lemma rate_diff i : 4 <= i <= Z.min 32 (f / e) -> baud_diff (rate f e i) e = distance f e i.
Proof.
  intros Hi. pose proof (divider_range i Hi). unfold baud_diff, distance.
  assert (Hk : 1 <= i * divider f e i) by nia.
  assert (0 <= rate f e i <= f) by (unfold rate; generalize dependent (i * divider f e i); intros k Hk;
    split; [apply Z.div_pos; lia|apply Z.div_le_upper_bound; nia]).
  destruct (Z.gtb_spec (rate f e i) e); rewrite wrapu_small by nia; lia.
Qed.

Lemma search_step i l b :
  4 <= i <= Z.min 32 (f / e) ->
  search_osr f e (i :: l) b =
    search_osr f e l (if distance f e i <=? bs_BaudDiff b then mkSearch i (divider f e i) (distance f e i) (rate f e i)
                      else mkSearch (bs_Osr b) (bs_Sbr b) (bs_BaudDiff b) (rate f e i)).
Proof. intros Hi. cbn [search_osr]. rewrite sbr_divider, calculated_rate by done. cbn [mbind res_bind]. by rewrite rate_diff. Qed.

Lemma search_osr_best l : forall b,
  Forall (fun i => 4 <= i <= Z.min 32 (f / e)) l ->
  exists b', search_osr f e l b = Ok b' /\ bs_BaudDiff b' <= bs_BaudDiff b /\ Forall (fun i => bs_BaudDiff b' <= distance f e i) l /\
    ((bs_Osr b', bs_Sbr b', bs_BaudDiff b') = (bs_Osr b, bs_Sbr b, bs_BaudDiff b) \/
     exists i, i ∈ l /\ (bs_Osr b', bs_Sbr b', bs_BaudDiff b') = (i, divider f e i, distance f e i)) /\
    bs_CalculatedBaud b' = default (bs_CalculatedBaud b) (rate f e <$> last l).
Proof.
  induction l as [|i l IH]; intros b Hl; [exists b; repeat (split; [done || by left|]); done|].
  apply Forall_cons in Hl as [Hi Hl]. rewrite search_step by done.
  set (b1 := if distance f e i <=? bs_BaudDiff b then _ else _).
  destruct (IH b1 Hl) as (b' & -> & Hle & Hall & Hfrom & Hcalc). exists b'. split; [done|].
  assert (Hc1 : bs_CalculatedBaud b1 = rate f e i) by (unfold b1; by destruct (_ <=? _)).
  assert (Hc : bs_CalculatedBaud b' = default (bs_CalculatedBaud b) (rate f e <$> last (i :: l)))
    by (rewrite Hcalc, Hc1; destruct l as [|j l]; [done|]; rewrite last_cons_cons; by destruct (last (j :: l)) eqn:E; [|apply last_None in E]).
  unfold b1 in Hle, Hfrom. clear Hcalc Hc1. destruct (Z.leb_spec (distance f e i) (bs_BaudDiff b)) as [Hd|Hd]; cbn in Hle, Hfrom.
  - split; [lia|]. split; [by constructor; [lia|]|]. split; [|done]. right.
    destruct Hfrom as [Hb|(j & Hj & Hb)]; [exists i; split; [by left|done]|exists j; split; [by right|done]].
  - split; [lia|]. split; [by constructor; [lia|]|]. split; [|done].
    destruct Hfrom as [Hb|(j & Hj & Hb)]; [by left|right; exists j; split; [by right|done]].
Qed.

(** The search finds a ratio whose rate is as near as any to the desired rate; the
    rate it reports is that of the last ratio it tried. *)
Lemma search_baud_best :
  let m := Z.min 32 (f / e) in
  exists b, search_baud f e = Ok b /\
    4 <= bs_Osr b <= m /\ bs_Sbr b = divider f e (bs_Osr b) /\ 1 <= bs_Sbr b < 2 ^ 16 /\
    (forall i, 4 <= i <= m -> distance f e (bs_Osr b) <= distance f e i) /\
    bs_CalculatedBaud b = rate f e m.
Proof.
  intros m. assert (Hm : 4 <= m) by (unfold m; pose proof (Z.div_le_lower_bound f e 4 He ltac:(lia)); lia).
  assert (Hr : Forall (fun i => 4 <= i <= m) ratios) by (apply Forall_forall; intros i Hi; apply elem_of_seqZ in Hi; lia).
  unfold search_baud. rewrite sbr_divider, calculated_rate by (unfold m in Hm; lia). cbn [mbind res_bind]. rewrite rate_diff by (unfold m in Hm; lia).
  destruct (search_osr_best ratios (mkSearch 4 (divider f e 4) (distance f e 4) (rate f e 4)) Hr) as (b & Hb & Hle & Hall & Hfrom & Hcalc).
  exists b. split; [exact Hb|]. clear Hb. cbn in Hle, Hfrom, Hcalc.
  assert (Hpick : 4 <= bs_Osr b <= m /\ bs_Sbr b = divider f e (bs_Osr b) /\ bs_BaudDiff b = distance f e (bs_Osr b)).
  { destruct Hfrom as [[= -> -> ->]|(i & Hi & [= -> -> ->])]; [split; [lia|done]|]. rewrite Forall_forall in Hr. split; [by apply Hr|done]. }
  destruct Hpick as (Ho & Hs & Hd). split; [done|]. split; [done|]. split; [rewrite Hs; by apply divider_range|]. split.
  - intros i Hi. rewrite <- Hd. destruct (Z.eq_dec i 4) as [->|Hne]; [done|]. rewrite Forall_forall in Hall. apply Hall, elem_of_seqZ.
    fold m. lia.
  - rewrite Hcalc. unfold ratios. fold m. destruct (Z.eq_dec m 4) as [E|E]; [by rewrite E|].
    replace (m - 4) with ((m - 5) + 1) by lia. rewrite seqZ_app by lia. change (seqZ (5 + (m - 5)) 1) with [0 + (5 + (m - 5))].
    rewrite last_snoc. cbn [fmap option_fmap option_map default]. unfold default, id. f_equal. lia.
Qed.

End Baud.

(** With a clock of 4 MHz and 19200 baud the rate that is reported is not the one
    that is programmed. *)
Lemma reported_rate_differs :
  exists b, search_baud 4000000 19200 = Ok b /\ rate 4000000 19200 (bs_Osr b) <> bs_CalculatedBaud b.
Proof. eexists. split; [by vm_compute|]. by vm_compute. Qed.
