(* ===== verification/LpuartDriverProps.v ===== *)
(** * Properties of the driver of the serial port

    The firmware's driver over the emulated port: a message comes in and goes out
    again unchanged, polled sending, polled receiving and its time-out. *)

From S2P Require Import Prelude Bits Clock CharMux Lpuart LpuartTheory.
From S2P Require Import LpuartDriver LpuartDriverTheory.

(** ** Lemmas *)

Lemma store_bytes_ok l : forall a mem, bytes_ok mem -> bytes_ok (store_bytes a l mem).
Proof.
  induction l as [|v l IH]; intros a mem Hm; [done|]. cbn. apply IH. intros i.
  destruct (Z.eqb_spec i a); [apply in_range_wrapu; lia|apply Hm].
Qed.

Lemma bits_off_zero l : Forall (fun n => 0 <= n < 32) l -> bits_off l 0 = 0.
Proof.
  intros Hl. apply word_ext; [by apply bits_off_range|done|]. intros i Hi.
  rewrite bits_off_testbit, Z.bits_0 by done. apply andb_false_r.
Qed.

Lemma plain_send l : forall chr : plain_chardev, chr_send l chr = mkPlain (pc_out chr ++ l) (pc_speed chr).
Proof.
  induction l as [|v l IH]; intros [o s]; cbn; [by rewrite app_nil_r|].
  change (chr_send l (mkPlain (o ++ [v]) s) = mkPlain (o ++ v :: l) s). rewrite IH. cbn. by rewrite <- app_assoc.
Qed.

(** ** Properties *)



(** C23: Polled receiving takes the bytes as they come: with [k] polls before each
    byte, a reception of [n] bytes whose polls and bytes stay below the time-out
    stores exactly these bytes in order, leaves the rest of the memory alone,
    turns the receiver and its interrupt off and returns; it reports success, but
    for the case that the ticks are one short of the time-out, where it reports a
    time-out with all the bytes there.  A busy driver returns at once and
    changes nothing. *)
Theorem uart_sync_receive clk y l host a T u mem d w x (chr : plain_chardev) :
  layout_ok y -> in_range 32 w -> in_range 8 x -> 0 < a -> l <> [] -> a + Z.of_nat (length l) < 2 ^ 32 ->
  Forall (in_range 8) l.*2 -> arrival_ticks l < T < 2 ^ 32 ->
  let n := Z.of_nat (length l) in
  let st := if arrival_ticks l + 1 =? T then LPUART_UART_IP_STATUS_TIMEOUT else LPUART_UART_IP_STATUS_SUCCESS in
  let r := Lpuart_Uart_Ip_SyncReceive clk y (arrivals l ++ host) a n T (machine u mem d w false x chr) in
  if IsRxBusy u then r = Ok (Some LPUART_UART_IP_STATUS_BUSY, machine u mem d w false x chr)
  else exists mem' x',
    r = Ok (Some st, machine (rx_done st (a + n) u) mem' d (bits_off [21; 18] w) false x' chr) /\
    read_bytes mem' a (length l) = l.*2 /\ (forall i, i < a \/ a + n <= i -> mem' i = mem i).
Proof.
  intros Hy Hw Hx Ha Hl Han Hb HT n st r. assert (Hn : (0 < length l)%nat) by (destruct l; cbn; [done|lia]).
  destruct (IsRxBusy u) eqn:Hu.
  - unfold r, Lpuart_Uart_Ip_SyncReceive. destruct (Z.eqb_spec a 0); [lia|]. destruct (Z.gtb_spec n 0); [|lia].
    do 4 ustep_done. by rewrite Hu.
  - destruct (sync_receive_eq clk y Hy l host a T u mem d w x chr) as [x' Hr]; [done..|].
    exists (store_bytes a l.*2 mem), x'. split; [exact Hr|]. split.
    + pose proof (store_bytes_read l.*2 a mem Hb) as Hs. by rewrite length_fmap in Hs.
    + intros i Hi. apply store_bytes_outside. by rewrite length_fmap.
Qed.

(** C24: A polled reception of a byte on a silent line ends after [T - 1] polls; it
    stores the old contents of the data register in the buffer and reports a
    time-out, but with the largest time-out the count of the ticks wraps around and
    it reports success, although no byte has come. *)
Theorem uart_sync_receive_silent clk y k a T u mem d w x (chr : plain_chardev) :
  layout_ok y -> in_range 32 w -> in_range 8 x -> IsRxBusy u = false -> 0 < a < 2 ^ 32 - 1 ->
  2 <= T < 2 ^ 32 -> T - 1 <= Z.of_nat k ->
  let st := if T =? 2 ^ 32 - 1 then LPUART_UART_IP_STATUS_SUCCESS else LPUART_UART_IP_STATUS_TIMEOUT in
  exists mem',
    Lpuart_Uart_Ip_SyncReceive clk y (replicate k None) a 1 T (machine u mem d w false x chr) =
      Ok (Some st, machine (rx_done st (a + 1) u) mem' d (bits_off [21; 18] w) false x chr) /\
    mem' a = x /\ (forall i, i <> a -> mem' i = mem i).
Proof.
  intros Hy Hw Hx Hu Ha HT Hk st. exists (store_bytes a [x] mem). split; [by apply sync_receive_silent|]. cbn.
  rewrite Z.eqb_refl. split; [by apply wrapu_small|]. intros i Hi. by destruct (Z.eqb_spec i a).
Qed.

(** ** Witnesses *)

Definition demo_uart_port : NXPS32K358LPUartState := nxps32k358_lpuart_reset (lpuart_zero 3).
Definition demo_uart_clock : Clock := set_period (CLOCK_PERIOD_FROM_HZ 40000000) clock_initfn.
Definition demo_uart : Lpuart_Uart_Ip_StateStructureType :=
  mkUart 115942 0 0 0 0 false false LPUART_UART_IP_STATUS_SUCCESS LPUART_UART_IP_STATUS_SUCCESS.
(** Some text, as the numbers of its letters. *)
Definition demo_memory (a : Z) : Z := u8 (0x41 + a).

Lemma demo_memory_ok : bytes_ok demo_memory.
Proof. intros a. apply in_range_wrapu. lia. Qed.



Lemma uart_sync_receive_witness :
  exists mem' x',
    Lpuart_Uart_Ip_SyncReceive demo_uart_clock demo_layout (arrivals [(2%nat, 52); (0%nat, 50)] ++ []) 0x100 2 6
      (machine demo_uart demo_memory demo_uart_port 0 false 0 (mkPlain [] 0)) =
      Ok (Some LPUART_UART_IP_STATUS_SUCCESS,
          machine (rx_done LPUART_UART_IP_STATUS_SUCCESS 0x102 demo_uart) mem' demo_uart_port (bits_off [21; 18] 0) false x' (mkPlain [] 0)) /\
    read_bytes mem' 0x100 2 = [52; 50] /\ (forall i, i < 0x100 \/ 0x102 <= i -> mem' i = demo_memory i).
Proof.
  refine (uart_sync_receive demo_uart_clock demo_layout [(2%nat, 52); (0%nat, 50)] [] 0x100 6 demo_uart demo_memory demo_uart_port 0 0
    (mkPlain [] 0) demo_layout_ok _ _ _ _ _ _ _); try done; by repeat constructor.
Defined.

Lemma uart_sync_receive_silent_witness :
  exists mem',
    Lpuart_Uart_Ip_SyncReceive demo_uart_clock demo_layout (replicate 4 None) 0x100 1 5
      (machine demo_uart demo_memory demo_uart_port 0 false 9 (mkPlain [] 0)) =
      Ok (Some LPUART_UART_IP_STATUS_TIMEOUT,
          machine (rx_done LPUART_UART_IP_STATUS_TIMEOUT 0x101 demo_uart) mem' demo_uart_port (bits_off [21; 18] 0) false 9 (mkPlain [] 0)) /\
    mem' 0x100 = 9 /\ (forall i, i <> 0x100 -> mem' i = demo_memory i).
Proof.
  refine (uart_sync_receive_silent demo_uart_clock demo_layout 4 0x100 5 demo_uart demo_memory demo_uart_port 0 9 (mkPlain [] 0)
    demo_layout_ok _ _ _ _ _ _); done.
Defined.
