(* ===== verification/Soc.v ===== *)
(** * The SoC and the board

    [hw/arm/nxps32k358_soc.c] and [hw/arm/nxps32k3x8evb.c]: the system memory
    of the S32K358, its clock tree, its interrupt wiring and the devices the
    address space dispatches to, with [hw/misc/unimp.c] for the devices the
    board only names.  The board state is the eDMA controller beside the rest
    of the machine, which the controller reaches through the bus. *)

From stdpp Require Import strings.
From S2P Require Import Prelude Bits Interfaces Edma Clock Topology Access CharMux Lpuart.

(** ** Constants ([nxps32k358_soc.h], [nxps32k3x8evb.h]) *)

Definition CODE_FLASH_BASE_ADDRESS : Z := 0x00400000.
Definition CODE_FLASH_BLOCK_SIZE : Z := 2 * 1024 * 1024.
Definition DATA_FLASH_BASE_ADDRESS : Z := 0x10000000.
Definition DATA_FLASH_SIZE : Z := 128 * 1024.
Definition SRAM_BASE_ADDRESS : Z := 0x20400000.
Definition SRAM_BLOCK_SIZE : Z := 256 * 1024.
Definition DTCM_BASE_ADDRESS : Z := 0x20000000.
Definition DTCM_SIZE : Z := (128 * 1024) + 1.
Definition ITCM_BASE_ADDRESS : Z := 0x00000000.
Definition ITCM_SIZE : Z := 64 * 1024.
Definition MC_ME_BASE_ADDRESS : Z := 0x402DC000.
Definition MC_ME_SIZE : Z := 1340.
Definition LPUART_ADDR (n : Z) : Z := u32 (0x40328000 + 0x4000 * n).
Definition LPUART_IRQ (n : Z) : Z := u32 (141 + n).
Definition NUM_LPUARTS : nat := 16.
Definition EDMA_BASE_ADDRESS : Z := 0x4020C000.
Definition EDMA_IRQ (n : Z) : Z := u32 (4 + n).
Definition NUM_EDMA_CHANNELS : nat := 32.
Definition SYSCLK_FRQ : Z := 160000000.
Definition NUM_IRQ : Z := 240.

(** Identities of the memory regions and of the devices that own them. *)
Definition MR_SYSTEM : nat := 0.
Definition MR_CODE_FLASH (i : nat) : nat := 1 + i.
Definition MR_DATA_FLASH : nat := 5.
Definition MR_SRAM (i : nat) : nat := 6 + i.
Definition MR_DTCM : nat := 9.
Definition MR_ITCM : nat := 10.
Definition MR_MC_ME : nat := 11.
Definition MR_LPUART (i : nat) : nat := 12 + i.
Definition MR_EDMA0 : nat := 28.
Definition MR_UNIMP (i : nat) : nat := 100 + i.

Definition DEV_SOC : nat := 0.
Definition DEV_LPUART (i : nat) : nat := 1 + i.
Definition DEV_EDMA : nat := 17.

(** Identities of the clocks. *)
Definition CLK_BOARD_SYSCLK : nat := 1.
Definition CLK_SYSCLK : nat := 2.
Definition CLK_REFCLK : nat := 3.
Definition CLK_AIPS_PLAT : nat := 4.
Definition CLK_AIPS_SLOW : nat := 5.
Definition CLK_ARMV7M_REFCLK : nat := 6.
Definition CLK_ARMV7M_CPUCLK : nat := 7.
Definition CLK_SYSTICK_REFCLK : nat := 8.
Definition CLK_SYSTICK_CPUCLK : nat := 9.
Definition CLK_LPUART (i : nat) : nat := 16 + i.

(** ** The system being built *)

(** The output lines of the devices. *)
Inductive irq_source : Set := EdmaLine (n : nat) | LpuartLine (n : nat).

#[export] Instance irq_source_eq_dec : EqDecision irq_source.
Proof. solve_decision. Defined.

Record system : Type := mkSystem {
  system_memory : MemoryRegion;
  sys_clocks : clock_heap;
  irq_wires : list (irq_source * Z);
  unimplemented : list string
}.

(** [memory_region_init], [memory_region_init_ram], [memory_region_init_rom] and
    [memory_region_init_io]: under TCG, RAM blocks log code writes. *)
Definition memory_region_init (id : nat) (size : Z) : MemoryRegion :=
  mkMR id 0 (if size =? 2 ^ 64 - 1 then 2 ^ 64 else size) true false false false false true 0 0 None 0 [].

Definition memory_region_init_ram (id : nat) (size : Z) : MemoryRegion :=
  mkMR id 0 size true false false false true true 2 0 None 0 [].

Definition memory_region_init_rom (id : nat) (size : Z) : MemoryRegion :=
  mkMR id 0 size true true false false true true 2 0 None 0 [].

Definition memory_region_init_io (id : nat) (size : Z) : MemoryRegion :=
  mkMR id 0 size true false false false true true 0 0 None 0 [].

(** [sysbus_mmio_map] and [sysbus_mmio_map_overlap] of a region not yet mapped. *)
Definition sysbus_mmio_map (mr : MemoryRegion) (addr : Z) (s : system) : system :=
  mkSystem (memory_region_add_subregion (system_memory s) addr mr) (sys_clocks s) (irq_wires s)
    (unimplemented s).

Definition sysbus_mmio_map_overlap (mr : MemoryRegion) (addr priority : Z) (s : system) : system :=
  mkSystem (memory_region_add_subregion_overlap (system_memory s) addr mr priority) (sys_clocks s)
    (irq_wires s) (unimplemented s).

(** [sysbus_connect_irq] to an input of the NVIC. *)
Definition sysbus_connect_irq (src : irq_source) (n : Z) (s : system) : system :=
  mkSystem (system_memory s) (sys_clocks s) (irq_wires s ++ [(src, n)]) (unimplemented s).

Definition set_sys_clocks (h : clock_heap) (s : system) : system :=
  mkSystem (system_memory s) h (irq_wires s) (unimplemented s).

(** ** Unimplemented devices *)

(** [create_unimplemented_device] *)
Definition create_unimplemented_device (d : string * Z * Z) (s : system) : system :=
  let '(name, base, size) := d in
  let id := MR_UNIMP (length (unimplemented s)) in
  let s := mkSystem (system_memory s) (sys_clocks s) (irq_wires s) (unimplemented s ++ [name]) in
  sysbus_mmio_map_overlap (memory_region_init_io id size) base (-1000) s.

(** The table of [create_unimplemented_devices], in order. *)
Definition unimp (name : string) (base size : Z) : string * Z * Z := (name, base, size).

Definition unimplemented_devices_0 : list (string * Z * Z) :=
  [unimp "hse_xbic" 0x40008000 0x4000; unimp "erm1" 0x4000c000 0x4000;
   unimp "pfc1" 0x40068000 0x4000; unimp "pfc1_alt" 0x4006c000 0x4000;
   unimp "swt_3" 0x40070000 0x4000; unimp "trgmux" 0x40080000 0x4000;
   unimp "bctu" 0x40084000 0x4000; unimp "emios0" 0x40088000 0x4000;
   unimp "emios1" 0x4008c000 0x4000; unimp "emios2" 0x40090000 0x4000;
   unimp "lcu0" 0x40098000 0x4000; unimp "lcu1" 0x4009c000 0x4000;
   unimp "adc_0" 0x400a0000 0x4000; unimp "adc_1" 0x400a4000 0x4000;
   unimp "adc_2" 0x400a8000 0x4000; unimp "pit0" 0x400b0000 0x4000;
   unimp "pit1" 0x400b4000 0x4000; unimp "mu_2" 0x400b8000 0x4000;
   unimp "mu_2" 0x400bc000 0x4000; unimp "mu_3" 0x400c4000 0x4000;
   unimp "mu_3" 0x400c8000 0x4000; unimp "mu_4" 0x400cc000 0x4000;
   unimp "mu_4" 0x400d0000 0x4000; unimp "axbs" 0x40200000 0x4000;
   unimp "system_xbic" 0x40204000 0x4000; unimp "periph_xbic" 0x40208000 0x4000;
   unimp "edma" 0x4020c000 0x4000; unimp "edma_tcd_0" 0x40210000 0x4000;
   unimp "edma_tcd_1" 0x40214000 0x4000; unimp "edma_tcd_2" 0x40218000 0x4000;
   unimp "edma_tcd_3" 0x4021c000 0x4000; unimp "edma_tcd_4" 0x40220000 0x4000;
   unimp "edma_tcd_5" 0x40224000 0x4000; unimp "edma_tcd_6" 0x40228000 0x4000;
   unimp "edma_tcd_7" 0x4022c000 0x4000; unimp "edma_tcd_8" 0x40230000 0x4000;
   unimp "edma_tcd_9" 0x40234000 0x4000; unimp "edma_tcd_10" 0x40238000 0x4000;
   unimp "edma_tcd_11" 0x4023c000 0x4000; unimp "debug_apb_page0" 0x40240000 0x4000;
   unimp "debug_apb_page1" 0x40244000 0x4000; unimp "debug_apb_page2" 0x40248000 0x4000;
   unimp "debug_apb_page3" 0x4024c000 0x4000; unimp "debug_apb_paged_area" 0x40250000 0x4000;
   unimp "sda-ap" 0x40254000 0x4000; unimp "eim0" 0x40258000 0x4000;
   unimp "erm0" 0x4025c000 0x4000; unimp "mscm" 0x40260000 0x4000;
   unimp "pram_0" 0x40264000 0x4000; unimp "pfc" 0x40268000 0x4000;
   unimp "pfc_alt" 0x4026c000 0x4000; unimp "swt_0" 0x40270000 0x4000;
   unimp "stm_0" 0x40274000 0x4000; unimp "xrdc" 0x40278000 0x4000;
   unimp "intm" 0x4027c000 0x4000; unimp "dmamux_0" 0x40280000 0x4000;
   unimp "dmamux_1" 0x40284000 0x4000; unimp "rtc" 0x40288000 0x4000;
   unimp "mc_rgm" 0x4028c000 0x4000; unimp "siul_virtwrapper_pdac0_hse" 0x40290000 0x4000;
   unimp "siul_virtwrapper_pdac0_hse" 0x40294000 0x4000;
   unimp "siul_virtwrapper_pdac1_m7_0" 0x40298000 0x4000;
   unimp "siul_virtwrapper_pdac1_m7_0" 0x4029c000 0x4000;
   unimp "siul_virtwrapper_pdac2_m7_1" 0x402a0000 0x4000;
   unimp "siul_virtwrapper_pdac2_m7_1" 0x402a4000 0x4000;
   unimp "siul_virtwrapper_pdac3" 0x402a8000 0x4000; unimp "dcm" 0x402ac000 0x4000;
   unimp "wkpu" 0x402b4000 0x4000; unimp "cmu" 0x402bc000 0x4000; unimp "tspc" 0x402c4000 0x4000;
   unimp "sirc" 0x402c8000 0x4000; unimp "sxosc" 0x402cc000 0x4000;
   unimp "firc" 0x402d0000 0x4000; unimp "fxosc" 0x402d4000 0x4000;
   unimp "mc_cgm" 0x402d8000 0x4000; unimp "mc_me" 0x402dc000 0x4000;
   unimp "pll" 0x402e0000 0x4000; unimp "pll2" 0x402e4000 0x4000; unimp "pmc" 0x402e8000 0x4000;
   unimp "fmu" 0x402ec000 0x4000; unimp "fmu_alt" 0x402f0000 0x4000;
   unimp "siul_virtwrapper_pdac4_m7_2" 0x402f4000 0x4000;
   unimp "siul_virtwrapper_pdac4_m7_2" 0x402f8000 0x4000; unimp "pit2" 0x402fc000 0x4000;
   unimp "pit3" 0x40300000 0x4000].

Definition unimplemented_devices_1 : list (string * Z * Z) :=
  [unimp "flexcan_0" 0x40304000 0x4000; unimp "flexcan_1" 0x40308000 0x4000;
   unimp "flexcan_2" 0x4030c000 0x4000; unimp "flexcan_3" 0x40310000 0x4000;
   unimp "flexcan_4" 0x40314000 0x4000; unimp "flexcan_5" 0x40318000 0x4000;
   unimp "flexcan_6" 0x4031c000 0x4000; unimp "flexcan_7" 0x40320000 0x4000;
   unimp "flexio" 0x40324000 0x4000; unimp "lpuart_0" 0x40328000 0x4000;
   unimp "lpuart_1" 0x4032c000 0x4000; unimp "lpuart_2" 0x40330000 0x4000;
   unimp "lpuart_3" 0x40334000 0x4000; unimp "lpuart_4" 0x40338000 0x4000;
   unimp "lpuart_5" 0x4033c000 0x4000; unimp "lpuart_6" 0x40340000 0x4000;
   unimp "lpuart_7" 0x40344000 0x4000; unimp "siul_virtwrapper_pdac5_m7_3" 0x40348000 0x4000;
   unimp "siul_virtwrapper_pdac5_m7_3" 0x4034c000 0x4000; unimp "lpi2c_0" 0x40350000 0x4000;
   unimp "lpi2c_1" 0x40354000 0x4000; unimp "lpspi_0" 0x40358000 0x4000;
   unimp "lpspi_1" 0x4035c000 0x4000; unimp "lpspi_2" 0x40360000 0x4000;
   unimp "lpspi_3" 0x40364000 0x4000; unimp "sai0" 0x4036c000 0x4000;
   unimp "lpcmp_0" 0x40370000 0x4000; unimp "lpcmp_1" 0x40374000 0x4000;
   unimp "tmu" 0x4037c000 0x4000; unimp "crc" 0x40380000 0x4000; unimp "fccu_" 0x40384000 0x4000;
   unimp "mu_0" 0x4038c000 0x4000; unimp "mu_1" 0x40390000 0x4000; unimp "jdc" 0x40394000 0x4000;
   unimp "configuration_gpr" 0x4039c000 0x4000; unimp "stcu" 0x403a0000 0x4000;
   unimp "selftest_gpr" 0x403b0000 0x4000; unimp "aes_accel" 0x403c0000 0x10000;
   unimp "aes_app0" 0x403d0000 0x10000; unimp "aes_app1" 0x403e0000 0x10000;
   unimp "aes_app2" 0x403f0000 0x10000; unimp "tcm_xbic" 0x40400000 0x4000;
   unimp "edma_xbic" 0x40404000 0x4000; unimp "pram2_tcm_xbic" 0x40408000 0x4000;
   unimp "aes_mux_xbic" 0x4040c000 0x4000; unimp "edma_tcd_12" 0x40410000 0x4000;
   unimp "edma_tcd_13" 0x40414000 0x4000; unimp "edma_tcd_14" 0x40418000 0x4000;
   unimp "edma_tcd_15" 0x4041c000 0x4000; unimp "edma_tcd_16" 0x40420000 0x4000;
   unimp "edma_tcd_17" 0x40424000 0x4000; unimp "edma_tcd_18" 0x40428000 0x4000;
   unimp "edma_tcd_19" 0x4042c000 0x4000; unimp "edma_tcd_20" 0x40430000 0x4000;
   unimp "edma_tcd_21" 0x40434000 0x4000; unimp "edma_tcd_22" 0x40438000 0x4000;
   unimp "edma_tcd_23" 0x4043c000 0x4000; unimp "edma_tcd_24" 0x40440000 0x4000;
   unimp "edma_tcd_25" 0x40444000 0x4000; unimp "edma_tcd_26" 0x40448000 0x4000;
   unimp "edma_tcd_27" 0x4044c000 0x4000; unimp "edma_tcd_28" 0x40450000 0x4000;
   unimp "edma_tcd_29" 0x40454000 0x4000; unimp "edma_tcd_30" 0x40458000 0x4000;
   unimp "edma_tcd_31" 0x4045c000 0x4000; unimp "sema42" 0x40460000 0x4000;
   unimp "pram_1" 0x40464000 0x4000; unimp "pram_2" 0x40468000 0x4000;
   unimp "swt_1" 0x4046c000 0x4000; unimp "swt_2" 0x40470000 0x4000;
   unimp "stm_1" 0x40474000 0x4000; unimp "stm_2" 0x40478000 0x4000;
   unimp "stm_3" 0x4047c000 0x4000; unimp "emac" 0x40480000 0x4000;
   unimp "gmac0" 0x40484000 0x4000; unimp "gmac1" 0x40488000 0x4000;
   unimp "lpuart_8" 0x4048c000 0x4000; unimp "lpuart_9" 0x40490000 0x4000;
   unimp "lpuart_10" 0x40494000 0x4000; unimp "lpuart_11" 0x40498000 0x4000;
   unimp "lpuart_12" 0x4049c000 0x4000; unimp "lpuart_13" 0x404a0000 0x4000;
   unimp "lpuart_14" 0x404a4000 0x4000; unimp "lpuart_15" 0x404a8000 0x4000;
   unimp "lpspi_4" 0x404bc000 0x4000; unimp "lpspi_5" 0x404c0000 0x4000;
   unimp "quadspi" 0x404cc000 0x4000; unimp "sai1" 0x404dc000 0x4000;
   unimp "usdhc" 0x404e4000 0x4000; unimp "lpcmp_2" 0x404e8000 0x4000;
   unimp "mu_1" 0x404ec000 0x4000; unimp "eim0" 0x4050c000 0x4000;
   unimp "eim1" 0x40510000 0x4000; unimp "eim2" 0x40514000 0x4000;
   unimp "eim3" 0x40518000 0x4000; unimp "aes_app3" 0x40520000 0x10000;
   unimp "aes_app4" 0x40530000 0x10000; unimp "aes_app5" 0x40540000 0x10000;
   unimp "aes_app6" 0x40550000 0x10000; unimp "aes_app7" 0x40560000 0x10000;
   unimp "flexcan_8" 0x40570000 0x4000; unimp "flexcan_9" 0x40574000 0x4000;
   unimp "flexcan_10" 0x40578000 0x4000; unimp "flexcan_11" 0x4057c000 0x4000;
   unimp "fmu1" 0x40580000 0x4000; unimp "fmu1_alt" 0x40584000 0x4000;
   unimp "pram_3" 0x40588000 0x4000].

(** [create_unimplemented_devices] *)
Definition create_unimplemented_devices (s : system) : system :=
  foldl (fun s d => create_unimplemented_device d s) s
    (unimplemented_devices_0 ++ unimplemented_devices_1).

(** ** Initialisation *)

(** The clocks of the board, created by the [instance_init] functions of the
    SoC, the CPU, the system timer and the LPUARTs; the timer listens to its two. *)
Definition soc_clocks_init : clock_heap :=
  let plain := clock_initfn in
  let timer := mkClock 0 true (clock_event_bit ClockUpdate) 1 1 None [] in
  mkHeap (list_to_map
            ([(CLK_BOARD_SYSCLK, plain); (CLK_SYSCLK, plain); (CLK_REFCLK, plain);
              (CLK_AIPS_PLAT, plain); (CLK_AIPS_SLOW, plain);
              (CLK_ARMV7M_REFCLK, plain); (CLK_ARMV7M_CPUCLK, plain);
              (CLK_SYSTICK_REFCLK, timer); (CLK_SYSTICK_CPUCLK, timer)]
             ++ ((fun i => (CLK_LPUART i, plain)) <$> seq 0 NUM_LPUARTS))) [].

(** The state before the board is initialised. *)
Definition system_init : system :=
  mkSystem (memory_region_init MR_SYSTEM (2 ^ 64 - 1)) soc_clocks_init [] [].

(** Realization returns a system or the message of an error. *)
Definition and_then {A B} (r : res (string + A)) (k : A -> res (string + B)) : res (string + B) :=
  x ← r; match x with inl msg => Ok (inl msg) | inr a => k a end.

(** [clock_has_source] *)
Definition clock_has_source (h : clock_heap) (clk : nat) : res bool :=
  c ← get_clock h clk; Ok (match source c with Some _ => true | None => false end).

(** The clocks of [nxps32k358_soc_realize]. *)
Definition soc_realize_clocks (s : system) : res (string + system) :=
  let h := sys_clocks s in
  b ← clock_has_source h CLK_REFCLK;
  if (b : bool) then Ok (inl "refclk clock must not be wired up by the board code"%string)
  else
    b ← clock_has_source h CLK_SYSCLK;
    if negb b then Ok (inl "sysclk clock must be wired up by the board code"%string)
    else
      '(_, h) ← clock_set_mul_div CLK_REFCLK 8 1 h;
      h ← clock_set_source CLK_REFCLK CLK_SYSCLK h;
      '(_, h) ← clock_set_hz CLK_AIPS_PLAT 80000000 h;
      '(_, h) ← clock_set_hz CLK_AIPS_SLOW 40000000 h;
      Ok (inr (set_sys_clocks h s)).

(** The memories of [nxps32k358_soc_realize]. *)
Definition soc_realize_memories (s : system) : system :=
  let m := system_memory s in
  let m := memory_region_add_subregion m CODE_FLASH_BASE_ADDRESS
             (memory_region_init_rom (MR_CODE_FLASH 0) CODE_FLASH_BLOCK_SIZE) in
  let m := memory_region_add_subregion m (CODE_FLASH_BASE_ADDRESS + CODE_FLASH_BLOCK_SIZE)
             (memory_region_init_rom (MR_CODE_FLASH 1) CODE_FLASH_BLOCK_SIZE) in
  let m := memory_region_add_subregion m (CODE_FLASH_BASE_ADDRESS + 2 * CODE_FLASH_BLOCK_SIZE)
             (memory_region_init_rom (MR_CODE_FLASH 2) CODE_FLASH_BLOCK_SIZE) in
  let m := memory_region_add_subregion m (CODE_FLASH_BASE_ADDRESS + 3 * CODE_FLASH_BLOCK_SIZE)
             (memory_region_init_rom (MR_CODE_FLASH 3) CODE_FLASH_BLOCK_SIZE) in
  let m := memory_region_add_subregion m DATA_FLASH_BASE_ADDRESS
             (memory_region_init_rom MR_DATA_FLASH DATA_FLASH_SIZE) in
  let m := memory_region_add_subregion m SRAM_BASE_ADDRESS
             (memory_region_init_ram (MR_SRAM 0) SRAM_BLOCK_SIZE) in
  let m := memory_region_add_subregion m (SRAM_BASE_ADDRESS + SRAM_BLOCK_SIZE)
             (memory_region_init_ram (MR_SRAM 1) SRAM_BLOCK_SIZE) in
  let m := memory_region_add_subregion m (SRAM_BASE_ADDRESS + 2 * SRAM_BLOCK_SIZE)
             (memory_region_init_ram (MR_SRAM 2) SRAM_BLOCK_SIZE) in
  let m := memory_region_add_subregion m DTCM_BASE_ADDRESS
             (memory_region_init_ram MR_DTCM DTCM_SIZE) in
  let m := memory_region_add_subregion m ITCM_BASE_ADDRESS
             (memory_region_init_ram MR_ITCM ITCM_SIZE) in
  let m := memory_region_add_subregion m MC_ME_BASE_ADDRESS
             (memory_region_init_io MR_MC_ME MC_ME_SIZE) in
  mkSystem m (sys_clocks s) (irq_wires s) (unimplemented s).

(** The clock wiring of [armv7m_realize]. *)
Definition armv7m_realize_clocks (s : system) : res (string + system) :=
  let h := sys_clocks s in
  b ← clock_has_source h CLK_ARMV7M_CPUCLK;
  if negb b then Ok (inl "armv7m: cpuclk must be connected"%string)
  else
    b ← clock_has_source h CLK_ARMV7M_REFCLK;
    h ← (if (b : bool) then clock_set_source CLK_SYSTICK_REFCLK CLK_ARMV7M_REFCLK h else Ok h);
    h ← clock_set_source CLK_SYSTICK_CPUCLK CLK_ARMV7M_CPUCLK h;
    Ok (inr (set_sys_clocks h s)).

Definition soc_realize_armv7m (s : system) : res (string + system) :=
  h ← clock_set_source CLK_ARMV7M_CPUCLK CLK_SYSCLK (sys_clocks s);
  h ← clock_set_source CLK_ARMV7M_REFCLK CLK_REFCLK h;
  armv7m_realize_clocks (set_sys_clocks h s).

(** One round of the LPUART loop. *)
Definition soc_realize_lpuart (i : nat) (s : system) : res (string + system) :=
  h ← clock_set_source (CLK_LPUART i)
        (if (i <? 2)%nat || (i =? 8)%nat then CLK_AIPS_PLAT else CLK_AIPS_SLOW) (sys_clocks s);
  c ← get_clock h (CLK_LPUART i);
  if negb (nxps32k358_lpuart_realize c)
  then Ok (inl "LPUART clock must be wired up by SoC code"%string)
  else
    let s := set_sys_clocks h s in
    let s := sysbus_mmio_map (memory_region_init_io (MR_LPUART i) LPUART_MMIO_SIZE)
               (LPUART_ADDR (Z.of_nat i)) s in
    Ok (inr (sysbus_connect_irq (LpuartLine i) (LPUART_IRQ (Z.of_nat i)) s)).

Fixpoint soc_realize_lpuarts (l : list nat) (s : system) : res (string + system) :=
  match l with
  | [] => Ok (inr s)
  | i :: l => and_then (soc_realize_lpuart i s) (soc_realize_lpuarts l)
  end.

(** The eDMA: only its first window is mapped. *)
Definition soc_realize_edma (s : system) : system :=
  let s := sysbus_mmio_map (memory_region_init_io MR_EDMA0 EDMA_MMIO0_SIZE) EDMA_BASE_ADDRESS s in
  foldl (fun s i => sysbus_connect_irq (EdmaLine i) (EDMA_IRQ (Z.of_nat i)) s) s
    (seq 0 NUM_EDMA_CHANNELS).

(** [nxps32k358_soc_realize] *)
Definition nxps32k358_soc_realize (s : system) : res (string + system) :=
  and_then (soc_realize_clocks s) (fun s =>
  and_then (soc_realize_armv7m (soc_realize_memories s)) (fun s =>
  and_then (soc_realize_lpuarts (seq 0 NUM_LPUARTS) s) (fun s =>
  Ok (inr (create_unimplemented_devices (soc_realize_edma s)))))).

(** [NXPS32K3X8EVB_init] *)
Definition NXPS32K3X8EVB_init : res (string + system) :=
  '(_, h) ← clock_set_hz CLK_BOARD_SYSCLK SYSCLK_FRQ (sys_clocks system_init);
  h ← clock_set_source CLK_SYSCLK CLK_BOARD_SYSCLK h;
  nxps32k358_soc_realize (set_sys_clocks h system_init).

(** The system the board ends up with, and the flat view of its memory. *)
Definition board_system : system :=
  match NXPS32K3X8EVB_init with Ok (inr s) => s | _ => system_init end.

Definition board_view : FlatView := generate_memory_topology (system_memory board_system).
