(* ===== verification/Board.v ===== *)
(** * The running board

    The devices of the board behind the address space that [Soc.v] builds: the
    handlers of each memory region, the state they act on, and the bus the
    eDMA controller masters.  The board is the eDMA controller beside the rest
    of the machine, [board_env]; while the controller moves data its own
    register window is guarded, so it only ever reaches [board_env]. *)

From stdpp Require Import strings.
From S2P Require Import Prelude Bits Interfaces Edma Clock Topology.
From S2P Require Import Access AccessTheory CharMux Lpuart Soc.

(** ** The machine beside the eDMA controller *)

(** RAM blocks, re-entrancy guards, LPUARTs with their character back ends, the
    levels of the eDMA lines, and the clocks. *)
Record board_env (B : Type) : Type := mkEnv {
  be_ram : gmap (nat * Z) Z;
  be_engaged : gmap nat bool;
  be_lpuarts : list (NXPS32K358LPUartState * B);
  be_edma_lines : gmap nat bool;
  be_clocks : clock_heap
}.
Arguments mkEnv {B}.
Arguments be_ram {B}.
Arguments be_engaged {B}.
Arguments be_lpuarts {B}.
Arguments be_edma_lines {B}.
Arguments be_clocks {B}.

Definition set_ram {B : Type} (m : gmap (nat * Z) Z) (e : board_env B) : board_env B :=
  mkEnv m (be_engaged e) (be_lpuarts e) (be_edma_lines e) (be_clocks e).
Definition set_engaged {B : Type} (g : gmap nat bool) (e : board_env B) : board_env B :=
  mkEnv (be_ram e) g (be_lpuarts e) (be_edma_lines e) (be_clocks e).
Definition set_lpuarts {B : Type} (l : list (NXPS32K358LPUartState * B)) (e : board_env B) : board_env B :=
  mkEnv (be_ram e) (be_engaged e) l (be_edma_lines e) (be_clocks e).
Definition set_edma_lines {B : Type} (g : gmap nat bool) (e : board_env B) : board_env B :=
  mkEnv (be_ram e) (be_engaged e) (be_lpuarts e) g (be_clocks e).

Definition get_lpuart {B : Type} (i : nat) (e : board_env B) : res (NXPS32K358LPUartState * B) :=
  match be_lpuarts e !! i with Some p => Ok p | None => Fault ArrayOutOfBounds end.

Definition put_lpuart {B : Type} (i : nat) (p : NXPS32K358LPUartState * B) (e : board_env B) : board_env B :=
  set_lpuarts (<[i := p]> (be_lpuarts e)) e.

#[export] Instance board_env_machine {B : Type} : Machine (board_env B) := {
  engaged_in_io d e := default false (be_engaged e !! d);
  set_engaged_in_io d b e := set_engaged (<[d := b]> (be_engaged e)) e;
  ram_load id off n e := (fun x => u8 (default 0 (be_ram e !! (id, x)))) <$> seqZ off n;
  ram_store id off bs e := set_ram (fm_store id off bs (be_ram e)) e
}.

(** ** Handlers *)

(** [mc_me_read], [mc_me_write] *)
Definition mc_me_read (addr size : Z) : Z := if addr =? 0x310 then 0x1000000 else 0.
Definition mc_me_write {S} (addr val size : Z) (s : S) : S := s.

(** [unimp_read], [unimp_write]: the accesses are only logged. *)
Definition unimp_read (offset size : Z) : Z := 0.
Definition unimp_write {S} (offset value size : Z) (s : S) : S := s.

(** The handlers act on a state [S] that contains a [board_env]. *)
Section Regions.
Context {B : Type} {Chr : CharBackend B} {S : Type}.
Context (env_of : S -> board_env B) (put_env : board_env B -> S -> S).

(** [mc_me_ops], [unimp_ops], [nxps32k358_lpuart_ops] *)
Definition mc_me_ops : MemoryRegionOps S :=
  mkOps (fun addr size s => Ok (mc_me_read addr size, s))
    (fun addr val size s => Ok (mc_me_write addr val size s)) false 0 0 false None 0 0 false.

Definition unimp_ops : MemoryRegionOps S :=
  mkOps (fun addr size s => Ok (unimp_read addr size, s))
    (fun addr val size s => Ok (unimp_write addr val size s)) false 1 8 false None 1 8 false.

Definition nxps32k358_lpuart_ops (i : nat) : MemoryRegionOps S :=
  mkOps
    (fun addr size s =>
       '(l, b) ← get_lpuart i (env_of s);
       '(v, l, b) ← nxps32k358_lpuart_read addr size l b;
       Ok (v, put_env (put_lpuart i (l, b) (env_of s)) s))
    (fun addr val size s =>
       '(l, b) ← get_lpuart i (env_of s);
       clk ← get_clock (be_clocks (env_of s)) (CLK_LPUART i);
       '(l, b) ← nxps32k358_lpuart_write clk addr val size l b;
       Ok (put_env (put_lpuart i (l, b) (env_of s)) s))
    false 0 0 false None 0 0 false.

(** The region with a given identity; [edma_ops] are the handlers of the eDMA. *)
Definition region_of (edma_ops : MemoryRegionOps S) (id : nat) : Region S :=
  if (id =? MR_SYSTEM)%nat then
    mkRegion unassigned_mem_ops false false false true false None false
  else if (id <=? MR_DATA_FLASH)%nat then
    mkRegion unassigned_mem_ops true false false true true (Some DEV_SOC) false
  else if (id <=? MR_ITCM)%nat then
    mkRegion unassigned_mem_ops true false false true false (Some DEV_SOC) false
  else if (id =? MR_MC_ME)%nat then
    mkRegion mc_me_ops false false false true false (Some DEV_SOC) false
  else if (id <? MR_EDMA0)%nat then
    let i := (id - MR_LPUART 0)%nat in
    mkRegion (nxps32k358_lpuart_ops i) false false false true false (Some (DEV_LPUART i)) false
  else if (id =? MR_EDMA0)%nat then
    mkRegion edma_ops false false false true false (Some DEV_EDMA) false
  else
    mkRegion unimp_ops false false false true false (Some id) false.

End Regions.

(** ** The bus of the eDMA controller *)

Section Bus.
Context {B : Type} {Chr : CharBackend B}.

(** The controller calls the bus from its own register handler, with its guard
    set, so its own handlers are never run from the bus. *)
Definition edma_guarded_ops : MemoryRegionOps (board_env B) :=
  mkOps (fun _ _ _ => Fault WildHostPointer) (fun _ _ _ _ => Fault WildHostPointer)
    false 0 0 false None 0 0 false.

Definition bus_region : nat -> Region (board_env B) :=
  region_of id (fun e _ => e) edma_guarded_ops.

#[export] Instance board_bus : DmaEnv (board_env B) := {
  bus_read a n e := cpu_physical_memory_read board_view bus_region a (Z.of_nat n) e;
  bus_write a bs e := cpu_physical_memory_write board_view bus_region a bs e;
  qemu_set_irq n b e := set_edma_lines (<[n := b]> (be_edma_lines e)) e
}.

(** ** The board *)

Record board : Type := mkBoard {
  b_edma : NXPS32K358EDMAState;
  b_env : board_env B
}.

#[export] Instance board_machine : Machine board := {
  engaged_in_io d s := engaged_in_io d (b_env s);
  set_engaged_in_io d b s := mkBoard (b_edma s) (set_engaged_in_io d b (b_env s));
  ram_load id off n s := ram_load id off n (b_env s);
  ram_store id off bs s := mkBoard (b_edma s) (ram_store id off bs (b_env s))
}.

(** [nxps32k358_edma0_ops]; [stack] is what the host stack holds below the handler. *)
Definition nxps32k358_edma0_ops (stack : list Z) : MemoryRegionOps board :=
  mkOps
    (fun addr size s => v ← nxps32k358_edma0_read addr size (b_edma s); Ok (v, s))
    (fun addr val size s =>
       '(d, e) ← nxps32k358_edma0_write stack addr val size (b_edma s) (b_env s);
       Ok (mkBoard d e))
    false 0 0 false None 0 0 false.

Definition board_region (stack : list Z) : nat -> Region board :=
  region_of b_env (fun e s => mkBoard (b_edma s) e) (nxps32k358_edma0_ops stack).

(** An access of the guest, or of a debugger, to the system memory. *)
Definition guest_read (stack : list Z) (addr len : Z) (s : board) : res (Z * list Z * board) :=
  address_space_read_full board_view (board_region stack) addr len s.

Definition guest_write (stack : list Z) (addr : Z) (bs : list Z) (s : board) : res (Z * board) :=
  address_space_write board_view (board_region stack) addr bs s.

(** The level of an NVIC input: the line wired to it. *)
Definition source_level (src : irq_source) (s : board) : bool :=
  match src with
  | EdmaLine n => default false (be_edma_lines (b_env s) !! n)
  | LpuartLine i => match be_lpuarts (b_env s) !! i with Some (l, _) => lpuart_irq l | None => false end
  end.

Definition nvic_input (n : Z) (s : board) : bool :=
  existsb (fun w => (w.2 =? n) && source_level w.1 s) (irq_wires board_system).

(** The board after realization and reset, with the character back ends [chrs]
    of its serial ports. *)
Definition board_reset (chrs : list B) : res board :=
  let e := mkEnv ∅ ∅ ((fun b => (nxps32k358_lpuart_reset (lpuart_zero 0), b)) <$> chrs) ∅
             (sys_clocks board_system) in
  '(d, e) ← nxps32k358_edma_realize edma_zero e;
  Ok (mkBoard d e).

End Bus.
Arguments board : clear implicits.
