(* ===== verification/BoardTheory.v ===== *)
(** * The board's bus and address map

    The board discharges the laws of a machine and of the eDMA's bus: SRAM and
    TCM behave as memory, reads of flash return its bytes, and no access of
    the controller touches its own interrupt lines.  The address map, the
    clocks and the interrupt wiring are what the board code lays out. *)

From stdpp Require Import strings.
From S2P Require Import Prelude Bits Interfaces Edma EdmaTheory Clock.
From S2P Require Import ClockTheory Topology Access AccessTheory CharMux Lpuart.
From S2P Require Import Soc Board.

(** ** The flat view of the board *)

Fixpoint view_fromb (lo : Z) (view : FlatView) : bool :=
  match view with
  | [] => true
  | r :: view => (lo <=? ar_start (fr_addr r)) && (0 <? ar_size (fr_addr r))
                 && view_fromb (addrrange_end (fr_addr r)) view
  end.

Lemma view_fromb_ok lo view : view_fromb lo view = true -> view_from lo view.
Proof.
  revert lo. induction view as [|r view IH]; intros lo; cbn; [done|].
  intros [[H1%Z.leb_le H2%Z.ltb_lt]%andb_prop H3]%andb_prop. auto.
Qed.

Lemma board_view_sorted : view_from 0 board_view.
Proof. apply view_fromb_ok. by vm_compute. Qed.

Definition range_bounded (r : FlatRange) : bool :=
  (0 <=? ar_start (fr_addr r)) && (0 <=? fr_offset_in_region r)
  && (addrrange_end (fr_addr r) <=? 2 ^ 64)
  && (fr_offset_in_region r + ar_size (fr_addr r) <=? 2 ^ 64).

Lemma board_view_bounded r :
  r ∈ board_view -> 0 <= ar_start (fr_addr r) /\ 0 <= fr_offset_in_region r /\
    addrrange_end (fr_addr r) <= 2 ^ 64 /\ fr_offset_in_region r + ar_size (fr_addr r) <= 2 ^ 64.
Proof.
  assert (Hall : forallb range_bounded board_view = true) by by vm_compute.
  intros Hr. rewrite forallb_forall in Hall. apply list_elem_of_In in Hr. specialize (Hall r Hr).
  unfold range_bounded in Hall. rewrite !andb_true_iff, !Z.leb_le in Hall. lia.
Qed.

Lemma board_view_distinct : NoDup (fr_mr <$> board_view).
Proof. apply (bool_decide_eq_true_1 _). by vm_compute. Qed.

Lemma board_view_no_aliases : no_aliases board_view.
Proof. apply distinct_no_aliases, board_view_distinct. Qed.

(** A range of the view resolves every address in it. *)
Lemma lookup_member view lo r x :
  view_from lo view -> r ∈ view -> addrrange_contains (fr_addr r) x = true ->
  flatview_lookup view x = Some r.
Proof.
  revert lo. induction view as [|q view IH]; intros lo; [by intros _ ?%elem_of_nil|].
  intros (Hlo & Hs & Hv) Hin Hc. unfold flatview_lookup. cbn [list_find].
  apply elem_of_cons in Hin as [->|Hin]; [by rewrite decide_True|].
  specialize (IH _ Hv Hin Hc). rewrite decide_False.
  - unfold flatview_lookup in IH. by destruct (list_find _ view) as [[? ?]|].
  - intros Hq. apply contains_spec in Hq. pose proof (resolve_below _ _ x Hv) as Hn.
    unfold flatview_resolve in Hn. rewrite IH in Hn. unfold addrrange_end in Hn.
    specialize (Hn ltac:(lia)). discriminate.
Qed.

(** ** The laws *)

Section Laws.
Context {B : Type} {Chr : CharBackend B}.

#[export] Program Instance board_env_machine_laws : MachineLaws (board_env B) := {
  ram_byte id x e := u8 (default 0 (be_ram e !! (id, x)))
}.
Next Obligation. intros. by apply in_range_wrapu. Qed.
Next Obligation. done. Qed.
Next Obligation.
  intros id off bs s id' x Hb. cbn. rewrite fm_store_lookup.
  destruct (_ && _) eqn:Hx; [|done]. cbn. apply wrapu_small, Hb.
  apply list_elem_of_In, nth_In. lia.
Qed.
Next Obligation.
  intros d d' b s. cbn. destruct (Nat.eqb_spec d' d) as [->|Hne].
  - by rewrite lookup_insert_eq.
  - by rewrite lookup_insert_ne.
Qed.

(** No handler behind the bus drives an eDMA line. *)
Definition same_lines (e e' : board_env B) : Prop := be_edma_lines e' = be_edma_lines e.

#[export] Instance same_lines_preorder : PreOrder same_lines.
Proof. split; [done|]. intros x y z. unfold same_lines. congruence. Qed.

Lemma lpuart_ops_lines i mr :
  rg_ops mr = nxps32k358_lpuart_ops id (fun e _ => e) i -> handlers_respect same_lines mr.
Proof.
  intros Hops. split; rewrite Hops; cbn.
  - intros a sz e v e' ([l b] & _ & ([[v1 l1] b1] & _ & [= _ <-])%res_bind_inv)%res_bind_inv. done.
  - intros a v sz e e' ([l b] & _ & (clk & _ & ([l1 b1] & _ & [= <-])%res_bind_inv)%res_bind_inv)%res_bind_inv.
    done.
Qed.

Lemma bus_handlers_lines id : handlers_respect same_lines (bus_region (B := B) id).
Proof.
  unfold bus_region, region_of. repeat match goal with |- context [if ?c then _ else _] => destruct c end.
  5: by eapply lpuart_ops_lines.
  all: split; cbn; intros; simplify_eq; done.
Qed.

Lemma bus_valid_sizes id : 0 <= valid_max_access_size (rg_ops (bus_region (B := B) id)) < 2 ^ 31.
Proof.
  unfold bus_region, region_of.
  repeat match goal with |- context [if ?c then _ else _] => destruct c end; cbn; lia.
Qed.

Lemma readable_in_space a (n : nat) :
  (forall x, a <= x < a + Z.of_nat n -> ram_readable board_view (bus_region (B := B)) x = true) ->
  (0 < n)%nat -> 0 <= a /\ a + Z.of_nat n <= 2 ^ 64.
Proof.
  intros Hr Hn. assert (Hin : forall x, a <= x < a + Z.of_nat n -> 0 <= x < 2 ^ 64).
  { intros x Hx. destruct (readable_lookup board_view _ x (Hr x Hx)) as (r & Hl & _).
    apply lookup_contains in Hl as [Hm Hc%contains_spec]. apply board_view_bounded in Hm.
    unfold addrrange_end in Hm. lia. }
  pose proof (Hin a ltac:(lia)). pose proof (Hin (a + Z.of_nat n - 1) ltac:(lia)). lia.
Qed.

Lemma writable_is_readable a :
  ram_writable board_view (bus_region (B := B)) a = true ->
  ram_readable board_view (bus_region (B := B)) a = true.
Proof.
  unfold ram_writable, ram_readable. destruct (flatview_resolve board_view a) as [[[i off] ro]|]; [|done].
  intros [[[Hr _]%andb_prop _]%andb_prop Hd]%andb_prop. by rewrite Hr, Hd.
Qed.

Lemma bus_read_ram a (n : nat) (e : board_env B) :
  (forall x, a <= x < a + Z.of_nat n -> ram_readable board_view (bus_region (B := B)) x = true) ->
  cpu_physical_memory_read board_view bus_region a (Z.of_nat n) e =
    Ok (mem_byte board_view e <$> seqZ a (Z.of_nat n), e).
Proof.
  intros Hr. destruct (decide (n = 0%nat)) as [->|Hn]; [done|].
  destruct (readable_in_space a n Hr ltac:(lia)) as [H1 H2].
  apply physical_read_ram; [apply board_view_sorted|done|done|done].
Qed.

Lemma bus_write_ram a bs (e : board_env B) :
  (forall x, a <= x < a + Z.of_nat (length bs) -> ram_writable board_view (bus_region (B := B)) x = true) ->
  (forall b, b ∈ bs -> in_range 8 b) ->
  exists e', cpu_physical_memory_write board_view bus_region a bs e = Ok e' /\ written board_view e a bs e'.
Proof.
  intros Hw Hb. destruct (decide (bs = [])) as [->|Hn].
  { exists e. split; [done|]. intros x. unfold in_window. cbn [length].
    destruct (Z.leb_spec a x), (Z.ltb_spec x (a + Z.of_nat 0)); cbn; done || lia. }
  destruct (readable_in_space a (length bs)) as [H1 H2].
  - intros x Hx. apply writable_is_readable, Hw, Hx.
  - destruct bs; [done|cbn; lia].
  - apply physical_write_ram; [apply board_view_sorted|apply board_view_no_aliases|done..].
Qed.

#[export] Program Instance board_bus_laws : DmaEnvLaws (board_env B) := {
  readable := ram_readable board_view (bus_region (B := B));
  writable := ram_writable board_view (bus_region (B := B));
  byte_at e a := mem_byte board_view e a;
  irq_level e n := default false (be_edma_lines e !! n)
}.
Next Obligation. apply writable_is_readable. Qed.
Next Obligation. intros a n e Hr. by apply bus_read_ram. Qed.
Next Obligation.
  intros a bs e Hw Hb. destruct (bus_write_ram a bs e Hw Hb) as (e' & Hok & Hwr). exists e'. by split.
Qed.
Next Obligation.
  intros e a. unfold mem_byte. destruct (flatview_resolve board_view a) as [[[i off] ro]|].
  - apply ram_byte_range.
  - by vm_compute.
Qed.
Next Obligation. done. Qed.
Next Obligation.
  intros n b e m. cbn. destruct (decide (m = n)) as [->|Hne].
  - by rewrite lookup_insert_eq.
  - by rewrite lookup_insert_ne.
Qed.
Next Obligation.
  intros a n e e' bs m Hrd. cbn in Hrd. apply (physical_read_respects _ _ same_lines) in Hrd;
    [by cbn; rewrite Hrd|done|apply bus_handlers_lines].
Qed.
Next Obligation.
  intros a n e e' bs Hrd. cbn in Hrd. eapply physical_read_length; [|exact Hrd].
  intros i. apply bus_valid_sizes.
Qed.
Next Obligation.
  intros a bs e e' m Hwr. cbn in Hwr. apply (physical_write_respects _ _ same_lines) in Hwr;
    [by cbn; rewrite Hwr|done|done|apply bus_handlers_lines].
Qed.

End Laws.
