(* ===== verification/BoardProps.v ===== *)
(** * Correctness of the board

    The address map is the documented one, devices are reached through it,
    the interrupt lines and clocks are wired as the board code says, and a
    transfer started by the guest moves data between the board's memories. *)

From stdpp Require Import strings.
From S2P Require Import Prelude Bits Interfaces Edma EdmaTheory EdmaProps.
From S2P Require Import Clock ClockTheory Topology Access AccessTheory CharMux.
From S2P Require Import Lpuart Soc Board BoardTheory.

Lemma board_view_eq : board_view = generate_memory_topology (system_memory board_system).
Proof. reflexivity. Qed.

(** The system is only evaluated by [vm_compute]. *)
#[local] Opaque board_system board_view.

(** ** The address map *)

(** A row: base, size, region and whether it is read-only. *)
Definition map_row : Type := Z * Z * nat * bool.

(** The memories and devices of the board. *)
Definition memory_map : list map_row :=
  [(0x00400000, 0x200000, MR_CODE_FLASH 0, true); (0x00600000, 0x200000, MR_CODE_FLASH 1, true);
   (0x00800000, 0x200000, MR_CODE_FLASH 2, true); (0x00A00000, 0x200000, MR_CODE_FLASH 3, true);
   (0x10000000, 0x20000, MR_DATA_FLASH, true);
   (0x20400000, 0x40000, MR_SRAM 0, false); (0x20440000, 0x40000, MR_SRAM 1, false);
   (0x20480000, 0x40000, MR_SRAM 2, false);
   (0x20000000, 0x20001, MR_DTCM, false); (0x00000000, 0x10000, MR_ITCM, false);
   (0x402DC000, 0x53C, MR_MC_ME, false)]
  ++ ((fun i => (0x40328000 + 0x4000 * Z.of_nat i, 0x4000, MR_LPUART i, false)) <$> seq 0 16)
  ++ [(0x4020C000, 0x34000, MR_EDMA0, false)].

(** The devices that are only named. *)
Definition unimp_map : list map_row :=
  imap (fun k d => (d.1.2, d.2, MR_UNIMP k, false)) (unimplemented_devices_0 ++ unimplemented_devices_1).

Definition row_covers (row : map_row) (a : Z) : bool := let '(base, size, _, _) := row in in_window base size a.

Definition row_resolve (a : Z) (row : map_row) : option (nat * Z * bool) :=
  let '(base, size, id, ro) := row in if in_window base size a then Some (id, a - base, ro) else None.

Definition row_of (mr : MemoryRegion) : map_row := (mr_addr mr, mr_size mr, mr_id mr, mr_readonly mr).

Definition is_leaf (mr : MemoryRegion) : bool :=
  mr_enabled mr && mr_terminates mr
  && match mr_alias mr with None => true | Some _ => false end
  && match mr_subregions mr with [] => true | _ => false end.

Lemma leaf_resolve mr a : is_leaf mr = true -> mr_resolve mr 0 false a = row_resolve a (row_of mr).
Proof.
  intros [[[He Ht]%andb_prop Ha]%andb_prop Hs]%andb_prop. rewrite mr_resolve_eq. cbv zeta.
  rewrite He, Ht. destruct (mr_alias mr); [done|]. destruct (mr_subregions mr); [|done].
  rewrite Z.add_0_l. unfold row_resolve, row_of. cbn. by destruct (in_window _ _ a).
Qed.

Lemma first_some_leaves l a :
  forallb is_leaf l = true ->
  first_some (fun sub => mr_resolve sub 0 false a) l = first_some (row_resolve a) (row_of <$> l).
Proof.
  induction l as [|mr l IH]; [done|]. cbn [forallb fmap list_fmap first_some].
  intros [Hm Hl]%andb_prop. by rewrite leaf_resolve, IH.
Qed.

(** The tree the board code builds, as rows. *)
Lemma board_rows :
  forallb is_leaf (mr_subregions (system_memory board_system)) = true /\
  row_of <$> mr_subregions (system_memory board_system) = rev memory_map ++ rev unimp_map.
Proof. split; by vm_compute. Qed.

Lemma board_root :
  mr_enabled (system_memory board_system) = true /\ mr_alias (system_memory board_system) = None /\
  mr_terminates (system_memory board_system) = false /\ 0 + mr_addr (system_memory board_system) = 0 /\
  mr_size (system_memory board_system) = 2 ^ 64 /\ mr_readonly (system_memory board_system) = false.
Proof. split_and!; vm_compute; reflexivity. Qed.

Lemma board_resolve a :
  0 <= a < 2 ^ 64 ->
  flatview_resolve board_view a = first_some (row_resolve a) (rev memory_map ++ rev unimp_map).
Proof.
  intros Ha. assert (Hok : region_ok (system_memory board_system) = true) by by vm_compute.
  destruct (generate_search _ Hok) as [_ Hr]. rewrite board_view_eq, Hr by done.
  rewrite mr_resolve_eq. cbv zeta.
  destruct board_root as (He & Hal & Ht & Hb & Hs & Hro). rewrite He, Hal, Ht, Hb, Hs, Hro.
  cbn [negb orb]. destruct board_rows as [Hl <-]. rewrite (first_some_leaves _ a Hl).
  unfold in_window. destruct (Z.leb_spec 0 a); [|lia]. destruct (Z.ltb_spec a (0 + 2 ^ 64)); [|lia].
  cbn [andb negb]. by destruct (first_some _ _).
Qed.

Definition rows_apart (r1 r2 : map_row) : bool :=
  let '(b1, n1, _, _) := r1 in let '(b2, n2, _, _) := r2 in (b1 + n1 <=? b2) || (b2 + n2 <=? b1).

Fixpoint rows_disjoint (l : list map_row) : bool :=
  match l with [] => true | r :: l => forallb (rows_apart r) l && rows_disjoint l end.

Lemma apart_covers r1 r2 a : rows_apart r1 r2 = true -> row_covers r1 a = true -> row_covers r2 a = false.
Proof.
  destruct r1 as [[[b1 n1] i1] o1], r2 as [[[b2 n2] i2] o2]. unfold rows_apart, row_covers, in_window.
  rewrite orb_true_iff, !Z.leb_le, andb_true_iff, Z.leb_le, Z.ltb_lt. intros Hd Hc.
  destruct (Z.leb_spec b2 a), (Z.ltb_spec a (b2 + n2)); cbn; lia || done.
Qed.

Lemma resolve_covers row a :
  row_resolve a row = if row_covers row a then row_resolve a row else None.
Proof. destruct row as [[[b n] i] o]. cbn. by destruct (in_window b n a). Qed.

(** In a list of disjoint rows, the row that covers an address is found. *)
Lemma first_row row l l' a :
  rows_disjoint l = true -> row ∈ l -> row_covers row a = true ->
  first_some (row_resolve a) (l ++ l') = row_resolve a row.
Proof.
  induction l as [|r l IH]; [by intros _ ?%elem_of_nil|]. cbn [rows_disjoint app first_some].
  intros [Hr Hd]%andb_prop [->|Hin]%elem_of_cons Hc.
  - destruct r as [[[b n] i] o]. cbn in Hc |- *. by rewrite Hc.
  - rewrite forallb_forall in Hr. specialize (Hr row (proj1 (list_elem_of_In _ _) Hin)).
    rewrite resolve_covers. destruct (row_covers r a) eqn:Hca; [|by apply IH].
    by rewrite (apart_covers _ _ _ Hr Hca) in Hc.
Qed.

Lemma no_row l l' a :
  (forall row, row ∈ l -> row_covers row a = false) ->
  first_some (row_resolve a) (l ++ l') = first_some (row_resolve a) l'.
Proof.
  induction l as [|r l IH]; intros Hn; [done|]. cbn [app first_some].
  rewrite resolve_covers, (Hn r ltac:(left)). apply IH. intros row Hin. apply Hn. by right.
Qed.

Lemma elem_of_rev {A} (x : A) l : x ∈ rev l <-> x ∈ l.
Proof. by rewrite !list_elem_of_In, <- in_rev. Qed.

Lemma map_rows_bounded row a :
  row ∈ memory_map \/ row ∈ unimp_map -> row_covers row a = true -> 0 <= a < 2 ^ 64.
Proof.
  assert (Hall : forallb (fun r => let '(b, n, _, _) := r in (0 <=? b) && (b + n <=? 2 ^ 64))
                   (memory_map ++ unimp_map) = true) by by vm_compute.
  rewrite <- elem_of_app, list_elem_of_In. rewrite forallb_forall in Hall. intros Hin.
  specialize (Hall row Hin). destruct row as [[[b n] i] o]. unfold row_covers, in_window.
  rewrite !andb_true_iff, !Z.leb_le, Z.ltb_lt in *. lia.
Qed.

Lemma memory_map_resolve row a :
  row ∈ memory_map -> row_covers row a = true -> flatview_resolve board_view a = row_resolve a row.
Proof.
  intros Hin Hc. rewrite board_resolve by (eapply map_rows_bounded; [by left|done]).
  apply first_row; [by vm_compute|by apply elem_of_rev|done].
Qed.

Lemma unimp_map_resolve row a :
  (forall r, r ∈ memory_map -> row_covers r a = false) ->
  row ∈ unimp_map -> row_covers row a = true -> flatview_resolve board_view a = row_resolve a row.
Proof.
  intros Hn Hin Hc. rewrite board_resolve by (eapply map_rows_bounded; [by right|done]).
  rewrite no_row by (intros r Hr%elem_of_rev; by apply Hn).
  rewrite <- (app_nil_r (rev unimp_map)). apply first_row; [by vm_compute|by apply elem_of_rev|done].
Qed.

(** ** Interrupts *)

(** Every wire goes to an input of its own. *)
Lemma wires_distinct : NoDup ((irq_wires board_system).*2).
Proof. apply (bool_decide_eq_true_1 _). by vm_compute. Qed.

Lemma wires_level {B} (src : irq_source) n (s : board B) l :
  NoDup (l.*2) -> (src, n) ∈ l ->
  existsb (fun w => (w.2 =? n) && source_level w.1 s) l = source_level src s.
Proof.
  induction l as [|[src' n'] l IH]; [by intros _ ?%elem_of_nil|]. cbn [existsb fmap list_fmap fst snd].
  intros [Hn Hnd]%NoDup_cons [Heq|Hin]%elem_of_cons.
  - injection Heq as <- <-. rewrite Z.eqb_refl. cbn [andb].
    destruct (existsb _ l) eqn:Hex; [|by rewrite orb_false_r].
    apply existsb_exists in Hex as ([src1 n1] & Hin & [Heq%Z.eqb_eq _]%andb_prop). cbn in Heq. subst n1.
    exfalso. apply Hn, list_elem_of_fmap. exists (src1, n). split; [done|]. by apply list_elem_of_In.
  - destruct (Z.eqb_spec n' n) as [->|Hne].
    + exfalso. apply Hn, list_elem_of_fmap. by exists (src, n).
    + cbn [andb orb]. by apply IH.
Qed.

Lemma nvic_input_level {B} src n (s : board B) :
  (src, n) ∈ irq_wires board_system -> nvic_input n s = source_level src s.
Proof. apply wires_level, wires_distinct. Qed.

Lemma wires_elem w : bool_decide (w ∈ irq_wires board_system) = true -> w ∈ irq_wires board_system.
Proof. apply bool_decide_eq_true_1. Qed.

Lemma edma_wire c : (c < 32)%nat -> (EdmaLine c, EDMA_IRQ (Z.of_nat c)) ∈ irq_wires board_system.
Proof.
  intros Hc. assert (Hall : forallb (fun c => bool_decide ((EdmaLine c, EDMA_IRQ (Z.of_nat c)) ∈ irq_wires board_system))
    (seq 0 32) = true) by by vm_compute.
  rewrite forallb_forall in Hall. apply wires_elem, Hall, in_seq. lia.
Qed.

Lemma lpuart_wire i : (i < 16)%nat -> (LpuartLine i, LPUART_IRQ (Z.of_nat i)) ∈ irq_wires board_system.
Proof.
  intros Hi. assert (Hall : forallb (fun c => bool_decide ((LpuartLine c, LPUART_IRQ (Z.of_nat c)) ∈ irq_wires board_system))
    (seq 0 16) = true) by by vm_compute.
  rewrite forallb_forall in Hall. apply wires_elem, Hall, in_seq. lia.
Qed.

(** ** Memory the controller can use *)

Lemma sram_region {B} `{CharBackend B} x :
  SRAM_BASE_ADDRESS <= x < SRAM_BASE_ADDRESS + 3 * SRAM_BLOCK_SIZE ->
  exists i off, flatview_resolve board_view x = Some (MR_SRAM i, off, false) /\ (i < 3)%nat.
Proof.
  intros Hx. unfold SRAM_BASE_ADDRESS, SRAM_BLOCK_SIZE in Hx.
  set (row i := (0x20400000 + 0x40000 * Z.of_nat i, 0x40000, MR_SRAM i, false) : map_row).
  assert (Hrow : forall i, (i < 3)%nat -> row_covers (row i) x = true ->
    exists i off, flatview_resolve board_view x = Some (MR_SRAM i, off, false) /\ (i < 3)%nat).
  { intros i Hi Hc. exists i. eexists. split; [|done].
    rewrite (memory_map_resolve (row i) x); [cbn in Hc |- *; by rewrite Hc| |done].
    apply (list_elem_of_lookup_2 _ (5 + i)). by destruct i as [|[|[|]]]; [..|lia]. }
  unfold row, row_covers, in_window in Hrow.
  destruct (Z.ltb_spec x 0x20440000); [apply (Hrow 0%nat)|destruct (Z.ltb_spec x 0x20480000);
    [apply (Hrow 1%nat)|apply (Hrow 2%nat)]]; [lia| |lia| |lia|];
    (apply andb_true_intro; split; [apply Z.leb_le|apply Z.ltb_lt]; lia).
Qed.

Lemma sram_writable {B} `{CharBackend B} x :
  SRAM_BASE_ADDRESS <= x < SRAM_BASE_ADDRESS + 3 * SRAM_BLOCK_SIZE ->
  ram_writable board_view (bus_region (B := B)) x = true.
Proof.
  intros (i & off & Hr & Hi)%(sram_region (B := B)). unfold ram_writable. rewrite Hr.
  by destruct i as [|[|[|]]]; [..|lia].
Qed.

Lemma sram_copy_mem {B} `{Chr : CharBackend B} sa da len :
  SRAM_BASE_ADDRESS <= sa -> sa + len <= SRAM_BASE_ADDRESS + 3 * SRAM_BLOCK_SIZE ->
  SRAM_BASE_ADDRESS <= da -> da + len <= SRAM_BASE_ADDRESS + 3 * SRAM_BLOCK_SIZE ->
  disjoint_ranges sa da len -> copy_mem (E := board_env B) sa da len.
Proof.
  unfold SRAM_BASE_ADDRESS, SRAM_BLOCK_SIZE. intros. split; [lia..| | |done].
  - intros x Hx. apply writable_is_readable, sram_writable. unfold SRAM_BASE_ADDRESS, SRAM_BLOCK_SIZE. lia.
  - intros x Hx. apply sram_writable. unfold SRAM_BASE_ADDRESS, SRAM_BLOCK_SIZE. lia.
Qed.

(** ** A register access of the guest *)

Definition tcd_csr_offset (c : nat) : Z := 0x4000 * (Z.of_nat c + 1) + A_TCD_CSR.

Ltac each_channel c Hc :=
  do 12 (destruct c as [|c]; [vm_compute; reflexivity|]); exfalso; lia.

Section Guest.
Context {B : Type} {Chr : CharBackend B}.
Implicit Types s : board B.

Lemma csr_lookup c :
  (c < 12)%nat ->
  flatview_lookup board_view (EDMA_BASE_ADDRESS + tcd_csr_offset c) =
    Some (mkFR MR_EDMA0 0 (mkRange EDMA_BASE_ADDRESS EDMA_MMIO0_SIZE) 0 true false false false).
Proof. intros Hc. each_channel c Hc. Qed.

Lemma csr_translate stack c :
  (c < 12)%nat ->
  flatview_translate board_view (board_region stack) (EDMA_BASE_ADDRESS + tcd_csr_offset c) 2 =
    (MR_EDMA0, board_region (B := B) stack MR_EDMA0, tcd_csr_offset c, 2).
Proof.
  intros Hc. unfold flatview_translate. rewrite csr_lookup by done. cbn [fr_mr fr_addr ar_start fr_offset_in_region].
  change (rg_ram (board_region stack MR_EDMA0)) with false. cbv iota. f_equal. f_equal. lia.
Qed.

Lemma csr_access_size stack c :
  (c < 12)%nat -> memory_access_size (board_region (B := B) stack MR_EDMA0) 2 (tcd_csr_offset c) = 2.
Proof. intros Hc. each_channel c Hc. Qed.

Lemma csr_access_valid stack c :
  (c < 12)%nat -> memory_region_access_valid (board_region (B := B) stack MR_EDMA0) (tcd_csr_offset c) 2 true = true.
Proof. intros Hc. each_channel c Hc. Qed.

Lemma csr_channel c :
  (c < 12)%nat -> (tcd_csr_offset c >=? 0x4000) = true /\ tcd_csr_offset c mod 0x4000 = A_TCD_CSR /\
    Z.to_nat (u32 ((tcd_csr_offset c - 0x4000) / 0x4000)) = c.
Proof. intros Hc. split_and!; each_channel c Hc. Qed.

(** An access of the size a little-endian region implements is one call. *)
Lemma access_loop_single {S} fuel access_fn (mr : Region S) addr size mask r v (x : S) :
  0 < size -> ops_big_endian (rg_ops mr) = false ->
  access_loop (Datatypes.S (Datatypes.S fuel)) access_fn mr addr size size mask 0 r v x =
    ('(r', v', x') ← access_fn mr addr v size 0 mask x; Ok (r .| r', v', x')).
Proof.
  intros Hs Hle. cbn [access_loop]. rewrite Hle. destruct (Z.ltb_spec 0 size); [|lia].
  rewrite Z.add_0_r, Z.add_0_l, Z.ltb_irrefl. by destruct (access_fn _ _ _ _ _ _ _) as [[[? ?] ?]|].
Qed.

(** The handler of the controller, run by an access to TCD_CSR. *)
Lemma csr_handler stack c v s :
  (c < 12)%nat ->
  ops_write (rg_ops (board_region stack MR_EDMA0)) (tcd_csr_offset c) v 2 s =
    ('(d, e) ← nxps32k358_edma_tcd_write stack A_TCD_CSR v 2 c (b_edma s) (b_env s); Ok (mkBoard d e)).
Proof.
  intros Hc. change (ops_write (rg_ops (board_region stack MR_EDMA0)) (tcd_csr_offset c) v 2 s) with
    ('(d, e) ← nxps32k358_edma0_write stack (tcd_csr_offset c) v 2 (b_edma s) (b_env s); Ok (mkBoard d e)).
  unfold nxps32k358_edma0_write. destruct (csr_channel c Hc) as (H1 & H2 & H3). by rewrite H1, H2, H3.
Qed.

Lemma csr_write_step stack c v s :
  (c < 12)%nat -> in_range 16 v -> engaged_in_io DEV_EDMA (b_env s) = false ->
  flatview_write_continue_step MR_EDMA0 (board_region stack MR_EDMA0) (stn_he_p 2 v) (tcd_csr_offset c) 2 s =
    ('(d, e) ← nxps32k358_edma_tcd_write stack A_TCD_CSR v 2 c (b_edma s)
                 (set_engaged_in_io DEV_EDMA true (b_env s));
     Ok (MEMTX_OK, 2, mkBoard d (set_engaged_in_io DEV_EDMA false e))).
Proof.
  intros Hc Hv Hg. unfold flatview_write_continue_step.
  change (memory_access_is_direct (board_region stack MR_EDMA0) true) with false. cbn [negb]. cbv zeta.
  rewrite csr_access_size by done. change (take (Z.to_nat 2) (stn_he_p 2 v)) with (stn_he_p 2 v).
  rewrite (ldn_stn 2) by done. unfold memory_region_dispatch_write. rewrite csr_access_valid by done.
  cbn [negb]. cbv zeta. unfold access_with_adjusted_size.
  change (guarded (board_region stack MR_EDMA0)) with (Some DEV_EDMA). cbv iota.
  change (engaged_in_io DEV_EDMA s) with (engaged_in_io DEV_EDMA (b_env s)). rewrite Hg. cbv iota.
  change (adjust_endianness (board_region stack MR_EDMA0) 2 v) with v.
  change (impl_min_access_size (rg_ops (board_region stack MR_EDMA0)) =? 0) with true.
  change (impl_max_access_size (rg_ops (board_region stack MR_EDMA0)) =? 0) with true. cbv iota zeta.
  change (Z.max (Z.min 2 4) 1) with 2. change (Z.to_nat 2) with 2%nat.
  rewrite access_loop_single by done. unfold memory_region_write_accessor. cbv zeta.
  assert (Hval : memory_region_shift_write_access v 0 (MAKE_64BIT_MASK 0 (2 * 8)) = v).
  { unfold memory_region_shift_write_access. change (0 >=? 0) with true. cbv iota.
    rewrite Z.shiftr_0_r. apply mask_id; [lia|done]. }
  rewrite Hval, csr_handler by done.
  change (b_edma (set_engaged_in_io DEV_EDMA true s)) with (b_edma s).
  change (b_env (set_engaged_in_io DEV_EDMA true s)) with (set_engaged_in_io DEV_EDMA true (b_env s)).
  by destruct (nxps32k358_edma_tcd_write _ _ _ _ _ _ _) as [[d e]|].
Qed.

(** A 16-bit write to a TCD_CSR register runs the handler of the controller
    once, with the controller's guard set. *)
Lemma guest_write_csr stack c v s :
  (c < 12)%nat -> in_range 16 v -> engaged_in_io DEV_EDMA (b_env s) = false ->
  guest_write stack (EDMA_BASE_ADDRESS + tcd_csr_offset c) (stn_he_p 2 v) s =
    ('(d, e) ← nxps32k358_edma_tcd_write stack A_TCD_CSR v 2 c (b_edma s)
                 (set_engaged_in_io DEV_EDMA true (b_env s));
     Ok (MEMTX_OK, mkBoard d (set_engaged_in_io DEV_EDMA false e))).
Proof.
  intros Hc Hv Hg. unfold guest_write, address_space_write.
  change (Z.of_nat (length (stn_he_p 2 v))) with 2. change (2 >? 0) with true. cbv iota.
  unfold flatview_write. change (Z.of_nat (length (stn_he_p 2 v))) with 2.
  rewrite csr_translate by done. change (Z.to_nat 2) with 2%nat. cbn [flatview_write_continue].
  rewrite csr_write_step by done. by destruct (nxps32k358_edma_tcd_write _ _ _ _ _ _ _) as [[d e]|].
Qed.

End Guest.

(** ** Clocks *)

Definition consistentb (h : clock_heap) : bool :=
  forallb (fun x => match source x.2 with
                    | None => true
                    | Some p => match clocks h !! p with
                                | None => true
                                | Some c => period x.2 =? child_period c
                                end
                    end) (map_to_list (clocks h)).

Lemma consistentb_ok h : consistentb h = true -> consistent h.
Proof.
  unfold consistentb. rewrite forallb_forall. intros Hall p c i d Hp Hi Hs.
  specialize (Hall (i, d)). cbn in Hall. rewrite Hs, Hp in Hall.
  apply Z.eqb_eq, Hall, list_elem_of_In. by apply elem_of_map_to_list.
Qed.

Definition board_hz (clk : nat) : option Z := clock_get_hz <$> clocks (sys_clocks board_system) !! clk.

(** ** Channels outside the mapped window *)

Definition same_edma {B} (s s' : board B) : Prop := b_edma s' = b_edma s.

#[export] Instance same_edma_preorder {B} : PreOrder (@same_edma B).
Proof. split; [done|]. intros x y z. unfold same_edma. congruence. Qed.

Lemma unimp_respects {B} `{CharBackend B} stack k :
  handlers_respect same_edma (board_region (B := B) stack (MR_UNIMP k)).
Proof. split; cbn; intros; simplify_eq; done. Qed.

(** Where the documentation puts TCD 12 to 31, and the devices created there. *)
Definition TCD_UNIMP (i : nat) : nat := (118 + i)%nat.
Definition tcd_base (i : nat) : Z := 0x40410000 + 0x4000 * (Z.of_nat i - 12).
Definition tcd_row (i : nat) : map_row := (tcd_base i, 0x4000, MR_UNIMP (TCD_UNIMP i), false).

Lemma tcd_rows i : (12 <= i < 32)%nat -> unimp_map !! TCD_UNIMP i = Some (tcd_row i).
Proof.
  intros Hi. assert (Hall : forallb (fun i => bool_decide (unimp_map !! TCD_UNIMP i = Some (tcd_row i)))
    (seq 12 20) = true) by by vm_compute.
  rewrite forallb_forall in Hall. eapply bool_decide_eq_true_1, Hall, in_seq. lia.
Qed.

Lemma tcd_not_mapped i a :
  (12 <= i < 32)%nat -> row_covers (tcd_row i) a = true ->
  forall r, r ∈ memory_map -> row_covers r a = false.
Proof.
  intros Hi Hc r Hr. assert (Hall : forallb (fun i => forallb (rows_apart (tcd_row i)) memory_map)
    (seq 12 20) = true) by by vm_compute.
  rewrite forallb_forall in Hall. assert (Hin : In i (seq 12 20)) by (apply in_seq; lia). specialize (Hall i Hin).
  rewrite forallb_forall in Hall. eapply apart_covers; [|exact Hc]. by apply Hall, list_elem_of_In.
Qed.

(** ** A board for the witnesses *)

(** Channel 3 is set up to copy 8 bytes from SRAM 0 to SRAM 1. *)
Definition board_channel : NXPS32K358EDMATCDState :=
  mkTCD 0 0 0 0x8002 0 0x20400000 4 0x0202 8 0 0x20440000 4 2 0 0 2.

Definition demo_board : board plain_chardev :=
  mkBoard (put_tcd 3 board_channel (edma_after_reset 0)) (mkEnv ∅ ∅ [] ∅ (sys_clocks board_system)).

Lemma wf_demo_board : wf_edma (b_edma demo_board).
Proof.
  apply wf_put_tcd; [apply wf_after_reset; unfold EDMA_CHANNELS; lia|].
  split; vm_compute; split; congruence.
Qed.

Lemma demo_board_idle j : start_pending (b_edma demo_board) j = false.
Proof. unfold start_pending. do 32 (destruct j as [|j]; [done|]). done. Qed.

(** ** Properties *)


(** The interrupt lines reach the NVIC unmixed: eDMA channel [c] is wired to
    input [4 + c] and LPUART [i] to input [141 + i], all of them below the 240
    inputs the NVIC is given, and the level of such an input is the level of
    the line wired to it. *)
Theorem board_irq_wiring {B} (s : board B) :
  (forall c, (c < NUM_EDMA_CHANNELS)%nat ->
     nvic_input (4 + Z.of_nat c) s = source_level (EdmaLine c) s) /\
  (forall i, (i < NUM_LPUARTS)%nat ->
     nvic_input (141 + Z.of_nat i) s = source_level (LpuartLine i) s) /\
  NoDup ((irq_wires board_system).*2) /\
  (forall w, w ∈ irq_wires board_system -> 0 <= w.2 < NUM_IRQ).
Proof.
  split_and!.
  - intros c Hc. unfold NUM_EDMA_CHANNELS in Hc. rewrite <- (nvic_input_level _ _ s (edma_wire c Hc)).
    unfold EDMA_IRQ. rewrite wrapu_small; [done|]. unfold in_range. lia.
  - intros i Hi. unfold NUM_LPUARTS in Hi. rewrite <- (nvic_input_level _ _ s (lpuart_wire i Hi)).
    unfold LPUART_IRQ. rewrite wrapu_small; [done|]. unfold in_range. lia.
  - apply wires_distinct.
  - assert (Hall : forallb (fun w => (0 <=? w.2) && (w.2 <? NUM_IRQ)) (irq_wires board_system) = true)
      by by vm_compute.
    intros w Hw%list_elem_of_In. rewrite forallb_forall in Hall. specialize (Hall w Hw).
    apply andb_prop in Hall as [?%Z.leb_le ?%Z.ltb_lt]. by split.
Qed.

(** The board comes up without an error, with a consistent clock tree: the
    CPU and the system timer run at 160 MHz, the timer's reference at an eighth
    of that, LPUART 0, 1 and 8 at 80 MHz and the other LPUARTs at 40 MHz. *)
Theorem board_clock_tree :
  NXPS32K3X8EVB_init = Ok (inr board_system) /\
  consistent (sys_clocks board_system) /\
  board_hz CLK_ARMV7M_CPUCLK = Some SYSCLK_FRQ /\ board_hz CLK_SYSTICK_CPUCLK = Some SYSCLK_FRQ /\
  board_hz CLK_SYSTICK_REFCLK = Some (SYSCLK_FRQ / 8) /\
  (forall i, (i < NUM_LPUARTS)%nat ->
     board_hz (CLK_LPUART i) = Some (if bool_decide (i = 0 \/ i = 1 \/ i = 8)%nat then 80000000 else 40000000)).
Proof.
  split; [by vm_compute|]. split; [apply consistentb_ok; by vm_compute|].
  split; [by vm_compute|]. split; [by vm_compute|]. split; [by vm_compute|].
  intros i Hi. unfold NUM_LPUARTS in Hi. do 16 (destruct i as [|i]; [by vm_compute|]). lia.
Qed.

(** C2: A transfer started by the guest on the running board: a 16-bit write of
    a START word to TCD_CSR of channel [c], one of the twelve mapped channels,
    with its block in SRAM, resolves to the controller, completes without an
    error, copies exactly the block in the board's memory, and leaves the
    level of the channel's interrupt on NVIC input [4 + c]; the controller's
    re-entrancy guard is released. *)
Theorem board_dma_copy {B} `{Chr : CharBackend B} stack c v ch k (s : board B) :
  (c < 12)%nat -> in_range 16 v -> engaged_in_io DEV_EDMA (b_env s) = false ->
  wf_edma (b_edma s) -> edma_tcd (b_edma s) !! c = Some ch -> start_word v -> copy_setup ch k ->
  0 < citer_of ch -> (forall j, j <> c -> start_pending (b_edma s) j = false) ->
  SRAM_BASE_ADDRESS <= tcd_saddr ch ->
  tcd_saddr ch + copy_len ch k <= SRAM_BASE_ADDRESS + 3 * SRAM_BLOCK_SIZE ->
  SRAM_BASE_ADDRESS <= tcd_daddr ch ->
  tcd_daddr ch + copy_len ch k <= SRAM_BASE_ADDRESS + 3 * SRAM_BLOCK_SIZE ->
  disjoint_ranges (tcd_saddr ch) (tcd_daddr ch) (copy_len ch k) ->
  exists s',
    guest_write stack (EDMA_BASE_ADDRESS + tcd_csr_offset c) (stn_he_p 2 v) s = Ok (MEMTX_OK, s') /\
    b_edma s' = requested v c ch (copy_len ch k) (b_edma s) /\
    copied (tcd_saddr ch) (tcd_daddr ch) (copy_len ch k) (b_env s) (b_env s') /\
    nvic_input (4 + Z.of_nat c) s' =
      int_flag (irq_latch (after_minor (request_start v ch) (copy_len ch k))) /\
    engaged_in_io DEV_EDMA (b_env s') = false.
Proof.
  intros Hc Hv Hg Hwf Hch Hsw Hcs Hci Hidle Hsa Hse Hda Hde Hdis. rewrite guest_write_csr by done.
  pose proof (sram_copy_mem (B := B) _ _ _ Hsa Hse Hda Hde Hdis) as Hmem.
  destruct (request_copy stack v 2 c (b_edma s) (set_engaged_in_io DEV_EDMA true (b_env s)) ch k
              Hwf Hch Hsw Hcs Hci Hmem Hidle) as (e1 & -> & Hcopy & Hirq).
  rewrite res_bind_Ok. eexists. split; [done|]. split_and!; [done|exact Hcopy| |].
  - assert (Hwire : (EdmaLine c, 4 + Z.of_nat c) ∈ irq_wires board_system).
    { pose proof (edma_wire c ltac:(lia)) as Hw. unfold EDMA_IRQ in Hw.
      rewrite wrapu_small in Hw by (unfold in_range; lia). done. }
    rewrite (nvic_input_level _ _ _ Hwire). exact Hirq.
  - cbn [b_env]. by rewrite engaged_set, Nat.eqb_refl.
Qed.

Lemma board_dma_copy_witness :
  exists s',
    guest_write [] (EDMA_BASE_ADDRESS + tcd_csr_offset 3) (stn_he_p 2 3) demo_board = Ok (MEMTX_OK, s') /\
    b_edma s' = requested 3 3 board_channel 8 (b_edma demo_board) /\
    copied 0x20400000 0x20440000 8 (b_env demo_board) (b_env s') /\
    nvic_input 7 s' = int_flag (irq_latch (after_minor (request_start 3 board_channel) 8)) /\
    engaged_in_io DEV_EDMA (b_env s') = false.
Proof.
  apply (board_dma_copy [] 3 3 board_channel 2 demo_board);
    [lia|by vm_compute|done|apply wf_demo_board|done|by split|by split|by vm_compute|intros; apply demo_board_idle
    |by vm_compute..|]. vm_compute; by left.
Defined.

(** Channels 12 to 31 of the controller are out of reach: their register
    windows resolve to unimplemented devices, whose handlers leave the
    controller as it is, because the second window of the controller is never
    mapped. *)
Theorem board_tcd12_unmapped {B} `{Chr : CharBackend B} stack i a :
  (12 <= i < 32)%nat -> tcd_base i <= a < tcd_base i + 0x4000 ->
  flatview_resolve board_view a = Some (MR_UNIMP (TCD_UNIMP i), a - tcd_base i, false) /\
  rg_ops (board_region stack (MR_UNIMP (TCD_UNIMP i))) = unimp_ops /\
  (forall off data size (s : board B) r s',
     memory_region_dispatch_write (board_region stack (MR_UNIMP (TCD_UNIMP i))) off data size s = Ok (r, s') ->
     b_edma s' = b_edma s).
Proof.
  intros Hi Ha. assert (Hc : row_covers (tcd_row i) a = true).
  { apply andb_true_intro. split; [apply Z.leb_le|apply Z.ltb_lt]; lia. }
  split_and!.
  - rewrite (unimp_map_resolve (tcd_row i) a (tcd_not_mapped i a Hi Hc)); [|by eapply list_elem_of_lookup_2, tcd_rows|done].
    cbn in Hc |- *. by rewrite Hc.
  - done.
  - intros off data size s r s' Hw.
    eapply (dispatch_write_respects same_edma) in Hw; [exact Hw|done|apply unimp_respects].
Qed.

Lemma board_tcd12_unmapped_witness :
  flatview_resolve board_view 0x40410020 = Some (MR_UNIMP (TCD_UNIMP 12), 0x20, false) /\
  rg_ops (board_region (B := plain_chardev) [] (MR_UNIMP (TCD_UNIMP 12))) = unimp_ops /\
  (forall off data size (s : board plain_chardev) r s',
     memory_region_dispatch_write (board_region [] (MR_UNIMP (TCD_UNIMP 12))) off data size s = Ok (r, s') ->
     b_edma s' = b_edma s).
Proof. apply (board_tcd12_unmapped [] 12 0x40410020); vm_compute; split; congruence || lia. Defined.
