(* ===== verification/CMemory.v ===== *)
(** * Arrays of bytes in C

    [memcpy] between two arrays, as the firmware's queues and stream buffers use
    it: a copy outside one of the arrays is [Fault ArrayOutOfBounds]. *)

From S2P Require Import Prelude.

(** [memcpy(&dst[doff], &src[soff], n)] *)
Definition memcpy (dst : list Z) (doff : Z) (src : list Z) (soff n : Z) : res (list Z) :=
  if (0 <=? doff) && (0 <=? soff) && (0 <=? n) &&
     (doff + n <=? Z.of_nat (length dst)) && (soff + n <=? Z.of_nat (length src))
  then Ok (take (Z.to_nat doff) dst ++ take (Z.to_nat n) (drop (Z.to_nat soff) src)
             ++ drop (Z.to_nat (doff + n)) dst)
  else Fault ArrayOutOfBounds.

Definition znth (l : list Z) (j : Z) : Z := nth (Z.to_nat j) l 0.

Lemma memcpy_ok dst d src o n :
  0 <= d -> 0 <= o -> 0 <= n -> d + n <= Z.of_nat (length dst) -> o + n <= Z.of_nat (length src) ->
  exists r, memcpy dst d src o n = Ok r /\ length r = length dst /\
    forall j, 0 <= j -> znth r j = if (d <=? j) && (j <? d + n) then znth src (o + j - d) else znth dst j.
Proof.
  intros Hd Ho Hn Hdst Hsrc. unfold memcpy.
  rewrite !(proj2 (Z.leb_le _ _)) by done. cbn [andb]. eexists. split; [done|].
  split; [rewrite !length_app, !length_take, !length_drop; lia|].
  intros j Hj. unfold znth.
  destruct (Z.leb_spec d j) as [Hdj|Hdj]; cbn [andb].
  - rewrite app_nth2 by (rewrite length_take; lia). rewrite length_take.
    destruct (Z.ltb_spec j (d + n)) as [Hjn|Hjn].
    + rewrite app_nth1 by (rewrite length_take, length_drop; lia).
      rewrite nth_lookup, lookup_take_lt, lookup_drop, <- nth_lookup by lia. f_equal. lia.
    + rewrite app_nth2; rewrite length_take, length_drop; [|lia].
      rewrite nth_lookup, lookup_drop, <- nth_lookup. f_equal. lia.
  - rewrite app_nth1 by (rewrite length_take; lia).
    by rewrite nth_lookup, lookup_take_lt, <- nth_lookup by lia.
Qed.
