(* ===== verification/FreeRTOSList.v ===== *)
(** * The kernel's lists

    [FreeRTOS/Source/list.c] and [include/list.h] of the demo firmware: the
    circular doubly linked lists the scheduler keeps its tasks in.  The model is
    a heap of list items with the pointers of the source; a list's end marker
    is an item of the heap embedded in the list, a [MiniListItem_t] without an
    owner and a container. *)

From S2P Require Import Prelude.

(** ** Data *)

(** The address of a [ListItem_t]: the end marker of a list, or an item. *)
Inductive node : Set := ListEnd (l : nat) | Item (i : nat).

#[export] Instance node_eq_dec : EqDecision node.
Proof. solve_decision. Defined.

#[export] Program Instance node_countable : Countable node :=
  inj_countable' (fun x => match x with ListEnd l => inl l | Item i => inr i end)
                 (fun y => match y with inl l => ListEnd l | inr i => Item i end) _.
Next Obligation. by intros []. Qed.

(** [portMAX_DELAY]: [TickType_t] is 32 bits wide. *)
Definition portMAX_DELAY : Z := 0xffffffff.

(** [struct xLIST_ITEM]; a null or indeterminate pointer is [None]. *)
Record xLIST_ITEM : Set := mkItem {
  xItemValue : Z;
  pxNext : option node;
  pxPrevious : option node;
  pvOwner : option nat;
  pxContainer : option nat
}.

(** [struct xLIST] without its end marker, which is an item of the heap. *)
Record xLIST : Set := mkList { uxNumberOfItems : Z; pxIndex : node }.

Record list_heap : Set := mkLists { items : gmap node xLIST_ITEM; lists : gmap nat xLIST }.

Definition get_item (p : node) (h : list_heap) : res xLIST_ITEM :=
  match items h !! p with Some x => Ok x | None => Fault WildHostPointer end.

Definition get_list (l : nat) (h : list_heap) : res xLIST :=
  match lists h !! l with Some x => Ok x | None => Fault WildHostPointer end.

(** A pointer that is followed. *)
Definition deref {A} (p : option A) : res A :=
  match p with Some x => Ok x | None => Fault WildHostPointer end.

Definition put_item (p : node) (x : xLIST_ITEM) (h : list_heap) : list_heap :=
  mkLists (<[p := x]> (items h)) (lists h).

Definition put_list (l : nat) (x : xLIST) (h : list_heap) : list_heap :=
  mkLists (items h) (<[l := x]> (lists h)).

(** Assignments to a member of an item. *)
Definition set_pxNext (p : node) (q : option node) (h : list_heap) : res list_heap :=
  x ← get_item p h;
  Ok (put_item p (mkItem (xItemValue x) q (pxPrevious x) (pvOwner x) (pxContainer x)) h).

Definition set_pxPrevious (p : node) (q : option node) (h : list_heap) : res list_heap :=
  x ← get_item p h;
  Ok (put_item p (mkItem (xItemValue x) (pxNext x) q (pvOwner x) (pxContainer x)) h).

Definition set_pxContainer (p : node) (c : option nat) (h : list_heap) : res list_heap :=
  x ← get_item p h;
  Ok (put_item p (mkItem (xItemValue x) (pxNext x) (pxPrevious x) (pvOwner x) c) h).

(** Reads of a member of an item. *)
Definition get_pxNext (p : node) (h : list_heap) : res node := x ← get_item p h; deref (pxNext x).
Definition get_pxPrevious (p : node) (h : list_heap) : res node := x ← get_item p h; deref (pxPrevious x).

(** ** Operations *)

(** [vListInitialise] *)
Definition vListInitialise (l : nat) (h : list_heap) : list_heap :=
  put_list l (mkList 0 (ListEnd l))
    (put_item (ListEnd l) (mkItem portMAX_DELAY (Some (ListEnd l)) (Some (ListEnd l)) None None) h).

(** [vListInitialiseItem] *)
Definition vListInitialiseItem (i : nat) (h : list_heap) : res list_heap :=
  set_pxContainer (Item i) None h.

(** [listSET_LIST_ITEM_VALUE] and [listSET_LIST_ITEM_OWNER] *)
Definition listSET_LIST_ITEM_VALUE (i : nat) (v : Z) (h : list_heap) : res list_heap :=
  x ← get_item (Item i) h;
  Ok (put_item (Item i) (mkItem (u32 v) (pxNext x) (pxPrevious x) (pvOwner x) (pxContainer x)) h).

Definition listSET_LIST_ITEM_OWNER (i owner : nat) (h : list_heap) : res list_heap :=
  x ← get_item (Item i) h;
  Ok (put_item (Item i) (mkItem (xItemValue x) (pxNext x) (pxPrevious x) (Some owner) (pxContainer x)) h).

(** The last statements of both insertions: [pxContainer] and the count. *)
Definition insert_done (l i : nat) (h : list_heap) : res list_heap :=
  h ← set_pxContainer (Item i) (Some l) h;
  x ← get_list l h;
  Ok (put_list l (mkList (u32 (uxNumberOfItems x + 1)) (pxIndex x)) h).

(** [vListInsertEnd], also inlined as [listINSERT_END] *)
Definition vListInsertEnd (l i : nat) (h : list_heap) : res list_heap :=
  x ← get_list l h;
  let pxIndex := pxIndex x in
  h ← set_pxNext (Item i) (Some pxIndex) h;
  prev ← get_pxPrevious pxIndex h;
  h ← set_pxPrevious (Item i) (Some prev) h;
  prev ← get_pxPrevious pxIndex h;
  h ← set_pxNext prev (Some (Item i)) h;
  h ← set_pxPrevious pxIndex (Some (Item i)) h;
  insert_done l i h.

(** The [for] loop of [vListInsert]. *)
Fixpoint insert_position (fuel : nat) (pxIterator : node) (v : Z) (h : list_heap) : res node :=
  match fuel with
  | O => Fault OutOfFuel
  | S fuel =>
      next ← get_pxNext pxIterator h;
      x ← get_item next h;
      if xItemValue x <=? v then insert_position fuel next v h else Ok pxIterator
  end.

(** [vListInsert]; the loop visits each item of the list at most once. *)
Definition vListInsert (l i : nat) (h : list_heap) : res list_heap :=
  x ← get_item (Item i) h;
  let xValueOfInsertion := xItemValue x in
  pxIterator ← (if xValueOfInsertion =? portMAX_DELAY then get_pxPrevious (ListEnd l) h
                else insert_position (S (size (items h))) (ListEnd l) xValueOfInsertion h);
  next ← get_pxNext pxIterator h;
  h ← set_pxNext (Item i) (Some next) h;
  next ← get_pxNext (Item i) h;
  h ← set_pxPrevious next (Some (Item i)) h;
  h ← set_pxPrevious (Item i) (Some pxIterator) h;
  h ← set_pxNext pxIterator (Some (Item i)) h;
  insert_done l i h.

(** [uxListRemove], also inlined as [listREMOVE_ITEM] *)
Definition uxListRemove (i : nat) (h : list_heap) : res (Z * list_heap) :=
  x ← get_item (Item i) h;
  l ← deref (pxContainer x);
  next ← get_pxNext (Item i) h;
  prev ← get_pxPrevious (Item i) h;
  h ← set_pxPrevious next (Some prev) h;
  prev ← get_pxPrevious (Item i) h;
  next ← get_pxNext (Item i) h;
  h ← set_pxNext prev (Some next) h;
  y ← get_list l h;
  h ← (if decide (pxIndex y = Item i) then
         prev ← get_pxPrevious (Item i) h;
         Ok (put_list l (mkList (uxNumberOfItems y) prev) h)
       else Ok h);
  h ← set_pxContainer (Item i) None h;
  y ← get_list l h;
  let n := u32 (uxNumberOfItems y - 1) in
  Ok (n, put_list l (mkList n (pxIndex y)) h).

(** [listGET_OWNER_OF_NEXT_ENTRY]; a marker has no owner. *)
Definition listGET_OWNER_OF_NEXT_ENTRY (l : nat) (h : list_heap) : res (nat * list_heap) :=
  x ← get_list l h;
  next ← get_pxNext (pxIndex x) h;
  next ← (if decide (next = ListEnd l) then get_pxNext next h else Ok next);
  let h := put_list l (mkList (uxNumberOfItems x) next) h in
  y ← get_item next h;
  owner ← deref (pvOwner y);
  Ok (owner, h).

(** [listGET_HEAD_ENTRY], [listGET_ITEM_VALUE_OF_HEAD_ENTRY], [listLIST_IS_EMPTY],
    [listIS_CONTAINED_WITHIN] *)
Definition listGET_HEAD_ENTRY (l : nat) (h : list_heap) : res node := get_pxNext (ListEnd l) h.

Definition listGET_ITEM_VALUE_OF_HEAD_ENTRY (l : nat) (h : list_heap) : res Z :=
  p ← listGET_HEAD_ENTRY l h; x ← get_item p h; Ok (xItemValue x).

Definition listLIST_IS_EMPTY (l : nat) (h : list_heap) : res bool :=
  x ← get_list l h; Ok (uxNumberOfItems x =? 0).

Definition listIS_CONTAINED_WITHIN (l i : nat) (h : list_heap) : res bool :=
  x ← get_item (Item i) h; Ok (bool_decide (pxContainer x = Some l)).

(** [listGET_OWNER_OF_HEAD_ENTRY], [listCURRENT_LIST_LENGTH],
    [listLIST_ITEM_CONTAINER], [listGET_LIST_ITEM_VALUE] *)
Definition listGET_OWNER_OF_HEAD_ENTRY (l : nat) (h : list_heap) : res nat :=
  p ← listGET_HEAD_ENTRY l h; x ← get_item p h; deref (pvOwner x).

Definition listCURRENT_LIST_LENGTH (l : nat) (h : list_heap) : res Z :=
  x ← get_list l h; Ok (uxNumberOfItems x).

Definition listLIST_ITEM_CONTAINER (i : nat) (h : list_heap) : res (option nat) :=
  x ← get_item (Item i) h; Ok (pxContainer x).

Definition listGET_LIST_ITEM_VALUE (i : nat) (h : list_heap) : res Z :=
  x ← get_item (Item i) h; Ok (xItemValue x).
