(* ===== verification/FreeRTOSListTheory.v ===== *)
(** * Correctness of the kernel's lists

    A heap represents a list when the [pxNext] and [pxPrevious] pointers form the
    ring of the marker and the items, in order.  Insertion and removal are
    proved to act on that order, and walking the list with
    [listGET_OWNER_OF_NEXT_ENTRY] to visit every item in turn. *)

From Stdlib Require Import Sorted.
From S2P Require Import Prelude FreeRTOSList.

(** ** Observations of a heap *)

Definition present (h : list_heap) (p : node) : Prop := is_Some (items h !! p).
Definition nx (h : list_heap) (p : node) : option node := items h !! p ≫= pxNext.
Definition pv (h : list_heap) (p : node) : option node := items h !! p ≫= pxPrevious.
Definition container (h : list_heap) (p : node) : option nat := items h !! p ≫= pxContainer.
Definition owner (h : list_heap) (p : node) : option nat := items h !! p ≫= pvOwner.
Definition value (h : list_heap) (p : node) : Z := from_option xItemValue 0 (items h !! p).

Definition upd {A} (f : node -> A) (p : node) (v : A) (x : node) : A := if decide (x = p) then v else f x.

Lemma upd_eq {A} (f : node -> A) p v : upd f p v p = v.
Proof. unfold upd. by rewrite decide_True. Qed.

Lemma upd_ne {A} (f : node -> A) p v x : x <> p -> upd f p v x = f x.
Proof. intros. unfold upd. by rewrite decide_False. Qed.

(** [h'] is [h] with the pointers [N], [P] and the containers [C]. *)
Record heap_like (h : list_heap) (N P : node -> option node) (C : node -> option nat) (h' : list_heap)
  : Prop := {
  like_present x : present h' x <-> present h x;
  like_nx x : nx h' x = N x;
  like_pv x : pv h' x = P x;
  like_container x : container h' x = C x;
  like_value x : value h' x = value h x;
  like_owner x : owner h' x = owner h x;
  like_lists : lists h' = lists h
}.

Lemma like_refl h : heap_like h (nx h) (pv h) (container h) h.
Proof. by split. Qed.

Section Like.
Context (h h1 : list_heap) (N P : node -> option node) (C : node -> option nat).
Hypothesis like : heap_like h N P C h1.

Lemma like_get p : present h p -> exists x, get_item p h1 = Ok x /\ pxNext x = N p /\ pxPrevious x = P p /\
  pxContainer x = C p /\ xItemValue x = value h p /\ pvOwner x = owner h p /\ items h1 !! p = Some x.
Proof.
  intros Hp. destruct like as [Hpr Hn Hpv Hc Hv Ho _]. apply Hpr in Hp as [x Hx]. exists x.
  specialize (Hn p). specialize (Hpv p). specialize (Hc p). specialize (Hv p). specialize (Ho p).
  unfold nx, pv, container, value, owner in *. unfold get_item. rewrite Hx in *. cbn in *. eauto 10.
Qed.

(** An assignment to a member of a present item. *)
Ltac like_point p :=
  let y := fresh "y" in
  intros y; unfold present, nx, pv, container, value, owner, upd in *; cbn;
  destruct (decide (y = p)) as [->|Hne];
    [rewrite lookup_insert_eq; cbn|rewrite lookup_insert_ne by congruence; auto]; auto;
  split; eauto.

Ltac like_set p :=
  let Hp := fresh in intros Hp;
  destruct (like_get _ Hp) as (x & Hx & Hxn & Hxp & Hxc & Hxv & Hxo & Hxi); eexists;
  unfold set_pxNext, set_pxPrevious, set_pxContainer; rewrite Hx, res_bind_Ok; (split; [reflexivity|]);
  destruct like as [Hpr Hn Hpv Hc Hv Ho Hl]; split; [like_point p..|done].

Lemma like_set_next p q :
  present h p -> exists h2, set_pxNext p q h1 = Ok h2 /\ heap_like h (upd N p q) P C h2.
Proof. like_set p. Qed.

Lemma like_set_previous p q :
  present h p -> exists h2, set_pxPrevious p q h1 = Ok h2 /\ heap_like h N (upd P p q) C h2.
Proof. like_set p. Qed.

Lemma like_set_container p c :
  present h p -> exists h2, set_pxContainer p c h1 = Ok h2 /\ heap_like h N P (upd C p c) h2.
Proof. like_set p. Qed.

Lemma like_get_next p q : present h p -> N p = Some q -> get_pxNext p h1 = Ok q.
Proof. intros (x & Hx & Hn & _)%like_get Hq. unfold get_pxNext. by rewrite Hx, res_bind_Ok, Hn, Hq. Qed.

Lemma like_get_previous p q : present h p -> P p = Some q -> get_pxPrevious p h1 = Ok q.
Proof. intros (x & Hx & _ & Hn & _)%like_get Hq. unfold get_pxPrevious. by rewrite Hx, res_bind_Ok, Hn, Hq. Qed.

Lemma like_get_list l y : lists h !! l = Some y -> get_list l h1 = Ok y.
Proof. intros Hl. unfold get_list. by rewrite (like_lists _ _ _ _ _ like), Hl. Qed.

End Like.

(** ** Rings *)

(** Adjacent nodes point at each other. *)
Fixpoint links (N P : node -> option node) (xs : list node) : Prop :=
  match xs with
  | x :: ((y :: _) as xs') => N x = Some y /\ P y = Some x /\ links N P xs'
  | _ => True
  end.

Lemma links_app N P xs a ys : links N P (xs ++ a :: ys) <-> links N P (xs ++ [a]) /\ links N P (a :: ys).
Proof.
  induction xs as [|x xs IH]; [cbn; tauto|]. destruct xs as [|x' xs]; cbn in *; [tauto|].
  rewrite IH. tauto.
Qed.

Lemma links_ext N P N' P' xs a :
  links N P (xs ++ [a]) -> (forall x, x ∈ xs -> N' x = N x) ->
  (forall y, y ∈ tail (xs ++ [a]) -> P' y = P y) -> links N' P' (xs ++ [a]).
Proof.
  induction xs as [|x xs IH]; intros Hl HN HP; [done|].
  assert (Htail : links N P (xs ++ [a]) -> links N' P' (xs ++ [a])).
  { intros Ht. apply IH; [done|intros; apply HN; by right|]. intros y Hy. apply HP. cbn.
    destruct xs; [by apply elem_of_nil in Hy|]. by right. }
  destruct xs as [|x' xs]; cbn in *.
  - destruct Hl as (H1 & H2 & _). rewrite HN, HP by (by left || left). done.
  - destruct Hl as (H1 & H2 & H3). rewrite HN, HP by left. split_and!; [done|done|by apply Htail].
Qed.

(** The heap holds list [l] with the items [ns], in order, and its index at [idx]. *)
Record ring (h : list_heap) (l : nat) (ns : list nat) (idx : node) : Prop := {
  ring_list : lists h !! l = Some (mkList (Z.of_nat (length ns)) idx);
  ring_links : links (nx h) (pv h) (ListEnd l :: (Item <$> ns) ++ [ListEnd l]);
  ring_present p : p ∈ ListEnd l :: (Item <$> ns) -> present h p;
  ring_nodup : NoDup ns;
  ring_container i : i ∈ ns -> container h (Item i) = Some l;
  ring_end_value : value h (ListEnd l) = portMAX_DELAY;
  ring_values i : i ∈ ns -> in_range 32 (value h (Item i));
  ring_index : idx ∈ ListEnd l :: (Item <$> ns);
  ring_length : Z.of_nat (length ns) < 2 ^ 32
}.

(** The nodes around a position. *)
Definition before (l : nat) (ns : list nat) : node := List.last (Item <$> ns) (ListEnd l).
Definition after (l : nat) (ns : list nat) : node := hd (ListEnd l) (Item <$> ns).

Lemma last_cons_default {A} (x d : A) l : List.last (x :: l) d = List.last l x.
Proof. revert x d. induction l as [|y l IH]; intros x d; [done|]. change (List.last (y :: l) d = List.last (y :: l) x). by rewrite !IH. Qed.

Lemma before_snoc l ns : exists xs, ListEnd l :: (Item <$> ns) = xs ++ [before l ns].
Proof.
  exists (removelast (ListEnd l :: (Item <$> ns))). unfold before.
  rewrite <- (last_cons_default (ListEnd l) (ListEnd l) (Item <$> ns)). apply app_removelast_last. discriminate.
Qed.

Lemma before_in l ns : before l ns ∈ ListEnd l :: (Item <$> ns).
Proof. destruct (before_snoc l ns) as [xs ->]. apply elem_of_app. right. left. Qed.

Lemma after_cons l ns : exists ys, (Item <$> ns) ++ [ListEnd l] = after l ns :: ys.
Proof. destruct ns as [|i ns]; cbn; eauto. Qed.

Lemma after_in l ns : after l ns ∈ ListEnd l :: (Item <$> ns).
Proof. destruct ns; cbn; set_solver. Qed.

#[export] Instance Item_inj : Inj (=) (=) Item.
Proof. by intros x y [= ->]. Qed.

(** The nodes of a ring are distinct, from either side of the marker. *)
Lemma ring_nodes l ns1 ns2 :
  NoDup (ns1 ++ ns2) -> NoDup (ListEnd l :: (Item <$> ns1)) /\ NoDup ((Item <$> ns2) ++ [ListEnd l]) /\
  (forall x, x ∈ Item <$> ns1 -> x ∉ (Item <$> ns2) ++ [ListEnd l]) /\
  (forall x, x ∈ Item <$> ns2 -> x ∉ ListEnd l :: (Item <$> ns1)).
Proof.
  intros (H1 & Hd & H2)%NoDup_app. split_and!.
  - apply NoDup_cons. split; [|by apply NoDup_fmap_2; [apply _|]]. by intros (i & ? & _)%list_elem_of_fmap.
  - apply NoDup_app. split_and!; [by apply NoDup_fmap_2; [apply _|]| |apply NoDup_singleton].
    intros x (i & -> & _)%list_elem_of_fmap. by rewrite list_elem_of_singleton.
  - intros x (i & -> & Hi)%list_elem_of_fmap. rewrite elem_of_app, list_elem_of_singleton.
    intros [(j & [= <-] & Hj)%list_elem_of_fmap|?]; [|done]. by apply (Hd i).
  - intros x (i & -> & Hi)%list_elem_of_fmap. rewrite elem_of_cons.
    intros [?|(j & [= <-] & Hj)%list_elem_of_fmap]; [done|]. by apply (Hd i).
Qed.

Lemma tail_not_head {A} (x : A) xs ys : NoDup xs -> xs = x :: ys -> x ∉ tail xs.
Proof. intros Hn ->. by apply NoDup_cons in Hn as [? _]. Qed.

Lemma snoc_not_last {A} (x : A) xs ys : NoDup xs -> xs = ys ++ [x] -> x ∉ ys.
Proof. intros Hn ->. apply NoDup_app in Hn as (_ & Hd & _). intros Hx. apply (Hd x Hx). set_solver. Qed.

Lemma NoDup_app_cons_inv {A} (xs ys : list A) x : NoDup (xs ++ x :: ys) -> NoDup (xs ++ ys) /\ x ∉ xs ++ ys.
Proof. intros Hn. rewrite <- Permutation_middle in Hn. apply NoDup_cons in Hn. tauto. Qed.

(** The two sides of a position in a ring. *)
Lemma ring_sides l ns1 ns2 :
  NoDup (ns1 ++ ns2) -> exists xs ys,
    ListEnd l :: (Item <$> ns1) = xs ++ [before l ns1] /\
    (Item <$> ns2) ++ [ListEnd l] = after l ns2 :: ys /\
    (forall x, x ∈ xs -> x <> before l ns1 /\ x ∈ ListEnd l :: (Item <$> ns1)) /\
    (forall y, y ∈ Item <$> ns1 -> y <> after l ns2) /\
    (forall x, x ∈ Item <$> ns2 -> x <> before l ns1) /\
    (forall y, y ∈ ys -> y <> after l ns2 /\ y ∈ ListEnd l :: (Item <$> ns2)).
Proof.
  intros Hnd. destruct (ring_nodes l ns1 ns2 Hnd) as (Hn1 & Hn2 & H12 & H21).
  destruct (before_snoc l ns1) as [xs Hxs]. destruct (after_cons l ns2) as [ys Hys]. exists xs, ys.
  split_and!; [done|done|..].
  - intros x Hx. split; [intros ->; by apply (snoc_not_last _ _ _ Hn1 Hxs)|].
    rewrite Hxs. apply elem_of_app. by left.
  - intros y Hy ->. apply (H12 _ Hy). rewrite Hys. left.
  - intros x Hx ->. apply (H21 _ Hx). apply before_in.
  - intros y Hy. split; [intros ->; apply (tail_not_head _ _ ys Hn2 Hys); by rewrite Hys|].
    assert (Hin : y ∈ (Item <$> ns2) ++ [ListEnd l]) by (rewrite Hys; by right).
    rewrite elem_of_app, list_elem_of_singleton in Hin. apply elem_of_cons. tauto.
Qed.

(** Linking a node in, and unlinking it. *)
Section Splice.
Context (N P N' P' : node -> option node) (xs ys zs : list node) (a b e n : node).
Hypothesis right_end : b :: ys = zs ++ [e].
Hypothesis left_next : forall x, x ∈ xs -> N' x = N x.
Hypothesis left_previous : forall y, y ∈ tail (xs ++ [a]) -> P' y = P y.
Hypothesis right_next : forall x, x ∈ zs -> N' x = N x.
Hypothesis right_previous : forall y, y ∈ ys -> P' y = P y.

Lemma sides_ext : links N P (xs ++ [a]) -> links N P (b :: ys) -> links N' P' (xs ++ [a]) /\ links N' P' (b :: ys).
Proof.
  intros H1 H2. split; [by eapply links_ext|]. rewrite right_end in *. eapply links_ext; [done|done|].
  rewrite <- right_end. done.
Qed.

Lemma links_splice :
  N' a = Some n -> P' n = Some a -> N' n = Some b -> P' b = Some n ->
  links N P (xs ++ a :: b :: ys) -> links N' P' (xs ++ a :: n :: b :: ys).
Proof.
  intros ? ? ? ? [Hl1 (_ & _ & Hl2)]%links_app. destruct (sides_ext Hl1 Hl2). by apply links_app.
Qed.

Lemma links_unsplice :
  N' a = Some b -> P' b = Some a -> links N P (xs ++ a :: n :: b :: ys) -> links N' P' (xs ++ a :: b :: ys).
Proof.
  intros ? ? [Hl1 (_ & _ & _ & _ & Hl2)]%links_app. destruct (sides_ext Hl1 Hl2). by apply links_app.
Qed.

End Splice.

(** The nodes of a ring as the two sides of a position. *)
Lemma ring_nodes_insert l ns1 ns2 i xs a b ys :
  ListEnd l :: (Item <$> ns1) = xs ++ [a] -> (Item <$> ns2) ++ [ListEnd l] = b :: ys ->
  ListEnd l :: (Item <$> ns1 ++ ns2) ++ [ListEnd l] = xs ++ a :: b :: ys /\
  ListEnd l :: (Item <$> ns1 ++ i :: ns2) ++ [ListEnd l] = xs ++ a :: Item i :: b :: ys.
Proof.
  intros H1 H2. rewrite !fmap_app, fmap_cons, <- !app_assoc, !app_comm_cons, H1. cbn [app].
  rewrite H2, <- !app_assoc. done.
Qed.

Lemma item_notin i ns l : i ∉ ns -> Item i ∉ ListEnd l :: (Item <$> ns).
Proof. intros Hi [?|(j & [= <-] & Hj)%list_elem_of_fmap]%elem_of_cons; done. Qed.

Lemma links_insert N P l ns1 ns2 i :
  NoDup (ns1 ++ ns2) -> i ∉ ns1 ++ ns2 ->
  links N P (ListEnd l :: (Item <$> ns1 ++ ns2) ++ [ListEnd l]) ->
  links (upd (upd N (Item i) (Some (after l ns2))) (before l ns1) (Some (Item i)))
        (upd (upd P (after l ns2) (Some (Item i))) (Item i) (Some (before l ns1)))
        (ListEnd l :: (Item <$> ns1 ++ i :: ns2) ++ [ListEnd l]).
Proof.
  intros Hnd Hi Hl. rewrite not_elem_of_app in Hi. destruct Hi as [Hi1 Hi2].
  pose proof (item_notin i ns1 l Hi1) as Hn1. pose proof (item_notin i ns2 l Hi2) as Hn2.
  destruct (ring_sides l ns1 ns2 Hnd) as (xs & ys & Hxs & Hys & Hx & Hb & Ha & Hy).
  destruct (ring_nodes_insert l ns1 ns2 i _ _ _ _ Hxs Hys) as [E1 E2]. rewrite E1 in Hl. rewrite E2.
  assert (Item i <> before l ns1) by (intros E; rewrite E in Hn1; by apply Hn1, before_in).
  assert (Item i <> after l ns2) by (intros E; rewrite E in Hn2; by apply Hn2, after_in).
  eapply links_splice; [by symmetry| | | | | | | | |exact Hl].
  - intros x (Hxa & Hin)%Hx. rewrite !upd_ne; [done| |done]. by intros ->.
  - intros y Hin. rewrite <- Hxs in Hin. cbn in Hin. rewrite !upd_ne; [done|by apply Hb|].
    intros ->. apply Hn1. by right.
  - intros x Hin. rewrite !upd_ne; [done| |by apply Ha]. intros ->. apply Hn2. by right.
  - intros y (Hyb & Hin)%Hy. rewrite !upd_ne; [done|done|]. by intros ->.
  - by rewrite upd_eq.
  - by rewrite upd_eq.
  - by rewrite upd_ne, upd_eq.
  - by rewrite upd_ne, upd_eq.
Qed.

Lemma links_remove N P l ns1 ns2 i :
  NoDup (ns1 ++ i :: ns2) ->
  links N P (ListEnd l :: (Item <$> ns1 ++ i :: ns2) ++ [ListEnd l]) ->
  N (Item i) = Some (after l ns2) /\ P (Item i) = Some (before l ns1) /\
  links (upd N (before l ns1) (Some (after l ns2))) (upd P (after l ns2) (Some (before l ns1)))
        (ListEnd l :: (Item <$> ns1 ++ ns2) ++ [ListEnd l]).
Proof.
  intros Hnd Hl. assert (Hnd' : NoDup (ns1 ++ ns2)) by (by destruct (NoDup_app_cons_inv _ _ _ Hnd)).
  destruct (ring_sides l ns1 ns2 Hnd') as (xs & ys & Hxs & Hys & Hx & Hb & Ha & Hy).
  destruct (ring_nodes_insert l ns1 ns2 i _ _ _ _ Hxs Hys) as [E1 E2]. rewrite E2 in Hl. rewrite E1.
  pose proof Hl as (_ & _ & HP & HN & _)%links_app. split_and!; [done|done|].
  eapply links_unsplice; [by symmetry| | | | | | |exact Hl].
  - intros x (Hxa & Hin)%Hx. by rewrite upd_ne.
  - intros y Hin. rewrite <- Hxs in Hin. cbn in Hin. rewrite upd_ne; [done|by apply Hb].
  - intros x Hin. rewrite upd_ne; [done|by apply Ha].
  - intros y (Hyb & Hin)%Hy. by rewrite upd_ne.
  - by rewrite upd_eq.
  - by rewrite upd_eq.
Qed.

(** ** The effect of an operation on the rings *)

Lemma links_pointwise N P N' P' xs :
  (forall x, x ∈ xs -> N' x = N x /\ P' x = P x) -> links N P xs -> links N' P' xs.
Proof.
  induction xs as [|x xs IH]; [done|]. intros Hx. destruct xs as [|y xs]; [done|].
  intros (H1 & H2 & H3). split_and!.
  - by rewrite (proj1 (Hx x ltac:(left))).
  - by rewrite (proj2 (Hx y ltac:(right; left))).
  - apply IH; [|done]. intros z Hz. apply Hx. by right.
Qed.

(** Neighbours of a position. *)
Lemma ring_neighbours h l ns1 ns2 idx :
  ring h l (ns1 ++ ns2) idx ->
  nx h (before l ns1) = Some (after l ns2) /\ pv h (after l ns2) = Some (before l ns1).
Proof.
  intros [_ Hl _ Hnd _ _ _ _ _].
  destruct (ring_sides l ns1 ns2 Hnd) as (xs & ys & Hxs & Hys & _).
  destruct (ring_nodes_insert l ns1 ns2 0 _ _ _ _ Hxs Hys) as [E1 _]. rewrite E1 in Hl.
  apply links_app in Hl as (_ & H1 & H2 & _). done.
Qed.

(** A heap that agrees with [h] on the nodes of a list holds the same list. *)
Lemma ring_frame h h' l ns idx :
  ring h l ns idx -> lists h' !! l = lists h !! l ->
  (forall x, x ∈ ListEnd l :: (Item <$> ns) ->
     (present h x -> present h' x) /\ nx h' x = nx h x /\ pv h' x = pv h x /\ container h' x = container h x) ->
  (forall x, x ∈ ListEnd l :: (Item <$> ns) -> value h' x = value h x) -> ring h' l ns idx.
Proof.
  intros [Hlist Hlinks Hpr Hnd Hc Hev Hv Hidx Hlen] Hl Hx Hval. split; try done.
  - by rewrite Hl.
  - eapply links_pointwise; [|exact Hlinks]. intros x Hin.
    assert (Hin' : x ∈ ListEnd l :: (Item <$> ns)).
    { rewrite app_comm_cons, elem_of_app, list_elem_of_singleton in Hin. destruct Hin as [?| ->]; [done|left]. }
    destruct (Hx x Hin') as (_ & -> & -> & _). done.
  - intros p Hp. by apply Hx, Hpr.
  - intros i Hi. rewrite <- (Hc i Hi). apply Hx. right. by apply list_elem_of_fmap_2.
  - rewrite Hval; [done|left].
  - intros i Hi. rewrite Hval; [by apply Hv|]. right. by apply list_elem_of_fmap_2.
Qed.

(** Items of different lists are different. *)
Lemma ring_disjoint h l l' ns ns' idx idx' i :
  ring h l ns idx -> ring h l' ns' idx' -> l <> l' -> i ∈ ns -> i ∉ ns'.
Proof.
  intros R R' Hne Hi Hi'. apply Hne. pose proof (ring_container _ _ _ _ R i Hi) as H1.
  pose proof (ring_container _ _ _ _ R' i Hi') as H2. congruence.
Qed.

(** [h'] keeps every other list of [h] that does not contain [i], the values and
    owners of all items, and where the other items are. *)
Record keeps_others (h h' : list_heap) (l i : nat) : Prop := {
  kept_rings l' ns' idx' : l' <> l -> i ∉ ns' -> ring h l' ns' idx' -> ring h' l' ns' idx';
  kept_present x : present h' x <-> present h x;
  kept_value x : value h' x = value h x;
  kept_owner x : owner h' x = owner h x;
  kept_container x : x <> Item i -> container h' x = container h x;
}.

(** Putting the list structure of [l] back. *)
Lemma put_list_obs l y h : nx (put_list l y h) = nx h /\ pv (put_list l y h) = pv h /\
  container (put_list l y h) = container h /\ value (put_list l y h) = value h /\
  (forall x, present (put_list l y h) x <-> present h x) /\ owner (put_list l y h) = owner h.
Proof. done. Qed.

Lemma others_kept h h1 l i N P c y ns1 ns2 idx :
  ring h l (ns1 ++ ns2) idx -> heap_like h N P (upd (container h) (Item i) c) h1 ->
  (forall x, x ∉ ListEnd l :: (Item <$> ns1 ++ ns2) -> x <> Item i -> N x = nx h x /\ P x = pv h x) ->
  keeps_others h (put_list l y h1) l i.
Proof.
  intros R Hlike Hsame. split.
  2: { intros x. apply (like_present _ _ _ _ _ Hlike). }
  2: { intros x. apply (like_value _ _ _ _ _ Hlike). }
  2: { intros x. apply (like_owner _ _ _ _ _ Hlike). }
  2: { intros x Hx. change (container h1 x = container h x).
       by rewrite (like_container _ _ _ _ _ Hlike), upd_ne. }
  intros l' ns' idx' Hne Hi R'. eapply ring_frame; [exact R'|..].
  - cbn. by rewrite lookup_insert_ne, (like_lists _ _ _ _ _ Hlike).
  - intros x Hx. split; [intros Hp; by apply (like_present _ _ _ _ _ Hlike)|].
    destruct (put_list_obs l y h1) as (-> & -> & -> & _).
    rewrite (like_nx _ _ _ _ _ Hlike), (like_pv _ _ _ _ _ Hlike), (like_container _ _ _ _ _ Hlike).
    assert (Hxi : x <> Item i).
    { intros ->. apply elem_of_cons in Hx as [?|(j & [= <-] & Hj)%list_elem_of_fmap]; done. }
    rewrite upd_ne by done. cut (N x = nx h x /\ P x = pv h x); [tauto|]. apply Hsame; [|done].
    + intros Hin. apply elem_of_cons in Hx as [->|(j & -> & Hj)%list_elem_of_fmap].
      * apply elem_of_cons in Hin as [?|(j & ? & _)%list_elem_of_fmap]; congruence.
      * apply elem_of_cons in Hin as [?|(k & [= <-] & Hk)%list_elem_of_fmap]; [done|].
        by apply (ring_disjoint h l l' _ _ _ _ j R R').
  - intros x _. apply (like_value _ _ _ _ _ Hlike).
Qed.

(** ** Insertion *)

Definition spliced_next (h : list_heap) (l i : nat) (ns1 ns2 : list nat) : node -> option node :=
  upd (upd (nx h) (Item i) (Some (after l ns2))) (before l ns1) (Some (Item i)).

Definition spliced_previous (h : list_heap) (l i : nat) (ns1 ns2 : list nat) : node -> option node :=
  upd (upd (pv h) (after l ns2) (Some (Item i))) (Item i) (Some (before l ns1)).

Section Insert.
Context (h : list_heap) (l i : nat) (ns1 ns2 : list nat) (idx : node).
Hypothesis R : ring h l (ns1 ++ ns2) idx.
Hypothesis fresh : i ∉ ns1 ++ ns2.
Hypothesis item_present : present h (Item i).
Hypothesis item_value : in_range 32 (value h (Item i)).
Hypothesis room : Z.of_nat (length (ns1 ++ ns2)) + 1 < 2 ^ 32.

Let n' := u32 (Z.of_nat (length (ns1 ++ ns2)) + 1).

Lemma side_present p : p ∈ ListEnd l :: (Item <$> ns1 ++ ns2) -> present h p.
Proof. apply R. Qed.

Lemma before_member : before l ns1 ∈ ListEnd l :: (Item <$> ns1 ++ ns2).
Proof.
  rewrite fmap_app, app_comm_cons. apply elem_of_app. left. apply before_in.
Qed.

Lemma after_member : after l ns2 ∈ ListEnd l :: (Item <$> ns1 ++ ns2).
Proof.
  pose proof (after_in l ns2) as Hin. rewrite fmap_app, elem_of_cons, elem_of_app in *. tauto.
Qed.

Lemma fresh_before : Item i <> before l ns1.
Proof. intros E. apply (item_notin i _ l fresh). rewrite E. apply before_member. Qed.

Lemma fresh_after : Item i <> after l ns2.
Proof. intros E. apply (item_notin i _ l fresh). rewrite E. apply after_member. Qed.

Lemma insert_done_ok N P h1 :
  heap_like h N P (container h) h1 ->
  exists h2, insert_done l i h1 = Ok (put_list l (mkList n' idx) h2) /\
    heap_like h N P (upd (container h) (Item i) (Some l)) h2.
Proof.
  intros Hlike. unfold insert_done.
  destruct (like_set_container _ _ _ _ _ Hlike (Item i) (Some l) item_present) as (h2 & -> & Hlike2).
  rewrite res_bind_Ok, (like_get_list _ _ _ _ _ Hlike2 _ _ (ring_list _ _ _ _ R)), res_bind_Ok.
  eexists. split; [reflexivity|done].
Qed.

Lemma ring_inserted N P h2 :
  heap_like h N P (upd (container h) (Item i) (Some l)) h2 ->
  (forall x, N x = spliced_next h l i ns1 ns2 x) -> (forall x, P x = spliced_previous h l i ns1 ns2 x) ->
  ring (put_list l (mkList n' idx) h2) l (ns1 ++ i :: ns2) idx /\
  keeps_others h (put_list l (mkList n' idx) h2) l i.
Proof.
  intros Hlike HN HP. split.
  2: { eapply others_kept; [exact R|exact Hlike|]. intros x Hx Hxi. rewrite HN, HP.
       unfold spliced_next, spliced_previous.
       assert (x <> before l ns1) by (intros ->; by apply Hx, before_member).
       assert (x <> after l ns2) by (intros ->; by apply Hx, after_member). by rewrite !upd_ne. }
  pose proof R as [Hlist Hlinks Hpr Hnd Hc Hev Hv Hidx Hlen].
  assert (Hmem : forall p, p ∈ ListEnd l :: (Item <$> ns1 ++ i :: ns2) <->
                  p = Item i \/ p ∈ ListEnd l :: (Item <$> ns1 ++ ns2)).
  { intros p. rewrite !fmap_app, fmap_cons, !elem_of_cons, !elem_of_app, elem_of_cons. tauto. }
  split.
  - cbn. rewrite lookup_insert_eq. do 2 f_equal. unfold n'. rewrite wrapu_small by (unfold in_range; lia).
    rewrite !length_app. cbn. lia.
  - eapply links_pointwise; [|apply (links_insert _ _ l ns1 ns2 i Hnd fresh Hlinks)].
    intros x _. destruct (put_list_obs l (mkList n' idx) h2) as (-> & -> & _).
    rewrite (like_nx _ _ _ _ _ Hlike), (like_pv _ _ _ _ _ Hlike). done.
  - intros p Hp%Hmem. apply (like_present _ _ _ _ _ Hlike). destruct Hp as [->|Hp]; auto.
  - rewrite <- Permutation_middle. by apply NoDup_cons.
  - intros j Hj. change (container h2 (Item j) = Some l). rewrite (like_container _ _ _ _ _ Hlike).
    destruct (decide (j = i)) as [->|Hne]; [by rewrite upd_eq|]. rewrite upd_ne by congruence.
    apply Hc. rewrite elem_of_app, elem_of_cons in Hj. rewrite elem_of_app. tauto.
  - change (value h2 (ListEnd l) = portMAX_DELAY). by rewrite (like_value _ _ _ _ _ Hlike).
  - intros j Hj. change (in_range 32 (value h2 (Item j))). rewrite (like_value _ _ _ _ _ Hlike).
    rewrite elem_of_app, elem_of_cons in Hj. destruct Hj as [Hj|[->|Hj]]; [|done|];
      apply Hv, elem_of_app; auto.
  - apply Hmem. by right.
  - rewrite length_app in *. cbn. lia.
Qed.

End Insert.

(** [vListInsertEnd] puts the item just before the index. *)
Lemma vListInsertEnd_ok h l i ns1 ns2 :
  ring h l (ns1 ++ ns2) (after l ns2) -> i ∉ ns1 ++ ns2 -> present h (Item i) ->
  in_range 32 (value h (Item i)) -> Z.of_nat (length (ns1 ++ ns2)) + 1 < 2 ^ 32 ->
  exists h', vListInsertEnd l i h = Ok h' /\ ring h' l (ns1 ++ i :: ns2) (after l ns2) /\
    keeps_others h h' l i.
Proof.
  intros R Hi Hp Hv Hn. destruct (ring_neighbours _ _ _ _ _ R) as [HN HP].
  pose proof (side_present _ _ _ _ _ R _ (before_member l ns1 ns2)) as Hpa.
  pose proof (side_present _ _ _ _ _ R _ (after_member l ns1 ns2)) as Hpb.
  pose proof (fresh_before l i ns1 ns2 Hi) as Hfa. pose proof (fresh_after l i ns1 ns2 Hi) as Hfb.
  unfold vListInsertEnd. rewrite (like_get_list _ _ _ _ _ (like_refl h) _ _ (ring_list _ _ _ _ R)), res_bind_Ok.
  cbn [pxIndex]. cbv zeta.
  destruct (like_set_next _ _ _ _ _ (like_refl h) (Item i) (Some (after l ns2)) Hp) as (h1 & -> & L1).
  rewrite res_bind_Ok, (like_get_previous _ _ _ _ _ L1 _ _ Hpb HP), res_bind_Ok.
  destruct (like_set_previous _ _ _ _ _ L1 (Item i) (Some (before l ns1)) Hp) as (h2 & -> & L2).
  rewrite res_bind_Ok, (like_get_previous _ _ _ _ _ L2 (after l ns2) (before l ns1) Hpb)
    by (by rewrite upd_ne). rewrite res_bind_Ok.
  destruct (like_set_next _ _ _ _ _ L2 _ (Some (Item i)) Hpa) as (h3 & -> & L3). rewrite res_bind_Ok.
  destruct (like_set_previous _ _ _ _ _ L3 _ (Some (Item i)) Hpb) as (h4 & -> & L4). rewrite res_bind_Ok.
  destruct (insert_done_ok _ _ _ _ _ _ R Hp _ _ _ L4) as (h5 & -> & L5).
  eexists. split; [reflexivity|]. eapply ring_inserted; try done. intros x.
  unfold spliced_previous, upd. by repeat case_decide; simplify_eq.
Qed.

(** ** Sorted insertion *)

(** The reference: after the items with a value that is not larger. *)
Fixpoint insert_sorted (val : nat -> Z) (i : nat) (ns : list nat) : list nat :=
  match ns with
  | [] => [i]
  | j :: ns' => if val j <=? val i then j :: insert_sorted val i ns' else i :: ns
  end.

Definition sorted (val : nat -> Z) : list nat -> Prop := StronglySorted (fun i j => val i <= val j).

Lemma insert_sorted_split val i ns :
  exists ns1 ns2, ns = ns1 ++ ns2 /\ insert_sorted val i ns = ns1 ++ i :: ns2 /\
    (forall j, j ∈ ns1 -> val j <= val i) /\ (forall j ns', ns2 = j :: ns' -> val i < val j).
Proof.
  induction ns as [|j ns IH]; cbn.
  - exists [], []. split_and!; [done|done|by intros j ?%elem_of_nil|done].
  - destruct (Z.leb_spec (val j) (val i)) as [Hle|Hlt].
    + destruct IH as (ns1 & ns2 & -> & -> & H1 & H2). exists (j :: ns1), ns2.
      split_and!; [done|done| |done]. intros k [->|Hk]%elem_of_cons; auto.
    + exists [], (j :: ns). split_and!; [done|done|by intros k ?%elem_of_nil|by intros k ns' [= <- <-]].
Qed.

Lemma insert_sorted_sorted val i ns : sorted val ns -> sorted val (insert_sorted val i ns).
Proof.
  induction 1 as [|j ns Hs IH Hj]; cbn; [repeat constructor|].
  destruct (Z.leb_spec (val j) (val i)) as [Hle|Hlt].
  - constructor; [done|]. destruct (insert_sorted_split val i ns) as (ns1 & ns2 & Hns & -> & _).
    rewrite Forall_forall in Hj. apply Forall_forall. intros k Hk. rewrite Hns in Hj.
    rewrite elem_of_app, elem_of_cons in Hk. destruct Hk as [Hk|[->|Hk]]; [|done|];
      apply Hj, elem_of_app; auto.
  - constructor; [by constructor|]. constructor; [lia|]. eapply Forall_impl; [exact Hj|]. cbn. lia.
Qed.

(** The loop of [vListInsert] stops at the position of the reference. *)
Lemma insert_position_ok h l pre mid post idx v fuel :
  ring h l (pre ++ mid ++ post) idx -> v < portMAX_DELAY ->
  (forall j, j ∈ mid -> value h (Item j) <= v) -> (forall j ns', post = j :: ns' -> v < value h (Item j)) ->
  (length mid < fuel)%nat ->
  insert_position fuel (before l pre) v h = Ok (before l (pre ++ mid)).
Proof.
  revert pre fuel. induction mid as [|j mid IH]; intros pre fuel R Hv Hmid Hpost Hf;
    (destruct fuel as [|fuel]; [cbn in Hf; lia|]); cbn [insert_position].
  - destruct (ring_neighbours _ _ _ _ _ R) as [HN _].
    pose proof (side_present _ _ _ _ _ R _ (before_member l pre _)) as Hpa.
    pose proof (side_present _ _ _ _ _ R _ (after_member l pre _)) as Hpb.
    rewrite (like_get_next _ _ _ _ _ (like_refl h) _ _ Hpa HN), res_bind_Ok.
    destruct (like_get _ _ _ _ _ (like_refl h) _ Hpb) as (x & -> & _ & _ & _ & Hval & _). rewrite res_bind_Ok, Hval.
    rewrite app_nil_r. cbn [app]. destruct (Z.leb_spec (value h (after l post)) v) as [Hle|]; [|done].
    destruct post as [|k post]; cbn in Hle; [rewrite (ring_end_value _ _ _ _ R) in Hle; lia|].
    specialize (Hpost k post eq_refl). lia.
  - destruct (ring_neighbours _ _ _ _ _ R) as [HN _].
    pose proof (side_present _ _ _ _ _ R _ (before_member l pre _)) as Hpa.
    pose proof (side_present _ _ _ _ _ R _ (after_member l pre _)) as Hpb.
    rewrite (like_get_next _ _ _ _ _ (like_refl h) _ _ Hpa HN), res_bind_Ok.
    destruct (like_get _ _ _ _ _ (like_refl h) _ Hpb) as (x & -> & _ & _ & _ & Hval & _). rewrite res_bind_Ok, Hval.
    cbn [app fmap list_fmap after hd]. change (after l (j :: mid ++ post)) with (Item j).
    destruct (Z.leb_spec (value h (Item j)) v) as [_|Hlt]; [|specialize (Hmid j ltac:(left)); lia].
    assert (Hb : before l (pre ++ [j]) = Item j) by (unfold before; rewrite fmap_app; apply (List.last_last (Item <$> pre))).
    rewrite <- Hb, IH; [by rewrite <- app_assoc| |done| |done|cbn in Hf; lia].
    + by rewrite <- app_assoc.
    + intros k Hk. apply Hmid. by right.
Qed.

(** A list has at most as many items as the heap. *)
Lemma ring_fuel h l ns idx : ring h l ns idx -> (length ns < S (size (items h)))%nat.
Proof.
  intros R. assert (Hsub : list_to_set (Item <$> ns) ⊆ dom (items h)).
  { intros p Hp. apply elem_of_list_to_set in Hp. apply elem_of_dom, R. by right. }
  apply subseteq_size in Hsub. rewrite size_list_to_set, length_fmap, size_dom in Hsub; [lia|].
  apply NoDup_fmap_2; [apply _|]. apply R.
Qed.

Lemma vListInsert_ok h l i ns idx :
  ring h l ns idx -> i ∉ ns -> present h (Item i) ->
  in_range 32 (value h (Item i)) -> Z.of_nat (length ns) + 1 < 2 ^ 32 ->
  exists h', vListInsert l i h = Ok h' /\
    ring h' l (insert_sorted (fun j => value h (Item j)) i ns) idx /\ keeps_others h h' l i.
Proof.
  intros R Hi Hp Hv Hn. set (val := fun j => value h (Item j)).
  destruct (insert_sorted_split val i ns) as (ns1 & ns2 & -> & -> & H1 & H2).
  destruct (ring_neighbours _ _ _ _ _ R) as [HN HP].
  pose proof (side_present _ _ _ _ _ R _ (before_member l ns1 ns2)) as Hpa.
  pose proof (side_present _ _ _ _ _ R _ (after_member l ns1 ns2)) as Hpb.
  pose proof (fresh_before l i ns1 ns2 Hi) as Hfa. pose proof (fresh_after l i ns1 ns2 Hi) as Hfb.
  unfold vListInsert. destruct (like_get _ _ _ _ _ (like_refl h) _ Hp) as (x & -> & _ & _ & _ & Hval & _).
  rewrite res_bind_Ok. cbv zeta. rewrite Hval. change (value h (Item i)) with (val i).
  assert (Hpos : (if val i =? portMAX_DELAY then get_pxPrevious (ListEnd l) h
                  else insert_position (S (size (items h))) (ListEnd l) (val i) h) = Ok (before l ns1)).
  { destruct (Z.eqb_spec (val i) portMAX_DELAY) as [Hmax|Hne].
    - destruct ns2 as [|j ns2]; [by apply (like_get_previous _ _ _ _ _ (like_refl h))|].
      pose proof (H2 j ns2 eq_refl) as Hlt. pose proof (ring_values _ _ _ _ R j) as Hj.
      assert (Hjr : in_range 32 (value h (Item j))) by (apply Hj; set_solver).
      unfold val, portMAX_DELAY, in_range in *. lia.
    - apply (insert_position_ok h l [] ns1 ns2 idx); [done| |done|done|].
      + unfold in_range, portMAX_DELAY, val in *. lia.
      + apply ring_fuel in R. rewrite length_app in R. lia. }
  rewrite Hpos, res_bind_Ok, (like_get_next _ _ _ _ _ (like_refl h) _ _ Hpa HN), res_bind_Ok.
  destruct (like_set_next _ _ _ _ _ (like_refl h) (Item i) (Some (after l ns2)) Hp) as (h1 & -> & L1).
  rewrite res_bind_Ok, (like_get_next _ _ _ _ _ L1 (Item i) (after l ns2) Hp) by (by rewrite upd_eq).
  rewrite res_bind_Ok.
  destruct (like_set_previous _ _ _ _ _ L1 (after l ns2) (Some (Item i)) Hpb) as (h2 & -> & L2). rewrite res_bind_Ok.
  destruct (like_set_previous _ _ _ _ _ L2 (Item i) (Some (before l ns1)) Hp) as (h3 & -> & L3). rewrite res_bind_Ok.
  destruct (like_set_next _ _ _ _ _ L3 (before l ns1) (Some (Item i)) Hpa) as (h4 & -> & L4). rewrite res_bind_Ok.
  destruct (insert_done_ok _ _ _ _ _ _ R Hp _ _ _ L4) as (h5 & -> & L5).
  eexists. split; [reflexivity|]. by eapply ring_inserted.
Qed.

(** ** Removal *)

Lemma set_container_put_list p c l y h :
  set_pxContainer p c (put_list l y h) = (h' ← set_pxContainer p c h; Ok (put_list l y h')).
Proof. unfold set_pxContainer, get_item. cbn. by destruct (items h !! p). Qed.

Lemma get_previous_put_list p l y h : get_pxPrevious p (put_list l y h) = get_pxPrevious p h.
Proof. done. Qed.

Lemma put_list_twice l y y' h : put_list l y (put_list l y' h) = put_list l y h.
Proof. unfold put_list. cbn. by rewrite insert_insert_eq. Qed.

Section Remove.
Context (h : list_heap) (l i : nat) (ns1 ns2 : list nat) (idx : node).
Hypothesis R : ring h l (ns1 ++ i :: ns2) idx.

Lemma removed_member p : p ∈ ListEnd l :: (Item <$> ns1 ++ ns2) -> p ∈ ListEnd l :: (Item <$> ns1 ++ i :: ns2).
Proof. rewrite !fmap_app, fmap_cons, !elem_of_cons, !elem_of_app, elem_of_cons. tauto. Qed.

Lemma ring_removed N P h2 idx' :
  heap_like h N P (upd (container h) (Item i) None) h2 ->
  (forall x, N x = upd (nx h) (before l ns1) (Some (after l ns2)) x) ->
  (forall x, P x = upd (pv h) (after l ns2) (Some (before l ns1)) x) ->
  idx' ∈ ListEnd l :: (Item <$> ns1 ++ ns2) ->
  ring (put_list l (mkList (Z.of_nat (length (ns1 ++ ns2))) idx') h2) l (ns1 ++ ns2) idx' /\
  keeps_others h (put_list l (mkList (Z.of_nat (length (ns1 ++ ns2))) idx') h2) l i.
Proof.
  intros Hlike HN HP Hidx'. split.
  2: { eapply others_kept; [exact R|exact Hlike|]. intros x Hx Hxi. rewrite HN, HP.
       assert (x <> before l ns1) by (intros ->; by apply Hx, removed_member, before_member).
       assert (x <> after l ns2) by (intros ->; by apply Hx, removed_member, after_member).
       by rewrite !upd_ne. }
  pose proof R as [Hlist Hlinks Hpr Hnd Hc Hev Hv Hidx Hlen].
  destruct (NoDup_app_cons_inv _ _ _ Hnd) as [Hnd' Hi].
  assert (Hsub : forall j, j ∈ ns1 ++ ns2 -> j ∈ ns1 ++ i :: ns2).
  { intros j. rewrite !elem_of_app, elem_of_cons. tauto. }
  split.
  - cbn. by rewrite lookup_insert_eq.
  - eapply links_pointwise; [|apply (links_remove _ _ l ns1 ns2 i Hnd Hlinks)].
    intros x _. destruct (put_list_obs l (mkList (Z.of_nat (length (ns1 ++ ns2))) idx') h2) as (-> & -> & _).
    rewrite (like_nx _ _ _ _ _ Hlike), (like_pv _ _ _ _ _ Hlike). done.
  - intros p Hp%removed_member. apply (like_present _ _ _ _ _ Hlike). auto.
  - done.
  - intros j Hj. change (container h2 (Item j) = Some l). rewrite (like_container _ _ _ _ _ Hlike).
    rewrite upd_ne by (intros [= ->]; done). by apply Hc, Hsub.
  - change (value h2 (ListEnd l) = portMAX_DELAY). by rewrite (like_value _ _ _ _ _ Hlike).
  - intros j Hj. change (in_range 32 (value h2 (Item j))). rewrite (like_value _ _ _ _ _ Hlike).
    by apply Hv, Hsub.
  - done.
  - rewrite length_app in *. cbn in Hlen. lia.
Qed.

Lemma uxListRemove_ok :
  exists h', uxListRemove i h = Ok (Z.of_nat (length (ns1 ++ ns2)), h') /\
    ring h' l (ns1 ++ ns2) (if decide (idx = Item i) then before l ns1 else idx) /\
    container h' (Item i) = None /\ keeps_others h h' l i.
Proof.
  pose proof R as [Hlist Hlinks Hpr Hnd Hc Hev Hv Hidx Hlen].
  destruct (links_remove _ _ l ns1 ns2 i Hnd Hlinks) as (HNi & HPi & _).
  destruct (NoDup_app_cons_inv _ _ _ Hnd) as [Hnd' Hi].
  pose proof (Hpr _ (removed_member _ (before_member l ns1 ns2))) as Hpa.
  pose proof (Hpr _ (removed_member _ (after_member l ns1 ns2))) as Hpb.
  pose proof (fresh_before l i ns1 ns2 Hi) as Hfa. pose proof (fresh_after l i ns1 ns2 Hi) as Hfb.
  assert (Hp : present h (Item i)) by (apply Hpr; right; apply list_elem_of_fmap_2, elem_of_app; right; left).
  assert (Hn : u32 (Z.of_nat (length (ns1 ++ i :: ns2)) - 1) = Z.of_nat (length (ns1 ++ ns2))).
  { rewrite !length_app in *. cbn in *. rewrite wrapu_small; [lia|unfold in_range; lia]. }
  unfold uxListRemove. destruct (like_get _ _ _ _ _ (like_refl h) _ Hp) as (x & -> & _ & _ & Hcx & _).
  rewrite res_bind_Ok, Hcx, Hc by (apply elem_of_app; right; left). cbn [deref]. rewrite res_bind_Ok.
  rewrite (like_get_next _ _ _ _ _ (like_refl h) _ _ Hp HNi), res_bind_Ok.
  rewrite (like_get_previous _ _ _ _ _ (like_refl h) _ _ Hp HPi), res_bind_Ok.
  destruct (like_set_previous _ _ _ _ _ (like_refl h) _ (Some (before l ns1)) Hpb) as (h1 & -> & L1).
  rewrite res_bind_Ok, (like_get_previous _ _ _ _ _ L1 _ (before l ns1) Hp) by (by rewrite upd_ne).
  rewrite res_bind_Ok, (like_get_next _ _ _ _ _ L1 _ _ Hp HNi), res_bind_Ok.
  destruct (like_set_next _ _ _ _ _ L1 _ (Some (after l ns2)) Hpa) as (h2 & -> & L2).
  rewrite res_bind_Ok, (like_get_list _ _ _ _ _ L2 _ _ Hlist), res_bind_Ok. cbn [pxIndex uxNumberOfItems].
  destruct (like_set_container _ _ _ _ _ L2 (Item i) None Hp) as (h3 & Hset & L3).
  destruct (decide (idx = Item i)) as [Heq|Hne].
  - rewrite (like_get_previous _ _ _ _ _ L2 _ (before l ns1) Hp) by (by rewrite upd_ne).
    rewrite !res_bind_Ok, set_container_put_list, Hset, !res_bind_Ok. unfold get_list. cbn [lists put_list].
    rewrite lookup_insert_eq, res_bind_Ok. cbn [pxIndex uxNumberOfItems]. cbv zeta. rewrite Hn, put_list_twice.
    eexists. split; [reflexivity|]. destruct (ring_removed _ _ _ (before l ns1) L3) as [R' K'];
      [done|done|apply before_member|]. split_and!; [done| |done].
    change (container h3 (Item i) = None). by rewrite (like_container _ _ _ _ _ L3), upd_eq.
  - rewrite res_bind_Ok, Hset, res_bind_Ok, (like_get_list _ _ _ _ _ L3 _ _ Hlist), res_bind_Ok.
    cbn [pxIndex uxNumberOfItems]. cbv zeta. rewrite Hn.
    eexists. split; [reflexivity|]. destruct (ring_removed _ _ _ idx L3) as [R' K']; [done|done| |].
    + rewrite !fmap_app, fmap_cons, elem_of_cons, elem_of_app, elem_of_cons in Hidx.
      rewrite fmap_app, elem_of_cons, elem_of_app. tauto.
    + split_and!; [done| |done].
      change (container h3 (Item i) = None). by rewrite (like_container _ _ _ _ _ L3), upd_eq.
Qed.

End Remove.

(** ** Walking the list *)

(** [k] calls of [listGET_OWNER_OF_NEXT_ENTRY]. *)
Fixpoint walk (k : nat) (l : nat) (h : list_heap) : res (list nat * list_heap) :=
  match k with
  | O => Ok ([], h)
  | S k =>
      '(o, h) ← listGET_OWNER_OF_NEXT_ENTRY l h;
      '(os, h) ← walk k l h;
      Ok (o :: os, h)
  end.

Lemma ring_set_index h l ns idx idx' :
  ring h l ns idx -> idx' ∈ ListEnd l :: (Item <$> ns) ->
  ring (put_list l (mkList (Z.of_nat (length ns)) idx') h) l ns idx'.
Proof. intros [] Hin. split; try done. cbn. by rewrite lookup_insert_eq. Qed.

Section Walk.
Context (l : nat) (ns : list nat) (own : nat -> nat).

(** The list with its index at [idx], and an owner for every item. *)
Definition owned (h : list_heap) (idx : node) : Prop :=
  ring h l ns idx /\ forall j, j ∈ ns -> owner h (Item j) = Some (own j).

Lemma owned_step_put h idx j :
  owned h idx -> j ∈ ns ->
  nx h idx = Some (Item j) \/ (nx h idx = Some (ListEnd l) /\ nx h (ListEnd l) = Some (Item j)) ->
  listGET_OWNER_OF_NEXT_ENTRY l h = Ok (own j, put_list l (mkList (Z.of_nat (length ns)) (Item j)) h).
Proof.
  intros [R Hown] Hj Hnext.
  assert (Hin : Item j ∈ ListEnd l :: (Item <$> ns)) by (right; by apply list_elem_of_fmap_2).
  unfold listGET_OWNER_OF_NEXT_ENTRY.
  rewrite (like_get_list _ _ _ _ _ (like_refl h) _ _ (ring_list _ _ _ _ R)), res_bind_Ok. cbn [pxIndex uxNumberOfItems].
  pose proof (ring_present _ _ _ _ R _ (ring_index _ _ _ _ R)) as Hpi.
  pose proof (ring_present _ _ _ _ R (ListEnd l) ltac:(left)) as Hpe.
  assert (Hnx : (next ← get_pxNext idx h; if decide (next = ListEnd l) then get_pxNext next h else Ok next) = Ok (Item j)).
  { destruct Hnext as [HN|[HN HE]]; rewrite (like_get_next _ _ _ _ _ (like_refl h) _ _ Hpi HN), res_bind_Ok.
    - by rewrite decide_False.
    - rewrite decide_True by done. by apply (like_get_next _ _ _ _ _ (like_refl h)). }
  apply res_bind_inv in Hnx as (next & -> & Hnx). rewrite res_bind_Ok, Hnx, res_bind_Ok. cbv zeta.
  destruct (like_get _ _ _ _ _ (like_refl h) _ (ring_present _ _ _ _ R _ Hin)) as (x & Hx & _ & _ & _ & _ & Hox & _).
  change (get_item (Item j) (put_list l (mkList (Z.of_nat (length ns)) (Item j)) h)) with (get_item (Item j) h).
  by rewrite Hx, res_bind_Ok, Hox, Hown by done.
Qed.

Lemma owned_step h idx j :
  owned h idx -> j ∈ ns ->
  nx h idx = Some (Item j) \/ (nx h idx = Some (ListEnd l) /\ nx h (ListEnd l) = Some (Item j)) ->
  exists h', listGET_OWNER_OF_NEXT_ENTRY l h = Ok (own j, h') /\ owned h' (Item j).
Proof.
  intros Ho Hj Hn. eexists. split; [by apply (owned_step_put h idx)|]. destruct Ho as [R Hown].
  split; [|done]. eapply ring_set_index; [done|]. right. by apply list_elem_of_fmap_2.
Qed.

Lemma walk_forward h ns1 ns2 ns3 :
  ns = ns1 ++ ns2 ++ ns3 -> owned h (before l ns1) ->
  exists h', walk (length ns2) l h = Ok (own <$> ns2, h') /\ owned h' (before l (ns1 ++ ns2)).
Proof.
  revert h ns1. induction ns2 as [|j ns2 IH]; intros h ns1 Hns Ho; cbn [length walk].
  { exists h. rewrite app_nil_r. done. }
  assert (Hj : j ∈ ns) by (rewrite Hns, !elem_of_app, elem_of_cons; tauto).
  pose proof Ho as [R _]. rewrite Hns in R. apply ring_neighbours in R as [HN _].
  destruct (owned_step h _ j Ho Hj (or_introl HN)) as (h1 & -> & Ho1). rewrite res_bind_Ok.
  assert (Hb : before l (ns1 ++ [j]) = Item j) by (unfold before; rewrite fmap_app; apply (List.last_last (Item <$> ns1))).
  rewrite <- Hb in Ho1. destruct (IH h1 (ns1 ++ [j])) as (h2 & -> & Ho2); [by rewrite <- app_assoc|done|].
  rewrite res_bind_Ok, <- app_assoc in *. eexists. done.
Qed.

(** From the last item the walk wraps around to the first. *)
Lemma walk_wrap h j ns' :
  ns = j :: ns' -> owned h (before l ns) ->
  exists h', listGET_OWNER_OF_NEXT_ENTRY l h = Ok (own j, h') /\ owned h' (Item j).
Proof.
  intros Hns Ho. pose proof Ho as [R _]. apply (owned_step h (before l ns)); [done|rewrite Hns; left|]. right. split.
  - rewrite <- (app_nil_r ns) in R at 1. by destruct (ring_neighbours _ _ _ _ _ R).
  - destruct (ring_neighbours h l [] ns _ R) as [HN _]. cbn in HN. by rewrite Hns in HN.
Qed.

(** A round of the walk visits the items after the index, then those up to it. *)
Lemma walk_round h ns1 ns2 :
  ns = ns1 ++ ns2 -> owned h (before l ns1) ->
  exists h', walk (length ns) l h = Ok (own <$> ns2 ++ ns1, h') /\
    owned h' (before l (if decide (ns1 = []) then ns2 else ns1)).
Proof.
  intros Hns Ho. destruct (walk_forward h ns1 ns2 []) as (h1 & Hw1 & Ho1); [by rewrite app_nil_r|done|].
  assert (Happ : forall k1 k2, walk (k1 + k2) l h =
            ('(os, h) ← walk k1 l h; '(os', h) ← walk k2 l h; Ok (os ++ os', h))).
  { intros k1. clear. revert h. induction k1 as [|k1 IH]; intros h k2; cbn [walk Nat.add].
    - rewrite res_bind_Ok. by destruct (walk k2 l h) as [[? ?]|].
    - destruct (listGET_OWNER_OF_NEXT_ENTRY l h) as [[o h1]|]; [|done]. rewrite !res_bind_Ok, IH.
      destruct (walk k1 l h1) as [[os h2]|]; [|done]. rewrite !res_bind_Ok.
      by destruct (walk k2 l h2) as [[? ?]|]. }
  destruct ns1 as [|j ns1].
  { rewrite decide_True by done. rewrite app_nil_r, Hns. cbn [app]. eauto. }
  rewrite decide_False by done. destruct (walk_wrap h1 j (ns1 ++ ns2)) as (h2 & Hstep & Ho2);
    [done|by rewrite Hns|].
  destruct (walk_forward h2 [j] ns1 ns2) as (h3 & Hw3 & Ho3); [done|done|].
  replace (length ns) with (length ns2 + S (length ns1))%nat by (rewrite Hns, length_app; cbn; lia).
  rewrite Happ, Hw1, res_bind_Ok. cbn [walk]. rewrite Hstep, res_bind_Ok, Hw3, !res_bind_Ok.
  rewrite fmap_app. eexists. split; [reflexivity|done].
Qed.

End Walk.

(** Every index splits the list. *)
Lemma index_split l ns idx : idx ∈ ListEnd l :: (Item <$> ns) -> exists ns1 ns2, ns = ns1 ++ ns2 /\ idx = before l ns1.
Proof.
  intros [->|(i & -> & Hi)%list_elem_of_fmap]%elem_of_cons; [by exists [], ns|].
  apply list_elem_of_split in Hi as (ns1 & ns2 & ->). exists (ns1 ++ [i]), ns2.
  rewrite <- app_assoc. split; [done|]. unfold before. rewrite fmap_app. symmetry. apply (List.last_last (Item <$> ns1)).
Qed.

(** [vListInitialise] makes the empty list. *)
Lemma ring_initialise h l : ring (vListInitialise l h) l [] (ListEnd l).
Proof.
  split; cbn.
  - by rewrite lookup_insert_eq.
  - unfold nx, pv. cbn. by rewrite lookup_insert_eq.
  - intros p ->%list_elem_of_singleton. unfold present. cbn. by rewrite lookup_insert_eq.
  - apply NoDup_nil_2.
  - by intros i ?%elem_of_nil.
  - unfold value. cbn. by rewrite lookup_insert_eq.
  - by intros i ?%elem_of_nil.
  - left.
  - lia.
Qed.

(** ** A heap for the witnesses *)

(** List 0 holds items 1 and 2 with values 3 and 7; item 5 is in no list. *)
Definition demo_lists : list_heap :=
  mkLists (list_to_map
             [(ListEnd 0, mkItem portMAX_DELAY (Some (Item 1)) (Some (Item 2)) None None);
              (Item 1, mkItem 3 (Some (Item 2)) (Some (ListEnd 0)) (Some 11%nat) (Some 0%nat));
              (Item 2, mkItem 7 (Some (ListEnd 0)) (Some (Item 1)) (Some 12%nat) (Some 0%nat));
              (Item 5, mkItem 3 None None (Some 15%nat) None)])
          {[0%nat := mkList 2 (Item 1)]}.

Lemma demo_ring : ring demo_lists 0 [1%nat; 2%nat] (Item 1).
Proof.
  split; try done.
  - intros p Hp. unfold present.
    repeat (apply elem_of_cons in Hp as [->|Hp]; [by eexists|]). by apply elem_of_nil in Hp.
  - apply (bool_decide_eq_true_1 _). done.
  - intros i Hi. repeat (apply elem_of_cons in Hi as [->|Hi]; [done|]). by apply elem_of_nil in Hi.
  - intros i Hi. repeat (apply elem_of_cons in Hi as [->|Hi]; [by vm_compute|]). by apply elem_of_nil in Hi.
  - right. left.
Qed.

Lemma demo_fresh : 5%nat ∉ [1%nat; 2%nat].
Proof. apply (bool_decide_eq_false_1 _). done. Qed.

(** ** Properties *)

(** C11: [vListInsert] keeps a list sorted: the loop ends, the new item goes
    behind every item whose value is not larger, the pointers form the ring of
    the new sequence in both directions, the count and the index are right, and
    the other lists of the heap are untouched. *)
Theorem list_insert_keeps_sorted h l i ns idx :
  ring h l ns idx -> i ∉ ns -> present h (Item i) -> in_range 32 (value h (Item i)) ->
  Z.of_nat (length ns) + 1 < 2 ^ 32 -> sorted (fun j => value h (Item j)) ns ->
  exists h', vListInsert l i h = Ok h' /\
    ring h' l (insert_sorted (fun j => value h (Item j)) i ns) idx /\
    sorted (fun j => value h (Item j)) (insert_sorted (fun j => value h (Item j)) i ns) /\
    keeps_others h h' l i.
Proof.
  intros R Hi Hp Hv Hn Hs. destruct (vListInsert_ok h l i ns idx R Hi Hp Hv Hn) as (h' & Hok & R' & K).
  exists h'. split_and!; [done|done|by apply insert_sorted_sorted|done].
Qed.

Lemma list_insert_keeps_sorted_witness :
  exists h', vListInsert 0 5 demo_lists = Ok h' /\ ring h' 0 [1%nat; 5%nat; 2%nat] (Item 1) /\
    sorted (fun j => value demo_lists (Item j)) [1%nat; 5%nat; 2%nat] /\ keeps_others demo_lists h' 0 5.
Proof.
  apply (list_insert_keeps_sorted demo_lists 0 5 [1%nat; 2%nat] (Item 1));
    [apply demo_ring|apply demo_fresh|by eexists|by vm_compute|done|].
  repeat constructor. vm_compute. congruence.
Defined.

(** [uxListRemove] removes exactly the item: it returns the number of items
    left, the others keep their order, the item is recorded in no list, an
    index that pointed at it moves to its predecessor, and the other lists of
    the heap are untouched. *)
Theorem list_remove_item h l i ns1 ns2 idx :
  ring h l (ns1 ++ i :: ns2) idx ->
  exists h', uxListRemove i h = Ok (Z.of_nat (length (ns1 ++ ns2)), h') /\
    ring h' l (ns1 ++ ns2) (if decide (idx = Item i) then before l ns1 else idx) /\
    container h' (Item i) = None /\ keeps_others h h' l i.
Proof. apply uxListRemove_ok. Qed.

Lemma list_remove_item_witness :
  exists h', uxListRemove 1 demo_lists = Ok (1, h') /\ ring h' 0 [2%nat] (ListEnd 0) /\
    container h' (Item 1) = None /\ keeps_others demo_lists h' 0 1.
Proof. apply (list_remove_item demo_lists 0 1 [] [2%nat] (Item 1)), demo_ring. Defined.

(** Walking a list is fair: from any index, as many calls of
    [listGET_OWNER_OF_NEXT_ENTRY] as the list has items visit every item exactly
    once, in list order from the one after the index, never the end marker. *)
Theorem list_walk_round_robin h l ns idx own :
  ring h l ns idx -> (forall j, j ∈ ns -> owner h (Item j) = Some (own j)) ->
  exists ns1 ns2 h', ns = ns1 ++ ns2 /\ idx = before l ns1 /\
    walk (length ns) l h = Ok (own <$> ns2 ++ ns1, h') /\
    ring h' l ns (before l (if decide (ns1 = []) then ns2 else ns1)).
Proof.
  intros R Hown. destruct (index_split l ns idx (ring_index _ _ _ _ R)) as (ns1 & ns2 & Hns & Hidx).
  destruct (walk_round l ns own h ns1 ns2 Hns) as (h' & Hw & [R' _]); [rewrite <- Hidx; by split|].
  by exists ns1, ns2, h'.
Qed.

Lemma list_walk_round_robin_witness :
  exists ns1 ns2 h', [1%nat; 2%nat] = ns1 ++ ns2 /\ Item 1 = before 0 ns1 /\
    walk 2 0 demo_lists = Ok ((fun j => 10 + j)%nat <$> ns2 ++ ns1, h') /\
    ring h' 0 [1%nat; 2%nat] (before 0 (if decide (ns1 = []) then ns2 else ns1)).
Proof.
  apply (list_walk_round_robin demo_lists 0 [1%nat; 2%nat] (Item 1)); [apply demo_ring|].
  intros j Hj. repeat (apply elem_of_cons in Hj as [->|Hj]; [done|]). by apply elem_of_nil in Hj.
Defined.
