(* ===== verification/FreeRTOSListStore.v ===== *)
(** * All the lists of a heap at once

    The scheduler keeps each task in several lists.  [stored h L] says that the
    heap [h] holds the lists [L], each the sequence of its items, and that an
    item which names a container is in that list; the functions of [list.c]
    then act on [L]. *)

From S2P Require Import Prelude FreeRTOSList FreeRTOSListTheory.

Notation store := (gmap nat (list nat)).

Record stored (h : list_heap) (L : store) : Prop := {
  st_ring l ns : L !! l = Some ns -> exists idx, ring h l ns idx;
  st_container i l : container h (Item i) = Some l -> exists ns, L !! l = Some ns /\ i ∈ ns;
  st_small : Z.of_nat (size (items h)) + 1 < 2 ^ 32;
}.

(** The items of a list. *)
Definition members (L : store) (l : nat) : list nat := default [] (L !! l).

(** A list without an item. *)
Definition without (i : nat) (ns : list nat) : list nat := filter (fun j => j <> i) ns.

(** [h'] has the items of [h], with the same values and owners. *)
Record same_items (h h' : list_heap) : Prop := {
  same_present x : present h' x <-> present h x;
  same_value x : value h' x = value h x;
  same_owner x : owner h' x = owner h x;
}.

Lemma same_items_refl h : same_items h h.
Proof. by split. Qed.

Lemma same_items_trans h1 h2 h3 : same_items h1 h2 -> same_items h2 h3 -> same_items h1 h3.
Proof.
  intros [p1 v1 o1] [p2 v2 o2]. split; intros x; [by rewrite p2|by rewrite v2|by rewrite o2].
Qed.

Lemma present_size h h' : (forall x, present h' x <-> present h x) -> size (items h') = size (items h).
Proof.
  intros Hp. rewrite <- !size_dom. f_equal. apply leibniz_equiv. intros x.
  rewrite !elem_of_dom. apply Hp.
Qed.

Lemma members_lookup L l ns : L !! l = Some ns -> members L l = ns.
Proof. unfold members. by intros ->. Qed.

Lemma members_insert_eq L l ns : members (<[l := ns]> L) l = ns.
Proof. unfold members. by rewrite lookup_insert_eq. Qed.

Lemma members_insert_ne L l l' ns : l <> l' -> members (<[l := ns]> L) l' = members L l'.
Proof. intros. unfold members. by rewrite lookup_insert_ne. Qed.

Lemma members_without i L l : members (without i <$> L) l = without i (members L l).
Proof. unfold members. rewrite lookup_fmap. by destruct (L !! l). Qed.

Lemma members_is_Some L l i : i ∈ members L l -> L !! l = Some (members L l).
Proof. unfold members. destruct (L !! l); [done|]. intros []%elem_of_nil. Qed.

Lemma elem_of_without i j ns : j ∈ without i ns <-> j <> i /\ j ∈ ns.
Proof. unfold without. by rewrite list_elem_of_filter. Qed.

Lemma without_notin i ns : i ∉ ns -> without i ns = ns.
Proof.
  unfold without. induction ns as [|j ns IH]; [done|]. rewrite not_elem_of_cons. intros [? ?].
  rewrite filter_cons_True by congruence. by rewrite IH.
Qed.

Lemma without_split i ns1 ns2 : NoDup (ns1 ++ i :: ns2) -> without i (ns1 ++ i :: ns2) = ns1 ++ ns2.
Proof.
  intros [_ Hi]%NoDup_app_cons_inv. rewrite not_elem_of_app in Hi. destruct Hi.
  unfold without. rewrite filter_app, filter_cons_False by tauto.
  fold (without i ns1) (without i ns2). by rewrite !without_notin.
Qed.

Lemma without_sorted val i ns : sorted val ns -> sorted val (without i ns).
Proof.
  induction 1 as [|j ns Hs IH Hf]; [constructor|]. unfold without. rewrite filter_cons.
  destruct (decide (j <> i)); [|done]. constructor; [done|].
  rewrite Forall_forall in *. intros x [_ Hx]%elem_of_without. auto.
Qed.

Lemma insert_sorted_elem val i j ns : j ∈ insert_sorted val i ns <-> j = i \/ j ∈ ns.
Proof.
  destruct (insert_sorted_split val i ns) as (ns1 & ns2 & -> & -> & _).
  rewrite !elem_of_app, elem_of_cons. tauto.
Qed.

Lemma sorted_head val i ns j : sorted val (i :: ns) -> j ∈ i :: ns -> val i <= val j.
Proof.
  intros Hs. inversion Hs as [|? ? _ Hf]; subst. rewrite elem_of_cons. intros [->|Hj]; [lia|].
  rewrite Forall_forall in Hf. by apply Hf.
Qed.

Lemma sorted_ext val val' ns : (forall j, j ∈ ns -> val' j = val j) -> sorted val ns -> sorted val' ns.
Proof.
  intros E. induction 1 as [|j ns Hs IH Hf]; [constructor|].
  constructor; [apply IH; intros; apply E; by right|].
  rewrite Forall_forall in *. intros x Hx. rewrite !E; [by apply Hf|by right|by left].
Qed.

(** A position of the index is a place before an item or the end. *)
Lemma index_split_after l ns idx :
  idx ∈ ListEnd l :: (Item <$> ns) -> exists ns1 ns2, ns = ns1 ++ ns2 /\ idx = after l ns2.
Proof.
  rewrite elem_of_cons, list_elem_of_fmap. intros [->|(i & -> & (ns1 & ns2 & ->)%list_elem_of_split)].
  - exists ns, []. by rewrite app_nil_r.
  - by exists ns1, (i :: ns2).
Qed.

(** ** What a stored heap answers *)

Section Stored.
Context (h : list_heap) (L : store).
Hypothesis S : stored h L.

Lemma st_member i l : i ∈ members L l <-> container h (Item i) = Some l.
Proof.
  split.
  - intros Hi. destruct (st_ring _ _ S _ _ (members_is_Some _ _ _ Hi)) as [idx R].
    by apply (ring_container _ _ _ _ R).
  - intros (ns & E & Hi)%(st_container _ _ S). by rewrite (members_lookup _ _ _ E).
Qed.

(** An item is in at most one list. *)
Lemma st_unique i l l' : i ∈ members L l -> i ∈ members L l' -> l = l'.
Proof. rewrite !st_member. congruence. Qed.

Lemma st_free i : container h (Item i) = None <-> forall l, i ∉ members L l.
Proof.
  split.
  - intros Hc l. rewrite st_member. congruence.
  - intros Hf. destruct (container h (Item i)) as [l|] eqn:E; [|done]. by apply st_member, Hf in E.
Qed.

Lemma st_nodup l : NoDup (members L l).
Proof.
  unfold members. destruct (L !! l) eqn:E; [|constructor].
  destruct (st_ring _ _ S _ _ E) as [idx R]. apply (ring_nodup _ _ _ _ R).
Qed.

Lemma st_room l ns : L !! l = Some ns -> Z.of_nat (length ns) + 1 < 2 ^ 32.
Proof.
  intros [idx R]%(st_ring _ _ S). pose proof (ring_fuel _ _ _ _ R). pose proof (st_small _ _ S). lia.
Qed.

Lemma st_in_range i l : i ∈ members L l -> in_range 32 (value h (Item i)).
Proof.
  intros Hi. destruct (st_ring _ _ S _ _ (members_is_Some _ _ _ Hi)) as [idx R].
  by apply (ring_values _ _ _ _ R).
Qed.

Lemma st_length l ns : L !! l = Some ns -> listCURRENT_LIST_LENGTH l h = Ok (Z.of_nat (length ns)).
Proof.
  intros [idx R]%(st_ring _ _ S). unfold listCURRENT_LIST_LENGTH, get_list. by rewrite (ring_list _ _ _ _ R).
Qed.

Lemma st_empty l ns : L !! l = Some ns -> listLIST_IS_EMPTY l h = Ok (bool_decide (ns = [])).
Proof.
  intros [idx R]%(st_ring _ _ S). unfold listLIST_IS_EMPTY, get_list. rewrite (ring_list _ _ _ _ R).
  by destruct ns.
Qed.

Lemma st_head l i ns :
  L !! l = Some (i :: ns) -> listGET_HEAD_ENTRY l h = Ok (Item i) /\ present h (Item i).
Proof.
  intros [idx R]%(st_ring _ _ S). assert (present h (Item i)) as Hp.
  { apply (ring_present _ _ _ _ R). right. by left. }
  split; [|done]. apply (like_get_next h _ _ _ _ (like_refl h)).
  - apply (ring_present _ _ _ _ R). by left.
  - apply (ring_neighbours h l [] (i :: ns) idx R).
Qed.

Lemma st_head_owner l i ns t :
  L !! l = Some (i :: ns) -> owner h (Item i) = Some t -> listGET_OWNER_OF_HEAD_ENTRY l h = Ok t.
Proof.
  intros [E Hp]%st_head Ho. unfold listGET_OWNER_OF_HEAD_ENTRY. rewrite E. cbn.
  destruct (like_get h _ _ _ _ (like_refl h) _ Hp) as (x & -> & _ & _ & _ & _ & Ho' & _).
  cbn. by rewrite Ho', Ho.
Qed.

Lemma st_head_value l i ns :
  L !! l = Some (i :: ns) -> listGET_ITEM_VALUE_OF_HEAD_ENTRY l h = Ok (value h (Item i)).
Proof.
  intros [E Hp]%st_head. unfold listGET_ITEM_VALUE_OF_HEAD_ENTRY. rewrite E. cbn.
  destruct (like_get h _ _ _ _ (like_refl h) _ Hp) as (x & -> & _ & _ & _ & Hv & _).
  cbn. by rewrite Hv.
Qed.

Lemma st_ask_container i : present h (Item i) -> listLIST_ITEM_CONTAINER i h = Ok (container h (Item i)).
Proof.
  intros Hp. unfold listLIST_ITEM_CONTAINER.
  destruct (like_get h _ _ _ _ (like_refl h) _ Hp) as (x & -> & _ & _ & Hc & _). cbn. by rewrite Hc.
Qed.

Lemma st_ask_contained l i :
  present h (Item i) -> listIS_CONTAINED_WITHIN l i h = Ok (bool_decide (i ∈ members L l)).
Proof.
  intros Hp. unfold listIS_CONTAINED_WITHIN.
  destruct (like_get h _ _ _ _ (like_refl h) _ Hp) as (x & -> & _ & _ & Hc & _). cbn. rewrite Hc.
  f_equal. apply bool_decide_ext. by rewrite st_member.
Qed.

Lemma st_ask_value i : present h (Item i) -> listGET_LIST_ITEM_VALUE i h = Ok (value h (Item i)).
Proof.
  intros Hp. unfold listGET_LIST_ITEM_VALUE.
  destruct (like_get h _ _ _ _ (like_refl h) _ Hp) as (x & -> & _ & _ & _ & Hv & _). cbn. by rewrite Hv.
Qed.

(** ** How the functions change it *)

Lemma st_update h' l i ns' idx' :
  is_Some (L !! l) -> ring h' l ns' idx' -> keeps_others h h' l i ->
  (forall j, j <> i -> j ∈ members L l -> j ∈ ns') ->
  (forall l', container h' (Item i) = Some l' -> l' = l /\ i ∈ ns') ->
  (forall l', l' <> l -> i ∉ members L l') ->
  stored h' (<[l := ns']> L) /\ same_items h h'.
Proof.
  intros [ns E] R K Hns Hc Hi. split; [|by destruct K]. split.
  - intros l' ns2. destruct (decide (l' = l)) as [->|Hne].
    + rewrite lookup_insert_eq. intros [= <-]. by exists idx'.
    + rewrite lookup_insert_ne by done. intros E'. destruct (st_ring _ _ S _ _ E') as [idx2 R2]. exists idx2.
      apply (kept_rings _ _ _ _ K); [done| |done]. rewrite <- (members_lookup _ _ _ E'). by apply Hi.
  - intros j l' Hj. destruct (decide (j = i)) as [->|Hne].
    + apply Hc in Hj as [-> Hin]. exists ns'. by rewrite lookup_insert_eq.
    + rewrite (kept_container _ _ _ _ K) in Hj by congruence.
      pose proof (proj2 (st_member j l') Hj) as Hin.
      destruct (decide (l' = l)) as [->|Hl].
      * exists ns'. rewrite lookup_insert_eq. auto.
      * exists (members L l'). rewrite lookup_insert_ne by done. split; [|done]. by apply members_is_Some in Hin.
  - rewrite (present_size h h'); [apply S|apply K].
Qed.

(** [vListInsertEnd] puts the item somewhere in the list: before the index. *)
Lemma st_insert_end l ns i :
  L !! l = Some ns -> (forall l', i ∉ members L l') -> present h (Item i) -> in_range 32 (value h (Item i)) ->
  exists h' ns1 ns2, ns = ns1 ++ ns2 /\ vListInsertEnd l i h = Ok h' /\
    stored h' (<[l := ns1 ++ i :: ns2]> L) /\ same_items h h'.
Proof.
  intros E Hf Hp Hv. destruct (st_ring _ _ S _ _ E) as [idx R].
  destruct (index_split_after l ns idx) as (ns1 & ns2 & -> & ->); [apply R|].
  pose proof (Hf l) as Hi. rewrite (members_lookup _ _ _ E) in Hi.
  destruct (vListInsertEnd_ok h l i ns1 ns2) as (h' & Eh & R' & K); [done..|by apply (st_room l)|].
  exists h', ns1, ns2. split; [done|]. split; [done|].
  apply (st_update h' l i _ (after l ns2)); [by eauto|done|done| | |by auto].
  - intros j _. rewrite (members_lookup _ _ _ E), !elem_of_app, elem_of_cons. tauto.
  - intros l'. assert (i ∈ ns1 ++ i :: ns2) as Hin by (rewrite elem_of_app, elem_of_cons; tauto).
    rewrite (ring_container _ _ _ _ R' i Hin). intros [= <-]. done.
Qed.

Lemma st_insert l ns i :
  L !! l = Some ns -> (forall l', i ∉ members L l') -> present h (Item i) -> in_range 32 (value h (Item i)) ->
  exists h', vListInsert l i h = Ok h' /\
    stored h' (<[l := insert_sorted (fun j => value h (Item j)) i ns]> L) /\ same_items h h'.
Proof.
  intros E Hf Hp Hv. destruct (st_ring _ _ S _ _ E) as [idx R].
  pose proof (Hf l) as Hi. rewrite (members_lookup _ _ _ E) in Hi.
  destruct (vListInsert_ok h l i ns idx) as (h' & Eh & R' & K); [done..|by apply (st_room l)|].
  exists h'. split; [done|]. apply (st_update h' l i _ idx); [by eauto|done|done| | |by auto].
  - intros j _. rewrite (members_lookup _ _ _ E), insert_sorted_elem. tauto.
  - intros l'. rewrite (ring_container _ _ _ _ R' i) by (rewrite insert_sorted_elem; tauto).
    intros [= <-]. rewrite insert_sorted_elem. tauto.
Qed.

Lemma st_remove l i :
  i ∈ members L l ->
  exists n h', uxListRemove i h = Ok (n, h') /\ stored h' (without i <$> L) /\ same_items h h'.
Proof.
  intros Hi. pose proof (members_is_Some _ _ _ Hi) as E. destruct (st_ring _ _ S _ _ E) as [idx R].
  pose proof (st_nodup l) as Hnd. pose proof Hi as (ns1 & ns2 & Ens)%list_elem_of_split. rewrite Ens in R, Hnd, E.
  destruct (uxListRemove_ok h l i ns1 ns2 idx R) as (h' & Eh & R' & Hc & K).
  eexists _, h'. split; [done|].
  assert (without i <$> L = <[l := ns1 ++ ns2]> L) as ->.
  { apply map_eq. intros l'. rewrite lookup_fmap. destruct (decide (l' = l)) as [->|Hne].
    - rewrite E, lookup_insert_eq. cbn. by rewrite without_split.
    - rewrite lookup_insert_ne by done. destruct (L !! l') eqn:E'; [|done]. cbn. f_equal. apply without_notin.
      intros Hin. apply Hne, (st_unique i); [by rewrite (members_lookup _ _ _ E')|done]. }
  eapply st_update; [by eauto|exact R'|done| |congruence|].
  - intros j Hne. rewrite Ens, !elem_of_app, elem_of_cons. tauto.
  - intros l' Hne Hin. by apply Hne, (st_unique i).
Qed.

(** [listGET_OWNER_OF_NEXT_ENTRY] moves the index only. *)
Lemma put_list_stored l idx :
  forall ns, L !! l = Some ns -> idx ∈ ListEnd l :: (Item <$> ns) ->
  stored (put_list l (mkList (Z.of_nat (length ns)) idx) h) L.
Proof.
  intros ns E Hidx. destruct (put_list_obs l (mkList (Z.of_nat (length ns)) idx) h) as (Hn & Hpv & Hc & Hv & Hp & Ho).
  split; [|rewrite Hc; apply S|apply S].
  intros l' ns' E'. destruct (st_ring _ _ S _ _ E') as [idx' R']. destruct (decide (l' = l)) as [->|Hne].
  - exists idx. simplify_eq. by apply (ring_set_index _ _ _ idx').
  - exists idx'. apply (ring_frame h); [done|by cbn; rewrite lookup_insert_ne| |by intros; rewrite Hv].
    intros x _. rewrite Hn, Hpv, Hc. split; [by apply Hp|done].
Qed.

Lemma st_next l ns own :
  L !! l = Some ns -> ns <> [] -> (forall j, j ∈ ns -> owner h (Item j) = Some (own j)) ->
  exists j h', listGET_OWNER_OF_NEXT_ENTRY l h = Ok (own j, h') /\ j ∈ ns /\ stored h' L /\ same_items h h'.
Proof.
  intros E Hne Ho. destruct (st_ring _ _ S _ _ E) as [idx R].
  destruct (index_split l ns idx) as (ns1 & ns2 & Ens & ->); [apply R|].
  rewrite Ens in R. pose proof (ring_neighbours _ _ _ _ _ R) as [Hn _]. rewrite <- Ens in R.
  assert (exists j, j ∈ ns /\ (nx h (before l ns1) = Some (Item j) \/
            (nx h (before l ns1) = Some (ListEnd l) /\ nx h (ListEnd l) = Some (Item j)))) as (j & Hj & Hnx).
  { destruct ns2 as [|j ns2].
    - destruct ns as [|j ns]; [done|]. exists j. split; [by left|]. right. split; [done|].
      apply (ring_neighbours h l [] (j :: ns) _ R).
    - exists j. split; [|by left]. rewrite Ens, elem_of_app, elem_of_cons. tauto. }
  exists j. eexists. split; [by apply (owned_step_put l ns own h _ j (conj R Ho))|]. split; [done|].
  split; [apply put_list_stored; [done|]; right; by apply list_elem_of_fmap_2|].
  destruct (put_list_obs l (mkList (Z.of_nat (length ns)) (Item j)) h) as (_ & _ & _ & Hv & Hp & Ho').
  split; intros y; [apply Hp|by rewrite Hv|by rewrite Ho'].
Qed.

(** ** Items: a new value, a new item *)

(** Two heaps with the same links and the same lists, item by item. *)
Record same_links (h h' : list_heap) : Prop := {
  links_nx x : nx h' x = nx h x;
  links_pv x : pv h' x = pv h x;
  links_container x : container h' x = container h x;
  links_present x : present h x -> present h' x;
  links_lists : lists h' = lists h;
}.

Lemma ring_same_links h' l ns idx :
  same_links h h' -> (forall x, x ∈ ListEnd l :: (Item <$> ns) -> in_range 32 (value h' x)) ->
  value h' (ListEnd l) = value h (ListEnd l) -> ring h l ns idx -> ring h' l ns idx.
Proof.
  intros [Hn Hp Hc Hpr Hl] Hv Hve []. split; [by rewrite Hl| |by auto|done|..].
  - by apply (links_pointwise (nx h) (pv h)).
  - intros. rewrite Hc. auto.
  - congruence.
  - intros i Hi. apply Hv. right. by apply list_elem_of_fmap_2.
  - done.
  - done.
Qed.

Lemma st_same_links h' :
  same_links h h' -> (forall i, present h (Item i) -> in_range 32 (value h (Item i)) -> in_range 32 (value h' (Item i))) ->
  (forall l, value h' (ListEnd l) = value h (ListEnd l)) -> Z.of_nat (size (items h')) + 1 < 2 ^ 32 ->
  stored h' L.
Proof.
  intros HL Hv Hve Hs. split; [|intros i l; rewrite (links_container _ _ HL); apply S|done].
  intros l ns [idx R]%(st_ring _ _ S). exists idx. apply (ring_same_links h'); [done| |done|done].
  intros x [->|(i & -> & Hi)%list_elem_of_fmap]%elem_of_cons.
  - rewrite Hve, (ring_end_value _ _ _ _ R). done.
  - apply Hv; [apply R; right; by apply list_elem_of_fmap_2|by apply (ring_values _ _ _ _ R)].
Qed.

Lemma st_set_value i v :
  present h (Item i) ->
  exists h', listSET_LIST_ITEM_VALUE i v h = Ok h' /\ stored h' L /\
    (forall x, present h' x <-> present h x) /\ (forall x, owner h' x = owner h x) /\
    (forall x, value h' x = upd (value h) (Item i) (u32 v) x).
Proof.
  intros [x E]. unfold listSET_LIST_ITEM_VALUE, get_item. rewrite E. eexists. split; [reflexivity|].
  set (h' := put_item _ _ _).
  assert (forall y, y <> Item i -> items h' !! y = items h !! y) as Hne
    by (intros; cbn; by rewrite lookup_insert_ne by congruence).
  assert (items h' !! Item i = Some (mkItem (u32 v) (pxNext x) (pxPrevious x) (pvOwner x) (pxContainer x))) as Heq
    by (cbn; by rewrite lookup_insert_eq).
  assert (forall y, present h' y <-> present h y) as Hp.
  { intros y. unfold present. destruct (decide (y = Item i)) as [->|]; [rewrite Heq, E; by split; eauto|by rewrite Hne]. }
  assert (forall y, value h' y = upd (value h) (Item i) (u32 v) y) as Hv.
  { intros y. unfold value, upd. destruct (decide (y = Item i)) as [->|]; [by rewrite Heq|by rewrite Hne]. }
  split; [|split; [done|split; [|done]]].
  - apply st_same_links.
    + split; [| | |by intros y; rewrite Hp|done]; intros y; unfold nx, pv, container;
        (destruct (decide (y = Item i)) as [->|]; [by rewrite Heq, E|by rewrite Hne]).
    + intros j _ Hj. rewrite Hv. unfold upd. case_decide; [apply in_range_wrapu; lia|done].
    + intros l. rewrite Hv. by apply upd_ne.
    + rewrite (present_size h h' Hp). apply S.
  - intros y. unfold owner. destruct (decide (y = Item i)) as [->|]; [by rewrite Heq, E|by rewrite Hne].
Qed.

Lemma st_new_item i x :
  ~ present h (Item i) -> pxNext x = None -> pxPrevious x = None -> pxContainer x = None ->
  Z.of_nat (size (items h)) + 2 < 2 ^ 32 -> stored (put_item (Item i) x h) L.
Proof.
  intros Hi Hxn Hxp Hxc Hs. assert (items h !! Item i = None) as E by (by apply eq_None_not_Some).
  assert (forall y, y <> Item i -> items (put_item (Item i) x h) !! y = items h !! y) as Hne
    by (intros; cbn; by rewrite lookup_insert_ne by congruence).
  assert (items (put_item (Item i) x h) !! Item i = Some x) as Heq by (cbn; by rewrite lookup_insert_eq).
  apply st_same_links.
  - split; [..|done]; intros y; unfold nx, pv, container, present;
      (destruct (decide (y = Item i)) as [->|]; [rewrite Heq; cbn; eauto; by rewrite E|by rewrite Hne]).
  - intros j Hj. unfold value. rewrite Hne; [done|]. intros [= ->]. done.
  - intros l. unfold value. by rewrite Hne.
  - cbn. rewrite map_size_insert_None by done. lia.
Qed.

(** A new list. *)
Lemma st_initialise l :
  members L l = [] -> Z.of_nat (size (items h)) + 2 < 2 ^ 32 ->
  stored (vListInitialise l h) (<[l := []]> L) /\
  (forall i, items (vListInitialise l h) !! Item i = items h !! Item i).
Proof.
  intros E Hs. set (h' := vListInitialise l h).
  assert (forall y, y <> ListEnd l -> items h' !! y = items h !! y) as Hne
    by (intros; cbn; by rewrite lookup_insert_ne by congruence).
  split; [|by intros; apply Hne]. split.
  - intros l' ns. destruct (decide (l' = l)) as [->|Hl].
    + rewrite lookup_insert_eq. intros [= <-]. exists (ListEnd l). apply ring_initialise.
    + rewrite lookup_insert_ne by done. intros [idx R]%(st_ring _ _ S). exists idx.
      apply (ring_frame h); [done|by cbn; rewrite lookup_insert_ne|..].
      all: intros x Hx; assert (x <> ListEnd l) as Hxl
        by (intros ->; apply elem_of_cons in Hx as [[=]|(? & ? & _)%list_elem_of_fmap]; congruence).
      all: unfold present, nx, pv, container, value; by rewrite Hne.
  - intros i l'. unfold container. rewrite Hne by done. intros (ns & E' & Hi)%(st_container _ _ S).
    exists ns. rewrite lookup_insert_ne; [done|]. intros ->. unfold members in E. rewrite E' in E.
    cbn in E. subst ns. by apply elem_of_nil in Hi.
  - cbn. destruct (items h !! ListEnd l) eqn:El.
    + rewrite map_size_insert_Some by eauto. lia.
    + rewrite map_size_insert_None by done. lia.
Qed.

End Stored.
