(* ===== verification/FreeRTOSListFrame.v ===== *)
(** * Which items a list operation moves

    What a call of [list.c] that returns does to the containers of the items,
    whatever the heap: the item it is about moves, and no other. *)

From S2P Require Import Prelude FreeRTOSList FreeRTOSListTheory.

(** The containers of all items but [i] stay. *)
Definition moves_only (i : nat) (h h' : list_heap) : Prop :=
  forall j, j <> i -> container h' (Item j) = container h (Item j).

Definition moves_none (h h' : list_heap) : Prop := forall j, container h' (Item j) = container h (Item j).

Lemma res_bind_ok {A B} (m : res A) (f : A -> res B) b : (m ≫= f) = Ok b -> exists a, m = Ok a /\ f a = Ok b.
Proof. destruct m as [a|]; [by exists a|done]. Qed.

Ltac unbind H :=
  repeat match type of H with
  | (_ ≫= _) = Ok _ => apply res_bind_ok in H as (? & ? & H)
  end.

(** ** Assignments *)

Lemma put_item_container p x y h q :
  items h !! p = Some y -> pxContainer x = pxContainer y -> container (put_item p x h) q = container h q.
Proof.
  intros E Ec. unfold container. cbn. destruct (decide (q = p)) as [->|Hne]; [rewrite lookup_insert_eq, E; cbn; congruence|].
  by rewrite lookup_insert_ne.
Qed.

Lemma get_item_ok p h x : get_item p h = Ok x -> items h !! p = Some x.
Proof. unfold get_item. destruct (items h !! p); [by intros [= ->]|done]. Qed.

Lemma set_next_none p q h h' : set_pxNext p q h = Ok h' -> moves_none h h'.
Proof. intros H. unfold set_pxNext in H. unbind H. injection H as <-. intros j. by eapply put_item_container; [apply get_item_ok|]. Qed.

Lemma set_previous_none p q h h' : set_pxPrevious p q h = Ok h' -> moves_none h h'.
Proof. intros H. unfold set_pxPrevious in H. unbind H. injection H as <-. intros j. by eapply put_item_container; [apply get_item_ok|]. Qed.

Lemma set_container_moves i c h h' :
  set_pxContainer (Item i) c h = Ok h' -> moves_only i h h' /\ container h' (Item i) = c.
Proof.
  intros H. unfold set_pxContainer in H. unbind H. injection H as <-. unfold moves_only, container. cbn. split.
  - intros j Hne. by rewrite lookup_insert_ne by congruence.
  - by rewrite lookup_insert_eq.
Qed.

Lemma moves_none_trans h1 h2 h3 : moves_none h1 h2 -> moves_none h2 h3 -> moves_none h1 h3.
Proof. intros H1 H2 j. by rewrite H2, H1. Qed.

Lemma moves_none_only i h1 h2 h3 : moves_none h1 h2 -> moves_only i h2 h3 -> moves_only i h1 h3.
Proof. intros H1 H2 j Hj. by rewrite H2, H1. Qed.

(** Collects the assignments of a call. *)
Ltac gather :=
  repeat match goal with
  | H : set_pxNext _ _ _ = Ok _ |- _ => apply set_next_none in H
  | H : set_pxPrevious _ _ _ = Ok _ |- _ => apply set_previous_none in H
  end.

(** ** Operations *)

Lemma insert_done_moves l i h h' : insert_done l i h = Ok h' -> moves_only i h h' /\ container h' (Item i) = Some l.
Proof. intros H. unfold insert_done in H. unbind H. injection H as <-.
  match goal with H : set_pxContainer _ _ _ = Ok _ |- _ => exact (set_container_moves _ _ _ _ H) end. Qed.

Lemma insert_end_moves l i h h' : vListInsertEnd l i h = Ok h' -> moves_only i h h' /\ container h' (Item i) = Some l.
Proof.
  intros H. unfold vListInsertEnd in H. unbind H. apply insert_done_moves in H as [H ?]. gather. split; [|done].
  repeat (eapply moves_none_only; [eassumption|]). done.
Qed.

Lemma insert_moves l i h h' : vListInsert l i h = Ok h' -> moves_only i h h' /\ container h' (Item i) = Some l.
Proof.
  intros H. unfold vListInsert in H. unbind H. apply insert_done_moves in H as [H ?]. gather. split; [|done].
  repeat (eapply moves_none_only; [eassumption|]). done.
Qed.

Lemma remove_moves i h n h' :
  uxListRemove i h = Ok (n, h') -> moves_only i h h' /\ container h' (Item i) = None /\ container h (Item i) <> None.
Proof.
  intros H. unfold uxListRemove in H. unbind H. injection H as <- <-.
  match goal with H : set_pxContainer _ None _ = Ok _ |- _ => apply set_container_moves in H as [Hm Hc] end. gather.
  split; [|split; [done|]].
  - repeat (eapply moves_none_only; [eassumption|]). intros j Hj. etransitivity; [exact (Hm j Hj)|]. clear Hm Hc.
    match goal with H : (if decide _ then _ else _) = Ok _ |- _ => destruct (decide _); [unbind H|]; by injection H as <- end.
  - unfold container. match goal with H : get_item (Item i) h = Ok ?x, H' : deref (pxContainer ?x) = Ok _ |- _ =>
      apply get_item_ok in H; rewrite H; cbn; by destruct (pxContainer x) end.
Qed.

Lemma set_value_none i v h h' : listSET_LIST_ITEM_VALUE i v h = Ok h' -> moves_none h h'.
Proof. intros H. unfold listSET_LIST_ITEM_VALUE in H. unbind H. injection H as <-. intros j. by eapply put_item_container; [apply get_item_ok|]. Qed.

Lemma next_entry_none l h t h' : listGET_OWNER_OF_NEXT_ENTRY l h = Ok (t, h') -> moves_none h h'.
Proof. intros H. unfold listGET_OWNER_OF_NEXT_ENTRY in H. unbind H. by injection H as <- <-. Qed.

Lemma item_container_ok i h c : listLIST_ITEM_CONTAINER i h = Ok c -> container h (Item i) = c.
Proof. intros H. unfold listLIST_ITEM_CONTAINER in H. unbind H. injection H as <-. unfold container. by rewrite (get_item_ok (Item i) h _ ltac:(eassumption)). Qed.
