(* ===== verification/FreeRTOSHeap.v ===== *)
(** * The firmware's heap

    [FreeRTOS/Source/portable/MemMang/heap_1.c]: the allocator of the demo
    firmware, which hands out blocks of a static array and never takes one
    back, with the configuration of [generate/include/FreeRTOSConfig.h].  The
    address of the array is a parameter. *)

From S2P Require Import Prelude.

Definition portBYTE_ALIGNMENT : Z := 8.
Definition portBYTE_ALIGNMENT_MASK : Z := 0x0007.
Definition configTOTAL_HEAP_SIZE : Z := 8192.
Definition configADJUSTED_HEAP_SIZE : Z := configTOTAL_HEAP_SIZE - portBYTE_ALIGNMENT.

(** The static variables of the file. *)
Record heap_state : Set := mkHeapState { xNextFreeByte : Z; pucAlignedHeap : option Z }.

Definition heap_init : heap_state := mkHeapState 0 None.

Section Heap.
Context (ucHeap : Z).

(** The size rounded up to the alignment, 0 on overflow. *)
Definition align_size (xWantedSize : Z) : Z :=
  if truthy (xWantedSize .& portBYTE_ALIGNMENT_MASK) then
    let pad := portBYTE_ALIGNMENT - (xWantedSize .& portBYTE_ALIGNMENT_MASK) in
    if u32 (xWantedSize + pad) >? xWantedSize then u32 (xWantedSize + pad) else 0
  else xWantedSize.

(** [pvPortMalloc]: the null pointer is [None]. *)
Definition pvPortMalloc (xWantedSize : Z) (s : heap_state) : option Z * heap_state :=
  let xWantedSize := align_size xWantedSize in
  let aligned := match pucAlignedHeap s with
                 | Some p => p
                 | None => u32 (ucHeap + (portBYTE_ALIGNMENT - 1)) .& u32 (.~ portBYTE_ALIGNMENT_MASK)
                 end in
  let next := u32 (xNextFreeByte s + xWantedSize) in
  if (xWantedSize >? 0) && (next <? configADJUSTED_HEAP_SIZE) && (next >? xNextFreeByte s)
  then (Some (u32 (aligned + xNextFreeByte s)), mkHeapState next (Some aligned))
  else (None, mkHeapState (xNextFreeByte s) (Some aligned)).

(** [vPortFree]: [configASSERT] stops the firmware for any block. *)
Definition vPortFree (pv : option Z) (s : heap_state) : res heap_state :=
  _ ← c_assert (match pv with None => true | Some _ => false end); Ok s.

(** [vPortInitialiseBlocks] *)
Definition vPortInitialiseBlocks (s : heap_state) : heap_state := mkHeapState 0 (pucAlignedHeap s).

(** [xPortGetFreeHeapSize] *)
Definition xPortGetFreeHeapSize (s : heap_state) : Z := u32 (configADJUSTED_HEAP_SIZE - xNextFreeByte s).

(** ** Blocks *)

(** A block that was handed out: its address and the size that was asked for. *)
Record block : Set := mkBlock { blk_addr : Z; blk_size : Z }.

(** The blocks handed out for a sequence of requests, latest first. *)
Fixpoint allocate (reqs : list Z) (s : heap_state) (bs : list block) : heap_state * list block :=
  match reqs with
  | [] => (s, bs)
  | n :: reqs =>
      let '(p, s) := pvPortMalloc n s in
      allocate reqs s (match p with Some a => mkBlock a n :: bs | None => bs end)
  end.

Hypothesis heap_start : 0 < ucHeap.
Hypothesis heap_end : ucHeap + configTOTAL_HEAP_SIZE <= 2 ^ 32.

(** The first aligned address of the array. *)
Definition aligned_start : Z := 8 * ((ucHeap + 7) / 8).

Lemma aligned_start_ok : u32 (ucHeap + (portBYTE_ALIGNMENT - 1)) .& u32 (.~ portBYTE_ALIGNMENT_MASK) = aligned_start.
Proof.
  unfold portBYTE_ALIGNMENT, configTOTAL_HEAP_SIZE in *. rewrite (wrapu_small 32) by (unfold in_range; lia).
  change (u32 (.~ portBYTE_ALIGNMENT_MASK)) with (Z.ones 29 .<< 3). unfold aligned_start.
  replace (8 * ((ucHeap + 7) / 8)) with (((ucHeap + 7) .>> 3) .<< 3).
  2: { rewrite Z.shiftl_mul_pow2, Z.shiftr_div_pow2 by lia. change (2 ^ 3) with 8. lia. }
  change (8 - 1) with 7. apply Z.bits_inj'. intros i Hi. rewrite Z.land_spec, !Z.shiftl_spec by lia.
  destruct (Z.ltb_spec i 3).
  - rewrite !(Z.testbit_neg_r _ (i - 3)) by lia. apply andb_false_r.
  - rewrite Z.shiftr_spec by lia. replace (i - 3 + 3) with i by lia.
    destruct (Z.ltb_spec i 32).
    + rewrite Z.ones_spec_low by lia. apply andb_true_r.
    + rewrite Z.ones_spec_high by lia. rewrite andb_false_r. symmetry.
      apply (in_range_testbit 32); [lia|unfold in_range; lia|lia].
Qed.

Lemma aligned_start_range : ucHeap <= aligned_start <= ucHeap + 7.
Proof. unfold aligned_start. Z.to_euclidean_division_equations. lia. Qed.

(** Rounding up. *)
Lemma align_size_ok n :
  in_range 32 n -> (align_size n = 0 \/ (n <= align_size n < n + 8)) /\ (8 | align_size n) /\
    in_range 32 (align_size n).
Proof.
  intros Hn. unfold align_size.
  assert (Hm : n .& portBYTE_ALIGNMENT_MASK = n mod 8).
  { change portBYTE_ALIGNMENT_MASK with (Z.ones 3). rewrite Z.land_ones by lia. done. }
  rewrite Hm. unfold truthy, portBYTE_ALIGNMENT, in_range in *.
  pose proof (Z.mod_pos_bound n 8 ltac:(lia)) as Hb.
  destruct (Z.eqb_spec (n mod 8) 0) as [H0|Hne]; cbn [negb].
  - split; [right; lia|]. split; [by apply Z.mod_divide|lia].
  - cbv zeta. pose proof (wrapu_range 32 (n + (8 - n mod 8)) ltac:(lia)) as Hw.
    destruct (Z.gtb_spec (u32 (n + (8 - n mod 8))) n) as [Hg|Hg]; [|split; [by left|split; [by exists 0|lia]]].
    assert (Hs : u32 (n + (8 - n mod 8)) = n + (8 - n mod 8)).
    { destruct (Z.ltb_spec (n + (8 - n mod 8)) (2 ^ 32)); [apply wrapu_small; unfold in_range; lia|].
      exfalso. unfold wrapu in Hg. rewrite (Z.mod_eq (n + (8 - n mod 8))) in Hg by lia.
      Z.to_euclidean_division_equations. lia. }
    rewrite Hs in *. split; [right; lia|]. split; [|lia].
    exists (n / 8 + 1). Z.to_euclidean_division_equations. lia.
Qed.

(** ** Invariant *)

(** The blocks lie one after the other below the next free byte. *)
Fixpoint stacked (top : Z) (bs : list block) : Prop :=
  match bs with
  | [] => 0 <= top
  | b :: bs => exists off, blk_addr b = aligned_start + off /\ (8 | off) /\ 0 < blk_size b /\
                 off + blk_size b <= top /\ 0 <= off /\ stacked off bs
  end.

Definition heap_ok (s : heap_state) (bs : list block) : Prop :=
  (pucAlignedHeap s = None \/ pucAlignedHeap s = Some aligned_start) /\
  (8 | xNextFreeByte s) /\ 0 <= xNextFreeByte s < configADJUSTED_HEAP_SIZE /\ stacked (xNextFreeByte s) bs.

Lemma malloc_ok n s bs :
  heap_ok s bs -> in_range 32 n ->
  let '(p, s') := pvPortMalloc n s in
  heap_ok s' (match p with Some a => mkBlock a n :: bs | None => bs end) /\
  (p = None -> xNextFreeByte s' = xNextFreeByte s).
Proof.
  intros (Hal & Hdiv & Hnf & Hst) Hn. destruct (align_size_ok n Hn) as (Hsz & Hdsz & Hrsz).
  unfold pvPortMalloc. cbv zeta. set (w := align_size n) in *.
  assert (Ha : match pucAlignedHeap s with Some p => p | None =>
     u32 (ucHeap + (portBYTE_ALIGNMENT - 1)) .& u32 (.~ portBYTE_ALIGNMENT_MASK) end = aligned_start).
  { destruct Hal as [->| ->]; [apply aligned_start_ok|done]. }
  rewrite Ha. clear Ha. pose proof aligned_start_range as Har.
  unfold configADJUSTED_HEAP_SIZE, configTOTAL_HEAP_SIZE, portBYTE_ALIGNMENT, in_range in *.
  destruct ((w >? 0) && _ && _) eqn:Hc.
  2: { split; [|done]. split; [by right|]. by split. }
  apply andb_prop in Hc as [[H1 H2]%andb_prop H3]. apply Z.gtb_lt in H1, H3. apply Z.ltb_lt in H2.
  assert (Hnx : u32 (xNextFreeByte s + w) = xNextFreeByte s + w).
  { destruct (Z.ltb_spec (xNextFreeByte s + w) (2 ^ 32)); [apply wrapu_small; unfold in_range; lia|].
    exfalso. unfold wrapu in H3. rewrite Z.mod_eq in H3 by lia. Z.to_euclidean_division_equations. lia. }
  rewrite Hnx in *. rewrite wrapu_small by (unfold in_range; lia). split; [|done].
  split; [by right|]. cbn [xNextFreeByte]. split; [by apply Z.divide_add_r|].
  unfold configADJUSTED_HEAP_SIZE, configTOTAL_HEAP_SIZE, portBYTE_ALIGNMENT. split; [lia|].
  destruct Hsz as [?|Hsz]; [lia|]. exists (xNextFreeByte s).
  assert (0 < n) by (destruct Hdsz as [q Hq]; lia).
  cbn [blk_addr blk_size]. split_and!; try done; lia.
Qed.

Lemma heap_init_ok : heap_ok heap_init [].
Proof. split; [by left|]. split; [by exists 0|]. split; [by vm_compute|cbn; lia]. Qed.

Lemma allocate_ok reqs s bs :
  heap_ok s bs -> Forall (in_range 32) reqs ->
  heap_ok (allocate reqs s bs).1 (allocate reqs s bs).2.
Proof.
  revert s bs. induction reqs as [|n reqs IH]; intros s bs Hok Hr; cbn [allocate]; [done|].
  apply Forall_cons in Hr as [Hn Hr]. pose proof (malloc_ok n s bs Hok Hn) as Hm.
  destruct (pvPortMalloc n s) as [p s']. apply IH; [by destruct Hm|done].
Qed.

(** Two blocks have no byte in common. *)
Definition blocks_apart (b c : block) : Prop :=
  blk_addr b + blk_size b <= blk_addr c \/ blk_addr c + blk_size c <= blk_addr b.

Lemma stacked_below top bs b :
  stacked top bs -> b ∈ bs -> 0 < blk_size b /\ (8 | blk_addr b) /\ aligned_start <= blk_addr b /\
    blk_addr b + blk_size b <= aligned_start + top.
Proof.
  revert top. induction bs as [|c bs IH]; intros top Hs; [by intros ?%elem_of_nil|].
  destruct Hs as (off & Hc & Hd & Hp & Ht & Ho & Hs). intros [->|Hin]%elem_of_cons.
  - split_and!; [done| |lia|lia]. rewrite Hc. apply Z.divide_add_r; [by apply Z.divide_factor_l|done].
  - destruct (IH off Hs Hin) as (? & ? & ? & ?). split_and!; [done|done|done|lia].
Qed.

Lemma stacked_apart top bs i j b c :
  stacked top bs -> bs !! i = Some b -> bs !! j = Some c -> i <> j -> blocks_apart b c.
Proof.
  revert top i j. induction bs as [|d bs IH]; intros top i j Hs Hi Hj Hne; [done|].
  destruct Hs as (off & Hd & _ & Hp & Ht & Ho & Hs).
  assert (Hbelow : forall k e, bs !! k = Some e -> blk_addr e + blk_size e <= blk_addr d).
  { intros k e He%list_elem_of_lookup_2. destruct (stacked_below off bs e Hs He) as (_ & _ & _ & ?). lia. }
  destruct i as [|i], j as [|j]; cbn in Hi, Hj; simplify_eq.
  - right. by eapply Hbelow.
  - left. by eapply Hbelow.
  - eapply IH; [exact Hs|exact Hi|exact Hj|congruence].
Qed.

End Heap.

(** ** Properties *)

(** C37: For every sequence of requests to [pvPortMalloc], wherever the array lies:
    the blocks handed out are aligned, lie inside [ucHeap], are as large as was
    asked for, and do not overlap, so that no block is ever handed out twice. *)
Theorem heap_blocks_disjoint ucHeap reqs :
  0 < ucHeap -> ucHeap + configTOTAL_HEAP_SIZE <= 2 ^ 32 -> Forall (in_range 32) reqs ->
  let bs := (allocate ucHeap reqs heap_init []).2 in
  (forall b, b ∈ bs -> 0 < blk_size b /\ (8 | blk_addr b) /\
     ucHeap <= blk_addr b /\ blk_addr b + blk_size b <= ucHeap + configTOTAL_HEAP_SIZE) /\
  (forall i j b c, bs !! i = Some b -> bs !! j = Some c -> i <> j -> blocks_apart b c).
Proof.
  intros H0 H1 Hr bs. destruct (allocate_ok ucHeap H0 H1 reqs heap_init [] (heap_init_ok ucHeap) Hr) as (_ & _ & Hn & Hs).
  fold bs in Hs. pose proof (aligned_start_range ucHeap) as Ha.
  unfold configADJUSTED_HEAP_SIZE, portBYTE_ALIGNMENT in Hn. split.
  - intros b Hb. destruct (stacked_below ucHeap _ _ _ Hs Hb) as (? & ? & ? & ?). split_and!; [done|done|lia|lia].
  - intros i j b c. by apply (stacked_apart ucHeap _ _ i j b c Hs).
Qed.

Lemma heap_blocks_disjoint_witness :
  let bs := (allocate 0x20400004 [100; 9000; 7; 2000] heap_init []).2 in
  bs = [mkBlock 0x20400078 2000; mkBlock 0x20400070 7; mkBlock 0x20400008 100] /\
  (forall b, b ∈ bs -> 0 < blk_size b /\ (8 | blk_addr b) /\
     0x20400004 <= blk_addr b /\ blk_addr b + blk_size b <= 0x20400004 + configTOTAL_HEAP_SIZE) /\
  (forall i j b c, bs !! i = Some b -> bs !! j = Some c -> i <> j -> blocks_apart b c).
Proof.
  split; [by vm_compute|].
  apply (heap_blocks_disjoint 0x20400004 [100; 9000; 7; 2000]); [done|done|].
  repeat constructor; by vm_compute.
Defined.
