(* ===== verification/FreeRTOSObjects.v ===== *)
(** * The objects of the kernel

    The data of the kernel's objects: the queues and semaphores of
    [FreeRTOS/Source/queue.c], its registry of queue names, the event groups of
    [FreeRTOS/Source/event_groups.c], and the timers.  A queue or a group is named
    by its address, a [nat]; the pointers of a queue are addresses, and the
    bytes of its storage area, which lies behind the structure, are part of the
    record.  The event lists, two of a queue and one of a
    group, are lists of the heap of [FreeRTOSList].  The
    software timers of [FreeRTOS/Source/timers.c] are in lists of their own,
    which no task is in and which are kept in a heap of their own. *)

From S2P Require Import Prelude FreeRTOSList.

(** The union [u]: the pointers of a queue or the holder of a mutex. *)
Inductive queue_union : Set :=
  | u_xQueue (pcTail pcReadFrom : Z)
  | u_xSemaphore (xMutexHolder : option nat) (uxRecursiveCallCount : Z).

(** [xQUEUE]; a null [pcHead] marks a mutex. *)
Record Queue_t : Set := mkQueue {
  pcHead : option Z;
  pcWriteTo : Z;
  q_union : queue_union;
  xTasksWaitingToSend : nat;
  xTasksWaitingToReceive : nat;
  uxMessagesWaiting : Z;
  uxLength : Z;
  uxItemSize : Z;
  cRxLock : Z;
  cTxLock : Z;
  uxQueueNumber : Z;
  ucQueueType : Z;
  q_storage : list Z;
}.

(** With the trace facility's fields and the padding. *)
Definition sizeof_Queue_t : Z := 80.

Definition queueUNLOCKED : Z := -1.
Definition queueLOCKED_UNMODIFIED : Z := 0.
Definition queueINT8_MAX : Z := 127.

(** [QueueRegistryItem_t]; the handle 0 is the null pointer. *)
Record QueueRegistryItem_t : Set := mkRegistryItem { pcQueueName : option (list Z); xHandle : nat }.

Definition configQUEUE_REGISTRY_SIZE : nat := 2.

(** [xTIMER]; the item [xTimerListItem] of a timer is the item of its name in
    the heap of the timers' lists.  A callback is named by a number. *)
Record Timer_t : Set := mkTimer {
  pcTimerName : option (list Z);
  xTimerPeriodInTicks : Z;
  pvTimerID : Z;
  pxCallbackFunction : nat;
  uxTimerNumber : Z;
  ucStatus : Z;
}.

Definition sizeof_Timer_t : Z := 44.

(** The calls of the application's functions by the timer service. *)
Inductive callback : Set :=
  | TimerCallback (pxCallbackFunction : nat) (xTimer : nat)
  | PendedCallback (pxCallbackFunction : nat) (pvParameter1 ulParameter2 : Z).

Definition xActiveTimerList1 : nat := 0.
Definition xActiveTimerList2 : nat := 1.

(** The static variables of [FreeRTOS/Source/timers.c], with the calls so far. *)
Record timer_state : Set := mkTimers {
  t_lists : list_heap;
  t_timers : gmap nat Timer_t;
  pxCurrentTimerList : nat;
  pxOverflowTimerList : nat;
  xTimerQueue : option nat;
  xTimerTaskHandle : option nat;
  xLastTime : Z;
  t_calls : list callback;
}.

Definition timers_init : timer_state := mkTimers (mkLists ∅ ∅) ∅ 0 0 None None 0 [].

(** [EventGroup_t] of [FreeRTOS/Source/event_groups.c]; the list is named by its
    number in the kernel's heap of lists. *)
Record EventGroup_t : Set := mkGroup {
  uxEventBits : Z;
  xTasksWaitingForBits : nat;
  uxEventGroupNumber : Z;
}.

Record kernel_objects : Set := mkObjects {
  o_queues : gmap nat Queue_t;
  xQueueRegistry : list QueueRegistryItem_t;
  o_timers : timer_state;
  o_groups : gmap nat EventGroup_t;
}.

(** The lists of the queues and the event groups are numbered in the order in which
    these are created. *)
Definition lists_used (o : kernel_objects) : nat := (2 * size (o_queues o) + size (o_groups o))%nat.

Definition objects_init : kernel_objects :=
  mkObjects ∅ (replicate configQUEUE_REGISTRY_SIZE (mkRegistryItem None 0)) timers_init ∅.

Definition set_pcHead (v : option Z) (q : Queue_t) : Queue_t :=
  mkQueue v (pcWriteTo q) (q_union q) (xTasksWaitingToSend q) (xTasksWaitingToReceive q)
    (uxMessagesWaiting q) (uxLength q) (uxItemSize q) (cRxLock q) (cTxLock q) (uxQueueNumber q)
    (ucQueueType q) (q_storage q).
Definition set_pcWriteTo (v : Z) (q : Queue_t) : Queue_t :=
  mkQueue (pcHead q) v (q_union q) (xTasksWaitingToSend q) (xTasksWaitingToReceive q)
    (uxMessagesWaiting q) (uxLength q) (uxItemSize q) (cRxLock q) (cTxLock q) (uxQueueNumber q)
    (ucQueueType q) (q_storage q).
Definition set_q_union (v : queue_union) (q : Queue_t) : Queue_t :=
  mkQueue (pcHead q) (pcWriteTo q) v (xTasksWaitingToSend q) (xTasksWaitingToReceive q)
    (uxMessagesWaiting q) (uxLength q) (uxItemSize q) (cRxLock q) (cTxLock q) (uxQueueNumber q)
    (ucQueueType q) (q_storage q).
Definition set_xTasksWaitingToSend (v : nat) (q : Queue_t) : Queue_t :=
  mkQueue (pcHead q) (pcWriteTo q) (q_union q) v (xTasksWaitingToReceive q) (uxMessagesWaiting q)
    (uxLength q) (uxItemSize q) (cRxLock q) (cTxLock q) (uxQueueNumber q) (ucQueueType q) (q_storage q).
Definition set_xTasksWaitingToReceive (v : nat) (q : Queue_t) : Queue_t :=
  mkQueue (pcHead q) (pcWriteTo q) (q_union q) (xTasksWaitingToSend q) v (uxMessagesWaiting q)
    (uxLength q) (uxItemSize q) (cRxLock q) (cTxLock q) (uxQueueNumber q) (ucQueueType q) (q_storage q).
Definition set_uxMessagesWaiting (v : Z) (q : Queue_t) : Queue_t :=
  mkQueue (pcHead q) (pcWriteTo q) (q_union q) (xTasksWaitingToSend q) (xTasksWaitingToReceive q) v
    (uxLength q) (uxItemSize q) (cRxLock q) (cTxLock q) (uxQueueNumber q) (ucQueueType q) (q_storage q).
Definition set_uxLength (v : Z) (q : Queue_t) : Queue_t :=
  mkQueue (pcHead q) (pcWriteTo q) (q_union q) (xTasksWaitingToSend q) (xTasksWaitingToReceive q)
    (uxMessagesWaiting q) v (uxItemSize q) (cRxLock q) (cTxLock q) (uxQueueNumber q) (ucQueueType q)
    (q_storage q).
Definition set_uxItemSize (v : Z) (q : Queue_t) : Queue_t :=
  mkQueue (pcHead q) (pcWriteTo q) (q_union q) (xTasksWaitingToSend q) (xTasksWaitingToReceive q)
    (uxMessagesWaiting q) (uxLength q) v (cRxLock q) (cTxLock q) (uxQueueNumber q) (ucQueueType q)
    (q_storage q).
Definition set_cRxLock (v : Z) (q : Queue_t) : Queue_t :=
  mkQueue (pcHead q) (pcWriteTo q) (q_union q) (xTasksWaitingToSend q) (xTasksWaitingToReceive q)
    (uxMessagesWaiting q) (uxLength q) (uxItemSize q) v (cTxLock q) (uxQueueNumber q) (ucQueueType q)
    (q_storage q).
Definition set_cTxLock (v : Z) (q : Queue_t) : Queue_t :=
  mkQueue (pcHead q) (pcWriteTo q) (q_union q) (xTasksWaitingToSend q) (xTasksWaitingToReceive q)
    (uxMessagesWaiting q) (uxLength q) (uxItemSize q) (cRxLock q) v (uxQueueNumber q) (ucQueueType q)
    (q_storage q).
Definition set_uxQueueNumber (v : Z) (q : Queue_t) : Queue_t :=
  mkQueue (pcHead q) (pcWriteTo q) (q_union q) (xTasksWaitingToSend q) (xTasksWaitingToReceive q)
    (uxMessagesWaiting q) (uxLength q) (uxItemSize q) (cRxLock q) (cTxLock q) v (ucQueueType q)
    (q_storage q).
Definition set_ucQueueType (v : Z) (q : Queue_t) : Queue_t :=
  mkQueue (pcHead q) (pcWriteTo q) (q_union q) (xTasksWaitingToSend q) (xTasksWaitingToReceive q)
    (uxMessagesWaiting q) (uxLength q) (uxItemSize q) (cRxLock q) (cTxLock q) (uxQueueNumber q) v
    (q_storage q).
Definition set_q_storage (v : list Z) (q : Queue_t) : Queue_t :=
  mkQueue (pcHead q) (pcWriteTo q) (q_union q) (xTasksWaitingToSend q) (xTasksWaitingToReceive q)
    (uxMessagesWaiting q) (uxLength q) (uxItemSize q) (cRxLock q) (cTxLock q) (uxQueueNumber q)
    (ucQueueType q) v.
Definition set_pcTimerName (v : option (list Z)) (x : Timer_t) : Timer_t :=
  mkTimer v (xTimerPeriodInTicks x) (pvTimerID x) (pxCallbackFunction x) (uxTimerNumber x) (ucStatus x).
Definition set_xTimerPeriodInTicks (v : Z) (x : Timer_t) : Timer_t :=
  mkTimer (pcTimerName x) v (pvTimerID x) (pxCallbackFunction x) (uxTimerNumber x) (ucStatus x).
Definition set_pvTimerID (v : Z) (x : Timer_t) : Timer_t :=
  mkTimer (pcTimerName x) (xTimerPeriodInTicks x) v (pxCallbackFunction x) (uxTimerNumber x)
    (ucStatus x).
Definition set_pxCallbackFunction (v : nat) (x : Timer_t) : Timer_t :=
  mkTimer (pcTimerName x) (xTimerPeriodInTicks x) (pvTimerID x) v (uxTimerNumber x) (ucStatus x).
Definition set_uxTimerNumber (v : Z) (x : Timer_t) : Timer_t :=
  mkTimer (pcTimerName x) (xTimerPeriodInTicks x) (pvTimerID x) (pxCallbackFunction x) v (ucStatus x).
Definition set_ucStatus (v : Z) (x : Timer_t) : Timer_t :=
  mkTimer (pcTimerName x) (xTimerPeriodInTicks x) (pvTimerID x) (pxCallbackFunction x)
    (uxTimerNumber x) v.
Definition set_t_lists (v : list_heap) (s : timer_state) : timer_state :=
  mkTimers v (t_timers s) (pxCurrentTimerList s) (pxOverflowTimerList s) (xTimerQueue s)
    (xTimerTaskHandle s) (xLastTime s) (t_calls s).
Definition set_t_timers (v : gmap nat Timer_t) (s : timer_state) : timer_state :=
  mkTimers (t_lists s) v (pxCurrentTimerList s) (pxOverflowTimerList s) (xTimerQueue s)
    (xTimerTaskHandle s) (xLastTime s) (t_calls s).
Definition set_pxCurrentTimerList (v : nat) (s : timer_state) : timer_state :=
  mkTimers (t_lists s) (t_timers s) v (pxOverflowTimerList s) (xTimerQueue s) (xTimerTaskHandle s)
    (xLastTime s) (t_calls s).
Definition set_pxOverflowTimerList (v : nat) (s : timer_state) : timer_state :=
  mkTimers (t_lists s) (t_timers s) (pxCurrentTimerList s) v (xTimerQueue s) (xTimerTaskHandle s)
    (xLastTime s) (t_calls s).
Definition set_xTimerQueue (v : option nat) (s : timer_state) : timer_state :=
  mkTimers (t_lists s) (t_timers s) (pxCurrentTimerList s) (pxOverflowTimerList s) v
    (xTimerTaskHandle s) (xLastTime s) (t_calls s).
Definition set_xTimerTaskHandle (v : option nat) (s : timer_state) : timer_state :=
  mkTimers (t_lists s) (t_timers s) (pxCurrentTimerList s) (pxOverflowTimerList s) (xTimerQueue s) v
    (xLastTime s) (t_calls s).
Definition set_xLastTime (v : Z) (s : timer_state) : timer_state :=
  mkTimers (t_lists s) (t_timers s) (pxCurrentTimerList s) (pxOverflowTimerList s) (xTimerQueue s)
    (xTimerTaskHandle s) v (t_calls s).
Definition set_t_calls (v : list callback) (s : timer_state) : timer_state :=
  mkTimers (t_lists s) (t_timers s) (pxCurrentTimerList s) (pxOverflowTimerList s) (xTimerQueue s)
    (xTimerTaskHandle s) (xLastTime s) v.
Definition set_o_queues (v : gmap nat Queue_t) (o : kernel_objects) : kernel_objects :=
  mkObjects v (xQueueRegistry o) (o_timers o) (o_groups o).
Definition set_xQueueRegistry (v : list QueueRegistryItem_t) (o : kernel_objects) : kernel_objects :=
  mkObjects (o_queues o) v (o_timers o) (o_groups o).
Definition set_o_timers (v : timer_state) (o : kernel_objects) : kernel_objects :=
  mkObjects (o_queues o) (xQueueRegistry o) v (o_groups o).
Definition set_o_groups (v : gmap nat EventGroup_t) (o : kernel_objects) : kernel_objects :=
  mkObjects (o_queues o) (xQueueRegistry o) (o_timers o) v.
Definition set_uxEventBits (v : Z) (g : EventGroup_t) : EventGroup_t := mkGroup v (xTasksWaitingForBits g) (uxEventGroupNumber g).
Definition set_uxEventGroupNumber (v : Z) (g : EventGroup_t) : EventGroup_t := mkGroup (uxEventBits g) (xTasksWaitingForBits g) v.
