(* ===== verification/FreeRTOSTasks.v ===== *)
(** * The kernel's scheduler

    [FreeRTOS/Source/tasks.c] with the configuration of
    [generate/include/FreeRTOSConfig.h]: preemption and time slicing on, generic
    task selection, mutexes, task notifications (one per task), no tickless
    idle, no static allocation.  A task is its handle, a [nat]; its two list
    items are items of the heap of [FreeRTOSList], and the lists of the file are
    lists of that heap, so every list operation is the code of [list.c].  The
    stacks and the processor context are not modelled: a requested yield is the
    flag [pendsv], and the handler of that exception is [vTaskSwitchContext].
    A call is modelled without an interrupt inside it; an interrupt is a call of
    its own. *)

From S2P Require Import Prelude FreeRTOSList FreeRTOSHeap FreeRTOSObjects.

(** ** Data *)

Definition configMAX_PRIORITIES : Z := 5.
Definition configMINIMAL_STACK_SIZE : Z := 300.
Definition taskNOT_WAITING_NOTIFICATION : Z := 0.
Definition taskWAITING_NOTIFICATION : Z := 1.
Definition taskNOTIFICATION_RECEIVED : Z := 2.
Definition taskEVENT_LIST_ITEM_VALUE_IN_USE : Z := 0x80000000.

(** The task control block, [TCB_t]; its list items are in the heap of lists. *)
Record TCB_t : Set := mkTCB_t {
  uxPriority : Z;
  pxStack : Z;
  uxTCBNumber : Z;
  uxBasePriority : Z;
  uxMutexesHeld : Z;
  ulNotifiedValue : Z;
  ucNotifyState : Z;
  ucDelayAborted : bool;
}.

Definition sizeof_TCB_t : Z := 88.

(** The list items of a task. *)
Definition xStateListItem (t : nat) : nat := (2 * t)%nat.
Definition xEventListItem (t : nat) : nat := (2 * t + 1)%nat.

(** The lists of the file; the lists above them belong to queues. *)
Definition pxReadyTasksLists (p : Z) : nat := Z.to_nat p.
Definition xDelayedTaskList1 : nat := 5.
Definition xDelayedTaskList2 : nat := 6.
Definition xPendingReadyList : nat := 7.
Definition xTasksWaitingTermination : nat := 8.
Definition xSuspendedTaskList : nat := 9.
Definition first_event_list : nat := 10.

(** The static variables of the file, the allocator's and those of the kernel
    objects, and the pending yield. *)
Record kernel : Set := mkKernel {
  k_lists : list_heap;
  k_tcbs : gmap nat TCB_t;
  k_heap : heap_state;
  k_objects : kernel_objects;
  pxCurrentTCB : option nat;
  pxDelayedTaskList : nat;
  pxOverflowDelayedTaskList : nat;
  uxDeletedTasksWaitingCleanUp : Z;
  uxCurrentNumberOfTasks : Z;
  xTickCount : Z;
  uxTopReadyPriority : Z;
  xSchedulerRunning : bool;
  xPendedTicks : Z;
  xYieldPending : bool;
  xNumOfOverflows : Z;
  uxTaskNumber : Z;
  xNextTaskUnblockTime : Z;
  uxSchedulerSuspended : Z;
  pendsv : bool;
}.

Definition set_uxPriority (v : Z) (x : TCB_t) : TCB_t :=
  mkTCB_t v (pxStack x) (uxTCBNumber x) (uxBasePriority x) (uxMutexesHeld x) (ulNotifiedValue x)
    (ucNotifyState x) (ucDelayAborted x).
Definition set_pxStack (v : Z) (x : TCB_t) : TCB_t :=
  mkTCB_t (uxPriority x) v (uxTCBNumber x) (uxBasePriority x) (uxMutexesHeld x) (ulNotifiedValue
    x) (ucNotifyState x) (ucDelayAborted x).
Definition set_uxTCBNumber (v : Z) (x : TCB_t) : TCB_t :=
  mkTCB_t (uxPriority x) (pxStack x) v (uxBasePriority x) (uxMutexesHeld x) (ulNotifiedValue x)
    (ucNotifyState x) (ucDelayAborted x).
Definition set_uxBasePriority (v : Z) (x : TCB_t) : TCB_t :=
  mkTCB_t (uxPriority x) (pxStack x) (uxTCBNumber x) v (uxMutexesHeld x) (ulNotifiedValue x)
    (ucNotifyState x) (ucDelayAborted x).
Definition set_uxMutexesHeld (v : Z) (x : TCB_t) : TCB_t :=
  mkTCB_t (uxPriority x) (pxStack x) (uxTCBNumber x) (uxBasePriority x) v (ulNotifiedValue x)
    (ucNotifyState x) (ucDelayAborted x).
Definition set_ulNotifiedValue (v : Z) (x : TCB_t) : TCB_t :=
  mkTCB_t (uxPriority x) (pxStack x) (uxTCBNumber x) (uxBasePriority x) (uxMutexesHeld x) v
    (ucNotifyState x) (ucDelayAborted x).
Definition set_ucNotifyState (v : Z) (x : TCB_t) : TCB_t :=
  mkTCB_t (uxPriority x) (pxStack x) (uxTCBNumber x) (uxBasePriority x) (uxMutexesHeld x)
    (ulNotifiedValue x) v (ucDelayAborted x).
Definition set_ucDelayAborted (v : bool) (x : TCB_t) : TCB_t :=
  mkTCB_t (uxPriority x) (pxStack x) (uxTCBNumber x) (uxBasePriority x) (uxMutexesHeld x)
    (ulNotifiedValue x) (ucNotifyState x) v.

Definition set_k_lists (v : list_heap) (k : kernel) : kernel :=
  mkKernel v (k_tcbs k) (k_heap k) (k_objects k) (pxCurrentTCB k) (pxDelayedTaskList k)
    (pxOverflowDelayedTaskList k) (uxDeletedTasksWaitingCleanUp k) (uxCurrentNumberOfTasks k)
    (xTickCount k) (uxTopReadyPriority k) (xSchedulerRunning k) (xPendedTicks k) (xYieldPending k)
    (xNumOfOverflows k) (uxTaskNumber k) (xNextTaskUnblockTime k) (uxSchedulerSuspended k) (pendsv k).
Definition set_k_tcbs (v : gmap nat TCB_t) (k : kernel) : kernel :=
  mkKernel (k_lists k) v (k_heap k) (k_objects k) (pxCurrentTCB k) (pxDelayedTaskList k)
    (pxOverflowDelayedTaskList k) (uxDeletedTasksWaitingCleanUp k) (uxCurrentNumberOfTasks k)
    (xTickCount k) (uxTopReadyPriority k) (xSchedulerRunning k) (xPendedTicks k) (xYieldPending k)
    (xNumOfOverflows k) (uxTaskNumber k) (xNextTaskUnblockTime k) (uxSchedulerSuspended k) (pendsv k).
Definition set_k_heap (v : heap_state) (k : kernel) : kernel :=
  mkKernel (k_lists k) (k_tcbs k) v (k_objects k) (pxCurrentTCB k) (pxDelayedTaskList k)
    (pxOverflowDelayedTaskList k) (uxDeletedTasksWaitingCleanUp k) (uxCurrentNumberOfTasks k)
    (xTickCount k) (uxTopReadyPriority k) (xSchedulerRunning k) (xPendedTicks k) (xYieldPending k)
    (xNumOfOverflows k) (uxTaskNumber k) (xNextTaskUnblockTime k) (uxSchedulerSuspended k) (pendsv k).
Definition set_k_objects (v : kernel_objects) (k : kernel) : kernel :=
  mkKernel (k_lists k) (k_tcbs k) (k_heap k) v (pxCurrentTCB k) (pxDelayedTaskList k)
    (pxOverflowDelayedTaskList k) (uxDeletedTasksWaitingCleanUp k) (uxCurrentNumberOfTasks k)
    (xTickCount k) (uxTopReadyPriority k) (xSchedulerRunning k) (xPendedTicks k) (xYieldPending k)
    (xNumOfOverflows k) (uxTaskNumber k) (xNextTaskUnblockTime k) (uxSchedulerSuspended k) (pendsv k).
Definition set_pxCurrentTCB (v : option nat) (k : kernel) : kernel :=
  mkKernel (k_lists k) (k_tcbs k) (k_heap k) (k_objects k) v (pxDelayedTaskList k)
    (pxOverflowDelayedTaskList k) (uxDeletedTasksWaitingCleanUp k) (uxCurrentNumberOfTasks k)
    (xTickCount k) (uxTopReadyPriority k) (xSchedulerRunning k) (xPendedTicks k) (xYieldPending k)
    (xNumOfOverflows k) (uxTaskNumber k) (xNextTaskUnblockTime k) (uxSchedulerSuspended k) (pendsv k).
Definition set_pxDelayedTaskList (v : nat) (k : kernel) : kernel :=
  mkKernel (k_lists k) (k_tcbs k) (k_heap k) (k_objects k) (pxCurrentTCB k) v
    (pxOverflowDelayedTaskList k) (uxDeletedTasksWaitingCleanUp k) (uxCurrentNumberOfTasks k)
    (xTickCount k) (uxTopReadyPriority k) (xSchedulerRunning k) (xPendedTicks k) (xYieldPending k)
    (xNumOfOverflows k) (uxTaskNumber k) (xNextTaskUnblockTime k) (uxSchedulerSuspended k) (pendsv k).
Definition set_pxOverflowDelayedTaskList (v : nat) (k : kernel) : kernel :=
  mkKernel (k_lists k) (k_tcbs k) (k_heap k) (k_objects k) (pxCurrentTCB k) (pxDelayedTaskList k) v
    (uxDeletedTasksWaitingCleanUp k) (uxCurrentNumberOfTasks k) (xTickCount k) (uxTopReadyPriority k)
    (xSchedulerRunning k) (xPendedTicks k) (xYieldPending k) (xNumOfOverflows k) (uxTaskNumber k)
    (xNextTaskUnblockTime k) (uxSchedulerSuspended k) (pendsv k).
Definition set_uxDeletedTasksWaitingCleanUp (v : Z) (k : kernel) : kernel :=
  mkKernel (k_lists k) (k_tcbs k) (k_heap k) (k_objects k) (pxCurrentTCB k) (pxDelayedTaskList k)
    (pxOverflowDelayedTaskList k) v (uxCurrentNumberOfTasks k) (xTickCount k) (uxTopReadyPriority k)
    (xSchedulerRunning k) (xPendedTicks k) (xYieldPending k) (xNumOfOverflows k) (uxTaskNumber k)
    (xNextTaskUnblockTime k) (uxSchedulerSuspended k) (pendsv k).
Definition set_uxCurrentNumberOfTasks (v : Z) (k : kernel) : kernel :=
  mkKernel (k_lists k) (k_tcbs k) (k_heap k) (k_objects k) (pxCurrentTCB k) (pxDelayedTaskList k)
    (pxOverflowDelayedTaskList k) (uxDeletedTasksWaitingCleanUp k) v (xTickCount k)
    (uxTopReadyPriority k) (xSchedulerRunning k) (xPendedTicks k) (xYieldPending k) (xNumOfOverflows k)
    (uxTaskNumber k) (xNextTaskUnblockTime k) (uxSchedulerSuspended k) (pendsv k).
Definition set_xTickCount (v : Z) (k : kernel) : kernel :=
  mkKernel (k_lists k) (k_tcbs k) (k_heap k) (k_objects k) (pxCurrentTCB k) (pxDelayedTaskList k)
    (pxOverflowDelayedTaskList k) (uxDeletedTasksWaitingCleanUp k) (uxCurrentNumberOfTasks k) v
    (uxTopReadyPriority k) (xSchedulerRunning k) (xPendedTicks k) (xYieldPending k) (xNumOfOverflows k)
    (uxTaskNumber k) (xNextTaskUnblockTime k) (uxSchedulerSuspended k) (pendsv k).
Definition set_uxTopReadyPriority (v : Z) (k : kernel) : kernel :=
  mkKernel (k_lists k) (k_tcbs k) (k_heap k) (k_objects k) (pxCurrentTCB k) (pxDelayedTaskList k)
    (pxOverflowDelayedTaskList k) (uxDeletedTasksWaitingCleanUp k) (uxCurrentNumberOfTasks k)
    (xTickCount k) v (xSchedulerRunning k) (xPendedTicks k) (xYieldPending k) (xNumOfOverflows k)
    (uxTaskNumber k) (xNextTaskUnblockTime k) (uxSchedulerSuspended k) (pendsv k).
Definition set_xSchedulerRunning (v : bool) (k : kernel) : kernel :=
  mkKernel (k_lists k) (k_tcbs k) (k_heap k) (k_objects k) (pxCurrentTCB k) (pxDelayedTaskList k)
    (pxOverflowDelayedTaskList k) (uxDeletedTasksWaitingCleanUp k) (uxCurrentNumberOfTasks k)
    (xTickCount k) (uxTopReadyPriority k) v (xPendedTicks k) (xYieldPending k) (xNumOfOverflows k)
    (uxTaskNumber k) (xNextTaskUnblockTime k) (uxSchedulerSuspended k) (pendsv k).
Definition set_xPendedTicks (v : Z) (k : kernel) : kernel :=
  mkKernel (k_lists k) (k_tcbs k) (k_heap k) (k_objects k) (pxCurrentTCB k) (pxDelayedTaskList k)
    (pxOverflowDelayedTaskList k) (uxDeletedTasksWaitingCleanUp k) (uxCurrentNumberOfTasks k)
    (xTickCount k) (uxTopReadyPriority k) (xSchedulerRunning k) v (xYieldPending k) (xNumOfOverflows k)
    (uxTaskNumber k) (xNextTaskUnblockTime k) (uxSchedulerSuspended k) (pendsv k).
Definition set_xYieldPending (v : bool) (k : kernel) : kernel :=
  mkKernel (k_lists k) (k_tcbs k) (k_heap k) (k_objects k) (pxCurrentTCB k) (pxDelayedTaskList k)
    (pxOverflowDelayedTaskList k) (uxDeletedTasksWaitingCleanUp k) (uxCurrentNumberOfTasks k)
    (xTickCount k) (uxTopReadyPriority k) (xSchedulerRunning k) (xPendedTicks k) v (xNumOfOverflows k)
    (uxTaskNumber k) (xNextTaskUnblockTime k) (uxSchedulerSuspended k) (pendsv k).
Definition set_xNumOfOverflows (v : Z) (k : kernel) : kernel :=
  mkKernel (k_lists k) (k_tcbs k) (k_heap k) (k_objects k) (pxCurrentTCB k) (pxDelayedTaskList k)
    (pxOverflowDelayedTaskList k) (uxDeletedTasksWaitingCleanUp k) (uxCurrentNumberOfTasks k)
    (xTickCount k) (uxTopReadyPriority k) (xSchedulerRunning k) (xPendedTicks k) (xYieldPending k) v
    (uxTaskNumber k) (xNextTaskUnblockTime k) (uxSchedulerSuspended k) (pendsv k).
Definition set_uxTaskNumber (v : Z) (k : kernel) : kernel :=
  mkKernel (k_lists k) (k_tcbs k) (k_heap k) (k_objects k) (pxCurrentTCB k) (pxDelayedTaskList k)
    (pxOverflowDelayedTaskList k) (uxDeletedTasksWaitingCleanUp k) (uxCurrentNumberOfTasks k)
    (xTickCount k) (uxTopReadyPriority k) (xSchedulerRunning k) (xPendedTicks k) (xYieldPending k)
    (xNumOfOverflows k) v (xNextTaskUnblockTime k) (uxSchedulerSuspended k) (pendsv k).
Definition set_xNextTaskUnblockTime (v : Z) (k : kernel) : kernel :=
  mkKernel (k_lists k) (k_tcbs k) (k_heap k) (k_objects k) (pxCurrentTCB k) (pxDelayedTaskList k)
    (pxOverflowDelayedTaskList k) (uxDeletedTasksWaitingCleanUp k) (uxCurrentNumberOfTasks k)
    (xTickCount k) (uxTopReadyPriority k) (xSchedulerRunning k) (xPendedTicks k) (xYieldPending k)
    (xNumOfOverflows k) (uxTaskNumber k) v (uxSchedulerSuspended k) (pendsv k).
Definition set_uxSchedulerSuspended (v : Z) (k : kernel) : kernel :=
  mkKernel (k_lists k) (k_tcbs k) (k_heap k) (k_objects k) (pxCurrentTCB k) (pxDelayedTaskList k)
    (pxOverflowDelayedTaskList k) (uxDeletedTasksWaitingCleanUp k) (uxCurrentNumberOfTasks k)
    (xTickCount k) (uxTopReadyPriority k) (xSchedulerRunning k) (xPendedTicks k) (xYieldPending k)
    (xNumOfOverflows k) (uxTaskNumber k) (xNextTaskUnblockTime k) v (pendsv k).
Definition set_pendsv (v : bool) (k : kernel) : kernel :=
  mkKernel (k_lists k) (k_tcbs k) (k_heap k) (k_objects k) (pxCurrentTCB k) (pxDelayedTaskList k)
    (pxOverflowDelayedTaskList k) (uxDeletedTasksWaitingCleanUp k) (uxCurrentNumberOfTasks k)
    (xTickCount k) (uxTopReadyPriority k) (xSchedulerRunning k) (xPendedTicks k) (xYieldPending k)
    (xNumOfOverflows k) (uxTaskNumber k) (xNextTaskUnblockTime k) (uxSchedulerSuspended k) v.

(** ** The state monad of the kernel *)

Definition KM (A : Type) : Type := kernel -> res (A * kernel).

#[export] Instance KM_ret : MRet KM := fun A a k => Ok (a, k).
#[export] Instance KM_bind : MBind KM := fun A B f m k => match m k with Ok (a, k) => f a k | Fault e => Fault e end.

Definition gets {A} (f : kernel -> A) : KM A := fun k => Ok (f k, k).
Definition modify (f : kernel -> kernel) : KM unit := fun k => Ok (tt, f k).
Definition lift {A} (r : res A) : KM A := fun k => match r with Ok a => Ok (a, k) | Fault e => Fault e end.

(** [configASSERT] *)
Definition configASSERT (b : bool) : KM unit := lift (c_assert b).

(** A list operation that returns a value, one that does not, and a query. *)
Definition on_lists {A} (f : list_heap -> res (A * list_heap)) : KM A :=
  fun k => match f (k_lists k) with Ok (a, h) => Ok (a, set_k_lists h k) | Fault e => Fault e end.
Definition do_lists (f : list_heap -> res list_heap) : KM unit :=
  fun k => match f (k_lists k) with Ok h => Ok (tt, set_k_lists h k) | Fault e => Fault e end.
Definition ask_lists {A} (f : list_heap -> res A) : KM A :=
  fun k => match f (k_lists k) with Ok a => Ok (a, k) | Fault e => Fault e end.

Definition get_tcb (t : nat) : KM TCB_t :=
  fun k => match k_tcbs k !! t with Some x => Ok (x, k) | None => Fault WildHostPointer end.
Definition put_tcb (t : nat) (x : TCB_t) : KM unit := modify (fun k => set_k_tcbs (<[t := x]> (k_tcbs k)) k).

(** The running task; [pxCurrentTCB] is dereferenced. *)
Definition current : KM nat := fun k => match pxCurrentTCB k with Some t => Ok (t, k) | None => Fault WildHostPointer end.

Definition when (b : bool) (m : KM unit) : KM unit := if b then m else mret tt.

(** [portYIELD_WITHIN_API], [taskYIELD_IF_USING_PREEMPTION] *)
Definition portYIELD_WITHIN_API : KM unit := modify (set_pendsv true).

(** [prvGetTCBFromHandle]: the null handle is the running task. *)
Definition prvGetTCBFromHandle (h : option nat) : KM nat :=
  match h with Some t => mret t | None => current end.

(** ** The ready lists and the choice of the next task *)

(** [taskRECORD_READY_PRIORITY] *)
Definition taskRECORD_READY_PRIORITY (p : Z) : KM unit :=
  top ← gets uxTopReadyPriority;
  when (p >? top) (modify (set_uxTopReadyPriority p)).

(** [prvAddTaskToReadyList] *)
Definition prvAddTaskToReadyList (t : nat) : KM unit :=
  x ← get_tcb t;
  taskRECORD_READY_PRIORITY (uxPriority x);;
  do_lists (vListInsertEnd (pxReadyTasksLists (uxPriority x)) (xStateListItem t)).

(** The [while] loop of [taskSELECT_HIGHEST_PRIORITY_TASK], from priority [p]. *)
Fixpoint top_ready (p : nat) : KM nat :=
  empty ← ask_lists (listLIST_IS_EMPTY p);
  if empty : bool then
    match p with
    | O => configASSERT false;; mret O
    | S p => top_ready p
    end
  else mret p.

(** [taskSELECT_HIGHEST_PRIORITY_TASK] *)
Definition taskSELECT_HIGHEST_PRIORITY_TASK : KM unit :=
  top ← gets uxTopReadyPriority;
  p ← top_ready (Z.to_nat top);
  t ← on_lists (listGET_OWNER_OF_NEXT_ENTRY p);
  modify (set_pxCurrentTCB (Some t));;
  modify (set_uxTopReadyPriority (Z.of_nat p)).

(** [vTaskSwitchContext] *)
Definition vTaskSwitchContext : KM unit :=
  susp ← gets uxSchedulerSuspended;
  if negb (susp =? 0) then modify (set_xYieldPending true)
  else modify (set_xYieldPending false);; taskSELECT_HIGHEST_PRIORITY_TASK.

(** The PendSV exception, which the port takes when a yield was requested. *)
Definition xPortPendSVHandler : KM unit :=
  modify (set_pendsv false);; vTaskSwitchContext.

(** ** Delays *)

(** [prvResetNextTaskUnblockTime] *)
Definition prvResetNextTaskUnblockTime : KM unit :=
  l ← gets pxDelayedTaskList;
  empty ← ask_lists (listLIST_IS_EMPTY l);
  if empty : bool then modify (set_xNextTaskUnblockTime portMAX_DELAY)
  else v ← ask_lists (listGET_ITEM_VALUE_OF_HEAD_ENTRY l); modify (set_xNextTaskUnblockTime v).

(** [taskSWITCH_DELAYED_LISTS] *)
Definition taskSWITCH_DELAYED_LISTS : KM unit :=
  l ← gets pxDelayedTaskList;
  empty ← ask_lists (listLIST_IS_EMPTY l);
  configASSERT empty;;
  o ← gets pxOverflowDelayedTaskList;
  modify (set_pxDelayedTaskList o);;
  modify (set_pxOverflowDelayedTaskList l);;
  n ← gets xNumOfOverflows;
  modify (set_xNumOfOverflows (s32 (n + 1)));;
  prvResetNextTaskUnblockTime.

(** [prvAddCurrentTaskToDelayedList] *)
Definition prvAddCurrentTaskToDelayedList (xTicksToWait : Z) (xCanBlockIndefinitely : bool) : KM unit :=
  xConstTickCount ← gets xTickCount;
  t ← current;
  x ← get_tcb t;
  put_tcb t (set_ucDelayAborted false x);;
  on_lists (uxListRemove (xStateListItem t));;
  if (xTicksToWait =? portMAX_DELAY) && xCanBlockIndefinitely then
    do_lists (vListInsertEnd xSuspendedTaskList (xStateListItem t))
  else
    let xTimeToWake := u32 (xConstTickCount + xTicksToWait) in
    do_lists (listSET_LIST_ITEM_VALUE (xStateListItem t) xTimeToWake);;
    if xTimeToWake <? xConstTickCount then
      o ← gets pxOverflowDelayedTaskList;
      do_lists (vListInsert o (xStateListItem t))
    else
      d ← gets pxDelayedTaskList;
      do_lists (vListInsert d (xStateListItem t));;
      next ← gets xNextTaskUnblockTime;
      when (xTimeToWake <? next) (modify (set_xNextTaskUnblockTime xTimeToWake)).

(** The removal of a task from the event list it may wait on. *)
Definition leave_event_list (t : nat) : KM unit :=
  c ← ask_lists (listLIST_ITEM_CONTAINER (xEventListItem t));
  match c with
  | Some _ => on_lists (uxListRemove (xEventListItem t));; mret tt
  | None => mret tt
  end.

(** The [for] loop of [xTaskIncrementTick]; the result is [xSwitchRequired]. *)
Fixpoint unblock_expired (fuel : nat) (xConstTickCount : Z) (xSwitchRequired : bool) : KM bool :=
  match fuel with
  | O => lift (Fault OutOfFuel)
  | S fuel =>
      l ← gets pxDelayedTaskList;
      empty ← ask_lists (listLIST_IS_EMPTY l);
      if empty : bool then modify (set_xNextTaskUnblockTime portMAX_DELAY);; mret xSwitchRequired
      else
        t ← ask_lists (listGET_OWNER_OF_HEAD_ENTRY l);
        xItemValue ← ask_lists (listGET_LIST_ITEM_VALUE (xStateListItem t));
        if xConstTickCount <? xItemValue then
          modify (set_xNextTaskUnblockTime xItemValue);; mret xSwitchRequired
        else
          on_lists (uxListRemove (xStateListItem t));;
          leave_event_list t;;
          prvAddTaskToReadyList t;;
          x ← get_tcb t;
          c ← current;
          y ← get_tcb c;
          unblock_expired fuel xConstTickCount (xSwitchRequired || (uxPriority x >? uxPriority y))
  end.

(** [xTaskIncrementTick] *)
Definition xTaskIncrementTick : KM bool :=
  susp ← gets uxSchedulerSuspended;
  if susp =? 0 then
    tick ← gets xTickCount;
    let xConstTickCount := u32 (tick + 1) in
    modify (set_xTickCount xConstTickCount);;
    when (xConstTickCount =? 0) taskSWITCH_DELAYED_LISTS;;
    next ← gets xNextTaskUnblockTime;
    xSwitchRequired ←
      (if xConstTickCount >=? next then
         l ← gets pxDelayedTaskList;
         n ← ask_lists (listCURRENT_LIST_LENGTH l);
         unblock_expired (S (Z.to_nat n)) xConstTickCount false
       else mret false);
    c ← current;
    y ← get_tcb c;
    n ← ask_lists (listCURRENT_LIST_LENGTH (pxReadyTasksLists (uxPriority y)));
    yield ← gets xYieldPending;
    mret (xSwitchRequired || (n >? 1) || yield)
  else
    n ← gets xPendedTicks;
    modify (set_xPendedTicks (u32 (n + 1)));;
    mret false.

(** The tick interrupt of the port: a switch is requested when one is required. *)
Definition xPortSysTickHandler : KM unit :=
  b ← xTaskIncrementTick;
  when b portYIELD_WITHIN_API.

(** [vTaskSuspendAll] *)
Definition vTaskSuspendAll : KM unit :=
  n ← gets uxSchedulerSuspended;
  modify (set_uxSchedulerSuspended (u32 (n + 1))).

(** The loops of [xTaskResumeAll]: the pending ready list, of which the result
    says whether a task was moved, and the pended ticks. *)
Fixpoint move_pending (fuel : nat) (moved : bool) : KM bool :=
  match fuel with
  | O => lift (Fault OutOfFuel)
  | S fuel =>
      empty ← ask_lists (listLIST_IS_EMPTY xPendingReadyList);
      if empty : bool then mret moved
      else
        t ← ask_lists (listGET_OWNER_OF_HEAD_ENTRY xPendingReadyList);
        on_lists (uxListRemove (xEventListItem t));;
        on_lists (uxListRemove (xStateListItem t));;
        prvAddTaskToReadyList t;;
        x ← get_tcb t;
        c ← current;
        y ← get_tcb c;
        when (uxPriority x >=? uxPriority y) (modify (set_xYieldPending true));;
        move_pending fuel true
  end.

Fixpoint replay_ticks (n : nat) : KM unit :=
  match n with
  | O => mret tt
  | S n =>
      b ← xTaskIncrementTick;
      when b (modify (set_xYieldPending true));;
      replay_ticks n
  end.

(** [xTaskResumeAll] *)
Definition xTaskResumeAll : KM bool :=
  susp ← gets uxSchedulerSuspended;
  configASSERT (negb (susp =? 0));;
  modify (set_uxSchedulerSuspended (u32 (susp - 1)));;
  n ← gets uxCurrentNumberOfTasks;
  if (susp - 1 =? 0) && (n >? 0) then
    len ← ask_lists (listCURRENT_LIST_LENGTH xPendingReadyList);
    moved ← move_pending (S (Z.to_nat len)) false;
    when moved prvResetNextTaskUnblockTime;;
    xPendedCounts ← gets xPendedTicks;
    when (xPendedCounts >? 0) (replay_ticks (Z.to_nat xPendedCounts);; modify (set_xPendedTicks 0));;
    yield ← gets xYieldPending;
    when yield portYIELD_WITHIN_API;;
    mret yield
  else mret false.

(** [xTaskCatchUpTicks] *)
Definition xTaskCatchUpTicks (xTicksToCatchUp : Z) : KM bool :=
  susp ← gets uxSchedulerSuspended;
  configASSERT (susp =? 0);;
  vTaskSuspendAll;;
  n ← gets xPendedTicks;
  modify (set_xPendedTicks (u32 (n + xTicksToCatchUp)));;
  xTaskResumeAll.

(** [vTaskDelay] *)
Definition vTaskDelay (xTicksToDelay : Z) : KM unit :=
  xAlreadyYielded ←
    (if xTicksToDelay >? 0 then
       susp ← gets uxSchedulerSuspended;
       configASSERT (susp =? 0);;
       vTaskSuspendAll;;
       prvAddCurrentTaskToDelayedList xTicksToDelay false;;
       xTaskResumeAll
     else mret false);
  when (negb xAlreadyYielded) portYIELD_WITHIN_API.

(** [xTaskDelayUntil]: the answer and the new [*pxPreviousWakeTime]. *)
Definition xTaskDelayUntil (previous xTimeIncrement : Z) : KM (bool * Z) :=
  configASSERT (xTimeIncrement >? 0);;
  susp ← gets uxSchedulerSuspended;
  configASSERT (susp =? 0);;
  vTaskSuspendAll;;
  xConstTickCount ← gets xTickCount;
  let xTimeToWake := u32 (previous + xTimeIncrement) in
  let xShouldDelay :=
    if xConstTickCount <? previous
    then (xTimeToWake <? previous) && (xTimeToWake >? xConstTickCount)
    else (xTimeToWake <? previous) || (xTimeToWake >? xConstTickCount) in
  when xShouldDelay (prvAddCurrentTaskToDelayedList (u32 (xTimeToWake - xConstTickCount)) false);;
  xAlreadyYielded ← xTaskResumeAll;
  when (negb xAlreadyYielded) portYIELD_WITHIN_API;;
  mret (xShouldDelay, xTimeToWake).

(** ** Creating and deleting tasks *)

(** [prvInitialiseTaskLists] *)
Definition prvInitialiseTaskLists : KM unit :=
  modify (fun k =>
    let h := foldl (fun h l => vListInitialise l h) (k_lists k) (seq 0 (Z.to_nat configMAX_PRIORITIES)) in
    let h := vListInitialise xDelayedTaskList1 h in
    let h := vListInitialise xDelayedTaskList2 h in
    let h := vListInitialise xPendingReadyList h in
    let h := vListInitialise xTasksWaitingTermination h in
    set_k_lists (vListInitialise xSuspendedTaskList h) k);;
  modify (set_pxDelayedTaskList xDelayedTaskList1);;
  modify (set_pxOverflowDelayedTaskList xDelayedTaskList2).

(** [prvInitialiseNewTask]: the block is zeroed, so are its list items; the name
    and the stack are not modelled. *)
Definition prvInitialiseNewTask (uxPriority : Z) (t : nat) (pxStack : Z) : KM unit :=
  configASSERT (uxPriority <? configMAX_PRIORITIES);;
  let uxPriority := if uxPriority >=? configMAX_PRIORITIES then configMAX_PRIORITIES - 1 else uxPriority in
  put_tcb t (mkTCB_t uxPriority pxStack 0 uxPriority 0 0 taskNOT_WAITING_NOTIFICATION false);;
  modify (fun k => set_k_lists (put_item (Item (xStateListItem t)) (mkItem 0 None None None None)
                     (put_item (Item (xEventListItem t)) (mkItem 0 None None None None) (k_lists k))) k);;
  do_lists (vListInitialiseItem (xStateListItem t));;
  do_lists (vListInitialiseItem (xEventListItem t));;
  do_lists (listSET_LIST_ITEM_OWNER (xStateListItem t) t);;
  do_lists (listSET_LIST_ITEM_VALUE (xEventListItem t) (configMAX_PRIORITIES - uxPriority));;
  do_lists (listSET_LIST_ITEM_OWNER (xEventListItem t) t).

(** [prvAddNewTaskToReadyList] *)
Definition prvAddNewTaskToReadyList (t : nat) : KM unit :=
  n ← gets uxCurrentNumberOfTasks;
  modify (set_uxCurrentNumberOfTasks (u32 (n + 1)));;
  c ← gets pxCurrentTCB;
  x ← get_tcb t;
  match c with
  | None =>
      modify (set_pxCurrentTCB (Some t));;
      when (u32 (n + 1) =? 1) prvInitialiseTaskLists
  | Some c =>
      running ← gets xSchedulerRunning;
      y ← get_tcb c;
      when (negb running && (uxPriority y <=? uxPriority x)) (modify (set_pxCurrentTCB (Some t)))
  end;;
  u ← gets uxTaskNumber;
  modify (set_uxTaskNumber (u32 (u + 1)));;
  put_tcb t (set_uxTCBNumber (u32 (u + 1)) x);;
  prvAddTaskToReadyList t;;
  running ← gets xSchedulerRunning;
  if running : bool then
    c ← current;
    y ← get_tcb c;
    x ← get_tcb t;
    when (uxPriority y <? uxPriority x) portYIELD_WITHIN_API
  else mret tt.

(** The allocator, whose array is at [ucHeap]. *)
Definition malloc (ucHeap size : Z) : KM (option Z) :=
  fun k => let '(p, h) := pvPortMalloc ucHeap size (k_heap k) in Ok (p, set_k_heap h k).
Definition free (p : Z) : KM unit :=
  fun k => match vPortFree (Some p) (k_heap k) with Ok h => Ok (tt, set_k_heap h k) | Fault e => Fault e end.

(** [xTaskCreate]: the handle of the new task, [None] when there is no memory. *)
Definition xTaskCreate (ucHeap usStackDepth uxPriority : Z) : KM (option nat) :=
  pxStack ← malloc ucHeap (u32 (usStackDepth * 4));
  match pxStack with
  | None => mret None
  | Some pxStack =>
      pxNewTCB ← malloc ucHeap sizeof_TCB_t;
      match pxNewTCB with
      | None => free pxStack;; mret None
      | Some a =>
          let t := Z.to_nat a in
          prvInitialiseNewTask uxPriority t pxStack;;
          prvAddNewTaskToReadyList t;;
          mret (Some t)
      end
  end.

(** [vTaskStartScheduler]; [xTimerCreateTimerTask] is the call to [timers.c].
    [pdPASS] is 1 and [errCOULD_NOT_ALLOCATE_REQUIRED_MEMORY] is -1. *)
Definition vTaskStartScheduler (ucHeap : Z) (xTimerCreateTimerTask : KM Z) : KM unit :=
  idle ← xTaskCreate ucHeap configMINIMAL_STACK_SIZE 0;
  xReturn ← match idle with Some _ => xTimerCreateTimerTask | None => mret (-1) end;
  if xReturn =? 1 then
    modify (set_xNextTaskUnblockTime portMAX_DELAY);;
    modify (set_xSchedulerRunning true);;
    modify (set_xTickCount 0)
  else configASSERT (negb (xReturn =? -1)).

(** [prvDeleteTCB] *)
Definition prvDeleteTCB (t : nat) : KM unit :=
  x ← get_tcb t;
  free (pxStack x);;
  free (Z.of_nat t).

(** [vTaskDelete] *)
Definition vTaskDelete (xTaskToDelete : option nat) : KM unit :=
  t ← prvGetTCBFromHandle xTaskToDelete;
  on_lists (uxListRemove (xStateListItem t));;
  leave_event_list t;;
  u ← gets uxTaskNumber;
  modify (set_uxTaskNumber (u32 (u + 1)));;
  c ← gets pxCurrentTCB;
  let self := bool_decide (c = Some t) in
  (if self then
     do_lists (vListInsertEnd xTasksWaitingTermination (xStateListItem t));;
     n ← gets uxDeletedTasksWaitingCleanUp;
     modify (set_uxDeletedTasksWaitingCleanUp (u32 (n + 1)))
   else
     n ← gets uxCurrentNumberOfTasks;
     modify (set_uxCurrentNumberOfTasks (u32 (n - 1)));;
     prvResetNextTaskUnblockTime);;
  when (negb self) (prvDeleteTCB t);;
  running ← gets xSchedulerRunning;
  when (running && self)
    (susp ← gets uxSchedulerSuspended; configASSERT (susp =? 0);; portYIELD_WITHIN_API).

(** [prvCheckTasksWaitingTermination], which the idle task calls; [n] is the
    value of [uxDeletedTasksWaitingCleanUp]. *)
Fixpoint prvCheckTasksWaitingTermination (n : nat) : KM unit :=
  match n with
  | O => mret tt
  | S n =>
      t ← ask_lists (listGET_OWNER_OF_HEAD_ENTRY xTasksWaitingTermination);
      on_lists (uxListRemove (xStateListItem t));;
      m ← gets uxCurrentNumberOfTasks;
      modify (set_uxCurrentNumberOfTasks (u32 (m - 1)));;
      d ← gets uxDeletedTasksWaitingCleanUp;
      modify (set_uxDeletedTasksWaitingCleanUp (u32 (d - 1)));;
      prvDeleteTCB t;;
      prvCheckTasksWaitingTermination n
  end.

(** ** States, suspension and priorities *)

Inductive eTaskState : Set := eRunning | eReady | eBlocked | eSuspended | eDeleted.

(** [eTaskGetState] *)
Definition eTaskGetState (t : nat) : KM eTaskState :=
  c ← gets pxCurrentTCB;
  if bool_decide (c = Some t) then mret eRunning
  else
    l ← ask_lists (listLIST_ITEM_CONTAINER (xStateListItem t));
    d ← gets pxDelayedTaskList;
    o ← gets pxOverflowDelayedTaskList;
    if bool_decide (l = Some d) || bool_decide (l = Some o) then mret eBlocked
    else if bool_decide (l = Some xSuspendedTaskList) then
      e ← ask_lists (listLIST_ITEM_CONTAINER (xEventListItem t));
      match e with
      | None => x ← get_tcb t;
                mret (if ucNotifyState x =? taskWAITING_NOTIFICATION then eBlocked else eSuspended)
      | Some _ => mret eBlocked
      end
    else if bool_decide (l = Some xTasksWaitingTermination) || bool_decide (l = None) then mret eDeleted
    else mret eReady.

(** [uxTaskPriorityGet] *)
Definition uxTaskPriorityGet (h : option nat) : KM Z :=
  t ← prvGetTCBFromHandle h; x ← get_tcb t; mret (uxPriority x).

(** The event list item carries the priority unless it is borrowed. *)
Definition set_event_priority (t : nat) (p : Z) : KM unit :=
  v ← ask_lists (listGET_LIST_ITEM_VALUE (xEventListItem t));
  when (v .& taskEVENT_LIST_ITEM_VALUE_IN_USE =? 0)
    (do_lists (listSET_LIST_ITEM_VALUE (xEventListItem t) (configMAX_PRIORITIES - p))).

(** A task that is in the ready list of priority [p] moves to the list of its
    own priority. *)
Definition move_if_ready (t : nat) (p : Z) : KM unit :=
  b ← ask_lists (listIS_CONTAINED_WITHIN (pxReadyTasksLists p) (xStateListItem t));
  when b (on_lists (uxListRemove (xStateListItem t));; prvAddTaskToReadyList t).

(** [vTaskPrioritySet] *)
Definition vTaskPrioritySet (xTask : option nat) (uxNewPriority : Z) : KM unit :=
  configASSERT (uxNewPriority <? configMAX_PRIORITIES);;
  t ← prvGetTCBFromHandle xTask;
  x ← get_tcb t;
  if negb (uxBasePriority x =? uxNewPriority) then
    c ← current;
    y ← get_tcb c;
    let self := bool_decide (t = c) in
    let xYieldRequired :=
      if uxNewPriority >? uxBasePriority x
      then negb self && (uxNewPriority >=? uxPriority y) else self in
    let uxPriorityUsedOnEntry := uxPriority x in
    let x' := if uxBasePriority x =? uxPriority x then set_uxPriority uxNewPriority x else x in
    put_tcb t (set_uxBasePriority uxNewPriority x');;
    set_event_priority t uxNewPriority;;
    move_if_ready t uxPriorityUsedOnEntry;;
    when xYieldRequired portYIELD_WITHIN_API
  else mret tt.

(** [vTaskSuspend] *)
Definition vTaskSuspend (xTaskToSuspend : option nat) : KM unit :=
  t ← prvGetTCBFromHandle xTaskToSuspend;
  on_lists (uxListRemove (xStateListItem t));;
  leave_event_list t;;
  do_lists (vListInsertEnd xSuspendedTaskList (xStateListItem t));;
  x ← get_tcb t;
  when (ucNotifyState x =? taskWAITING_NOTIFICATION)
    (put_tcb t (set_ucNotifyState taskNOT_WAITING_NOTIFICATION x));;
  running ← gets xSchedulerRunning;
  when running prvResetNextTaskUnblockTime;;
  c ← gets pxCurrentTCB;
  if bool_decide (c = Some t) then
    if running : bool then
      susp ← gets uxSchedulerSuspended; configASSERT (susp =? 0);; portYIELD_WITHIN_API
    else
      n ← ask_lists (listCURRENT_LIST_LENGTH xSuspendedTaskList);
      m ← gets uxCurrentNumberOfTasks;
      if n =? m then modify (set_pxCurrentTCB None) else vTaskSwitchContext
  else mret tt.

(** [prvTaskIsTaskSuspended] *)
Definition prvTaskIsTaskSuspended (t : nat) : KM bool :=
  s ← ask_lists (listLIST_ITEM_CONTAINER (xStateListItem t));
  e ← ask_lists (listLIST_ITEM_CONTAINER (xEventListItem t));
  mret (bool_decide (s = Some xSuspendedTaskList) && negb (bool_decide (e = Some xPendingReadyList))
        && bool_decide (e = None)).

(** [vTaskResume] *)
Definition vTaskResume (t : nat) : KM unit :=
  c ← gets pxCurrentTCB;
  if negb (bool_decide (c = Some t)) then
    b ← prvTaskIsTaskSuspended t;
    if b : bool then
      on_lists (uxListRemove (xStateListItem t));;
      prvAddTaskToReadyList t;;
      x ← get_tcb t;
      c ← current;
      y ← get_tcb c;
      when (uxPriority x >=? uxPriority y) portYIELD_WITHIN_API
    else mret tt
  else mret tt.

(** [xTaskResumeFromISR] *)
Definition xTaskResumeFromISR (t : nat) : KM bool :=
  b ← prvTaskIsTaskSuspended t;
  if b : bool then
    susp ← gets uxSchedulerSuspended;
    if susp =? 0 then
      x ← get_tcb t;
      c ← current;
      y ← get_tcb c;
      let xYieldRequired := uxPriority x >=? uxPriority y in
      when xYieldRequired (modify (set_xYieldPending true));;
      on_lists (uxListRemove (xStateListItem t));;
      prvAddTaskToReadyList t;;
      mret xYieldRequired
    else
      do_lists (vListInsertEnd xPendingReadyList (xEventListItem t));; mret false
  else mret false.

(** [xTaskAbortDelay] *)
Definition xTaskAbortDelay (t : nat) : KM bool :=
  vTaskSuspendAll;;
  s ← eTaskGetState t;
  xReturn ←
    match s with
    | eBlocked =>
        on_lists (uxListRemove (xStateListItem t));;
        e ← ask_lists (listLIST_ITEM_CONTAINER (xEventListItem t));
        match e with
        | Some _ =>
            on_lists (uxListRemove (xEventListItem t));;
            x ← get_tcb t; put_tcb t (set_ucDelayAborted true x)
        | None => mret tt
        end;;
        prvAddTaskToReadyList t;;
        x ← get_tcb t;
        c ← current;
        y ← get_tcb c;
        when (uxPriority x >? uxPriority y) (modify (set_xYieldPending true));;
        mret true
    | _ => mret false
    end;
  xTaskResumeAll;;
  mret xReturn.

(** ** Events *)

(** [vTaskPlaceOnEventList] *)
Definition vTaskPlaceOnEventList (pxEventList : nat) (xTicksToWait : Z) : KM unit :=
  t ← current;
  do_lists (vListInsert pxEventList (xEventListItem t));;
  prvAddCurrentTaskToDelayedList xTicksToWait true.

(** [vTaskPlaceOnUnorderedEventList] *)
Definition vTaskPlaceOnUnorderedEventList (pxEventList : nat) (xItemValue xTicksToWait : Z) : KM unit :=
  susp ← gets uxSchedulerSuspended;
  configASSERT (negb (susp =? 0));;
  t ← current;
  do_lists (listSET_LIST_ITEM_VALUE (xEventListItem t) (xItemValue .| taskEVENT_LIST_ITEM_VALUE_IN_USE));;
  do_lists (vListInsertEnd pxEventList (xEventListItem t));;
  prvAddCurrentTaskToDelayedList xTicksToWait true.

(** [vTaskPlaceOnEventListRestricted] *)
Definition vTaskPlaceOnEventListRestricted (pxEventList : nat) (xTicksToWait : Z) (xWaitIndefinitely : bool)
  : KM unit :=
  t ← current;
  do_lists (vListInsertEnd pxEventList (xEventListItem t));;
  prvAddCurrentTaskToDelayedList (if xWaitIndefinitely then portMAX_DELAY else xTicksToWait) xWaitIndefinitely.

(** [xTaskRemoveFromEventList] *)
Definition xTaskRemoveFromEventList (pxEventList : nat) : KM bool :=
  t ← ask_lists (listGET_OWNER_OF_HEAD_ENTRY pxEventList);
  on_lists (uxListRemove (xEventListItem t));;
  susp ← gets uxSchedulerSuspended;
  (if susp =? 0 then
     on_lists (uxListRemove (xStateListItem t));;
     prvAddTaskToReadyList t
   else do_lists (vListInsertEnd xPendingReadyList (xEventListItem t)));;
  x ← get_tcb t;
  c ← current;
  y ← get_tcb c;
  if uxPriority x >? uxPriority y then modify (set_xYieldPending true);; mret true
  else mret false.

(** [vTaskRemoveFromUnorderedEventList] of the item with number [i] *)
Definition vTaskRemoveFromUnorderedEventList (i : nat) (xItemValue : Z) : KM unit :=
  susp ← gets uxSchedulerSuspended;
  configASSERT (negb (susp =? 0));;
  do_lists (listSET_LIST_ITEM_VALUE i (xItemValue .| taskEVENT_LIST_ITEM_VALUE_IN_USE));;
  t ← ask_lists (fun h => x ← get_item (Item i) h; deref (pvOwner x));
  on_lists (uxListRemove i);;
  on_lists (uxListRemove (xStateListItem t));;
  prvAddTaskToReadyList t;;
  x ← get_tcb t;
  c ← current;
  y ← get_tcb c;
  when (uxPriority x >? uxPriority y) (modify (set_xYieldPending true)).

(** [uxTaskResetEventItemValue] *)
Definition uxTaskResetEventItemValue : KM Z :=
  t ← current;
  v ← ask_lists (listGET_LIST_ITEM_VALUE (xEventListItem t));
  x ← get_tcb t;
  do_lists (listSET_LIST_ITEM_VALUE (xEventListItem t) (configMAX_PRIORITIES - uxPriority x));;
  mret v.

(** [TimeOut_t]; [vTaskSetTimeOutState] and [vTaskInternalSetTimeOutState] *)
Record TimeOut_t : Set := mkTimeOut { xOverflowCount : Z; xTimeOnEntering : Z }.

Definition vTaskSetTimeOutState : KM TimeOut_t :=
  o ← gets xNumOfOverflows;
  n ← gets xTickCount;
  mret (mkTimeOut o n).

(** [xTaskCheckForTimeOut]: the answer, and the new [*pxTimeOut] and
    [*pxTicksToWait]. *)
Definition xTaskCheckForTimeOut (pxTimeOut : TimeOut_t) (pxTicksToWait : Z) : KM (bool * TimeOut_t * Z) :=
  xConstTickCount ← gets xTickCount;
  let xElapsedTime := u32 (xConstTickCount - xTimeOnEntering pxTimeOut) in
  c ← current;
  y ← get_tcb c;
  n ← gets xNumOfOverflows;
  if ucDelayAborted y then
    put_tcb c (set_ucDelayAborted false y);; mret (true, pxTimeOut, pxTicksToWait)
  else if pxTicksToWait =? portMAX_DELAY then mret (false, pxTimeOut, pxTicksToWait)
  else if negb (n =? xOverflowCount pxTimeOut) && (xConstTickCount >=? xTimeOnEntering pxTimeOut)
  then mret (true, pxTimeOut, 0)
  else if xElapsedTime <? pxTicksToWait then
    o ← vTaskSetTimeOutState;
    mret (false, o, u32 (pxTicksToWait - xElapsedTime))
  else mret (true, pxTimeOut, 0).

(** [vTaskMissedYield] *)
Definition vTaskMissedYield : KM unit := modify (set_xYieldPending true).

(** [xTaskGetSchedulerState] *)
Definition taskSCHEDULER_SUSPENDED : Z := 0.
Definition taskSCHEDULER_NOT_STARTED : Z := 1.
Definition taskSCHEDULER_RUNNING : Z := 2.

Definition xTaskGetSchedulerState : KM Z :=
  running ← gets xSchedulerRunning;
  if running : bool then
    n ← gets uxSchedulerSuspended;
    mret (if n =? 0 then taskSCHEDULER_RUNNING else taskSCHEDULER_SUSPENDED)
  else mret taskSCHEDULER_NOT_STARTED.

(** ** Priority inheritance *)

(** [pvTaskIncrementMutexHeldCount] *)
Definition pvTaskIncrementMutexHeldCount : KM (option nat) :=
  c ← gets pxCurrentTCB;
  match c with
  | Some t => x ← get_tcb t; put_tcb t (set_uxMutexesHeld (u32 (uxMutexesHeld x + 1)) x);; mret c
  | None => mret c
  end.

(** [xTaskPriorityInherit] *)
Definition xTaskPriorityInherit (pxMutexHolder : option nat) : KM bool :=
  match pxMutexHolder with
  | None => mret false
  | Some t =>
      x ← get_tcb t;
      c ← current;
      y ← get_tcb c;
      if uxPriority x <? uxPriority y then
        set_event_priority t (uxPriority y);;
        b ← ask_lists (listIS_CONTAINED_WITHIN (pxReadyTasksLists (uxPriority x)) (xStateListItem t));
        (if b : bool then
           on_lists (uxListRemove (xStateListItem t));;
           put_tcb t (set_uxPriority (uxPriority y) x);;
           prvAddTaskToReadyList t
         else put_tcb t (set_uxPriority (uxPriority y) x));;
        mret true
      else mret (uxBasePriority x <? uxPriority y)
  end.

(** [xTaskPriorityDisinherit] *)
Definition xTaskPriorityDisinherit (pxMutexHolder : option nat) : KM bool :=
  match pxMutexHolder with
  | None => mret false
  | Some t =>
      c ← gets pxCurrentTCB;
      configASSERT (bool_decide (c = Some t));;
      x ← get_tcb t;
      configASSERT (negb (uxMutexesHeld x =? 0));;
      let x := set_uxMutexesHeld (u32 (uxMutexesHeld x - 1)) x in
      put_tcb t x;;
      if negb (uxPriority x =? uxBasePriority x) && (uxMutexesHeld x =? 0) then
        on_lists (uxListRemove (xStateListItem t));;
        put_tcb t (set_uxPriority (uxBasePriority x) x);;
        do_lists (listSET_LIST_ITEM_VALUE (xEventListItem t) (configMAX_PRIORITIES - uxBasePriority x));;
        prvAddTaskToReadyList t;;
        mret true
      else mret false
  end.

(** [vTaskPriorityDisinheritAfterTimeout] *)
Definition vTaskPriorityDisinheritAfterTimeout (pxMutexHolder : option nat) (uxHighestPriorityWaitingTask : Z)
  : KM unit :=
  match pxMutexHolder with
  | None => mret tt
  | Some t =>
      x ← get_tcb t;
      configASSERT (negb (uxMutexesHeld x =? 0));;
      let uxPriorityToUse := if uxBasePriority x <? uxHighestPriorityWaitingTask
                             then uxHighestPriorityWaitingTask else uxBasePriority x in
      if negb (uxPriority x =? uxPriorityToUse) && (uxMutexesHeld x =? 1) then
        c ← gets pxCurrentTCB;
        configASSERT (negb (bool_decide (c = Some t)));;
        let uxPriorityUsedOnEntry := uxPriority x in
        put_tcb t (set_uxPriority uxPriorityToUse x);;
        set_event_priority t uxPriorityToUse;;
        move_if_ready t uxPriorityUsedOnEntry
      else mret tt
  end.

(** ** Notifications *)

Inductive eNotifyAction : Set :=
  eNoAction | eSetBits | eIncrement | eSetValueWithOverwrite | eSetValueWithoutOverwrite.

(** The [switch] of [xTaskGenericNotify] and [xTaskGenericNotifyFromISR]: the
    new notification value and the value to return. *)
Definition notify_action (eAction : eNotifyAction) (ulValue : Z) (x : TCB_t) : Z * bool :=
  match eAction with
  | eSetBits => (ulNotifiedValue x .| ulValue, true)
  | eIncrement => (u32 (ulNotifiedValue x + 1), true)
  | eSetValueWithOverwrite => (ulValue, true)
  | eSetValueWithoutOverwrite =>
      if negb (ucNotifyState x =? taskNOTIFICATION_RECEIVED) then (ulValue, true)
      else (ulNotifiedValue x, false)
  | eNoAction => (ulNotifiedValue x, true)
  end.

(** [xTaskGenericNotify]: the answer and [*pulPreviousNotificationValue]. *)
Definition xTaskGenericNotify (t : nat) (ulValue : Z) (eAction : eNotifyAction) : KM (bool * Z) :=
  x ← get_tcb t;
  let '(v, xReturn) := notify_action eAction ulValue x in
  put_tcb t (set_ulNotifiedValue v (set_ucNotifyState taskNOTIFICATION_RECEIVED x));;
  (if ucNotifyState x =? taskWAITING_NOTIFICATION then
     on_lists (uxListRemove (xStateListItem t));;
     prvAddTaskToReadyList t;;
     e ← ask_lists (listLIST_ITEM_CONTAINER (xEventListItem t));
     configASSERT (bool_decide (e = None));;
     c ← current;
     y ← get_tcb c;
     when (uxPriority x >? uxPriority y) portYIELD_WITHIN_API
   else mret tt);;
  mret (xReturn, ulNotifiedValue x).

(** The end of the two notifications from an interrupt: the task, which waited,
    is made ready or held pending; [woken] is [*pxHigherPriorityTaskWoken]. *)
Definition notify_unblock_from_isr (t : nat) (woken : bool) : KM bool :=
  e ← ask_lists (listLIST_ITEM_CONTAINER (xEventListItem t));
  configASSERT (bool_decide (e = None));;
  susp ← gets uxSchedulerSuspended;
  (if susp =? 0 then
     on_lists (uxListRemove (xStateListItem t));;
     prvAddTaskToReadyList t
   else do_lists (vListInsertEnd xPendingReadyList (xEventListItem t)));;
  x ← get_tcb t;
  c ← current;
  y ← get_tcb c;
  if uxPriority x >? uxPriority y then modify (set_xYieldPending true);; mret true
  else mret woken.

(** [xTaskGenericNotifyFromISR] *)
Definition xTaskGenericNotifyFromISR (t : nat) (ulValue : Z) (eAction : eNotifyAction) (woken : bool)
  : KM (bool * Z * bool) :=
  x ← get_tcb t;
  let '(v, xReturn) := notify_action eAction ulValue x in
  put_tcb t (set_ulNotifiedValue v (set_ucNotifyState taskNOTIFICATION_RECEIVED x));;
  woken ← (if ucNotifyState x =? taskWAITING_NOTIFICATION then notify_unblock_from_isr t woken
           else mret woken);
  mret (xReturn, ulNotifiedValue x, woken).

(** [vTaskGenericNotifyGiveFromISR] *)
Definition vTaskGenericNotifyGiveFromISR (t : nat) (woken : bool) : KM bool :=
  x ← get_tcb t;
  put_tcb t (set_ulNotifiedValue (u32 (ulNotifiedValue x + 1)) (set_ucNotifyState taskNOTIFICATION_RECEIVED x));;
  if ucNotifyState x =? taskWAITING_NOTIFICATION then notify_unblock_from_isr t woken else mret woken.

(** [xTaskGenericNotifyStateClear], [ulTaskGenericNotifyValueClear] *)
Definition xTaskGenericNotifyStateClear (h : option nat) : KM bool :=
  t ← prvGetTCBFromHandle h;
  x ← get_tcb t;
  if ucNotifyState x =? taskNOTIFICATION_RECEIVED
  then put_tcb t (set_ucNotifyState taskNOT_WAITING_NOTIFICATION x);; mret true
  else mret false.

Definition ulTaskGenericNotifyValueClear (h : option nat) (ulBitsToClear : Z) : KM Z :=
  t ← prvGetTCBFromHandle h;
  x ← get_tcb t;
  put_tcb t (set_ulNotifiedValue (ulNotifiedValue x .& .~ ulBitsToClear) x);;
  mret (ulNotifiedValue x).

(** [xTaskGenericNotifyWait]: the critical section before the wait, and the one
    after it, which runs when the task does again. *)
Definition notify_wait_enter (ulBitsToClearOnEntry xTicksToWait : Z) : KM unit :=
  t ← current;
  x ← get_tcb t;
  if negb (ucNotifyState x =? taskNOTIFICATION_RECEIVED) then
    put_tcb t (set_ucNotifyState taskWAITING_NOTIFICATION
                 (set_ulNotifiedValue (ulNotifiedValue x .& .~ ulBitsToClearOnEntry) x));;
    when (xTicksToWait >? 0) (prvAddCurrentTaskToDelayedList xTicksToWait true;; portYIELD_WITHIN_API)
  else mret tt.

Definition notify_wait_leave (ulBitsToClearOnExit : Z) : KM (bool * Z) :=
  t ← current;
  x ← get_tcb t;
  let received := ucNotifyState x =? taskNOTIFICATION_RECEIVED in
  let v := if received then ulNotifiedValue x .& .~ ulBitsToClearOnExit else ulNotifiedValue x in
  put_tcb t (set_ucNotifyState taskNOT_WAITING_NOTIFICATION (set_ulNotifiedValue v x));;
  mret (received, ulNotifiedValue x).

(** [ulTaskGenericNotifyTake]: likewise. *)
Definition notify_take_enter (xTicksToWait : Z) : KM unit :=
  t ← current;
  x ← get_tcb t;
  if ulNotifiedValue x =? 0 then
    put_tcb t (set_ucNotifyState taskWAITING_NOTIFICATION x);;
    when (xTicksToWait >? 0) (prvAddCurrentTaskToDelayedList xTicksToWait true;; portYIELD_WITHIN_API)
  else mret tt.

Definition notify_take_leave (xClearCountOnExit : bool) : KM Z :=
  t ← current;
  x ← get_tcb t;
  let v := if ulNotifiedValue x =? 0 then 0
           else if xClearCountOnExit then 0 else u32 (ulNotifiedValue x - 1) in
  put_tcb t (set_ucNotifyState taskNOT_WAITING_NOTIFICATION (set_ulNotifiedValue v x));;
  mret (ulNotifiedValue x).

(** ** The idle task, the end of the scheduler and the inquiries *)

(** A round of the loop of [prvIdleTask]. *)
Definition idle_round : KM unit :=
  d ← gets uxDeletedTasksWaitingCleanUp;
  prvCheckTasksWaitingTermination (Z.to_nat d);;
  n ← ask_lists (listCURRENT_LIST_LENGTH (pxReadyTasksLists 0));
  when (1 <? n) portYIELD_WITHIN_API.

(** [vTaskEndScheduler], before [vPortEndScheduler], whose assertion stops the
    firmware. *)
Definition vTaskEndScheduler : KM unit := modify (set_xSchedulerRunning false).

(** [xTaskGetTickCount] and [xTaskGetTickCountFromISR] *)
Definition xTaskGetTickCount : KM Z := gets xTickCount.

Definition uxTaskGetNumberOfTasks : KM Z := gets uxCurrentNumberOfTasks.

Definition xTaskGetCurrentTaskHandle : KM (option nat) := gets pxCurrentTCB.
