(* ===== verification/FreeRTOSTasksTheory.v ===== *)
(** * The invariant of the scheduler

    A weakest precondition for the kernel's state monad, the invariant that
    relates the task control blocks, the lists and the time, and what the list
    operations of the scheduler do to it.  A task in the middle of a move from
    one list to another is exempt from the part of the invariant that says
    where it is. *)

From S2P Require Import Prelude FreeRTOSList FreeRTOSListTheory FreeRTOSListStore FreeRTOSHeap FreeRTOSTasks.

(** ** Weakest preconditions *)

(** The call returns, and its result and final state satisfy [Q]. *)
Definition wp {A} (m : KM A) (Q : A -> kernel -> Prop) (k : kernel) : Prop :=
  exists a k', m k = Ok (a, k') /\ Q a k'.

Lemma wp_mono {A} (m : KM A) (P Q : A -> kernel -> Prop) k :
  wp m P k -> (forall a k', P a k' -> Q a k') -> wp m Q k.
Proof. intros (a & k' & E & H) HQ. exists a, k'. auto. Qed.

Lemma wp_bind {A B} (m : KM A) (f : A -> KM B) Q k : wp m (fun a => wp (f a) Q) k -> wp (m ≫= f) Q k.
Proof.
  intros (a & k1 & E & b & k2 & E2 & H). exists b, k2. split; [|done].
  unfold mbind, KM_bind. by rewrite E.
Qed.

Lemma wp_bind_inv {A B} (m : KM A) (f : A -> KM B) Q k : wp (m ≫= f) Q k -> wp m (fun a => wp (f a) Q) k.
Proof.
  intros (b & k2 & E & H). unfold mbind, KM_bind in E. destruct (m k) as [[a k1]|] eqn:Em; [|done].
  exists a, k1. split; [done|]. by exists b, k2.
Qed.

Lemma wp_ret {A} (a : A) Q k : Q a k -> wp (mret a) Q k.
Proof. intros H. by exists a, k. Qed.

Lemma wp_gets {A} (f : kernel -> A) Q k : Q (f k) k -> wp (gets f) Q k.
Proof. intros H. by exists (f k), k. Qed.

Lemma wp_modify f Q k : Q tt (f k) -> wp (modify f) Q k.
Proof. intros H. by exists tt, (f k). Qed.

Lemma wp_configASSERT b (Q : unit -> kernel -> Prop) k : b = true -> Q tt k -> wp (configASSERT b) Q k.
Proof. intros -> H. by exists tt, k. Qed.

Lemma wp_get_tcb t x (Q : TCB_t -> kernel -> Prop) k : k_tcbs k !! t = Some x -> Q x k -> wp (get_tcb t) Q k.
Proof. intros E H. exists x, k. unfold get_tcb. by rewrite E. Qed.

Lemma wp_current c (Q : nat -> kernel -> Prop) k : pxCurrentTCB k = Some c -> Q c k -> wp current Q k.
Proof. intros E H. exists c, k. unfold current. by rewrite E. Qed.

Lemma wp_ask {A} (f : list_heap -> res A) a (Q : A -> kernel -> Prop) k :
  f (k_lists k) = Ok a -> Q a k -> wp (ask_lists f) Q k.
Proof. intros E H. exists a, k. unfold ask_lists. by rewrite E. Qed.

Lemma wp_do f h (Q : unit -> kernel -> Prop) k :
  f (k_lists k) = Ok h -> Q tt (set_k_lists h k) -> wp (do_lists f) Q k.
Proof. intros E H. exists tt, (set_k_lists h k). unfold do_lists. by rewrite E. Qed.

Lemma wp_on {A} (f : list_heap -> res (A * list_heap)) a h (Q : A -> kernel -> Prop) k :
  f (k_lists k) = Ok (a, h) -> Q a (set_k_lists h k) -> wp (on_lists f) Q k.
Proof. intros E H. exists a, (set_k_lists h k). unfold on_lists. by rewrite E. Qed.

Lemma wp_when (b : bool) m (Q : unit -> kernel -> Prop) k :
  (b = true -> wp m Q k) -> (b = false -> Q tt k) -> wp (when b m) Q k.
Proof. destruct b; intros H1 H2; [by apply H1|by apply wp_ret, H2]. Qed.

Lemma wp_if {A} (b : bool) (m1 m2 : KM A) Q k :
  (b = true -> wp m1 Q k) -> (b = false -> wp m2 Q k) -> wp (if b then m1 else m2) Q k.
Proof. destruct b; auto. Qed.

(** Reduces the projections of a state that was assigned to. *)
Declare Reduction kred := cbn [k_lists k_tcbs k_heap k_objects pxCurrentTCB pxDelayedTaskList pxOverflowDelayedTaskList
       uxDeletedTasksWaitingCleanUp uxCurrentNumberOfTasks xTickCount uxTopReadyPriority xSchedulerRunning
       xPendedTicks xYieldPending xNumOfOverflows uxTaskNumber xNextTaskUnblockTime uxSchedulerSuspended pendsv
       set_k_lists set_k_tcbs set_k_heap set_k_objects set_pxCurrentTCB set_pxDelayedTaskList set_pxOverflowDelayedTaskList
       set_uxDeletedTasksWaitingCleanUp set_uxCurrentNumberOfTasks set_xTickCount set_uxTopReadyPriority
       set_xSchedulerRunning set_xPendedTicks set_xYieldPending set_xNumOfOverflows set_uxTaskNumber
       set_xNextTaskUnblockTime set_uxSchedulerSuspended set_pendsv].
Ltac kcbn := match goal with |- ?G => let G' := eval kred in G in change G' end.
Ltac kcbn_in H := let G := type of H in let G' := eval kred in G in change G' in H.

(** The steps of a call that need no argument. *)
Ltac wp_step :=
  lazymatch goal with
  | |- wp (_ ≫= _) _ _ => apply wp_bind
  | |- wp (gets _) _ _ => apply wp_gets
  | |- wp (modify _) _ _ => apply wp_modify
  | |- wp (put_tcb _ _) _ _ => apply wp_modify
  | |- wp (mret _) _ _ => apply wp_ret
  | |- wp portYIELD_WITHIN_API _ _ => apply wp_modify
  | |- wp (let _ := _ in _) _ _ => cbv zeta
  end; cbv beta.
Ltac wps := cbv beta; repeat wp_step.

(** The running task and its control block. *)
Ltac wp_running Hc Hy := eapply wp_current; [exact Hc|]; wps; eapply wp_get_tcb; [exact Hy|]; wps.

Ltac wp_running_only Hc Hy :=
  apply wp_bind; eapply wp_current; [exact Hc|]; cbv beta; apply wp_bind; eapply wp_get_tcb; [exact Hy|]; cbv beta zeta.

(** ** The invariant *)

(** Event lists hold the event items of tasks, the other lists the state items. *)
Definition event_list (l : nat) : bool := (l =? xPendingReadyList)%nat || (first_event_list <=? l)%nat.
Definition ready_list (l : nat) : bool := (l <? Z.to_nat configMAX_PRIORITIES)%nat.

(** The item of a task: in the heap, owned by it, with a value of 32 bits. *)
Record item_ok (h : list_heap) (i t : nat) : Prop := {
  it_present : present h (Item i);
  it_owner : owner h (Item i) = Some t;
  it_value : in_range 32 (value h (Item i));
}.

(** The item is in no list. *)
Definition detached (L : store) (i : nat) : Prop := forall l, i ∉ members L l.

(** The item is in no list but the pending ready list, if in any. *)
Definition pended (L : store) (i : nat) : Prop := forall l, i ∈ members L l -> l = xPendingReadyList.

(** The idle task, or while the scheduler does not run yet any task; the number of
    event lists that were created; whether the scheduler runs. *)
Record system : Set := mkSystem { idle_task : nat; event_lists : nat; started : bool }.

(** The tasks and the lists: every task is in the lists of its state, except
    the task [o], and a ready task is in the list of its priority. *)
Record tasks_ok (sys : system) (o : option nat) (h : list_heap) (T : gmap nat TCB_t) (L : store) : Prop := {
  tk_stored : stored h L;
  tk_lists l : (l < first_event_list + event_lists sys)%nat -> is_Some (L !! l);
  tk_state_item t : is_Some (T !! t) -> item_ok h (xStateListItem t) t;
  tk_event_item t : is_Some (T !! t) -> item_ok h (xEventListItem t) t;
  tk_members l i : i ∈ members L l ->
    exists t, is_Some (T !! t) /\ i = (if event_list l then xEventListItem t else xStateListItem t);
  tk_state t : is_Some (T !! t) -> o <> Some t -> exists l, xStateListItem t ∈ members L l;
  tk_ready t x p : T !! t = Some x -> o <> Some t -> ready_list p = true -> xStateListItem t ∈ members L p ->
    uxPriority x = Z.of_nat p /\ pended L (xEventListItem t);
  tk_priority t x : T !! t = Some x -> 0 <= uxPriority x < configMAX_PRIORITIES /\
    0 <= uxBasePriority x < configMAX_PRIORITIES;
  tk_waiting t x : T !! t = Some x -> ucNotifyState x = taskWAITING_NOTIFICATION -> detached L (xEventListItem t);
  tk_idle : is_Some (T !! idle_task sys);
  tk_idle_ready : o <> Some (idle_task sys) -> exists p, ready_list p = true /\ xStateListItem (idle_task sys) ∈ members L p;
}.

(** No ready task has a priority above [top]. *)
Definition below (top : Z) (L : store) : Prop :=
  forall p, ready_list p = true -> members L p <> [] -> Z.of_nat p <= top.

(** The delayed lists are in order of the wake times; those of the current list
    are at least [lo], those of the other have wrapped around. *)
Record delays_ok (lo tick : Z) (d ov : nat) (h : list_heap) (L : store) : Prop := {
  dl_lists : (d = xDelayedTaskList1 /\ ov = xDelayedTaskList2) \/ (d = xDelayedTaskList2 /\ ov = xDelayedTaskList1);
  dl_sorted : sorted (fun i => value h (Item i)) (members L d);
  dl_sorted_overflow : sorted (fun i => value h (Item i)) (members L ov);
  dl_wake i : i ∈ members L d -> lo <= value h (Item i);
  dl_wake_overflow i : i ∈ members L ov -> value h (Item i) < tick;
}.

Definition next_ok (next : Z) (d : nat) (h : list_heap) (L : store) : Prop :=
  forall i, i ∈ members L d -> next <= value h (Item i).

Record kernel_ok (sys : system) (o : option nat) (lo : Z) (k : kernel) (L : store) : Prop := {
  ok_tasks : tasks_ok sys o (k_lists k) (k_tcbs k) L;
  ok_top : below (uxTopReadyPriority k) L;
  ok_top_range : 0 <= uxTopReadyPriority k < configMAX_PRIORITIES;
  ok_delays : delays_ok lo (xTickCount k) (pxDelayedTaskList k) (pxOverflowDelayedTaskList k) (k_lists k) L;
  ok_next : next_ok (xNextTaskUnblockTime k) (pxDelayedTaskList k) (k_lists k) L;
  ok_current : exists c y, pxCurrentTCB k = Some c /\ k_tcbs k !! c = Some y;
  ok_tick : in_range 32 (xTickCount k);
  ok_suspended : in_range 32 (uxSchedulerSuspended k);
  ok_pended : in_range 32 (xPendedTicks k);
  ok_running : xSchedulerRunning k = started sys;
}.

(** A context switch has been asked for. *)
Definition switch_pending (k : kernel) : bool := pendsv k || xYieldPending k.

(** Unless a switch is pending no ready task outranks the running one. *)
Definition preempted (b : bool) (T : gmap nat TCB_t) (cur : option nat) (L : store) : Prop :=
  b = false -> forall c y, cur = Some c -> T !! c = Some y -> below (uxPriority y) L.

(** ** Items and lists *)

Ltac list_kinds :=
  unfold event_list, ready_list, pxReadyTasksLists, xPendingReadyList, first_event_list, xDelayedTaskList1,
    xDelayedTaskList2, xSuspendedTaskList, xTasksWaitingTermination, configMAX_PRIORITIES in *;
  rewrite ?orb_true_iff, ?orb_false_iff, ?Nat.eqb_eq, ?Nat.eqb_neq, ?Nat.ltb_lt, ?Nat.ltb_ge, ?Nat.leb_le,
    ?Nat.leb_gt in *; lia.

Lemma state_item_inj t t' : xStateListItem t = xStateListItem t' -> t = t'.
Proof. unfold xStateListItem. lia. Qed.

Lemma event_item_inj t t' : xEventListItem t = xEventListItem t' -> t = t'.
Proof. unfold xEventListItem. lia. Qed.

Lemma state_not_event t t' : xStateListItem t <> xEventListItem t'.
Proof. unfold xStateListItem, xEventListItem. lia. Qed.

Lemma item_ok_same h h' i t : same_items h h' -> item_ok h i t -> item_ok h' i t.
Proof. intros [Hp Hv Ho] []. split; [by apply Hp|by rewrite Ho|by rewrite Hv]. Qed.

Lemma detached_without L i : detached (without i <$> L) i.
Proof. intros l. rewrite members_without, elem_of_without. tauto. Qed.

Lemma detached_without_other L i j : detached L j -> detached (without i <$> L) j.
Proof. intros H l. rewrite members_without, elem_of_without. intros [_ Hj]. by apply (H l). Qed.

Lemma detached_pended L i : detached L i -> pended L i.
Proof. intros H l Hl. by destruct (H l). Qed.

Lemma pended_without L i j : pended L j -> pended (without i <$> L) j.
Proof. intros H l. rewrite members_without, elem_of_without. intros [_ Hj]. by apply H. Qed.

Lemma without_lists i (L : store) l : is_Some (L !! l) -> is_Some ((without i <$> L) !! l).
Proof. intros [ns E]. rewrite lookup_fmap, E. eauto. Qed.

Lemma insert_lists (L : store) l l' ns : is_Some (L !! l') -> is_Some (<[l := ns]> L !! l').
Proof. destruct (decide (l' = l)) as [->|]; [rewrite lookup_insert_eq; eauto|by rewrite lookup_insert_ne]. Qed.

(** The members after an insertion of [i] into [l]. *)
Lemma elem_of_inserted (L : store) l ns' i :
  (forall j, j ∈ ns' <-> j = i \/ j ∈ members L l) ->
  forall l' j, j ∈ members (<[l := ns']> L) l' <-> (l' = l /\ j = i) \/ j ∈ members L l'.
Proof.
  intros H l' j. destruct (decide (l' = l)) as [->|Hne].
  - rewrite members_insert_eq, H. tauto.
  - rewrite members_insert_ne by done. tauto.
Qed.

Lemma members_nil {L : store} {l i} : i ∈ members L l -> members L l <> [].
Proof. intros Hi E. rewrite E in Hi. by apply elem_of_nil in Hi. Qed.

(** ** Moves of the items of tasks *)

Section Tasks.
Context (sys : system) (h : list_heap) (T : gmap nat TCB_t) (L : store).

Lemma tk_weaken t : tasks_ok sys None h T L -> tasks_ok sys (Some t) h T L.
Proof. intros []. split; auto. all: intros; eauto. Qed.

Lemma tk_weaken_any o t : o = None \/ o = Some t -> tasks_ok sys o h T L -> tasks_ok sys (Some t) h T L.
Proof. intros [-> | ->]; [apply tk_weaken|done]. Qed.

End Tasks.

(** The exempt task is where its state item is. *)
Lemma tk_restore sys h T L t l :
  tasks_ok sys (Some t) h T L -> xStateListItem t ∈ members L l ->
  (ready_list l = true -> forall x, T !! t = Some x -> uxPriority x = Z.of_nat l /\ pended L (xEventListItem t)) ->
  (t = idle_task sys -> ready_list l = true) -> tasks_ok sys None h T L.
Proof.
  intros H Hin Hr Hi. destruct H as [S Hl Hsi Hei Hm Hs Hrd Hp Hw Hid Hidr].
  split; [done..|by apply Hm| | |done|done|done|].
  - intros u Hu _. destruct (decide (u = t)) as [->|]; [by exists l|]. apply Hs; congruence.
  - intros u x p Hu _ Hp' Hin'. destruct (decide (u = t)) as [->|Hne]; [|by apply (Hrd u x p); congruence].
    rewrite (st_unique _ _ S _ _ _ Hin' Hin) in *. by apply Hr.
  - intros _. destruct (decide (t = idle_task sys)) as [->|]; [eauto|]. apply Hidr. congruence.
Qed.

Section Moves.
Context (sys : system) (h : list_heap) (T : gmap nat TCB_t) (L : store).

Lemma tk_remove o i l :
  tasks_ok sys o h T L -> i ∈ members L l -> (forall t, i = xStateListItem t -> o = Some t) ->
  exists n h', uxListRemove i h = Ok (n, h') /\ tasks_ok sys o h' T (without i <$> L) /\ same_items h h'.
Proof.
  intros [S Hl Hsi Hei Hm Hs Hrd Hp Hw Hid Hidr] Hi Hx.
  destruct (st_remove _ _ S _ _ Hi) as (n & h' & E & S' & HS). exists n, h'. split; [done|]. split; [|done].
  assert (forall u l', o <> Some u -> xStateListItem u ∈ members L l' ->
            xStateListItem u ∈ members (without i <$> L) l') as Hk.
  { intros u l' Hu Hin. rewrite members_without, elem_of_without. split; [|done]. intros E'. by apply Hu, Hx. }
  split; [done|..|by apply Hp| |done|].
  - intros. by apply without_lists, Hl.
  - intros. by apply (item_ok_same h), Hsi.
  - intros. by apply (item_ok_same h), Hei.
  - intros l' j. rewrite members_without, elem_of_without. intros [_ Hj]. by apply Hm.
  - intros u Hu Ho. destruct (Hs u Hu Ho) as [l' Hin]. exists l'. by apply Hk.
  - intros u x p Hu Ho Hp'. rewrite members_without, elem_of_without. intros [_ Hin].
    destruct (Hrd u x p Hu Ho Hp' Hin). split; [done|by apply pended_without].
  - intros u x Hu Hn. by apply detached_without_other, (Hw u x).
  - intros Ho. destruct (Hidr Ho) as (p & Hp' & Hin). exists p. auto.
Qed.

(** The state item of the exempt task goes into a list. *)
Lemma tk_insert_state t l ns' h' :
  tasks_ok sys (Some t) h T L -> stored h' (<[l := ns']> L) -> same_items h h' ->
  (forall j, j ∈ ns' <-> j = xStateListItem t \/ j ∈ members L l) ->
  is_Some (T !! t) -> event_list l = false ->
  (ready_list l = true -> forall x, T !! t = Some x -> uxPriority x = Z.of_nat l /\ pended L (xEventListItem t)) ->
  (t = idle_task sys -> ready_list l = true) -> tasks_ok sys None h' T (<[l := ns']> L).
Proof.
  intros [S Hl Hsi Hei Hm Hs Hrd Hp Hw Hid Hidr] S' HS Hns Ht Hev Hr Hi.
  pose proof (elem_of_inserted L l ns' _ Hns) as Hmem.
  assert (forall u, detached L (xEventListItem u) -> detached (<[l := ns']> L) (xEventListItem u)) as Hd.
  { intros u Hu l'. rewrite Hmem. intros [[_ E]|Hin]; [by apply (state_not_event t u)|by apply (Hu l')]. }
  assert (forall u, pended L (xEventListItem u) -> pended (<[l := ns']> L) (xEventListItem u)) as Hpe.
  { intros u Hu l'. rewrite Hmem. intros [[_ E]|Hin]; [by destruct (state_not_event t u)|by apply (Hu l')]. }
  assert (tasks_ok sys (Some t) h' T (<[l := ns']> L)) as H.
  { split; [done|..|by apply Hp| |done|].
    - intros. by apply insert_lists, Hl.
    - intros. by apply (item_ok_same h), Hsi.
    - intros. by apply (item_ok_same h), Hei.
    - intros l' j. rewrite Hmem. intros [[-> ->]|Hj]; [|by apply Hm]. exists t. by rewrite Hev.
    - intros u Hu Ho. destruct (Hs u Hu Ho) as [l' Hin]. exists l'. rewrite Hmem. tauto.
    - intros u x p Hu Ho Hp'. rewrite Hmem. intros [[_ E]|Hin].
      + apply state_item_inj in E. congruence.
      + destruct (Hrd u x p Hu Ho Hp' Hin). auto.
    - intros u x Hu Hn. by eapply Hd, Hw.
    - intros Ho. destruct (Hidr Ho) as (p & Hp' & Hin). exists p. rewrite Hmem. tauto. }
  apply (tk_restore sys h' T _ t l); [done|rewrite Hmem; tauto| |done].
  intros Hl' x Hx. destruct (Hr Hl' x Hx). auto.
Qed.

(** The event item of the exempt task goes into a list. *)
Lemma tk_insert_event t x l ns' h' :
  tasks_ok sys (Some t) h T L -> stored h' (<[l := ns']> L) -> same_items h h' ->
  (forall j, j ∈ ns' <-> j = xEventListItem t \/ j ∈ members L l) ->
  T !! t = Some x -> ucNotifyState x <> taskWAITING_NOTIFICATION -> event_list l = true ->
  tasks_ok sys (Some t) h' T (<[l := ns']> L).
Proof.
  intros [S Hl Hsi Hei Hm Hs Hrd Hp Hw Hid Hidr] S' HS Hns Ht Hnw Hev.
  pose proof (elem_of_inserted L l ns' _ Hns) as Hmem.
  assert (forall u, u <> t -> detached L (xEventListItem u) -> detached (<[l := ns']> L) (xEventListItem u)) as Hd.
  { intros u Hne Hu l'. rewrite Hmem. intros [[_ E]|Hin]; [by apply Hne, event_item_inj|by apply (Hu l')]. }
  assert (forall u, u <> t -> pended L (xEventListItem u) -> pended (<[l := ns']> L) (xEventListItem u)) as Hpe.
  { intros u Hne Hu l'. rewrite Hmem. intros [[_ E]|Hin]; [by destruct Hne; apply event_item_inj|by apply (Hu l')]. }
  split; [done|..|by apply Hp| |done|].
  - intros. by apply insert_lists, Hl.
  - intros. by apply (item_ok_same h), Hsi.
  - intros. by apply (item_ok_same h), Hei.
  - intros l' j. rewrite Hmem. intros [[-> ->]|Hj]; [|by apply Hm]. exists t. rewrite Hev. eauto.
  - intros u Hu Ho. destruct (Hs u Hu Ho) as [l' Hin]. exists l'. rewrite Hmem. tauto.
  - intros u y p Hu Ho Hp'. rewrite Hmem. intros [[_ E]|Hin]; [by apply state_not_event in E|].
    destruct (Hrd u y p Hu Ho Hp' Hin). split; [done|]. apply Hpe; [congruence|done].
  - intros u y Hu Hn. apply Hd; [intros ->; congruence|by apply (Hw u y)].
  - intros Ho. destruct (Hidr Ho) as (p & Hp' & Hin). exists p. rewrite Hmem. tauto.
Qed.

(** An assignment to the value of an item. *)
Lemma tk_set_value o i v :
  tasks_ok sys o h T L -> present h (Item i) ->
  exists h', listSET_LIST_ITEM_VALUE i v h = Ok h' /\ tasks_ok sys o h' T L /\
    forall x, value h' x = upd (value h) (Item i) (u32 v) x.
Proof.
  intros [S Hl Hsi Hei Hm Hs Hrd Hp Hw Hid Hidr] Hpr.
  destruct (st_set_value _ _ S i v Hpr) as (h' & E & S' & Hpr' & Ho' & Hv'). exists h'. split; [done|]. split; [|done].
  assert (forall j t, item_ok h j t -> item_ok h' j t) as Hit.
  { intros j t [? ? ?]. split; [by apply Hpr'|by rewrite Ho'|]. rewrite Hv'. unfold upd.
    case_decide; [apply in_range_wrapu; lia|done]. }
  split; auto.
Qed.

(** An assignment to the control block of a task. *)
Lemma tk_put_tcb o t x x' :
  tasks_ok sys o h T L -> T !! t = Some x ->
  0 <= uxPriority x' < configMAX_PRIORITIES -> 0 <= uxBasePriority x' < configMAX_PRIORITIES ->
  (uxPriority x' = uxPriority x \/ o = Some t) ->
  (ucNotifyState x' = taskWAITING_NOTIFICATION -> detached L (xEventListItem t)) ->
  tasks_ok sys o h (<[t := x']> T) L.
Proof.
  intros [S Hl Hsi Hei Hm Hs Hrd Hp Hw Hid Hidr] Ht Hpx Hbx Hpri Hn.
  assert (forall u, is_Some (<[t := x']> T !! u) <-> is_Some (T !! u)) as Hdom.
  { intros u. destruct (decide (u = t)) as [->|]; [rewrite lookup_insert_eq, Ht; split; eauto|by rewrite lookup_insert_ne]. }
  assert (forall u y, <[t := x']> T !! u = Some y -> (u = t /\ y = x') \/ (u <> t /\ T !! u = Some y)) as Hlk.
  { intros u y. destruct (decide (u = t)) as [->|]; [rewrite lookup_insert_eq; intros [= <-]; by left|].
    rewrite lookup_insert_ne by done. auto. }
  split; [done|done|..|by apply Hdom|done].
  - intros u Hu%Hdom. auto.
  - intros u Hu%Hdom. auto.
  - intros l i Hi. destruct (Hm l i Hi) as (u & Hu%Hdom & E). eauto.
  - intros u Hu%Hdom. auto.
  - intros u y p [[-> ->]|[Hne Hu]]%Hlk Ho Hp' Hin; [|by apply (Hrd u y p)].
    destruct Hpri as [->|]; [|done]. by apply (Hrd t x p).
  - intros u y [[-> ->]|[Hne Hu]]%Hlk; [done|by apply (Hp u)].
  - intros u y [[-> ->]|[Hne Hu]]%Hlk; [done|by apply (Hw u)].
Qed.

(** The items of tasks the lists of tasks hold. *)
Lemma tk_state_member o l i :
  tasks_ok sys o h T L -> event_list l = false -> i ∈ members L l ->
  exists t, i = xStateListItem t /\ is_Some (T !! t) /\ owner h (Item i) = Some t.
Proof.
  intros H Hl Hi. destruct (tk_members _ _ _ _ _ H l i Hi) as (t & Ht & E). rewrite Hl in E. subst i.
  exists t. split; [done|]. split; [done|]. apply (tk_state_item _ _ _ _ _ H t Ht).
Qed.

Lemma tk_event_member o l i :
  tasks_ok sys o h T L -> event_list l = true -> i ∈ members L l ->
  exists t, i = xEventListItem t /\ is_Some (T !! t) /\ owner h (Item i) = Some t.
Proof.
  intros H Hl Hi. destruct (tk_members _ _ _ _ _ H l i Hi) as (t & Ht & E). rewrite Hl in E. subst i.
  exists t. split; [done|]. split; [done|]. apply (tk_event_item _ _ _ _ _ H t Ht).
Qed.

Lemma tk_event_not_state o l t : tasks_ok sys o h T L -> event_list l = false -> xEventListItem t ∉ members L l.
Proof.
  intros H Hl Hi. destruct (tk_state_member o l _ H Hl Hi) as (u & E & _). by apply (state_not_event u t).
Qed.

End Moves.

(** ** Priorities and delays across the moves *)

Lemma below_without top L i : below top L -> below top (without i <$> L).
Proof.
  intros H p Hp Hne. apply H; [done|]. intros E. apply Hne. by rewrite members_without, E.
Qed.

Lemma below_insert top L l ns' :
  below top L -> (ready_list l = true -> Z.of_nat l <= top) -> below top (<[l := ns']> L).
Proof.
  intros H Hl p Hp. destruct (decide (p = l)) as [->|Hne]; [auto|]. rewrite members_insert_ne by done. by apply H.
Qed.

Lemma below_le top top' L : top <= top' -> below top L -> below top' L.
Proof. intros Hle H p Hp Hne. specialize (H p Hp Hne). lia. Qed.

Section Delays.
Context (lo tick : Z) (d ov : nat).

Lemma delays_disjoint h L : delays_ok lo tick d ov h L -> d <> ov /\ event_list d = false /\ event_list ov = false /\
  ready_list d = false /\ ready_list ov = false /\ (d < first_event_list)%nat /\ (ov < first_event_list)%nat.
Proof. intros [[[-> ->]|[-> ->]]]; repeat split; done || (unfold first_event_list; cbv; lia). Qed.

Lemma delays_values h h' L :
  (forall i, i ∈ members L d \/ i ∈ members L ov -> value h' (Item i) = value h (Item i)) ->
  delays_ok lo tick d ov h L -> delays_ok lo tick d ov h' L.
Proof.
  intros Hv []. split; [done|..].
  - eapply sorted_ext; [|done]. intros j Hj. apply Hv. auto.
  - eapply sorted_ext; [|done]. intros j Hj. apply Hv. auto.
  - intros i Hi. rewrite Hv by auto. auto.
  - intros i Hi. rewrite Hv by auto. auto.
Qed.

Lemma delays_without h h' L i :
  same_items h h' -> delays_ok lo tick d ov h L -> delays_ok lo tick d ov h' (without i <$> L).
Proof.
  intros HS H. apply (delays_values h); [intros; apply HS|]. destruct H.
  split; rewrite ?members_without; [done|by apply without_sorted|by apply without_sorted|..];
    intros j [_ ?]%elem_of_without; auto.
Qed.

Lemma delays_insert_other h h' L l ns' :
  same_items h h' -> l <> d -> l <> ov -> delays_ok lo tick d ov h L -> delays_ok lo tick d ov h' (<[l := ns']> L).
Proof.
  intros HS Hd Ho H. apply (delays_values h); [intros; apply HS|]. destruct H.
  by split; rewrite ?members_insert_ne by congruence.
Qed.

Lemma delays_insert h h' L i :
  same_items h h' -> lo <= value h (Item i) -> delays_ok lo tick d ov h L ->
  delays_ok lo tick d ov h' (<[d := insert_sorted (fun j => value h (Item j)) i (members L d)]> L).
Proof.
  intros HS Hi H. destruct (delays_disjoint _ _ H) as [Hne _].
  apply (delays_values h); [intros; apply HS|]. destruct H.
  split; rewrite ?members_insert_eq, ?members_insert_ne by congruence; try done.
  - by apply insert_sorted_sorted.
  - intros j. rewrite insert_sorted_elem. intros [->|?]; auto.
Qed.

Lemma delays_insert_overflow h h' L i :
  same_items h h' -> value h (Item i) < tick -> delays_ok lo tick d ov h L ->
  delays_ok lo tick d ov h' (<[ov := insert_sorted (fun j => value h (Item j)) i (members L ov)]> L).
Proof.
  intros HS Hi H. destruct (delays_disjoint _ _ H) as [Hne _].
  apply (delays_values h); [intros; apply HS|]. destruct H.
  split; rewrite ?members_insert_eq, ?members_insert_ne by congruence; try done.
  - by apply insert_sorted_sorted.
  - intros j. rewrite insert_sorted_elem. intros [->|?]; auto.
Qed.

End Delays.

Lemma next_without next d h h' L i : same_items h h' -> next_ok next d h L -> next_ok next d h' (without i <$> L).
Proof.
  intros HS H j. rewrite members_without, elem_of_without, (same_value _ _ HS). intros [_ ?]. by apply H.
Qed.

Lemma next_insert_other next d h h' L l ns' :
  same_items h h' -> l <> d -> next_ok next d h L -> next_ok next d h' (<[l := ns']> L).
Proof. intros HS Hne H j. rewrite members_insert_ne by done. rewrite (same_value _ _ HS). apply H. Qed.

(** ** The same, of the kernel *)

Lemma set_k_lists_same k : set_k_lists (k_lists k) k = k.
Proof. by destruct k. Qed.

Lemma without_detached i L : detached L i -> without i <$> L = L.
Proof.
  intros Hd. apply map_eq. intros l. rewrite lookup_fmap. destruct (L !! l) eqn:E; [|done]. cbn. f_equal.
  apply without_notin. rewrite <- (members_lookup _ _ _ E). apply Hd.
Qed.

Section Kernel.
Context (sys : system) (lo : Z) (k : kernel) (L : store).

Lemma ok_weaken o t : o = None \/ o = Some t -> kernel_ok sys o lo k L -> kernel_ok sys (Some t) lo k L.
Proof. intros Ho []. split; try done. by apply (tk_weaken_any _ _ _ _ o). Qed.

Lemma ok_restore t l :
  kernel_ok sys (Some t) lo k L -> xStateListItem t ∈ members L l ->
  (ready_list l = true -> forall x, k_tcbs k !! t = Some x ->
     uxPriority x = Z.of_nat l /\ pended L (xEventListItem t)) ->
  (t = idle_task sys -> ready_list l = true) -> kernel_ok sys None lo k L.
Proof. intros [] ? ? ?. split; try done. by apply (tk_restore _ _ _ _ t l). Qed.

Lemma ok_state o t : kernel_ok sys o lo k L -> is_Some (k_tcbs k !! t) -> o <> Some t ->
  exists l, xStateListItem t ∈ members L l /\ event_list l = false.
Proof.
  intros H Ht Ho. destruct (tk_state _ _ _ _ _ (ok_tasks _ _ _ _ _ H) t Ht Ho) as [l Hl]. exists l.
  split; [done|]. destruct (event_list l) eqn:E; [|done].
  destruct (tk_event_member _ _ _ _ _ _ _ (ok_tasks _ _ _ _ _ H) E Hl) as (u & Eu & _).
  by apply state_not_event in Eu.
Qed.

(** A removal, of the state item of the exempt task or of an event item. *)
Lemma ok_remove o i l :
  kernel_ok sys o lo k L -> i ∈ members L l -> (forall t, i = xStateListItem t -> o = Some t) ->
  exists n h', uxListRemove i (k_lists k) = Ok (n, h') /\
    kernel_ok sys o lo (set_k_lists h' k) (without i <$> L) /\ same_items (k_lists k) h'.
Proof.
  intros [HT Htop Hr Hd Hn Hc] Hi Hx. destruct (tk_remove _ _ _ _ _ _ _ HT Hi Hx) as (n & h' & E & HT' & HS).
  exists n, h'. split; [done|]. split; [|done].
  split; kcbn; try done; [by apply below_without|by apply (delays_without _ _ _ _ (k_lists k))|].
  by apply (next_without _ _ (k_lists k)).
Qed.

Lemma wp_remove_state o t l Q :
  kernel_ok sys o lo k L -> o = None \/ o = Some t -> xStateListItem t ∈ members L l ->
  (forall n h', kernel_ok sys (Some t) lo (set_k_lists h' k) (without (xStateListItem t) <$> L) ->
     same_items (k_lists k) h' -> Q n (set_k_lists h' k)) ->
  wp (on_lists (uxListRemove (xStateListItem t))) Q k.
Proof.
  intros H Ho Hin HQ. apply (ok_weaken o t Ho) in H.
  destruct (ok_remove _ _ _ H Hin) as (n & h' & E & H' & HS); [by intros u <-%state_item_inj|].
  apply (wp_on _ n h'); auto.
Qed.

Lemma wp_remove_event o t l Q :
  kernel_ok sys o lo k L -> xEventListItem t ∈ members L l ->
  (forall n h', kernel_ok sys o lo (set_k_lists h' k) (without (xEventListItem t) <$> L) ->
     same_items (k_lists k) h' -> Q n (set_k_lists h' k)) ->
  wp (on_lists (uxListRemove (xEventListItem t))) Q k.
Proof.
  intros H Hin HQ. destruct (ok_remove _ _ _ H Hin) as (n & h' & E & H' & HS).
  { intros u Eu. by apply eq_sym, state_not_event in Eu. }
  apply (wp_on _ n h'); auto.
Qed.

Lemma wp_container o i t Q :
  kernel_ok sys o lo k L -> item_ok (k_lists k) i t -> Q (container (k_lists k) (Item i)) k ->
  wp (ask_lists (listLIST_ITEM_CONTAINER i)) Q k.
Proof. intros H Hi HQ. eapply wp_ask; [|done]. apply (st_ask_container _ _), Hi. Qed.

Lemma wp_leave_event_list o t Q :
  kernel_ok sys o lo k L -> is_Some (k_tcbs k !! t) ->
  (forall h', kernel_ok sys o lo (set_k_lists h' k) (without (xEventListItem t) <$> L) ->
     same_items (k_lists k) h' -> Q tt (set_k_lists h' k)) ->
  wp (leave_event_list t) Q k.
Proof.
  intros H Ht HQ. pose proof (ok_tasks _ _ _ _ _ H) as HT. unfold leave_event_list. wps.
  apply (wp_container o _ t); [done|by apply HT|].
  destruct (container _ _) as [l|] eqn:E; wps.
  - apply (wp_remove_event o t l); [done|by apply (st_member _ _ (tk_stored _ _ _ _ _ HT))|].
    intros. wps. auto.
  - rewrite <- (set_k_lists_same k). pose proof (proj1 (st_free _ _ (tk_stored _ _ _ _ _ HT) _) E) as Hd.
    apply HQ; [|apply same_items_refl]. by rewrite set_k_lists_same, without_detached.
Qed.

(** The insertion of the state item of the exempt task, in place. *)
Lemma ok_insert_state t x l ns' h' :
  kernel_ok sys (Some t) lo k L -> k_tcbs k !! t = Some x -> stored h' (<[l := ns']> L) ->
  same_items (k_lists k) h' -> (forall j, j ∈ ns' <-> j = xStateListItem t \/ j ∈ members L l) ->
  event_list l = false -> (t = idle_task sys -> ready_list l = true) ->
  (ready_list l = true -> uxPriority x = Z.of_nat l /\ pended L (xEventListItem t)) ->
  below (uxTopReadyPriority k) (<[l := ns']> L) ->
  delays_ok lo (xTickCount k) (pxDelayedTaskList k) (pxOverflowDelayedTaskList k) h' (<[l := ns']> L) ->
  next_ok (xNextTaskUnblockTime k) (pxDelayedTaskList k) h' (<[l := ns']> L) ->
  kernel_ok sys None lo (set_k_lists h' k) (<[l := ns']> L).
Proof.
  intros [HT Htop Hr Hd Hn Hc] Hx S' HS Hns Hev Hid Hrd Hb Hd' Hn'.
  split; kcbn; try done. apply (tk_insert_state sys (k_lists k) _ _ t); try done.
  intros Hl y Hy. simplify_eq. auto.
Qed.

End Kernel.
