(* ===== verification/FreeRTOSTasksCalls.v ===== *)
(** * What the functions of the scheduler do

    For each function of [FreeRTOSTasks] that moves tasks between lists: it
    returns, keeps the invariant of [FreeRTOSTasksTheory], and what it changes. *)

From S2P Require Import Prelude FreeRTOSList FreeRTOSListTheory FreeRTOSListStore FreeRTOSHeap FreeRTOSTasks.
From S2P Require Import FreeRTOSTasksTheory.

(** ** Preemption across the moves *)

Lemma preempted_true T cur L : preempted true T cur L.
Proof. done. Qed.

Lemma preempted_weaken (b b' : bool) T cur L :
  (b = true -> b' = true) -> preempted b T cur L -> preempted b' T cur L.
Proof. intros Hb H Hb'. apply H. destruct b; [|done]. by rewrite Hb in Hb'. Qed.

Lemma preempted_without b T cur L i : preempted b T cur L -> preempted b T cur (without i <$> L).
Proof. intros H Hb c y Hc Hy. by apply below_without, (H Hb c). Qed.

Lemma preempted_insert_other b T cur L l ns' :
  ready_list l = false -> preempted b T cur L -> preempted b T cur (<[l := ns']> L).
Proof. intros Hl H Hb c y Hc Hy. apply below_insert; [by apply (H Hb c)|congruence]. Qed.

Lemma preempted_insert b b' T c y L l ns' :
  T !! c = Some y -> (b = true \/ uxPriority y < Z.of_nat l -> b' = true) ->
  preempted b T (Some c) L -> preempted b' T (Some c) (<[l := ns']> L).
Proof.
  intros Hy Hb' H -> c' y' [= <-] Hy'. simplify_eq.
  destruct b; [by discriminate Hb'; auto|]. apply below_insert; [by apply (H eq_refl c)|].
  intros _. destruct (decide (uxPriority y < Z.of_nat l)); [by discriminate Hb'; auto|lia].
Qed.

Lemma preempted_put b T cur L t x x' :
  T !! t = Some x -> uxPriority x <= uxPriority x' -> preempted b T cur L ->
  preempted b (<[t := x']> T) cur L.
Proof.
  intros Hx Hle H Hb c y Hc. destruct (decide (c = t)) as [->|Hne].
  - rewrite lookup_insert_eq. intros [= <-]. apply (below_le (uxPriority x)); [done|]. by apply (H Hb t).
  - rewrite lookup_insert_ne by done. intros Hy. by apply (H Hb c).
Qed.

(** ** The ready lists *)

Lemma ready_priority sys o h T L t x :
  tasks_ok sys o h T L -> T !! t = Some x ->
  ready_list (pxReadyTasksLists (uxPriority x)) = true /\
  Z.of_nat (pxReadyTasksLists (uxPriority x)) = uxPriority x.
Proof.
  intros H Hx. destruct (tk_priority _ _ _ _ _ H t x Hx) as [? _]. unfold ready_list, pxReadyTasksLists.
  split; [|lia]. apply Nat.ltb_lt. lia.
Qed.

Lemma ready_not_event p : ready_list p = true -> event_list p = false.
Proof. intros. list_kinds. Qed.

Section Calls.
Context (sys : system).

Lemma wp_add_ready lo k L t x Q :
  kernel_ok sys (Some t) lo k L -> k_tcbs k !! t = Some x ->
  detached L (xStateListItem t) -> pended L (xEventListItem t) ->
  (forall h' top' ns',
     (forall j, j ∈ ns' <-> j = xStateListItem t \/ j ∈ members L (pxReadyTasksLists (uxPriority x))) ->
     same_items (k_lists k) h' ->
     kernel_ok sys None lo (set_k_lists h' (set_uxTopReadyPriority top' k))
       (<[pxReadyTasksLists (uxPriority x) := ns']> L) ->
     Q tt (set_k_lists h' (set_uxTopReadyPriority top' k))) ->
  wp (prvAddTaskToReadyList t) Q k.
Proof.
  intros H Hx Hs He HQ. set (p := pxReadyTasksLists (uxPriority x)) in *.
  pose proof (ok_tasks _ _ _ _ _ H) as HT. destruct (ready_priority _ _ _ _ _ t x HT Hx) as [Hp Ep].
  fold p in Hp, Ep. pose proof (tk_state_item _ _ _ _ _ HT t (mk_is_Some _ _ Hx)) as [Hpr _ Hv].
  destruct (tk_lists _ _ _ _ _ HT p) as [ns Ens]; [list_kinds|].
  destruct (st_insert_end _ _ (tk_stored _ _ _ _ _ HT) p ns _ Ens Hs Hpr Hv) as (h' & ns1 & ns2 & -> & E & S' & HS).
  assert (forall j, j ∈ ns1 ++ xStateListItem t :: ns2 <-> j = xStateListItem t \/ j ∈ members L p) as Hm.
  { intros j. rewrite (members_lookup _ _ _ Ens), !elem_of_app, elem_of_cons. tauto. }
  destruct (delays_disjoint _ _ _ _ _ _ (ok_delays _ _ _ _ _ H)) as (_ & _ & _ & Hdr & Hor & _).
  assert (forall top', uxTopReadyPriority k <= top' -> uxPriority x <= top' < configMAX_PRIORITIES ->
    kernel_ok sys None lo (set_k_lists h' (set_uxTopReadyPriority top' k)) (<[p := ns1 ++ xStateListItem t :: ns2]> L)) as Hok.
  { intros top' Htop Htop'. apply (ok_insert_state sys lo (set_uxTopReadyPriority top' k) L t x); try done.
    - destruct H. split; kcbn; try done; [by eapply below_le|lia].
    - by apply ready_not_event.
    - kcbn. apply below_insert; [apply (below_le (uxTopReadyPriority k)); [done|apply H]|]. lia.
    - apply (delays_insert_other _ _ _ _ (k_lists k)); [done|kcbn; congruence..|apply H].
    - apply (next_insert_other _ _ (k_lists k)); [done|kcbn; congruence|apply H]. }
  unfold prvAddTaskToReadyList, taskRECORD_READY_PRIORITY. wps. apply (wp_get_tcb t x); [done|]. wps.
  pose proof (ok_top_range _ _ _ _ _ H). pose proof (tk_priority _ _ _ _ _ HT t x Hx).
  apply wp_when; intros Hgt; wps.
  - apply (wp_do _ h'); [done|]. apply (HQ _ _ (ns1 ++ xStateListItem t :: ns2)); [done..|]. apply Hok; lia.
  - apply (wp_do _ h'); [done|].
    replace (set_k_lists h' k) with (set_k_lists h' (set_uxTopReadyPriority (uxTopReadyPriority k) k)) by (by destruct k).
    apply (HQ _ _ (ns1 ++ xStateListItem t :: ns2)); [done..|]. apply Hok; lia.
Qed.

Lemma ok_list o lo k L l : kernel_ok sys o lo k L -> (l < first_event_list)%nat -> L !! l = Some (members L l).
Proof.
  intros H Hl. destruct (tk_lists _ _ _ _ _ (ok_tasks _ _ _ _ _ H) l ltac:(lia)) as [ns E]. by rewrite E, (members_lookup _ _ _ E).
Qed.

Lemma ready_list_small p : ready_list p = true -> (p < first_event_list)%nat.
Proof. intros. list_kinds. Qed.

(** [taskSELECT_HIGHEST_PRIORITY_TASK]: the loop stops at the highest priority
    of a ready task. *)
Lemma top_ready_ok lo k L p :
  kernel_ok sys None lo k L -> ready_list p = true -> below (Z.of_nat p) L ->
  (exists q, ready_list q = true /\ members L q <> []) ->
  exists q, top_ready p k = Ok (q, k) /\ ready_list q = true /\ members L q <> [] /\ below (Z.of_nat q) L.
Proof.
  intros H. revert k H. induction p as [|p IH]; intros k H Hp Hb Hex.
  all: pose proof (st_empty _ _ (tk_stored _ _ _ _ _ (ok_tasks _ _ _ _ _ H)) _ _
         (ok_list _ _ _ _ _ H (ready_list_small _ Hp))) as Hq.
  all: unfold top_ready; fold top_ready; unfold mbind, KM_bind, ask_lists; rewrite Hq.
  all: case_bool_decide as Hnil; [|by eexists].
  - destruct Hex as (q & Hq1 & Hq2). specialize (Hb q Hq1 Hq2). assert (q = O) as -> by lia. done.
  - apply IH; [done|list_kinds| |done]. intros q Hq1 Hq2. specialize (Hb q Hq1 Hq2).
    assert (q <> S p) by congruence. lia.
Qed.

Lemma wp_select lo k L Q :
  kernel_ok sys None lo k L ->
  (forall h' c y p, same_items (k_lists k) h' -> k_tcbs k !! c = Some y ->
     ready_list p = true -> xStateListItem c ∈ members L p -> uxPriority y = Z.of_nat p -> below (uxPriority y) L ->
     kernel_ok sys None lo (set_uxTopReadyPriority (Z.of_nat p) (set_pxCurrentTCB (Some c) (set_k_lists h' k))) L ->
     Q tt (set_uxTopReadyPriority (Z.of_nat p) (set_pxCurrentTCB (Some c) (set_k_lists h' k)))) ->
  wp taskSELECT_HIGHEST_PRIORITY_TASK Q k.
Proof.
  intros H HQ. pose proof (ok_tasks _ _ _ _ _ H) as HT. pose proof (ok_top_range _ _ _ _ _ H) as Htr.
  destruct (top_ready_ok lo k L (Z.to_nat (uxTopReadyPriority k))) as (p & E & Hp & Hne & Hb); [done| | | |].
  { list_kinds. }
  { intros q Hq Hqn. pose proof (ok_top _ _ _ _ _ H q Hq Hqn). lia. }
  { destruct (tk_idle_ready _ _ _ _ _ HT ltac:(done)) as (q & Hq & Hin). exists q. split; [done|by eapply members_nil]. }
  unfold taskSELECT_HIGHEST_PRIORITY_TASK. wps. exists p, k. split; [done|]. wps.
  pose proof (fun j => tk_state_member _ _ _ _ _ p j HT (ready_not_event p Hp)) as Hm.
  destruct (st_next _ _ (tk_stored _ _ _ _ _ HT) p _ Nat.div2 (ok_list _ _ _ _ _ H (ready_list_small _ Hp)) Hne) as (j & h' & Eh & Hj & S' & HS).
  { intros j Hj. destruct (Hm j Hj) as (t & -> & _ & ->). unfold xStateListItem. by rewrite Nat.div2_double. }
  apply (wp_on _ (Nat.div2 j) h'); [done|]. wps.
  destruct (Hm j Hj) as (c & -> & [y Hy] & _). 
  assert (Nat.div2 (xStateListItem c) = c) as -> by apply Nat.div2_double.
  destruct (tk_ready _ _ _ _ _ HT c y p Hy ltac:(done) Hp Hj) as [Ey _].
  apply (HQ h' c y p); try done; [by rewrite Ey|].
  destruct H as [_ Htop Hr Hd Hn Hc]. split; kcbn; try done; [|list_kinds| | |by eauto].
  - destruct HT. split; try done; intros; by apply (item_ok_same (k_lists k)); auto.
  - eapply delays_values; [|done]. intros. apply HS.
  - intros i Hi. rewrite (same_value _ _ HS). by apply Hn.
Qed.

(** [vTaskSwitchContext] and the handler *)
Lemma ok_yield lo k L b : kernel_ok sys None lo k L -> kernel_ok sys None lo (set_xYieldPending b k) L.
Proof. intros []. by split. Qed.

Lemma ok_pendsv lo k L b : kernel_ok sys None lo k L -> kernel_ok sys None lo (set_pendsv b k) L.
Proof. intros []. by split. Qed.

(** ** Assignments *)

Lemma ok_put_tcb o lo k L t x x' :
  kernel_ok sys o lo k L -> k_tcbs k !! t = Some x ->
  0 <= uxPriority x' < configMAX_PRIORITIES -> 0 <= uxBasePriority x' < configMAX_PRIORITIES ->
  (uxPriority x' = uxPriority x \/ o = Some t) ->
  (ucNotifyState x' = taskWAITING_NOTIFICATION -> detached L (xEventListItem t)) ->
  kernel_ok sys o lo (set_k_tcbs (<[t := x']> (k_tcbs k)) k) L.
Proof.
  intros [HT Htop Hr Hd Hn Hc] Hx Hp Hb Hpri Hw. split; kcbn; try done; [by eapply tk_put_tcb|].
  destruct Hc as (c & y & Hc & Hy). exists c. destruct (decide (c = t)) as [->|].
  - exists x'. by rewrite lookup_insert_eq.
  - exists y. by rewrite lookup_insert_ne.
Qed.

(** An assignment that keeps the priorities and the state of the notification. *)
Lemma ok_put_same o lo k L t x x' :
  kernel_ok sys o lo k L -> k_tcbs k !! t = Some x -> uxPriority x' = uxPriority x ->
  uxBasePriority x' = uxBasePriority x ->
  (ucNotifyState x' = taskWAITING_NOTIFICATION -> ucNotifyState x = taskWAITING_NOTIFICATION) ->
  kernel_ok sys o lo (set_k_tcbs (<[t := x']> (k_tcbs k)) k) L.
Proof.
  intros H Hx Hp Hb Hn. pose proof (ok_tasks _ _ _ _ _ H) as HT.
  pose proof (tk_priority _ _ _ _ _ HT t x Hx) as [??].
  apply (ok_put_tcb o lo k L t x); rewrite ?Hp, ?Hb; try done; [by left|].
  intros Hw. apply (tk_waiting _ _ _ _ _ HT t x); auto.
Qed.

Lemma ok_set_value o lo k L i v :
  kernel_ok sys o lo k L -> present (k_lists k) (Item i) ->
  i ∉ members L (pxDelayedTaskList k) -> i ∉ members L (pxOverflowDelayedTaskList k) ->
  exists h', listSET_LIST_ITEM_VALUE i v (k_lists k) = Ok h' /\ kernel_ok sys o lo (set_k_lists h' k) L /\
    forall x, value h' x = upd (value (k_lists k)) (Item i) (u32 v) x.
Proof.
  intros [HT Htop Hr Hd Hn Hc] Hp Hnd Hno.
  destruct (tk_set_value _ _ _ _ _ i v HT Hp) as (h' & E & HT' & Hv). exists h'. split; [done|]. split; [|done].
  split; kcbn; try done.
  - eapply delays_values; [|done]. intros j Hj. rewrite Hv. apply upd_ne. intros [= ->]. tauto.
  - intros j Hj. rewrite Hv, upd_ne; [by apply Hn|]. by intros [= ->].
Qed.

Lemma wp_set_event_value o lo k L t v Q :
  kernel_ok sys o lo k L -> is_Some (k_tcbs k !! t) ->
  (forall h', kernel_ok sys o lo (set_k_lists h' k) L ->
     (forall x, value h' x = upd (value (k_lists k)) (Item (xEventListItem t)) (u32 v) x) -> Q tt (set_k_lists h' k)) ->
  wp (do_lists (listSET_LIST_ITEM_VALUE (xEventListItem t) v)) Q k.
Proof.
  intros H Ht HQ. pose proof (ok_tasks _ _ _ _ _ H) as HT.
  destruct (delays_disjoint _ _ _ _ _ _ (ok_delays _ _ _ _ _ H)) as (_ & Hde & Hoe & _).
  destruct (ok_set_value o lo k L (xEventListItem t) v H) as (h' & E & H' & Hv).
  - apply (tk_event_item _ _ _ _ _ HT t Ht).
  - by apply (tk_event_not_state _ _ _ _ o _ _ HT).
  - by apply (tk_event_not_state _ _ _ _ o _ _ HT).
  - apply (wp_do _ h'); auto.
Qed.

(** ** Delays *)

Lemma wp_insert_end lo k L t l Q :
  kernel_ok sys (Some t) lo k L -> is_Some (k_tcbs k !! t) -> detached L (xStateListItem t) -> t <> idle_task sys ->
  l = xSuspendedTaskList \/ l = xTasksWaitingTermination ->
  (forall h' ns', (forall j, j ∈ ns' <-> j = xStateListItem t \/ j ∈ members L l) -> same_items (k_lists k) h' ->
     kernel_ok sys None lo (set_k_lists h' k) (<[l := ns']> L) -> Q tt (set_k_lists h' k)) ->
  wp (do_lists (vListInsertEnd l (xStateListItem t))) Q k.
Proof.
  intros H [x Hx] Hs Ht Hl HQ. pose proof (ok_tasks _ _ _ _ _ H) as HT.
  pose proof (tk_state_item _ _ _ _ _ HT t (mk_is_Some _ _ Hx)) as [Hpr _ Hv].
  assert (event_list l = false /\ ready_list l = false /\ (l < first_event_list)%nat) as (Hle & Hlr & Hll)
    by (destruct Hl as [-> | ->]; repeat split; cbv; lia).
  destruct (st_insert_end _ _ (tk_stored _ _ _ _ _ HT) l _ _ (ok_list _ _ _ _ _ H Hll) Hs Hpr Hv)
    as (h' & ns1 & ns2 & Ens & E & S' & HS).
  apply (wp_do _ h'); [done|].
  assert (forall j, j ∈ ns1 ++ xStateListItem t :: ns2 <-> j = xStateListItem t \/ j ∈ members L l) as Hm.
  { intros j. rewrite Ens, !elem_of_app, elem_of_cons. tauto. }
  assert (l <> pxDelayedTaskList k /\ l <> pxOverflowDelayedTaskList k) as [Hld Hlo].
  { destruct (dl_lists _ _ _ _ _ _ (ok_delays _ _ _ _ _ H)) as [[-> ->]|[-> ->]];
      destruct Hl as [-> | ->]; done. }
  apply (HQ h' (ns1 ++ xStateListItem t :: ns2)); [done..|].
  apply (ok_insert_state sys lo k L t x); try done; [congruence..| | |].
  - apply below_insert; [apply H|congruence].
  - apply (delays_insert_other _ _ _ _ (k_lists k)); [done..|apply H].
  - apply (next_insert_other _ _ (k_lists k)); [done..|apply H].
Qed.

(** Where [prvAddCurrentTaskToDelayedList] puts the task. *)
Definition wait_list (k : kernel) (xTicksToWait : Z) (xCanBlockIndefinitely : bool) : nat :=
  if (xTicksToWait =? portMAX_DELAY) && xCanBlockIndefinitely then xSuspendedTaskList
  else if u32 (xTickCount k + xTicksToWait) <? xTickCount k then pxOverflowDelayedTaskList k
  else pxDelayedTaskList k.

Lemma ok_lower_next o lo k L next' :
  next' <= xNextTaskUnblockTime k -> kernel_ok sys o lo k L ->
  kernel_ok sys o lo (set_xNextTaskUnblockTime next' k) L.
Proof. intros Hle []. split; kcbn; try done. intros i Hi. specialize (ok_next i Hi). lia. Qed.

(** Both insertions into the delayed lists. *)
Lemma wp_insert_wake lo k L t l Q :
  kernel_ok sys (Some t) lo k L -> is_Some (k_tcbs k !! t) -> detached L (xStateListItem t) -> t <> idle_task sys ->
  (l = pxDelayedTaskList k /\ lo <= value (k_lists k) (Item (xStateListItem t))) \/
  (l = pxOverflowDelayedTaskList k /\ value (k_lists k) (Item (xStateListItem t)) < xTickCount k) ->
  (forall h' ns', (forall j, j ∈ ns' <-> j = xStateListItem t \/ j ∈ members L l) -> same_items (k_lists k) h' ->
     (forall next', next' <= xNextTaskUnblockTime k ->
        (l = pxDelayedTaskList k -> next' <= value (k_lists k) (Item (xStateListItem t))) ->
        kernel_ok sys None lo (set_xNextTaskUnblockTime next' (set_k_lists h' k)) (<[l := ns']> L)) ->
     Q tt (set_k_lists h' k)) ->
  wp (do_lists (vListInsert l (xStateListItem t))) Q k.
Proof.
  intros H [x Hx] Hs Ht Hl HQ. pose proof (ok_tasks _ _ _ _ _ H) as HT.
  pose proof (tk_state_item _ _ _ _ _ HT t (mk_is_Some _ _ Hx)) as [Hpr _ Hv].
  pose proof (ok_delays _ _ _ _ _ H) as HD.
  destruct (delays_disjoint _ _ _ _ _ _ HD) as (Hne & Hde & Hoe & Hdr & Hor & Hds & Hos).
  assert (event_list l = false /\ ready_list l = false /\ (l < first_event_list)%nat) as (Hle & Hlr & Hll)
    by (destruct Hl as [[-> _]|[-> _]]; done).
  destruct (st_insert _ _ (tk_stored _ _ _ _ _ HT) l _ _ (ok_list _ _ _ _ _ H Hll) Hs Hpr Hv) as (h' & E & S' & HS).
  set (ns' := insert_sorted _ _ _) in S'.
  assert (forall j, j ∈ ns' <-> j = xStateListItem t \/ j ∈ members L l) as Hm by (intros; apply insert_sorted_elem).
  apply (wp_do _ h'); [done|]. apply (HQ h' ns'); [done..|]. intros next' Hn' Hv'.
  apply (ok_insert_state sys lo (set_xNextTaskUnblockTime next' k) L t x); try done.
  - by apply ok_lower_next.
  - congruence.
  - apply below_insert; [apply H|congruence].
  - kcbn. subst ns'. destruct Hl as [[-> Hlo]|[-> Htick]];
      [by apply delays_insert|by apply delays_insert_overflow].
  - kcbn. intros i. rewrite (same_value _ _ HS). destruct (decide (l = pxDelayedTaskList k)) as [El|Nl].
    + rewrite <- El, members_insert_eq, Hm. intros [->|Hi]; [by apply Hv'|].
      rewrite El in Hi. pose proof (ok_next _ _ _ _ _ H i Hi). lia.
    + rewrite members_insert_ne by done. intros Hi. pose proof (ok_next _ _ _ _ _ H i Hi). lia.
Qed.

(** The wake time of a delay: after the present tick, or wrapped around. *)
Lemma wake_time tick n : in_range 32 tick -> 0 < n <= portMAX_DELAY ->
  (u32 (tick + n) = tick + n \/ u32 (tick + n) = tick + n - 2 ^ 32) /\
  (u32 (tick + n) < tick \/ tick + 1 <= u32 (tick + n)).
Proof. unfold u32, wrapu, portMAX_DELAY, in_range. intros. Z.to_euclidean_division_equations; lia. Qed.

(** The part of [prvAddCurrentTaskToDelayedList] after the removal, for a delay
    that ends. *)
Lemma wp_wake_after k L t n Q :
  kernel_ok sys (Some t) (xTickCount k + 1) k L -> is_Some (k_tcbs k !! t) -> detached L (xStateListItem t) ->
  t <> idle_task sys -> 0 < n <= portMAX_DELAY ->
  (forall h' next' ns', let wake := u32 (xTickCount k + n) in
     let l := if wake <? xTickCount k then pxOverflowDelayedTaskList k else pxDelayedTaskList k in
     kernel_ok sys None (xTickCount k + 1) (set_xNextTaskUnblockTime next' (set_k_lists h' k)) (<[l := ns']> L) ->
     (forall j, j ∈ ns' <-> j = xStateListItem t \/ j ∈ members L l) ->
     (forall i, i <> xStateListItem t -> value h' (Item i) = value (k_lists k) (Item i)) ->
     value h' (Item (xStateListItem t)) = wake -> Q tt (set_xNextTaskUnblockTime next' (set_k_lists h' k))) ->
  wp (do_lists (listSET_LIST_ITEM_VALUE (xStateListItem t) (u32 (xTickCount k + n)));;
      if u32 (xTickCount k + n) <? xTickCount k then
        o ← gets pxOverflowDelayedTaskList; do_lists (vListInsert o (xStateListItem t))
      else
        d ← gets pxDelayedTaskList;
        do_lists (vListInsert d (xStateListItem t));;
        next ← gets xNextTaskUnblockTime;
        when (u32 (xTickCount k + n) <? next) (modify (set_xNextTaskUnblockTime (u32 (xTickCount k + n))))) Q k.
Proof.
  intros H Ht Hd Hid Hn HQ. cbv zeta in HQ. destruct (wake_time _ _ (ok_tick _ _ _ _ _ H) Hn) as [_ Hw].
  set (wake := u32 (xTickCount k + n)) in *.
  destruct (ok_set_value _ _ _ _ (xStateListItem t) wake H) as (h2 & E2 & H2 & Hv2); [|apply Hd..|].
  { apply (tk_state_item _ _ _ _ _ (ok_tasks _ _ _ _ _ H) t Ht). }
  assert (u32 wake = wake) as Hww by apply wrapu_idem. rewrite Hww in Hv2.
  assert (forall i, i <> xStateListItem t -> value h2 (Item i) = value (k_lists k) (Item i)) as Hsame
    by (intros i Hi; rewrite Hv2, upd_ne; congruence).
  assert (value h2 (Item (xStateListItem t)) = wake) as Hval by (by rewrite Hv2, upd_eq).
  destruct (delays_disjoint _ _ _ _ _ _ (ok_delays _ _ _ _ _ H)) as [Hne _].
  wps. apply (wp_do _ h2); [done|]. wps.
  apply wp_if; intros Hb; rewrite Hb in HQ; wps; kcbn.
  - eapply wp_insert_wake; [exact H2|done..|right; split; [done|kcbn; lia]|]. intros h' ns' Hm HS' Hok.
    assert (set_k_lists h' (set_k_lists h2 k) =
            set_xNextTaskUnblockTime (xNextTaskUnblockTime k) (set_k_lists h' k)) as -> by (by destruct k).
    apply (HQ h' _ ns'); [apply Hok; [kcbn; lia|kcbn; congruence]|done|..].
    + intros i Hi. rewrite (same_value _ _ HS'). by apply Hsame.
    + by rewrite (same_value _ _ HS').
  - eapply wp_insert_wake; [exact H2|done..|left; split; [done|kcbn; lia]|]. intros h' ns' Hm HS' Hok. wps. kcbn.
    assert (forall next', next' <= xNextTaskUnblockTime k -> next' <= wake ->
              Q tt (set_xNextTaskUnblockTime next' (set_k_lists h' (set_k_lists h2 k)))) as HQ'.
    { intros next' Hn1 Hn2. apply (HQ h' _ ns'); [apply Hok; [done|kcbn; congruence]|done|..].
      - intros i Hi. rewrite (same_value _ _ HS'). by apply Hsame.
      - by rewrite (same_value _ _ HS'). }
    apply wp_when; intros Hlt; wps; [apply HQ'; lia|].
    replace (set_k_lists h' (set_k_lists h2 k)) with
      (set_xNextTaskUnblockTime (xNextTaskUnblockTime k) (set_k_lists h' (set_k_lists h2 k))) by (by destruct k).
    apply HQ'; lia.
Qed.

Lemma wp_delay_current o k L c x l0 n b Q :
  kernel_ok sys o (xTickCount k + 1) k L -> o = None \/ o = Some c -> pxCurrentTCB k = Some c ->
  k_tcbs k !! c = Some x -> c <> idle_task sys -> xStateListItem c ∈ members L l0 -> 0 < n <= portMAX_DELAY ->
  (forall h' next' ns', let k' := set_xNextTaskUnblockTime next'
       (set_k_lists h' (set_k_tcbs (<[c := set_ucDelayAborted false x]> (k_tcbs k)) k)) in
     let L' := <[wait_list k n b := ns']> (without (xStateListItem c) <$> L) in
     kernel_ok sys None (xTickCount k + 1) k' L' ->
     (forall j, j ∈ ns' <-> j = xStateListItem c \/ j ∈ members (without (xStateListItem c) <$> L) (wait_list k n b)) ->
     (forall i, i <> xStateListItem c -> value h' (Item i) = value (k_lists k) (Item i)) ->
     (wait_list k n b <> xSuspendedTaskList -> value h' (Item (xStateListItem c)) = u32 (xTickCount k + n)) ->
     Q tt k') ->
  wp (prvAddCurrentTaskToDelayedList n b) Q k.
Proof.
  intros H Ho Hc Hx Hid Hin Hn HQ. unfold prvAddCurrentTaskToDelayedList. wps.
  apply (wp_current c); [done|]. wps. apply (wp_get_tcb c x); [done|]. wps.
  apply (ok_put_same o _ _ _ c x (set_ucDelayAborted false x)) in H; [|done..].
  set (k1 := set_k_tcbs _ k) in *.
  eapply wp_remove_state; [exact H|exact Ho|exact Hin|]. intros m h1 H1 HS1. wps.
  set (L1 := without (xStateListItem c) <$> L) in *.
  assert (detached L1 (xStateListItem c)) as Hd by apply detached_without.
  assert (is_Some (k_tcbs k1 !! c)) as Ht by (unfold k1; kcbn; rewrite lookup_insert_eq; eauto).
  unfold wait_list in HQ. fold (u32 (xTickCount k + n)) in *.
  apply wp_if; intros Hb; rewrite Hb in HQ.
  - eapply wp_insert_end; [exact H1|done..|by left|]. intros h' ns' Hm HS' H'.
    apply (HQ h' (xNextTaskUnblockTime k) ns'); [|done| |done].
    + by destruct k.
    + intros i Hi. rewrite (same_value _ _ HS'). kcbn. by rewrite (same_value _ _ HS1).
  - eapply (wp_wake_after (set_k_lists h1 k1) L1 c n); [done..|]. intros h' next' ns' wake l Hok Hm Hsame Hval.
    apply (HQ h' next' ns'); [done|done| |done].
    intros i Hi. rewrite Hsame by done. apply HS1.
Qed.

(** ** The tick *)

Lemma ok_next_zero o lo k L : kernel_ok sys o lo k L -> kernel_ok sys o lo (set_xNextTaskUnblockTime 0 k) L.
Proof.
  intros []. split; kcbn; try done. intros i Hi. apply (st_in_range _ _ (tk_stored _ _ _ _ _ ok_tasks) _ _ Hi).
Qed.

Lemma ok_set_next o lo k L next' :
  kernel_ok sys o lo (set_xNextTaskUnblockTime 0 k) L ->
  next_ok next' (pxDelayedTaskList k) (k_lists k) L ->
  kernel_ok sys o lo (set_xNextTaskUnblockTime next' k) L.
Proof. intros [] Hn. by split. Qed.

Lemma ok_raise o lo lo' k L :
  kernel_ok sys o lo k L -> (forall i, i ∈ members L (pxDelayedTaskList k) -> lo' <= value (k_lists k) (Item i)) ->
  kernel_ok sys o lo' k L.
Proof. intros [HT Htop Hr Hd Hn Hc] Hlo. split; try done. destruct Hd. by split. Qed.

Lemma ok_delayed_list o lo k L :
  kernel_ok sys o lo k L -> L !! pxDelayedTaskList k = Some (members L (pxDelayedTaskList k)).
Proof.
  intros H. apply (ok_list _ _ _ _ _ H). apply (delays_disjoint _ _ _ _ _ _ (ok_delays _ _ _ _ _ H)).
Qed.

Lemma wp_reset_next o lo k L Q :
  kernel_ok sys o lo (set_xNextTaskUnblockTime 0 k) L ->
  (forall next', kernel_ok sys o lo (set_xNextTaskUnblockTime next' k) L -> Q tt (set_xNextTaskUnblockTime next' k)) ->
  wp prvResetNextTaskUnblockTime Q k.
Proof.
  intros H HQ. pose proof (tk_stored _ _ _ _ _ (ok_tasks _ _ _ _ _ H)) as S.
  pose proof (ok_delayed_list _ _ _ _ H) as Hl. kcbn_in S. kcbn_in Hl.
  unfold prvResetNextTaskUnblockTime. wps. eapply wp_ask; [by apply (st_empty _ _ S)|].
  pose proof (dl_sorted _ _ _ _ _ _ (ok_delays _ _ _ _ _ H)) as Hs. kcbn_in Hs.
  apply wp_if; intros Hb; wps.
  - apply HQ, ok_set_next; [done|]. apply bool_decide_eq_true in Hb. intros i. rewrite Hb. intros []%elem_of_nil.
  - destruct (members L (pxDelayedTaskList k)) as [|i ns] eqn:E; [done|].
    eapply wp_ask; [by eapply (st_head_value _ _ S)|]. wps. apply HQ, ok_set_next; [done|].
    intros j. rewrite E. by apply (sorted_head (fun i => value (k_lists k) (Item i))).
Qed.

(** The tasks whose time has come move to their ready lists and leave the event
    lists; the others stay. *)
Record woken (now : Z) (d : nat) (T : gmap nat TCB_t) (h : list_heap) (L L' : store) : Prop := {
  woken_state t x l : T !! t = Some x -> xStateListItem t ∈ members L l ->
    xStateListItem t ∈ members L' (if decide (l = d /\ value h (Item (xStateListItem t)) <= now)
                                   then pxReadyTasksLists (uxPriority x) else l);
  woken_event t l : is_Some (T !! t) -> xEventListItem t ∈ members L l ->
    ~ (xStateListItem t ∈ members L d /\ value h (Item (xStateListItem t)) <= now) ->
    xEventListItem t ∈ members L' l;
  woken_event_only t l : xEventListItem t ∈ members L' l -> xEventListItem t ∈ members L l;
}.

Lemma woken_none now d T h L :
  (forall i, i ∈ members L d -> now < value h (Item i)) -> woken now d T h L L.
Proof.
  intros Hd. split; [|done..]. intros t x l Hx Hin. rewrite decide_False; [done|].
  intros [-> Hv]. specialize (Hd _ Hin). lia.
Qed.

(** One task is woken, then the others. *)
Lemma woken_cons now d T h h1 L L' t x ns' :
  stored h L -> xStateListItem t ∈ members L d -> value h (Item (xStateListItem t)) <= now -> T !! t = Some x ->
  (forall j, j ∈ ns' <-> j = xStateListItem t \/ j ∈ members (without (xEventListItem t) <$>
                          (without (xStateListItem t) <$> L)) (pxReadyTasksLists (uxPriority x))) ->
  pxReadyTasksLists (uxPriority x) <> d -> (forall y, value h1 y = value h y) ->
  woken now d T h1 (<[pxReadyTasksLists (uxPriority x) := ns']>
                      (without (xEventListItem t) <$> (without (xStateListItem t) <$> L))) L' ->
  woken now d T h L L'.
Proof.
  intros S Hin Hv Hx Hns Hp Hval [HWs HWe HWo]. pose proof (elem_of_inserted _ _ _ _ Hns) as Hm.
  split.
  - intros u y l Hu Hul. destruct (decide (u = t)) as [->|Hne].
    + simplify_eq. rewrite (st_unique _ _ S _ _ _ Hul Hin), decide_True by done.
      specialize (HWs t x (pxReadyTasksLists (uxPriority x)) Hx). rewrite decide_False in HWs by tauto.
      apply HWs. rewrite Hm. by left.
    + specialize (HWs u y l Hu). rewrite Hval in HWs. apply HWs. rewrite Hm. right.
      rewrite !members_without, !elem_of_without. split; [apply state_not_event|].
      split; [|done]. by intros ?%state_item_inj.
  - intros u l Hu Hul Hnw. assert (u <> t) as Hne by (intros ->; tauto).
    apply HWe; [done|rewrite Hm; right|].
    + rewrite !members_without, !elem_of_without. split; [by intros ?%event_item_inj|].
      split; [|done]. intros E. by apply eq_sym, state_not_event in E.
    + rewrite Hm, Hval. intros [[[Ed _]|Hd] Hv']; [by apply Hp|].
      rewrite !members_without, !elem_of_without in Hd. tauto.
  - intros u l Hul%HWo. rewrite Hm in Hul. destruct Hul as [[_ E]|Hul]; [by apply eq_sym, state_not_event in E|].
    rewrite !members_without, !elem_of_without in Hul. tauto.
Qed.

(** What a tick does not assign to. *)
Record tick_frame (k k' : kernel) : Prop := {
  tf_tcbs : k_tcbs k' = k_tcbs k;
  tf_current : pxCurrentTCB k' = pxCurrentTCB k;
  tf_suspended : uxSchedulerSuspended k' = uxSchedulerSuspended k;
  tf_pended : xPendedTicks k' = xPendedTicks k;
  tf_yield : xYieldPending k' = xYieldPending k;
  tf_pendsv : pendsv k' = pendsv k;
  tf_number : uxCurrentNumberOfTasks k' = uxCurrentNumberOfTasks k;
}.

Lemma tick_frame_trans k1 k2 k3 : tick_frame k1 k2 -> tick_frame k2 k3 -> tick_frame k1 k3.
Proof. intros [] []. split; congruence. Qed.

(** The state after the loop of [xTaskIncrementTick]. *)
Record unblocked (now : Z) (b sw' : bool) (k k' : kernel) (L L' : store) : Prop := {
  ub_ok : kernel_ok sys None (now + 1) k' L';
  ub_same : same_items (k_lists k) (k_lists k');
  ub_woken : woken now (pxDelayedTaskList k) (k_tcbs k) (k_lists k) L L';
  ub_preempted : preempted (b || sw') (k_tcbs k) (pxCurrentTCB k) L';
  ub_frame : tick_frame k k';
  ub_lists : pxDelayedTaskList k' = pxDelayedTaskList k /\ pxOverflowDelayedTaskList k' = pxOverflowDelayedTaskList k;
  ub_tick : xTickCount k' = xTickCount k;
}.

Lemma ok_assign_next o lo k L next' :
  kernel_ok sys o lo k L -> next_ok next' (pxDelayedTaskList k) (k_lists k) L ->
  kernel_ok sys o lo (set_xNextTaskUnblockTime next' k) L.
Proof. intros H Hn. by apply ok_set_next; [apply ok_next_zero|]. Qed.

Lemma unblocked_none now lo b sw k L next' :
  kernel_ok sys None lo k L -> preempted (b || sw) (k_tcbs k) (pxCurrentTCB k) L ->
  next_ok next' (pxDelayedTaskList k) (k_lists k) L ->
  (forall i, i ∈ members L (pxDelayedTaskList k) -> now < value (k_lists k) (Item i)) ->
  unblocked now b sw k (set_xNextTaskUnblockTime next' k) L L.
Proof.
  intros H HP Hn Hd. split; [|apply same_items_refl|by apply woken_none|done|by split|done|done].
  apply (ok_raise _ lo); [by apply ok_assign_next|]. intros i Hi. specialize (Hd i Hi). kcbn. lia.
Qed.

(** A task leaves its lists and becomes ready. *)
Lemma wp_wake {A} o lo k L t x l (m : KM A) Q :
  kernel_ok sys o lo k L -> o = None \/ o = Some t -> k_tcbs k !! t = Some x -> xStateListItem t ∈ members L l ->
  (forall h' top' ns', let p := pxReadyTasksLists (uxPriority x) in
     let L1 := without (xEventListItem t) <$> (without (xStateListItem t) <$> L) in
     let k' := set_k_lists h' (set_uxTopReadyPriority top' k) in
     (forall j, j ∈ ns' <-> j = xStateListItem t \/ j ∈ members L1 p) -> same_items (k_lists k) h' ->
     kernel_ok sys None lo k' (<[p := ns']> L1) -> wp m Q k') ->
  wp (on_lists (uxListRemove (xStateListItem t));; leave_event_list t;; prvAddTaskToReadyList t;; m) Q k.
Proof.
  intros H Ho Hx Hin HQ. wps. eapply wp_remove_state; [exact H|done|exact Hin|]. intros n h1 H1 HS1. wps.
  eapply wp_leave_event_list; [exact H1|by eauto|]. intros h2 H2 HS2. wps.
  eapply wp_add_ready;
    [exact H2|exact Hx|apply detached_without_other, detached_without|apply detached_pended, detached_without|].
  intros h3 top' ns' Hm HS3 H3. apply (HQ h3 top' ns'); [done| |done].
  by apply (same_items_trans _ h1), (same_items_trans _ h2).
Qed.

Lemma without_shorter i ns : (length (without i ns) <= length ns)%nat.
Proof. apply length_filter. Qed.

Lemma without_head i ns : without i (i :: ns) = without i ns.
Proof. unfold without. by rewrite filter_cons_False by tauto. Qed.

Lemma unblocked_cons now lo b sw' k L t x h1 top' ns' k' L' :
  let p := pxReadyTasksLists (uxPriority x) in
  let L1 := without (xEventListItem t) <$> (without (xStateListItem t) <$> L) in
  let k1 := set_k_lists h1 (set_uxTopReadyPriority top' k) in
  kernel_ok sys None lo k L -> k_tcbs k !! t = Some x -> xStateListItem t ∈ members L (pxDelayedTaskList k) ->
  value (k_lists k) (Item (xStateListItem t)) <= now ->
  (forall j, j ∈ ns' <-> j = xStateListItem t \/ j ∈ members L1 p) -> same_items (k_lists k) h1 ->
  unblocked now b sw' k1 k' (<[p := ns']> L1) L' -> unblocked now b sw' k k' L L'.
Proof.
  intros p L1 k1 H Hx Hin Hv Hm HS []. pose proof (ok_tasks _ _ _ _ _ H) as HT.
  destruct (delays_disjoint _ _ _ _ _ _ (ok_delays _ _ _ _ _ H)) as (_ & _ & _ & Hdr & _).
  destruct (ready_priority _ _ _ _ _ t x HT Hx) as [Hp _].
  split; try done; [by apply (same_items_trans _ h1)| |by apply (tick_frame_trans _ k1)].
  apply (woken_cons _ _ _ _ h1 _ _ t x ns'); try done; [apply HT|congruence|apply HS].
Qed.

Lemma wp_unblock_expired now lo b : forall fuel k L sw,
  (length (members L (pxDelayedTaskList k)) < fuel)%nat -> kernel_ok sys None lo k L ->
  preempted (b || sw) (k_tcbs k) (pxCurrentTCB k) L ->
  wp (unblock_expired fuel now sw) (fun sw' k' => exists L', unblocked now b sw' k k' L L') k.
Proof.
  induction fuel as [|fuel IH]; intros k L sw Hlen H HP; [lia|].
  pose proof (ok_tasks _ _ _ _ _ H) as HT. pose proof (tk_stored _ _ _ _ _ HT) as S.
  pose proof (ok_delayed_list _ _ _ _ H) as Hl.
  destruct (delays_disjoint _ _ _ _ _ _ (ok_delays _ _ _ _ _ H)) as (Hne & Hde & _ & Hdr & _).
  cbn [unblock_expired]. wps. eapply wp_ask; [by apply (st_empty _ _ S)|].
  apply wp_if; intros Hb; wps.
  { exists L. apply bool_decide_eq_true in Hb.
    apply (unblocked_none _ lo); try done; intros i; rewrite Hb; by intros ?%elem_of_nil. }
  destruct (members L (pxDelayedTaskList k)) as [|i ns] eqn:E; [done|].
  assert (i ∈ members L (pxDelayedTaskList k)) as Hi by (rewrite E; by left).
  destruct (tk_state_member _ _ _ _ _ _ _ HT Hde Hi) as (t & -> & [x Hx] & Ho).
  eapply wp_ask; [by eapply (st_head_owner _ _ S)|]. wps.
  eapply wp_ask; [apply (st_ask_value _ _); apply (tk_state_item _ _ _ _ _ HT t); by eauto|].
  pose proof (dl_sorted _ _ _ _ _ _ (ok_delays _ _ _ _ _ H)) as Hs. rewrite E in Hs.
  apply wp_if; intros Hv.
  { wps. exists L. apply (unblocked_none _ lo); try done; intros j Hj; rewrite E in Hj;
      pose proof (sorted_head _ _ _ _ Hs Hj) as Hle; cbv beta in Hle; lia. }
  eapply wp_wake; [exact H|by left|exact Hx|exact Hi|]. intros h1 top' ns' p L1 k1 Hm HS1 H1. wps.
  apply (wp_get_tcb t x); [done|]. wps. destruct (ok_current _ _ _ _ _ H) as (c & y & Hc & Hy).
  apply (wp_current c); [done|]. wps. apply (wp_get_tcb c y); [done|]. wps.
  destruct (ready_priority _ _ _ _ _ t x HT Hx) as [Hp Ep].
  eapply wp_mono; [apply (IH k1 (<[p := ns']> L1)); [|done|]|].
  - unfold k1, L1, p. kcbn. rewrite members_insert_ne by congruence. rewrite !members_without, E.
    rewrite without_head. pose proof (without_shorter (xEventListItem t) (without (xStateListItem t) ns)).
    pose proof (without_shorter (xStateListItem t) ns). cbn [length] in Hlen. lia.
  - unfold k1, L1, p. kcbn. rewrite Hc in *. apply (preempted_insert (b || sw) _ _ c y); [done| |by apply preempted_without, preempted_without].
    rewrite Ep. intros [Hbs|?]; [rewrite orb_assoc, Hbs; done|].
    rewrite (proj2 (Z.gtb_lt _ _)) by lia. by rewrite !orb_true_r.
  - intros sw' k' (L' & HU). exists L'. by apply (unblocked_cons now lo b sw' k L t x h1 top' ns'); try done; lia.
Qed.

(** When the counter wraps around, nothing is left in the current list. *)
Lemma wrap_empty k L : kernel_ok sys None (2 ^ 32) k L -> members L (pxDelayedTaskList k) = [].
Proof.
  intros H. destruct (members L (pxDelayedTaskList k)) as [|i ns] eqn:E; [done|exfalso].
  assert (i ∈ members L (pxDelayedTaskList k)) as Hi by (rewrite E; by left).
  pose proof (dl_wake _ _ _ _ _ _ (ok_delays _ _ _ _ _ H) i Hi).
  pose proof (st_in_range _ _ (tk_stored _ _ _ _ _ (ok_tasks _ _ _ _ _ H)) _ _ Hi) as Hr.
  unfold in_range in Hr. lia.
Qed.

Definition switched_lists (k : kernel) : kernel :=
  set_xNumOfOverflows (s32 (xNumOfOverflows k + 1))
    (set_pxOverflowDelayedTaskList (pxDelayedTaskList k) (set_pxDelayedTaskList (pxOverflowDelayedTaskList k) k)).

Lemma wp_switch_lists k L Q :
  kernel_ok sys None (2 ^ 32) k L ->
  (forall next', let k' := set_xNextTaskUnblockTime next' (switched_lists (set_xTickCount 0 k)) in
     kernel_ok sys None 0 k' L -> Q tt k') ->
  wp taskSWITCH_DELAYED_LISTS Q (set_xTickCount 0 k).
Proof.
  intros H HQ. pose proof (wrap_empty _ _ H) as He. pose proof (ok_delayed_list _ _ _ _ H) as Hl.
  pose proof (tk_stored _ _ _ _ _ (ok_tasks _ _ _ _ _ H)) as S.
  unfold taskSWITCH_DELAYED_LISTS. wps. eapply wp_ask; [by apply (st_empty _ _ S)|]. wps.
  apply wp_configASSERT; [by rewrite He|]. wps.
  eapply wp_reset_next; [|exact HQ].
  destruct H as [HT Htop Hr Hd Hn Hc]. split; kcbn; try done.
  - destruct Hd. split; rewrite ?He; try done.
    + tauto.
    + constructor.
    + intros i Hi. apply (st_in_range _ _ S _ _ Hi).
    + by intros i ?%elem_of_nil.
  - intros i Hi. apply (st_in_range _ _ S _ _ Hi).
Qed.

(** What a tick does. *)
Record ticked (b r : bool) (k k' : kernel) (L L' : store) : Prop := {
  tc_ok : kernel_ok sys None (xTickCount k' + 1) k' L';
  tc_same : same_items (k_lists k) (k_lists k');
  tc_tick : xTickCount k' = u32 (xTickCount k + 1);
  tc_lists : (pxDelayedTaskList k', pxOverflowDelayedTaskList k') =
    if xTickCount k' =? 0 then (pxOverflowDelayedTaskList k, pxDelayedTaskList k)
    else (pxDelayedTaskList k, pxOverflowDelayedTaskList k);
  tc_woken : woken (xTickCount k') (pxDelayedTaskList k') (k_tcbs k) (k_lists k) L L';
  tc_preempted : preempted (b || r) (k_tcbs k) (pxCurrentTCB k) L';
  tc_frame : tick_frame k k';
  tc_yield : xYieldPending k = true -> r = true;
  tc_slice c y : pxCurrentTCB k = Some c -> k_tcbs k !! c = Some y ->
    (1 < length (members L' (pxReadyTasksLists (uxPriority y))))%nat -> r = true;
}.

(** The part of [xTaskIncrementTick] after the new count is stored and the lists
    are switched. *)
Definition tick_tail (now : Z) : KM bool :=
  next ← gets xNextTaskUnblockTime;
  xSwitchRequired ←
    (if now >=? next then
       l ← gets pxDelayedTaskList;
       n ← ask_lists (listCURRENT_LIST_LENGTH l);
       unblock_expired (S (Z.to_nat n)) now false
     else mret false);
  c ← current;
  y ← get_tcb c;
  n ← ask_lists (listCURRENT_LIST_LENGTH (pxReadyTasksLists (uxPriority y)));
  yield ← gets xYieldPending;
  mret (xSwitchRequired || (n >? 1) || yield).

Lemma wp_tick_tail now b k L :
  kernel_ok sys None now k L -> preempted b (k_tcbs k) (pxCurrentTCB k) L ->
  wp (tick_tail now) (fun r k' => exists L', unblocked now b r k k' L L' /\
    (xYieldPending k = true -> r = true) /\
    (forall c y, pxCurrentTCB k = Some c -> k_tcbs k !! c = Some y ->
       (1 < length (members L' (pxReadyTasksLists (uxPriority y))))%nat -> r = true)) k.
Proof.
  intros H HP. unfold tick_tail. wps.
  eapply (wp_mono _ (fun sw k' => exists L', unblocked now b sw k k' L L')).
  - apply wp_if; intros Hb; wps.
    + pose proof (ok_delayed_list _ _ _ _ H) as Hl.
      eapply wp_ask; [by apply (st_length _ _ (tk_stored _ _ _ _ _ (ok_tasks _ _ _ _ _ H)))|].
      apply (wp_unblock_expired now now b); [lia|done|by rewrite orb_false_r].
    + exists L. rewrite <- (ltac:(by destruct k) : set_xNextTaskUnblockTime (xNextTaskUnblockTime k) k = k) at 2.
      apply (unblocked_none _ now); [done|by rewrite orb_false_r|apply H|].
      intros i Hi. pose proof (ok_next _ _ _ _ _ H i Hi). lia.
  - intros sw k' (L' & HU). wps. pose proof HU as [HO HS HW HP' [HF1 HF2 HF3 HF4 HF5 HF6 HF7] HD HTk].
    destruct (ok_current _ _ _ _ _ HO) as (c & y & Hc & Hy). rewrite HF1 in Hy. rewrite HF2 in Hc.
    apply (wp_current c); [congruence|]. wps. apply (wp_get_tcb c y); [congruence|]. wps.
    rewrite <- HF1 in Hy. destruct (ready_priority _ _ _ _ _ c y (ok_tasks _ _ _ _ _ HO) Hy) as [Hp _].
    eapply wp_ask; [apply (st_length _ _ (tk_stored _ _ _ _ _ (ok_tasks _ _ _ _ _ HO)));
                    apply (ok_list _ _ _ _ _ HO (ready_list_small _ Hp))|]. wps.
    exists L'. split; [|split].
    + split; try done. eapply preempted_weaken; [|exact HP']. destruct b, sw; done.
    + intros E. by rewrite HF5, E, orb_true_r.
    + intros c' y' Hc' Hy' Hlen. simplify_eq. rewrite HF1 in Hy. simplify_eq.
      rewrite (proj2 (Z.gtb_lt _ _)) by lia. by rewrite orb_true_r.
Qed.

Lemma tick_cases tick : in_range 32 tick ->
  (u32 (tick + 1) = 0 /\ tick + 1 = 2 ^ 32) \/ (u32 (tick + 1) = tick + 1 /\ 0 < tick + 1 < 2 ^ 32).
Proof. unfold in_range, wrapu. intros. Z.to_euclidean_division_equations; lia. Qed.

Lemma ok_advance k L :
  kernel_ok sys None (xTickCount k + 1) k L -> xTickCount k + 1 < 2 ^ 32 ->
  kernel_ok sys None (xTickCount k + 1) (set_xTickCount (xTickCount k + 1) k) L.
Proof.
  intros [HT Htop Hr Hd Hn Hc Htk] Hlt. split; kcbn; try done.
  - destruct Hd. split; try done. intros i Hi. specialize (dl_wake_overflow i Hi). lia.
  - unfold in_range in *. lia.
Qed.

(** The tick, when the scheduler is not suspended. *)
Lemma wp_tick b k L :
  kernel_ok sys None (xTickCount k + 1) k L -> uxSchedulerSuspended k = 0 ->
  preempted b (k_tcbs k) (pxCurrentTCB k) L ->
  wp xTaskIncrementTick (fun r k' => exists L', ticked b r k k' L L') k.
Proof.
  intros H Hs HP. unfold xTaskIncrementTick. wps. rewrite Hs. change (0 =? 0) with true. cbn match. wps.
  change (wp (when (u32 (xTickCount k + 1) =? 0) taskSWITCH_DELAYED_LISTS)
            (fun _ => wp (tick_tail (u32 (xTickCount k + 1))) (fun r k' => exists L', ticked b r k k' L L'))
            (set_xTickCount (u32 (xTickCount k + 1)) k)).
  destruct (tick_cases _ (ok_tick _ _ _ _ _ H)) as [[E Hw]|[E Hw]]; rewrite E.
  - change (0 =? 0) with true. apply wp_when; intros Hb; [clear Hb|done]. rewrite Hw in H.
    apply (wp_switch_lists k L); [done|]. intros next' k' Hk'.
    eapply wp_mono; [apply (wp_tick_tail 0 b k' L); done|]. intros r k2 (L' & [HO HS HW HPr HF [HD1 HD2] Ht] & Hy & Hsl).
    exists L'. kcbn_in Ht.
    split; rewrite ?Ht, ?HD1, ?HD2; try done. by apply (tick_frame_trans _ k').
  - apply wp_when; intros Hb; [lia|]. clear Hb.
    eapply wp_mono; [apply (wp_tick_tail _ b (set_xTickCount (xTickCount k + 1) k) L); [apply ok_advance; [done|lia]|done]|].
    intros r k2 (L' & [HO HS HW HPr HF [HD1 HD2] Ht] & Hy & Hsl). exists L'. kcbn_in Ht.
    assert ((xTickCount k + 1 =? 0) = false) as Hz by lia.
    split; rewrite ?Ht, ?Hz, ?HD1, ?HD2; try done.
    by apply (tick_frame_trans _ (set_xTickCount (xTickCount k + 1) k)).
Qed.

(** A tick while the scheduler is suspended is counted. *)
Lemma wp_tick_suspended k Q :
  uxSchedulerSuspended k <> 0 -> Q false (set_xPendedTicks (u32 (xPendedTicks k + 1)) k) -> wp xTaskIncrementTick Q k.
Proof.
  intros Hs HQ. unfold xTaskIncrementTick. wps. apply wp_if; intros Hb; [lia|]. wps. done.
Qed.

(** ** Suspending and resuming the scheduler *)

(** The control blocks, the running task and the ready tasks stay. *)
Record keeps (k k' : kernel) (L L' : store) : Prop := {
  kp_tcbs : k_tcbs k' = k_tcbs k;
  kp_current : pxCurrentTCB k' = pxCurrentTCB k;
  kp_ready t p : ready_list p = true -> xStateListItem t ∈ members L p -> xStateListItem t ∈ members L' p;
}.

Lemma keeps_refl k L : keeps k k L L.
Proof. by split. Qed.

Lemma keeps_trans k1 k2 k3 L1 L2 L3 : keeps k1 k2 L1 L2 -> keeps k2 k3 L2 L3 -> keeps k1 k3 L1 L3.
Proof. intros [? ? H1] [? ? H2]. split; [congruence..|]. intros t p Hp Hin. by apply H2, H1. Qed.

Lemma ticked_keeps lo b r k k' L L' : kernel_ok sys None lo k L -> ticked b r k k' L L' -> keeps k k' L L'.
Proof.
  intros H HK. destruct (tc_frame _ _ _ _ _ _ HK). split; [done..|]. intros t p Hp Hin.
  destruct (tk_state_member _ _ _ _ _ _ _ (ok_tasks _ _ _ _ _ H) (ready_not_event p Hp) Hin) as (u & <-%state_item_inj & [x Hx] & _).
  pose proof (woken_state _ _ _ _ _ _ (tc_woken _ _ _ _ _ _ HK) t x p Hx Hin) as HW. rewrite decide_False in HW; [done|].
  intros [-> _]. pose proof (tc_ok _ _ _ _ _ _ HK) as HO.
  destruct (delays_disjoint _ _ _ _ _ _ (ok_delays _ _ _ _ _ HO)) as (_ & _ & _ & ? & _). congruence.
Qed.

Definition preempted_k (k : kernel) (L : store) : Prop :=
  preempted (switch_pending k) (k_tcbs k) (pxCurrentTCB k) L.

(** A ready task is in the list of its priority. *)
Lemma ready_in o lo k L t x p :
  kernel_ok sys o lo k L -> o <> Some t -> k_tcbs k !! t = Some x -> ready_list p = true ->
  xStateListItem t ∈ members L p -> p = pxReadyTasksLists (uxPriority x).
Proof.
  intros H Ho Hx Hp Hs. destruct (tk_ready _ _ _ _ _ (ok_tasks _ _ _ _ _ H) t x p Hx Ho Hp Hs) as [-> _].
  unfold pxReadyTasksLists. by rewrite Nat2Z.id.
Qed.

(** A task becomes ready or moves in its ready list, the others stay. *)
Lemma keeps_ready k k' L L1 t p ns' :
  k_tcbs k' = k_tcbs k -> pxCurrentTCB k' = pxCurrentTCB k ->
  (forall q, ready_list q = true -> xStateListItem t ∈ members L q -> q = p) ->
  (forall u q, u <> t -> xStateListItem u ∈ members L q -> xStateListItem u ∈ members L1 q) ->
  (forall j, j ∈ ns' <-> j = xStateListItem t \/ j ∈ members L1 p) ->
  keeps k k' L (<[p := ns']> L1).
Proof.
  intros HT Hc Hnr HL1 Hm. split; [done..|]. intros u q Hq Hin. rewrite (elem_of_inserted _ _ _ _ Hm).
  destruct (decide (u = t)) as [->|Hne]; [left; auto|right; auto].
Qed.

Lemma other_without2 L t u q :
  u <> t -> xStateListItem u ∈ members L q ->
  xStateListItem u ∈ members (without (xStateListItem t) <$> (without (xEventListItem t) <$> L)) q.
Proof.
  intros Hne Hin. rewrite !members_without, !elem_of_without. split; [by intros ?%state_item_inj|].
  split; [apply state_not_event|done].
Qed.

Lemma preempted_added k k' L p ns' x c y :
  preempted_k k L -> k_tcbs k' = k_tcbs k -> pxCurrentTCB k' = pxCurrentTCB k ->
  pxCurrentTCB k = Some c -> k_tcbs k !! c = Some y -> Z.of_nat p = uxPriority x ->
  (switch_pending k = true \/ uxPriority y < uxPriority x -> switch_pending k' = true) ->
  preempted_k k' (<[p := ns']> L).
Proof.
  unfold preempted_k. intros HP HT Hcur Hc Hy Hp Hb. rewrite HT, Hcur, Hc in *.
  apply (preempted_insert (switch_pending k) _ _ c y); [done|by rewrite Hp|done].
Qed.

(** What the two loops of [xTaskResumeAll] keep as well. *)
Record loop_frame (k k' : kernel) : Prop := {
  lf_tick : xTickCount k' = xTickCount k;
  lf_suspended : uxSchedulerSuspended k' = uxSchedulerSuspended k;
  lf_pended : xPendedTicks k' = xPendedTicks k;
  lf_number : uxCurrentNumberOfTasks k' = uxCurrentNumberOfTasks k;
  lf_pendsv : pendsv k' = pendsv k;
}.

Lemma ok_list_7 o lo k L : kernel_ok sys o lo k L -> L !! xPendingReadyList = Some (members L xPendingReadyList).
Proof. intros H. apply (ok_list _ _ _ _ _ H). unfold xPendingReadyList, first_event_list. lia. Qed.

(** A step of those loops. *)
Record settled (lo : Z) (k k' : kernel) (L L' : store) : Prop := {
  sd_ok : kernel_ok sys None lo k' L';
  sd_preempted : preempted_k k' L';
  sd_keeps : keeps k k' L L';
  sd_frame : loop_frame k k';
  sd_yield : xYieldPending k = true -> xYieldPending k' = true;
}.

Lemma settled_refl lo k L : kernel_ok sys None lo k L -> preempted_k k L -> settled lo k k L L.
Proof. intros. split; [done..|apply keeps_refl|done|done]. Qed.

Lemma settled_trans lo k1 k2 k3 L1 L2 L3 :
  settled lo k1 k2 L1 L2 -> settled lo k2 k3 L2 L3 -> settled lo k1 k3 L1 L3.
Proof.
  intros [_ _ HK [] HY] [HO HP HK' [] HY']. split; [done..|by eapply keeps_trans|split; congruence|auto].
Qed.

Lemma without_length i ns : i ∈ ns -> (length (without i ns) < length ns)%nat.
Proof.
  intros (ns1 & ns2 & ->)%list_elem_of_split. unfold without.
  rewrite filter_app, filter_cons_False, !length_app by tauto. cbn [length].
  pose proof (without_shorter i ns1). pose proof (without_shorter i ns2). unfold without in *. lia.
Qed.

Lemma other_shorter L t l : xEventListItem t ∈ members L l ->
  (length (members (without (xStateListItem t) <$> (without (xEventListItem t) <$> L)) l) < length (members L l))%nat.
Proof.
  intros Hin. rewrite !members_without.
  pose proof (without_shorter (xStateListItem t) (without (xEventListItem t) (members L l))).
  pose proof (without_length _ _ Hin). lia.
Qed.

Lemma wp_move_one {A} lo k L t x l (m : KM A) Q :
  kernel_ok sys None lo k L -> preempted_k k L -> k_tcbs k !! t = Some x -> xEventListItem t ∈ members L l ->
  event_list l = true ->
  (forall k' L', settled lo k k' L L' -> (length (members L' l) < length (members L l))%nat -> wp m Q k') ->
  wp (on_lists (uxListRemove (xEventListItem t));; on_lists (uxListRemove (xStateListItem t));;
      prvAddTaskToReadyList t;; x ← get_tcb t; c ← current; y ← get_tcb c;
      when (uxPriority x >=? uxPriority y) (modify (set_xYieldPending true));; m) Q k.
Proof.
  intros H HP Hx Hi Hle HQ. pose proof (ok_tasks _ _ _ _ _ H) as HT. wps.
  eapply wp_remove_event; [exact H|exact Hi|]. intros n1 h1 H1 HS1. wps.
  destruct (ok_state _ _ _ _ _ t H1) as (l' & Hin & _); [by eauto|done|].
  eapply wp_remove_state; [exact H1|by left|exact Hin|]. intros n2 h2 H2 HS2. wps.
  eapply wp_add_ready;
    [exact H2|exact Hx|apply detached_without|apply detached_pended, detached_without_other, detached_without|].
  intros h3 top' ns' Hm HS3 H3. wps.
  apply (wp_get_tcb t x); [done|]. wps. destruct (ok_current _ _ _ _ _ H) as (c & y & Hc & Hy).
  apply (wp_current c); [done|]. wps. apply (wp_get_tcb c y); [done|]. wps.
  destruct (ready_priority _ _ _ _ _ t x HT Hx) as [Hp Ep].
  assert (keeps k k L (<[pxReadyTasksLists (uxPriority x) := ns']>
            (without (xStateListItem t) <$> (without (xEventListItem t) <$> L)))) as HK.
  { apply (keeps_ready _ _ _ _ t); [done..| |by intros; apply other_without2|done].
    intros q Hq. by apply (ready_in None lo k L t x q). }
  assert (preempted_k k (without (xStateListItem t) <$> (without (xEventListItem t) <$> L))) as HP'
    by (by apply preempted_without, preempted_without).
  apply wp_when; intros Hge; wps; eapply HQ.
  - split; [by apply ok_yield, H3| |by destruct HK|done|done].
    apply (preempted_added k _ _ _ _ x c y); try done. intros _. apply orb_true_r.
  - rewrite members_insert_ne by (intros E; subst l; by rewrite ready_not_event in Hle). by apply other_shorter.
  - split; [done| |by destruct HK|done|done]. apply (preempted_added k _ _ _ _ x c y); try done.
    intros [|]; [done|lia].
  - rewrite members_insert_ne by (intros E; subst l; by rewrite ready_not_event in Hle). by apply other_shorter.
Qed.

Lemma wp_move_pending lo : forall fuel k L moved,
  (length (members L xPendingReadyList) < fuel)%nat -> kernel_ok sys None lo k L -> preempted_k k L ->
  wp (move_pending fuel moved) (fun _ k' => exists L', settled lo k k' L L' /\ members L' xPendingReadyList = []) k.
Proof.
  induction fuel as [|fuel IH]; intros k L moved Hlen H HP; [lia|].
  pose proof (ok_tasks _ _ _ _ _ H) as HT. pose proof (tk_stored _ _ _ _ _ HT) as S.
  pose proof (ok_list_7 _ _ _ _ H) as Hl.
  cbn [move_pending]. wps. eapply wp_ask; [by apply (st_empty _ _ S)|].
  apply wp_if; intros Hb; wps.
  { exists L. apply bool_decide_eq_true in Hb. split; [by apply settled_refl|done]. }
  destruct (members L xPendingReadyList) as [|i ns] eqn:E; [done|].
  assert (i ∈ members L xPendingReadyList) as Hi by (rewrite E; by left).
  destruct (tk_event_member _ _ _ _ _ xPendingReadyList _ HT eq_refl Hi) as (t & -> & [x Hx] & Ho).
  eapply wp_ask; [by eapply (st_head_owner _ _ S)|].
  eapply wp_move_one; [done..|]. intros k1 L1 HS Hlen1. rewrite E in Hlen1.
  eapply wp_mono; [apply (IH k1 L1); [cbn [length] in *; lia|apply HS|apply HS]|].
  intros _ k2 (L2 & HS2 & HE). exists L2. split; [by eapply settled_trans|done].
Qed.

Record replayed (n : nat) (k k' : kernel) (L L' : store) : Prop := {
  rp_ok : kernel_ok sys None (xTickCount k' + 1) k' L';
  rp_preempted : preempted_k k' L';
  rp_keeps : keeps k k' L L';
  rp_tick : xTickCount k' = u32 (xTickCount k + Z.of_nat n);
  rp_suspended : uxSchedulerSuspended k' = uxSchedulerSuspended k;
  rp_pended : xPendedTicks k' = xPendedTicks k;
  rp_pendsv : pendsv k' = pendsv k;
  rp_yield : xYieldPending k = true -> xYieldPending k' = true;
  rp_pending : members L xPendingReadyList = [] -> members L' xPendingReadyList = [];
}.

Lemma ticked_pending b r k k' L L' :
  ticked b r k k' L L' -> members L xPendingReadyList = [] -> members L' xPendingReadyList = [].
Proof.
  intros HK E. destruct (members L' xPendingReadyList) as [|i ns] eqn:E'; [done|].
  assert (i ∈ members L' xPendingReadyList) as Hi by (rewrite E'; by left).
  destruct (tk_event_member _ _ _ _ _ xPendingReadyList _ (ok_tasks _ _ _ _ _ (tc_ok _ _ _ _ _ _ HK)) eq_refl Hi)
    as (t & -> & _). apply (woken_event_only _ _ _ _ _ _ (tc_woken _ _ _ _ _ _ HK)) in Hi.
  rewrite E in Hi. by apply elem_of_nil in Hi.
Qed.

Lemma ticked_replayed r k k1 L L1 :
  let k2 := set_xYieldPending (r || xYieldPending k1) k1 in
  kernel_ok sys None (xTickCount k + 1) k L -> ticked (switch_pending k) r k k1 L L1 ->
  kernel_ok sys None (xTickCount k2 + 1) k2 L1 /\ uxSchedulerSuspended k2 = uxSchedulerSuspended k /\
  preempted_k k2 L1 /\ (forall n k' L', replayed n k2 k' L1 L' -> replayed (S n) k k' L L').
Proof.
  intros k2 H HK. pose proof (ticked_keeps _ _ _ _ _ _ _ H HK) as HKK.
  pose proof (ticked_pending _ _ _ _ _ _ HK) as Hpend.
  destruct HK as [HO HS Ht HL HW HP [F1 F2 F3 F4 F5 F6 F7] HY HSl].
  split; [by apply ok_yield|]. split; [done|]. split.
  - unfold preempted_k, switch_pending in *. unfold k2. kcbn. rewrite F1, F2, F5, F6.
    eapply preempted_weaken; [|exact HP]. destruct (pendsv k), (xYieldPending k), r; done.
  - intros n k' L' [RO RP RK Rt Rs Rp Rv Ry Rn]. unfold k2 in *. kcbn_in Rt. kcbn_in Rs. kcbn_in Rp. kcbn_in Rv. kcbn_in Ry.
    split; [done|done| |rewrite Rt, Ht, wrapu_add_l; f_equal; lia|congruence..| |by auto].
    + eapply keeps_trans; [exact HKK|]. destruct RK. by split.
    + intros E. apply Ry. rewrite F5, E. apply orb_true_r.
Qed.

Lemma wp_replay_ticks n : forall k L,
  kernel_ok sys None (xTickCount k + 1) k L -> uxSchedulerSuspended k = 0 -> preempted_k k L ->
  wp (replay_ticks n) (fun _ k' => exists L', replayed n k k' L L') k.
Proof.
  induction n as [|n IH]; intros k L H Hs HP; cbn [replay_ticks]; wps.
  - exists L. split; [done|done|apply keeps_refl| |done..].
    rewrite Z.add_0_r. symmetry. apply wrapu_small, H.
  - eapply wp_mono; [by apply (wp_tick (switch_pending k) k L)|]. intros r k1 (L1 & HK). wps.
    destruct (ticked_replayed _ _ _ _ _ H HK) as (H2 & Hs2 & HP2 & HR).
    assert (wp (replay_ticks n) (fun _ k' => exists L', replayed (S n) k k' L L')
              (set_xYieldPending (r || xYieldPending k1) k1)) as Hrec.
    { eapply wp_mono; [apply (IH _ L1); [done|congruence|done]|]. intros _ k' (L' & HR'). eauto. }
    apply wp_when; intros ->; wps; [done|]. by destruct k1.
Qed.

(** [xTaskResumeAll] *)
Record resumed (r : bool) (k k' : kernel) (L L' : store) : Prop := {
  rs_ok : kernel_ok sys None (xTickCount k' + 1) k' L';
  rs_preempted : preempted_k k' L';
  rs_keeps : keeps k k' L L';
  rs_suspended : uxSchedulerSuspended k' = uxSchedulerSuspended k - 1;
  rs_yield : r = true -> pendsv k' = true;
  rs_switch : switch_pending k = true -> switch_pending k' = true;
  rs_last : uxSchedulerSuspended k = 1 -> 0 < uxCurrentNumberOfTasks k ->
    members L' xPendingReadyList = [] /\ xPendedTicks k' = 0 /\
    xTickCount k' = u32 (xTickCount k + xPendedTicks k) /\ (switch_pending k' = true -> pendsv k' = true);
}.

(** The end of the function: the pended ticks, and the yield. *)
Definition resume_ticks : KM bool :=
  xPendedCounts ← gets xPendedTicks;
  when (xPendedCounts >? 0) (replay_ticks (Z.to_nat xPendedCounts);; modify (set_xPendedTicks 0));;
  yield ← gets xYieldPending;
  when yield portYIELD_WITHIN_API;;
  mret yield.

Record resumed_last (r : bool) (k k' : kernel) (L L' : store) : Prop := {
  rl_ok : kernel_ok sys None (xTickCount k' + 1) k' L';
  rl_preempted : preempted_k k' L';
  rl_keeps : keeps k k' L L';
  rl_suspended : uxSchedulerSuspended k' = uxSchedulerSuspended k;
  rl_yield : r = true -> pendsv k' = true;
  rl_switch : switch_pending k = true -> pendsv k' = true;
  rl_pending : members L' xPendingReadyList = [];
  rl_ticks : xPendedTicks k' = 0 /\ xTickCount k' = u32 (xTickCount k + xPendedTicks k);
  rl_asked : switch_pending k' = true -> pendsv k' = true;
}.

(** The yield at the end. *)
Lemma wp_resume_yield (R : bool -> kernel -> Prop) k :
  (let k' := set_pendsv (xYieldPending k || pendsv k) k in R (xYieldPending k) k') ->
  wp (yield ← gets xYieldPending; when yield portYIELD_WITHIN_API;; mret yield) R k.
Proof.
  intros HR. wps. destruct (xYieldPending k) eqn:E; cbn [when]; wps; [done|].
  cbn [orb] in HR. by destruct k.
Qed.

Lemma wp_resume_ticks k L :
  kernel_ok sys None (xTickCount k + 1) k L -> uxSchedulerSuspended k = 0 -> preempted_k k L ->
  members L xPendingReadyList = [] ->
  wp resume_ticks (fun r k' => exists L', resumed_last r k k' L L') k.
Proof.
  intros H Hs HP HE. unfold resume_ticks. wps.
  pose proof (ok_pended _ _ _ _ _ H) as Hpr. unfold in_range in Hpr.
  apply (wp_mono _ (fun _ k1 => exists L1 n, replayed n k (set_xPendedTicks (xPendedTicks k) k1) L L1 /\
                      Z.of_nat n = xPendedTicks k /\ xPendedTicks k1 = 0)).
  - apply wp_when; intros Hb; wps.
    + eapply wp_mono; [by apply (wp_replay_ticks (Z.to_nat (xPendedTicks k)) k L)|].
      intros _ k1 (L1 & HR). wps. exists L1, (Z.to_nat (xPendedTicks k)). split; [|split; [lia|done]].
      replace (set_xPendedTicks (xPendedTicks k) (set_xPendedTicks 0 k1)) with k1; [done|].
      rewrite <- (rp_pended _ _ _ _ _ HR). by destruct k1.
    + exists L, O. assert (xPendedTicks k = 0) as E0 by lia. split; [|split; [lia|done]].
      replace (set_xPendedTicks (xPendedTicks k) k) with k by (by destruct k).
      split; [done|done|apply keeps_refl| |done..]. rewrite Z.add_0_r. symmetry. apply wrapu_small, H.
  - intros _ k1 (L1 & n & [RO RP [RK1 RK2 RK3] Rt Rs Rp Rv Ry Rn] & En & E0). rewrite En in Rt.
    kcbn_in RK1. kcbn_in RK2. kcbn_in Rt. kcbn_in Rs. kcbn_in Rv. kcbn_in Ry.
    apply wp_resume_yield. exists L1. split; kcbn; try done.
    + destruct RO. split; kcbn; try done. by rewrite E0.
    + unfold preempted_k, switch_pending in *. kcbn. eapply preempted_weaken; [|exact RP]. kcbn.
      destruct (pendsv k1), (xYieldPending k1); done.
    + by intros ->.
    + unfold switch_pending. rewrite Rv. intros [->| HY]%orb_true_iff; [apply orb_true_r|by rewrite Ry].
    + by apply Rn.
    + unfold switch_pending. kcbn. destruct (pendsv k1), (xYieldPending k1); done.
Qed.

Lemma wp_resume_last k L :
  kernel_ok sys None (xTickCount k + 1) k L -> uxSchedulerSuspended k = 0 -> preempted_k k L ->
  wp (len ← ask_lists (listCURRENT_LIST_LENGTH xPendingReadyList);
      moved ← move_pending (S (Z.to_nat len)) false;
      when moved prvResetNextTaskUnblockTime;;
      resume_ticks) (fun r k' => exists L', resumed_last r k k' L L') k.
Proof.
  intros H Hs HP. wps.
  eapply wp_ask; [apply (st_length _ _ (tk_stored _ _ _ _ _ (ok_tasks _ _ _ _ _ H))), (ok_list_7 _ _ _ _ H)|]. wps.
  eapply wp_mono; [apply (wp_move_pending (xTickCount k + 1) _ k L); [lia|done|done]|].
  intros moved k1 (L1 & [H1 HP1 HK1 [F1 F2 F3 F4 F5] HY1] & HE1). wps.
  assert (forall k2, kernel_ok sys None (xTickCount k + 1) k2 L1 -> (exists n, k2 = set_xNextTaskUnblockTime n k1) ->
            wp resume_ticks (fun r k' => exists L', resumed_last r k k' L L') k2) as Hgo.
  { intros k2 H2 [nx ->]. eapply wp_mono; [apply (wp_resume_ticks _ L1); kcbn; [by rewrite F1|congruence|done|done]|].
    intros r k' (L' & [RO RP RK Rs Ry Rw Rn [Rp Rt] Ra]). kcbn_in Rs. kcbn_in Rt. exists L'.
    split; [done|done| |congruence|done| |done|split; [done|congruence]|done].
    - eapply keeps_trans; [exact HK1|]. destruct RK. by split.
    - intros E. apply Rw. revert E. unfold switch_pending. kcbn. rewrite F5.
      intros [->|Y%HY1]%orb_true_iff; [done|]. rewrite Y. apply orb_true_r. }
  apply wp_when; intros Hm.
  - eapply wp_reset_next; [by apply ok_next_zero, H1|]. intros next' H2. apply Hgo; [done|by eexists].
  - apply Hgo; [done|]. exists (xNextTaskUnblockTime k1). by destruct k1.
Qed.

Lemma wp_resume_all k L :
  kernel_ok sys None (xTickCount k + 1) k L -> uxSchedulerSuspended k <> 0 -> preempted_k k L ->
  wp xTaskResumeAll (fun r k' => exists L', resumed r k k' L L') k.
Proof.
  intros H Hs HP. pose proof (ok_suspended _ _ _ _ _ H) as Hr. unfold in_range in Hr.
  unfold xTaskResumeAll. wps. apply wp_configASSERT; [lia|]. wps.
  rewrite wrapu_small by lia.
  assert (kernel_ok sys None (xTickCount k + 1) (set_uxSchedulerSuspended (uxSchedulerSuspended k - 1) k) L) as H1.
  { destruct H. split; kcbn; try done. unfold in_range. lia. }
  apply wp_if; intros Hb.
  - eapply wp_mono; [apply (wp_resume_last (set_uxSchedulerSuspended (uxSchedulerSuspended k - 1) k) L H1); [kcbn; lia|done]|].
    intros r k' (L' & [RO RP RK Rs Ry Rw Rn [Rp Rt] Ra]). exists L'. kcbn_in Rs. kcbn_in Rt.
    split; [done|done|by destruct RK|done|done| |done]. intros E. unfold switch_pending. by rewrite (Rw E).
  - wps. exists L. split; [done..|]. intros E0 E1. kcbn_in Hb. lia.
Qed.
End Calls.
