(* ===== verification/FreeRTOSTasksInvariant.v ===== *)
(** * Every call keeps the scheduler's invariant

    [scheduled]: the lists and the times are consistent, no ready task outranks
    the running one unless a context switch is pending, and the running task is
    ready unless a switch is pending or the scheduler is suspended.  Each
    function of [tasks.c], called as its comments ask, returns and keeps it. *)

From S2P Require Import Prelude FreeRTOSList FreeRTOSListTheory FreeRTOSListStore FreeRTOSHeap FreeRTOSTasks.
From S2P Require Import FreeRTOSTasksTheory FreeRTOSTasksCalls.

Definition current_ready (k : kernel) (L : store) : Prop :=
  exists c p, pxCurrentTCB k = Some c /\ ready_list p = true /\ xStateListItem c ∈ members L p.

Record scheduled (sys : system) (k : kernel) (L : store) : Prop := {
  sc_ok : kernel_ok sys None (xTickCount k + 1) k L;
  sc_preempted : preempted_k k L;
  sc_running : uxSchedulerSuspended k = 0 -> switch_pending k = false -> current_ready k L;
}.

(** The call returns and keeps the invariant. *)
Definition safe (sys : system) {A} (m : KM A) (k : kernel) : Prop := wp m (fun _ k' => exists L', scheduled sys k' L') k.

Section Api.
Context (sys : system).

(** ** Rules *)

Lemma not_asked (b b' : bool) : (b = true -> b' = true) -> b' = false -> b = false.
Proof. destruct b; [intros H; by rewrite H|done]. Qed.

Lemma scheduled_pending k L :
  kernel_ok sys None (xTickCount k + 1) k L -> switch_pending k = true -> scheduled sys k L.
Proof. intros H Hb. split; [done| |congruence]. unfold preempted_k. by rewrite Hb. Qed.

Lemma keeps_current k k' L L' : keeps k k' L L' -> current_ready k L -> current_ready k' L'.
Proof. intros [_ Hc Hr] (c & p & E & Hp & Hin). exists c, p. rewrite Hc. auto. Qed.

(** A task becomes ready. *)
Lemma scheduled_added k k' L L1 t x p ns' c y :
  scheduled sys k L -> kernel_ok sys None (xTickCount k' + 1) k' (<[p := ns']> L1) ->
  k_tcbs k' = k_tcbs k -> pxCurrentTCB k' = pxCurrentTCB k -> uxSchedulerSuspended k' = uxSchedulerSuspended k ->
  pxCurrentTCB k = Some c -> k_tcbs k !! c = Some y -> Z.of_nat p = uxPriority x -> ready_list p = true ->
  preempted_k k L1 -> (forall u q, u <> t -> xStateListItem u ∈ members L q -> xStateListItem u ∈ members L1 q) ->
  (forall j, j ∈ ns' <-> j = xStateListItem t \/ j ∈ members L1 p) ->
  (switch_pending k = true \/ uxPriority y < uxPriority x -> switch_pending k' = true) ->
  scheduled sys k' (<[p := ns']> L1).
Proof.
  intros [HO HP HR] HO' HT Hcur Hs Hc Hy Hp Hrp HP1 Hoth Hm Hb.
  split; [done|by apply (preempted_added k _ _ _ _ x c y)|].
  intros Hs' Hb'. destruct (switch_pending k) eqn:E; [rewrite Hb in Hb'; [done|by left]|].
  destruct HR as (c' & q & E' & Hq & Hin); [congruence|done|]. assert (c' = c) as -> by congruence.
  pose proof (elem_of_inserted _ _ _ _ Hm) as Hmem.
  destruct (decide (c = t)) as [->|Hne]; [exists t, p|exists c, q]; (split; [congruence|]); (split; [done|]);
    rewrite Hmem; auto.
Qed.

(** A task that is not running moves to a list of tasks that are not ready. *)
Lemma scheduled_left k k' L L1 t l ns' :
  scheduled sys k L -> kernel_ok sys None (xTickCount k' + 1) k' (<[l := ns']> L1) ->
  k_tcbs k' = k_tcbs k -> pxCurrentTCB k' = pxCurrentTCB k -> uxSchedulerSuspended k' = uxSchedulerSuspended k ->
  pxCurrentTCB k <> Some t -> ready_list l = false ->
  preempted_k k L1 -> (forall u q, u <> t -> xStateListItem u ∈ members L q -> xStateListItem u ∈ members L1 q) ->
  (switch_pending k = true -> switch_pending k' = true) ->
  scheduled sys k' (<[l := ns']> L1).
Proof.
  intros [HO HP HR] HO' HT Hcur Hs Hc Hl HP1 Hoth Hb. split; [done|..].
  - unfold preempted_k in *. rewrite HT, Hcur. apply preempted_insert_other; [done|]. by eapply preempted_weaken.
  - intros Hs' Hb'. destruct HR as (c & q & E & Hq & Hin); [congruence|by apply (not_asked _ _ Hb)|].
    exists c, q. split; [congruence|]. split; [done|]. rewrite members_insert_ne by congruence. apply Hoth; [congruence|done].
Qed.

(** Nothing moves. *)
Lemma scheduled_same k k' L :
  scheduled sys k L -> kernel_ok sys None (xTickCount k' + 1) k' L -> pxCurrentTCB k' = pxCurrentTCB k ->
  (forall c y y', pxCurrentTCB k = Some c -> k_tcbs k !! c = Some y -> k_tcbs k' !! c = Some y' -> uxPriority y <= uxPriority y') ->
  (uxSchedulerSuspended k' = 0 -> uxSchedulerSuspended k = 0) ->
  (switch_pending k = true -> switch_pending k' = true) -> scheduled sys k' L.
Proof.
  intros [HO HP HR] HO' Hcur HT Hs Hb. split; [done|..].
  - intros Hb' c y' Hc Hy'. destruct (ok_current _ _ _ _ _ HO) as (c1 & y & Hc1 & Hy).
    assert (c1 = c) as -> by congruence. apply (below_le (uxPriority y)); [by apply (HT c)|].
    apply (HP (not_asked _ _ Hb Hb') c y); congruence.
  - intros Hs' Hb'. destruct HR as (c & q & E & ?); [auto|by apply (not_asked _ _ Hb)|].
    exists c, q. split; [congruence|done].
Qed.

Lemma scheduled_flags k k' L :
  scheduled sys k L -> kernel_ok sys None (xTickCount k' + 1) k' L -> pxCurrentTCB k' = pxCurrentTCB k ->
  k_tcbs k' = k_tcbs k -> (uxSchedulerSuspended k' = 0 -> uxSchedulerSuspended k = 0) ->
  (switch_pending k = true -> switch_pending k' = true) -> scheduled sys k' L.
Proof.
  intros H HO' Hcur HT Hs Hb. apply (scheduled_same k); try done. rewrite HT. intros. simplify_eq. lia.
Qed.

(** ** Ticks, context switches, suspension of the scheduler *)

Lemma safe_systick k L : scheduled sys k L -> safe sys xPortSysTickHandler k.
Proof.
  intros [HO HP HR]. unfold safe, xPortSysTickHandler. wps.
  destruct (decide (uxSchedulerSuspended k = 0)) as [Hs|Hs].
  - eapply wp_mono; [by apply (wp_tick sys (switch_pending k) k L)|]. intros r k' (L' & HK). wps.
    pose proof (ticked_keeps _ _ _ _ _ _ _ _ HO HK) as HKK. destruct HK as [HO' _ _ _ _ HP' [F1 F2 F3 F4 F5 F6 F7] _ _].
    apply wp_when; intros Hr; wps; exists L'.
    + apply scheduled_pending; [by apply ok_pendsv|done].
    + rewrite Hr, orb_false_r in HP'. split; [done| |].
      * unfold preempted_k, switch_pending in *. by rewrite F1, F2, F5, F6.
      * unfold switch_pending in *. rewrite F3, F5, F6. intros. eapply keeps_current; eauto.
  - apply wp_tick_suspended; [done|]. cbn [when]. wps. exists L. split; [|done..].
    destruct HO. split; kcbn; try done. apply in_range_wrapu. lia.
Qed.

Lemma safe_switch k L : scheduled sys k L -> safe sys xPortPendSVHandler k.
Proof.
  intros [HO HP HR]. unfold safe, xPortPendSVHandler, vTaskSwitchContext. wps. apply wp_if; intros Hs; wps.
  - exists L. apply scheduled_pending; [by apply ok_yield, ok_pendsv|done].
  - eapply wp_select; [by apply ok_yield, ok_pendsv, HO|]. intros h' c y p HS Hy Hp Hin Ey Hb HO'. exists L.
    split; [done| |].
    + intros _ c' y' [= <-] Hy'. kcbn_in Hy'. kcbn_in Hy. assert (y' = y) as -> by congruence. done.
    + intros _ _. exists c, p. auto.
Qed.

Lemma safe_suspend_all k L :
  scheduled sys k L -> uxSchedulerSuspended k + 1 < 2 ^ 32 -> safe sys vTaskSuspendAll k.
Proof.
  intros H Hs. unfold safe, vTaskSuspendAll. wps. exists L. pose proof (sc_ok _ _ _ H) as HO.
  pose proof (ok_suspended _ _ _ _ _ HO) as Hr. unfold in_range in Hr. rewrite wrapu_small by lia.
  apply (scheduled_flags k); try done; [|kcbn; lia].
  destruct HO. split; kcbn; try done. unfold in_range. lia.
Qed.

Lemma resumed_scheduled r k k' L L' :
  resumed sys r k k' L L' ->
  (uxSchedulerSuspended k = 1 -> switch_pending k = false -> current_ready k L) -> scheduled sys k' L'.
Proof.
  intros [RO RP RK Rs Ry Rw Rl] Hc. split; [done..|]. intros Hs Hb. apply (keeps_current _ _ _ _ RK).
  apply Hc; [lia|]. destruct (switch_pending k); [|done]. by rewrite Rw in Hb.
Qed.

(** [xTaskResumeAll], by a task that did not block meanwhile. *)
Lemma safe_resume_all k L :
  scheduled sys k L -> uxSchedulerSuspended k <> 0 ->
  (uxSchedulerSuspended k = 1 -> switch_pending k = false -> current_ready k L) -> safe sys xTaskResumeAll k.
Proof.
  intros [HO HP HR] Hs Hc. eapply wp_mono; [by apply (wp_resume_all sys k L)|]. intros r k' (L' & HK).
  exists L'. by eapply resumed_scheduled.
Qed.

(** [xTaskResumeAll] and the yield of a task that blocked. *)
Definition resume_and_yield : KM unit := b ← xTaskResumeAll; when (negb b) portYIELD_WITHIN_API.

Lemma wp_resume_yielding k L Q :
  kernel_ok sys None (xTickCount k + 1) k L -> preempted_k k L -> uxSchedulerSuspended k <> 0 ->
  (forall r k' L', resumed sys r k k' L L' -> forall b : bool, (r = false -> b = true) ->
     scheduled sys (set_pendsv (b || pendsv k') k') L' -> Q tt (set_pendsv (b || pendsv k') k')) ->
  wp xTaskResumeAll (fun r => wp (when (negb r) portYIELD_WITHIN_API) Q) k.
Proof.
  intros HO HP Hs HQ. eapply wp_mono; [by apply (wp_resume_all sys k L)|].
  intros r k' (L' & HK). pose proof HK as [RO RP RK Rs Ry Rw Rl].
  apply wp_when; intros Hb; wps.
  - apply (HQ r k' L' HK true); [done|]. apply scheduled_pending; [by apply ok_pendsv|done].
  - destruct r; [|done]. replace k' with (set_pendsv (false || pendsv k') k') by (by destruct k').
    apply (HQ true k' L' HK false); [done|]. replace (set_pendsv (false || pendsv k') k') with k' by (by destruct k').
    apply scheduled_pending; [done|]. unfold switch_pending. by rewrite Ry.
Qed.

Lemma safe_resume_and_yield k L :
  scheduled sys k L -> uxSchedulerSuspended k <> 0 -> safe sys resume_and_yield k.
Proof.
  intros [HO HP _] Hs. unfold safe, resume_and_yield. wps. eapply wp_resume_yielding; [exact HO|done..|]. eauto.
Qed.

(** ** Delays *)

Lemma other_without L t u q :
  u <> t -> xStateListItem u ∈ members L q -> xStateListItem u ∈ members (without (xStateListItem t) <$> L) q.
Proof. intros Hne Hin. rewrite members_without, elem_of_without. split; [|done]. by intros ?%state_item_inj. Qed.

Lemma ok_suspend_all o lo k L n :
  in_range 32 n -> kernel_ok sys o lo k L -> kernel_ok sys o lo (set_uxSchedulerSuspended n k) L.
Proof. intros Hn []. by split. Qed.

(** [vTaskSuspendAll] by a task of a scheduler that is not suspended. *)
Lemma wp_suspend_first k (Q : unit -> kernel -> Prop) :
  uxSchedulerSuspended k = 0 -> Q tt (set_uxSchedulerSuspended 1 k) -> wp vTaskSuspendAll Q k.
Proof. intros Hs HQ. unfold vTaskSuspendAll. wps. by rewrite Hs. Qed.

(** The running task, found in a ready list. *)
Lemma current_state k L c p :
  scheduled sys k L -> pxCurrentTCB k = Some c -> ready_list p = true -> xStateListItem c ∈ members L p ->
  exists x, k_tcbs k !! c = Some x /\ uxPriority x = Z.of_nat p /\ pended L (xEventListItem c).
Proof.
  intros H Hc Hp Hin. pose proof (sc_ok _ _ _ H) as HO. destruct (ok_current _ _ _ _ _ HO) as (c' & x & Hc' & Hx).
  simplify_eq. exists x. split; [done|]. by apply (tk_ready _ _ _ _ _ (ok_tasks _ _ _ _ _ HO) c x p).
Qed.

(** After a delay the other lists have fewer tasks. *)
Lemma preempted_delayed k L c x l ns' :
  preempted_k k L -> k_tcbs k !! c = Some x -> ready_list l = false ->
  preempted (switch_pending k) (<[c := set_ucDelayAborted false x]> (k_tcbs k)) (pxCurrentTCB k)
    (<[l := ns']> (without (xStateListItem c) <$> L)).
Proof.
  intros HP Hx Hl. apply preempted_insert_other; [done|]. apply preempted_without.
  by eapply preempted_put; [done|cbn; lia|].
Qed.

Lemma wait_list_not_ready lo k L n b : kernel_ok sys None lo k L -> ready_list (wait_list k n b) = false.
Proof.
  intros H. destruct (delays_disjoint _ _ _ _ _ _ (ok_delays _ _ _ _ _ H)) as (_ & _ & _ & ? & ? & _).
  unfold wait_list. destruct (_ && _); [done|]. by destruct (_ <? _).
Qed.

Lemma safe_delay k L c p n :
  scheduled sys k L -> uxSchedulerSuspended k = 0 -> 0 <= n <= portMAX_DELAY ->
  pxCurrentTCB k = Some c -> c <> idle_task sys -> ready_list p = true -> xStateListItem c ∈ members L p ->
  safe sys (vTaskDelay n) k.
Proof.
  intros H Hs Hn Hc Hid Hp Hin. pose proof (sc_ok _ _ _ H) as HO. unfold safe, vTaskDelay. wps.
  destruct (current_state k L c p) as (x & Hx & _); [done..|].
  apply wp_if; intros Hb; wps.
  - apply wp_configASSERT; [lia|]. wps. apply wp_suspend_first; [done|]. wps.
    eapply (wp_delay_current _ _ _ L c x p); try done; [by apply ok_suspend_all|by left|lia|].
    intros h' next' ns' k' L' Hok Hm Hsame Hval.
    eapply wp_resume_yielding; [exact Hok| |done|by eauto].
    apply (preempted_delayed k L c x); [apply H|done|by apply (wait_list_not_ready (xTickCount k + 1) k L)].
  - cbn [when negb]. wps. exists L. apply scheduled_pending; [by apply ok_pendsv|done].
Qed.

Lemma safe_delay_until k L c p previous inc :
  scheduled sys k L -> uxSchedulerSuspended k = 0 -> in_range 32 previous -> 0 < inc <= portMAX_DELAY ->
  pxCurrentTCB k = Some c -> c <> idle_task sys -> ready_list p = true -> xStateListItem c ∈ members L p ->
  safe sys (xTaskDelayUntil previous inc) k.
Proof.
  intros H Hs Hpr Hinc Hc Hid Hp Hin. pose proof (sc_ok _ _ _ H) as HO. unfold safe, xTaskDelayUntil. wps.
  destruct (current_state k L c p) as (x & Hx & _); [done..|].
  apply wp_configASSERT; [lia|]. wps. apply wp_configASSERT; [lia|]. wps. apply wp_suspend_first; [done|]. wps.
  pose proof (ok_tick _ _ _ _ _ HO) as Ht. unfold in_range in Ht, Hpr.
  assert (forall k1 L1, kernel_ok sys None (xTickCount k1 + 1) k1 L1 -> preempted_k k1 L1 -> uxSchedulerSuspended k1 = 1 ->
    forall r : bool * Z, wp xTaskResumeAll (fun b => wp (when (negb b) portYIELD_WITHIN_API;; mret r)
      (fun _ k' => exists L', scheduled sys k' L')) k1) as Hend.
  { intros k1 L1 HO1 HP1 Hs1 r. eapply wp_mono.
    - eapply (wp_resume_yielding _ L1 (fun _ k' => exists L', scheduled sys k' L')); [done|done|lia|by eauto].
    - intros b k2 Hb. wps. eapply wp_mono; [exact Hb|]. intros [] k3 ?. by wps. }
  apply wp_when; intros Hd.
  - eapply (wp_delay_current _ _ _ L c x p); try done; [by apply ok_suspend_all|by left| |].
    { kcbn. kcbn_in Hd. revert Hd. unfold portMAX_DELAY in *. unfold wrapu. destruct (_ <? previous) eqn:E;
        intros Hd; Z.to_euclidean_division_equations; lia. }
    intros h' next' ns' k' L' Hok Hm Hsame Hval. wps. apply (Hend k' L'); [done| |done].
    apply (preempted_delayed k L c x); [apply H|done|by apply (wait_list_not_ready (xTickCount k + 1) k L)].
  - wps. apply (Hend _ L); [by apply ok_suspend_all|apply H|done].
Qed.

Lemma safe_catch_up k L n :
  scheduled sys k L -> uxSchedulerSuspended k = 0 -> safe sys (xTaskCatchUpTicks n) k.
Proof.
  intros [HO HP HR] Hs. unfold safe, xTaskCatchUpTicks. wps. apply wp_configASSERT; [lia|]. wps.
  apply wp_suspend_first; [done|]. wps.
  set (k1 := set_xPendedTicks _ _).
  assert (kernel_ok sys None (xTickCount k1 + 1) k1 L) as H1.
  { apply (ok_suspend_all _ _ _ _ 1) in HO; [|done]. destruct HO. split; try done. apply in_range_wrapu. lia. }
  eapply wp_mono; [by apply (wp_resume_all sys k1 L)|]. intros r k' (L' & HK). exists L'.
  eapply resumed_scheduled; [exact HK|]. intros _ Hb. by apply HR.
Qed.

(** ** Suspending and resuming tasks *)

(** The task a handle stands for. *)
Definition task_of (k : kernel) (h : option nat) : option nat :=
  match h with Some t => Some t | None => pxCurrentTCB k end.

Lemma wp_handle h t (Q : nat -> kernel -> Prop) k : task_of k h = Some t -> Q t k -> wp (prvGetTCBFromHandle h) Q k.
Proof. destruct h; cbn; intros E HQ; [simplify_eq; by apply wp_ret|by apply (wp_current t)]. Qed.

(** An assignment to a control block that keeps the priorities. *)
Lemma scheduled_put k L t x x' :
  scheduled sys k L -> k_tcbs k !! t = Some x -> uxPriority x' = uxPriority x -> uxBasePriority x' = uxBasePriority x ->
  (ucNotifyState x' = taskWAITING_NOTIFICATION -> detached L (xEventListItem t)) ->
  scheduled sys (set_k_tcbs (<[t := x']> (k_tcbs k)) k) L.
Proof.
  intros H Hx Hp Hb Hn. pose proof (sc_ok _ _ _ H) as HO.
  pose proof (tk_priority _ _ _ _ _ (ok_tasks _ _ _ _ _ HO) t x Hx) as [??].
  apply (scheduled_same k); try done.
  - apply (ok_put_tcb sys None _ k L t x); rewrite ?Hp, ?Hb; auto.
  - intros c y y' Hc Hy. kcbn. destruct (decide (c = t)) as [->|Hne].
    + rewrite lookup_insert_eq. intros. simplify_eq. lia.
    + rewrite lookup_insert_ne by done. intros. simplify_eq. lia.
Qed.

Lemma scheduled_next k L n' :
  scheduled sys k L -> kernel_ok sys None (xTickCount k + 1) (set_xNextTaskUnblockTime n' k) L ->
  scheduled sys (set_xNextTaskUnblockTime n' k) L.
Proof. intros H HO. by apply (scheduled_flags k). Qed.

Lemma safe_suspend k L h t :
  scheduled sys k L -> started sys = true -> task_of k h = Some t -> is_Some (k_tcbs k !! t) -> t <> idle_task sys ->
  (pxCurrentTCB k = Some t -> uxSchedulerSuspended k = 0) -> safe sys (vTaskSuspend h) k.
Proof.
  intros H Hst Ht [x Hx] Hid Hs. pose proof (sc_ok _ _ _ H) as HO. unfold safe, vTaskSuspend. wps.
  apply (wp_handle _ t); [done|]. wps.
  destruct (ok_state _ _ _ _ _ t HO) as (l & Hin & _); [by eauto|done|].
  eapply wp_remove_state; [exact HO|by left|exact Hin|]. intros n1 h1 H1 HS1. wps.
  eapply wp_leave_event_list; [exact H1|by eauto|]. intros h2 H2 HS2. wps.
  eapply wp_insert_end; [exact H2|by eauto|apply detached_without_other, detached_without|done|by left|].
  intros h3 ns' Hm HS3 H3. wps. set (k3 := set_k_lists h3 _) in *. set (L3 := <[_ := ns']> _) in *.
  assert (pxCurrentTCB k <> Some t -> scheduled sys k3 L3) as Hsc.
  { intros Hne. apply (scheduled_left k _ L _ t); try done.
    - by apply preempted_without, preempted_without, H.
    - intros u q Hu Hq. rewrite members_without, elem_of_without. split; [apply state_not_event|by apply other_without]. }
  apply (wp_get_tcb t x); [done|]. wps.
  apply (wp_mono _ (fun _ k4 => kernel_ok sys None (xTickCount k4 + 1) k4 L3 /\ (pxCurrentTCB k <> Some t -> scheduled sys k4 L3) /\
           pxCurrentTCB k4 = pxCurrentTCB k /\ uxSchedulerSuspended k4 = uxSchedulerSuspended k /\ xSchedulerRunning k4 = true)).
  { pose proof (ok_running _ _ _ _ _ HO) as Hrun. rewrite Hst in Hrun. apply wp_when; intros Hw; wps; [|done]. kcbn.
    split; [by apply (ok_put_same sys None _ k3 L3 t x)|]. split; [|done].
    intros Hne. by apply (scheduled_put k3 L3 t x); auto. }
  intros _ k4 (H4 & Hsc4 & Hc4 & Hs4 & Hr4). wps. rewrite Hr4.
  cbn [when]. eapply wp_reset_next; [by apply ok_next_zero, H4|]. intros next' H5. wps. kcbn. rewrite Hc4.
  apply wp_if; intros Hc; wps.
  - apply bool_decide_eq_true in Hc. apply wp_configASSERT; [kcbn; rewrite Hs4, Hs by done; done|]. wps.
    exists L3. apply scheduled_pending; [by apply ok_pendsv|done].
  - apply bool_decide_eq_false in Hc. exists L3. apply scheduled_next; [by apply Hsc4|done].
Qed.

Lemma ask_container k L i t (Q : option nat -> kernel -> Prop) :
  scheduled sys k L -> item_ok (k_lists k) i t -> Q (container (k_lists k) (Item i)) k ->
  wp (ask_lists (listLIST_ITEM_CONTAINER i)) Q k.
Proof. intros H Hi HQ. eapply wp_ask; [|done]. apply (st_ask_container _ _), Hi. Qed.

(** [prvTaskIsTaskSuspended] *)
Lemma wp_is_suspended k L t x (Q : bool -> kernel -> Prop) :
  scheduled sys k L -> k_tcbs k !! t = Some x ->
  (xStateListItem t ∈ members L xSuspendedTaskList -> detached L (xEventListItem t) -> Q true k) -> Q false k ->
  wp (prvTaskIsTaskSuspended t) Q k.
Proof.
  intros H Hx HQ1 HQ2. pose proof (ok_tasks _ _ _ _ _ (sc_ok _ _ _ H)) as HT.
  pose proof (tk_stored _ _ _ _ _ HT) as S. unfold prvTaskIsTaskSuspended. wps.
  apply (ask_container k L _ t); [done|by apply (tk_state_item _ _ _ _ _ HT t (mk_is_Some _ _ Hx))|]. wps.
  apply (ask_container k L _ t); [done|by apply (tk_event_item _ _ _ _ _ HT t (mk_is_Some _ _ Hx))|]. wps.
  destruct (_ && _) eqn:E; [|done]. apply andb_true_iff in E as [[E1 _]%andb_true_iff E2].
  apply bool_decide_eq_true in E1, E2. apply HQ1; [by apply (st_member _ _ S)|exact (proj1 (st_free _ _ S _) E2)].
Qed.

(** A task that waits for nothing else becomes ready. *)
Lemma wp_make_ready {A} k L t x l (m : KM A) Q :
  scheduled sys k L -> k_tcbs k !! t = Some x -> xStateListItem t ∈ members L l -> detached L (xEventListItem t) ->
  (forall k' L' c y, kernel_ok sys None (xTickCount k' + 1) k' L' -> k_tcbs k' = k_tcbs k ->
     pxCurrentTCB k' = Some c -> k_tcbs k !! c = Some y -> detached L' (xEventListItem t) ->
     xStateListItem t ∈ members L' (pxReadyTasksLists (uxPriority x)) ->
     uxSchedulerSuspended k' = uxSchedulerSuspended k -> pxCurrentTCB k = Some c ->
     switch_pending k' = switch_pending k -> (uxPriority x <= uxPriority y -> scheduled sys k' L') ->
     wp m Q k') ->
  wp (on_lists (uxListRemove (xStateListItem t));; prvAddTaskToReadyList t;; m) Q k.
Proof.
  intros H Hx Hin Hd HQ. pose proof (sc_ok _ _ _ H) as HO. wps.
  eapply wp_remove_state; [exact HO|by left|exact Hin|]. intros n1 h1 H1 HS1. wps.
  eapply wp_add_ready; [exact H1|exact Hx|apply detached_without|by apply detached_pended, detached_without_other|].
  intros h2 top' ns' Hm HS2 H2. destruct (ok_current _ _ _ _ _ HO) as (c & y & Hc & Hy).
  destruct (ready_priority _ _ _ _ _ t x (ok_tasks _ _ _ _ _ HO) Hx) as [Hp Ep].
  pose proof (elem_of_inserted _ _ _ _ Hm) as Hmem.
  eapply (HQ _ _ c y); [exact H2|done|done|done| |rewrite Hmem; tauto|done|done|done|].
  - intros l'. rewrite Hmem. intros [[_ E]|Hl']; [by apply eq_sym, state_not_event in E|].
    by apply (detached_without_other L (xStateListItem t) _ Hd l').
  - intros Hle. eapply (scheduled_added k _ L _ t x _ _ c y); try done.
    + by apply preempted_without, H.
    + intros u q Hu Hq. by apply other_without.
    + intros [|]; [done|lia].
Qed.

Lemma scheduled_yield k L : kernel_ok sys None (xTickCount k + 1) k L -> scheduled sys (set_xYieldPending true k) L.
Proof. intros H. apply scheduled_pending; [by apply ok_yield|]. apply orb_true_r. Qed.

Lemma scheduled_pendsv k L : kernel_ok sys None (xTickCount k + 1) k L -> scheduled sys (set_pendsv true k) L.
Proof. intros H. apply scheduled_pending; [by apply ok_pendsv|done]. Qed.

Lemma safe_resume k L t : scheduled sys k L -> is_Some (k_tcbs k !! t) -> safe sys (vTaskResume t) k.
Proof.
  intros H [x Hx]. unfold safe, vTaskResume. wps. apply wp_if; intros Hc; [|wps; by eauto]. wps.
  eapply wp_is_suspended; [exact H|exact Hx| |wps; by eauto]. intros Hin Hd.
  eapply wp_make_ready; [done..|]. intros k' L' c y H' HT' Hc' Hy _ _ _ _ _ Hsc. wps.
  apply (wp_get_tcb t x); [by rewrite HT'|]. wps. rewrite <- HT' in Hy. wp_running Hc' Hy.
  apply wp_when; intros Hge; wps; [by eauto using scheduled_pendsv|]. exists L'. apply Hsc. lia.
Qed.

(** The event item of the exempt task goes into a list. *)
Lemma ok_insert_event lo k L t x l ns' h' :
  kernel_ok sys (Some t) lo k L -> k_tcbs k !! t = Some x -> ucNotifyState x <> taskWAITING_NOTIFICATION ->
  stored h' (<[l := ns']> L) -> same_items (k_lists k) h' ->
  (forall j, j ∈ ns' <-> j = xEventListItem t \/ j ∈ members L l) -> event_list l = true ->
  kernel_ok sys (Some t) lo (set_k_lists h' k) (<[l := ns']> L).
Proof.
  intros [HT Htop Htr HD Hn Hc] Hx Hw S' HS Hm Hl.
  destruct (delays_disjoint _ _ _ _ _ _ HD) as (_ & Hde & Hoe & _).
  assert (ready_list l = false) as Hlr by (destruct (ready_list l) eqn:E; [by rewrite ready_not_event in Hl|done]).
  split; kcbn; try done.
  - by apply (tk_insert_event sys (k_lists k) _ L t x).
  - apply below_insert; [done|congruence].
  - apply (delays_insert_other _ _ _ _ (k_lists k)); [done|congruence..|done].
  - apply (next_insert_other _ _ (k_lists k)); [done|congruence|done].
Qed.

(** A task is made ready when the scheduler is resumed. *)
Lemma wp_pend_ready {A} k L t x (m : KM A) Q :
  scheduled sys k L -> k_tcbs k !! t = Some x -> ucNotifyState x <> taskWAITING_NOTIFICATION ->
  detached L (xEventListItem t) ->
  (forall k' L', scheduled sys k' L' -> k_tcbs k' = k_tcbs k -> pxCurrentTCB k' = pxCurrentTCB k -> wp m Q k') ->
  wp (do_lists (vListInsertEnd xPendingReadyList (xEventListItem t));; m) Q k.
Proof.
  intros H Hx Hw Hd HQ. pose proof (sc_ok _ _ _ H) as HO. pose proof (ok_tasks _ _ _ _ _ HO) as HT. wps.
  pose proof (tk_event_item _ _ _ _ _ HT t (mk_is_Some _ _ Hx)) as [Hpr _ Hv].
  destruct (st_insert_end _ _ (tk_stored _ _ _ _ _ HT) _ _ _ (ok_list_7 _ _ _ _ _ HO) Hd Hpr Hv)
    as (h' & ns1 & ns2 & Ens & E & S' & HS).
  apply (wp_do _ h'); [done|]. set (ns' := ns1 ++ xEventListItem t :: ns2) in *.
  assert (forall j, j ∈ ns' <-> j = xEventListItem t \/ j ∈ members L xPendingReadyList) as Hm
    by (intros j; unfold ns'; rewrite Ens, !elem_of_app, elem_of_cons; tauto).
  pose proof (elem_of_inserted _ _ _ _ Hm) as Hmem.
  destruct (ok_state _ _ _ _ _ t HO) as (l & Hin & _); [by eauto|done|].
  assert (kernel_ok sys None (xTickCount k + 1) (set_k_lists h' k) (<[xPendingReadyList := ns']> L)) as HO'.
  { apply (ok_restore _ _ _ _ t l); [|rewrite Hmem; auto|..].
    - apply (ok_insert_event _ k L t x); try done. by apply (ok_weaken _ _ _ _ None); [left|].
    - intros Hl y Hy. kcbn_in Hy. destruct (tk_ready _ _ _ _ _ HT t y l Hy ltac:(done) Hl Hin) as [-> _].
      split; [done|]. intros l'. rewrite Hmem. intros [[-> _]|Hl']; [done|by destruct (Hd l')].
    - intros ->. destruct (tk_idle_ready _ _ _ _ _ HT) as (q & Hq & Hiq); [done|].
      by rewrite (st_unique _ _ (tk_stored _ _ _ _ _ HT) _ _ _ Hin Hiq). }
  eapply HQ; [|done|done]. split; [done| |].
  - apply preempted_insert_other; [done|apply H].
  - intros Hs Hb. destruct (sc_running _ _ _ H Hs Hb) as (c & q & Ec & Hq & Hcq). exists c, q.
    split; [done|]. split; [done|]. rewrite Hmem. auto.
Qed.

Lemma safe_resume_from_isr k L t x :
  scheduled sys k L -> k_tcbs k !! t = Some x -> ucNotifyState x <> taskWAITING_NOTIFICATION ->
  safe sys (xTaskResumeFromISR t) k.
Proof.
  intros H Hx Hw. unfold safe, xTaskResumeFromISR. wps.
  eapply wp_is_suspended; [exact H|exact Hx| |wps; by eauto]. intros Hin Hd. wps.
  destruct (ok_current _ _ _ _ _ (sc_ok _ _ _ H)) as (c & y & Hc & Hy).
  apply wp_if; intros Hs.
  - wps. apply (wp_get_tcb t x); [done|]. wps. wp_running Hc Hy.
    assert (forall k1, k1 = k /\ uxPriority x < uxPriority y \/ k1 = set_xYieldPending true k ->
      forall r : bool, wp (on_lists (uxListRemove (xStateListItem t));; prvAddTaskToReadyList t;; mret r)
        (fun _ k' => exists L', scheduled sys k' L') k1) as Hk1.
    { intros k1 Hk1 r. assert (scheduled sys k1 L) as H1
        by (destruct Hk1 as [[-> _]| ->]; [done|apply scheduled_yield, H]).
      eapply (wp_make_ready k1 L t x); [done|by destruct Hk1 as [[-> _]| ->]|done..|].
      intros k' L' c' y' HO' HT' Hc' Hy' _ _ _ Hc1 Hb Hsc. wps. exists L'.
      destruct Hk1 as [[-> Hlt]| ->]; [simplify_eq; apply Hsc; lia|].
      apply scheduled_pending; [done|]. rewrite Hb. apply orb_true_r. }
    apply wp_when; intros Hge; [apply wp_modify|]; apply Hk1; [by right|left; split; [done|lia]].
  - eapply wp_pend_ready; [exact H|done..|]. intros. wps. eauto.
Qed.

(** [xTaskResumeAll] at the end of a function that suspended the scheduler. *)
Lemma wp_resume_nested k L n0 :
  scheduled sys (set_uxSchedulerSuspended n0 k) L -> 0 <= n0 -> n0 + 1 < 2 ^ 32 -> uxSchedulerSuspended k = n0 + 1 ->
  wp xTaskResumeAll (fun _ k' => exists L', scheduled sys k' L') k.
Proof.
  intros [HO HP HR] Hn Hn' Hs. eapply wp_mono; [apply (wp_resume_all sys k L); [|lia|done]|].
  - destruct HO. split; try done. rewrite Hs. unfold in_range. lia.
  - intros r k' (L' & HK). exists L'. eapply resumed_scheduled; [exact HK|]. intros E Hb. apply HR; [|done]. kcbn. lia.
Qed.

(** ** Priorities *)

(** The priority of [t] changes from that of [x] to that of [x']. *)
Definition no_preemption (k : kernel) (t : nat) (x x' : TCB_t) : Prop :=
  forall c y, pxCurrentTCB k = Some c -> k_tcbs k !! c = Some y ->
    (c = t -> uxPriority x <= uxPriority x') /\
    (c <> t -> uxPriority x' <= Z.max (uxPriority x) (uxPriority y)).

Record reprioritised (k k' : kernel) (L L' : store) (t : nat) (x x' : TCB_t) : Prop := {
  rt_ok : kernel_ok sys None (xTickCount k' + 1) k' L';
  rt_tcbs : k_tcbs k' = <[t := x']> (k_tcbs k);
  rt_current : pxCurrentTCB k' = pxCurrentTCB k;
  rt_suspended : uxSchedulerSuspended k' = uxSchedulerSuspended k;
  rt_switch : switch_pending k' = switch_pending k;
  rt_lists : L' = L \/ exists p p' ns', ready_list p = true /\ xStateListItem t ∈ members L p /\
    uxPriority x = Z.of_nat p /\ uxPriority x' = Z.of_nat p' /\ ready_list p' = true /\
    (forall j, j ∈ ns' <-> j = xStateListItem t \/ j ∈ members (without (xStateListItem t) <$> L) p') /\
    L' = <[p' := ns']> (without (xStateListItem t) <$> L);
}.

Lemma reprioritised_scheduled k k' L L' t x x' :
  scheduled sys k L -> k_tcbs k !! t = Some x -> reprioritised k k' L L' t x x' -> no_preemption k t x x' ->
  scheduled sys k' L'.
Proof.
  intros [HO HP HR] Hx [HO' HT' Hc' Hs' Hb' HL'] Hno. split; [done|..].
  - intros Hb c y' Hc Hy'. rewrite Hb' in Hb. rewrite Hc' in Hc. rewrite HT' in Hy'.
    destruct (ok_current _ _ _ _ _ HO) as (c1 & y & Hc1 & Hy). simplify_eq.
    destruct (Hno c y Hc Hy) as [Hsame Hother]. pose proof (HP Hb c y Hc Hy) as Hbelow.
    assert (uxPriority y <= uxPriority y') as Hle.
    { destruct (decide (c = t)) as [->|Hne]; [rewrite lookup_insert_eq in Hy'; simplify_eq; auto|].
      rewrite lookup_insert_ne in Hy' by done. simplify_eq. lia. }
    destruct HL' as [->|(p & p' & ns' & Hp & Hin & Ex & Ex' & Hp' & Hm & ->)]; [by eapply below_le|].
    apply below_insert; [apply below_without; by eapply below_le|]. intros _.
    pose proof (Hbelow p Hp (members_nil Hin)). destruct (decide (c = t)) as [->|Hne].
    + rewrite lookup_insert_eq in Hy'. simplify_eq. lia.
    + specialize (Hother Hne). lia.
  - rewrite Hs', Hb'. intros Hs Hb. destruct (HR Hs Hb) as (c & q & Ec & Hq & Hcq).
    destruct HL' as [->|(p & p' & ns' & Hp & Hin & Ex & Ex' & Hp' & Hm & ->)]; [exists c, q; by rewrite Hc'|].
    pose proof (elem_of_inserted _ _ _ _ Hm) as Hmem.
    destruct (decide (c = t)) as [->|Hne]; [exists t, p'|exists c, q]; (split; [congruence|]); (split; [done|]); rewrite Hmem.
    + by left.
    + right. by apply other_without.
Qed.

Lemma wp_set_event_priority o lo k L t p Q :
  kernel_ok sys o lo k L -> is_Some (k_tcbs k !! t) ->
  (forall h', kernel_ok sys o lo (set_k_lists h' k) L -> Q tt (set_k_lists h' k)) ->
  wp (set_event_priority t p) Q k.
Proof.
  intros H Ht HQ. unfold set_event_priority. wps.
  eapply wp_ask; [apply (st_ask_value _ _), (tk_event_item _ _ _ _ _ (ok_tasks _ _ _ _ _ H) t Ht)|].
  apply wp_when; intros Hb.
  - eapply wp_set_event_value; [exact H|done|]. auto.
  - rewrite <- (set_k_lists_same k). apply HQ. by rewrite set_k_lists_same.
Qed.

(** A task that is not in the ready list of its priority is in none. *)
Lemma ok_not_ready k k1 L t x lo :
  scheduled sys k L -> k_tcbs k !! t = Some x -> xStateListItem t ∉ members L (pxReadyTasksLists (uxPriority x)) ->
  kernel_ok sys (Some t) lo k1 L -> kernel_ok sys None lo k1 L.
Proof.
  intros H Hx Hnr H1. pose proof (sc_ok _ _ _ H) as HO. pose proof (ok_tasks _ _ _ _ _ HO) as HT.
  destruct (ok_state _ _ _ _ _ t HO) as (l & Hl & _); [by eauto|done|].
  assert (ready_list l = false) as Hlr.
  { destruct (ready_list l) eqn:E; [|done]. by rewrite (ready_in _ _ _ _ _ t x l HO) in Hl. }
  apply (ok_restore _ _ _ _ t l); [done|done|congruence|].
  intros ->. destruct (tk_idle_ready _ _ _ _ _ HT ltac:(done)) as (q & Hq & Hi).
  by rewrite (st_unique _ _ (tk_stored _ _ _ _ _ HT) _ _ _ Hl Hi).
Qed.

(** [move_if_ready] after the assignment. *)
Lemma wp_move_if_ready k k1 L t x x' Q :
  scheduled sys k L -> k_tcbs k !! t = Some x -> kernel_ok sys (Some t) (xTickCount k1 + 1) k1 L ->
  k_tcbs k1 = <[t := x']> (k_tcbs k) -> pxCurrentTCB k1 = pxCurrentTCB k ->
  uxSchedulerSuspended k1 = uxSchedulerSuspended k -> switch_pending k1 = switch_pending k ->
  (forall k' L', reprioritised k k' L L' t x x' -> Q tt k') ->
  wp (move_if_ready t (uxPriority x)) Q k1.
Proof.
  intros H Hx H1 HT1 Hc1 Hs1 Hb1 HQ. pose proof (sc_ok _ _ _ H) as HO. pose proof (ok_tasks _ _ _ _ _ HO) as HT.
  destruct (ready_priority _ _ _ _ _ t x HT Hx) as [Hp Ep].
  assert (k_tcbs k1 !! t = Some x') as Hx' by (rewrite HT1; apply lookup_insert_eq).
  unfold move_if_ready. wps.
  eapply wp_ask; [apply (st_ask_contained _ L); [apply H1|apply (tk_state_item _ _ _ _ _ (ok_tasks _ _ _ _ _ H1) t)]; by eauto|].
  apply wp_when; intros Hb; [apply bool_decide_eq_true in Hb|apply bool_decide_eq_false in Hb]; wps.
  - destruct (tk_ready _ _ _ _ _ HT t x _ Hx ltac:(done) Hp Hb) as [_ Hd].
    eapply wp_remove_state; [exact H1|by right|exact Hb|]. intros n h2 H2 HS2. wps.
    eapply wp_add_ready; [exact H2|exact Hx'|apply detached_without|by apply pended_without|].
    intros h3 top' ns' Hm HS3 H3. destruct (ready_priority _ _ _ _ _ t x' (ok_tasks _ _ _ _ _ H1) Hx') as [Hp' Ep'].
    eapply HQ. split; [exact H3|done..|]. right. exists (pxReadyTasksLists (uxPriority x)), (pxReadyTasksLists (uxPriority x')), ns'. auto 10.
  - apply (HQ k1 L). split; [|done..|by left].
    by apply (ok_not_ready k k1 L t x).
Qed.

Lemma wp_reprioritise {A} k L t x x' v (m : KM A) Q :
  scheduled sys k L -> k_tcbs k !! t = Some x -> 0 <= uxPriority x' < configMAX_PRIORITIES ->
  0 <= uxBasePriority x' < configMAX_PRIORITIES -> ucNotifyState x' = ucNotifyState x ->
  (forall k' L', reprioritised k k' L L' t x x' -> wp m Q k') ->
  wp (put_tcb t x';; set_event_priority t v;; move_if_ready t (uxPriority x);; m) Q k.
Proof.
  intros H Hx Hp Hb Hn HQ. pose proof (sc_ok _ _ _ H) as HO. wps.
  assert (kernel_ok sys (Some t) (xTickCount k + 1) (set_k_tcbs (<[t := x']> (k_tcbs k)) k) L) as H1.
  { apply (ok_put_tcb sys (Some t) _ k L t x); try done; [by apply (ok_weaken _ _ _ _ None); [left|]|by right|].
    rewrite Hn. apply (tk_waiting _ _ _ _ _ (ok_tasks _ _ _ _ _ HO) t x Hx). }
  eapply wp_set_event_priority; [exact H1|kcbn; rewrite lookup_insert_eq; by eauto|]. intros h' H2. wps.
  eapply (wp_move_if_ready k); [exact H|exact Hx|exact H2|done..|]. done.
Qed.

Lemma safe_priority_set k L h t p :
  scheduled sys k L -> task_of k h = Some t -> is_Some (k_tcbs k !! t) -> 0 <= p < configMAX_PRIORITIES ->
  safe sys (vTaskPrioritySet h p) k.
Proof.
  intros H Ht [x Hx] Hp. pose proof (sc_ok _ _ _ H) as HO. unfold safe, vTaskPrioritySet. wps.
  apply wp_configASSERT; [lia|]. wps. apply (wp_handle _ t); [done|]. wps. apply (wp_get_tcb t x); [done|].
  destruct (ok_current _ _ _ _ _ HO) as (c & y & Hc & Hy).
  pose proof (tk_priority _ _ _ _ _ (ok_tasks _ _ _ _ _ HO) t x Hx) as [Hpx Hbx].
  apply wp_if; intros Hb; [|wps; by eauto]. wp_running_only Hc Hy.
  set (x' := set_uxBasePriority p _).
  assert (uxPriority x' = if uxBasePriority x =? uxPriority x then p else uxPriority x) as Ep'
    by (unfold x'; by destruct (uxBasePriority x =? uxPriority x)).
  eapply (wp_reprioritise k L t x x'); [done|done| |done|unfold x'; by destruct (uxBasePriority x =? uxPriority x)|].
  { rewrite Ep'. by destruct (uxBasePriority x =? uxPriority x). }
  intros k' L' HR. apply wp_when; intros Hy'; wps; [exists L'; apply scheduled_pendsv, HR|].
  exists L'. eapply (reprioritised_scheduled k _ L); [done|exact Hx|exact HR|]. intros c' y' Hc' Hyy'. simplify_eq.
  rewrite Ep'. revert Hy'. destruct (uxBasePriority x =? uxPriority x) eqn:E1, (p >? uxBasePriority x) eqn:E2;
    case_bool_decide as Etc; cbn [negb andb]; intros Hy'; split; intros; simplify_eq; lia.
Qed.

(** [eTaskGetState]: a blocked task is not the running one. *)
Lemma wp_task_state k L t (Q : eTaskState -> kernel -> Prop) :
  scheduled sys k L -> is_Some (k_tcbs k !! t) ->
  (forall s, (s = eBlocked -> pxCurrentTCB k <> Some t) -> Q s k) -> wp (eTaskGetState t) Q k.
Proof.
  intros H [x Hx] HQ. pose proof (ok_tasks _ _ _ _ _ (sc_ok _ _ _ H)) as HT. unfold eTaskGetState. wps.
  apply wp_if; intros Hc; [wps; by apply HQ|]. apply bool_decide_eq_false in Hc. wps.
  apply (ask_container k L _ t); [done|by apply (tk_state_item _ _ _ _ _ HT t); eauto|]. wps.
  apply wp_if; intros _; [wps; by apply HQ|]. apply wp_if; intros _.
  - wps. apply (ask_container k L _ t); [done|by apply (tk_event_item _ _ _ _ _ HT t); eauto|].
    destruct (container _ _); wps; [by apply HQ|]. apply (wp_get_tcb t x); [done|]. wps. by apply HQ.
  - apply wp_if; intros _; wps; by apply HQ.
Qed.

(** The task leaves the event list and remembers why. *)
Lemma wp_abort_event {A} lo k L t x (m : KM A) Q :
  kernel_ok sys (Some t) lo k L -> k_tcbs k !! t = Some x ->
  (forall b h', kernel_ok sys (Some t) lo (set_k_tcbs (<[t := set_ucDelayAborted b x]> (k_tcbs k)) (set_k_lists h' k))
                  (without (xEventListItem t) <$> L) ->
     wp m Q (set_k_tcbs (<[t := set_ucDelayAborted b x]> (k_tcbs k)) (set_k_lists h' k))) ->
  wp (e ← ask_lists (listLIST_ITEM_CONTAINER (xEventListItem t));
      match e with
      | Some _ => on_lists (uxListRemove (xEventListItem t));; x ← get_tcb t; put_tcb t (set_ucDelayAborted true x)
      | None => mret tt
      end;; m) Q k.
Proof.
  intros H Hx HQ. pose proof (tk_stored _ _ _ _ _ (ok_tasks _ _ _ _ _ H)) as S. wps.
  eapply (wp_container _ _ _ _ _ _ t); [exact H|by apply (tk_event_item _ _ _ _ _ (ok_tasks _ _ _ _ _ H) t); eauto|].
  cbv beta. destruct (container _ _) as [le|] eqn:E; wps.
  - eapply wp_remove_event; [exact H|by apply (st_member _ _ S)|].
    intros n2 h2 H2 HS2. wps. apply (wp_get_tcb t x); [done|]. wps. apply (HQ true h2).
    by apply (ok_put_same sys (Some t) lo (set_k_lists h2 k) _ t x).
  - pose proof (proj1 (st_free _ _ S _) E) as Hd. specialize (HQ (ucDelayAborted x) (k_lists k)).
    assert (set_ucDelayAborted (ucDelayAborted x) x = x) as Ex by (by destruct x).
    rewrite Ex, insert_id, set_k_lists_same in HQ by done.
    assert (set_k_tcbs (k_tcbs k) k = k) as Ek by (by destruct k). rewrite Ek, (without_detached _ _ Hd) in HQ. auto.
Qed.

(** The middle of [xTaskAbortDelay], with the scheduler suspended once more. *)
Lemma wp_abort_blocked k L t x (Q : bool -> kernel -> Prop) :
  let n0 := uxSchedulerSuspended k - 1 in
  scheduled sys (set_uxSchedulerSuspended n0 k) L -> in_range 32 (uxSchedulerSuspended k) ->
  k_tcbs k !! t = Some x ->
  (forall k' L', scheduled sys (set_uxSchedulerSuspended n0 k') L' ->
     uxSchedulerSuspended k' = uxSchedulerSuspended k -> Q true k') ->
  wp (on_lists (uxListRemove (xStateListItem t));;
      e ← ask_lists (listLIST_ITEM_CONTAINER (xEventListItem t));
      match e with
      | Some _ => on_lists (uxListRemove (xEventListItem t));; x ← get_tcb t; put_tcb t (set_ucDelayAborted true x)
      | None => mret tt
      end;;
      prvAddTaskToReadyList t;;
      x ← get_tcb t; c ← current; y ← get_tcb c;
      when (uxPriority x >? uxPriority y) (modify (set_xYieldPending true));;
      mret true) Q k.
Proof.
  intros n0 H Hr Hx HQ. assert (kernel_ok sys None (xTickCount k + 1) k L) as HO.
  { pose proof (sc_ok _ _ _ H) as [HT]. by split. }
  pose proof (ok_tasks _ _ _ _ _ HO) as HT. apply wp_bind.
  destruct (ok_state _ _ _ _ _ t HO) as (l & Hin & _); [by eauto|done|].
  eapply wp_remove_state; [exact HO|by left|exact Hin|]. intros n1 h1 H1 HS1. cbv beta.
  eapply (wp_abort_event _ (set_k_lists h1 k) _ t x); [exact H1|done|]. intros b h2 H2.
  set (x' := set_ucDelayAborted b x) in *. wps.
  eapply (wp_add_ready _ _ _ _ t x');
    [exact H2|kcbn; apply lookup_insert_eq|apply detached_without_other, detached_without|apply detached_pended, detached_without|].
  intros h3 top' ns' Hm HS3 H3. wps. apply (wp_get_tcb t x'); [kcbn; apply lookup_insert_eq|]. wps.
  assert (scheduled sys (set_k_tcbs (<[t := x']> (k_tcbs k)) (set_uxSchedulerSuspended n0 k)) L) as Hk
    by (by apply (scheduled_put (set_uxSchedulerSuspended n0 k) L t x x' H Hx eq_refl eq_refl), (tk_waiting _ _ _ _ _ HT t x)).
  destruct (ok_current _ _ _ _ _ (sc_ok _ _ _ Hk)) as (c & y & Hc & Hy). wp_running Hc Hy.
  destruct (ready_priority _ _ _ _ _ t x HT Hx) as [Hp Ep].
  set (L' := <[_ := ns']> _) in *. set (k' := set_k_lists h3 _) in *.
  assert (kernel_ok sys None (xTickCount k + 1) (set_uxSchedulerSuspended n0 k') L') as H4.
  { apply ok_suspend_all; [apply Hk|done]. }
  apply wp_when; intros Hgt; wps; apply (HQ _ L'); try done; [by apply (scheduled_yield (set_uxSchedulerSuspended n0 k'))|].
  eapply (scheduled_added _ _ L _ t x _ _ c y Hk); try done.
  - by apply preempted_without, preempted_without, Hk.
  - intros u q Hu Hq. rewrite members_without, elem_of_without. split; [apply state_not_event|by apply other_without].
  - intros [|]; [done|]. change (uxPriority x') with (uxPriority x) in Hgt. lia.
Qed.

Lemma safe_abort_delay k L t :
  scheduled sys k L -> is_Some (k_tcbs k !! t) -> uxSchedulerSuspended k + 1 < 2 ^ 32 -> safe sys (xTaskAbortDelay t) k.
Proof.
  intros H [x Hx] Hs. pose proof (ok_suspended _ _ _ _ _ (sc_ok _ _ _ H)) as Hr. unfold in_range in Hr.
  unfold safe, xTaskAbortDelay, vTaskSuspendAll. wps. rewrite wrapu_small by lia.
  set (k1 := set_uxSchedulerSuspended (uxSchedulerSuspended k + 1) k).
  assert (set_uxSchedulerSuspended (uxSchedulerSuspended k) k1 = k) as Ek by (by destruct k).
  assert (scheduled sys k1 L) as H1.
  { apply (scheduled_flags k); try done; [|unfold k1; kcbn; lia]. apply ok_suspend_all; [unfold in_range; lia|apply H]. }
  assert (forall (r : bool) k2 L2, scheduled sys (set_uxSchedulerSuspended (uxSchedulerSuspended k) k2) L2 ->
    uxSchedulerSuspended k2 = uxSchedulerSuspended k1 ->
    wp xTaskResumeAll (fun _ => wp (mret r) (fun _ k' => exists L', scheduled sys k' L')) k2) as Hend.
  { intros r k2 L2 H2 Hs2. eapply wp_mono; [eapply (wp_resume_nested k2 L2 (uxSchedulerSuspended k)); [done|lia..|by rewrite Hs2]|].
    intros r' k' HL. by wps. }
  eapply wp_task_state; [exact H1|by eauto|]. intros s _.
  destruct s; try (wps; apply (Hend _ _ L); [by rewrite Ek|done]). apply wp_bind.
  eapply (wp_abort_blocked k1 L t x); [|unfold in_range, k1; kcbn; lia|done|].
  - unfold k1 at 1. kcbn. rewrite Z.add_simpl_r. by rewrite Ek.
  - intros k2 L2 H2 Hs2. wps. apply (Hend _ _ L2); [|done]. unfold k1 in H2. kcbn_in H2. by rewrite Z.add_simpl_r in H2.
Qed.
End Api.
