(* ===== verification/FreeRTOSTasksEvents.v ===== *)
(** * Events, priority inheritance, notifications, deletion

    The calls of [tasks.c] by which the queues, mutexes and notifications block
    and wake tasks keep the invariant of [FreeRTOSTasksInvariant]. *)

From S2P Require Import Prelude FreeRTOSList FreeRTOSListTheory FreeRTOSListStore FreeRTOSHeap FreeRTOSTasks.
From S2P Require Import FreeRTOSTasksTheory FreeRTOSTasksCalls FreeRTOSTasksInvariant.

Section Events.
Context (sys : system).

(** ** Waiting for an event *)

(** An event list of a queue. *)
Definition queue_list (l : nat) : Prop := (first_event_list <= l < first_event_list + event_lists sys)%nat.

Lemma queue_list_event l : queue_list l -> event_list l = true.
Proof. intros [? _]. unfold event_list. apply orb_true_iff. right. by apply Nat.leb_le. Qed.

Lemma queue_list_members o lo k L l : kernel_ok sys o lo k L -> queue_list l -> L !! l = Some (members L l).
Proof.
  intros H [_ Hl]. destruct (tk_lists _ _ _ _ _ (ok_tasks _ _ _ _ _ H) l Hl) as [ns E].
  by rewrite E, (members_lookup _ _ _ E).
Qed.

(** The running task, which waits for nothing, and the ways to put its event
    item into an event list. *)
Section Wait.
Context (k : kernel) (L : store) (c p l : nat) (x : TCB_t).
Hypothesis H : scheduled sys k L.
Hypothesis suspended : uxSchedulerSuspended k <> 0.
Hypothesis Hc : pxCurrentTCB k = Some c.
Hypothesis Hx : k_tcbs k !! c = Some x.
Hypothesis not_idle : c <> idle_task sys.
Hypothesis Hp : ready_list p = true.
Hypothesis Hin : xStateListItem c ∈ members L p.
Hypothesis not_notified : ucNotifyState x <> taskWAITING_NOTIFICATION.
Hypothesis Hl : queue_list l.

Lemma wp_wait_delay h1 ns n b :
  detached L (xEventListItem c) -> stored h1 (<[l := ns]> L) -> same_items (k_lists k) h1 ->
  (forall j, j ∈ ns <-> j = xEventListItem c \/ j ∈ members L l) -> 0 < n <= portMAX_DELAY ->
  wp (prvAddCurrentTaskToDelayedList n b) (fun _ k' => exists L', scheduled sys k' L') (set_k_lists h1 k).
Proof.
  intros Hd S1 HS1 Hm Hn. pose proof (queue_list_event l Hl) as Hle.
  assert (kernel_ok sys (Some c) (xTickCount k + 1) (set_k_lists h1 k) (<[l := ns]> L)) as H1.
  { apply (ok_insert_event sys _ k L c x); try done. apply (ok_weaken _ _ _ _ None); [by left|apply H]. }
  assert (ready_list l = false) as Hlr by (destruct (ready_list l) eqn:E; [by rewrite ready_not_event in Hle|done]).
  eapply (wp_delay_current sys (Some c) (set_k_lists h1 k) _ c x p); try done; [by right|by rewrite (elem_of_inserted _ _ _ _ Hm); right|].
  intros h' next' ns' k' L' Hok Hm' _ _. exists L'. split; [done| |by intros].
  apply (preempted_delayed k (<[l := ns]> L) c x); [|done|by apply (wait_list_not_ready sys (xTickCount k + 1) k L), H].
  apply preempted_insert_other; [done|apply H].
Qed.

Lemma safe_place_on_event_list n :
  detached L (xEventListItem c) -> 0 < n <= portMAX_DELAY -> safe sys (vTaskPlaceOnEventList l n) k.
Proof.
  intros Hd Hn. pose proof (sc_ok _ _ _ H) as HO. pose proof (ok_tasks _ _ _ _ _ HO) as HT.
  unfold safe, vTaskPlaceOnEventList. wps. apply (wp_current c); [done|]. wps.
  destruct (tk_event_item _ _ _ _ _ HT c ltac:(eauto)) as [Hpr _ Hv].
  destruct (st_insert _ _ (tk_stored _ _ _ _ _ HT) l _ _ (queue_list_members _ _ _ _ _ HO Hl) Hd Hpr Hv) as (h1 & E & S1 & HS1).
  apply (wp_do _ h1); [done|]. eapply wp_wait_delay; [done..| |done]. intros j. apply insert_sorted_elem.
Qed.

Lemma safe_place_restricted n (b : bool) :
  detached L (xEventListItem c) -> 0 < n <= portMAX_DELAY -> safe sys (vTaskPlaceOnEventListRestricted l n b) k.
Proof.
  intros Hd Hn. pose proof (sc_ok _ _ _ H) as HO. pose proof (ok_tasks _ _ _ _ _ HO) as HT.
  unfold safe, vTaskPlaceOnEventListRestricted. wps. apply (wp_current c); [done|]. wps.
  destruct (tk_event_item _ _ _ _ _ HT c ltac:(eauto)) as [Hpr _ Hv].
  destruct (st_insert_end _ _ (tk_stored _ _ _ _ _ HT) l _ _ (queue_list_members _ _ _ _ _ HO Hl) Hd Hpr Hv)
    as (h1 & ns1 & ns2 & Ens & E & S1 & HS1).
  apply (wp_do _ h1); [done|]. eapply wp_wait_delay; [done..| |by destruct b].
  intros j. rewrite Ens, !elem_of_app, elem_of_cons. tauto.
Qed.

End Wait.

Lemma scheduled_lists k L h' :
  scheduled sys k L -> kernel_ok sys None (xTickCount k + 1) (set_k_lists h' k) L -> scheduled sys (set_k_lists h' k) L.
Proof. intros H HO. by apply (scheduled_flags sys k). Qed.

Lemma safe_place_unordered k L c p l x v n :
  scheduled sys k L -> uxSchedulerSuspended k <> 0 -> pxCurrentTCB k = Some c -> k_tcbs k !! c = Some x ->
  c <> idle_task sys -> ready_list p = true -> xStateListItem c ∈ members L p ->
  ucNotifyState x <> taskWAITING_NOTIFICATION -> queue_list l -> detached L (xEventListItem c) ->
  0 < n <= portMAX_DELAY -> safe sys (vTaskPlaceOnUnorderedEventList l v n) k.
Proof.
  intros H Hs Hc Hx Hid Hp Hin Hnw Hl Hd Hn. unfold safe, vTaskPlaceOnUnorderedEventList. wps.
  apply wp_configASSERT; [lia|]. wps. apply (wp_current c); [done|]. wps.
  eapply wp_set_event_value; [apply H|by eauto|]. intros h0 HO0 _. apply (scheduled_lists _ _ _ H) in HO0 as H0. wps.
  pose proof (ok_tasks _ _ _ _ _ HO0) as HT. destruct (tk_event_item _ _ _ _ _ HT c ltac:(eauto)) as [Hpr _ Hv].
  destruct (st_insert_end _ _ (tk_stored _ _ _ _ _ HT) l _ _ (queue_list_members _ _ _ _ _ HO0 Hl) Hd Hpr Hv)
    as (h1 & ns1 & ns2 & Ens & E & S1 & HS1).
  apply (wp_do _ h1); [done|]. eapply (wp_wait_delay (set_k_lists h0 k) L c p l x); try done.
  intros j. rewrite Ens, !elem_of_app, elem_of_cons. tauto.
Qed.

(** ** Events *)

(** The event item of a task leaves its list. *)
Lemma wp_leave_event k L t l Q :
  scheduled sys k L -> xEventListItem t ∈ members L l ->
  (forall n h', scheduled sys (set_k_lists h' k) (without (xEventListItem t) <$> L) -> Q n (set_k_lists h' k)) ->
  wp (on_lists (uxListRemove (xEventListItem t))) Q k.
Proof.
  intros H Hin HQ. eapply wp_remove_event; [apply H|exact Hin|]. intros n h' HO' HS. apply HQ. split; [done|..].
  - by apply preempted_without, H.
  - intros Hs Hb. destruct (sc_running _ _ _ H Hs Hb) as (c & q & Ec & Hq & Hcq). exists c, q.
    split; [done|]. split; [done|]. rewrite members_without, elem_of_without. split; [apply state_not_event|done].
Qed.

(** A task in an event list does not wait for a notification. *)
Lemma event_not_waiting k L t x l :
  scheduled sys k L -> k_tcbs k !! t = Some x -> xEventListItem t ∈ members L l ->
  ucNotifyState x <> taskWAITING_NOTIFICATION.
Proof.
  intros H Hx Hin Hw. by apply (tk_waiting _ _ _ _ _ (ok_tasks _ _ _ _ _ (sc_ok _ _ _ H)) t x Hx Hw l).
Qed.

(** The task is made ready now or when the scheduler is resumed. *)
Lemma wp_unblock_ready {A} k L t x (m : KM A) Q :
  scheduled sys k L -> k_tcbs k !! t = Some x -> detached L (xEventListItem t) ->
  ucNotifyState x <> taskWAITING_NOTIFICATION ->
  (forall k' L' c y, kernel_ok sys None (xTickCount k' + 1) k' L' -> k_tcbs k' = k_tcbs k ->
     pxCurrentTCB k' = Some c -> k_tcbs k !! c = Some y -> (uxPriority x <= uxPriority y -> scheduled sys k' L') ->
     (uxSchedulerSuspended k = 0 -> xStateListItem t ∈ members L' (pxReadyTasksLists (uxPriority x))) ->
     wp m Q k') ->
  wp (susp ← gets uxSchedulerSuspended;
      (if susp =? 0 then on_lists (uxListRemove (xStateListItem t));; prvAddTaskToReadyList t
       else do_lists (vListInsertEnd xPendingReadyList (xEventListItem t)));; m) Q k.
Proof.
  intros H Hx Hd Hw HQ. wps. destruct (ok_current _ _ _ _ _ (sc_ok _ _ _ H)) as (c & y & Hc & Hy).
  destruct (ok_state _ _ _ _ _ t (sc_ok _ _ _ H)) as (l & Hin & _); [by eauto|done|].
  apply wp_if; intros Hs.
  - assert (wp (on_lists (uxListRemove (xStateListItem t));; prvAddTaskToReadyList t;; m) Q k) as HW.
    { eapply wp_make_ready; [done..|]. intros k' L' c' y' HO' HT' Hc' Hy' _ Hr _ Hc1 _ Hsc. simplify_eq. by eapply HQ. }
    wps. apply wp_bind_inv in HW. eapply wp_mono; [exact HW|]. intros n k1 HW'. by apply wp_bind_inv in HW'.
  - assert (wp (do_lists (vListInsertEnd xPendingReadyList (xEventListItem t));; m) Q k) as HW.
    { eapply wp_pend_ready; [done..|]. intros k' L' H' HT' Hc'.
      apply (HQ k' L' c y); [apply H'|done|congruence|done|done|lia]. }
    by apply wp_bind_inv in HW.
Qed.

Lemma wp_unblock {A} k L t x (m : KM A) Q :
  scheduled sys k L -> k_tcbs k !! t = Some x -> detached L (xEventListItem t) ->
  ucNotifyState x <> taskWAITING_NOTIFICATION ->
  (forall k' L' c y, kernel_ok sys None (xTickCount k' + 1) k' L' -> k_tcbs k' = k_tcbs k ->
     pxCurrentTCB k' = Some c -> k_tcbs k !! c = Some y -> (uxPriority x <= uxPriority y -> scheduled sys k' L') ->
     wp m Q k') ->
  wp (susp ← gets uxSchedulerSuspended;
      (if susp =? 0 then on_lists (uxListRemove (xStateListItem t));; prvAddTaskToReadyList t
       else do_lists (vListInsertEnd xPendingReadyList (xEventListItem t)));; m) Q k.
Proof. intros H Hx Hd Hw HQ. eapply wp_unblock_ready; [done..|]. intros. by eapply HQ. Qed.

Lemma safe_remove_from_event_list k L l :
  scheduled sys k L -> queue_list l -> members L l <> [] -> safe sys (xTaskRemoveFromEventList l) k.
Proof.
  intros H Hl Hne. pose proof (sc_ok _ _ _ H) as HO. pose proof (ok_tasks _ _ _ _ _ HO) as HT.
  pose proof (queue_list_members _ _ _ _ _ HO Hl) as El. unfold safe, xTaskRemoveFromEventList. wps.
  destruct (members L l) as [|i ns] eqn:E; [done|]. assert (i ∈ members L l) as Hi by (rewrite E; by left).
  destruct (tk_event_member _ _ _ _ _ l _ HT (queue_list_event l Hl) Hi) as (t & -> & [x Hx] & Ho).
  eapply wp_ask; [by eapply (st_head_owner _ _ (tk_stored _ _ _ _ _ HT))|]. cbv beta. apply wp_bind.
  eapply wp_leave_event; [exact H|exact Hi|]. intros n h1 H1. cbv beta.
  eapply (wp_unblock _ _ t x); [exact H1|done|apply detached_without|by apply (event_not_waiting k L t x l)|].
  intros k' L' c y HO' HT' Hc' Hy Hsc. wps. apply (wp_get_tcb t x); [by rewrite HT'|]. wps.
  rewrite <- HT' in Hy. wp_running Hc' Hy.
  apply wp_if; intros Hgt; wps; exists L'; [by apply scheduled_yield|]. apply Hsc. lia.
Qed.

Lemma safe_remove_from_unordered k L l t v :
  scheduled sys k L -> queue_list l -> xEventListItem t ∈ members L l -> uxSchedulerSuspended k <> 0 ->
  safe sys (vTaskRemoveFromUnorderedEventList (xEventListItem t) v) k.
Proof.
  intros H Hl Hi Hs. pose proof (sc_ok _ _ _ H) as HO. pose proof (ok_tasks _ _ _ _ _ HO) as HT.
  destruct (tk_event_member _ _ _ _ _ l _ HT (queue_list_event l Hl) Hi) as (u & <-%event_item_inj & [x Hx] & Ho).
  unfold safe, vTaskRemoveFromUnorderedEventList. wps. apply wp_configASSERT; [lia|]. wps.
  eapply wp_set_event_value; [exact HO|by eauto|]. intros h0 HO0 _. apply (scheduled_lists _ _ _ H) in HO0 as H0. wps.
  destruct (tk_event_item _ _ _ _ _ (ok_tasks _ _ _ _ _ HO0) t ltac:(eauto)) as [Hpr Hown _].
  eapply (wp_ask _ t).
  { destruct (like_get _ _ _ _ _ (like_refl _) _ Hpr) as (it & -> & _ & _ & _ & _ & Eo & _). cbn. by rewrite Eo, Hown. }
  cbv beta. apply wp_bind. eapply wp_leave_event; [exact H0|exact Hi|]. intros n h1 H1. cbv beta.
  destruct (ok_state _ _ _ _ _ t (sc_ok _ _ _ H1)) as (l' & Hin & _); [by eauto|done|].
  eapply (wp_make_ready _ _ _ t x); [exact H1|done|exact Hin|apply detached_without|].
  intros k' L' c y HO' HT' Hc' Hy _ _ _ _ _ Hsc. wps. apply (wp_get_tcb t x); [by rewrite HT'|]. wps.
  rewrite <- HT' in Hy. wp_running Hc' Hy.
  apply wp_when; intros Hgt; wps; exists L'; [by apply scheduled_yield|]. apply Hsc. lia.
Qed.

(** ** Small calls *)

Lemma safe_missed_yield k L : scheduled sys k L -> safe sys vTaskMissedYield k.
Proof. intros H. unfold safe, vTaskMissedYield. wps. exists L. apply scheduled_yield, H. Qed.

Lemma safe_reset_event_item k L : scheduled sys k L -> safe sys uxTaskResetEventItemValue k.
Proof.
  intros H. pose proof (ok_tasks _ _ _ _ _ (sc_ok _ _ _ H)) as HT. unfold safe, uxTaskResetEventItemValue. wps.
  destruct (ok_current _ _ _ _ _ (sc_ok _ _ _ H)) as (c & y & Hc & Hy). apply (wp_current c); [done|]. wps.
  eapply wp_ask; [apply (st_ask_value _ _), (tk_event_item _ _ _ _ _ HT c); by eauto|]. wps.
  apply (wp_get_tcb c y); [done|]. wps. eapply wp_set_event_value; [apply H|by eauto|]. intros h' HO' _. wps.
  exists L. by apply scheduled_lists.
Qed.

(** An assignment that keeps the priorities and does not start a wait. *)
Lemma scheduled_put_other k L t x x' :
  scheduled sys k L -> k_tcbs k !! t = Some x -> uxPriority x' = uxPriority x -> uxBasePriority x' = uxBasePriority x ->
  (ucNotifyState x' = ucNotifyState x \/ ucNotifyState x' <> taskWAITING_NOTIFICATION) ->
  scheduled sys (set_k_tcbs (<[t := x']> (k_tcbs k)) k) L.
Proof.
  intros H Hx Hp Hb Hn. apply (scheduled_put sys k L t x); [done..|]. intros Hw. destruct Hn as [Hn|Hn]; [|done].
  apply (tk_waiting _ _ _ _ _ (ok_tasks _ _ _ _ _ (sc_ok _ _ _ H)) t x Hx). congruence.
Qed.

Lemma safe_check_for_timeout k L o n : scheduled sys k L -> safe sys (xTaskCheckForTimeOut o n) k.
Proof.
  intros H. unfold safe, xTaskCheckForTimeOut. wps.
  destruct (ok_current _ _ _ _ _ (sc_ok _ _ _ H)) as (c & y & Hc & Hy). wp_running Hc Hy.
  apply wp_if; intros Hb; wps; [exists L; apply (scheduled_put_other k L c y); auto|].
  unfold vTaskSetTimeOutState. repeat (apply wp_if; intros ?; wps; [by eauto|]). by eauto.
Qed.

Lemma safe_increment_mutex k L : scheduled sys k L -> safe sys pvTaskIncrementMutexHeldCount k.
Proof.
  intros H. unfold safe, pvTaskIncrementMutexHeldCount. wps.
  destruct (ok_current _ _ _ _ _ (sc_ok _ _ _ H)) as (c & y & Hc & Hy). rewrite Hc. wps.
  apply (wp_get_tcb c y); [done|]. wps. exists L. apply (scheduled_put_other k L c y); auto.
Qed.

(** ** Priority inheritance *)

(** The holder of a mutex inherits the priority of the running task. *)
Lemma wp_inherit k L t x x' Q :
  scheduled sys k L -> k_tcbs k !! t = Some x -> 0 <= uxPriority x' < configMAX_PRIORITIES ->
  0 <= uxBasePriority x' < configMAX_PRIORITIES -> ucNotifyState x' = ucNotifyState x ->
  (forall k' L', reprioritised sys k k' L L' t x x' -> Q tt k') ->
  wp (b ← ask_lists (listIS_CONTAINED_WITHIN (pxReadyTasksLists (uxPriority x)) (xStateListItem t));
      if b : bool then
        on_lists (uxListRemove (xStateListItem t));; put_tcb t x';; prvAddTaskToReadyList t
      else put_tcb t x') Q k.
Proof.
  intros H Hx Hp' Hb' Hn HQ. pose proof (sc_ok _ _ _ H) as HO. pose proof (ok_tasks _ _ _ _ _ HO) as HT.
  destruct (ready_priority _ _ _ _ _ t x HT Hx) as [Hp Ep]. wps.
  pose proof (tk_waiting _ _ _ _ _ HT t x Hx) as Hw. rewrite <- Hn in Hw.
  eapply wp_ask; [apply (st_ask_contained _ L); [apply HT|apply (tk_state_item _ _ _ _ _ HT t)]; by eauto|].
  apply wp_if; intros Hb; [apply bool_decide_eq_true in Hb|apply bool_decide_eq_false in Hb]; wps.
  - destruct (tk_ready _ _ _ _ _ HT t x _ Hx ltac:(done) Hp Hb) as [_ Hd].
    eapply wp_remove_state; [exact HO|by left|exact Hb|]. intros n h2 H2 HS2. wps.
    assert (kernel_ok sys (Some t) (xTickCount k + 1) (set_k_tcbs (<[t := x']> (k_tcbs k)) (set_k_lists h2 k))
              (without (xStateListItem t) <$> L)) as H3.
    { apply (ok_put_tcb sys (Some t) _ (set_k_lists h2 k) _ t x); try done; [by right|].
      intros E. by apply detached_without_other, Hw. }
    eapply (wp_add_ready _ _ _ _ t x'); [exact H3|apply lookup_insert_eq|apply detached_without|by apply pended_without|].
    intros h3 top' ns' Hm HS3 H4. destruct (ready_priority _ _ _ _ _ t x' (ok_tasks _ _ _ _ _ H3)) as [Hpp Epp]; [apply lookup_insert_eq|].
    eapply HQ. split; [exact H4|done..|]. right.
    exists (pxReadyTasksLists (uxPriority x)), (pxReadyTasksLists (uxPriority x')), ns'. auto 10.
  - apply (HQ _ L). split; [|done..|by left]. apply (ok_not_ready sys k _ L t x); try done.
    apply (ok_put_tcb sys (Some t) _ k L t x); try done; [by apply (ok_weaken _ _ _ _ None); [left|]|by right].
Qed.

Lemma safe_priority_inherit k L h :
  scheduled sys k L -> (forall t, h = Some t -> is_Some (k_tcbs k !! t)) -> safe sys (xTaskPriorityInherit h) k.
Proof.
  intros H Hh. pose proof (sc_ok _ _ _ H) as HO. unfold safe, xTaskPriorityInherit. destruct h as [t|]; [|wps; by eauto].
  destruct (Hh t eq_refl) as [x Hx]. destruct (ok_current _ _ _ _ _ HO) as (c & y & Hc & Hy).
  pose proof (tk_priority _ _ _ _ _ (ok_tasks _ _ _ _ _ HO) c y Hy) as [Hpy _].
  pose proof (tk_priority _ _ _ _ _ (ok_tasks _ _ _ _ _ HO) t x Hx) as [Hpx Hbx].
  wps. apply (wp_get_tcb t x); [done|]. wps. wp_running Hc Hy. apply wp_if; intros Hlt; wps; [|by eauto].
  assert (no_preemption k t x (set_uxPriority (uxPriority y) x)) as Hno.
  { intros c' y' Hc' Hy'. simplify_eq. cbn [uxPriority set_uxPriority]. split; [|lia]. intros ->. simplify_eq. lia. }
  eapply wp_set_event_priority; [exact HO|by eauto|]. intros h0 HO0. apply (scheduled_lists _ _ _ H) in HO0 as H0. wps.
  assert (wp (b ← ask_lists (listIS_CONTAINED_WITHIN (pxReadyTasksLists (uxPriority x)) (xStateListItem t));
      if b : bool then
        on_lists (uxListRemove (xStateListItem t));; put_tcb t (set_uxPriority (uxPriority y) x);; prvAddTaskToReadyList t
      else put_tcb t (set_uxPriority (uxPriority y) x)) (fun _ k' => exists L', scheduled sys k' L') (set_k_lists h0 k)) as HW.
  { eapply (wp_inherit _ L t x _ _ H0 Hx); try done. intros k' L' HR. exists L'.
    exact (reprioritised_scheduled sys (set_k_lists h0 k) k' L L' t x _ H0 Hx HR Hno). }
  apply wp_bind_inv in HW. eapply wp_mono; [exact HW|]. intros b k1 Hb. cbv beta in Hb. wps.
  eapply wp_mono; [exact Hb|]. intros u k2 ?. by wps.
Qed.

(** [xTaskPriorityDisinherit] and the yield its caller asks for. *)
Definition disinherit_and_yield (h : option nat) : KM unit :=
  b ← xTaskPriorityDisinherit h; when b portYIELD_WITHIN_API.

(** The task that gives a mutex back is the running one; afterwards it is ready. *)
Lemma safe_priority_disinherit k L h :
  scheduled sys k L ->
  (forall t, h = Some t -> pxCurrentTCB k = Some t /\ exists x p, k_tcbs k !! t = Some x /\ 0 < uxMutexesHeld x < 2 ^ 32 /\
     ready_list p = true /\ xStateListItem t ∈ members L p) ->
  safe sys (disinherit_and_yield h) k.
Proof.
  intros H Hh. pose proof (sc_ok _ _ _ H) as HO. unfold safe, disinherit_and_yield, xTaskPriorityDisinherit.
  destruct h as [t|]; [|wps; cbn [when]; wps; by eauto]. destruct (Hh t eq_refl) as (Hc & x & p & Hx & Hm & Hp & Hin).
  pose proof (tk_priority _ _ _ _ _ (ok_tasks _ _ _ _ _ HO) t x Hx) as [Hpx Hbx].
  wps. apply wp_configASSERT; [by rewrite Hc, bool_decide_eq_true_2|]. wps. apply (wp_get_tcb t x); [done|]. wps.
  apply wp_configASSERT; [lia|]. wps. set (x1 := set_uxMutexesHeld _ x).
  set (k1 := set_k_tcbs (<[t := x1]> (k_tcbs k)) k).
  assert (scheduled sys k1 L) as H1 by (apply (scheduled_put_other k L t x); auto).
  apply wp_if; intros Hb; wps; [|cbn [when]; wps; by eauto].
  destruct (tk_ready _ _ _ _ _ (ok_tasks _ _ _ _ _ HO) t x p Hx ltac:(done) Hp Hin) as [_ Hpe].
  eapply wp_remove_state; [apply (sc_ok _ _ _ H1)|by left|exact Hin|]. intros n h2 H2 HS2. wps.
  set (x2 := set_uxPriority _ x1).
  assert (kernel_ok sys (Some t) (xTickCount k + 1) (set_k_tcbs (<[t := x2]> (k_tcbs k1)) (set_k_lists h2 k1))
            (without (xStateListItem t) <$> L)) as H3.
  { apply (ok_put_tcb sys (Some t) _ (set_k_lists h2 k1) _ t x1); try done; [apply lookup_insert_eq|by right|].
    intros E. by apply detached_without_other, (tk_waiting _ _ _ _ _ (ok_tasks _ _ _ _ _ HO) t x). }
  eapply wp_set_event_value; [exact H3|kcbn; rewrite lookup_insert_eq; by eauto|]. intros h3 H4 _. wps.
  eapply (wp_add_ready _ _ _ _ t x2); [exact H4|apply lookup_insert_eq|apply detached_without|by apply pended_without|].
  intros h4 top' ns' _ _ H5. wps. cbn [when]. wps. eexists. apply scheduled_pendsv. exact H5.
Qed.

Lemma safe_disinherit_after_timeout k L h p :
  scheduled sys k L -> 0 <= p < configMAX_PRIORITIES ->
  (forall t, h = Some t -> pxCurrentTCB k <> Some t /\ exists x, k_tcbs k !! t = Some x /\ 0 < uxMutexesHeld x /\
     p <= uxPriority x /\ uxBasePriority x <= uxPriority x) ->
  safe sys (vTaskPriorityDisinheritAfterTimeout h p) k.
Proof.
  intros H Hp Hh. unfold safe, vTaskPriorityDisinheritAfterTimeout. destruct h as [t|]; [|wps; by eauto].
  destruct (Hh t eq_refl) as (Hc & x & Hx & Hm & Hpx & Hbx). pose proof (sc_ok _ _ _ H) as HO.
  pose proof (tk_priority _ _ _ _ _ (ok_tasks _ _ _ _ _ HO) t x Hx) as [Hpr Hbr].
  wps. apply (wp_get_tcb t x); [done|]. wps. apply wp_configASSERT; [lia|]. cbv zeta.
  set (q := if uxBasePriority x <? p then p else uxBasePriority x).
  assert (0 <= q < configMAX_PRIORITIES /\ q <= uxPriority x) as [Hq Hqx] by (unfold q; destruct (uxBasePriority x <? p); lia).
  apply wp_if; intros Hb; [|wps; by eauto]. wps. apply wp_configASSERT; [by rewrite bool_decide_eq_false_2|]. wps.
  assert (wp (put_tcb t (set_uxPriority q x);; set_event_priority t q;; move_if_ready t (uxPriority x);; mret tt)
            (fun _ k' => exists L', scheduled sys k' L') k) as HW.
  { eapply (wp_reprioritise sys k L t x); try done. intros k' L' HR. wps. exists L'.
    eapply (reprioritised_scheduled sys k); [done|done|exact HR|]. intros c y Hc' Hy'. cbn [uxPriority set_uxPriority].
    split; [congruence|lia]. }
  apply wp_bind_inv in HW. destruct HW as (u & k1 & [= <- <-] & HW). cbv beta in HW. apply wp_bind_inv in HW.
  eapply wp_mono; [exact HW|]. intros u' k2 HW2. cbv beta in HW2. apply wp_bind_inv in HW2.
  eapply wp_mono; [exact HW2|]. intros u2 k3 (a & k4 & [= <- <-] & HL). done.
Qed.

(** ** Notifications *)

(** A notification is stored. *)
Lemma scheduled_notified k L t x v :
  scheduled sys k L -> k_tcbs k !! t = Some x ->
  scheduled sys (set_k_tcbs (<[t := set_ulNotifiedValue v (set_ucNotifyState taskNOTIFICATION_RECEIVED x)]> (k_tcbs k)) k) L.
Proof. intros H Hx. apply (scheduled_put_other k L t x); [done..|]. by right. Qed.

Lemma safe_notify k L t v a : scheduled sys k L -> is_Some (k_tcbs k !! t) -> safe sys (xTaskGenericNotify t v a) k.
Proof.
  intros H [x Hx]. unfold safe, xTaskGenericNotify. wps. apply (wp_get_tcb t x); [done|].
  destruct (notify_action a v x) as [v' r]. wps. pose proof (scheduled_notified k L t x v' H Hx) as H1.
  set (x1 := set_ulNotifiedValue v' _) in *. set (k1 := set_k_tcbs _ k) in *.
  assert (k_tcbs k1 !! t = Some x1) as Hx1 by apply lookup_insert_eq.
  apply wp_if; intros Hb; [|wps; by eauto]. apply Z.eqb_eq in Hb.
  pose proof (tk_waiting _ _ _ _ _ (ok_tasks _ _ _ _ _ (sc_ok _ _ _ H)) t x Hx Hb) as Hd.
  destruct (ok_state _ _ _ _ _ t (sc_ok _ _ _ H)) as (l & Hin & _); [by eauto|done|].
  eapply (wp_make_ready sys k1 L t x1); [done..|]. intros k' L' c y HO' HT' Hc' Hy Hd' _ _ _ _ Hsc. wps.
  eapply (wp_container _ _ _ _ _ _ t); [exact HO'|apply (tk_event_item _ _ _ _ _ (ok_tasks _ _ _ _ _ HO') t); rewrite HT'; by eauto|].
  cbv beta. rewrite (proj2 (st_free _ _ (tk_stored _ _ _ _ _ (ok_tasks _ _ _ _ _ HO')) _) Hd'). wps.
  apply wp_configASSERT; [done|]. wps. rewrite <- HT' in Hy. wp_running Hc' Hy.
  apply wp_when; intros Hgt; wps; exists L'; [by apply scheduled_pendsv|]. apply Hsc. unfold x1. cbn. lia.
Qed.

(** The end of a notification from an interrupt. *)
Lemma wp_notify_unblock k L t x w (Q : bool -> kernel -> Prop) :
  scheduled sys k L -> k_tcbs k !! t = Some x -> ucNotifyState x <> taskWAITING_NOTIFICATION ->
  detached L (xEventListItem t) -> (forall b k' L', scheduled sys k' L' -> Q b k') ->
  wp (notify_unblock_from_isr t w) Q k.
Proof.
  intros H Hx Hw Hd HQ. pose proof (ok_tasks _ _ _ _ _ (sc_ok _ _ _ H)) as HT. unfold notify_unblock_from_isr. wps.
  eapply (ask_container sys k L _ t); [done|apply (tk_event_item _ _ _ _ _ HT t); by eauto|]. cbv beta.
  rewrite (proj2 (st_free _ _ (tk_stored _ _ _ _ _ HT) _) Hd). apply wp_bind. apply wp_configASSERT; [done|]. cbv beta.
  eapply (wp_unblock k L t x); [done..|]. intros k' L' c y HO' HT' Hc' Hy Hsc. wps.
  apply (wp_get_tcb t x); [by rewrite HT'|]. wps. rewrite <- HT' in Hy. wp_running Hc' Hy.
  apply wp_if; intros Hgt; wps; [by eapply HQ, scheduled_yield|]. eapply HQ, Hsc. lia.
Qed.

Lemma safe_notify_from_isr k L t v a w :
  scheduled sys k L -> is_Some (k_tcbs k !! t) -> safe sys (xTaskGenericNotifyFromISR t v a w) k.
Proof.
  intros H [x Hx]. unfold safe, xTaskGenericNotifyFromISR. wps. apply (wp_get_tcb t x); [done|].
  destruct (notify_action a v x) as [v' r]. wps. pose proof (scheduled_notified k L t x v' H Hx) as H1.
  apply wp_if; intros Hb; [|wps; by eauto]. apply Z.eqb_eq in Hb.
  pose proof (tk_waiting _ _ _ _ _ (ok_tasks _ _ _ _ _ (sc_ok _ _ _ H)) t x Hx Hb) as Hd.
  eapply wp_notify_unblock; [exact H1|apply lookup_insert_eq|done|done|]. intros b k' L' H'. wps. by eauto.
Qed.

Lemma safe_notify_give_from_isr k L t w :
  scheduled sys k L -> is_Some (k_tcbs k !! t) -> safe sys (vTaskGenericNotifyGiveFromISR t w) k.
Proof.
  intros H [x Hx]. unfold safe, vTaskGenericNotifyGiveFromISR. wps. apply (wp_get_tcb t x); [done|]. wps.
  pose proof (scheduled_notified k L t x (u32 (ulNotifiedValue x + 1)) H Hx) as H1.
  apply wp_if; intros Hb; [|wps; by eauto]. apply Z.eqb_eq in Hb.
  pose proof (tk_waiting _ _ _ _ _ (ok_tasks _ _ _ _ _ (sc_ok _ _ _ H)) t x Hx Hb) as Hd.
  eapply wp_notify_unblock; [exact H1|apply lookup_insert_eq|done|done|]. by eauto.
Qed.

Lemma safe_notify_state_clear k L h t :
  scheduled sys k L -> task_of k h = Some t -> is_Some (k_tcbs k !! t) -> safe sys (xTaskGenericNotifyStateClear h) k.
Proof.
  intros H Ht [x Hx]. unfold safe, xTaskGenericNotifyStateClear. wps. apply (wp_handle _ t); [done|]. wps.
  apply (wp_get_tcb t x); [done|]. apply wp_if; intros Hb; wps; exists L; [|done].
  apply (scheduled_put_other k L t x); auto.
Qed.

Lemma safe_notify_value_clear k L h t v :
  scheduled sys k L -> task_of k h = Some t -> is_Some (k_tcbs k !! t) -> safe sys (ulTaskGenericNotifyValueClear h v) k.
Proof.
  intros H Ht [x Hx]. unfold safe, ulTaskGenericNotifyValueClear. wps. apply (wp_handle _ t); [done|]. wps.
  apply (wp_get_tcb t x); [done|]. wps. exists L. apply (scheduled_put_other k L t x); auto.
Qed.

(** The critical section before a wait for a notification: the running task,
    which waits for nothing else, blocks. *)
Lemma wp_notify_block k L c x x' p n :
  scheduled sys k L -> pxCurrentTCB k = Some c -> k_tcbs k !! c = Some x -> c <> idle_task sys ->
  ready_list p = true -> xStateListItem c ∈ members L p -> detached L (xEventListItem c) -> 0 <= n <= portMAX_DELAY ->
  uxPriority x' = uxPriority x -> uxBasePriority x' = uxBasePriority x ->
  wp (put_tcb c x';; when (n >? 0) (prvAddCurrentTaskToDelayedList n true;; portYIELD_WITHIN_API))
    (fun _ k' => exists L', scheduled sys k' L') k.
Proof.
  intros H Hc Hx Hid Hp Hin Hd Hn Ep Eb. wps.
  assert (scheduled sys (set_k_tcbs (<[c := x']> (k_tcbs k)) k) L) as H1 by (by apply (scheduled_put sys k L c x)).
  apply wp_when; intros Hb; wps; [|by eauto].
  eapply (wp_delay_current sys None _ L c x' p); [apply H1|by left|done|apply lookup_insert_eq|done|done|lia|].
  intros h' next' ns' k' L' Hok _ _ _. wps. exists L'. by apply scheduled_pendsv.
Qed.

Lemma safe_notify_wait_enter k L c p v n :
  scheduled sys k L -> pxCurrentTCB k = Some c -> c <> idle_task sys -> ready_list p = true ->
  xStateListItem c ∈ members L p -> detached L (xEventListItem c) -> 0 <= n <= portMAX_DELAY ->
  safe sys (notify_wait_enter v n) k /\ safe sys (notify_take_enter n) k.
Proof.
  intros H Hc Hid Hp Hin Hd Hn. destruct (current_state sys k L c p) as (x & Hx & _); [done..|].
  unfold safe, notify_wait_enter, notify_take_enter. split.
  - apply wp_bind. apply (wp_current c); [done|]. apply wp_bind. apply (wp_get_tcb c x); [done|].
    apply wp_if; intros Hb; [by apply (wp_notify_block k L c x _ p)|wps; by eauto].
  - apply wp_bind. apply (wp_current c); [done|]. apply wp_bind. apply (wp_get_tcb c x); [done|].
    apply wp_if; intros Hb; [by apply (wp_notify_block k L c x _ p)|wps; by eauto].
Qed.

Lemma safe_notify_leave k L v b :
  scheduled sys k L -> safe sys (notify_wait_leave v) k /\ safe sys (notify_take_leave b) k.
Proof.
  intros H. destruct (ok_current _ _ _ _ _ (sc_ok _ _ _ H)) as (c & y & Hc & Hy).
  unfold safe, notify_wait_leave, notify_take_leave.
  split; wps; wp_running Hc Hy; exists L; apply (scheduled_put_other k L c y); auto.
Qed.

(** ** Deletion *)

(** A task deletes itself: it stays in memory until the idle task frees it. *)
Lemma wp_delete_self k L c h :
  scheduled sys k L -> pxCurrentTCB k = Some c -> task_of k h = Some c -> c <> idle_task sys ->
  uxSchedulerSuspended k = 0 -> started sys = true ->
  wp (vTaskDelete h) (fun _ k' => exists L', scheduled sys k' L' /\ pendsv k' = true /\
    xStateListItem c ∈ members L' xTasksWaitingTermination) k.
Proof.
  intros H Hc Ht Hid Hs Hst. pose proof (sc_ok _ _ _ H) as HO. destruct (ok_current _ _ _ _ _ HO) as (c' & x & Hc' & Hx).
  simplify_eq. unfold vTaskDelete. wps. apply (wp_handle _ c); [done|]. wps.
  destruct (ok_state _ _ _ _ _ c HO) as (l & Hin & _); [by eauto|done|].
  eapply wp_remove_state; [exact HO|by left|exact Hin|]. intros n1 h1 H1 HS1. wps.
  eapply wp_leave_event_list; [exact H1|by eauto|]. intros h2 H2 HS2. wps. kcbn. rewrite Hc.
  rewrite bool_decide_eq_true_2 by done. wps.
  assert (forall u, kernel_ok sys (Some c) (xTickCount k + 1) (set_uxTaskNumber u (set_k_lists h2 (set_k_lists h1 k)))
    (without (xEventListItem c) <$> (without (xStateListItem c) <$> L))) as H3 by (intros u; by destruct H2).
  eapply wp_insert_end; [apply H3|by eauto|apply detached_without_other, detached_without|done|by right|].
  intros h4 ns' Hns _ H4. wps. cbn [when negb]. wps. kcbn. rewrite (ok_running _ _ _ _ _ HO), Hst. cbn [when andb]. wps.
  apply wp_configASSERT; [kcbn; lia|]. wps. eexists. split; [apply scheduled_pendsv; by destruct H4|]. split; [done|].
  rewrite members_insert_eq, Hns. by left.
Qed.

(** A call after one that returns. *)
Lemma fault_bind {A B} (m : KM A) (f : A -> KM B) k e P :
  wp m P k -> (forall a k', P a k' -> f a k' = Fault e) -> (m ≫= f) k = Fault e.
Proof. intros (a & k' & E & HP) Hf. unfold mbind, KM_bind. rewrite E. by apply Hf. Qed.

(** Deleting another task frees its memory, which [heap_1] does not allow: the
    assertion of [vPortFree] fails. *)
Lemma delete_other_faults k L h t :
  scheduled sys k L -> task_of k h = Some t -> is_Some (k_tcbs k !! t) -> pxCurrentTCB k <> Some t ->
  vTaskDelete h k = Fault AssertFailed.
Proof.
  intros H Ht [x Hx] Hc. pose proof (sc_ok _ _ _ H) as HO. unfold vTaskDelete.
  set (P := fun k' => exists L', kernel_ok sys (Some t) (xTickCount k + 1) k' L' /\
                      k_tcbs k' = k_tcbs k /\ pxCurrentTCB k' = pxCurrentTCB k).
  eapply (fault_bind _ _ _ _ (fun u k' => u = t /\ k' = k)); [by apply (wp_handle _ t)|]. intros u k' [-> ->].
  destruct (ok_state _ _ _ _ _ t HO) as (l & Hin & _); [by eauto|done|].
  eapply (fault_bind _ _ _ _ (fun _ => P)).
  { eapply wp_remove_state; [exact HO|by left|exact Hin|]. unfold P. by eauto. }
  intros _ k1 (L1 & H1 & HT1 & Hc1). eapply (fault_bind _ _ _ _ (fun _ => P)).
  { eapply wp_leave_event_list; [exact H1|rewrite HT1; by eauto|]. unfold P. by eauto. }
  intros _ k2 HP2. eapply (fault_bind _ _ _ _ (fun _ => P)); [by apply wp_gets|].
  intros n k3 (L3 & H3 & HT3 & Hc3). eapply (fault_bind _ _ _ _ (fun _ => P)).
  { apply wp_modify. exists L3. split; [by destruct H3|done]. }
  intros _ k4 HP4. eapply (fault_bind _ _ _ _ (fun c k' => c = pxCurrentTCB k /\ P k')).
  { apply wp_gets. split; [by destruct HP4 as (? & _ & _ & ?)|done]. }
  intros c k5 [-> (L5 & H5 & HT5 & Hc5)]. rewrite bool_decide_eq_false_2 by done.
  eapply (fault_bind _ _ _ _ (fun _ => P)).
  { wps. eapply wp_reset_next; [apply ok_next_zero; by destruct H5|]. intros next' H6. exists L5. split; [by destruct H6|done]. }
  intros _ k6 (L6 & H6 & HT6 & Hc6). unfold mbind, KM_bind, when, prvDeleteTCB, get_tcb. cbn [negb].
  unfold mbind, KM_bind. by rewrite HT6, Hx.
Qed.

End Events.
