(* ===== verification/FreeRTOSTasksTime.v ===== *)
(** * Time

    How long tasks wait.  A delayed task has a number of ticks left, counted
    modulo 2^32 as the tick count is; a tick takes one away and makes ready
    exactly the tasks that had one left, also when the count wraps around and
    the two delayed lists change places. *)

From S2P Require Import Prelude FreeRTOSList FreeRTOSListTheory FreeRTOSListStore FreeRTOSHeap FreeRTOSObjects.
From S2P Require Import FreeRTOSTasks FreeRTOSTasksTheory FreeRTOSTasksCalls FreeRTOSTasksInvariant.

(** The item is in the list. *)
Definition in_list (k : kernel) (i l : nat) : Prop := container (k_lists k) (Item i) = Some l.

Definition ready (k : kernel) (t : nat) : Prop :=
  exists x, k_tcbs k !! t = Some x /\ in_list k (xStateListItem t) (pxReadyTasksLists (uxPriority x)).

Definition delayed (k : kernel) (t : nat) : Prop :=
  in_list k (xStateListItem t) (pxDelayedTaskList k) \/ in_list k (xStateListItem t) (pxOverflowDelayedTaskList k).

(** The ticks a delayed task has left. *)
Definition remaining (k : kernel) (t : nat) : Z := u32 (value (k_lists k) (Item (xStateListItem t)) - xTickCount k).

Section Time.
Context (sys : system).

Lemma in_list_member o lo k L i l : kernel_ok sys o lo k L -> in_list k i l <-> i ∈ members L l.
Proof. intros H. symmetry. apply (st_member _ _ (tk_stored _ _ _ _ _ (ok_tasks _ _ _ _ _ H))). Qed.

(** ** Ticks *)

Record tick_effect (k k' : kernel) : Prop := {
  te_tcbs : k_tcbs k' = k_tcbs k;
  te_current : pxCurrentTCB k' = pxCurrentTCB k;
  te_suspended : uxSchedulerSuspended k' = uxSchedulerSuspended k;
  te_tick : xTickCount k' = u32 (xTickCount k + 1);
  te_delayed t : is_Some (k_tcbs k !! t) -> delayed k t ->
    if remaining k t =? 1 then ready k' t else delayed k' t /\ remaining k' t = remaining k t - 1;
  te_other t l : is_Some (k_tcbs k !! t) -> ~ delayed k t -> in_list k (xStateListItem t) l -> in_list k' (xStateListItem t) l;
}.

Lemma remaining_same k k' t :
  same_items (k_lists k) (k_lists k') -> remaining k' t = u32 (value (k_lists k) (Item (xStateListItem t)) - xTickCount k').
Proof. intros HS. unfold remaining. by rewrite (same_value _ _ HS). Qed.

(** A delayed task and the wake time of its list. *)
Lemma delayed_value k L t l :
  kernel_ok sys None (xTickCount k + 1) k L -> is_Some (k_tcbs k !! t) -> xStateListItem t ∈ members L l ->
  in_range 32 (value (k_lists k) (Item (xStateListItem t))) /\
  (l = pxDelayedTaskList k -> xTickCount k + 1 <= value (k_lists k) (Item (xStateListItem t))) /\
  (l = pxOverflowDelayedTaskList k -> value (k_lists k) (Item (xStateListItem t)) < xTickCount k).
Proof.
  intros H Ht Hin. split; [apply (tk_state_item _ _ _ _ _ (ok_tasks _ _ _ _ _ H) t Ht)|].
  split; intros ->; [by apply (dl_wake _ _ _ _ _ _ (ok_delays _ _ _ _ _ H))|
    by apply (dl_wake_overflow _ _ _ _ _ _ (ok_delays _ _ _ _ _ H))].
Qed.

Lemma u32_cases z : in_range 32 z -> (u32 (z + 1) = z + 1 /\ z + 1 < 2 ^ 32) \/ (u32 (z + 1) = 0 /\ z = 2 ^ 32 - 1).
Proof. unfold in_range, wrapu. intros. Z.to_euclidean_division_equations. lia. Qed.

Lemma u32_sub a b : in_range 32 a -> in_range 32 b -> u32 (a - b) = if b <=? a then a - b else a - b + 2 ^ 32.
Proof. unfold in_range, wrapu. intros. destruct (Z.leb_spec b a); Z.to_euclidean_division_equations; lia. Qed.

Lemma ticked_delayed b r k k' L L' t x l :
  kernel_ok sys None (xTickCount k + 1) k L -> ticked sys b r k k' L L' -> k_tcbs k !! t = Some x ->
  l = pxDelayedTaskList k \/ l = pxOverflowDelayedTaskList k -> xStateListItem t ∈ members L l ->
  if remaining k t =? 1 then xStateListItem t ∈ members L' (pxReadyTasksLists (uxPriority x))
  else (xStateListItem t ∈ members L' (pxDelayedTaskList k') \/ xStateListItem t ∈ members L' (pxOverflowDelayedTaskList k')) /\
    remaining k' t = remaining k t - 1.
Proof.
  intros H HK Hx Hl Hin. pose proof (tc_lists _ _ _ _ _ _ _ HK) as Hsw. pose proof (tc_tick _ _ _ _ _ _ _ HK) as Ht.
  pose proof (woken_state _ _ _ _ _ _ (tc_woken _ _ _ _ _ _ _ HK) t x l Hx Hin) as Hw.
  destruct (delayed_value k L t l H ltac:(eauto) Hin) as (Hv & Hd & Ho).
  destruct (delays_disjoint _ _ _ _ _ _ (ok_delays _ _ _ _ _ H)) as (Hne & _).
  pose proof (ok_tick _ _ _ _ _ H) as Htick. rewrite (remaining_same k k' t (tc_same _ _ _ _ _ _ _ HK)). unfold remaining.
  set (v := value _ _) in *. rewrite (u32_sub v (xTickCount k)) by done.
  rewrite (u32_sub v (xTickCount k')) by (try done; rewrite Ht; apply in_range_wrapu; lia).
  destruct (u32_cases _ Htick) as [[E Hlt]|[E Hmax]]; rewrite E in Ht; rewrite Ht in Hsw, Hw |- *.
  - replace (xTickCount k + 1 =? 0) with false in Hsw by (unfold in_range in Htick; lia).
    injection Hsw as Ed Eo. rewrite Ed, Eo in *. unfold in_range in *. destruct Hl as [->| ->].
    + specialize (Hd eq_refl). replace (xTickCount k <=? v) with true by lia.
      destruct (Z.eqb_spec (v - xTickCount k) 1); [by rewrite decide_True in Hw by lia|].
      rewrite decide_False in Hw by lia. replace (xTickCount k + 1 <=? v) with true by lia. split; [by left|lia].
    + specialize (Ho eq_refl). replace (xTickCount k <=? v) with false by lia.
      replace (v - xTickCount k + 2 ^ 32 =? 1) with false by lia. rewrite decide_False in Hw by (intros [? _]; done).
      replace (xTickCount k + 1 <=? v) with false by lia. split; [by right|lia].
  - change (0 =? 0) with true in Hsw. injection Hsw as Ed Eo. rewrite Ed, Eo in *. unfold in_range in *. destruct Hl as [->| ->].
    + specialize (Hd eq_refl). lia.
    + specialize (Ho eq_refl). replace (xTickCount k <=? v) with false by lia. replace (0 <=? v) with true by lia.
      destruct (Z.eqb_spec (v - xTickCount k + 2 ^ 32) 1); [by rewrite decide_True in Hw by lia|].
      rewrite decide_False in Hw by lia. split; [by left|lia].
Qed.

Lemma ticked_effect b r k k' L L' :
  kernel_ok sys None (xTickCount k + 1) k L -> ticked sys b r k k' L L' -> tick_effect k k'.
Proof.
  intros H HK. pose proof (tc_frame _ _ _ _ _ _ _ HK) as [F1 F2 F3 F4 F5 F6 F7]. pose proof (tc_ok _ _ _ _ _ _ _ HK) as H'.
  split; [done..|apply HK| |].
  - intros t [x Hx] Hd. unfold ready, delayed in *. rewrite !(in_list_member _ _ _ _ _ _ H) in Hd.
    assert (exists l, (l = pxDelayedTaskList k \/ l = pxOverflowDelayedTaskList k) /\ xStateListItem t ∈ members L l) as (l & Hl & Hin)
      by (destruct Hd; eauto).
    pose proof (ticked_delayed _ _ _ _ _ _ t x l H HK Hx Hl Hin) as Ht. destruct (remaining k t =? 1).
    + exists x. rewrite F1. split; [done|]. by apply (in_list_member _ _ _ _ _ _ H').
    + by rewrite !(in_list_member _ _ _ _ _ _ H').
  - intros t l [x Hx] Hd Hin. apply (in_list_member _ _ _ _ _ _ H) in Hin as Hm. apply (in_list_member _ _ _ _ _ _ H').
    pose proof (woken_state _ _ _ _ _ _ (tc_woken _ _ _ _ _ _ _ HK) t x l Hx Hm) as Hw.
    rewrite decide_False in Hw; [done|]. intros [-> _]. apply Hd. pose proof (tc_lists _ _ _ _ _ _ _ HK) as Hl.
    destruct (xTickCount k' =? 0); injection Hl as E1 E2; [right|left]; congruence.
Qed.

Lemma wp_systick k L :
  scheduled sys k L -> uxSchedulerSuspended k = 0 ->
  wp xPortSysTickHandler (fun _ k' => exists L', scheduled sys k' L' /\ tick_effect k k') k.
Proof.
  intros [HO HP HR] Hs. unfold xPortSysTickHandler. wps.
  eapply wp_mono; [by apply (wp_tick sys (switch_pending k) k L)|]. intros r k' (L' & HK). wps.
  pose proof (ticked_keeps _ _ _ _ _ _ _ _ HO HK) as HKK. pose proof (ticked_effect _ _ _ _ _ _ HO HK) as HE.
  destruct HK as [HO' _ _ _ _ HP' [F1 F2 F3 F4 F5 F6 F7] _ _].
  apply wp_when; intros Hr; wps; exists L'.
  - split; [apply scheduled_pending; [by apply ok_pendsv|done]|by destruct HE].
  - split; [|done]. rewrite Hr, orb_false_r in HP'. split; [done| |].
    + unfold preempted_k, switch_pending in *. by rewrite F1, F2, F5, F6.
    + unfold switch_pending in *. rewrite F3, F5, F6. intros. eapply keeps_current; eauto.
Qed.

(** ** Context switches *)

(** A switch changes the running task and nothing else that is seen here. *)
Record switch_effect (k k' : kernel) : Prop := {
  se_tcbs : k_tcbs k' = k_tcbs k;
  se_suspended : uxSchedulerSuspended k' = uxSchedulerSuspended k;
  se_tick : xTickCount k' = xTickCount k;
  se_lists : pxDelayedTaskList k' = pxDelayedTaskList k /\ pxOverflowDelayedTaskList k' = pxOverflowDelayedTaskList k;
  se_in t l : is_Some (k_tcbs k !! t) -> in_list k (xStateListItem t) l <-> in_list k' (xStateListItem t) l;
  se_value t : value (k_lists k') (Item (xStateListItem t)) = value (k_lists k) (Item (xStateListItem t));
  se_objects : k_objects k' = k_objects k;
  se_number : uxCurrentNumberOfTasks k' = uxCurrentNumberOfTasks k;
  se_first l t : (l < first_event_list + event_lists sys)%nat -> listLIST_IS_EMPTY l (k_lists k) = Ok false ->
    listGET_OWNER_OF_HEAD_ENTRY l (k_lists k) = Ok t ->
    listLIST_IS_EMPTY l (k_lists k') = Ok false /\ listGET_OWNER_OF_HEAD_ENTRY l (k_lists k') = Ok t;
}.

(** The first item of a list belongs to a task. *)
Lemma head_owner lo k L l :
  kernel_ok sys None lo k L -> (l < first_event_list + event_lists sys)%nat -> listLIST_IS_EMPTY l (k_lists k) = Ok false ->
  exists i ns t, L !! l = Some (i :: ns) /\ is_Some (k_tcbs k !! t) /\
    (i = xStateListItem t \/ i = xEventListItem t) /\ listGET_OWNER_OF_HEAD_ENTRY l (k_lists k) = Ok t.
Proof.
  intros H Hl He. pose proof (ok_tasks _ _ _ _ _ H) as HT. pose proof (tk_stored _ _ _ _ _ HT) as S.
  destruct (tk_lists _ _ _ _ _ HT l Hl) as [ns El]. rewrite (st_empty _ _ S _ _ El) in He. injection He as He.
  apply bool_decide_eq_false in He. destruct ns as [|i ns]; [done|].
  assert (i ∈ members L l) as Hi by (rewrite (members_lookup _ _ _ El); by left).
  destruct (tk_members _ _ _ _ _ HT l i Hi) as (t & Ht & Ei). exists i, ns, t. split; [done|]. split; [done|].
  assert (owner (k_lists k) (Item i) = Some t) as Ho.
  { destruct (event_list l); subst i; [apply (tk_event_item _ _ _ _ _ HT t Ht)|apply (tk_state_item _ _ _ _ _ HT t Ht)]. }
  split; [destruct (event_list l); auto|]. by apply (st_head_owner _ _ S _ _ _ _ El).
Qed.

Lemma head_owner_same lo lo' k k' L l t :
  kernel_ok sys None lo k L -> kernel_ok sys None lo' k' L -> k_tcbs k' = k_tcbs k ->
  (l < first_event_list + event_lists sys)%nat -> listLIST_IS_EMPTY l (k_lists k) = Ok false ->
  listGET_OWNER_OF_HEAD_ENTRY l (k_lists k) = Ok t ->
  listLIST_IS_EMPTY l (k_lists k') = Ok false /\ listGET_OWNER_OF_HEAD_ENTRY l (k_lists k') = Ok t.
Proof.
  intros H H' _ Hl He Ho. destruct (head_owner _ _ _ _ H Hl He) as (i & ns & t1 & El & Ht1 & Hi & E1).
  assert (listLIST_IS_EMPTY l (k_lists k') = Ok false) as He'
    by (by rewrite (st_empty _ _ (tk_stored _ _ _ _ _ (ok_tasks _ _ _ _ _ H')) _ _ El)).
  split; [done|]. destruct (head_owner _ _ _ _ H' Hl He') as (i' & ns' & t2 & El' & _ & Hi' & E2). simplify_eq.
  assert (t1 = t) by congruence. rewrite E2. f_equal. unfold xStateListItem, xEventListItem in *. lia.
Qed.

(** The running task is ready, and no ready task has a higher priority. *)
Definition runs_highest (k : kernel) : Prop :=
  exists c y, pxCurrentTCB k = Some c /\ k_tcbs k !! c = Some y /\ ready k c /\
    forall t x, k_tcbs k !! t = Some x -> ready k t -> uxPriority x <= uxPriority y.

Lemma below_highest lo k L c y t x :
  kernel_ok sys None lo k L -> below (uxPriority y) L -> k_tcbs k !! t = Some x -> ready k t ->
  k_tcbs k !! c = Some y -> uxPriority x <= uxPriority y.
Proof.
  intros H Hb Hx (x' & Hx' & Hin) Hy. simplify_eq. apply (in_list_member _ _ _ _ _ _ H) in Hin.
  destruct (ready_priority _ _ _ _ _ t x (ok_tasks _ _ _ _ _ H) Hx) as [Hp Ep].
  specialize (Hb _ Hp (members_nil Hin)). lia.
Qed.

Lemma wp_switch k L :
  scheduled sys k L -> uxSchedulerSuspended k = 0 ->
  wp xPortPendSVHandler (fun _ k' => exists L', scheduled sys k' L' /\ switch_effect k k' /\ runs_highest k' /\
    switch_pending k' = false) k.
Proof.
  intros [HO HP HR] Hs. unfold xPortPendSVHandler, vTaskSwitchContext. wps. apply wp_if; intros Hs'; [kcbn_in Hs'; lia|]. wps.
  eapply wp_select; [by apply ok_yield, ok_pendsv, HO|]. intros h' c y p HS Hy Hp Hin Ey Hb HO'. exists L.
  split; [|split; [|split]].
  - split; [done| |].
    + intros _ c' y' [= <-] Hy'. kcbn_in Hy'. kcbn_in Hy. assert (y' = y) as -> by congruence. done.
    + intros _ _. exists c, p. auto.
  - split; [done..| | |done|done|].
    + intros t l _. by rewrite (in_list_member _ _ _ _ _ _ HO), (in_list_member _ _ _ _ _ _ HO').
    + intros t. apply HS.
    + intros l t. by apply (head_owner_same _ _ _ _ L l t HO HO').
  - exists c, y. split; [done|]. split; [done|]. split.
    + exists y. split; [done|]. apply (in_list_member _ _ _ _ _ _ HO'). unfold pxReadyTasksLists. rewrite Ey, Nat2Z.id. done.
    + intros t x Hx Hr. exact (below_highest _ _ L c y t x HO' Hb Hx Hr Hy).
  - done.
Qed.

(** ** Delays *)

(** No tick and no task waits for the scheduler to be resumed. *)
Definition nothing_pending (k : kernel) : Prop :=
  xPendedTicks k = 0 /\ forall t, ~ in_list k (xEventListItem t) xPendingReadyList.

Lemma pending_empty lo k L :
  kernel_ok sys None lo k L -> (forall t, ~ in_list k (xEventListItem t) xPendingReadyList) -> members L xPendingReadyList = [].
Proof.
  intros H Hn. destruct (members L xPendingReadyList) as [|i ns] eqn:E; [done|exfalso].
  assert (i ∈ members L xPendingReadyList) as Hi by (rewrite E; by left).
  destruct (tk_event_member _ _ _ _ _ _ _ (ok_tasks _ _ _ _ _ H) (eq_refl : event_list xPendingReadyList = true) Hi) as (t & -> & _).
  by apply (Hn t), (in_list_member _ _ _ _ _ _ H).
Qed.

(** [xTaskResumeAll] when nothing is pending. *)
Lemma wp_resume_idle lo k L (Q : bool -> kernel -> Prop) :
  kernel_ok sys None lo k L -> members L xPendingReadyList = [] -> uxSchedulerSuspended k = 1 -> xPendedTicks k = 0 ->
  (xYieldPending k = true -> Q true (set_pendsv true (set_uxSchedulerSuspended 0 k))) ->
  (forall b, (b = true -> xYieldPending k = true) -> b = false -> Q b (set_uxSchedulerSuspended 0 k)) ->
  wp xTaskResumeAll Q k.
Proof.
  intros H Hm Hs Hp H1 H2. unfold xTaskResumeAll. wps. rewrite Hs. apply wp_configASSERT; [done|]. wps.
  change (u32 (1 - 1)) with 0. change (1 - 1 =? 0) with true. rewrite andb_true_l. apply wp_if; intros Hn; [|wps; by apply H2].
  assert (kernel_ok sys None lo (set_uxSchedulerSuspended 0 k) L) as H' by (by apply ok_suspend_all).
  pose proof (tk_stored _ _ _ _ _ (ok_tasks _ _ _ _ _ H')) as S. pose proof (ok_list_7 _ _ _ _ _ H') as E7. rewrite Hm in E7.
  wps. eapply wp_ask; [by apply (st_length _ _ S)|]. wps. cbn [length Z.of_nat move_pending Z.to_nat]. wps.
  eapply wp_ask; [by apply (st_empty _ _ S)|]. rewrite bool_decide_eq_true_2 by done. wps. cbn [when]. wps. kcbn. rewrite Hp. change (0 >? 0) with false.
  cbn [when]. wps. kcbn. apply wp_when; intros Hy; [wps; rewrite Hy; by apply H1|]. wps. rewrite Hy. by apply H2.
Qed.

(** What is known of a task that is due in [r] ticks. *)
Definition due (k : kernel) (t : nat) (r : Z) : Prop :=
  if 0 <? r then delayed k t /\ remaining k t = r else ready k t.

Lemma remaining_wake k t n :
  in_range 32 (xTickCount k) -> 0 < n <= portMAX_DELAY ->
  value (k_lists k) (Item (xStateListItem t)) = u32 (xTickCount k + n) -> remaining k t = n.
Proof.
  unfold remaining, in_range, portMAX_DELAY, wrapu. intros Ht Hn ->. Z.to_euclidean_division_equations. lia.
Qed.

Lemma wp_task_delay k L c n :
  scheduled sys k L -> uxSchedulerSuspended k = 0 -> nothing_pending k -> pxCurrentTCB k = Some c -> c <> idle_task sys ->
  ready k c -> 0 < n <= portMAX_DELAY ->
  wp (vTaskDelay n) (fun _ k' => exists L', scheduled sys k' L' /\ uxSchedulerSuspended k' = 0 /\
    is_Some (k_tcbs k' !! c) /\ due k' c n) k.
Proof.
  intros H Hs [Hpt Hpl] Hc Hid (x & Hx & Hr) Hn. pose proof (sc_ok _ _ _ H) as HO.
  destruct (ready_priority _ _ _ _ _ c x (ok_tasks _ _ _ _ _ HO) Hx) as [Hp Ep].
  apply (in_list_member _ _ _ _ _ _ HO) in Hr. pose proof (pending_empty _ _ _ HO Hpl) as Hm7.
  unfold vTaskDelay. wps. apply wp_if; intros Hb; [|lia]. wps.
  apply wp_configASSERT; [lia|]. wps. apply wp_suspend_first; [done|]. wps.
  eapply (wp_delay_current sys None _ L c x); try done; [by apply ok_suspend_all|by left|].
  intros h' next' ns' k' L' Hok Hm Hsame Hval. 
  assert (wait_list (set_uxSchedulerSuspended 1 k) n false = pxOverflowDelayedTaskList k \/
          wait_list (set_uxSchedulerSuspended 1 k) n false = pxDelayedTaskList k) as Hwl.
  { unfold wait_list. rewrite andb_false_r. kcbn. destruct (_ <? _); auto. }
  destruct (delays_disjoint _ _ _ _ _ _ (ok_delays _ _ _ _ _ HO)) as (_ & Hde & Hoe & _).
  assert (members L' xPendingReadyList = []) as Hm7'.
  { assert (event_list xPendingReadyList = true) by done. unfold L'.
    rewrite members_insert_ne by (destruct Hwl as [->| ->]; congruence). by rewrite members_without, Hm7. }
  assert (forall k2, k2 = set_pendsv true (set_uxSchedulerSuspended 0 k') -> exists L2, scheduled sys k2 L2 /\
    uxSchedulerSuspended k2 = 0 /\ is_Some (k_tcbs k2 !! c) /\ due k2 c n) as Hend.
  { intros k2 ->. assert (kernel_ok sys None (xTickCount k + 1) (set_pendsv true (set_uxSchedulerSuspended 0 k')) L') as H2
      by (by apply ok_pendsv, ok_suspend_all).
    exists L'. split; [by apply scheduled_pending|]. split; [done|]. split; [unfold k'; kcbn; rewrite lookup_insert_eq; by eauto|].
    unfold due. replace (0 <? n) with true by lia. split.
    - unfold delayed. rewrite !(in_list_member _ _ _ _ _ _ H2). unfold k', L'. kcbn.
      destruct Hwl as [E|E]; [right|left]; rewrite <- E, members_insert_eq, Hm; by left.
    - apply remaining_wake; [apply HO|done|]. unfold k'. kcbn. rewrite Hval; [done|].
      destruct Hwl as [->| ->]; intros E; [destruct (ok_delays _ _ _ _ _ HO) as [[[_ E']|[_ E']] _]|
        destruct (ok_delays _ _ _ _ _ HO) as [[[E' _]|[E' _]] _]]; rewrite E' in E; done. }
  eapply wp_resume_idle; [exact Hok|done|done|done|..].
  - intros _. cbn [negb when]. wps. by apply Hend.
  - intros b _ ->. cbn [negb when]. wps. by apply Hend.
Qed.

(** ** Ticks and context switches in any order *)

Inductive event : Set := EvTick | EvSwitch.

Fixpoint run_events (es : list event) : KM unit :=
  match es with
  | [] => mret tt
  | EvTick :: es => xPortSysTickHandler;; run_events es
  | EvSwitch :: es => xPortPendSVHandler;; run_events es
  end.

Fixpoint ticks (es : list event) : Z :=
  match es with [] => 0 | EvTick :: es => 1 + ticks es | EvSwitch :: es => ticks es end.

Lemma ready_not_delayed lo k L t : kernel_ok sys None lo k L -> ready k t -> ~ delayed k t.
Proof.
  intros H (x & Hx & Hin) Hd. destruct (ready_priority _ _ _ _ _ t x (ok_tasks _ _ _ _ _ H) Hx) as [Hp _].
  destruct (delays_disjoint _ _ _ _ _ _ (ok_delays _ _ _ _ _ H)) as (_ & _ & _ & Hd1 & Hd2 & _).
  unfold in_list in *. destruct Hd as [Hd|Hd]; congruence.
Qed.

Lemma tick_due k L k' t r :
  scheduled sys k L -> tick_effect k k' -> is_Some (k_tcbs k !! t) -> due k t r -> due k' t (r - 1).
Proof.
  intros H HE Ht. unfold due. destruct (Z.ltb_spec 0 r) as [Hr|Hr].
  - intros [Hd Hrem]. pose proof (te_delayed _ _ HE t Ht Hd) as HT. rewrite Hrem in HT.
    destruct (Z.eqb_spec r 1) as [->|]; [done|]. by replace (0 <? r - 1) with true by lia.
  - intros Hrd. replace (0 <? r - 1) with false by lia. pose proof (ready_not_delayed _ _ _ _ (sc_ok _ _ _ H) Hrd) as Hnd.
    destruct Hrd as (x & Hx & Hin). exists x. rewrite (te_tcbs _ _ HE). split; [done|]. by apply (te_other _ _ HE).
Qed.

Lemma switch_due k k' t r : switch_effect k k' -> is_Some (k_tcbs k !! t) -> due k t r -> due k' t r.
Proof.
  intros [HT _ Htk [Hd Ho] Hin Hv _ _ _] Ht. unfold due, delayed, remaining, ready. rewrite Hv, Htk, Hd, Ho, HT.
  destruct (0 <? r); setoid_rewrite (Hin t _ Ht); done.
Qed.

Lemma wp_events es : forall k L t r,
  scheduled sys k L -> uxSchedulerSuspended k = 0 -> is_Some (k_tcbs k !! t) -> due k t r ->
  wp (run_events es) (fun _ k' => exists L', scheduled sys k' L' /\ due k' t (r - ticks es)) k.
Proof.
  induction es as [|e es IH]; intros k L t r H Hs Ht Hr; cbn [run_events ticks].
  - wps. exists L. by rewrite Z.sub_0_r.
  - destruct e; wps.
    + eapply wp_mono; [by apply (wp_systick k L)|]. intros _ k' (L' & H' & HE).
      eapply wp_mono; [apply (IH k' L' t (r - 1)); [done|rewrite (te_suspended _ _ HE); done|by rewrite (te_tcbs _ _ HE)|by apply (tick_due k L)]|].
      intros _ k2 (L2 & H2 & Hr2). exists L2. by replace (r - (1 + ticks es)) with (r - 1 - ticks es) by lia.
    + eapply wp_mono; [by apply (wp_switch k L)|]. intros _ k' (L' & H' & HE & _).
      apply (IH k' L' t r); [done|rewrite (se_suspended _ _ HE); done|by rewrite (se_tcbs _ _ HE)|by apply (switch_due k)].
Qed.

End Time.
