(* ===== verification/FreeRTOSTasksFrame.v ===== *)
(** * What the scheduler leaves alone

    No function of [tasks.c] changes the queues, the timers or the registry, and
    only the creation and the deletion of tasks change the number of tasks. *)

From S2P Require Import Prelude FreeRTOSList FreeRTOSHeap FreeRTOSObjects FreeRTOSTasks FreeRTOSTasksTheory.

(** A call that returns leaves a part of the state as it was. *)
Definition keeps_part {A B} (view : kernel -> B) (m : KM A) : Prop := forall k a k', m k = Ok (a, k') -> view k' = view k.

Abbreviation keeps_objects := (keeps_part k_objects).
Abbreviation keeps_static := (keeps_part (fun k => (k_objects k, uxCurrentNumberOfTasks k))).

Create HintDb objects.

Section Keeps.
Context {V : Type} (view : kernel -> V).

Lemma ko_bind {A B} (m : KM A) (f : A -> KM B) :
  keeps_part view m -> (forall a, keeps_part view (f a)) -> keeps_part view (m ≫= f).
Proof.
  intros Hm Hf k b k' H. unfold mbind, KM_bind in H. destruct (m k) as [[a k1]|] eqn:E; [|done].
  rewrite (Hf _ _ _ _ H). by apply (Hm _ _ _ E).
Qed.

Lemma ko_ret {A} (a : A) : keeps_part view (mret a).
Proof. by intros k ? ? [= <- <-]. Qed.

Lemma ko_gets {A} (f : kernel -> A) : keeps_part view (gets f).
Proof. by intros k ? ? [= <- <-]. Qed.

Lemma ko_modify f : (forall k, view (f k) = view k) -> keeps_part view (modify f).
Proof. intros Hf k ? ? [= <- <-]. apply Hf. Qed.

Lemma ko_lift {A} (r : res A) : keeps_part view (lift r).
Proof. intros k a k'. unfold lift. by destruct r; intros [= <- <-]. Qed.

Lemma ko_ask {A} (f : list_heap -> res A) : keeps_part view (ask_lists f).
Proof. intros k a k'. unfold ask_lists. by destruct (f _); intros [= <- <-]. Qed.

Lemma ko_get_tcb t : keeps_part view (get_tcb t).
Proof. intros k a k'. unfold get_tcb. by destruct (_ !! _); intros [= <- <-]. Qed.

Lemma ko_current : keeps_part view current.
Proof. intros k a k'. unfold current. by destruct (pxCurrentTCB k); intros [= <- <-]. Qed.

Hypothesis view_lists : forall h k, view (set_k_lists h k) = view k.
Hypothesis view_heap : forall h k, view (set_k_heap h k) = view k.

Lemma ko_on {A} (f : list_heap -> res (A * list_heap)) : keeps_part view (on_lists f).
Proof. intros k a k'. unfold on_lists. by destruct (f _) as [[? ?]|]; intros [= <- <-]. Qed.

Lemma ko_do f : keeps_part view (do_lists f).
Proof. intros k a k'. unfold do_lists. by destruct (f _); intros [= <- <-]. Qed.

Lemma ko_malloc b n : keeps_part view (malloc b n).
Proof. intros k a k'. unfold malloc. by destruct (pvPortMalloc _ _ _); intros [= <- <-]. Qed.

Lemma ko_free p : keeps_part view (free p).
Proof. intros k a k'. unfold free. by destruct (vPortFree _ _); intros [= <- <-]. Qed.

End Keeps.

Lemma static_objects {A} (m : KM A) : keeps_static m -> keeps_objects m.
Proof. intros H k a k' E. by injection (H k a k' E). Qed.

Ltac keep_step :=
  lazymatch goal with
  | |- keeps_part _ (_ ≫= _) => apply ko_bind; [|intros ?]
  | |- keeps_part _ (mret _) => apply ko_ret
  | |- keeps_part _ (gets _) => apply ko_gets
  | |- keeps_part _ (modify _) => by apply ko_modify
  | |- keeps_part _ (put_tcb _ _) => by apply ko_modify
  | |- keeps_part _ (configASSERT _) => apply ko_lift
  | |- keeps_part _ (lift _) => apply ko_lift
  | |- keeps_part _ (on_lists _) => by apply ko_on
  | |- keeps_part _ (do_lists _) => by apply ko_do
  | |- keeps_part _ (ask_lists _) => apply ko_ask
  | |- keeps_part _ (get_tcb _) => apply ko_get_tcb
  | |- keeps_part _ current => apply ko_current
  | |- keeps_part _ (malloc _ _) => by apply ko_malloc
  | |- keeps_part _ (free _) => by apply ko_free
  | |- keeps_part _ portYIELD_WITHIN_API => by apply ko_modify
  | |- keeps_part _ (when ?b _) => destruct b; unfold when
  | |- keeps_part _ (match ?x with _ => _ end) => destruct x
  | |- keeps_part _ (let _ := _ in _) => cbv zeta
  | |- keeps_part _ _ => solve [auto with objects nocore | apply static_objects; auto with objects nocore]
  end.
Ltac keep m := unfold m; repeat keep_step.

Lemma ko_handle h : keeps_static (prvGetTCBFromHandle h).
Proof. keep prvGetTCBFromHandle. Qed.
#[export] Hint Resolve ko_handle : objects.

Lemma ko_add_ready t : keeps_static (prvAddTaskToReadyList t).
Proof. unfold prvAddTaskToReadyList, taskRECORD_READY_PRIORITY. repeat keep_step. Qed.
#[export] Hint Resolve ko_add_ready : objects.

Lemma ko_top_ready p : keeps_static (top_ready p).
Proof. induction p as [|p IH]; cbn [top_ready]; repeat keep_step; done. Qed.
#[export] Hint Resolve ko_top_ready : objects.

Lemma ko_switch : keeps_static vTaskSwitchContext.
Proof. unfold vTaskSwitchContext, taskSELECT_HIGHEST_PRIORITY_TASK. repeat keep_step. Qed.
#[export] Hint Resolve ko_switch : objects.

Lemma ko_pendsv : keeps_static xPortPendSVHandler.
Proof. keep xPortPendSVHandler. Qed.

Lemma ko_reset_next : keeps_static prvResetNextTaskUnblockTime.
Proof. keep prvResetNextTaskUnblockTime. Qed.
#[export] Hint Resolve ko_reset_next : objects.

Lemma ko_delay n b : keeps_static (prvAddCurrentTaskToDelayedList n b).
Proof. keep prvAddCurrentTaskToDelayedList. Qed.
#[export] Hint Resolve ko_delay : objects.

Lemma ko_leave_event t : keeps_static (leave_event_list t).
Proof. keep leave_event_list. Qed.
#[export] Hint Resolve ko_leave_event : objects.

Lemma ko_unblock f n b : keeps_static (unblock_expired f n b).
Proof. revert b. induction f as [|f IH]; intros b; cbn [unblock_expired]; repeat keep_step; apply IH. Qed.
#[export] Hint Resolve ko_unblock : objects.

Lemma ko_tick : keeps_static xTaskIncrementTick.
Proof. unfold xTaskIncrementTick, taskSWITCH_DELAYED_LISTS. repeat keep_step. Qed.
#[export] Hint Resolve ko_tick : objects.

Lemma ko_systick : keeps_static xPortSysTickHandler.
Proof. keep xPortSysTickHandler. Qed.

Lemma ko_suspend_all : keeps_static vTaskSuspendAll.
Proof. keep vTaskSuspendAll. Qed.
#[export] Hint Resolve ko_suspend_all : objects.

Lemma ko_move_pending f b : keeps_static (move_pending f b).
Proof. revert b. induction f as [|f IH]; intros b; cbn [move_pending]; repeat keep_step; apply IH. Qed.
#[export] Hint Resolve ko_move_pending : objects.

Lemma ko_replay n : keeps_static (replay_ticks n).
Proof. induction n as [|n IH]; cbn [replay_ticks]; repeat keep_step; apply IH. Qed.
#[export] Hint Resolve ko_replay : objects.

Lemma ko_resume_all : keeps_static xTaskResumeAll.
Proof. keep xTaskResumeAll. Qed.
#[export] Hint Resolve ko_resume_all : objects.

Lemma ko_initialise_new t p s : keeps_static (prvInitialiseNewTask p t s).
Proof. keep prvInitialiseNewTask. Qed.
#[export] Hint Resolve ko_initialise_new : objects.

Lemma ko_initialise_lists : keeps_static prvInitialiseTaskLists.
Proof. keep prvInitialiseTaskLists. Qed.
#[export] Hint Resolve ko_initialise_lists : objects.

Lemma ko_add_new t : keeps_objects (prvAddNewTaskToReadyList t).
Proof. keep prvAddNewTaskToReadyList. Qed.
#[export] Hint Resolve ko_add_new : objects.

Lemma ko_create b d p : keeps_objects (xTaskCreate b d p).
Proof. keep xTaskCreate. Qed.
#[export] Hint Resolve ko_create : objects.

(** A created task is counted. *)
Lemma bind_ok {A B} (m : KM A) (f : A -> KM B) k b k' :
  (m ≫= f) k = Ok (b, k') -> exists a k1, m k = Ok (a, k1) /\ f a k1 = Ok (b, k').
Proof. unfold mbind, KM_bind. destruct (m k) as [[a k1]|]; [by eauto|done]. Qed.

Lemma static_number {A} (m : KM A) k a k' :
  keeps_static m -> m k = Ok (a, k') -> uxCurrentNumberOfTasks k' = uxCurrentNumberOfTasks k.
Proof. intros H E. by injection (H k a k' E). Qed.

Lemma add_new_number t k k' :
  prvAddNewTaskToReadyList t k = Ok (tt, k') -> uxCurrentNumberOfTasks k' = u32 (uxCurrentNumberOfTasks k + 1).
Proof.
  unfold prvAddNewTaskToReadyList. intros (n & k1 & [= <- <-] & H)%bind_ok. apply bind_ok in H as ([] & k2 & [= <-] & H).
  apply static_number in H; [done|]. repeat keep_step.
Qed.

Lemma create_number b d p t k k' :
  xTaskCreate b d p k = Ok (Some t, k') -> uxCurrentNumberOfTasks k' = u32 (uxCurrentNumberOfTasks k + 1).
Proof.
  unfold xTaskCreate. intros (s & k1 & E1 & H)%bind_ok. apply static_number in E1; [|repeat keep_step].
  destruct s; [|done]. apply bind_ok in H as (a & k2 & E2 & H). apply static_number in E2; [|repeat keep_step].
  destruct a; [|by apply bind_ok in H as (? & ? & ? & ?)].
  apply bind_ok in H as ([] & k3 & E3 & H). apply static_number in E3; [|repeat keep_step].
  apply bind_ok in H as ([] & k4 & E4%add_new_number & H). injection H as <- <-. congruence.
Qed.

Lemma ko_delete h : keeps_objects (vTaskDelete h).
Proof. unfold vTaskDelete, prvDeleteTCB. repeat keep_step. Qed.

Lemma ko_task_delay n : keeps_static (vTaskDelay n).
Proof. keep vTaskDelay. Qed.

Lemma ko_delay_until a b : keeps_static (xTaskDelayUntil a b).
Proof. keep xTaskDelayUntil. Qed.

Lemma ko_catch_up n : keeps_static (xTaskCatchUpTicks n).
Proof. keep xTaskCatchUpTicks. Qed.

Lemma ko_event_priority t p : keeps_static (set_event_priority t p).
Proof. keep set_event_priority. Qed.
#[export] Hint Resolve ko_event_priority : objects.

Lemma ko_move_if_ready t p : keeps_static (move_if_ready t p).
Proof. keep move_if_ready. Qed.
#[export] Hint Resolve ko_move_if_ready : objects.

Lemma ko_priority_set h p : keeps_static (vTaskPrioritySet h p).
Proof. keep vTaskPrioritySet. Qed.

Lemma ko_suspend h : keeps_static (vTaskSuspend h).
Proof. keep vTaskSuspend. Qed.

Lemma ko_is_suspended t : keeps_static (prvTaskIsTaskSuspended t).
Proof. keep prvTaskIsTaskSuspended. Qed.
#[export] Hint Resolve ko_is_suspended : objects.

Lemma ko_resume t : keeps_static (vTaskResume t).
Proof. keep vTaskResume. Qed.

Lemma ko_resume_isr t : keeps_static (xTaskResumeFromISR t).
Proof. keep xTaskResumeFromISR. Qed.

Lemma ko_state t : keeps_static (eTaskGetState t).
Proof. keep eTaskGetState. Qed.
#[export] Hint Resolve ko_state : objects.

Lemma ko_abort t : keeps_static (xTaskAbortDelay t).
Proof. keep xTaskAbortDelay. Qed.

Lemma ko_place l n : keeps_static (vTaskPlaceOnEventList l n).
Proof. keep vTaskPlaceOnEventList. Qed.

Lemma ko_place_unordered l v n : keeps_static (vTaskPlaceOnUnorderedEventList l v n).
Proof. keep vTaskPlaceOnUnorderedEventList. Qed.

Lemma ko_place_restricted l n b : keeps_static (vTaskPlaceOnEventListRestricted l n b).
Proof. keep vTaskPlaceOnEventListRestricted. Qed.

Lemma ko_remove_event l : keeps_static (xTaskRemoveFromEventList l).
Proof. keep xTaskRemoveFromEventList. Qed.

Lemma ko_remove_unordered i v : keeps_static (vTaskRemoveFromUnorderedEventList i v).
Proof. keep vTaskRemoveFromUnorderedEventList. Qed.

Lemma ko_reset_event : keeps_static uxTaskResetEventItemValue.
Proof. keep uxTaskResetEventItemValue. Qed.

Lemma ko_timeout_state : keeps_static vTaskSetTimeOutState.
Proof. keep vTaskSetTimeOutState. Qed.
#[export] Hint Resolve ko_timeout_state : objects.

Lemma ko_check_timeout o n : keeps_static (xTaskCheckForTimeOut o n).
Proof. keep xTaskCheckForTimeOut. Qed.

Lemma ko_missed_yield : keeps_static vTaskMissedYield.
Proof. keep vTaskMissedYield. Qed.

Lemma ko_scheduler_state : keeps_static xTaskGetSchedulerState.
Proof. keep xTaskGetSchedulerState. Qed.

Lemma ko_increment_mutex : keeps_static pvTaskIncrementMutexHeldCount.
Proof. keep pvTaskIncrementMutexHeldCount. Qed.

Lemma ko_inherit h : keeps_static (xTaskPriorityInherit h).
Proof. keep xTaskPriorityInherit. Qed.

Lemma ko_disinherit h : keeps_static (xTaskPriorityDisinherit h).
Proof. keep xTaskPriorityDisinherit. Qed.

Lemma ko_disinherit_timeout h p : keeps_static (vTaskPriorityDisinheritAfterTimeout h p).
Proof. keep vTaskPriorityDisinheritAfterTimeout. Qed.
#[export] Hint Resolve ko_place ko_place_restricted ko_remove_event ko_check_timeout ko_missed_yield ko_scheduler_state
  ko_increment_mutex ko_inherit ko_disinherit ko_disinherit_timeout : objects.

(** A postcondition of such a call can say so. *)
Lemma ko_notify t v a : keeps_static (xTaskGenericNotify t v a).
Proof. keep xTaskGenericNotify. Qed.

Lemma ko_notify_unblock t w : keeps_static (notify_unblock_from_isr t w).
Proof. keep notify_unblock_from_isr. Qed.
#[export] Hint Resolve ko_notify_unblock : objects.

Lemma ko_notify_isr t v a w : keeps_static (xTaskGenericNotifyFromISR t v a w).
Proof. keep xTaskGenericNotifyFromISR. Qed.

Lemma ko_notify_give t w : keeps_static (vTaskGenericNotifyGiveFromISR t w).
Proof. keep vTaskGenericNotifyGiveFromISR. Qed.

Lemma ko_notify_state_clear h : keeps_static (xTaskGenericNotifyStateClear h).
Proof. keep xTaskGenericNotifyStateClear. Qed.

Lemma ko_notify_value_clear h v : keeps_static (ulTaskGenericNotifyValueClear h v).
Proof. keep ulTaskGenericNotifyValueClear. Qed.

Lemma ko_notify_wait_enter v n : keeps_static (notify_wait_enter v n).
Proof. keep notify_wait_enter. Qed.

Lemma ko_notify_take_enter n : keeps_static (notify_take_enter n).
Proof. keep notify_take_enter. Qed.

Lemma ko_notify_wait_leave v : keeps_static (notify_wait_leave v).
Proof. keep notify_wait_leave. Qed.

Lemma ko_notify_take_leave b : keeps_static (notify_take_leave b).
Proof. keep notify_take_leave. Qed.

Lemma wp_keeps {A B} (view : kernel -> B) (m : KM A) (Q : A -> kernel -> Prop) k :
  keeps_part view m -> wp m Q k -> wp m (fun a k' => Q a k' /\ view k' = view k) k.
Proof. intros Hm (a & k' & E & H). exists a, k'. split; [done|]. split; [done|]. by apply (Hm _ _ _ E). Qed.
