(* ===== verification/FreeRTOSTasksRouse.v ===== *)
(** * Waking up

    What the functions that make tasks ready do to the event lists: a task that
    leaves the list it waits in is awake afterwards, that is ready, or pended
    while the scheduler is suspended; and no task enters such a list. *)

From S2P Require Import Prelude FreeRTOSList FreeRTOSListTheory FreeRTOSListStore FreeRTOSListFrame FreeRTOSHeap.
From S2P Require Import FreeRTOSObjects FreeRTOSTasks FreeRTOSTasksTheory FreeRTOSTasksCalls FreeRTOSTasksInvariant.
From S2P Require Import FreeRTOSTasksTime FreeRTOSTasksFrame.

(** ** Moves *)

(** Only the items [ms] move. *)
Record touches (ms : list nat) (k k' : kernel) : Prop := {
  to_tcbs : k_tcbs k' = k_tcbs k;
  to_others j : j ∉ ms -> container (k_lists k') (Item j) = container (k_lists k) (Item j);
}.

Lemma touches_same ms k k' : k_tcbs k' = k_tcbs k -> k_lists k' = k_lists k -> touches ms k k'.
Proof. intros E1 E2. split; [done|]. by rewrite E2. Qed.

Lemma touches_trans ms k1 k2 k3 : touches ms k1 k2 -> touches ms k2 k3 -> touches ms k1 k3.
Proof. intros [E1 H1] [E2 H2]. split; [congruence|]. intros j Hj. by rewrite H2, H1. Qed.

Lemma touches_sub ms js k k' : (forall j, j ∈ ms -> j ∈ js) -> touches ms k k' -> touches js k k'.
Proof. intros Hs [E H]. split; [done|]. intros j Hj. apply H. auto. Qed.

Lemma on_remove i k n k' :
  on_lists (uxListRemove i) k = Ok (n, k') -> touches [i] k k' /\ container (k_lists k') (Item i) = None.
Proof.
  unfold on_lists. destruct (uxListRemove i (k_lists k)) as [[m h]|] eqn:E; [|done]. intros [= <- <-].
  apply remove_moves in E as (Hm & Hc & _). split; [|done]. split; [done|]. intros j Hj. apply Hm. set_solver.
Qed.

Lemma do_insert_end l i k u k' :
  do_lists (vListInsertEnd l i) k = Ok (u, k') -> touches [i] k k' /\ in_list k' i l.
Proof.
  unfold do_lists. destruct (vListInsertEnd l i (k_lists k)) as [h|] eqn:E; [|done]. intros [= <- <-].
  apply insert_end_moves in E as (Hm & Hc). split; [|done]. split; [done|]. intros j Hj. apply Hm. set_solver.
Qed.

Lemma do_insert l i k u k' : do_lists (vListInsert l i) k = Ok (u, k') -> touches [i] k k' /\ in_list k' i l.
Proof.
  unfold do_lists. destruct (vListInsert l i (k_lists k)) as [h|] eqn:E; [|done]. intros [= <- <-].
  apply insert_moves in E as (Hm & Hc). split; [|done]. split; [done|]. intros j Hj. apply Hm. set_solver.
Qed.

Lemma do_set_value i v k u k' : do_lists (listSET_LIST_ITEM_VALUE i v) k = Ok (u, k') -> touches [] k k'.
Proof.
  unfold do_lists. destruct (listSET_LIST_ITEM_VALUE i v (k_lists k)) as [h|] eqn:E; [|done]. intros [= <- <-].
  split; [done|]. intros j _. by apply (set_value_none i v).
Qed.

Lemma on_next_entry l k t k' : on_lists (listGET_OWNER_OF_NEXT_ENTRY l) k = Ok (t, k') -> touches [] k k'.
Proof.
  unfold on_lists. destruct (listGET_OWNER_OF_NEXT_ENTRY l (k_lists k)) as [[m h]|] eqn:E; [|done]. intros [= <- <-].
  split; [done|]. intros j _. by apply (next_entry_none l (k_lists k) m).
Qed.

(** The items of a task. *)
Abbreviation items_of t := [xStateListItem t; xEventListItem t].

Lemma state_of t : forall j, j ∈ [xStateListItem t] -> j ∈ items_of t.
Proof. intros j. rewrite list_elem_of_singleton. intros ->. by left. Qed.

Lemma event_of t : forall j, j ∈ [xEventListItem t] -> j ∈ items_of t.
Proof. intros j. rewrite list_elem_of_singleton. intros ->. right. by left. Qed.

Lemma event_alone t k k' : touches [xStateListItem t] k k' ->
  container (k_lists k') (Item (xEventListItem t)) = container (k_lists k) (Item (xEventListItem t)).
Proof. intros [_ H]. apply H. rewrite list_elem_of_singleton. intros E. by destruct (state_not_event t t). Qed.

Lemma get_tcb_ok t k x k' : get_tcb t k = Ok (x, k') -> k' = k /\ k_tcbs k !! t = Some x.
Proof. unfold get_tcb. by destruct (k_tcbs k !! t); intros [= <- <-]. Qed.

Lemma current_ok k c k' : current k = Ok (c, k') -> k' = k /\ pxCurrentTCB k = Some c.
Proof. unfold current. by destruct (pxCurrentTCB k); intros [= <- <-]. Qed.

Lemma ask_ok {A} (f : list_heap -> res A) k a k' : ask_lists f k = Ok (a, k') -> k' = k /\ f (k_lists k) = Ok a.
Proof. unfold ask_lists. by destruct (f (k_lists k)); intros [= <- <-]. Qed.

(** [prvAddTaskToReadyList] and the removal from an event list *)
Lemma add_ready_touches t k u k' :
  prvAddTaskToReadyList t k = Ok (u, k') ->
  touches [xStateListItem t] k k' /\ exists x, k_tcbs k !! t = Some x /\ in_list k' (xStateListItem t) (pxReadyTasksLists (uxPriority x)).
Proof.
  unfold prvAddTaskToReadyList. intros H. apply bind_ok in H as (x & k1 & [-> Hx]%get_tcb_ok & H).
  apply bind_ok in H as ([] & k2 & E & [H Hin]%do_insert_end). split; [|by exists x].
  apply (touches_trans _ _ k2); [|done]. unfold taskRECORD_READY_PRIORITY in E.
  apply bind_ok in E as (p & k3 & [= <- <-] & E). unfold when in E. destruct (_ >? _); injection E as <-; by apply touches_same.
Qed.

Lemma leave_touches t k u k' :
  leave_event_list t k = Ok (u, k') ->
  touches [xEventListItem t] k k' /\ container (k_lists k') (Item (xEventListItem t)) = None.
Proof.
  unfold leave_event_list. intros H. apply bind_ok in H as (c & k1 & [-> Hc%item_container_ok]%ask_ok & H). destruct c as [c|].
  - apply bind_ok in H as (n & k2 & []%on_remove & [= <- <-]). done.
  - injection H as <- <-. split; [by apply touches_same|done].
Qed.

(** ** Waking *)

(** The task is ready, or will be when the scheduler is resumed. *)
Definition awake (k : kernel) (t : nat) : Prop :=
  (exists p, ready_list p = true /\ in_list k (xStateListItem t) p) \/ in_list k (xEventListItem t) xPendingReadyList.

(** The lists of queues. *)
Abbreviation waiting_list l := (first_event_list <= l)%nat.

(** What the changes of a control block leave alone. *)
Definition tcb_view (x : TCB_t) : Z * Z := (uxPriority x, ucNotifyState x).

(** The tasks other than [o] are woken at most. *)
Record rouses_but (o : option nat) (k k' : kernel) : Prop := {
  rz_tcbs t : tcb_view <$> k_tcbs k' !! t = tcb_view <$> k_tcbs k !! t;
  rz_enter t l : o <> Some t -> waiting_list l -> in_list k' (xEventListItem t) l -> in_list k (xEventListItem t) l;
  rz_awake t : o <> Some t -> awake k t -> awake k' t;
  rz_leave t l : o <> Some t -> waiting_list l -> in_list k (xEventListItem t) l ->
    in_list k' (xEventListItem t) l \/ awake k' t;
}.
Abbreviation rouses := (rouses_but None).

Lemma rouses_trans o k1 k2 k3 : rouses_but o k1 k2 -> rouses_but o k2 k3 -> rouses_but o k1 k3.
Proof.
  intros [E1 H1 A1 L1] [E2 H2 A2 L2]. split; [intros t; by rewrite E2|eauto|eauto|]. intros t l Ho Hl Hin.
  destruct (L1 t l Ho Hl Hin) as [H|H]; [by apply L2|right; by apply A2].
Qed.

Lemma rouses_weaken o k k' : rouses k k' -> rouses_but o k k'.
Proof. intros [E H A L]. split; [done|..]; intros; [by apply H|by apply A|by apply L]. Qed.

Lemma touches_rouses k k' : touches [] k k' -> rouses k k'.
Proof.
  intros [E H]. assert (forall i l, in_list k' i l <-> in_list k i l) as Hi.
  { intros i l. unfold in_list. by rewrite H by apply not_elem_of_nil. }
  split; [by rewrite E|intros ? ? _ _; by rewrite Hi| |intros ? ? _ _; rewrite Hi; by left].
  intros t _ [(p & Hp & Hin)|Hin]; [left; exists p; by rewrite Hi|right; by rewrite Hi].
Qed.

Lemma rouses_lists k k' :
  (forall t, tcb_view <$> k_tcbs k' !! t = tcb_view <$> k_tcbs k !! t) -> k_lists k' = k_lists k -> rouses k k'.
Proof.
  intros E H. assert (forall i l, in_list k' i l <-> in_list k i l) as Hi by (intros i l; unfold in_list; by rewrite H).
  split; [done|intros ? ? _ _; by rewrite Hi| |intros ? ? _ _; rewrite Hi; by left].
  intros t _ [(p & Hp & Hin)|Hin]; [left; exists p; by rewrite Hi|right; by rewrite Hi].
Qed.

(** One task is woken. *)
Lemma rouses_one t k k' :
  touches (items_of t) k k' -> awake k' t -> (forall l, waiting_list l -> ~ in_list k' (xEventListItem t) l) -> rouses k k'.
Proof.
  intros [E H] Ha Hn.
  assert (forall u l, u <> t -> (in_list k' (xStateListItem u) l <-> in_list k (xStateListItem u) l) /\
                               (in_list k' (xEventListItem u) l <-> in_list k (xEventListItem u) l)) as Hu.
  { intros u l Hne. unfold in_list. rewrite !H; [done|..]; rewrite not_elem_of_cons, list_elem_of_singleton;
      unfold xStateListItem, xEventListItem; lia. }
  split; [by rewrite E|..].
  - intros u l _ Hl Hin. destruct (decide (u = t)) as [->|Hne]; [by destruct (Hn l)|by apply Hu].
  - intros u _ Hin. destruct (decide (u = t)) as [->|Hne]; [done|].
    destruct Hin as [(p & Hp & Hin)|Hin]; [left; exists p; split; [done|]|right]; by apply Hu.
  - intros u l _ Hl Hin. destruct (decide (u = t)) as [->|Hne]; [by right|left; by apply Hu].
Qed.

Definition priorities (T : gmap nat TCB_t) : Prop :=
  forall t x, T !! t = Some x -> ready_list (pxReadyTasksLists (uxPriority x)) = true.

Lemma priorities_view T T' : (forall t, tcb_view <$> T' !! t = tcb_view <$> T !! t) -> priorities T -> priorities T'.
Proof.
  intros E H t x Hx. specialize (E t). rewrite Hx in E. destruct (T !! t) as [y|] eqn:Hy; [|done].
  injection E as -> _. by apply (H t).
Qed.

Lemma kernel_priorities sys o lo k L : kernel_ok sys o lo k L -> priorities (k_tcbs k).
Proof. intros H t x Hx. by destruct (ready_priority _ _ _ _ _ t x (ok_tasks _ _ _ _ _ H) Hx). Qed.

(** A task that left its event list and was added to a ready list. *)
Lemma roused_ready t k k1 u k' :
  priorities (k_tcbs k) -> touches (items_of t) k k1 -> container (k_lists k1) (Item (xEventListItem t)) = None ->
  prvAddTaskToReadyList t k1 = Ok (u, k') -> rouses k k'.
Proof.
  intros Hp Ht Hn [Ht' (x & Hx & Hin)]%add_ready_touches. pose proof (to_tcbs _ _ _ Ht) as E. rewrite E in Hx.
  apply (rouses_one t).
  - apply (touches_trans _ _ k1); [done|]. by eapply touches_sub; [apply state_of|].
  - left. eexists. split; [|exact Hin]. by apply (Hp t).
  - intros l _. unfold in_list. by rewrite (event_alone t _ _ Ht'), Hn.
Qed.

(** A call that returns wakes tasks at most. *)
Definition rouse {A} (m : KM A) : Prop := forall k a k', m k = Ok (a, k') -> priorities (k_tcbs k) -> rouses k k'.

Lemma rouse_bind {A B} (m : KM A) (f : A -> KM B) : rouse m -> (forall a, rouse (f a)) -> rouse (m ≫= f).
Proof.
  intros Hm Hf k b k' (a & k1 & E & H)%bind_ok HP. pose proof (Hm _ _ _ E HP) as H1. apply (rouses_trans _ _ k1); [done|].
  apply (Hf _ _ _ _ H). by apply (priorities_view (k_tcbs k)), HP; apply H1.
Qed.

Lemma rouse_pure {A} (m : KM A) : keeps_part (fun k => (k_tcbs k, k_lists k)) m -> rouse m.
Proof. intros H k a k' E _. injection (H k a k' E). intros. by apply touches_rouses, touches_same. Qed.

Create HintDb rouse.

Ltac rouse_pure := solve [apply rouse_pure; repeat keep_step].
Ltac rouse_step :=
  lazymatch goal with
  | |- rouse (on_lists (uxListRemove _);; _) => fail
  | |- rouse (_ ≫= _) => apply rouse_bind; [|intros ?]
  | |- rouse (when ?b _) => destruct b; unfold when
  | |- rouse (match ?x with _ => _ end) => destruct x
  | |- rouse (let _ := _ in _) => cbv zeta
  | |- rouse _ => first [rouse_pure | solve [auto with rouse nocore]]
  end.
Ltac rouse m := unfold m; repeat rouse_step.

Lemma rouse_top p : rouse (top_ready p).
Proof. induction p as [|p IH]; cbn [top_ready]; repeat rouse_step; done. Qed.
#[export] Hint Resolve rouse_top : rouse.

Lemma rouse_next l : rouse (on_lists (listGET_OWNER_OF_NEXT_ENTRY l)).
Proof. intros k t k' H _. by apply touches_rouses, (on_next_entry l _ t). Qed.
#[export] Hint Resolve rouse_next : rouse.

Lemma rouse_switch : rouse vTaskSwitchContext.
Proof. unfold vTaskSwitchContext, taskSELECT_HIGHEST_PRIORITY_TASK. repeat rouse_step. Qed.
#[export] Hint Resolve rouse_switch : rouse.

Lemma rouse_pendsv : rouse xPortPendSVHandler.
Proof. rouse xPortPendSVHandler. Qed.

(** The task at the head of the delayed list, and that of the pending list. *)
Lemma rouse_unblock_one t : rouse (on_lists (uxListRemove (xStateListItem t));; leave_event_list t;; prvAddTaskToReadyList t).
Proof.
  intros k u k' (n & k1 & [H1 _]%on_remove & H)%bind_ok HP. apply bind_ok in H as ([] & k2 & [H2 E]%leave_touches & H).
  eapply (roused_ready t k k2); [done| |done|exact H].
  apply (touches_trans _ _ k1); (eapply touches_sub; [|done]); [apply state_of|apply event_of].
Qed.

Lemma rouse_move_one t :
  rouse (on_lists (uxListRemove (xEventListItem t));; on_lists (uxListRemove (xStateListItem t));; prvAddTaskToReadyList t).
Proof.
  intros k u k' (n & k1 & [H1 E]%on_remove & H)%bind_ok HP. apply bind_ok in H as (m & k2 & [H2 _]%on_remove & H).
  eapply (roused_ready t k k2); [done| |by rewrite (event_alone t _ _ H2)|exact H].
  apply (touches_trans _ _ k1); (eapply touches_sub; [|done]); [apply event_of|apply state_of].
Qed.

(** Sequencing is associative. *)
Lemma km_assoc {A B C} (m : KM A) (f : A -> KM B) (g : B -> KM C) k : ((m ≫= f) ≫= g) k = (m ≫= (fun a => f a ≫= g)) k.
Proof. unfold mbind, KM_bind. by destruct (m k) as [[]|]. Qed.

Lemma rouse_assoc {A B C D} (m : KM A) (f : KM B) (g : KM C) (e : KM D) : rouse (m;; f;; g) -> rouse e -> rouse (m;; f;; g;; e).
Proof.
  intros H1 H2 k a k' E. assert (((m;; f;; g);; e) k = Ok (a, k')) as E'.
  { rewrite <- E, km_assoc. unfold mbind, KM_bind. destruct (m k) as [[x k1]|]; [|done]. by destruct (f k1) as [[y k2]|]. }
  exact (rouse_bind (m;; f;; g) (fun _ => e) H1 (fun _ => H2) k a k' E').
Qed.

Lemma rouse_unblock f n b : rouse (unblock_expired f n b).
Proof.
  revert b. induction f as [|f IH]; intros b; cbn [unblock_expired]; repeat rouse_step.
  apply rouse_assoc; [apply rouse_unblock_one|]. repeat rouse_step.
Qed.
#[export] Hint Resolve rouse_unblock : rouse.

Lemma rouse_tick : rouse xTaskIncrementTick.
Proof. unfold xTaskIncrementTick, taskSWITCH_DELAYED_LISTS, prvResetNextTaskUnblockTime. repeat rouse_step. Qed.
#[export] Hint Resolve rouse_tick : rouse.

Lemma rouse_systick : rouse xPortSysTickHandler.
Proof. rouse xPortSysTickHandler. Qed.

Lemma rouse_move_pending f b : rouse (move_pending f b).
Proof.
  revert b. induction f as [|f IH]; intros b; cbn [move_pending]; repeat rouse_step.
  apply rouse_assoc; [apply rouse_move_one|]. repeat rouse_step.
Qed.
#[export] Hint Resolve rouse_move_pending : rouse.

Lemma rouse_replay n : rouse (replay_ticks n).
Proof. induction n as [|n IH]; cbn [replay_ticks]; repeat rouse_step. Qed.
#[export] Hint Resolve rouse_replay : rouse.

Lemma rouse_resume_all : rouse xTaskResumeAll.
Proof. unfold xTaskResumeAll, prvResetNextTaskUnblockTime. repeat rouse_step. Qed.
#[export] Hint Resolve rouse_resume_all : rouse.

(** [xTaskRemoveFromEventList]: the first task of the list leaves it. *)
Record removed (l : nat) (k k' : kernel) : Prop := {
  rm_rouses : rouses k k';
  rm_first : exists t, listGET_OWNER_OF_HEAD_ENTRY l (k_lists k) = Ok t /\
    forall l', waiting_list l' -> ~ in_list k' (xEventListItem t) l';
}.

Lemma remove_one t k n k1 u k' :
  on_lists (uxListRemove (xEventListItem t)) k = Ok (n, k1) ->
  (if uxSchedulerSuspended k1 =? 0 then on_lists (uxListRemove (xStateListItem t));; prvAddTaskToReadyList t
   else do_lists (vListInsertEnd xPendingReadyList (xEventListItem t))) k1 = Ok (u, k') ->
  priorities (k_tcbs k) -> rouses k k' /\ forall l, waiting_list l -> ~ in_list k' (xEventListItem t) l.
Proof.
  intros [H1 E1]%on_remove H HP. destruct (_ =? 0).
  - apply bind_ok in H as (m & k2 & [H2 _]%on_remove & H). pose proof (event_alone t _ _ H2) as E2. split.
    + eapply (roused_ready t k k2); [done| |by rewrite E2|exact H].
      apply (touches_trans _ _ k1); (eapply touches_sub; [|done]); [apply event_of|apply state_of].
    + apply add_ready_touches in H as [H3 _]. intros l _. unfold in_list. by rewrite (event_alone t _ _ H3), E2, E1.
  - apply do_insert_end in H as [H2 E2]. assert (forall l, waiting_list l -> ~ in_list k' (xEventListItem t) l) as Hn.
    { intros l Hl. unfold in_list in *. rewrite E2. intros [= <-]. unfold first_event_list, xPendingReadyList in Hl. lia. }
    split; [|done]. apply (rouses_one t); [|by right|done].
    apply (touches_trans _ _ k1); (eapply touches_sub; [|done]); apply event_of.
Qed.

Abbreviation keeps_yield := (keeps_part xYieldPending).

Lemma ky_add_ready t : keeps_yield (prvAddTaskToReadyList t).
Proof. unfold prvAddTaskToReadyList, taskRECORD_READY_PRIORITY. repeat keep_step. Qed.

Lemma remove_yield l k b k' :
  xTaskRemoveFromEventList l k = Ok (b, k') -> xYieldPending k' = true -> xYieldPending k = true \/ b = true.
Proof.
  unfold xTaskRemoveFromEventList. intros H. apply bind_ok in H as (t & k0 & [-> Ht]%ask_ok & H).
  apply bind_ok in H as (n & k1 & E1 & H). apply bind_ok in H as (susp & k2 & [= <- <-] & H).
  apply bind_ok in H as (u & k3 & E3 & H).
  assert (xYieldPending k3 = xYieldPending k) as Hy.
  { transitivity (xYieldPending k1); [|exact (ko_on xYieldPending (fun _ _ => eq_refl) _ k n k1 E1)]. revert E3.
    destruct (_ =? 0); intros E3; [|exact (ko_do xYieldPending (fun _ _ => eq_refl) _ _ _ _ E3)].
    apply bind_ok in E3 as (m & k2 & E2 & E3). rewrite (ky_add_ready t _ _ _ E3).
    exact (ko_on xYieldPending (fun _ _ => eq_refl) _ _ _ _ E2). }
  apply bind_ok in H as (x & k4 & [-> _]%get_tcb_ok & H). apply bind_ok in H as (c & k4 & [-> _]%current_ok & H).
  apply bind_ok in H as (y & k4 & [-> _]%get_tcb_ok & H).
  destruct (_ >? _); [apply bind_ok in H as ([] & k4 & [= <-] & [= <- <-]); by right|].
  injection H as <- <-. rewrite Hy. by left.
Qed.

Lemma remove_effect l k b k' : xTaskRemoveFromEventList l k = Ok (b, k') -> priorities (k_tcbs k) -> removed l k k'.
Proof.
  unfold xTaskRemoveFromEventList. intros H HP. apply bind_ok in H as (t & k0 & [-> Ht]%ask_ok & H).
  apply bind_ok in H as (n & k1 & E1 & H). apply bind_ok in H as (susp & k2 & [= <- <-] & H).
  apply bind_ok in H as (u & k3 & E3 & H). destruct (remove_one t k n k1 u k3 E1 E3 HP) as [HR Hn].
  apply bind_ok in H as (x & k4 & [-> _]%get_tcb_ok & H). apply bind_ok in H as (c & k4 & [-> _]%current_ok & H).
  apply bind_ok in H as (y & k4 & [-> _]%get_tcb_ok & H).
  destruct (_ >? _); [apply bind_ok in H as ([] & k4 & [= <-] & [= <- <-])|injection H as <- <-]; (split; [|by exists t]); [|done].
  apply (rouses_trans _ _ k3); [done|]. by apply touches_rouses, touches_same.
Qed.

Lemma rouse_remove_event l : rouse (xTaskRemoveFromEventList l).
Proof. intros k b k' H HP. by apply (remove_effect l k b). Qed.
#[export] Hint Resolve rouse_remove_event : rouse.

Lemma rouse_missed_yield : rouse vTaskMissedYield.
Proof. rouse vTaskMissedYield. Qed.
#[export] Hint Resolve rouse_missed_yield : rouse.

(** ** Event lists while tasks are switched *)

(** No task enters an event list, not even the pending list. *)
Definition shed {A} (m : KM A) : Prop :=
  forall k a k', m k = Ok (a, k') -> forall t l, in_list k' (xEventListItem t) l -> in_list k (xEventListItem t) l.

Create HintDb shed.

Lemma shed_bind {A B} (m : KM A) (f : A -> KM B) : shed m -> (forall a, shed (f a)) -> shed (m ≫= f).
Proof. intros Hm Hf k b k' (a & k1 & E & H)%bind_ok t l Hin. by eapply (Hm _ _ _ E), (Hf _ _ _ _ H). Qed.

Lemma shed_pure {A} (m : KM A) : keeps_part k_lists m -> shed m.
Proof. intros H k a k' E t l. unfold in_list. by rewrite (H k a k' E). Qed.

Ltac shed_step :=
  lazymatch goal with
  | |- shed (_ ≫= _) => apply shed_bind; [|intros ?]
  | |- shed (when ?b _) => destruct b; unfold when
  | |- shed (match ?x with _ => _ end) => destruct x
  | |- shed (let _ := _ in _) => cbv zeta
  | |- shed _ => first [solve [apply shed_pure; repeat keep_step] | solve [auto with shed nocore]]
  end.

Lemma shed_remove i : shed (on_lists (uxListRemove i)).
Proof.
  intros k n k' [[_ H] E]%on_remove t l. unfold in_list. destruct (decide (xEventListItem t = i)) as [->|Hne]; [by rewrite E|].
  by rewrite H by (by rewrite list_elem_of_singleton).
Qed.

Lemma shed_next l : shed (on_lists (listGET_OWNER_OF_NEXT_ENTRY l)).
Proof. intros k n k' [_ H]%on_next_entry t l'. unfold in_list. by rewrite H by apply not_elem_of_nil. Qed.

Lemma shed_state l t : shed (do_lists (vListInsertEnd l (xStateListItem t))).
Proof.
  intros k n k' [[_ H] _]%do_insert_end u l'. unfold in_list. rewrite H; [done|]. rewrite list_elem_of_singleton.
  intros E. by destruct (state_not_event t u).
Qed.
#[export] Hint Resolve shed_remove shed_next shed_state : shed.

Lemma shed_add_ready t : shed (prvAddTaskToReadyList t).
Proof. unfold prvAddTaskToReadyList, taskRECORD_READY_PRIORITY. repeat shed_step. Qed.

Lemma shed_leave t : shed (leave_event_list t).
Proof. unfold leave_event_list. repeat shed_step. Qed.

Lemma shed_top p : shed (top_ready p).
Proof. induction p as [|p IH]; cbn [top_ready]; repeat shed_step. Qed.
#[export] Hint Resolve shed_add_ready shed_leave shed_top : shed.

Lemma shed_pendsv : shed xPortPendSVHandler.
Proof. unfold xPortPendSVHandler, vTaskSwitchContext, taskSELECT_HIGHEST_PRIORITY_TASK. repeat shed_step. Qed.

Lemma shed_unblock f n b : shed (unblock_expired f n b).
Proof. revert b. induction f as [|f IH]; intros b; cbn [unblock_expired]; repeat shed_step. Qed.
#[export] Hint Resolve shed_unblock : shed.

Lemma shed_systick : shed xPortSysTickHandler.
Proof.
  unfold xPortSysTickHandler, xTaskIncrementTick, taskSWITCH_DELAYED_LISTS, prvResetNextTaskUnblockTime. repeat shed_step.
Qed.

Lemma shed_remove_event l k b k' :
  xTaskRemoveFromEventList l k = Ok (b, k') -> uxSchedulerSuspended k = 0 ->
  forall t l, in_list k' (xEventListItem t) l -> in_list k (xEventListItem t) l.
Proof.
  unfold xTaskRemoveFromEventList. intros H Hs. apply bind_ok in H as (t & k0 & [-> Ht]%ask_ok & H).
  apply bind_ok in H as (n & k1 & E1 & H). apply bind_ok in H as (susp & k2 & [= <- <-] & H).
  rewrite (ko_on uxSchedulerSuspended (fun _ _ => eq_refl) _ k n k1 E1), Hs in H. cbn [Z.eqb] in H.
  intros u l' Hin. apply (shed_remove _ _ _ _ E1). revert Hin. revert u l'. revert H. generalize k1 b k'.
  match goal with |- forall k b k', ?m k = Ok (b, k') -> _ => change (shed m) end. repeat shed_step.
Qed.

(** ** While the scheduler is suspended *)

(** A task that is in no event list stays where it is. *)
Definition steady (k k' : kernel) : Prop :=
  forall c, uxSchedulerSuspended k <> 0 -> container (k_lists k) (Item (xEventListItem c)) = None ->
  container (k_lists k') (Item (xEventListItem c)) = None /\
  container (k_lists k') (Item (xStateListItem c)) = container (k_lists k) (Item (xStateListItem c)).

Lemma steady_lists k k' : k_lists k' = k_lists k -> steady k k'.
Proof. intros E c _ H. by rewrite E. Qed.

Lemma systick_suspended k u k' :
  xPortSysTickHandler k = Ok (u, k') -> uxSchedulerSuspended k <> 0 -> k' = set_xPendedTicks (u32 (xPendedTicks k + 1)) k.
Proof.
  intros H Hs. unfold xPortSysTickHandler, xTaskIncrementTick, mbind, KM_bind, gets in H.
  rewrite (proj2 (Z.eqb_neq _ _) Hs) in H. by injection H as _ <-.
Qed.

Lemma pendsv_suspended k u k' :
  xPortPendSVHandler k = Ok (u, k') -> uxSchedulerSuspended k <> 0 -> k' = set_xYieldPending true (set_pendsv false k).
Proof.
  intros H Hs. unfold xPortPendSVHandler, vTaskSwitchContext, modify, mbind, KM_bind, gets in H. kcbn_in H.
  rewrite (proj2 (Z.eqb_neq _ _) Hs) in H. by injection H as _ <-.
Qed.

Lemma steady_remove_event l k b k' : xTaskRemoveFromEventList l k = Ok (b, k') -> steady k k'.
Proof.
  unfold xTaskRemoveFromEventList. intros H c Hs Hc. apply bind_ok in H as (t & k0 & [-> Ht]%ask_ok & H).
  apply bind_ok in H as (n & k1 & E1 & H). apply bind_ok in H as (susp & k2 & [= <- <-] & H).
  apply bind_ok in H as (u & k3 & E3 & H).
  rewrite (ko_on uxSchedulerSuspended (fun _ _ => eq_refl) _ k n k1 E1), (proj2 (Z.eqb_neq _ _) Hs) in E3.
  apply do_insert_end in E3 as [H3 _].
  assert (k_lists k' = k_lists k3) as E.
  { revert H. generalize k3 b k'. match goal with |- forall k b k', ?m k = Ok (b, k') -> _ => change (keeps_part k_lists m) end.
    repeat keep_step. }
  assert (container (k_lists k) (Item (xEventListItem t)) <> None) as Hne.
  { revert E1. unfold on_lists. destruct (uxListRemove _ _) as [[]|] eqn:E'; [|done]. by apply remove_moves in E' as (_ & _ & ?). }
  apply on_remove in E1 as [H1 _].
  assert (c <> t) by congruence. rewrite E, !(to_others _ _ _ H3), !(to_others _ _ _ H1);
    [done|..]; rewrite list_elem_of_singleton; unfold xEventListItem, xStateListItem; lia.
Qed.

(** ** The processor and the requests to switch *)

Definition cpu (k : kernel) : option nat * Z := (pxCurrentTCB k, uxSchedulerSuspended k).
Abbreviation keeps_cpu := (keeps_part cpu).

Lemma cpu_on {A} (f : list_heap -> res (A * list_heap)) k a k' : on_lists f k = Ok (a, k') -> cpu k' = cpu k.
Proof. by apply (ko_on cpu). Qed.

Lemma cpu_do f k u k' : do_lists f k = Ok (u, k') -> cpu k' = cpu k.
Proof. by apply (ko_do cpu). Qed.

Lemma kc_add_ready t : keeps_cpu (prvAddTaskToReadyList t).
Proof. unfold prvAddTaskToReadyList, taskRECORD_READY_PRIORITY. repeat keep_step. Qed.
#[export] Hint Resolve kc_add_ready : objects.

Lemma kc_leave t : keeps_cpu (leave_event_list t).
Proof. keep leave_event_list. Qed.
#[export] Hint Resolve kc_leave : objects.

Lemma kc_unblock f n b : keeps_cpu (unblock_expired f n b).
Proof. revert b. induction f as [|f IH]; intros b; cbn [unblock_expired]; repeat keep_step; apply IH. Qed.
#[export] Hint Resolve kc_unblock : objects.

Lemma kc_systick : keeps_cpu xPortSysTickHandler.
Proof. unfold xPortSysTickHandler, xTaskIncrementTick, taskSWITCH_DELAYED_LISTS, prvResetNextTaskUnblockTime. repeat keep_step. Qed.

Lemma kc_remove_event l : keeps_cpu (xTaskRemoveFromEventList l).
Proof. keep xTaskRemoveFromEventList. Qed.
#[export] Hint Resolve kc_remove_event : objects.

Lemma kc_missed_yield : keeps_cpu vTaskMissedYield.
Proof. keep vTaskMissedYield. Qed.
#[export] Hint Resolve kc_missed_yield : objects.

(** The tick passes a request on, a switch takes it. *)
Lemma systick_yields k u k' :
  xPortSysTickHandler k = Ok (u, k') -> uxSchedulerSuspended k = 0 -> xYieldPending k' = true -> pendsv k' = true.
Proof.
  unfold xPortSysTickHandler, xTaskIncrementTick. intros H Hs Hy. apply bind_ok in H as (b & k1 & E & H).
  apply bind_ok in E as (susp & k2 & [= <- <-] & E). rewrite Hs in E. cbn [Z.eqb] in E.
  do 8 (apply bind_ok in E as (? & ? & _ & E)). apply bind_ok in E as (y & k3 & [= <- <-] & [= <- <-]).
  unfold when in H. destruct (xYieldPending _) eqn:E2.
  - rewrite orb_true_r in H. by injection H as _ <-.
  - destruct (_ || _); injection H as _ <-; [done|congruence].
Qed.

Lemma switch_clears k u k' :
  xPortPendSVHandler k = Ok (u, k') -> uxSchedulerSuspended k = 0 -> xYieldPending k' = false.
Proof.
  unfold xPortPendSVHandler, vTaskSwitchContext. intros H Hs. apply bind_ok in H as ([] & k1 & [= <-] & H).
  apply bind_ok in H as (susp & k2 & [= <- <-] & H). kcbn_in H. rewrite Hs in H. cbn [Z.eqb negb] in H.
  apply bind_ok in H as ([] & k3 & [= <-] & H). unfold taskSELECT_HIGHEST_PRIORITY_TASK in H.
  transitivity (xYieldPending (set_xYieldPending false (set_pendsv false k))); [|done].
  revert H. generalize (set_xYieldPending false (set_pendsv false k)) u k'.
  match goal with |- forall k b k', ?m k = Ok (b, k') -> _ => change (keeps_yield m) end.
  assert (forall p, keeps_yield (top_ready p)) as Ht by (induction p as [|p IH]; cbn [top_ready]; repeat keep_step; done).
  repeat keep_step.
Qed.

Lemma ks_pendsv : keeps_part uxSchedulerSuspended xPortPendSVHandler.
Proof.
  assert (forall p, keeps_part uxSchedulerSuspended (top_ready p)) as Ht
    by (induction p as [|p IH]; cbn [top_ready]; repeat keep_step; done).
  unfold xPortPendSVHandler, vTaskSwitchContext, taskSELECT_HIGHEST_PRIORITY_TASK. repeat keep_step.
Qed.

(** ** Blocking *)

(** The running task [c] moves, the others stay. *)
Record blocks (c : nat) (k k' : kernel) : Prop := {
  bl_tcbs t : tcb_view <$> k_tcbs k' !! t = tcb_view <$> k_tcbs k !! t;
  bl_current : pxCurrentTCB k' = pxCurrentTCB k;
  bl_suspended : uxSchedulerSuspended k' = uxSchedulerSuspended k;
  bl_others j : j <> xStateListItem c -> container (k_lists k') (Item j) = container (k_lists k) (Item j);
}.

Lemma blocks_rouses c k k' : blocks c k k' -> rouses_but (Some c) k k'.
Proof.
  intros [E _ _ H].
  assert (forall u l, u <> c -> (in_list k' (xStateListItem u) l <-> in_list k (xStateListItem u) l) /\
                               (in_list k' (xEventListItem u) l <-> in_list k (xEventListItem u) l)) as Hu.
  { intros u l Hne. unfold in_list. rewrite !H; [done|..]; unfold xStateListItem, xEventListItem; lia. }
  split; [done|..].
  - intros u l Ho _. apply Hu. congruence.
  - intros u Ho Ha. assert (u <> c) as Hne by congruence.
    destruct Ha as [(p & Hp & Hin)|Hin]; [left; exists p; split; [done|]|right]; by apply Hu.
  - intros u l Ho _ Hin. left. apply Hu; [congruence|done].
Qed.

Lemma blocks_touches c k k' :
  touches [xStateListItem c] k k' -> cpu k' = cpu k -> blocks c k k'.
Proof.
  intros [E H] [= E1 E2]. split; [by rewrite E|done|done|]. intros j Hj. apply H. by rewrite list_elem_of_singleton.
Qed.

Lemma blocks_trans c k1 k2 k3 : blocks c k1 k2 -> blocks c k2 k3 -> blocks c k1 k3.
Proof. intros [A1 B1 C1 D1] [A2 B2 C2 D2]. split; [intros t; by rewrite A2|congruence..|]. intros j Hj. by rewrite D2, D1. Qed.

Lemma blocks_put c x y k :
  k_tcbs k !! c = Some x -> tcb_view y = tcb_view x -> blocks c k (set_k_tcbs (<[c := y]> (k_tcbs k)) k).
Proof.
  intros Hx E. split; [|done..]. intros t. kcbn. destruct (decide (t = c)) as [->|Hne]; [|by rewrite lookup_insert_ne].
  rewrite lookup_insert_eq, Hx. cbn. by rewrite E.
Qed.

Lemma blocks_delay n b c k u k' :
  pxCurrentTCB k = Some c -> prvAddCurrentTaskToDelayedList n b k = Ok (u, k') -> blocks c k k'.
Proof.
  intros Hc H. unfold prvAddCurrentTaskToDelayedList in H. apply bind_ok in H as (tick & k0 & [= <- <-] & H).
  apply bind_ok in H as (c' & k0 & [-> E]%current_ok & H). rewrite Hc in E. injection E as <-.
  apply bind_ok in H as (x & k0 & [-> Hx]%get_tcb_ok & H). apply bind_ok in H as ([] & k1 & [= <-] & H).
  apply (blocks_trans _ _ _ _ (blocks_put c x (set_ucDelayAborted false x) k Hx eq_refl)). revert H.
  generalize (set_k_tcbs (<[c := set_ucDelayAborted false x]> (k_tcbs k)) k). intros k1 H.
  apply bind_ok in H as (m & k2 & E2 & H). pose proof (cpu_on _ _ _ _ E2) as C2.
  apply on_remove in E2 as [T2 _]. apply (blocks_trans _ _ k2); [by apply blocks_touches|]. clear T2 C2.
  assert (forall l k u k', do_lists (vListInsert l (xStateListItem c)) k = Ok (u, k') -> blocks c k k') as Hins.
  { intros l k3 v k4 E3. pose proof (cpu_do _ _ _ _ E3) as C3.
    apply do_insert in E3 as [T3 _]. by apply blocks_touches. }
  destruct (_ && _).
  { pose proof (cpu_do _ _ _ _ H) as C3.
    apply do_insert_end in H as [T3 _]. by apply blocks_touches. }
  cbv zeta in H. apply bind_ok in H as (? & k3 & E3 & H).
  pose proof (cpu_do _ _ _ _ E3) as C3.
  apply do_set_value in E3. apply (blocks_trans _ _ k3).
  { apply blocks_touches; [|done]. eapply touches_sub; [|exact E3]. intros j Hj. by apply elem_of_nil in Hj. }
  destruct (_ <? _); apply bind_ok in H as (l & k4 & [= <- <-] & H); [by eapply Hins|].
  apply bind_ok in H as (? & k5 & E5 & H). apply (blocks_trans _ _ k5); [by eapply (Hins _ _ _ _ E5)|].
  apply bind_ok in H as (nx & k6 & [= <- <-] & H). destruct (_ <? _); cbn [when] in H; injection H as _ <-; by apply blocks_touches, eq_refl; apply touches_same.
Qed.

(** [vTaskPlaceOnEventList] *)
Record places (c l : nat) (k k' : kernel) : Prop := {
  pl_rouses : rouses_but (Some c) k k';
  pl_current : pxCurrentTCB k' = pxCurrentTCB k;
  pl_suspended : uxSchedulerSuspended k' = uxSchedulerSuspended k;
  pl_event : in_list k' (xEventListItem c) l;
}.

Lemma places_effect l n c k u k' :
  pxCurrentTCB k = Some c -> vTaskPlaceOnEventList l n k = Ok (u, k') -> places c l k k'.
Proof.
  intros Hc H. unfold vTaskPlaceOnEventList in H. apply bind_ok in H as (c' & k0 & [-> E]%current_ok & H).
  rewrite Hc in E. injection E as <-. apply bind_ok in H as ([] & k1 & E1 & H).
  pose proof (cpu_do _ _ _ _ E1) as [= C1 C2]. apply do_insert in E1 as [T1 Hin].
  apply blocks_delay with (c := c) in H; [|congruence]. split.
  - apply (rouses_trans _ _ k1); [|by apply blocks_rouses]. destruct T1 as [E T].
    assert (forall u l, u <> c -> (in_list k1 (xStateListItem u) l <-> in_list k (xStateListItem u) l) /\
                               (in_list k1 (xEventListItem u) l <-> in_list k (xEventListItem u) l)) as Hu.
    { intros v l' Hne. unfold in_list. rewrite !T; [done|..]; rewrite list_elem_of_singleton; unfold xStateListItem, xEventListItem; lia. }
    split; [by rewrite E|..].
    + intros v l' Ho _. apply Hu. congruence.
    + intros v Ho Ha. assert (v <> c) as Hne by congruence.
      destruct Ha as [(p & Hp & Hin')|Hin']; [left; exists p; split; [done|]|right]; by apply Hu.
    + intros v l' Ho _ Hin'. left. apply Hu; [congruence|done].
  - rewrite (bl_current _ _ _ H). done.
  - rewrite (bl_suspended _ _ _ H). done.
  - unfold in_list. rewrite (bl_others _ _ _ H); [done|]. intros E. by destruct (state_not_event c c).
Qed.

(** [xTaskCheckForTimeOut] *)
Record checked (c : nat) (n : Z) (e : bool) (n' : Z) (k k' : kernel) : Prop := {
  ck_blocks : blocks c k k';
  ck_lists : k_lists k' = k_lists k;
  ck_ticks : 0 <= n' <= n;
  ck_left : e = false -> 0 < n';
}.

Lemma check_effect o n c k e o' n' k' :
  pxCurrentTCB k = Some c -> 0 < n <= portMAX_DELAY -> xTaskCheckForTimeOut o n k = Ok ((e, o', n'), k') -> checked c n e n' k k'.
Proof.
  intros Hc Hn H. unfold xTaskCheckForTimeOut in H. apply bind_ok in H as (tick & k0 & [= <- <-] & H).
  cbv zeta in H. apply bind_ok in H as (c' & k0 & [-> E]%current_ok & H). rewrite Hc in E. injection E as <-.
  apply bind_ok in H as (x & k0 & [-> Hx]%get_tcb_ok & H). apply bind_ok in H as (m & k0 & [= <- <-] & H).
  destruct (ucDelayAborted x).
  { apply bind_ok in H as ([] & k1 & [= <-] & [= <- <- <- <-]). split; [by apply (blocks_put c x)|done|lia|done]. }
  assert (blocks c k k) as Hb by (by apply blocks_touches, eq_refl; apply touches_same).
  destruct (_ =? portMAX_DELAY); [injection H as <- <- <- <-; by split; [..|lia|lia]|].
  destruct (_ && _); [injection H as <- <- <- <-; by split; [..|lia|]|].
  destruct (_ <? _) eqn:Hlt; [|injection H as <- <- <- <-; by split; [..|lia|]].
  unfold vTaskSetTimeOutState in H. apply bind_ok in H as (o1 & k1 & E & [= <- <- <- <-]).
  do 2 (apply bind_ok in E as (? & ? & [= <- <-] & E)). injection E as _ <-.
  pose proof (wrapu_range 32 (xTickCount k - xTimeOnEntering o)) as Hr. unfold in_range in Hr. unfold portMAX_DELAY in Hn.
  rewrite (wrapu_small 32 (n - _)) by lia. split; [done|done|lia|lia].
Qed.
