(* ===== verification/FreeRTOSTasksBoot.v ===== *)
(** * Starting the scheduler

    [xTaskCreate] before the scheduler runs, and [vTaskStartScheduler]: from the
    state the firmware starts in, with enough memory for the tasks, they lead to
    a state of the invariant of [FreeRTOSTasksInvariant]. *)

From S2P Require Import Prelude FreeRTOSList FreeRTOSListTheory FreeRTOSListStore FreeRTOSHeap FreeRTOSObjects FreeRTOSTasks.
From S2P Require Import FreeRTOSTasksTheory FreeRTOSTasksCalls FreeRTOSTasksInvariant FreeRTOSTasksEvents.

(** ** A new task *)

(** The list items of a task that was just created with priority [p]. *)
Definition new_items (t : nat) (p : Z) (h : list_heap) : list_heap :=
  put_item (Item (xEventListItem t)) (mkItem (u32 (configMAX_PRIORITIES - p)) None None (Some t) None)
    (put_item (Item (xStateListItem t)) (mkItem 0 None None (Some t) None) h).

Definition new_tcb (p pxStack : Z) : TCB_t := mkTCB_t p pxStack 0 p 0 0 taskNOT_WAITING_NOTIFICATION false.

Lemma new_items_state t p h :
  items (new_items t p h) !! Item (xStateListItem t) = Some (mkItem 0 None None (Some t) None).
Proof.
  unfold new_items. cbn [items put_item]. rewrite lookup_insert_ne by (intros [= E]; by apply eq_sym, state_not_event in E).
  apply lookup_insert_eq.
Qed.

Lemma new_items_event t p h :
  items (new_items t p h) !! Item (xEventListItem t) =
    Some (mkItem (u32 (configMAX_PRIORITIES - p)) None None (Some t) None).
Proof. apply lookup_insert_eq. Qed.

Lemma new_items_other t p h x :
  x <> Item (xStateListItem t) -> x <> Item (xEventListItem t) -> items (new_items t p h) !! x = items h !! x.
Proof. intros H1 H2. unfold new_items. cbn [items put_item]. by rewrite !lookup_insert_ne by congruence. Qed.

(** One assignment to a new item. *)
Ltac boot_step He Hs :=
  eapply wp_do; [unfold vListInitialiseItem, listSET_LIST_ITEM_OWNER, listSET_LIST_ITEM_VALUE, set_pxContainer, get_item;
    cbn [items put_item k_lists set_k_lists set_k_tcbs]; rewrite ?He, ?Hs, ?lookup_insert_eq, ?He, ?Hs, ?lookup_insert_eq;
    cbn [mbind res_bind]; reflexivity|]; wps; cbn [xItemValue pxNext pxPrevious pvOwner pxContainer].

(** [prvInitialiseNewTask] *)
Lemma wp_initialise_new_task k t p s (Q : unit -> kernel -> Prop) :
  0 <= p < configMAX_PRIORITIES ->
  Q tt (set_k_lists (new_items t p (k_lists k)) (set_k_tcbs (<[t := new_tcb p s]> (k_tcbs k)) k)) ->
  wp (prvInitialiseNewTask p t s) Q k.
Proof.
  intros Hp HQ. unfold prvInitialiseNewTask. wps. apply wp_configASSERT; [lia|]. wps.
  replace (p >=? configMAX_PRIORITIES) with false by lia.
  set (st := Item (xStateListItem t)). set (ev := Item (xEventListItem t)).
  assert (st <> ev) as Hne by (intros [= E]; by apply state_not_event in E).
  assert (forall (v : xLIST_ITEM) (m : gmap node xLIST_ITEM), <[ev := v]> m !! st = m !! st) as He by
    (intros; by rewrite lookup_insert_ne).
  assert (forall (v : xLIST_ITEM) (m : gmap node xLIST_ITEM), <[st := v]> m !! ev = m !! ev) as Hs by
    (intros; by rewrite lookup_insert_ne by congruence).
  do 5 boot_step He Hs.
  match goal with |- Q tt (set_k_lists ?h' _) => assert (h' = new_items t p (k_lists k)) as -> end; [|done].
  unfold new_items, put_item. cbn [items lists]. f_equal.
  fold st ev. apply map_eq. intros y. destruct (decide (y = ev)) as [->|Hye].
  - by rewrite !lookup_insert_eq.
  - rewrite lookup_insert_ne by congruence. destruct (decide (y = st)) as [->|Hys].
    + rewrite ?He, ?lookup_insert_eq, ?He, ?lookup_insert_eq. done.
    + by rewrite !lookup_insert_ne by congruence.
Qed.

Lemma put_item_present (i : nat) x h y : present (put_item (Item i) x h) y <-> y = Item i \/ present h y.
Proof.
  unfold present. cbn [items put_item]. destruct (decide (y = Item i)) as [->|Hne].
  - rewrite lookup_insert_eq. split; [by left|by eauto].
  - rewrite lookup_insert_ne by congruence. split; [by right|by intros [?|?]].
Qed.

Section NewTask.
Context (t : nat) (p s : Z) (h : list_heap).
Hypothesis no_state : ~ present h (Item (xStateListItem t)).
Hypothesis no_event : ~ present h (Item (xEventListItem t)).

Lemma new_items_size : size (items (new_items t p h)) = S (S (size (items h))).
Proof.
  unfold new_items. cbn [items put_item]. rewrite map_size_insert_None; [rewrite map_size_insert_None; [done|]|].
  - by apply eq_None_not_Some.
  - apply eq_None_not_Some. intros Hp. apply (put_item_present (xStateListItem t)) in Hp as [[= E]|Hp]; [|done].
    by apply eq_sym, state_not_event in E.
Qed.

Lemma new_items_stored L : stored h L -> Z.of_nat (size (items h)) + 3 < 2 ^ 32 -> stored (new_items t p h) L.
Proof.
  intros S Hs. apply st_new_item; try done.
  - apply st_new_item; try done. lia.
  - intros [[= E]|Hp]%put_item_present; [by apply eq_sym, state_not_event in E|done].
  - cbn [items put_item]. rewrite map_size_insert_None by (by apply eq_None_not_Some). lia.
Qed.

Lemma new_items_state_ok : item_ok (new_items t p h) (xStateListItem t) t.
Proof. split; [by eexists; apply new_items_state|..]; unfold owner, value; rewrite new_items_state; [done|cbn; unfold in_range; lia]. Qed.

Lemma new_items_event_ok : item_ok (new_items t p h) (xEventListItem t) t.
Proof.
  split; [by eexists; apply new_items_event|..]; unfold owner, value; rewrite new_items_event; [done|].
  cbn. apply in_range_wrapu. lia.
Qed.

Lemma new_items_keep i u : item_ok h i u -> item_ok (new_items t p h) i u.
Proof.
  intros [Hp Ho Hv]. assert (items (new_items t p h) !! Item i = items h !! Item i) as E.
  { apply new_items_other; intros [= ->]; done. }
  unfold present, owner, value in *. by split; unfold present, owner, value; rewrite E.
Qed.

Lemma new_items_value i u : item_ok h i u -> value (new_items t p h) (Item i) = value h (Item i).
Proof. intros [Hp _ _]. unfold value. rewrite new_items_other; [done|..]; intros [= ->]; done. Qed.

End NewTask.

(** A task is created while others exist: it is in no list yet. *)
Lemma tk_new_task sys h T L t p s :
  tasks_ok sys None h T L -> T !! t = None -> 0 <= p < configMAX_PRIORITIES ->
  ~ present h (Item (xStateListItem t)) -> ~ present h (Item (xEventListItem t)) ->
  Z.of_nat (size (items h)) + 3 < 2 ^ 32 -> detached L (xEventListItem t) ->
  tasks_ok sys (Some t) (new_items t p h) (<[t := new_tcb p s]> T) L.
Proof.
  intros [S Hl Hsi Hei Hmb Hst Hrd Hpr Hw Hid Hidr] Ht Hp Hs He Hsz Hd.
  assert (forall u, is_Some (<[t := new_tcb p s]> T !! u) -> u = t \/ (u <> t /\ is_Some (T !! u))) as Hlk.
  { intros u. destruct (decide (u = t)) as [->|]; [by left|rewrite lookup_insert_ne by done; auto]. }
  assert (forall u y, <[t := new_tcb p s]> T !! u = Some y -> (u = t /\ y = new_tcb p s) \/ (u <> t /\ T !! u = Some y)) as Hlk'.
  { intros u y. destruct (decide (u = t)) as [->|].
    - rewrite lookup_insert_eq. intros [= <-]. by left.
    - rewrite lookup_insert_ne by done. auto. }
  assert (forall u, is_Some (T !! u) -> is_Some (<[t := new_tcb p s]> T !! u)) as Hin.
  { intros u [y Hy]. rewrite lookup_insert_ne; [by eauto|]. intros ->. congruence. }
  split; try done; [by apply new_items_stored|..].
  - intros u [->|[_ Hu]]%Hlk; [by apply new_items_state_ok|by apply new_items_keep; auto].
  - intros u [->|[_ Hu]]%Hlk; [by apply new_items_event_ok|by apply new_items_keep; auto].
  - intros l i Hi. destruct (Hmb l i Hi) as (u & Hu & E). by eauto.
  - intros u [->|[_ Hu]]%Hlk Ho; [done|]. by apply Hst.
  - intros u y q [[-> ->]|[Hne Hu]]%Hlk' Ho; [done|]. by apply (Hrd u y q).
  - intros u y [[-> ->]|[Hne Hu]]%Hlk'; [done|by apply (Hpr u)].
  - intros u y [[-> ->]|[Hne Hu]]%Hlk' Hw'; [done|by apply (Hw u y)].
  - by apply Hin.
  - intros _. by apply Hidr.
Qed.

Lemma ok_new_task sys lo k L t p s :
  kernel_ok sys None lo k L -> k_tcbs k !! t = None -> 0 <= p < configMAX_PRIORITIES ->
  ~ present (k_lists k) (Item (xStateListItem t)) -> ~ present (k_lists k) (Item (xEventListItem t)) ->
  Z.of_nat (size (items (k_lists k))) + 3 < 2 ^ 32 ->
  kernel_ok sys (Some t) lo (set_k_lists (new_items t p (k_lists k)) (set_k_tcbs (<[t := new_tcb p s]> (k_tcbs k)) k)) L /\
  detached L (xStateListItem t) /\ detached L (xEventListItem t).
Proof.
  intros [HT Htop Htr HD Hn Hc Htk Hsu Hpe Hru] Ht Hp Hs He Hsz.
  assert (forall i l, i ∈ members L l -> exists u, item_ok (k_lists k) i u) as Hm.
  { intros i l Hi. destruct (tk_members _ _ _ _ _ HT l i Hi) as (u & Hu & ->).
    destruct (event_list l); exists u; [by apply (tk_event_item _ _ _ _ _ HT)|by apply (tk_state_item _ _ _ _ _ HT)]. }
  assert (forall i l, i ∈ members L l -> value (new_items t p (k_lists k)) (Item i) = value (k_lists k) (Item i)) as Hv.
  { intros i l Hi. destruct (Hm i l Hi) as [u Hu]. by apply (new_items_value t p _ Hs He i u). }
  assert (detached L (xStateListItem t)) as Hds by (intros l Hi; destruct (Hm _ _ Hi) as [u [Hpr _ _]]; done).
  assert (detached L (xEventListItem t)) as Hde by (intros l Hi; destruct (Hm _ _ Hi) as [u [Hpr _ _]]; done).
  split; [|done]. split; kcbn; try done.
  - by apply tk_new_task.
  - eapply delays_values; [|done]. intros i [Hi|Hi]; by eapply Hv.
  - intros i Hi. rewrite (Hv i _ Hi). by apply Hn.
  - destruct Hc as (c & y & Hc & Hy). exists c, y. split; [done|]. rewrite lookup_insert_ne; [done|]. intros ->. congruence.
Qed.

(** ** The lists at the start *)

Lemma initialise_size h l : Z.of_nat (size (items (vListInitialise l h))) <= Z.of_nat (size (items h)) + 1.
Proof.
  cbn. destruct (items h !! ListEnd l) eqn:El.
  - rewrite map_size_insert_Some by eauto. lia.
  - rewrite map_size_insert_None by done. lia.
Qed.

Lemma initialise_all h L ls :
  stored h L -> NoDup ls -> (forall l, l ∈ ls -> L !! l = None) ->
  Z.of_nat (size (items h)) + Z.of_nat (length ls) + 1 < 2 ^ 32 ->
  let h' := foldl (fun h l => vListInitialise l h) h ls in
  let L' := foldl (fun (L : store) l => <[l := []]> L) L ls in
  stored h' L' /\ (forall i, items h' !! Item i = items h !! Item i) /\
  (Z.of_nat (size (items h')) <= Z.of_nat (size (items h)) + Z.of_nat (length ls)) /\
  (forall l, L' !! l = if decide (l ∈ ls) then Some [] else L !! l).
Proof.
  revert h L. induction ls as [|l ls IH]; intros h L S Hnd Hno Hs.
  { cbn. split; [done|]. split; [done|]. split; [lia|]. intros l. by rewrite decide_False by apply not_elem_of_nil. }
  apply NoDup_cons in Hnd as [Hl Hnd]. cbn [length] in Hs. cbn [foldl].
  destruct (st_initialise h L S l) as [S1 Hi1]; [unfold members; by rewrite Hno by (by left)|lia|].
  pose proof (initialise_size h l) as Hsz.
  destruct (IH _ _ S1 Hnd) as (S' & Hi' & Hs' & HL'); [|lia|].
  - intros l' Hl'. rewrite lookup_insert_ne by (intros ->; done). apply Hno. by right.
  - split; [done|]. split; [intros i; by rewrite Hi', Hi1|]. split; [cbn [length]; lia|].
    intros l'. rewrite HL'. destruct (decide (l' ∈ ls)) as [Hin|Hin].
    + rewrite decide_True; [done|by right].
    + destruct (decide (l' = l)) as [->|Hne].
      * rewrite lookup_insert_eq, decide_True; [done|by left].
      * rewrite lookup_insert_ne by done. rewrite decide_False; [done|]. by intros [?|?]%elem_of_cons.
Qed.

Lemma stored_empty : stored (mkLists ∅ ∅) ∅.
Proof.
  split; [by intros l ns; rewrite lookup_empty| |by vm_compute].
  intros i l. unfold container. cbn. by rewrite lookup_empty.
Qed.

(** The state of the firmware before the first task: [n] event lists. *)
Definition event_list_heap (n : nat) : list_heap :=
  foldl (fun h l => vListInitialise l h) (mkLists ∅ ∅) (seq first_event_list n).

Definition kernel_init (n : nat) : kernel :=
  mkKernel (event_list_heap n) ∅ heap_init objects_init None 0 0 0 0 0 0 false 0 false 0 0 0 0 false.

Definition event_store (n : nat) : store := foldl (fun (L : store) l => <[l := []]> L) ∅ (seq first_event_list n).

Lemma event_lists_stored n : Z.of_nat n + 2 < 2 ^ 32 ->
  stored (event_list_heap n) (event_store n) /\ (forall i, items (event_list_heap n) !! Item i = None) /\
  (Z.of_nat (size (items (event_list_heap n))) <= Z.of_nat n) /\
  (forall l, event_store n !! l = if decide (l ∈ seq first_event_list n) then Some [] else None).
Proof.
  intros Hn. destruct (initialise_all (mkLists ∅ ∅) ∅ (seq first_event_list n)) as (S & Hi & Hs & HL).
  - apply stored_empty.
  - apply NoDup_seq.
  - done.
  - rewrite length_seq. cbn [items]. rewrite map_size_empty. lia.
  - split; [done|]. split; [intros i; by rewrite Hi|]. split; [rewrite length_seq in Hs; cbn [items] in Hs; rewrite map_size_empty in Hs; unfold event_list_heap; lia|].
    intros l. by rewrite HL.
Qed.

(** ** Memory *)

Section Memory.
Context (ucHeap : Z).
Hypothesis heap_start : 0 < ucHeap.
Hypothesis heap_end : ucHeap + configTOTAL_HEAP_SIZE <= 2 ^ 32.

Definition heap_base : Z := aligned_start ucHeap.

Lemma malloc_success m s bs :
  heap_ok ucHeap s bs -> 0 < m < 2 ^ 31 -> xNextFreeByte s + align_size m < configADJUSTED_HEAP_SIZE ->
  pvPortMalloc ucHeap m s = (Some (heap_base + xNextFreeByte s), mkHeapState (xNextFreeByte s + align_size m) (Some heap_base)) /\
  heap_ok ucHeap (mkHeapState (xNextFreeByte s + align_size m) (Some heap_base)) (mkBlock (heap_base + xNextFreeByte s) m :: bs) /\
  m <= align_size m.
Proof.
  intros Hok Hm Hroom. pose proof (malloc_ok ucHeap heap_start heap_end m s bs Hok) as Hmal.
  destruct (align_size_ok m) as (Ha & _ & Hr); [unfold in_range; lia|].
  assert (m <= align_size m < m + 8) as Hal.
  { destruct Ha as [H0|]; [exfalso|done]. revert H0. unfold align_size, truthy, portBYTE_ALIGNMENT.
    change portBYTE_ALIGNMENT_MASK with (Z.ones 3). rewrite Z.land_ones by lia. change (2 ^ 3) with 8.
    pose proof (Z.mod_pos_bound m 8 ltac:(lia)). destruct (m mod 8 =? 0); cbn [negb]; [lia|].
    rewrite wrapu_small by (unfold in_range; lia). destruct (_ >? _) eqn:E; lia. }
  destruct Hok as (Hp & _ & Hn & _). pose proof (aligned_start_range ucHeap) as Hrange.
  unfold configADJUSTED_HEAP_SIZE, configTOTAL_HEAP_SIZE, portBYTE_ALIGNMENT in *.
  assert (pvPortMalloc ucHeap m s = (Some (heap_base + xNextFreeByte s), mkHeapState (xNextFreeByte s + align_size m) (Some heap_base))) as E.
  { unfold pvPortMalloc. cbv zeta.
    assert (match pucAlignedHeap s with Some p => p | None =>
       u32 (ucHeap + (8 - 1)) .& u32 (.~ portBYTE_ALIGNMENT_MASK) end = heap_base) as Hb.
    { destruct Hp as [->| ->]; [apply aligned_start_ok; done|done]. }
    unfold portBYTE_ALIGNMENT. rewrite Hb. rewrite (wrapu_small 32 (xNextFreeByte s + _)) by lia.
    unfold configADJUSTED_HEAP_SIZE, configTOTAL_HEAP_SIZE, portBYTE_ALIGNMENT.
    replace (_ && _ && _) with true by lia. unfold heap_base in *. by rewrite wrapu_small by lia. }
  rewrite E in Hmal. destruct Hmal as [Hmal _]; [unfold in_range; lia|]. split; [done|]. split; [done|lia].
Qed.

Lemma wp_malloc k m bs (Q : option Z -> kernel -> Prop) :
  heap_ok ucHeap (k_heap k) bs -> 0 < m < 2 ^ 31 -> xNextFreeByte (k_heap k) + align_size m < configADJUSTED_HEAP_SIZE ->
  Q (Some (heap_base + xNextFreeByte (k_heap k)))
    (set_k_heap (mkHeapState (xNextFreeByte (k_heap k) + align_size m) (Some heap_base)) k) ->
  wp (malloc ucHeap m) Q k.
Proof.
  intros Hok Hm Hroom HQ. destruct (malloc_success m _ bs Hok Hm Hroom) as (E & _). eexists _, _. split; [|exact HQ].
  unfold malloc. by rewrite E.
Qed.

End Memory.

Section Boot.
Context (ucHeap : Z) (n : nat).
Hypothesis heap_start : 0 < ucHeap.
Hypothesis heap_end : ucHeap + configTOTAL_HEAP_SIZE <= 2 ^ 32.
Hypothesis few_lists : Z.of_nat n < 2 ^ 31.

Notation heap_base := (heap_base ucHeap).
Notation malloc_success := (malloc_success ucHeap heap_start heap_end).

(** ** Creating tasks before the scheduler runs *)

(** The facts about memory and items that creating a task has to keep. *)
Record placed (k : kernel) : Prop := {
  pl_items i : present (k_lists k) (Item i) ->
    exists t, is_Some (k_tcbs k !! t) /\ (i = xStateListItem t \/ i = xEventListItem t);
  pl_heap : exists bs, heap_ok ucHeap (k_heap k) bs;
  pl_below t : is_Some (k_tcbs k !! t) -> Z.of_nat t < heap_base + xNextFreeByte (k_heap k);
  pl_size : Z.of_nat (size (items (k_lists k))) <= 10 + Z.of_nat n + xNextFreeByte (k_heap k);
}.

Record booting (k : kernel) (L : store) : Prop := {
  bo_scheduled : exists t, scheduled (mkSystem t n false) k L;
  bo_ready t : is_Some (k_tcbs k !! t) -> exists p, ready_list p = true /\ xStateListItem t ∈ members L p;
  bo_placed : placed k;
  bo_suspended : uxSchedulerSuspended k = 0;
  bo_pendsv : switch_pending k = false;
  bo_pending : members L xPendingReadyList = [];
}.

(** Before the first task. *)
Definition fresh (k : kernel) : Prop :=
  exists s ob bs, k = set_k_objects ob (set_k_heap s (kernel_init n)) /\ heap_ok ucHeap s bs.

Lemma ok_set_current sys o lo k L t :
  kernel_ok sys o lo k L -> is_Some (k_tcbs k !! t) -> kernel_ok sys o lo (set_pxCurrentTCB (Some t) k) L.
Proof. intros [] [x Hx]. split; kcbn; try done. by eauto. Qed.

Lemma ok_numbers sys o lo k L a b :
  kernel_ok sys o lo k L -> kernel_ok sys o lo (set_uxTaskNumber a (set_uxCurrentNumberOfTasks b k)) L.
Proof. intros []. by split. Qed.

(** The end of [prvAddNewTaskToReadyList], before the scheduler runs: the new
    task gets its number and becomes ready. *)
Definition add_tail (t : nat) (x : TCB_t) : KM unit :=
  u ← gets uxTaskNumber;
  modify (set_uxTaskNumber (u32 (u + 1)));;
  put_tcb t (set_uxTCBNumber (u32 (u + 1)) x);;
  prvAddTaskToReadyList t;;
  running ← gets xSchedulerRunning;
  if running : bool then
    c ← current;
    y ← get_tcb c;
    x ← get_tcb t;
    when (uxPriority y <? uxPriority x) portYIELD_WITHIN_API
  else mret tt.

(** What is left of the invariant while the new task [t] is not ready. *)
Record almost (t1 : nat) (k : kernel) (L : store) (t : nat) (x : TCB_t) : Prop := {
  al_ok : kernel_ok (mkSystem t1 n false) (Some t) (xTickCount k + 1) k L;
  al_tcb : k_tcbs k !! t = Some x;
  al_detached : detached L (xStateListItem t) /\ detached L (xEventListItem t);
  al_notify : ucNotifyState x = taskNOT_WAITING_NOTIFICATION;
  al_placed : placed k;
  al_ready u : u <> t -> is_Some (k_tcbs k !! u) -> exists p, ready_list p = true /\ xStateListItem u ∈ members L p;
  al_current : exists c y, pxCurrentTCB k = Some c /\ k_tcbs k !! c = Some y /\ uxPriority x <= uxPriority y /\
    below (uxPriority y) L;
  al_suspended : uxSchedulerSuspended k = 0;
  al_pendsv : switch_pending k = false;
  al_pending : members L xPendingReadyList = [];
}.

Lemma placed_same k k' :
  placed k -> same_items (k_lists k) (k_lists k') -> (forall u, is_Some (k_tcbs k' !! u) <-> is_Some (k_tcbs k !! u)) ->
  k_heap k' = k_heap k -> placed k'.
Proof.
  intros [Hi Hh Hb Hs] HS HT HH. split; rewrite ?HH; try done.
  - intros i Hp%(same_present _ _ HS). destruct (Hi i Hp) as (t & Ht & E). exists t. by rewrite HT.
  - intros t Ht%HT. auto.
  - rewrite (present_size (k_lists k)); [done|]. apply HS.
Qed.

Lemma wp_add_tail t1 k L t x :
  almost t1 k L t x ->
  wp (add_tail t x) (fun _ k' => exists L', booting k' L' /\ k_heap k' = k_heap k /\
    k_tcbs k' = <[t := set_uxTCBNumber (u32 (uxTaskNumber k + 1)) x]> (k_tcbs k)) k.
Proof.
  intros [HO Hx [Hd1 Hd2] Hnw HP HR (c & y & Hc & Hy & Hle & Hb) Hs Hpd Hno]. unfold add_tail. wps.
  set (x' := set_uxTCBNumber _ x). set (T' := <[t := x']> (k_tcbs k)).
  assert (kernel_ok (mkSystem t1 n false) (Some t) (xTickCount k + 1)
            (set_k_tcbs T' (set_uxTaskNumber (u32 (uxTaskNumber k + 1)) k)) L) as H1.
  { apply (ok_put_same _ _ _ (set_uxTaskNumber _ k) L t x); try done. by destruct HO. }
  eapply (wp_add_ready _ _ _ L t x'); [exact H1|apply lookup_insert_eq|done|by apply detached_pended|].
  intros h' top' ns' Hm HS H2. wps. pose proof (ok_running _ _ _ _ _ HO) as Hrun. cbn in Hrun. kcbn. rewrite Hrun. wps.
  pose proof (elem_of_inserted _ _ _ _ Hm) as Hmem.
  destruct (ready_priority _ _ _ _ _ t x (ok_tasks _ _ _ _ _ HO) Hx) as [Hp Ep].
  assert (forall u, is_Some (T' !! u) <-> is_Some (k_tcbs k !! u)) as Hdom.
  { intros u. unfold T'. destruct (decide (u = t)) as [->|]; [rewrite lookup_insert_eq, Hx; split; eauto|by rewrite lookup_insert_ne]. }
  eexists. split; [|done].
  assert (forall u, is_Some (k_tcbs k !! u) -> exists p, ready_list p = true /\
            xStateListItem u ∈ members (<[pxReadyTasksLists (uxPriority x') := ns']> L) p) as HR'.
  { intros u Hu. destruct (decide (u = t)) as [->|Hne].
    - exists (pxReadyTasksLists (uxPriority x)). split; [done|]. rewrite Hmem. by left.
    - destruct (HR u Hne Hu) as (q & Hq & Hin). exists q. rewrite Hmem. auto. }
  split; [|by intros u Hu%Hdom; apply HR'|by apply (placed_same k)|done|done|].
  2: { rewrite members_insert_ne; [done|]. change (uxPriority x') with (uxPriority x). intros E. by rewrite E in Hp. }
  exists t1. split; [done| |].
  - intros _ c' y' Hc' Hy'. kcbn_in Hc'. kcbn_in Hy'. simplify_eq.
    assert (uxPriority y' = uxPriority y) as ->.
    { revert Hy'. unfold T'. destruct (decide (c = t)) as [->|]; [rewrite lookup_insert_eq; intros [= <-]; by simplify_eq|].
      rewrite lookup_insert_ne by done. congruence. }
    apply below_insert; [done|]. intros _. change (uxPriority x') with (uxPriority x). lia.
  - intros _ _. destruct (HR' c) as (q & Hq & Hin); [by eauto|]. exists c, q. done.
Qed.
Lemma placed_new k t p s :
  placed k -> k_tcbs k !! t = None -> ~ present (k_lists k) (Item (xStateListItem t)) ->
  ~ present (k_lists k) (Item (xEventListItem t)) -> Z.of_nat t < heap_base + xNextFreeByte (k_heap k) ->
  Z.of_nat (size (items (k_lists k))) + 2 <= 10 + Z.of_nat n + xNextFreeByte (k_heap k) ->
  placed (set_k_lists (new_items t p (k_lists k)) (set_k_tcbs (<[t := new_tcb p s]> (k_tcbs k)) k)).
Proof.
  intros [Hi Hh Hb Hsz] Ht Hs He Hbelow Hsize. split; kcbn; [|done|..].
  - intros i Hpr. destruct (decide (i = xStateListItem t \/ i = xEventListItem t)) as [|Hni].
    + exists t. rewrite lookup_insert_eq. by eauto.
    + unfold present in Hpr. rewrite new_items_other in Hpr by (intros [= ->]; tauto).
      destruct (Hi i Hpr) as (u & Hu & E). exists u. split; [|done]. rewrite lookup_insert_ne; [done|]. intros ->. rewrite Ht in Hu. by destruct Hu.
  - intros u. destruct (decide (u = t)) as [->|]; [done|]. rewrite lookup_insert_ne by done. apply Hb.
  - rewrite new_items_size by done. lia.
Qed.

Lemma almost_new t1 k L t p s c y k1 k3 :
  scheduled (mkSystem t1 n false) k L ->
  (forall u, is_Some (k_tcbs k !! u) -> exists q, ready_list q = true /\ xStateListItem u ∈ members L q) ->
  uxSchedulerSuspended k = 0 -> switch_pending k = false -> members L xPendingReadyList = [] -> k_tcbs k !! t = None -> pxCurrentTCB k = Some c -> k_tcbs k !! c = Some y ->
  kernel_ok (mkSystem t1 n false) (Some t) (xTickCount k + 1) k1 L -> placed k1 ->
  detached L (xStateListItem t) -> detached L (xEventListItem t) ->
  k1 = set_k_lists (new_items t p (k_lists k)) (set_k_tcbs (<[t := new_tcb p s]> (k_tcbs k)) k) ->
  (exists m, (k3 = set_uxCurrentNumberOfTasks m k1 /\ p < uxPriority y) \/
            (k3 = set_pxCurrentTCB (Some t) (set_uxCurrentNumberOfTasks m k1) /\ uxPriority y <= p)) ->
  almost t1 k3 L t (new_tcb p s).
Proof.
  intros H HR Hs Hpd Hno Ht Hc Hy HO HP Hd1 Hd2 E1 (m & Hk3).
  pose proof (sc_preempted _ _ _ H Hpd c y Hc Hy) as Hbelow.
  assert (c <> t) as Hct by congruence.
  assert (k_tcbs k1 !! t = Some (new_tcb p s)) as Hnew by (subst k1; apply lookup_insert_eq).
  assert (forall u, u <> t -> is_Some (k_tcbs k1 !! u) -> is_Some (k_tcbs k !! u)) as Hother.
  { intros u Hu. subst k1. kcbn. by rewrite lookup_insert_ne. }
  subst k1. destruct Hk3 as [[-> Hlt]|[-> Hlt]].
  - split; try done; [by destruct HO|by destruct HP|by auto|].
    exists c, y. split; [done|]. split; [kcbn; by rewrite lookup_insert_ne|]. split; [cbn; lia|done].
  - split; try done; [apply ok_set_current; [by destruct HO|by eauto]|by destruct HP|by auto|].
    exists t, (new_tcb p s). split; [done|]. split; [done|]. split; [lia|]. by eapply below_le.
Qed.

(** The new task is known to no list yet, and there is another one. *)
Lemma wp_add_next k L t p s :
  booting k L -> k_tcbs k !! t = None -> 0 <= p < configMAX_PRIORITIES ->
  Z.of_nat t < heap_base + xNextFreeByte (k_heap k) ->
  Z.of_nat (size (items (k_lists k))) + 2 <= 10 + Z.of_nat n + xNextFreeByte (k_heap k) ->
  wp (prvAddNewTaskToReadyList t) (fun _ k' => exists L' u, booting k' L' /\ k_heap k' = k_heap k /\
    k_tcbs k' = <[t := set_uxTCBNumber u (new_tcb p s)]> (k_tcbs k))
    (set_k_lists (new_items t p (k_lists k)) (set_k_tcbs (<[t := new_tcb p s]> (k_tcbs k)) k)).
Proof.
  intros [[t1 H] HR HP Hs Hpd Hpe] Ht Hp Hbelow Hsize. pose proof HP as [Hi (bs & Hh) Hb Hsz].
  assert (forall i u, u = t -> i = xStateListItem u \/ i = xEventListItem u -> ~ present (k_lists k) (Item i)) as Hno.
  { intros i u -> Hiu (v & [x Hv] & Hiv)%Hi. assert (v = t) as ->; [|congruence].
    destruct Hiu as [-> | ->], Hiv as [E|E].
    - by apply state_item_inj in E.
    - by apply state_not_event in E.
    - by apply eq_sym, state_not_event in E.
    - by apply event_item_inj in E. }
  destruct (ok_new_task (mkSystem t1 n false) (xTickCount k + 1) k L t p s) as (HO & Hd1 & Hd2); [apply H|done|done|by eapply Hno; [|left]|by eapply Hno; [|right]| |].
  { destruct Hh as (_ & _ & Hn & _). unfold configADJUSTED_HEAP_SIZE, configTOTAL_HEAP_SIZE, portBYTE_ALIGNMENT in Hn. lia. }
  set (k1 := set_k_lists _ _) in *. unfold prvAddNewTaskToReadyList. wps.
  destruct (ok_current _ _ _ _ _ (sc_ok _ _ _ H)) as (c & y & Hc & Hy). 
  assert (pxCurrentTCB k1 = Some c) as Hc1 by done. kcbn. rewrite Hc1.
  assert (c <> t) as Hct by congruence.
  apply (wp_get_tcb t (new_tcb p s)); [apply lookup_insert_eq|]. wps.
  apply (wp_get_tcb c y); [by unfold k1; kcbn; rewrite lookup_insert_ne|].
  pose proof (ok_running _ _ _ _ _ (sc_ok _ _ _ H)) as Hrun. cbn in Hrun.
  assert (forall k3, (k3 = set_uxCurrentNumberOfTasks (u32 (uxCurrentNumberOfTasks k + 1)) k1 /\ p < uxPriority y) \/
            (k3 = set_pxCurrentTCB (Some t) (set_uxCurrentNumberOfTasks (u32 (uxCurrentNumberOfTasks k + 1)) k1) /\ uxPriority y <= p) ->
    wp (add_tail t (new_tcb p s)) (fun _ k' => exists L' u, booting k' L' /\ k_heap k' = k_heap k /\
       k_tcbs k' = <[t := set_uxTCBNumber u (new_tcb p s)]> (k_tcbs k)) k3) as Hk3.
  { intros k3 Hk3. eapply wp_mono; [apply (wp_add_tail t1 k3 L)|].
    - apply (almost_new t1 k L t p s c y k1); try done; [by apply placed_new; try done; eapply Hno; auto|by eexists].
    - intros _ k' (L' & H1 & H2 & H3). exists L', (u32 (uxTaskNumber k3 + 1)). split; [done|].
      rewrite H2, H3. destruct Hk3 as [[-> _]|[-> _]]; unfold k1; kcbn; split; [done|by rewrite insert_insert_eq|done|by rewrite insert_insert_eq]. }
  assert (xSchedulerRunning k1 = false) as Hrun1 by done. kcbn. rewrite Hrun1. cbn [negb andb]. apply wp_when; intros Hle; [apply wp_modify|]; apply Hk3.
  - right. split; [done|]. cbn in Hle. lia.
  - left. split; [done|]. cbn in Hle. lia.
Qed.

(** The heap of lists after [prvInitialiseTaskLists] in the first [xTaskCreate]. *)
Definition first_heap (t : nat) (p : Z) : list_heap :=
  foldl (fun h l => vListInitialise l h) (new_items t p (event_list_heap n)) (seq 0 first_event_list).

Lemma first_heap_ok t p :
  exists L, stored (first_heap t p) L /\ (forall l, (l < first_event_list + n)%nat -> L !! l = Some []) /\
    (forall l, members L l = []) /\
    (forall i, items (first_heap t p) !! Item i = items (new_items t p (event_list_heap n)) !! Item i) /\
    Z.of_nat (size (items (first_heap t p))) <= 12 + Z.of_nat n.
Proof.
  destruct (event_lists_stored n) as (S0 & Hi0 & Hs0 & HL0); [lia|].
  assert (forall i, ~ present (event_list_heap n) (Item i)) as Hno by (intros i [x Hx]; by rewrite Hi0 in Hx).
  pose proof (new_items_size t p _ (Hno _) (Hno _)) as Hsz.
  destruct (initialise_all (new_items t p (event_list_heap n)) (event_store n) (seq 0 first_event_list)) as (S & Hi & Hs & HL).
  - apply new_items_stored; [done..|lia].
  - apply NoDup_seq.
  - intros l [_ Hl]%elem_of_seq. rewrite HL0, decide_False; [done|]. rewrite elem_of_seq. unfold first_event_list in *. lia.
  - rewrite Hsz, length_seq. unfold first_event_list. lia.
  - eexists. split; [exact S|]. split; [|split; [|split; [done|]]].
    + intros l Hl. rewrite HL. case_decide as Hd; [done|]. rewrite HL0, decide_True; [done|].
      rewrite elem_of_seq in Hd |- *. lia.
    + intros l. unfold members. rewrite HL, HL0. by repeat case_decide.
    + fold (first_heap t p) in Hs. rewrite Hsz, length_seq in Hs. unfold first_event_list in Hs. lia.
Qed.

Lemma first_task_ok t p s hs ob m L :
  stored (first_heap t p) L -> (forall l, (l < first_event_list + n)%nat -> L !! l = Some []) ->
  (forall l, members L l = []) ->
  (forall i, items (first_heap t p) !! Item i = items (new_items t p (event_list_heap n)) !! Item i) ->
  0 <= p < configMAX_PRIORITIES ->
  kernel_ok (mkSystem t n false) (Some t) 1
    (mkKernel (first_heap t p) {[t := new_tcb p s]} hs ob (Some t) xDelayedTaskList1 xDelayedTaskList2 0 m 0 0 false 0 false 0 0 0 0 false) L.
Proof.
  intros S HL HM HI Hp. assert (forall l i, i ∉ members L l) as Hnone by (intros l i; rewrite HM; apply not_elem_of_nil).
  split; kcbn; try done.
  - split; try done.
    + intros l Hl. rewrite HL by done. by eauto.
    + intros u [x [-> _]%lookup_singleton_Some]. destruct (new_items_state_ok u p (event_list_heap n)) as [A B C].
      unfold present, owner, value in *. by split; unfold present, owner, value; rewrite HI.
    + intros u [x [-> _]%lookup_singleton_Some]. destruct (new_items_event_ok u p (event_list_heap n)) as [A B C].
      unfold present, owner, value in *. by split; unfold present, owner, value; rewrite HI.
    + intros l i Hi. by destruct (Hnone l i).
    + intros u [x [-> _]%lookup_singleton_Some]. done.
    + intros u x q [-> _]%lookup_singleton_Some. done.
    + intros u x [_ <-]%lookup_singleton_Some. done.
    + intros u x _ _ l Hi. by destruct (Hnone l (xEventListItem u)).
    + rewrite lookup_singleton_eq. by eauto.
  - intros q Hq Hne. by rewrite HM in Hne.
  - split; [by left|rewrite HM; constructor..| |]; intros i Hi; by destruct (Hnone _ _ Hi).
  - intros i Hi. by destruct (Hnone _ _ Hi).
  - exists t, (new_tcb p s). by rewrite lookup_singleton_eq.
Qed.

Lemma wp_add_first t p s hs ob bs :
  0 <= p < configMAX_PRIORITIES -> heap_ok ucHeap hs bs -> 2 <= xNextFreeByte hs ->
  Z.of_nat t < heap_base + xNextFreeByte hs ->
  wp (prvAddNewTaskToReadyList t) (fun _ k' => exists L' u, booting k' L' /\ k_heap k' = hs /\
    k_tcbs k' = {[t := set_uxTCBNumber u (new_tcb p s)]})
    (set_k_lists (new_items t p (event_list_heap n))
       (set_k_tcbs (<[t := new_tcb p s]> ∅) (set_k_heap hs (set_k_objects ob (kernel_init n))))).
Proof.
  intros Hp Hh H2 Hbelow. unfold prvAddNewTaskToReadyList. wps.
  apply (wp_get_tcb t (new_tcb p s)); [apply lookup_insert_eq|]. kcbn. cbn [pxCurrentTCB kernel_init]. wps.
  apply wp_when; intros Hb; [clear Hb|done]. unfold prvInitialiseTaskLists. do 5 wp_step.
  destruct (first_heap_ok t p) as (L & S & HL & HM & HI & Hsz).
  set (k2 := set_pxOverflowDelayedTaskList _ _).
  assert (k2 = mkKernel (first_heap t p) {[t := new_tcb p s]} hs ob (Some t) xDelayedTaskList1 xDelayedTaskList2 0 1 0 0
                 false 0 false 0 0 0 0 false) as -> by reflexivity.
  eapply wp_mono; [eapply (wp_add_tail t _ L t)|].
  - split; kcbn; try done.
    + by apply first_task_ok.
    + apply lookup_singleton_eq.
    + split; intros l Hi; rewrite HM in Hi; by apply elem_of_nil in Hi.
    + split; kcbn.
      * intros i Hpr. exists t. rewrite lookup_singleton_eq. split; [by eauto|]. unfold present in Hpr. rewrite HI in Hpr.
        destruct (decide (i = xStateListItem t)) as [|H1]; [by left|].
        destruct (decide (i = xEventListItem t)) as [|H3]; [by right|].
        rewrite new_items_other in Hpr by congruence. destruct (event_lists_stored n) as (_ & Hi0 & _); [lia|].
        rewrite Hi0 in Hpr. by destruct Hpr.
      * by eauto.
      * intros u [x [<- _]%lookup_singleton_Some]. done.
      * lia.
    + intros u Hu [x [<- _]%lookup_singleton_Some]. done.
    + exists t, (new_tcb p s). rewrite lookup_singleton_eq. split; [done|]. split; [done|]. split; [lia|].
      intros q Hq Hne. by rewrite HM in Hne.
  - intros _ k' (L' & H1 & H3 & H4). kcbn_in H4. rewrite insert_singleton_eq in H4. eauto.
Qed.

(** The memory a task takes. *)
Definition task_memory (depth : Z) : Z := align_size (4 * depth) + align_size sizeof_TCB_t.

Lemma booting_heap k L hs bs :
  booting k L -> heap_ok ucHeap hs bs -> xNextFreeByte (k_heap k) <= xNextFreeByte hs -> booting (set_k_heap hs k) L.
Proof.
  intros [[t1 [HO HP HR]] HR' [Hi Hh Hb Hs] Hsu Hpd Hpe] Hok Hle. split; try done.
  - exists t1. split; [by destruct HO|done|done].
  - split; kcbn; try done; [by eauto| |lia]. intros u Hu. specialize (Hb u Hu). lia.
Qed.

(** Creating a task, once the memory is there. *)
Lemma wp_create_task k hs bs t p s :
  fresh k \/ (exists L, booting k L) -> heap_ok ucHeap hs bs -> xNextFreeByte (k_heap k) + 2 <= xNextFreeByte hs ->
  heap_base + xNextFreeByte (k_heap k) <= Z.of_nat t < heap_base + xNextFreeByte hs -> 0 <= p < configMAX_PRIORITIES ->
  wp (prvInitialiseNewTask p t s;; prvAddNewTaskToReadyList t)
    (fun _ k' => exists L' u, booting k' L' /\ k_heap k' = hs /\
       k_tcbs k' = <[t := set_uxTCBNumber u (new_tcb p s)]> (k_tcbs k)) (set_k_heap hs k).
Proof.
  intros Hk Hh Hnext Ht Hp. wps. apply wp_initialise_new_task; [done|].
  destruct Hk as [(s0 & ob & bs0 & -> & Hs0)|[L HB]].
  - apply (wp_add_first t p s hs ob bs); [done|done| |lia]. destruct Hs0 as (_ & _ & Hn & _). kcbn_in Hnext. lia.
  - pose proof (booting_heap k L hs bs HB Hh ltac:(lia)) as HB'. pose proof (bo_placed _ _ HB) as [_ _ Hb Hsz].
    apply (wp_add_next (set_k_heap hs k) L t p s); [done| |done|kcbn; lia|kcbn; lia].
    kcbn. destruct (k_tcbs k !! t) eqn:E; [|done]. specialize (Hb t ltac:(eauto)). lia.
Qed.

Lemma wp_create k depth p :
  fresh k \/ (exists L, booting k L) -> 0 <= p < configMAX_PRIORITIES -> 0 < depth < 2 ^ 28 ->
  xNextFreeByte (k_heap k) + task_memory depth < configADJUSTED_HEAP_SIZE ->
  wp (xTaskCreate ucHeap depth p) (fun r k' => exists t L' x, r = Some t /\ booting k' L' /\
    k_tcbs k !! t = None /\ k_tcbs k' = <[t := x]> (k_tcbs k) /\ uxPriority x = p /\
    ucNotifyState x = taskNOT_WAITING_NOTIFICATION /\ xNextFreeByte (k_heap k') = xNextFreeByte (k_heap k) + task_memory depth) k.
Proof.
  intros Hk Hp Hd Hroom. unfold task_memory in *.
  assert (exists bs, heap_ok ucHeap (k_heap k) bs) as [bs Hh].
  { destruct Hk as [(s & ob & bs & -> & Hs)|[L HB]]; [by eauto|apply HB]. }
  assert (88 <= align_size sizeof_TCB_t) as H88 by (by vm_compute).
  pose proof Hh as (_ & _ & Hnx & _). pose proof (aligned_start_range ucHeap) as Hbase. fold heap_base in Hbase.
  unfold xTaskCreate. wps. rewrite (wrapu_small 32 (depth * 4)), Z.mul_comm by lia.
  destruct (malloc_success (4 * depth) _ bs Hh) as (_ & Hh1 & Hal1); [lia|lia|].
  eapply wp_malloc; [done|done|exact Hh|lia|lia|]. wps.
  destruct (malloc_success sizeof_TCB_t _ _ Hh1) as (_ & Hh2 & Hal2); [by vm_compute|cbn [xNextFreeByte]; lia|].
  eapply wp_malloc; [done|done|exact Hh1|by vm_compute|kcbn; cbn [xNextFreeByte]; lia|]. cbv beta match zeta. kcbn. cbn [xNextFreeByte] in *.
  set (t := Z.to_nat _). set (hs := mkHeapState _ _) in Hh2.
  assert (xNextFreeByte hs = xNextFreeByte (k_heap k) + align_size (4 * depth) + align_size sizeof_TCB_t) as Ehs by done.
  assert (Z.of_nat t = heap_base + (xNextFreeByte (k_heap k) + align_size (4 * depth))) as Et by (unfold t; lia).
  pose proof (wp_create_task k hs _ t p (heap_base + xNextFreeByte (k_heap k)) Hk Hh2 ltac:(lia) ltac:(lia) Hp) as HW.
  apply wp_bind_inv in HW. wps. eapply wp_mono; [exact HW|]. intros u k1 HW1. cbv beta in HW1. wps.
  eapply wp_mono; [exact HW1|]. intros _ k2 (L' & num & HB & HH & HT). wps.
  exists t, L', (set_uxTCBNumber num (new_tcb p (heap_base + xNextFreeByte (k_heap k)))).
  split; [done|]. split; [done|]. split; [|split; [done|]; split; [done|]; split; [done|]; rewrite HH; lia].
  destruct Hk as [(s0 & ob & bs0 & -> & _)|[L HBk]]; [apply lookup_empty|].
  destruct (k_tcbs k !! t) eqn:Ek; [|done]. pose proof (pl_below _ (bo_placed _ _ HBk) t ltac:(eauto)). lia.
Qed.

(** ** Starting *)

(** The calls to [xTaskCreate] of [main]: stack depths and priorities. *)
Fixpoint create_tasks (tasks : list (Z * Z)) : KM unit :=
  match tasks with
  | [] => mret tt
  | (depth, p) :: tasks => xTaskCreate ucHeap depth p;; create_tasks tasks
  end.

Definition tasks_memory (tasks : list (Z * Z)) : Z := foldr (fun t m => task_memory t.1 + m) 0 tasks.

Definition task_request (t : Z * Z) : Prop := 0 < t.1 < 2 ^ 28 /\ 0 <= t.2 < configMAX_PRIORITIES.

Lemma task_memory_pos depth : 0 < depth < 2 ^ 28 -> 0 <= task_memory depth.
Proof.
  intros Hd. unfold task_memory. destruct (align_size_ok (4 * depth)) as (_ & _ & Hr); [unfold in_range; lia|].
  unfold in_range in Hr. assert (0 <= align_size sizeof_TCB_t) by (by vm_compute). lia.
Qed.

Lemma tasks_memory_cons d p tasks : tasks_memory ((d, p) :: tasks) = task_memory d + tasks_memory tasks.
Proof. done. Qed.

Lemma tasks_memory_pos tasks : Forall task_request tasks -> 0 <= tasks_memory tasks.
Proof.
  induction 1 as [|[d p] tasks [Hd _] _ IH]; [done|]. rewrite tasks_memory_cons. pose proof (task_memory_pos d Hd). lia.
Qed.

Lemma wp_create_tasks tasks : forall k,
  fresh k \/ (exists L, booting k L) -> Forall task_request tasks ->
  xNextFreeByte (k_heap k) + tasks_memory tasks < configADJUSTED_HEAP_SIZE ->
  wp (create_tasks tasks) (fun _ k' => (fresh k' \/ exists L, booting k' L) /\
    xNextFreeByte (k_heap k') = xNextFreeByte (k_heap k) + tasks_memory tasks) k.
Proof.
  induction tasks as [|[d p] tasks IH]; intros k Hk Hf Hroom; cbn [create_tasks].
  { wps. split; [done|]. unfold tasks_memory. cbn. lia. }
  rewrite tasks_memory_cons in *.
  apply Forall_cons in Hf as [[Hd Hp] Hf]. pose proof (tasks_memory_pos tasks Hf). cbn [fst snd] in Hd, Hp. wps.
  eapply wp_mono; [apply (wp_create k d p); [done..|lia]|]. intros r k1 (t & L1 & x & _ & HB & _ & _ & _ & _ & Hn1). wps.
  eapply wp_mono; [apply (IH k1); [right; by eauto|done|lia]|]. intros _ k2 [Hk2 Hn2]. split; [done|]. lia.
Qed.

(** A booting kernel has no delayed task. *)
Lemma booting_delayed k L t1 l :
  booting k L -> kernel_ok (mkSystem t1 n false) None (xTickCount k + 1) k L -> event_list l = false ->
  ready_list l = false -> members L l = [].
Proof.
  intros HB HO Hl Hr. destruct (members L l) as [|i ns] eqn:E; [done|exfalso].
  assert (i ∈ members L l) as Hi by (rewrite E; by left).
  destruct (tk_state_member _ _ _ _ _ _ _ (ok_tasks _ _ _ _ _ HO) Hl Hi) as (t & -> & Ht & _).
  destruct (bo_ready _ _ HB t Ht) as (p & Hp & Hin).
  rewrite (st_unique _ _ (tk_stored _ _ _ _ _ (ok_tasks _ _ _ _ _ HO)) _ _ _ Hi Hin) in Hr. congruence.
Qed.

Definition started_kernel (k : kernel) : kernel :=
  set_xTickCount 0 (set_xSchedulerRunning true (set_xNextTaskUnblockTime portMAX_DELAY k)).

Lemma booting_started k L idle :
  booting k L -> is_Some (k_tcbs k !! idle) ->
  scheduled (mkSystem idle n true) (started_kernel k) L /\ switch_pending (started_kernel k) = false /\
  uxSchedulerSuspended (started_kernel k) = 0.
Proof.
  intros HB Hid. pose proof HB as [[t1 [HO HP HR]] HR' _ Hs Hpd _]. split; [|done].
  assert (forall l, event_list l = false -> ready_list l = false -> members L l = []) as Hnil
    by (intros; by apply (booting_delayed k L t1)).
  destruct (delays_disjoint _ _ _ _ _ _ (ok_delays _ _ _ _ _ HO)) as (_ & Hde & Hoe & Hdr & Hor & _).
  split; [|done|].
  - unfold started_kernel. destruct HO as [HT Htop Htr HD Hn Hc Htk Hsu Hpe Hru]. split; kcbn; try done.
    + destruct HT. split; try done. intros _. by apply HR'.
    + destruct HD as [Hdl _ _ _ _]. 
      split; [done|rewrite (Hnil _ Hde Hdr); constructor|rewrite (Hnil _ Hoe Hor); constructor|..];
        intros i; rewrite ?(Hnil _ Hde Hdr), ?(Hnil _ Hoe Hor); by intros ?%elem_of_nil.
    + intros i. rewrite (Hnil _ Hde Hdr). by intros ?%elem_of_nil.
  - intros _ _. destruct (HR Hs Hpd) as (c & q & Hcq). by exists c, q.
Qed.

End Boot.
