(* ===== verification/FreeRTOSQueue.v ===== *)
(** * The firmware's queues, semaphores and mutexes

    [FreeRTOS/Source/queue.c] with the configuration of
    [generate/include/FreeRTOSConfig.h]: mutexes, recursive mutexes and counting
    semaphores on, queue sets off, the registry on, no static allocation.  The
    handle 0 is the null pointer.  [get_queue] dereferences a handle.

    The functions that can block ([xQueueGenericSend], [xQueueReceive],
    [xQueueSemaphoreTake], [xQueuePeek]) are loops which other tasks and
    interrupts run in between.  [wait_step] is one step of such a loop: one
    critical section, or one call with the scheduler suspended; the place in the
    loop and its local variables are the record [wait_state]. *)

From S2P Require Import Prelude CMemory FreeRTOSList FreeRTOSHeap FreeRTOSObjects FreeRTOSTasks.

Definition queueSEND_TO_BACK : Z := 0.
Definition queueSEND_TO_FRONT : Z := 1.
Definition queueOVERWRITE : Z := 2.
Definition queueQUEUE_TYPE_COUNTING_SEMAPHORE : Z := 2.
Definition queueSEMAPHORE_QUEUE_ITEM_LENGTH : Z := 0.
Definition queueMUTEX_GIVE_BLOCK_TIME : Z := 0.
Definition pdPASS : Z := 1.
Definition pdFAIL : Z := 0.
Definition errQUEUE_EMPTY : Z := 0.
Definition errQUEUE_FULL : Z := 0.
Definition SIZE_MAX : Z := 2 ^ 32 - 1.

(** ** The queues of the kernel *)

Definition get_queue (q : nat) : KM Queue_t :=
  fun k => match o_queues (k_objects k) !! q with Some x => Ok (x, k) | None => Fault WildHostPointer end.

Definition put_queue (q : nat) (x : Queue_t) : KM unit :=
  modify (fun k => set_k_objects (set_o_queues (<[q := x]> (o_queues (k_objects k))) (k_objects k)) k).

Definition fault {A} (e : fault) : KM A := lift (Fault e).

(** The storage area lies behind the structure. *)
Definition storage_start (q : nat) : Z := Z.of_nat q + sizeof_Queue_t.

Definition is_mutex (x : Queue_t) : bool := match pcHead x with None => true | Some _ => false end.

(** The member [xSemaphore] of the union. *)
Definition mutex_holder (x : Queue_t) : KM (option nat) :=
  match q_union x with u_xSemaphore h _ => mret h | u_xQueue _ _ => fault WildHostPointer end.
Definition recursive_count (x : Queue_t) : KM Z :=
  match q_union x with u_xSemaphore _ n => mret n | u_xQueue _ _ => fault WildHostPointer end.

(** ** Moving data *)

(** [prvCopyDataToQueue] for an item of a size that is not zero. *)
Definition copy_item (q : nat) (x : Queue_t) (pvItemToQueue : list Z) (xPosition : Z) : KM Queue_t :=
  match pcHead x, q_union x with
  | Some pcHead, u_xQueue pcTail pcReadFrom =>
      if xPosition =? queueSEND_TO_BACK then
        st ← lift (memcpy (q_storage x) (pcWriteTo x - storage_start q) pvItemToQueue 0 (uxItemSize x));
        let w := pcWriteTo x + uxItemSize x in
        mret (set_pcWriteTo (if w >=? pcTail then pcHead else w) (set_q_storage st x))
      else
        st ← lift (memcpy (q_storage x) (pcReadFrom - storage_start q) pvItemToQueue 0 (uxItemSize x));
        let r := pcReadFrom - uxItemSize x in
        mret (set_q_union (u_xQueue pcTail (if r <? pcHead then pcTail - uxItemSize x else r)) (set_q_storage st x))
  | _, _ => fault WildHostPointer
  end.

Definition prvCopyDataToQueue (q : nat) (pvItemToQueue : option (list Z)) (xPosition : Z) : KM bool :=
  x ← get_queue q;
  let uxMessagesWaiting := uxMessagesWaiting x in
  if uxItemSize x =? 0 then
    xReturn ←
      (if is_mutex x then
         h ← mutex_holder x;
         n ← recursive_count x;
         b ← xTaskPriorityDisinherit h;
         put_queue q (set_q_union (u_xSemaphore None n) x);;
         mret b
       else mret false);
    x ← get_queue q;
    put_queue q (set_uxMessagesWaiting (u32 (uxMessagesWaiting + 1)) x);;
    mret xReturn
  else
    match pvItemToQueue with
    | None => fault WildHostPointer
    | Some item =>
        x ← copy_item q x item xPosition;
        let uxMessagesWaiting :=
          if negb (xPosition =? queueSEND_TO_BACK) && (xPosition =? queueOVERWRITE) && (0 <? uxMessagesWaiting)
          then u32 (uxMessagesWaiting - 1) else uxMessagesWaiting in
        put_queue q (set_uxMessagesWaiting (u32 (uxMessagesWaiting + 1)) x);;
        mret false
    end.

(** [prvCopyDataFromQueue]: the bytes that are copied into [pvBuffer]. *)
Definition prvCopyDataFromQueue (q : nat) : KM (list Z) :=
  x ← get_queue q;
  if negb (uxItemSize x =? 0) then
    match pcHead x, q_union x with
    | Some pcHead, u_xQueue pcTail pcReadFrom =>
        let r := pcReadFrom + uxItemSize x in
        let r := if r >=? pcTail then pcHead else r in
        put_queue q (set_q_union (u_xQueue pcTail r) x);;
        lift (memcpy (replicate (Z.to_nat (uxItemSize x)) 0) 0 (q_storage x) (r - storage_start q) (uxItemSize x))
    | _, _ => fault WildHostPointer
    end
  else mret [].

(** [prvIsQueueEmpty] and [prvIsQueueFull], and their variants for interrupts. *)
Definition prvIsQueueEmpty (q : nat) : KM bool := x ← get_queue q; mret (uxMessagesWaiting x =? 0).
Definition prvIsQueueFull (q : nat) : KM bool := x ← get_queue q; mret (uxMessagesWaiting x =? uxLength x).

Definition xQueueIsQueueEmptyFromISR (q : nat) : KM bool :=
  configASSERT (negb (q =? 0)%nat);; x ← get_queue q; mret (uxMessagesWaiting x =? 0).
Definition xQueueIsQueueFullFromISR (q : nat) : KM bool :=
  configASSERT (negb (q =? 0)%nat);; x ← get_queue q; mret (uxMessagesWaiting x =? uxLength x).

Definition uxQueueMessagesWaiting (q : nat) : KM Z :=
  configASSERT (negb (q =? 0)%nat);; x ← get_queue q; mret (uxMessagesWaiting x).
Definition uxQueueSpacesAvailable (q : nat) : KM Z :=
  configASSERT (negb (q =? 0)%nat);; x ← get_queue q; mret (u32 (uxLength x - uxMessagesWaiting x)).

(** ** Locking *)

(** [prvLockQueue] *)
Definition prvLockQueue (q : nat) : KM unit :=
  x ← get_queue q;
  let x := if cRxLock x =? queueUNLOCKED then set_cRxLock queueLOCKED_UNMODIFIED x else x in
  let x := if cTxLock x =? queueUNLOCKED then set_cTxLock queueLOCKED_UNMODIFIED x else x in
  put_queue q x.

(** [prvIncrementQueueTxLock], [prvIncrementQueueRxLock] *)
Definition prvIncrementQueueTxLock (q : nat) (lock : Z) : KM unit :=
  uxNumberOfTasks ← gets uxCurrentNumberOfTasks;
  when (u32 lock <? uxNumberOfTasks)
    (configASSERT (negb (lock =? queueINT8_MAX));;
     x ← get_queue q;
     put_queue q (set_cTxLock (wraps 8 (lock + 1)) x)).

Definition prvIncrementQueueRxLock (q : nat) (lock : Z) : KM unit :=
  uxNumberOfTasks ← gets uxCurrentNumberOfTasks;
  when (u32 lock <? uxNumberOfTasks)
    (configASSERT (negb (lock =? queueINT8_MAX));;
     x ← get_queue q;
     put_queue q (set_cRxLock (wraps 8 (lock + 1)) x)).

(** A loop of [prvUnlockQueue]: wakes as many tasks of the list as the count says. *)
Fixpoint unlock_wake (lock : nat) (l : nat) : KM unit :=
  match lock with
  | O => mret tt
  | S lock =>
      e ← ask_lists (listLIST_IS_EMPTY l);
      if e : bool then mret tt
      else
        b ← xTaskRemoveFromEventList l;
        when b vTaskMissedYield;;
        unlock_wake lock l
  end.

(** The two critical sections of [prvUnlockQueue]. *)
Definition unlock_tx (q : nat) : KM unit :=
  x ← get_queue q;
  unlock_wake (Z.to_nat (cTxLock x)) (xTasksWaitingToReceive x);;
  x ← get_queue q;
  put_queue q (set_cTxLock queueUNLOCKED x).

Definition unlock_rx (q : nat) : KM unit :=
  x ← get_queue q;
  unlock_wake (Z.to_nat (cRxLock x)) (xTasksWaitingToSend x);;
  x ← get_queue q;
  put_queue q (set_cRxLock queueUNLOCKED x).

Definition prvUnlockQueue (q : nat) : KM unit := unlock_tx q;; unlock_rx q.

(** ** Waking the tasks that wait *)

(** A task at the head of the list is woken, and a yield asked for when it has
    the higher priority; whether there was one. *)
Definition wake_and_yield (l : nat) : KM bool :=
  e ← ask_lists (listLIST_IS_EMPTY l);
  if e : bool then mret false
  else
    b ← xTaskRemoveFromEventList l;
    when b portYIELD_WITHIN_API;;
    mret true.

(** The same in an interrupt: [*pxHigherPriorityTaskWoken] is set. *)
Definition wake_from_isr (l : nat) (woken : bool) : KM bool :=
  e ← ask_lists (listLIST_IS_EMPTY l);
  if e : bool then mret woken
  else
    b ← xTaskRemoveFromEventList l;
    mret (woken || b).

(** ** Creating and resetting *)

(** The union after [xQueueGenericReset].  The two members share their memory,
    and with a null [pcHead] and items of size zero the pointers it stores are
    null: no holder, and no calls. *)
Definition reset_union (x : Queue_t) : queue_union :=
  match pcHead x with
  | Some pcHead => u_xQueue (pcHead + u32 (uxLength x * uxItemSize x))
                            (pcHead + u32 (u32 (uxLength x - 1) * uxItemSize x))
  | None => u_xSemaphore None 0
  end.

Definition reset_queue (x : Queue_t) : Queue_t :=
  set_cTxLock queueUNLOCKED (set_cRxLock queueUNLOCKED
    (set_q_union (reset_union x) (set_pcWriteTo (default 0 (pcHead x)) (set_uxMessagesWaiting 0 x)))).

Definition xQueueGenericReset (q : nat) (xNewQueue : bool) : KM Z :=
  configASSERT (negb (q =? 0)%nat);;
  x ← get_queue q;
  xReturn ←
    (if (1 <=? uxLength x) && (SIZE_MAX / uxLength x >=? uxItemSize x) then
       put_queue q (reset_queue x);;
       (if xNewQueue : bool then
          do_lists (fun h => Ok (vListInitialise (xTasksWaitingToSend x) h));;
          do_lists (fun h => Ok (vListInitialise (xTasksWaitingToReceive x) h))
        else
          wake_and_yield (xTasksWaitingToSend x);; mret tt);;
       mret pdPASS
     else mret pdFAIL);
  configASSERT (negb (xReturn =? pdFAIL));;
  mret xReturn.

(** [prvInitialiseNewQueue].  The memory comes from the static array of the
    allocator, which starts as zeros and is never returned. *)
Definition prvInitialiseNewQueue (uxQueueLength uxItemSize ucQueueType : Z) (q : nat) : KM unit :=
  n ← gets (fun k => lists_used (k_objects k));
  let l := (first_event_list + n)%nat in
  let head := if uxItemSize =? 0 then Z.of_nat q else storage_start q in
  put_queue q (mkQueue (Some head) 0 (u_xQueue 0 0) l (S l) 0 uxQueueLength uxItemSize 0 0 0 0
                 (replicate (Z.to_nat (uxQueueLength * uxItemSize)) 0));;
  xQueueGenericReset q true;;
  x ← get_queue q;
  put_queue q (set_ucQueueType ucQueueType x).

Definition xQueueGenericCreate (ucHeap uxQueueLength uxItemSize ucQueueType : Z) : KM (option nat) :=
  if (0 <? uxQueueLength) && (SIZE_MAX / uxQueueLength >=? uxItemSize) &&
     (SIZE_MAX - sizeof_Queue_t >=? u32 (uxQueueLength * uxItemSize)) then
    pxNewQueue ← malloc ucHeap (u32 (sizeof_Queue_t + u32 (uxQueueLength * uxItemSize)));
    match pxNewQueue with
    | None => mret None
    | Some a =>
        let q := Z.to_nat a in
        prvInitialiseNewQueue uxQueueLength uxItemSize ucQueueType q;;
        mret (Some q)
    end
  else configASSERT false;; mret None.

Definition xQueueCreateCountingSemaphore (ucHeap uxMaxCount uxInitialCount : Z) : KM (option nat) :=
  if negb (uxMaxCount =? 0) && (uxInitialCount <=? uxMaxCount) then
    xHandle ← xQueueGenericCreate ucHeap uxMaxCount queueSEMAPHORE_QUEUE_ITEM_LENGTH queueQUEUE_TYPE_COUNTING_SEMAPHORE;
    match xHandle with
    | None => mret None
    | Some q => x ← get_queue q; put_queue q (set_uxMessagesWaiting uxInitialCount x);; mret (Some q)
    end
  else configASSERT false;; mret None.

(** ** The functions for interrupts *)

Definition xQueueGenericSendFromISR (q : nat) (pvItemToQueue : option (list Z)) (woken : bool) (xCopyPosition : Z)
    : KM (Z * bool) :=
  configASSERT (negb (q =? 0)%nat);;
  x ← get_queue q;
  configASSERT (negb (bool_decide (pvItemToQueue = None) && negb (uxItemSize x =? 0)));;
  configASSERT (negb ((xCopyPosition =? queueOVERWRITE) && negb (uxLength x =? 1)));;
  if (uxMessagesWaiting x <? uxLength x) || (xCopyPosition =? queueOVERWRITE) then
    prvCopyDataToQueue q pvItemToQueue xCopyPosition;;
    woken ←
      (if cTxLock x =? queueUNLOCKED then wake_from_isr (xTasksWaitingToReceive x) woken
       else prvIncrementQueueTxLock q (cTxLock x);; mret woken);
    mret (pdPASS, woken)
  else mret (errQUEUE_FULL, woken).

Definition xQueueGiveFromISR (q : nat) (woken : bool) : KM (Z * bool) :=
  configASSERT (negb (q =? 0)%nat);;
  x ← get_queue q;
  configASSERT (uxItemSize x =? 0);;
  held ← (if is_mutex x then h ← mutex_holder x; mret (bool_decide (h <> None)) else mret false);
  configASSERT (negb held);;
  if uxMessagesWaiting x <? uxLength x then
    put_queue q (set_uxMessagesWaiting (u32 (uxMessagesWaiting x + 1)) x);;
    woken ←
      (if cTxLock x =? queueUNLOCKED then wake_from_isr (xTasksWaitingToReceive x) woken
       else prvIncrementQueueTxLock q (cTxLock x);; mret woken);
    mret (pdPASS, woken)
  else mret (errQUEUE_FULL, woken).

(** [pvBuffer] is a flag: whether the pointer is not null. *)
Definition xQueueReceiveFromISR (q : nat) (pvBuffer woken : bool) : KM (Z * list Z * bool) :=
  configASSERT (negb (q =? 0)%nat);;
  x ← get_queue q;
  configASSERT (negb (negb pvBuffer && negb (uxItemSize x =? 0)));;
  if 0 <? uxMessagesWaiting x then
    data ← prvCopyDataFromQueue q;
    y ← get_queue q;
    put_queue q (set_uxMessagesWaiting (u32 (uxMessagesWaiting x - 1)) y);;
    woken ←
      (if cRxLock x =? queueUNLOCKED then wake_from_isr (xTasksWaitingToSend x) woken
       else prvIncrementQueueRxLock q (cRxLock x);; mret woken);
    mret (pdPASS, data, woken)
  else mret (pdFAIL, [], woken).

Definition xQueuePeekFromISR (q : nat) (pvBuffer : bool) : KM (Z * list Z) :=
  configASSERT (negb (q =? 0)%nat);;
  x ← get_queue q;
  configASSERT (negb (negb pvBuffer && negb (uxItemSize x =? 0)));;
  configASSERT (negb (uxItemSize x =? 0));;
  if 0 <? uxMessagesWaiting x then
    data ← prvCopyDataFromQueue q;
    y ← get_queue q;
    put_queue q (set_q_union (q_union x) y);;
    mret (pdPASS, data)
  else mret (pdFAIL, []).

Definition uxQueueMessagesWaitingFromISR (q : nat) : KM Z :=
  configASSERT (negb (q =? 0)%nat);; x ← get_queue q; mret (uxMessagesWaiting x).

(** ** The functions that can block *)

(** The calls of the four functions. *)
Inductive queue_op : Set :=
  | OpSend (pvItemToQueue : option (list Z)) (xCopyPosition : Z)
  | OpReceive
  | OpTake
  | OpPeek.

(** Why the queue is unlocked again. *)
Inductive unlocking : Set := Placed | TryAgain | TimedOut.

(** The places in the loop between which others can run. *)
Inductive wait_pc : Set :=
  | WaitTry
  | WaitSuspend
  | WaitLock
  | WaitCheck
  | WaitTest
  | WaitInherit
  | WaitPlace
  | WaitUnlockTx (u : unlocking)
  | WaitUnlockRx (u : unlocking)
  | WaitResume (u : unlocking)
  | WaitExpired
  | WaitDisinherit
  | WaitDone (xReturn : Z) (data : list Z).

(** [xTicksToWait], [xTimeOut] once [xEntryTimeSet], [xInheritanceOccurred] *)
Record wait_state : Set := mkWait {
  w_pc : wait_pc;
  w_ticks : Z;
  w_timeout : option TimeOut_t;
  w_inherited : bool;
}.

Definition at_pc (pc : wait_pc) (s : wait_state) : wait_state := mkWait pc (w_ticks s) (w_timeout s) (w_inherited s).

(** There is nothing to do in the first critical section but to wait. *)
Definition must_wait (s : wait_state) : KM wait_state :=
  if w_ticks s =? 0 then mret (at_pc (WaitDone errQUEUE_FULL []) s)
  else
    match w_timeout s with
    | None => o ← vTaskSetTimeOutState; mret (mkWait WaitSuspend (w_ticks s) (Some o) (w_inherited s))
    | Some _ => mret (at_pc WaitSuspend s)
    end.

(** The first critical section of the loop of each function. *)
Definition send_try (q : nat) (pvItemToQueue : option (list Z)) (xCopyPosition : Z) (s : wait_state) : KM wait_state :=
  x ← get_queue q;
  if (uxMessagesWaiting x <? uxLength x) || (xCopyPosition =? queueOVERWRITE) then
    xYieldRequired ← prvCopyDataToQueue q pvItemToQueue xCopyPosition;
    b ← wake_and_yield (xTasksWaitingToReceive x);
    when (negb b && xYieldRequired) portYIELD_WITHIN_API;;
    mret (at_pc (WaitDone pdPASS []) s)
  else must_wait s.

Definition receive_try (q : nat) (s : wait_state) : KM wait_state :=
  x ← get_queue q;
  if 0 <? uxMessagesWaiting x then
    data ← prvCopyDataFromQueue q;
    y ← get_queue q;
    put_queue q (set_uxMessagesWaiting (u32 (uxMessagesWaiting x - 1)) y);;
    wake_and_yield (xTasksWaitingToSend x);;
    mret (at_pc (WaitDone pdPASS data) s)
  else must_wait s.

Definition take_try (q : nat) (s : wait_state) : KM wait_state :=
  x ← get_queue q;
  if 0 <? uxMessagesWaiting x then
    put_queue q (set_uxMessagesWaiting (u32 (uxMessagesWaiting x - 1)) x);;
    (if is_mutex x then
       n ← recursive_count x;
       h ← pvTaskIncrementMutexHeldCount;
       y ← get_queue q;
       put_queue q (set_q_union (u_xSemaphore h n) y)
     else mret tt);;
    wake_and_yield (xTasksWaitingToSend x);;
    mret (at_pc (WaitDone pdPASS []) s)
  else must_wait s.

Definition peek_try (q : nat) (s : wait_state) : KM wait_state :=
  x ← get_queue q;
  if 0 <? uxMessagesWaiting x then
    data ← prvCopyDataFromQueue q;
    y ← get_queue q;
    put_queue q (set_q_union (q_union x) y);;
    wake_and_yield (xTasksWaitingToReceive x);;
    mret (at_pc (WaitDone pdPASS data) s)
  else must_wait s.

Definition op_try (op : queue_op) (q : nat) (s : wait_state) : KM wait_state :=
  match op with
  | OpSend item pos => send_try q item pos s
  | OpReceive => receive_try q s
  | OpTake => take_try q s
  | OpPeek => peek_try q s
  end.

(** Whether the task still has to wait, and on which list. *)
Definition op_blocked (op : queue_op) (q : nat) : KM bool :=
  match op with OpSend _ _ => prvIsQueueFull q | _ => prvIsQueueEmpty q end.
Definition op_list (op : queue_op) (x : Queue_t) : nat :=
  match op with OpSend _ _ => xTasksWaitingToSend x | _ => xTasksWaitingToReceive x end.

(** [prvGetDisinheritPriorityAfterTimeout] *)
Definition prvGetDisinheritPriorityAfterTimeout (q : nat) : KM Z :=
  x ← get_queue q;
  n ← ask_lists (listCURRENT_LIST_LENGTH (xTasksWaitingToReceive x));
  if 0 <? n then
    v ← ask_lists (listGET_ITEM_VALUE_OF_HEAD_ENTRY (xTasksWaitingToReceive x));
    mret (u32 (configMAX_PRIORITIES - v))
  else mret 0.

Definition wait_step (op : queue_op) (q : nat) (s : wait_state) : KM wait_state :=
  match w_pc s with
  | WaitTry => op_try op q s
  | WaitSuspend => vTaskSuspendAll;; mret (at_pc WaitLock s)
  | WaitLock => prvLockQueue q;; mret (at_pc WaitCheck s)
  | WaitCheck =>
      match w_timeout s with
      | None => fault WildHostPointer
      | Some o =>
          '(expired, o, n) ← xTaskCheckForTimeOut o (w_ticks s);
          mret (mkWait (if expired : bool then WaitUnlockTx TimedOut else WaitTest) n (Some o) (w_inherited s))
      end
  | WaitTest =>
      b ← op_blocked op q;
      if b : bool then
        x ← get_queue q;
        mret (at_pc (match op with OpTake => if is_mutex x then WaitInherit else WaitPlace | _ => WaitPlace end) s)
      else mret (at_pc (WaitUnlockTx TryAgain) s)
  | WaitInherit =>
      x ← get_queue q;
      h ← mutex_holder x;
      b ← xTaskPriorityInherit h;
      mret (mkWait WaitPlace (w_ticks s) (w_timeout s) b)
  | WaitPlace =>
      x ← get_queue q;
      vTaskPlaceOnEventList (op_list op x) (w_ticks s);;
      mret (at_pc (WaitUnlockTx Placed) s)
  | WaitUnlockTx u => unlock_tx q;; mret (at_pc (WaitUnlockRx u) s)
  | WaitUnlockRx u => unlock_rx q;; mret (at_pc (WaitResume u) s)
  | WaitResume u =>
      b ← xTaskResumeAll;
      match u with
      | Placed => when (negb b) portYIELD_WITHIN_API;; mret (at_pc WaitTry s)
      | TryAgain => mret (at_pc WaitTry s)
      | TimedOut =>
          mret (at_pc (match op with OpSend _ _ => WaitDone errQUEUE_FULL [] | _ => WaitExpired end) s)
      end
  | WaitExpired =>
      e ← prvIsQueueEmpty q;
      mret (at_pc (if e : bool then
                     match op with
                     | OpTake => if w_inherited s then WaitDisinherit else WaitDone errQUEUE_EMPTY []
                     | _ => WaitDone errQUEUE_EMPTY []
                     end
                   else WaitTry) s)
  | WaitDisinherit =>
      p ← prvGetDisinheritPriorityAfterTimeout q;
      x ← get_queue q;
      h ← mutex_holder x;
      vTaskPriorityDisinheritAfterTimeout h p;;
      mret (at_pc (WaitDone errQUEUE_EMPTY []) s)
  | WaitDone _ _ => mret s
  end.

Definition wait_start (ticks : Z) : wait_state := mkWait WaitTry ticks None false.

(** A task cannot block while the scheduler is suspended. *)
Definition assert_can_block (xTicksToWait : Z) : KM unit :=
  st ← xTaskGetSchedulerState;
  configASSERT (negb ((st =? taskSCHEDULER_SUSPENDED) && negb (xTicksToWait =? 0))).

(** The checks before the loop of each function. *)
Definition op_start (op : queue_op) (q : nat) (pvBuffer : bool) (xTicksToWait : Z) : KM wait_state :=
  configASSERT (negb (q =? 0)%nat);;
  x ← get_queue q;
  match op with
  | OpSend item pos =>
      configASSERT (negb (bool_decide (item = None) && negb (uxItemSize x =? 0)));;
      configASSERT (negb ((pos =? queueOVERWRITE) && negb (uxLength x =? 1)))
  | OpReceive | OpPeek => configASSERT (negb (negb pvBuffer && negb (uxItemSize x =? 0)))
  | OpTake => configASSERT (uxItemSize x =? 0)
  end;;
  assert_can_block xTicksToWait;;
  mret (wait_start xTicksToWait).

(** A call that does not block: the first pass of the loop returns. *)
Definition call_now (op : queue_op) (q : nat) : KM (Z * list Z) :=
  s ← op_start op q true 0;
  s ← wait_step op q s;
  match w_pc s with WaitDone r data => mret (r, data) | _ => fault OutOfFuel end.

(** [xQueueGenericSend] with no block time *)
Definition send_now (q : nat) (pvItemToQueue : option (list Z)) (xCopyPosition : Z) : KM Z :=
  '(r, _) ← call_now (OpSend pvItemToQueue xCopyPosition) q; mret r.

(** ** Mutexes *)

Definition prvInitialiseMutex (q : option nat) : KM unit :=
  match q with
  | Some q =>
      x ← get_queue q;
      put_queue q (set_pcHead None (set_q_union (u_xSemaphore None 0) x));;
      send_now q None queueSEND_TO_BACK;;
      mret tt
  | None => mret tt
  end.

Definition xQueueCreateMutex (ucHeap ucQueueType : Z) : KM (option nat) :=
  xNewQueue ← xQueueGenericCreate ucHeap 1 0 ucQueueType;
  prvInitialiseMutex xNewQueue;;
  mret xNewQueue.

(** [xQueueGetMutexHolder] and [xQueueGetMutexHolderFromISR] *)
Definition xQueueGetMutexHolder (q : nat) : KM (option nat) :=
  configASSERT (negb (q =? 0)%nat);;
  x ← get_queue q;
  if is_mutex x then mutex_holder x else mret None.

Definition xQueueGiveMutexRecursive (q : nat) : KM Z :=
  configASSERT (negb (q =? 0)%nat);;
  x ← get_queue q;
  h ← mutex_holder x;
  c ← gets pxCurrentTCB;
  if bool_decide (h = c) then
    n ← recursive_count x;
    let n := u32 (n - 1) in
    put_queue q (set_q_union (u_xSemaphore h n) x);;
    (if n =? 0 then send_now q None queueSEND_TO_BACK;; mret tt else mret tt);;
    mret pdPASS
  else mret pdFAIL.

(** [xQueueTakeMutexRecursive], up to the call of [xQueueSemaphoreTake] when the
    running task is not the holder, and after it. *)
Definition take_recursive_enter (q : nat) (xTicksToWait : Z) : KM (Z + wait_state) :=
  configASSERT (negb (q =? 0)%nat);;
  x ← get_queue q;
  h ← mutex_holder x;
  c ← gets pxCurrentTCB;
  if bool_decide (h = c) then
    n ← recursive_count x;
    put_queue q (set_q_union (u_xSemaphore h (u32 (n + 1))) x);;
    mret (inl pdPASS)
  else s ← op_start OpTake q true xTicksToWait; mret (inr s).

Definition take_recursive_leave (q : nat) (xReturn : Z) : KM Z :=
  (if negb (xReturn =? pdFAIL) then
     x ← get_queue q;
     h ← mutex_holder x;
     n ← recursive_count x;
     put_queue q (set_q_union (u_xSemaphore h (u32 (n + 1))) x)
   else mret tt);;
  mret xReturn.

(** ** The registry, deletion and the timer service *)

(** The entry that [vQueueAddToRegistry] writes: that of the queue, or the first
    vacant one. *)
Fixpoint registry_slot (q : nat) (i : nat) (found : option nat) (r : list QueueRegistryItem_t) : option nat :=
  match r with
  | [] => found
  | e :: r =>
      if (q =? xHandle e)%nat then Some i
      else registry_slot q (S i)
             (if bool_decide (found = None) && bool_decide (pcQueueName e = None) then Some i else found) r
  end.

Definition set_registry (r : list QueueRegistryItem_t) : KM unit :=
  modify (fun k => set_k_objects (set_xQueueRegistry r (k_objects k)) k).

Definition vQueueAddToRegistry (q : nat) (name : option (list Z)) : KM unit :=
  configASSERT (negb (q =? 0)%nat);;
  r ← gets (fun k => xQueueRegistry (k_objects k));
  match name with
  | None => mret tt
  | Some _ =>
      match registry_slot q 0 None r with
      | Some i => set_registry (<[i := mkRegistryItem name q]> r)
      | None => mret tt
      end
  end.

Definition pcQueueGetName (q : nat) : KM (option (list Z)) :=
  configASSERT (negb (q =? 0)%nat);;
  r ← gets (fun k => xQueueRegistry (k_objects k));
  mret (match list_find (fun e => xHandle e = q) r with Some (_, e) => pcQueueName e | None => None end).

Definition vQueueUnregisterQueue (q : nat) : KM unit :=
  configASSERT (negb (q =? 0)%nat);;
  r ← gets (fun k => xQueueRegistry (k_objects k));
  match list_find (fun e => xHandle e = q) r with
  | Some (i, _) => set_registry (<[i := mkRegistryItem None 0]> r)
  | None => mret tt
  end.

Definition vQueueDelete (q : nat) : KM unit :=
  configASSERT (negb (q =? 0)%nat);;
  vQueueUnregisterQueue q;;
  free (Z.of_nat q).

Definition vQueueWaitForMessageRestricted (q : nat) (xTicksToWait : Z) (xWaitIndefinitely : bool) : KM unit :=
  prvLockQueue q;;
  x ← get_queue q;
  (if uxMessagesWaiting x =? 0 then
     vTaskPlaceOnEventListRestricted (xTasksWaitingToReceive x) xTicksToWait xWaitIndefinitely
   else mret tt);;
  prvUnlockQueue q.
