(* ===== verification/FreeRTOSQueueFrame.v ===== *)
(** * What the queue functions leave alone

    The functions of [queue.c] wake tasks at most, leave the running task and
    the suspension of the scheduler alone, and when they cause a switch to be
    due they ask for it, or tell the interrupt that called them. *)

From S2P Require Import Prelude FreeRTOSList FreeRTOSListTheory FreeRTOSListStore FreeRTOSListFrame FreeRTOSHeap.
From S2P Require Import FreeRTOSObjects FreeRTOSTasks FreeRTOSTasksTheory FreeRTOSTasksCalls FreeRTOSTasksInvariant.
From S2P Require Import FreeRTOSTasksTime FreeRTOSTasksFrame FreeRTOSTasksRouse FreeRTOSQueue.

Lemma ko_get_queue {V} (view : kernel -> V) q : keeps_part view (get_queue q).
Proof. intros k a k'. unfold get_queue. by destruct (_ !! _); intros [= <- <-]. Qed.
#[export] Hint Resolve ko_get_queue : objects.
#[export] Hint Extern 1 (keeps_part _ (put_queue _ _)) => by apply ko_modify : objects.

Lemma ko_copy_item {V} (view : kernel -> V) q x d p : keeps_part view (copy_item q x d p).
Proof. unfold copy_item, fault. repeat keep_step. Qed.
#[export] Hint Resolve ko_copy_item : objects.

(** ** Waking *)

(** The running task goes on, and other tasks are woken at most. *)
Record quiet (k k' : kernel) : Prop := {
  qt_current : pxCurrentTCB k' = pxCurrentTCB k;
  qt_suspended : uxSchedulerSuspended k' = uxSchedulerSuspended k;
  qt_rouses : priorities (k_tcbs k) -> rouses k k';
  qt_steady : steady k k';
  qt_sheds : uxSchedulerSuspended k = 0 -> forall t l, in_list k' (xEventListItem t) l -> in_list k (xEventListItem t) l;
}.

Lemma quiet_trans k1 k2 k3 : quiet k1 k2 -> quiet k2 k3 -> quiet k1 k3.
Proof.
  intros [C1 S1 R1 T1 D1] [C2 S2 R2 T2 D2]. split; [congruence|congruence|..].
  - intros HP. specialize (R1 HP). apply (rouses_trans _ _ k2); [done|]. apply R2, (priorities_view (k_tcbs k1)), HP. apply R1.
  - intros c Hs Hc. destruct (T1 c Hs Hc) as [E1 E2]. rewrite <- S1 in Hs. destruct (T2 c Hs E1) as [E3 E4]. by rewrite E3, E4.
  - intros Hs t l Hin. apply D1; [done|]. apply D2; [congruence|done].
Qed.

Definition still (k : kernel) := (k_tcbs k, k_lists k, pxCurrentTCB k, uxSchedulerSuspended k).

Lemma quiet_still k k' : still k' = still k -> quiet k k'.
Proof.
  unfold still. intros [= E1 E2 E3 E4]. split; [done|done|intros _; by apply touches_rouses, touches_same|by apply steady_lists|].
  intros _ t l. unfold in_list. by rewrite E2.
Qed.

Definition quietly {A} (m : KM A) : Prop := forall k a k', m k = Ok (a, k') -> quiet k k'.

Lemma quietly_bind {A B} (m : KM A) (f : A -> KM B) : quietly m -> (forall a, quietly (f a)) -> quietly (m ≫= f).
Proof. intros Hm Hf k b k' (a & k1 & E & H)%bind_ok. apply (quiet_trans _ k1); [by apply (Hm _ a)|by apply (Hf a _ b)]. Qed.

Lemma quietly_still {A} (m : KM A) : keeps_part still m -> quietly m.
Proof. intros H k a k' E. apply quiet_still. by apply (H k a). Qed.

Create HintDb quietly.

Ltac quiet_step :=
  lazymatch goal with
  | |- quietly (_ ≫= _) => apply quietly_bind; [|intros ?]
  | |- quietly (when ?b _) => destruct b; unfold when
  | |- quietly (match ?x with _ => _ end) => destruct x
  | |- quietly (let _ := _ in _) => cbv zeta
  | |- quietly _ => first [solve [apply quietly_still; repeat keep_step] | solve [auto with quietly nocore]]
  end.

Lemma quietly_systick : quietly xPortSysTickHandler.
Proof.
  intros k u k' E. injection (kc_systick _ _ _ E) as Ec Es. split; [done|done| | |].
  - by apply (rouse_systick k u).
  - intros c Hs Hc. by rewrite (systick_suspended k u k' E Hs).
  - intros _. by apply (shed_systick k u).
Qed.

Lemma quietly_remove_event l : quietly (xTaskRemoveFromEventList l).
Proof.
  intros k b k' E. injection (kc_remove_event l _ _ _ E) as Ec Es. split; [done|done| | |].
  - by apply (rouse_remove_event l k b).
  - by apply (steady_remove_event l k b).
  - by apply (shed_remove_event l k b).
Qed.
#[export] Hint Resolve quietly_remove_event : quietly.

Lemma quietly_wake_and_yield l : quietly (wake_and_yield l).
Proof. unfold wake_and_yield. repeat quiet_step. Qed.

Lemma quietly_wake_from_isr l w : quietly (wake_from_isr l w).
Proof. unfold wake_from_isr. repeat quiet_step. Qed.
#[export] Hint Resolve quietly_wake_and_yield quietly_wake_from_isr : quietly.

Lemma quietly_unlock_wake n l : quietly (unlock_wake n l).
Proof. induction n as [|n IH]; cbn [unlock_wake]; unfold vTaskMissedYield; repeat quiet_step. Qed.
#[export] Hint Resolve quietly_unlock_wake : quietly.

Lemma quietly_unlock_tx q : quietly (unlock_tx q).
Proof. unfold unlock_tx. repeat quiet_step. Qed.

Lemma quietly_unlock_rx q : quietly (unlock_rx q).
Proof. unfold unlock_rx. repeat quiet_step. Qed.

Lemma quietly_lock q : quietly (prvLockQueue q).
Proof. unfold prvLockQueue. repeat quiet_step. Qed.

Lemma quietly_must_wait s : quietly (must_wait s).
Proof. unfold must_wait, vTaskSetTimeOutState. repeat quiet_step. Qed.

Lemma quietly_increment (rx : bool) q lock : quietly (if rx then prvIncrementQueueRxLock q lock else prvIncrementQueueTxLock q lock).
Proof. destruct rx; unfold prvIncrementQueueRxLock, prvIncrementQueueTxLock; repeat quiet_step. Qed.

Lemma quietly_increment_tx q lock : quietly (prvIncrementQueueTxLock q lock).
Proof. apply (quietly_increment false). Qed.

Lemma quietly_increment_rx q lock : quietly (prvIncrementQueueRxLock q lock).
Proof. apply (quietly_increment true). Qed.

Lemma quietly_copy_from q : quietly (prvCopyDataFromQueue q).
Proof. unfold prvCopyDataFromQueue, fault. repeat quiet_step. Qed.
#[export] Hint Resolve quietly_must_wait quietly_increment_tx quietly_increment_rx quietly_copy_from : quietly.

(** ** Requests to switch *)

Definition calm (k : kernel) := (still k, xYieldPending k, pendsv k).

(** A switch that is due has been asked for. *)
Definition asks (k k' : kernel) : Prop :=
  (xYieldPending k' = true -> xYieldPending k = true \/ pendsv k' = true) /\ (pendsv k = true -> pendsv k' = true).

(** The interrupt that made the call is told, and asks itself. *)
Definition tells (w : bool) (k k' : kernel) : Prop :=
  (xYieldPending k' = true -> xYieldPending k = true \/ w = true) /\ pendsv k' = pendsv k.

Lemma asks_trans k1 k2 k3 : asks k1 k2 -> asks k2 k3 -> asks k1 k3.
Proof. intros [A1 B1] [A2 B2]. split; [|auto]. intros H. destruct (A2 H) as [H2|]; [|by right]. destruct (A1 H2); auto. Qed.

Lemma asks_calm k k' : calm k' = calm k -> asks k k'.
Proof. unfold calm, still. intros [= _ _ _ _ E1 E2]. unfold asks. rewrite E1, E2. auto. Qed.

Lemma kp_add_ready t : keeps_part pendsv (prvAddTaskToReadyList t).
Proof. unfold prvAddTaskToReadyList, taskRECORD_READY_PRIORITY. repeat keep_step. Qed.
#[export] Hint Resolve kp_add_ready : objects.

Lemma tells_remove_event l k b k' : xTaskRemoveFromEventList l k = Ok (b, k') -> tells b k k'.
Proof.
  intros E. split; [by apply (remove_yield l k)|]. revert E. generalize k b k'. change (keeps_part pendsv (xTaskRemoveFromEventList l)).
  keep xTaskRemoveFromEventList.
Qed.

Lemma asks_wake_and_yield l k b k' : wake_and_yield l k = Ok (b, k') -> asks k k'.
Proof.
  unfold wake_and_yield. intros (e & k1 & [-> _]%ask_ok & H)%bind_ok. destruct e; [injection H as <- <-; by apply asks_calm|].
  apply bind_ok in H as (r & k1 & [A B]%tells_remove_event & H). apply bind_ok in H as ([] & k2 & E & [= <- <-]).
  destruct r; cbn [when] in E; injection E as <-; split; kcbn; [by right|done| |congruence].
  intros H. by destruct (A H) as [?|?]; [left|].
Qed.

Lemma tells_wake_from_isr l w k b k' : wake_from_isr l w k = Ok (b, k') -> tells b k k'.
Proof.
  unfold wake_from_isr. intros (e & k1 & [-> _]%ask_ok & H)%bind_ok. destruct e; [injection H as <- <-; by split; [left|]|].
  apply bind_ok in H as (r & k1 & [A B]%tells_remove_event & H). injection H as <- <-. split; [|done].
  intros H. destruct (A H) as [?| ->]; [by left|right; apply orb_true_r].
Qed.

(** ** Calls on a queue that is not a mutex *)

Lemma get_queue_ok q k x k' : get_queue q k = Ok (x, k') -> k' = k /\ o_queues (k_objects k) !! q = Some x.
Proof. unfold get_queue. by destruct (o_queues (k_objects k) !! q); intros [= <- <-]. Qed.

Lemma copy_to_calm q x i p k b k' :
  o_queues (k_objects k) !! q = Some x -> is_mutex x = false -> prvCopyDataToQueue q i p k = Ok (b, k') -> calm k' = calm k.
Proof.
  intros Hx Hm. unfold prvCopyDataToQueue. intros (y & k1 & [-> Hy]%get_queue_ok & H)%bind_ok. simplify_eq. cbv zeta in H. revert H.
  destruct (_ =? 0); [rewrite Hm|]; generalize k b k';
    match goal with |- forall k b k', ?m k = Ok (b, k') -> _ => change (keeps_part calm m) end.
  - repeat keep_step.
  - unfold fault. repeat keep_step.
Qed.

Lemma copy_to_false q x i p k b k' :
  o_queues (k_objects k) !! q = Some x -> is_mutex x = false -> prvCopyDataToQueue q i p k = Ok (b, k') -> b = false.
Proof.
  intros Hx Hm. unfold prvCopyDataToQueue. intros (y & k1 & [-> Hy]%get_queue_ok & H)%bind_ok. simplify_eq. cbv zeta in H. revert H.
  destruct (_ =? 0); [rewrite Hm|].
  - intros (r & k1 & [= <- <-] & H)%bind_ok. apply bind_ok in H as (? & ? & _ & H). by apply bind_ok in H as (? & ? & _ & [= <- <-]).
  - destruct i; [|done]. intros (? & ? & _ & H)%bind_ok. by apply bind_ok in H as (? & ? & _ & [= <- <-]).
Qed.

Section Relation.
Context (R : kernel -> kernel -> Prop).
Hypothesis R_trans : forall k1 k2 k3, R k1 k2 -> R k2 k3 -> R k1 k3.
Hypothesis R_calm : forall k k', calm k' = calm k -> R k k'.
Hypothesis R_wake : forall l k b k', wake_and_yield l k = Ok (b, k') -> R k k'.

Lemma rel_keeps {A} (m : KM A) k a k' : keeps_part calm m -> m k = Ok (a, k') -> R k k'.
Proof. intros H E. by apply R_calm, (H k a). Qed.

Lemma rel_must_wait s k s' k' : must_wait s k = Ok (s', k') -> R k k'.
Proof. apply rel_keeps. unfold must_wait, vTaskSetTimeOutState. repeat keep_step. Qed.

Lemma rel_try op q s x k s' k' :
  o_queues (k_objects k) !! q = Some x -> is_mutex x = false -> op_try op q s k = Ok (s', k') -> R k k'.
Proof.
  intros Hx Hm. destruct op as [i p| | |]; cbn [op_try]; unfold send_try, receive_try, take_try, peek_try;
    intros (y & k0 & [-> Hy]%get_queue_ok & H)%bind_ok; rewrite Hx in Hy; injection Hy as <-;
    (match type of H with (if ?b then _ else _) _ = _ => destruct b; [|by apply rel_must_wait in H] end).
  - apply bind_ok in H as (b & k1 & E1 & H). apply (R_trans _ k1); [by apply R_calm, (copy_to_calm q x i p k b)|].
    rewrite (copy_to_false q x i p k b k1 Hx Hm E1) in H. apply bind_ok in H as (c & k2 & E2 & H). rewrite andb_false_r in H.
    apply bind_ok in H as ([] & k3 & [= <-] & [= <- <-]). by apply (R_wake _ _ c) in E2.
  - apply bind_ok in H as (d & k1 & E1 & H). apply bind_ok in H as (y & k2 & E2 & H). apply bind_ok in H as ([] & k3 & E3 & H).
    apply bind_ok in H as (b & k4 & E4 & [= <- <-]). apply (R_trans _ k3); [|by apply (R_wake _ _ b) in E4].
    apply (rel_keeps (d ← prvCopyDataFromQueue q; y ← get_queue q; put_queue q (set_uxMessagesWaiting (u32 (uxMessagesWaiting x - 1)) y)) k tt);
      [unfold prvCopyDataFromQueue, fault; repeat keep_step|]. unfold mbind, KM_bind. by rewrite E1, E2.
  - apply bind_ok in H as ([] & k1 & [= <-] & H). rewrite Hm in H. apply bind_ok in H as ([] & k2 & [= <-] & H).
    apply bind_ok in H as (b & k4 & E4 & [= <- <-]). eapply R_trans; [|by apply (R_wake _ _ b) in E4]. by apply R_calm.
  - apply bind_ok in H as (d & k1 & E1 & H). apply bind_ok in H as (y & k2 & E2 & H). apply bind_ok in H as ([] & k3 & E3 & H).
    apply bind_ok in H as (b & k4 & E4 & [= <- <-]). apply (R_trans _ k3); [|by apply (R_wake _ _ b) in E4].
    apply (rel_keeps (d ← prvCopyDataFromQueue q; y ← get_queue q; put_queue q (set_q_union (q_union x) y)) k tt);
      [unfold prvCopyDataFromQueue, fault; repeat keep_step|]. unfold mbind, KM_bind. by rewrite E1, E2.
Qed.

End Relation.

Lemma quiet_calm k k' : calm k' = calm k -> quiet k k'.
Proof. intros H. apply quiet_still. exact (f_equal (fun p => p.1.1) H). Qed.

Lemma quiet_try op q s x k s' k' :
  o_queues (k_objects k) !! q = Some x -> is_mutex x = false -> op_try op q s k = Ok (s', k') -> quiet k k'.
Proof. apply (rel_try quiet quiet_trans quiet_calm). intros l k0 b k1. apply quietly_wake_and_yield. Qed.

Lemma asks_try op q s x k s' k' :
  o_queues (k_objects k) !! q = Some x -> is_mutex x = false -> op_try op q s k = Ok (s', k') -> asks k k'.
Proof. apply (rel_try asks asks_trans asks_calm asks_wake_and_yield). Qed.

(** ** Calls from interrupts *)

Lemma tells_calm w k k' : calm k' = calm k -> tells w k k'.
Proof. unfold calm, still. intros [= _ _ _ _ E1 E2]. unfold tells. rewrite E1, E2. auto. Qed.

Lemma calm_tells w k k1 k' : calm k1 = calm k -> tells w k1 k' -> tells w k k'.
Proof. unfold calm, still. intros [= _ _ _ _ E1 E2] [A B]. rewrite E1, E2 in *. done. Qed.

Section Interrupt.
Context (q : nat) (x : Queue_t) (k : kernel).
Hypothesis here : o_queues (k_objects k) !! q = Some x.
Hypothesis plain : is_mutex x = false.

(** The last part: a task is woken or the lock counts. *)
Lemma isr_tail_effect (rx : bool) l lock w k1 b k2 :
  calm k1 = calm k ->
  (if lock =? queueUNLOCKED then wake_from_isr l w
   else (if rx then prvIncrementQueueRxLock q lock else prvIncrementQueueTxLock q lock);; mret w) k1 = Ok (b, k2) ->
  quiet k k2 /\ tells b k k2.
Proof.
  intros Hc. destruct (_ =? _); intros H.
  - split; [apply (quiet_trans _ k1); [by apply quiet_calm|by apply (quietly_wake_from_isr l w _ b)]|].
    apply (calm_tells _ _ k1); [done|]. by apply (tells_wake_from_isr l w).
  - assert (calm k2 = calm k1) as E.
    { revert H. generalize k1 b k2. match goal with |- forall k b k', ?m k = Ok (b, k') -> _ => change (keeps_part calm m) end.
      destruct rx; unfold prvIncrementQueueRxLock, prvIncrementQueueTxLock; repeat keep_step. }
    split; [apply quiet_calm|apply tells_calm]; congruence.
Qed.

Lemma isr_send_effect i p r w k' :
  xQueueGenericSendFromISR q i false p k = Ok ((r, w), k') -> quiet k k' /\ tells w k k'.
Proof.
  unfold xQueueGenericSendFromISR. intros (? & k0 & E0 & H)%bind_ok. apply (ko_lift (fun k => k)) in E0 as ->.
  apply bind_ok in H as (y & k1 & [-> Hy]%get_queue_ok & H). rewrite here in Hy. injection Hy as <-.
  do 2 (apply bind_ok in H as (? & ? & E0 & H); apply (ko_lift (fun k => k)) in E0 as ->).
  destruct (_ || _).
  - apply bind_ok in H as (b & k1 & E1 & H). apply bind_ok in H as (w' & k2 & E2 & [= <- <- <-]).
    apply (isr_tail_effect false _ _ _ k1 w' k2) in E2; [done|]. by apply (copy_to_calm q x i p k b).
  - injection H as <- <- <-. split; [by apply quiet_calm|by apply tells_calm].
Qed.

Lemma isr_give_effect r w k' : xQueueGiveFromISR q false k = Ok ((r, w), k') -> quiet k k' /\ tells w k k'.
Proof.
  unfold xQueueGiveFromISR. intros (? & k0 & E0 & H)%bind_ok. apply (ko_lift (fun k => k)) in E0 as ->.
  apply bind_ok in H as (y & k1 & [-> Hy]%get_queue_ok & H). rewrite here in Hy. injection Hy as <-.
  apply bind_ok in H as (? & ? & E0 & H); apply (ko_lift (fun k => k)) in E0 as ->. rewrite plain in H.
  apply bind_ok in H as (? & k1 & [= <- <-] & H).
  apply bind_ok in H as (? & ? & E0 & H); apply (ko_lift (fun k => k)) in E0 as ->.
  destruct (_ <? _).
  - apply bind_ok in H as ([] & k1 & E1 & H). apply bind_ok in H as (w' & k2 & E2 & [= <- <- <-]).
    apply (isr_tail_effect false _ _ _ k1 w' k2) in E2; [done|]. by injection E1 as <-.
  - injection H as <- <- <-. split; [by apply quiet_calm|by apply tells_calm].
Qed.

Lemma isr_receive_effect r d w k' :
  xQueueReceiveFromISR q true false k = Ok ((r, d, w), k') -> quiet k k' /\ tells w k k'.
Proof.
  unfold xQueueReceiveFromISR. intros (? & k0 & E0 & H)%bind_ok. apply (ko_lift (fun k => k)) in E0 as ->.
  apply bind_ok in H as (y & k1 & [-> Hy]%get_queue_ok & H). rewrite here in Hy. injection Hy as <-.
  apply bind_ok in H as (? & ? & E0 & H); apply (ko_lift (fun k => k)) in E0 as ->.
  destruct (_ <? _).
  - apply bind_ok in H as (d' & k1 & E1 & H). apply bind_ok in H as (y & k2 & E2 & H). apply bind_ok in H as ([] & k3 & E3 & H).
    apply bind_ok in H as (w' & k4 & E4 & [= <- <- <- <-]).
    apply (isr_tail_effect true _ _ _ k3 w' k4) in E4; [done|].
    assert (keeps_part calm (d ← prvCopyDataFromQueue q; y ← get_queue q; put_queue q (set_uxMessagesWaiting (u32 (uxMessagesWaiting x - 1)) y))) as HK
      by (unfold prvCopyDataFromQueue, fault; repeat keep_step).
    apply (HK k tt). unfold mbind, KM_bind. by rewrite E1, E2.
  - injection H as <- <- <- <-. split; [by apply quiet_calm|by apply tells_calm].
Qed.

End Interrupt.

Lemma isr_peek_calm q b : keeps_part calm (xQueuePeekFromISR q b).
Proof. unfold xQueuePeekFromISR, prvCopyDataFromQueue, fault. repeat keep_step. Qed.
