(* ===== verification/FreeRTOSQueueTheory.v ===== *)
(** * The storage of a queue

    A queue holds the sequence [contents] of its items.  The two copies of
    [queue.c] append, prepend or replace an item and take the first one; the
    storage area is a ring whose write position is the read position plus the
    number of messages. *)

From S2P Require Import Prelude CMemory FreeRTOSList FreeRTOSHeap FreeRTOSObjects FreeRTOSTasks.
From S2P Require Import FreeRTOSTasksTheory FreeRTOSQueue.

(** ** Arrays of items *)

Definition chunk (s : nat) (st : list Z) (i : nat) : list Z := take s (drop (i * s) st).

Lemma chunk_write s (st item : list Z) i j :
  length item = s -> (i * s + s <= length st)%nat ->
  chunk s (take (i * s) st ++ item ++ drop (i * s + s) st) j = if decide (j = i) then item else chunk s st j.
Proof.
  intros Hi Hst. assert (length (take (i * s) st) = (i * s)%nat) as Ht by (rewrite length_take; lia). unfold chunk.
  destruct (decide (j = i)) as [->|Hne].
  - rewrite drop_app_length' by done. by rewrite take_app_length' by done.
  - destruct (decide (j < i)%nat).
    + assert (j * s + s <= i * s)%nat by nia. rewrite !take_drop_commute, take_app_le by lia.
      rewrite take_take. do 2 f_equal. lia.
    + assert (i * s + s <= j * s)%nat by nia. rewrite drop_app_ge, drop_app_ge by lia.
      rewrite drop_drop. do 2 f_equal. lia.
Qed.

Lemma chunk_length s (st : list Z) i : (i * s + s <= length st)%nat -> length (chunk s st i) = s.
Proof. intros. unfold chunk. rewrite length_take, length_drop. lia. Qed.

(** ** Well-formed queues *)

Definition item_size (x : Queue_t) : nat := Z.to_nat (uxItemSize x).

(** The item in a place of the ring. *)
Definition slot (x : Queue_t) (i : Z) : list Z := chunk (item_size x) (q_storage x) (Z.to_nat (i mod uxLength x)).

(** The place [pcReadFrom] points to. *)
Definition read_place (x : Queue_t) : Z :=
  match pcHead x, q_union x with
  | Some head, u_xQueue _ from => (from - head) / uxItemSize x
  | _, _ => 0
  end.

(** The items of a queue, the oldest first. *)
Definition contents (x : Queue_t) : list (list Z) :=
  if uxItemSize x =? 0 then replicate (Z.to_nat (uxMessagesWaiting x)) []
  else (fun i => slot x (read_place x + 1 + Z.of_nat i)) <$> seq 0 (Z.to_nat (uxMessagesWaiting x)).

(** The pointers of a queue with items. *)
Record ring_ok (q : nat) (x : Queue_t) : Prop := {
  ri_head : pcHead x = Some (storage_start q);
  ri_union : q_union x = u_xQueue (storage_start q + uxLength x * uxItemSize x)
                                  (storage_start q + read_place x * uxItemSize x);
  ri_read : 0 <= read_place x < uxLength x;
  ri_write : pcWriteTo x = storage_start q + (read_place x + 1 + uxMessagesWaiting x) mod uxLength x * uxItemSize x;
  ri_storage : Z.of_nat (length (q_storage x)) = uxLength x * uxItemSize x;
}.

Record queue_ok (q : nat) (x : Queue_t) : Prop := {
  qo_length : 1 <= uxLength x < 2 ^ 32;
  qo_count : 0 <= uxMessagesWaiting x <= uxLength x;
  qo_size : 0 <= uxItemSize x;
  qo_tx : queueUNLOCKED <= cTxLock x <= queueINT8_MAX;
  qo_rx : queueUNLOCKED <= cRxLock x <= queueINT8_MAX;
  qo_ring : uxItemSize x <> 0 -> ring_ok q x;
  qo_semaphore : uxItemSize x = 0 -> is_mutex x = match q_union x with u_xSemaphore _ _ => true | u_xQueue _ _ => false end;
}.

Lemma queue_contents_length q x : queue_ok q x -> Z.of_nat (length (contents x)) = uxMessagesWaiting x.
Proof.
  intros H. pose proof (qo_count _ _ H). unfold contents.
  destruct (uxItemSize x =? 0); [rewrite length_replicate|rewrite length_fmap, length_seq]; lia.
Qed.

Section Ring.
Context (q : nat) (x : Queue_t).
Hypothesis ok : queue_ok q x.
Hypothesis sized : uxItemSize x <> 0.

Let s := item_size x.
Let len := uxLength x.
Let r := read_place x.
Let n := uxMessagesWaiting x.

Lemma ring_room i : 0 <= i < len -> (Z.to_nat i * s + s <= length (q_storage x))%nat.
Proof.
  intros Hi. pose proof (ri_storage _ _ (qo_ring _ _ ok sized)). pose proof (qo_size _ _ ok).
  assert (i * uxItemSize x + uxItemSize x <= uxLength x * uxItemSize x) by (unfold len in Hi; nia).
  unfold s, item_size. apply Nat2Z.inj_le. rewrite Nat2Z.inj_add, Nat2Z.inj_mul, !Z2Nat.id by lia. lia.
Qed.

Lemma mod_small_place i : 0 <= i < len -> i mod len = i.
Proof. apply Z.mod_small. Qed.

(** A copy of an item to a place of the ring. *)
Lemma memcpy_place i item :
  0 <= i < len -> length item = s ->
  exists st, memcpy (q_storage x) (storage_start q + i * uxItemSize x - storage_start q) item 0 (uxItemSize x) = Ok st /\
    length st = length (q_storage x) /\
    forall j, 0 <= j < len -> chunk s st (Z.to_nat j) = if decide (j = i) then item else chunk s (q_storage x) (Z.to_nat j).
Proof.
  intros Hi Hl. pose proof (ring_room i Hi) as Hroom. pose proof (qo_size _ _ ok) as Hs.
  assert (Z.of_nat s = uxItemSize x) as Hz by (unfold s, item_size; lia).
  assert (Z.of_nat (Z.to_nat i * s) = i * uxItemSize x) as Hii by (rewrite Nat2Z.inj_mul, Hz; lia).
  unfold memcpy. replace (storage_start q + i * uxItemSize x - storage_start q) with (i * uxItemSize x) by lia.
  rewrite !(proj2 (Z.leb_le _ _)) by lia. cbn [andb].
  replace (Z.to_nat (i * uxItemSize x)) with (Z.to_nat i * s)%nat by lia.
  replace (Z.to_nat (i * uxItemSize x + uxItemSize x)) with (Z.to_nat i * s + s)%nat by lia.
  replace (Z.to_nat (uxItemSize x)) with s by done. cbn [drop Z.to_nat]. rewrite drop_0, (take_ge item) by lia.
  eexists. split; [done|]. split; [rewrite !length_app, length_take, length_drop; lia|].
  intros j Hj. rewrite chunk_write by done. destruct (decide (j = i)) as [->|]; [by rewrite decide_True|].
  rewrite decide_False; [done|lia].
Qed.

End Ring.

(** ** The copies *)

(** The parts of a queue that no copy changes. *)
Record same_queue (x y : Queue_t) : Prop := {
  sq_send : xTasksWaitingToSend y = xTasksWaitingToSend x;
  sq_receive : xTasksWaitingToReceive y = xTasksWaitingToReceive x;
  sq_length : uxLength y = uxLength x;
  sq_size : uxItemSize y = uxItemSize x;
  sq_mutex : is_mutex y = is_mutex x;
}.

Lemma same_queue_refl x : same_queue x x.
Proof. by split. Qed.

Lemma same_queue_trans x y z : same_queue x y -> same_queue y z -> same_queue x z.
Proof. intros [] []. split; congruence. Qed.

Lemma same_queue_count x y n : same_queue x y -> same_queue x (set_uxMessagesWaiting n y).
Proof. intros []. by split. Qed.

Lemma mod_apart len a i j : 0 <= i < len -> 0 <= j < len -> (a + i) mod len = (a + j) mod len -> i = j.
Proof.
  intros Hi Hj E. assert ((i - j) mod len = 0) as H0.
  { replace (i - j) with (a + i - (a + j)) by lia. rewrite Zminus_mod, E, Z.sub_diag. apply Z.mod_0_l. lia. }
  apply Z.mod_divide in H0; [|lia]. destruct H0 as [c Hc]. assert (c = 0) by nia. lia.
Qed.

Section Copies.
Context (q : nat) (x : Queue_t).
Hypothesis ok : queue_ok q x.
Hypothesis sized : uxItemSize x <> 0.

Lemma ring_contents : contents x = (fun i => slot x (read_place x + 1 + Z.of_nat i)) <$> seq 0 (Z.to_nat (uxMessagesWaiting x)).
Proof. unfold contents. by rewrite (proj2 (Z.eqb_neq _ _) sized). Qed.

(** [pcReadFrom] of a queue as [read_place] computes it. *)
Lemma read_place_at y i tail :
  pcHead y = Some (storage_start q) -> uxItemSize y = uxItemSize x ->
  q_union y = u_xQueue tail (storage_start q + i * uxItemSize x) -> read_place y = i.
Proof.
  intros Hh Hs Hu. unfold read_place. rewrite Hh, Hu, Hs.
  replace (storage_start q + i * uxItemSize x - storage_start q) with (i * uxItemSize x) by lia. by apply Z.div_mul.
Qed.

Lemma copy_back item k :
  length item = item_size x -> uxMessagesWaiting x < uxLength x ->
  exists x', copy_item q x item queueSEND_TO_BACK k = Ok (x', k) /\
    let y := set_uxMessagesWaiting (uxMessagesWaiting x + 1) x' in
    queue_ok q y /\ contents y = contents x ++ [item] /\ same_queue x y.
Proof.
  intros Hl Hn. pose proof (qo_ring _ _ ok sized) as [Hh Hu Hr Hw Hst]. pose proof ok as [Hlen Hc Hs Htx Hrx _ _].
  set (w := (read_place x + 1 + uxMessagesWaiting x) mod uxLength x) in *.
  assert (0 <= w < uxLength x) as Hwr by (apply Z.mod_pos_bound; lia).
  destruct (memcpy_place q x ok sized w item Hwr Hl) as (st & E & Hls & Hch).
  unfold copy_item. rewrite Hh, Hu. change (queueSEND_TO_BACK =? queueSEND_TO_BACK) with true. cbn match.
  rewrite Hw. unfold mbind, KM_bind, lift. rewrite E. cbv beta zeta.
  eexists. split; [done|].
  set (y := set_uxMessagesWaiting _ _). assert (same_queue x y) as HS by (by split).
  assert (read_place y = read_place x) as Hry by (by eapply read_place_at; cbn).
  assert ((read_place x + 1 + (uxMessagesWaiting x + 1)) mod uxLength x =
          if (storage_start q + w * uxItemSize x + uxItemSize x >=? storage_start q + uxLength x * uxItemSize x)
          then 0 else w + 1) as Hwrap.
  { replace (read_place x + 1 + (uxMessagesWaiting x + 1)) with (read_place x + 1 + uxMessagesWaiting x + 1) by lia.
    rewrite Zplus_mod. fold w. destruct (Z.geb_spec (storage_start q + w * uxItemSize x + uxItemSize x)
      (storage_start q + uxLength x * uxItemSize x)) as [Hge|Hlt].
    - assert (w = uxLength x - 1) as -> by nia. rewrite Zplus_mod_idemp_r.
      replace (uxLength x - 1 + 1) with (uxLength x) by lia. apply Z.mod_same. lia.
    - assert (w + 1 < uxLength x) by nia. rewrite Zplus_mod_idemp_r. apply Z.mod_small. lia. }
  split; [|split; [|done]].
  - split; [done|cbn; lia|done|done|done| |done]. intros _. split; rewrite ?Hry; cbn; try done; [|lia].
    rewrite Hwrap. destruct (_ >=? _); lia.
  - assert (forall i, 0 <= i -> slot y i = if decide (i mod uxLength x = w) then item else slot x i) as Hslot.
    { intros i Hi. unfold slot. change (item_size y) with (item_size x). change (uxLength y) with (uxLength x).
      change (q_storage y) with st. apply Hch. apply Z.mod_pos_bound. lia. }
    unfold contents. change (uxItemSize y) with (uxItemSize x). rewrite (proj2 (Z.eqb_neq _ _) sized), Hry.
    change (uxMessagesWaiting y) with (uxMessagesWaiting x + 1).
    replace (Z.to_nat (uxMessagesWaiting x + 1)) with (Z.to_nat (uxMessagesWaiting x) + 1)%nat by lia.
    rewrite seq_app, fmap_app. f_equal.
    + apply list_fmap_ext. intros j i Hj. apply lookup_seq in Hj as [-> Hj]. rewrite Hslot by lia.
      rewrite decide_False; [done|]. unfold w. intros Hm. apply mod_apart in Hm; lia.
    + cbn [seq fmap list_fmap]. rewrite Hslot by lia. rewrite decide_True; [done|]. unfold w. f_equal. lia.
Qed.

(** The place before the first item, where an item goes to the front. *)
Lemma copy_before item pos k :
  length item = item_size x -> pos <> queueSEND_TO_BACK ->
  exists x', copy_item q x item pos k = Ok (x', k) /\ read_place x' = (read_place x - 1) mod uxLength x /\
    (forall n, 0 <= n <= uxLength x -> (read_place x + n) mod uxLength x = (read_place x + 1 + uxMessagesWaiting x) mod uxLength x ->
       queue_ok q (set_uxMessagesWaiting n x')) /\
    (forall i, 0 <= i -> slot x' i = if decide (i mod uxLength x = read_place x) then item else slot x i) /\
    same_queue x x'.
Proof.
  intros Hl Hpos. pose proof (qo_ring _ _ ok sized) as [Hh Hu Hr Hw Hst]. pose proof ok as [Hlen Hc Hs Htx Hrx _ _].
  destruct (memcpy_place q x ok sized (read_place x) item Hr Hl) as (st & E & Hls & Hch).
  unfold copy_item. rewrite Hh, Hu, (proj2 (Z.eqb_neq _ _) Hpos).
  unfold mbind, KM_bind, lift. rewrite E. cbv beta zeta. eexists. split; [done|].
  set (y := set_q_union _ _). assert (same_queue x y) as HS by (by split).
  assert ((read_place x - 1) mod uxLength x =
          if storage_start q + read_place x * uxItemSize x - uxItemSize x <? storage_start q
          then uxLength x - 1 else read_place x - 1) as Hwrap.
  { destruct (Z.ltb_spec (storage_start q + read_place x * uxItemSize x - uxItemSize x) (storage_start q)) as [Hlt|Hge].
    - assert (read_place x = 0) as -> by nia. symmetry. apply (Z.mod_unique _ _ (-1)); lia.
    - assert (1 <= read_place x) by nia. apply Z.mod_small. lia. }
  assert (read_place y = (read_place x - 1) mod uxLength x) as Hry.
  { eapply read_place_at; cbn; [done|done|]. rewrite Hwrap. destruct (_ <? _); f_equal; lia. }
  split; [done|]. split; [|split; [|done]].
  - intros n Hn Hmod. split; [done|done|done|done|done| |done]. intros _.
    assert (read_place (set_uxMessagesWaiting n y) = (read_place x - 1) mod uxLength x) as Hrz by exact Hry.
    split; rewrite ?Hrz; cbn; try done; [| | |lia].
    + rewrite Hwrap. destruct (_ <? _); f_equal; lia.
    + apply Z.mod_pos_bound. lia.
    + rewrite Hw, <- Hmod. do 2 f_equal.
      replace ((read_place x - 1) mod uxLength x + 1 + n) with ((read_place x - 1) mod uxLength x + (1 + n)) by lia.
      rewrite Zplus_mod_idemp_l. f_equal. lia.
  - intros i Hi. unfold slot. change (item_size y) with (item_size x). change (uxLength y) with (uxLength x).
    change (q_storage y) with st. apply Hch. apply Z.mod_pos_bound. lia.
Qed.

Lemma copy_front item k :
  length item = item_size x -> uxMessagesWaiting x < uxLength x ->
  exists x', copy_item q x item queueSEND_TO_FRONT k = Ok (x', k) /\
    let y := set_uxMessagesWaiting (uxMessagesWaiting x + 1) x' in
    queue_ok q y /\ contents y = item :: contents x /\ same_queue x y.
Proof.
  intros Hl Hn. pose proof ok as [Hlen Hc _ _ _ _ _]. pose proof (ri_read _ _ (qo_ring _ _ ok sized)) as Hr.
  destruct (copy_before item queueSEND_TO_FRONT k Hl ltac:(done)) as (x' & E & Hrp & Hok & Hslot & HS).
  exists x'. split; [done|]. split; [apply Hok; [lia|f_equal; lia]|]. split; [|by destruct HS].
  set (y := set_uxMessagesWaiting _ _). unfold contents. change (uxItemSize y) with (uxItemSize x').
  rewrite (sq_size _ _ HS), (proj2 (Z.eqb_neq _ _) sized). change (read_place y) with (read_place x').
  change (uxMessagesWaiting y) with (uxMessagesWaiting x + 1).
  replace (Z.to_nat (uxMessagesWaiting x + 1)) with (S (Z.to_nat (uxMessagesWaiting x))) by lia.
  assert (forall i, slot y (read_place x' + 1 + i) = slot x' (read_place x + i)) as Hsh.
  { intros i. change (slot y) with (slot x'). unfold slot. rewrite Hrp, (sq_length _ _ HS). do 2 f_equal.
    replace ((read_place x - 1) mod uxLength x + 1 + i) with ((read_place x - 1) mod uxLength x + (1 + i)) by lia.
    rewrite Zplus_mod_idemp_l. f_equal. lia. }
  rewrite <- cons_seq. cbn [fmap list_fmap]. f_equal.
  - rewrite Hsh, Hslot by lia. rewrite decide_True; [done|]. rewrite Z.add_0_r. by apply Z.mod_small.
  - rewrite <- fmap_S_seq, <- list_fmap_compose. apply list_fmap_ext. intros j i Hj. apply lookup_seq in Hj as [-> Hj].
    unfold compose. rewrite Hsh, Hslot by lia. rewrite decide_False; [f_equal; lia|].
    replace (read_place x) with (read_place x mod uxLength x) at 2 by (by apply Z.mod_small).
    replace (read_place x mod uxLength x) with ((read_place x + 0) mod uxLength x) by (f_equal; lia).
    intros Hm. apply mod_apart in Hm; lia.
Qed.

Lemma copy_overwrite item k :
  length item = item_size x -> uxLength x = 1 ->
  exists x', copy_item q x item queueOVERWRITE k = Ok (x', k) /\
    let y := set_uxMessagesWaiting 1 x' in
    queue_ok q y /\ contents y = [item] /\ same_queue x y.
Proof.
  intros Hl Hone. pose proof (ri_read _ _ (qo_ring _ _ ok sized)) as Hr.
  destruct (copy_before item queueOVERWRITE k Hl ltac:(done)) as (x' & E & Hrp & Hok & Hslot & HS).
  exists x'. split; [done|]. split; [apply Hok; [lia|by rewrite Hone, !Z.mod_1_r]|]. split; [|by destruct HS].
  set (y := set_uxMessagesWaiting _ _). unfold contents. change (uxItemSize y) with (uxItemSize x').
  rewrite (sq_size _ _ HS), (proj2 (Z.eqb_neq _ _) sized). change (uxMessagesWaiting y) with 1.
  change (seq 0 (Z.to_nat 1)) with [0%nat]. cbn [fmap list_fmap]. f_equal. change (slot y) with (slot x').
  change (read_place y) with (read_place x'). rewrite Hslot by (rewrite Hrp, Hone, Z.mod_1_r; lia).
  rewrite decide_True; [done|]. rewrite Hone, Z.mod_1_r. lia.
Qed.

(** The first item, and the queue without it. *)
Lemma ring_first :
  0 < uxMessagesWaiting x ->
  let i := (read_place x + 1) mod uxLength x in
  let y := set_q_union (u_xQueue (storage_start q + uxLength x * uxItemSize x) (storage_start q + i * uxItemSize x)) x in
  queue_ok q (set_uxMessagesWaiting (uxMessagesWaiting x - 1) y) /\
  contents x = slot x i :: contents (set_uxMessagesWaiting (uxMessagesWaiting x - 1) y).
Proof.
  intros Hn i y. pose proof (qo_ring _ _ ok sized) as [Hh Hu Hr Hw Hst]. pose proof ok as [Hlen Hc Hs Htx Hrx _ Hse].
  assert (0 <= i < uxLength x) as Hi by (apply Z.mod_pos_bound; lia).
  set (z := set_uxMessagesWaiting _ y). assert (read_place z = i) as Hrz by (by eapply (read_place_at z i); cbn).
  split.
  - split; [done|cbn; lia|done|done|done| |done]. intros _. split; rewrite ?Hrz; cbn; try done.
    rewrite Hw. do 2 f_equal. unfold i.
    replace ((read_place x + 1) mod uxLength x + 1 + (uxMessagesWaiting x - 1))
      with ((read_place x + 1) mod uxLength x + uxMessagesWaiting x) by lia.
    by rewrite Zplus_mod_idemp_l.
  - unfold contents. change (uxItemSize z) with (uxItemSize x). rewrite (proj2 (Z.eqb_neq _ _) sized), Hrz.
    change (uxMessagesWaiting z) with (uxMessagesWaiting x - 1).
    replace (Z.to_nat (uxMessagesWaiting x)) with (S (Z.to_nat (uxMessagesWaiting x - 1))) by lia.
    rewrite <- cons_seq. cbn [fmap list_fmap]. f_equal.
    + unfold slot. do 2 f_equal. unfold i. rewrite Z.mod_mod by lia. f_equal. lia.
    + rewrite <- fmap_S_seq, <- list_fmap_compose. apply list_fmap_ext. intros j m Hm. apply lookup_seq in Hm as [-> _].
      unfold compose. change (slot z) with (slot x). unfold slot. do 2 f_equal. unfold i.
      replace ((read_place x + 1) mod uxLength x + 1 + Z.of_nat (0 + j))
        with ((read_place x + 1) mod uxLength x + (1 + Z.of_nat j)) by lia.
      rewrite Zplus_mod_idemp_l. f_equal. lia.
Qed.

Lemma ring_read_wrap :
  let r := storage_start q + read_place x * uxItemSize x + uxItemSize x in
  (if r >=? storage_start q + uxLength x * uxItemSize x then storage_start q else r) =
  storage_start q + (read_place x + 1) mod uxLength x * uxItemSize x.
Proof.
  pose proof (ri_read _ _ (qo_ring _ _ ok sized)) as Hr. pose proof ok as [Hlen _ Hs _ _ _ _]. cbv zeta.
  destruct (Z.geb_spec (storage_start q + read_place x * uxItemSize x + uxItemSize x)
    (storage_start q + uxLength x * uxItemSize x)) as [Hge|Hlt].
  - assert (read_place x + 1 = uxLength x) as -> by nia. rewrite Z.mod_same; lia.
  - assert (read_place x + 1 < uxLength x) by nia. rewrite Z.mod_small; lia.
Qed.

(** The copy out of a place of the ring. *)
Lemma memcpy_out i :
  0 <= i < uxLength x ->
  memcpy (replicate (Z.to_nat (uxItemSize x)) 0) 0 (q_storage x)
    (storage_start q + i * uxItemSize x - storage_start q) (uxItemSize x) = Ok (slot x i).
Proof.
  intros Hi. pose proof (ring_room q x ok sized i Hi) as Hroom. pose proof (qo_size _ _ ok) as Hs.
  assert (Z.of_nat (item_size x) = uxItemSize x) as Hz by (unfold item_size; lia).
  assert (Z.of_nat (Z.to_nat i * item_size x) = i * uxItemSize x) as Hii by (rewrite Nat2Z.inj_mul, Hz; lia).
  unfold memcpy. replace (storage_start q + i * uxItemSize x - storage_start q) with (i * uxItemSize x) by lia.
  rewrite length_replicate, !(proj2 (Z.leb_le _ _)) by lia. cbn [andb].
  replace (Z.to_nat (i * uxItemSize x)) with (Z.to_nat i * item_size x)%nat by lia.
  rewrite (drop_ge (replicate _ _)) by (rewrite length_replicate; lia). change (Z.to_nat 0) with 0%nat. rewrite take_0, app_nil_r. cbn [app].
  unfold slot, chunk. by rewrite Z.mod_small.
Qed.

End Copies.

(** ** The copies as steps of the kernel *)

Abbreviation queue_at k q := (o_queues (k_objects k) !! q).

Definition with_queue (q : nat) (x : Queue_t) (k : kernel) : kernel :=
  set_k_objects (set_o_queues (<[q := x]> (o_queues (k_objects k))) (k_objects k)) k.

Lemma queue_at_with q x k : queue_at (with_queue q x k) q = Some x.
Proof. apply lookup_insert_eq. Qed.

Lemma with_queue_with q x y k : with_queue q y (with_queue q x k) = with_queue q y k.
Proof. unfold with_queue. cbn. by rewrite insert_insert_eq. Qed.

Lemma with_queue_same q x k : queue_at k q = Some x -> with_queue q x k = k.
Proof. intros E. unfold with_queue. rewrite insert_id by done. by destruct k as [? ? ? []]. Qed.

Lemma wp_get_queue q x (Q : Queue_t -> kernel -> Prop) k : queue_at k q = Some x -> Q x k -> wp (get_queue q) Q k.
Proof. intros E H. exists x, k. unfold get_queue. by rewrite E. Qed.

Lemma wp_put_queue q x (Q : unit -> kernel -> Prop) k : Q tt (with_queue q x k) -> wp (put_queue q x) Q k.
Proof. apply wp_modify. Qed.

Lemma wp_lift {A} (r : res A) a (Q : A -> kernel -> Prop) k : r = Ok a -> Q a k -> wp (lift r) Q k.
Proof. intros -> H. by exists a, k. Qed.

(** A queue after a send at a position, and the bytes that are sent. *)
Definition queue_put (pos : Z) (d : list Z) (c : list (list Z)) : list (list Z) :=
  if pos =? queueSEND_TO_BACK then c ++ [d] else if pos =? queueSEND_TO_FRONT then d :: c else [d].

Definition payload (x : Queue_t) (item : option (list Z)) : list Z := if uxItemSize x =? 0 then [] else default [] item.

(** What can be sent: bytes when the items have a size, to a position that the
    queue has room at. *)
Record sendable (x : Queue_t) (item : option (list Z)) (pos : Z) : Prop := {
  sn_plain : is_mutex x = false;
  sn_item : uxItemSize x <> 0 -> exists d, item = Some d /\ length d = item_size x;
  sn_position : pos = queueSEND_TO_BACK \/ pos = queueSEND_TO_FRONT \/ (pos = queueOVERWRITE /\ uxLength x = 1 /\ uxItemSize x <> 0);
}.

Definition has_room (x : Queue_t) (pos : Z) : bool := (uxMessagesWaiting x <? uxLength x) || (pos =? queueOVERWRITE).

Lemma contents_semaphore x : uxItemSize x = 0 -> contents x = replicate (Z.to_nat (uxMessagesWaiting x)) [].
Proof. intros E. unfold contents. by rewrite E. Qed.

(** The locks of a queue: that of the senders and that of the receivers. *)
Definition locks (x : Queue_t) : Z * Z := (cTxLock x, cRxLock x).

Lemma copy_item_locks q x item pos k y k' : copy_item q x item pos k = Ok (y, k') -> locks y = locks x.
Proof.
  unfold copy_item, mbind, KM_bind, lift. destruct (pcHead x); [|done]. destruct (q_union x); [|done].
  destruct (_ =? _); (destruct (memcpy _ _ _ _ _); [|done]); by intros [= <- <-].
Qed.

Lemma wp_copy_to q x item pos k (Q : bool -> kernel -> Prop) :
  queue_at k q = Some x -> queue_ok q x -> sendable x item pos -> has_room x pos = true ->
  (forall y, queue_ok q y -> contents y = queue_put pos (payload x item) (contents x) -> same_queue x y ->
     locks y = locks x -> Q false (with_queue q y k)) ->
  wp (prvCopyDataToQueue q item pos) Q k.
Proof.
  intros Hq Hok [Hm Hit Hpos] Hroom HQ. pose proof Hok as [Hlen Hc Hs Htx Hrx Hri Hse].
  assert (uxMessagesWaiting x < uxLength x \/ (pos = queueOVERWRITE /\ uxLength x = 1)) as Hn.
  { unfold has_room, queueSEND_TO_BACK, queueSEND_TO_FRONT, queueOVERWRITE in *. lia. }
  unfold prvCopyDataToQueue. wps. apply (wp_get_queue q x); [done|]. cbv zeta.
  destruct (Z.eqb_spec (uxItemSize x) 0) as [E0|E0].
  - rewrite Hm. wps. apply (wp_get_queue q x); [done|]. wps.
    assert (uxMessagesWaiting x < uxLength x) as Hlt by (destruct Hpos as [->|[->|(_ & _ & ?)]]; [|..]; destruct Hn as [|[? ?]]; done).
    rewrite wrapu_small by lia. apply wp_put_queue. wps. apply HQ; [| |by split|done].
    + split; [done|cbn; lia|done|done|done|done|done].
    + unfold payload, queue_put. rewrite !contents_semaphore by done. rewrite E0. cbn [uxMessagesWaiting set_uxMessagesWaiting Z.eqb].
      rewrite Z2Nat.inj_add, Nat.add_comm by lia. change (Z.to_nat 1 + Z.to_nat (uxMessagesWaiting x))%nat with (S (Z.to_nat (uxMessagesWaiting x))).
      destruct Hpos as [->|[->|(_ & _ & ?)]]; [|done|done]. by rewrite replicate_S_end.
  - destruct (Hit E0) as (d & -> & Hl). assert (payload x (Some d) = d) as Hpay.
    { unfold payload. by rewrite (proj2 (Z.eqb_neq _ _) E0). }
    rewrite Hpay in HQ. clear Hpay.
    assert (exists x', copy_item q x d pos k = Ok (x', k) /\
      let y := set_uxMessagesWaiting (u32 ((if negb (pos =? queueSEND_TO_BACK) && (pos =? queueOVERWRITE) && (0 <? uxMessagesWaiting x)
         then u32 (uxMessagesWaiting x - 1) else uxMessagesWaiting x) + 1)) x' in
      queue_ok q y /\ contents y = queue_put pos d (contents x) /\ same_queue x y) as (x' & E & Hy1 & Hy2 & Hy3).
    { destruct Hpos as [->|[->|(-> & H1 & _)]].
      - destruct Hn as [Hn|[? _]]; [|done]. cbn. rewrite wrapu_small by lia. by apply copy_back.
      - destruct Hn as [Hn|[? _]]; [|done]. cbn. rewrite wrapu_small by lia. by apply copy_front.
      - replace (u32 _) with 1; [by apply copy_overwrite|]. cbn.
        destruct (Z.ltb_spec 0 (uxMessagesWaiting x)); [rewrite (wrapu_small 32 (_ - 1)) by lia|]; rewrite wrapu_small; lia. }
    apply wp_bind. exists x', k. split; [done|]. cbv beta zeta. wps. apply wp_put_queue. wps.
    apply copy_item_locks in E. by apply HQ.
Qed.

Lemma wp_copy_from q x k (Q : list Z -> kernel -> Prop) :
  queue_at k q = Some x -> queue_ok q x -> 0 < uxMessagesWaiting x ->
  (forall y d c, contents x = d :: c -> let z := set_uxMessagesWaiting (uxMessagesWaiting x - 1) y in
     queue_ok q z -> contents z = c -> same_queue x y -> set_q_union (q_union x) y = x -> Q d (with_queue q y k)) ->
  wp (prvCopyDataFromQueue q) Q k.
Proof.
  intros Hq Hok Hn HQ. pose proof Hok as [Hlen Hc Hs Htx Hrx Hri Hse].
  unfold prvCopyDataFromQueue. wps. apply (wp_get_queue q x); [done|].
  destruct (Z.eqb_spec (uxItemSize x) 0) as [E0|E0]; cbn [negb].
  - wps. rewrite <- (with_queue_same q x k Hq). apply (HQ x [] (replicate (Z.to_nat (uxMessagesWaiting x - 1)) [])).
    + rewrite contents_semaphore by done.
      replace (Z.to_nat (uxMessagesWaiting x)) with (S (Z.to_nat (uxMessagesWaiting x - 1))) by lia. done.
    + split; [done|cbn; lia|done|done|done|done|done].
    + by rewrite contents_semaphore.
    + apply same_queue_refl.
    + by destruct x.
  - destruct (ring_first q x Hok E0 Hn) as [H1 H2]. pose proof (Hri E0) as [Hh Hu Hr _ _]. rewrite Hh, Hu. cbv zeta.
    rewrite (ring_read_wrap q x Hok E0). wps. apply wp_put_queue.
    apply (wp_lift _ (slot x ((read_place x + 1) mod uxLength x))).
    + apply (memcpy_out q x Hok E0). apply Z.mod_pos_bound. lia.
    + eapply (HQ (set_q_union _ x)); [exact H2|exact H1|done|by split|by destruct x].
Qed.

(** The locks do not touch the data. *)
Lemma set_tx_ok q x v : queue_ok q x -> queueUNLOCKED <= v <= queueINT8_MAX -> queue_ok q (set_cTxLock v x).
Proof. intros [? ? ? ? ? Hri ?] Hv. split; try done. intros E. by destruct (Hri E). Qed.

Lemma set_rx_ok q x v : queue_ok q x -> queueUNLOCKED <= v <= queueINT8_MAX -> queue_ok q (set_cRxLock v x).
Proof. intros [? ? ? ? ? Hri ?] Hv. split; try done. intros E. by destruct (Hri E). Qed.

Lemma same_queue_tx x y v : same_queue x y -> same_queue x (set_cTxLock v y).
Proof. intros []. by split. Qed.

Lemma same_queue_rx x y v : same_queue x y -> same_queue x (set_cRxLock v y).
Proof. intros []. by split. Qed.
