(* ===== verification/FreeRTOSQueueCalls.v ===== *)
(** * The calls of the queues

    The calls of [queue.c] in a kernel that satisfies the invariant of the
    scheduler: they return, they keep the invariant, and they act on the
    [contents] of the queue. *)

From S2P Require Import Prelude FreeRTOSList FreeRTOSListTheory FreeRTOSListStore FreeRTOSHeap FreeRTOSObjects.
From S2P Require Import FreeRTOSTasks FreeRTOSTasksTheory FreeRTOSTasksCalls FreeRTOSTasksInvariant FreeRTOSTasksEvents.
From S2P Require Import FreeRTOSTasksTime FreeRTOSTasksFrame FreeRTOSTasksRouse FreeRTOSQueue FreeRTOSQueueTheory.

(** The queues of the kernel: well-formed, with their event lists among those of
    the scheduler.  A lock count is at most the number of tasks. *)
Record objects_ok (sys : system) (k : kernel) : Prop := {
  ob_queue q x : queue_at k q = Some x ->
    q <> 0%nat /\ queue_ok q x /\ queue_list sys (xTasksWaitingToSend x) /\ queue_list sys (xTasksWaitingToReceive x);
  ob_number : uxCurrentNumberOfTasks k <= queueINT8_MAX;
}.

Record kernel_good (sys : system) (k : kernel) : Prop := {
  kg_scheduled : exists L, scheduled sys k L;
  kg_objects : objects_ok sys k;
}.

Section Calls.
Context (sys : system).

(** ** Rules *)

(** A change of the objects is invisible to the scheduler. *)
Lemma scheduled_objects k L o : scheduled sys k L -> scheduled sys (set_k_objects o k) L.
Proof. intros [[] HP HR]. by split; [split|..]. Qed.

Lemma objects_ok_with k q x y :
  objects_ok sys k -> queue_at k q = Some x -> queue_ok q y -> same_queue x y \/
    (xTasksWaitingToSend y = xTasksWaitingToSend x /\ xTasksWaitingToReceive y = xTasksWaitingToReceive x) ->
  objects_ok sys (with_queue q y k).
Proof.
  intros [Hq Hn] Hx Hok Hs. split; [|done]. intros q' x'. cbn. destruct (decide (q' = q)) as [->|Hne].
  - rewrite lookup_insert_eq. intros [= <-]. destruct (Hq q x Hx) as (H0 & _ & H1 & H2).
    destruct Hs as [[-> -> _ _ _]|[-> ->]]; done.
  - rewrite lookup_insert_ne by done. apply Hq.
Qed.

Lemma kernel_good_with k q x y :
  kernel_good sys k -> queue_at k q = Some x -> queue_ok q y -> same_queue x y -> kernel_good sys (with_queue q y k).
Proof.
  intros [[L H] Ho] Hx Hok HS. split; [exists L; by apply scheduled_objects|]. eapply objects_ok_with; eauto.
Qed.

(** Calls of the scheduler that keep the objects. *)
Definition static (k : kernel) : kernel_objects * Z := (k_objects k, uxCurrentNumberOfTasks k).

Lemma objects_ok_static k k' : static k' = static k -> objects_ok sys k -> objects_ok sys k'.
Proof. unfold static. intros [= E1 E2] [Hq Hn]. split; rewrite ?E1, ?E2; done. Qed.

Lemma wp_safe_static {A} (m : KM A) k (Q : A -> kernel -> Prop) :
  keeps_static m -> safe sys m k -> objects_ok sys k ->
  (forall a k', kernel_good sys k' -> static k' = static k -> Q a k') -> wp m Q k.
Proof.
  intros Hm Hs Ho HQ. eapply wp_mono; [apply (wp_keeps static _ _ _ Hm Hs)|]. intros a k' [HL E]. apply HQ; [|done].
  split; [done|by eapply objects_ok_static].
Qed.

Lemma good_pendsv k b : kernel_good sys k -> b = true -> kernel_good sys (set_pendsv b k).
Proof.
  intros [[L H] Ho] ->. split; [|by apply (objects_ok_static k)]. exists L.
  apply scheduled_pending; [by apply ok_pendsv, (sc_ok _ _ _ H)|done].
Qed.

(** ** Waking *)

(** The first task of an event list; it is ready afterwards. *)
Definition first_waiting (k : kernel) (l : nat) : option nat :=
  match listLIST_IS_EMPTY l (k_lists k), listGET_OWNER_OF_HEAD_ENTRY l (k_lists k) with
  | Ok false, Ok t => Some t
  | _, _ => None
  end.

(** A task leaves the list. *)
Definition leaves (l : nat) (k k' : kernel) : Prop :=
  exists t, is_Some (k_tcbs k !! t) /\ in_list k (xEventListItem t) l /\ ~ in_list k' (xEventListItem t) l.

Definition nobody (l : nat) (k : kernel) : Prop := forall t, ~ in_list k (xEventListItem t) l.

Record wakes (l : nat) (k k' : kernel) : Prop := {
  wk_ready : uxSchedulerSuspended k = 0 -> forall t, first_waiting k l = Some t -> ready k' t;
  wk_leaves : nobody l k \/ leaves l k k';
}.

Lemma queue_list_waiting l : queue_list sys l -> waiting_list l.
Proof. unfold queue_list. tauto. Qed.

Lemma good_priorities k : kernel_good sys k -> priorities (k_tcbs k).
Proof. intros [[L H] _]. apply (kernel_priorities sys _ _ _ _ (sc_ok _ _ _ H)). Qed.

Lemma wp_ok {A} (m : KM A) (Q : A -> kernel -> Prop) k : wp m Q k -> wp m (fun a k' => Q a k' /\ m k = Ok (a, k')) k.
Proof. intros (a & k' & E & H). by exists a, k'. Qed.

Lemma good_empty k l : kernel_good sys k -> queue_list sys l -> listLIST_IS_EMPTY l (k_lists k) = Ok true -> nobody l k.
Proof.
  intros [[L H] _] Hl He t Hin. pose proof (sc_ok _ _ _ H) as HO.
  rewrite (st_empty _ _ (tk_stored _ _ _ _ _ (ok_tasks _ _ _ _ _ HO)) _ _ (queue_list_members sys _ _ _ _ _ HO Hl)) in He.
  injection He as He%bool_decide_eq_true. apply (in_list_member sys _ _ _ _ _ _ HO) in Hin. rewrite He in Hin. by apply elem_of_nil in Hin.
Qed.

(** The head of a list is the event item of a task. *)
Lemma head_task k L l i ns :
  kernel_ok sys None (xTickCount k + 1) k L -> queue_list sys l -> members L l = i :: ns ->
  exists t x, i = xEventListItem t /\ k_tcbs k !! t = Some x /\ listGET_OWNER_OF_HEAD_ENTRY l (k_lists k) = Ok t /\
    first_waiting k l = Some t /\ in_list k (xEventListItem t) l.
Proof.
  intros HO Hl E. pose proof (ok_tasks _ _ _ _ _ HO) as HT. pose proof (tk_stored _ _ _ _ _ HT) as S.
  pose proof (queue_list_members sys _ _ _ _ _ HO Hl) as El. rewrite E in El. assert (i ∈ members L l) as Hi by (rewrite E; by left).
  destruct (tk_event_member _ _ _ _ _ l _ HT (queue_list_event sys l Hl) Hi) as (t & -> & [x Hx] & Ho). exists t, x.
  pose proof (st_head_owner _ _ S _ _ _ _ El Ho) as Eh. split_and!; [done|done|done| |by apply (in_list_member sys _ _ _ _ _ _ HO)].
  unfold first_waiting. by rewrite (st_empty _ _ S _ _ El), Eh.
Qed.

Lemma wp_remove_ready k l :
  kernel_good sys k -> queue_list sys l -> listLIST_IS_EMPTY l (k_lists k) = Ok false ->
  wp (xTaskRemoveFromEventList l) (fun _ k' => (exists L', scheduled sys k' L') /\
    (uxSchedulerSuspended k = 0 -> forall t, first_waiting k l = Some t -> ready k' t)) k.
Proof.
  intros [[L H] Hob] Hl He. pose proof (sc_ok _ _ _ H) as HO. pose proof (ok_tasks _ _ _ _ _ HO) as HT.
  pose proof (queue_list_members sys _ _ _ _ _ HO Hl) as El. pose proof (tk_stored _ _ _ _ _ HT) as S.
  rewrite (st_empty _ _ S _ _ El) in He. injection He as He%bool_decide_eq_false.
  destruct (members L l) as [|i ns] eqn:E; [done|]. assert (i ∈ members L l) as Hi by (rewrite E; by left).
  destruct (head_task k L l i ns HO Hl E) as (t & x & -> & Hx & Eh & Hfirst & Hin).
  unfold xTaskRemoveFromEventList. wps. eapply wp_ask; [exact Eh|]. cbv beta. apply wp_bind.
  eapply wp_leave_event; [exact H|exact Hi|]. intros n h1 H1. cbv beta.
  eapply (wp_unblock_ready sys _ _ t x); [exact H1|done|apply detached_without|by apply (event_not_waiting sys k L t x l)|].
  intros k' L' c y HO' HT' Hc' Hy Hsc Hr. wps. apply (wp_get_tcb t x); [by rewrite HT'|]. wps.
  rewrite <- HT' in Hy. wp_running Hc' Hy.
  assert (forall k2, k_tcbs k2 = k_tcbs k' -> k_lists k2 = k_lists k' ->
    uxSchedulerSuspended k = 0 -> forall t, first_waiting k l = Some t -> ready k2 t) as Hw2.
  { intros k2 E1 E2 Hs t'. rewrite Hfirst. intros [= <-]. exists x. rewrite E1. unfold in_list. rewrite E2, HT'. split; [done|].
    apply (in_list_member sys _ _ _ _ _ _ HO'). by apply Hr. }
  apply wp_if; intros Hgt; wps; (split; [exists L'|by apply Hw2]); [by apply scheduled_yield|]. apply Hsc. lia.
Qed.

Lemma wp_remove_first k l :
  kernel_good sys k -> queue_list sys l ->
  exists b, listLIST_IS_EMPTY l (k_lists k) = Ok b /\
    (b = false -> wp (xTaskRemoveFromEventList l) (fun _ k' => kernel_good sys k' /\ static k' = static k /\ wakes l k k') k).
Proof.
  intros Hg Hl. pose proof Hg as [[L H] Hob]. pose proof (sc_ok _ _ _ H) as HO. pose proof (ok_tasks _ _ _ _ _ HO) as HT.
  pose proof (queue_list_members sys _ _ _ _ _ HO Hl) as El. pose proof (tk_stored _ _ _ _ _ HT) as S.
  pose proof (st_empty _ _ S _ _ El) as Eb. eexists. split; [exact Eb|]. intros Hb. rewrite Hb in Eb. apply bool_decide_eq_false in Hb.
  destruct (members L l) as [|i ns] eqn:E; [done|]. destruct (head_task k L l i ns HO Hl E) as (t & x & -> & Hx & Eh & _ & Hin).
  eapply wp_mono; [apply wp_ok, (wp_keeps static _ _ _ (ko_remove_event l) (wp_remove_ready k l Hg Hl Eb))|].
  intros r k' [[[HL Hw] Es] Eq]. split; [split; [done|by eapply objects_ok_static]|]. split; [done|]. split; [done|]. right.
  destruct (rm_first _ _ _ (remove_effect l k r k' Eq (good_priorities k Hg))) as (t' & Et & Hn). rewrite Eh in Et. injection Et as <-.
  exists t. split; [by eauto|]. split; [done|]. by apply Hn, queue_list_waiting.
Qed.

Lemma wakes_empty l k k' :
  kernel_good sys k -> queue_list sys l -> listLIST_IS_EMPTY l (k_lists k) = Ok true -> wakes l k k'.
Proof.
  intros Hg Hl E. split; [|left; by apply good_empty]. intros _ t. unfold first_waiting. by rewrite E.
Qed.

Lemma wakes_after l k k1 k2 : k_tcbs k2 = k_tcbs k1 -> k_lists k2 = k_lists k1 -> wakes l k k1 -> wakes l k k2.
Proof.
  intros E1 E2 [H1 H2]. split; [unfold ready, in_list; by rewrite E1, E2|].
  destruct H2 as [H2|(t & Ht & Hin & Hn)]; [by left|right]. exists t. split; [done|]. split; [done|]. unfold in_list. by rewrite E2.
Qed.

Lemma wp_wake_and_yield k l (Q : bool -> kernel -> Prop) :
  kernel_good sys k -> queue_list sys l ->
  (forall b k', kernel_good sys k' -> static k' = static k -> wakes l k k' -> Q b k') -> wp (wake_and_yield l) Q k.
Proof.
  intros H Hl HQ. destruct (wp_remove_first k l H Hl) as (b & E & Hb). unfold wake_and_yield. wps.
  eapply wp_ask; [exact E|]. apply wp_if; intros ->; [wps; apply HQ; [done|done|by apply wakes_empty]|]. wps.
  eapply wp_mono; [by apply Hb|]. intros r k' (H' & Es & Hw). wps.
  apply wp_when; intros Hr; [|wps; by apply HQ]. wps. apply HQ; [by apply good_pendsv|done|by apply (wakes_after l k k')].
Qed.

Lemma wp_wake_from_isr k l w (Q : bool -> kernel -> Prop) :
  kernel_good sys k -> queue_list sys l ->
  (forall b k', kernel_good sys k' -> static k' = static k -> wakes l k k' -> Q b k') -> wp (wake_from_isr l w) Q k.
Proof.
  intros H Hl HQ. destruct (wp_remove_first k l H Hl) as (b & E & Hb). unfold wake_from_isr. wps.
  eapply wp_ask; [exact E|]. apply wp_if; intros ->; [wps; apply HQ; [done|done|by apply wakes_empty]|]. wps.
  eapply wp_mono; [by apply Hb|]. intros r k' (H' & Es & Hw). wps. by apply HQ.
Qed.

Lemma wp_unlock_wake n l k (Q : unit -> kernel -> Prop) :
  kernel_good sys k -> queue_list sys l ->
  (forall k', kernel_good sys k' -> static k' = static k -> Q tt k') -> wp (unlock_wake n l) Q k.
Proof.
  revert k. induction n as [|n IH]; intros k H Hl HQ; cbn [unlock_wake]; [wps; by apply HQ|].
  destruct (wp_remove_first k l H Hl) as (b & E & Hb). wps.
  eapply wp_ask; [exact E|]. apply wp_if; intros ->; [wps; by apply HQ|]. wps.
  eapply wp_mono; [by apply Hb|]. intros r k1 (H1 & E1 & _). wps.
  apply wp_when; intros Hr.
  - destruct H1 as [[L1 S1] O1].
    eapply wp_safe_static; [apply ko_missed_yield|by eapply safe_missed_yield|done|]. intros [] k2 H2 E2.
    apply IH; [done|done|]. intros k3 H3 E3. apply HQ; [done|congruence].
  - apply IH; [done|done|]. intros k3 H3 E3. apply HQ; [done|congruence].
Qed.

(** ** The calls that do not block *)

Inductive queue_call : Set :=
  | CallSend (item : option (list Z)) (pos : Z)
  | CallReceive
  | CallPeek
  | CallTake
  | IsrSend (item : option (list Z)) (pos : Z)
  | IsrGive
  | IsrReceive
  | IsrPeek.

Definition run_call (q : nat) (c : queue_call) : KM (Z * list Z) :=
  match c with
  | CallSend item pos => call_now (OpSend item pos) q
  | CallReceive => call_now OpReceive q
  | CallPeek => call_now OpPeek q
  | CallTake => call_now OpTake q
  | IsrSend item pos => '(r, _) ← xQueueGenericSendFromISR q item false pos; mret (r, [])
  | IsrGive => '(r, _) ← xQueueGiveFromISR q false; mret (r, [])
  | IsrReceive => '(r, d, _) ← xQueueReceiveFromISR q true false; mret (r, d)
  | IsrPeek => xQueuePeekFromISR q true
  end.

(** The calls a queue admits: data that fits, semaphore calls on semaphores. *)
Definition call_allowed (x : Queue_t) (c : queue_call) : Prop :=
  is_mutex x = false /\
  match c with
  | CallSend item pos | IsrSend item pos => sendable x item pos
  | CallReceive | CallPeek | IsrReceive => True
  | CallTake | IsrGive => uxItemSize x = 0
  | IsrPeek => uxItemSize x <> 0
  end.

(** What a bounded double-ended queue does. *)
Definition send_spec (len pos : Z) (d : list Z) (c : list (list Z)) : (Z * list Z) * list (list Z) :=
  if (Z.of_nat (length c) <? len) || (pos =? queueOVERWRITE) then ((pdPASS, []), queue_put pos d c)
  else ((errQUEUE_FULL, []), c).

Definition receive_spec (c : list (list Z)) : (Z * list Z) * list (list Z) :=
  match c with d :: c => ((pdPASS, d), c) | [] => ((errQUEUE_EMPTY, []), []) end.

Definition peek_spec (c : list (list Z)) : (Z * list Z) * list (list Z) :=
  match c with d :: _ => ((pdPASS, d), c) | [] => ((errQUEUE_EMPTY, []), []) end.

Definition call_spec (x : Queue_t) (call : queue_call) (c : list (list Z)) : (Z * list Z) * list (list Z) :=
  match call with
  | CallSend item pos | IsrSend item pos => send_spec (uxLength x) pos (payload x item) c
  | IsrGive => send_spec (uxLength x) queueSEND_TO_BACK [] c
  | CallReceive | CallTake | IsrReceive => receive_spec c
  | CallPeek | IsrPeek => peek_spec c
  end.

(** The event list whose first task a successful call wakes; an interrupt leaves
    the lists of a locked queue alone. *)
Definition woken_list (x : Queue_t) (c : queue_call) : option nat :=
  match c with
  | CallSend _ _ | CallPeek => Some (xTasksWaitingToReceive x)
  | CallReceive | CallTake => Some (xTasksWaitingToSend x)
  | IsrSend _ _ | IsrGive => if cTxLock x =? queueUNLOCKED then Some (xTasksWaitingToReceive x) else None
  | IsrReceive => if cRxLock x =? queueUNLOCKED then Some (xTasksWaitingToSend x) else None
  | IsrPeek => None
  end.

(** What an interrupt does to the lock of a queue: it counts up to the number of
    tasks. *)
Definition count_lock (n lock : Z) : Z := if lock =? queueUNLOCKED then lock else if lock <? n then lock + 1 else lock.

Definition locks_after (n : Z) (c : queue_call) (x : Queue_t) : Z * Z :=
  match c with
  | IsrSend _ _ | IsrGive => (count_lock n (cTxLock x), cRxLock x)
  | IsrReceive => (cTxLock x, count_lock n (cRxLock x))
  | _ => locks x
  end.

(** The result of a call: the answer and the contents are those of the
    specification, the rest of the queue but its lock is as before, and a task
    that waits is woken. *)
Record served (q : nat) (x : Queue_t) (c : queue_call) (r : Z * list Z) (k k' : kernel) : Prop := {
  sv_good : kernel_good sys k';
  sv_result : r = (call_spec x c (contents x)).1;
  sv_wakes l : woken_list x c = Some l -> r.1 = pdPASS -> wakes l k k';
  sv_queue : exists y, queue_at k' q = Some y /\ contents y = (call_spec x c (contents x)).2 /\ same_queue x y /\
    locks y = (if r.1 =? pdPASS then locks_after (uxCurrentNumberOfTasks k) c x else locks x);
  sv_others q' : q' <> q -> queue_at k' q' = queue_at k q';
  sv_number : uxCurrentNumberOfTasks k' = uxCurrentNumberOfTasks k;
}.

(** The call of a function that can block. *)
Definition op_call (op : queue_op) : queue_call :=
  match op with OpSend item pos => CallSend item pos | OpReceive => CallReceive | OpTake => CallTake | OpPeek => CallPeek end.

(** The first critical section can serve it. *)
Definition op_ready (op : queue_op) (x : Queue_t) : bool :=
  match op with OpSend _ pos => has_room x pos | _ => 0 <? uxMessagesWaiting x end.

Lemma wp_assert_can_block ticks k (Q : unit -> kernel -> Prop) :
  ticks = 0 \/ uxSchedulerSuspended k = 0 -> Q tt k -> wp (assert_can_block ticks) Q k.
Proof.
  intros Ht HQ. unfold assert_can_block, xTaskGetSchedulerState. wps.
  apply wp_if; intros Hrun; wps; (apply wp_configASSERT; [|done]); [|done].
  destruct Ht as [->| ->]; [by rewrite andb_false_r|done].
Qed.

Section Call.
Context (q : nat) (x : Queue_t) (k : kernel).
Hypothesis good : kernel_good sys k.
Hypothesis here : queue_at k q = Some x.

Lemma call_queue : q <> 0%nat /\ queue_ok q x /\ queue_list sys (xTasksWaitingToSend x) /\ queue_list sys (xTasksWaitingToReceive x).
Proof. by apply (ob_queue _ _ (kg_objects _ _ good)). Qed.

(** The state after a change of the queue and calls of the scheduler. *)
Lemma served_static y k' r c :
  kernel_good sys k' -> static k' = static (with_queue q y k) -> contents y = (call_spec x c (contents x)).2 -> same_queue x y ->
  r = (call_spec x c (contents x)).1 -> r.1 = pdPASS -> locks y = locks_after (uxCurrentNumberOfTasks k) c x ->
  (forall l, woken_list x c = Some l -> wakes l (with_queue q y k) k') -> served q x c r k k'.
Proof.
  unfold static. intros H [= Eo En] Hc HS Hr Hp Hl Hw. split; [done|done| |..|done].
  - intros l El _. by destruct (Hw l El).
  - exists y. rewrite Eo, Hp. cbn. by rewrite lookup_insert_eq.
  - intros q' Hne. rewrite Eo. cbn. by rewrite lookup_insert_ne.
Qed.

Lemma served_nothing r c :
  contents x = (call_spec x c (contents x)).2 -> r = (call_spec x c (contents x)).1 ->
  woken_list x c = None /\ locks_after (uxCurrentNumberOfTasks k) c x = locks x \/ r.1 <> pdPASS -> served q x c r k k.
Proof.
  intros Hc Hr Hw. split; [done|done| | |done|done].
  - intros l El ?. destruct Hw as [[? _]|]; [congruence|done].
  - exists x. split_and!; [done|done|apply same_queue_refl|]. destruct (Z.eqb_spec r.1 pdPASS); [|done]. by destruct Hw as [[_ ?]|].
Qed.

(** The waiting count of the queue and the length of its contents. *)
Lemma room_spec pos : has_room x pos = (Z.of_nat (length (contents x)) <? uxLength x) || (pos =? queueOVERWRITE).
Proof. unfold has_room. by rewrite (queue_contents_length q x) by apply call_queue. Qed.

Lemma empty_spec : uxMessagesWaiting x <= 0 -> contents x = [].
Proof.
  intros Hn. destruct call_queue as (_ & Hok & _). apply nil_length_inv. pose proof (queue_contents_length q x Hok). lia.
Qed.

(** ** The first critical section *)

(** What a call that is served in it returns. *)
Definition try_post (op : queue_op) (s s' : wait_state) (k' : kernel) : Prop :=
  exists d, s' = at_pc (WaitDone pdPASS d) s /\ served q x (op_call op) (pdPASS, d) k k'.

Lemma wp_send_try item pos s :
  sendable x item pos -> has_room x pos = true -> wp (send_try q item pos s) (try_post (OpSend item pos) s) k.
Proof.
  intros Hs Hr. destruct call_queue as (H0 & Hok & Hl1 & Hl2). unfold send_try. wps. apply (wp_get_queue q x); [done|].
  change ((uxMessagesWaiting x <? uxLength x) || (pos =? queueOVERWRITE)) with (has_room x pos). rewrite Hr.
  wps. apply (wp_copy_to q x); [done..|]. intros y Hy Hc HS HL. wps.
  apply wp_wake_and_yield; [by eapply kernel_good_with|done|]. intros b k' Hk' Es Hw. wps.
  rewrite andb_false_r. cbn [when]. wps. exists []. split; [done|].
  eapply served_static; [done|exact Es|..]; cbn [op_call call_spec woken_list locks_after]; unfold send_spec; rewrite <- ?room_spec, ?Hr;
    [done..|]. by intros l [= <-].
Qed.

Lemma wp_receive_try s : 0 < uxMessagesWaiting x -> wp (receive_try q s) (try_post OpReceive s) k.
Proof.
  intros Hn. destruct call_queue as (H0 & Hok & Hl1 & Hl2). unfold receive_try. wps. apply (wp_get_queue q x); [done|].
  rewrite (proj2 (Z.ltb_lt _ _) Hn). wps. apply (wp_copy_from q x); [done|done|lia|]. intros y d c Hc z Hz Ec HS Eu. wps.
  apply (wp_get_queue q y); [apply queue_at_with|]. wps. pose proof (qo_count _ _ Hok). pose proof (qo_length _ _ Hok).
  rewrite wrapu_small by lia. apply wp_put_queue. rewrite with_queue_with. wps.
  apply wp_wake_and_yield; [by eapply kernel_good_with; [done|done|done|apply same_queue_count]|done|]. intros b k' Hk' Es Hw. wps.
  exists d. split; [done|].
  eapply served_static; [done|exact Es| |by apply same_queue_count| |done| |]; cbn [op_call call_spec woken_list locks_after]; rewrite ?Hc;
    [done|done| |by intros l [= <-]]. unfold z. by rewrite <- Eu.
Qed.

Lemma wp_peek_try s : 0 < uxMessagesWaiting x -> wp (peek_try q s) (try_post OpPeek s) k.
Proof.
  intros Hn. destruct call_queue as (H0 & Hok & Hl1 & Hl2). unfold peek_try. wps. apply (wp_get_queue q x); [done|].
  rewrite (proj2 (Z.ltb_lt _ _) Hn). wps. apply (wp_copy_from q x); [done|done|lia|]. intros y d c Hc z Hz Ec HS Ex. wps.
  apply (wp_get_queue q y); [apply queue_at_with|]. wps. apply wp_put_queue.
  rewrite Ex, with_queue_with, with_queue_same by done. wps.
  apply wp_wake_and_yield; [done|done|]. intros b k' Hk' Es Hw. wps. exists d. split; [done|].
  apply (served_static x); [done|by rewrite with_queue_same| |apply same_queue_refl| |done|done|]; cbn [op_call call_spec woken_list];
    rewrite ?Hc; [done|done|]. intros l [= <-]. by rewrite with_queue_same.
Qed.

Lemma wp_take_try s :
  uxItemSize x = 0 -> is_mutex x = false -> 0 < uxMessagesWaiting x -> wp (take_try q s) (try_post OpTake s) k.
Proof.
  intros E0 Hm Hn. destruct call_queue as (H0 & Hok & Hl1 & Hl2). unfold take_try. wps. apply (wp_get_queue q x); [done|].
  rewrite (proj2 (Z.ltb_lt _ _) Hn). pose proof Hok as [Hlen Hc Hs Htx Hrx Hri Hse]. wps. rewrite wrapu_small by lia.
  apply wp_put_queue. rewrite Hm. wps. set (y := set_uxMessagesWaiting _ x). assert (same_queue x y) as HS by (by split).
  assert (queue_ok q y) as Hy by (split; [done|cbn; lia|done|done|done|done|done]).
  apply wp_wake_and_yield; [by eapply kernel_good_with|done|]. intros b k' Hk' Es Hw. wps. exists []. split; [done|].
  eapply served_static; [done|exact Es|..]; cbn [op_call call_spec woken_list locks_after];
    rewrite ?(contents_semaphore x), ?(contents_semaphore y) by done;
    replace (Z.to_nat (uxMessagesWaiting x)) with (S (Z.to_nat (uxMessagesWaiting x - 1))) by lia; [done..|by intros l [= <-]].
Qed.

Lemma wp_try op s :
  call_allowed x (op_call op) -> op_ready op x = true -> wp (op_try op q s) (try_post op s) k.
Proof.
  intros [Hm Hc] Hr. destruct op; cbn [op_call op_ready op_try] in *;
    [by apply wp_send_try|apply wp_receive_try; lia|apply wp_take_try; [done|done|lia]|apply wp_peek_try; lia].
Qed.

Lemma try_wait op s : op_ready op x = false -> op_try op q s k = must_wait s k.
Proof.
  intros Hr. destruct op; cbn [op_try op_ready] in *; unfold send_try, receive_try, take_try, peek_try;
    unfold mbind at 1, KM_bind at 1, get_queue; rewrite here.
  - change ((uxMessagesWaiting x <? uxLength x) || (xCopyPosition =? queueOVERWRITE)) with (has_room x xCopyPosition).
    by rewrite Hr.
  - by rewrite Hr.
  - by rewrite Hr.
  - by rewrite Hr.
Qed.

(** The specification of a call that is not served. *)
Lemma not_ready op :
  op_ready op x = false -> (call_spec x (op_call op) (contents x)) = ((errQUEUE_FULL, []), contents x).
Proof.
  intros Hr. destruct op; cbn [op_call op_ready call_spec] in *.
  - unfold send_spec. by rewrite <- room_spec, Hr.
  - by rewrite empty_spec by lia.
  - by rewrite empty_spec by lia.
  - by rewrite empty_spec by lia.
Qed.

(** The checks before the loop. *)
Lemma wp_op_start op ticks (Q : wait_state -> kernel -> Prop) :
  call_allowed x (op_call op) -> ticks = 0 \/ uxSchedulerSuspended k = 0 -> Q (wait_start ticks) k ->
  wp (op_start op q true ticks) Q k.
Proof.
  intros [Hm Hc] Ht HQ. destruct call_queue as (H0 & _). unfold op_start. wps. apply wp_configASSERT; [by destruct q|]. wps.
  apply (wp_get_queue q x); [done|].
  assert (wp (assert_can_block ticks;; mret (wait_start ticks)) Q k) as HA.
  { wps. apply wp_assert_can_block; [done|]. by wps. }
  destruct op; cbn [op_call] in *.
  - wps. apply wp_configASSERT.
    { destruct (Z.eqb_spec (uxItemSize x) 0) as [|E]; [by rewrite andb_false_r|].
      by destruct (sn_item _ _ _ Hc E) as (d & -> & _). }
    apply wp_configASSERT; [|done]. destruct (sn_position _ _ _ Hc) as [->|[->|(-> & -> & _)]]; done.
  - wps. apply wp_configASSERT; [done|]. exact HA.
  - wps. apply wp_configASSERT; [by rewrite Hc|]. exact HA.
  - wps. apply wp_configASSERT; [done|]. exact HA.
Qed.

(** ** Whole calls *)

Lemma wp_call_now op :
  call_allowed x (op_call op) -> wp (call_now op q) (fun r k' => served q x (op_call op) r k k') k.
Proof.
  intros Hc. unfold call_now. wps. apply wp_op_start; [done|by left|]. apply wp_bind. cbn [w_pc wait_start wait_step].
  destruct (op_ready op x) eqn:Hr.
  - eapply wp_mono; [by apply wp_try|]. intros s' k' (d & -> & HS). cbn [w_pc at_pc]. by wps.
  - unfold wp at 1. rewrite (try_wait op _ Hr). unfold must_wait. cbn [wait_start w_ticks Z.eqb].
    eexists _, _. split; [done|]. cbn [at_pc w_pc]. wps. pose proof (not_ready op Hr) as Es.
    apply served_nothing; [by rewrite Es|by rewrite Es|by right].
Qed.

(** The end of a call in an interrupt: a task is woken, or the lock counts. *)
Lemma wp_isr_tail y l lock w (rx : bool) (Q : bool -> kernel -> Prop) :
  queue_ok q y -> same_queue x y -> locks y = locks x -> lock = (if rx then cRxLock x else cTxLock x) -> queue_list sys l ->
  (forall b k' z, kernel_good sys k' -> static k' = static (with_queue q z k) -> contents z = contents y ->
     same_queue x z ->
     locks z = (let n := count_lock (uxCurrentNumberOfTasks k) in if rx then (cTxLock x, n (cRxLock x)) else (n (cTxLock x), cRxLock x)) ->
     (forall l', (if lock =? queueUNLOCKED then Some l else None) = Some l' -> wakes l' (with_queue q z k) k') -> Q b k') ->
  wp (if lock =? queueUNLOCKED then wake_from_isr l w
      else (if rx then prvIncrementQueueRxLock q lock else prvIncrementQueueTxLock q lock);; mret w) Q (with_queue q y k).
Proof.
  intros Hy HS HL Elk Hl HQ. assert (kernel_good sys (with_queue q y k)) as Hg by (by eapply kernel_good_with).
  assert (queueUNLOCKED <= lock <= queueINT8_MAX) as Hlock by (destruct call_queue as (_ & [] & _); destruct rx; lia).
  injection HL as HL1 HL2. cbv zeta in HQ. unfold count_lock in HQ.
  apply wp_if; intros Hb; rewrite Hb in HQ.
  { apply wp_wake_from_isr; [done|done|]. intros b k' Hk' Es Hw.
    eapply (HQ _ _ y); [done..| |by intros l' [= <-]]. unfold locks. rewrite HL1, HL2. rewrite Elk in Hb. by destruct rx; rewrite Hb. }
  assert (forall z, queue_ok q z -> contents z = contents y -> same_queue x z ->
    locks z = (if rx then (cTxLock x, if lock <? uxCurrentNumberOfTasks k then lock + 1 else lock)
               else (if lock <? uxCurrentNumberOfTasks k then lock + 1 else lock, cRxLock x)) ->
    Q w (with_queue q z (with_queue q y k))) as Hz.
  { intros z Hz Hc HSz Hlz. rewrite with_queue_with. apply (HQ _ _ z); [by eapply kernel_good_with|done..| |done].
    rewrite Hlz, Elk in *. by destruct rx; rewrite Hb. }
  pose proof (ob_number _ _ (kg_objects _ _ good)) as Hnum. unfold queueUNLOCKED, queueINT8_MAX in *.
  assert (u32 lock = lock) as Elock by (apply wrapu_small; lia).
  assert (wp (when (u32 lock <? uxCurrentNumberOfTasks k) (configASSERT (negb (lock =? queueINT8_MAX));; x0 ← get_queue q;
     put_queue q (if rx then set_cRxLock (wraps 8 (lock + 1)) x0 else set_cTxLock (wraps 8 (lock + 1)) x0)))
     (fun _ => Q w) (with_queue q y k)) as HW.
  { rewrite Elock. apply wp_when; intros Hlt; rewrite Hlt in Hz.
    - unfold queueINT8_MAX in *. wps. apply wp_configASSERT; [lia|]. wps. apply (wp_get_queue q y); [apply queue_at_with|].
      assert (wraps 8 (lock + 1) = lock + 1) as Ew by (unfold wraps; rewrite Z.mod_small by lia; lia).
      apply wp_put_queue. rewrite Ew. assert (queueUNLOCKED <= lock + 1 <= queueINT8_MAX)
        by (unfold queueUNLOCKED, queueINT8_MAX; lia).
      destruct rx; apply Hz; try done; [by apply set_rx_ok|by apply same_queue_rx|unfold locks; cbn; congruence|
        by apply set_tx_ok|by apply same_queue_tx|unfold locks; cbn; congruence].
    - rewrite <- (with_queue_same q y (with_queue q y k)) by apply queue_at_with. apply Hz; [done..|].
      unfold locks. rewrite HL1, HL2, Elk. by destruct rx. }
  destruct rx; unfold prvIncrementQueueRxLock, prvIncrementQueueTxLock; wps; cbv beta; (eapply wp_mono; [exact HW|]); intros; by wps.
Qed.

Lemma wp_isr_send item pos :
  sendable x item pos -> wp (run_call q (IsrSend item pos)) (fun r k' => served q x (IsrSend item pos) r k k') k.
Proof.
  intros Hs. destruct call_queue as (H0 & Hok & Hl1 & Hl2). cbn [run_call]. unfold xQueueGenericSendFromISR. wps.
  apply wp_configASSERT; [by destruct q|]. wps. apply (wp_get_queue q x); [done|]. wps.
  apply wp_configASSERT.
  { destruct (Z.eqb_spec (uxItemSize x) 0) as [|E]; [by rewrite andb_false_r|].
    by destruct (sn_item _ _ _ Hs E) as (d & -> & _). }
  wps. apply wp_configASSERT.
  { destruct (sn_position _ _ _ Hs) as [->|[->|(-> & -> & _)]]; done. }
  change ((uxMessagesWaiting x <? uxLength x) || (pos =? queueOVERWRITE)) with (has_room x pos).
  apply wp_if; intros Hr;
    assert (call_spec x (IsrSend item pos) (contents x) =
      if has_room x pos then ((pdPASS, []), queue_put pos (payload x item) (contents x)) else ((errQUEUE_FULL, []), contents x)) as Es
      by (cbn [call_spec]; unfold send_spec; by rewrite room_spec); rewrite Hr in Es.
  - wps. apply (wp_copy_to q x); [done..|]. intros y Hy Hc HS HL. apply wp_bind.
    eapply (wp_isr_tail y _ _ _ false); [done|done|done|done|done|]. intros b k' z Hk' Est Ez HSz Hlz Hw. wps.
    apply (served_static z); rewrite ?Es; [done|exact Est|by rewrite Ez|done|done|done|exact Hlz|exact Hw].
  - wps. apply served_nothing; rewrite ?Es; [done..|by right].
Qed.

Lemma wp_isr_give :
  uxItemSize x = 0 -> is_mutex x = false -> wp (run_call q IsrGive) (fun r k' => served q x IsrGive r k k') k.
Proof.
  intros E0 Hm. destruct call_queue as (H0 & Hok & Hl1 & Hl2). cbn [run_call]. unfold xQueueGiveFromISR. wps.
  apply wp_configASSERT; [by destruct q|]. wps. apply (wp_get_queue q x); [done|]. wps.
  apply wp_configASSERT; [by rewrite E0|]. rewrite Hm. wps. apply wp_configASSERT; [done|].
  apply wp_if; intros Hr;
    assert (call_spec x IsrGive (contents x) =
      if uxMessagesWaiting x <? uxLength x then ((pdPASS, []), contents x ++ [[]]) else ((errQUEUE_FULL, []), contents x)) as Es
      by (cbn [call_spec]; unfold send_spec; by rewrite (queue_contents_length q x Hok), orb_false_r); rewrite Hr in Es.
  - pose proof Hok as [Hlen Hc Hs Htx Hrx Hri Hse]. wps. rewrite wrapu_small by lia. apply wp_put_queue. apply wp_bind.
    set (y := set_uxMessagesWaiting _ x).
    eapply (wp_isr_tail y _ _ _ false); [split; [done|cbn; lia|done|done|done|done|done]|by split|done|done|done|].
    intros b k' z Hk' Est Ez HSz Hlz Hw. wps.
    apply (served_static z); rewrite ?Es; [done|exact Est| |done|done|done|exact Hlz|exact Hw].
    rewrite Ez, !contents_semaphore by done. cbn [snd]. change (uxMessagesWaiting y) with (uxMessagesWaiting x + 1).
    replace (Z.to_nat (uxMessagesWaiting x + 1)) with (S (Z.to_nat (uxMessagesWaiting x))) by lia. apply replicate_S_end.
  - wps. apply served_nothing; rewrite ?Es; [done..|by right].
Qed.

Lemma wp_isr_receive : wp (run_call q IsrReceive) (fun r k' => served q x IsrReceive r k k') k.
Proof.
  destruct call_queue as (H0 & Hok & Hl1 & Hl2). cbn [run_call]. unfold xQueueReceiveFromISR. wps.
  apply wp_configASSERT; [by destruct q|]. wps. apply (wp_get_queue q x); [done|]. wps.
  apply wp_configASSERT; [done|]. apply wp_if; intros Hn.
  - wps. apply (wp_copy_from q x); [done|done|lia|]. intros y d c Hc z Hz Ec HS Eu. wps.
    apply (wp_get_queue q y); [apply queue_at_with|]. wps. pose proof (qo_count _ _ Hok). pose proof (qo_length _ _ Hok).
    rewrite wrapu_small by lia. apply wp_put_queue. rewrite with_queue_with. apply wp_bind.
    eapply (wp_isr_tail z _ _ _ true); [done|by apply same_queue_count|unfold z; by rewrite <- Eu|done|done|].
    intros b k' z' Hk' Est Ez HSz Hlz Hw. wps.
    apply (served_static z'); [done|exact Est| |done| |done|exact Hlz|exact Hw]; cbn [call_spec]; rewrite Hc; [by rewrite Ez|done].
  - wps. apply served_nothing; [..|by right]; cbn [call_spec]; by rewrite !empty_spec by lia.
Qed.

Lemma wp_isr_peek : uxItemSize x <> 0 -> wp (run_call q IsrPeek) (fun r k' => served q x IsrPeek r k k') k.
Proof.
  intros E0. destruct call_queue as (H0 & Hok & Hl1 & Hl2). cbn [run_call]. unfold xQueuePeekFromISR. wps.
  apply wp_configASSERT; [by destruct q|]. wps. apply (wp_get_queue q x); [done|]. wps.
  apply wp_configASSERT; [done|]. wps. apply wp_configASSERT; [by rewrite (proj2 (Z.eqb_neq _ _) E0)|]. apply wp_if; intros Hn.
  - wps. apply (wp_copy_from q x); [done|done|lia|]. intros y d c Hc z Hz Ec HS Ex. wps.
    apply (wp_get_queue q y); [apply queue_at_with|]. wps. apply wp_put_queue.
    rewrite Ex, with_queue_with, with_queue_same by done. wps. apply served_nothing; [..|by left]; cbn [call_spec]; by rewrite Hc.
  - wps. apply served_nothing; [..|by right]; cbn [call_spec]; by rewrite !empty_spec by lia.
Qed.

Lemma wp_call c : call_allowed x c -> wp (run_call q c) (fun r k' => served q x c r k k') k.
Proof.
  intros Hc. pose proof Hc as [Hm Hc']. destruct c; cbn [run_call];
    [by apply (wp_call_now (OpSend item pos))|by apply (wp_call_now OpReceive)|by apply (wp_call_now OpPeek)|
     by apply (wp_call_now OpTake)|by apply wp_isr_send|by apply wp_isr_give|apply wp_isr_receive|by apply wp_isr_peek].
Qed.

End Call.

(** ** Traces *)

(** Ticks, context switches and calls on the queues in any order. *)
Inductive kernel_event : Set :=
  | KTick
  | KSwitch
  | KCall (q : nat) (c : queue_call).

Fixpoint run_trace (es : list kernel_event) : KM (list (Z * list Z)) :=
  match es with
  | [] => mret []
  | KTick :: es => xPortSysTickHandler;; run_trace es
  | KSwitch :: es => xPortPendSVHandler;; run_trace es
  | KCall q c :: es => r ← run_call q c; rs ← run_trace es; mret (r :: rs)
  end.

(** The same on the abstract queues [C]; [X] holds their lengths and item sizes. *)
Fixpoint trace_spec (X : gmap nat Queue_t) (es : list kernel_event) (C : gmap nat (list (list Z)))
    : list (Z * list Z) * gmap nat (list (list Z)) :=
  match es with
  | [] => ([], C)
  | (KTick | KSwitch) :: es => trace_spec X es C
  | KCall q c :: es =>
      match X !! q, C !! q with
      | Some x, Some items =>
          let '(r, items) := call_spec x c items in
          let '(rs, C) := trace_spec X es (<[q := items]> C) in (r :: rs, C)
      | _, _ => ([], C)
      end
  end.

Definition event_allowed (X : gmap nat Queue_t) (e : kernel_event) : Prop :=
  match e with KCall q c => exists x, X !! q = Some x /\ call_allowed x c | _ => True end.

(** What the specification of a call reads of a queue. *)
Record same_static (x y : Queue_t) : Prop := {
  ss_length : uxLength y = uxLength x;
  ss_size : uxItemSize y = uxItemSize x;
  ss_mutex : is_mutex y = is_mutex x;
}.

Lemma call_allowed_same x y c : same_static x y -> call_allowed x c -> call_allowed y c.
Proof.
  intros [El Es Em] [Hm Hc]. split; [congruence|].
  assert (forall item pos, sendable x item pos -> sendable y item pos) as Hs.
  { intros item pos [H1 H2 H3]. split; unfold item_size in *; rewrite ?El, ?Es, ?Em; done. }
  destruct c; rewrite ?Es; auto.
Qed.

Lemma call_spec_same x y c items : same_static x y -> call_spec y c items = call_spec x c items.
Proof. intros [El Es Em]. destruct c; cbn [call_spec]; unfold payload; by rewrite ?El, ?Es. Qed.

Abbreviation all_contents k := (contents <$> o_queues (k_objects k)).

Lemma wp_trace X es : forall k,
  kernel_good sys k -> Forall (event_allowed X) es ->
  (forall q x, X !! q = Some x -> exists y, queue_at k q = Some y /\ same_static x y) ->
  wp (run_trace es) (fun rs k' => kernel_good sys k' /\ trace_spec X es (all_contents k) = (rs, all_contents k')) k.
Proof.
  induction es as [|e es IH]; intros k H Hf HX; cbn [run_trace trace_spec]; [by wps|].
  apply Forall_cons in Hf as [He Hf].
  assert (forall (m : KM unit), keeps_static m -> safe sys m k ->
    wp (m;; run_trace es) (fun rs k' => kernel_good sys k' /\ trace_spec X es (all_contents k) = (rs, all_contents k')) k) as Hm.
  { intros m Hk Hs. wps. eapply wp_safe_static; [done|done|apply H|]. intros _ k1 H1 Es. injection Es as Eo _.
    eapply wp_mono; [apply (IH k1 H1 Hf); rewrite Eo; exact HX|]. intros rs k2. by rewrite Eo. }
  destruct H as [[L HS] HO]. pose proof (Build_kernel_good sys k (ex_intro _ L HS) HO) as H.
  destruct e as [| |q c]; [apply Hm; [apply ko_systick|by eapply safe_systick]|apply Hm; [apply ko_pendsv|by eapply safe_switch]|].
  destruct He as (x & Hx & Hc). rewrite Hx. destruct (HX q x Hx) as (y & Hy & Hxy). rewrite lookup_fmap, Hy. cbn [fmap option_fmap option_map].
  wps. eapply wp_mono; [apply (wp_call q y k H Hy c); by eapply call_allowed_same|].
  intros r k1 [H1 Hr _ (z & Hz & Ez & [_ _ El Es Em] & _) Hothers _]. wps. rewrite (call_spec_same x y) in Hr, Ez by done.
  destruct (call_spec x c (contents y)) as [r' items'] eqn:Ecall. cbn [fst snd] in Hr, Ez. subst r'.
  assert (all_contents k1 = <[q := items']> (all_contents k)) as EC.
  { apply map_eq. intros q'. destruct (decide (q' = q)) as [->|Hne].
    - rewrite lookup_insert_eq, lookup_fmap, Hz. cbn. by rewrite Ez.
    - rewrite lookup_insert_ne, !lookup_fmap, Hothers by done. done. }
  eapply wp_mono; [apply (IH k1 H1 Hf)|].
  - intros q' x' Hx'. destruct (decide (q' = q)) as [->|Hne]; [|rewrite Hothers by done; by apply HX].
    simplify_eq. exists z. split; [done|]. destruct Hxy. split; congruence.
  - intros rs k2 [H2 Hspec]. wps. split; [done|]. rewrite <- EC, Hspec. done.
Qed.

End Calls.
