(* ===== verification/FreeRTOSQueueWait.v ===== *)
(** * Blocking on a queue

    The loop of a call that has to wait, run without an interruption: the
    running task leaves the ready lists, is in the event list of the queue and
    in the list of its time-out, and a context switch is asked for. *)

From S2P Require Import Prelude FreeRTOSList FreeRTOSListTheory FreeRTOSListStore FreeRTOSHeap FreeRTOSObjects.
From S2P Require Import FreeRTOSTasks FreeRTOSTasksTheory FreeRTOSTasksCalls FreeRTOSTasksInvariant FreeRTOSTasksEvents.
From S2P Require Import FreeRTOSTasksTime FreeRTOSTasksFrame FreeRTOSQueue FreeRTOSQueueTheory FreeRTOSQueueCalls.

(** Where a task waits that blocked for [n] ticks. *)
Definition waits_for (k : kernel) (t : nat) (n : Z) : Prop :=
  if n =? portMAX_DELAY then in_list k (xStateListItem t) xSuspendedTaskList
  else delayed k t /\ remaining k t = n.

(** [n] steps of the loop of a call. *)
Fixpoint wait_steps (n : nat) (op : queue_op) (q : nat) (s : wait_state) : KM wait_state :=
  match n with
  | O => mret s
  | S n => s ← wait_step op q s; wait_steps n op q s
  end.

(** The call cannot be served now. *)
Definition must_block (op : queue_op) (x : Queue_t) : Prop :=
  match op with
  | OpSend _ pos => uxMessagesWaiting x = uxLength x /\ pos <> queueOVERWRITE
  | OpReceive | OpPeek => uxMessagesWaiting x = 0
  | OpTake => uxMessagesWaiting x = 0 /\ is_mutex x = false
  end.

Section Wait.
Context (sys : system).

(** ** Placing the running task *)

(** The state after [vTaskPlaceOnEventList] or, where the flag says whether the
    task may wait for ever, [vTaskPlaceOnEventListRestricted]. *)
Record placed_on (b : bool) (l : nat) (n : Z) (c : nat) (x : TCB_t) (k k' : kernel) (L L' : store) : Prop := {
  po_ok : kernel_ok sys None (xTickCount k + 1) k' L';
  po_event : xEventListItem c ∈ members L' l;
  po_only : members L l = [] -> L' !! l = Some [xEventListItem c];
  po_state : xStateListItem c ∈ members L' (wait_list k n b);
  po_value : wait_list k n b <> xSuspendedTaskList -> value (k_lists k') (Item (xStateListItem c)) = u32 (xTickCount k + n);
  po_pending : members L xPendingReadyList = [] -> members L' xPendingReadyList = [];
  po_frame : exists h' next', k' = set_xNextTaskUnblockTime next' (set_k_lists h' (set_k_tcbs (<[c := set_ucDelayAborted false x]> (k_tcbs k)) k));
  po_values i : i <> xStateListItem c -> value (k_lists k') (Item i) = value (k_lists k) (Item i);
  po_others i l' : i <> xEventListItem c -> i <> xStateListItem c -> i ∈ members L' l' <-> i ∈ members L l';
}.

Lemma queue_list_not_pending l : queue_list sys l -> l <> xPendingReadyList.
Proof. intros []. cbv in *. lia. Qed.

Section Place.
Context (k : kernel) (L : store) (c p l : nat) (x : TCB_t) (n : Z) (b : bool).
Hypothesis placing_ok : scheduled sys k L.
Hypothesis suspended : uxSchedulerSuspended k <> 0.
Hypothesis current_task : pxCurrentTCB k = Some c.
Hypothesis tcb : k_tcbs k !! c = Some x.
Hypothesis not_the_idle : c <> idle_task sys.
Hypothesis is_ready_list : ready_list p = true.
Hypothesis ready_there : xStateListItem c ∈ members L p.
Hypothesis no_notification : ucNotifyState x <> taskWAITING_NOTIFICATION.
Hypothesis of_queue : queue_list sys l.
Hypothesis in_no_list : detached L (xEventListItem c).
Hypothesis ticks_range : 0 < n <= portMAX_DELAY.

(** After the insertion in the event list. *)
Lemma wp_place_delay h1 ns Q :
  stored h1 (<[l := ns]> L) -> same_items (k_lists k) h1 -> (forall j, j ∈ ns <-> j = xEventListItem c \/ j ∈ members L l) ->
  (members L l = [] -> ns = [xEventListItem c]) ->
  (forall k' L', placed_on b l n c x k k' L L' -> Q tt k') -> wp (prvAddCurrentTaskToDelayedList n b) Q (set_k_lists h1 k).
Proof.
  intros S1 HS1 Hm Hone HQ. pose proof (sc_ok _ _ _ placing_ok) as HO. pose proof (queue_list_event sys l of_queue) as Hle.
  assert (kernel_ok sys (Some c) (xTickCount k + 1) (set_k_lists h1 k) (<[l := ns]> L)) as H1.
  { apply (ok_insert_event sys _ k L c x); try done. apply (ok_weaken _ _ _ _ None); [by left|done]. }
  eapply (wp_delay_current sys (Some c) (set_k_lists h1 k) _ c x p); try done; [by right|by rewrite (elem_of_inserted _ _ _ _ Hm); right|].
  intros h' next' ns' k' L' Hok Hm' Hvs Hval. apply (HQ k' L').
  assert (event_list (wait_list k n b) = false) as Hwe.
  { destruct (delays_disjoint _ _ _ _ _ _ (ok_delays _ _ _ _ _ HO)) as (_ & ? & ? & _).
    unfold wait_list. destruct (_ && _); [done|]. by destruct (_ <? _). }
  assert (wait_list (set_k_lists h1 k) n b = wait_list k n b) as Ewl by done.
  assert (L' !! l = Some (without (xStateListItem c) ns)) as El'.
  { unfold L'. rewrite lookup_insert_ne by congruence. by rewrite lookup_fmap, lookup_insert_eq. }
  assert (forall j, j ∈ without (xStateListItem c) ns <-> j = xEventListItem c \/ (j <> xStateListItem c /\ j ∈ members L l)) as Hw.
  { intros j. rewrite elem_of_without, Hm. split; [tauto|]. intros [->|]; [|tauto]. split; [|by left].
    intros E'. by apply eq_sym, state_not_event in E'. }
  split; [done|..|exact Hval| | | |].
  - rewrite (members_lookup _ _ _ El'), Hw. by left.
  - intros Hnil. rewrite El'. f_equal. rewrite (Hone Hnil). apply without_notin.
    rewrite list_elem_of_singleton. intros E'. by apply state_not_event in E'.
  - unfold L'. rewrite Ewl, members_insert_eq, Hm'. by left.
  - intros Hm7. assert (event_list xPendingReadyList = true) by done. unfold L'. rewrite members_insert_ne by congruence.
    rewrite members_without, members_insert_ne; [by rewrite Hm7|]. by apply queue_list_not_pending.
  - by exists h', next'.
  - intros i Hi. etransitivity; [by apply Hvs|]. apply (same_value _ _ HS1).
  - intros i l' He Hs. unfold L'. rewrite (elem_of_inserted _ _ _ _ Hm'), members_without, elem_of_without, (elem_of_inserted _ _ _ _ Hm).
    split; [intros [[_ ?]|[_ [[_ ?]|?]]]; done|tauto].
Qed.

End Place.

Lemma wp_place k L c p l x n Q :
  scheduled sys k L -> uxSchedulerSuspended k <> 0 -> pxCurrentTCB k = Some c -> k_tcbs k !! c = Some x ->
  c <> idle_task sys -> ready_list p = true -> xStateListItem c ∈ members L p ->
  ucNotifyState x <> taskWAITING_NOTIFICATION -> queue_list sys l -> detached L (xEventListItem c) ->
  0 < n <= portMAX_DELAY -> (forall k' L', placed_on true l n c x k k' L L' -> Q tt k') -> wp (vTaskPlaceOnEventList l n) Q k.
Proof.
  intros H Hs Hc Hx Hid Hp Hin Hnw Hl Hd Hn HQ. pose proof (sc_ok _ _ _ H) as HO. pose proof (ok_tasks _ _ _ _ _ HO) as HT.
  unfold vTaskPlaceOnEventList. wps. apply (wp_current c); [done|]. wps.
  destruct (tk_event_item _ _ _ _ _ HT c ltac:(eauto)) as [Hpr _ Hv].
  destruct (st_insert _ _ (tk_stored _ _ _ _ _ HT) l _ _ (queue_list_members sys _ _ _ _ _ HO Hl) Hd Hpr Hv) as (h1 & E & S1 & HS1).
  apply (wp_do _ h1); [done|]. eapply wp_place_delay; try done; [intros j; apply insert_sorted_elem|by intros ->].
Qed.

(** The list of [vTaskPlaceOnEventListRestricted] need not be sorted. *)
Lemma wp_place_restricted k L c p l x n b Q :
  scheduled sys k L -> uxSchedulerSuspended k <> 0 -> pxCurrentTCB k = Some c -> k_tcbs k !! c = Some x ->
  c <> idle_task sys -> ready_list p = true -> xStateListItem c ∈ members L p ->
  ucNotifyState x <> taskWAITING_NOTIFICATION -> queue_list sys l -> detached L (xEventListItem c) ->
  0 < n <= portMAX_DELAY \/ b = true ->
  (forall k' L', placed_on b l (if b then portMAX_DELAY else n) c x k k' L L' -> Q tt k') ->
  wp (vTaskPlaceOnEventListRestricted l n b) Q k.
Proof.
  intros H Hs Hc Hx Hid Hp Hin Hnw Hl Hd Hn HQ. pose proof (sc_ok _ _ _ H) as HO. pose proof (ok_tasks _ _ _ _ _ HO) as HT.
  unfold vTaskPlaceOnEventListRestricted. wps. apply (wp_current c); [done|]. wps.
  destruct (tk_event_item _ _ _ _ _ HT c ltac:(eauto)) as [Hpr _ Hv].
  destruct (st_insert_end _ _ (tk_stored _ _ _ _ _ HT) l _ _ (queue_list_members sys _ _ _ _ _ HO Hl) Hd Hpr Hv)
    as (h1 & ns1 & ns2 & En & E & S1 & HS1).
  apply (wp_do _ h1); [done|]. eapply wp_place_delay; try done.
  - destruct b; [unfold portMAX_DELAY; lia|]. by destruct Hn.
  - intros j. rewrite En. rewrite !elem_of_app, elem_of_cons. tauto.
  - intros Enil. rewrite Enil in En. by destruct ns1, ns2.
Qed.

Lemma placed_waits k k' L L' l n c x :
  placed_on true l n c x k k' L L' -> in_range 32 (xTickCount k) -> 0 < n <= portMAX_DELAY ->
  in_list k' (xEventListItem c) l /\ waits_for k' c n.
Proof.
  intros [Hok Hev _ Hst Hval _ (h' & next' & ->)] Ht Hn. split; [by apply (in_list_member sys _ _ _ _ _ _ Hok)|].
  unfold waits_for. apply (in_list_member sys _ _ _ _ _ _ Hok) in Hst. unfold wait_list in *. rewrite andb_true_r in *.
  destruct (Z.eqb_spec n portMAX_DELAY) as [->|Hne]; [done|].
  assert (forall l, l = pxDelayedTaskList k \/ l = pxOverflowDelayedTaskList k -> l <> xSuspendedTaskList) as Hns.
  { intros l' Hl'. destruct (dl_lists _ _ _ _ _ _ (ok_delays _ _ _ _ _ Hok)) as [[E1 E2]|[E1 E2]]; kcbn_in E1; kcbn_in E2;
      rewrite E1, E2 in Hl'; destruct Hl' as [->| ->]; done. }
  split.
  - unfold delayed. kcbn. destruct (_ <? _); auto.
  - apply remaining_wake; [done|done|]. apply Hval. apply Hns. destruct (_ <? _); auto.
Qed.

(** A task that may not wait for ever is delayed for its ticks. *)
Lemma placed_delayed k k' L L' l n c x :
  placed_on false l n c x k k' L L' -> in_range 32 (xTickCount k) -> 0 < n <= portMAX_DELAY ->
  in_list k' (xEventListItem c) l /\ delayed k' c /\ remaining k' c = n.
Proof.
  intros [Hok Hev _ Hst Hval _ (h' & next' & ->)] Ht Hn. split; [by apply (in_list_member sys _ _ _ _ _ _ Hok)|].
  apply (in_list_member sys _ _ _ _ _ _ Hok) in Hst. unfold wait_list in *. rewrite andb_false_r in *. split.
  - unfold delayed. kcbn. destruct (_ <? _); auto.
  - apply remaining_wake; [done|done|]. apply Hval.
    destruct (dl_lists _ _ _ _ _ _ (ok_delays _ _ _ _ _ Hok)) as [[E1 E2]|[E1 E2]]; kcbn_in E1; kcbn_in E2;
      destruct (_ <? _); rewrite ?E1, ?E2; done.
Qed.

Lemma unlock_locked x :
  cTxLock x = queueUNLOCKED -> cRxLock x = queueUNLOCKED ->
  set_cRxLock queueUNLOCKED (set_cTxLock queueUNLOCKED
    (set_cTxLock queueLOCKED_UNMODIFIED (set_cRxLock queueLOCKED_UNMODIFIED x))) = x.
Proof. destruct x. cbn. by intros -> ->. Qed.

(** ** The loop *)

Section Loop.
Context (op : queue_op) (q c : nat) (x : Queue_t) (y : TCB_t) (k : kernel) (n : Z).
Hypothesis good : kernel_good sys k.
Hypothesis here : queue_at k q = Some x.
Hypothesis unlocked : cTxLock x = queueUNLOCKED /\ cRxLock x = queueUNLOCKED.
Hypothesis blocked : must_block op x.
Hypothesis running : pxCurrentTCB k = Some c.
Hypothesis task : k_tcbs k !! c = Some y.
Hypothesis not_idle : c <> idle_task sys.
Hypothesis is_ready : ready k c.
Hypothesis free : forall l, ~ in_list k (xEventListItem c) l.
Hypothesis not_notified : ucNotifyState y <> taskWAITING_NOTIFICATION.
Hypothesis not_aborted : ucDelayAborted y = false.
Hypothesis not_suspended : uxSchedulerSuspended k = 0.
Hypothesis drained : nothing_pending k.
Hypothesis bounded : 0 < n <= portMAX_DELAY.

Let o := mkTimeOut (xNumOfOverflows k) (xTickCount k).
Let locked := set_cTxLock queueLOCKED_UNMODIFIED (set_cRxLock queueLOCKED_UNMODIFIED x).

(** The first critical section finds that the task has to wait. *)
Lemma wp_block_try (Q : wait_state -> kernel -> Prop) :
  Q (mkWait WaitSuspend n (Some o) false) k -> wp (wait_step op q (wait_start n)) Q k.
Proof.
  intros HQ. assert (wp (must_wait (wait_start n)) Q k) as Hw.
  { unfold must_wait. cbn [wait_start w_ticks w_timeout w_inherited]. replace (n =? 0) with false by lia.
    unfold vTaskSetTimeOutState. wps. exact HQ. }
  destruct op; cbn [wait_step w_pc wait_start op_try];
    unfold send_try, receive_try, take_try, peek_try; wps; (apply (wp_get_queue q x); [done|]); cbn [must_block] in blocked.
  - destruct blocked as [E Hpos]. rewrite E, Z.ltb_irrefl, (proj2 (Z.eqb_neq _ _) Hpos). exact Hw.
  - rewrite blocked. exact Hw.
  - destruct blocked as [E _]. rewrite E. exact Hw.
  - rewrite blocked. exact Hw.
Qed.

Lemma wp_block_lock (Q : unit -> kernel -> Prop) k' :
  queue_at k' q = Some x -> Q tt (with_queue q locked k') -> wp (prvLockQueue q) Q k'.
Proof.
  intros Hq HQ. destruct unlocked as [E1 E2]. unfold prvLockQueue. wps. apply (wp_get_queue q x); [done|]. wps.
  rewrite E2. change (queueUNLOCKED =? queueUNLOCKED) with true. cbn match. cbn [cTxLock set_cRxLock]. rewrite E1.
  change (queueUNLOCKED =? queueUNLOCKED) with true. cbn match. by apply wp_put_queue.
Qed.

(** No time has passed since the critical section. *)
Lemma wp_block_check (Q : bool * TimeOut_t * Z -> kernel -> Prop) k' :
  pxCurrentTCB k' = Some c -> k_tcbs k' !! c = Some y -> xTickCount k' = xTickCount k -> xNumOfOverflows k' = xNumOfOverflows k ->
  in_range 32 (xTickCount k) -> Q (false, o, n) k' -> wp (xTaskCheckForTimeOut o n) Q k'.
Proof.
  intros Hc Hy Ht Ho Hr HQ. unfold xTaskCheckForTimeOut. wps. wp_running Hc Hy. rewrite not_aborted.
  apply wp_if; intros Hmax; [by wps|]. rewrite Ho. cbn [xOverflowCount o]. rewrite Z.eqb_refl. cbn [negb andb].
  rewrite Ht. cbn [xTimeOnEntering o]. rewrite Z.sub_diag. change (u32 0) with 0. replace (0 <? n) with true by lia.
  unfold vTaskSetTimeOutState. wps. rewrite Ht, Ho, Z.sub_0_r, wrapu_small by (unfold in_range, portMAX_DELAY in *; lia). exact HQ.
Qed.

Lemma wp_block_test (Q : wait_state -> kernel -> Prop) k' :
  queue_at k' q = Some locked -> Q (mkWait WaitPlace n (Some o) false) k' ->
  wp (wait_step op q (mkWait WaitTest n (Some o) false)) Q k'.
Proof.
  intros Hq HQ. destruct op; cbn [wait_step w_pc op_blocked]; unfold prvIsQueueFull, prvIsQueueEmpty; wps;
    (apply (wp_get_queue q locked); [done|]); wps; cbn [uxMessagesWaiting uxLength locked set_cTxLock set_cRxLock];
    cbn [must_block] in blocked.
  - destruct blocked as [E _]. rewrite E, Z.eqb_refl. wps. apply (wp_get_queue q locked); [done|]. wps. exact HQ.
  - rewrite blocked. change (0 =? 0) with true. cbn match. wps. apply (wp_get_queue q locked); [done|]. wps. exact HQ.
  - destruct blocked as [E Em]. rewrite E. change (0 =? 0) with true. cbn match. wps. apply (wp_get_queue q locked); [done|]. wps.
    change (is_mutex locked) with (is_mutex x). rewrite Em. exact HQ.
  - rewrite blocked. change (0 =? 0) with true. cbn match. wps. apply (wp_get_queue q locked); [done|]. wps. exact HQ.
Qed.

(** Nothing came in while the queue was locked. *)
Lemma wp_block_unlock (Q : unit -> kernel -> Prop) k' :
  queue_at k' q = Some locked -> Q tt (with_queue q x k') -> wp (unlock_tx q) (fun _ => wp (unlock_rx q) Q) k'.
Proof.
  intros Hq HQ. destruct unlocked as [E1 E2]. unfold unlock_tx, unlock_rx.
  wps. apply (wp_get_queue q locked); [done|]. wps. change (Z.to_nat (cTxLock locked)) with 0%nat. cbn [unlock_wake]. wps.
  apply (wp_get_queue q locked); [done|]. wps. apply wp_put_queue.
  wps. eapply wp_get_queue; [apply queue_at_with|]. wps. change (Z.to_nat (cRxLock _)) with 0%nat. cbn [unlock_wake]. wps.
  eapply wp_get_queue; [apply queue_at_with|]. wps. apply wp_put_queue. rewrite with_queue_with.
  unfold locked. by rewrite unlock_locked.
Qed.

Lemma restored_objects k3 : k_objects k3 = k_objects (with_queue q locked k) -> k_objects (with_queue q x k3) = k_objects k.
Proof.
  intros E. transitivity (k_objects (with_queue q x k)); [|by rewrite with_queue_same]. unfold with_queue. cbn.
  rewrite E. cbn. by rewrite insert_insert_eq.
Qed.

(** The state after the loop: the task waits, and a switch is asked for. *)
Record blocked_on (k' : kernel) : Prop := {
  bk_good : kernel_good sys k';
  bk_objects : k_objects k' = k_objects k;
  bk_event : in_list k' (xEventListItem c) (op_list op x);
  bk_waits : waits_for k' c n;
  bk_switch : pendsv k' = true;
  bk_suspended : uxSchedulerSuspended k' = 0;
  bk_first : listLIST_IS_EMPTY (op_list op x) (k_lists k) = Ok true -> first_waiting k' (op_list op x) = Some c;
}.

Lemma block_first k0 L0 k3 L3 l :
  kernel_ok sys None (xTickCount k0 + 1) k0 L0 -> kernel_ok sys None (xTickCount k0 + 1) k3 L3 -> queue_list sys l ->
  (members L0 l = [] -> L3 !! l = Some [xEventListItem c]) -> listLIST_IS_EMPTY l (k_lists k0) = Ok true ->
  is_Some (k_tcbs k3 !! c) -> first_waiting k3 l = Some c.
Proof.
  intros H0 H3 Hl Hone He Hc. pose proof (tk_stored _ _ _ _ _ (ok_tasks _ _ _ _ _ H0)) as S0.
  pose proof (tk_stored _ _ _ _ _ (ok_tasks _ _ _ _ _ H3)) as S3.
  rewrite (st_empty _ _ S0 _ _ (queue_list_members sys _ _ _ _ _ H0 Hl)) in He. injection He as He%bool_decide_eq_true.
  specialize (Hone He). unfold first_waiting. rewrite (st_empty _ _ S3 _ _ Hone). cbn [bool_decide].
  rewrite (st_head_owner _ _ S3 _ _ _ c Hone); [done|]. apply (tk_event_item _ _ _ _ _ (ok_tasks _ _ _ _ _ H3) c Hc).
Qed.

Lemma wp_block :
  wp (wait_steps 9 op q (wait_start n)) (fun s k' => s = mkWait WaitTry n (Some o) false /\ blocked_on k') k.
Proof.
  destruct good as [[L H] HB]. pose proof (sc_ok _ _ _ H) as HO. destruct drained as [Hpt Hpl].
  pose proof (ok_tick _ _ _ _ _ HO) as Htick. destruct (ob_queue _ _ HB q x here) as (_ & _ & Hl1 & Hl2).
  set (k2 := with_queue q locked (set_uxSchedulerSuspended 1 k)).
  assert (scheduled sys k2 L) as H2.
  { apply scheduled_objects, (scheduled_flags sys k); try done. by apply ok_suspend_all. }
  destruct is_ready as (y' & Hy' & Hr). rewrite task in Hy'. injection Hy' as <-. apply (in_list_member sys _ _ _ _ _ _ HO) in Hr.
  destruct (ready_priority _ _ _ _ _ c y (ok_tasks _ _ _ _ _ HO) task) as [Hp _].
  assert (detached L (xEventListItem c)) as Hd by (intros l Hi; by apply (free l), (in_list_member sys _ _ _ _ _ _ HO)).
  assert (queue_list sys (op_list op x)) as Hl by (destruct op; done).
  cbn [wait_steps]. apply wp_bind, wp_block_try. apply wp_bind. cbn [wait_step w_pc]. wps. apply wp_suspend_first; [done|].
  wps. cbn [wait_step w_pc at_pc]. wps. apply wp_block_lock; [done|]. wps. fold k2. cbn [wait_step w_pc at_pc w_timeout w_ticks w_inherited].
  wps. apply wp_block_check; [done..|]. wps. apply wp_block_test; [apply queue_at_with|]. wps. cbn [wait_step w_pc w_ticks].
  wps. apply (wp_get_queue q locked); [apply queue_at_with|]. wps. replace (op_list op locked) with (op_list op x) by (by destruct op).
  eapply (wp_place k2 L c); [exact H2|done|done|exact task|done|exact Hp|exact Hr|done|done|done|done|]. intros k3 L3 HP. wps.
  cbn [wait_step w_pc at_pc]. destruct (placed_waits _ _ _ _ _ _ _ _ HP Htick bounded) as [Hev Hw].
  destruct HP as [HO3 _ Hone _ _ H7 (h' & next' & Ek3)].
  assert (queue_at k3 q = Some locked) as Hq3 by (subst k3; apply queue_at_with).
  pose proof (wp_block_unlock (fun _ => wp (wait_steps 1 op q (mkWait (WaitResume Placed) n (Some o) false))
    (fun s k' => s = mkWait WaitTry n (Some o) false /\ blocked_on k')) k3 Hq3) as HU. wps.
  eapply wp_mono; [apply HU|intros [] k4 HU4; cbv beta; apply wp_ret; cbn [wait_step w_pc at_pc]; wps;
    (eapply wp_mono; [exact HU4|]); intros [] k5 HU5; cbn [wait_steps] in HU5; apply wp_bind_inv in HU5; wps; exact HU5].
  assert (kernel_ok sys None (xTickCount k + 1) (with_queue q x k3) L3) as HO4 by (destruct HO3; by split).
  cbn [wait_steps wait_step w_pc]. wps.
  assert (forall k5, k5 = set_pendsv true (set_uxSchedulerSuspended 0 (with_queue q x k3)) -> blocked_on k5) as Hend.
  { intros k5 ->. assert (k_objects (with_queue q x k3) = k_objects k) as Eo by (apply restored_objects; by subst k3).
    assert (kernel_ok sys None (xTickCount k + 1) (set_pendsv true (set_uxSchedulerSuspended 0 (with_queue q x k3))) L3) as HO5
      by (by apply ok_pendsv, ok_suspend_all).
    split; try done.
    2: { intros He. apply (block_first k L _ L3); [done..|]. subst k3. unfold with_queue. kcbn. rewrite lookup_insert_eq. by eauto. }
    split; [exists L3; apply scheduled_pending; [by subst k3|done]|].
    apply (objects_ok_static sys k); [|done]. unfold static. kcbn. rewrite Eo. by subst k3. }
  eapply (wp_resume_idle sys _ _ L3); [exact HO4| |by subst k3|by subst k3|..].
  - apply H7. by apply (pending_empty sys _ _ _ HO).
  - intros _. cbn [negb when]. wps. split; [done|by apply Hend].
  - intros b _ ->. cbn [negb when]. wps. split; [done|by apply Hend].
Qed.

End Loop.

End Wait.
