(* ===== verification/FreeRTOSSystem.v ===== *)
(** * Tasks and interrupts on shared queues

    The firmware as its tasks see it: the kernel, and for each task that is
    inside a call of [queue.c] that can block where it is in the loop of that
    call.  One event is a tick, a context switch, a call of an interrupt on a
    queue, or a step of the running task: it enters a call, makes one step of
    the loop ([wait_step]), or delays itself.

    An interrupt may come between any two steps.  The port takes a pended switch
    before the running task goes on: the task makes a step only when none is
    pended.  A step that is not a critical section runs with the scheduler
    suspended and the queue locked, so that an interrupt in the middle of it
    does not touch the lists it works on. *)

From S2P Require Import Prelude FreeRTOSList FreeRTOSHeap FreeRTOSObjects FreeRTOSTasks FreeRTOSTasksTheory.
From S2P Require Import FreeRTOSTasksTime FreeRTOSQueue FreeRTOSQueueTheory FreeRTOSQueueCalls.

(** [portYIELD_FROM_ISR], at the end of an interrupt *)
Definition portYIELD_FROM_ISR (xSwitchRequired : bool) : KM unit := when xSwitchRequired portYIELD_WITHIN_API.

(** An interrupt that makes one call and passes on [xHigherPriorityTaskWoken]. *)
Definition isr_call (q : nat) (c : queue_call) : KM (Z * list Z) :=
  match c with
  | IsrSend item pos =>
      '(r, woken) ← xQueueGenericSendFromISR q item false pos; portYIELD_FROM_ISR woken;; mret (r, [])
  | IsrGive => '(r, woken) ← xQueueGiveFromISR q false; portYIELD_FROM_ISR woken;; mret (r, [])
  | IsrReceive => '(r, d, woken) ← xQueueReceiveFromISR q true false; portYIELD_FROM_ISR woken;; mret (r, d)
  | IsrPeek => xQueuePeekFromISR q true
  | _ => fault WildHostPointer
  end.

Definition is_isr (c : queue_call) : bool :=
  match c with IsrSend _ _ | IsrGive | IsrReceive | IsrPeek => true | _ => false end.

(** ** Configurations and events *)

(** The queue, the function, and the place in its loop. *)
Record call_state : Set := mkCall { cl_queue : nat; cl_op : queue_op; cl_wait : wait_state }.

Record sys_conf : Type := mkConf { c_kernel : kernel; c_calls : gmap nat call_state }.

Inductive sys_event : Set :=
  | SysTick
  | SysPendSV
  | SysIsr (q : nat) (c : queue_call)
  | SysCall (q : nat) (op : queue_op) (xTicksToWait : Z)
  | SysDelay (xTicksToDelay : Z)
  | SysStep.

(** A call that returned: the queue, the call and its answer. *)
Record outcome : Set := mkOutcome { oc_queue : nat; oc_call : queue_call; oc_answer : Z * list Z }.

(** The running task goes on inside its call or leaves it. *)
Definition call_on (t : nat) (cl : call_state) (s : wait_state) (k : kernel) (M : gmap nat call_state)
    : option outcome * sys_conf :=
  match w_pc s with
  | WaitDone r d => (Some (mkOutcome (cl_queue cl) (op_call (cl_op cl)) (r, d)), mkConf k (delete t M))
  | _ => (None, mkConf k (<[t := mkCall (cl_queue cl) (cl_op cl) s]> M))
  end.

Definition sys_step (e : sys_event) (c : sys_conf) : res (option outcome * sys_conf) :=
  let k := c_kernel c in
  let M := c_calls c in
  match e with
  | SysTick => '(_, k) ← xPortSysTickHandler k; Ok (None, mkConf k M)
  | SysPendSV => '(_, k) ← xPortPendSVHandler k; Ok (None, mkConf k M)
  | SysIsr q i => '(r, k) ← isr_call q i k; Ok (Some (mkOutcome q i r), mkConf k M)
  | SysCall q op n =>
      t ← deref (pxCurrentTCB k);
      '(s, k) ← op_start op q true n k;
      Ok (None, mkConf k (<[t := mkCall q op s]> M))
  | SysDelay n => '(_, k) ← vTaskDelay n k; Ok (None, mkConf k M)
  | SysStep =>
      t ← deref (pxCurrentTCB k);
      cl ← deref (M !! t);
      '(s, k) ← wait_step (cl_op cl) (cl_queue cl) (cl_wait cl) k;
      Ok (call_on t cl s k M)
  end.

(** ** What may happen *)

(** The running task is not pre-empted, not the idle task, and in no call. *)
Definition task_free (sys : system) (c : sys_conf) : Prop :=
  pendsv (c_kernel c) = false /\
  exists t, pxCurrentTCB (c_kernel c) = Some t /\ t <> idle_task sys /\ c_calls c !! t = None.

Definition sys_allowed (sys : system) (c : sys_conf) (e : sys_event) : Prop :=
  match e with
  | SysTick => True
  | SysPendSV => pendsv (c_kernel c) = true
  | SysIsr q i => is_isr i = true /\ exists x, queue_at (c_kernel c) q = Some x /\ call_allowed x i
  | SysCall q op n => task_free sys c /\ 0 <= n <= portMAX_DELAY /\
      exists x, queue_at (c_kernel c) q = Some x /\ call_allowed x (op_call op)
  | SysDelay n => task_free sys c /\ 0 <= n <= portMAX_DELAY
  | SysStep => pendsv (c_kernel c) = false /\ exists t, pxCurrentTCB (c_kernel c) = Some t /\ is_Some (c_calls c !! t)
  end.

(** The configurations reached from [c0], with the calls that returned so far. *)
Inductive sys_reachable (sys : system) (c0 : sys_conf) : list outcome -> sys_conf -> Prop :=
  | reach_start : sys_reachable sys c0 [] c0
  | reach_step os c e o c' :
      sys_reachable sys c0 os c -> sys_allowed sys c e -> sys_step e c = Ok (o, c') ->
      sys_reachable sys c0 (os ++ option_list o) c'.

(** ** Waiting *)

(** The two event lists of a queue, what their tasks wait for, and the lock that
    counts it. *)
Inductive side : Set := ToReceive | ToSend.

#[export] Instance side_eq_dec : EqDecision side.
Proof. solve_decision. Defined.

Definition op_side (op : queue_op) : side := match op with OpSend _ _ => ToSend | _ => ToReceive end.

Definition side_list (d : side) (x : Queue_t) : nat :=
  match d with ToReceive => xTasksWaitingToReceive x | ToSend => xTasksWaitingToSend x end.

Definition available (d : side) (x : Queue_t) : Z :=
  match d with ToReceive => uxMessagesWaiting x | ToSend => uxLength x - uxMessagesWaiting x end.

Definition side_lock (d : side) (x : Queue_t) : Z := match d with ToReceive => cTxLock x | ToSend => cRxLock x end.

(** The task looks at the queue again before it does anything else. *)
Definition will_retry (pc : wait_pc) : bool :=
  match pc with
  | WaitTry | WaitUnlockTx Placed | WaitUnlockRx Placed | WaitResume Placed => true
  | _ => false
  end.

#[export] Instance in_list_dec k i l : Decision (in_list k i l).
Proof. unfold in_list. apply _. Defined.

(** The tasks in an event list, and those in a call that will try again. *)
Definition waiters (k : kernel) (l : nat) : gset nat :=
  filter (fun t => in_list k (xEventListItem t) l) (dom (k_tcbs k)).

Definition retries (q : nat) (d : side) (cl : call_state) : Prop :=
  cl_queue cl = q /\ op_side (cl_op cl) = d /\ will_retry (w_pc (cl_wait cl)) = true.

#[export] Instance retries_dec q d cl : Decision (retries q d cl).
Proof. apply _. Defined.

Definition retriers (M : gmap nat call_state) (q : nat) (d : side) : gset nat :=
  dom (filter (fun p => retries q d p.2) M).

(** The items of all queues. *)
Definition queue_contents (k : kernel) : gmap nat (list (list Z)) := contents <$> o_queues (k_objects k).

(** ** Sequential queues *)

(** A send that timed out: it changed nothing. *)
Definition send_timed_out (o : outcome) : Prop :=
  (exists item pos, oc_call o = CallSend item pos) /\ oc_answer o = (errQUEUE_FULL, []).

(** What a call that returned did to the bounded queues [C]; [X] holds their
    lengths and item sizes. *)
Definition outcome_step (X : gmap nat Queue_t) (o : outcome) (C C' : gmap nat (list (list Z))) : Prop :=
  exists x items, X !! oc_queue o = Some x /\ C !! oc_queue o = Some items /\
    (((call_spec x (oc_call o) items).1 = oc_answer o /\ C' = <[oc_queue o := (call_spec x (oc_call o) items).2]> C) \/
     (send_timed_out o /\ C' = C)).

(** A sequence of calls that returned, in the order in which they did. *)
Inductive outcomes_legal (X : gmap nat Queue_t) : list outcome -> gmap nat (list (list Z)) -> gmap nat (list (list Z)) -> Prop :=
  | legal_none C : outcomes_legal X [] C C
  | legal_more os o C C1 C2 : outcomes_legal X os C C1 -> outcome_step X o C1 C2 -> outcomes_legal X (os ++ [o]) C C2.
