(* ===== verification/FreeRTOSSystemTheory.v ===== *)
(** * The invariant of the tasks on shared queues

    Where the tasks are in their calls, which queues are locked, which tasks are
    in the event lists, and that no wake-up is lost: as long as a task waits for
    a queue, there are at least as many other tasks about to look at the queue
    again as there are items to take, or places to fill. *)

From S2P Require Import Prelude FreeRTOSList FreeRTOSListTheory FreeRTOSListStore FreeRTOSHeap FreeRTOSObjects.
From S2P Require Import FreeRTOSTasks FreeRTOSTasksTheory FreeRTOSTasksCalls FreeRTOSTasksInvariant FreeRTOSTasksEvents.
From S2P Require Import FreeRTOSTasksTime FreeRTOSTasksFrame FreeRTOSTasksRouse FreeRTOSQueue FreeRTOSQueueTheory.
From S2P Require Import FreeRTOSQueueFrame FreeRTOSQueueCalls FreeRTOSQueueWait FreeRTOSSystem.

(** ** The places in the loop *)

(** The scheduler runs, or it is suspended; the queue is locked against senders
    and receivers; the task has been placed on the event list. *)
Definition outside (pc : wait_pc) : bool := match pc with WaitTry | WaitSuspend | WaitExpired => true | _ => false end.

Definition inside (pc : wait_pc) : bool :=
  match pc with
  | WaitLock | WaitCheck | WaitTest | WaitPlace | WaitUnlockTx _ | WaitUnlockRx _ | WaitResume _ => true
  | _ => false
  end.

Definition tx_locked (pc : wait_pc) : bool :=
  match pc with WaitCheck | WaitTest | WaitPlace | WaitUnlockTx _ => true | _ => false end.

Definition rx_locked (pc : wait_pc) : bool := match pc with WaitUnlockRx _ => true | _ => tx_locked pc end.

Definition placed (pc : wait_pc) : bool :=
  match pc with WaitUnlockTx Placed | WaitUnlockRx Placed | WaitResume Placed => true | _ => false end.

Definition will_wait (pc : wait_pc) : bool :=
  match pc with WaitSuspend | WaitLock | WaitCheck | WaitTest | WaitPlace => true | _ => false end.

Abbreviation cl_pc cl := (w_pc (cl_wait cl)).

(** ** The invariant *)

Record call_ok (sys : system) (k : kernel) (t : nat) (cl : call_state) : Prop := {
  co_task : is_Some (k_tcbs k !! t);
  co_idle : t <> idle_task sys;
  co_queue : exists x, queue_at k (cl_queue cl) = Some x /\ call_allowed x (op_call (cl_op cl));
  co_ticks : 0 <= w_ticks (cl_wait cl) <= portMAX_DELAY;
  co_wait : will_wait (cl_pc cl) = true -> 0 < w_ticks (cl_wait cl) /\ w_timeout (cl_wait cl) <> None;
  co_inherited : w_inherited (cl_wait cl) = false;
  co_pc : outside (cl_pc cl) || inside (cl_pc cl) = true;
}.

Definition unlocked_but (o : option nat) (k : kernel) : Prop :=
  forall q x, o <> Some q -> queue_at k q = Some x -> locks x = (queueUNLOCKED, queueUNLOCKED).

Definition lock_state (b : bool) (lock : Z) : Prop := if b then 0 <= lock else lock = queueUNLOCKED.

(** A task that runs: in a ready list and in no event list. *)
Definition can_block (k : kernel) (t : nat) : Prop :=
  container (k_lists k) (Item (xEventListItem t)) = None /\ exists p, ready_list p = true /\ in_list k (xStateListItem t) p.

(** The running task [t] is in the part of its call [cl] where the scheduler is
    suspended. *)
Record held (k : kernel) (M : gmap nat call_state) (t : nat) (cl : call_state) (x : Queue_t) : Prop := {
  hd_current : pxCurrentTCB k = Some t;
  hd_call : M !! t = Some cl;
  hd_inside : inside (cl_pc cl) = true;
  hd_others u cl' : u <> t -> M !! u = Some cl' -> outside (cl_pc cl') = true;
  hd_queue : queue_at k (cl_queue cl) = Some x;
  hd_unlocked : unlocked_but (Some (cl_queue cl)) k;
  hd_tx : lock_state (tx_locked (cl_pc cl)) (cTxLock x);
  hd_rx : lock_state (rx_locked (cl_pc cl)) (cRxLock x);
  hd_ready : placed (cl_pc cl) = false -> can_block k t;
}.

(** No task is in a call with the scheduler suspended. *)
Record free_phase (k : kernel) (M : gmap nat call_state) : Prop := {
  fp_outside t cl : M !! t = Some cl -> outside (cl_pc cl) = true;
  fp_unlocked : unlocked_but None k;
  fp_pended : nobody xPendingReadyList k;
  fp_asked : xYieldPending k = true -> pendsv k = true;
}.

Inductive sys_phase (k : kernel) (M : gmap nat call_state) : Prop :=
  | phase_free : uxSchedulerSuspended k = 0 -> free_phase k M -> sys_phase k M
  | phase_held t cl x : uxSchedulerSuspended k = 1 -> held k M t cl x -> sys_phase k M.

Definition placing (M : gmap nat call_state) (q : nat) (d : side) : Prop :=
  exists t cl, M !! t = Some cl /\ cl_queue cl = q /\ op_side (cl_op cl) = d /\ cl_pc cl = WaitPlace.

(** There are enough tasks that will look again, or the lock counts enough. *)
Definition enough (k : kernel) (M : gmap nat call_state) (q : nat) (x : Queue_t) (d : side) : Prop :=
  available d x + Z.of_nat (size (waiters k (side_list d x))) <= Z.of_nat (size (retriers M q d)) + Z.max 0 (side_lock d x) \/
  uxCurrentNumberOfTasks k <= side_lock d x.

Record sys_ok (sys : system) (c : sys_conf) : Prop := {
  so_good : kernel_good sys (c_kernel c);
  so_plain q x : queue_at (c_kernel c) q = Some x -> is_mutex x = false;
  so_apart q q' x x' d d' : queue_at (c_kernel c) q = Some x -> queue_at (c_kernel c) q' = Some x' ->
    side_list d x = side_list d' x' -> q = q' /\ d = d';
  so_number : 0 < uxCurrentNumberOfTasks (c_kernel c);
  so_size : Z.of_nat (size (k_tcbs (c_kernel c))) <= uxCurrentNumberOfTasks (c_kernel c);
  so_notify t y : k_tcbs (c_kernel c) !! t = Some y -> ucNotifyState y <> taskWAITING_NOTIFICATION;
  so_call t cl : c_calls c !! t = Some cl -> call_ok sys (c_kernel c) t cl;
  so_phase : sys_phase (c_kernel c) (c_calls c);
  so_member t l : waiting_list l -> in_list (c_kernel c) (xEventListItem t) l ->
    exists cl x, c_calls c !! t = Some cl /\ queue_at (c_kernel c) (cl_queue cl) = Some x /\
      l = side_list (op_side (cl_op cl)) x /\ will_retry (cl_pc cl) = true;
  so_blocked t cl x : c_calls c !! t = Some cl -> queue_at (c_kernel c) (cl_queue cl) = Some x ->
    awake (c_kernel c) t \/ in_list (c_kernel c) (xEventListItem t) (side_list (op_side (cl_op cl)) x);
  so_wakeup q x d : queue_at (c_kernel c) q = Some x ->
    waiters (c_kernel c) (side_list d x) <> ∅ \/ placing (c_calls c) q d -> enough (c_kernel c) (c_calls c) q x d;
}.

(** ** Sets of tasks *)

Lemma elem_waiters k l t : t ∈ waiters k l <-> in_list k (xEventListItem t) l /\ is_Some (k_tcbs k !! t).
Proof. unfold waiters. by rewrite elem_of_filter, elem_of_dom. Qed.

Lemma elem_retriers M q d t :
  t ∈ retriers M q d <-> exists cl, M !! t = Some cl /\ retries q d cl.
Proof.
  unfold retriers. rewrite elem_of_dom. split.
  - intros [cl H]. apply map_lookup_filter_Some in H as [H Hr]. by exists cl.
  - intros (cl & H & Hr). exists cl. by apply map_lookup_filter_Some.
Qed.

(** What the frame of an event keeps of the queues. *)
Definition same_queues (k k' : kernel) : Prop :=
  forall q, option_Forall2 same_queue (queue_at k q) (queue_at k' q).

Lemma same_queues_objects k k' : k_objects k' = k_objects k -> same_queues k k'.
Proof. intros E q. rewrite E. destruct (queue_at k q); constructor. apply same_queue_refl. Qed.

Lemma same_queues_trans k1 k2 k3 : same_queues k1 k2 -> same_queues k2 k3 -> same_queues k1 k3.
Proof.
  intros H1 H2 q. specialize (H1 q). specialize (H2 q). destruct H1; inversion H2; subst; constructor.
  by eapply same_queue_trans.
Qed.

Lemma same_queues_at k k' q y : same_queues k k' -> queue_at k' q = Some y -> exists x, queue_at k q = Some x /\ same_queue x y.
Proof. intros H E. specialize (H q). rewrite E in H. inversion H; subst. eauto. Qed.

Lemma same_queues_from k k' q x : same_queues k k' -> queue_at k q = Some x -> exists y, queue_at k' q = Some y /\ same_queue x y.
Proof. intros H E. specialize (H q). rewrite E in H. inversion H; subst. eauto. Qed.

Lemma same_queues_with q x y k : queue_at k q = Some x -> same_queue x y -> same_queues k (with_queue q y k).
Proof.
  intros Hx HS q'. destruct (decide (q' = q)) as [->|Hne].
  - rewrite queue_at_with, Hx. by constructor.
  - unfold with_queue. cbn. rewrite lookup_insert_ne by done. destruct (queue_at k q'); constructor. apply same_queue_refl.
Qed.

Lemma contents_with q x y k :
  queue_at k q = Some x -> contents y = contents x -> queue_contents (with_queue q y k) = queue_contents k.
Proof.
  intros Hx Hc. unfold queue_contents, with_queue. cbn. rewrite fmap_insert, Hc. apply insert_id. by rewrite lookup_fmap, Hx.
Qed.

Lemma same_side d x y : same_queue x y -> side_list d y = side_list d x.
Proof. intros []. by destruct d. Qed.

Lemma same_queue_static x y : same_queue x y -> same_static x y.
Proof. intros []. by split. Qed.

(** ** The frame of an event *)

(** The task [t] is where its call says. *)
Record own_ok (sys : system) (k : kernel) (M : gmap nat call_state) (t : nat) : Prop := {
  ow_call cl : M !! t = Some cl -> call_ok sys k t cl;
  ow_member l : waiting_list l -> in_list k (xEventListItem t) l ->
    exists cl x, M !! t = Some cl /\ queue_at k (cl_queue cl) = Some x /\
      l = side_list (op_side (cl_op cl)) x /\ will_retry (cl_pc cl) = true;
  ow_blocked cl x : M !! t = Some cl -> queue_at k (cl_queue cl) = Some x ->
    awake k t \/ in_list k (xEventListItem t) (side_list (op_side (cl_op cl)) x);
}.

(** The control blocks before and after. *)
Lemma view_some k k' t : (forall t, tcb_view <$> k_tcbs k' !! t = tcb_view <$> k_tcbs k !! t) ->
  is_Some (k_tcbs k' !! t) <-> is_Some (k_tcbs k !! t).
Proof. intros H. specialize (H t). rewrite <- (fmap_is_Some tcb_view (k_tcbs k' !! t)), H. by rewrite fmap_is_Some. Qed.

Lemma view_dom k k' : (forall t, tcb_view <$> k_tcbs k' !! t = tcb_view <$> k_tcbs k !! t) -> dom (k_tcbs k') = dom (k_tcbs k).
Proof. intros H. apply set_eq. intros t. rewrite !elem_of_dom. by apply view_some. Qed.

(** The lists of a queue are event lists. *)
Lemma good_side sys k q x d : kernel_good sys k -> queue_at k q = Some x -> queue_list sys (side_list d x).
Proof. intros [_ Ho] Hx. destruct (ob_queue _ _ Ho q x Hx) as (_ & _ & H1 & H2). by destruct d. Qed.

Lemma good_waiting sys k q x d : kernel_good sys k -> queue_at k q = Some x -> waiting_list (side_list d x).
Proof. intros H Hx. apply (queue_list_waiting sys). by eapply good_side. Qed.

Section Frame.
Context (sys : system) (c : sys_conf) (k' : kernel).
Hypothesis ok : sys_ok sys c.
Hypothesis queues : same_queues (c_kernel c) k'.
Hypothesis number : uxCurrentNumberOfTasks k' = uxCurrentNumberOfTasks (c_kernel c).

Let k := c_kernel c.
Let M := c_calls c.

Lemma frame_call o t cl cl' :
  rouses_but o k k' -> call_ok sys k t cl -> cl_queue cl' = cl_queue cl -> cl_op cl' = cl_op cl ->
  0 <= w_ticks (cl_wait cl') <= portMAX_DELAY ->
  (will_wait (cl_pc cl') = true -> 0 < w_ticks (cl_wait cl') /\ w_timeout (cl_wait cl') <> None) ->
  w_inherited (cl_wait cl') = false -> outside (cl_pc cl') || inside (cl_pc cl') = true -> call_ok sys k' t cl'.
Proof.
  intros HR [Ht Hi (x & Hx & Ha) _ _ _ _] Eq Eo H1 H2 H3 H4. split; [|done| |done..].
  - by apply (view_some k k' t (rz_tcbs _ _ _ HR)).
  - destruct (same_queues_from _ _ _ _ queues Hx) as (y & Hy & HS). exists y. rewrite Eq, Eo. split; [done|].
    eapply call_allowed_same; [|done]. by apply same_queue_static.
Qed.

Lemma frame_own o t : rouses_but o k k' -> o <> Some t -> own_ok sys k' M t.
Proof.
  intros HR Ho. split.
  - intros cl Hcl. pose proof (so_call _ _ ok t cl Hcl) as H. destruct H. by eapply (frame_call o t cl).
  - intros l Hl Hin. apply (rz_enter _ _ _ HR) in Hin; [|done|done]. destruct (so_member _ _ ok t l Hl Hin) as (cl & x & Hcl & Hx & -> & Hr).
    destruct (same_queues_from _ _ _ _ queues Hx) as (y & Hy & HS). exists cl, y. by rewrite (same_side _ x y HS).
  - intros cl y Hcl Hy. destruct (same_queues_at _ _ _ _ queues Hy) as (x & Hx & HS). rewrite (same_side _ x y HS).
    destruct (so_blocked _ _ ok t cl x Hcl Hx) as [H|H]; [left; by apply (rz_awake _ _ _ HR)|].
    destruct (rz_leave _ _ _ HR t _ Ho (good_waiting sys k _ x _ (so_good _ _ ok) Hx) H); [by right|by left].
Qed.

Lemma sys_frame M' o :
  kernel_good sys k' -> rouses_but o k k' -> (forall t, o <> Some t -> M' !! t = M !! t) ->
  (forall t, o = Some t -> own_ok sys k' M' t) -> sys_phase k' M' ->
  (forall q y d, queue_at k' q = Some y -> waiters k' (side_list d y) <> ∅ \/ placing M' q d -> enough k' M' q y d) ->
  sys_ok sys (mkConf k' M').
Proof.
  intros Hg HR HM Hown HP HW.
  assert (forall t, own_ok sys k' M' t) as Hall.
  { intros t. destruct (decide (o = Some t)) as [E|Ho]; [by apply Hown|]. destruct (frame_own o t HR Ho) as [H1 H2 H3].
    split; rewrite (HM t Ho); [exact H1|exact H2|exact H3]. }
  split; cbn [c_kernel c_calls]; [done|..|done| | |done].
  - intros q y Hy. destruct (same_queues_at _ _ _ _ queues Hy) as (x & Hx & HS). rewrite (sq_mutex _ _ HS). by apply (so_plain _ _ ok q).
  - intros q q' y y' d d' Hy Hy' E. destruct (same_queues_at _ _ _ _ queues Hy) as (x & Hx & HS).
    destruct (same_queues_at _ _ _ _ queues Hy') as (x' & Hx' & HS'). rewrite (same_side _ x y HS), (same_side _ x' y' HS') in E.
    by apply (so_apart _ _ ok q q' x x').
  - rewrite number. apply (so_number _ _ ok).
  - rewrite number, <- size_dom, (view_dom k k' (rz_tcbs _ _ _ HR)), size_dom. apply (so_size _ _ ok).
  - intros t y Hy Hn. pose proof (rz_tcbs _ _ _ HR t) as E. rewrite Hy in E. destruct (k_tcbs k !! t) as [z|] eqn:Hz; [|done].
    injection E as _ E. apply (so_notify _ _ ok t z Hz). congruence.
  - intros t. apply Hall.
  - intros t l. apply Hall.
  - intros t. apply Hall.
Qed.

Lemma waiters_sub o l t : rouses_but o k k' -> o <> Some t -> waiting_list l -> t ∈ waiters k' l -> t ∈ waiters k l.
Proof.
  intros HR Ho Hl. rewrite !elem_waiters. intros [Hin Ht]. split; [by apply (rz_enter _ _ _ HR)|].
  by apply (view_some k k' t (rz_tcbs _ _ _ HR)).
Qed.

Lemma waiters_le l : rouses k k' -> waiting_list l -> waiters k' l ⊆ waiters k l.
Proof. intros HR Hl t. by apply (waiters_sub None). Qed.

(** A task has left the list. *)
Lemma waiters_lt l :
  rouses k k' -> waiting_list l -> leaves l k k' -> (S (size (waiters k' l)) <= size (waiters k l))%nat.
Proof.
  intros HR Hl (t & Ht & Hin & Hn). assert (t ∈ waiters k l) as H1 by (by apply elem_waiters).
  assert (t ∉ waiters k' l) as H2 by (intros [? _]%elem_waiters; done).
  apply subset_size. split; [by apply waiters_le|]. intros H. apply H2, H, H1.
Qed.

Lemma enough_keep M' q x y d :
  enough k M q x d -> available d y <= available d x -> side_lock d y = side_lock d x -> same_queue x y ->
  waiters k' (side_list d x) ⊆ waiters k (side_list d x) -> retriers M q d ⊆ retriers M' q d -> enough k' M' q y d.
Proof.
  unfold enough. rewrite number. intros H Ha Hl HS Hw Hr. rewrite (same_side d x y HS), Hl.
  apply subseteq_size in Hw, Hr. destruct H as [H|H]; [left; lia|by right].
Qed.

End Frame.

(** ** The start *)

(** A kernel whose tasks are in no call: no queue is locked or a mutex, their
    event lists are distinct, and no event list has a task. *)
Record sys_start (sys : system) (k : kernel) : Prop := {
  sst_good : kernel_good sys k;
  sst_plain q x : queue_at k q = Some x -> is_mutex x = false;
  sst_apart q q' x x' d d' : queue_at k q = Some x -> queue_at k q' = Some x' -> side_list d x = side_list d' x' -> q = q' /\ d = d';
  sst_number : 0 < uxCurrentNumberOfTasks k;
  sst_size : Z.of_nat (size (k_tcbs k)) <= uxCurrentNumberOfTasks k;
  sst_notify t y : k_tcbs k !! t = Some y -> ucNotifyState y <> taskWAITING_NOTIFICATION;
  sst_suspended : uxSchedulerSuspended k = 0;
  sst_unlocked : unlocked_but None k;
  sst_nobody l : event_list l = true -> nobody l k;
  sst_asked : xYieldPending k = true -> pendsv k = true;
}.

Lemma waiters_empty k l : nobody l k -> waiters k l = ∅.
Proof. intros H. apply elem_of_equiv_empty_L. intros t [Ht _]%elem_waiters. by apply (H t). Qed.

Lemma start_ok sys k : sys_start sys k -> sys_ok sys (mkConf k ∅).
Proof.
  intros [H1 H2 H3 H4 H5 H6 H7 H8 H9 H10]. assert (forall l, waiting_list l -> nobody l k) as Hno.
  { intros l Hl. apply H9. unfold event_list. apply orb_true_iff. right. by apply Nat.leb_le. }
  split; cbn [c_kernel c_calls]; try done.
  - apply phase_free; [done|]. split; [done|done|by apply H9|done].
  - intros t l Hl Hin. by destruct (Hno l Hl t).
  - intros q x d Hx [Hw|(t & cl & Hcl & _)]; [|done]. destruct Hw. apply waiters_empty, Hno. by eapply good_waiting.
Qed.
