(* ===== verification/FreeRTOSSystemEvents.v ===== *)
(** * Interrupts and switches among the tasks on queues

    The events that do not belong to the running task keep the invariant: the
    tick, the context switch, and the calls of interrupts on queues. *)

From S2P Require Import Prelude FreeRTOSList FreeRTOSListTheory FreeRTOSListStore FreeRTOSHeap FreeRTOSObjects.
From S2P Require Import FreeRTOSTasks FreeRTOSTasksTheory FreeRTOSTasksCalls FreeRTOSTasksInvariant FreeRTOSTasksEvents.
From S2P Require Import FreeRTOSTasksTime FreeRTOSTasksFrame FreeRTOSTasksRouse FreeRTOSQueue FreeRTOSQueueTheory.
From S2P Require Import FreeRTOSQueueFrame FreeRTOSQueueCalls FreeRTOSQueueWait FreeRTOSSystem FreeRTOSSystemTheory.

(** ** Phases *)

(** A queue that is not locked stays so, a lock only counts. *)
Definition same_lock (a b : Z) : Prop := (a = queueUNLOCKED -> b = queueUNLOCKED) /\ (0 <= a -> 0 <= b).

Definition locks_kept (k k' : kernel) : Prop :=
  forall q y, queue_at k' q = Some y -> exists x, queue_at k q = Some x /\
    same_lock (cTxLock x) (cTxLock y) /\ same_lock (cRxLock x) (cRxLock y).

Lemma locks_kept_objects k k' : k_objects k' = k_objects k -> locks_kept k k'.
Proof. intros E q y. rewrite E. intros H. exists y. unfold same_lock. tauto. Qed.

Lemma unlocked_kept o k k' : locks_kept k k' -> unlocked_but o k -> unlocked_but o k'.
Proof.
  intros HL H q y Ho Hy. destruct (HL q y Hy) as (x & Hx & [H1 _] & [H2 _]). pose proof (H q x Ho Hx) as E.
  injection E as E1 E2. unfold locks. by rewrite H1, H2.
Qed.

Lemma lock_state_kept b x y : same_lock x y -> lock_state b x -> lock_state b y.
Proof. intros [H1 H2]. destruct b; cbn; auto. Qed.

Lemma phase_quiet k k' M :
  sys_phase k M -> quiet k k' -> same_queues k k' -> locks_kept k k' ->
  (uxSchedulerSuspended k = 0 -> (xYieldPending k = true -> pendsv k = true) -> xYieldPending k' = true -> pendsv k' = true) ->
  sys_phase k' M.
Proof.
  intros [Hs [H1 H2 H3 H4]|t cl x Hs [H1 H2 H3 H4 H5 H6 H7 H8 H9]] [Q1 Q2 _ Q4 Q5] HQ HL HY.
  - apply phase_free; [congruence|]. split; [done|by apply (unlocked_kept None k)| |auto].
    intros t Hin. apply (H3 t). by apply Q5.
  - destruct (same_queues_from _ _ _ _ HQ H5) as (y & Hy & HS). destruct (HL _ _ Hy) as (x' & Hx' & L1 & L2).
    rewrite H5 in Hx'. injection Hx' as <-.
    apply (phase_held _ _ t cl y); [congruence|]. split; [congruence|done|done|done|done|by apply (unlocked_kept _ k)|
      by apply (lock_state_kept _ (cTxLock x))|by apply (lock_state_kept _ (cRxLock x))|].
    intros Hp. destruct (H9 Hp) as (E & p & Hpr & Hin). destruct (Q4 t ltac:(lia) E) as [E1 E2]. split; [done|].
    exists p. split; [done|]. unfold in_list. by rewrite E2.
Qed.

(** ** Calls of interrupts *)

Lemma served_pendsv sys q x i r k k' : served sys q x i r k k' -> served sys q x i r k (set_pendsv true k').
Proof.
  intros [H1 H2 H3 H4 H5 H6]. split; [by apply good_pendsv|done| |done..].
  intros l E Hr. by apply (wakes_after l k k'), H3.
Qed.

Definition isr_post (sys : system) (q : nat) (x : Queue_t) (i : queue_call) (k : kernel) (r : Z * list Z) (k' : kernel) : Prop :=
  served sys q x i r k k' /\ quiet k k' /\ asks k k'.

(** The interrupt asks for the switch it is told of. *)
Lemma isr_yield sys q x i r w k k1 :
  served sys q x i r k k1 -> quiet k k1 -> tells w k k1 ->
  wp (portYIELD_FROM_ISR w;; mret r) (fun r k' => isr_post sys q x i k r k') k1.
Proof.
  intros HS HQ [A B]. unfold portYIELD_FROM_ISR, isr_post. apply wp_bind, wp_when; intros ->; wps.
  - split; [by apply served_pendsv|]. split; [apply (quiet_trans _ k1); [done|by apply quiet_still]|]. split; [by right|done].
  - split; [done|]. split; [done|]. split; [|congruence]. intros H. destruct (A H); [by left|done].
Qed.

Lemma wp_isr_call sys q x i k :
  kernel_good sys k -> queue_at k q = Some x -> is_isr i = true -> call_allowed x i -> wp (isr_call q i) (isr_post sys q x i k) k.
Proof.
  intros Hg Hx Hi Ha. destruct (wp_call sys q x k Hg Hx i Ha) as (r & k1 & E & HS). pose proof Ha as [Hm _].
  destruct i as [| | | |item pos| | |]; [done..| | | |]; cbn [run_call isr_call] in *.
  - apply bind_ok in E as ([r' w] & k2 & E & [= <- <-]). destruct (isr_send_effect q x k Hx Hm item pos r' w k2 E) as [HQ HT].
    apply wp_bind. exists (r', w), k2. split; [done|]. by apply isr_yield.
  - apply bind_ok in E as ([r' w] & k2 & E & [= <- <-]). destruct (isr_give_effect q x k Hx Hm r' w k2 E) as [HQ HT].
    apply wp_bind. exists (r', w), k2. split; [done|]. by apply isr_yield.
  - apply bind_ok in E as ([[r' d] w] & k2 & E & [= <- <-]). destruct (isr_receive_effect q x k Hx r' d w k2 E) as [HQ HT].
    apply wp_bind. exists (r', d, w), k2. split; [done|]. by apply isr_yield.
  - exists r, k1. split; [done|]. pose proof (isr_peek_calm q true _ _ _ E) as Ec.
    split; [done|]. split; [by apply quiet_calm|by apply asks_calm].
Qed.

(** ** What a call makes available *)

(** The side whose tasks a call serves. *)
Definition gives (i : queue_call) : option side :=
  match i with
  | CallSend _ _ | IsrSend _ _ | IsrGive => Some ToReceive
  | CallReceive | CallTake | IsrReceive => Some ToSend
  | CallPeek | IsrPeek => None
  end.

Section Served.
Context (sys : system) (q : nat) (x y : Queue_t) (i : queue_call) (r : Z * list Z) (k k' : kernel).
Hypothesis good : kernel_good sys k.
Hypothesis here : queue_at k q = Some x.
Hypothesis allowed : call_allowed x i.
Hypothesis serves : served sys q x i r k k'.
Hypothesis there : queue_at k' q = Some y.

Lemma served_queue :
  contents y = (call_spec x i (contents x)).2 /\ same_queue x y /\
  locks y = (if r.1 =? pdPASS then locks_after (uxCurrentNumberOfTasks k) i x else locks x).
Proof. destruct (sv_queue _ _ _ _ _ _ _ serves) as (z & Hz & H). rewrite there in Hz. by injection Hz as <-. Qed.

Lemma served_count : uxMessagesWaiting y = Z.of_nat (length (call_spec x i (contents x)).2).
Proof.
  destruct served_queue as [<- _]. symmetry. apply (queue_contents_length q).
  apply (ob_queue _ _ (kg_objects _ _ (sv_good _ _ _ _ _ _ _ serves)) q y there).
Qed.

Lemma served_before : uxMessagesWaiting x = Z.of_nat (length (contents x)) /\ 0 <= uxMessagesWaiting x <= uxLength x.
Proof.
  destruct (ob_queue _ _ (kg_objects _ _ good) q x here) as (_ & Hq & _). split; [symmetry; by apply (queue_contents_length q)|apply Hq].
Qed.

(** The number of items after a call. *)
Lemma served_length :
  let n := length (contents x) in let n' := length (call_spec x i (contents x)).2 in
  match gives i with
  | Some ToReceive => (n <= n' <= S n)%nat
  | Some ToSend => (n' = pred n)%nat
  | None => n' = n
  end.
Proof.
  cbv zeta. destruct served_before as [Hn Hb]. pose proof allowed as [_ Ha].
  assert (forall pos d, pos = queueSEND_TO_BACK \/ pos = queueSEND_TO_FRONT \/ (pos = queueOVERWRITE /\ uxLength x = 1 /\ uxItemSize x <> 0) ->
    (length (contents x) <= length (send_spec (uxLength x) pos d (contents x)).2 <= S (length (contents x)))%nat) as Hsend.
  { intros pos d Hp. unfold send_spec. destruct (_ || _); cbn [snd]; [|lia]. unfold queue_put.
    destruct Hp as [->|[->|(-> & Hl & _)]]; cbn [Z.eqb Pos.eqb queueSEND_TO_BACK queueSEND_TO_FRONT queueOVERWRITE];
      rewrite ?length_app; cbn [length]; lia. }
  destruct i; cbn [gives call_spec] in *; try (apply Hsend; by apply Ha); try (unfold receive_spec, peek_spec; by destruct (contents x)).
  apply Hsend. by left.
Qed.

Lemma served_available d : available d y <= available d x + (if decide (gives i = Some d) then 1 else 0).
Proof.
  destruct served_queue as (_ & HS & _). pose proof served_count as Hc. destruct served_before as [Hn _]. pose proof served_length as Hl.
  cbv zeta in Hl. destruct d; cbn [available]; rewrite ?(sq_length _ _ HS); destruct (gives i) as [[]|]; case_decide; try done; lia.
Qed.

Lemma served_failed d : r.1 <> pdPASS -> available d y = available d x.
Proof.
  intros Hr. destruct served_queue as (_ & HS & _). pose proof served_count as Hc. destruct served_before as [Hn _].
  pose proof (sv_result _ _ _ _ _ _ _ serves) as E.
  assert ((call_spec x i (contents x)).2 = contents x) as E2.
  { rewrite E in Hr. destruct i; cbn [call_spec] in *; unfold send_spec, receive_spec, peek_spec in *;
      try (destruct (_ || _); [done|done]); by destruct (contents x). }
  rewrite E2 in Hc. destruct d; cbn [available]; rewrite ?(sq_length _ _ HS); lia.
Qed.

(** What a task takes from its own side. *)
Lemma served_taken op :
  i = op_call op -> op <> OpPeek -> r.1 = pdPASS -> available (op_side op) y <= Z.max 0 (available (op_side op) x - 1).
Proof.
  intros Ei Hop Hr. destruct served_queue as (_ & HS & _). pose proof served_count as Hc. destruct served_before as [Hn Hb].
  pose proof (sv_result _ _ _ _ _ _ _ serves) as E. rewrite E in Hr. pose proof allowed as [_ Ha]. subst i.
  destruct op as [item pos| | |]; [|..|done]; cbn [op_call call_spec op_side available] in *;
    [|unfold receive_spec in *; destruct (contents x); [done|]; cbn in *; lia..].
  rewrite (sq_length _ _ HS). unfold send_spec in *. destruct (_ || _); [|done]. cbn [snd] in Hc. unfold queue_put in Hc.
  destruct (sn_position _ _ _ Ha) as [->|[->|(-> & Hl & _)]];
    cbn [Z.eqb Pos.eqb queueSEND_TO_BACK queueSEND_TO_FRONT queueOVERWRITE] in Hc; rewrite ?length_app in Hc; cbn [length] in Hc; lia.
Qed.

Lemma served_same : same_queues k k'.
Proof.
  intros q'. destruct (decide (q' = q)) as [->|Hne].
  - rewrite here, there. constructor. apply served_queue.
  - rewrite (sv_others _ _ _ _ _ _ _ serves q' Hne). destruct (queue_at k q'); constructor. apply same_queue_refl.
Qed.

Lemma served_locks : locks_kept k k'.
Proof.
  clear good allowed. intros q' z Hz. destruct (decide (q' = q)) as [->|Hne].
  - rewrite there in Hz. injection Hz as <-. exists x. split; [done|]. destruct served_queue as (_ & _ & El).
    assert (forall l, same_lock l l) as H1 by (unfold same_lock; tauto).
    assert (forall l, same_lock l (count_lock (uxCurrentNumberOfTasks k) l)) as H2.
    { intros l. unfold same_lock, count_lock, queueUNLOCKED. destruct (l =? -1) eqn:E; [tauto|]. destruct (_ <? _); lia. }
    assert (locks y = locks x -> same_lock (cTxLock x) (cTxLock y) /\ same_lock (cRxLock x) (cRxLock y)) as H3.
    { intros E. injection E as -> ->. auto. }
    destruct (_ =? _); [|by apply H3]. destruct i; cbn [locks_after] in El; try (by apply H3); injection El as -> ->; auto.
  - rewrite (sv_others _ _ _ _ _ _ _ serves q' Hne) in Hz. exists z. unfold same_lock. tauto.
Qed.

(** The lock of a side that the call does not serve is as before. *)
Lemma served_lock d :
  side_lock d y = if decide (gives i = Some d /\ r.1 = pdPASS /\ is_isr i = true)
                  then count_lock (uxCurrentNumberOfTasks k) (side_lock d x) else side_lock d x.
Proof.
  destruct served_queue as (_ & _ & El). clear allowed good here. destruct (Z.eqb_spec r.1 pdPASS) as [Hr|Hr].
  - destruct i; cbn [locks_after gives is_isr] in *; unfold locks in El; injection El as E1 E2; destruct d; cbn [side_lock];
      case_decide; intuition congruence.
  - rewrite decide_False by tauto. unfold locks in El. injection El as E1 E2. by destruct d.
Qed.

End Served.

Section Events.
Context (sys : system) (c : sys_conf).
Hypothesis ok : sys_ok sys c.

Let k := c_kernel c.
Let M := c_calls c.

Lemma event_priorities : priorities (k_tcbs k).
Proof. apply (good_priorities sys), (so_good _ _ ok). Qed.

(** The queues an event leaves alone. *)
Lemma enough_same q y d k' M' :
  queue_at k q = Some y -> uxCurrentNumberOfTasks k' = uxCurrentNumberOfTasks k ->
  waiters k' (side_list d y) ⊆ waiters k (side_list d y) ->
  retriers M q d ⊆ retriers M' q d -> (placing M' q d -> placing M q d) ->
  waiters k' (side_list d y) <> ∅ \/ placing M' q d -> enough k' M' q y d.
Proof.
  intros Hy En Hsub Hret Hpl Hw. apply (enough_keep c k' En M' q y y d); [|done|done|apply same_queue_refl|done|done].
  apply (so_wakeup _ _ ok q y d Hy). destruct Hw as [Hw|Hw]; [left|right; auto]. intros E. apply Hw.
  apply elem_of_equiv_empty_L. intros t Ht%Hsub. unfold k in Ht. rewrite E in Ht. by apply elem_of_empty in Ht.
Qed.

Lemma enough_elsewhere q y d k' M' :
  queue_at k q = Some y -> uxCurrentNumberOfTasks k' = uxCurrentNumberOfTasks k -> rouses k k' ->
  retriers M q d ⊆ retriers M' q d -> (placing M' q d -> placing M q d) ->
  waiters k' (side_list d y) <> ∅ \/ placing M' q d -> enough k' M' q y d.
Proof.
  intros Hy En HR. apply enough_same; [done|done|]. apply (waiters_le c k' _ HR). exact (good_waiting sys k q y d (so_good _ _ ok) Hy).
Qed.

(** An event that leaves the queues alone. *)
Lemma event_static k' :
  kernel_good sys k' -> static k' = static k -> rouses k k' -> sys_phase k' M -> sys_ok sys (mkConf k' M).
Proof.
  intros Hg Es HR HP. injection Es as Eo En. pose proof (same_queues_objects k k' Eo) as HQ.
  eapply (sys_frame sys c k' ok HQ En M None); [done|done|done|done|done|].
  intros q y d Hy Hw. rewrite Eo in Hy. by apply (enough_elsewhere q y d k' M Hy En HR).
Qed.

Lemma step_tick : exists k', xPortSysTickHandler k = Ok (tt, k') /\ k_objects k' = k_objects k /\ sys_ok sys (mkConf k' M).
Proof.
  destruct (so_good _ _ ok) as [[L HS] HO]. destruct (safe_systick sys k L HS) as ([] & k' & E & L' & HS').
  pose proof (ko_systick _ _ _ E) as Es. pose proof (quietly_systick _ _ _ E) as HQ. exists k'. split; [done|].
  split; [by injection Es|].
  assert (kernel_good sys k') as Hg by (split; [by exists L'|by apply (objects_ok_static sys k)]).
  injection Es as Eo En.
  apply (event_static k' Hg); [unfold static; congruence|apply HQ, event_priorities|].
  apply (phase_quiet k); [apply (so_phase _ _ ok)|done|by apply same_queues_objects|by apply locks_kept_objects|].
  intros Hs _. by apply (systick_yields k tt).
Qed.

Lemma step_pendsv : exists k', xPortPendSVHandler k = Ok (tt, k') /\ k_objects k' = k_objects k /\ sys_ok sys (mkConf k' M).
Proof.
  destruct (so_good _ _ ok) as [[L HS] HO]. destruct (safe_switch sys k L HS) as ([] & k' & E & L' & HS').
  pose proof (ko_pendsv _ _ _ E) as Es. exists k'. split; [done|]. split; [by injection Es|].
  assert (kernel_good sys k') as Hg by (split; [by exists L'|by apply (objects_ok_static sys k)]).
  injection Es as Eo En.
  apply (event_static k' Hg); [unfold static; congruence|by apply (rouse_pendsv k tt), event_priorities|].
  destruct (so_phase _ _ ok) as [Hs [H1 H2 H3 H4]|t cl x Hs [H1 H2 H3 H4 H5 H6 H7 H8 H9]].
  - apply phase_free; [by rewrite (ks_pendsv _ _ _ E)|]. split; [done|by apply (unlocked_kept None k), H2; apply locks_kept_objects| |].
    + intros t Hin. apply (H3 t). by apply (shed_pendsv _ _ _ E).
    + by rewrite (switch_clears _ _ _ E Hs).
  - rewrite (pendsv_suspended _ _ _ E) by (unfold k; lia). by apply (phase_held _ _ t cl x).
Qed.

(** A task that is about to be placed holds the locks of its queue. *)
Lemma placing_locked q d x : placing M q d -> queue_at k q = Some x -> 0 <= cTxLock x /\ 0 <= cRxLock x.
Proof.
  intros (t & cl & Hcl & <- & _ & Hpc) Hx. destruct (so_phase _ _ ok) as [_ [H _ _ _]|t' cl' x' _ [_ H1 _ H2 H3 _ H4 H5 _]].
  - pose proof (H t cl Hcl) as Ho. by rewrite Hpc in Ho.
  - destruct (decide (t = t')) as [->|Hne]; [|pose proof (H2 t cl Hne Hcl) as Ho; by rewrite Hpc in Ho].
    unfold M in Hcl. rewrite H1 in Hcl. injection Hcl as ->. unfold k in Hx. rewrite H3 in Hx. injection Hx as ->.
    rewrite Hpc in H4, H5. done.
Qed.

Section Call.
Context (q : nat) (x y : Queue_t) (i : queue_call) (r : Z * list Z) (k' : kernel).
Hypothesis here : queue_at k q = Some x.
Hypothesis allowed : call_allowed x i.
Hypothesis serves : served sys q x i r k k'.
Hypothesis there : queue_at k' q = Some y.
Hypothesis rousing : rouses k k'.

Let good : kernel_good sys k := so_good _ _ ok.

Lemma waiters_before d : waiters k' (side_list d y) <> ∅ -> waiters k (side_list d x) <> ∅.
Proof.
  destruct (served_queue sys q x y i r k k' serves there) as (_ & HS & _). rewrite (same_side d x y HS). intros Hw E. apply Hw.
  apply elem_of_equiv_empty_L. intros t Ht. apply (waiters_le c k' _ rousing) in Ht; [|by eapply good_waiting].
  unfold k in E. rewrite E in Ht. by apply elem_of_empty in Ht.
Qed.

(** The side that is served: a task left the list, or the lock counts. *)
Lemma enough_given d M' :
  gives i = Some d -> r.1 = pdPASS -> (is_isr i = false -> unlocked_but None k) ->
  retriers M q d ⊆ retriers M' q d -> (placing M' q d -> placing M q d) ->
  waiters k' (side_list d y) <> ∅ \/ placing M' q d -> enough k' M' q y d.
Proof.
  intros Hg Hr Hu Hret Hpl Hw. destruct (served_queue sys q x y i r k k' serves there) as (_ & HS & _).
  pose proof (served_available sys q x y i r k k' good here allowed serves there d) as Ha. rewrite decide_True in Ha by done.
  pose proof (served_lock sys q x y i r k k' serves there d) as El.
  pose proof (good_waiting sys k q x d good here) as Hl. pose proof (so_number _ _ ok) as Hnum. fold k in Hnum.
  apply subseteq_size in Hret. unfold enough. rewrite (sv_number _ _ _ _ _ _ _ serves), (same_side d x y HS), El.
  assert (enough k M q x d) as He.
  { apply (so_wakeup _ _ ok q x d here). destruct Hw as [Hw|Hw]; [left; by apply waiters_before|right; auto]. }
  assert (queue_ok q x) as Hq by (by apply (ob_queue _ _ (kg_objects _ _ good))).
  assert (queueUNLOCKED <= side_lock d x) as Hlo by (destruct d; apply Hq). unfold queueUNLOCKED in Hlo.
  destruct (decide (side_lock d x = queueUNLOCKED)) as [Eu|Eu].
  - assert (woken_list x i = Some (side_list d x)) as Ew.
    { destruct i; cbn [gives woken_list] in *; try discriminate Hg; injection Hg as <-; try done; cbn [side_lock] in Eu; by rewrite Eu. }
    destruct (wk_leaves _ _ _ (sv_wakes _ _ _ _ _ _ _ serves _ Ew Hr)) as [Hno|Hlv].
    + exfalso. destruct Hw as [Hw|Hw%Hpl].
      * apply waiters_before in Hw. apply Hw, elem_of_equiv_empty_L. intros t [Ht _]%elem_waiters. by apply (Hno t).
      * destruct (placing_locked q d x Hw here) as [H1 H2]. unfold queueUNLOCKED in Eu. destruct d; cbn [side_lock] in Eu; lia.
    + pose proof (waiters_lt c k' _ rousing Hl Hlv) as Hlt. fold k in Hlt. unfold count_lock. rewrite Eu. cbn [Z.eqb].
      unfold enough in He. rewrite Eu in He. unfold queueUNLOCKED in *. left. destruct (decide _); cbn; lia.
  - assert (is_isr i = true) as Hi.
    { destruct (is_isr i) eqn:E; [done|]. pose proof (Hu eq_refl q x ltac:(done) here) as Elk. injection Elk as E1 E2. by destruct d. }
    rewrite decide_True by done. unfold count_lock. rewrite (proj2 (Z.eqb_neq _ _) Eu). unfold queueUNLOCKED in Eu.
    pose proof (subseteq_size _ _ (waiters_le c k' _ rousing Hl)) as Hle. fold k in Hle. unfold enough in He.
    destruct (Z.ltb_spec (side_lock d x) (uxCurrentNumberOfTasks k)); [|right; lia]. left. lia.
Qed.

(** A side that is not served. *)
Lemma enough_kept d M' :
  gives i <> Some d \/ r.1 <> pdPASS -> retriers M q d ⊆ retriers M' q d -> (placing M' q d -> placing M q d) ->
  waiters k' (side_list d y) <> ∅ \/ placing M' q d -> enough k' M' q y d.
Proof.
  intros Hg Hret Hpl Hw. destruct (served_queue sys q x y i r k k' serves there) as (_ & HS & _).
  apply (enough_keep c k' (sv_number _ _ _ _ _ _ _ serves) M' q x y d); [| | |done| |done].
  - apply (so_wakeup _ _ ok q x d here). destruct Hw as [Hw|Hw]; [left; by apply waiters_before|right; auto].
  - destruct Hg as [Hg|Hr]; [|by rewrite (served_failed sys q x y i r k k' good here allowed serves there d Hr)].
    pose proof (served_available sys q x y i r k k' good here allowed serves there d) as Ha. rewrite decide_False in Ha by done. lia.
  - rewrite (served_lock sys q x y i r k k' serves there d), decide_False; [done|]. tauto.
  - apply (waiters_le c k' _ rousing). by eapply good_waiting.
Qed.

End Call.

Lemma step_isr q x i :
  queue_at k q = Some x -> is_isr i = true -> call_allowed x i ->
  exists r k', isr_call q i k = Ok (r, k') /\ served sys q x i r k k' /\ sys_ok sys (mkConf k' M).
Proof.
  intros Hx Hi Ha. destruct (wp_isr_call sys q x i k (so_good _ _ ok) Hx Hi Ha) as (r & k' & E & HS & HQ & [A1 A2]).
  exists r, k'. split; [done|]. split; [done|]. destruct (sv_queue _ _ _ _ _ _ _ HS) as (y & Hy & _).
  pose proof (qt_rouses _ _ HQ event_priorities) as HR.
  pose proof (served_same sys q x y i r k k' Hx HS Hy) as Hsame.
  eapply (sys_frame sys c k' ok Hsame (sv_number _ _ _ _ _ _ _ HS) M None); [apply HS|done|done|done| |].
  - apply (phase_quiet k); [apply (so_phase _ _ ok)|done|done|exact (served_locks sys q x y i r k k' Hx HS Hy)|].
    intros _ H1 H2. destruct (A1 H2); auto.
  - intros q' y' d Hy' Hw. destruct (decide (q' = q)) as [->|Hne].
    + rewrite Hy in Hy'. injection Hy' as <-. destruct (decide (gives i = Some d /\ r.1 = pdPASS)) as [[Hg Hr]|Hg].
      * apply (enough_given q x y i r k' Hx Ha HS Hy HR d M Hg Hr); [congruence|done|done|done].
      * apply (enough_kept q x y i r k' Hx Ha HS Hy HR d M); [|done|done|done].
        destruct (decide (gives i = Some d)); [right|by left]. tauto.
    + rewrite (sv_others _ _ _ _ _ _ _ HS q' Hne) in Hy'. by apply (enough_elsewhere q' y' d k' M Hy' (sv_number _ _ _ _ _ _ _ HS) HR).
Qed.

End Events.
