(* ===== verification/FreeRTOSSystemTasks.v ===== *)
(** * The steps of the running task

    Each step of a call that can block keeps the invariant: the attempt to serve
    the call, the suspension of the scheduler, the lock of the queue, the checks,
    the placement on the event list, the unlocking, and the return. *)

From S2P Require Import Prelude FreeRTOSList FreeRTOSListTheory FreeRTOSListStore FreeRTOSHeap FreeRTOSObjects.
From S2P Require Import FreeRTOSTasks FreeRTOSTasksTheory FreeRTOSTasksCalls FreeRTOSTasksInvariant FreeRTOSTasksEvents.
From S2P Require Import FreeRTOSTasksTime FreeRTOSTasksFrame FreeRTOSTasksRouse FreeRTOSQueue FreeRTOSQueueTheory.
From S2P Require Import FreeRTOSQueueFrame FreeRTOSQueueCalls FreeRTOSQueueWait FreeRTOSSystem FreeRTOSSystemTheory.
From S2P Require Import FreeRTOSSystemEvents.

(** ** The calls in progress *)

Section Update.
Context (M : gmap nat call_state) (t : nat) (cl' : call_state).

(** The call of [t] goes on; it still will retry if it would have. *)
Lemma retriers_insert q d :
  (forall cl, M !! t = Some cl -> retries q d cl -> retries q d cl') -> retriers M q d ⊆ retriers (<[t := cl']> M) q d.
Proof.
  intros H u. rewrite !elem_retriers. intros (cl & Hcl & Hr). destruct (decide (u = t)) as [->|Hne].
  - exists cl'. rewrite lookup_insert_eq. split; [done|by apply (H cl)].
  - exists cl. by rewrite lookup_insert_ne.
Qed.

Lemma placing_insert q d : cl_pc cl' <> WaitPlace -> placing (<[t := cl']> M) q d -> placing M q d.
Proof.
  intros Hp (u & cl & Hcl & H). destruct (decide (u = t)) as [->|Hne].
  - rewrite lookup_insert_eq in Hcl. injection Hcl as <-. tauto.
  - rewrite lookup_insert_ne in Hcl by done. by exists u, cl.
Qed.

Lemma placing_delete q d : placing (delete t M) q d -> placing M q d.
Proof. intros (u & cl & [_ Hcl]%lookup_delete_Some & H). by exists u, cl. Qed.

End Update.

(** ** Unlocking *)

Lemma wp_unlock_count sys n l k :
  kernel_good sys k -> queue_list sys l ->
  exists k', unlock_wake n l k = Ok (tt, k') /\ kernel_good sys k' /\ static k' = static k /\
    (waiters k' l = ∅ \/ size (waiters k' l) + n <= size (waiters k l))%nat.
Proof.
  revert k. induction n as [|n IH]; intros k H Hl; cbn [unlock_wake].
  { exists k. split_and!; [done..|]. right. lia. }
  pose proof (queue_list_waiting sys l Hl) as Hwl. destruct (wp_remove_first sys k l H Hl) as (b & E & Hb).
  unfold mbind, KM_bind, ask_lists. rewrite E. destruct b.
  { exists k. split_and!; [done..|]. left. apply waiters_empty. by apply (good_empty sys). }
  destruct (Hb eq_refl) as (r & k1 & E1 & H1 & Es & [_ Hlv]). rewrite E1.
  pose proof (rouse_remove_event l k r k1 E1 (good_priorities sys k H)) as HR1.
  assert (waiters k1 l = ∅ \/ S (size (waiters k1 l)) <= size (waiters k l))%nat as Hc1.
  { destruct Hlv as [Hno|Hlv]; [left|right; by apply (waiters_lt (mkConf k ∅))].
    apply elem_of_equiv_empty_L. intros t Ht%(waiters_le (mkConf k ∅) k1 l HR1 Hwl). cbn in Ht. by rewrite (waiters_empty k l Hno) in Ht. }
  assert (exists k2, when r vTaskMissedYield k1 = Ok (tt, k2) /\ kernel_good sys k2 /\ static k2 = static k1 /\ waiters k2 l = waiters k1 l)
    as (k2 & E2 & H2 & Es2 & Ew).
  { destruct r; cbn [when]; [|by exists k1]. destruct H1 as [[L1 S1] O1]. destruct (safe_missed_yield sys k1 L1 S1) as ([] & k2 & E2 & L2 & S2).
    exists k2. split; [done|]. pose proof (ko_missed_yield _ _ _ E2) as Es2. injection E2 as <-.
    split; [split; [by exists L2|by apply (objects_ok_static sys k1)]|done]. }
  rewrite E2. destruct (IH k2 H2 Hl) as (k' & E3 & H3 & Es3 & Hc). exists k'. split; [done|]. split; [done|]. split; [congruence|].
  destruct Hc as [Hc|Hc]; [by left|]. rewrite Ew in Hc. destruct Hc1 as [Hc1|Hc1]; [|right; lia]. rewrite Hc1, size_empty in Hc.
  left. apply leibniz_equiv, size_empty_inv. lia.
Qed.

Definition unlock_of (d : side) : nat -> KM unit := match d with ToReceive => unlock_tx | ToSend => unlock_rx end.
Definition set_lock (d : side) (v : Z) (x : Queue_t) : Queue_t := match d with ToReceive => set_cTxLock v x | ToSend => set_cRxLock v x end.

Lemma quietly_unlock d q : quietly (unlock_of d q).
Proof. destruct d; [apply quietly_unlock_tx|apply quietly_unlock_rx]. Qed.

(** The state after one of the two critical sections of [prvUnlockQueue]. *)
Record unlocked (sys : system) (d : side) (q : nat) (x : Queue_t) (k k' : kernel) : Prop := {
  ul_good : kernel_good sys k';
  ul_number : uxCurrentNumberOfTasks k' = uxCurrentNumberOfTasks k;
  ul_queue : queue_at k' q = Some (set_lock d queueUNLOCKED x);
  ul_others q' : q' <> q -> queue_at k' q' = queue_at k q';
  ul_quiet : quiet k k';
  ul_count : (waiters k' (side_list d x) = ∅ \/
    size (waiters k' (side_list d x)) + Z.to_nat (side_lock d x) <= size (waiters k (side_list d x)))%nat;
}.

Lemma wp_unlock sys d q x k :
  kernel_good sys k -> queue_at k q = Some x -> exists k', unlock_of d q k = Ok (tt, k') /\ unlocked sys d q x k k'.
Proof.
  intros H Hx. pose proof (good_side sys k q x d H Hx) as Hl.
  destruct (wp_unlock_count sys (Z.to_nat (side_lock d x)) _ k H Hl) as (k1 & E & H1 & Es & Hc). injection Es as Eo En.
  assert (queue_at k1 q = Some x) as Hx1 by (by rewrite Eo). set (k' := with_queue q (set_lock d queueUNLOCKED x) k1).
  assert (unlock_of d q k = Ok (tt, k')) as Ek.
  { destruct d; cbn [unlock_of side_list side_lock] in *; unfold unlock_tx, unlock_rx, mbind, KM_bind, get_queue; by rewrite Hx, E, Hx1. }
  exists k'. split; [done|]. destruct (ob_queue _ _ (kg_objects _ _ H) q x Hx) as (_ & Hq & _).
  split; [|done|apply queue_at_with| |by apply (quietly_unlock d q k tt)|done].
  - apply (kernel_good_with sys k1 q x); [done|done|..]; destruct d; cbn [set_lock];
      [apply set_tx_ok|apply set_rx_ok|apply same_queue_tx, same_queue_refl|apply same_queue_rx, same_queue_refl]; done.
  - intros q' Hne. unfold k', with_queue. cbn. by rewrite lookup_insert_ne, Eo.
Qed.

Section Running.
Context (sys : system) (c : sys_conf).
Hypothesis ok : sys_ok sys c.

Let k := c_kernel c.
Let M := c_calls c.

(** A task that runs can block. *)
Lemma running_free t :
  free_phase k M -> uxSchedulerSuspended k = 0 -> pendsv k = false -> pxCurrentTCB k = Some t -> can_block k t.
Proof.
  intros [_ _ Hn Hy] Hs Hp Hc. destruct (so_good _ _ ok) as [[L HS] _]. pose proof (sc_ok _ _ _ HS) as HO. fold k in HS, HO.
  assert (switch_pending k = false) as Hsw.
  { unfold switch_pending. rewrite Hp. cbn [orb]. destruct (xYieldPending k); [|done]. by rewrite Hy in Hp. }
  destruct (sc_running _ _ _ HS Hs Hsw) as (t' & p & Hc' & Hpr & Hin). rewrite Hc in Hc'. injection Hc' as <-.
  destruct (current_state sys k L t p) as (x & Hx & _); [done..|].
  pose proof (proj2 (in_list_member sys _ _ _ _ _ _ HO) Hin) as Hl.
  split; [|by exists p]. destruct (container _ _) as [l|] eqn:E; [|done]. exfalso. apply (Hn t).
  destruct (tk_ready _ _ _ _ _ (ok_tasks _ _ _ _ _ HO) t x p Hx ltac:(done) Hpr Hin) as [_ Hpe].
  assert (in_list k (xEventListItem t) l) as Hl' by done. apply (in_list_member sys _ _ _ _ _ _ HO) in Hl'.
  pose proof (Hpe l Hl'). by subst l.
Qed.

(** The tasks in a list of the queue are those of the calls on it. *)
Lemma waiters_retriers q x d : queue_at k q = Some x -> waiters k (side_list d x) ⊆ retriers M q d.
Proof.
  intros Hx t [Hin Ht]%elem_waiters. pose proof (good_waiting sys k q x d (so_good _ _ ok) Hx) as Hl.
  destruct (so_member _ _ ok t _ Hl Hin) as (cl & x' & Hcl & Hx' & El & Hr).
  destruct (so_apart _ _ ok _ _ _ _ _ _ Hx Hx' El) as [Eq Ed]. apply elem_retriers. exists cl. by split_and!.
Qed.

(** Nothing is available: all who wait are in calls that will retry. *)
Lemma enough_none k' M' q x y d t :
  queue_at k q = Some x -> same_queue x y -> rouses k k' -> available d y <= 0 -> can_block k t ->
  (forall u, u <> t -> M' !! u = M !! u) -> enough k' M' q y d.
Proof.
  intros Hx HS HR Ha [Hc _] HM. left. rewrite (same_side d x y HS).
  pose proof (good_waiting sys k q x d (so_good _ _ ok) Hx) as Hl.
  assert (waiters k' (side_list d x) ⊆ retriers M' q d) as Hsub.
  { intros u Hu. apply (waiters_le c k' _ HR Hl) in Hu. assert (u <> t) as Hne.
    { intros ->. apply elem_waiters in Hu as [Hu _]. unfold in_list in Hu. unfold k in Hc. congruence. }
    apply (waiters_retriers q x d Hx) in Hu. rewrite elem_retriers in *. destruct Hu as (cl & Hcl & Hr). exists cl. by rewrite HM. }
  apply subseteq_size in Hsub. lia.
Qed.

(** The call [cl] of the running task [t] becomes [cl']. *)
Lemma own_update k' t cl cl' :
  same_queues k k' -> rouses k k' -> M !! t = Some cl -> cl_queue cl' = cl_queue cl -> cl_op cl' = cl_op cl ->
  call_ok sys k' t cl' ->
  will_retry (cl_pc cl') = true \/ will_retry (cl_pc cl) = false \/ can_block k t -> own_ok sys k' (<[t := cl']> M) t.
Proof.
  intros HQ HR Hcl Eq Eo Hok Hr. destruct (frame_own sys c k' ok HQ None t HR ltac:(done)) as [_ H2 H3].
  split; rewrite lookup_insert_eq; [by intros ? [= <-]|..].
  - intros l Hl Hin. destruct (H2 l Hl Hin) as (cl0 & x & Hcl0 & Hx & -> & Hr0). unfold M in Hcl. rewrite Hcl in Hcl0. injection Hcl0 as <-.
    exists cl', x. rewrite Eq, Eo. split_and!; [done..|]. destruct Hr as [?|[?|[Hc _]]]; [done|congruence|].
    apply (rz_enter _ _ _ HR) in Hin; [|done|done]. unfold in_list in Hin. congruence.
  - intros ? x [= <-] Hx. rewrite Eq in Hx. rewrite Eo. by apply (H3 cl x).
Qed.

(** A step that leaves the queues and the lists of the others alone. *)
Lemma step_static k' t cl cl' :
  kernel_good sys k' -> static k' = static k -> rouses k k' -> M !! t = Some cl ->
  cl_queue cl' = cl_queue cl -> cl_op cl' = cl_op cl -> call_ok sys k' t cl' ->
  will_retry (cl_pc cl') = true \/ will_retry (cl_pc cl) = false -> cl_pc cl' <> WaitPlace ->
  sys_phase k' (<[t := cl']> M) -> sys_ok sys (mkConf k' (<[t := cl']> M)).
Proof.
  intros Hg Es HR Hcl Eq Eo Hok Hr Hp HP. injection Es as Eob En. pose proof (same_queues_objects k k' Eob) as HQ.
  apply (sys_frame sys c k' ok HQ En _ (Some t)); [done|by apply rouses_weaken| | |done|].
  - intros u Hu. by rewrite lookup_insert_ne by congruence.
  - intros u [= <-]. apply (own_update k' t cl cl'); [done..|]. destruct Hr; [by left|right; by left].
  - intros q y d Hy Hw. rewrite Eob in Hy. apply (enough_elsewhere sys c ok q y d k' _ Hy En HR); [| |done].
    + apply retriers_insert. intros cl0 E. fold M in E. rewrite Hcl in E. injection E as <-. unfold retries. rewrite Eq, Eo.
      intros (H1 & H2 & H3). split_and!; [done..|]. destruct Hr; congruence.
    + by apply placing_insert.
Qed.

(** ** The step of a call *)

Section Step.
Context (t q : nat) (op : queue_op) (s : wait_state) (x : Queue_t).
Hypothesis call : M !! t = Some (mkCall q op s).
Hypothesis current : pxCurrentTCB k = Some t.
Hypothesis unasked : pendsv k = false.
Hypothesis here : queue_at k q = Some x.

Let cl := mkCall q op s.

Lemma step_call : call_ok sys k t cl.
Proof. by apply (so_call _ _ ok). Qed.

Lemma step_allowed : call_allowed x (op_call op).
Proof. destruct (co_queue _ _ _ _ step_call) as (x' & Hx' & Ha). cbn in Hx', Ha. by simplify_eq. Qed.

Lemma step_plain : is_mutex x = false.
Proof. by apply (so_plain _ _ ok q). Qed.

(** Outside the part with the scheduler suspended no one is in it. *)
Lemma step_free : outside (w_pc s) = true -> uxSchedulerSuspended k = 0 /\ free_phase k M /\ can_block k t.
Proof.
  intros Ho. destruct (so_phase _ _ ok) as [Hs Hf|t' cl' x' Hs H].
  - split; [done|]. split; [done|]. by apply running_free.
  - pose proof (hd_current _ _ _ _ _ H) as Ec. pose proof (hd_call _ _ _ _ _ H) as E. unfold k in current. rewrite current in Ec.
    injection Ec as <-. unfold M in call. rewrite call in E. injection E as <-. pose proof (hd_inside _ _ _ _ _ H) as Hi. cbn in Hi.
    by destruct (w_pc s).
Qed.

Lemma step_held : outside (w_pc s) = false -> uxSchedulerSuspended k = 1 /\ held k M t cl x.
Proof.
  intros Ho. destruct (so_phase _ _ ok) as [Hs Hf|t' cl' x' Hs H].
  - pose proof (fp_outside _ _ Hf t cl call) as E. cbn in E. congruence.
  - split; [done|]. pose proof (hd_current _ _ _ _ _ H) as Ec. pose proof (hd_call _ _ _ _ _ H) as E. unfold k in current. rewrite current in Ec.
    injection Ec as <-. unfold M in call. rewrite call in E. injection E as <-. pose proof (hd_queue _ _ _ _ _ H) as E. cbn in E.
    unfold k in here. rewrite here in E. by injection E as <-.
Qed.

(** The call leaves: the enough of the sides it does not belong to. *)
Lemma retriers_delete q' d : q' <> q \/ d <> op_side op -> retriers M q' d ⊆ retriers (delete t M) q' d.
Proof.
  intros Hne u. rewrite !elem_retriers. intros (cl0 & Hcl & Hr). destruct (decide (u = t)) as [->|Hu].
  - rewrite call in Hcl. injection Hcl as <-. destruct Hr as (E1 & E2 & _). cbn in E1, E2. destruct Hne; congruence.
  - exists cl0. by rewrite lookup_delete_ne.
Qed.

Lemma retriers_delete_size d : (size (retriers M q d) <= S (size (retriers (delete t M) q d)))%nat.
Proof.
  assert (retriers M q d ⊆ {[t]} ∪ retriers (delete t M) q d) as H.
  { intros u. rewrite elem_of_union, elem_of_singleton, !elem_retriers. intros (cl0 & Hcl & Hr).
    destruct (decide (u = t)) as [->|Hu]; [by left|right]. exists cl0. by rewrite lookup_delete_ne. }
  apply subseteq_size in H. pose proof (size_union_alt {[t]} (retriers (delete t M) q d)) as E.
  assert (size (retriers (delete t M) q d ∖ {[t]}) <= size (retriers (delete t M) q d))%nat 
    by (apply subseteq_size; intros u [Hu _]%elem_of_difference; done).
  rewrite size_singleton in E. lia.
Qed.

(** No longer in a call. *)
Lemma own_leave k' : rouses k k' -> can_block k t -> own_ok sys k' (delete t M) t.
Proof.
  intros HR [Hc _]. split; rewrite lookup_delete_eq; [done| |done].
  intros l Hl Hin. apply (rz_enter _ _ _ HR) in Hin; [|done|done]. unfold in_list in Hin. congruence.
Qed.

Lemma free_leave k' : free_phase k' M -> free_phase k' (delete t M).
Proof. intros [H1 H2 H3 H4]. split; [|done..]. intros u cl0 [_ Hcl]%lookup_delete_Some. by apply (H1 u). Qed.

(** The first critical section serves the call. *)
Lemma served_own y d k' :
  queue_at k' q = Some y -> served sys q x (op_call op) (pdPASS, d) k k' -> rouses k k' -> can_block k t ->
  waiters k' (side_list (op_side op) y) <> ∅ -> enough k' (delete t M) q y (op_side op).
Proof.
  intros Hy HS HR Hb Hw. destruct (served_queue sys q x y _ _ k k' HS Hy) as (_ & HQ & _).
  destruct (Z.leb_spec (available (op_side op) y) 0) as [H0|H0].
  { apply (enough_none k' _ q x y _ t); [done|done|done|done|done|]. intros u Hu. by rewrite lookup_delete_ne. }
  assert (enough k M q x (op_side op)) as He.
  { apply (so_wakeup _ _ ok q x _ here). left. by eapply (waiters_before sys c ok q x y _ _ k' here HS Hy HR). }
  pose proof (good_waiting sys k q x (op_side op) (so_good _ _ ok) here) as Hl.
  pose proof (retriers_delete_size (op_side op)) as Hsz. pose proof (subseteq_size _ _ (waiters_le c k' _ HR Hl)) as Hle. fold k in Hle.
  pose proof (served_lock sys q x y _ _ k k' HS Hy (op_side op)) as El. rewrite decide_False in El by (by destruct op; intros (_ & _ & ?)).
  unfold enough in *. rewrite (same_side _ x y HQ), El, (sv_number _ _ _ _ _ _ _ HS).
  destruct He as [He|He]; [left|by right]. assert (op = OpPeek \/ op <> OpPeek) as [Eop|Hop] by (destruct op; auto).
  - pose proof (served_available sys q x y _ _ k k' (so_good _ _ ok) here step_allowed HS Hy (op_side op)) as Ha.
    rewrite Eop, decide_False in Ha by done. rewrite Eop in *. cbn [op_call op_side side_list available side_lock] in *.
    destruct (wk_leaves _ _ _ (sv_wakes _ _ _ _ _ _ _ HS _ eq_refl eq_refl)) as [Hno|Hlv].
    + exfalso. apply Hw, elem_of_equiv_empty_L. rewrite (sq_receive _ _ HQ). intros u Hu%(waiters_le c k' _ HR Hl).
      apply elem_waiters in Hu as [Hu _]. by apply (Hno u).
    + pose proof (waiters_lt c k' _ HR Hl Hlv) as Hlt. fold k in Hlt. lia.
  - pose proof (served_taken sys q x y _ _ k k' (so_good _ _ ok) here step_allowed HS Hy op eq_refl Hop eq_refl) as Ha. lia.
Qed.

Lemma try_done :
  w_pc s = WaitTry -> op_ready op x = true ->
  exists d k', wait_step op q s k = Ok (at_pc (WaitDone pdPASS d) s, k') /\ served sys q x (op_call op) (pdPASS, d) k k' /\
    sys_ok sys (mkConf k' (delete t M)).
Proof.
  intros Hpc Hr. destruct (step_free ltac:(by rewrite Hpc)) as (Hs & Hf & Hb).
  destruct (wp_try sys q x k (so_good _ _ ok) here op s step_allowed Hr) as (s' & k' & E & d & -> & HS).
  exists d, k'. unfold wait_step. rewrite Hpc. split; [done|]. split; [done|].
  pose proof (quiet_try op q s x k _ k' here step_plain E) as HQ. destruct (asks_try op q s x k _ k' here step_plain E) as [A1 A2].
  destruct (sv_queue _ _ _ _ _ _ _ HS) as (y & Hy & _). pose proof (qt_rouses _ _ HQ (event_priorities sys c ok)) as HR.
  pose proof (served_same sys q x y _ _ k k' here HS Hy) as Hsame.
  apply (sys_frame sys c k' ok Hsame (sv_number _ _ _ _ _ _ _ HS) _ (Some t)); [apply HS|by apply rouses_weaken| | | |].
  - intros u Hu. by rewrite lookup_delete_ne by congruence.
  - intros u [= <-]. by apply own_leave.
  - destruct (phase_quiet k k' M) as [Hs' Hf'|? ? ? Hs' _]; [by apply phase_free|done|done|exact (served_locks sys q x y _ _ k k' here HS Hy)| | |].
    + intros _ H1 H2. destruct (A1 H2); auto.
    + apply phase_free; [done|by apply free_leave].
    + by rewrite (qt_suspended _ _ HQ), Hs in Hs'.
  - intros q' y' d' Hy' Hw. destruct (decide (q' = q)) as [->|Hne].
    + rewrite Hy in Hy'. injection Hy' as <-. destruct (decide (d' = op_side op)) as [->|Hd].
      * apply (served_own y d k' Hy HS HR Hb). destruct Hw as [Hw|Hw%placing_delete]; [done|].
        destruct (placing_locked sys c ok q _ x Hw here) as [Hlk _]. pose proof (fp_unlocked _ _ Hf q x ltac:(done) here) as Eu.
        injection Eu as Eu _. unfold queueUNLOCKED in Eu. lia.
      * destruct (decide (gives (op_call op) = Some d')) as [Hg|Hg].
        -- apply (enough_given sys c ok q x y _ _ k' here step_allowed HS Hy HR d'); [done|done|by intros _; apply Hf| |by apply placing_delete|done].
           apply retriers_delete. by right.
        -- apply (enough_kept sys c ok q x y _ _ k' here step_allowed HS Hy HR d'); [by left| |by apply placing_delete|done].
           apply retriers_delete. by right.
    + rewrite (sv_others _ _ _ _ _ _ _ HS q' Hne) in Hy'.
      apply (enough_elsewhere sys c ok q' y' d' k' _ Hy' (sv_number _ _ _ _ _ _ _ HS) HR); [|by apply placing_delete|done].
      apply retriers_delete. by left.
Qed.

(** Nothing is there: the call returns, or goes on to wait. *)
Lemma not_ready_none : op_ready op x = false -> available (op_side op) x <= 0.
Proof.
  destruct op as [item pos| | |]; cbn [op_ready op_side available]; unfold has_room; [|lia..].
  intros H. apply orb_false_iff in H as [H _]. lia.
Qed.

Lemma rouses_refl : rouses k k.
Proof. by apply touches_rouses, touches_same. Qed.

(** The call gives up its place among those that retry. *)
Lemma step_gives_up M' :
  available (op_side op) x <= 0 -> can_block k t -> (forall u, u <> t -> M' !! u = M !! u) -> own_ok sys k M' t ->
  sys_phase k M' -> (forall q' d, ~ (q' = q /\ d = op_side op) -> placing M' q' d -> placing M q' d) -> sys_ok sys (mkConf k M').
Proof.
  intros Ha Hb HM Hown HP Hpl.
  apply (sys_frame sys c k ok (same_queues_objects k k eq_refl) eq_refl _ (Some t)); [apply (so_good _ _ ok)| | | |done|].
  - apply rouses_weaken, rouses_refl.
  - intros u Hu. apply HM. congruence.
  - by intros u [= <-].
  - intros q' y d Hy Hw. destruct (decide (q' = q /\ d = op_side op)) as [[-> ->]|Hne].
    + rewrite here in Hy. injection Hy as <-. by apply (enough_none k _ q x x _ t); [| |apply rouses_refl|..].
    + apply (enough_elsewhere sys c ok q' y d k _ Hy eq_refl rouses_refl); [|by apply Hpl, Hne|done].
      intros u. rewrite !elem_retriers. intros (cl0 & Hcl & Hr). destruct (decide (u = t)) as [->|Hu].
      * fold M in Hcl. rewrite call in Hcl. injection Hcl as <-. destruct Hr as (E1 & E2 & _). cbn in E1, E2. destruct Hne. auto.
      * exists cl0. by rewrite HM.
Qed.

Lemma step_returns : available (op_side op) x <= 0 -> outside (w_pc s) = true -> sys_ok sys (mkConf k (delete t M)).
Proof.
  intros Ha Ho. destruct (step_free Ho) as (Hs & Hf & Hb).
  apply step_gives_up; [done|done|intros u Hu; by rewrite lookup_delete_ne|by apply own_leave, Hb; apply rouses_refl| |].
  - apply phase_free; [done|by apply free_leave].
  - intros q' d _. apply placing_delete.
Qed.

(** The call of the running task inside the free part. *)
Lemma free_update k' cl' : free_phase k' M -> outside (cl_pc cl') = true -> free_phase k' (<[t := cl']> M).
Proof.
  intros [H1 H2 H3 H4] Ho. split; [|done..]. intros u cl0 Hcl. destruct (decide (u = t)) as [->|Hne].
  - rewrite lookup_insert_eq in Hcl. by injection Hcl as <-.
  - rewrite lookup_insert_ne in Hcl by done. by apply (H1 u).
Qed.

Lemma try_waits :
  w_pc s = WaitTry -> op_ready op x = false ->
  exists s', wait_step op q s k = Ok (s', k) /\
    ((s' = at_pc (WaitDone errQUEUE_FULL []) s /\ sys_ok sys (mkConf k (delete t M))) \/
     (w_pc s' = WaitSuspend /\ sys_ok sys (mkConf k (<[t := mkCall q op s']> M)))).
Proof.
  intros Hpc Hr. destruct (step_free ltac:(by rewrite Hpc)) as (Hs & Hf & Hb). pose proof (not_ready_none Hr) as Ha.
  unfold wait_step. rewrite Hpc, (try_wait q x k here op s Hr). unfold must_wait. destruct (Z.eqb_spec (w_ticks s) 0) as [E|E].
  { eexists. split; [done|]. left. split; [done|]. apply step_returns; [done|by rewrite Hpc]. }
  pose proof step_call as [C1 C2 C3 C4 C5 C6 C7]. cbn in C4, C5, C6.
  assert (forall s', w_pc s' = WaitSuspend -> w_ticks s' = w_ticks s -> w_timeout s' <> None -> w_inherited s' = w_inherited s ->
    sys_ok sys (mkConf k (<[t := mkCall q op s']> M))) as Hgo.
  { intros s' E1 E2 E3 E4. assert (call_ok sys k t (mkCall q op s')) as Hok.
    { split; cbn; rewrite ?E1, ?E2, ?E4; cbn; try done. split; [lia|done]. }
    apply step_gives_up; [done|done|intros u Hu; by rewrite lookup_insert_ne| | |].
    - apply (own_update k t cl); [by apply same_queues_objects|apply rouses_refl|done|done|done|done|by right; right].
    - apply phase_free; [done|]. apply free_update; [done|]. cbn. by rewrite E1.
    - intros q' d _. apply placing_insert. cbn. by rewrite E1. }
  destruct (w_timeout s) as [o|] eqn:Et.
  - eexists. split; [done|]. right. split; [done|]. apply Hgo; cbn; [done|done|by rewrite Et|done].
  - unfold vTaskSetTimeOutState, mbind, KM_bind, gets. eexists. split; [done|]. right. split; [done|]. by apply Hgo.
Qed.

(** ** With the scheduler suspended *)

Lemma held_update k' s' y :
  (forall u cl', u <> t -> M !! u = Some cl' -> outside (cl_pc cl') = true) ->
  pxCurrentTCB k' = Some t -> inside (w_pc s') = true -> queue_at k' q = Some y -> unlocked_but (Some q) k' ->
  lock_state (tx_locked (w_pc s')) (cTxLock y) -> lock_state (rx_locked (w_pc s')) (cRxLock y) ->
  (placed (w_pc s') = false -> can_block k' t) -> held k' (<[t := mkCall q op s']> M) t (mkCall q op s') y.
Proof.
  intros H1 H2 H3 H4 H5 H6 H7 H8. split; [done|apply lookup_insert_eq|done| |done..].
  intros u cl' Hu. rewrite lookup_insert_ne by done. by apply H1.
Qed.

(** The state of the call after the step. *)
Lemma call_update k' o s' :
  same_queues k k' -> rouses_but o k k' -> 0 <= w_ticks s' <= portMAX_DELAY ->
  (will_wait (w_pc s') = true -> 0 < w_ticks s' /\ w_timeout s' <> None) -> w_inherited s' = w_inherited s ->
  outside (w_pc s') || inside (w_pc s') = true -> call_ok sys k' t (mkCall q op s').
Proof.
  intros HQ HR H1 H2 H3 H4. pose proof step_call as Hc. apply (frame_call sys c k' HQ o t cl _ HR Hc); [done|done|done|done| |done].
  rewrite <- (co_inherited _ _ _ _ Hc). done.
Qed.

Lemma call_at k' o pc :
  same_queues k k' -> rouses_but o k k' -> (will_wait pc = true -> will_wait (w_pc s) = true) -> outside pc || inside pc = true ->
  call_ok sys k' t (mkCall q op (at_pc pc s)).
Proof.
  intros HQ HR Hw Hp. pose proof step_call as [_ _ _ C4 C5 _ _]. cbn in C4, C5.
  apply (call_update k' o); [done|done|done| |done|done]. cbn. auto.
Qed.

(** [vTaskSuspendAll] *)
Lemma suspend_step :
  w_pc s = WaitSuspend -> exists k', wait_step op q s k = Ok (at_pc WaitLock s, k') /\ k_objects k' = k_objects k /\
    sys_ok sys (mkConf k' (<[t := mkCall q op (at_pc WaitLock s)]> M)).
Proof.
  intros Hpc. destruct (step_free ltac:(by rewrite Hpc)) as (Hs & Hf & Hb). destruct (so_good _ _ ok) as [[L HS] HO].
  fold k in HS, HO. exists (set_uxSchedulerSuspended 1 k). split.
  { unfold wait_step. rewrite Hpc. unfold vTaskSuspendAll, mbind, KM_bind, gets, modify. by rewrite Hs. }
  split; [done|]. set (k' := set_uxSchedulerSuspended 1 k).
  assert (rouses k k') as HR by (by apply touches_rouses, touches_same).
  assert (kernel_good sys k') as Hg.
  { destruct (safe_suspend_all sys k L HS ltac:(rewrite Hs; lia)) as ([] & k2 & E & L' & HS').
    unfold vTaskSuspendAll, mbind, KM_bind, gets, modify in E. rewrite Hs in E. injection E as <-.
    split; [by exists L'|by apply (objects_ok_static sys k)]. }
  apply (step_static k' t cl); [done|done|done|done|done|done| |right; cbn; by rewrite Hpc|done|].
  - apply (call_at k' None); [by apply same_queues_objects|done|by rewrite Hpc|done].
  - apply (phase_held _ _ t (mkCall q op (at_pc WaitLock s)) x); [done|].
    pose proof (fp_unlocked _ _ Hf q x ltac:(done) here) as Eu. injection Eu as E1 E2.
    apply held_update; [|done|done|done| |done|done|done].
    + intros u cl' _ Hcl. by apply (fp_outside _ _ Hf u).
    + intros q' y _ Hy. by apply (fp_unlocked _ _ Hf q' y).
Qed.

(** [prvLockQueue] *)
Lemma lock_step :
  w_pc s = WaitLock -> exists k', wait_step op q s k = Ok (at_pc WaitCheck s, k') /\ same_queues k k' /\ queue_contents k' = queue_contents k /\
    sys_ok sys (mkConf k' (<[t := mkCall q op (at_pc WaitCheck s)]> M)).
Proof.
  intros Hpc. destruct (step_held ltac:(by rewrite Hpc)) as [Hs [H1 H2 H3 H4 H5 H6 H7 H8 H9]]. cbn in H7, H8, H9, H6.
  rewrite Hpc in H7, H8, H9. cbn in H7, H8. set (y := set_cTxLock 0 (set_cRxLock 0 x)). set (k' := with_queue q y k).
  assert (same_queue x y) as HS by (by split). assert (kernel_good sys k') as Hg.
  { apply (kernel_good_with sys k q x y); [apply (so_good _ _ ok)|done| |done].
    destruct (ob_queue _ _ (kg_objects _ _ (so_good _ _ ok)) q x here) as (_ & Hq & _).
    apply set_tx_ok; [apply set_rx_ok; [done|]|]; unfold queueUNLOCKED, queueINT8_MAX; lia. }
  exists k'. split.
  { unfold wait_step. rewrite Hpc. unfold prvLockQueue, mbind, KM_bind, get_queue. rewrite here, H8. cbn. rewrite H7. done. }
  split; [by apply (same_queues_with q x y)|]. split; [by apply (contents_with q x)|].
  assert (rouses k k') as HR by (by apply touches_rouses, touches_same).
  assert (same_queues k k') as HQ by (by apply (same_queues_with q x y)).
  apply (sys_frame sys c k' ok HQ eq_refl _ (Some t)); [done|by apply rouses_weaken| | | |].
  - intros u Hu. by rewrite lookup_insert_ne by congruence.
  - intros u [= <-]. apply (own_update k' t cl); [done|done|done|done|done| |by right; left; cbn; rewrite Hpc].
    apply (call_at k' None); [done|done|by rewrite Hpc|done].
  - apply (phase_held _ _ t (mkCall q op (at_pc WaitCheck s)) y); [done|].
    apply held_update; [done|done|done|apply queue_at_with| |done|done|by intros _; apply H9].
    intros q' z Hq' Hz. unfold k', with_queue in Hz. cbn in Hz. rewrite lookup_insert_ne in Hz by congruence. by apply (H6 q').
  - intros q' z d Hz Hw. assert (retriers M q' d ⊆ retriers (<[t := mkCall q op (at_pc WaitCheck s)]> M) q' d) as Hr.
    { apply retriers_insert. intros cl0 Hcl. rewrite call in Hcl. injection Hcl as <-. intros (_ & _ & Hr). cbn in Hr. by rewrite Hpc in Hr. }
    assert (waiters k (side_list d z) <> ∅ \/ placing M q' d) as Hw'.
    { destruct Hw as [Hw|Hw]; [by left|right]. by apply placing_insert in Hw. }
    unfold k', with_queue in Hz. cbn in Hz. destruct (decide (q' = q)) as [->|Hne].
    + rewrite lookup_insert_eq in Hz. injection Hz as <-. apply subseteq_size in Hr. rewrite (same_side d x y HS) in *.
      pose proof (so_number _ _ ok) as Hn. fold k in Hn. unfold queueUNLOCKED in *.
      destruct (so_wakeup _ _ ok q x d here Hw') as [He|He]; [left|right]; fold k M in He |- *.
      * rewrite (same_side d x y HS). change (waiters k' (side_list d x)) with (waiters k (side_list d x)).
        destruct d; cbn [side_lock available] in *; rewrite ?H7, ?H8 in He; cbn in *; lia.
      * destruct d; cbn [side_lock] in *; rewrite ?H7, ?H8 in He; lia.
    + rewrite lookup_insert_ne in Hz by done. apply (enough_elsewhere sys c ok q' z d k' _ Hz eq_refl HR); [done| |done].
      by apply placing_insert.
Qed.

(** [xTaskCheckForTimeOut] *)
Lemma check_step :
  w_pc s = WaitCheck -> exists s' k', wait_step op q s k = Ok (s', k') /\ k_objects k' = k_objects k /\
    (w_pc s' = WaitTest \/ w_pc s' = WaitUnlockTx TimedOut) /\ sys_ok sys (mkConf k' (<[t := mkCall q op s']> M)).
Proof.
  intros Hpc. destruct (step_held ltac:(by rewrite Hpc)) as [Hs [H1 H2 H3 H4 H5 H6 H7 H8 H9]]. cbn in H7, H8, H9, H6.
  rewrite Hpc in H7, H8, H9. pose proof step_call as [_ _ _ C4 C5 _ _]. cbn in C4, C5. rewrite Hpc in C5. destruct (C5 eq_refl) as [Hn Ho].
  destruct (w_timeout s) as [o|] eqn:Et; [|done]. destruct (so_good _ _ ok) as [[L HS] HO]. fold k in HS, HO.
  destruct (safe_check_for_timeout sys k L o (w_ticks s) HS) as ([[e o'] n'] & k' & E & L' & HS').
  pose proof (ko_check_timeout _ _ _ _ _ E) as Es. pose proof (check_effect o (w_ticks s) t k e o' n' k' current ltac:(lia) E) as [HB El Hn' Hl'].
  assert (kernel_good sys k') as Hg by (split; [by exists L'|by apply (objects_ok_static sys k)]).
  assert (rouses k k') as HR by (apply rouses_lists; [apply HB|done]). injection Es as Eo En.
  set (s' := mkWait (if e then WaitUnlockTx TimedOut else WaitTest) n' (Some o') (w_inherited s)).
  exists s', k'. split; [unfold wait_step; rewrite Hpc, Et; unfold mbind, KM_bind; by rewrite E|]. split; [done|].
  split; [destruct e; [by right|by left]|].
  apply (step_static k' t cl); [done|unfold static; congruence|done|done|done|done| |right; cbn; by rewrite Hpc|by destruct e|].
  - apply (call_update k' None); [by apply same_queues_objects|done|unfold s'; cbn; lia| |done|by destruct e].
    unfold s'. cbn. destruct e; [done|]. intros _. split; [by apply Hl'|done].
  - apply (phase_held _ _ t (mkCall q op s') x); [by rewrite (bl_suspended _ _ _ HB)|].
    apply held_update; [done|by rewrite (bl_current _ _ _ HB)|by destruct e|by rewrite Eo| |by destruct e|by destruct e|].
    + intros q' z Hq' Hz. rewrite Eo in Hz. by apply (H6 q').
    + intros _. unfold can_block, in_list. rewrite El. by apply H9.
Qed.

(** [prvIsQueueFull], [prvIsQueueEmpty] *)
Lemma op_blocked_reads : op_blocked op q k = Ok (available (op_side op) x =? 0, k).
Proof.
  destruct op; cbn [op_blocked op_side available]; unfold prvIsQueueFull, prvIsQueueEmpty, mbind, KM_bind, get_queue; rewrite here; [|done..].
  unfold mret, KM_ret. do 2 f_equal. lia.
Qed.

Lemma test_step :
  w_pc s = WaitTest -> exists s', wait_step op q s k = Ok (s', k) /\ (w_pc s' = WaitPlace \/ w_pc s' = WaitUnlockTx TryAgain) /\
    sys_ok sys (mkConf k (<[t := mkCall q op s']> M)).
Proof.
  intros Hpc. destruct (step_held ltac:(by rewrite Hpc)) as [Hs [H1 H2 H3 H4 H5 H6 H7 H8 H9]]. cbn in H7, H8, H9, H6.
  rewrite Hpc in H7, H8, H9. unfold wait_step. rewrite Hpc. unfold mbind at 1, KM_bind at 1. rewrite op_blocked_reads.
  assert (forall pc, lock_state (tx_locked pc) (cTxLock x) -> lock_state (rx_locked pc) (cRxLock x) -> inside pc = true ->
    sys_phase k (<[t := mkCall q op (at_pc pc s)]> M)) as Hph.
  { intros pc P1 P2 P3. apply (phase_held _ _ t (mkCall q op (at_pc pc s)) x); [done|]. apply held_update; [done..|]. intros _. by apply H9. }
  destruct (Z.eqb_spec (available (op_side op) x) 0) as [E|E].
  - exists (at_pc WaitPlace s). split.
    { unfold mbind, KM_bind, get_queue. rewrite here, step_plain. by destruct op. }
    split; [by left|].
    apply step_gives_up; [lia|by apply H9|intros u Hu; by rewrite lookup_insert_ne| |by apply Hph|].
    + apply (own_update k t cl); [by apply same_queues_objects|apply rouses_refl|done|done|done| |by right; left; cbn; rewrite Hpc].
      apply (call_at k None); [by apply same_queues_objects|apply rouses_refl|by rewrite Hpc|done].
    + intros q' d Hne (u & cl0 & Hcl & E1 & E2 & E3). destruct (decide (u = t)) as [->|Hu].
      * rewrite lookup_insert_eq in Hcl. injection Hcl as <-. cbn in E1, E2. destruct Hne. auto.
      * rewrite lookup_insert_ne in Hcl by done. by exists u, cl0.
  - eexists. split; [done|]. split; [by right|].
    apply (step_static k t cl); [apply (so_good _ _ ok)|done|apply rouses_refl|done|done|done| |right; cbn; by rewrite Hpc|done|by apply Hph].
    apply (call_at k None); [by apply same_queues_objects|apply rouses_refl|done|done].
Qed.

(** [vTaskPlaceOnEventList] *)
Lemma op_list_side : op_list op x = side_list (op_side op) x.
Proof. by destruct op. Qed.

Lemma place_runs :
  can_block k t -> uxSchedulerSuspended k = 1 -> 0 < w_ticks s -> exists k',
    vTaskPlaceOnEventList (side_list (op_side op) x) (w_ticks s) k = Ok (tt, k') /\ kernel_good sys k' /\ static k' = static k.
Proof.
  intros (Hev & p & Hp & Hin) Hs Hn. pose proof step_call as [[y Hy] C2 _ C4 _ _ _]. cbn in C4.
  destruct (so_good _ _ ok) as [[L HS] HO]. fold k in HS, HO. pose proof (sc_ok _ _ _ HS) as HK.
  assert (detached L (xEventListItem t)) as Hd.
  { intros l Hl. apply (in_list_member sys _ _ _ _ _ _ HK) in Hl. unfold in_list in Hl. congruence. }
  assert (queue_list sys (side_list (op_side op) x)) as Hql by (apply (good_side sys k q); [apply (so_good _ _ ok)|done]).
  apply (in_list_member sys _ _ _ _ _ _ HK) in Hin.
  destruct (safe_place_on_event_list sys k L t p (side_list (op_side op) x) y HS ltac:(by rewrite Hs) current Hy C2 Hin (so_notify _ _ ok t y Hy)
    Hql (w_ticks s) Hd ltac:(lia)) as ([] & k' & E & L' & HS').
  pose proof (ko_place _ _ _ _ _ E) as Es. exists k'. split; [done|]. split; [|done].
  split; [by exists L'|by apply (objects_ok_static sys k)].
Qed.

(** The task that waits now will also retry. *)
Lemma enough_placed k' s' :
  w_pc s = WaitPlace -> will_retry (w_pc s') = true -> rouses_but (Some t) k k' -> uxCurrentNumberOfTasks k' = uxCurrentNumberOfTasks k ->
  enough k' (<[t := mkCall q op s']> M) q x (op_side op).
Proof.
  intros Hpc Hr HR En. pose proof (good_waiting sys k q x (op_side op) (so_good _ _ ok) here) as Hl.
  assert (enough k M q x (op_side op)) as He.
  { apply (so_wakeup _ _ ok q x _ here). right. by exists t, cl. }
  assert (waiters k' (side_list (op_side op) x) ⊆ {[t]} ∪ waiters k (side_list (op_side op) x)) as Hw.
  { intros u Hu. destruct (decide (u = t)) as [->|Hne]; [by apply elem_of_union_l, elem_of_singleton|].
    apply elem_of_union_r, (waiters_sub c k' (Some t) _ u HR); [congruence|done|done]. }
  assert ({[t]} ∪ retriers M q (op_side op) ⊆ retriers (<[t := mkCall q op s']> M) q (op_side op)) as Hret.
  { intros u. rewrite elem_of_union, elem_of_singleton, !elem_retriers. intros [->|(cl0 & Hcl & Hr0)].
    - exists (mkCall q op s'). by rewrite lookup_insert_eq.
    - exists cl0. rewrite lookup_insert_ne; [done|]. intros <-. rewrite call in Hcl. injection Hcl as <-.
      destruct Hr0 as (_ & _ & Hr0). cbn in Hr0. by rewrite Hpc in Hr0. }
  apply subseteq_size in Hw, Hret. rewrite size_union in Hret.
  - rewrite size_singleton in Hret. pose proof (size_union_alt {[t]} (waiters k (side_list (op_side op) x))) as E.
    assert (size (waiters k (side_list (op_side op) x) ∖ {[t]}) <= size (waiters k (side_list (op_side op) x)))%nat
      by (apply subseteq_size; intros u [Hu _]%elem_of_difference; done).
    rewrite size_singleton in E. unfold enough in *. fold M in He. rewrite En. destruct He; [left; lia|by right].
  - intros u Hu Hu'. apply elem_of_singleton in Hu as ->. apply elem_retriers in Hu' as (cl0 & Hcl & _ & _ & Hr0).
    rewrite call in Hcl. injection Hcl as <-. cbn in Hr0. by rewrite Hpc in Hr0.
Qed.

Lemma place_step :
  w_pc s = WaitPlace -> exists k', wait_step op q s k = Ok (at_pc (WaitUnlockTx Placed) s, k') /\ k_objects k' = k_objects k /\
    sys_ok sys (mkConf k' (<[t := mkCall q op (at_pc (WaitUnlockTx Placed) s)]> M)).
Proof.
  intros Hpc. destruct (step_held ltac:(by rewrite Hpc)) as [Hs [H1 H2 H3 H4 H5 H6 H7 H8 H9]]. cbn in H7, H8, H9, H6.
  rewrite Hpc in H7, H8, H9. pose proof step_call as [_ _ _ C4 C5 _ _]. cbn in C4, C5. rewrite Hpc in C5. destruct (C5 eq_refl) as [Hn _].
  destruct (place_runs (H9 eq_refl) Hs Hn) as (k' & E & Hg & Es). injection Es as Eo En.
  destruct (places_effect _ _ t k tt k' current E) as [HR Pc Ps Pe].
  exists k'. split; [unfold wait_step; rewrite Hpc; unfold mbind, KM_bind, get_queue; by rewrite here, op_list_side, E|]. split; [done|].
  pose proof (same_queues_objects k k' Eo) as HQ. set (cl' := mkCall q op (at_pc (WaitUnlockTx Placed) s)).
  assert (call_ok sys k' t cl') as Hok by (by apply (call_at k' (Some t))).
  assert (forall l, in_list k' (xEventListItem t) l -> l = side_list (op_side op) x) as Huniq.
  { intros l Hl. unfold in_list in *. congruence. }
  apply (sys_frame sys c k' ok HQ En _ (Some t)); [done|done| | | |].
  - intros u Hu. by rewrite lookup_insert_ne by congruence.
  - intros u [= <-]. split; rewrite lookup_insert_eq; [by intros ? [= <-]|..].
    + intros l Hl Hin. exists cl', x. rewrite Eo. split_and!; [done|done|by apply Huniq|done].
    + intros ? y [= <-] Hy. cbn in Hy. rewrite Eo, here in Hy. injection Hy as <-. by right.
  - apply (phase_held _ _ t cl' x); [congruence|].
    apply held_update; [done|congruence|done|by rewrite Eo| |done|done|done]. intros q' z Hq' Hz. rewrite Eo in Hz. by apply (H6 q').
  - intros q' y d Hy Hw. rewrite Eo in Hy.
    assert (placing (<[t := cl']> M) q' d -> placing M q' d) as Hpl by (by apply placing_insert).
    assert (retriers M q' d ⊆ retriers (<[t := cl']> M) q' d) as Hret.
    { apply retriers_insert. intros cl0 Hcl. rewrite call in Hcl. injection Hcl as <-. intros (_ & _ & Hr). cbn in Hr. by rewrite Hpc in Hr. }
    destruct (decide (q' = q /\ d = op_side op)) as [[-> ->]|Hne].
    + rewrite here in Hy. injection Hy as <-. by apply enough_placed.
    + apply (enough_same sys c ok q' y d k' _ Hy En); [|done|done|done]. intros u Hu.
      destruct (decide (u = t)) as [->|Hu']; [|by apply (waiters_sub c k' (Some t) _ u HR); [congruence|by eapply good_waiting; [apply (so_good _ _ ok)|]|]].
      apply elem_waiters in Hu as [Hu _]. apply Huniq in Hu. destruct (so_apart _ _ ok _ _ _ _ _ _ Hy here Hu) as [-> ->]. by destruct Hne.
Qed.

(** [prvUnlockQueue] *)

(** Only the task with the scheduler suspended can be about to be placed. *)
Lemma not_placing q' d : held k M t cl x -> w_pc s <> WaitPlace -> ~ placing M q' d.
Proof.
  intros H Hpc (u & cl0 & Hcl & _ & _ & Hp). destruct (decide (u = t)) as [->|Hne].
  - rewrite call in Hcl. injection Hcl as <-. done.
  - pose proof (hd_others _ _ _ _ _ H u cl0 Hne Hcl) as Ho. by rewrite Hp in Ho.
Qed.

Lemma set_lock_same d v : same_queue x (set_lock d v x).
Proof. destruct d; by split. Qed.

Lemma enough_unlocked d k' M' :
  unlocked sys d q x k k' -> rouses k k' -> 0 <= side_lock d x -> retriers M q d ⊆ retriers M' q d ->
  waiters k' (side_list d x) <> ∅ -> enough k' M' q (set_lock d queueUNLOCKED x) d.
Proof.
  intros [_ En _ _ _ Hc] HR Hlk Hret Hw. pose proof (good_waiting sys k q x d (so_good _ _ ok) here) as Hl.
  destruct Hc as [Hc|Hc]; [done|]. assert (waiters k (side_list d x) <> ∅) as Hw0.
  { intros E. apply Hw, elem_of_equiv_empty_L. intros u Hu%(waiters_le c k' _ HR Hl). unfold k in E. by rewrite E in Hu. }
  assert (size (waiters k' (side_list d x)) <> 0)%nat as Hpos by (intros E; by apply Hw, leibniz_equiv, size_empty_inv).
  apply subseteq_size in Hret. destruct (so_wakeup _ _ ok q x d here (or_introl Hw0)) as [He|He]; fold k M in He.
  - left. rewrite (same_side d x _ (set_lock_same d _)).
    replace (available d (set_lock d queueUNLOCKED x)) with (available d x) by (by destruct d).
    replace (side_lock d (set_lock d queueUNLOCKED x)) with queueUNLOCKED by (by destruct d). unfold queueUNLOCKED. lia.
  - exfalso. assert (waiters k (side_list d x) ⊆ dom (k_tcbs k)) as Hd.
    { intros u [_ Hu]%elem_waiters. by apply elem_of_dom. }
    apply subseteq_size in Hd. rewrite size_dom in Hd. pose proof (so_size _ _ ok) as Hs. fold k in Hs. lia.
Qed.

(** One of the two critical sections; [u] is why the queue is unlocked. *)
Lemma unlock_step d u pc' :
  w_pc s = (match d with ToReceive => WaitUnlockTx u | ToSend => WaitUnlockRx u end) ->
  pc' = (match d with ToReceive => WaitUnlockRx u | ToSend => WaitResume u end) ->
  exists k', wait_step op q s k = Ok (at_pc pc' s, k') /\ same_queues k k' /\ queue_contents k' = queue_contents k /\
    sys_ok sys (mkConf k' (<[t := mkCall q op (at_pc pc' s)]> M)).
Proof.
  intros Hpc Hpc'. destruct (step_held ltac:(rewrite Hpc; by destruct d)) as [Hs Hheld]. pose proof Hheld as [H1 H2 H3 H4 H5 H6 H7 H8 H9].
  cbn in H7, H8, H9, H6. destruct (wp_unlock sys d q x k (so_good _ _ ok) here) as (k' & E & HU). exists k'.
  pose proof HU as [Hg En Hq Ho [Qc Qs Qr Qst _] _]. pose proof (Qr (event_priorities sys c ok)) as HR.
  assert (same_queues k k') as HQ.
  { intros q'. destruct (decide (q' = q)) as [->|Hne]; [rewrite here, Hq; constructor; apply set_lock_same|].
    rewrite Ho by done. destruct (queue_at k q'); constructor. apply same_queue_refl. }
  set (cl' := mkCall q op (at_pc pc' s)).
  assert (w_pc s <> WaitPlace) as Hnp by (rewrite Hpc; by destruct d).
  assert (forall q' d', retriers M q' d' ⊆ retriers (<[t := cl']> M) q' d') as Hret.
  { intros q' d'. apply retriers_insert. intros cl0 Hcl. rewrite call in Hcl. injection Hcl as <-. intros (R1 & R2 & R3). cbn in R3.
    split_and!; [done|done|]. cbn. rewrite Hpc in R3. subst pc'. by destruct d, u. }
  assert (forall q' d', ~ placing (<[t := cl']> M) q' d') as Hnpl.
  { intros q' d' Hp. apply (not_placing q' d' Hheld Hnp). revert Hp. apply placing_insert. cbn. subst pc'. by destruct d. }
  split; [|split; [done|split]].
  - unfold wait_step. rewrite Hpc. subst pc'. destruct d; cbn [unlock_of] in E; unfold mbind, KM_bind; by rewrite E.
  - apply map_eq. intros q'. unfold queue_contents. rewrite !lookup_fmap. destruct (decide (q' = q)) as [->|Hne]; [|by rewrite Ho].
    rewrite here, Hq. by destruct d.
  - apply (sys_frame sys c k' ok HQ En _ (Some t)); [done|by apply rouses_weaken| | | |].
    + intros v Hv. by rewrite lookup_insert_ne by congruence.
    + intros v [= <-]. apply (own_update k' t cl); [done|done|done|done|done| |].
      * apply (call_at k' None); [done|done|subst pc'; by destruct d|subst pc'; by destruct d].
      * cbn. rewrite Hpc. subst pc'. destruct d, u; cbn; auto.
    + apply (phase_held _ _ t cl' (set_lock d queueUNLOCKED x)); [by rewrite Qs|].
      apply held_update; [done|by rewrite Qc|subst pc'; by destruct d|done| | | |].
      * intros q' z Hq' Hz. rewrite Ho in Hz by congruence. by apply (H6 q').
      * rewrite Hpc in H7. subst pc'. by destruct d.
      * rewrite Hpc in H8. subst pc'. by destruct d.
      * intros Hp. destruct H9 as (E1 & p & Hp1 & Hp2); [rewrite Hpc; subst pc'; by destruct d, u|].
        destruct (Qst t ltac:(by rewrite Hs) E1) as [E2 E3]. split; [done|]. exists p. split; [done|]. unfold in_list. by rewrite E3.
    + intros q' y d' Hy Hw. destruct Hw as [Hw|Hw]; [|by destruct (Hnpl q' d')]. destruct (decide (q' = q)) as [->|Hne].
      * rewrite Hq in Hy. injection Hy as <-. rewrite (same_side d' x _ (set_lock_same d _)) in Hw. destruct (decide (d' = d)) as [->|Hd].
        -- apply (enough_unlocked d k' _ HU HR); [|done|done]. rewrite Hpc in H7, H8. by destruct d.
        -- pose proof (good_waiting sys k q x d' (so_good _ _ ok) here) as Hl. pose proof (waiters_le c k' _ HR Hl) as Hsub.
           apply (enough_keep c k' En _ q x); [|by destruct d, d'|by destruct d, d'|apply set_lock_same|done|done].
           apply (so_wakeup _ _ ok q x d' here). left. intros E0. apply Hw, elem_of_equiv_empty_L. intros v Hv%Hsub.
           unfold k in Hv. by rewrite E0 in Hv.
      * rewrite Ho in Hy by done. apply (enough_elsewhere sys c ok q' y d' k' _ Hy En HR); [done|by intros ?%Hnpl|by left].
Qed.

(** A call that would not have looked again returns. *)
Lemma step_leave k' :
  kernel_good sys k' -> static k' = static k -> rouses k k' -> can_block k t -> will_retry (w_pc s) = false ->
  sys_phase k' (delete t M) -> sys_ok sys (mkConf k' (delete t M)).
Proof.
  intros Hg Es HR Hb Hw HP. injection Es as Eo En. pose proof (same_queues_objects k k' Eo) as HQ.
  apply (sys_frame sys c k' ok HQ En _ (Some t)); [done|by apply rouses_weaken| | |done|].
  - intros v Hv. by rewrite lookup_delete_ne by congruence.
  - intros v [= <-]. by apply own_leave.
  - intros q' y d Hy Hw'. rewrite Eo in Hy. apply (enough_elsewhere sys c ok q' y d k' _ Hy En HR); [|by apply placing_delete|done].
    intros v. rewrite !elem_retriers. intros (cl0 & Hcl & Hr). exists cl0. rewrite lookup_delete_ne; [done|].
    intros <-. fold M in Hcl. rewrite call in Hcl. injection Hcl as <-. destruct Hr as (_ & _ & Hr). cbn in Hr. by rewrite Hr in Hw.
Qed.

(** [xTaskResumeAll] *)
Record resumes (r : bool) (k' : kernel) : Prop := {
  ra_static : static k' = static k;
  ra_rouses : rouses k k';
  ra_suspended : uxSchedulerSuspended k' = 0;
  ra_pending : nobody xPendingReadyList k';
  ra_asked : xYieldPending k' = true -> pendsv k' = true;
  ra_yield : r = true -> pendsv k' = true;
  ra_good : can_block k t -> kernel_good sys k';
  ra_pended : kernel_good sys (set_pendsv true k');
}.

Lemma resume_runs : uxSchedulerSuspended k = 1 -> exists r k', xTaskResumeAll k = Ok (r, k') /\ resumes r k'.
Proof.
  intros Hs. destruct (so_good _ _ ok) as [[L HS] HO]. fold k in HS, HO. pose proof (sc_ok _ _ _ HS) as HK.
  destruct (wp_resume_all sys k L HK ltac:(by rewrite Hs) (sc_preempted _ _ _ HS)) as (r & k' & E & L' & HR).
  exists r, k'. split; [done|]. pose proof (ko_resume_all _ _ _ E) as Es. destruct (rs_last _ _ _ _ _ _ HR Hs (so_number _ _ ok)) as (Hm & _ & _ & Hsw).
  assert (objects_ok sys k') as HO' by (by apply (objects_ok_static sys k)). pose proof (rs_ok _ _ _ _ _ _ HR) as HK'.
  split; [exact Es| | | | |by apply HR| |].
  - by apply (rouse_resume_all k r), (event_priorities sys c ok).
  - rewrite (rs_suspended _ _ _ _ _ _ HR). lia.
  - intros u Hu. apply (in_list_member sys _ _ _ _ _ _ HK') in Hu. rewrite Hm in Hu. by apply elem_of_nil in Hu.
  - intros Hy. apply Hsw. unfold switch_pending. by rewrite Hy, orb_true_r.
  - intros (_ & p & Hp & Hin). split; [|done]. exists L'. apply (resumed_scheduled sys r k k' L L'); [done|].
    intros _ _. exists t, p. apply (in_list_member sys _ _ _ _ _ _ HK) in Hin. done.
  - split; [|by apply (objects_ok_static sys k')]. exists L'. apply scheduled_pending; [by apply ok_pendsv|done].
Qed.

(** The scheduler runs again, and the task is outside. *)
Lemma free_after k' r s' :
  held k M t cl x -> tx_locked (w_pc s) = false -> rx_locked (w_pc s) = false -> resumes r k' -> outside (w_pc s') = true ->
  free_phase k' (<[t := mkCall q op s']> M).
Proof.
  intros [H1 H2 H3 H4 H5 H6 H7 H8 H9] Htx Hrx HR Ho. cbn in H5, H6, H7, H8. rewrite Htx in H7. rewrite Hrx in H8.
  pose proof (ra_static _ _ HR) as Es. injection Es as Eo _. split; [| |apply HR|apply HR].
  - intros u cl0 Hcl. destruct (decide (u = t)) as [->|Hne].
    + rewrite lookup_insert_eq in Hcl. by injection Hcl as <-.
    + rewrite lookup_insert_ne in Hcl by done. by apply (H4 u).
  - intros q' y _ Hy. rewrite Eo in Hy. destruct (decide (q' = q)) as [->|Hne]; [|by apply (H6 q'); [congruence|]].
    rewrite here in Hy. injection Hy as <-. unfold locks. cbn in H7, H8. by rewrite H7, H8.
Qed.

Lemma resume_step u :
  w_pc s = WaitResume u -> exists s' k', wait_step op q s k = Ok (s', k') /\ k_objects k' = k_objects k /\
    ((exists item pos, op = OpSend item pos /\ u = TimedOut /\ s' = at_pc (WaitDone errQUEUE_FULL []) s /\ sys_ok sys (mkConf k' (delete t M))) \/
     (outside (w_pc s') = true /\ sys_ok sys (mkConf k' (<[t := mkCall q op s']> M)))).
Proof.
  intros Hpc. destruct (step_held ltac:(by rewrite Hpc)) as [Hs Hh]. destruct (resume_runs Hs) as (r & k' & E & HR).
  pose proof (ra_static _ _ HR) as Es. assert (same_queues k k') as HQ by (injection Es as Eo _; by apply same_queues_objects).
  pose proof (fun s' => free_after k' r s' Hh ltac:(by rewrite Hpc) ltac:(by rewrite Hpc) HR) as Hfree.
  assert (forall pc, outside pc = true -> pc <> WaitSuspend -> call_ok sys k' t (mkCall q op (at_pc pc s))) as Hcall.
  { intros pc Ho Hne. apply (call_at k' None); [done|apply HR|by destruct pc|by rewrite Ho]. }
  pose proof (hd_ready _ _ _ _ _ Hh) as Hb. cbn in Hb. rewrite Hpc in Hb.
  assert (forall pc, outside pc = true -> pc <> WaitSuspend -> u <> Placed -> sys_ok sys (mkConf k' (<[t := mkCall q op (at_pc pc s)]> M))) as Hgo.
  { intros pc Ho Hne Hu. apply (step_static k' t cl); [apply HR; apply Hb; by destruct u|done|apply HR|done|done|done|by apply Hcall| |by destruct pc|].
    - right. cbn. rewrite Hpc. by destruct u.
    - apply phase_free; [apply HR|by apply Hfree]. }
  unfold wait_step. rewrite Hpc. unfold mbind at 1, KM_bind at 1. rewrite E. destruct u.
  - set (k2 := set_pendsv true k'). exists (at_pc WaitTry s), k2. split.
    { unfold mbind, KM_bind, when. destruct r; [|done]. cbn. do 2 f_equal. unfold k2. pose proof (ra_yield _ _ HR eq_refl) as Hy.
      destruct k'. cbn in Hy. by subst. }
    split; [by injection Es|]. right. split; [done|].
    apply (step_static k2 t cl); [apply HR|done| |done|done|done| |by left|done|].
    + apply (rouses_trans _ _ k'); [apply HR|]. by apply touches_rouses, touches_same.
    + apply (call_at k2 None); [done| |done|done]. apply (rouses_trans _ _ k'); [apply HR|]. by apply touches_rouses, touches_same.
    + apply phase_free; [apply HR|]. destruct (Hfree (at_pc WaitTry s) eq_refl) as [F1 F2 F3 F4]. by split.
  - eexists _, k'. split; [done|]. split; [by injection Es|]. right. split; [done|]. by apply Hgo.
  - assert ((exists item pos, op = OpSend item pos) \/
      match op with OpSend _ _ => WaitDone errQUEUE_FULL [] | _ => WaitExpired end = WaitExpired) as [(item & pos & Eop)|Eop]
      by (destruct op; eauto).
    2: { rewrite Eop. eexists _, k'. split; [done|]. split; [by injection Es|]. right. split; [done|]. by apply Hgo. }
    exists (at_pc (WaitDone errQUEUE_FULL []) s), k'. split; [by rewrite Eop|]. split; [by injection Es|].
    left. exists item, pos. split_and!; [done..|]. specialize (Hb eq_refl).
    apply step_leave; [by apply HR|done|apply HR|done|by rewrite Hpc|].
    apply phase_free; [apply HR|]. destruct (Hfree (at_pc WaitTry s) eq_refl) as [F1 F2 F3 F4]. split; [|done..].
    intros v cl0 Hcl. apply lookup_delete_Some in Hcl as [Hv Hcl]. apply (F1 v). by rewrite lookup_insert_ne.
Qed.

(** The time is over: the queue is looked at once more. *)
Lemma expired_step :
  w_pc s = WaitExpired -> exists s', wait_step op q s k = Ok (s', k) /\
    ((uxMessagesWaiting x = 0 /\ s' = at_pc (WaitDone errQUEUE_EMPTY []) s /\ sys_ok sys (mkConf k (delete t M))) \/
     (s' = at_pc WaitTry s /\ sys_ok sys (mkConf k (<[t := mkCall q op s']> M)))).
Proof.
  intros Hpc. destruct (step_free ltac:(by rewrite Hpc)) as (Hs & Hf & Hb). pose proof (co_inherited _ _ _ _ step_call) as Hi. cbn in Hi.
  unfold wait_step. rewrite Hpc. unfold prvIsQueueEmpty, mbind, KM_bind, get_queue. rewrite here.
  destruct (Z.eqb_spec (uxMessagesWaiting x) 0) as [E|E].
  - exists (at_pc (WaitDone errQUEUE_EMPTY []) s). split; [rewrite Hi; by destruct op|]. left.
    split; [done|]. split; [done|]. apply step_leave; [apply (so_good _ _ ok)|done|apply rouses_refl|done|by rewrite Hpc|].
    apply phase_free; [done|by apply free_leave].
  - exists (at_pc WaitTry s). split; [done|]. right. split; [done|].
    apply (step_static k t cl); [apply (so_good _ _ ok)|done|apply rouses_refl|done|done|done| |by left|done|].
    + apply (call_at k None); [by apply same_queues_objects|apply rouses_refl|done|done].
    + apply phase_free; [done|by apply free_update].
Qed.

End Step.

End Running.
