(* ===== verification/FreeRTOSSystemSteps.v ===== *)
(** * The steps of the whole system

    Every event that may happen does happen, without a fault, keeps the
    invariant, and acts on the contents of the queues as the specification of
    the call that it completes says. *)

From S2P Require Import Prelude FreeRTOSList FreeRTOSListTheory FreeRTOSListStore FreeRTOSHeap FreeRTOSObjects.
From S2P Require Import FreeRTOSTasks FreeRTOSTasksTheory FreeRTOSTasksCalls FreeRTOSTasksInvariant FreeRTOSTasksEvents.
From S2P Require Import FreeRTOSTasksTime FreeRTOSTasksFrame FreeRTOSTasksRouse FreeRTOSQueue FreeRTOSQueueTheory.
From S2P Require Import FreeRTOSQueueFrame FreeRTOSQueueCalls FreeRTOSQueueWait FreeRTOSSystem FreeRTOSSystemTheory.
From S2P Require Import FreeRTOSSystemEvents FreeRTOSSystemTasks.

(** ** Delays *)

Record delays (k' : kernel) : Prop := {
  dy_suspended : uxSchedulerSuspended k' = 0;
  dy_pending : nobody xPendingReadyList k';
  dy_asked : pendsv k' = true;
}.

Lemma wp_delay sys k L t p n :
  scheduled sys k L -> uxSchedulerSuspended k = 0 -> nobody xPendingReadyList k -> 0 < uxCurrentNumberOfTasks k ->
  0 <= n <= portMAX_DELAY -> pxCurrentTCB k = Some t -> t <> idle_task sys -> ready_list p = true -> xStateListItem t ∈ members L p ->
  wp (vTaskDelay n) (fun _ k' => (exists L', scheduled sys k' L') /\ delays k') k.
Proof.
  intros H Hs Hno Hnum Hn Hc Hid Hp Hin. pose proof (sc_ok _ _ _ H) as HO. unfold vTaskDelay. wps.
  destruct (current_state sys k L t p) as (x & Hx & _); [done..|].
  apply wp_if; intros Hb; wps.
  - apply wp_configASSERT; [lia|]. wps. apply wp_suspend_first; [done|]. wps.
    eapply (wp_delay_current sys _ _ L t x p); try done; [by apply ok_suspend_all|by left|lia|].
    intros h' next' ns' k2 L2 Hok Hm Hsame Hval.
    eapply (wp_resume_yielding sys); [exact Hok| |done|].
    + apply (preempted_delayed k L t x); [apply H|done|by apply (wait_list_not_ready sys (xTickCount k + 1) k L)].
    + intros r k3 L3 HR b Hb3 HS3. split; [by exists L3|]. destruct (rs_last _ _ _ _ _ _ HR eq_refl Hnum) as (Hm3 & _).
      split; kcbn; [by rewrite (rs_suspended _ _ _ _ _ _ HR)| |].
      * intros u Hu. apply (in_list_member sys _ _ _ _ _ _ (sc_ok _ _ _ HS3)) in Hu. rewrite Hm3 in Hu. by apply elem_of_nil in Hu.
      * destruct r; [by rewrite (rs_yield _ _ _ _ _ _ HR eq_refl), orb_true_r|by rewrite Hb3].
  - cbn [when negb]. wps. split; [exists L; apply scheduled_pending; [by apply ok_pendsv|done]|]. by split.
Qed.

(** The delay moves the task to the delayed list, and no task to an event list. *)
Lemma delay_rouses n t k u k' :
  pxCurrentTCB k = Some t -> vTaskDelay n k = Ok (u, k') -> priorities (k_tcbs k) ->
  rouses_but (Some t) k k' /\ forall l, waiting_list l -> in_list k' (xEventListItem t) l -> in_list k (xEventListItem t) l.
Proof.
  intros Hc H HP. unfold vTaskDelay in H. apply bind_ok in H as (r & k1 & E & H).
  assert (rouses k1 k') as H1.
  { destruct (negb r); cbn [when] in H; injection H as _ <-; by apply touches_rouses, touches_same. }
  assert (rouses_but (Some t) k k1 /\ forall l, waiting_list l -> in_list k1 (xEventListItem t) l -> in_list k (xEventListItem t) l) as [HR HE].
  2: { split; [apply (rouses_trans _ _ k1); [done|by apply rouses_weaken]|]. intros l Hl Hin. by apply HE, (rz_enter _ _ _ H1). }
  destruct (n >? 0); [|injection E as _ <-; split; [by apply rouses_weaken, touches_rouses, touches_same|done]].
  apply bind_ok in E as (sp & k2 & [= <- <-] & E). apply bind_ok in E as (v & k2 & E2 & E). apply (ko_lift (fun k => k)) in E2 as ->.
  apply bind_ok in E as (v2 & k2 & E2 & E). unfold vTaskSuspendAll in E2. apply bind_ok in E2 as (sp & k3 & [= <- <-] & [= <- <-]).
  set (k2 := set_uxSchedulerSuspended _ k) in *. apply bind_ok in E as (v3 & k3 & E3 & E).
  apply blocks_delay with (c := t) in E3; [|done]. pose proof (blocks_rouses t k2 k3 E3) as HB.
  assert (rouses k3 k1) as H3.
  { apply (rouse_resume_all k3 r k1 E). by apply (priorities_view (k_tcbs k)), HP; apply HB. }
  split.
  - apply (rouses_trans _ _ k2); [by apply rouses_weaken, touches_rouses, touches_same|].
    apply (rouses_trans _ _ k3); [done|by apply rouses_weaken].
  - intros l Hl Hin. apply (rz_enter _ _ _ H3) in Hin; [|done|done]. unfold in_list in *. rewrite (bl_others _ _ _ E3) in Hin; [done|].
    intros E4. by destruct (state_not_event t t).
Qed.

(** ** The effect of an event *)

Definition event_effect (k : kernel) (o : option outcome) (k' : kernel) : Prop :=
  same_queues k k' /\
  match o with
  | None => queue_contents k' = queue_contents k
  | Some o => outcome_step (o_queues (k_objects k)) o (queue_contents k) (queue_contents k')
  end.

Lemma effect_none k k' : k_objects k' = k_objects k -> event_effect k None k'.
Proof. intros E. split; [by apply same_queues_objects|]. unfold queue_contents. by rewrite E. Qed.

Lemma effect_served sys q x i r k k' :
  queue_at k q = Some x -> served sys q x i r k k' -> event_effect k (Some (mkOutcome q i r)) k'.
Proof.
  intros Hx HS. destruct (sv_queue _ _ _ _ _ _ _ HS) as (y & Hy & Hc & _).
  split; [exact (served_same sys q x y i r k k' Hx HS Hy)|]. exists x, (contents x). cbn. unfold queue_contents. rewrite lookup_fmap, Hx.
  split_and!; [done|done|]. left. split; [by rewrite (sv_result _ _ _ _ _ _ _ HS)|].
  apply map_eq. intros q'. destruct (decide (q' = q)) as [->|Hne].
  - by rewrite lookup_insert_eq, lookup_fmap, Hy, <- Hc.
  - by rewrite lookup_insert_ne, !lookup_fmap, (sv_others _ _ _ _ _ _ _ HS q' Hne).
Qed.

(** A call that is refused. *)
Lemma effect_refused q x i r k :
  queue_at k q = Some x -> call_spec x i (contents x) = (r, contents x) -> event_effect k (Some (mkOutcome q i r)) k.
Proof.
  intros Hx E. split; [by apply same_queues_objects|]. exists x, (contents x). cbn. unfold queue_contents. rewrite lookup_fmap, Hx.
  split_and!; [done|done|]. left. rewrite E. split; [done|]. symmetry. apply insert_id. by rewrite lookup_fmap, Hx.
Qed.

Lemma effect_timed_out q x item pos k k' :
  queue_at k q = Some x -> k_objects k' = k_objects k -> event_effect k (Some (mkOutcome q (CallSend item pos) (errQUEUE_FULL, []))) k'.
Proof.
  intros Hx E. split; [by apply same_queues_objects|]. exists x, (contents x). cbn. unfold queue_contents. rewrite lookup_fmap, Hx, E.
  split_and!; [done|done|]. right. split; [|done]. split; [|done]. by exists item, pos.
Qed.

(** ** Every event *)

Definition event_runs (sys : system) (c : sys_conf) (e : sys_event) : Prop :=
  exists o c', sys_step e c = Ok (o, c') /\ sys_ok sys c' /\ event_effect (c_kernel c) o (c_kernel c').

Section Steps.
Context (sys : system) (c : sys_conf).
Hypothesis ok : sys_ok sys c.

Let k := c_kernel c.
Let M := c_calls c.

Lemma tick_runs : event_runs sys c SysTick.
Proof.
  destruct (step_tick sys c ok) as (k' & E & Eo & Hok). exists None, (mkConf k' M). split; [|split; [done|by apply effect_none]].
  unfold sys_step. by rewrite E.
Qed.

Lemma pendsv_runs : event_runs sys c SysPendSV.
Proof.
  destruct (step_pendsv sys c ok) as (k' & E & Eo & Hok). exists None, (mkConf k' M). split; [|split; [done|by apply effect_none]].
  unfold sys_step. by rewrite E.
Qed.

Lemma isr_runs q i : sys_allowed sys c (SysIsr q i) -> event_runs sys c (SysIsr q i).
Proof.
  intros (Hi & x & Hx & Ha). destruct (step_isr sys c ok q x i Hx Hi Ha) as (r & k' & E & HS & Hok).
  exists (Some (mkOutcome q i r)), (mkConf k' M). split; [unfold sys_step; by rewrite E|]. split; [done|]. by eapply effect_served.
Qed.

(** The running task outside a call. *)
Lemma task_free_facts :
  task_free sys c -> exists t, pxCurrentTCB k = Some t /\ t <> idle_task sys /\ M !! t = None /\
    uxSchedulerSuspended k = 0 /\ free_phase k M /\ can_block k t /\ is_Some (k_tcbs k !! t).
Proof.
  intros (Hp & t & Hc & Hid & Hm). exists t. destruct (so_good _ _ ok) as [[L HS] _].
  destruct (ok_current _ _ _ _ _ (sc_ok _ _ _ HS)) as (t' & y & Hc' & Hy). rewrite Hc in Hc'. injection Hc' as <-.
  destruct (so_phase _ _ ok) as [Hs Hf|t' cl' x' Hs H].
  - split_and!; [done..| |by exists y]. by apply (running_free sys c ok).
  - pose proof (hd_current _ _ _ _ _ H) as Ec. rewrite Hc in Ec. injection Ec as <-. pose proof (hd_call _ _ _ _ _ H). congruence.
Qed.

Lemma call_runs q op n : sys_allowed sys c (SysCall q op n) -> event_runs sys c (SysCall q op n).
Proof.
  intros (Hfree & Hn & x & Hx & Ha). destruct (task_free_facts Hfree) as (t & Hc & Hid & Hm & Hs & Hf & Hb & Ht).
  destruct (wp_op_start sys q x k (so_good _ _ ok) Hx op n (fun s k' => s = wait_start n /\ k' = k) Ha ltac:(by right) ltac:(done))
    as (s & k' & E & -> & ->).
  set (cl := mkCall q op (wait_start n)). exists None, (mkConf k (<[t := cl]> M)). split; [|split; [|by apply effect_none]].
  { unfold sys_step. fold k M. rewrite Hc. cbn [deref]. unfold mbind, res_bind. by rewrite E. }
  assert (rouses k k) as HR by (by apply touches_rouses, touches_same).
  apply (sys_frame sys c k ok (same_queues_objects k k eq_refl) eq_refl _ (Some t)); [apply (so_good _ _ ok)|by apply rouses_weaken| | | |].
  - intros u Hu. by rewrite lookup_insert_ne by congruence.
  - intros u [= <-]. destruct Hb as (Hev & Hrd). split; rewrite lookup_insert_eq.
    + intros ? [= <-]. split; cbn; try done. by exists x.
    + intros l _ Hin. unfold in_list in Hin. congruence.
    + intros ? y [= <-] _. left. by left.
  - apply phase_free; [done|]. destruct Hf as [F1 F2 F3 F4]. split; [|done..]. intros u cl0 Hcl. destruct (decide (u = t)) as [->|Hne].
    + rewrite lookup_insert_eq in Hcl. by injection Hcl as <-.
    + rewrite lookup_insert_ne in Hcl by done. by apply (F1 u).
  - intros q' y d Hy Hw. apply (enough_elsewhere sys c ok q' y d k _ Hy eq_refl HR); [| |done].
    + apply retriers_insert. intros cl0 Hcl. fold M in Hcl. congruence.
    + by apply placing_insert.
Qed.

Lemma delay_runs n : sys_allowed sys c (SysDelay n) -> event_runs sys c (SysDelay n).
Proof.
  intros (Hfree & Hn). destruct (task_free_facts Hfree) as (t & Hc & Hid & Hm & Hs & Hf & (Hev & p & Hp & Hin) & Ht).
  destruct (so_good _ _ ok) as [[L HS] HO]. pose proof (sc_ok _ _ _ HS) as HK. apply (in_list_member sys _ _ _ _ _ _ HK) in Hin.
  destruct (wp_delay sys k L t p n HS Hs (fp_pended _ _ Hf) (so_number _ _ ok) Hn Hc Hid Hp Hin) as ([] & k' & E & [L' HS'] & HD).
  pose proof (ko_task_delay _ _ _ _ E) as Es. destruct (delay_rouses n t k tt k' Hc E (event_priorities sys c ok)) as [HR HE].
  assert (kernel_good sys k') as Hg by (split; [by exists L'|by apply (objects_ok_static sys k)]). injection Es as Eo En.
  exists None, (mkConf k' M). split; [unfold sys_step; fold k; by rewrite E|]. split; [|by apply effect_none].
  assert (forall l, waiting_list l -> ~ in_list k' (xEventListItem t) l) as Hno.
  { intros l Hl Hin'. apply HE in Hin'; [|done]. unfold in_list in Hin'. congruence. }
  apply (sys_frame sys c k' ok (same_queues_objects k k' Eo) En _ (Some t)); [done|done|done| | |].
  - intros u [= <-]. split; [by rewrite Hm| |by rewrite Hm]. intros l Hl Hin'. by destruct (Hno l Hl).
  - apply phase_free; [apply HD|]. destruct Hf as [F1 F2 F3 F4]. split; [done| |apply HD|intros _; apply HD].
    apply (unlocked_kept None k); [by apply locks_kept_objects|done].
  - intros q y d Hy Hw. rewrite Eo in Hy. apply (enough_same sys c ok q y d k' _ Hy En); [|done|done|done].
    pose proof (good_waiting sys k q y d (so_good _ _ ok) Hy) as Hl. intros u Hu. destruct (decide (u = t)) as [->|Hne].
    + apply elem_waiters in Hu as [Hu _]. by destruct (Hno _ Hl).
    + by apply (waiters_sub c k' (Some t) _ u HR); [congruence|..].
Qed.

(** ** A step of a call *)

(** The call of the running task. *)
Lemma step_facts :
  sys_allowed sys c SysStep -> exists t q op s x, pendsv k = false /\ pxCurrentTCB k = Some t /\ M !! t = Some (mkCall q op s) /\
    queue_at k q = Some x /\ outside (w_pc s) || inside (w_pc s) = true.
Proof.
  intros (Hp & t & Hc & [[q op s] Hcl]). destruct (so_call _ _ ok t _ Hcl) as [_ _ (x & Hx & _) _ _ _ Hpc]. cbn in Hx, Hpc.
  by exists t, q, op, s, x.
Qed.

(** The parts of [sys_step] for a step that goes on, and for one that returns. *)
Lemma step_goes_on t q op s s' k' :
  pxCurrentTCB k = Some t -> M !! t = Some (mkCall q op s) -> wait_step op q s k = Ok (s', k') ->
  outside (w_pc s') || inside (w_pc s') = true ->
  sys_step SysStep c = Ok (None, mkConf k' (<[t := mkCall q op s']> M)).
Proof.
  intros Hc Hcl E Hpc. unfold sys_step. fold k M. rewrite Hc. cbn [deref]. unfold mbind, res_bind. rewrite Hcl. cbn [deref cl_op cl_queue cl_wait].
  rewrite E. unfold call_on. by destruct (w_pc s').
Qed.

Lemma step_done t q op s r d k' :
  pxCurrentTCB k = Some t -> M !! t = Some (mkCall q op s) -> wait_step op q s k = Ok (at_pc (WaitDone r d) s, k') ->
  sys_step SysStep c = Ok (Some (mkOutcome q (op_call op) (r, d)), mkConf k' (delete t M)).
Proof.
  intros Hc Hcl E. unfold sys_step. fold k M. rewrite Hc. cbn [deref]. unfold mbind, res_bind. rewrite Hcl. cbn [deref cl_op cl_queue cl_wait].
  by rewrite E.
Qed.

(** The first critical section, and the last look at the queue. *)
Lemma try_runs t q op s x :
  pendsv k = false -> pxCurrentTCB k = Some t -> M !! t = Some (mkCall q op s) -> queue_at k q = Some x -> w_pc s = WaitTry ->
  event_runs sys c SysStep.
Proof.
  intros Hp Hc Hcl Hx Hpc. destruct (op_ready op x) eqn:Hr.
  - destruct (try_done sys c ok t q op s x Hcl Hc Hp Hx Hpc Hr) as (d & k' & E & HS & Hok). eexists _, _.
    split; [by apply (step_done t q op s pdPASS d k')|]. split; [done|]. by eapply effect_served.
  - destruct (try_waits sys c ok t q op s x Hcl Hc Hp Hx Hpc Hr) as (s' & E & [[-> Hok]|[Hs' Hok]]); eexists _, _.
    + split; [by apply (step_done t q op s errQUEUE_FULL [] k)|]. split; [done|]. apply (effect_refused q x); [done|].
      by apply (not_ready sys q x k (so_good _ _ ok) Hx).
    + split; [apply (step_goes_on t q op s s' k); [done..|by rewrite Hs']|]. split; [done|by apply effect_none].
Qed.

Lemma expired_runs t q op s x :
  pendsv k = false -> pxCurrentTCB k = Some t -> M !! t = Some (mkCall q op s) -> queue_at k q = Some x -> w_pc s = WaitExpired ->
  event_runs sys c SysStep.
Proof.
  intros Hp Hc Hcl Hx Hpc. destruct (expired_step sys c ok t q op s x Hcl Hc Hp Hx Hpc) as (s' & E & [(Hn & -> & Hok)|[-> Hok]]); eexists _, _.
  - split; [by apply (step_done t q op s errQUEUE_EMPTY [] k)|]. split; [done|].
    destruct op as [item pos| | |]; [by apply (effect_timed_out q x)|..]; (apply (effect_refused q x); [done|]); cbn [op_call call_spec];
      by rewrite (empty_spec sys q x k (so_good _ _ ok) Hx) by lia.
  - split; [by apply (step_goes_on t q op s (at_pc WaitTry s) k)|]. split; [done|by apply effect_none].
Qed.

(** A step that goes on to another place. *)
Lemma step_on t q op s s' k' :
  pxCurrentTCB k = Some t -> M !! t = Some (mkCall q op s) -> wait_step op q s k = Ok (s', k') ->
  outside (w_pc s') || inside (w_pc s') = true -> sys_ok sys (mkConf k' (<[t := mkCall q op s']> M)) ->
  same_queues k k' -> queue_contents k' = queue_contents k -> event_runs sys c SysStep.
Proof.
  intros Hc Hcl E Hpc Hok HQ HC. eexists _, _. split; [by apply (step_goes_on t q op s s' k')|]. by split.
Qed.

Lemma contents_objects k1 k2 : k_objects k2 = k_objects k1 -> queue_contents k2 = queue_contents k1.
Proof. intros E. unfold queue_contents. by rewrite E. Qed.

Lemma step_runs : sys_allowed sys c SysStep -> event_runs sys c SysStep.
Proof.
  intros H. destruct (step_facts H) as (t & q & op & s & x & Hp & Hc & Hcl & Hx & Hpcs).
  destruct (w_pc s) as [| | | | | | |u|u|u| | |] eqn:Hpc; try done.
  - by apply (try_runs t q op s x).
  - destruct (suspend_step sys c ok t q op s x Hcl Hc Hp Hx Hpc) as (k' & E & Eo & Hok).
    apply (step_on t q op s _ k' Hc Hcl E); [done|done|by apply same_queues_objects|by apply contents_objects].
  - destruct (lock_step sys c ok t q op s x Hcl Hc Hx Hpc) as (k' & E & HQ & HC & Hok). by apply (step_on t q op s _ k' Hc Hcl E).
  - destruct (check_step sys c ok t q op s x Hcl Hc Hx Hpc) as (s' & k' & E & Eo & Hs' & Hok).
    apply (step_on t q op s s' k' Hc Hcl E); [by destruct Hs' as [-> | ->]|done|by apply same_queues_objects|by apply contents_objects].
  - destruct (test_step sys c ok t q op s x Hcl Hc Hx Hpc) as (s' & E & Hs' & Hok).
    apply (step_on t q op s s' k Hc Hcl E); [by destruct Hs' as [-> | ->]|done|by apply same_queues_objects|done].
  - destruct (place_step sys c ok t q op s x Hcl Hc Hx Hpc) as (k' & E & Eo & Hok).
    apply (step_on t q op s _ k' Hc Hcl E); [done|done|by apply same_queues_objects|by apply contents_objects].
  - destruct (unlock_step sys c ok t q op s x Hcl Hc Hx ToReceive u _ Hpc eq_refl) as (k' & E & HQ & HC & Hok).
    by apply (step_on t q op s _ k' Hc Hcl E).
  - destruct (unlock_step sys c ok t q op s x Hcl Hc Hx ToSend u _ Hpc eq_refl) as (k' & E & HQ & HC & Hok).
    by apply (step_on t q op s _ k' Hc Hcl E).
  - destruct (resume_step sys c ok t q op s x Hcl Hc Hx u Hpc) as (s' & k' & E & Eo & [(item & pos & Eop & _ & -> & Hok)|[Ho Hok]]).
    + eexists _, _. split; [by apply (step_done t q op s errQUEUE_FULL [] k')|]. split; [done|]. rewrite Eop. by apply (effect_timed_out q x).
    + apply (step_on t q op s s' k' Hc Hcl E); [by rewrite Ho|done|by apply same_queues_objects|by apply contents_objects].
  - by apply (expired_runs t q op s x).
Qed.

Lemma every_event_runs e : sys_allowed sys c e -> event_runs sys c e.
Proof.
  destruct e; [intros _; apply tick_runs|intros _; apply pendsv_runs|apply isr_runs|apply call_runs|apply delay_runs|apply step_runs].
Qed.

End Steps.
