(* ===== verification/FreeRTOSTimers.v ===== *)
(** * The timer service

    [FreeRTOS/Source/timers.c] with the configuration of
    [generate/include/FreeRTOSConfig.h]: timers and pended function calls on, no
    static allocation.  Only the timer task works on the lists of the active
    timers: the functions that do are written on [timer_state], in the monad
    [TM], and [timers] runs them in the kernel.  A callback is code of the
    application; the model keeps the list of the calls, oldest first. *)

From S2P Require Import Prelude FreeRTOSList FreeRTOSHeap FreeRTOSObjects FreeRTOSTasks FreeRTOSQueue.

Definition configTIMER_TASK_PRIORITY : Z := 2.
Definition configTIMER_QUEUE_LENGTH : Z := 10.
Definition configTIMER_TASK_STACK_DEPTH : Z := 180.

(** [DaemonTaskMessage_t]: the command and the larger member of the union. *)
Definition sizeof_DaemonTaskMessage_t : Z := 16.

Definition tmrMAX_TIME_BEFORE_OVERFLOW : Z := 0xffffffff.
Definition tmrSTATUS_IS_ACTIVE : Z := 0x01.
Definition tmrSTATUS_IS_STATICALLY_ALLOCATED : Z := 0x02.
Definition tmrSTATUS_IS_AUTORELOAD : Z := 0x04.

Definition tmrCOMMAND_EXECUTE_CALLBACK_FROM_ISR : Z := -2.
Definition tmrCOMMAND_EXECUTE_CALLBACK : Z := -1.
Definition tmrCOMMAND_START : Z := 1.
Definition tmrCOMMAND_RESET : Z := 2.
Definition tmrCOMMAND_STOP : Z := 3.
Definition tmrCOMMAND_CHANGE_PERIOD : Z := 4.
Definition tmrCOMMAND_DELETE : Z := 5.
Definition tmrFIRST_FROM_ISR_COMMAND : Z := 6.
Definition tmrCOMMAND_START_FROM_ISR : Z := 6.
Definition tmrCOMMAND_RESET_FROM_ISR : Z := 7.
Definition tmrCOMMAND_STOP_FROM_ISR : Z := 8.
Definition tmrCOMMAND_CHANGE_PERIOD_FROM_ISR : Z := 9.

Definition get_timers : KM timer_state := gets (fun k => o_timers (k_objects k)).
Definition put_timers (s : timer_state) : KM unit :=
  modify (fun k => set_k_objects (set_o_timers s (k_objects k)) k).

(** ** Creation *)

(** The name [TmrQ] of the queue in the registry. *)
Definition timer_queue_name : list Z := [0x54; 0x6d; 0x72; 0x51].

Definition prvCheckForValidListAndQueue (ucHeap : Z) : KM unit :=
  s ← get_timers;
  match xTimerQueue s with
  | Some _ => mret tt
  | None =>
      let h := vListInitialise xActiveTimerList2 (vListInitialise xActiveTimerList1 (t_lists s)) in
      put_timers (set_pxOverflowTimerList xActiveTimerList2 (set_pxCurrentTimerList xActiveTimerList1 (set_t_lists h s)));;
      q ← xQueueGenericCreate ucHeap configTIMER_QUEUE_LENGTH sizeof_DaemonTaskMessage_t 0;
      s ← get_timers;
      put_timers (set_xTimerQueue q s);;
      match q with
      | Some q => vQueueAddToRegistry q (Some timer_queue_name)
      | None => mret tt
      end
  end.

(** [pdPASS] is 1 and [errCOULD_NOT_ALLOCATE_REQUIRED_MEMORY] is -1; the function
    asserts that the result is not zero. *)
Definition xTimerCreateTimerTask (ucHeap : Z) : KM Z :=
  prvCheckForValidListAndQueue ucHeap;;
  s ← get_timers;
  xReturn ←
    (match xTimerQueue s with
     | Some _ =>
         t ← xTaskCreate ucHeap configTIMER_TASK_STACK_DEPTH configTIMER_TASK_PRIORITY;
         match t with
         | Some _ => s ← get_timers; put_timers (set_xTimerTaskHandle t s);; mret 1
         | None => mret (-1)
         end
     | None => mret 0
     end);
  configASSERT (negb (xReturn =? 0));;
  mret xReturn.

(** The memory of a new timer is zero: the array of the allocator is, and no
    block of it is used twice. *)
Definition prvInitialiseNewTimer (ucHeap : Z) (name : option (list Z)) (period : Z) (xAutoReload : bool) (id : Z)
    (callback t : nat) (ucStatus : Z) : KM unit :=
  configASSERT (0 <? period);;
  prvCheckForValidListAndQueue ucHeap;;
  s ← get_timers;
  h ← lift (vListInitialiseItem t (put_item (Item t) (mkItem 0 None None None None) (t_lists s)));
  let status := if xAutoReload then ucStatus .| tmrSTATUS_IS_AUTORELOAD else ucStatus in
  put_timers (set_t_lists h (set_t_timers (<[t := mkTimer name period id callback 0 status]> (t_timers s)) s)).

Definition xTimerCreate (ucHeap : Z) (name : option (list Z)) (period : Z) (xAutoReload : bool) (id : Z) (callback : nat)
    : KM (option nat) :=
  p ← malloc ucHeap sizeof_Timer_t;
  match p with
  | Some p =>
      let t := Z.to_nat p in
      prvInitialiseNewTimer ucHeap name period xAutoReload id callback t 0;; mret (Some t)
  | None => mret None
  end.

(** ** The lists of the active timers *)

Definition TM (A : Type) : Type := timer_state -> res (A * timer_state).

#[export] Instance TM_ret : MRet TM := fun A a s => Ok (a, s).
#[export] Instance TM_bind : MBind TM := fun A B f m s => match m s with Ok (a, s) => f a s | Fault e => Fault e end.

Definition tgets {A} (f : timer_state -> A) : TM A := fun s => Ok (f s, s).
Definition tmodify (f : timer_state -> timer_state) : TM unit := fun s => Ok (tt, f s).
Definition tfault {A} (e : Prelude.fault) : TM A := fun _ => Fault e.

Definition timer_lists (f : list_heap -> res list_heap) : TM unit :=
  fun s => match f (t_lists s) with Ok h => Ok (tt, set_t_lists h s) | Fault e => Fault e end.
Definition ask_timer_lists {A} (f : list_heap -> res A) : TM A :=
  fun s => match f (t_lists s) with Ok a => Ok (a, s) | Fault e => Fault e end.

Definition get_timer (t : nat) : TM Timer_t :=
  fun s => match t_timers s !! t with Some x => Ok (x, s) | None => Fault WildHostPointer end.
Definition put_timer (t : nat) (x : Timer_t) : TM unit := tmodify (fun s => set_t_timers (<[t := x]> (t_timers s)) s).

Definition set_status (b : Z) (x : Timer_t) : Timer_t := set_ucStatus (ucStatus x .| b) x.
Definition clear_status (b : Z) (x : Timer_t) : Timer_t := set_ucStatus (ucStatus x .& wrapu 8 (.~ b)) x.
Definition has_status (b : Z) (x : Timer_t) : bool := negb (ucStatus x .& b =? 0).

(** The call of a callback. *)
Definition call_back (c : callback) : TM unit := tmodify (fun s => set_t_calls (t_calls s ++ [c]) s).

Definition timer_callback (t : nat) : TM unit :=
  x ← get_timer t; call_back (TimerCallback (pxCallbackFunction x) t).

(** Whether the timer has to be processed now. *)
Definition prvInsertTimerInActiveList (t : nat) (xNextExpiryTime xTimeNow xCommandTime : Z) : TM bool :=
  timer_lists (listSET_LIST_ITEM_VALUE t xNextExpiryTime);;
  timer_lists (listSET_LIST_ITEM_OWNER t t);;
  x ← get_timer t;
  if xNextExpiryTime <=? xTimeNow then
    if xTimerPeriodInTicks x <=? u32 (xTimeNow - xCommandTime) then mret true
    else
      l ← tgets pxOverflowTimerList;
      timer_lists (vListInsert l t);;
      mret false
  else if (xTimeNow <? xCommandTime) && (xCommandTime <=? xNextExpiryTime) then mret true
  else
    l ← tgets pxCurrentTimerList;
    timer_lists (vListInsert l t);;
    mret false.

(** The loop of [prvReloadTimer]; the time it catches up with is less than a turn
    of the tick counter. *)
Fixpoint reload_loop (fuel : nat) (t : nat) (xExpiredTime xTimeNow : Z) : TM unit :=
  x ← get_timer t;
  b ← prvInsertTimerInActiveList t (u32 (xExpiredTime + xTimerPeriodInTicks x)) xTimeNow xExpiredTime;
  if b : bool then
    match fuel with
    | O => tfault OutOfFuel
    | S fuel =>
        x ← get_timer t;
        timer_callback t;;
        reload_loop fuel t (u32 (xExpiredTime + xTimerPeriodInTicks x)) xTimeNow
    end
  else mret tt.

Definition prvReloadTimer (t : nat) (xExpiredTime xTimeNow : Z) : TM unit :=
  x ← get_timer t;
  reload_loop (Z.to_nat (u32 (xTimeNow - xExpiredTime) / xTimerPeriodInTicks x)) t xExpiredTime xTimeNow.

(** The end of both ways a timer expires. *)
Definition expire_timer (t : nat) (xExpiredTime xTimeNow : Z) : TM unit :=
  x ← get_timer t;
  (if has_status tmrSTATUS_IS_AUTORELOAD x then prvReloadTimer t xExpiredTime xTimeNow
   else put_timer t (clear_status tmrSTATUS_IS_ACTIVE x));;
  timer_callback t.

Definition prvProcessExpiredTimer (xNextExpireTime xTimeNow : Z) : TM unit :=
  l ← tgets pxCurrentTimerList;
  t ← ask_timer_lists (listGET_OWNER_OF_HEAD_ENTRY l);
  timer_lists (fun h => '(_, h) ← uxListRemove t h; Ok h);;
  expire_timer t xNextExpireTime xTimeNow.

(** The loop of [prvSwitchTimerLists]: each round takes a timer from the list. *)
Fixpoint switch_loop (fuel : nat) : TM unit :=
  l ← tgets pxCurrentTimerList;
  e ← ask_timer_lists (listLIST_IS_EMPTY l);
  if e : bool then mret tt
  else
    match fuel with
    | O => tfault OutOfFuel
    | S fuel =>
        xNextExpireTime ← ask_timer_lists (listGET_ITEM_VALUE_OF_HEAD_ENTRY l);
        prvProcessExpiredTimer xNextExpireTime tmrMAX_TIME_BEFORE_OVERFLOW;;
        switch_loop fuel
    end.

Definition prvSwitchTimerLists : TM unit :=
  l ← tgets pxCurrentTimerList;
  n ← ask_timer_lists (listCURRENT_LIST_LENGTH l);
  switch_loop (Z.to_nat n);;
  tmodify (fun s => set_pxOverflowTimerList (pxCurrentTimerList s) (set_pxCurrentTimerList (pxOverflowTimerList s) s)).

(** [prvSampleTimeNow], with the tick count it reads; whether the lists were
    switched. *)
Definition sample_time (xTimeNow : Z) : TM bool :=
  last ← tgets xLastTime;
  (if xTimeNow <? last then prvSwitchTimerLists else mret tt);;
  tmodify (set_xLastTime xTimeNow);;
  mret (xTimeNow <? last).

(** The expire time of the first timer, and whether there is none. *)
Definition prvGetNextExpireTime : TM (Z * bool) :=
  l ← tgets pxCurrentTimerList;
  e ← ask_timer_lists (listLIST_IS_EMPTY l);
  if e : bool then mret (0, true)
  else v ← ask_timer_lists (listGET_ITEM_VALUE_OF_HEAD_ENTRY l); mret (v, false).

(** ** Commands *)

(** The branches of the [switch] of [prvProcessReceivedCommands]. *)
Definition command_start (t : nat) (xMessageValue xTimeNow : Z) : TM unit :=
  x ← get_timer t;
  put_timer t (set_status tmrSTATUS_IS_ACTIVE x);;
  b ← prvInsertTimerInActiveList t (u32 (xMessageValue + xTimerPeriodInTicks x)) xTimeNow xMessageValue;
  if b : bool then expire_timer t (u32 (xMessageValue + xTimerPeriodInTicks x)) xTimeNow else mret tt.

Definition command_stop (t : nat) : TM unit :=
  x ← get_timer t; put_timer t (clear_status tmrSTATUS_IS_ACTIVE x).

Definition command_change_period (t : nat) (xMessageValue xTimeNow : Z) : TM unit :=
  x ← get_timer t;
  put_timer t (set_xTimerPeriodInTicks xMessageValue (set_status tmrSTATUS_IS_ACTIVE x));;
  (if 0 <? xMessageValue then mret tt else tfault AssertFailed);;
  prvInsertTimerInActiveList t (u32 (xTimeNow + xMessageValue)) xTimeNow xTimeNow;;
  mret tt.

(** The timer leaves the list it is in. *)
Definition leave_timer_list (t : nat) : TM unit :=
  c ← ask_timer_lists (listLIST_ITEM_CONTAINER t);
  match c with
  | Some _ => timer_lists (fun h => '(_, h) ← uxListRemove t h; Ok h)
  | None => mret tt
  end.

Definition timers {A} (m : TM A) : KM A :=
  fun k => match m (o_timers (k_objects k)) with
           | Ok (a, s) => Ok (a, set_k_objects (set_o_timers s (k_objects k)) k)
           | Fault e => Fault e
           end.

Definition prvSampleTimeNow : KM (Z * bool) :=
  xTimeNow ← xTaskGetTickCount;
  b ← timers (sample_time xTimeNow);
  mret (xTimeNow, b).

(** [DaemonTaskMessage_t]: the union is three words, of which a command on a timer
    uses the value and the timer, a pended call the function and its parameters. *)
Record DaemonTaskMessage_t : Set := mkMessage { xMessageID : Z; m_word1 : Z; m_word2 : Z; m_word3 : Z }.

Definition word_bytes (v : Z) : list Z := [u8 v; u8 (v .>> 8); u8 (v .>> 16); u8 (v .>> 24)].

Definition bytes_word (b : list Z) : Z :=
  match b with
  | [b0; b1; b2; b3] => b0 .| (b1 .<< 8) .| (b2 .<< 16) .| (b3 .<< 24)
  | _ => 0
  end.

Definition message_bytes (m : DaemonTaskMessage_t) : list Z :=
  word_bytes (u32 (xMessageID m)) ++ word_bytes (m_word1 m) ++ word_bytes (m_word2 m) ++ word_bytes (m_word3 m).

Definition bytes_message (b : list Z) : DaemonTaskMessage_t :=
  mkMessage (s32 (bytes_word (take 4 b))) (bytes_word (take 4 (drop 4 b))) (bytes_word (take 4 (drop 8 b)))
    (bytes_word (take 4 (drop 12 b))).

(** One turn of the loop of [prvProcessReceivedCommands]. *)
Definition process_timer_command (id value : Z) (t : nat) : KM unit :=
  timers (leave_timer_list t);;
  '(xTimeNow, _) ← prvSampleTimeNow;
  if bool_decide (id ∈ [tmrCOMMAND_START; tmrCOMMAND_START_FROM_ISR; tmrCOMMAND_RESET; tmrCOMMAND_RESET_FROM_ISR]) then
    timers (command_start t value xTimeNow)
  else if bool_decide (id ∈ [tmrCOMMAND_STOP; tmrCOMMAND_STOP_FROM_ISR]) then timers (command_stop t)
  else if bool_decide (id ∈ [tmrCOMMAND_CHANGE_PERIOD; tmrCOMMAND_CHANGE_PERIOD_FROM_ISR]) then
    timers (command_change_period t value xTimeNow)
  else if id =? tmrCOMMAND_DELETE then
    x ← timers (get_timer t);
    (if has_status tmrSTATUS_IS_STATICALLY_ALLOCATED x then timers (command_stop t) else free (Z.of_nat t))
  else mret tt.

Definition process_message (m : DaemonTaskMessage_t) : KM unit :=
  if xMessageID m <? 0 then timers (call_back (PendedCallback (Z.to_nat (m_word1 m)) (m_word2 m) (m_word3 m)))
  else process_timer_command (xMessageID m) (m_word1 m) (Z.to_nat (m_word2 m)).

(** The loop ends when the queue is empty. *)
Fixpoint command_loop (fuel : nat) (q : nat) : KM unit :=
  '(r, data) ← call_now OpReceive q;
  if r =? pdFAIL then mret tt
  else
    match fuel with
    | O => fault OutOfFuel
    | S fuel => process_message (bytes_message data);; command_loop fuel q
    end.

Definition timer_queue : KM nat := s ← get_timers; lift (deref (xTimerQueue s)).

Definition prvProcessReceivedCommands : KM unit :=
  q ← timer_queue;
  x ← get_queue q;
  command_loop (Z.to_nat (uxMessagesWaiting x)) q.

(** ** The timer task *)

Definition prvProcessTimerOrBlockTask (xNextExpireTime : Z) (xListWasEmpty : bool) : KM unit :=
  vTaskSuspendAll;;
  '(xTimeNow, switched) ← prvSampleTimeNow;
  if switched : bool then xTaskResumeAll;; mret tt
  else if negb xListWasEmpty && (xNextExpireTime <=? xTimeNow) then
    xTaskResumeAll;;
    timers (prvProcessExpiredTimer xNextExpireTime xTimeNow)
  else
    xListWasEmpty ←
      (if xListWasEmpty then l ← timers (tgets pxOverflowTimerList); timers (ask_timer_lists (listLIST_IS_EMPTY l))
       else mret false);
    q ← timer_queue;
    vQueueWaitForMessageRestricted q (u32 (xNextExpireTime - xTimeNow)) xListWasEmpty;;
    b ← xTaskResumeAll;
    when (negb b) portYIELD_WITHIN_API.

(** The first two calls of the loop of [prvTimerTask]; the third is
    [prvProcessReceivedCommands], and between the two the task may block. *)
Definition timer_task_pass : KM unit :=
  '(xNextExpireTime, xListWasEmpty) ← timers prvGetNextExpireTime;
  prvProcessTimerOrBlockTask xNextExpireTime xListWasEmpty.

(** ** The calls of the other tasks *)

(** A command with no block time, from a task or, with the later commands, from an
    interrupt.  [rest] is what the stack holds in the part of the union that a
    command on a timer does not set. *)
Definition command_message (t : nat) (xCommandID xOptionalValue rest : Z) : list Z :=
  message_bytes (mkMessage xCommandID xOptionalValue (Z.of_nat t) rest).

Definition xTimerGenericCommand (t : nat) (xCommandID xOptionalValue rest : Z) (woken : bool) : KM (Z * bool) :=
  configASSERT (negb (t =? 0)%nat);;
  s ← get_timers;
  match xTimerQueue s with
  | None => mret (pdFAIL, woken)
  | Some q =>
      let item := Some (command_message t xCommandID xOptionalValue rest) in
      if xCommandID <? tmrFIRST_FROM_ISR_COMMAND then r ← send_now q item queueSEND_TO_BACK; mret (r, woken)
      else xQueueGenericSendFromISR q item woken queueSEND_TO_BACK
  end.

(** A command of a task that may block: the call of [xQueueGenericSend] it enters;
    the scheduler must run for it to wait. *)
Definition command_enter (t : nat) (xCommandID xOptionalValue rest xTicksToWait : Z) : KM (option (nat * queue_op * wait_state)) :=
  configASSERT (negb (t =? 0)%nat);;
  s ← get_timers;
  match xTimerQueue s with
  | None => mret None
  | Some q =>
      let op := OpSend (Some (command_message t xCommandID xOptionalValue rest)) queueSEND_TO_BACK in
      st ← xTaskGetSchedulerState;
      w ← op_start op q true (if st =? taskSCHEDULER_RUNNING then xTicksToWait else 0);
      mret (Some (q, op, w))
  end.

Definition xTimerStart (t : nat) (rest : Z) : KM (Z * bool) :=
  now ← xTaskGetTickCount; xTimerGenericCommand t tmrCOMMAND_START now rest false.
Definition xTimerReset (t : nat) (rest : Z) : KM (Z * bool) :=
  now ← xTaskGetTickCount; xTimerGenericCommand t tmrCOMMAND_RESET now rest false.
Definition xTimerStop (t : nat) (rest : Z) : KM (Z * bool) := xTimerGenericCommand t tmrCOMMAND_STOP 0 rest false.
Definition xTimerChangePeriod (t : nat) (xNewPeriod rest : Z) : KM (Z * bool) :=
  xTimerGenericCommand t tmrCOMMAND_CHANGE_PERIOD xNewPeriod rest false.
Definition xTimerDelete (t : nat) (rest : Z) : KM (Z * bool) := xTimerGenericCommand t tmrCOMMAND_DELETE 0 rest false.

Definition xTimerPendFunctionCall (f : nat) (pvParameter1 ulParameter2 : Z) : KM Z :=
  s ← get_timers;
  configASSERT (bool_decide (is_Some (xTimerQueue s)));;
  q ← timer_queue;
  send_now q (Some (message_bytes (mkMessage tmrCOMMAND_EXECUTE_CALLBACK (Z.of_nat f) pvParameter1 ulParameter2))) queueSEND_TO_BACK.

Definition xTimerPendFunctionCallFromISR (f : nat) (pvParameter1 ulParameter2 : Z) (woken : bool) : KM (Z * bool) :=
  q ← timer_queue;
  xQueueGenericSendFromISR q
    (Some (message_bytes (mkMessage tmrCOMMAND_EXECUTE_CALLBACK_FROM_ISR (Z.of_nat f) pvParameter1 ulParameter2))) woken
    queueSEND_TO_BACK.

(** Reading and setting the fields of a timer. *)
Definition ask_timer {A} (t : nat) (f : Timer_t -> A) : KM A :=
  configASSERT (negb (t =? 0)%nat);; timers (x ← get_timer t; mret (f x)).
Definition set_timer (t : nat) (f : Timer_t -> Timer_t) : KM unit :=
  configASSERT (negb (t =? 0)%nat);; timers (x ← get_timer t; put_timer t (f x)).

Definition xTimerGetTimerDaemonTaskHandle : KM nat :=
  s ← get_timers; configASSERT (bool_decide (is_Some (xTimerTaskHandle s)));; lift (deref (xTimerTaskHandle s)).
Definition xTimerGetPeriod (t : nat) : KM Z := ask_timer t xTimerPeriodInTicks.
Definition vTimerSetReloadMode (t : nat) (xAutoReload : bool) : KM unit :=
  set_timer t (if xAutoReload then set_status tmrSTATUS_IS_AUTORELOAD else clear_status tmrSTATUS_IS_AUTORELOAD).
Definition xTimerGetReloadMode (t : nat) : KM bool := ask_timer t (has_status tmrSTATUS_IS_AUTORELOAD).
Definition xTimerGetExpiryTime (t : nat) : KM Z :=
  configASSERT (negb (t =? 0)%nat);; timers (ask_timer_lists (listGET_LIST_ITEM_VALUE t)).
Definition pcTimerGetName (t : nat) : KM (option (list Z)) := ask_timer t pcTimerName.
Definition xTimerIsTimerActive (t : nat) : KM bool := ask_timer t (has_status tmrSTATUS_IS_ACTIVE).
Definition pvTimerGetTimerID (t : nat) : KM Z := ask_timer t pvTimerID.
Definition vTimerSetTimerID (t : nat) (pvNewID : Z) : KM unit := set_timer t (set_pvTimerID pvNewID).
Definition uxTimerGetTimerNumber (t : nat) : KM Z := timers (x ← get_timer t; mret (uxTimerNumber x)).
Definition vTimerSetTimerNumber (t : nat) (n : Z) : KM unit := timers (x ← get_timer t; put_timer t (set_uxTimerNumber n x)).
