(* ===== verification/FreeRTOSTimersTheory.v ===== *)
(** * The timer service in absolute time

    The tick counter wraps; the two lists of active timers hold the expire times
    before and after the next turn.  Here time does not wrap: [deadline] is the
    absolute time at which a timer expires, and the functions on the lists are
    shown to be exact in it: a timer is put in the list its deadline belongs to or
    processed at once, every expiry leads to one call of the callback, and the
    next deadline of an auto-reload timer is one period after the last. *)

From S2P Require Import Prelude FreeRTOSList FreeRTOSListTheory FreeRTOSListStore FreeRTOSObjects FreeRTOSTasks.
From S2P Require Import FreeRTOSQueue FreeRTOSTimers.

(** The turns of the tick counter. *)
Definition turn : Z := 2 ^ 32.

(** ** The rules of the monad *)

Definition twp {A} (m : TM A) (Q : A -> timer_state -> Prop) (s : timer_state) : Prop :=
  exists a s', m s = Ok (a, s') /\ Q a s'.

Lemma twp_mono {A} (m : TM A) (P Q : A -> timer_state -> Prop) s :
  twp m P s -> (forall a s', P a s' -> Q a s') -> twp m Q s.
Proof. intros (a & s' & E & H) HPQ. exists a, s'. auto. Qed.

Lemma twp_ret {A} (a : A) (Q : A -> timer_state -> Prop) s : Q a s -> twp (mret a) Q s.
Proof. intros H. by exists a, s. Qed.

Lemma twp_bind {A B} (m : TM A) (f : A -> TM B) (Q : B -> timer_state -> Prop) s :
  twp m (fun a s' => twp (f a) Q s') s -> twp (m ≫= f) Q s.
Proof. intros (a & s' & E & b & s'' & E' & H). exists b, s''. split; [|done]. unfold mbind, TM_bind. by rewrite E. Qed.

Lemma twp_gets {A} (f : timer_state -> A) (Q : A -> timer_state -> Prop) s : Q (f s) s -> twp (tgets f) Q s.
Proof. intros H. by exists (f s), s. Qed.

Lemma twp_modify f (Q : unit -> timer_state -> Prop) s : Q tt (f s) -> twp (tmodify f) Q s.
Proof. intros H. by exists tt, (f s). Qed.

Lemma twp_lists f h' (Q : unit -> timer_state -> Prop) s :
  f (t_lists s) = Ok h' -> Q tt (set_t_lists h' s) -> twp (timer_lists f) Q s.
Proof. intros E H. exists tt, (set_t_lists h' s). unfold timer_lists. by rewrite E. Qed.

Lemma twp_ask {A} (f : list_heap -> res A) a (Q : A -> timer_state -> Prop) s :
  f (t_lists s) = Ok a -> Q a s -> twp (ask_timer_lists f) Q s.
Proof. intros E H. exists a, s. unfold ask_timer_lists. by rewrite E. Qed.

Lemma twp_get t x (Q : Timer_t -> timer_state -> Prop) s : t_timers s !! t = Some x -> Q x s -> twp (get_timer t) Q s.
Proof. intros E H. exists x, s. unfold get_timer. by rewrite E. Qed.

(** One step of a function. *)
Ltac twp_step :=
  lazymatch goal with
  | |- twp (mbind _ _) _ _ => apply twp_bind
  | |- twp (mret _) _ _ => apply twp_ret
  | |- twp (tgets _) _ _ => apply twp_gets
  | |- twp (tmodify _) _ _ => apply twp_modify
  end.
Ltac twps := repeat (twp_step; cbv beta).

(** ** Status bits *)

Lemma status_testbit n x : 0 <= n -> has_status (2 ^ n) x = Z.testbit (ucStatus x) n.
Proof.
  intros Hn. unfold has_status. destruct (Z.testbit (ucStatus x) n) eqn:E.
  - apply negb_true_iff, Z.eqb_neq. intros H0. assert (Z.testbit (ucStatus x .& 2 ^ n) n = true) as H.
    { by rewrite Z.land_spec, E, Z.pow2_bits_true. }
    by rewrite H0, Z.bits_0 in H.
  - apply negb_false_iff, Z.eqb_eq, Z.bits_inj'. intros i Hi. rewrite Z.land_spec, Z.bits_0.
    destruct (decide (i = n)) as [->|Hne]; [by rewrite E|]. rewrite Z.pow2_bits_false by done. apply andb_false_r.
Qed.

Definition active (x : Timer_t) : bool := has_status tmrSTATUS_IS_ACTIVE x.
Definition autoreload (x : Timer_t) : bool := has_status tmrSTATUS_IS_AUTORELOAD x.
Definition static_memory (x : Timer_t) : bool := has_status tmrSTATUS_IS_STATICALLY_ALLOCATED x.

Lemma active_testbit x : active x = Z.testbit (ucStatus x) 0.
Proof. apply (status_testbit 0). lia. Qed.

Lemma autoreload_testbit x : autoreload x = Z.testbit (ucStatus x) 2.
Proof. apply (status_testbit 2). lia. Qed.

Lemma static_testbit x : static_memory x = Z.testbit (ucStatus x) 1.
Proof. apply (status_testbit 1). lia. Qed.

(** What the service leaves alone: everything but the active bit. *)
Record same_timer (x y : Timer_t) : Prop := {
  sm_period : xTimerPeriodInTicks y = xTimerPeriodInTicks x;
  sm_callback : pxCallbackFunction y = pxCallbackFunction x;
  sm_auto : autoreload y = autoreload x;
  sm_id : pvTimerID y = pvTimerID x;
  sm_static : static_memory y = static_memory x;
}.

Lemma same_timer_refl x : same_timer x x.
Proof. done. Qed.

Lemma same_timer_trans x y z : same_timer x y -> same_timer y z -> same_timer x z.
Proof. intros [] []. split; congruence. Qed.

Lemma clear_active x : active (clear_status tmrSTATUS_IS_ACTIVE x) = false /\ same_timer x (clear_status tmrSTATUS_IS_ACTIVE x).
Proof.
  split; [|split; try done]; rewrite ?active_testbit, ?autoreload_testbit, ?static_testbit; unfold clear_status; cbn [ucStatus set_ucStatus];
    rewrite Z.land_spec.
  - by rewrite andb_false_r.
  - by rewrite andb_true_r.
  - by rewrite andb_true_r.
Qed.

Lemma set_active x : active (set_status tmrSTATUS_IS_ACTIVE x) = true /\ same_timer x (set_status tmrSTATUS_IS_ACTIVE x).
Proof.
  split; [|split; try done]; rewrite ?active_testbit, ?autoreload_testbit, ?static_testbit; unfold set_status; cbn [ucStatus set_ucStatus];
    rewrite Z.lor_spec.
  - by rewrite orb_true_r.
  - by rewrite orb_false_r.
  - by rewrite orb_false_r.
Qed.

(** ** Where a deadline belongs *)

(** The test of [prvInsertTimerInActiveList] is exact: at the absolute time [N],
    with a reference [C] less than a turn ago. *)
Lemma expiry_test N C P :
  0 <= C <= N -> N < C + turn -> 0 < P < turn ->
  (if u32 (C + P) <=? u32 N then P <=? u32 (u32 N - u32 C) else (u32 N <? u32 C) && (u32 C <=? u32 (C + P))) = (C + P <=? N).
Proof.
  intros HC HN HP. unfold turn, wrapu in *. change (2 ^ 32) with 4294967296 in *.
  destruct (Z.leb_spec ((C + P) mod 4294967296) (N mod 4294967296)); apply eq_bool_prop_intro;
    rewrite ?andb_True, !Is_true_true, ?Z.leb_le, ?Z.ltb_lt; Z.to_euclidean_division_equations; lia.
Qed.

Lemma expiry_turn N C P :
  0 <= C <= N -> N < C + turn -> 0 < P < turn -> N < C + P ->
  C + P = (if u32 (C + P) <=? u32 N then N / turn + 1 else N / turn) * turn + u32 (C + P).
Proof.
  intros HC HN HP HD. unfold turn, wrapu in *. change (2 ^ 32) with 4294967296 in *.
  destruct (Z.leb_spec ((C + P) mod 4294967296) (N mod 4294967296)); Z.to_euclidean_division_equations; lia.
Qed.

(** ** The invariant *)

Section Invariant.
Context (o : nat -> Prop) (s : timer_state) (L : store).

(** The timers [o] are being processed: they are in no list. *)
Record timers_ok : Prop := {
  to_stored : stored (t_lists s) L;
  to_current : is_Some (L !! pxCurrentTimerList s);
  to_overflow : is_Some (L !! pxOverflowTimerList s);
  to_differ : pxCurrentTimerList s <> pxOverflowTimerList s;
  to_lists l i : i ∈ members L l -> l = pxCurrentTimerList s \/ l = pxOverflowTimerList s;
  to_sorted l : sorted (fun j => value (t_lists s) (Item j)) (members L l);
  to_timer t x : t_timers s !! t = Some x -> present (t_lists s) (Item t) /\ 0 < xTimerPeriodInTicks x < turn;
  to_member t l : t ∈ members L l -> owner (t_lists s) (Item t) = Some t /\ is_Some (t_timers s !! t);
  to_active t x : ~ o t -> t_timers s !! t = Some x -> (active x = true <-> exists l, t ∈ members L l);
  to_out t l : o t -> t ∉ members L l;
}.

End Invariant.

Definition no_timer (u : nat) : Prop := False.
Definition also (t : nat) (o : nat -> Prop) (u : nat) : Prop := u = t \/ o u.

(** The absolute time at which a timer expires, in the turn [e] of the counter. *)
Definition deadline (e : Z) (s : timer_state) (t : nat) : option Z :=
  match container (t_lists s) (Item t) with
  | Some l => Some ((if (l =? pxCurrentTimerList s)%nat then e else e + 1) * turn + value (t_lists s) (Item t))
  | None => None
  end.

Lemma container_ext h h' L L' i :
  stored h L -> stored h' L' -> (forall l, i ∈ members L' l <-> i ∈ members L l) -> container h' (Item i) = container h (Item i).
Proof.
  intros S S' H. destruct (container h' (Item i)) as [l|] eqn:E'.
  - apply (st_member _ _ S'), H, (st_member _ _ S) in E'. by rewrite E'.
  - destruct (container h (Item i)) as [l|] eqn:E; [|done]. apply (st_member _ _ S), H, (st_member _ _ S') in E. congruence.
Qed.

Lemma deadline_ext e s s' u :
  pxCurrentTimerList s' = pxCurrentTimerList s -> container (t_lists s') (Item u) = container (t_lists s) (Item u) ->
  value (t_lists s') (Item u) = value (t_lists s) (Item u) -> deadline e s' u = deadline e s u.
Proof. intros H1 H2 H3. unfold deadline. by rewrite H1, H2, H3. Qed.

Lemma deadline_none o e s L t : timers_ok o s L -> (forall l, t ∉ members L l) -> deadline e s t = None.
Proof. intros H Hn. unfold deadline. by rewrite (proj2 (st_free _ _ (to_stored _ _ _ H) t) Hn). Qed.

Lemma deadline_in o e s L t l :
  timers_ok o s L -> t ∈ members L l ->
  deadline e s t = Some ((if (l =? pxCurrentTimerList s)%nat then e else e + 1) * turn + value (t_lists s) (Item t)).
Proof. intros H Hin. unfold deadline. by rewrite (proj1 (st_member _ _ (to_stored _ _ _ H) t l) Hin). Qed.

(** What the work on the timer [t] leaves alone. *)
Record timer_frame (e : Z) (t : nat) (s s' : timer_state) : Prop := {
  tf_current : pxCurrentTimerList s' = pxCurrentTimerList s;
  tf_overflow : pxOverflowTimerList s' = pxOverflowTimerList s;
  tf_queue : xTimerQueue s' = xTimerQueue s;
  tf_task : xTimerTaskHandle s' = xTimerTaskHandle s;
  tf_last : xLastTime s' = xLastTime s;
  tf_timers u : u <> t -> t_timers s' !! u = t_timers s !! u;
  tf_deadline u : u <> t -> deadline e s' u = deadline e s u;
}.

Lemma timer_frame_refl e t s : timer_frame e t s s.
Proof. done. Qed.

Lemma timer_frame_trans e t s1 s2 s3 : timer_frame e t s1 s2 -> timer_frame e t s2 s3 -> timer_frame e t s1 s3.
Proof.
  intros [] []. split; try congruence; intros u Hu.
  - by rewrite tf_timers1, tf_timers0.
  - by rewrite tf_deadline1, tf_deadline0.
Qed.

(** ** Inserting a timer *)

Lemma st_set_owner h L i t :
  stored h L -> present h (Item i) ->
  exists h', listSET_LIST_ITEM_OWNER i t h = Ok h' /\ stored h' L /\
    (forall x, present h' x <-> present h x) /\ (forall x, value h' x = value h x) /\
    (forall x, owner h' x = upd (owner h) (Item i) (Some t) x).
Proof.
  intros S [x E]. unfold listSET_LIST_ITEM_OWNER, get_item. rewrite E. eexists. split; [reflexivity|].
  set (h' := put_item _ _ _).
  assert (forall y, y <> Item i -> items h' !! y = items h !! y) as Hne
    by (intros; cbn; by rewrite lookup_insert_ne by congruence).
  assert (items h' !! Item i = Some (mkItem (xItemValue x) (pxNext x) (pxPrevious x) (Some t) (pxContainer x))) as Heq
    by (cbn; by rewrite lookup_insert_eq).
  assert (forall y, present h' y <-> present h y) as Hp.
  { intros y. unfold present. destruct (decide (y = Item i)) as [->|]; [rewrite Heq, E; by split; eauto|by rewrite Hne]. }
  assert (forall y, value h' y = value h y) as Hv.
  { intros y. unfold value. destruct (decide (y = Item i)) as [->|]; [by rewrite Heq, E|by rewrite Hne]. }
  split; [|split; [done|split; [done|]]].
  - apply (st_same_links h L S).
    + split; [| | |by intros y; rewrite Hp|done]; intros y; unfold nx, pv, container;
        (destruct (decide (y = Item i)) as [->|]; [by rewrite Heq, E|by rewrite Hne]).
    + intros j _ Hj. by rewrite Hv.
    + intros l. by rewrite Hv.
    + rewrite (present_size h h' Hp). apply S.
  - intros y. unfold owner, upd. destruct (decide (y = Item i)) as [->|]; [by rewrite Heq|by rewrite Hne].
Qed.

(** Setting the value and the owner of the item of a timer in no list. *)
Lemma twp_prepare {A o} t v x s L (m : TM A) (Q : A -> timer_state -> Prop) :
  timers_ok (also t o) s L -> t_timers s !! t = Some x ->
  (forall h, let s' := set_t_lists h s in timers_ok (also t o) s' L -> value h (Item t) = u32 v -> owner h (Item t) = Some t ->
     (forall e, timer_frame e t s s') -> twp m Q s') ->
  twp (timer_lists (listSET_LIST_ITEM_VALUE t v);; timer_lists (listSET_LIST_ITEM_OWNER t t);; m) Q s.
Proof.
  intros H Hx HQ. pose proof H as [S Hc Ho Hd Hl Hs Ht Hm Ha Hout]. destruct (Ht t x Hx) as [Hp _]. twp_step.
  destruct (st_set_value _ _ S t v Hp) as (h1 & E1 & S1 & P1 & O1 & V1). eapply twp_lists; [exact E1|]. twp_step.
  destruct (st_set_owner h1 L t t S1 (proj2 (P1 _) Hp)) as (h2 & E2 & S2 & P2 & V2 & O2). eapply twp_lists; [exact E2|].
  assert (forall u, u <> t -> value h2 (Item u) = value (t_lists s) (Item u)) as HV.
  { intros u Hu. rewrite V2, V1. apply upd_ne. congruence. }
  assert (forall u l, u ∈ members L l -> u <> t) as Hne by (intros u l Hu ->; exact (Hout t l (or_introl eq_refl) Hu)).
  apply HQ; cbn; [|by rewrite V2, V1, upd_eq|by rewrite O2, upd_eq|].
  - split; cbn; try done.
    + intros l. eapply sorted_ext; [|apply Hs]. cbn. intros j Hj. apply HV. by eapply Hne.
    + intros u y Hu. destruct (Ht u y Hu) as [Hpu Hper]. by rewrite P2, P1.
    + intros u l Hu. destruct (Hm u l Hu) as [Hou Htu]. split; [|done]. rewrite O2, upd_ne, O1; [done|].
      intros [= ->]. by apply (Hne t l).
  - intros e. split; cbn; try done. intros u Hu. apply deadline_ext; cbn; [done| |by apply HV].
    by apply (container_ext _ _ L L).
Qed.

Lemma twp_list_insert {o} t x l s L (Q : unit -> timer_state -> Prop) :
  timers_ok (also t o) s L -> ~ o t -> t_timers s !! t = Some x -> active x = true -> owner (t_lists s) (Item t) = Some t ->
  in_range 32 (value (t_lists s) (Item t)) -> l = pxCurrentTimerList s \/ l = pxOverflowTimerList s ->
  (forall h L', let s' := set_t_lists h s in timers_ok o s' L' -> t ∈ members L' l -> value h (Item t) = value (t_lists s) (Item t) ->
     (forall e, timer_frame e t s s') -> Q tt s') ->
  twp (timer_lists (vListInsert l t)) Q s.
Proof.
  intros H Hot Hx Hact Hown Hv Hll HQ. pose proof H as [S Hc Ho Hd Hl Hs Ht Hm Ha Hout].
  destruct (Ht t x Hx) as [Hp _]. assert (forall l', t ∉ members L l') as Hno by (intros; apply Hout; by left).
  assert (is_Some (L !! l)) as [ns El] by (destruct Hll as [-> | ->]; done).
  destruct (st_insert _ _ S l ns t El Hno Hp Hv) as (h & E & S' & [HP HV HO]). eapply twp_lists; [exact E|].
  set (val := fun j => value (t_lists s) (Item j)) in *. set (L' := <[l := insert_sorted val t ns]> L) in *.
  assert (forall u l', u ∈ members L' l' <-> (u = t /\ l' = l) \/ u ∈ members L l') as HM.
  { intros u l'. unfold L'. destruct (decide (l' = l)) as [->|Hne].
    - rewrite members_insert_eq, insert_sorted_elem, (members_lookup _ _ _ El).
      split; [intros [->|?]; auto|intros [[-> _]|?]; auto].
    - rewrite members_insert_ne by done. split; [by right|by intros [[_ ?]|?]]. }
  apply (HQ h L'); [|apply HM; by left|apply HV|].
  - split; cbn; try done.
    + unfold L'. rewrite lookup_insert_is_Some. destruct (decide (l = pxCurrentTimerList s)); [by left|by right].
    + unfold L'. rewrite lookup_insert_is_Some. destruct (decide (l = pxOverflowTimerList s)); [by left|by right].
    + intros l' i [[-> ->]|Hi]%HM; [done|by eapply Hl].
    + intros l'. eapply sorted_ext; [intros j _; apply HV|]. unfold L'. destruct (decide (l' = l)) as [->|Hne].
      * rewrite members_insert_eq. apply insert_sorted_sorted. rewrite <- (members_lookup _ _ _ El). apply Hs.
      * rewrite members_insert_ne by done. apply Hs.
    + intros u y Hu. rewrite HP. by apply Ht.
    + intros u l' [[-> ->]|Hi]%HM; rewrite HO; [by eauto|by eapply Hm].
    + intros u y Hou Hu. destruct (decide (u = t)) as [->|Hne].
      * rewrite Hx in Hu. injection Hu as <-. split; [|done]. intros _. exists l. apply HM. by left.
      * rewrite (Ha u y) by (try intros [?|?]; done). setoid_rewrite HM.
        split; intros [l' Hl']; exists l'; [by right|by destruct Hl' as [[? _]|?]].
    + intros u l' Hu [[-> _]|Hi]%HM; [done|]. exact (Hout u l' (or_intror Hu) Hi).
  - intros e. split; cbn; try done. intros u Hu. apply deadline_ext; cbn; [done| |apply HV].
    apply (container_ext _ _ L L'); [done|done|]. intros l'. rewrite HM. split; [by intros [[? _]|?]|by right].
Qed.

(** The timer is inserted where its deadline belongs, or it has expired. *)
Lemma twp_insert {o} t x N C s L (Q : bool -> timer_state -> Prop) :
  timers_ok (also t o) s L -> ~ o t -> t_timers s !! t = Some x -> active x = true -> 0 <= C <= N -> N < C + turn ->
  let D := C + xTimerPeriodInTicks x in
  (forall s', t_timers s' = t_timers s -> t_calls s' = t_calls s -> (forall e, timer_frame e t s s') ->
     (if D <=? N then exists L', timers_ok (also t o) s' L'
      else exists L', timers_ok o s' L' /\ deadline (N / turn) s' t = Some D) -> Q (D <=? N) s') ->
  twp (prvInsertTimerInActiveList t (u32 D) (u32 N) (u32 C)) Q s.
Proof.
  intros H Hot Hx Hact HC HN D HQ. destruct (to_timer _ _ _ H t x Hx) as [_ HP].
  pose proof (expiry_test N C _ HC HN HP) as HT. fold D in HT.
  unfold prvInsertTimerInActiveList. apply (twp_prepare t (u32 D) x s L _ _ H Hx). intros h s1 H1 Hv1 Ho1 HF1.
  rewrite wrapu_idem in Hv1. assert (in_range 32 (value h (Item t))) as Hr by (rewrite Hv1; apply in_range_wrapu; lia).
  twp_step. apply (twp_get t x); [done|]. destruct (D <=? N) eqn:Hdn.
  { assert (Q true s1) as HQ1 by (apply HQ; [done|done|done|by eauto]).
    destruct (u32 D <=? u32 N); rewrite HT; by apply twp_ret. }
  assert (D = (if u32 D <=? u32 N then N / turn + 1 else N / turn) * turn + u32 D) as HD by (apply expiry_turn; lia).
  destruct (u32 D <=? u32 N) eqn:Hw; rewrite HT; do 2 (twp_step; cbv beta); (apply twp_bind;
    eapply (twp_list_insert t x _ s1 L); [done|done|done|done|done|done|by auto|]);
    intros h2 L' s2 H2 Hin Hv2 HF2; twp_step; (apply HQ; [done|done|by intros e; eapply timer_frame_trans|]);
    exists L'; (split; [done|]); rewrite (deadline_in _ _ _ L' t _ H2 Hin); cbn; cbn in Hv2; rewrite Hv2, Hv1.
  - rewrite (proj2 (Nat.eqb_neq _ _)); [by rewrite <- HD|]. intros E. by apply (to_differ _ _ _ H1).
  - by rewrite Nat.eqb_refl, <- HD.
Qed.

(** ** Expiry *)

(** The callbacks of a timer that expired at [E], up to the time [N], and its next
    deadline. *)
Definition fired (N E : Z) (x : Timer_t) (n : nat) (d : option Z) : Prop :=
  (0 < n)%nat /\ E + (Z.of_nat n - 1) * xTimerPeriodInTicks x <= N /\
  if autoreload x then d = Some (E + Z.of_nat n * xTimerPeriodInTicks x) /\ N < E + Z.of_nat n * xTimerPeriodInTicks x
  else n = 1%nat /\ d = None.

Definition callbacks (n : nat) (x : Timer_t) (t : nat) : list callback := replicate n (TimerCallback (pxCallbackFunction x) t).

Section Expire.
Context (o : nat -> Prop) (t : nat) (N : Z).

(** What is left of the state by the expiry of [t] at [E]. *)
Record expired (E : Z) (x : Timer_t) (s s' : timer_state) : Prop := {
  ex_frame e : timer_frame e t s s';
  ex_ok : exists L, timers_ok o s' L;
  ex_timer : exists y, t_timers s' !! t = Some y /\ same_timer x y;
  ex_calls : exists n, t_calls s' = t_calls s ++ callbacks n x t /\ fired N E x n (deadline (N / turn) s' t);
}.

Lemma twp_reload_loop x fuel : forall E s L,
  timers_ok (also t o) s L -> ~ o t -> t_timers s !! t = Some x -> active x = true -> 0 <= E <= N -> N < E + turn ->
  fuel = Z.to_nat ((N - E) / xTimerPeriodInTicks x) ->
  twp (reload_loop fuel t (u32 E) (u32 N)) (fun _ s' =>
    t_timers s' = t_timers s /\ t_calls s' = t_calls s ++ callbacks fuel x t /\ (forall e, timer_frame e t s s') /\
    exists L', timers_ok o s' L' /\ deadline (N / turn) s' t = Some (E + (Z.of_nat fuel + 1) * xTimerPeriodInTicks x)) s.
Proof.
  induction fuel as [|fuel IH]; intros E s L H Hot Hx Hact HE HN Hf;
    destruct (to_timer _ _ _ H t x Hx) as [_ HP]; cbn [reload_loop]; twp_step; (apply (twp_get t x); [done|]);
    rewrite wrapu_add_l; twp_step; (apply (twp_insert t x N E s L _ H Hot Hx Hact HE HN)); intros s1 HT1 HC1 HF1 H1.
  - assert ((N - E) / xTimerPeriodInTicks x = 0) as H0 by (pose proof (Z.div_pos (N - E) (xTimerPeriodInTicks x)); lia).
    apply Z.div_small_iff in H0 as [H0|H0]; [|lia|lia]. destruct (Z.leb_spec (E + xTimerPeriodInTicks x) N); [lia|].
    twp_step. split; [done|]. split; [by rewrite app_nil_r|]. split; [done|]. destruct H1 as (L' & H1 & Hd).
    exists L'. split; [done|]. rewrite Hd. f_equal. lia.
  - assert ((N - E) / xTimerPeriodInTicks x = (N - (E + xTimerPeriodInTicks x)) / xTimerPeriodInTicks x + 1) as Hq.
    { rewrite <- Z.div_add by lia. f_equal. lia. }
    assert (E + xTimerPeriodInTicks x <= N) as Hle.
    { assert (1 <= (N - E) / xTimerPeriodInTicks x) as H1' by lia. pose proof (Z.mul_div_le (N - E) (xTimerPeriodInTicks x)). nia. }
    rewrite (proj2 (Z.leb_le _ _) Hle) in H1 |- *. destruct H1 as [L1 H1]. twp_step.
    apply (twp_get t x); [by rewrite HT1|]. unfold timer_callback. do 2 twp_step. apply (twp_get t x); [by rewrite HT1|].
    unfold call_back. twp_step. rewrite wrapu_add_l.
    set (s2 := set_t_calls _ s1). assert (timers_ok (also t o) s2 L1) as H2 by (by destruct H1; split).
    eapply twp_mono; [apply (IH (E + xTimerPeriodInTicks x) s2 L1 H2); [done|by cbn; rewrite HT1|done|lia|lia|lia]|].
    intros _ s3 (HT3 & HC3 & HF3 & L3 & H3 & Hd3). split; [by rewrite HT3|]. split.
    { rewrite HC3. cbn. by rewrite HC1, <- app_assoc. }
    split; [|exists L3; split; [done|]; rewrite Hd3; f_equal; lia]. intros e.
    eapply timer_frame_trans; [apply HF1|]. by destruct (HF3 e); split.
Qed.

Lemma wrap_difference E : 0 <= E <= N -> N < E + turn -> u32 (u32 N - u32 E) = N - E.
Proof. intros HE HN. unfold wrapu, turn in *. rewrite <- Zminus_mod. apply Z.mod_small. lia. Qed.

Lemma twp_timer_callback x s (Q : unit -> timer_state -> Prop) :
  t_timers s !! t = Some x -> Q tt (set_t_calls (t_calls s ++ [TimerCallback (pxCallbackFunction x) t]) s) ->
  twp (timer_callback t) Q s.
Proof. intros Hx HQ. unfold timer_callback, call_back. twp_step. apply (twp_get t x); [done|]. by twps. Qed.

(** The active bit of the timer that is processed does not matter. *)
Lemma ok_put_timer x y s L :
  timers_ok (also t o) s L -> t_timers s !! t = Some x -> 0 < xTimerPeriodInTicks y < turn ->
  timers_ok (also t o) (set_t_timers (<[t := y]> (t_timers s)) s) L.
Proof.
  intros [S Hc Ho Hd Hl Hs Ht Hm Ha Hout] Hx Hy. split; cbn; try done.
  - intros u z [[<- <-]|[_ Hu]]%lookup_insert_Some; [by destruct (Ht t x Hx)|by apply Ht].
  - intros u l Hu. destruct (Hm u l Hu) as [Ho' Hu']. split; [done|]. rewrite lookup_insert_is_Some.
    destruct (decide (t = u)); [by left|by right].
  - intros u z Hne [[<- _]|[_ Hu]]%lookup_insert_Some; [by destruct Hne; left|by apply Ha].
Qed.

(** A timer that is in no list and not active needs no exception. *)
Lemma ok_idle x s L : timers_ok (also t o) s L -> ~ o t -> t_timers s !! t = Some x -> active x = false -> timers_ok o s L.
Proof.
  intros [S Hc Ho Hd Hl Hs Ht Hm Ha Hout] Hot Hx Hact. split; try done; [|intros u l Hu; apply Hout; by right]. intros u z Hou Hu. destruct (decide (u = t)) as [->|Hne].
  - rewrite Hx in Hu. injection Hu as <-. rewrite Hact. split; [done|]. intros [l Hin]. by destruct (Hout t l (or_introl eq_refl)).
  - apply Ha; [|done]. by intros [?|?].
Qed.

Lemma ok_calls o' s L c : timers_ok o' s L -> timers_ok o' (set_t_calls c s) L.
Proof. intros []. by split. Qed.

Lemma frame_put e x s : timer_frame e t s (set_t_timers (<[t := x]> (t_timers s)) s).
Proof. split; try done. intros u Hu. cbn. by rewrite lookup_insert_ne. Qed.

Lemma frame_calls e s c : timer_frame e t s (set_t_calls c s).
Proof. done. Qed.

Lemma twp_expire x E s L :
  timers_ok (also t o) s L -> ~ o t -> t_timers s !! t = Some x -> active x = true -> 0 <= E <= N -> N < E + turn ->
  twp (expire_timer t (u32 E) (u32 N)) (fun _ s' => expired E x s s') s.
Proof.
  intros H Hot Hx Hact HE HN. destruct (to_timer _ _ _ H t x Hx) as [_ HP]. unfold expire_timer. twp_step.
  apply (twp_get t x); [done|]. fold (autoreload x). twp_step. destruct (autoreload x) eqn:Hauto.
  - unfold prvReloadTimer. twp_step. apply (twp_get t x); [done|]. rewrite wrap_difference by done.
    eapply twp_mono; [by apply (twp_reload_loop x _ E s L)|]. intros _ s1 (HT & HC & HF & L' & H' & Hd).
    apply (twp_timer_callback x); [by rewrite HT|]. pose proof (Z.div_pos (N - E) (xTimerPeriodInTicks x)) as Hq.
    set (n := Z.to_nat ((N - E) / xTimerPeriodInTicks x)) in *. split.
    + intros e. eapply timer_frame_trans; [apply HF|apply frame_calls].
    + exists L'. by apply ok_calls.
    + exists x. cbn. by rewrite HT.
    + exists (S n). unfold callbacks in *. rewrite replicate_S_end, app_assoc, <- HC. split; [done|]. unfold fired. rewrite Hauto.
      pose proof (Z.mul_div_le (N - E) (xTimerPeriodInTicks x)). pose proof (Z.mul_succ_div_gt (N - E) (xTimerPeriodInTicks x)).
      split; [lia|]. split; [nia|]. split; [|nia].
      change (deadline (N / turn) (set_t_calls _ s1) t) with (deadline (N / turn) s1 t). rewrite Hd. f_equal. lia.
  - unfold put_timer. twp_step. destruct (clear_active x) as [Hoff Hsame]. set (y := clear_status _ x) in *.
    apply (twp_timer_callback y); [apply lookup_insert_eq|]. set (s1 := set_t_timers _ s).
    assert (timers_ok (also t o) s1 L) as H1 by (apply (ok_put_timer x); [done|done|by rewrite (sm_period _ _ Hsame)]). split.
    + intros e. eapply timer_frame_trans; [apply frame_put|apply frame_calls].
    + exists L. apply ok_calls. apply (ok_idle y); [done|done|apply lookup_insert_eq|done].
    + exists y. split; [apply lookup_insert_eq|done].
    + exists 1%nat. cbn. split; [done|]. unfold fired. rewrite Hauto. split; [lia|]. split; [lia|]. split; [done|].
      apply (deadline_none (also t o) _ _ L); [by apply ok_calls|]. intros l. apply (to_out _ _ _ H). by left.
Qed.

End Expire.

(** A timer leaves its list. *)
Lemma twp_remove {o} t x l s L (Q : unit -> timer_state -> Prop) :
  timers_ok o s L -> t_timers s !! t = Some x -> t ∈ members L l ->
  (forall h, let s' := set_t_lists h s in timers_ok (also t o) s' (without t <$> L) -> (forall e, timer_frame e t s s') ->
     value h (Item t) = value (t_lists s) (Item t) -> Q tt s') ->
  twp (timer_lists (fun h => '(_, h) ← uxListRemove t h; Ok h)) Q s.
Proof.
  intros H Hx Hin HQ. pose proof H as [S Hc Ho Hd Hl Hs Ht Hm Ha Hout].
  destruct (st_remove _ _ S l t Hin) as (n & h & E & S' & [HP HV HO]).
  eapply twp_lists; [rewrite E; reflexivity|].
  assert (forall u l', u ∈ members (without t <$> L) l' <-> u <> t /\ u ∈ members L l') as HM.
  { intros u l'. by rewrite members_without, elem_of_without. }
  apply HQ; [|intros e|apply HV].
  - split; cbn; try done.
    + rewrite lookup_fmap. destruct Hc as [ns ->]. by eexists.
    + rewrite lookup_fmap. destruct Ho as [ns ->]. by eexists.
    + intros l' i [_ Hi]%HM. by eapply Hl.
    + intros l'. rewrite members_without. eapply sorted_ext; [intros j _; apply HV|]. by apply without_sorted.
    + intros u y Hu. rewrite HP. by apply Ht.
    + intros u l' [_ Hu]%HM. rewrite HO. by eapply Hm.
    + intros u y Hne Hu. assert (u <> t /\ ~ o u) as [Hut Hou] by (unfold also in Hne; tauto).
      rewrite (Ha u y) by done. setoid_rewrite HM.
      split; [intros [l' Hl']; by exists l'|by intros [l' [_ Hl']]; exists l'].
    + intros u l' Hu [Hne Hin']%HM. destruct Hu as [?|Hou]; [done|]. by apply (Hout u l').
  - split; cbn; try done. intros u Hu. apply deadline_ext; cbn; [done| |apply HV].
    apply (container_ext _ _ L (without t <$> L)); [done|done|]. intros l'. rewrite HM. split; [by intros [_ ?]|done].
Qed.

(** ** The service *)

Definition is_call (t : nat) (c : callback) : Prop := match c with TimerCallback _ u => u = t | PendedCallback _ _ _ => False end.

#[export] Instance is_call_dec t c : Decision (is_call t c).
Proof. destruct c; cbn; apply _. Defined.

(** How often the callback of a timer was called. *)
Definition calls_of (t : nat) (log : list callback) : nat := length (filter (is_call t) log).

Lemma calls_of_app t log log' : calls_of t (log ++ log') = (calls_of t log + calls_of t log')%nat.
Proof. unfold calls_of. by rewrite filter_app, length_app. Qed.

Lemma calls_of_callbacks u n x t : calls_of u (callbacks n x t) = if decide (u = t) then n else 0%nat.
Proof.
  unfold calls_of, callbacks. induction n as [|n IH]; [by case_decide|]. cbn [replicate]. rewrite filter_cons.
  destruct (decide (u = t)) as [->|Hne]; [by rewrite decide_True by done; cbn; f_equal|rewrite decide_False; [done|]]. cbn. congruence.
Qed.

(** From the deadline [d] to the deadline [d'] with [n] callbacks by the time [N]:
    one for each expiry, none before its time. *)
Definition fires (N : Z) (x : Timer_t) (d d' : option Z) (n : nat) : Prop :=
  match n with
  | O => d' = d
  | _ => exists D, d = Some D /\ D + (Z.of_nat n - 1) * xTimerPeriodInTicks x <= N /\
           if autoreload x then d' = Some (D + Z.of_nat n * xTimerPeriodInTicks x) else n = 1%nat /\ d' = None
  end.

Lemma fires_trans N1 N2 x y d1 d2 d3 n1 n2 :
  N1 <= N2 -> same_timer x y -> fires N1 x d1 d2 n1 -> fires N2 y d2 d3 n2 -> fires N2 x d1 d3 (n1 + n2).
Proof.
  intros HN [Hp _ Ha _] H1 H2. destruct n2 as [|n2]; cbn in H2.
  { subst d3. rewrite Nat.add_0_r. destruct n1; [done|]. destruct H1 as (D & HD & Hle & Hd). exists D. split; [done|]. split; [lia|done]. }
  destruct H2 as (D2 & HD2 & Hle2 & Hd2). rewrite Hp in Hle2, Hd2. rewrite Ha in Hd2. destruct n1 as [|n1]; cbn in H1.
  { subst d2. exists D2. auto. }
  destruct H1 as (D & HD & Hle & Hd). exists D. split; [done|]. subst d2. destruct (autoreload x).
  - injection Hd as Hd. split; [nia|]. rewrite Hd2. f_equal. nia.
  - by destruct Hd.
Qed.

(** What the service does to all timers by the time [N]. *)
Record advances (N e e' : Z) (s s' : timer_state) : Prop := {
  ad_log : exists log, t_calls s' = t_calls s ++ log;
  ad_timer u x : t_timers s !! u = Some x -> exists y n, t_timers s' !! u = Some y /\ same_timer x y /\
    calls_of u (t_calls s') = (calls_of u (t_calls s) + n)%nat /\ fires N x (deadline e s u) (deadline e' s' u) n;
  ad_none u : t_timers s !! u = None -> t_timers s' !! u = None;
  ad_queue : xTimerQueue s' = xTimerQueue s;
  ad_task : xTimerTaskHandle s' = xTimerTaskHandle s;
}.

Lemma advance_refl N e s : advances N e e s s.
Proof.
  split; try done; [exists []; by rewrite app_nil_r|]. intros u x Hx. exists x, 0%nat. by rewrite Nat.add_0_r.
Qed.

Lemma advance_trans N1 N2 e1 e2 e3 s1 s2 s3 :
  N1 <= N2 -> advances N1 e1 e2 s1 s2 -> advances N2 e2 e3 s2 s3 -> advances N2 e1 e3 s1 s3.
Proof.
  intros HN [[l1 L1] T1 D1 Q1 K1] [[l2 L2] T2 D2 Q2 K2]. split; [|..|congruence|congruence].
  - exists (l1 ++ l2). by rewrite L2, L1, app_assoc.
  - intros u x Hx. destruct (T1 u x Hx) as (y & n1 & Hy & Sy & C1 & F1). destruct (T2 u y Hy) as (z & n2 & Hz & Sz & C2 & F2).
    exists z, (n1 + n2)%nat. split; [done|]. split; [by eapply same_timer_trans|]. split; [lia|]. by eapply fires_trans.
  - auto.
Qed.

Lemma expired_advance o t N E x s s' :
  expired o t N E x s s' -> t_timers s !! t = Some x -> deadline (N / turn) s t = Some E ->
  advances N (N / turn) (N / turn) s s'.
Proof.
  intros [HF _ (y & Hy & Sy) (n & HC & Hn & Hle & Hd)] Hx HD. pose proof (HF (N / turn)) as [_ _ Hq Hk _ HT HDl]. split.
  - by eexists.
  - intros u z Hz. rewrite HC, calls_of_app, calls_of_callbacks. destruct (decide (u = t)) as [->|Hne].
    + rewrite Hx in Hz. injection Hz as <-. exists y, n. split; [done|]. split; [done|]. split; [done|].
      destruct n as [|n]; [lia|]. exists E. split; [done|]. split; [done|]. by destruct (autoreload x); destruct Hd.
    + exists z, 0%nat. rewrite HT by done. split; [done|]. split; [done|]. split; [done|]. by apply HDl.
  - intros u Hu. rewrite HT; [done|]. intros ->. congruence.
  - done.
  - done.
Qed.

(** The members of the lists by their deadlines. *)
Lemma current_deadline o e s L u :
  timers_ok o s L -> (u ∈ members L (pxCurrentTimerList s) <-> exists D, deadline e s u = Some D /\ D / turn = e).
Proof.
  intros H. split.
  - intros Hin. eexists. split; [by apply (deadline_in o e s L u _ H Hin)|]. rewrite Nat.eqb_refl.
    pose proof (st_in_range _ _ (to_stored _ _ _ H) _ _ Hin) as Hr. unfold in_range in Hr. unfold turn.
    rewrite Z.div_add_l by lia. rewrite Z.div_small by done. lia.
  - intros (D & HD & He). unfold deadline in HD. destruct (container (t_lists s) (Item u)) as [l|] eqn:El; [|done].
    apply (st_member _ _ (to_stored _ _ _ H)) in El. injection HD as <-.
    destruct (Nat.eqb_spec l (pxCurrentTimerList s)) as [->|Hne]; [done|].
    pose proof (st_in_range _ _ (to_stored _ _ _ H) _ _ El) as Hr. unfold in_range in Hr. unfold turn in *.
    rewrite Z.div_add_l in He by lia. rewrite Z.div_small in He by done. lia.
Qed.

(** The static variables that the work on one timer keeps. *)
Definition same_lists (s s' : timer_state) : Prop :=
  pxCurrentTimerList s' = pxCurrentTimerList s /\ pxOverflowTimerList s' = pxOverflowTimerList s /\ xLastTime s' = xLastTime s.

(** [prvProcessExpiredTimer] on the first timer of the current list. *)
Lemma twp_process_expired {o} N s L t ns :
  timers_ok o s L -> L !! pxCurrentTimerList s = Some (t :: ns) -> 0 <= N ->
  N / turn * turn + value (t_lists s) (Item t) <= N ->
  twp (prvProcessExpiredTimer (value (t_lists s) (Item t)) (u32 N)) (fun _ s' =>
    (exists L', timers_ok o s' L') /\ advances N (N / turn) (N / turn) s s' /\ same_lists s s' /\
    (forall u, u <> t -> deadline (N / turn) s' u = deadline (N / turn) s u) /\
    (forall D, deadline (N / turn) s' t = Some D -> N < D)) s.
Proof.
  intros H El HN0 Hle. assert (t ∈ members L (pxCurrentTimerList s)) as Hin by (rewrite (members_lookup _ _ _ El); by left).
  pose proof (st_in_range _ _ (to_stored _ _ _ H) _ _ Hin) as Hr. destruct (to_member _ _ _ H t _ Hin) as [Hown [x Hx]].
  assert (~ o t) as Hot by (intros Ho; by apply (to_out _ _ _ H t _ Ho) in Hin).
  pose proof (deadline_in o (N / turn) s L t _ H Hin) as HD. rewrite Nat.eqb_refl in HD.
  set (v := value (t_lists s) (Item t)) in *. set (E := N / turn * turn + v) in *.
  assert (v = u32 E) as Ev.
  { unfold E, wrapu, turn, in_range in *. rewrite Z.add_comm, Z_mod_plus_full, Z.mod_small; [done|lia]. }
  assert (0 <= E /\ N < E + turn) as [HE0 HE].
  { unfold E, turn, in_range in *. pose proof (Z.div_pos N (2 ^ 32)). pose proof (Z.mod_pos_bound N (2 ^ 32)).
    pose proof (Z.div_mod N (2 ^ 32)). lia. }
  unfold prvProcessExpiredTimer. twps. eapply twp_ask; [apply (st_head_owner _ _ (to_stored _ _ _ H) _ _ _ _ El Hown)|].
  twp_step. apply (twp_remove t x (pxCurrentTimerList s) s L _ H Hx Hin). intros h s1 H1 HF1 _.
  assert (active x = true) as Hact by (apply (to_active _ _ _ H t x); [done|done|by eauto]).
  rewrite Ev. eapply twp_mono; [apply (twp_expire o t N x E s1 _ H1); [done|done|done|done|done]|]. intros [] s2 HX. cbv beta in HX.
  assert (expired o t N E x s s2) as HX'.
  { destruct HX as [F2 O2 T2 C2]. split; [|done|done|done]. intros e. by eapply timer_frame_trans. }
  split; [apply HX'|]. split; [by apply (expired_advance o t N E x)|]. pose proof (ex_frame _ _ _ _ _ _ _ HX' (N / turn)) as HF.
  split; [split_and!; apply HF|]. split; [apply HF|]. intros D HD'.
  destruct (ex_calls _ _ _ _ _ _ _ HX') as (n & _ & _ & _ & Hd). rewrite HD' in Hd.
  destruct (autoreload x); [|by destruct Hd]. destruct Hd as [[= ->] Hlt]. done.
Qed.

(** The last tick of a turn. *)
Definition turn_end (e : Z) : Z := e * turn + tmrMAX_TIME_BEFORE_OVERFLOW.

Lemma turn_end_div e : turn_end e / turn = e.
Proof. unfold turn_end, turn, tmrMAX_TIME_BEFORE_OVERFLOW. rewrite Z.div_add_l by lia. rewrite Z.div_small by lia. lia. Qed.

Lemma turn_end_wrap e : u32 (turn_end e) = tmrMAX_TIME_BEFORE_OVERFLOW.
Proof. unfold turn_end, turn, wrapu, tmrMAX_TIME_BEFORE_OVERFLOW. rewrite Z.add_comm, Z_mod_plus_full. by apply Z.mod_small. Qed.

(** The loop of [prvSwitchTimerLists] empties the current list. *)
Lemma twp_switch_loop {o} e fuel : forall s L,
  timers_ok o s L -> 0 <= e -> (length (members L (pxCurrentTimerList s)) <= fuel)%nat ->
  twp (switch_loop fuel) (fun _ s' => exists L', timers_ok o s' L' /\ members L' (pxCurrentTimerList s') = [] /\
    advances (turn_end e) e e s s' /\ same_lists s s') s.
Proof.
  induction fuel as [|fuel IH]; intros s L H He Hlen; cbn [switch_loop]; twps; destruct (to_current _ _ _ H) as [ns El];
    rewrite (members_lookup _ _ _ El) in Hlen; (eapply twp_ask; [apply (st_empty _ _ (to_stored _ _ _ H) _ _ El)|]);
    destruct ns as [|t ns]; [| by cbn in Hlen; lia| |].
  1,2: rewrite bool_decide_eq_true_2 by done; twp_step; exists L; rewrite (members_lookup _ _ _ El); split_and!;
    [done|done|apply advance_refl|done].
  rewrite bool_decide_eq_false_2 by done. twp_step. eapply twp_ask; [apply (st_head_value _ _ (to_stored _ _ _ H) _ _ _ El)|].
  twp_step. assert (t ∈ members L (pxCurrentTimerList s)) as Hin by (rewrite (members_lookup _ _ _ El); by left).
  pose proof (st_in_range _ _ (to_stored _ _ _ H) _ _ Hin) as Hr. pose proof (turn_end_div e) as Ed.
  rewrite <- (turn_end_wrap e). eapply twp_mono; [apply (twp_process_expired (turn_end e) s L t ns H El)|].
  { unfold turn_end, turn, tmrMAX_TIME_BEFORE_OVERFLOW. lia. }
  { rewrite Ed. unfold turn_end, tmrMAX_TIME_BEFORE_OVERFLOW, in_range in *. lia. }
  rewrite Ed. intros _ s1 ([L1 H1] & HA & (HL1 & HL2 & HL3) & Hoth & Ht).
  eapply twp_mono; [apply (IH s1 L1 H1 He)|].
  - pose proof (st_nodup _ _ (to_stored _ _ _ H) (pxCurrentTimerList s)) as Hnd. rewrite (members_lookup _ _ _ El) in Hnd.
    apply NoDup_cons in Hnd as [_ Hnd]. enough (members L1 (pxCurrentTimerList s1) ⊆+ ns) as Hs%submseteq_length by (cbn in Hlen; lia).
    apply NoDup_submseteq; [apply (st_nodup _ _ (to_stored _ _ _ H1))|]. intros u (D & HD & HDe)%(current_deadline o e _ _ _ H1).
    destruct (decide (u = t)) as [->|Hne].
    + specialize (Ht D HD). unfold turn_end, turn, tmrMAX_TIME_BEFORE_OVERFLOW in *.
      pose proof (Z.div_mod D (2 ^ 32)). pose proof (Z.mod_pos_bound D (2 ^ 32)). lia.
    + rewrite Hoth in HD by done. assert (u ∈ members L (pxCurrentTimerList s)) as Hu by (apply (current_deadline o e _ _ _ H); eauto).
      rewrite (members_lookup _ _ _ El) in Hu. by apply elem_of_cons in Hu as [?|?].
  - intros _ s2 (L2 & H2 & Hno & HA2 & (HM1 & HM2 & HM3)). exists L2. split; [done|]. split; [done|]. split.
    + by eapply advance_trans.
    + unfold same_lists. split_and!; congruence.
Qed.

(** [prvSwitchTimerLists] at the end of the turn [e]. *)
Lemma twp_switch {o} e s L :
  timers_ok o s L -> 0 <= e ->
  twp prvSwitchTimerLists (fun _ s' => (exists L', timers_ok o s' L') /\ advances (turn_end e) e (e + 1) s s' /\
    xLastTime s' = xLastTime s) s.
Proof.
  intros H He. unfold prvSwitchTimerLists. twps. destruct (to_current _ _ _ H) as [ns El].
  eapply twp_ask; [apply (st_length _ _ (to_stored _ _ _ H) _ _ El)|]. twp_step. rewrite Nat2Z.id.
  eapply twp_mono; [apply (twp_switch_loop e _ s L H He); by rewrite (members_lookup _ _ _ El)|].
  intros _ s1 (L1 & H1 & Hno & HA & _ & _ & Hlast). twp_step. pose proof H1 as [S Hc Ho Hd Hl Hs Ht Hm Ha Hout]. split.
  - exists L1. split; try done. intros l i Hi. destruct (Hl l i Hi); auto.
  - split; [|done]. destruct HA as [A1 A2 A3 A4 A5]. split; try done. intros u x Hx.
    destruct (A2 u x Hx) as (y & n & Hy & Sy & Hn & Hf). exists y, n. split_and!; [done..|].
    replace (deadline (e + 1) _ u) with (deadline e s1 u); [done|]. unfold deadline. cbn.
    destruct (container (t_lists s1) (Item u)) as [l|] eqn:E; [|done]. apply (st_member _ _ S) in E.
    destruct (Hl l u E) as [->| ->]; [rewrite Hno in E; by apply elem_of_nil in E|].
    by rewrite Nat.eqb_refl, (proj2 (Nat.eqb_neq _ _) (not_eq_sym Hd)).
Qed.

(** The last sample of the tick count was at the absolute time [T]. *)
Definition sampled (T : Z) (s : timer_state) : Prop := 0 <= T /\ xLastTime s = u32 T.

Lemma same_turn T T' : 0 <= T <= T' -> T' < T + turn -> (u32 T' <? u32 T) = negb (T' / turn =? T / turn).
Proof.
  intros HT HT'. unfold turn, wrapu in *. change (2 ^ 32) with 4294967296 in *. apply eq_bool_prop_intro.
  rewrite negb_True, !Is_true_true, Z.ltb_lt, Z.eqb_eq. Z.to_euclidean_division_equations. lia.
Qed.

Lemma next_turn T T' : 0 <= T <= T' -> T' < T + turn -> T' / turn <> T / turn -> T' / turn = T / turn + 1 /\ turn_end (T / turn) <= T'.
Proof.
  intros HT HT' Hne. unfold turn_end, turn, tmrMAX_TIME_BEFORE_OVERFLOW in *. change (2 ^ 32) with 4294967296 in *.
  Z.to_euclidean_division_equations. lia.
Qed.

Lemma advance_sample N e s v : advances N e e s (set_xLastTime v s).
Proof.
  split; try done; [exists []; by rewrite app_nil_r|]. intros u x Hx. exists x, 0%nat. by rewrite Nat.add_0_r.
Qed.

Lemma twp_sample {o} T T' s L :
  timers_ok o s L -> sampled T s -> T <= T' < T + turn ->
  twp (sample_time (u32 T')) (fun b s' => (exists L', timers_ok o s' L') /\ sampled T' s' /\
    advances T' (T / turn) (T' / turn) s s' /\ b = negb (T' / turn =? T / turn) /\
    (b = false -> s' = set_xLastTime (u32 T') s)) s.
Proof.
  intros H [HT0 HT] HT'. unfold sample_time. twps. rewrite HT, (same_turn T T') by lia.
  destruct (Z.eqb_spec (T' / turn) (T / turn)) as [E|E]; cbn [negb].
  - twps. rewrite E. split; [exists L; by destruct H|]. split; [split; [lia|done]|]. split; [|done].
    apply advance_sample.
  - destruct (next_turn T T') as [E1 E2]; [lia|lia|done|]. eapply twp_mono; [apply (twp_switch (T / turn) s L H)|].
    { apply Z.div_pos; unfold turn; lia. }
    intros _ s1 ([L1 H1] & HA & Hl). twps. split; [exists L1; by destruct H1|]. split; [split; [lia|done]|]. split; [|done].
    rewrite E1. eapply advance_trans; [exact E2|exact HA|apply advance_sample].
Qed.

(** ** One pass of the timer task *)

(** What the first two calls of the loop of [prvTimerTask] do to the timers, at
    the tick count [now]; [false] when the task blocks. *)
Definition pass_timers (now : Z) : TM bool :=
  '(xNextExpireTime, xListWasEmpty) ← prvGetNextExpireTime;
  switched ← sample_time now;
  if switched : bool then mret true
  else if negb xListWasEmpty && (xNextExpireTime <=? now) then prvProcessExpiredTimer xNextExpireTime now;; mret true
  else mret false.

Lemma twp_next_expire {o} s L (Q : Z * bool -> timer_state -> Prop) :
  timers_ok o s L ->
  (forall ns, L !! pxCurrentTimerList s = Some ns ->
     Q (match ns with [] => (0, true) | t :: _ => (value (t_lists s) (Item t), false) end) s) ->
  twp prvGetNextExpireTime Q s.
Proof.
  intros H HQ. unfold prvGetNextExpireTime. twps. destruct (to_current _ _ _ H) as [ns El]. specialize (HQ ns El).
  eapply twp_ask; [apply (st_empty _ _ (to_stored _ _ _ H) _ _ El)|]. destruct ns as [|t ns].
  - rewrite bool_decide_eq_true_2 by done. by twps.
  - rewrite bool_decide_eq_false_2 by done. twp_step. eapply twp_ask; [apply (st_head_value _ _ (to_stored _ _ _ H) _ _ _ El)|].
    by twps.
Qed.

(** No timer is due at [N] when the first of the current list is not. *)
Lemma none_due {o} N s L ns :
  timers_ok o s L -> L !! pxCurrentTimerList s = Some ns -> 0 <= N ->
  (forall t ns', ns = t :: ns' -> u32 N < value (t_lists s) (Item t)) ->
  forall u D, deadline (N / turn) s u = Some D -> N < D.
Proof.
  intros H El HN Hhead u D HD. unfold deadline in HD. destruct (container (t_lists s) (Item u)) as [l|] eqn:E; [|done].
  apply (st_member _ _ (to_stored _ _ _ H)) in E. pose proof (st_in_range _ _ (to_stored _ _ _ H) _ _ E) as Hr.
  injection HD as <-. pose proof (Z.div_mod N turn ltac:(done)) as Hdm. pose proof (Z.mod_pos_bound N turn ltac:(done)) as Hmb.
  unfold in_range in Hr. destruct (to_lists _ _ _ H l u E) as [->| ->].
  - rewrite Nat.eqb_refl. rewrite (members_lookup _ _ _ El) in E. destruct ns as [|t ns]; [by apply elem_of_nil in E|].
    specialize (Hhead t ns eq_refl). pose proof (to_sorted _ _ _ H (pxCurrentTimerList s)) as Hs. rewrite (members_lookup _ _ _ El) in Hs.
    pose proof (sorted_head _ t ns u Hs E) as Hle. cbn in Hle. unfold wrapu, turn in *. lia.
  - rewrite (proj2 (Nat.eqb_neq _ _) (not_eq_sym (to_differ _ _ _ H))). unfold turn in *. lia.
Qed.

Lemma twp_pass {o} T N s L :
  timers_ok o s L -> sampled T s -> T <= N < T + turn ->
  twp (pass_timers (u32 N)) (fun b s' => (exists L', timers_ok o s' L') /\ sampled N s' /\
    advances N (T / turn) (N / turn) s s' /\
    (b = false -> forall u D, deadline (N / turn) s' u = Some D -> N < D)) s.
Proof.
  intros H HS HN. unfold pass_timers. twp_step. apply (twp_next_expire s L _ H). intros ns El.
  set (r := match ns with [] => _ | _ => _ end). assert (r = (r.1, r.2)) as -> by (by destruct r). twp_step.
  eapply twp_mono; [apply (twp_sample T N s L H HS HN)|]. intros b s1 ([L1 H1] & HS1 & HA1 & Eb & Hs1). destruct b.
  { twps. split; [by eauto|]. split; [done|]. by split. }
  specialize (Hs1 eq_refl). assert (N / turn = T / turn) as Et by (by destruct (Z.eqb_spec (N / turn) (T / turn))).
  assert (timers_ok o s1 L) as H1' by (subst s1; by destruct H). clear L1 H1. destruct HS1 as [HN0 HS1].
  assert (L !! pxCurrentTimerList s1 = Some ns) as El1 by (by subst s1). destruct (negb r.2 && (r.1 <=? u32 N)) eqn:Hdue.
  - apply andb_true_iff in Hdue as [He Hle]. destruct ns as [|t ns]; [done|]. cbn in Hle. twp_step.
    assert (value (t_lists s) (Item t) = value (t_lists s1) (Item t)) as Ev by (by subst s1). cbn [fst r]. rewrite Ev in Hle |- *.
    eapply twp_mono; [apply (twp_process_expired N s1 L t ns H1' El1 HN0)|].
    { unfold wrapu, turn in *. pose proof (Z.div_mod N (2 ^ 32)). lia. }
    intros _ s2 (HL2 & HA2 & (_ & _ & HL) & _). twp_step. split; [done|]. split; [split; [done|by rewrite HL]|]. split; [|done].
    exact (advance_trans N N _ _ _ _ _ _ (Z.le_refl N) HA1 HA2).
  - twp_step. split; [by eauto|]. split; [by split|]. split; [done|]. intros _. apply (none_due N s1 L ns H1' El1 HN0).
    intros t ns' ->. apply andb_false_iff in Hdue as [Hd|Hd]; [done|]. cbn in Hd. subst s1. cbn. lia.
Qed.
