(* ===== verification/FreeRTOSTimersService.v ===== *)
(** * What the timer service promises

    The passes of the timer task at any times, and the commands on a timer, in
    absolute time: each expiry leads to exactly one call, never early, and a
    command starts a timer from the time it was given. *)

From S2P Require Import Prelude FreeRTOSList FreeRTOSListTheory FreeRTOSListStore FreeRTOSObjects FreeRTOSTasks.
From S2P Require Import FreeRTOSQueue FreeRTOSTimers FreeRTOSTimersTheory.

(** ** The specification of a timer *)

(** The expiries up to [N] of a timer with the deadline [d]. *)
Definition expiries (N : Z) (x : Timer_t) (d : option Z) : nat :=
  match d with
  | None => 0
  | Some D => if N <? D then 0 else if autoreload x then S (Z.to_nat ((N - D) / xTimerPeriodInTicks x)) else 1
  end.

(** The deadline after them. *)
Definition next_deadline (N : Z) (x : Timer_t) (d : option Z) : option Z :=
  match d with
  | None => None
  | Some D => if N <? D then Some D
              else if autoreload x then Some (D + ((N - D) / xTimerPeriodInTicks x + 1) * xTimerPeriodInTicks x) else None
  end.

Lemma expiry_count N D P n :
  0 < P -> D <= N -> (0 < n)%nat -> D + (Z.of_nat n - 1) * P <= N -> N < D + Z.of_nat n * P -> Z.of_nat n = (N - D) / P + 1.
Proof.
  intros HP HD Hn Hle Hlt. assert ((N - D) / P = Z.of_nat n - 1) as ->; [|lia]. symmetry. apply Z.div_unique with (N - D - P * (Z.of_nat n - 1)); nia.
Qed.

Lemma fires_exact N x d d' n :
  0 < xTimerPeriodInTicks x -> fires N x d d' n -> (forall D, d' = Some D -> N < D) ->
  n = expiries N x d /\ d' = next_deadline N x d.
Proof.
  intros HP Hf Hd. destruct n as [|n].
  - cbn in Hf. subst d'. destruct d as [D|]; [|done]. specialize (Hd D eq_refl). cbn. by rewrite (proj2 (Z.ltb_lt _ _) Hd).
  - destruct Hf as (D & -> & Hle & Hf). cbn [expiries next_deadline]. assert (D <= N) as HD by nia.
    rewrite (proj2 (Z.ltb_ge _ _) HD). destruct (autoreload x); [|destruct Hf as [[= ->] ->]; done].
    specialize (Hd _ Hf). pose proof (expiry_count N D _ (S n) HP HD ltac:(lia) Hle Hd) as Hn. split; [lia|]. rewrite Hf. f_equal. lia.
Qed.

Lemma fires_at_most N x d d' n : 0 < xTimerPeriodInTicks x -> fires N x d d' n -> (n <= expiries N x d)%nat.
Proof.
  intros HP. destruct n as [|n]; [lia|]. intros (D & -> & Hle & Hf). cbn [expiries]. rewrite (proj2 (Z.ltb_ge N D)) by nia.
  destruct (autoreload x); [|lia]. assert (Z.of_nat n <= (N - D) / xTimerPeriodInTicks x); [|lia]. apply Z.div_le_lower_bound; nia.
Qed.

(** ** Passes at any times *)

Fixpoint run_passes (b : bool) (nows : list Z) : TM bool :=
  match nows with [] => mret b | now :: nows => b ← pass_timers now; run_passes b nows end.

(** The times of the passes, the first at least [T], less than a turn apart. *)
Fixpoint times_from (T : Z) (Ts : list Z) : Prop :=
  match Ts with [] => True | N :: Ts => T <= N < T + turn /\ times_from N Ts end.

Definition last_time (T : Z) (Ts : list Z) : Z := default T (last Ts).

Lemma last_time_cons T N Ts : last_time T (N :: Ts) = last_time N Ts.
Proof. unfold last_time. rewrite last_cons. by destruct (last Ts). Qed.

Lemma last_time_le T Ts : times_from T Ts -> T <= last_time T Ts.
Proof.
  revert T. induction Ts as [|N Ts IH]; intros T; [intros _; unfold last_time; cbn; lia|].
  intros [HN HT]. rewrite last_time_cons. specialize (IH N HT). lia.
Qed.

Definition none_left (N : Z) (s : timer_state) : Prop := forall u D, deadline (N / turn) s u = Some D -> N < D.

Lemma twp_passes Ts : forall b T s L,
  timers_ok no_timer s L -> sampled T s -> times_from T Ts -> (b = false -> none_left T s) ->
  twp (run_passes b (u32 <$> Ts)) (fun b' s' => let N := last_time T Ts in
    (exists L', timers_ok no_timer s' L') /\ sampled N s' /\ advances N (T / turn) (N / turn) s s' /\ (b' = false -> none_left N s')) s.
Proof.
  induction Ts as [|N Ts IH]; intros b T s L H HS HT Hb; cbn [fmap list_fmap run_passes].
  { twp_step. split; [by eauto|]. split; [done|]. split; [apply advance_refl|done]. }
  destruct HT as [HN HT]. twp_step. eapply twp_mono; [apply (twp_pass T N s L H HS HN)|].
  intros b1 s1 ([L1 H1] & HS1 & HA1 & Hn1). eapply twp_mono; [apply (IH b1 N s1 L1 H1 HS1 HT Hn1)|].
  rewrite last_time_cons. intros b2 s2 (HL2 & HS2 & HA2 & Hn2). split; [done|]. split; [done|]. split; [|done].
  eapply advance_trans; [apply (last_time_le N Ts HT)|exact HA1|exact HA2].
Qed.

(** ** Catching up *)

Definition is_due (N : Z) (s : timer_state) (u : nat) : bool :=
  match deadline (N / turn) s u with Some D => D <=? N | None => false end.

(** The timers that are due at [N]. *)
Definition due (N : Z) (s : timer_state) : gset nat := filter (fun u => is_due N s u = true) (dom (t_timers s)).

Lemma due_smaller N s s' t :
  t ∈ due N s -> is_due N s' t = false -> dom (t_timers s') = dom (t_timers s) ->
  (forall u, u <> t -> deadline (N / turn) s' u = deadline (N / turn) s u) -> (size (due N s') < size (due N s))%nat.
Proof.
  intros Ht Hn Hd Ho. apply subset_size. split.
  - intros u [Hu Hdu]%elem_of_filter. apply elem_of_filter. rewrite <- Hd. split; [|done]. unfold is_due in *.
    rewrite <- Ho; [done|]. intros ->. congruence.
  - intros Hs. specialize (Hs t Ht). apply elem_of_filter in Hs as [Hs _]. congruence.
Qed.

Lemma advance_dom N e e' s s' : advances N e e' s s' -> dom (t_timers s') = dom (t_timers s).
Proof.
  intros HA. apply set_eq. intros u. rewrite !elem_of_dom. destruct (t_timers s !! u) as [x|] eqn:E.
  - destruct (ad_timer _ _ _ _ _ HA u x E) as (y & _ & Hy & _). rewrite Hy. split; eauto.
  - rewrite (ad_none _ _ _ _ _ HA u E). done.
Qed.

(** A pass at the time of the last one blocks or makes progress. *)
Lemma twp_pass_again {o} N s L :
  timers_ok o s L -> sampled N s ->
  twp (pass_timers (u32 N)) (fun b s' => b = true -> (size (due N s') < size (due N s))%nat) s.
Proof.
  intros H [HN0 HS]. unfold pass_timers. twp_step. apply (twp_next_expire s L _ H). intros ns El.
  set (r := match ns with [] => _ | _ => _ end). assert (r = (r.1, r.2)) as -> by (by destruct r). unfold sample_time.
  twps. rewrite HS, Z.ltb_irrefl. twps.
  assert (set_xLastTime (u32 N) s = s) as -> by (destruct s; cbn in *; by rewrite HS).
  destruct (negb r.2 && (r.1 <=? u32 N)) eqn:Hdue; [|by twps].
  apply andb_true_iff in Hdue as [He Hle]. destruct ns as [|t ns]; [done|]. cbn in Hle. twp_step.
  assert (N / turn * turn + value (t_lists s) (Item t) <= N) as Hdl.
  { unfold wrapu, turn in *. pose proof (Z.div_mod N (2 ^ 32)). lia. }
  eapply twp_mono; [apply (twp_process_expired N s L t ns H El HN0 Hdl)|].
  intros _ s2 (_ & HA & _ & Ho & Ht). twps. intros _.
  assert (t ∈ members L (pxCurrentTimerList s)) as Hin by (rewrite (members_lookup _ _ _ El); by left).
  apply (due_smaller N s s2 t); [| |by eapply advance_dom|done].
  - apply elem_of_filter. split; [|apply elem_of_dom; by apply (to_member _ _ _ H t _ Hin)]. unfold is_due.
    rewrite (deadline_in o _ _ _ _ _ H Hin), Nat.eqb_refl. lia.
  - unfold is_due. destruct (deadline (N / turn) s2 t) as [D|] eqn:E; [|done]. specialize (Ht D eq_refl). lia.
Qed.

Lemma twp_and {A} (m : TM A) (P Q : A -> timer_state -> Prop) s : twp m P s -> twp m Q s -> twp m (fun a s' => P a s' /\ Q a s') s.
Proof. intros (a & s1 & E & HP) (b & s2 & E' & HQ). rewrite E in E'. injection E' as <- <-. by exists a, s1. Qed.

(** As many passes as timers, and one more, are enough. *)
Lemma twp_catch_up N n : forall b s L,
  timers_ok no_timer s L -> sampled N s -> (size (due N s) < n)%nat \/ (n = 0%nat /\ b = false) ->
  twp (run_passes b (replicate n (u32 N))) (fun b' _ => b' = false) s.
Proof.
  induction n as [|n IH]; intros b s L H HS Hn; cbn [replicate run_passes]; [twp_step; by destruct Hn as [?|[_ ?]]; [lia|]|].
  destruct Hn as [Hn|[? _]]; [|done]. twp_step.
  assert (N <= N < N + turn) as HN by (unfold turn; lia).
  pose proof (twp_and _ _ _ _ (twp_pass N N s L H HS HN) (twp_pass_again N s L H HS)) as HW.
  eapply twp_mono; [exact HW|]. intros b1 s1 [([L1 H1] & HS1 & HA1 & Hnone) Hb1].
  apply (IH b1 s1 L1 H1 HS1). destruct b1; [specialize (Hb1 eq_refl); left; lia|]. destruct n as [|n]; [by right|left].
  assert (due N s1 = ∅) as ->; [|rewrite size_empty; lia]. apply elem_of_equiv_empty_L. intros u [Hu _]%elem_of_filter.
  unfold is_due in Hu. destruct (deadline (N / turn) s1 u) as [D|] eqn:E; [|done]. specialize (Hnone eq_refl u D E). lia.
Qed.

Lemma times_repeat T N n : T <= N < T + turn -> times_from T (N :: replicate n N).
Proof.
  revert T. induction n as [|n IH]; intros T HN; cbn [replicate times_from]; [done|]. split; [done|]. apply IH. unfold turn. lia.
Qed.

Lemma last_time_repeat T N n : last_time T (N :: replicate n N) = N.
Proof. rewrite last_time_cons. induction n as [|n IH]; [done|]. cbn [replicate]. by rewrite last_time_cons. Qed.

Lemma twp_catch_up_from T N n s L :
  timers_ok no_timer s L -> sampled T s -> T <= N < T + turn -> (size (t_timers s) < n)%nat ->
  twp (run_passes true (u32 <$> (N :: replicate n N))) (fun b' _ => b' = false) s.
Proof.
  intros H HS HN Hsz. cbn [fmap list_fmap run_passes]. twp_step. eapply twp_mono; [apply (twp_pass T N s L H HS HN)|].
  intros b s1 ([L1 H1] & HS1 & HA1 & _). change (list_fmap Z Z u32) with (fmap (M := list) u32). rewrite fmap_replicate.
  apply (twp_catch_up N n b s1 L1 H1 HS1). left.
  apply Nat.le_lt_trans with (size (t_timers s)); [|done]. rewrite <- size_dom, <- (advance_dom _ _ _ _ _ HA1). apply subseteq_size.
  intros u [_ Hu]%elem_of_filter. exact Hu.
Qed.

(** ** Commands *)

(** What a command on a timer does to the timers, at the tick count [now]; a
    deletion frees the memory of the timer and is not one of these. *)
Definition command_timers (id value : Z) (t : nat) (now : Z) : TM unit :=
  leave_timer_list t;;
  sample_time now;;
  if bool_decide (id ∈ [tmrCOMMAND_START; tmrCOMMAND_START_FROM_ISR; tmrCOMMAND_RESET; tmrCOMMAND_RESET_FROM_ISR]) then
    command_start t value now
  else if bool_decide (id ∈ [tmrCOMMAND_STOP; tmrCOMMAND_STOP_FROM_ISR]) then command_stop t
  else if bool_decide (id ∈ [tmrCOMMAND_CHANGE_PERIOD; tmrCOMMAND_CHANGE_PERIOD_FROM_ISR]) then
    command_change_period t value now
  else mret tt.

Definition start_commands : list Z := [tmrCOMMAND_START; tmrCOMMAND_START_FROM_ISR; tmrCOMMAND_RESET; tmrCOMMAND_RESET_FROM_ISR].
Definition stop_commands : list Z := [tmrCOMMAND_STOP; tmrCOMMAND_STOP_FROM_ISR].
Definition period_commands : list Z := [tmrCOMMAND_CHANGE_PERIOD; tmrCOMMAND_CHANGE_PERIOD_FROM_ISR].

Lemma command_timers_start id v t now :
  id ∈ start_commands -> command_timers id v t now = (leave_timer_list t;; sample_time now;; command_start t v now).
Proof. intros H. unfold command_timers. by rewrite (bool_decide_eq_true_2 _ H). Qed.

Lemma command_timers_stop id v t now :
  id ∈ stop_commands -> command_timers id v t now = (leave_timer_list t;; sample_time now;; command_stop t).
Proof. intros H. unfold stop_commands in H. rewrite !elem_of_cons, elem_of_nil in H. by destruct H as [->|[->|[]]]. Qed.

Lemma command_timers_period id v t now :
  id ∈ period_commands -> command_timers id v t now = (leave_timer_list t;; sample_time now;; command_change_period t v now).
Proof. intros H. unfold period_commands in H. rewrite !elem_of_cons, elem_of_nil in H. by destruct H as [->|[->|[]]]. Qed.

(** The other timers meanwhile. *)
Definition others_advance (t : nat) (N e e' : Z) (s s' : timer_state) : Prop :=
  forall u x, u <> t -> t_timers s !! u = Some x -> exists y n, t_timers s' !! u = Some y /\ same_timer x y /\
    calls_of u (t_calls s') = (calls_of u (t_calls s) + n)%nat /\ fires N x (deadline e s u) (deadline e' s' u) n.

(** After a command the timer [t] is [x], with [n] more calls and the deadline
    [d]. *)
Record commanded (t : nat) (x : Timer_t) (n : nat) (d : option Z) (T N : Z) (s s' : timer_state) : Prop := {
  cd_ok : exists L, timers_ok no_timer s' L;
  cd_sampled : sampled N s';
  cd_others : others_advance t N (T / turn) (N / turn) s s';
  cd_timer : exists y, t_timers s' !! t = Some y /\ same_timer x y;
  cd_calls : calls_of t (t_calls s') = (calls_of t (t_calls s) + n)%nat;
  cd_deadline : deadline (N / turn) s' t = d;
  cd_queue : xTimerQueue s' = xTimerQueue s;
  cd_none u : u <> t -> t_timers s !! u = None -> t_timers s' !! u = None;
}.

Section Command.
Context (t : nat) (T N : Z) (s : timer_state) (L : store) (x : Timer_t).
Hypothesis ok : timers_ok no_timer s L.
Hypothesis last : sampled T s.
Hypothesis later : T <= N < T + turn.
Hypothesis timer : t_timers s !! t = Some x.

(** Before the [switch]: the timer is in no list, the lists are up to date. *)
Record ready_for_command (s' : timer_state) : Prop := {
  rc_ok : exists L', timers_ok (also t no_timer) s' L';
  rc_sampled : sampled N s';
  rc_others : others_advance t N (T / turn) (N / turn) s s';
  rc_timer : exists y, t_timers s' !! t = Some y /\ same_timer x y;
  rc_calls : calls_of t (t_calls s') = calls_of t (t_calls s);
  rc_queue : xTimerQueue s' = xTimerQueue s;
  rc_none u : u <> t -> t_timers s !! u = None -> t_timers s' !! u = None;
}.

Lemma ok_also : (forall l, t ∉ members L l) -> timers_ok (also t no_timer) s L.
Proof.
  intros Hno. destruct ok as [S Hc Ho Hd Hl Hs Ht Hm Ha Hout]. split; try done.
  - intros u y _ Hu. apply Ha; [intros []|done].
  - intros u l [->|[]]. apply Hno.
Qed.

Lemma twp_leave (Q : unit -> timer_state -> Prop) :
  (forall h L', let s' := set_t_lists h s in timers_ok (also t no_timer) s' L' -> (forall e, timer_frame e t s s') -> Q tt s') ->
  twp (leave_timer_list t) Q s.
Proof.
  intros HQ. unfold leave_timer_list. twp_step. destruct (to_timer _ _ _ ok t x timer) as [Hp _].
  pose proof (to_stored _ _ _ ok) as S. eapply twp_ask; [by apply st_ask_container|].
  destruct (container (t_lists s) (Item t)) as [l|] eqn:E.
  - apply (st_member _ _ S) in E. apply (twp_remove t x l s L _ ok timer E). intros h s' H' HF _. by eapply HQ.
  - twp_step. assert (set_t_lists (t_lists s) s = s) as Es by (by destruct s). rewrite <- Es. apply (HQ _ L); rewrite Es; [|done].
    apply ok_also. by apply (st_free _ _ S).
Qed.

Lemma twp_ready (m : TM unit) (Q : unit -> timer_state -> Prop) :
  (forall s', ready_for_command s' -> twp m Q s') -> twp (leave_timer_list t;; sample_time (u32 N);; m) Q s.
Proof.
  intros Hm. twp_step. apply twp_leave. intros h L1 s1 H1 HF1. twp_step.
  assert (sampled T s1) as HS1 by done.
  eapply twp_mono; [apply (twp_sample T N s1 L1 H1 HS1 later)|]. intros b s2 (HL2 & HS2 & HA2 & _). apply Hm.
  pose proof (HF1 (T / turn)) as [F1 F2 F3 F4 F5 F6 F7]. split; [done|done|..].
  - intros u z Hu Hz. destruct (ad_timer _ _ _ _ _ HA2 u z Hz) as (y & n & Hy & Sy & Hn & Hf). exists y, n.
    split_and!; [done..|]. by rewrite <- F7.
  - destruct (ad_timer _ _ _ _ _ HA2 t x timer) as (y & n & Hy & Sy & _). by exists y.
  - destruct (ad_timer _ _ _ _ _ HA2 t x timer) as (y & n & _ & _ & Hn & Hf).
    rewrite (deadline_none _ _ _ _ _ H1) in Hf by (intros l; apply (to_out _ _ _ H1); by left).
    destruct n as [|n]; [rewrite Nat.add_0_r in Hn; done|]. by destruct Hf as (D & ? & _).
  - by rewrite (ad_queue _ _ _ _ _ HA2).
  - intros u _. apply (ad_none _ _ _ _ _ HA2).
Qed.

Lemma ready_commanded s1 s2 z y n d :
  ready_for_command s1 -> (forall e, timer_frame e t s1 s2) -> t_calls s2 = t_calls s1 ++ callbacks n z t ->
  (exists L', timers_ok no_timer s2 L') -> t_timers s2 !! t = Some y -> same_timer z y -> deadline (N / turn) s2 t = d ->
  commanded t z n d T N s s2.
Proof.
  intros [_ [HN0 HS1] Ho _ Hc Hq Hno] HF HC HL Hy Sy Hd. pose proof (HF (N / turn)) as [F1 F2 F3 F4 F5 F6 F7]. split; [done|..].
  - split; [done|by rewrite F5].
  - intros u v Hu Hv. destruct (Ho u v Hu Hv) as (y' & m & Hy' & Sy' & Hm & Hf). exists y', m. rewrite F6, F7 by done.
    split_and!; [done..| |done]. rewrite HC, calls_of_app, calls_of_callbacks, decide_False by done. lia.
  - by exists y.
  - rewrite HC, calls_of_app, calls_of_callbacks, decide_True by done. lia.
  - done.
  - by rewrite F3.
  - intros u Hu Hnu. rewrite F6 by done. by apply Hno.
Qed.

(** The timer is started from the time [C] at which the command was given. *)
Lemma twp_start C :
  0 <= C <= N -> N < C + turn ->
  let d := Some (C + xTimerPeriodInTicks x) in
  twp (leave_timer_list t;; sample_time (u32 N);; command_start t (u32 C) (u32 N)) (fun _ s' =>
    commanded t x (expiries N x d) (next_deadline N x d) T N s s') s.
Proof.
  intros HC HN d. destruct (to_timer _ _ _ ok t x timer) as [_ HP]. apply twp_ready. intros s1 HR.
  pose proof HR as [[L1 H1] [HN0 HS1] _ (y & Hy & Sy) _ _ _]. unfold command_start. twp_step. apply (twp_get t y); [done|].
  unfold put_timer. twps. destruct (set_active y) as [Hact Sy']. set (z := set_status _ y) in *.
  assert (same_timer x z) as Sz by (by eapply same_timer_trans). rewrite wrapu_add_l, (sm_period _ _ Sy).
  rewrite <- (sm_period _ _ Sz). set (s2 := set_t_timers _ s1).
  assert (t_timers s2 !! t = Some z) as Hz by apply lookup_insert_eq.
  assert (timers_ok (also t no_timer) s2 L1) as H2.
  { apply (ok_put_timer no_timer t y); [done|done|]. by rewrite (sm_period _ _ Sz). }
  apply (twp_insert t z N C s2 L1 _ H2 ltac:(intros []) Hz Hact HC HN). rewrite (sm_period _ _ Sz).
  intros s3 HT3 HC3 HF3 H3. assert (forall e, timer_frame e t s1 s3) as HF.
  { intros e. eapply timer_frame_trans; [apply frame_put|apply HF3]. }
  cbn [expiries next_deadline d]. rewrite Z.ltb_antisym. destruct (Z.leb_spec (C + xTimerPeriodInTicks x) N) as [Hle|Hlt]; cbn [negb].
  - destruct H3 as [L3 H3]. rewrite <- (sm_period _ _ Sz) in *. eapply twp_mono.
    { apply (twp_expire no_timer t N z (C + xTimerPeriodInTicks z) s3 L3 H3 ltac:(intros [])); [by rewrite HT3|done|lia|lia]. }
    intros [] s4 [F4 O4 (y4 & Hy4 & Sy4) (n & HC4 & Hn & Hle4 & Hd4)].
    apply (ready_commanded s1 s4 x y4 _ _ HR);
      [by intros e; eapply timer_frame_trans| |done|done|by eapply same_timer_trans|].
    + rewrite HC4, HC3. cbn. f_equal. unfold callbacks. rewrite (sm_callback _ _ Sz). f_equal.
      rewrite (sm_auto _ _ Sz) in Hd4. destruct (autoreload x); [|by destruct Hd4].
      pose proof (expiry_count N (C + xTimerPeriodInTicks z) _ n (proj1 HP) Hle Hn Hle4 (proj2 Hd4)).
      change (xTimerPeriodInTicks y) with (xTimerPeriodInTicks z). lia.
    + rewrite (sm_auto _ _ Sz) in Hd4. destruct (autoreload x); [|by destruct Hd4].
      pose proof (expiry_count N (C + xTimerPeriodInTicks z) _ n (proj1 HP) Hle Hn Hle4 (proj2 Hd4)) as En.
      destruct Hd4 as [-> _]. by rewrite En.
  - twp_step. destruct H3 as (L3 & H3 & Hd3). apply (ready_commanded s1 s3 x z 0 _ HR); [done| |by eauto|by rewrite HT3|done|done].
    by rewrite HC3, app_nil_r.
Qed.

Lemma twp_stop :
  twp (leave_timer_list t;; sample_time (u32 N);; command_stop t) (fun _ s' => commanded t x 0 None T N s s') s.
Proof.
  apply twp_ready. intros s1 HR. pose proof HR as [[L1 H1] _ _ (y & Hy & Sy) _ _ _]. destruct (to_timer _ _ _ H1 t y Hy) as [_ HP].
  unfold command_stop. twp_step. apply (twp_get t y); [done|]. unfold put_timer. twp_step. destruct (clear_active y) as [Hoff Sz].
  set (z := clear_status _ y) in *. assert (timers_ok (also t no_timer) (set_t_timers (<[t := z]> (t_timers s1)) s1) L1) as H2.
  { apply (ok_put_timer no_timer t y); [done|done|]. by rewrite (sm_period _ _ Sz). }
  apply (ready_commanded s1 _ x z 0 _ HR).
  - intros e. apply frame_put.
  - by rewrite app_nil_r.
  - exists L1. apply (ok_idle no_timer t z); [done|intros []|apply lookup_insert_eq|done].
  - apply lookup_insert_eq.
  - by eapply same_timer_trans.
  - apply (deadline_none _ _ _ _ _ H2). intros l. apply (to_out _ _ _ H2). by left.
Qed.

(** The new period counts from the time at which the command is processed. *)
Lemma twp_change_period P :
  0 < P < turn ->
  twp (leave_timer_list t;; sample_time (u32 N);; command_change_period t P (u32 N)) (fun _ s' =>
    commanded t (set_xTimerPeriodInTicks P x) 0 (Some (N + P)) T N s s') s.
Proof.
  intros HP. apply twp_ready. intros s1 HR. pose proof HR as [[L1 H1] [HN0 _] _ (y & Hy & Sy) _ _ _].
  unfold command_change_period. twp_step. apply (twp_get t y); [done|]. unfold put_timer. twps.
  destruct (set_active y) as [Hact Sz]. set (z := set_xTimerPeriodInTicks P (set_status _ y)).
  rewrite (proj2 (Z.ltb_lt 0 P)) by lia. twps. rewrite wrapu_add_l. set (s2 := set_t_timers _ s1).
  assert (timers_ok (also t no_timer) s2 L1) as H2 by (by apply (ok_put_timer no_timer t y)).
  apply (twp_insert t z N N s2 L1 _ H2); [intros []|apply lookup_insert_eq|done|lia|unfold turn; lia|]. cbn [z xTimerPeriodInTicks set_xTimerPeriodInTicks].
  intros s3 HT3 HC3 HF3 H3. twps. destruct (Z.leb_spec (N + P) N); [lia|]. destruct H3 as (L3 & H3 & Hd3).
  apply (ready_commanded s1 s3 _ z 0 _ HR).
  - intros e. eapply timer_frame_trans; [apply frame_put|apply HF3].
  - by rewrite HC3, app_nil_r.
  - by eauto.
  - rewrite HT3. apply lookup_insert_eq.
  - destruct Sy as [_ E1 E2 E3 E4], Sz as [_ F1 F2 F3 F4].
    split; [done|exact (eq_trans F1 E1)|exact (eq_trans F2 E2)|exact (eq_trans F3 E3)|exact (eq_trans F4 E4)].
  - done.
Qed.

End Command.

(** ** The invariant of the service *)

(** Every deadline is less than a turn of the counter ahead. *)
Definition near (N : Z) (s : timer_state) : Prop := forall u D, deadline (N / turn) s u = Some D -> D < N + turn.

(** The lists hold the active timers by their deadlines; the last look at the
    tick count was at the absolute time [N]. *)
Record service_ok (N : Z) (s : timer_state) : Prop := {
  so_timers : exists L, timers_ok no_timer s L;
  so_sampled : sampled N s;
  so_near : near N s;
}.

Lemma deadline_timer o e s L u D : timers_ok o s L -> deadline e s u = Some D -> is_Some (t_timers s !! u).
Proof.
  intros H HD. unfold deadline in HD. destruct (container (t_lists s) (Item u)) as [l|] eqn:E; [|done].
  apply (st_member _ _ (to_stored _ _ _ H)) in E. by apply (to_member _ _ _ H u l).
Qed.

Lemma fires_near N T x d D' n :
  T <= N -> 0 < xTimerPeriodInTicks x < turn -> (forall D, d = Some D -> D < T + turn) -> fires N x d (Some D') n -> D' < N + turn.
Proof.
  intros HN HP Hd. destruct n as [|n]; cbn [fires]; [intros <-; specialize (Hd D' eq_refl); lia|].
  intros (D & -> & Hle & Hf). destruct (autoreload x); [injection Hf as ->; nia|by destruct Hf].
Qed.

Lemma service_advance T N s s' :
  service_ok T s -> T <= N -> (exists L', timers_ok no_timer s' L') -> sampled N s' -> advances N (T / turn) (N / turn) s s' ->
  service_ok N s'.
Proof.
  intros [[L H] _ Hn] HN [L' H'] HS HA. split; [by eauto|done|]. intros u D' HD'.
  destruct (t_timers s !! u) as [x|] eqn:Hx.
  - destruct (ad_timer _ _ _ _ _ HA u x Hx) as (y & n & _ & _ & _ & Hf). rewrite HD' in Hf.
    eapply (fires_near N T x); [done|apply (to_timer _ _ _ H u x Hx)|intros D HD; by apply (Hn u)|exact Hf].
  - apply (ad_none _ _ _ _ _ HA) in Hx. destruct (deadline_timer _ _ _ _ _ _ H' HD'). congruence.
Qed.

Lemma service_commanded t x n d T N s s' :
  service_ok T s -> T <= N -> is_Some (t_timers s !! t) -> commanded t x n d T N s s' -> (forall D, d = Some D -> D < N + turn) ->
  service_ok N s'.
Proof.
  intros [[L H] _ Hn] HN Ht [[L' H'] HS Ho _ _ Hd _ Hnone] Hdn. split; [by eauto|done|]. intros u D' HD'.
  destruct (decide (u = t)) as [->|Hne]; [apply Hdn; congruence|]. destruct (t_timers s !! u) as [z|] eqn:Hz.
  - destruct (Ho u z Hne Hz) as (y & m & _ & _ & _ & Hf). rewrite HD' in Hf.
    eapply (fires_near N T z); [done|apply (to_timer _ _ _ H u z Hz)|intros D HD; by apply (Hn u)|exact Hf].
  - apply Hnone in Hz; [|done]. destruct (deadline_timer _ _ _ _ _ _ H' HD'). congruence.
Qed.

(** After the expiries up to now the next deadline is less than a turn ahead. *)
Lemma next_deadline_near N x D E :
  0 < xTimerPeriodInTicks x < turn -> D < N + turn -> next_deadline N x (Some D) = Some E -> E < N + turn.
Proof.
  intros HP HD. cbn. destruct (Z.ltb_spec N D); [intros [= <-]; done|]. destruct (autoreload x); intros [= <-].
  pose proof (Z.mul_div_le (N - D) (xTimerPeriodInTicks x)). lia.
Qed.

(** ** New timers *)

(** The lists as [prvCheckForValidListAndQueue] makes them. *)
Lemma service_start s :
  t_lists s = mkLists ∅ ∅ -> t_timers s = ∅ -> xLastTime s = 0 ->
  service_ok 0 (set_pxOverflowTimerList xActiveTimerList2 (set_pxCurrentTimerList xActiveTimerList1
    (set_t_lists (vListInitialise xActiveTimerList2 (vListInitialise xActiveTimerList1 (t_lists s))) s))).
Proof.
  intros Hl Ht Hlast. rewrite Hl. set (s' := set_pxOverflowTimerList _ _).
  assert (stored (mkLists ∅ ∅) ∅) as S0.
  { split; [by intros l ns E; apply lookup_empty_Some in E|by intros i l|done]. }
  destruct (st_initialise _ _ S0 xActiveTimerList1 eq_refl ltac:(done)) as [S1 _].
  destruct (st_initialise _ _ S1 xActiveTimerList2 ltac:(by rewrite members_insert_ne) ltac:(by vm_compute)) as [S2 _].
  set (L := <[xActiveTimerList2 := []]> _) in S2. assert (forall l, members L l = []) as Hm.
  { intros l. unfold members, L. destruct (decide (l = xActiveTimerList2)) as [->|]; [by rewrite lookup_insert_eq|].
    rewrite lookup_insert_ne by done. destruct (decide (l = xActiveTimerList1)) as [->|]; [by rewrite lookup_insert_eq|].
    by rewrite lookup_insert_ne. }
  assert (timers_ok no_timer s' L) as HO.
  { split; try done; cbn.
    - intros l i. rewrite Hm. by intros ?%elem_of_nil.
    - intros l. rewrite Hm. constructor.
    - intros t x. rewrite Ht. by intros ?%lookup_empty_Some.
    - intros t l. rewrite Hm. by intros ?%elem_of_nil.
    - intros t x _. rewrite Ht. by intros ?%lookup_empty_Some. }
  split; [by eauto|done|]. intros u D HD. destruct (deadline_timer _ _ _ _ _ _ HO HD) as [x Hx]. cbn in Hx. rewrite Ht in Hx.
  by apply lookup_empty_Some in Hx.
Qed.

Definition new_timer_item : xLIST_ITEM := mkItem 0 None None None None.

Lemma service_new_timer T s t x :
  service_ok T s -> ~ present (t_lists s) (Item t) -> Z.of_nat (size (items (t_lists s))) + 2 < 2 ^ 32 ->
  0 < xTimerPeriodInTicks x < turn -> active x = false ->
  exists h, vListInitialiseItem t (put_item (Item t) new_timer_item (t_lists s)) = Ok h /\
    let s' := set_t_lists h (set_t_timers (<[t := x]> (t_timers s)) s) in
    service_ok T s' /\ deadline (T / turn) s' t = None /\ (forall u, u <> t -> deadline (T / turn) s' u = deadline (T / turn) s u).
Proof.
  intros [[L H] HS Hn] Hp Hs HP Ha. set (h := put_item (Item t) new_timer_item (t_lists s)). exists h.
  assert (stored h L) as S by (by apply (st_new_item _ _ (to_stored _ _ _ H))).
  assert (items h !! Item t = Some new_timer_item) as Et by apply lookup_insert_eq.
  assert (forall u, u <> t -> items h !! Item u = items (t_lists s) !! Item u) as Hne
    by (intros u Hu; cbn; by rewrite lookup_insert_ne by congruence).
  assert (vListInitialiseItem t h = Ok h) as E.
  { unfold vListInitialiseItem, set_pxContainer, get_item. rewrite Et. cbn. unfold h, put_item. cbn. by rewrite insert_insert_eq. }
  split; [exact E|]. intros s'.
  assert (forall l, t ∉ members L l) as Hout.
  { apply (st_free _ _ (to_stored _ _ _ H)). unfold container. by rewrite (proj2 (eq_None_not_Some _) Hp). }
  assert (forall u l, u ∈ members L l -> u <> t) as Hut by (intros u l Hu ->; by apply (Hout l)).
  assert (timers_ok no_timer s' L) as HO.
  { destruct H as [_ Hc Ho Hd Hl Hso Ht Hm Hac _]. split; try done; cbn.
    - intros l. eapply sorted_ext; [|apply Hso]. intros u Hu. unfold value. rewrite Hne; [done|by eapply Hut].
    - intros u y. destruct (decide (u = t)) as [->|Hu]; [rewrite lookup_insert_eq; intros [= <-]; split; [by exists new_timer_item|done]|].
      rewrite lookup_insert_ne by done. unfold present. rewrite Hne by done. apply Ht.
    - intros u l Hu. destruct (Hm u l Hu) as [Hown Htu]. pose proof (Hut u l Hu). unfold owner. by rewrite Hne, lookup_insert_ne.
    - intros u y _. destruct (decide (u = t)) as [->|Hu].
      + rewrite lookup_insert_eq. intros [= <-]. rewrite Ha. split; [done|]. intros [l Hin]. by apply (Hout l) in Hin.
      + rewrite lookup_insert_ne by done. apply Hac. intros []. }
  assert (forall u, u <> t -> deadline (T / turn) s' u = deadline (T / turn) s u) as Hdl.
  { intros u Hu. apply deadline_ext; cbn; [done|unfold container; by rewrite Hne|unfold value; by rewrite Hne]. }
  assert (deadline (T / turn) s' t = None) as Hdt by (by apply (deadline_none _ _ _ _ _ HO)).
  split; [|done]. split; [by eauto|done|]. intros u D HD. destruct (decide (u = t)) as [->|Hu]; [congruence|].
  rewrite Hdl in HD by done. by apply (Hn u).
Qed.

(** ** How long the timer task sleeps *)

(** The time to the first expiry or, when the current list is empty, to the end
    of the turn of the counter: no timer expires before, and none is left out
    when the task waits for ever. *)
Definition sleep_until (N n : Z) (s : timer_state) : Prop :=
  0 < n < turn /\ (forall u D, deadline (N / turn) s u = Some D -> N + n <= D) /\
  ((exists u, deadline (N / turn) s u = Some (N + n)) \/ (N + n) mod turn = 0).

Definition no_deadline (N : Z) (s : timer_state) : Prop := forall u, deadline (N / turn) s u = None.

Lemma turn_split N : 0 <= N -> N = N / turn * turn + u32 N /\ 0 <= u32 N < turn.
Proof. intros HN. unfold wrapu, turn. pose proof (Z.div_mod N (2 ^ 32)). pose proof (Z.mod_pos_bound N (2 ^ 32)). lia. Qed.

Lemma member_lists {o} s L l u :
  timers_ok o s L -> u ∈ members L l -> l = pxCurrentTimerList s \/ (l = pxOverflowTimerList s /\ l <> pxCurrentTimerList s).
Proof. intros H Hu. destruct (to_lists _ _ _ H l u Hu) as [->| ->]; [by left|right]. split; [done|]. apply not_eq_sym, (to_differ _ _ _ H). Qed.

Lemma deadline_cases {o} e s L u D :
  timers_ok o s L -> deadline e s u = Some D ->
  (u ∈ members L (pxCurrentTimerList s) /\ D = e * turn + value (t_lists s) (Item u)) \/
  (u ∈ members L (pxOverflowTimerList s) /\ D = (e + 1) * turn + value (t_lists s) (Item u)).
Proof.
  intros H HD. unfold deadline in HD. destruct (container (t_lists s) (Item u)) as [l|] eqn:E; [|done]. injection HD as HD.
  apply (st_member _ _ (to_stored _ _ _ H)) in E. destruct (member_lists s L l u H E) as [->|[-> Hne]].
  - left. by rewrite Nat.eqb_refl in HD.
  - right. by rewrite (proj2 (Nat.eqb_neq _ _) Hne) in HD.
Qed.

(** To the first timer of the current list. *)
Lemma sleep_first {o} N s L t ns :
  timers_ok o s L -> 0 <= N -> L !! pxCurrentTimerList s = Some (t :: ns) -> u32 N < value (t_lists s) (Item t) ->
  sleep_until N (u32 (value (t_lists s) (Item t) - u32 N)) s.
Proof.
  intros H HN El Hlt. destruct (turn_split N HN) as [EN Hu]. set (v := value (t_lists s) (Item t)) in *.
  assert (t ∈ members L (pxCurrentTimerList s)) as Hin by (rewrite (members_lookup _ _ _ El); by left).
  pose proof (st_in_range _ _ (to_stored _ _ _ H) _ _ Hin) as Hr. fold v in Hr. unfold in_range in Hr.
  rewrite (wrapu_small 32 (v - u32 N)) by (unfold in_range; lia). unfold turn in Hu.
  split; [unfold turn; lia|]. split; [|left; exists t; rewrite (deadline_in _ _ _ _ _ _ H Hin), Nat.eqb_refl; f_equal; lia].
  intros u D [[Hcur ->]|[Hov ->]]%(deadline_cases _ _ L u D H).
  - pose proof (to_sorted _ _ _ H (pxCurrentTimerList s)) as Hs. rewrite (members_lookup _ _ _ El) in Hs, Hcur.
    pose proof (sorted_head _ _ _ _ Hs Hcur) as Hv. cbn in Hv. fold v in Hv. lia.
  - pose proof (st_in_range _ _ (to_stored _ _ _ H) _ _ Hov) as Hr'. unfold in_range, turn in *. lia.
Qed.

(** To the end of the turn. *)
Lemma sleep_turn {o} N s L u ns :
  timers_ok o s L -> 0 <= N -> near N s -> L !! pxCurrentTimerList s = Some [] -> L !! pxOverflowTimerList s = Some (u :: ns) ->
  sleep_until N (u32 (0 - u32 N)) s.
Proof.
  intros H HN Hnear El Eo. destruct (turn_split N HN) as [EN Hu].
  assert (u ∈ members L (pxOverflowTimerList s)) as Hin by (rewrite (members_lookup _ _ _ Eo); by left).
  pose proof (st_in_range _ _ (to_stored _ _ _ H) _ _ Hin) as Hr. unfold in_range in Hr.
  pose proof (deadline_in _ (N / turn) _ _ _ _ H Hin) as HD.
  rewrite (proj2 (Nat.eqb_neq _ _)) in HD by (apply not_eq_sym, (to_differ _ _ _ H)). specialize (Hnear _ _ HD).
  assert (0 < u32 N) as Hpos by (unfold turn in *; lia).
  assert (u32 (0 - u32 N) = turn - u32 N) as ->.
  { rewrite <- (wrapu_small 32 (turn - u32 N)) by (unfold in_range, turn in *; lia). unfold wrapu, turn.
    rewrite <- (Z_mod_plus_full (0 - N mod 2 ^ 32) 1). f_equal. lia. }
  split; [lia|]. split.
  - intros u' D [[Hcur _]|[Hov ->]]%(deadline_cases _ _ L u' D H).
    + rewrite (members_lookup _ _ _ El) in Hcur. by apply elem_of_nil in Hcur.
    + pose proof (st_in_range _ _ (to_stored _ _ _ H) _ _ Hov) as Hr'. unfold in_range in Hr'. lia.
  - right. replace (N + (turn - u32 N)) with ((N / turn + 1) * turn) by lia. by apply Z_mod_mult.
Qed.

Lemma sleep_for_ever {o} N s L :
  timers_ok o s L -> L !! pxCurrentTimerList s = Some [] -> L !! pxOverflowTimerList s = Some [] -> no_deadline N s.
Proof.
  intros H El Eo u. destruct (deadline (N / turn) s u) as [D|] eqn:E; [|done].
  destruct (deadline_cases _ _ L u D H E) as [[Hin _]|[Hin _]];
    [rewrite (members_lookup _ _ _ El) in Hin|rewrite (members_lookup _ _ _ Eo) in Hin]; by apply elem_of_nil in Hin.
Qed.
