(* ===== verification/FreeRTOSTimersCalls.v ===== *)
(** * The timer task and the calls to it

    The messages to the timer task, the loop that processes them, and the pass in
    which the task serves the timers or blocks, in a kernel that satisfies the
    invariant of the scheduler. *)

From S2P Require Import Prelude FreeRTOSList FreeRTOSListTheory FreeRTOSListStore FreeRTOSHeap FreeRTOSObjects.
From S2P Require Import FreeRTOSTasks FreeRTOSTasksTheory FreeRTOSTasksCalls FreeRTOSTasksInvariant FreeRTOSTasksEvents.
From S2P Require Import FreeRTOSTasksTime FreeRTOSTasksFrame FreeRTOSQueue FreeRTOSQueueFrame FreeRTOSQueueTheory.
From S2P Require Import FreeRTOSQueueCalls FreeRTOSQueueWait FreeRTOSTimers FreeRTOSTimersTheory FreeRTOSTimersService.

(** ** Messages *)

Lemma word_roundtrip v : in_range 32 v -> bytes_word (word_bytes v) = v.
Proof.
  intros Hv. cbn. apply Z.bits_inj'. intros i Hi. unfold wrapu.
  rewrite !Z.lor_spec, !Z.shiftl_spec by lia.
  assert (forall j, Z.testbit (v .>> j) (i - j) = Z.testbit v i \/ i < j) as Hs.
  { intros j. destruct (Z.ltb_spec i j); [by right|]. left. rewrite Z.shiftr_spec by lia. f_equal. lia. }
  assert (forall w n, 0 <= n -> Z.testbit (w mod 2 ^ 8) n = (n <? 8) && Z.testbit w n) as Hm.
  { intros w n Hn. destruct (Z.ltb_spec n 8); [by rewrite Z.mod_pow2_bits_low by lia|by rewrite Z.mod_pow2_bits_high by lia]. }
  assert (forall w n, n < 0 -> Z.testbit w n = false) as Hneg by (intros; by apply Z.testbit_neg_r).
  assert (32 <= i -> Z.testbit v i = false) as Hhigh.
  { intros H32. rewrite <- (Z.mod_small v (2 ^ 32)) by apply Hv. by apply Z.mod_pow2_bits_high. }
  pose proof (Hs 8) as H8. pose proof (Hs 16) as H16. pose proof (Hs 24) as H24.
  assert (forall j, 0 <= j -> Z.testbit ((v .>> j) mod 2 ^ 8) (i - j) = (j <=? i) && (i <? j + 8) && Z.testbit v i) as Hb.
  { intros j Hj. destruct (Z.leb_spec j i) as [Hle|Hlt]; [|by rewrite Hneg by lia].
    rewrite Hm by lia. destruct (Hs j) as [->|?]; [|lia]. f_equal. apply eq_bool_prop_intro. rewrite !Is_true_true, !Z.ltb_lt. lia. }
  rewrite !Hb, Hm by lia. destruct (Z.leb_spec 32 i) as [H32|H32].
  - rewrite (Hhigh H32), !andb_false_r. done.
  - destruct (Z.testbit v i); rewrite ?andb_false_r, ?andb_true_r; [|done].
    apply eq_bool_prop_intro. rewrite !orb_True, !andb_True, !Is_true_true, !Z.ltb_lt, !Z.leb_le. split; [done|]. intros _. lia.
Qed.

(** The words of a message are 32 bits wide. *)
Record message_ok (m : DaemonTaskMessage_t) : Prop := {
  mo_id : - 2 ^ 31 <= xMessageID m < 2 ^ 31;
  mo_word1 : in_range 32 (m_word1 m);
  mo_word2 : in_range 32 (m_word2 m);
  mo_word3 : in_range 32 (m_word3 m);
}.

Lemma message_bytes_roundtrip m : message_ok m -> bytes_message (message_bytes m) = m.
Proof.
  intros [H0 H1 H2 H3]. unfold bytes_message.
  change (take 4 (message_bytes m)) with (word_bytes (u32 (xMessageID m))).
  change (take 4 (drop 4 (message_bytes m))) with (word_bytes (m_word1 m)).
  change (take 4 (drop 8 (message_bytes m))) with (word_bytes (m_word2 m)).
  change (take 4 (drop 12 (message_bytes m))) with (word_bytes (m_word3 m)).
  rewrite !word_roundtrip by (try apply in_range_wrapu; done || lia).
  destruct m as [id w1 w2 w3]. cbn in *. f_equal. unfold wraps, wrapu. rewrite Zplus_mod_idemp_l, Z.mod_small by lia. lia.
Qed.

Lemma message_length m : length (message_bytes m) = 16%nat.
Proof. done. Qed.

(** ** The timers of a kernel *)

Definition timers_of (k : kernel) : timer_state := o_timers (k_objects k).
Definition with_timers (s : timer_state) (k : kernel) : kernel := set_k_objects (set_o_timers s (k_objects k)) k.

Lemma wp_timers {A} (m : TM A) (Q : A -> kernel -> Prop) k :
  twp m (fun a s => Q a (with_timers s k)) (timers_of k) -> wp (timers m) Q k.
Proof. intros (a & s & E & HQ). exists a, (with_timers s k). split; [|done]. unfold timers. unfold timers_of in E. by rewrite E. Qed.

Lemma timers_fault {A} (m : TM A) e k : m (timers_of k) = Fault e -> timers m k = Fault e.
Proof. unfold timers, timers_of. by intros ->. Qed.

Lemma with_timers_with s s' k : with_timers s (with_timers s' k) = with_timers s k.
Proof. done. Qed.

Lemma with_timers_same k : with_timers (timers_of k) k = k.
Proof. destruct k as []. unfold with_timers, timers_of, set_k_objects, set_o_timers. cbn. by destruct k_objects. Qed.

Lemma twp_bind_inv {A B} (m : TM A) (f : A -> TM B) (Q : B -> timer_state -> Prop) s :
  twp (m ≫= f) Q s -> twp m (fun a s' => twp (f a) Q s') s.
Proof.
  intros (b & s2 & E & HQ). unfold mbind, TM_bind in E. destruct (m s) as [[a s1]|] eqn:E1; [|done].
  exists a, s1. split; [done|]. by exists b, s2.
Qed.

Lemma twp_ok {A} (m : TM A) (Q : A -> timer_state -> Prop) s : twp m Q s -> twp m (fun a s' => Q a s' /\ m s = Ok (a, s')) s.
Proof. intros (a & s' & E & H). by exists a, s'. Qed.

(** What the work of the timer task depends on. *)
Definition clock (k : kernel) : timer_state * Z := (timers_of k, xTickCount k).

Lemma clock_inv k k' : clock k' = clock k -> timers_of k' = timers_of k /\ xTickCount k' = xTickCount k.
Proof. intros H. split; [exact (f_equal fst H)|exact (f_equal snd H)]. Qed.

Lemma kl_add_ready t : keeps_part clock (prvAddTaskToReadyList t).
Proof. unfold prvAddTaskToReadyList, taskRECORD_READY_PRIORITY. repeat keep_step. Qed.
#[local] Hint Resolve kl_add_ready : objects.

Lemma kl_remove_event l : keeps_part clock (xTaskRemoveFromEventList l).
Proof. unfold xTaskRemoveFromEventList, prvResetNextTaskUnblockTime. repeat keep_step. Qed.
#[local] Hint Resolve kl_remove_event : objects.

Lemma kl_wake l : keeps_part clock (wake_and_yield l).
Proof. keep wake_and_yield. Qed.
#[local] Hint Resolve kl_wake : objects.

Lemma kl_disinherit h : keeps_part clock (xTaskPriorityDisinherit h).
Proof. keep xTaskPriorityDisinherit. Qed.
#[local] Hint Resolve kl_disinherit : objects.

Lemma kl_try op q s : keeps_part clock (op_try op q s).
Proof.
  destruct op; cbn [op_try]; unfold send_try, receive_try, take_try, peek_try, prvCopyDataToQueue, prvCopyDataFromQueue, must_wait,
    vTaskSetTimeOutState, pvTaskIncrementMutexHeldCount, mutex_holder, recursive_count, fault; repeat keep_step.
Qed.

Section Calls.
Context (sys : system).

Lemma good_timers s k : kernel_good sys k -> kernel_good sys (with_timers s k).
Proof. intros [[L H] [Hq Hn]]. split; [exists L; by apply scheduled_objects|]. by split. Qed.

(** A call on a queue does not touch the timers. *)
Lemma wp_call_clock op q x k :
  kernel_good sys k -> queue_at k q = Some x -> call_allowed x (op_call op) ->
  wp (call_now op q) (fun r k' => served sys q x (op_call op) r k k' /\ clock k' = clock k) k.
Proof.
  intros HG Hq Hc. destruct (wp_call_now sys q x k HG Hq op Hc) as (r & k' & E & HS). exists r, k'. split; [done|]. split; [done|].
  destruct (wp_op_start sys q x k HG Hq op 0 (fun s k' => s = wait_start 0 /\ k' = k) Hc ltac:(by left) ltac:(done))
    as (s & k1 & E1 & -> & ->).
  unfold call_now in E. apply bind_ok in E as (s & k1 & E2 & E). rewrite E1 in E2. injection E2 as <- <-.
  apply bind_ok in E as (s & k1 & E2%kl_try & E). rewrite <- E2. destruct (w_pc s); try done. by injection E as <- <-.
Qed.

(** ** Processing the messages *)

(** What a message does to the timers at the tick count [now]; a deletion is not
    one of these. *)
Definition message_timers (m : DaemonTaskMessage_t) (now : Z) : TM unit :=
  if xMessageID m <? 0 then call_back (PendedCallback (Z.to_nat (m_word1 m)) (m_word2 m) (m_word3 m))
  else command_timers (xMessageID m) (m_word1 m) (Z.to_nat (m_word2 m)) now.

Fixpoint run_messages (now : Z) (ms : list DaemonTaskMessage_t) : TM unit :=
  match ms with [] => mret tt | m :: ms => message_timers m now;; run_messages now ms end.

Lemma wp_process_message m k (Q : unit -> kernel -> Prop) :
  xMessageID m <> tmrCOMMAND_DELETE -> twp (message_timers m (xTickCount k)) (fun a s => Q a (with_timers s k)) (timers_of k) ->
  wp (process_message m) Q k.
Proof.
  intros Hd HT. unfold process_message. unfold message_timers in HT. destruct (xMessageID m <? 0); [by apply wp_timers|].
  unfold process_timer_command, prvSampleTimeNow, xTaskGetTickCount. unfold command_timers in HT.
  apply wp_bind, wp_timers. eapply twp_mono; [exact (twp_bind_inv _ _ _ _ HT)|]. clear HT. intros [] s1 HT. wps.
  apply wp_timers. eapply twp_mono; [exact (twp_bind_inv _ _ _ _ HT)|]. clear HT. intros b s2 HT. wps.
  rewrite (proj2 (Z.eqb_neq _ _) Hd). case_bool_decide; [by apply wp_timers|]. case_bool_decide; [by apply wp_timers|].
  case_bool_decide; [by apply wp_timers|]. wps. by destruct HT as (? & ? & [= <- <-] & HT).
Qed.

(** The state after the messages have been processed: the queue is empty, the
    timers are those of [s]. *)
Record processed (q : nat) (x : Queue_t) (k k' : kernel) : Prop := {
  pr_good : kernel_good sys k';
  pr_queue : exists y, queue_at k' q = Some y /\ contents y = [] /\ same_queue x y /\ locks y = locks x;
  pr_others q' : q' <> q -> queue_at k' q' = queue_at k q';
  pr_tick : xTickCount k' = xTickCount k;
}.

Lemma wp_command_loop ms : forall fuel q x k (Q : unit -> timer_state -> Prop),
  kernel_good sys k -> queue_at k q = Some x -> is_mutex x = false ->
  contents x = message_bytes <$> ms -> Forall (fun m => message_ok m /\ xMessageID m <> tmrCOMMAND_DELETE) ms ->
  (length ms <= fuel)%nat -> twp (run_messages (xTickCount k) ms) Q (timers_of k) ->
  wp (command_loop fuel q) (fun _ k' => processed q x k k' /\ Q tt (timers_of k')) k.
Proof.
  induction ms as [|m ms IH]; intros fuel q x k Q HG Hq Hm Hc Hms Hf HT; (destruct fuel as [|fuel]; cbn [command_loop]);
    try (cbn in Hf; lia); wps;
    (eapply wp_mono; [apply (wp_call_clock OpReceive q x k HG Hq); by split|]);
    intros r k1 [[HG1 Hr _ (y & Hy & Hcy & Sy & Hlk) Ho _] [Et Ek]%clock_inv]; cbn [op_call call_spec] in Hr, Hcy; rewrite Hc in Hr, Hcy;
    cbn [fmap list_fmap receive_spec fst snd] in Hr, Hcy; subst r; wps; cbn [fst] in Hlk.
  1,2: destruct HT as ([] & s & [= <-] & HT); change (errQUEUE_EMPTY =? pdFAIL) with true; cbn match; wps; rewrite Et; split; [|done]; split; [done|exists y; by split_and!|done|done].
  inversion_clear Hms as [|? ? [Hmo Hnd] Hms']. rewrite (message_bytes_roundtrip m Hmo).
  change (pdPASS =? pdFAIL) with false. cbn match. wps. apply wp_process_message; [done|].
  rewrite Ek, Et. cbn [run_messages] in HT. eapply twp_mono; [exact (twp_bind_inv _ _ _ _ HT)|]. intros [] s1 HT1. cbv beta in HT1.
  assert (kernel_good sys (with_timers s1 k1)) as HG1' by (by apply good_timers).
  eapply wp_mono; [apply (IH fuel q y (with_timers s1 k1) Q HG1' Hy)|]; [by rewrite (sq_mutex _ _ Sy)|done|done|cbn in Hf; lia| |].
  { cbn [xTickCount with_timers set_k_objects]. rewrite Ek. exact HT1. }
  intros [] k2 [[HG2 (z & Hz & Hcz & Sz & Hlz) Ho2 Ht2] HQ]. split; [|done]. split; [done|..].
  - exists z. split_and!; [done|done|by eapply same_queue_trans|exact (eq_trans Hlz Hlk)].
  - intros q' Hne. rewrite Ho2 by done. by apply Ho.
  - rewrite Ht2. cbn. done.
Qed.

(** ** A pass of the timer task *)

(** The running task can be suspended on a queue. *)
Record can_block (c : nat) (y : TCB_t) (k : kernel) : Prop := {
  cb_running : pxCurrentTCB k = Some c;
  cb_task : k_tcbs k !! c = Some y;
  cb_idle : c <> idle_task sys;
  cb_ready : ready k c;
  cb_free l : ~ in_list k (xEventListItem c) l;
  cb_notified : ucNotifyState y <> taskWAITING_NOTIFICATION;
  cb_suspended : uxSchedulerSuspended k = 0;
  cb_drained : nothing_pending k;
}.

(** The task waits for a message. *)
Record asleep (c l : nat) (N : Z) (k' : kernel) : Prop := {
  as_event : in_list k' (xEventListItem c) l;
  as_switch : pendsv k' = true;
  as_time : (in_list k' (xStateListItem c) xSuspendedTaskList /\ no_deadline N (timers_of k')) \/
            (delayed k' c /\ sleep_until N (remaining k' c) (timers_of k'));
}.

(** What a pass leaves: the timers are those of [pass_timers], which says whether
    the task goes on; else it sleeps, unless there is a message. *)
Record passed (c q : nat) (x : Queue_t) (T N : Z) (k k' : kernel) : Prop := {
  pa_good : kernel_good sys k';
  pa_pass : exists b, pass_timers (u32 N) (timers_of k) = Ok (b, timers_of k') /\
    (b = true \/ uxMessagesWaiting x <> 0 -> ready k' c) /\
    (b = false -> none_left N (timers_of k') /\ (uxMessagesWaiting x = 0 -> asleep c (xTasksWaitingToReceive x) N k'));
  pa_service : service_ok N (timers_of k');
  pa_advance : advances N (T / turn) (N / turn) (timers_of k) (timers_of k');
  pa_queues : o_queues (k_objects k') = o_queues (k_objects k);
  pa_tick : xTickCount k' = xTickCount k;
  pa_suspended : uxSchedulerSuspended k' = 0;
}.

Section Pass.
Context (c q : nat) (x : Queue_t) (y : TCB_t) (k : kernel) (T N : Z).
Hypothesis good : kernel_good sys k.
Hypothesis blockable : can_block c y k.
Hypothesis timer_queue_is : xTimerQueue (timers_of k) = Some q.
Hypothesis here : queue_at k q = Some x.
Hypothesis unlocked : cTxLock x = queueUNLOCKED /\ cRxLock x = queueUNLOCKED.
Hypothesis service : service_ok T (timers_of k).
Hypothesis later : T <= N < T + turn.
Hypothesis tick : xTickCount k = u32 N.

Let held (s : timer_state) : kernel := with_timers s (set_uxSchedulerSuspended 1 k).
Let locked := set_cTxLock queueLOCKED_UNMODIFIED (set_cRxLock queueLOCKED_UNMODIFIED x).

Lemma held_scheduled s : exists L, scheduled sys (held s) L /\ scheduled sys k L.
Proof.
  destruct good as [[L H] _]. exists L. split; [|done]. apply scheduled_objects, (scheduled_flags sys k); try done.
  by apply ok_suspend_all, H.
Qed.

(** The scheduler is resumed with nothing to do. *)
Lemma wp_resume_held s (Q : bool -> kernel -> Prop) :
  (forall b k', k' = with_timers s k \/ k' = set_pendsv true (with_timers s k) -> Q b k') -> wp xTaskResumeAll Q (held s).
Proof.
  intros HQ. destruct (held_scheduled s) as (L & [HO _ _] & [HOk _ _]). destruct (cb_drained _ _ _ blockable) as [Hpt Hpl].
  assert (set_uxSchedulerSuspended 0 (held s) = with_timers s k) as E.
  { unfold held, with_timers. pose proof (cb_suspended _ _ _ blockable) as Hs. destruct k. cbn in Hs. by subst. }
  eapply (wp_resume_idle sys _ _ L); [exact HO|by apply (pending_empty sys _ _ _ HOk)|done|done|..].
  - intros _. rewrite E. apply HQ. by right.
  - intros b _ _. rewrite E. apply HQ. by left.
Qed.

(** The task goes on. *)
Lemma passed_on s s' k' b :
  k' = with_timers s k \/ k' = set_pendsv true (with_timers s k) -> pass_timers (u32 N) (timers_of k) = Ok (b, s') ->
  b = true \/ uxMessagesWaiting x <> 0 -> (b = false -> none_left N s') -> service_ok N s' ->
  advances N (T / turn) (N / turn) (timers_of k) s' -> passed c q x T N k (with_timers s' k').
Proof.
  intros Hk HP Hb Hn HS HA. pose proof (cb_suspended _ _ _ blockable) as Hs. pose proof (cb_ready _ _ _ blockable) as Hr.
  assert (b = false -> uxMessagesWaiting x <> 0) as Hne by (intros ->; by destruct Hb).
  assert (kernel_good sys (with_timers s k)) as HG by (by apply good_timers).
  destruct Hk as [->| ->]; (split; [apply good_timers|exists b|done|done|done|done|done]); [done| |by apply good_pendsv|];
    (split; [done|]; split; [done|]; intros Eb; split; [by apply Hn|]; intros E0; by destruct (Hne Eb)).
Qed.

(** [vQueueWaitForMessageRestricted]: with a message in the queue nothing
    happens. *)
Lemma wp_wait_message s n b (Q : unit -> kernel -> Prop) :
  (uxMessagesWaiting x <> 0 -> Q tt (held s)) ->
  (uxMessagesWaiting x = 0 -> 0 < n <= portMAX_DELAY \/ b = true) ->
  (forall L L3 k3, uxMessagesWaiting x = 0 -> scheduled sys k L ->
     placed_on sys b (xTasksWaitingToReceive x) (if b then portMAX_DELAY else n) c y (with_queue q locked (held s)) k3 L L3 ->
     Q tt (with_queue q x k3)) ->
  wp (vQueueWaitForMessageRestricted q n b) Q (held s).
Proof.
  intros Hmsg Hn Hempty. destruct (held_scheduled s) as (L & H & Hk). pose proof (sc_ok _ _ _ H) as HO.
  assert (queue_at (held s) q = Some x) as Hq by exact here.
  unfold vQueueWaitForMessageRestricted, prvUnlockQueue. wps. apply (wp_block_lock q x unlocked); [done|]. fold locked.
  wps. eapply wp_get_queue; [apply queue_at_with|]. wps. change (uxMessagesWaiting locked) with (uxMessagesWaiting x).
  destruct (Z.eqb_spec (uxMessagesWaiting x) 0) as [E0|Hne].
  - destruct blockable as [Hc Hy Hid (y' & Hy' & Hr) Hfree Hnot Hs Hd]. rewrite Hy in Hy'. injection Hy' as <-.
    apply (in_list_member sys _ _ _ _ _ _ (sc_ok _ _ _ Hk)) in Hr.
    destruct (ready_priority _ _ _ _ _ c y (ok_tasks _ _ _ _ _ HO) Hy) as [Hp _].
    destruct (ob_queue _ _ (kg_objects _ _ good) q x here) as (_ & _ & _ & Hl).
    eapply (wp_place_restricted sys (with_queue q locked (held s)) L c); [by apply scheduled_objects|done|done|exact Hy|done|exact Hp|
      exact Hr|done|exact Hl| |by apply Hn|].
    { intros l Hi. by apply (Hfree l), (in_list_member sys _ _ _ _ _ _ (sc_ok _ _ _ Hk)). }
    intros k3 L3 HP. apply wp_bind. apply (wp_block_unlock q x unlocked); [|by apply (Hempty L L3)].
    destruct (po_frame _ _ _ _ _ _ _ _ _ _ HP) as (h' & next' & ->). apply queue_at_with.
  - wps. apply (wp_block_unlock q x unlocked); [apply queue_at_with|]. rewrite with_queue_with, (with_queue_same q x (held s) Hq).
    by apply Hmsg.
Qed.

(** The state in which the task sleeps. *)
Lemma passed_asleep s n b L L3 k3 :
  pass_timers (u32 N) (timers_of k) = Ok (false, s) -> service_ok N s -> advances N (T / turn) (N / turn) (timers_of k) s -> none_left N s ->
  (if b : bool then no_deadline N s else sleep_until N n s) -> uxMessagesWaiting x = 0 -> scheduled sys k L ->
  placed_on sys b (xTasksWaitingToReceive x) (if b then portMAX_DELAY else n) c y (with_queue q locked (held s)) k3 L L3 ->
  passed c q x T N k (set_pendsv true (set_uxSchedulerSuspended 0 (with_queue q x k3))).
Proof.
  intros HT HS HA Hnone Hn E0 Hk HP. pose proof (ok_tick _ _ _ _ _ (sc_ok _ _ _ Hk)) as Htick.
  set (n' := if b then portMAX_DELAY else n) in *. assert (0 < n' <= portMAX_DELAY) as Hn'.
  { unfold n'. destruct b; [done|]. destruct Hn as [Hn _]. unfold portMAX_DELAY, turn in *. lia. }
  assert (in_list k3 (xEventListItem c) (xTasksWaitingToReceive x) /\
    if b : bool then in_list k3 (xStateListItem c) xSuspendedTaskList else delayed k3 c /\ remaining k3 c = n) as [Hev Hw].
  { unfold n' in *. destruct b; [destruct (placed_waits sys _ _ _ _ _ _ _ _ HP Htick Hn') as [? H2]; by split|].
    destruct (placed_delayed sys _ _ _ _ _ _ _ _ HP Htick Hn') as (? & ? & ?). by split. }
  destruct HP as [HO3 _ _ _ _ _ (h' & next' & Ek3)].
  assert (o_queues (k_objects (with_queue q x k3)) = o_queues (k_objects k)) as Eq.
  { subst k3. cbn. rewrite insert_insert_eq. by apply insert_id. }
  assert (kernel_ok sys None (xTickCount k + 1) (with_queue q x k3) L3) as HO4 by (destruct HO3; by split).
  set (k5 := set_pendsv true _). assert (timers_of k5 = s) as Et by (by unfold k5; subst k3).
  split; [| |by rewrite Et|by rewrite Et|done|by unfold k5; subst k3|done].
  - split; [exists L3; apply scheduled_pending; [subst k3; by apply ok_pendsv, ok_suspend_all|done]|].
    destruct (kg_objects _ _ good) as [Hob Hnum]. split; cbn; [|by subst k3]. intros q' x'. cbn in Eq. rewrite Eq. apply Hob.
  - exists false. rewrite Et. split; [done|]. split; [by intros [?|?]|]. intros _. split; [done|]. intros _. split; [exact Hev|done|]. rewrite Et. destruct b; [by left|right].
    destruct Hw as [Hd Hr]. split; [exact Hd|]. change (remaining _ c) with (remaining k3 c). by rewrite Hr.
Qed.

Lemma wp_pass_sleep s n b :
  pass_timers (u32 N) (timers_of k) = Ok (false, s) -> service_ok N s -> advances N (T / turn) (N / turn) (timers_of k) s -> none_left N s ->
  (if b : bool then no_deadline N s else sleep_until N n s) ->
  wp (vQueueWaitForMessageRestricted q n b;; b' ← xTaskResumeAll; when (negb b') portYIELD_WITHIN_API)
    (fun _ k' => passed c q x T N k k') (held s).
Proof.
  intros HT HS HA Hnone Hn. apply wp_bind, wp_wait_message.
  - intros Hmsg. apply wp_bind, wp_resume_held. intros b' k' Hk'. apply wp_when; intros _; wps.
    + rewrite <- (with_timers_same (set_pendsv true k')).
      replace (timers_of (set_pendsv true k')) with s by (by destruct Hk' as [->| ->]).
      eapply passed_on; [|exact HT|by right|done|done|done]. right. destruct Hk' as [->| ->]; done.
    + rewrite <- (with_timers_same k'). replace (timers_of k') with s by (by destruct Hk' as [->| ->]).
      eapply passed_on; [exact Hk'|exact HT|by right|done|done|done].
  - intros _. destruct b; [by right|left]. destruct Hn as [Hn _]. unfold portMAX_DELAY, turn in *. lia.
  - intros L L3 k3 E0 Hk HP. pose proof (passed_asleep s n b L L3 k3 HT HS HA Hnone Hn E0 Hk HP) as Hend.
    destruct (po_frame _ _ _ _ _ _ _ _ _ _ HP) as (h' & next' & Ek3). destruct (cb_drained _ _ _ blockable) as [Hpt Hpl].
    assert (members L3 xPendingReadyList = []) as H7.
    { apply (po_pending _ _ _ _ _ _ _ _ _ _ HP). by apply (pending_empty sys _ _ _ (sc_ok _ _ _ Hk)). }
    assert (kernel_ok sys None (xTickCount k + 1) (with_queue q x k3) L3) as HO4 by (destruct (po_ok _ _ _ _ _ _ _ _ _ _ HP); by split).
    apply wp_bind. eapply (wp_resume_idle sys _ _ L3); [exact HO4|exact H7|by subst k3|by subst k3|..].
    + intros _. cbn [negb when]. wps. exact Hend.
    + intros b' _ ->. cbn [negb when]. wps. exact Hend.
Qed.

(** The last branch of [prvProcessTimerOrBlockTask]: no timer is due. *)
Lemma wp_pass_block s L ns :
  pass_timers (u32 N) (timers_of k) = Ok (false, s) ->
  timers_ok no_timer s L -> service_ok N s -> advances N (T / turn) (N / turn) (timers_of k) s -> xTimerQueue s = Some q ->
  L !! pxCurrentTimerList s = Some ns -> (forall t ns', ns = t :: ns' -> u32 N < value (t_lists s) (Item t)) ->
  let r := match ns with [] => (0, true) | t :: _ => (value (t_lists s) (Item t), false) end in
  wp (xListWasEmpty ← (if r.2 then l ← timers (tgets pxOverflowTimerList); timers (ask_timer_lists (listLIST_IS_EMPTY l)) else mret false);
      q ← timer_queue;
      vQueueWaitForMessageRestricted q (u32 (r.1 - u32 N)) xListWasEmpty;;
      b ← xTaskResumeAll; when (negb b) portYIELD_WITHIN_API)
    (fun _ k' => passed c q x T N k k') (held s).
Proof.
  intros HT H HS HA Hq El Hhead r. destruct (so_sampled _ _ HS) as [HN _]. pose proof (none_due N s L ns H El HN Hhead) as Hnone.
  assert (forall b, (if b : bool then no_deadline N s else sleep_until N (u32 (r.1 - u32 N)) s) ->
    wp (q ← timer_queue; vQueueWaitForMessageRestricted q (u32 (r.1 - u32 N)) b;; b' ← xTaskResumeAll; when (negb b') portYIELD_WITHIN_API)
      (fun _ k' => passed c q x T N k k') (held s)) as Hsleep.
  { intros b Hb. unfold timer_queue, get_timers. wps. change (o_timers (k_objects (held s))) with s. rewrite Hq.
    eapply wp_lift; [done|]. by apply wp_pass_sleep. }
  destruct ns as [|t ns]; cbn [r fst snd] in *.
  - destruct (to_overflow _ _ _ H) as [os Eo]. wps. apply wp_timers. change (timers_of (held s)) with s. twps.
    apply wp_timers. change (timers_of (with_timers s (held s))) with s. eapply twp_ask; [by apply (st_empty _ _ (to_stored _ _ _ H))|].
    change (with_timers s (with_timers s (held s))) with (held s). apply Hsleep. case_bool_decide as Eos.
    + subst os. by apply (sleep_for_ever N s L H).
    + destruct os as [|u os]; [done|]. by apply (sleep_turn N s L u os H HN (so_near _ _ HS)).
  - apply wp_bind, wp_ret. apply Hsleep. apply (sleep_first N s L t ns H HN El). by apply (Hhead t ns).
Qed.

Lemma wp_timer_pass : wp timer_task_pass (fun _ k' => passed c q x T N k k') k.
Proof.
  destruct service as [[L H] HS Hnear]. pose proof HS as [HT0 _]. unfold timer_task_pass. apply wp_bind, wp_timers.
  eapply twp_mono; [apply twp_ok, (twp_next_expire _ L (fun r s => s = timers_of k /\ exists ns, L !! pxCurrentTimerList s = Some ns /\
    r = match ns with [] => (0, true) | t :: _ => (value (t_lists s) (Item t), false) end) H); by eauto|].
  intros r s0 [[-> (ns & El & Er)] Ep]. rewrite with_timers_same. assert (r = (r.1, r.2)) as Erp by (by destruct r). rewrite Erp. cbv beta match.
  unfold prvProcessTimerOrBlockTask, prvSampleTimeNow, xTaskGetTickCount. apply wp_bind, wp_suspend_first; [apply blockable|].
  wps. apply wp_timers. kcbn. rewrite tick. change (timers_of (set_uxSchedulerSuspended 1 k)) with (timers_of k).
  eapply twp_mono; [apply twp_ok, (twp_sample T N _ L H HS later)|]. intros sw s1 [(HL1 & HS1 & HA1 & Esw & Hs1) Es].
  assert (service_ok N s1) as HV1 by (by apply (service_advance T N (timers_of k)); [done|lia|..]).
  assert (forall b s2, (if sw then mret true else if negb r.2 && (r.1 <=? u32 N) then prvProcessExpiredTimer r.1 (u32 N);; mret true
    else mret false : TM bool) s1 = Ok (b, s2) -> pass_timers (u32 N) (timers_of k) = Ok (b, s2)) as HP.
  { intros b s2 E. unfold pass_timers, mbind, TM_bind in *. rewrite Ep, Erp, Es. exact E. }
  wps. fold (held s1). destruct sw.
  { wps. apply wp_resume_held. intros b k' Hk'. wps. rewrite <- (with_timers_same k').
    replace (timers_of k') with s1 by (by destruct Hk' as [->| ->]).
    eapply passed_on; [exact Hk'|by apply (HP true)|by left|done|done|done]. }
  specialize (Hs1 eq_refl). assert (timers_ok no_timer s1 L) as H1 by (subst s1; destruct H; by split).
  assert (L !! pxCurrentTimerList s1 = Some ns) as El1 by (by subst s1).
  assert (r = match ns with [] => (0, true) | t :: _ => (value (t_lists s1) (Item t), false) end) as Er1 by (by subst s1).
  destruct (negb r.2 && (r.1 <=? u32 N)) eqn:Hdue.
  - apply andb_true_iff in Hdue as [He Hle]. destruct ns as [|t ns]; [by rewrite Er1 in He|].
    wps. apply wp_resume_held. intros b k' Hk'. apply wp_timers.
    replace (timers_of k') with s1 by (by destruct Hk' as [->| ->]). destruct (turn_split N ltac:(lia)) as [EN _].
    rewrite Er1 in Hle, HP |- *. cbn [fst] in *.
    eapply twp_mono; [apply twp_ok, (twp_process_expired N s1 L t ns H1 El1); lia|]. intros [] s2 [(HL2 & HA2 & (_ & _ & HL) & _) E2].
    assert (advances N (T / turn) (N / turn) (timers_of k) s2) as HA by exact (advance_trans N N _ _ _ _ _ _ (Z.le_refl N) HA1 HA2).
    eapply passed_on; [exact Hk'|apply (HP true)|by left|done| |exact HA].
    { unfold mbind, TM_bind. by rewrite E2. }
    apply (service_advance T N (timers_of k)); [done|lia|done| |done]. destruct HS1 as [? HS1]. split; [lia|congruence].
  - rewrite Er1. apply (wp_pass_block s1 L ns); [by apply HP|done|done|done|by rewrite (ad_queue _ _ _ _ _ HA1)|done|].
    intros t ns' ->. rewrite Er1 in Hdue. cbn in Hdue. lia.
Qed.

End Pass.

(** ** Commands *)

(** The queue of the timer service, with the messages [ms]. *)
Record command_queue (q : nat) (x : Queue_t) (ms : list DaemonTaskMessage_t) (k : kernel) : Prop := {
  cq_timers : xTimerQueue (timers_of k) = Some q;
  cq_here : queue_at k q = Some x;
  cq_mutex : is_mutex x = false;
  cq_size : uxItemSize x = sizeof_DaemonTaskMessage_t;
  cq_contents : contents x = message_bytes <$> ms;
  cq_messages : Forall message_ok ms;
}.

Lemma wp_process_received q x ms k s' :
  kernel_good sys k -> command_queue q x ms k -> Forall (fun m => xMessageID m <> tmrCOMMAND_DELETE) ms ->
  run_messages (xTickCount k) ms (timers_of k) = Ok (tt, s') ->
  wp prvProcessReceivedCommands (fun _ k' => processed q x k k' /\ timers_of k' = s') k.
Proof.
  intros HG [Hq Hx Hm Hs Hc Hok] Hdel HR. unfold prvProcessReceivedCommands, timer_queue, get_timers. wps.
  change (o_timers (k_objects k)) with (timers_of k). rewrite Hq. eapply wp_lift; [done|]. wps. apply (wp_get_queue q x); [done|].
  apply (wp_command_loop ms _ q x k (fun _ s => s = s')); try done.
  - by apply Forall_and.
  - destruct (ob_queue _ _ (kg_objects _ _ HG) q x Hx) as (_ & Hqo & _). pose proof (queue_contents_length q x Hqo) as Hl.
    rewrite Hc, length_fmap in Hl. lia.
  - by exists tt, s'.
Qed.

(** A command from a task is put behind the others, when there is room. *)
Lemma wp_generic_command q x ms k t id v rest (Q : Z * bool -> kernel -> Prop) :
  kernel_good sys k -> command_queue q x ms k -> t <> 0%nat -> id < tmrFIRST_FROM_ISR_COMMAND ->
  message_ok (mkMessage id v (Z.of_nat t) rest) ->
  let room := Z.of_nat (length ms) <? uxLength x in
  (forall k' y, kernel_good sys k' -> command_queue q y (if room then ms ++ [mkMessage id v (Z.of_nat t) rest] else ms) k' ->
     clock k' = clock k -> same_queue x y -> locks y = locks x -> (forall q', q' <> q -> queue_at k' q' = queue_at k q') ->
     Q (if room then pdPASS else pdFAIL, false) k') ->
  wp (xTimerGenericCommand t id v rest false) Q k.
Proof.
  intros HG [Hq Hx Hm Hs Hc Hok] Ht Hid Hmo room HQ. unfold xTimerGenericCommand, get_timers. wps.
  apply wp_configASSERT; [by destruct t|]. wps. change (o_timers (k_objects k)) with (timers_of k). rewrite Hq.
  rewrite (proj2 (Z.ltb_lt _ _) Hid). unfold send_now. wps.
  set (m := mkMessage id v (Z.of_nat t) rest) in *. fold m. change (command_message t id v rest) with (message_bytes m).
  eapply wp_mono; [apply (wp_call_clock (OpSend (Some (message_bytes m)) queueSEND_TO_BACK) q x k HG Hx)|].
  { split; [done|]. split; [done| |by left]. intros _. exists (message_bytes m). split; [done|]. unfold item_size. by rewrite Hs. }
  intros r k' [[HG' Hr _ (y & Hy & Hcy & Sy & Hlk) Ho _] Hck]. pose proof (clock_inv _ _ Hck) as [Et _].
  cbn [op_call call_spec] in Hr, Hcy. unfold send_spec in Hr, Hcy. rewrite Hc, length_fmap, orb_false_r in Hr, Hcy. fold room in Hr, Hcy.
  destruct r as [r d]. wps. replace r with (if room then pdPASS else pdFAIL) by (by destruct room; injection Hr).
  apply (HQ k' y); try done; [|cbn [fst] in Hlk; by destruct (r =? pdPASS)].
  split; [by rewrite Et|done|by rewrite (sq_mutex _ _ Sy)|by rewrite (sq_size _ _ Sy)| |].
  - rewrite Hcy. unfold payload. rewrite Hs. destruct room; [|done]. by rewrite fmap_app.
  - destruct room; [|done]. apply Forall_app. by split; [|constructor].
Qed.

(** The command and the work of the timer task on all the messages. *)
Definition command_and_work (t : nat) (id v rest : Z) : KM Z :=
  '(r, _) ← xTimerGenericCommand t id v rest false; prvProcessReceivedCommands;; mret r.

Lemma wp_command_and_work q x ms k t id v rest s' :
  kernel_good sys k -> command_queue q x ms k -> Forall (fun m => xMessageID m <> tmrCOMMAND_DELETE) ms ->
  t <> 0%nat -> id < tmrFIRST_FROM_ISR_COMMAND -> id <> tmrCOMMAND_DELETE -> message_ok (mkMessage id v (Z.of_nat t) rest) ->
  let room := Z.of_nat (length ms) <? uxLength x in
  run_messages (xTickCount k) (if room then ms ++ [mkMessage id v (Z.of_nat t) rest] else ms) (timers_of k) = Ok (tt, s') ->
  wp (command_and_work t id v rest) (fun r k' => r = (if room then pdPASS else pdFAIL) /\ processed q x k k' /\ timers_of k' = s') k.
Proof.
  intros HG HC Hdel Ht Hid Hnd Hmo room HR. unfold command_and_work. apply wp_bind.
  apply (wp_generic_command q x ms k t id v rest _ HG HC Ht Hid Hmo). fold room. intros k1 y HG1 HC1 [Et Ek]%clock_inv Sy Hlk Ho.
  wps. eapply wp_mono; [apply (wp_process_received q y _ k1 s' HG1 HC1)|].
  - destruct room; [|done]. apply Forall_app. by split; [|constructor].
  - by rewrite Et, Ek.
  - intros [] k2 [[HG2 (z & Hz & Hcz & Sz & Hlz) Ho2 Ht2] HT]. wps. split; [done|]. split; [|done]. split; [done|..].
    + exists z. split_and!; [done|done|by eapply same_queue_trans|congruence].
    + intros q' Hq'. by rewrite Ho2, Ho.
    + congruence.
Qed.

(** ** Deletion *)

(** The first part of a call returns, and the rest stops. *)
Lemma stops_bind {A B} (m : KM A) (f : A -> KM B) e k : wp m (fun a k' => f a k' = Fault e) k -> (m ≫= f) k = Fault e.
Proof. intros (a & k' & E & H). unfold mbind, KM_bind. by rewrite E. Qed.

(** The heap of the demo cannot free memory: the command to delete a timer of
    [xTimerCreate] stops in the assertion of [vPortFree]. *)
Lemma process_delete_fault m k T N x :
  service_ok T (timers_of k) -> T <= N < T + turn -> xTickCount k = u32 N -> xMessageID m = tmrCOMMAND_DELETE ->
  t_timers (timers_of k) !! Z.to_nat (m_word2 m) = Some x -> static_memory x = false ->
  process_message m k = Fault AssertFailed.
Proof.
  intros [[L H] HS _] HN Hk Hid Hx Hst. unfold process_message, process_timer_command. rewrite Hid.
  set (t := Z.to_nat (m_word2 m)) in *. change (tmrCOMMAND_DELETE <? 0) with false. cbn match.
  pose proof (twp_ready t T N _ L x H HS HN Hx (mret tt) (fun _ s' => ready_for_command t T N (timers_of k) x s')
    ltac:(intros; by apply twp_ret)) as HW. apply twp_bind_inv in HW.
  apply stops_bind, wp_timers. eapply twp_mono; [exact HW|]. intros [] s1 HW1. cbv beta in HW1. apply twp_bind_inv in HW1.
  apply stops_bind. unfold prvSampleTimeNow, xTaskGetTickCount. wps. cbn [xTickCount with_timers set_k_objects]. rewrite Hk.
  apply wp_timers. eapply twp_mono; [exact HW1|]. intros b s2 (? & ? & [= <- <-] & HR). wps.
  change (bool_decide _) with false at 1. cbn match. change (bool_decide _) with false at 1. cbn match. change (bool_decide _) with false at 1.
  destruct (rc_timer _ _ _ _ _ _ HR) as (y & Hy & Sy). cbn match. apply stops_bind, wp_timers, (twp_get t y); [done|].
  change (has_status tmrSTATUS_IS_STATICALLY_ALLOCATED y) with (static_memory y). by rewrite (sm_static _ _ Sy), Hst.
Qed.

(** The messages before it are processed, those behind it are not reached. *)
Lemma received_delete_fault q x m ms k T N y :
  kernel_good sys k -> command_queue q x (m :: ms) k -> service_ok T (timers_of k) -> T <= N < T + turn -> xTickCount k = u32 N ->
  xMessageID m = tmrCOMMAND_DELETE -> t_timers (timers_of k) !! Z.to_nat (m_word2 m) = Some y -> static_memory y = false ->
  prvProcessReceivedCommands k = Fault AssertFailed.
Proof.
  intros HG [Hq Hx Hm Hs Hc Hok] HS HN Hk Hid Hy Hst. unfold prvProcessReceivedCommands, timer_queue, get_timers.
  apply stops_bind. wps. change (o_timers (k_objects k)) with (timers_of k). rewrite Hq. eapply wp_lift; [done|].
  apply stops_bind, (wp_get_queue q x); [done|].
  destruct (ob_queue _ _ (kg_objects _ _ HG) q x Hx) as (_ & Hqo & _). pose proof (queue_contents_length q x Hqo) as Hl.
  rewrite Hc, length_fmap in Hl. cbn [length] in Hl. destruct (Z.to_nat (uxMessagesWaiting x)) as [|fuel] eqn:Ef; [lia|].
  cbn [command_loop]. apply stops_bind. eapply wp_mono; [apply (wp_call_clock OpReceive q x k HG Hx); by split|].
  intros r k1 [[_ Hr _ _ _ _] [Et Ek]%clock_inv]. cbn [op_call call_spec] in Hr. rewrite Hc in Hr.
  cbn [fmap list_fmap receive_spec fst] in Hr. subst r. inversion_clear Hok as [|? ? Hmo _]. rewrite (message_bytes_roundtrip m Hmo).
  change (pdPASS =? pdFAIL) with false. cbn match. unfold mbind at 1, KM_bind at 1.
  rewrite (process_delete_fault m k1 T N y); [done|by rewrite Et|done|congruence|done|by rewrite Et|done].
Qed.

(** ** Creation *)

(** The state after [xTimerCreate]: a new timer that is not active. *)
Record timer_created (h : heap_state) (t : nat) (x : Timer_t) (T : Z) (k k' : kernel) : Prop := {
  tc_good : kernel_good sys k';
  tc_service : service_ok T (timers_of k');
  tc_timers : t_timers (timers_of k') = <[t := x]> (t_timers (timers_of k));
  tc_deadline : deadline (T / turn) (timers_of k') t = None;
  tc_others u : u <> t -> deadline (T / turn) (timers_of k') u = deadline (T / turn) (timers_of k) u;
  tc_queues : o_queues (k_objects k') = o_queues (k_objects k);
  tc_queue : xTimerQueue (timers_of k') = xTimerQueue (timers_of k);
  tc_tick : xTickCount k' = xTickCount k;
  tc_heap : k_heap k' = h;
}.

Lemma good_heap h k : kernel_good sys k -> kernel_good sys (set_k_heap h k).
Proof. intros [[L [[] HP HR]] [Hq Hn]]. split; [exists L; by split; [split|..]|by split]. Qed.

(** The status of a new timer. *)
Definition new_status (xAutoReload : bool) : Z := if xAutoReload then tmrSTATUS_IS_AUTORELOAD else 0.

Lemma wp_timer_create ucHeap name period (xAutoReload : bool) id callback k T p h :
  kernel_good sys k -> service_ok T (timers_of k) -> is_Some (xTimerQueue (timers_of k)) -> 0 < period < turn ->
  Z.of_nat (size (items (t_lists (timers_of k)))) + 2 < 2 ^ 32 ->
  pvPortMalloc ucHeap sizeof_Timer_t (k_heap k) = (p, h) ->
  (forall a, p = Some a -> ~ present (t_lists (timers_of k)) (Item (Z.to_nat a))) ->
  wp (xTimerCreate ucHeap name period xAutoReload id callback) (fun r k' => r = Z.to_nat <$> p /\
    match p with
    | Some a => timer_created h (Z.to_nat a) (mkTimer name period id callback 0 (new_status xAutoReload)) T k k'
    | None => k' = set_k_heap h k
    end) k.
Proof.
  intros HG HS [q Hq] HP Hsz Hm Hf. unfold xTimerCreate. apply wp_bind. exists p, (set_k_heap h k). unfold malloc. rewrite Hm.
  split; [done|]. destruct p as [a|]; [|by wps]. cbv zeta. set (t := Z.to_nat a) in *. wps. unfold prvInitialiseNewTimer. wps.
  apply wp_configASSERT; [lia|]. wps. unfold prvCheckForValidListAndQueue, get_timers, put_timers. wps.
  change (o_timers (k_objects (set_k_heap h k))) with (timers_of k). rewrite Hq. wps.
  set (x := mkTimer name period id callback 0 (new_status xAutoReload)).
  destruct (service_new_timer T (timers_of k) t x HS (Hf a eq_refl) Hsz HP ltac:(by destruct xAutoReload)) as (hl & E & HS' & Hd & Ho).
  eapply wp_lift; [exact E|]. wps. replace (if xAutoReload then _ else _) with (new_status xAutoReload) by (by destruct xAutoReload).
  fold x. split; [done|]. split; try done. apply good_timers. by apply good_heap.
Qed.

End Calls.
