(* ===== verification/FreeRTOSBoot.v ===== *)
(** * The firmware starts

    [main] of [FreeRTOS_Demo/src/main.c] as far as the kernel is concerned: two
    binary semaphores, two tasks, one give, and [vTaskStartScheduler], which adds
    the idle task, the queue of the timer service and its task.  With the
    configured heap every call succeeds, and the kernel that results satisfies
    the invariants of the scheduler and of the queues. *)

From S2P Require Import Prelude FreeRTOSList FreeRTOSListTheory FreeRTOSListStore FreeRTOSHeap FreeRTOSObjects.
From S2P Require Import FreeRTOSTasks FreeRTOSTasksTheory FreeRTOSTasksCalls FreeRTOSTasksInvariant FreeRTOSTasksEvents.
From S2P Require Import FreeRTOSTasksFrame FreeRTOSTasksBoot FreeRTOSQueue FreeRTOSQueueTheory FreeRTOSQueueCalls.
From S2P Require Import FreeRTOSQueueWait FreeRTOSSystem FreeRTOSSystemTheory FreeRTOSTimers.
From S2P Require Import FreeRTOSTimersTheory FreeRTOSTimersService.

(** ** The program *)

(** [queueQUEUE_TYPE_BINARY_SEMAPHORE] and the macro of [semphr.h]. *)
Definition queueQUEUE_TYPE_BINARY_SEMAPHORE : Z := 3.

Definition xSemaphoreCreateBinary (ucHeap : Z) : KM (option nat) :=
  xQueueGenericCreate ucHeap 1 queueSEMAPHORE_QUEUE_ITEM_LENGTH queueQUEUE_TYPE_BINARY_SEMAPHORE.

(** The null handle is 0. *)
Definition xSemaphoreGive (xSemaphore : option nat) : KM Z :=
  send_now (default 0%nat xSemaphore) None queueSEND_TO_BACK.

Definition main_TASK_PRIORITY : Z := 2.

(** [main], from the creation of the semaphores on; it returns the handles of
    [consumer_go] and [producer_go]. *)
Definition firmware_main (ucHeap : Z) : KM (option nat * option nat) :=
  consumer_go ← xSemaphoreCreateBinary ucHeap;
  producer_go ← xSemaphoreCreateBinary ucHeap;
  xTaskCreate ucHeap configMINIMAL_STACK_SIZE main_TASK_PRIORITY;;
  xTaskCreate ucHeap configMINIMAL_STACK_SIZE main_TASK_PRIORITY;;
  xSemaphoreGive producer_go;;
  vTaskStartScheduler ucHeap (xTimerCreateTimerTask ucHeap);;
  mret (consumer_go, producer_go).

(** ** A new queue *)

Definition new_queue (q l : nat) (len size type : Z) : Queue_t :=
  let head := if size =? 0 then Z.of_nat q else storage_start q in
  mkQueue (Some head) head (u_xQueue (head + len * size) (head + (len - 1) * size)) l (S l) 0 len size queueUNLOCKED
    queueUNLOCKED 0 type (replicate (Z.to_nat (len * size)) 0).

Lemma new_queue_ok q l len size type :
  1 <= len < 2 ^ 32 -> 0 <= size -> queue_ok q (new_queue q l len size type).
Proof.
  intros Hl Hs. split; cbn; try done.
  - lia.
  - intros E0. assert (read_place (new_queue q l len size type) = len - 1) as Er.
    { unfold read_place, new_queue. cbn. rewrite (proj2 (Z.eqb_neq _ _) E0).
      replace (storage_start q + (len - 1) * size - storage_start q) with ((len - 1) * size) by lia.
      by rewrite Z.div_mul. }
    split; rewrite ?Er; cbn; rewrite ?(proj2 (Z.eqb_neq _ _) E0); try done; [lia| |].
    + replace (len - 1 + 1 + 0) with len by lia. rewrite Z.mod_same by lia. lia.
    + rewrite length_replicate. nia.
Qed.

Lemma new_queue_contents q l len size type : contents (new_queue q l len size type) = [].
Proof. unfold contents. cbn. by destruct (size =? 0). Qed.

Definition queue_memory (len size : Z) : Z := align_size (sizeof_Queue_t + len * size).

Section Create.
Context (ucHeap : Z).
Hypothesis heap_start : 0 < ucHeap.
Hypothesis heap_end : ucHeap + configTOTAL_HEAP_SIZE <= 2 ^ 32.

(** The kernel with a new queue of two new lists. *)
Definition new_lists (l : nat) (k : kernel) : kernel :=
  set_k_lists (vListInitialise (S l) (vListInitialise l (k_lists k))) k.

Definition fresh_lists (k : kernel) : nat := (first_event_list + lists_used (k_objects k))%nat.

Lemma wp_initialise_queue k q len size type (Q : unit -> kernel -> Prop) :
  q <> 0%nat -> 1 <= len < 2 ^ 32 -> 0 <= size -> len * size < 2 ^ 31 ->
  Q tt (with_queue q (new_queue q (fresh_lists k) len size type) (new_lists (fresh_lists k) k)) ->
  wp (prvInitialiseNewQueue len size type q) Q k.
Proof.
  intros Hq Hl Hs Hls HQ. unfold prvInitialiseNewQueue. wps. fold (fresh_lists k). apply wp_put_queue. wps.
  assert (size <= SIZE_MAX / len) as Hdiv by (apply Z.div_le_lower_bound; unfold SIZE_MAX; nia).
  unfold xQueueGenericReset. wps. apply wp_configASSERT; [by destruct q|]. wps.
  eapply wp_get_queue; [apply queue_at_with|]. cbn [uxLength uxItemSize].
  rewrite (proj2 (Z.leb_le 1 len)), Z.geb_leb, (proj2 (Z.leb_le _ _) Hdiv) by lia. cbn [andb]. wps. apply wp_put_queue.
  rewrite with_queue_with. wps. cbn [xTasksWaitingToSend xTasksWaitingToReceive].
  eapply wp_do; [done|]. wps. eapply wp_do; [done|]. wps. apply wp_configASSERT; [done|]. wps.
  eapply wp_get_queue; [apply lookup_insert_eq|]. apply wp_put_queue.
  set (y := set_ucQueueType type _).
  assert (y = new_queue q (fresh_lists k) len size type) as Ey.
  { unfold y, new_queue, reset_queue, reset_union. cbn.
    rewrite (wrapu_small 32 (len - 1)) by (unfold in_range; lia). rewrite !(wrapu_small 32) by (unfold in_range; nia).
    done. }
  rewrite <- Ey in HQ. clearbody y. unfold with_queue, new_lists in *. cbn in *. by rewrite insert_insert_eq.
Qed.

(** The addresses the allocator hands out next. *)
Definition next_address (k : kernel) : Z := heap_base ucHeap + xNextFreeByte (k_heap k).

Lemma next_address_range k bs : heap_ok ucHeap (k_heap k) bs -> 0 < next_address k.
Proof.
  intros (_ & _ & Hn & _). pose proof (aligned_start_range ucHeap). unfold next_address, heap_base. lia.
Qed.

Definition allocated (m : Z) (k : kernel) : kernel :=
  set_k_heap (mkHeapState (xNextFreeByte (k_heap k) + m) (Some (heap_base ucHeap))) k.

Lemma wp_create_queue k bs len size type (Q : option nat -> kernel -> Prop) :
  heap_ok ucHeap (k_heap k) bs -> 1 <= len < 2 ^ 30 -> 0 <= size -> len * size < 2 ^ 30 ->
  xNextFreeByte (k_heap k) + queue_memory len size < configADJUSTED_HEAP_SIZE ->
  (let q := Z.to_nat (next_address k) in
   (exists bs', heap_ok ucHeap (k_heap (allocated (queue_memory len size) k)) bs') ->
   sizeof_Queue_t <= queue_memory len size ->
   Q (Some q) (with_queue q (new_queue q (fresh_lists k) len size type)
     (new_lists (fresh_lists k) (allocated (queue_memory len size) k)))) ->
  wp (xQueueGenericCreate ucHeap len size type) Q k.
Proof.
  intros Hh Hl Hs Hls Hroom HQ. unfold xQueueGenericCreate, sizeof_Queue_t in *.
  assert (size <= SIZE_MAX / len) as Hdiv by (apply Z.div_le_lower_bound; unfold SIZE_MAX; nia).
  rewrite (wrapu_small 32 (len * size)) by nia. rewrite (wrapu_small 32) by nia.
  rewrite (proj2 (Z.ltb_lt 0 len)), !Z.geb_leb, (proj2 (Z.leb_le _ _) Hdiv), (proj2 (Z.leb_le _ _)) by (unfold SIZE_MAX; nia).
  cbn [andb]. wps. unfold queue_memory, sizeof_Queue_t in *.
  destruct (malloc_success ucHeap heap_start heap_end (80 + len * size) _ bs Hh) as (_ & Hh' & Hal); [nia|done|].
  eapply wp_malloc; [done|done|exact Hh|nia|done|]. cbv beta match zeta. fold (next_address k).
  pose proof (next_address_range k bs Hh).
  wp_step. eapply wp_initialise_queue; [lia|lia|done|lia|]. wps.
  apply HQ; [by eauto|nia].
Qed.

(** ** New lists in a starting kernel *)

Lemma members_new (L : store) l l' : members L l = [] -> members (<[l := []]> L) l' = members L l'.
Proof. intros E. destruct (decide (l' = l)) as [->|]; [by rewrite members_insert_eq|by rewrite members_insert_ne]. Qed.

Lemma booting_event_list n k L l :
  booting ucHeap n k L -> event_list l = true -> members L l = [].
Proof.
  intros [[t1 [HO _ _]] HR _ _ _ Hno] He. destruct (members L l) as [|i ns] eqn:E; [done|exfalso].
  assert (i ∈ members L l) as Hi by (rewrite E; by left). pose proof (ok_tasks _ _ _ _ _ HO) as HT.
  destruct (tk_event_member _ _ _ _ _ _ _ HT He Hi) as (t & -> & [x Hx] & _).
  destruct (HR t) as (p & Hp & Hin); [by eauto|].
  destruct (tk_ready _ _ _ _ _ HT t x p Hx) as [_ Hpd]; [done..|]. specialize (Hpd l Hi). subst l. by rewrite Hno in E.
Qed.

Lemma tasks_new_list t1 n b h T L l :
  tasks_ok (mkSystem t1 n b) None h T L -> members L l = [] -> l = (first_event_list + n)%nat ->
  stored (vListInitialise l h) (<[l := []]> L) -> (forall i, items (vListInitialise l h) !! Item i = items h !! Item i) ->
  tasks_ok (mkSystem t1 (S n) b) None (vListInitialise l h) T (<[l := []]> L).
Proof.
  intros [S Hl Hs He Hm Hst Hr Hp Hw Hid Hir] El Hln HS HI.
  assert (forall i t, item_ok h i t -> item_ok (vListInitialise l h) i t) as Hit.
  { intros i t [A B C]. split; unfold present, owner, value in *; by rewrite HI. }
  split; try done; unfold pended, detached in *; try setoid_rewrite (members_new L l _ El); try done; [|by eauto..].
  intros l' Hl'. cbn [event_lists] in Hl'. destruct (decide (l' = l)) as [->|]; [rewrite lookup_insert_eq; by eauto|].
  rewrite lookup_insert_ne by done. apply Hl. cbn [event_lists]. lia.
Qed.

(** A new list, before the scheduler runs or while it does. *)
Lemma scheduled_new_list t1 n b k L l :
  scheduled (mkSystem t1 n b) k L -> members L l = [] -> l = (first_event_list + n)%nat ->
  Z.of_nat (size (items (k_lists k))) + 2 < 2 ^ 32 ->
  scheduled (mkSystem t1 (S n) b) (set_k_lists (vListInitialise l (k_lists k)) k) (<[l := []]> L) /\
  (forall i, items (vListInitialise l (k_lists k)) !! Item i = items (k_lists k) !! Item i).
Proof.
  intros [HO HP HR] El Hl Hz.
  destruct (st_initialise (k_lists k) L (tk_stored _ _ _ _ _ (ok_tasks _ _ _ _ _ HO)) l El Hz) as [S HI].
  pose proof (fun l' => members_new L l l' El) as HM. pose proof (ok_tasks _ _ _ _ _ HO) as HT.
  apply (tasks_new_list _ _ _ _ _ _ _ HT El Hl S) in HI as HTn. split; [|done].
  set (h' := vListInitialise l (k_lists k)) in *. clearbody h'.
  assert (forall i, value h' (Item i) = value (k_lists k) (Item i)) as HV by (intros i; unfold value; by rewrite HI).
  destruct HO as [_ Htop Htr HD Hnt Hc Htk Hsus Hpe Hru]. split.
  - split; kcbn; try done.
    + intros p Hp. rewrite HM. by apply Htop.
    + destruct HD as [D1 D2 D3 D4 D5]. split; rewrite ?HM; try done.
      * eapply sorted_ext; [|exact D2]. by intros j _.
      * eapply sorted_ext; [|exact D3]. by intros j _.
      * intros i. rewrite ?HM, HV. apply D4.
      * intros i. rewrite ?HM, HV. apply D5.
    + intros i. rewrite HM, HV. apply Hnt.
  - intros Hpd' c y Hc' Hy p Hp. rewrite HM. by apply (HP Hpd' c y).
  - intros H1 H2. destruct (HR H1 H2) as (c & p & Hcp). exists c, p. by rewrite HM.
Qed.

Lemma booting_list n k L :
  booting ucHeap n k L -> Z.of_nat n < 2 ^ 31 ->
  let l := (first_event_list + n)%nat in
  booting ucHeap (S n) (set_k_lists (vListInitialise l (k_lists k)) k) (<[l := []]> L).
Proof.
  intros HB Hn l. pose proof (booting_event_list n k L l HB ltac:(list_kinds)) as El.
  destruct HB as [[t1 HS] HR' [Hi [bs Hh] Hb Hs] Hsu Hpd Hno]. pose proof Hh as (_ & _ & Hnx & _).
  unfold configADJUSTED_HEAP_SIZE, configTOTAL_HEAP_SIZE, portBYTE_ALIGNMENT in Hnx.
  destruct (scheduled_new_list t1 n false k L l HS El) as [HS' HI]; [done|lia|].
  pose proof (initialise_size (k_lists k) l) as Hsz. pose proof (fun l' => members_new L l l' El) as HM.
  split; [by eauto|intros t Ht; setoid_rewrite HM; by apply HR'| |done|done|by rewrite HM].
  split; kcbn; try done; [|by eauto|lia].
  intros i. unfold present. kcbn. rewrite HI. apply Hi.
Qed.

Lemma fresh_list n k :
  fresh ucHeap n k -> fresh ucHeap (S n) (set_k_lists (vListInitialise (first_event_list + n) (k_lists k)) k).
Proof.
  intros (s & ob & bs & -> & Hs). exists s, ob, bs. split; [|done]. unfold kernel_init, event_list_heap.
  rewrite seq_S, foldl_app. reflexivity.
Qed.

(** ** Queues and tasks before the scheduler runs *)

Definition phase (n : nat) (k : kernel) : Prop := fresh ucHeap n k \/ exists L, booting ucHeap n k L.

Record starting (n : nat) (k : kernel) : Prop := {
  sg_phase : phase n k;
  sg_lists : n = lists_used (k_objects k);
  sg_queue q x : queue_at k q = Some x -> q <> 0%nat /\ Z.of_nat q < next_address k /\ queue_ok q x /\
    queue_list (mkSystem 0 n false) (xTasksWaitingToSend x) /\ queue_list (mkSystem 0 n false) (xTasksWaitingToReceive x);
  sg_unlocked q x : queue_at k q = Some x -> is_mutex x = false /\ locks x = (queueUNLOCKED, queueUNLOCKED);
  sg_apart q q' x x' d d' : queue_at k q = Some x -> queue_at k q' = Some x' -> side_list d x = side_list d' x' -> q = q' /\ d = d';
  sg_number : uxCurrentNumberOfTasks k = Z.of_nat (size (k_tcbs k));
  sg_notify t y : k_tcbs k !! t = Some y -> ucNotifyState y = taskNOT_WAITING_NOTIFICATION;
}.

Lemma phase_heap n k : phase n k -> exists bs, heap_ok ucHeap (k_heap k) bs.
Proof. intros [(s & ob & bs & -> & Hs)|[L HB]]; [by eauto|apply HB]. Qed.

Lemma phase_allocated n k m bs :
  phase n k -> heap_ok ucHeap (k_heap (allocated m k)) bs -> 0 <= m -> phase n (allocated m k).
Proof.
  intros [(s & ob & bs0 & -> & Hs)|[L HB]] Hh Hm; [left|right].
  - unfold allocated in *. cbn in *. by eexists _, ob, bs.
  - exists L. eapply booting_heap; [done|exact Hh|]. cbn. lia.
Qed.

Lemma phase_lists n k : phase n k -> Z.of_nat n + 1 < 2 ^ 31 -> phase (S (S n)) (new_lists (first_event_list + n) k).
Proof.
  intros [H|[L HB]] Hn; [left|right].
  - unfold new_lists. rewrite plus_n_Sm. exact (fresh_list (S n) _ (fresh_list n k H)).
  - eexists. unfold new_lists. rewrite plus_n_Sm.
    exact (booting_list (S n) _ _ (booting_list n k L HB ltac:(lia)) ltac:(lia)).
Qed.

Lemma booting_objects n k L o : booting ucHeap n k L -> booting ucHeap n (set_k_objects o k) L.
Proof. intros [[t [[] HP HR]] HR' [] Hsu Hpd Hno]. split; try done. exists t. by split; [split|..]. Qed.

Lemma phase_objects n k o : phase n k -> phase n (set_k_objects o k).
Proof.
  intros [(s & ob & bs & -> & Hs)|[L HB]]; [left; by exists s, o, bs|right; exists L; by apply booting_objects].
Qed.

Lemma with_queue_some q y k q' x :
  queue_at (with_queue q y k) q' = Some x -> (q = q' /\ y = x) \/ (q <> q' /\ queue_at k q' = Some x).
Proof. unfold with_queue. cbn. by intros H%lookup_insert_Some. Qed.

Lemma wp_start_queue n k len size type :
  starting n k -> Z.of_nat n + 1 < 2 ^ 31 -> 1 <= len < 2 ^ 30 -> 0 <= size -> len * size < 2 ^ 30 ->
  xNextFreeByte (k_heap k) + queue_memory len size < configADJUSTED_HEAP_SIZE ->
  wp (xQueueGenericCreate ucHeap len size type) (fun r k' => exists q,
    r = Some q /\ starting (S (S n)) k' /\ queue_at k q = None /\
    k_objects k' = set_o_queues (<[q := new_queue q (first_event_list + n) len size type]> (o_queues (k_objects k))) (k_objects k) /\
    xNextFreeByte (k_heap k') = xNextFreeByte (k_heap k) + queue_memory len size /\
    k_tcbs k' = k_tcbs k /\ uxCurrentNumberOfTasks k' = uxCurrentNumberOfTasks k) k.
Proof.
  intros [HP Hc Hq Hu Hap Hnum Hnt] Hn Hlen Hsize Hls Hroom. destruct (phase_heap n k HP) as [bs Hh]. pose proof (next_address_range k bs Hh) as Ha.
  eapply wp_create_queue; [exact Hh|done..|]. intros q [bs' Hh'] Hm. exists q. split; [done|].
  assert (Z.of_nat q = next_address k) as Eq by (unfold q; lia). clearbody q.
  assert (fresh_lists k = first_event_list + n)%nat as El by (unfold fresh_lists; lia).
  assert (queue_at k q = None) as Hnone.
  { destruct (queue_at k q) as [y|] eqn:E; [|done]. destruct (Hq q y E) as (_ & Hlt & _). lia. }
  rewrite El. split; [|done]. unfold sizeof_Queue_t in Hm. split.
  - apply phase_objects, phase_lists; [|done]. eapply phase_allocated; [done|exact Hh'|lia].
  - unfold lists_used in *. cbn. rewrite map_size_insert_None by done. lia.
  - intros q' x'. cbn. unfold queue_list, next_address, allocated in *. cbn. destruct (decide (q' = q)) as [->|Hne].
    + rewrite lookup_insert_eq. intros [= <-]. split; [lia|]. split; [lia|]. split; [apply new_queue_ok; lia|].
      cbn [new_queue xTasksWaitingToSend xTasksWaitingToReceive]. unfold first_event_list in *. lia.
    + rewrite lookup_insert_ne by done. intros Hx. destruct (Hq q' x' Hx) as (H0 & H1 & H2 & H3 & H4).
      cbn in H3, H4. split; [done|]. split; [lia|]. split; [done|]. unfold first_event_list in *. lia.
  - intros q' x' [[<- <-]|[_ Hx]]%with_queue_some; [done|by apply (Hu q')].
  - assert (forall q' x' d, queue_at k q' = Some x' -> (side_list d x' < first_event_list + n)%nat) as Hlt.
    { intros q' x' d Hx. destruct (Hq q' x' Hx) as (_ & _ & _ & [_ H1] & [_ H2]). by destruct d. }
    assert (forall d, side_list d (new_queue q (first_event_list + n) len size type) =
      match d with ToReceive => S (first_event_list + n) | ToSend => first_event_list + n end)%nat as Hnew by (by intros []).
    intros q1 q2 x1 x2 d1 d2 [[<- <-]|[_ H1]]%with_queue_some [[<- <-]|[_ H2]]%with_queue_some Hd.
    + split; [done|]. rewrite !Hnew in Hd. destruct d1, d2; [done|lia|lia|done].
    + specialize (Hlt _ _ d2 H2). rewrite Hnew in Hd. destruct d1; lia.
    + specialize (Hlt _ _ d1 H1). rewrite Hnew in Hd. destruct d2; lia.
    + by apply (Hap q1 q2 x1 x2).
  - done.
  - done.
Qed.

Lemma wp_start_task n k depth p :
  starting n k -> Z.of_nat n < 2 ^ 31 -> 0 <= p < configMAX_PRIORITIES -> 0 < depth < 2 ^ 28 ->
  xNextFreeByte (k_heap k) + task_memory depth < configADJUSTED_HEAP_SIZE -> uxCurrentNumberOfTasks k < 2 ^ 32 - 1 ->
  wp (xTaskCreate ucHeap depth p) (fun r k' => exists t x,
    r = Some t /\ starting n k' /\ (exists L, booting ucHeap n k' L) /\ k_objects k' = k_objects k /\
    xNextFreeByte (k_heap k') = xNextFreeByte (k_heap k) + task_memory depth /\ k_tcbs k !! t = None /\ k_tcbs k' = <[t := x]> (k_tcbs k) /\
    uxPriority x = p /\ uxCurrentNumberOfTasks k' = uxCurrentNumberOfTasks k + 1) k.
Proof.
  intros [HP Hc Hq Hu Hap Hnum Hnt] Hn Hp Hd Hroom Hfew.
  destruct (wp_create ucHeap n heap_start heap_end Hn k depth p HP Hp Hd Hroom) as (r & k' & E & t & L & x & -> & HB & Hfr & HT & Hx & Hnx & Hby).
  pose proof (ko_create _ _ _ _ _ _ E) as Eo. pose proof (create_number _ _ _ _ _ _ E) as En.
  rewrite (wrapu_small 32) in En by (unfold in_range; lia). exists (Some t), k'. split; [done|]. exists t, x. split; [done|].
  split; [|by eauto 10]. pose proof (task_memory_pos n depth Hd).
  split; rewrite ?Eo; [right; by eauto|done| |done|done| |].
  - intros q y (H0 & H1 & H2)%Hq. unfold next_address in *. split; [done|]. split; [lia|done].
  - rewrite HT, map_size_insert_None by done. lia.
  - intros u y. rewrite HT. intros [[<- <-]|[_ Hu']]%lookup_insert_Some; [done|by eapply Hnt].
Qed.

(** Nobody waits for a semaphore yet. *)
Lemma wp_give_quietly n k L q x :
  starting n k -> booting ucHeap n k L -> queue_at k q = Some x -> uxItemSize x = 0 -> is_mutex x = false ->
  uxMessagesWaiting x < uxLength x ->
  wp (send_now q None queueSEND_TO_BACK) (fun r k' => r = pdPASS /\
    exists y, k' = with_queue q y k /\ queue_ok q y /\ contents y = contents x ++ [[]] /\ same_queue x y /\ locks y = locks x) k.
Proof.
  intros HS HB Hx E0 Hm Hlt. destruct (sg_queue _ _ HS q x Hx) as (H0 & _ & Hok & _ & Hl).
  assert (sendable x None queueSEND_TO_BACK) as Hs by (split; [done|by intros []|by left]).
  unfold send_now, call_now, op_start. wps.
  apply wp_configASSERT; [by destruct q|]. wps. apply (wp_get_queue q x); [done|]. wps.
  apply wp_configASSERT; [by rewrite E0|]. wps. apply wp_configASSERT; [done|]. wps. apply wp_assert_can_block; [by left|]. wps.
  cbn [w_pc wait_start wait_step op_try]. unfold send_try. wps. apply (wp_get_queue q x); [done|].
  rewrite (proj2 (Z.ltb_lt _ _) Hlt). cbn [orb]. wps.
  apply (wp_copy_to q x); [done|done|done|unfold has_room; by rewrite (proj2 (Z.ltb_lt _ _) Hlt)|]. intros y Hy Hc HQ Hlk. wps.
  unfold wake_and_yield. wps. destruct (bo_scheduled _ _ _ _ HB) as [t1 [HO _ _]].
  assert (L !! xTasksWaitingToReceive x = Some []) as El.
  { rewrite (queue_list_members (mkSystem t1 n false) _ _ _ _ _ HO Hl). f_equal. apply (booting_event_list n k); [done|]. destruct Hl. list_kinds. }
  eapply wp_ask; [apply (st_empty _ _ (tk_stored _ _ _ _ _ (ok_tasks _ _ _ _ _ HO)) _ _ El)|].
  rewrite bool_decide_eq_true_2 by done. wps.
  rewrite ?andb_false_r. cbn [when at_pc w_pc]. wps. cbn [at_pc w_pc]. wps. split; [done|]. exists y. split; [done|].
  split; [done|]. split; [|done]. rewrite Hc. unfold queue_put, payload. by rewrite E0.
Qed.

Lemma starting_objects n k o :
  starting n k -> o_queues o = o_queues (k_objects k) -> o_groups o = o_groups (k_objects k) -> starting n (set_k_objects o k).
Proof.
  intros [HP Hc Hq Hu Hap Hnum Hnt] E E'. split; cbn; unfold lists_used in *; rewrite ?E, ?E'; try done. by apply phase_objects.
Qed.

Lemma starting_with n k q x y :
  starting n k -> queue_at k q = Some x -> queue_ok q y -> same_queue x y -> locks y = locks x -> starting n (with_queue q y k).
Proof.
  intros [HP Hc Hq Hu Hap Hnum Hnt] Hx Hok HS Hlk. destruct (Hq q x Hx) as (H0 & H1 & _ & H2 & H3). split; [by apply phase_objects|..].
  - unfold lists_used in *. cbn. rewrite map_size_insert_Some by eauto. done.
  - intros q' x'. cbn. destruct (decide (q' = q)) as [->|Hne]; [|rewrite lookup_insert_ne by done; apply Hq].
    rewrite lookup_insert_eq. intros [= <-]. destruct HS as [-> -> _ _ _]. done.
  - intros q' x' [[<- <-]|[_ Hx']]%with_queue_some; [|by apply (Hu q')]. rewrite Hlk, (sq_mutex _ _ HS). by apply (Hu q).
  - assert (forall q' y', queue_at (with_queue q y k) q' = Some y' ->
      exists x', queue_at k q' = Some x' /\ forall d, side_list d y' = side_list d x') as Hsd.
    { intros q' y' Hy'. destruct (same_queues_at k (with_queue q y k) q' y') as (x' & Hx' & HS'); [by eapply same_queues_with|done|].
      exists x'. split; [done|]. intros d. by apply same_side. }
    intros q1 q2 x1 x2 d1 d2 (y1 & G1 & E1)%Hsd (y2 & G2 & E2)%Hsd. rewrite E1, E2. by apply (Hap q1 q2 y1 y2).
  - done.
  - done.
Qed.

(** ** The timer service *)

Definition timer_memory : Z := queue_memory configTIMER_QUEUE_LENGTH sizeof_DaemonTaskMessage_t +
  task_memory configTIMER_TASK_STACK_DEPTH.

Lemma wp_add_registry k q name (Q : unit -> kernel -> Prop) :
  q <> 0%nat -> (forall r, Q tt (set_k_objects (set_xQueueRegistry r (k_objects k)) k)) -> wp (vQueueAddToRegistry q name) Q k.
Proof.
  intros Hq HQ. assert (Q tt k) as HQk.
  { specialize (HQ (xQueueRegistry (k_objects k))). by destruct k as [? ? ? []]. }
  unfold vQueueAddToRegistry. wps. apply wp_configASSERT; [by destruct q|]. wps.
  destruct name as [name|]; [|by wps]. destruct (registry_slot _ _ _ _); unfold set_registry; wps; [apply HQ|done].
Qed.

(** The queue of the commands is empty. *)
Definition timer_queue_made (q : nat) (x : Queue_t) : Prop :=
  contents x = [] /\ uxLength x = configTIMER_QUEUE_LENGTH /\ uxItemSize x = sizeof_DaemonTaskMessage_t /\ is_mutex x = false.

(** What is left of the state by the creation of the timer task. *)
Record timers_started (n : nat) (k k' : kernel) : Prop := {
  ts_starting : starting (S (S n)) k';
  ts_booting : exists L, booting ucHeap (S (S n)) k' L;
  ts_queues : exists q x, queue_at k q = None /\ o_queues (k_objects k') = <[q := x]> (o_queues (k_objects k)) /\
    xTimerQueue (o_timers (k_objects k')) = Some q /\ timer_queue_made q x;
  ts_timers : service_ok 0 (o_timers (k_objects k'));
  ts_tasks : exists t x, k_tcbs k !! t = None /\ k_tcbs k' = <[t := x]> (k_tcbs k) /\ xTimerTaskHandle (o_timers (k_objects k')) = Some t /\
    uxPriority x = configTIMER_TASK_PRIORITY;
  ts_number : uxCurrentNumberOfTasks k' = uxCurrentNumberOfTasks k + 1;
}.

Lemma wp_check_lists n k :
  starting n k -> Z.of_nat n + 1 < 2 ^ 31 -> o_timers (k_objects k) = timers_init ->
  xNextFreeByte (k_heap k) + queue_memory configTIMER_QUEUE_LENGTH sizeof_DaemonTaskMessage_t < configADJUSTED_HEAP_SIZE ->
  wp (prvCheckForValidListAndQueue ucHeap) (fun _ k' => starting (S (S n)) k' /\
    (exists q x, queue_at k q = None /\ o_queues (k_objects k') = <[q := x]> (o_queues (k_objects k)) /\
       xTimerQueue (o_timers (k_objects k')) = Some q /\ timer_queue_made q x) /\
    service_ok 0 (o_timers (k_objects k')) /\
    xNextFreeByte (k_heap k') = xNextFreeByte (k_heap k) + queue_memory configTIMER_QUEUE_LENGTH sizeof_DaemonTaskMessage_t /\
    k_tcbs k' = k_tcbs k /\ uxCurrentNumberOfTasks k' = uxCurrentNumberOfTasks k) k.
Proof.
  intros HS Hn Ht Hroom. unfold prvCheckForValidListAndQueue, get_timers, put_timers. wps. rewrite Ht. cbn [xTimerQueue timers_init]. wps.
  eapply wp_mono; [apply (wp_start_queue n)|].
  - by apply starting_objects.
  - done.
  - unfold configTIMER_QUEUE_LENGTH. lia.
  - done.
  - done.
  - done.
  - intros r k1 (q & -> & HS1 & Hnone & Eo & Hnx & HT & Hnum). cbn in Hnone, Eo, Hnx, HT, Hnum. wps.
    assert (queue_at k1 q = Some (new_queue q (first_event_list + n) configTIMER_QUEUE_LENGTH sizeof_DaemonTaskMessage_t 0)) as Hq
      by (rewrite Eo; apply lookup_insert_eq).
    apply wp_add_registry; [by apply (sg_queue _ _ HS1 _ _ Hq)|]. intros reg.
    split; [apply starting_objects; [by apply starting_objects|done|done]|]. cbn. rewrite Eo. split; [|split; [|done]].
    + eexists q, _. split; [done|]. cbn. split; [done|]. split; [done|]. split; [apply new_queue_contents|done].
    + destruct (service_start timers_init eq_refl eq_refl eq_refl) as [HT0 HS0 HN0]. split; [|done|done].
      destruct HT0 as [L0 []]. exists L0. by split.
Qed.

Lemma wp_timer_task n k :
  starting n k -> Z.of_nat n + 2 < 2 ^ 31 -> o_timers (k_objects k) = timers_init ->
  xNextFreeByte (k_heap k) + timer_memory < configADJUSTED_HEAP_SIZE -> uxCurrentNumberOfTasks k < 2 ^ 32 - 1 ->
  wp (xTimerCreateTimerTask ucHeap) (fun r k' => r = 1 /\ timers_started n k k') k.
Proof.
  intros HS Hn Ht Hroom Hfew. unfold timer_memory in Hroom.
  assert (0 <= task_memory configTIMER_TASK_STACK_DEPTH) by (by vm_compute).
  unfold xTimerCreateTimerTask, get_timers, put_timers. apply wp_bind.
  eapply wp_mono; [apply (wp_check_lists n k HS ltac:(lia) Ht ltac:(lia))|].
  intros _ k1 (HS1 & (q & x & Hq1 & Hq2 & Hq3 & Hq4) & Hser & Hnx & HT & Hnum). wps. rewrite Hq3. wps.
  eapply wp_mono; [apply (wp_start_task _ k1 _ _ HS1); [lia|done|done|lia|lia]|].
  intros r k2 (t & y & -> & HS2 & [L HB2] & Eo & Hnx2 & Hfr & HT2 & Hp & Hnum2). wps. apply wp_configASSERT; [done|]. wps.
  split; [done|]. split; cbn.
  - by apply starting_objects.
  - exists L. by apply booting_objects.
  - exists q, x. by rewrite Eo.
  - rewrite Eo. destruct Hser as [[L0 []] HS0 HN0]. split; [exists L0; by split|done|done].
  - exists t, y. rewrite HT2, <- HT. done.
  - by rewrite Hnum2, Hnum.
Qed.

(** ** The scheduler starts *)

Definition scheduler_memory : Z := task_memory configMINIMAL_STACK_SIZE + timer_memory.

Record scheduler_started (n : nat) (idle : nat) (k k' : kernel) : Prop := {
  ss_start : sys_start (mkSystem idle (S (S n)) true) k';
  ss_pending : switch_pending k' = false;
  ss_tick : xTickCount k' = 0;
  ss_queues q x : queue_at k q = Some x -> queue_at k' q = Some x;
  ss_number : uxCurrentNumberOfTasks k' = uxCurrentNumberOfTasks k + 2;
  ss_idle : exists x, k_tcbs k' !! idle = Some x /\ uxPriority x = 0;
  ss_timers : service_ok 0 (o_timers (k_objects k'));
  ss_timer_queue : exists q x, xTimerQueue (o_timers (k_objects k')) = Some q /\ queue_at k' q = Some x /\ timer_queue_made q x;
}.

(** No task waits for anything. *)
Lemma booting_nobody n k L l : booting ucHeap n k L -> event_list l = true -> nobody l k.
Proof.
  intros HB Hl t Hin. destruct (bo_scheduled _ _ _ _ HB) as [t1 [HO _ _]].
  apply (st_member _ _ (tk_stored _ _ _ _ _ (ok_tasks _ _ _ _ _ HO))) in Hin.
  rewrite (booting_event_list n k L l HB Hl) in Hin. by apply elem_of_nil in Hin.
Qed.

Lemma start_kernel n k L idle :
  starting n k -> booting ucHeap n k L -> is_Some (k_tcbs k !! idle) -> 0 < uxCurrentNumberOfTasks k <= queueINT8_MAX ->
  sys_start (mkSystem idle n true) (started_kernel k).
Proof.
  intros HS HB Hid Hnum. pose proof HS as [_ _ Hq Hu Hap Hn Hnt].
  destruct (booting_started ucHeap n k L idle HB Hid) as (Hsc & Hpd & Hsu). split; try done.
  - split; [by exists L|]. split; [|by apply Hnum]. intros q x Hx. by destruct (Hq q x Hx) as (H0 & _ & H1).
  - intros q x Hx. by apply (Hu q).
  - unfold started_kernel. kcbn. lia.
  - unfold started_kernel. kcbn. lia.
  - intros t y Hy. by rewrite (Hnt t y Hy).
  - intros q x _ Hx. by apply (Hu q).
  - intros l Hl. by apply (booting_nobody n k L l HB).
  - intros Hy. unfold switch_pending in Hpd. by apply orb_false_iff in Hpd as [_ Hpd]; rewrite Hpd in Hy.
Qed.

Lemma wp_start_scheduler n k :
  starting n k -> Z.of_nat n + 2 < 2 ^ 31 -> o_timers (k_objects k) = timers_init ->
  xNextFreeByte (k_heap k) + scheduler_memory < configADJUSTED_HEAP_SIZE ->
  0 <= uxCurrentNumberOfTasks k <= queueINT8_MAX - 2 ->
  wp (vTaskStartScheduler ucHeap (xTimerCreateTimerTask ucHeap)) (fun _ k' => exists idle, scheduler_started n idle k k') k.
Proof.
  intros HS Hn Ht Hroom Hnum. unfold scheduler_memory, queueINT8_MAX in *. assert (0 <= timer_memory) by (by vm_compute).
  unfold vTaskStartScheduler. wps.
  eapply wp_mono; [apply (wp_start_task n k _ _ HS); [lia|done|done|lia|lia]|].
  intros r k1 (idle & x & -> & HS1 & _ & Eo1 & Hnx1 & _ & HT1 & Hp & Hnum1). wps.
  eapply wp_mono; [apply (wp_timer_task n k1 HS1 Hn); [by rewrite Eo1|lia|lia]|].
  intros r k2 (-> & [HS2 [L HB] (q & y & Hq1 & Hq2 & Hq3 & Hq4) Hser (t & z & Hfr & HT2 & _ & _) Hnum2]). change (1 =? 1) with true. cbn match. wps.
  fold (started_kernel k2). exists idle. rewrite Eo1 in Hq1, Hq2.
  assert (k_tcbs k2 !! idle = Some x) as Hidle.
  { rewrite HT2, lookup_insert_ne, HT1; [apply lookup_insert_eq|]. intros ->. rewrite HT1, lookup_insert_eq in Hfr. done. }
  destruct (booting_started ucHeap _ k2 L idle HB) as (Hsc & Hpd & Hsu).
  { rewrite Hidle. by eauto. }
  split; [|done|done| | |by exists x|done|].
  - apply (start_kernel (S (S n)) k2 L idle HS2 HB); [rewrite Hidle; by eauto|]. unfold queueINT8_MAX. lia.
  - intros q' x' Hx'. unfold started_kernel. kcbn. rewrite Hq2. by rewrite lookup_insert_ne by congruence.
  - unfold started_kernel. kcbn. lia.
  - exists q, y. unfold started_kernel. kcbn. rewrite Hq2. split; [done|]. split; [apply lookup_insert_eq|done].
Qed.

(** ** The firmware *)

Lemma starting_init : starting 0 (kernel_init 0).
Proof.
  split; try by cbn; intros; simplify_map_eq. left. exists heap_init, objects_init, []. split; [done|].
  apply heap_init_ok.
Qed.

Record firmware_running (consumer_go producer_go : nat) (k : kernel) : Prop := {
  fr_start : exists idle x, sys_start (mkSystem idle 6 true) k /\ k_tcbs k !! idle = Some x /\ uxPriority x = 0;
  fr_pending : switch_pending k = false;
  fr_tick : xTickCount k = 0;
  fr_tasks : uxCurrentNumberOfTasks k = 4;
  fr_distinct : consumer_go <> producer_go;
  fr_consumer : exists x, queue_at k consumer_go = Some x /\ contents x = [] /\ uxLength x = 1 /\ uxItemSize x = 0 /\ is_mutex x = false;
  fr_producer : exists x, queue_at k producer_go = Some x /\ contents x = [[]] /\ uxLength x = 1 /\ uxItemSize x = 0 /\ is_mutex x = false;
  fr_timers : service_ok 0 (o_timers (k_objects k));
  fr_timer_queue : exists q x, xTimerQueue (o_timers (k_objects k)) = Some q /\ queue_at k q = Some x /\ timer_queue_made q x;
}.

Lemma wp_main :
  wp (firmware_main ucHeap) (fun r k => exists consumer_go producer_go,
    r = (Some consumer_go, Some producer_go) /\ firmware_running consumer_go producer_go k) (kernel_init 0).
Proof.
  unfold firmware_main, xSemaphoreCreateBinary, xSemaphoreGive. apply wp_bind.
  eapply wp_mono; [apply (wp_start_queue 0 (kernel_init 0) _ _ _ starting_init); by vm_compute|].
  intros r k1 (c & -> & HS1 & _ & Eo1 & Hn1 & _ & Hc1). cbn -[queue_memory new_queue] in Eo1, Hn1, Hc1. apply wp_bind.
  eapply wp_mono; [apply (wp_start_queue 2 k1 _ _ _ HS1); try by vm_compute|].
  { rewrite Hn1. by vm_compute. }
  intros r k2 (p & -> & HS2 & Hp & Eo2 & Hn2 & _ & Hc2). rewrite Hn1 in Hn2. rewrite Hc1 in Hc2. apply wp_bind.
  rewrite Eo1 in Hp, Eo2. cbn -[queue_memory new_queue] in Hp, Eo2.
  eapply wp_mono; [apply (wp_start_task 4 k2 _ _ HS2); [by vm_compute..|rewrite Hn2; by vm_compute|rewrite Hc2; lia]|].
  intros r3 k3 (t1 & x1 & _ & HS3 & _ & Eo3 & Hn3 & _ & _ & _ & Hc3). rewrite Hn2 in Hn3. rewrite Hc2 in Hc3. apply wp_bind.
  eapply wp_mono; [apply (wp_start_task 4 k3 _ _ HS3); [by vm_compute..|rewrite Hn3; by vm_compute|rewrite Hc3; lia]|].
  intros r4 k4 (t2 & x2 & _ & HS4 & [L HB] & Eo4 & Hn4 & _ & _ & _ & Hc4). rewrite Hn3 in Hn4. rewrite Hc3 in Hc4.
  rewrite Eo3, Eo2 in Eo4. cbn [default]. apply wp_bind.
  assert (c <> p) as Hcp by (intros ->; by rewrite lookup_insert_eq in Hp).
  assert (queue_at k4 p = Some (new_queue p (first_event_list + 2) 1 0 3)) as Hqp by (rewrite Eo4; apply lookup_insert_eq).
  eapply wp_mono; [apply (wp_give_quietly 4 k4 L p _ HS4 HB Hqp); by cbn|].
  intros r5 k5 (_ & y & -> & Hy & Hcy & HSy & Hlk). apply wp_bind.
  eapply wp_mono; [apply (wp_start_scheduler 4)|].
  - by eapply starting_with.
  - done.
  - cbn. by rewrite Eo4.
  - cbn. rewrite Hn4. by vm_compute.
  - cbn. rewrite Hc4. unfold queueINT8_MAX. lia.
  - intros _ k6 (idle & [Hg Hpd Htk Hqs Hnum (x & Hx & Hpx) Hser Hsq]). wps. exists c, p. split; [done|].
    split; [by exists idle, x|done|done|by rewrite Hnum; cbn; rewrite Hc4|done| | |done|done].
    + exists (new_queue c (first_event_list + 0) 1 0 3). split; [|done]. apply Hqs. cbn. rewrite lookup_insert_ne by done.
      rewrite Eo4. cbn. rewrite lookup_insert_ne by done. by rewrite lookup_insert_eq.
    + exists y. split; [apply Hqs; cbn; by rewrite lookup_insert_eq|]. destruct HSy as [_ _ E1 E2 E3]. by rewrite Hcy, E1, E2, E3.
Qed.
End Create.
