(* ===== verification/FreeRTOSTasksApi.v ===== *)
(** * The calls of the kernel in any order

    The functions of [tasks.c] and the calls of [queue.c] that do not block, as
    the steps of one machine.  [api_allowed] is what the documentation of the
    functions asks of the caller; every call it allows returns and keeps the
    invariant, so no assertion of the kernel can fail. *)

From S2P Require Import Prelude FreeRTOSList FreeRTOSListTheory FreeRTOSListStore FreeRTOSHeap FreeRTOSObjects.
From S2P Require Import FreeRTOSTasks FreeRTOSTasksTheory FreeRTOSTasksCalls FreeRTOSTasksInvariant FreeRTOSTasksEvents.
From S2P Require Import FreeRTOSTasksTime FreeRTOSTasksFrame FreeRTOSQueue FreeRTOSQueueTheory FreeRTOSQueueCalls.

Inductive api_call : Set :=
  | ApiSysTick
  | ApiPendSV
  | ApiSuspendAll
  | ApiResumeAll
  | ApiDelay (xTicksToDelay : Z)
  | ApiDelayUntil (previous xTimeIncrement : Z)
  | ApiCatchUpTicks (n : Z)
  | ApiSuspend (h : option nat)
  | ApiResume (t : nat)
  | ApiResumeFromISR (t : nat)
  | ApiPrioritySet (h : option nat) (p : Z)
  | ApiAbortDelay (t : nat)
  | ApiNotify (t : nat) (v : Z) (a : eNotifyAction)
  | ApiNotifyFromISR (t : nat) (v : Z) (a : eNotifyAction)
  | ApiNotifyGiveFromISR (t : nat)
  | ApiNotifyStateClear (h : option nat)
  | ApiNotifyValueClear (h : option nat) (v : Z)
  | ApiNotifyWait (v n : Z)
  | ApiNotifyWaitEnd (v : Z)
  | ApiNotifyTake (n : Z)
  | ApiNotifyTakeEnd (b : bool)
  | ApiCheckForTimeOut (o : TimeOut_t) (n : Z)
  | ApiQueue (q : nat) (c : queue_call).

Definition done {A} (m : KM A) : KM unit := m;; mret tt.

Definition run_api (c : api_call) : KM unit :=
  match c with
  | ApiSysTick => xPortSysTickHandler
  | ApiPendSV => xPortPendSVHandler
  | ApiSuspendAll => vTaskSuspendAll
  | ApiResumeAll => done xTaskResumeAll
  | ApiDelay n => vTaskDelay n
  | ApiDelayUntil previous n => done (xTaskDelayUntil previous n)
  | ApiCatchUpTicks n => done (xTaskCatchUpTicks n)
  | ApiSuspend h => vTaskSuspend h
  | ApiResume t => vTaskResume t
  | ApiResumeFromISR t => done (xTaskResumeFromISR t)
  | ApiPrioritySet h p => vTaskPrioritySet h p
  | ApiAbortDelay t => done (xTaskAbortDelay t)
  | ApiNotify t v a => done (xTaskGenericNotify t v a)
  | ApiNotifyFromISR t v a => done (xTaskGenericNotifyFromISR t v a false)
  | ApiNotifyGiveFromISR t => done (vTaskGenericNotifyGiveFromISR t false)
  | ApiNotifyStateClear h => done (xTaskGenericNotifyStateClear h)
  | ApiNotifyValueClear h v => done (ulTaskGenericNotifyValueClear h v)
  | ApiNotifyWait v n => notify_wait_enter v n
  | ApiNotifyWaitEnd v => done (notify_wait_leave v)
  | ApiNotifyTake n => notify_take_enter n
  | ApiNotifyTakeEnd b => done (notify_take_leave b)
  | ApiCheckForTimeOut o n => done (xTaskCheckForTimeOut o n)
  | ApiQueue q c => done (run_call q c)
  end.

(** The task that calls is ready, is not the idle task and, for the calls that
    wait for a notification, waits for no other event. *)
Definition caller_ready (sys : system) (k : kernel) : Prop :=
  exists c, pxCurrentTCB k = Some c /\ c <> idle_task sys /\ ready k c.

Definition caller_free (sys : system) (k : kernel) : Prop :=
  exists c, pxCurrentTCB k = Some c /\ c <> idle_task sys /\ ready k c /\ forall l, ~ in_list k (xEventListItem c) l.

Definition is_task (k : kernel) (h : option nat) : Prop := exists t, task_of k h = Some t /\ is_Some (k_tcbs k !! t).

Definition api_allowed (sys : system) (k : kernel) (c : api_call) : Prop :=
  match c with
  | ApiSysTick | ApiPendSV | ApiNotifyWaitEnd _ | ApiNotifyTakeEnd _ | ApiCheckForTimeOut _ _ => True
  | ApiSuspendAll => uxSchedulerSuspended k + 1 < 2 ^ 32
  | ApiResumeAll => uxSchedulerSuspended k <> 0 /\
      (uxSchedulerSuspended k = 1 -> switch_pending k = false -> exists c, pxCurrentTCB k = Some c /\ ready k c)
  | ApiDelay n => uxSchedulerSuspended k = 0 /\ 0 <= n <= portMAX_DELAY /\ caller_ready sys k
  | ApiDelayUntil previous n =>
      uxSchedulerSuspended k = 0 /\ in_range 32 previous /\ 0 < n <= portMAX_DELAY /\ caller_ready sys k
  | ApiCatchUpTicks _ => uxSchedulerSuspended k = 0
  | ApiSuspend h => started sys = true /\ exists t, task_of k h = Some t /\ is_Some (k_tcbs k !! t) /\
      t <> idle_task sys /\ (pxCurrentTCB k = Some t -> uxSchedulerSuspended k = 0)
  | ApiResume t | ApiNotify t _ _ | ApiNotifyFromISR t _ _ | ApiNotifyGiveFromISR t => is_Some (k_tcbs k !! t)
  | ApiResumeFromISR t => exists x, k_tcbs k !! t = Some x /\ ucNotifyState x <> taskWAITING_NOTIFICATION
  | ApiPrioritySet h p => is_task k h /\ 0 <= p < configMAX_PRIORITIES
  | ApiAbortDelay t => is_Some (k_tcbs k !! t) /\ uxSchedulerSuspended k + 1 < 2 ^ 32
  | ApiNotifyStateClear h | ApiNotifyValueClear h _ => is_task k h
  | ApiNotifyWait _ n | ApiNotifyTake n => 0 <= n <= portMAX_DELAY /\ caller_free sys k
  | ApiQueue q c => exists x, queue_at k q = Some x /\ call_allowed x c
  end.

Section Api.
Context (sys : system).

Lemma safe_done {A} (m : KM A) k : safe sys m k -> safe sys (done m) k.
Proof. intros H. unfold safe, done. wps. eapply wp_mono; [exact H|]. intros. by wps. Qed.

Lemma ko_done {A} (m : KM A) : keeps_static m -> keeps_static (done m).
Proof. intros H. unfold done. apply ko_bind; [done|]. intros. apply ko_ret. Qed.

(** The running task in the lists of the store. *)
Lemma ready_member k L c :
  scheduled sys k L -> ready k c -> exists p, ready_list p = true /\ xStateListItem c ∈ members L p.
Proof.
  intros H (x & Hx & Hr). pose proof (sc_ok _ _ _ H) as HO. exists (pxReadyTasksLists (uxPriority x)).
  split; [by apply (ready_priority _ _ _ _ _ c x (ok_tasks _ _ _ _ _ HO))|by apply (in_list_member sys _ _ _ _ _ _ HO)].
Qed.

Lemma free_detached k L i : scheduled sys k L -> (forall l, ~ in_list k i l) -> detached L i.
Proof. intros H Hn l Hi. by apply (Hn l), (in_list_member sys _ _ _ _ _ _ (sc_ok _ _ _ H)). Qed.

Lemma api_keeps c : (forall q c', c <> ApiQueue q c') -> keeps_static (run_api c).
Proof.
  intros Hq. destruct c; cbn [run_api]; try (by destruct (Hq q c)); try apply ko_done;
    eauto using ko_systick, ko_pendsv, ko_suspend_all, ko_resume_all, ko_task_delay, ko_delay_until, ko_catch_up, ko_suspend,
      ko_resume, ko_resume_isr, ko_priority_set, ko_abort, ko_notify, ko_notify_isr, ko_notify_give, ko_notify_state_clear,
      ko_notify_value_clear, ko_notify_wait_enter, ko_notify_take_enter, ko_notify_wait_leave, ko_notify_take_leave,
      ko_check_timeout.
Qed.

Lemma api_safe k L c : (forall q c', c <> ApiQueue q c') -> scheduled sys k L -> api_allowed sys k c -> safe sys (run_api c) k.
Proof.
  intros Hq H Hc. destruct c; cbn [run_api api_allowed] in *; try (by destruct (Hq q c)); try apply safe_done;
    try by eauto using safe_systick, safe_switch, safe_suspend_all, safe_catch_up, safe_resume, safe_notify, safe_notify_from_isr,
      safe_notify_give_from_isr, safe_check_for_timeout.
  - destruct Hc as [Hs Hr]. apply (safe_resume_all sys k L); [done|done|]. intros H1 H2. destruct (Hr H1 H2) as (c & Hc & Hrd).
    destruct (ready_member k L c H Hrd) as (p & ? & ?). by exists c, p.
  - destruct Hc as (Hs & Hn & c & Hc & Hid & Hr). destruct (ready_member k L c H Hr) as (p & ? & ?). by eapply safe_delay.
  - destruct Hc as (Hs & Hp & Hn & c & Hc & Hid & Hr). destruct (ready_member k L c H Hr) as (p & ? & ?). by eapply safe_delay_until.
  - destruct Hc as (Hst & t & Ht & Hx & Hid & Hs). by eapply safe_suspend.
  - destruct Hc as (x & Hx & Hn). by eapply safe_resume_from_isr.
  - destruct Hc as [(t & Ht & Hx) Hp]. by eapply safe_priority_set.
  - destruct Hc as [Ht Hs]. by eapply safe_abort_delay.
  - destruct Hc as (t & Ht & Hx). by eapply safe_notify_state_clear.
  - destruct Hc as (t & Ht & Hx). by eapply safe_notify_value_clear.
  - destruct Hc as (Hn & c & Hc & Hid & Hr & Hf). destruct (ready_member k L c H Hr) as (p & ? & ?).
    by eapply (safe_notify_wait_enter sys k L c p v n); try done; eapply free_detached.
  - by apply (safe_notify_leave sys k L v false).
  - destruct Hc as (Hn & c & Hc & Hid & Hr & Hf). destruct (ready_member k L c H Hr) as (p & ? & ?).
    by eapply (safe_notify_wait_enter sys k L c p 0 n); try done; eapply free_detached.
  - by apply (safe_notify_leave sys k L 0 b).
Qed.

Lemma wp_api k c : kernel_good sys k -> api_allowed sys k c -> wp (run_api c) (fun _ k' => kernel_good sys k') k.
Proof.
  intros [[L H] Ho] Hc. assert ((exists q c', c = ApiQueue q c') \/ forall q c', c <> ApiQueue q c') as [(q & c' & ->)|Hq'] by (destruct c; eauto).
  - destruct Hc as (x & Hx & Hc). cbn [run_api]. unfold done. wps.
    eapply wp_mono; [by apply (wp_call sys q x k (Build_kernel_good sys k (ex_intro _ L H) Ho) Hx c')|]. intros r k' Hs. wps. apply Hs.
  - eapply wp_safe_static; [by apply api_keeps|by eapply api_safe|done|]. by intros.
Qed.

(** The states that calls lead to. *)
Inductive api_reachable (k0 : kernel) : kernel -> Prop :=
  | api_start : api_reachable k0 k0
  | api_step k c k' : api_reachable k0 k -> api_allowed sys k c -> run_api c k = Ok (tt, k') -> api_reachable k0 k'.

Lemma reachable_good k0 k : kernel_good sys k0 -> api_reachable k0 k -> kernel_good sys k.
Proof.
  intros H0. induction 1 as [|k c k' _ IH Hc E]; [done|]. destruct (wp_api k c IH Hc) as ([] & k1 & E1 & H1). congruence.
Qed.

(** Unless the scheduler is suspended or a switch is due, the running task is a
    ready one of the highest priority. *)
Lemma good_runs_highest k :
  kernel_good sys k -> uxSchedulerSuspended k = 0 -> switch_pending k = false -> runs_highest k.
Proof.
  intros [[L H] _] Hs Hb. pose proof (sc_ok _ _ _ H) as HO. destruct (sc_running _ _ _ H Hs Hb) as (c & p & Hc & Hp & Hin).
  destruct (ok_current _ _ _ _ _ HO) as (c' & y & Hc' & Hy). simplify_eq.
  destruct (tk_ready _ _ _ _ _ (ok_tasks _ _ _ _ _ HO) c y p Hy) as [Ep _]; [done..|].
  exists c, y. split; [done|]. split; [done|].
  assert (ready k c) as Hr.
  { exists y. split; [done|]. apply (in_list_member sys _ _ _ _ _ _ HO). unfold pxReadyTasksLists. by rewrite Ep, Nat2Z.id. }
  split; [done|]. intros t x Hx Hrt. eapply (below_highest sys _ _ _ c y t x HO); [|done..]. by apply (sc_preempted _ _ _ H Hb c).
Qed.

End Api.
