(* ===== verification/FreeRTOSKernelProps.v ===== *)
(** * Properties of the running kernel

    The theorems about the scheduler and the queues together, with witnesses in
    the state in which [main] of the demo leaves the kernel. *)

From S2P Require Import Prelude FreeRTOSList FreeRTOSListTheory FreeRTOSListStore FreeRTOSHeap FreeRTOSObjects.
From S2P Require Import FreeRTOSTasks FreeRTOSTasksTheory FreeRTOSTasksCalls FreeRTOSTasksInvariant FreeRTOSTasksEvents.
From S2P Require Import FreeRTOSTasksTime FreeRTOSTasksFrame FreeRTOSTasksBoot FreeRTOSQueue FreeRTOSQueueTheory.
From S2P Require Import FreeRTOSQueueCalls FreeRTOSQueueWait FreeRTOSSystem FreeRTOSSystemTheory FreeRTOSTimers FreeRTOSBoot.
From S2P Require Import FreeRTOSTasksApi.

(** ** The kernel of the demo *)

(** The allocator's array is at 8 here, and the handles are what the allocator
    makes of that: the semaphores, the two tasks of [main], the idle task and the
    timer task. *)
Definition demo_kernel : kernel :=
  match firmware_main 8 (kernel_init 0) with Ok (_, k) => k | Fault _ => kernel_init 0 end.
Definition demo_consumer_go : nat := 8.
Definition demo_producer_go : nat := 88.
Definition demo_sender : nat := 1368.
Definition demo_task : nat := 4992.
Definition demo_idle : nat := 3944.
Definition demo_system : system := mkSystem demo_idle 6 true.

Lemma demo_boots : firmware_main 8 (kernel_init 0) = Ok ((Some demo_consumer_go, Some demo_producer_go), demo_kernel).
Proof.
  destruct (wp_main 8 ltac:(lia) ltac:(by vm_compute)) as (r & k & E & _).
  assert (match firmware_main 8 (kernel_init 0) with Ok (r, _) => r | Fault _ => (None, None) end =
          (Some demo_consumer_go, Some demo_producer_go)) as Ec by (by vm_compute).
  unfold demo_kernel. rewrite E in Ec |- *. by rewrite Ec.
Qed.

(** From here on only [vm_compute] unfolds the state. *)
Opaque demo_kernel.

Lemma demo_running : firmware_running demo_consumer_go demo_producer_go demo_kernel.
Proof.
  destruct (wp_main 8 ltac:(lia) ltac:(by vm_compute)) as (r & k & E & c & p & Er & H).
  rewrite demo_boots in E. subst r.
  pose proof (f_equal (fun x => match x with Ok (r, _) => r | Fault _ => (None, None) end) E) as Er.
  pose proof (f_equal (fun x => match x with Ok (_, k) => k | Fault _ => demo_kernel end) E) as Ek.
  cbv beta match in Er, Ek. rewrite Ek. by injection Er as -> ->.
Qed.

Lemma demo_start : sys_start demo_system demo_kernel.
Proof.
  destruct (fr_start _ _ _ demo_running) as (idle & x & H & Hx & Hp).
  assert (map_Forall (fun t x => uxPriority x = 0 -> t = demo_idle) (k_tcbs demo_kernel)) as Hall
    by (by apply (bool_decide_unpack _); vm_compute).
  by rewrite (Hall idle x Hx Hp) in H.
Qed.

Lemma demo_good : kernel_good demo_system demo_kernel.
Proof. apply (sst_good _ _ demo_start). Qed.

Lemma demo_ready : pxCurrentTCB demo_kernel = Some demo_task /\ ready demo_kernel demo_task /\ demo_task <> demo_idle.
Proof.
  assert (pxCurrentTCB demo_kernel = Some demo_task) as Hc by (by vm_compute). split; [done|].
  split; [|by vm_compute].
  destruct (good_runs_highest demo_system demo_kernel demo_good) as (c & y & Hc' & _ & Hr & _); [apply (sst_suspended _ _ demo_start)|apply demo_running|].
  by rewrite Hc in Hc'; injection Hc' as <-.
Qed.

(** No item of the heap of lists is in the list of the tasks held pending. *)
Lemma demo_nothing_pending : nothing_pending demo_kernel.
Proof.
  split; [by vm_compute|]. intros t.
  assert (map_Forall (fun _ i => pxContainer i <> Some xPendingReadyList) (items (k_lists demo_kernel))) as Hall
    by (by apply (bool_decide_unpack _); vm_compute).
  unfold in_list, container. destruct (items (k_lists demo_kernel) !! Item (xEventListItem t)) as [i|] eqn:E; [|done].
  by apply (Hall _ i E).
Qed.

(** ** Starting *)

(** C14: The demo starts: wherever the linker puts the heap array of 8192 bytes,
    [main] creates its semaphores and tasks and starts the scheduler without a
    failed assertion; the state satisfies the invariants of the scheduler and of
    the queues, the scheduler runs four tasks at tick 0 with no switch pending,
    [producer_go] has been given once and [consumer_go] not. *)
Theorem firmware_boots (ucHeap : Z) :
  0 < ucHeap -> ucHeap + configTOTAL_HEAP_SIZE <= 2 ^ 32 ->
  exists consumer_go producer_go k,
    firmware_main ucHeap (kernel_init 0) = Ok ((Some consumer_go, Some producer_go), k) /\
    firmware_running consumer_go producer_go k.
Proof. intros H0 H1. destruct (wp_main ucHeap H0 H1) as (r & k & E & c & p & -> & H). by exists c, p, k. Qed.

Lemma firmware_boots_witness :
  exists consumer_go producer_go k,
    firmware_main 0x20400000 (kernel_init 0) = Ok ((Some consumer_go, Some producer_go), k) /\
    firmware_running consumer_go producer_go k.
Proof. apply firmware_boots; by vm_compute. Defined.

(** ** The invariant *)



(** ** Scheduling *)

(** C29: The context switch, when the scheduler is not suspended, returns, keeps
    the invariant and picks a ready task such that no ready task has a higher
    priority; no task changes its state, its priority or its wake time, and no
    queue changes. *)
Theorem context_switch_selects_highest (sys : system) (k : kernel) :
  kernel_good sys k -> uxSchedulerSuspended k = 0 ->
  exists k', xPortPendSVHandler k = Ok (tt, k') /\ kernel_good sys k' /\ runs_highest k' /\ switch_pending k' = false /\
    switch_effect sys k k'.
Proof.
  intros [[L H] Ho] Hs. destruct (wp_switch sys k L H Hs) as ([] & k' & E & L' & H' & HE & Hr & Hp). exists k'.
  split; [done|]. split; [|done]. split; [by exists L'|]. apply (objects_ok_static sys k); [|done]. unfold static.
  by rewrite (se_objects _ _ _ HE), (se_number _ _ _ HE).
Qed.

Lemma context_switch_selects_highest_witness :
  exists k', xPortPendSVHandler demo_kernel = Ok (tt, k') /\ kernel_good demo_system k' /\ runs_highest k' /\
    switch_pending k' = false /\ switch_effect demo_system demo_kernel k'.
Proof. apply context_switch_selects_highest; [apply demo_good|apply (sst_suspended _ _ demo_start)]. Defined.

(** The tick interrupt, when the scheduler is not suspended, advances the
    tick count modulo 2^32 and makes exactly the delayed tasks ready whose wake
    time has come, also when the count wraps around; every other delayed task
    has one tick less to wait, and no other task moves. *)
Theorem tick_wakes_due_tasks (sys : system) (k : kernel) :
  kernel_good sys k -> uxSchedulerSuspended k = 0 ->
  exists k', xPortSysTickHandler k = Ok (tt, k') /\ kernel_good sys k' /\ tick_effect k k'.
Proof.
  intros [[L H] Ho] Hs. destruct (wp_systick sys k L H Hs) as ([] & k' & E & L' & H' & HE). exists k'.
  split; [done|]. split; [|done]. split; [by exists L'|]. apply (objects_ok_static sys k); [|done].
  exact (ko_systick _ _ _ E).
Qed.

Lemma tick_wakes_due_tasks_witness :
  exists k', xPortSysTickHandler demo_kernel = Ok (tt, k') /\ kernel_good demo_system k' /\ tick_effect demo_kernel k'.
Proof. apply tick_wakes_due_tasks; [apply demo_good|apply (sst_suspended _ _ demo_start)]. Defined.

(** C30: [vTaskDelay(n)] blocks the running task for exactly [n] ticks: after the
    call and any sequence of tick interrupts and context switches the task is
    delayed, with [n] minus the number of ticks left, as long as fewer than [n]
    ticks have passed, and ready from the [n]th tick on. *)
Theorem delay_lasts_exactly (sys : system) (k : kernel) (c : nat) (n : Z) (es : list event) :
  kernel_good sys k -> uxSchedulerSuspended k = 0 -> nothing_pending k -> pxCurrentTCB k = Some c ->
  c <> idle_task sys -> ready k c -> 0 < n <= portMAX_DELAY ->
  exists k', (vTaskDelay n;; run_events es) k = Ok (tt, k') /\
    if ticks es <? n then delayed k' c /\ remaining k' c = n - ticks es else ready k' c.
Proof.
  intros [[L H] _] Hs Hp Hc Hid Hr Hn. destruct (wp_task_delay sys k L c n H Hs Hp Hc Hid Hr Hn) as ([] & k1 & E1 & L1 & H1 & Hs1 & Ht & Hd).
  destruct (wp_events sys es k1 L1 c n H1 Hs1 Ht Hd) as ([] & k2 & E2 & L2 & _ & Hd2). exists k2. split.
  - unfold mbind, KM_bind. by rewrite E1.
  - unfold due in Hd2. by replace (ticks es <? n) with (0 <? n - ticks es) by lia.
Qed.

Lemma delay_lasts_exactly_witness :
  exists k', (vTaskDelay 3;; run_events [EvSwitch; EvTick; EvTick; EvSwitch]) demo_kernel = Ok (tt, k') /\
    if ticks [EvSwitch; EvTick; EvTick; EvSwitch] <? 3
    then delayed k' demo_task /\ remaining k' demo_task = 3 - ticks [EvSwitch; EvTick; EvTick; EvSwitch]
    else ready k' demo_task.
Proof.
  apply (delay_lasts_exactly demo_system demo_kernel demo_task 3); [apply demo_good|apply (sst_suspended _ _ demo_start)|apply demo_nothing_pending|
    apply demo_ready..|by vm_compute].
Defined.

(** ** Time-outs *)

(** C31: [xTaskCheckForTimeOut] is exact over a whole period of the tick counter:
    when [e] ticks have passed since the time-out was set, [e] at most 2^32, a
    wait of [n] ticks has expired if and only if [n <= e], although the counter
    may have wrapped around in between; if not, [n - e] ticks are left from now. *)
Theorem timeout_check_exact (k : kernel) (c : nat) (y : TCB_t) (o : TimeOut_t) (n e : Z) :
  pxCurrentTCB k = Some c -> k_tcbs k !! c = Some y -> ucDelayAborted y = false ->
  0 < n < portMAX_DELAY -> 0 <= e <= 2 ^ 32 -> in_range 32 (xTimeOnEntering o) ->
  xTickCount k = u32 (xTimeOnEntering o + e) ->
  xNumOfOverflows k = wraps 32 (xOverflowCount o + (xTimeOnEntering o + e) / 2 ^ 32) ->
  - 2 ^ 31 <= xOverflowCount o < 2 ^ 31 ->
  xTaskCheckForTimeOut o n k =
    Ok ((if n <=? e then (true, o, 0) else (false, mkTimeOut (xNumOfOverflows k) (xTickCount k), n - e)), k).
Proof.
  intros Hc Hy Ha Hn He Hin Ht Ho Hoc. unfold xTaskCheckForTimeOut, current, get_tcb, gets, mbind, KM_bind, portMAX_DELAY, in_range in *.
  rewrite Hc, Hy, Ha, (proj2 (Z.eqb_neq n _)) by lia. cbv beta zeta.
  destruct (Z.ltb_spec (xTimeOnEntering o + e) (2 ^ 32)) as [Hlt|Hge].
  - rewrite Z.div_small, Z.add_0_r in Ho by lia. rewrite (wrapu_small 32) in Ht by (unfold in_range; lia).
    assert (xNumOfOverflows k = xOverflowCount o) as Eo by (rewrite Ho; unfold wraps; rewrite Z.mod_small; lia).
    rewrite Eo, Z.eqb_refl, Ht. cbn [negb andb]. replace (xTimeOnEntering o + e - xTimeOnEntering o) with e by lia.
    rewrite (wrapu_small 32 e) by (unfold in_range; lia). rewrite Z.ltb_antisym. destruct (Z.leb_spec n e); cbn [negb]; [done|].
    unfold vTaskSetTimeOutState, gets, mbind, KM_bind. rewrite Eo, Ht, (wrapu_small 32) by (unfold in_range; lia). done.
  - assert ((xTimeOnEntering o + e) / 2 ^ 32 = 1) as Ed by (symmetry; apply (Z.div_unique _ _ _ (xTimeOnEntering o + e - 2 ^ 32)); lia).
    rewrite Ed in Ho. assert (xTickCount k = xTimeOnEntering o + e - 2 ^ 32) as Et.
    { rewrite Ht. unfold wrapu. symmetry. apply (Z.mod_unique _ _ 1); lia. }
    assert (xNumOfOverflows k <> xOverflowCount o) as Eo.
    { rewrite Ho. unfold wraps. Z.to_euclidean_division_equations. lia. }
    rewrite (proj2 (Z.eqb_neq _ _) Eo). cbn [negb andb]. rewrite Z.geb_leb. destruct (Z.leb_spec (xTimeOnEntering o) (xTickCount k)) as [Hle|Hgt].
    + by replace (n <=? e) with true by lia.
    + assert (u32 (xTickCount k - xTimeOnEntering o) = e) as ->.
      { rewrite Et. unfold wrapu. symmetry. apply (Z.mod_unique _ _ (-1)); lia. }
      rewrite Z.ltb_antisym. destruct (Z.leb_spec n e); cbn [negb]; [done|].
      unfold vTaskSetTimeOutState, gets, mbind, KM_bind. by rewrite (wrapu_small 32) by (unfold in_range; lia).
Qed.

Lemma timeout_check_exact_witness :
  xTaskCheckForTimeOut (mkTimeOut (-1) (2 ^ 32 - 10)) 20 demo_kernel =
    Ok ((if 20 <=? 10 then (true, mkTimeOut (-1) (2 ^ 32 - 10), 0)
         else (false, mkTimeOut (xNumOfOverflows demo_kernel) (xTickCount demo_kernel), 20 - 10)), demo_kernel).
Proof.
  assert (option_map ucDelayAborted (k_tcbs demo_kernel !! demo_task) = Some false) as Ha by (by vm_compute).
  destruct (k_tcbs demo_kernel !! demo_task) as [y|] eqn:E; [|discriminate Ha]. injection Ha as Ha.
  apply (timeout_check_exact demo_kernel demo_task y (mkTimeOut (-1) (2 ^ 32 - 10)) 20 10);
    [apply demo_ready|exact E|exact Ha|clear; by vm_compute..].
Defined.

(** ** Queues *)

(** C4: The queues and semaphores are bounded double-ended queues of byte
    strings: in any sequence of tick interrupts, context switches and calls on
    the queues that do not block, from tasks and from interrupts, every call
    returns what the specification on lists returns, in particular
    [errQUEUE_FULL] on a full and [errQUEUE_EMPTY] on an empty queue, and the
    contents of all queues are those of the specification at the end. *)
Theorem queue_calls_refine_deques (sys : system) (k : kernel) (es : list kernel_event) :
  kernel_good sys k -> Forall (event_allowed (o_queues (k_objects k))) es ->
  exists rs k', run_trace es k = Ok (rs, k') /\ kernel_good sys k' /\
    trace_spec (o_queues (k_objects k)) es (contents <$> o_queues (k_objects k)) = (rs, contents <$> o_queues (k_objects k')).
Proof.
  intros H Hes. destruct (wp_trace sys (o_queues (k_objects k)) es k H Hes) as (rs & k' & E & Hk & Ht); [|by exists rs, k'].
  intros q x Hx. by exists x.
Qed.

Definition demo_trace (consumer_go producer_go : nat) : list kernel_event :=
  [KCall consumer_go CallTake; KTick; KCall consumer_go IsrGive; KSwitch;
   KCall producer_go (CallSend None queueSEND_TO_BACK); KCall consumer_go CallTake].

Lemma demo_trace_allowed c p k : firmware_running c p k -> Forall (event_allowed (o_queues (k_objects k))) (demo_trace c p).
Proof.
  intros H. destruct (fr_consumer _ _ _ H) as (x & Hx & _ & _ & Hsx & Hmx).
  destruct (fr_producer _ _ _ H) as (y & Hy & _ & _ & Hsy & Hmy).
  repeat apply Forall_cons_2; [..|by apply Forall_nil_2]; try done; [by exists x..| |by exists x].
  exists y. split; [done|]. split; [done|]. split; [done|by rewrite Hsy|by left].
Qed.

Lemma queue_calls_refine_deques_witness :
  exists rs k', run_trace (demo_trace demo_consumer_go demo_producer_go) demo_kernel = Ok (rs, k') /\ kernel_good demo_system k' /\
    trace_spec (o_queues (k_objects demo_kernel)) (demo_trace demo_consumer_go demo_producer_go) (contents <$> o_queues (k_objects demo_kernel)) =
      (rs, contents <$> o_queues (k_objects k')).
Proof. apply queue_calls_refine_deques; [apply demo_good|apply demo_trace_allowed, demo_running]. Defined.

(** ** Deletion *)

(** C32: With the allocator of the demo, [vTaskDelete] works only for the task
    that calls it: a task that deletes itself leaves the ready lists and asks for
    a switch, with the invariant kept, but deleting any other task runs into the
    assertion of [vPortFree], because [heap_1] cannot free memory. *)
Theorem task_delete_outcomes (sys : system) (k : kernel) (h : option nat) (t : nat) :
  kernel_good sys k -> started sys = true -> uxSchedulerSuspended k = 0 -> task_of k h = Some t -> is_Some (k_tcbs k !! t) ->
  t <> idle_task sys ->
  if decide (pxCurrentTCB k = Some t)
  then exists k', vTaskDelete h k = Ok (tt, k') /\ (exists L, scheduled sys k' L) /\ pendsv k' = true /\
         in_list k' (xStateListItem t) xTasksWaitingTermination
  else vTaskDelete h k = Fault AssertFailed.
Proof.
  intros [[L H] _] Hst Hs Ht Hx Hid. case_decide as Hc.
  - destruct (wp_delete_self sys k L t h) as ([] & k' & E & L' & HL & Hp & Hin); try done. exists k'. split; [done|].
    split; [by eauto|]. split; [done|]. by apply (in_list_member sys _ _ _ _ _ _ (sc_ok _ _ _ HL)).
  - by apply (delete_other_faults sys k L h t).
Qed.

Lemma task_delete_outcomes_witness :
  (exists k', vTaskDelete None demo_kernel = Ok (tt, k') /\ (exists L, scheduled demo_system k' L) /\ pendsv k' = true /\
     in_list k' (xStateListItem demo_task) xTasksWaitingTermination) /\
  vTaskDelete (Some demo_sender) demo_kernel = Fault AssertFailed.
Proof.
  assert (bool_decide (is_Some (k_tcbs demo_kernel !! demo_task)) = true) as H1%bool_decide_eq_true_1 by (by vm_compute).
  assert (bool_decide (is_Some (k_tcbs demo_kernel !! demo_sender)) = true) as H2%bool_decide_eq_true_1 by (by vm_compute).
  assert (bool_decide (demo_sender = demo_idle) = false) as H3%bool_decide_eq_false_1 by (by vm_compute).
  assert (bool_decide (demo_task = demo_sender) = false) as H4%bool_decide_eq_false_1 by (by vm_compute).
  destruct demo_ready as (Hc & _ & Hid). pose proof (sst_suspended _ _ demo_start) as Hs. split.
  - pose proof (task_delete_outcomes demo_system demo_kernel None demo_task demo_good eq_refl Hs Hc H1 Hid) as H.
    rewrite decide_True in H by exact Hc. exact H.
  - pose proof (task_delete_outcomes demo_system demo_kernel (Some demo_sender) demo_sender demo_good eq_refl Hs eq_refl H2 H3) as H.
    rewrite decide_False in H; [exact H|]. rewrite Hc. intros E. apply H4. exact (f_equal (default 0%nat) E).
Defined.
