(* ===== verification/FreeRTOSTimersProps.v ===== *)
(** * Properties of the timer service

    The theorems about the software timers, with witnesses in the state in which
    [main] of the demo leaves the kernel and a task creates a timer. *)

From S2P Require Import Prelude FreeRTOSList FreeRTOSListTheory FreeRTOSListStore FreeRTOSHeap FreeRTOSObjects.
From S2P Require Import FreeRTOSTasks FreeRTOSTasksTheory FreeRTOSTasksInvariant FreeRTOSTasksTime FreeRTOSQueue.
From S2P Require Import FreeRTOSQueueTheory FreeRTOSQueueCalls FreeRTOSQueueWait FreeRTOSSystemTheory FreeRTOSTimers.
From S2P Require Import FreeRTOSTimersTheory FreeRTOSTimersService FreeRTOSTimersCalls FreeRTOSBoot FreeRTOSKernelProps.

(** ** A timer of the demo *)

Definition demo_timer : nat := Z.to_nat (default 0 (pvPortMalloc 8 sizeof_Timer_t (k_heap demo_kernel)).1).
Definition demo_timer_heap : heap_state := (pvPortMalloc 8 sizeof_Timer_t (k_heap demo_kernel)).2.
Definition demo_timer_fields : Timer_t := mkTimer None 5 0 7 0 (new_status true).
Definition timer_kernel : kernel := match xTimerCreate 8 None 5 true 0 7 demo_kernel with Ok (_, k) => k | Fault _ => demo_kernel end.

Lemma demo_timers_empty : items (t_lists (timers_of demo_kernel)) !! Item demo_timer = None.
Proof. by vm_compute. Qed.

(** [xTimerCreate] with the address that the allocator returns. *)
Lemma created_kernel sys ucHeap name period (b : bool) id callback k0 T t h :
  kernel_good sys k0 -> service_ok T (timers_of k0) -> is_Some (xTimerQueue (timers_of k0)) -> 0 < period < turn ->
  Z.of_nat (size (items (t_lists (timers_of k0)))) + 2 < 2 ^ 32 ->
  pvPortMalloc ucHeap sizeof_Timer_t (k_heap k0) = (Some (Z.of_nat t), h) -> items (t_lists (timers_of k0)) !! Item t = None ->
  let k := match xTimerCreate ucHeap name period b id callback k0 with Ok (_, k) => k | Fault _ => k0 end in
  xTimerCreate ucHeap name period b id callback k0 = Ok (Some t, k) /\
  timer_created sys h t (mkTimer name period id callback 0 (new_status b)) T k0 k.
Proof.
  intros HG HS Hq HP Hs Hm Hf.
  destruct (wp_timer_create sys ucHeap name period b id callback k0 T _ h HG HS Hq HP Hs Hm) as (r & k' & E & -> & HC).
  { intros a [= <-]. rewrite Nat2Z.id. unfold present. rewrite Hf. by intros []. }
  rewrite E. cbn. by rewrite Nat2Z.id in HC |- *.
Qed.

Lemma demo_timer_created :
  xTimerCreate 8 None 5 true 0 7 demo_kernel = Ok (Some demo_timer, timer_kernel) /\
  timer_created demo_system demo_timer_heap demo_timer demo_timer_fields 0 demo_kernel timer_kernel.
Proof.
  assert (is_Some (xTimerQueue (timers_of demo_kernel))) as Hq by (destruct (fr_timer_queue _ _ _ demo_running) as (q & ? & E & _); by exists q).
  assert (Z.of_nat (size (items (t_lists (timers_of demo_kernel)))) + 2 < 2 ^ 32) as Hs by (by vm_compute).
  assert (pvPortMalloc 8 sizeof_Timer_t (k_heap demo_kernel) = (Some (Z.of_nat demo_timer), demo_timer_heap)) as Hm by (by vm_compute).
  assert (0 < 5 < turn) as Hp by (unfold turn; lia).
  exact (created_kernel demo_system 8 None 5 true 0 7 demo_kernel 0 demo_timer demo_timer_heap demo_good (fr_timers _ _ _ demo_running)
    Hq Hp Hs Hm demo_timers_empty).
Qed.

Opaque demo_timer demo_timer_heap timer_kernel.

Lemma timer_service_ok : service_ok 0 (timers_of timer_kernel).
Proof. apply (tc_service _ _ _ _ _ _ _ (proj2 demo_timer_created)). Qed.

Lemma timer_fields : t_timers (timers_of timer_kernel) !! demo_timer = Some demo_timer_fields.
Proof. rewrite (tc_timers _ _ _ _ _ _ _ (proj2 demo_timer_created)). apply lookup_insert_eq. Qed.

(** The timer is started at tick 0. *)
Definition started_timers : timer_state :=
  match command_timers tmrCOMMAND_START 0 demo_timer 0 (timers_of timer_kernel) with Ok (_, s) => s | Fault _ => timers_init end.

Section Commands.
Context (T N : Z) (s : timer_state) (t : nat) (x : Timer_t) (id : Z).
Hypothesis service : service_ok T s.
Hypothesis later : T <= N < T + turn.
Hypothesis timer : t_timers s !! t = Some x.

Lemma command_state v (z : Timer_t) n d :
  twp (command_timers id v t (u32 N)) (fun _ s' => commanded t z n d T N s s') s -> (forall D, d = Some D -> D < N + turn) ->
  exists s', command_timers id v t (u32 N) s = Ok (tt, s') /\ service_ok N s' /\ commanded t z n d T N s s'.
Proof.
  intros ([] & s' & E & HD) Hd. exists s'. split; [done|]. split; [|done].
  eapply service_commanded; [exact service|lia|rewrite timer; by eauto|exact HD|exact Hd].
Qed.

Lemma start_state C :
  id ∈ start_commands -> 0 <= C <= N -> N < C + turn ->
  let d := Some (C + xTimerPeriodInTicks x) in
  exists s', command_timers id (u32 C) t (u32 N) s = Ok (tt, s') /\ service_ok N s' /\
    commanded t x (expiries N x d) (next_deadline N x d) T N s s'.
Proof.
  intros Hid HC Hlt d. pose proof service as [[L H] HS _]. destruct (to_timer _ _ _ H t x timer) as [_ HP]. apply command_state.
  - rewrite command_timers_start by done. by apply (twp_start t T N s L x H HS later timer C).
  - intros D. apply next_deadline_near; [done|lia].
Qed.

End Commands.

Lemma started_service : service_ok 0 started_timers /\
  commanded demo_timer demo_timer_fields 0 (Some 5) 0 0 (timers_of timer_kernel) started_timers.
Proof.
  assert (0 <= 0 < 0 + turn) as H0 by (unfold turn; lia). assert (0 <= 0 <= 0) as H1 by lia.
  assert (tmrCOMMAND_START ∈ start_commands) as H2 by (by left).
  destruct (start_state 0 0 _ _ _ tmrCOMMAND_START timer_service_ok H0 timer_fields 0 H2 H1 (proj2 H0)) as (s' & E & HV & HD).
  change (u32 0) with 0 in E. unfold started_timers. rewrite E. split; [exact HV|exact HD].
Qed.

Definition started_fields : Timer_t := set_status tmrSTATUS_IS_ACTIVE demo_timer_fields.

Opaque started_timers.

(** ** Expiry *)

(** C15: Timers fire exactly as often as their periods say, and never early: the
    timer task looks at the clock at any times less than a turn of the tick
    counter apart, also when the counter wraps in between; each pass returns and
    keeps the service consistent, and by the time of the last one every timer has
    been called once for each of its expiries that was served, none before its
    time.  When the task finds nothing left to do, it has served all of them: a
    one-shot timer once, an auto-reload timer once for each period, and its next
    deadline is the next multiple of the period. *)
Theorem timers_fire_exactly (T : Z) (s : timer_state) (Ts : list Z) :
  service_ok T s -> times_from T Ts ->
  let N := last_time T Ts in
  exists b s', run_passes true (u32 <$> Ts) s = Ok (b, s') /\ service_ok N s' /\
    forall u x, t_timers s !! u = Some x ->
      let d := deadline (T / turn) s u in
      exists y n, t_timers s' !! u = Some y /\ same_timer x y /\ calls_of u (t_calls s') = (calls_of u (t_calls s) + n)%nat /\
        (n <= expiries N x d)%nat /\ fires N x d (deadline (N / turn) s' u) n /\
        (b = false -> n = expiries N x d /\ deadline (N / turn) s' u = next_deadline N x d).
Proof.
  intros HV HT N. pose proof HV as [[L H] HS Hn].
  destruct (twp_passes Ts true T s L H HS HT ltac:(done)) as (b & s' & E & HL & HS' & HA & Hb). fold N in HS', HA, Hb.
  exists b, s'. split; [done|]. split; [by apply (service_advance T N s); [done|apply last_time_le|..]|]. intros u x Hx d.
  destruct (ad_timer _ _ _ _ _ HA u x Hx) as (y & n & Hy & Sy & Hc & Hf). destruct (to_timer _ _ _ H u x Hx) as [_ [HP _]].
  exists y, n. split_and!; [done..|by apply (fires_at_most N x d _ n HP Hf)|done|]. intros Hbf.
  apply (fires_exact N x d _ n HP Hf). intros D. by apply (Hb Hbf).
Qed.

Lemma timers_fire_exactly_witness :
  exists b s', run_passes true (u32 <$> [3; 12; 12]) started_timers = Ok (b, s') /\ service_ok 12 s' /\
    forall u x, t_timers started_timers !! u = Some x ->
      let d := deadline (0 / turn) started_timers u in
      exists y n, t_timers s' !! u = Some y /\ same_timer x y /\
        calls_of u (t_calls s') = (calls_of u (t_calls started_timers) + n)%nat /\
        (n <= expiries 12 x d)%nat /\ fires 12 x d (deadline (12 / turn) s' u) n /\
        (b = false -> n = expiries 12 x d /\ deadline (12 / turn) s' u = next_deadline 12 x d).
Proof.
  assert (times_from 0 [3; 12; 12]) as HT by (cbn; unfold turn; lia).
  exact (timers_fire_exactly 0 started_timers [3; 12; 12] (proj1 started_service) HT).
Defined.



(** ** Commands *)

(** C17: The commands on a timer, given by tasks or interrupts, processed at the
    time [N] less than a turn after the last look at the clock: a start or reset
    given at the time [C] sets the deadline one period after [C], not after [N],
    and if that time has passed the timer is called for every expiry since; a stop
    leaves no deadline; a change of the period sets the deadline one new period
    after [N].  The service stays consistent, the other timers are served as if
    there had been no command, and nothing else of the timer changes. *)
Theorem timer_commands_exact (T N : Z) (s : timer_state) (t : nat) (x : Timer_t) (id : Z) :
  service_ok T s -> T <= N < T + turn -> t_timers s !! t = Some x ->
  (forall C, id ∈ start_commands -> 0 <= C <= N -> N < C + turn ->
     let d := Some (C + xTimerPeriodInTicks x) in
     exists s', command_timers id (u32 C) t (u32 N) s = Ok (tt, s') /\ service_ok N s' /\
       commanded t x (expiries N x d) (next_deadline N x d) T N s s') /\
  (forall v, id ∈ stop_commands ->
     exists s', command_timers id v t (u32 N) s = Ok (tt, s') /\ service_ok N s' /\ commanded t x 0 None T N s s') /\
  (forall P, id ∈ period_commands -> 0 < P < turn ->
     exists s', command_timers id P t (u32 N) s = Ok (tt, s') /\ service_ok N s' /\
       commanded t (set_xTimerPeriodInTicks P x) 0 (Some (N + P)) T N s s').
Proof.
  intros HV HN Hx. pose proof HV as [[L H] HS _]. split; [|split].
  - intros C Hid HC Hlt. by apply start_state.
  - intros v Hid. apply (command_state T N s t x id HV HN Hx); [|done]. rewrite command_timers_stop by done. by apply (twp_stop t T N s L x).
  - intros P Hid HP. apply (command_state T N s t x id HV HN Hx); [|intros D [= <-]; lia]. rewrite command_timers_period by done.
    by apply (twp_change_period t T N s L x).
Qed.

Lemma timer_commands_exact_witness :
  exists s', command_timers tmrCOMMAND_RESET (u32 1) demo_timer (u32 8) started_timers = Ok (tt, s') /\ service_ok 8 s' /\
    commanded demo_timer started_fields (expiries 8 started_fields (Some (1 + 5))) (next_deadline 8 started_fields (Some (1 + 5)))
      0 8 started_timers s'.
Proof.
  assert (0 <= 8 < 0 + turn) as HN by (unfold turn; lia). assert (0 <= 1 <= 8) as HC by lia.
  assert (8 < 1 + turn) as Hlt by (unfold turn; lia). assert (tmrCOMMAND_RESET ∈ start_commands) as Hid by (by right; right; left).
  assert (t_timers started_timers !! demo_timer = Some started_fields) as Hx by (by vm_compute).
  exact (proj1 (timer_commands_exact 0 8 started_timers demo_timer _ tmrCOMMAND_RESET (proj1 started_service) HN Hx) 1 Hid HC Hlt).
Defined.


(** The queue of the commands in the demo. *)
Lemma demo_command_queue : exists q x, command_queue q x [] timer_kernel /\ uxLength x = configTIMER_QUEUE_LENGTH.
Proof.
  destruct (fr_timer_queue _ _ _ demo_running) as (q & x & Eq & Ex & Hc & Hl & Hs & Hm). exists q, x. split; [|exact Hl].
  pose proof (proj2 demo_timer_created) as HC. split; [|rewrite (tc_queues _ _ _ _ _ _ _ HC); exact Ex|exact Hm|exact Hs|exact Hc|constructor].
  rewrite (tc_queue _ _ _ _ _ _ _ HC). exact Eq.
Qed.

Lemma timer_kernel_tick : xTickCount timer_kernel = 0.
Proof. rewrite (tc_tick _ _ _ _ _ _ _ (proj2 demo_timer_created)). exact (fr_tick _ _ _ demo_running). Qed.

Lemma timer_kernel_good : kernel_good demo_system timer_kernel.
Proof. exact (tc_good _ _ _ _ _ _ _ (proj2 demo_timer_created)). Qed.

Lemma demo_message_ok id : 0 <= id < 10 -> message_ok (mkMessage id 0 (Z.of_nat demo_timer) 0).
Proof.
  intros Hid. assert (0 <= Z.of_nat demo_timer < 2 ^ 32) as Ht by (apply (bool_decide_unpack _); by vm_compute).
  split; cbn [xMessageID m_word1 m_word2 m_word3]; unfold in_range; [lia|lia|exact Ht|lia].
Qed.

Lemma demo_timer_nonzero : demo_timer <> 0%nat.
Proof. apply (bool_decide_unpack _). by vm_compute. Qed.

Lemma demo_start_message :
  run_messages 0 [mkMessage tmrCOMMAND_START 0 (Z.of_nat demo_timer) 0] (timers_of timer_kernel) = Ok (tt, started_timers).
Proof. by vm_compute. Qed.


(** Deleting a timer stops the firmware: when a command to delete a timer that
    [xTimerCreate] made reaches the head of the queue, the loop of the timer task
    does not return; it stops in the assertion of [vPortFree], because the
    allocator of the demo cannot free memory. *)
Theorem timer_delete_stops (sys : system) (k : kernel) (q : nat) (x : Queue_t) (m : DaemonTaskMessage_t)
    (ms : list DaemonTaskMessage_t) (T N : Z) (y : Timer_t) :
  kernel_good sys k -> command_queue q x (m :: ms) k -> service_ok T (timers_of k) -> T <= N < T + turn -> xTickCount k = u32 N ->
  xMessageID m = tmrCOMMAND_DELETE -> t_timers (timers_of k) !! Z.to_nat (m_word2 m) = Some y -> static_memory y = false ->
  prvProcessReceivedCommands k = Fault AssertFailed.
Proof. apply received_delete_fault. Qed.

Lemma timer_delete_stops_witness :
  exists k, xTimerDelete demo_timer 0 timer_kernel = Ok ((pdPASS, false), k) /\ prvProcessReceivedCommands k = Fault AssertFailed.
Proof.
  destruct demo_command_queue as (q & x & HC & Hl).
  assert (tmrCOMMAND_DELETE < tmrFIRST_FROM_ISR_COMMAND) as Hid by (clear; by vm_compute).
  assert (0 <= tmrCOMMAND_DELETE < 10) as Hr by (clear; unfold tmrCOMMAND_DELETE; lia).
  assert (0 <= 0 < 0 + turn) as H0 by (clear; unfold turn; lia).
  set (m := mkMessage tmrCOMMAND_DELETE 0 (Z.of_nat demo_timer) 0).
  destruct (wp_generic_command demo_system q x [] timer_kernel demo_timer tmrCOMMAND_DELETE 0 0
    (fun r k => r = (pdPASS, false) /\ exists y, kernel_good demo_system k /\ command_queue q y [m] k /\ clock k = clock timer_kernel)
    timer_kernel_good HC demo_timer_nonzero Hid (demo_message_ok _ Hr)) as (r & k & E & -> & y & HG & HQ & Hck).
  { rewrite Hl. intros k y HG HQ Hck _ _ _. split; [reflexivity|]. exists y. split; [exact HG|]. split; [exact HQ|exact Hck]. }
  exists k. split; [exact E|]. apply clock_inv in Hck as [Et Ek]. rewrite timer_kernel_tick in Ek.
  apply (timer_delete_stops demo_system k q y m [] 0 0 demo_timer_fields HG HQ); [|exact H0|exact Ek|reflexivity| |reflexivity].
  - rewrite Et. exact timer_service_ok.
  - rewrite Et. cbn [m m_word2]. rewrite Nat2Z.id. exact timer_fields.
Defined.

(** ** The timer task *)

(** C16: A pass of the timer task in a consistent kernel returns and keeps the scheduler, the queues and the timers
    consistent; it does to the timers what [pass_timers] says.  If the task does
    not go on, no timer is due, and unless there is a message it sleeps on its
    queue: for ever only if no timer is active, else until exactly the first
    deadline or the wrap of the tick counter, whichever is earlier, so that it
    never oversleeps. *)
Theorem timer_task_sleeps_until_due (sys : system) (k : kernel) (c q : nat) (x : Queue_t) (y : TCB_t) (T N : Z) :
  kernel_good sys k -> can_block sys c y k -> xTimerQueue (timers_of k) = Some q -> queue_at k q = Some x ->
  cTxLock x = queueUNLOCKED /\ cRxLock x = queueUNLOCKED -> service_ok T (timers_of k) -> T <= N < T + turn ->
  xTickCount k = u32 N ->
  exists k', timer_task_pass k = Ok (tt, k') /\ passed sys c q x T N k k'.
Proof.
  intros HG HB Hq Hx Hu HV HN Hk. destruct (wp_timer_pass sys c q x y k T N HG HB Hq Hx Hu HV HN Hk) as ([] & k' & E & HP).
  by exists k'.
Qed.

(** The timer task is the first task that runs in the demo. *)
Lemma demo_can_block : exists y, can_block demo_system demo_task y demo_kernel.
Proof.
  assert (option_map ucNotifyState (k_tcbs demo_kernel !! demo_task) = Some taskNOT_WAITING_NOTIFICATION) as Hn by (by vm_compute).
  destruct (k_tcbs demo_kernel !! demo_task) as [y|] eqn:E; [|discriminate Hn]. injection Hn as Hn. exists y.
  destruct demo_ready as (Hc & Hr & Hi). assert (container (k_lists demo_kernel) (Item (xEventListItem demo_task)) = None) as He by (by vm_compute).
  split; [exact Hc|exact E|exact Hi|exact Hr| |rewrite Hn; discriminate|exact (sst_suspended _ _ demo_start)|exact demo_nothing_pending].
  intros l. unfold in_list. rewrite He. discriminate.
Qed.

Lemma can_block_timers sys c y s k : can_block sys c y k -> can_block sys c y (with_timers s k).
Proof. intros []. by split. Qed.

Lemma timers_of_with s k : timers_of (with_timers s k) = s.
Proof. done. Qed.

Lemma timers_elsewhere s k q : queue_at (with_timers s k) q = queue_at k q /\ xTickCount (with_timers s k) = xTickCount k.
Proof. done. Qed.

Lemma timer_task_sleeps_until_due_witness :
  exists q x k', timer_task_pass (with_timers started_timers demo_kernel) = Ok (tt, k') /\
    passed demo_system demo_task q x 0 0 (with_timers started_timers demo_kernel) k'.
Proof.
  destruct demo_can_block as [y HB]. destruct (fr_timer_queue _ _ _ demo_running) as (q & x & Eq & Ex & _).
  assert (xTimerQueue (timers_of (with_timers started_timers demo_kernel)) = Some q) as Hq.
  { rewrite timers_of_with, (cd_queue _ _ _ _ _ _ _ _ (proj2 started_service)),
      (tc_queue _ _ _ _ _ _ _ (proj2 demo_timer_created)). exact Eq. }
  assert (0 <= 0 < 0 + turn) as H0 by (clear; unfold turn; lia).
  assert (service_ok 0 (timers_of (with_timers started_timers demo_kernel))) as HV by (rewrite timers_of_with; exact (proj1 started_service)).
  assert (None <> Some q) as Hno by (clear; discriminate).
  pose proof (sst_unlocked _ _ demo_start q x Hno Ex) as Hu. apply (pair_eq _ _ _ _) in Hu. destruct (timers_elsewhere started_timers demo_kernel q) as [Hx Ht].
  rewrite <- Hx in Ex. rewrite (fr_tick _ _ _ demo_running) in Ht. change 0 with (u32 0) in Ht.
  exists q, x. exact (timer_task_sleeps_until_due demo_system _ demo_task q x y 0 0 (good_timers _ _ _ demo_good)
    (can_block_timers _ _ _ _ _ HB) Hq Ex Hu HV H0 Ht).
Defined.
