(* ===== verification/FreeRTOSEventGroups.v ===== *)
(** * Event groups

    [FreeRTOS/Source/event_groups.c] with the configuration of
    [generate/include/FreeRTOSConfig.h]: ticks of 32 bits, so 24 event bits, and no
    static allocation.  A call that can block is in two parts, before and after the
    task blocks. *)

From S2P Require Import Prelude FreeRTOSList FreeRTOSHeap FreeRTOSObjects FreeRTOSTasks FreeRTOSQueue FreeRTOSTimers.

Definition eventCLEAR_EVENTS_ON_EXIT_BIT : Z := 0x01000000.
Definition eventUNBLOCKED_DUE_TO_BIT_SET : Z := 0x02000000.
Definition eventWAIT_FOR_ALL_BITS : Z := 0x04000000.
Definition eventEVENT_BITS_CONTROL_BYTES : Z := 0xff000000.

(** The bits, a list and the number of the trace facility. *)
Definition sizeof_EventGroup_t : Z := 28.

Definition get_group (g : nat) : KM EventGroup_t :=
  fun k => match o_groups (k_objects k) !! g with Some x => Ok (x, k) | None => Fault WildHostPointer end.
Definition put_group (g : nat) (x : EventGroup_t) : KM unit :=
  modify (fun k => set_k_objects (set_o_groups (<[g := x]> (o_groups (k_objects k))) (k_objects k)) k).

(** [~] on [EventBits_t], and [pxEventBits->uxEventBits &= ~b] *)
Definition bits_without (bits b : Z) : Z := bits .& u32 (.~ b).
Definition clear_bits (g : nat) (b : Z) : KM unit :=
  x ← get_group g; put_group g (set_uxEventBits (bits_without (uxEventBits x) b) x).

(** The allocator never hands out memory twice, so that the number, which the
    function does not set, is that of the zeroed array. *)
Definition xEventGroupCreate (ucHeap : Z) : KM (option nat) :=
  p ← malloc ucHeap sizeof_EventGroup_t;
  match p with
  | Some p =>
      let g := Z.to_nat p in
      n ← gets (fun k => lists_used (k_objects k));
      let l := (first_event_list + n)%nat in
      put_group g (mkGroup 0 l 0);;
      do_lists (fun h => Ok (vListInitialise l h));;
      mret (Some g)
  | None => mret None
  end.

Definition prvTestWaitCondition (uxCurrentEventBits uxBitsToWaitFor : Z) (xWaitForAllBits : bool) : bool :=
  if xWaitForAllBits then uxCurrentEventBits .& uxBitsToWaitFor =? uxBitsToWaitFor
  else negb (uxCurrentEventBits .& uxBitsToWaitFor =? 0).

(** ** Setting bits *)

(** The loop of [xEventGroupSetBits]: the bits to clear.  The next item is read
    before the item is removed. *)
Fixpoint set_bits_loop (fuel : nat) (g : nat) (pxListItem pxListEnd : node) (uxBitsToClear : Z) : KM Z :=
  if bool_decide (pxListItem = pxListEnd) then mret uxBitsToClear
  else
    match fuel, pxListItem with
    | S fuel, Item i =>
        pxNext ← ask_lists (get_pxNext (Item i));
        v ← ask_lists (listGET_LIST_ITEM_VALUE i);
        x ← get_group g;
        let uxControlBits := v .& eventEVENT_BITS_CONTROL_BYTES in
        let uxBitsWaitedFor := bits_without v eventEVENT_BITS_CONTROL_BYTES in
        let xMatchFound :=
          if uxControlBits .& eventWAIT_FOR_ALL_BITS =? 0 then negb (uxBitsWaitedFor .& uxEventBits x =? 0)
          else uxBitsWaitedFor .& uxEventBits x =? uxBitsWaitedFor in
        if xMatchFound then
          let uxBitsToClear :=
            if negb (uxControlBits .& eventCLEAR_EVENTS_ON_EXIT_BIT =? 0) then uxBitsToClear .| uxBitsWaitedFor else uxBitsToClear in
          vTaskRemoveFromUnorderedEventList i (uxEventBits x .| eventUNBLOCKED_DUE_TO_BIT_SET);;
          set_bits_loop fuel g pxNext pxListEnd uxBitsToClear
        else set_bits_loop fuel g pxNext pxListEnd uxBitsToClear
    | S _, ListEnd _ => fault WildHostPointer
    | O, _ => fault OutOfFuel
    end.

Definition xEventGroupSetBits (g : nat) (uxBitsToSet : Z) : KM Z :=
  configASSERT (negb (g =? 0)%nat);;
  configASSERT (uxBitsToSet .& eventEVENT_BITS_CONTROL_BYTES =? 0);;
  x ← get_group g;
  let pxList := xTasksWaitingForBits x in
  vTaskSuspendAll;;
  pxListItem ← ask_lists (get_pxNext (ListEnd pxList));
  y ← get_group g;
  put_group g (set_uxEventBits (uxEventBits y .| uxBitsToSet) y);;
  n ← ask_lists (listCURRENT_LIST_LENGTH pxList);
  uxBitsToClear ← set_bits_loop (Z.to_nat n) g pxListItem (ListEnd pxList) 0;
  clear_bits g uxBitsToClear;;
  xTaskResumeAll;;
  x ← get_group g;
  mret (uxEventBits x).

(** ** Waiting *)

(** The end of the calls that can block: with no time to wait they return, else a
    switch is asked for and the task blocks ([None]). *)
Definition wait_or_return (blocks : bool) (uxReturn : Z) : KM (option Z) :=
  xAlreadyYielded ← xTaskResumeAll;
  if blocks then when (negb xAlreadyYielded) portYIELD_WITHIN_API;; mret None else mret (Some uxReturn).

Definition wait_assertions (uxBitsToWaitFor xTicksToWait : Z) : KM unit :=
  configASSERT (uxBitsToWaitFor .& eventEVENT_BITS_CONTROL_BYTES =? 0);;
  configASSERT (negb (uxBitsToWaitFor =? 0));;
  assert_can_block xTicksToWait.

Definition control_bits (xClearOnExit xWaitForAllBits : bool) : Z :=
  (if xClearOnExit then eventCLEAR_EVENTS_ON_EXIT_BIT else 0) .| (if xWaitForAllBits then eventWAIT_FOR_ALL_BITS else 0).

(** [xEventGroupWaitBits] until the task blocks or the call returns. *)
Definition wait_bits_enter (g : nat) (uxBitsToWaitFor : Z) (xClearOnExit xWaitForAllBits : bool) (xTicksToWait : Z) : KM (option Z) :=
  configASSERT (negb (g =? 0)%nat);;
  wait_assertions uxBitsToWaitFor xTicksToWait;;
  vTaskSuspendAll;;
  x ← get_group g;
  if prvTestWaitCondition (uxEventBits x) uxBitsToWaitFor xWaitForAllBits then
    (if xClearOnExit then clear_bits g uxBitsToWaitFor else mret tt);;
    wait_or_return false (uxEventBits x)
  else if xTicksToWait =? 0 then wait_or_return false (uxEventBits x)
  else
    vTaskPlaceOnUnorderedEventList (xTasksWaitingForBits x) (uxBitsToWaitFor .| control_bits xClearOnExit xWaitForAllBits) xTicksToWait;;
    wait_or_return true 0.

(** [xEventGroupSync] until the task blocks or the call returns. *)
Definition sync_enter (g : nat) (uxBitsToSet uxBitsToWaitFor xTicksToWait : Z) : KM (option Z) :=
  wait_assertions uxBitsToWaitFor xTicksToWait;;
  vTaskSuspendAll;;
  x ← get_group g;
  xEventGroupSetBits g uxBitsToSet;;
  if (uxEventBits x .| uxBitsToSet) .& uxBitsToWaitFor =? uxBitsToWaitFor then
    clear_bits g uxBitsToWaitFor;;
    wait_or_return false (uxEventBits x .| uxBitsToSet)
  else if negb (xTicksToWait =? 0) then
    vTaskPlaceOnUnorderedEventList (xTasksWaitingForBits x)
      (uxBitsToWaitFor .| eventCLEAR_EVENTS_ON_EXIT_BIT .| eventWAIT_FOR_ALL_BITS) xTicksToWait;;
    wait_or_return true 0
  else
    y ← get_group g;
    wait_or_return false (uxEventBits y).

(** Both, when the task runs again after it blocked. *)
Definition wait_leave (g : nat) (uxBitsToWaitFor : Z) (xClearOnExit xWaitForAllBits : bool) : KM Z :=
  uxReturn ← uxTaskResetEventItemValue;
  uxReturn ←
    (if uxReturn .& eventUNBLOCKED_DUE_TO_BIT_SET =? 0 then
       x ← get_group g;
       (if prvTestWaitCondition (uxEventBits x) uxBitsToWaitFor xWaitForAllBits && xClearOnExit then clear_bits g uxBitsToWaitFor
        else mret tt);;
       mret (uxEventBits x)
     else mret uxReturn);
  mret (bits_without uxReturn eventEVENT_BITS_CONTROL_BYTES).

(** ** The other functions *)

Definition xEventGroupClearBits (g : nat) (uxBitsToClear : Z) : KM Z :=
  configASSERT (negb (g =? 0)%nat);;
  configASSERT (uxBitsToClear .& eventEVENT_BITS_CONTROL_BYTES =? 0);;
  x ← get_group g;
  clear_bits g uxBitsToClear;;
  mret (uxEventBits x).

Definition xEventGroupGetBitsFromISR (g : nat) : KM Z := x ← get_group g; mret (uxEventBits x).

(** The loop of [vEventGroupDelete]; each round takes a task from the list. *)
Fixpoint delete_loop (fuel : nat) (l : nat) : KM unit :=
  n ← ask_lists (listCURRENT_LIST_LENGTH l);
  if 0 <? n then
    match fuel with
    | O => fault OutOfFuel
    | S fuel =>
        p ← ask_lists (get_pxNext (ListEnd l));
        match p with
        | ListEnd _ => fault AssertFailed
        | Item i => vTaskRemoveFromUnorderedEventList i eventUNBLOCKED_DUE_TO_BIT_SET;; delete_loop fuel l
        end
    end
  else mret tt.

Definition vEventGroupDelete (g : nat) : KM unit :=
  configASSERT (negb (g =? 0)%nat);;
  x ← get_group g;
  vTaskSuspendAll;;
  n ← ask_lists (listCURRENT_LIST_LENGTH (xTasksWaitingForBits x));
  delete_loop (Z.to_nat n) (xTasksWaitingForBits x);;
  xTaskResumeAll;;
  free (Z.of_nat g).

(** The functions that the timer task calls for an interrupt; their addresses are
    numbers of the linker's choice. *)
Definition vEventGroupSetBitsCallback (g : nat) (ulBitsToSet : Z) : KM unit := xEventGroupSetBits g ulBitsToSet;; mret tt.
Definition vEventGroupClearBitsCallback (g : nat) (ulBitsToClear : Z) : KM unit := xEventGroupClearBits g ulBitsToClear;; mret tt.

Definition xEventGroupSetBitsFromISR (set_callback g : nat) (uxBitsToSet : Z) (woken : bool) : KM (Z * bool) :=
  xTimerPendFunctionCallFromISR set_callback (Z.of_nat g) uxBitsToSet woken.
Definition xEventGroupClearBitsFromISR (clear_callback g : nat) (uxBitsToClear : Z) : KM Z :=
  '(r, _) ← xTimerPendFunctionCallFromISR clear_callback (Z.of_nat g) uxBitsToClear false; mret r.

Definition uxEventGroupGetNumber (g : option nat) : KM Z :=
  match g with None => mret 0 | Some g => x ← get_group g; mret (uxEventGroupNumber x) end.
Definition vEventGroupSetNumber (g : nat) (n : Z) : KM unit := x ← get_group g; put_group g (set_uxEventGroupNumber n x).
