(* ===== verification/FreeRTOSEventGroupsTheory.v ===== *)
(** * Event groups: what the calls do

    A task leaves the list of an event group with the bits in the value of its
    event item; [xEventGroupSetBits] walks the list and lets go exactly the tasks
    whose condition holds; a task that waits is put in the list with its condition
    in that value. *)

From S2P Require Import Prelude FreeRTOSList FreeRTOSListTheory FreeRTOSListStore FreeRTOSHeap FreeRTOSObjects.
From S2P Require Import FreeRTOSTasks FreeRTOSTasksTheory FreeRTOSTasksCalls FreeRTOSTasksInvariant FreeRTOSTasksEvents.
From S2P Require Import FreeRTOSTasksTime FreeRTOSTasksFrame FreeRTOSTasksBoot FreeRTOSQueue FreeRTOSQueueCalls.
From S2P Require Import FreeRTOSQueueTheory FreeRTOSQueueWait FreeRTOSBoot FreeRTOSEventGroups.

Definition group_at (k : kernel) (g : nat) : option EventGroup_t := o_groups (k_objects k) !! g.

Definition with_group (g : nat) (x : EventGroup_t) (k : kernel) : kernel :=
  set_k_objects (set_o_groups (<[g := x]> (o_groups (k_objects k))) (k_objects k)) k.

Lemma wp_get_group g x k (Q : EventGroup_t -> kernel -> Prop) : group_at k g = Some x -> Q x k -> wp (get_group g) Q k.
Proof. intros E HQ. exists x, k. split; [|done]. unfold get_group. unfold group_at in E. by rewrite E. Qed.

Lemma wp_put_group g x k (Q : unit -> kernel -> Prop) : Q tt (with_group g x k) -> wp (put_group g x) Q k.
Proof. intros HQ. by exists tt, (with_group g x k). Qed.

Lemma wp_clear_bits g x b k (Q : unit -> kernel -> Prop) :
  group_at k g = Some x -> Q tt (with_group g (set_uxEventBits (bits_without (uxEventBits x) b) x) k) -> wp (clear_bits g b) Q k.
Proof. intros E HQ. unfold clear_bits. wps. apply (wp_get_group g x); [done|]. wps. by apply wp_put_group. Qed.

Lemma group_at_with g x k : group_at (with_group g x k) g = Some x.
Proof. apply lookup_insert_eq. Qed.

(** What the walk of a list leaves alone. *)
Definition unhurried (k : kernel) : gmap nat TCB_t * kernel_objects * Z * Z * option nat * (Z * Z) :=
  (k_tcbs k, k_objects k, xTickCount k, xPendedTicks k, pxCurrentTCB k, (uxSchedulerSuspended k, uxCurrentNumberOfTasks k)).

(** ** The condition of a task that waits, in the value of its event item *)

Definition bits_awaited (v : Z) : Z := bits_without v eventEVENT_BITS_CONTROL_BYTES.
Definition clears_on_exit (v : Z) : bool := Z.testbit v 24.
Definition waits_for_all (v : Z) : bool := Z.testbit v 26.
Definition satisfied (now v : Z) : bool := prvTestWaitCondition now (bits_awaited v) (waits_for_all v).

(** The value of a task that was let go, until it reads the bits. *)
Definition wake_word (now : Z) : Z := u32 ((now .| eventUNBLOCKED_DUE_TO_BIT_SET) .| taskEVENT_LIST_ITEM_VALUE_IN_USE).

(** What a satisfied task adds to the bits to clear. *)
Definition take_bits (now acc v : Z) : Z := if satisfied now v && clears_on_exit v then acc .| bits_awaited v else acc.

Lemma control_bit v n : 24 <= n < 32 -> negb ((v .& eventEVENT_BITS_CONTROL_BYTES) .& 2 ^ n =? 0) = Z.testbit v n.
Proof.
  intros Hn. assert (Z.testbit eventEVENT_BITS_CONTROL_BYTES n = true) as Ht.
  { assert (n = 24 \/ n = 25 \/ n = 26 \/ n = 27 \/ n = 28 \/ n = 29 \/ n = 30 \/ n = 31) as Hc by lia.
    by destruct Hc as [->|[->|[->|[->|[->|[->|[->| ->]]]]]]]. }
  destruct (Z.testbit v n) eqn:E.
  - apply negb_true_iff, Z.eqb_neq. intros E0. apply (f_equal (fun z => Z.testbit z n)) in E0.
    by rewrite !Z.land_spec, E, Ht, Z.pow2_bits_true, Z.bits_0 in E0 by lia.
  - apply negb_false_iff, Z.eqb_eq, Z.bits_inj. intros m. rewrite !Z.land_spec, Z.bits_0, Z.pow2_bits_eqb by lia.
    destruct (Z.eqb_spec n m) as [<-|]; [by rewrite E|by rewrite andb_false_r].
Qed.

Lemma control_bit_24 v : negb ((v .& eventEVENT_BITS_CONTROL_BYTES) .& eventCLEAR_EVENTS_ON_EXIT_BIT =? 0) = clears_on_exit v.
Proof. by apply (control_bit v 24). Qed.

Lemma event_owner t : Nat.div2 (xEventListItem t) = t.
Proof. unfold xEventListItem. rewrite Nat.add_1_r. apply Nat.div2_succ_double. Qed.

Lemma land_control b : in_range 24 b -> b .& eventEVENT_BITS_CONTROL_BYTES = 0.
Proof.
  intros Hb. apply Z.bits_inj. intros n. rewrite Z.land_spec, Z.bits_0.
  destruct (Z_lt_dec n 0); [by rewrite !Z.testbit_neg_r by lia|]. destruct (Z_lt_dec n 24).
  - change eventEVENT_BITS_CONTROL_BYTES with (0xff * 2 ^ 24). rewrite Z.mul_pow2_bits_low by lia. apply andb_false_r.
  - by rewrite (proj1 (proj1 (in_range_testbit 24 b ltac:(lia)) Hb)) by lia.
Qed.

(** The test of the loop is [prvTestWaitCondition]. *)
Lemma loop_test now v :
  (if (v .& eventEVENT_BITS_CONTROL_BYTES) .& eventWAIT_FOR_ALL_BITS =? 0
   then negb (bits_without v eventEVENT_BITS_CONTROL_BYTES .& now =? 0)
   else bits_without v eventEVENT_BITS_CONTROL_BYTES .& now =? bits_without v eventEVENT_BITS_CONTROL_BYTES) = satisfied now v.
Proof.
  unfold satisfied, prvTestWaitCondition, bits_awaited, waits_for_all. rewrite <- (control_bit v 26) by lia.
  change (2 ^ 26) with eventWAIT_FOR_ALL_BITS. rewrite (Z.land_comm now). by destruct (_ =? 0).
Qed.

Lemma filter_all {A} (P : A -> Prop) `{forall x, Decision (P x)} (l : list A) : (forall x, x ∈ l -> P x) -> filter P l = l.
Proof.
  induction l as [|y l IH]; intros Hl; [done|]. rewrite filter_cons_True by (apply Hl; by left). f_equal. apply IH.
  intros x Hx. apply Hl. by right.
Qed.

Section Groups.
Context (sys : system).

(** ** A task leaves the list *)

Record released (t : nat) (v : Z) (k k' : kernel) (L L' : store) : Prop := {
  rl_scheduled : scheduled sys k' L';
  rl_event l : event_list l = true -> members L' l = without (xEventListItem t) (members L l);
  rl_ready x : k_tcbs k !! t = Some x -> xStateListItem t ∈ members L' (pxReadyTasksLists (uxPriority x));
  rl_state u l : u <> t -> xStateListItem u ∈ members L' l <-> xStateListItem u ∈ members L l;
  rl_value i : value (k_lists k') (Item i) =
    if decide (i = xEventListItem t) then u32 (v .| taskEVENT_LIST_ITEM_VALUE_IN_USE) else value (k_lists k) (Item i);
  rl_switch : switch_pending k = true -> switch_pending k' = true;
  rl_frame : unhurried k' = unhurried k;
}.

(** The lists after the three moves of the two items. *)
Lemma released_lists t x L ns' :
  ready_list (pxReadyTasksLists (uxPriority x)) = true ->
  let p := pxReadyTasksLists (uxPriority x) in
  let L2 := without (xStateListItem t) <$> (without (xEventListItem t) <$> L) in
  (forall j, j ∈ ns' <-> j = xStateListItem t \/ j ∈ members L2 p) ->
  (forall i l, i ∈ members L l -> if event_list l then exists u, i = xEventListItem u else True) ->
  (forall l, event_list l = true -> members (<[p := ns']> L2) l = without (xEventListItem t) (members L l)) /\
  (forall u l, u <> t -> xStateListItem u ∈ members (<[p := ns']> L2) l <-> xStateListItem u ∈ members L l).
Proof.
  intros Hp p L2 Hm Hk. split.
  - intros l Hl. assert (p <> l) by (intros <-; by rewrite ready_not_event in Hl). unfold L2. rewrite members_insert_ne, !members_without by done.
    apply without_notin. rewrite elem_of_without. intros [_ Hi]. apply Hk in Hi. rewrite Hl in Hi. destruct Hi as [u Hu].
    by apply state_not_event in Hu.
  - intros u l Hu. rewrite (elem_of_inserted _ _ _ _ Hm). unfold L2. rewrite !members_without, !elem_of_without. split.
    + intros [[_ E]|(_ & _ & Hi)]; [by apply state_item_inj in E|done].
    + intros Hi. right. split; [by intros ?%state_item_inj|]. split; [|done]. apply state_not_event.
Qed.

Lemma wp_remove_unordered k L l t v (Q : unit -> kernel -> Prop) :
  scheduled sys k L -> queue_list sys l -> xEventListItem t ∈ members L l -> uxSchedulerSuspended k <> 0 ->
  (forall k' L', released t v k k' L L' -> Q tt k') ->
  wp (vTaskRemoveFromUnorderedEventList (xEventListItem t) v) Q k.
Proof.
  intros H Hl Hi Hs HQ. pose proof (sc_ok _ _ _ H) as HO. pose proof (ok_tasks _ _ _ _ _ HO) as HT.
  destruct (tk_event_member _ _ _ _ _ l _ HT (queue_list_event sys l Hl) Hi) as (u & <-%event_item_inj & [x Hx] & Ho).
  unfold vTaskRemoveFromUnorderedEventList. wps. apply wp_configASSERT; [lia|]. wps.
  eapply wp_set_event_value; [exact HO|by eauto|]. intros h0 HO0 HV0. wps.
  destruct (tk_event_item _ _ _ _ _ (ok_tasks _ _ _ _ _ HO0) t ltac:(eauto)) as [Hpr Hown _].
  eapply (wp_ask _ t).
  { destruct (like_get _ _ _ _ _ (like_refl _) _ Hpr) as (it & -> & _ & _ & _ & _ & Eo & _). cbn. by rewrite Eo, Hown. }
  cbv beta. apply wp_bind. eapply wp_remove_event; [exact HO0|exact Hi|]. intros n1 h1 HO1 HS1. cbv beta.
  destruct (ok_state _ _ _ _ _ t HO1) as (l' & Hin & _); [by eauto|done|]. apply wp_bind.
  eapply wp_remove_state; [exact HO1|by left|exact Hin|]. intros n2 h2 HO2 HS2. cbv beta. apply wp_bind.
  eapply wp_add_ready; [exact HO2|exact Hx|apply detached_without|by apply detached_pended, detached_without_other, detached_without|].
  intros h3 top' ns' Hm HS3 HO3. cbv beta. destruct (ready_priority _ _ _ _ _ t x HT Hx) as [Hp Ep].
  destruct (released_lists t x L ns' Hp Hm) as [Hev Hst].
  { intros i l0 Hi0. destruct (tk_members _ _ _ _ _ HT l0 i Hi0) as (u & _ & ->). destruct (event_list l0); eauto. }
  set (L3 := <[_ := ns']> _) in *. set (k3 := set_k_lists h3 _) in *.
  assert (forall k', scheduled sys k' L3 -> unhurried k' = unhurried k -> k_lists k' = h3 ->
    (switch_pending k = true -> switch_pending k' = true) -> released t v k k' L L3) as Hall.
  { intros k' HS' Hf Eh Hsw. split; try done.
    - intros x' Hx'. assert (x' = x) as -> by congruence. unfold L3. rewrite members_insert_eq, Hm. by left.
    - intros i. rewrite Eh, (same_value _ _ HS3). cbn. rewrite (same_value _ _ HS2). cbn. rewrite (same_value _ _ HS1), HV0.
      case_decide as Ei; [subst i; apply upd_eq|]. apply upd_ne. by intros [= ->]. }
  wps. apply (wp_get_tcb t x); [done|]. wps. destruct (ok_current _ _ _ _ _ HO) as (c & y & Hc & Hy). wp_running Hc Hy.
  apply wp_when; intros Hgt; wps; apply (HQ _ L3), Hall; try done; [by apply scheduled_yield|intros _; apply orb_true_r|].
  eapply (scheduled_added sys k k3 L _ t x _ _ c y); try done.
  - by apply preempted_without, preempted_without, H.
  - intros u q Hu Hq. by apply other_without2.
  - intros [|]; [done|lia].
Qed.

(** The tasks [ts] have left the list for the bits [now]. *)
Record let_go (now : Z) (ts : list nat) (k k' : kernel) (L L' : store) : Prop := {
  lg_scheduled : scheduled sys k' L';
  lg_event l : event_list l = true -> members L' l = filter (fun j => j ∉ xEventListItem <$> ts) (members L l);
  lg_ready t x : t ∈ ts -> k_tcbs k !! t = Some x -> xStateListItem t ∈ members L' (pxReadyTasksLists (uxPriority x));
  lg_state u l : u ∉ ts -> xStateListItem u ∈ members L' l <-> xStateListItem u ∈ members L l;
  lg_value i : value (k_lists k') (Item i) = if decide (i ∈ xEventListItem <$> ts) then wake_word now else value (k_lists k) (Item i);
  lg_switch : switch_pending k = true -> switch_pending k' = true;
  lg_frame : unhurried k' = unhurried k;
}.

Lemma let_go_nobody now k L : scheduled sys k L -> let_go now [] k k L L.
Proof.
  intros H. split; try done.
  - intros l _. symmetry. apply filter_all. intros j _. apply not_elem_of_nil.
  - by intros t x ?%elem_of_nil.
Qed.

Lemma let_go_cons now t ts k k1 k' L L1 L' :
  released t (now .| eventUNBLOCKED_DUE_TO_BIT_SET) k k1 L L1 -> let_go now ts k1 k' L1 L' -> let_go now (t :: ts) k k' L L'.
Proof.
  intros [_ Re Rr Rs Rv Rw Rf] [Ls Le Lr Lst Lv Lw Lf]. pose proof Rf as Rf'. unfold unhurried in Rf'. injection Rf' as ET _ _ _ _ _ _.
  split; [done|..|auto|congruence].
  - intros l Hl. rewrite Le, Re by done. unfold without. rewrite list_filter_filter. apply list_filter_iff. intros j.
    rewrite fmap_cons, elem_of_cons. tauto.
  - intros u x Hu Hx. destruct (decide (u ∈ ts)) as [Hin|Hn]; [apply Lr; [done|by rewrite ET]|].
    apply elem_of_cons in Hu as [->|Hu]; [|done]. apply Lst; [done|]. by apply Rr.
  - intros u l Hu. rewrite elem_of_cons in Hu. rewrite Lst, Rs by tauto. done.
  - intros i. rewrite Lv, Rv. rewrite fmap_cons. repeat case_decide; rewrite ?elem_of_cons in *; try done; tauto.
Qed.

(** ** The walk of the list *)

Lemma st_first h L l ns : stored h L -> L !! l = Some ns -> get_pxNext (ListEnd l) h = Ok (after l ns).
Proof.
  intros S [idx R]%(st_ring _ _ S). apply (like_get_next _ _ _ _ _ (like_refl _)); [apply (ring_present _ _ _ _ R); by left|].
  apply (ring_neighbours h l [] ns idx R).
Qed.

Section Walk.
Context (g l : nat) (x : EventGroup_t).
Hypothesis of_group : queue_list sys l.
Let now := uxEventBits x.

Lemma st_after k L kept i rest :
  scheduled sys k L -> L !! l = Some (kept ++ i :: rest) ->
  get_pxNext (Item i) (k_lists k) = Ok (after l rest) /\ listGET_LIST_ITEM_VALUE i (k_lists k) = Ok (value (k_lists k) (Item i)).
Proof.
  intros H E. pose proof (tk_stored _ _ _ _ _ (ok_tasks _ _ _ _ _ (sc_ok _ _ _ H))) as S.
  destruct (st_ring _ _ S _ _ E) as [idx R]. assert (present (k_lists k) (Item i)) as Hp.
  { apply (ring_present _ _ _ _ R). right. rewrite fmap_app, elem_of_app. right. by left. }
  split; [|by apply (st_ask_value _ _)]. apply (like_get_next _ _ _ _ _ (like_refl _)); [done|].
  rewrite (app_assoc kept [i] rest : kept ++ i :: rest = (kept ++ [i]) ++ rest) in R.
  destruct (ring_neighbours _ _ _ _ _ R) as [Hn _]. unfold before in Hn. rewrite fmap_app in Hn. cbn in Hn.
  by rewrite last_last in Hn.
Qed.

(** The tasks of the items that are satisfied. *)
Definition to_wake (k : kernel) (rest : list nat) : list nat :=
  Nat.div2 <$> filter (fun i => satisfied now (value (k_lists k) (Item i)) = true) rest.

Lemma same_words k k1 rest :
  (forall j, j ∈ rest -> value (k_lists k1) (Item j) = value (k_lists k) (Item j)) ->
  filter (fun i => satisfied now (value (k_lists k1) (Item i)) = true) rest =
    filter (fun i => satisfied now (value (k_lists k) (Item i)) = true) rest /\
  forall acc, foldl (fun acc i => take_bits now acc (value (k_lists k1) (Item i))) acc rest =
    foldl (fun acc i => take_bits now acc (value (k_lists k) (Item i))) acc rest.
Proof.
  induction rest as [|j rest IH]; intros HV; [done|]. destruct IH as [IHf IHa]; [intros j' Hj'; apply HV; by right|].
  rewrite !filter_cons, IHf. cbn [foldl]. rewrite (HV j) by left. split; [done|]. intros acc. apply IHa.
Qed.

Lemma wp_set_bits_loop rest : forall fuel k L kept acc (Q : Z -> kernel -> Prop),
  scheduled sys k L -> L !! l = Some (kept ++ rest) -> uxSchedulerSuspended k <> 0 -> group_at k g = Some x ->
  (length rest <= fuel)%nat ->
  (forall k' L', let_go now (to_wake k rest) k k' L L' ->
     Q (foldl (fun acc i => take_bits now acc (value (k_lists k) (Item i))) acc rest) k') ->
  wp (set_bits_loop fuel g (after l rest) (ListEnd l) acc) Q k.
Proof.
  induction rest as [|i rest IH]; intros fuel k L kept acc Q H E Hs Hg Hf HQ.
  { destruct fuel; cbn; (rewrite bool_decide_eq_true_2 by done); wps; by eapply HQ, let_go_nobody. }
  assert (i ∈ members L l) as Hi by (rewrite (members_lookup _ _ _ E), elem_of_app; right; by left).
  pose proof (ok_tasks _ _ _ _ _ (sc_ok _ _ _ H)) as HT. destruct (st_after k L kept i rest H E) as [En Ev].
  destruct (tk_event_member _ _ _ _ _ l _ HT (queue_list_event sys l of_group) Hi) as (t & -> & _).
  destruct fuel as [|fuel]; [cbn in Hf; lia|]. cbn in Hf. cbn [set_bits_loop]. change (after l (xEventListItem t :: rest)) with (Item (xEventListItem t)).
  rewrite bool_decide_eq_false_2 by done. wps. eapply wp_ask; [exact En|]. wps. eapply wp_ask; [exact Ev|]. wps.
  apply (wp_get_group g x); [done|]. fold now. rewrite loop_test, control_bit_24. unfold to_wake in HQ. rewrite filter_cons in HQ.
  cbn [foldl] in HQ. unfold take_bits at 2 in HQ. set (v := value (k_lists k) (Item (xEventListItem t))) in *.
  destruct (satisfied now v) eqn:Es; [|rewrite decide_False in HQ by done].
  - rewrite decide_True in HQ by done. cbn [fmap list_fmap andb] in HQ. rewrite event_owner in HQ.
    apply wp_bind. eapply wp_remove_unordered; [exact H|exact of_group|exact Hi|done|]. intros k1 L1 HR. cbv beta.
    pose proof HR as [H1 Re _ _ Rv _ Rf]. unfold unhurried in Rf. injection Rf as _ Eo _ _ _ Esu _.
    assert (NoDup (kept ++ xEventListItem t :: rest)) as HN by (destruct (st_ring _ _ (tk_stored _ _ _ _ _ HT) _ _ E) as [idx R]; apply R).
    apply NoDup_app in HN as (_ & Hdis & [Hni _]%NoDup_cons).
    assert (xEventListItem t ∉ kept) as Hnk by (intros Hk; apply (Hdis _ Hk); by left).
    apply (IH fuel k1 L1 kept); [done| |congruence|unfold group_at; by rewrite Eo|lia|].
    + rewrite (queue_list_members sys _ _ _ _ l (sc_ok _ _ _ H1) of_group), Re by (by apply queue_list_event with sys).
      rewrite (members_lookup _ _ _ E). f_equal. unfold without. rewrite filter_app, filter_cons_False by (by intros []).
      f_equal; by apply without_notin.
    + assert (forall j, j ∈ rest -> value (k_lists k1) (Item j) = value (k_lists k) (Item j)) as HV
        by (intros j Hj; rewrite Rv, decide_False; [done|by intros ->]).
      intros k' L'. unfold to_wake in *. destruct (same_words k k1 rest HV) as [-> Ef]. rewrite Ef. intros HL.
      apply (HQ k' L'). by apply (let_go_cons now t _ k k1 k' L L1 L').
  - cbn [andb] in HQ. apply (IH fuel k L (kept ++ [xEventListItem t])); try done; [|lia]. by rewrite <- app_assoc.
Qed.

End Walk.

(** ** Resuming *)

(** [xTaskResumeAll] when nothing is pending, also inside a longer suspension. *)
Lemma wp_resume_quiet s k L (Q : bool -> kernel -> Prop) :
  kernel_ok sys None (xTickCount k + 1) k L -> members L xPendingReadyList = [] -> uxSchedulerSuspended k = s + 1 ->
  0 <= s < 2 ^ 32 - 1 -> xPendedTicks k = 0 ->
  (forall b pv, (pendsv k = true -> pv = true) -> (b = true -> pv = true) -> Q b (set_pendsv pv (set_uxSchedulerSuspended s k))) ->
  wp xTaskResumeAll Q k.
Proof.
  intros H Hm Hs Hr Hp HQ. assert (Q false (set_uxSchedulerSuspended s k)) as Hq.
  { specialize (HQ false (pendsv k)). destruct k. by apply HQ. }
  destruct (Z.eq_dec s 0) as [->|Hne]; [eapply wp_resume_idle; [exact H|done|done|done|..]|].
  - intros _. by apply HQ.
  - by intros b _ ->.
  - unfold xTaskResumeAll. wps. rewrite Hs. apply wp_configASSERT; [lia|]. wps. replace (s + 1 - 1) with s by lia.
    replace (s =? 0) with false by lia. cbn [andb]. wps. by rewrite wrapu_small by (unfold in_range; lia).
Qed.

(** ** Setting bits *)

Definition wait_word (k : kernel) (t : nat) : Z := value (k_lists k) (Item (xEventListItem t)).

(** The task waits in the list, and the bits satisfy it. *)
Definition served_by (now : Z) (l : nat) (k : kernel) (t : nat) : Prop :=
  in_list k (xEventListItem t) l /\ satisfied now (wait_word k t) = true.

(** The bits [e] are [now] without those that a task that was let go clears. *)
Definition bits_left (now : Z) (l : nat) (k : kernel) (e : Z) : Prop :=
  in_range 24 e /\ forall b, Z.testbit e b = true <->
    Z.testbit now b = true /\
    ~ exists t, served_by now l k t /\ clears_on_exit (wait_word k t) = true /\ Z.testbit (bits_awaited (wait_word k t)) b = true.

Record bits_set (g : nat) (x : EventGroup_t) (now e : Z) (k k' : kernel) : Prop := {
  bs_good : kernel_good sys k';
  bs_left : bits_left now (xTasksWaitingForBits x) k e;
  bs_group : k_objects k' = k_objects (with_group g (set_uxEventBits e x) k);
  bs_served t : served_by now (xTasksWaitingForBits x) k t ->
    ready k' t /\ (forall l, ~ in_list k' (xEventListItem t) l) /\ wait_word k' t = wake_word now;
  bs_others t : ~ served_by now (xTasksWaitingForBits x) k t ->
    (forall l, in_list k' (xEventListItem t) l <-> in_list k (xEventListItem t) l) /\
    (forall l, in_list k' (xStateListItem t) l <-> in_list k (xStateListItem t) l) /\ wait_word k' t = wait_word k t;
  bs_frame : k_tcbs k' = k_tcbs k /\ xTickCount k' = xTickCount k /\ xPendedTicks k' = xPendedTicks k /\
    pxCurrentTCB k' = pxCurrentTCB k /\ uxSchedulerSuspended k' = uxSchedulerSuspended k;
}.

Lemma foldl_take now (word : nat -> Z) ns : forall acc b,
  Z.testbit (foldl (fun acc i => take_bits now acc (word i)) acc ns) b = true <->
  Z.testbit acc b = true \/ exists i, i ∈ ns /\ satisfied now (word i) = true /\ clears_on_exit (word i) = true /\
    Z.testbit (bits_awaited (word i)) b = true.
Proof.
  induction ns as [|i ns IH]; intros acc b; cbn [foldl].
  { split; [by left|]. intros [|(i & []%elem_of_nil & _)]. done. }
  rewrite IH. unfold take_bits. split.
  - destruct (satisfied now (word i) && clears_on_exit (word i)) eqn:E.
    + apply andb_true_iff in E as [E1 E2]. rewrite Z.lor_spec, orb_true_iff.
      intros [[|]|(j & Hj & Hr)]; [by left|right; exists i; split; [by left|done]|right; exists j; split; [by right|done]].
    + intros [|(j & Hj & Hr)]; [by left|right; exists j; split; [by right|done]].
  - intros [Ha|(j & Hj & E1 & E2 & Hb)].
    + left. destruct (_ && _); [by rewrite Z.lor_spec, Ha|done].
    + apply elem_of_cons in Hj as [->|Hj]; [|right; by exists j]. left. rewrite E1, E2. cbn. rewrite Z.lor_spec, Hb. apply orb_true_r.
Qed.

Lemma testbit_without a c b : in_range 24 a -> Z.testbit (bits_without a c) b = Z.testbit a b && negb (Z.testbit c b).
Proof.
  intros Ha. unfold bits_without, wrapu. destruct (Z_lt_dec b 0) as [Hn|Hn]; [by rewrite !Z.testbit_neg_r|].
  rewrite Z.land_spec. destruct (Z_lt_dec b 32) as [Hb|Hb].
  - rewrite Z.mod_pow2_bits_low by lia. by rewrite Z.lnot_spec by lia.
  - replace (Z.testbit a b) with false; [done|]. symmetry. apply (proj1 (in_range_testbit 24 a ltac:(lia)) Ha). lia.
Qed.

Section SetBits.
Context (g : nat) (x : EventGroup_t) (k : kernel) (bits s : Z).
Hypothesis good : kernel_good sys k.
Hypothesis here : group_at k g = Some x.
Hypothesis valid : g <> 0%nat.
Hypothesis in_system : queue_list sys (xTasksWaitingForBits x).
Hypothesis group_bits : in_range 24 (uxEventBits x).
Hypothesis new_bits : in_range 24 bits.
Hypothesis depth : uxSchedulerSuspended k = s.
Hypothesis shallow : 0 <= s < 2 ^ 32 - 1.
Hypothesis drained : nothing_pending k.
Let now := uxEventBits x .| bits.
Let l := xTasksWaitingForBits x.
Let k2 := with_group g (set_uxEventBits now x) (set_uxSchedulerSuspended (s + 1) k).

Lemma now_range : in_range 24 now.
Proof. by apply in_range_lor. Qed.

(** The satisfied tasks of the list are the tasks that are let go. *)
Lemma to_wake_served L t :
  scheduled sys k L -> t ∈ to_wake (set_uxEventBits now x) k2 (members L l) <-> served_by now l k t.
Proof.
  intros H. pose proof (ok_tasks _ _ _ _ _ (sc_ok _ _ _ H)) as HT. unfold served_by.
  rewrite (in_list_member sys _ _ _ _ _ _ (sc_ok _ _ _ H)). unfold to_wake. rewrite list_elem_of_fmap. split.
  - intros (i & -> & [Hs Hi]%list_elem_of_filter).
    destruct (tk_event_member _ _ _ _ _ l _ HT (queue_list_event sys l in_system) Hi) as (u & -> & _). by rewrite event_owner.
  - intros [Hi Hs]. exists (xEventListItem t). split; [by rewrite event_owner|]. by apply list_elem_of_filter.
Qed.

Lemma bits_left_clear L :
  scheduled sys k L ->
  bits_left now l k (bits_without now (foldl (fun acc i => take_bits now acc (value (k_lists k) (Item i))) 0 (members L l))).
Proof.
  intros H. pose proof (ok_tasks _ _ _ _ _ (sc_ok _ _ _ H)) as HT. split; [apply in_range_land_l; [lia|apply now_range]|].
  intros b. rewrite testbit_without by apply now_range. rewrite andb_true_iff, negb_true_iff, <- not_true_iff_false.
  rewrite (foldl_take now (fun i => value (k_lists k) (Item i))), Z.bits_0. apply and_iff_compat_l, not_iff_compat. split.
  - intros [|(i & Hi & Hs & Hc & Hb)]; [done|].
    destruct (tk_event_member _ _ _ _ _ l _ HT (queue_list_event sys l in_system) Hi) as (u & -> & _). exists u.
    split; [|done]. split; [|done]. by apply (in_list_member sys _ _ _ _ _ _ (sc_ok _ _ _ H)).
  - intros (t & [Hi Hs] & Hc & Hb). right. exists (xEventListItem t). split; [|done].
    by apply (in_list_member sys _ _ _ _ _ _ (sc_ok _ _ _ H)).
Qed.

Section End.
Context (L L3 : store) (k3 : kernel) (e : Z) (pv : bool).
Hypothesis was : scheduled sys k L.
Hypothesis walked : let_go now (to_wake (set_uxEventBits now x) k2 (members L l)) k2 k3 L L3.
Hypothesis left : bits_left now l k e.
Hypothesis pended : pendsv k3 = true -> pv = true.
Let k5 := set_pendsv pv (set_uxSchedulerSuspended s (with_group g (set_uxEventBits e x) k3)).

Lemma set_bits_ok : kernel_ok sys None (xTickCount k5 + 1) k5 L3.
Proof. pose proof (sc_ok _ _ _ (lg_scheduled _ _ _ _ _ _ walked)) as []. split; try done. cbn. unfold in_range. lia. Qed.

Lemma set_bits_scheduled : scheduled sys k5 L3.
Proof.
  pose proof (lg_scheduled _ _ _ _ _ _ walked) as [_ HP3 _]. pose proof walked as [_ _ _ Hst _ Hsw Hf].
  unfold unhurried in Hf. injection Hf as HT _ _ _ Hc _ _.
  assert (switch_pending k3 = true -> switch_pending k5 = true) as Hsw5.
  { unfold k5, switch_pending. kcbn. rewrite !orb_true_iff. intros [?|?]; auto. }
  split; [apply set_bits_ok| |].
  - intros Hb. apply HP3. destruct (switch_pending k3); [by rewrite Hsw5 in Hb|done].
  - intros Hs Hb. destruct (sc_running _ _ _ was) as (c & p & Ec & Hp & Hin).
    + rewrite depth. exact Hs.
    + change (switch_pending k) with (switch_pending k2). destruct (switch_pending k2); [by rewrite (Hsw5 (Hsw eq_refl)) in Hb|done].
    + exists c, p. split; [exact (eq_trans Hc Ec)|]. split; [done|]. apply Hst; [|done].
      rewrite (to_wake_served L c was). intros [Hl _]. apply (in_list_member sys _ _ _ _ _ _ (sc_ok _ _ _ was)) in Hl.
      destruct (current_state sys k L c p was Ec Hp Hin) as (_ & _ & _ & Hpd). apply Hpd in Hl.
      by apply (queue_list_not_pending sys l in_system).
Qed.

Lemma set_bits_end : bits_set g x now e k k5 /\ nothing_pending k5.
Proof.
  pose proof set_bits_ok as HO5. pose proof walked as [H3 Hev Hrd Hst Hv _ Hf]. unfold unhurried in Hf. injection Hf as HT Ho Ht Hp Hc _ Hn.
  pose proof (fun i l => in_list_member sys _ _ _ _ i l HO5) as HM5. pose proof (sc_ok _ _ _ was) as HO.
  pose proof (fun i l => in_list_member sys _ _ _ _ i l HO) as HM. pose proof (ok_tasks _ _ _ _ _ HO) as HTk.
  assert (k_objects k5 = k_objects (with_group g (set_uxEventBits e x) k)) as Eo.
  { unfold k5, with_group. kcbn. rewrite Ho. unfold k2, with_group. cbn. by rewrite insert_insert_eq. }
  assert (forall t, xEventListItem t ∈ xEventListItem <$> to_wake (set_uxEventBits now x) k2 (members L l) <-> served_by now l k t) as Hsv.
  { intros t. rewrite <- (to_wake_served L t was), list_elem_of_fmap. split; [by intros (u & ->%event_item_inj & Hu)|by eauto]. }
  assert (forall t l', in_list k5 (xEventListItem t) l' <-> ~ served_by now l k t /\ in_list k (xEventListItem t) l') as Hevs.
  { intros t l'. rewrite HM5, HM. destruct (event_list l') eqn:El.
    - by rewrite (Hev l' El), list_elem_of_filter, Hsv.
    - split; [intros Hi|intros [_ Hi]]; exfalso; revert Hi;
        [apply (tk_event_not_state sys (k_lists k5) (k_tcbs k5) L3 None)|apply (tk_event_not_state sys (k_lists k) (k_tcbs k) L None)]; try done; apply HO5. }
  split; [split; try done|split; [exact (eq_trans Hp (proj1 drained))|intros t [_ Hi]%Hevs; by apply (proj2 drained t)]].
  - split; [exists L3; apply set_bits_scheduled|]. destruct (kg_objects _ _ good) as [Oq On].
    split; [|change (uxCurrentNumberOfTasks k3 <= queueINT8_MAX); by rewrite Hn]. unfold queue_at. rewrite Eo. apply Oq.
  - intros t Hs. pose proof Hs as [Hin _]. apply HM in Hin.
    destruct (tk_event_member _ _ _ _ _ l _ HTk (queue_list_event sys l in_system) Hin) as (u & <-%event_item_inj & [y Hy] & _).
    split; [exists y; split; [exact (eq_trans (f_equal (lookup t) HT) Hy)|apply HM5, Hrd; [by apply to_wake_served|done]]|].
    split; [intros l'; rewrite Hevs; tauto|]. unfold wait_word. change (k_lists k5) with (k_lists k3).
    rewrite Hv, decide_True; [done|]. by apply Hsv.
  - intros t Hs. split; [intros l'; rewrite Hevs; tauto|].
    split; [intros l'; rewrite HM5, HM; apply Hst; by rewrite to_wake_served|].
    unfold wait_word. change (k_lists k5) with (k_lists k3). rewrite Hv, decide_False; [done|]. by rewrite Hsv.
Qed.

End End.

Lemma wp_set_bits (Q : Z -> kernel -> Prop) :
  (forall e k', bits_set g x now e k k' -> nothing_pending k' -> Q e k') -> wp (xEventGroupSetBits g bits) Q k.
Proof.
  intros HQ. destruct good as [[L H] _]. pose proof (sc_ok _ _ _ H) as HO. unfold xEventGroupSetBits. wps.
  apply wp_configASSERT; [by destruct g|]. wps. apply wp_configASSERT; [by rewrite land_control|]. wps.
  apply (wp_get_group g x); [done|]. wps. unfold vTaskSuspendAll. wps. rewrite depth, wrapu_small by (unfold in_range; lia).
  assert (scheduled sys k2 L) as H2.
  { apply scheduled_objects, (scheduled_flags sys k); try done; [|cbn; lia]. apply ok_suspend_all; [unfold in_range; lia|done]. }
  pose proof (tk_stored _ _ _ _ _ (ok_tasks _ _ _ _ _ HO)) as S. pose proof (queue_list_members sys _ _ _ _ l HO in_system) as El.
  eapply wp_ask; [by eapply (st_first _ _ _ _ S)|]. wps. apply (wp_get_group g x); [done|]. wps. apply wp_put_group. fold now k2. wps.
  eapply wp_ask; [by apply (st_length _ _ S)|]. wps. rewrite Nat2Z.id.
  apply (wp_set_bits_loop g l (set_uxEventBits now x) in_system _ _ k2 L []); [done|done|cbn; lia|apply group_at_with|done|].
  intros k3 L3 HL. cbn [uxEventBits set_uxEventBits] in *. wps.
  assert (group_at k3 g = Some (set_uxEventBits now x)) as Hg3.
  { pose proof (lg_frame _ _ _ _ _ _ HL) as Hf. unfold unhurried in Hf. injection Hf as _ Ho _ _ _ _ _. unfold group_at. rewrite Ho. apply group_at_with. }
  eapply wp_clear_bits; [exact Hg3|]. wps. cbn [uxEventBits set_uxEventBits].
  pose proof (bits_left_clear L H) as Hleft. set (e := bits_without now _) in *.
  change (set_uxEventBits e (set_uxEventBits now x)) with (set_uxEventBits e x). pose proof (sc_ok _ _ _ (lg_scheduled _ _ _ _ _ _ HL)) as HO3.
  pose proof HL as [_ Hev _ _ _ _ Hf]. unfold unhurried in Hf. injection Hf as _ _ _ Hp _ Hs _.
  eapply (wp_resume_quiet s _ L3); [destruct HO3; by split| |exact Hs|done|exact (eq_trans Hp (proj1 drained))|].
  { rewrite (Hev xPendingReadyList eq_refl), (pending_empty sys _ _ _ HO (proj2 drained)). done. }
  intros b pv Hpv _. wps. eapply wp_get_group; [apply group_at_with|]. wps. cbn [uxEventBits set_uxEventBits].
  by apply HQ; eapply set_bits_end.
Qed.

End SetBits.

(** ** Waiting *)

Section Block.
Context (l c : nat) (y : TCB_t) (k : kernel) (v n : Z).
Hypothesis good : kernel_good sys k.
Hypothesis in_system : queue_list sys l.
Hypothesis running : pxCurrentTCB k = Some c.
Hypothesis task : k_tcbs k !! c = Some y.
Hypothesis not_idle : c <> idle_task sys.
Hypothesis is_ready : ready k c.
Hypothesis free : forall l, ~ in_list k (xEventListItem c) l.
Hypothesis not_notified : ucNotifyState y <> taskWAITING_NOTIFICATION.
Hypothesis suspended : uxSchedulerSuspended k = 1.
Hypothesis drained : nothing_pending k.
Hypothesis bounded : 0 < n <= portMAX_DELAY.
Hypothesis word_range : in_range 32 v.

(** The task is in the list with its condition and in the list of its time-out,
    and a switch is asked for. *)
Record blocked_at (k' : kernel) : Prop := {
  ba_good : kernel_good sys k';
  ba_objects : k_objects k' = k_objects k;
  ba_event : in_list k' (xEventListItem c) l;
  ba_word : wait_word k' c = v .| taskEVENT_LIST_ITEM_VALUE_IN_USE;
  ba_waits : waits_for k' c n;
  ba_others t : t <> c -> (forall l, in_list k' (xEventListItem t) l <-> in_list k (xEventListItem t) l) /\
    (forall l, in_list k' (xStateListItem t) l <-> in_list k (xStateListItem t) l) /\ wait_word k' t = wait_word k t;
  ba_switch : pendsv k' = true /\ uxSchedulerSuspended k' = 0;
}.

(** [vTaskPlaceOnUnorderedEventList] *)
Lemma wp_place_unordered L (Q : unit -> kernel -> Prop) :
  scheduled sys k L ->
  (forall h0 k' L', scheduled sys (set_k_lists h0 k) L ->
     (forall i, value h0 i = upd (value (k_lists k)) (Item (xEventListItem c)) (v .| taskEVENT_LIST_ITEM_VALUE_IN_USE) i) ->
     placed_on sys true l n c y (set_k_lists h0 k) k' L L' -> Q tt k') ->
  wp (vTaskPlaceOnUnorderedEventList l v n) Q k.
Proof.
  intros H HQ. pose proof (sc_ok _ _ _ H) as HO. unfold vTaskPlaceOnUnorderedEventList. wps. rewrite suspended.
  apply wp_configASSERT; [done|]. wps. apply (wp_current c); [done|]. wps.
  eapply wp_set_event_value; [apply H|by eauto|]. intros h0 HO0 HV0. apply (scheduled_lists _ _ _ _ H) in HO0 as H0. wps.
  assert (detached L (xEventListItem c)) as Hd by (intros l' Hi; by apply (free l'), (in_list_member sys _ _ _ _ _ _ HO)).
  destruct (tk_event_item _ _ _ _ _ (ok_tasks _ _ _ _ _ HO0) c ltac:(eauto)) as [Hpr _ Hv].
  destruct (st_insert_end _ _ (tk_stored _ _ _ _ _ (ok_tasks _ _ _ _ _ HO0)) l _ _ (queue_list_members sys _ _ _ _ _ HO0 in_system) Hd Hpr Hv)
    as (h1 & ns1 & ns2 & En & E & S1 & HS1).
  apply (wp_do _ h1); [done|]. destruct is_ready as (y' & Hy' & Hr). rewrite task in Hy'. injection Hy' as <-.
  apply (in_list_member sys _ _ _ _ _ _ HO) in Hr. destruct (ready_priority _ _ _ _ _ c y (ok_tasks _ _ _ _ _ HO) task) as [Hp _].
  eapply (wp_place_delay sys (set_k_lists h0 k) L c (pxReadyTasksLists (uxPriority y)) l y n true); try done.
  - intros j. rewrite En, !elem_of_app, elem_of_cons. tauto.
  - intros Enil. rewrite Enil in En. by destruct ns1, ns2.
  - intros k' L'. apply HQ; [done|]. intros i. rewrite HV0. unfold upd. case_decide; [|done].
    apply wrapu_small, in_range_lor; [lia|done|by vm_compute].
Qed.

Lemma wp_wait_block : wp (vTaskPlaceOnUnorderedEventList l v n;; wait_or_return true 0) (fun r k' => r = None /\ blocked_at k') k.
Proof.
  destruct good as [[L H] HB]. pose proof (sc_ok _ _ _ H) as HO. destruct drained as [Hpt Hpl].
  pose proof (ok_tick _ _ _ _ _ HO) as Htick. apply wp_bind. eapply wp_place_unordered; [exact H|]. intros h0 k3 L3 H0 HV0 HP. cbv beta.
  destruct (placed_waits _ _ _ _ _ _ _ _ _ HP Htick bounded) as [Hev Hw].
  pose proof HP as [HO3 _ _ _ _ H7 (h' & next' & Ek3) Hvs Hoth].
  assert (kernel_ok sys None (xTickCount k3 + 1) k3 L3) as HO3' by (by subst k3).
  assert (blocked_at (set_pendsv true (set_uxSchedulerSuspended 0 k3))) as Hend.
  { assert (kernel_ok sys None (xTickCount k3 + 1) (set_pendsv true (set_uxSchedulerSuspended 0 k3)) L3) as HO5
      by (by apply ok_pendsv, ok_suspend_all).
    pose proof (fun i l => in_list_member sys _ _ _ _ i l HO5) as HM5. pose proof (fun i l => in_list_member sys _ _ _ _ i l HO) as HM.
    split; try done; [|by subst k3|..].
    - split; [exists L3; by apply scheduled_pending|]. apply (objects_ok_static sys k); [by subst k3|done].
    - change (value (k_lists k3) (Item (xEventListItem c)) = v .| taskEVENT_LIST_ITEM_VALUE_IN_USE).
      rewrite Hvs by (intros E; by apply eq_sym, state_not_event in E). etransitivity; [apply HV0|]. apply upd_eq.
    - intros t Ht. split; [|split].
      + intros l'. rewrite HM5, HM. apply Hoth; [by intros ?%event_item_inj|intros E; by apply eq_sym, state_not_event in E].
      + intros l'. rewrite HM5, HM. apply Hoth; [apply state_not_event|by intros ?%state_item_inj].
      + change (value (k_lists k3) (Item (xEventListItem t)) = wait_word k t).
        rewrite Hvs by (intros E; by apply eq_sym, state_not_event in E). etransitivity; [apply HV0|]. unfold wait_word. apply upd_ne.
        by intros [= ?%event_item_inj]. }
  unfold wait_or_return. wps.
  eapply (wp_resume_idle sys _ _ L3); [exact HO3'|apply H7; by apply (pending_empty sys _ _ _ HO)|by subst k3|by subst k3|..].
  - intros _. cbn [negb when]. wps. done.
  - intros b _ ->. cbn [negb when]. wps. done.
Qed.

End Block.

End Groups.
