(* ===== verification/FreeRTOSEventGroupsCalls.v ===== *)
(** * Event groups: the calls that wait

    [xEventGroupWaitBits] and [xEventGroupSync] until they return or block, and
    what they return when the task runs again; [xEventGroupCreate] and
    [vEventGroupDelete]. *)

From S2P Require Import Prelude FreeRTOSList FreeRTOSListTheory FreeRTOSListStore FreeRTOSHeap FreeRTOSObjects.
From S2P Require Import FreeRTOSTasks FreeRTOSTasksTheory FreeRTOSTasksCalls FreeRTOSTasksInvariant FreeRTOSTasksEvents.
From S2P Require Import FreeRTOSTasksTime FreeRTOSTasksFrame FreeRTOSTasksBoot FreeRTOSQueue FreeRTOSQueueCalls.
From S2P Require Import FreeRTOSQueueTheory FreeRTOSQueueWait FreeRTOSTimersCalls FreeRTOSBoot.
From S2P Require Import FreeRTOSEventGroups FreeRTOSEventGroupsTheory.

(** ** The value of the event item *)

(** The condition of a task, as the calls that wait write it. *)
Definition event_word (bits : Z) (clear all : bool) : Z := (bits .| control_bits clear all) .| taskEVENT_LIST_ITEM_VALUE_IN_USE.

Lemma testbit_awaited v b : Z.testbit (bits_awaited v) b = Z.testbit v b && (b <? 24).
Proof.
  unfold bits_awaited, bits_without. change (u32 (.~ eventEVENT_BITS_CONTROL_BYTES)) with (Z.ones 24). rewrite Z.land_spec.
  destruct (Z_lt_dec b 0); [by rewrite !Z.testbit_neg_r by lia|]. by rewrite Z.testbit_ones_nonneg by lia.
Qed.

(** A number of 24 bits under control bytes. *)
Lemma awaited_under bits v : in_range 24 bits -> v .& Z.ones 24 = 0 -> bits_awaited (bits .| v) = bits.
Proof.
  intros Hb Hv. apply Z.bits_inj. intros n. rewrite testbit_awaited, Z.lor_spec. destruct (Z.ltb_spec n 24) as [Hn|Hn].
  - apply (f_equal (fun z => Z.testbit z n)) in Hv. rewrite Z.land_spec, Z.bits_0 in Hv. rewrite andb_true_r.
    destruct (Z_lt_dec n 0); [by rewrite !Z.testbit_neg_r by lia|].
    rewrite Z.testbit_ones_nonneg, (proj2 (Z.ltb_lt _ _) Hn), andb_true_r in Hv by lia. by rewrite Hv, orb_false_r.
  - rewrite andb_false_r. symmetry. by apply (proj1 (in_range_testbit 24 bits ltac:(lia)) Hb).
Qed.

Lemma event_word_fields bits clear all :
  in_range 24 bits -> bits_awaited (event_word bits clear all) = bits /\ clears_on_exit (event_word bits clear all) = clear /\
    waits_for_all (event_word bits clear all) = all.
Proof.
  intros Hb. unfold event_word, clears_on_exit, waits_for_all. rewrite <- Z.lor_assoc.
  split; [apply awaited_under; [done|by destruct clear, all]|]. pose proof (proj1 (proj1 (in_range_testbit 24 bits ltac:(lia)) Hb)) as H0.
  rewrite !Z.lor_spec, !H0 by lia. by destruct clear, all.
Qed.

Lemma wake_word_fields now :
  in_range 24 now -> bits_awaited (wake_word now) = now /\ wake_word now .& eventUNBLOCKED_DUE_TO_BIT_SET <> 0.
Proof.
  intros Hn. assert (wake_word now = now .| (eventUNBLOCKED_DUE_TO_BIT_SET .| taskEVENT_LIST_ITEM_VALUE_IN_USE)) as ->.
  { unfold wake_word. rewrite wrapu_small; [by rewrite Z.lor_assoc|].
    repeat apply in_range_lor; try lia; [by apply (in_range_weaken 24)|by vm_compute..]. }
  split; [by apply awaited_under|]. intros E. apply (f_equal (fun z => Z.testbit z 25)) in E.
  rewrite Z.land_spec, Z.lor_spec in E. revert E.
  by rewrite (proj1 (proj1 (in_range_testbit 24 now ltac:(lia)) Hn)) by lia.
Qed.

Lemma control_range bits clear all : in_range 24 bits -> in_range 32 (bits .| control_bits clear all).
Proof. intros Hb. apply in_range_lor; [lia|by apply (in_range_weaken 24)|]. by destruct clear, all. Qed.

Section Calls.
Context (sys : system).

(** ** Returning *)

Lemma good_group k g x : kernel_good sys k -> kernel_good sys (with_group g x k).
Proof. intros [[L H] [Oq On]]. split; [exists L; by apply scheduled_objects|by split]. Qed.

Lemma good_suspend k : kernel_good sys k -> uxSchedulerSuspended k = 0 -> kernel_good sys (set_uxSchedulerSuspended 1 k).
Proof.
  intros [[L H] [Oq On]] Hs. split; [exists L|by split]. apply (scheduled_flags sys k); try done. apply ok_suspend_all; [done|apply H].
Qed.

(** A task that did not block resumes the scheduler. *)
Lemma wp_wait_return r c k :
  kernel_good sys k -> uxSchedulerSuspended k = 1 -> nothing_pending k -> pxCurrentTCB k = Some c -> ready k c ->
  wp (wait_or_return false r)
    (fun r' k' => r' = Some r /\ kernel_good sys k' /\ exists pv, k' = set_pendsv pv (set_uxSchedulerSuspended 0 k)) k.
Proof.
  intros [[L H] [Oq On]] Hs [Hp Hn] Hc (y & Hy & Hr). pose proof (sc_ok _ _ _ H) as HO. unfold wait_or_return. wps.
  apply (in_list_member sys _ _ _ _ _ _ HO) in Hr. destruct (ready_priority _ _ _ _ _ c y (ok_tasks _ _ _ _ _ HO) Hy) as [Hrl _].
  eapply (wp_resume_quiet sys 0 _ L); [exact HO|by apply (pending_empty sys _ _ _ HO)|done|lia|done|]. intros b pv Hpv _. wps.
  split; [done|]. split; [|by exists pv]. split; [|by split]. exists L. split.
  - by destruct HO; split.
  - intros Hb. apply (sc_preempted _ _ _ H). revert Hb. unfold switch_pending. kcbn. rewrite !orb_false_iff.
    intros [-> ->]. split; [|done]. destruct (pendsv k); [by rewrite Hpv|done].
  - intros _ _. exists c, (pxReadyTasksLists (uxPriority y)). done.
Qed.

(** The call changed nothing but the group. *)
Record returned (g : nat) (x : EventGroup_t) (k k' : kernel) : Prop := {
  rt_good : kernel_good sys k';
  rt_objects : k_objects k' = k_objects (with_group g x k);
  rt_lists : k_lists k' = k_lists k;
  rt_frame : k_tcbs k' = k_tcbs k /\ xTickCount k' = xTickCount k /\ pxCurrentTCB k' = pxCurrentTCB k /\ uxSchedulerSuspended k' = 0;
}.

Lemma with_group_same g x k : group_at k g = Some x -> with_group g x k = k.
Proof. intros H. unfold with_group. rewrite insert_id by done. by destruct k as [? ? ? []]. Qed.

Section Wait.
Context (g c : nat) (x : EventGroup_t) (y : TCB_t) (k : kernel) (bits n : Z).
Hypothesis good : kernel_good sys k.
Hypothesis here : group_at k g = Some x.
Hypothesis valid : g <> 0%nat.
Hypothesis in_system : queue_list sys (xTasksWaitingForBits x).
Hypothesis group_bits : in_range 24 (uxEventBits x).
Hypothesis asked : in_range 24 bits /\ bits <> 0.
Hypothesis running : pxCurrentTCB k = Some c.
Hypothesis task : k_tcbs k !! c = Some y.
Hypothesis not_idle : c <> idle_task sys.
Hypothesis is_ready : ready k c.
Hypothesis free : forall l, ~ in_list k (xEventListItem c) l.
Hypothesis not_notified : ucNotifyState y <> taskWAITING_NOTIFICATION.
Hypothesis not_suspended : uxSchedulerSuspended k = 0.
Hypothesis drained : nothing_pending k.
Hypothesis bounded : in_range 32 n.

Lemma wp_wait_assertions (Q : unit -> kernel -> Prop) : Q tt k -> wp (wait_assertions bits n) Q k.
Proof.
  intros HQ. destruct asked as [Hr Hne]. unfold wait_assertions. wps. apply wp_configASSERT; [by rewrite land_control|]. wps.
  apply wp_configASSERT; [lia|]. wps. apply wp_assert_can_block; auto.
Qed.

(** The outcomes of [xEventGroupWaitBits]. *)
Definition wait_outcome (clear all : bool) (r : option Z) (k' : kernel) : Prop :=
  if prvTestWaitCondition (uxEventBits x) bits all then
    r = Some (uxEventBits x) /\ returned g (if clear then set_uxEventBits (bits_without (uxEventBits x) bits) x else x) k k'
  else if n =? 0 then r = Some (uxEventBits x) /\ returned g x k k'
  else r = None /\ blocked_at sys (xTasksWaitingForBits x) c k (bits .| control_bits clear all) n k'.

Lemma wp_return_group x' r :
  wp (wait_or_return false r) (fun r' k' => r' = Some r /\ returned g x' k k') (with_group g x' (set_uxSchedulerSuspended 1 k)).
Proof.
  eapply wp_mono; [apply (wp_wait_return r c); [by apply good_group, good_suspend|done..]|].
  intros r' k' (-> & Hg & pv & ->). done.
Qed.

Lemma wp_wait_enter clear all : wp (wait_bits_enter g bits clear all n) (wait_outcome clear all) k.
Proof.
  unfold wait_bits_enter, wait_outcome. wps. apply wp_configASSERT; [by destruct g|]. wps. apply wp_wait_assertions. wps.
  apply wp_suspend_first; [done|]. wps. apply (wp_get_group g x); [done|].
  assert (set_uxSchedulerSuspended 1 k = with_group g x (set_uxSchedulerSuspended 1 k)) as Ek by (by rewrite with_group_same).
  destruct (prvTestWaitCondition (uxEventBits x) bits all); [destruct clear|].
  - wps. eapply wp_clear_bits; [done|]. wps. apply wp_return_group.
  - wps. rewrite Ek. apply wp_return_group.
  - apply wp_if; intros Hn; rewrite Hn; [rewrite Ek; apply wp_return_group|].
    eapply wp_mono; [apply (wp_wait_block sys _ c y); try done; [by apply good_suspend|unfold in_range, portMAX_DELAY in *; lia|apply control_range, asked]|].
    intros r k' [-> HB]. split; [done|]. by destruct HB.
Qed.

(** The outcomes of [xEventGroupSync]: the bits are set, then the task returns or
    waits for all of its bits. *)
Definition sync_outcome (set : Z) (r : option Z) (k' : kernel) : Prop :=
  let now := uxEventBits x .| set in
  exists e k2, bits_set sys g x now e (set_uxSchedulerSuspended 1 k) k2 /\
    if now .& bits =? bits then r = Some now /\ returned g (set_uxEventBits (bits_without e bits) x) k2 k'
    else if n =? 0 then r = Some e /\ returned g (set_uxEventBits e x) k2 k'
    else r = None /\ blocked_at sys (xTasksWaitingForBits x) c k2 (bits .| control_bits true true) n k'.

Lemma wp_sync_enter set : in_range 24 set -> wp (sync_enter g set bits n) (sync_outcome set) k.
Proof.
  intros Hset. unfold sync_enter, sync_outcome. cbv zeta. wps. apply wp_wait_assertions. wps. apply wp_suspend_first; [done|]. wps.
  apply (wp_get_group g x); [done|]. wps. set (k1 := set_uxSchedulerSuspended 1 k).
  apply (wp_set_bits sys g x k1 set 1); try done; [by apply good_suspend|]. intros e k2 HB Hq. wps.
  set (now := uxEventBits x .| set) in *. pose proof HB as [Hg2 _ Eo _ Hoth (ET & _ & _ & Ec & Es)].
  assert (group_at k2 g = Some (set_uxEventBits e x)) as Hx2 by (unfold group_at; rewrite Eo; apply group_at_with).
  destruct (Hoth c) as (Hev & Hst & _); [intros [Hi _]; by apply (free (xTasksWaitingForBits x))|].
  assert (ready k2 c) as Hr2 by (destruct is_ready as (y' & Hy' & Hi); exists y'; split; [by rewrite ET|by apply Hst]).
  assert (forall x' r, wp (wait_or_return false r) (fun r' k' => r' = Some r /\ returned g x' k2 k') (with_group g x' k2)) as Hret.
  { intros x' r. eapply wp_mono; [apply (wp_wait_return r c); [by apply good_group|exact Es|done|exact (eq_trans Ec running)|done]|].
    intros r' k' (-> & Hg' & pv & ->). done. }
  apply wp_if; intros Hall; [|apply wp_if; intros Hn].
  - wps. eapply wp_clear_bits; [exact Hx2|]. wps. eapply wp_mono; [apply Hret|]. intros r k' HR. exists e, k2. by rewrite Hall.
  - eapply wp_mono; [apply (wp_wait_block sys _ c y); try done|].
    + exact (eq_trans Ec running).
    + by rewrite ET.
    + intros l. rewrite Hev. apply free.
    + unfold in_range, portMAX_DELAY in *. lia.
    + rewrite <- Z.lor_assoc. apply (control_range bits true true), asked.
    + intros r k' [-> HR]. exists e, k2. split; [done|]. rewrite Hall. replace (n =? 0) with false by lia. split; [done|].
      by rewrite <- Z.lor_assoc in HR.
  - wps. apply (wp_get_group g (set_uxEventBits e x)); [done|]. wps.
    specialize (Hret (set_uxEventBits e x) e). rewrite with_group_same in Hret by done. eapply wp_mono; [exact Hret|]. intros r k' HR.
    exists e, k2. rewrite Hall. replace (n =? 0) with true by lia. done.
Qed.

End Wait.

(** ** The task runs again *)

Lemma wp_reset_event_value k c y (Q : Z -> kernel -> Prop) :
  kernel_good sys k -> pxCurrentTCB k = Some c -> k_tcbs k !! c = Some y ->
  (forall h', kernel_good sys (set_k_lists h' k) ->
     (forall i, value h' i = upd (value (k_lists k)) (Item (xEventListItem c)) (u32 (configMAX_PRIORITIES - uxPriority y)) i) ->
     (forall i l, in_list (set_k_lists h' k) i l <-> in_list k i l) ->
     Q (wait_word k c) (set_k_lists h' k)) ->
  wp uxTaskResetEventItemValue Q k.
Proof.
  intros [[L H] HB] Hc Hy HQ. pose proof (sc_ok _ _ _ H) as HO. unfold uxTaskResetEventItemValue. wps. apply (wp_current c); [done|]. wps.
  eapply wp_ask; [apply (st_ask_value _ _), (tk_event_item _ _ _ _ _ (ok_tasks _ _ _ _ _ HO) c); by eauto|]. wps.
  apply (wp_get_tcb c y); [done|]. wps. eapply wp_set_event_value; [apply H|by eauto|]. intros h' HO' HV. wps.
  apply HQ; [|done|]. { split; [exists L; by apply scheduled_lists|by apply (objects_ok_static sys k)]. }
  intros i l. by rewrite (in_list_member sys _ _ _ _ _ _ HO'), (in_list_member sys _ _ _ _ _ _ HO).
Qed.

(** The task has read its event item; the item holds its priority again. *)
Record left_wait (g : nat) (x : EventGroup_t) (c : nat) (y : TCB_t) (k k' : kernel) : Prop := {
  lw_good : kernel_good sys k';
  lw_objects : k_objects k' = k_objects (with_group g x k);
  lw_value i : value (k_lists k') (Item i) =
    if decide (i = xEventListItem c) then configMAX_PRIORITIES - uxPriority y else value (k_lists k) (Item i);
  lw_lists i l : in_list k' i l <-> in_list k i l;
  lw_frame : k_tcbs k' = k_tcbs k /\ xTickCount k' = xTickCount k /\ pxCurrentTCB k' = pxCurrentTCB k /\
    uxSchedulerSuspended k' = uxSchedulerSuspended k;
}.

Lemma wp_wait_leave g x c y k bits clear all (Q : Z -> kernel -> Prop) :
  kernel_good sys k -> group_at k g = Some x -> in_range 24 (uxEventBits x) -> pxCurrentTCB k = Some c -> k_tcbs k !! c = Some y ->
  (wait_word k c .& eventUNBLOCKED_DUE_TO_BIT_SET <> 0 -> forall k', left_wait g x c y k k' -> Q (bits_awaited (wait_word k c)) k') ->
  (wait_word k c .& eventUNBLOCKED_DUE_TO_BIT_SET = 0 -> forall k',
     left_wait g (if prvTestWaitCondition (uxEventBits x) bits all && clear
                  then set_uxEventBits (bits_without (uxEventBits x) bits) x else x) c y k k' -> Q (uxEventBits x) k') ->
  wp (wait_leave g bits clear all) Q k.
Proof.
  intros HG Hx Hr Hc Hy Hset Hlate. unfold wait_leave. wps. eapply (wp_reset_event_value k c y); [done..|]. intros h' HG' HV HL. wps.
  set (k1 := set_k_lists h' k) in *.
  assert (forall x', left_wait g x' c y k (with_group g x' k1)) as Hend.
  { intros x'. split; try done; [by apply good_group|]. intros i. etransitivity; [apply (HV (Item i))|]. unfold upd.
    destruct HG as [[L H] _]. destruct (tk_priority _ _ _ _ _ (ok_tasks _ _ _ _ _ (sc_ok _ _ _ H)) c y Hy) as [Hp _].
    repeat case_decide; try done; [|congruence|congruence]. apply wrapu_small. unfold configMAX_PRIORITIES, in_range in *. lia. }
  assert (left_wait g x c y k k1) as Hsame by (specialize (Hend x); by rewrite with_group_same in Hend).
  assert (bits_awaited (uxEventBits x) = uxEventBits x) as Ea.
  { rewrite <- (Z.lor_0_r (uxEventBits x)) at 1. by apply awaited_under. }
  apply wp_if; intros Hb; wps; [|fold (bits_awaited (wait_word k c)); apply Hset; [lia|done]].
  apply (wp_get_group g x); [done|]. wps.
  specialize (Hlate ltac:(lia)). destruct (_ && clear); wps; [eapply wp_clear_bits; [done|]; wps|];
    fold (bits_awaited (uxEventBits x)); rewrite Ea; apply Hlate; [apply Hend|done].
Qed.

(** ** Deleting *)

Lemma wp_delete_loop l : queue_list sys l -> forall fuel k L (Q : unit -> kernel -> Prop),
  scheduled sys k L -> uxSchedulerSuspended k <> 0 -> (length (members L l) <= fuel)%nat ->
  (forall k' L' ts, let_go sys 0 ts k k' L L' -> members L' l = [] -> Q tt k') -> wp (delete_loop fuel l) Q k.
Proof.
  intros Hl fuel. induction fuel as [|fuel IH]; intros k L Q H Hs Hf HQ;
    pose proof (ok_tasks _ _ _ _ _ (sc_ok _ _ _ H)) as HT; pose proof (queue_list_members sys _ _ _ _ l (sc_ok _ _ _ H) Hl) as El;
    cbn [delete_loop]; wps; (eapply wp_ask; [by apply (st_length _ _ (tk_stored _ _ _ _ _ HT))|]).
  - destruct (members L l) eqn:E; [|cbn in Hf; lia]. apply wp_ret. by eapply HQ, E; apply let_go_nobody.
  - destruct (members L l) as [|i ns] eqn:E; [apply wp_ret; by eapply HQ, E; apply let_go_nobody|]. cbn [length] in *.
    rewrite (proj2 (Z.ltb_lt _ _)) by lia. wps. eapply wp_ask; [by eapply (st_first _ _ _ _ (tk_stored _ _ _ _ _ HT))|].
    assert (i ∈ members L l) as Hi by (rewrite E; by left).
    destruct (tk_event_member _ _ _ _ _ l _ HT (queue_list_event sys l Hl) Hi) as (t & -> & _). cbn match. apply wp_bind.
    eapply wp_remove_unordered; [exact H|exact Hl|exact Hi|done|]. intros k1 L1 HR. cbv beta.
    pose proof HR as [H1 Re _ _ _ _ Rf]. unfold unhurried in Rf. injection Rf as _ _ _ _ _ Es _.
    apply (IH k1 L1); [done|congruence| |].
    + rewrite (Re l (queue_list_event sys l Hl)), E. unfold without. rewrite filter_cons_False by (by intros []).
      etransitivity; [apply length_filter|lia].
    + intros k' L' ts HL Hm. eapply HQ, Hm. apply (let_go_cons sys 0 t ts k k1 k' L L1 L'); done.
Qed.

(** The heap of the demo cannot free memory: after the tasks are let go the call
    stops in the assertion of [vPortFree]. *)
Lemma delete_fault g x k :
  kernel_good sys k -> group_at k g = Some x -> g <> 0%nat -> queue_list sys (xTasksWaitingForBits x) ->
  uxSchedulerSuspended k = 0 -> nothing_pending k -> vEventGroupDelete g k = Fault AssertFailed.
Proof.
  intros HG Hx Hg Hl Hs [Hp Hn]. unfold vEventGroupDelete. apply stops_bind, wp_configASSERT; [by destruct g|].
  apply stops_bind, (wp_get_group g x); [done|]. apply stops_bind, wp_suspend_first; [done|].
  destruct (kg_scheduled _ _ (good_suspend k HG Hs)) as [L H]. set (k1 := set_uxSchedulerSuspended 1 k) in *.
  pose proof (sc_ok _ _ _ H) as HO. pose proof (queue_list_members sys _ _ _ _ _ HO Hl) as El.
  apply stops_bind. eapply wp_ask; [by apply (st_length _ _ (tk_stored _ _ _ _ _ (ok_tasks _ _ _ _ _ HO)))|]. rewrite Nat2Z.id.
  apply stops_bind. eapply wp_delete_loop; [done|exact H|done|done|]. intros k2 L2 ts HL _.
  pose proof HL as [H2 Hev _ _ _ _ Hf]. unfold unhurried in Hf. injection Hf as _ _ _ Hp2 _ Hs2 _.
  apply stops_bind. eapply (wp_resume_quiet sys 0 k2 L2); [apply H2| |exact Hs2|lia|exact (eq_trans Hp2 Hp)|by intros].
  rewrite (Hev xPendingReadyList eq_refl), (pending_empty sys _ _ _ HO Hn). done.
Qed.

End Calls.

(** ** Creating *)

Lemma fresh_event m : event_list (first_event_list + m) = true.
Proof. list_kinds. Qed.

(** A new group, without bits and without tasks; the system has one more list. *)
Record group_created (idle n g : nat) (b : bool) (h : heap_state) (k k' : kernel) : Prop := {
  gc_good : kernel_good (mkSystem idle (S n) b) k';
  gc_list : queue_list (mkSystem idle (S n) b) (fresh_lists k);
  gc_group : group_at k' g = Some (mkGroup 0 (fresh_lists k) 0);
  gc_others : o_queues (k_objects k') = o_queues (k_objects k) /\
    forall g', g' <> g -> group_at k' g' = group_at k g';
  gc_items i : items (k_lists k') !! Item i = items (k_lists k) !! Item i;
  gc_frame : unhurried k' = unhurried (set_k_objects (k_objects k') k) /\ switch_pending k' = switch_pending k /\ k_heap k' = h;
}.

Lemma fresh_members sys k L : scheduled sys k L -> nobody (fresh_lists k) k -> members L (fresh_lists k) = [].
Proof.
  intros H Hno. destruct (members L (fresh_lists k)) as [|i ns] eqn:E; [done|exfalso].
  assert (i ∈ members L (fresh_lists k)) as Hi by (rewrite E; by left).
  destruct (tk_event_member _ _ _ _ _ _ _ (ok_tasks _ _ _ _ _ (sc_ok _ _ _ H)) (fresh_event _) Hi) as (t & -> & _).
  by apply (Hno t), (in_list_member _ _ _ _ _ _ _ (sc_ok _ _ _ H)).
Qed.

(** Without memory the call returns the null handle and changes nothing else. *)
Lemma wp_create_group ucHeap idle n b k p h :
  kernel_good (mkSystem idle n b) k -> n = lists_used (k_objects k) -> nobody (fresh_lists k) k ->
  Z.of_nat (size (items (k_lists k))) + 2 < 2 ^ 32 -> pvPortMalloc ucHeap sizeof_EventGroup_t (k_heap k) = (p, h) ->
  wp (xEventGroupCreate ucHeap) (fun r k' => r = Z.to_nat <$> p /\
    match p with Some a => group_created idle n (Z.to_nat a) b h k k' | None => k' = set_k_heap h k end) k.
Proof.
  intros [[L H] [Oq On]] Hn Hno Hz Hm. unfold xEventGroupCreate. wps. exists p, (set_k_heap h k). unfold malloc at 1. rewrite Hm.
  split; [done|]. destruct p as [a|]; [|by wps]. cbv zeta. wps.
  change (first_event_list + lists_used _)%nat with (fresh_lists k). apply wp_put_group. wps. eapply wp_do; [done|]. wps. split; [done|].
  destruct (scheduled_new_list idle n b k L (fresh_lists k) H (fresh_members _ _ _ H Hno)) as [HS HI]; [by subst n|done|].
  split; try done.
  - split; [exists (<[fresh_lists k := []]> L)|split; [|done]].
    + apply (scheduled_objects _ (set_k_heap h (set_k_lists (vListInitialise (fresh_lists k) (k_lists k)) k))). by destruct HS as [[] HP HR].
    + intros q x Hq. destruct (Oq q x Hq) as (H0 & H1 & H2 & H3). unfold queue_list in *. cbn [event_lists] in *. split; [done|]. split; [done|]. lia.
  - unfold queue_list, fresh_lists. cbn [event_lists]. lia.
  - apply lookup_insert_eq.
  - split; [done|]. intros g' Hg'. by apply lookup_insert_ne.
Qed.
