(* ===== verification/FreeRTOSEventGroupsProps.v ===== *)
(** * Properties of the event groups

    The theorems about event groups, with witnesses in the state in which [main]
    of the demo leaves the kernel, a task creates a group and waits for its bits. *)

From S2P Require Import Prelude FreeRTOSList FreeRTOSListTheory FreeRTOSListStore FreeRTOSHeap FreeRTOSObjects.
From S2P Require Import FreeRTOSTasks FreeRTOSTasksTheory FreeRTOSTasksInvariant FreeRTOSTasksEvents FreeRTOSTasksTime.
From S2P Require Import FreeRTOSTasksFrame FreeRTOSTasksBoot FreeRTOSQueue FreeRTOSQueueTheory FreeRTOSQueueCalls FreeRTOSQueueWait.
From S2P Require Import FreeRTOSSystemTheory FreeRTOSBoot FreeRTOSTasksApi FreeRTOSKernelProps.
From S2P Require Import FreeRTOSEventGroups FreeRTOSEventGroupsTheory FreeRTOSEventGroupsCalls.

(** A group in a consistent kernel whose scheduler runs with nothing pending. *)
Record group_ready (sys : system) (k : kernel) (g : nat) (x : EventGroup_t) : Prop := {
  gr_good : kernel_good sys k;
  gr_here : group_at k g = Some x;
  gr_valid : g <> 0%nat;
  gr_list : queue_list sys (xTasksWaitingForBits x);
  gr_bits : in_range 24 (uxEventBits x);
  gr_suspended : uxSchedulerSuspended k = 0;
  gr_drained : nothing_pending k;
}.

(** The running task may block. *)
Record task_running (sys : system) (k : kernel) (c : nat) (y : TCB_t) : Prop := {
  tr_current : pxCurrentTCB k = Some c;
  tr_task : k_tcbs k !! c = Some y;
  tr_not_idle : c <> idle_task sys;
  tr_ready : ready k c;
  tr_free l : ~ in_list k (xEventListItem c) l;
  tr_notify : ucNotifyState y <> taskWAITING_NOTIFICATION;
}.

(** ** Lemmas *)

Lemma set_bits_state sys k g x bits :
  group_ready sys k g x -> in_range 24 bits ->
  exists e k', xEventGroupSetBits g bits k = Ok (e, k') /\ bits_set sys g x (uxEventBits x .| bits) e k k' /\
    group_ready sys k' g (set_uxEventBits e x).
Proof.
  intros [HG Hx Hv Hl Hb Hs Hd] Hr.
  destruct (wp_set_bits sys g x k bits 0 HG Hx Hv Hl Hb Hr Hs ltac:(lia) Hd
    (fun e k' => bits_set sys g x (uxEventBits x .| bits) e k k' /\ nothing_pending k')) as (e & k' & E & HB & Hd'); [done|].
  exists e, k'. split; [done|]. split; [done|]. destruct HB as [HG' [He _] Ho _ _ (_ & _ & _ & _ & Hs')].
  split; try done; [unfold group_at; rewrite Ho; apply group_at_with|congruence].
Qed.

(** The condition that a task writes into its event item is the one it asks for. *)
Lemma asked_condition bits clear all now :
  in_range 24 bits -> satisfied now (event_word bits clear all) = prvTestWaitCondition now bits all.
Proof. intros Hb. unfold satisfied. destruct (event_word_fields bits clear all Hb) as (-> & _ & ->). done. Qed.

Lemma wait_state_after sys k g x c y bits clear all n :
  group_ready sys k g x -> task_running sys k c y -> in_range 24 bits -> bits <> 0 -> in_range 32 n ->
  exists r k', wait_bits_enter g bits clear all n k = Ok (r, k') /\ wait_outcome sys g c x k bits n clear all r k'.
Proof.
  intros [HG Hx Hv Hl Hb Hs Hd] [Hc Hy Hi Hrd Hf Hn] Hr H0 Ht.
  destruct (wp_wait_enter sys g c x y k bits n HG Hx Hv Hl (conj Hr H0) Hc Hy Hi Hrd Hf Hn Hs Hd Ht clear all) as (r & k' & E & HO).
  by exists r, k'.
Qed.

Lemma sync_state_after sys k g x c y set bits n :
  group_ready sys k g x -> task_running sys k c y -> in_range 24 set -> in_range 24 bits -> bits <> 0 -> in_range 32 n ->
  exists r k', sync_enter g set bits n k = Ok (r, k') /\ sync_outcome sys g c x k bits n set r k'.
Proof.
  intros [HG Hx Hv Hl Hb Hs Hd] [Hc Hy Hi Hrd Hf Hn] Hset Hr H0 Ht.
  destruct (wp_sync_enter sys g c x y k bits n HG Hx Hv Hl Hb (conj Hr H0) Hc Hy Hi Hrd Hf Hn Hs Hd Ht set Hset) as (r & k' & E & HO).
  by exists r, k'.
Qed.

Lemma leave_state_after sys k g x c y bits clear all :
  kernel_good sys k -> group_at k g = Some x -> in_range 24 (uxEventBits x) -> pxCurrentTCB k = Some c -> k_tcbs k !! c = Some y ->
  exists r k', wait_leave g bits clear all k = Ok (r, k') /\
    (forall now, in_range 24 now -> wait_word k c = wake_word now -> r = now /\ left_wait sys g x c y k k') /\
    (wait_word k c .& eventUNBLOCKED_DUE_TO_BIT_SET = 0 -> r = uxEventBits x /\
       left_wait sys g (if prvTestWaitCondition (uxEventBits x) bits all && clear
                        then set_uxEventBits (bits_without (uxEventBits x) bits) x else x) c y k k').
Proof.
  intros HG Hx Hr Hc Hy. apply (wp_wait_leave sys g x c y k bits clear all); [done..| |].
  - intros Hu k' HL. split; [|done]. intros now Hn Hw. rewrite Hw. destruct (wake_word_fields now Hn) as [-> _]. done.
  - intros Hu k' HL. split; [|done]. intros now Hn Hw. rewrite Hw in Hu. by destruct (wake_word_fields now Hn) as [_ []].
Qed.

(** The last task arrives: what the others and the group find. *)
Lemma sync_complete sys k g x c y set bits n :
  group_ready sys k g x -> task_running sys k c y -> in_range 24 set -> in_range 24 bits -> bits <> 0 -> in_range 32 n ->
  let now := uxEventBits x .| set in
  now .& bits = bits ->
  exists e k', sync_enter g set bits n k = Ok (Some now, k') /\ kernel_good sys k' /\
    group_at k' g = Some (set_uxEventBits e x) /\ (forall b, Z.testbit bits b = true -> Z.testbit e b = false) /\
    forall t mine, in_list k (xEventListItem t) (xTasksWaitingForBits x) -> in_range 24 mine ->
      wait_word k t = event_word mine true true -> now .& mine = mine ->
      ready k' t /\ wait_word k' t = wake_word now /\ (forall b, Z.testbit mine b = true -> Z.testbit e b = false).
Proof.
  intros HR HT Hset Hb H0 Hn now Hall.
  destruct (sync_state_after sys k g x c y set bits n HR HT Hset Hb H0 Hn) as (r & k' & E & e & k2 & HB & HO). fold now in HB, HO.
  rewrite (proj2 (Z.eqb_eq _ _) Hall) in HO. destruct HO as [-> [HG' Ho Hl (ET & _)]].
  destruct HB as [_ [He Hleft] Ho2 Hserved _ _]. exists (bits_without e bits), k'. split; [done|]. split; [done|].
  assert (forall b, Z.testbit e b = false -> Z.testbit (bits_without e bits) b = false) as Hless
    by (intros b Hf; by rewrite testbit_without, Hf).
  split; [unfold group_at; rewrite Ho; apply lookup_insert_eq|]. split.
  { intros b Hbit. rewrite testbit_without, Hbit by done. apply andb_false_r. }
  intros t mine Hin Hm Hw Hmine. assert (served_by now (xTasksWaitingForBits x) (set_uxSchedulerSuspended 1 k) t) as Hs.
  { split; [done|]. change (wait_word (set_uxSchedulerSuspended 1 k) t) with (wait_word k t). rewrite Hw, asked_condition by done.
    unfold prvTestWaitCondition. lia. }
  destruct (Hserved t Hs) as ((z & Hz & Hr) & _ & Hww). split; [|split].
  - exists z. split; [by rewrite ET|]. unfold in_list. by rewrite Hl.
  - unfold wait_word. rewrite Hl. exact Hww.
  - intros b Hbit. apply Hless, not_true_iff_false. rewrite Hleft. intros [_ Hno]. apply Hno. exists t. split; [done|].
    change (wait_word (set_uxSchedulerSuspended 1 k) t) with (wait_word k t). rewrite Hw.
    destruct (event_word_fields mine true true Hm) as (-> & -> & _). done.
Qed.

(** ** A group of the demo *)

Definition demo_group : nat := Z.to_nat (default 0 (pvPortMalloc 8 sizeof_EventGroup_t (k_heap demo_kernel)).1).
Definition demo_group_heap : heap_state := (pvPortMalloc 8 sizeof_EventGroup_t (k_heap demo_kernel)).2.
Definition group_kernel : kernel := match xEventGroupCreate 8 demo_kernel with Ok (_, k) => k | Fault _ => demo_kernel end.
Definition group_system : system := mkSystem demo_idle 7 true.
Definition demo_group_fields : EventGroup_t := mkGroup 0 (fresh_lists demo_kernel) 0.

Lemma created_group ucHeap idle n b k0 g h :
  kernel_good (mkSystem idle n b) k0 -> n = lists_used (k_objects k0) -> nobody (fresh_lists k0) k0 ->
  Z.of_nat (size (items (k_lists k0))) + 2 < 2 ^ 32 -> pvPortMalloc ucHeap sizeof_EventGroup_t (k_heap k0) = (Some (Z.of_nat g), h) ->
  let k := match xEventGroupCreate ucHeap k0 with Ok (_, k) => k | Fault _ => k0 end in
  xEventGroupCreate ucHeap k0 = Ok (Some g, k) /\ group_created idle n g b h k0 k.
Proof.
  intros HG Hn Hno Hs Hm. destruct (wp_create_group ucHeap idle n b k0 _ h HG Hn Hno Hs Hm) as (r & k' & E & -> & HC).
  rewrite E. cbn. by rewrite Nat2Z.id in HC |- *.
Qed.

Lemma demo_group_created :
  xEventGroupCreate 8 demo_kernel = Ok (Some demo_group, group_kernel) /\
  group_created demo_idle 6 demo_group true demo_group_heap demo_kernel group_kernel.
Proof.
  assert (6%nat = lists_used (k_objects demo_kernel)) as Hn by (by vm_compute).
  assert (Z.of_nat (size (items (k_lists demo_kernel))) + 2 < 2 ^ 32) as Hs by (by vm_compute).
  assert (pvPortMalloc 8 sizeof_EventGroup_t (k_heap demo_kernel) = (Some (Z.of_nat demo_group), demo_group_heap)) as Hm by (by vm_compute).
  exact (created_group 8 demo_idle 6 true demo_kernel demo_group demo_group_heap demo_good Hn
    (sst_nobody _ _ demo_start (fresh_lists demo_kernel) (fresh_event _)) Hs Hm).
Qed.

Opaque demo_group demo_group_heap group_kernel.

Lemma created_lists idle n g b h k k' i l : group_created idle n g b h k k' -> in_list k' i l <-> in_list k i l.
Proof. intros HC. unfold in_list, container. by rewrite (gc_items _ _ _ _ _ _ _ HC). Qed.

Lemma created_ready idle n g b h k k' :
  group_created idle n g b h k k' -> uxSchedulerSuspended k = 0 -> nothing_pending k -> g <> 0%nat ->
  group_ready (mkSystem idle (S n) b) k' g (mkGroup 0 (fresh_lists k) 0).
Proof.
  intros HC Hs [Hp Hn] Hg. pose proof HC as [HG Hl Hx _ _ [Hf _]]. unfold unhurried in Hf. injection Hf as _ _ Hp' _ Hs' _.
  split; try done; [congruence|]. split; [congruence|]. intros t. rewrite (created_lists _ _ _ _ _ _ _ _ _ HC). apply Hn.
Qed.

Lemma created_running idle n g b h k k' c y :
  group_created idle n g b h k k' -> task_running (mkSystem idle n b) k c y -> task_running (mkSystem idle (S n) b) k' c y.
Proof.
  intros HC [Hc Hy Hi (z & Hz & Hr) Hf Hn]. pose proof (gc_frame _ _ _ _ _ _ _ HC) as [Hu _]. unfold unhurried in Hu.
  injection Hu as ET _ _ Ec _ _. split; try done; [congruence|congruence| |].
  - exists z. split; [congruence|]. by apply (created_lists _ _ _ _ _ _ _ _ _ HC).
  - intros l. rewrite (created_lists _ _ _ _ _ _ _ _ _ HC). apply Hf.
Qed.

Lemma not_in_lists k i l : (items (k_lists k) !! Item i ≫= pxContainer) = None -> ~ in_list k i l.
Proof. intros H. unfold in_list, container. by rewrite H. Qed.

Lemma demo_task_running : exists y, task_running demo_system demo_kernel demo_task y.
Proof.
  destruct demo_ready as (Hc & Hr & Hi). pose proof Hr as (y & Hy & _). exists y.
  assert ((items (k_lists demo_kernel) !! Item (xEventListItem demo_task) ≫= pxContainer) = None) as He by (by vm_compute).
  split; [exact Hc|exact Hy|exact Hi|exact Hr| |exact (sst_notify _ _ demo_start _ _ Hy)]. intros l. exact (not_in_lists _ _ _ He).
Qed.

Lemma demo_group_ready : group_ready group_system group_kernel demo_group demo_group_fields.
Proof.
  assert (demo_group <> 0%nat) as Hg by (clear; by vm_compute).
  exact (created_ready _ _ _ _ _ _ _ (proj2 demo_group_created) (sst_suspended _ _ demo_start) demo_nothing_pending Hg).
Qed.

Lemma group_task_running : exists y, task_running group_system group_kernel demo_task y.
Proof.
  destruct demo_task_running as [y H]. exists y. exact (created_running _ _ _ _ _ _ _ _ _ (proj2 demo_group_created) H).
Qed.

(** The task waits for the bits 0 and 2, and the other task runs. *)
Definition waiting_kernel : kernel :=
  match wait_bits_enter demo_group 5 true true 10 group_kernel with Ok (_, k) => k | Fault _ => group_kernel end.
Definition other_kernel : kernel := match xPortPendSVHandler waiting_kernel with Ok (_, k) => k | Fault _ => waiting_kernel end.

Lemma demo_wait :
  wait_bits_enter demo_group 5 true true 10 group_kernel = Ok (None, waiting_kernel) /\
  blocked_at group_system (xTasksWaitingForBits demo_group_fields) demo_task group_kernel (5 .| control_bits true true) 10 waiting_kernel.
Proof.
  destruct group_task_running as [y HT]. assert (in_range 24 5) as H1 by (by vm_compute). assert (5 <> 0) as H2 by lia.
  assert (in_range 32 10) as H3 by (by vm_compute).
  destruct (wait_state_after _ _ _ _ _ _ 5 true true 10 demo_group_ready HT H1 H2 H3) as (r & k' & E & HO).
  unfold waiting_kernel. rewrite E. destruct HO as [-> HB]. split; [reflexivity|exact HB].
Qed.

Opaque waiting_kernel.

Lemma switched_state sys k :
  kernel_good sys k -> uxSchedulerSuspended k = 0 ->
  let k' := match xPortPendSVHandler k with Ok (_, k') => k' | Fault _ => k end in
  xPortPendSVHandler k = Ok (tt, k') /\ kernel_good sys k' /\ runs_highest k' /\ k_objects k' = k_objects k.
Proof.
  intros [[L H] Ho] Hs. destruct (wp_switch sys k L H Hs) as ([] & k' & E & L' & H' & HE & Hr & _). rewrite E. split; [done|].
  split; [|split; [done|apply HE]]. split; [by exists L'|]. apply (objects_ok_static sys k); [|done]. unfold static.
  by rewrite (se_objects _ _ _ HE), (se_number _ _ _ HE).
Qed.

Lemma other_switched :
  xPortPendSVHandler waiting_kernel = Ok (tt, other_kernel) /\ kernel_good group_system other_kernel /\ runs_highest other_kernel /\
  k_objects other_kernel = k_objects waiting_kernel.
Proof. destruct (proj2 demo_wait) as [HG _ _ _ _ _ [_ Hs]]. exact (switched_state group_system waiting_kernel HG Hs). Qed.

Opaque other_kernel.

Lemma no_pending k :
  xPendedTicks k = 0 -> map_Forall (fun _ i => pxContainer i <> Some xPendingReadyList) (items (k_lists k)) -> nothing_pending k.
Proof.
  intros Hp Hall. split; [done|]. intros t. unfold in_list, container.
  destruct (items (k_lists k) !! Item (xEventListItem t)) as [i|] eqn:E; [|done]. by apply (Hall _ i E).
Qed.

Lemma other_group_ready : group_ready group_system other_kernel demo_group demo_group_fields.
Proof.
  destruct other_switched as (_ & HG & _ & Ho). destruct demo_group_ready as [_ Hx Hv Hl Hb _ _].
  assert (uxSchedulerSuspended other_kernel = 0) as Hs by (clear; by vm_compute).
  assert (xPendedTicks other_kernel = 0) as Hp by (clear; by vm_compute).
  assert (map_Forall (fun _ i => pxContainer i <> Some xPendingReadyList) (items (k_lists other_kernel))) as Hall
    by (clear; by apply (bool_decide_unpack _); vm_compute).
  split; [exact HG| |exact Hv|exact Hl|exact Hb|exact Hs|exact (no_pending _ Hp Hall)].
  unfold group_at. rewrite Ho, (ba_objects _ _ _ _ _ _ _ (proj2 demo_wait)). exact Hx.
Qed.

Lemma sender_running : exists y, task_running group_system other_kernel demo_sender y.
Proof.
  destruct other_switched as (_ & HG & (c & y & Hc & Hy & Hr & _) & _).
  assert (pxCurrentTCB other_kernel = Some demo_sender) as Hc' by (clear; by vm_compute).
  assert (c = demo_sender) as -> by (rewrite Hc in Hc'; by injection Hc'). exists y.
  assert ((items (k_lists other_kernel) !! Item (xEventListItem demo_sender) ≫= pxContainer) = None) as He by (clear; by vm_compute).
  assert (ucNotifyState <$> k_tcbs other_kernel !! demo_sender = Some 0) as Hn by (clear; by vm_compute).
  assert (demo_sender <> idle_task group_system) as Hi by (clear; by vm_compute).
  split; [exact Hc|exact Hy|exact Hi|exact Hr|intros l; exact (not_in_lists _ _ _ He)|].
  rewrite Hy in Hn. cbn in Hn. injection Hn as ->. discriminate.
Qed.

Lemma demo_task_waits :
  in_list other_kernel (xEventListItem demo_task) (xTasksWaitingForBits demo_group_fields) /\
  wait_word other_kernel demo_task = event_word 5 true true.
Proof. split; by vm_compute. Qed.

(** The other task sets the bits, and the task runs again. *)
Definition set_kernel : kernel :=
  match xEventGroupSetBits demo_group 7 other_kernel with Ok (_, k) => k | Fault _ => other_kernel end.
Definition next_kernel : kernel := match xPortPendSVHandler set_kernel with Ok (_, k) => k | Fault _ => set_kernel end.
Definition again_kernel : kernel := match xPortPendSVHandler next_kernel with Ok (_, k) => k | Fault _ => next_kernel end.

Lemma demo_set :
  exists e, xEventGroupSetBits demo_group 7 other_kernel = Ok (e, set_kernel) /\
    group_ready group_system set_kernel demo_group (set_uxEventBits e demo_group_fields).
Proof.
  assert (in_range 24 7) as H1 by (by vm_compute).
  destruct (set_bits_state _ _ _ _ 7 other_group_ready H1) as (e & k' & E & _ & HR). unfold set_kernel. rewrite E. exists e.
  split; [reflexivity|exact HR].
Qed.

Opaque set_kernel.

Lemma again_good : kernel_good group_system again_kernel /\
  exists e, group_at again_kernel demo_group = Some (set_uxEventBits e demo_group_fields) /\ in_range 24 e.
Proof.
  destruct demo_set as (e & _ & [HG Hx _ _ Hb Hs _]). destruct (switched_state group_system set_kernel HG Hs) as (_ & HG1 & _ & Ho1).
  fold next_kernel in HG1, Ho1. assert (uxSchedulerSuspended next_kernel = 0) as Hs1 by (clear; by vm_compute).
  destruct (switched_state group_system next_kernel HG1 Hs1) as (_ & HG2 & _ & Ho2). fold again_kernel in HG2, Ho2.
  split; [exact HG2|]. exists e. split; [|exact Hb]. unfold group_at. rewrite Ho2, Ho1. exact Hx.
Qed.

Opaque next_kernel again_kernel.

(** ** The theorems *)



(** C27: [xEventGroupWaitBits] has three outcomes: when the bits satisfy the task it
    returns them, and clears the bits it asked for if it should; else without time
    to wait it returns them and changes nothing; else the task is in the list of
    the group, in the list of its time-out, and a switch is asked for.  Its event
    item then holds the condition it asked for: what any later bits satisfy is what
    the call would have found satisfied, and what they clear is what it would have
    cleared. *)
Theorem event_wait_outcomes (sys : system) (k : kernel) (g : nat) (x : EventGroup_t) (c : nat) (y : TCB_t) (bits : Z)
    (clear all : bool) (n : Z) :
  group_ready sys k g x -> task_running sys k c y -> in_range 24 bits -> bits <> 0 -> in_range 32 n ->
  exists r k', wait_bits_enter g bits clear all n k = Ok (r, k') /\ wait_outcome sys g c x k bits n clear all r k' /\
    (r = None -> bits_awaited (wait_word k' c) = bits /\ clears_on_exit (wait_word k' c) = clear /\
       forall now, satisfied now (wait_word k' c) = prvTestWaitCondition now bits all).
Proof.
  intros HR HT Hb H0 Hn. destruct (wait_state_after sys k g x c y bits clear all n HR HT Hb H0 Hn) as (r & k' & E & HO).
  exists r, k'. split; [done|]. split; [done|]. intros ->. unfold wait_outcome in HO.
  destruct (prvTestWaitCondition _ _ _); [by destruct HO|]. destruct (n =? 0); [by destruct HO|].
  destruct HO as [_ [_ _ _ Hw _ _ _]]. fold (event_word bits clear all) in Hw. rewrite Hw.
  destruct (event_word_fields bits clear all Hb) as (E1 & E2 & _). split; [done|]. split; [done|]. intros now. by apply asked_condition.
Qed.

Lemma event_wait_outcomes_witness :
  exists r k', wait_bits_enter demo_group 5 true true 10 group_kernel = Ok (r, k') /\
    wait_outcome group_system demo_group demo_task demo_group_fields group_kernel 5 10 true true r k' /\
    (r = None -> bits_awaited (wait_word k' demo_task) = 5 /\ clears_on_exit (wait_word k' demo_task) = true /\
       forall now, satisfied now (wait_word k' demo_task) = prvTestWaitCondition now 5 true).
Proof.
  destruct group_task_running as [y HT]. assert (in_range 24 5) as H1 by (by vm_compute). assert (5 <> 0) as H2 by lia.
  assert (in_range 32 10) as H3 by (by vm_compute).
  exact (event_wait_outcomes _ _ _ _ _ _ 5 true true 10 demo_group_ready HT H1 H2 H3).
Defined.

(** When a task that blocked on an event group runs again, the call returns: if
    the bits were set it returns the bits that satisfied it, whatever happened to
    the group since, and the group stays as it is; if the time ran out it returns
    the bits of now and clears those it asked for only when they satisfy it.  The
    event item holds the priority of the task again, and no list changes. *)
Theorem event_wait_returns (sys : system) (k : kernel) (g : nat) (x : EventGroup_t) (c : nat) (y : TCB_t) (bits : Z)
    (clear all : bool) :
  kernel_good sys k -> group_at k g = Some x -> in_range 24 (uxEventBits x) -> pxCurrentTCB k = Some c -> k_tcbs k !! c = Some y ->
  exists r k', wait_leave g bits clear all k = Ok (r, k') /\
    (forall now, in_range 24 now -> wait_word k c = wake_word now -> r = now /\ left_wait sys g x c y k k') /\
    (wait_word k c .& eventUNBLOCKED_DUE_TO_BIT_SET = 0 -> r = uxEventBits x /\
       left_wait sys g (if prvTestWaitCondition (uxEventBits x) bits all && clear
                        then set_uxEventBits (bits_without (uxEventBits x) bits) x else x) c y k k').
Proof. apply leave_state_after. Qed.

Lemma event_wait_returns_witness :
  pxCurrentTCB again_kernel = Some demo_task /\ wait_word again_kernel demo_task = wake_word 7 /\
  exists x y r k', group_at again_kernel demo_group = Some x /\ wait_leave demo_group 5 true true again_kernel = Ok (r, k') /\
    (forall now, in_range 24 now -> wait_word again_kernel demo_task = wake_word now ->
       r = now /\ left_wait group_system demo_group x demo_task y again_kernel k').
Proof.
  assert (pxCurrentTCB again_kernel = Some demo_task) as Hc by (clear; by vm_compute).
  assert (wait_word again_kernel demo_task = wake_word 7) as Hw by (clear; by vm_compute).
  assert (is_Some (k_tcbs again_kernel !! demo_task)) as [y Hy] by (clear; by apply (bool_decide_unpack _); vm_compute).
  destruct again_good as (HG & e & Hx & He). split; [exact Hc|]. split; [exact Hw|].
  destruct (event_wait_returns _ _ _ _ _ y 5 true true HG Hx He Hc Hy) as (r & k' & E & H & _).
  exists (set_uxEventBits e demo_group_fields), y, r, k'. split; [exact Hx|]. split; [exact E|exact H].
Defined.

(** C26: A rendezvous with [xEventGroupSync]: when a task brings the last of the bits
    it waits for, it returns at once with all the bits, every task that waits for
    all of its own bits among them is ready, none of the bits of these tasks is left
    in the group, and each of them, whenever it runs again, returns the same bits as
    the last one and leaves the group alone, whatever its bits are by then. *)
Theorem event_rendezvous (sys : system) (k : kernel) (g : nat) (x : EventGroup_t) (c : nat) (y : TCB_t) (set bits n : Z) :
  group_ready sys k g x -> task_running sys k c y -> in_range 24 set -> in_range 24 bits -> bits <> 0 -> in_range 32 n ->
  let now := uxEventBits x .| set in
  now .& bits = bits ->
  exists e k', sync_enter g set bits n k = Ok (Some now, k') /\ kernel_good sys k' /\
    group_at k' g = Some (set_uxEventBits e x) /\ (forall b, Z.testbit bits b = true -> Z.testbit e b = false) /\
    forall t mine, in_list k (xEventListItem t) (xTasksWaitingForBits x) -> in_range 24 mine ->
      wait_word k t = event_word mine true true -> now .& mine = mine ->
      ready k' t /\ (forall b, Z.testbit mine b = true -> Z.testbit e b = false) /\
      forall k2 x2 z, kernel_good sys k2 -> group_at k2 g = Some x2 -> in_range 24 (uxEventBits x2) ->
        pxCurrentTCB k2 = Some t -> k_tcbs k2 !! t = Some z -> wait_word k2 t = wait_word k' t ->
        exists k3, wait_leave g mine true true k2 = Ok (now, k3) /\ left_wait sys g x2 t z k2 k3.
Proof.
  intros HR HT Hset Hb H0 Hn now Hall.
  destruct (sync_complete sys k g x c y set bits n HR HT Hset Hb H0 Hn Hall) as (e & k' & E & HG & Hx & Hleft & Hts).
  exists e, k'. split; [done|]. split; [done|]. split; [done|]. split; [done|]. intros t mine Hin Hm Hw Hmine.
  destruct (Hts t mine Hin Hm Hw Hmine) as (Hr & Hww & Hc). split; [done|]. split; [done|].
  intros k2 x2 z HG2 Hx2 Hb2 Hc2 Hz Hw2. destruct (leave_state_after sys k2 g x2 t z mine true true HG2 Hx2 Hb2 Hc2 Hz) as (r & k3 & E3 & H3 & _).
  destruct (H3 now) as [-> HL]; [apply in_range_lor; [lia|apply HR|done]|exact (eq_trans Hw2 Hww)|]. by exists k3.
Qed.

Lemma event_rendezvous_witness :
  in_list other_kernel (xEventListItem demo_task) (xTasksWaitingForBits demo_group_fields) /\
  wait_word other_kernel demo_task = event_word 5 true true /\
  exists e k', sync_enter demo_group 7 3 10 other_kernel = Ok (Some 7, k') /\ kernel_good group_system k' /\
    group_at k' demo_group = Some (set_uxEventBits e demo_group_fields) /\ ready k' demo_task /\ Z.testbit e 0 = false /\ Z.testbit e 2 = false.
Proof.
  destruct sender_running as [y HT]. destruct demo_task_waits as [Hi Hw].
  assert (in_range 24 7 /\ in_range 24 3 /\ 3 <> 0 /\ in_range 32 10 /\ in_range 24 5) as (H1 & H2 & H3 & H4 & H5) by (clear; unfold in_range; lia).
  split; [exact Hi|]. split; [exact Hw|].
  destruct (event_rendezvous _ _ _ _ _ _ 7 3 10 other_group_ready HT H1 H2 H3 H4 eq_refl) as (e & k' & E & HG & Hx & _ & H).
  destruct (H demo_task 5 Hi H5 Hw eq_refl) as (Hr & Hc & _). exists e, k'. split; [exact E|]. split; [exact HG|]. split; [exact Hx|].
  split; [exact Hr|]. split; [exact (Hc 0 eq_refl)|exact (Hc 2 eq_refl)].
Defined.
