(* ===== verification/FreeRTOSSystemProps.v ===== *)
(** * Tasks and interrupts on shared queues: the properties

    From the state in which the firmware starts, whatever ticks, switches,
    interrupts and calls follow: no call faults, the calls on each queue act as
    on a bounded queue in the order in which they return, and no wake-up is
    lost. *)

From S2P Require Import Prelude FreeRTOSList FreeRTOSListTheory FreeRTOSListStore FreeRTOSHeap FreeRTOSObjects.
From S2P Require Import FreeRTOSTasks FreeRTOSTasksTheory FreeRTOSTasksCalls FreeRTOSTasksInvariant FreeRTOSTasksEvents.
From S2P Require Import FreeRTOSTasksTime FreeRTOSTasksFrame FreeRTOSTasksRouse FreeRTOSTasksBoot FreeRTOSQueue FreeRTOSQueueTheory.
From S2P Require Import FreeRTOSQueueFrame FreeRTOSQueueCalls FreeRTOSQueueWait FreeRTOSSystem FreeRTOSSystemTheory.
From S2P Require Import FreeRTOSSystemEvents FreeRTOSSystemTasks FreeRTOSSystemSteps FreeRTOSTimers FreeRTOSBoot.
From S2P Require Import FreeRTOSKernelProps.

(** ** Reachable configurations *)

Section Reach.
Context (sys : system) (k0 : kernel).
Hypothesis start : sys_start sys k0.

Record reached (os : list outcome) (c : sys_conf) : Prop := {
  rd_ok : sys_ok sys c;
  rd_queues : same_queues k0 (c_kernel c);
  rd_legal : outcomes_legal (o_queues (k_objects k0)) os (queue_contents k0) (queue_contents (c_kernel c));
}.

(** The lengths and item sizes are those of the start. *)
Lemma outcome_step_start k o C C' :
  same_queues k0 k -> outcome_step (o_queues (k_objects k)) o C C' -> outcome_step (o_queues (k_objects k0)) o C C'.
Proof.
  intros HQ (x & items & Hx & Hc & H). destruct (same_queues_at _ _ _ _ HQ Hx) as (y & Hy & HS). exists y, items.
  split; [done|]. split; [done|]. by rewrite (call_spec_same y x) in H by (by apply same_queue_static).
Qed.

Lemma reachable_reached os c : sys_reachable sys (mkConf k0 ∅) os c -> reached os c.
Proof.
  induction 1 as [|os c e o c' _ [H1 H2 H3] Ha E].
  - split; [by apply start_ok|by apply same_queues_objects|constructor].
  - destruct (every_event_runs sys c H1 e Ha) as (o' & c1 & E' & Hok & HQ & He). rewrite E in E'. injection E' as <- <-.
    split; [done|by eapply same_queues_trans|]. destruct o as [o|]; cbn [option_list option_rect].
    + eapply legal_more; [done|]. by apply (outcome_step_start (c_kernel c)).
    + by rewrite app_nil_r, He.
Qed.

End Reach.

(** ** Enough tasks try again *)

Lemma good_ready sys k t p :
  kernel_good sys k -> is_Some (k_tcbs k !! t) -> ready_list p = true -> in_list k (xStateListItem t) p -> ready k t.
Proof.
  intros [[L [HO _ _]] _] [x Hx] Hp Hin. pose proof Hin as Hm%(in_list_member sys _ _ _ _ _ _ HO). exists x. split; [done|].
  destruct (tk_ready _ _ _ _ _ (ok_tasks _ _ _ _ _ HO) t x p Hx ltac:(discriminate) Hp Hm) as [-> _].
  unfold pxReadyTasksLists. by rewrite Nat2Z.id.
Qed.

(** The task is at the head of the loop of a call on that side of the queue, and
    ready. *)
Definition about_to_try (c : sys_conf) (q : nat) (d : side) (u : nat) : Prop :=
  ready (c_kernel c) u /\
  exists cl, c_calls c !! u = Some cl /\ cl_queue cl = q /\ op_side (cl_op cl) = d /\ w_pc (cl_wait cl) = WaitTry.

Section Wakeup.
Context (sys : system) (c : sys_conf).
Hypothesis ok : sys_ok sys c.
Hypothesis runs : uxSchedulerSuspended (c_kernel c) = 0.

Let k := c_kernel c.
Let M := c_calls c.

Lemma runs_free : free_phase k M.
Proof. destruct (so_phase _ _ ok) as [_ H|t cl x Hs _]; [done|]. congruence. Qed.

Lemma retrier_ready q x d u :
  queue_at k q = Some x -> u ∈ retriers M q d -> u ∉ waiters k (side_list d x) -> about_to_try c q d u.
Proof.
  intros Hx (cl & Hcl & <- & <- & Hr)%elem_retriers Hw. pose proof runs_free as [Ho _ Hp _].
  pose proof (so_call _ _ ok u cl Hcl) as Hok. destruct (so_blocked _ _ ok u cl x Hcl Hx) as [[(p & Hpr & Hin)|Hin]|Hin].
  - split; [by apply (good_ready sys _ u p (so_good _ _ ok) (co_task _ _ _ _ Hok))|]. exists cl. split_and!; [done..|].
    specialize (Ho u cl Hcl). by destruct (w_pc (cl_wait cl)).
  - by destruct (Hp u).
  - destruct Hw. apply elem_waiters. split; [done|apply Hok].
Qed.

Lemma waiting_enough q x d t :
  queue_at k q = Some x -> in_list k (xEventListItem t) (side_list d x) ->
  exists us, NoDup us /\ available d x <= Z.of_nat (length us) /\ Forall (about_to_try c q d) us.
Proof.
  intros Hx Hin. pose proof runs_free as [_ Hu _ _].
  assert (t ∈ waiters k (side_list d x)) as Ht.
  { apply elem_waiters. split; [done|]. destruct (so_member _ _ ok t _ (good_waiting sys k q x d (so_good _ _ ok) Hx) Hin) as (cl & _ & Hcl & _).
    apply (so_call _ _ ok t cl Hcl). }
  assert (side_lock d x = queueUNLOCKED) as El by (injection (Hu q x ltac:(done) Hx); by destruct d).
  pose proof (waiters_retriers sys c ok q x d Hx) as Hsub.
  exists (elements (retriers M q d ∖ waiters k (side_list d x))). split; [apply NoDup_elements|]. split.
  - change (length (elements ?X)) with (size X). rewrite size_difference by done.
    pose proof (subseteq_size _ _ Hsub) as Hle. pose proof (so_number _ _ ok) as Hn. unfold k, M in *.
    destruct (so_wakeup _ _ ok q x d Hx) as [He|He]; [left; intros E; by rewrite E in Ht|rewrite El in He..]; unfold queueUNLOCKED in He; lia.
  - apply Forall_forall. intros u [Hr Hw]%elem_of_elements%elem_of_difference. by apply (retrier_ready q x).
Qed.

End Wakeup.

(** ** Running *)

Definition callable (x : Queue_t) (c : queue_call) : bool :=
  negb (is_mutex x) &&
  match c with
  | CallSend item pos | IsrSend item pos =>
      ((uxItemSize x =? 0) || match item with Some d => bool_decide (length d = item_size x) | None => false end) &&
      ((pos =? queueSEND_TO_BACK) || (pos =? queueSEND_TO_FRONT))
  | CallReceive | CallPeek | IsrReceive => true
  | CallTake | IsrGive => uxItemSize x =? 0
  | IsrPeek => negb (uxItemSize x =? 0)
  end.

Lemma callable_allowed x c : callable x c = true -> call_allowed x c.
Proof.
  intros [Hm%negb_true_iff Hc]%andb_true_iff. split; [done|]. destruct c; try done; try lia.
  all: apply andb_true_iff in Hc as [H1 H2]; split; [done| |lia].
  all: intros Hs; rewrite (proj2 (Z.eqb_neq _ _) Hs) in H1; destruct item as [d|]; [|done].
  all: exists d; by apply bool_decide_eq_true_1 in H1.
Qed.

Definition task_freeb (sys : system) (c : sys_conf) : bool :=
  negb (pendsv (c_kernel c)) &&
  match pxCurrentTCB (c_kernel c) with
  | Some t => negb (t =? idle_task sys)%nat && match c_calls c !! t with None => true | Some _ => false end
  | None => false
  end.

Definition sys_allowedb (sys : system) (c : sys_conf) (e : sys_event) : bool :=
  match e with
  | SysTick => true
  | SysPendSV => pendsv (c_kernel c)
  | SysIsr q i => is_isr i && match queue_at (c_kernel c) q with Some x => callable x i | None => false end
  | SysCall q op n => task_freeb sys c && (0 <=? n) && (n <=? portMAX_DELAY) &&
      match queue_at (c_kernel c) q with Some x => callable x (op_call op) | None => false end
  | SysDelay n => task_freeb sys c && (0 <=? n) && (n <=? portMAX_DELAY)
  | SysStep => negb (pendsv (c_kernel c)) &&
      match pxCurrentTCB (c_kernel c) with
      | Some t => match c_calls c !! t with Some _ => true | None => false end
      | None => false
      end
  end.

Lemma task_freeb_true sys c : task_freeb sys c = true -> task_free sys c.
Proof.
  unfold task_freeb. intros [Hp%negb_true_iff H]%andb_true_iff. split; [done|]. destruct (pxCurrentTCB _) as [t|]; [|done].
  exists t. apply andb_true_iff in H as [Ht%negb_true_iff%Nat.eqb_neq H]. split; [done|]. split; [done|]. by destruct (c_calls c !! t).
Qed.

Lemma sys_allowedb_true sys c e : sys_allowedb sys c e = true -> sys_allowed sys c e.
Proof.
  destruct e as [| |q i|q op n|n|]; cbn [sys_allowedb sys_allowed]; try done; rewrite ?andb_true_iff.
  - intros [Hi H]. split; [done|]. destruct (queue_at _ q) as [x|]; [|done]. exists x. split; [done|by apply callable_allowed].
  - intros [[[Hf Hn] Hm] H]. split; [by apply task_freeb_true|]. split; [lia|].
    destruct (queue_at _ q) as [x|]; [|done]. exists x. split; [done|by apply callable_allowed].
  - intros [[Hf Hn] Hm]. split; [by apply task_freeb_true|lia].
  - intros [Hp%negb_true_iff H]. split; [done|]. destruct (pxCurrentTCB _) as [t|]; [|done]. exists t. split; [done|].
    destruct (c_calls c !! t); [by eauto|done].
Qed.

(** A sequence of events, as long as they are allowed. *)
Fixpoint sys_run (sys : system) (es : list sys_event) (os : list outcome) (c : sys_conf) : option (list outcome * sys_conf) :=
  match es with
  | [] => Some (os, c)
  | e :: es =>
      if sys_allowedb sys c e then
        match sys_step e c with Ok (o, c') => sys_run sys es (os ++ option_list o) c' | Fault _ => None end
      else None
  end.

Lemma run_reachable sys c0 es : forall os c os' c',
  sys_reachable sys c0 os c -> sys_run sys es os c = Some (os', c') -> sys_reachable sys c0 os' c'.
Proof.
  induction es as [|e es IH]; intros os c os' c' H; cbn [sys_run]; [by intros [= <- <-]|].
  destruct (sys_allowedb sys c e) eqn:Ha; [|done]. destruct (sys_step e c) as [[o c1]|] eqn:E; [|done].
  apply IH. eapply reach_step; [done|by apply sys_allowedb_true|done].
Qed.

(** Both tasks of [main] wait for [consumer_go], one after the other, while the
    timer task sleeps; then the interrupt gives it once. *)
Definition demo_wait : list sys_event := SysCall demo_consumer_go OpTake portMAX_DELAY :: replicate 9 SysStep ++ [SysPendSV].

Definition demo_events : list sys_event :=
  [SysDelay 100; SysPendSV] ++ demo_wait ++ demo_wait ++ [SysIsr demo_consumer_go IsrGive].

Definition demo_run (es : list sys_event) : list outcome * sys_conf :=
  default ([], mkConf demo_kernel ∅) (sys_run demo_system es [] (mkConf demo_kernel ∅)).

(** The kernel there. *)
Definition demo_given : kernel := c_kernel (demo_run demo_events).2.

Lemma demo_reaches es :
  bool_decide (is_Some (sys_run demo_system es [] (mkConf demo_kernel ∅))) = true ->
  sys_reachable demo_system (mkConf demo_kernel ∅) (demo_run es).1 (demo_run es).2.
Proof.
  unfold demo_run. destruct (sys_run _ _ _ _) as [[os c]|] eqn:E; [intros _|by rewrite bool_decide_eq_true; intros []]. cbn.
  apply (run_reachable demo_system _ es [] (mkConf demo_kernel ∅)); [constructor|done].
Qed.

Lemma demo_events_reach : sys_reachable demo_system (mkConf demo_kernel ∅) (demo_run demo_events).1 (demo_run demo_events).2.
Proof. apply demo_reaches. by vm_compute. Qed.

Definition demo_receiver : nat := 2656.

Lemma waiting_check k q t d n :
  match queue_at k q with
  | Some x => (available d x =? n) && bool_decide (in_list k (xEventListItem t) (side_list d x))
  | None => false
  end = true ->
  exists x, queue_at k q = Some x /\ available d x = n /\ in_list k (xEventListItem t) (side_list d x).
Proof.
  destruct (queue_at k q) as [x|]; [|done]. intros [H1%Z.eqb_eq H2%bool_decide_eq_true_1]%andb_true_iff. by exists x.
Qed.

Lemma demo_semaphore : exists x, queue_at demo_given demo_consumer_go = Some x /\ available ToReceive x = 1 /\
  in_list demo_given (xEventListItem demo_receiver) (side_list ToReceive x).
Proof. apply waiting_check. by vm_compute. Qed.

(** ** The theorems *)

(** C7: Whatever the tasks and the interrupts of the running firmware do: from
    the state after [main], in any order of ticks, context switches, calls in
    interrupts, and steps of tasks in the blocking loops of [queue.c] (with
    the queue locked and the scheduler suspended in between), the scheduler and
    the queues stay consistent, and every further event is carried out without a
    failed assertion or a wild pointer. *)
Theorem concurrent_queues_safe (ucHeap : Z) consumer_go producer_go k0 :
  0 < ucHeap -> ucHeap + configTOTAL_HEAP_SIZE <= 2 ^ 32 ->
  firmware_main ucHeap (kernel_init 0) = Ok ((consumer_go, producer_go), k0) ->
  exists idle, let sys := mkSystem idle 6 true in
  forall os c, sys_reachable sys (mkConf k0 ∅) os c ->
    kernel_good sys (c_kernel c) /\
    (forall e, sys_allowed sys c e -> exists o c', sys_step e c = Ok (o, c')).
Proof.
  intros H0 H1 E. destruct (wp_main ucHeap H0 H1) as (r & k & E' & cg & pg & -> & [Hg _ _ _ _ _ _]).
  rewrite E in E'. injection E' as -> -> <-. destruct Hg as (idle & x & Hst & _). exists idle. intros sys os c Hr.
  destruct (reachable_reached sys k0 Hst os c Hr) as [Hok _ _]. split; [apply Hok|]. intros e Ha.
  destruct (every_event_runs sys c Hok e Ha) as (o & c' & E2 & _). by exists o, c'.
Qed.

Lemma concurrent_queues_safe_witness :
  exists idle, let sys := mkSystem idle 6 true in
  forall os c, sys_reachable sys (mkConf demo_kernel ∅) os c ->
    kernel_good sys (c_kernel c) /\
    (forall e, sys_allowed sys c e -> exists o c', sys_step e c = Ok (o, c')).
Proof.
  apply (concurrent_queues_safe 8 (Some demo_consumer_go) (Some demo_producer_go)); [done|by vm_compute|].
  exact demo_boots.
Defined.

(** C5: Concurrent use of the queues is linearizable: whatever interrupts and
    switches come between the steps of blocking calls, the calls that have
    returned, in the order in which they returned, are a legal history of the
    sequential queues, each with the answer the specification on lists gives at
    that point, and the items in the queues are those the history leaves.  The
    exception is a send that times out: it changes nothing, but may answer
    [errQUEUE_FULL] although an item was taken between its last look at the queue
    and its return. *)
Theorem concurrent_queues_linearizable (sys : system) (k0 : kernel) (os : list outcome) (c : sys_conf) :
  sys_start sys k0 -> sys_reachable sys (mkConf k0 ∅) os c ->
  outcomes_legal (o_queues (k_objects k0)) os (queue_contents k0) (queue_contents (c_kernel c)).
Proof. intros Hst Hr. apply (rd_legal sys k0 os c), reachable_reached; done. Qed.

Lemma concurrent_queues_linearizable_witness :
  outcomes_legal (o_queues (k_objects demo_kernel)) (demo_run (demo_events ++ [SysPendSV; SysStep])).1 (queue_contents demo_kernel)
    (queue_contents (c_kernel (demo_run (demo_events ++ [SysPendSV; SysStep])).2)).
Proof.
  apply (concurrent_queues_linearizable demo_system); [exact demo_start|]. apply demo_reaches. clear. by vm_compute.
Defined.

(** C6: No wake-up is lost: whenever the scheduler is not suspended and a task
    waits on an event list of a queue, for an item or for space, there are at
    least as many distinct other tasks that are ready, and at the point of a call
    where they look at the queue again for the same thing, as there are items, or
    free places.  So a task never sleeps beside an item that nobody is on the
    way to take. *)
Theorem no_lost_wakeup (sys : system) (k0 : kernel) (os : list outcome) (c : sys_conf) (q : nat) (x : Queue_t) (d : side) (t : nat) :
  sys_start sys k0 -> sys_reachable sys (mkConf k0 ∅) os c -> uxSchedulerSuspended (c_kernel c) = 0 ->
  queue_at (c_kernel c) q = Some x -> in_list (c_kernel c) (xEventListItem t) (side_list d x) ->
  exists us, NoDup us /\ available d x <= Z.of_nat (length us) /\ Forall (about_to_try c q d) us.
Proof.
  intros Hst Hr Hs Hx Hin. destruct (reachable_reached sys k0 Hst os c Hr) as [Hok _ _].
  by apply (waiting_enough sys c Hok Hs q x d t).
Qed.

Lemma no_lost_wakeup_witness :
  exists us, NoDup us /\ 1 <= Z.of_nat (length us) /\ Forall (about_to_try (demo_run demo_events).2 demo_consumer_go ToReceive) us.
Proof.
  destruct demo_semaphore as (x & Hx & Ha & Hin). rewrite <- Ha.
  apply (no_lost_wakeup demo_system demo_kernel (demo_run demo_events).1 (demo_run demo_events).2 demo_consumer_go x ToReceive
    demo_receiver); [exact demo_start|exact demo_events_reach| |exact Hx|exact Hin].
  clear. by vm_compute.
Defined.
