(* ===== verification/FreeRTOSStreamBuffer.v ===== *)
(** * The firmware's stream buffers and message buffers

    [FreeRTOS/Source/stream_buffer.c] with the configuration of
    [generate/include/FreeRTOSConfig.h]: trace facility on, no per-instance
    callbacks, no static allocation.  [size_t] has 32 bits.  The storage that
    [pucBuffer] points to is part of the record: a stream buffer owns it.  The
    task notifications are an interface, [TaskNotify]; a [configASSERT] that
    fails is [Fault AssertFailed] and a [memcpy] outside its arrays is
    [Fault ArrayOutOfBounds]. *)

From S2P Require Import Prelude CMemory Access FreeRTOSHeap.

(** What the file asks of [tasks.c]. *)
Class TaskNotify (K : Type) : Type := {
  xTaskNotify : nat -> K -> K;
  xTaskNotifyFromISR : nat -> bool -> K -> bool * K;
  xTaskNotifyStateClear : K -> K;
  xTaskGetCurrentTaskHandle : K -> nat;
}.

Definition sbBYTES_TO_STORE_MESSAGE_LENGTH : Z := 4.
Definition sbFLAGS_IS_MESSAGE_BUFFER : Z := 1.
Definition sbFLAGS_IS_STATICALLY_ALLOCATED : Z := 2.

(** [StreamBuffer_t] *)
Record StreamBuffer_t : Type := mkSB {
  xTail : Z;
  xHead : Z;
  xLength : Z;
  xTriggerLevelBytes : Z;
  xTaskWaitingToReceive : option nat;
  xTaskWaitingToSend : option nat;
  pucBuffer : list Z;
  ucFlags : Z;
  uxStreamBufferNumber : Z;
}.

Definition sizeof_StreamBuffer_t : Z := 36.

Definition set_xTail v (s : StreamBuffer_t) : StreamBuffer_t :=
  mkSB v (xHead s) (xLength s) (xTriggerLevelBytes s) (xTaskWaitingToReceive s)
    (xTaskWaitingToSend s) (pucBuffer s) (ucFlags s) (uxStreamBufferNumber s).
Definition set_xHead v (s : StreamBuffer_t) : StreamBuffer_t :=
  mkSB (xTail s) v (xLength s) (xTriggerLevelBytes s) (xTaskWaitingToReceive s)
    (xTaskWaitingToSend s) (pucBuffer s) (ucFlags s) (uxStreamBufferNumber s).
Definition set_xTriggerLevelBytes v (s : StreamBuffer_t) : StreamBuffer_t :=
  mkSB (xTail s) (xHead s) (xLength s) v (xTaskWaitingToReceive s)
    (xTaskWaitingToSend s) (pucBuffer s) (ucFlags s) (uxStreamBufferNumber s).
Definition set_xTaskWaitingToReceive v (s : StreamBuffer_t) : StreamBuffer_t :=
  mkSB (xTail s) (xHead s) (xLength s) (xTriggerLevelBytes s) v
    (xTaskWaitingToSend s) (pucBuffer s) (ucFlags s) (uxStreamBufferNumber s).
Definition set_xTaskWaitingToSend v (s : StreamBuffer_t) : StreamBuffer_t :=
  mkSB (xTail s) (xHead s) (xLength s) (xTriggerLevelBytes s) (xTaskWaitingToReceive s)
    v (pucBuffer s) (ucFlags s) (uxStreamBufferNumber s).
Definition set_pucBuffer v (s : StreamBuffer_t) : StreamBuffer_t :=
  mkSB (xTail s) (xHead s) (xLength s) (xTriggerLevelBytes s) (xTaskWaitingToReceive s)
    (xTaskWaitingToSend s) v (ucFlags s) (uxStreamBufferNumber s).
Definition set_uxStreamBufferNumber v (s : StreamBuffer_t) : StreamBuffer_t :=
  mkSB (xTail s) (xHead s) (xLength s) (xTriggerLevelBytes s) (xTaskWaitingToReceive s)
    (xTaskWaitingToSend s) (pucBuffer s) (ucFlags s) v.

Definition is_message_buffer (s : StreamBuffer_t) : bool :=
  truthy (ucFlags s .& sbFLAGS_IS_MESSAGE_BUFFER).

(** [configMIN] *)
Definition configMIN (a b : Z) : Z := if a <? b then a else b.

(** ** Creation *)

(** [prvInitialiseNewStreamBuffer]: the storage is filled with [0x55]. *)
Definition prvInitialiseNewStreamBuffer (xBufferSizeBytes xTriggerLevelBytes ucFlags : Z)
  : StreamBuffer_t :=
  mkSB 0 0 xBufferSizeBytes xTriggerLevelBytes None None
    (replicate (Z.to_nat xBufferSizeBytes) 0x55) ucFlags 0.

(** [xStreamBufferGenericCreate]: the address of the new buffer and its state,
    [None] when there is no memory. *)
Definition xStreamBufferGenericCreate (ucHeap : Z) (xBufferSizeBytes xTriggerLevelBytes : Z)
    (xIsMessageBuffer : bool) (h : heap_state) : res (option (Z * StreamBuffer_t) * heap_state) :=
  ucFlags ←
    (if xIsMessageBuffer then
       _ ← c_assert (xBufferSizeBytes >? sbBYTES_TO_STORE_MESSAGE_LENGTH);
       Ok sbFLAGS_IS_MESSAGE_BUFFER
     else
       _ ← c_assert (xBufferSizeBytes >? 0); Ok 0);
  _ ← c_assert (xTriggerLevelBytes <=? xBufferSizeBytes);
  let xTriggerLevelBytes := if xTriggerLevelBytes =? 0 then 1 else xTriggerLevelBytes in
  if xBufferSizeBytes <? u32 (xBufferSizeBytes + 1 + sizeof_StreamBuffer_t) then
    let xBufferSizeBytes := u32 (xBufferSizeBytes + 1) in
    let '(pucAllocatedMemory, h) :=
      pvPortMalloc ucHeap (u32 (xBufferSizeBytes + sizeof_StreamBuffer_t)) h in
    match pucAllocatedMemory with
    | Some a =>
        Ok (Some (a, prvInitialiseNewStreamBuffer xBufferSizeBytes xTriggerLevelBytes ucFlags), h)
    | None => Ok (None, h)
    end
  else Ok (None, h).

(** [vStreamBufferDelete] of a buffer that was created at address [a]. *)
Definition vStreamBufferDelete (a : Z) (s : StreamBuffer_t) (h : heap_state) : res (option StreamBuffer_t * heap_state) :=
  if negb (truthy (ucFlags s .& sbFLAGS_IS_STATICALLY_ALLOCATED)) then
    h ← vPortFree (Some a) h; Ok (None, h)
  else Ok (Some (mkSB 0 0 0 0 None None [] 0 0), h).

(** [xStreamBufferReset] *)
Definition xStreamBufferReset (s : StreamBuffer_t) : bool * StreamBuffer_t :=
  match xTaskWaitingToReceive s, xTaskWaitingToSend s with
  | None, None =>
      (true, set_uxStreamBufferNumber (uxStreamBufferNumber s)
               (prvInitialiseNewStreamBuffer (xLength s) (xTriggerLevelBytes s) (ucFlags s)))
  | _, _ => (false, s)
  end.

(** [xStreamBufferSetTriggerLevel] *)
Definition xStreamBufferSetTriggerLevel (xTriggerLevel : Z) (s : StreamBuffer_t)
  : bool * StreamBuffer_t :=
  let xTriggerLevel := if xTriggerLevel =? 0 then 1 else xTriggerLevel in
  if xTriggerLevel <? xLength s then (true, set_xTriggerLevelBytes xTriggerLevel s)
  else (false, s).

(** ** Counting *)

(** [prvBytesInBuffer] *)
Definition prvBytesInBuffer (s : StreamBuffer_t) : Z :=
  let xCount := u32 (xLength s + xHead s) in
  let xCount := u32 (xCount - xTail s) in
  if xCount >=? xLength s then u32 (xCount - xLength s) else xCount.

(** [xStreamBufferSpacesAvailable], with the two reads of [xTail] that the loop
    makes; the loop ends when they agree. *)
Definition spaces_of (xTail xHead xLength : Z) : Z :=
  let xSpace := u32 (xLength + xTail) in
  let xSpace := u32 (xSpace - xHead) in
  let xSpace := u32 (xSpace - 1) in
  if xSpace >=? xLength then u32 (xSpace - xLength) else xSpace.

Definition xStreamBufferSpacesAvailable (s : StreamBuffer_t) : Z :=
  spaces_of (xTail s) (xHead s) (xLength s).

Definition xStreamBufferBytesAvailable (s : StreamBuffer_t) : Z := prvBytesInBuffer s.

Definition xStreamBufferIsEmpty (s : StreamBuffer_t) : bool := xHead s =? xTail s.

Definition bytes_to_store_message_length (s : StreamBuffer_t) : Z :=
  if is_message_buffer s then sbBYTES_TO_STORE_MESSAGE_LENGTH else 0.

Definition xStreamBufferIsFull (s : StreamBuffer_t) : bool :=
  xStreamBufferSpacesAvailable s <=? bytes_to_store_message_length s.

(** ** Copying *)

(** [prvWriteBytesToBuffer]: the new storage and the new head. *)
Definition prvWriteBytesToBuffer (pucData : list Z) (xCount xHead : Z) (s : StreamBuffer_t)
  : res (StreamBuffer_t * Z) :=
  _ ← c_assert (xCount >? 0);
  let xFirstLength := configMIN (u32 (xLength s - xHead)) xCount in
  _ ← c_assert (u32 (xHead + xFirstLength) <=? xLength s);
  b ← memcpy (pucBuffer s) xHead pucData 0 xFirstLength;
  let s := set_pucBuffer b s in
  s ← (if xCount >? xFirstLength then
         _ ← c_assert (u32 (xCount - xFirstLength) <=? xLength s);
         b ← memcpy (pucBuffer s) 0 pucData xFirstLength (u32 (xCount - xFirstLength));
         Ok (set_pucBuffer b s)
       else Ok s);
  let xHead := u32 (xHead + xCount) in
  Ok (s, if xHead >=? xLength s then u32 (xHead - xLength s) else xHead).

(** [prvReadBytesFromBuffer]: the destination and the new tail. *)
Definition prvReadBytesFromBuffer (pucData : list Z) (xCount xTail : Z) (s : StreamBuffer_t)
  : res (list Z * Z) :=
  _ ← c_assert (negb (xCount =? 0));
  let xFirstLength := configMIN (u32 (xLength s - xTail)) xCount in
  _ ← c_assert (xFirstLength <=? xCount);
  _ ← c_assert (u32 (xTail + xFirstLength) <=? xLength s);
  pucData ← memcpy pucData 0 (pucBuffer s) xTail xFirstLength;
  pucData ← (if xCount >? xFirstLength
             then memcpy pucData xFirstLength (pucBuffer s) 0 (u32 (xCount - xFirstLength))
             else Ok pucData);
  let xTail := u32 (xTail + xCount) in
  Ok (pucData, if xTail >=? xLength s then u32 (xTail - xLength s) else xTail).

(** [prvWriteMessageToBuffer] *)
Definition prvWriteMessageToBuffer (pvTxData : list Z) (xDataLengthBytes xSpace xRequiredSpace : Z)
    (s : StreamBuffer_t) : res (Z * StreamBuffer_t) :=
  let xNextHead := xHead s in
  '(s, xNextHead, xDataLengthBytes) ←
    (if is_message_buffer s then
       let xMessageLength := u32 xDataLengthBytes in
       _ ← c_assert (xMessageLength =? xDataLengthBytes);
       if xSpace >=? xRequiredSpace then
         '(s, xNextHead) ← prvWriteBytesToBuffer (stn_he_p 4 xMessageLength)
                             sbBYTES_TO_STORE_MESSAGE_LENGTH xNextHead s;
         Ok (s, xNextHead, xDataLengthBytes)
       else Ok (s, xNextHead, 0)
     else Ok (s, xNextHead, configMIN xDataLengthBytes xSpace));
  if negb (xDataLengthBytes =? 0) then
    '(s, xNextHead) ← prvWriteBytesToBuffer pvTxData xDataLengthBytes xNextHead s;
    Ok (xDataLengthBytes, set_xHead xNextHead s)
  else Ok (xDataLengthBytes, s).

(** [prvReadMessageFromBuffer]: the count, the destination and the buffer. *)
Definition prvReadMessageFromBuffer (pvRxData : list Z) (xBufferLengthBytes xBytesAvailable : Z)
    (s : StreamBuffer_t) : res (Z * list Z * StreamBuffer_t) :=
  let xNextTail := xTail s in
  '(xNextTail, xNextMessageLength, xBytesAvailable) ←
    (if is_message_buffer s then
       '(xTempNextMessageLength, xNextTail) ←
         prvReadBytesFromBuffer (replicate 4 0) sbBYTES_TO_STORE_MESSAGE_LENGTH xNextTail s;
       let xNextMessageLength := ldn_he_p xTempNextMessageLength in
       let xBytesAvailable := u32 (xBytesAvailable - sbBYTES_TO_STORE_MESSAGE_LENGTH) in
       Ok (xNextTail,
           if xNextMessageLength >? xBufferLengthBytes then 0 else xNextMessageLength,
           xBytesAvailable)
     else Ok (xNextTail, xBufferLengthBytes, xBytesAvailable));
  let xCount := configMIN xNextMessageLength xBytesAvailable in
  if negb (xCount =? 0) then
    '(pvRxData, xNextTail) ← prvReadBytesFromBuffer pvRxData xCount xNextTail s;
    Ok (xCount, pvRxData, set_xTail xNextTail s)
  else Ok (xCount, pvRxData, s).

(** [xStreamBufferNextMessageLengthBytes] *)
Definition xStreamBufferNextMessageLengthBytes (s : StreamBuffer_t) : res Z :=
  if is_message_buffer s then
    let xBytesAvailable := prvBytesInBuffer s in
    if xBytesAvailable >? sbBYTES_TO_STORE_MESSAGE_LENGTH then
      '(xTempReturn, _) ← prvReadBytesFromBuffer (replicate 4 0)
                            sbBYTES_TO_STORE_MESSAGE_LENGTH (xTail s) s;
      Ok (ldn_he_p xTempReturn)
    else
      _ ← c_assert (xBytesAvailable =? 0); Ok 0
  else Ok 0.

(** ** Sending and receiving *)

Section Operations.
Context {K : Type} {Notify : TaskNotify K}.

(** [sbSEND_COMPLETED], [sbRECEIVE_COMPLETED] *)
Definition sbSEND_COMPLETED (s : StreamBuffer_t) (k : K) : StreamBuffer_t * K :=
  match xTaskWaitingToReceive s with
  | Some t => (set_xTaskWaitingToReceive None s, xTaskNotify t k)
  | None => (s, k)
  end.

Definition sbRECEIVE_COMPLETED (s : StreamBuffer_t) (k : K) : StreamBuffer_t * K :=
  match xTaskWaitingToSend s with
  | Some t => (set_xTaskWaitingToSend None s, xTaskNotify t k)
  | None => (s, k)
  end.

(** [sbSEND_COMPLETE_FROM_ISR], [sbRECEIVE_COMPLETED_FROM_ISR]; [woken] is
    [*pxHigherPriorityTaskWoken]. *)
Definition sbSEND_COMPLETE_FROM_ISR (woken : bool) (s : StreamBuffer_t) (k : K)
  : bool * StreamBuffer_t * K :=
  match xTaskWaitingToReceive s with
  | Some t => let '(woken, k) := xTaskNotifyFromISR t woken k in
              (woken, set_xTaskWaitingToReceive None s, k)
  | None => (woken, s, k)
  end.

Definition sbRECEIVE_COMPLETED_FROM_ISR (woken : bool) (s : StreamBuffer_t) (k : K)
  : bool * StreamBuffer_t * K :=
  match xTaskWaitingToSend s with
  | Some t => let '(woken, k) := xTaskNotifyFromISR t woken k in
              (woken, set_xTaskWaitingToSend None s, k)
  | None => (woken, s, k)
  end.

(** [xStreamBufferSendCompletedFromISR], [xStreamBufferReceiveCompletedFromISR] *)
Definition xStreamBufferSendCompletedFromISR (woken : bool) (s : StreamBuffer_t) (k : K)
  : bool * bool * StreamBuffer_t * K :=
  match xTaskWaitingToReceive s with
  | Some t => let '(woken, k) := xTaskNotifyFromISR t woken k in
              (true, woken, set_xTaskWaitingToReceive None s, k)
  | None => (false, woken, s, k)
  end.

Definition xStreamBufferReceiveCompletedFromISR (woken : bool) (s : StreamBuffer_t) (k : K)
  : bool * bool * StreamBuffer_t * K :=
  match xTaskWaitingToSend s with
  | Some t => let '(woken, k) := xTaskNotifyFromISR t woken k in
              (true, woken, set_xTaskWaitingToSend None s, k)
  | None => (false, woken, s, k)
  end.

(** [xStreamBufferSendFromISR] *)
Definition xStreamBufferSendFromISR (pvTxData : list Z) (xDataLengthBytes : Z) (woken : bool)
    (s : StreamBuffer_t) (k : K) : res (Z * bool * StreamBuffer_t * K) :=
  let xRequiredSpace := if is_message_buffer s
                        then u32 (xDataLengthBytes + sbBYTES_TO_STORE_MESSAGE_LENGTH)
                        else xDataLengthBytes in
  let xSpace := xStreamBufferSpacesAvailable s in
  '(xReturn, s) ← prvWriteMessageToBuffer pvTxData xDataLengthBytes xSpace xRequiredSpace s;
  if xReturn >? 0 then
    if prvBytesInBuffer s >=? xTriggerLevelBytes s then
      let '(woken, s, k) := sbSEND_COMPLETE_FROM_ISR woken s k in Ok (xReturn, woken, s, k)
    else Ok (xReturn, woken, s, k)
  else Ok (xReturn, woken, s, k).

(** [xStreamBufferReceiveFromISR] *)
Definition xStreamBufferReceiveFromISR (pvRxData : list Z) (xBufferLengthBytes : Z) (woken : bool)
    (s : StreamBuffer_t) (k : K) : res (Z * list Z * bool * StreamBuffer_t * K) :=
  let xBytesAvailable := prvBytesInBuffer s in
  if xBytesAvailable >? bytes_to_store_message_length s then
    '(xReceivedLength, pvRxData, s) ←
      prvReadMessageFromBuffer pvRxData xBufferLengthBytes xBytesAvailable s;
    if negb (xReceivedLength =? 0) then
      let '(woken, s, k) := sbRECEIVE_COMPLETED_FROM_ISR woken s k in
      Ok (xReceivedLength, pvRxData, woken, s, k)
    else Ok (xReceivedLength, pvRxData, woken, s, k)
  else Ok (0, pvRxData, woken, s, k).

(** *** The calls that can block

    While a task waits for a notification the other tasks and the interrupts
    run: [others] is what they do to the buffer and the kernel, and
    [timed_out] the answer of [xTaskCheckForTimeOut] after the wait.  A call
    is run against the waits it goes through; when they are used up it is
    still blocked. *)
Record wait : Type := mkWait {
  others : StreamBuffer_t -> K -> res (StreamBuffer_t * K);
  timed_out : bool;
}.

Inductive outcome (A : Type) : Type :=
  | Returns (a : A) (s : StreamBuffer_t) (k : K)
  | Blocks (s : StreamBuffer_t) (k : K).
Arguments Returns {A} a s k.
Arguments Blocks {A} s k.

(** The [do] loop of [xStreamBufferSend]; the result is [xSpace]. *)
Fixpoint send_wait (waits : list wait) (xRequiredSpace : Z) (s : StreamBuffer_t) (k : K)
  : res (outcome Z) :=
  let xSpace := xStreamBufferSpacesAvailable s in
  if xSpace <? xRequiredSpace then
    let k := xTaskNotifyStateClear k in
    _ ← c_assert (match xTaskWaitingToSend s with None => true | Some _ => false end);
    let s := set_xTaskWaitingToSend (Some (xTaskGetCurrentTaskHandle k)) s in
    match waits with
    | [] => Ok (Blocks s k)
    | w :: waits =>
        '(s, k) ← others w s k;
        let s := set_xTaskWaitingToSend None s in
        if timed_out w then Ok (Returns xSpace s k) else send_wait waits xRequiredSpace s k
    end
  else Ok (Returns xSpace s k).

(** The part of [xStreamBufferSend] after the wait. *)
Definition send_now (pvTxData : list Z) (xDataLengthBytes xSpace xRequiredSpace : Z)
    (s : StreamBuffer_t) (k : K) : res (outcome Z) :=
  let xSpace := if xSpace =? 0 then xStreamBufferSpacesAvailable s else xSpace in
  '(xReturn, s) ← prvWriteMessageToBuffer pvTxData xDataLengthBytes xSpace xRequiredSpace s;
  if xReturn >? 0 then
    if prvBytesInBuffer s >=? xTriggerLevelBytes s then
      let '(s, k) := sbSEND_COMPLETED s k in Ok (Returns xReturn s k)
    else Ok (Returns xReturn s k)
  else Ok (Returns xReturn s k).

(** [xStreamBufferSend] *)
Definition xStreamBufferSend (pvTxData : list Z) (xDataLengthBytes xTicksToWait : Z)
    (waits : list wait) (s : StreamBuffer_t) (k : K) : res (outcome Z) :=
  let xMaxReportedSpace := u32 (xLength s - 1) in
  '(xRequiredSpace, xTicksToWait) ←
    (if is_message_buffer s then
       let xRequiredSpace := u32 (xDataLengthBytes + sbBYTES_TO_STORE_MESSAGE_LENGTH) in
       _ ← c_assert (xRequiredSpace >? xDataLengthBytes);
       Ok (xRequiredSpace, if xRequiredSpace >? xMaxReportedSpace then 0 else xTicksToWait)
     else
       Ok (if xDataLengthBytes >? xMaxReportedSpace then xMaxReportedSpace else xDataLengthBytes,
           xTicksToWait));
  if negb (xTicksToWait =? 0) then
    o ← send_wait waits xRequiredSpace s k;
    match o with
    | Returns xSpace s k => send_now pvTxData xDataLengthBytes xSpace xRequiredSpace s k
    | Blocks s k => Ok (Blocks s k)
    end
  else send_now pvTxData xDataLengthBytes 0 xRequiredSpace s k.

(** The part of [xStreamBufferReceive] after the wait. *)
Definition receive_now (pvRxData : list Z) (xBufferLengthBytes xBytesAvailable : Z)
    (s : StreamBuffer_t) (k : K) : res (outcome (Z * list Z)) :=
  if xBytesAvailable >? bytes_to_store_message_length s then
    '(xReceivedLength, pvRxData, s) ←
      prvReadMessageFromBuffer pvRxData xBufferLengthBytes xBytesAvailable s;
    if negb (xReceivedLength =? 0) then
      let '(s, k) := sbRECEIVE_COMPLETED s k in Ok (Returns (xReceivedLength, pvRxData) s k)
    else Ok (Returns (xReceivedLength, pvRxData) s k)
  else Ok (Returns (0, pvRxData) s k).

(** [xStreamBufferReceive]: at most one wait. *)
Definition xStreamBufferReceive (pvRxData : list Z) (xBufferLengthBytes xTicksToWait : Z)
    (waits : list wait) (s : StreamBuffer_t) (k : K) : res (outcome (Z * list Z)) :=
  let xBytesAvailable := prvBytesInBuffer s in
  if negb (xTicksToWait =? 0) && (xBytesAvailable <=? bytes_to_store_message_length s) then
    let k := xTaskNotifyStateClear k in
    _ ← c_assert (match xTaskWaitingToReceive s with None => true | Some _ => false end);
    let s := set_xTaskWaitingToReceive (Some (xTaskGetCurrentTaskHandle k)) s in
    match waits with
    | [] => Ok (Blocks s k)
    | w :: _ =>
        '(s, k) ← others w s k;
        let s := set_xTaskWaitingToReceive None s in
        receive_now pvRxData xBufferLengthBytes (prvBytesInBuffer s) s k
    end
  else receive_now pvRxData xBufferLengthBytes xBytesAvailable s k.

End Operations.
Arguments Returns {K A} a s k.
Arguments Blocks {K A} s k.
