(* ===== verification/FreeRTOSStreamTheory.v ===== *)
(** * Stream buffers and message buffers are queues

    The storage of [FreeRTOSStreamBuffer] read as a ring: what the two copy
    functions do to it, and from that the refinement of the calls that do not
    wait to a queue of bytes (a stream buffer) or of messages (a message
    buffer).  The two uses share one proof: [Discipline] is what differs. *)

From S2P Require Import Prelude CMemory Access AccessTheory FreeRTOSHeap FreeRTOSStreamBuffer.

(** ** The storage as a ring *)

(** The byte at a position of the ring, and [n] bytes from a position. *)
Definition byte_at (s : StreamBuffer_t) (k : Z) : Z := znth (pucBuffer s) (k mod xLength s).

Definition slice (s : StreamBuffer_t) (h : Z) (n : nat) : list Z :=
  (fun i => byte_at s (h + Z.of_nat i)) <$> seq 0 n.

Definition used (s : StreamBuffer_t) : Z := (xHead s - xTail s) mod xLength s.

(** The bytes between the tail and the head. *)
Definition contents (s : StreamBuffer_t) : list Z := slice s (xTail s) (Z.to_nat (used s)).

Record wf_sb (s : StreamBuffer_t) : Prop := {
  wf_length : 2 <= xLength s <= 2 ^ 31;
  wf_tail : 0 <= xTail s < xLength s;
  wf_head : 0 <= xHead s < xLength s;
  wf_storage : Z.of_nat (length (pucBuffer s)) = xLength s;
  wf_bytes : Forall (in_range 8) (pucBuffer s);
}.

Lemma slice_length s h n : length (slice s h n) = n.
Proof. unfold slice. by rewrite length_fmap, length_seq. Qed.

Lemma slice_lookup s h n i :
  slice s h n !! i = if decide (i < n)%nat then Some (byte_at s (h + Z.of_nat i)) else None.
Proof.
  unfold slice. rewrite list_lookup_fmap. destruct (decide (i < n)%nat).
  - by rewrite lookup_seq_lt.
  - by rewrite lookup_seq_ge by lia.
Qed.

Lemma slice_app s h n m : slice s h (n + m) = slice s h n ++ slice s (h + Z.of_nat n) m.
Proof.
  apply list_eq. intros i. rewrite slice_lookup. destruct (decide (i < n)%nat).
  - rewrite lookup_app_l by (rewrite slice_length; lia). rewrite slice_lookup.
    rewrite !decide_True by lia. done.
  - rewrite lookup_app_r; rewrite slice_length; [|lia]. rewrite slice_lookup.
    destruct (decide (i < n + m)%nat); [rewrite decide_True by lia|by rewrite decide_False by lia].
    do 2 f_equal. lia.
Qed.

Lemma slice_mod s h n : slice s (h mod xLength s) n = slice s h n.
Proof.
  unfold slice. apply list_fmap_ext. intros i x _. unfold byte_at. f_equal.
  by rewrite Zplus_mod_idemp_l.
Qed.

Lemma slice_ext s s' h h' n :
  (forall i, 0 <= i < Z.of_nat n -> byte_at s (h + i) = byte_at s' (h' + i)) ->
  slice s h n = slice s' h' n.
Proof.
  intros Heq. apply list_eq. intros i. rewrite !slice_lookup.
  destruct (decide (i < n)%nat); [|done]. f_equal. apply Heq. lia.
Qed.

Lemma used_range s : wf_sb s -> 0 <= used s < xLength s.
Proof. intros Hwf. apply Z.mod_pos_bound. destruct Hwf. lia. Qed.

Lemma contents_length s : wf_sb s -> Z.of_nat (length (contents s)) = used s.
Proof. intros Hwf%used_range. unfold contents. rewrite slice_length. lia. Qed.

Lemma byte_at_range s k : wf_sb s -> in_range 8 (byte_at s k).
Proof.
  intros Hwf. unfold byte_at, znth. pose proof (Z.mod_pos_bound k (xLength s)).
  destruct Hwf as [HL _ _ Hlen Hb]. rewrite Forall_forall in Hb. apply Hb.
  apply list_elem_of_In, nth_In. lia.
Qed.

Lemma slice_bytes s h n : wf_sb s -> Forall (in_range 8) (slice s h n).
Proof. intros Hwf. apply Forall_fmap, Forall_forall. intros i _. by apply byte_at_range. Qed.

(** The distance from the tail to the head, with the wrap-around. *)
Lemma used_cases s : wf_sb s ->
  used s = if xTail s <=? xHead s then xHead s - xTail s else xHead s - xTail s + xLength s.
Proof.
  intros [HL Ht Hh _ _]. unfold used. destruct (Z.leb_spec (xTail s) (xHead s)).
  - apply Z.mod_small. lia.
  - symmetry. apply (Z.mod_unique _ _ (-1)); lia.
Qed.

Lemma bytes_in_buffer s : wf_sb s -> prvBytesInBuffer s = used s.
Proof.
  intros Hwf. rewrite used_cases by done. destruct Hwf as [HL Ht Hh _ _]. unfold prvBytesInBuffer.
  rewrite (wrapu_small 32 (xLength s + xHead s)) by lia.
  rewrite (wrapu_small 32) by lia.
  destruct (Z.leb_spec (xTail s) (xHead s)).
  - rewrite (proj2 (Z.geb_le _ _)) by lia. rewrite (wrapu_small 32); lia.
  - destruct (Z.geb_spec (xLength s + xHead s - xTail s) (xLength s)); lia.
Qed.

Lemma spaces_available s : wf_sb s -> xStreamBufferSpacesAvailable s = xLength s - 1 - used s.
Proof.
  intros Hwf. rewrite used_cases by done. destruct Hwf as [HL Ht Hh _ _].
  unfold xStreamBufferSpacesAvailable, spaces_of.
  rewrite (wrapu_small 32 (xLength s + xTail s)) by lia.
  rewrite (wrapu_small 32 (xLength s + xTail s - xHead s)) by lia.
  rewrite (wrapu_small 32 (_ - 1)) by lia.
  destruct (Z.geb_spec (xLength s + xTail s - xHead s - 1) (xLength s)).
  - rewrite (wrapu_small 32) by lia. destruct (Z.leb_spec (xTail s) (xHead s)); lia.
  - destruct (Z.leb_spec (xTail s) (xHead s)); lia.
Qed.

(** ** The copy functions *)

(** [s'] is [s] with [n] bytes of [data] written from position [h]. *)
Definition written_at (h n : Z) (data : list Z) (s s' : StreamBuffer_t) : Prop :=
  exists b, s' = set_pucBuffer b s /\ length b = length (pucBuffer s) /\
    forall j, 0 <= j < xLength s ->
      znth b ((h + j) mod xLength s) =
        if j <? n then znth data j else znth (pucBuffer s) ((h + j) mod xLength s).

Lemma next_position L p n : 2 <= L <= 2 ^ 31 -> 0 <= p < L -> 0 <= n <= L ->
  (if u32 (p + n) >=? L then u32 (u32 (p + n) - L) else u32 (p + n)) = (p + n) mod L.
Proof.
  intros HL Hp Hn. rewrite (wrapu_small 32 (p + n)) by lia.
  destruct (Z.geb_spec (p + n) L).
  - rewrite (wrapu_small 32) by lia. apply (Z.mod_unique _ _ 1); lia.
  - symmetry. apply Z.mod_small. lia.
Qed.

Lemma first_length L p n : 2 <= L <= 2 ^ 31 -> 0 <= p < L -> 0 <= n <= L ->
  configMIN (u32 (L - p)) n = Z.min (L - p) n.
Proof.
  intros HL Hp Hn. unfold configMIN. rewrite (wrapu_small 32) by lia.
  destruct (Z.ltb_spec (L - p) n); lia.
Qed.

(** The ring position of an offset from [p]. *)
Lemma ring_position L p j : 0 <= p < L -> 0 <= j < L ->
  (p + j) mod L = if p + j <? L then p + j else p + j - L.
Proof.
  intros Hp Hj. destruct (Z.ltb_spec (p + j) L); [by apply Z.mod_small; lia|].
  symmetry. apply (Z.mod_unique _ _ 1); lia.
Qed.

Lemma write_bytes_ok data n h s :
  wf_sb s -> 0 <= h < xLength s -> 0 < n <= xLength s -> n <= Z.of_nat (length data) ->
  exists s', prvWriteBytesToBuffer data n h s = Ok (s', (h + n) mod xLength s) /\
    written_at h n data s s'.
Proof.
  intros [HL Ht Hh Hlen _] Hp Hn Hdata. unfold prvWriteBytesToBuffer.
  rewrite (proj2 (Z.gtb_lt n 0)) by lia. cbn [c_assert]. rewrite res_bind_Ok.
  rewrite first_length by lia. set (f := Z.min (xLength s - h) n).
  assert (Hf : 0 < f <= n /\ h + f <= xLength s /\ (f < n -> h + f = xLength s)) by (unfold f; lia).
  clearbody f.
  rewrite (wrapu_small 32 (h + f)) by lia. rewrite (proj2 (Z.leb_le (h + f) _)) by lia.
  cbn [c_assert]. rewrite res_bind_Ok.
  destruct (memcpy_ok (pucBuffer s) h data 0 f) as (b & Hb & Hbl & Hbn); [lia..|].
  rewrite Hb, res_bind_Ok. cbv zeta. cbn [xLength pucBuffer set_pucBuffer].
  destruct (Z.gtb_spec n f) as [Hlt|Hge].
  - assert (Hwrap : h + f = xLength s) by lia.
    rewrite (wrapu_small 32 (n - f)) by lia. rewrite (proj2 (Z.leb_le (n - f) _)) by lia.
    cbn [c_assert]. rewrite res_bind_Ok.
    destruct (memcpy_ok b 0 data f (n - f)) as (c & Hc & Hcl & Hcn); [lia..|].
    rewrite Hc, !res_bind_Ok. cbn [xLength set_pucBuffer]. rewrite next_position by lia.
    eexists. split; [done|]. exists c. split; [done|]. split; [lia|]. intros j Hj.
    rewrite ring_position by lia. destruct (Z.ltb_spec (h + j) (xLength s)).
    + rewrite Hcn, (proj2 (Z.leb_le _ _)), (proj2 (Z.ltb_ge (h + j) _)) by lia. cbn [andb].
      rewrite Hbn, (proj2 (Z.leb_le _ _)), (proj2 (Z.ltb_lt (h + j) _)) by lia. cbn [andb].
      rewrite (proj2 (Z.ltb_lt j n)) by lia. f_equal. lia.
    + rewrite Hcn, (proj2 (Z.leb_le _ _)) by lia. cbn [andb].
      destruct (Z.ltb_spec j n); [rewrite (proj2 (Z.ltb_lt _ _)) by lia; f_equal; lia|].
      rewrite (proj2 (Z.ltb_ge _ _)) by lia.
      by rewrite Hbn, (proj2 (Z.leb_gt _ _)) by lia.
  - rewrite res_bind_Ok. cbn [xLength set_pucBuffer]. rewrite next_position by lia.
    eexists. split; [done|]. exists b. split; [done|]. split; [lia|]. intros j Hj.
    assert (n = f) as -> by lia. rewrite ring_position by lia.
    destruct (Z.ltb_spec (h + j) (xLength s)).
    + rewrite Hbn, (proj2 (Z.leb_le _ _)) by lia. cbn [andb].
      destruct (Z.ltb_spec j f); [rewrite (proj2 (Z.ltb_lt _ _)) by lia; f_equal; lia|].
      by rewrite (proj2 (Z.ltb_ge _ _)) by lia.
    + rewrite Hbn, (proj2 (Z.leb_gt _ _)) by lia. cbn [andb]. by rewrite (proj2 (Z.ltb_ge _ _)) by lia.
Qed.

Lemma read_ext s t n dst c :
  0 <= n <= Z.of_nat (length dst) -> length c = length dst ->
  (forall j, 0 <= j -> znth c j = if j <? n then byte_at s (t + j) else znth dst j) ->
  c = slice s t (Z.to_nat n) ++ drop (Z.to_nat n) dst.
Proof.
  intros Hn Hcl Hcn. apply (nth_ext _ _ 0 0).
  { rewrite length_app, slice_length, length_drop. lia. }
  intros i Hi. specialize (Hcn (Z.of_nat i) ltac:(lia)). unfold znth in Hcn.
  rewrite Nat2Z.id in Hcn. rewrite Hcn. destruct (Z.ltb_spec (Z.of_nat i) n).
  - rewrite app_nth1 by (rewrite slice_length; lia).
    rewrite (nth_lookup_Some _ _ _ (byte_at s (t + Z.of_nat i))); [done|].
    by rewrite slice_lookup, decide_True by lia.
  - rewrite app_nth2; rewrite slice_length; [|lia].
    rewrite (nth_lookup (drop _ _)), lookup_drop, <- nth_lookup. f_equal. lia.
Qed.

Lemma read_bytes_ok dst n t s :
  wf_sb s -> 0 <= t < xLength s -> 0 < n <= xLength s -> n <= Z.of_nat (length dst) ->
  prvReadBytesFromBuffer dst n t s =
    Ok (slice s t (Z.to_nat n) ++ drop (Z.to_nat n) dst, (t + n) mod xLength s).
Proof.
  intros [HL Ht Hh Hlen _] Hp Hn Hdst. unfold prvReadBytesFromBuffer.
  rewrite (proj2 (Z.eqb_neq n 0)) by lia. cbn [negb c_assert]. rewrite res_bind_Ok.
  rewrite first_length by lia. set (f := Z.min (xLength s - t) n).
  assert (Hf : 0 < f <= n /\ t + f <= xLength s /\ (f < n -> t + f = xLength s)) by (unfold f; lia).
  clearbody f.
  rewrite (proj2 (Z.leb_le f n)) by lia. cbn [c_assert]. rewrite res_bind_Ok.
  rewrite (wrapu_small 32 (t + f)) by lia. rewrite (proj2 (Z.leb_le (t + f) _)) by lia.
  cbn [c_assert]. rewrite res_bind_Ok.
  destruct (memcpy_ok dst 0 (pucBuffer s) t f) as (b & Hb & Hbl & Hbn); [lia..|].
  rewrite Hb, res_bind_Ok. rewrite next_position by lia.
  destruct (Z.gtb_spec n f) as [Hlt|Hge].
  - assert (Hwrap : t + f = xLength s) by lia.
    rewrite (wrapu_small 32 (n - f)) by lia.
    destruct (memcpy_ok b f (pucBuffer s) 0 (n - f)) as (c & Hc & Hcl & Hcn); [lia..|].
    rewrite Hc, res_bind_Ok. do 2 f_equal. apply read_ext; [lia..|]. intros j Hj.
    rewrite Hcn by done. destruct (Z.ltb_spec j n).
    + unfold byte_at. rewrite ring_position by lia. destruct (Z.leb_spec f j); cbn [andb].
      * rewrite (proj2 (Z.ltb_lt j _)), (proj2 (Z.ltb_ge (t + j) _)) by lia. f_equal. lia.
      * rewrite Hbn, (proj2 (Z.leb_le _ _)), !(proj2 (Z.ltb_lt _ _)) by lia. cbn [andb]. f_equal. lia.
    + rewrite (proj2 (Z.ltb_ge j _)), andb_false_r by lia.
      rewrite Hbn, (proj2 (Z.ltb_ge j _)), andb_false_r by lia. done.
  - rewrite res_bind_Ok. do 2 f_equal. apply read_ext; [lia..|]. intros j Hj.
    rewrite Hbn, (proj2 (Z.leb_le 0 j)) by lia. cbn [andb].
    assert (n = f) as -> by lia. change (0 + f) with f. destruct (Z.ltb_spec j f); [|done].
    unfold byte_at. rewrite Z.mod_small by lia. f_equal. lia.
Qed.

(** ** Appending and consuming *)

Lemma ring_offset L h p : 0 < L -> (h + (p - h) mod L) mod L = p mod L.
Proof. intros HL. rewrite Zplus_mod_idemp_r. f_equal. lia. Qed.

Lemma written_byte h n data s s' p :
  0 < xLength s -> written_at h n data s s' ->
  byte_at s' p = let j := (p - h) mod xLength s in if j <? n then znth data j else byte_at s p.
Proof.
  intros HL (b & -> & Hbl & Hb). unfold byte_at. cbn [xLength pucBuffer set_pucBuffer].
  specialize (Hb ((p - h) mod xLength s) (Z.mod_pos_bound _ _ HL)).
  rewrite ring_offset in Hb by done. by rewrite Hb.
Qed.

Lemma written_length h n data s s' : written_at h n data s s' -> xLength s' = xLength s.
Proof. by intros (b & -> & _). Qed.

Lemma written_slice h n data s s' :
  0 <= n <= xLength s -> n <= Z.of_nat (length data) -> 0 < xLength s ->
  written_at h n data s s' -> slice s' h (Z.to_nat n) = take (Z.to_nat n) data.
Proof.
  intros Hn Hd HL Hw. apply list_eq. intros i. rewrite slice_lookup.
  destruct (decide (i < Z.to_nat n)%nat).
  - rewrite lookup_take_lt by lia. rewrite (written_byte h n data s s') by done. cbv zeta.
    replace (h + Z.of_nat i - h) with (Z.of_nat i) by lia. rewrite Z.mod_small by lia.
    rewrite (proj2 (Z.ltb_lt _ _)) by lia. unfold znth. rewrite Nat2Z.id.
    destruct (lookup_lt_is_Some_2 data i) as [x Hx]; [lia|].
    by rewrite (nth_lookup_Some _ _ _ _ Hx), Hx.
  - by rewrite lookup_take_ge by lia.
Qed.

Lemma written_kept h n data s s' a m :
  0 < xLength s -> written_at h n data s s' ->
  n <= (a - h) mod xLength s -> (a - h) mod xLength s + Z.of_nat m <= xLength s ->
  slice s' a m = slice s a m.
Proof.
  intros HL Hw Hn Hm. apply slice_ext. intros i Hi. rewrite (written_byte h n data s s') by done.
  cbv zeta. replace (a + i - h) with (a - h + i) by lia. rewrite <- Zplus_mod_idemp_l.
  rewrite (Z.mod_small (_ + i)) by (pose proof (Z.mod_pos_bound (a - h) _ HL); lia).
  by rewrite (proj2 (Z.ltb_ge _ _)) by lia.
Qed.

Lemma written_at_app h n d1 m d2 s s1 s2 :
  0 < xLength s -> n = Z.of_nat (length d1) -> 0 <= m -> n + m <= xLength s ->
  written_at h n d1 s s1 -> written_at ((h + n) mod xLength s) m d2 s1 s2 ->
  written_at h (n + m) (d1 ++ d2) s s2.
Proof.
  intros HL Hn Hm Hnm Hw1 Hw2.
  pose proof Hw2 as Hw2'.
  destruct Hw1 as (b1 & Hs1 & Hl1 & H1). destruct Hw2 as (b2 & Hs2 & Hl2 & H2).
  exists b2. split; [by rewrite Hs2, Hs1|]. split; [rewrite Hl2, Hs1; cbn; lia|].
  intros j Hj.
  assert (Hb2 : znth b2 ((h + j) mod xLength s) = byte_at s2 (h + j)) by (rewrite Hs2, Hs1; done).
  assert (HL1 : xLength s1 = xLength s) by (by rewrite Hs1).
  rewrite Hb2, (written_byte _ _ _ _ _ (h + j) (eq_ind_r (fun l => 0 < l) HL HL1) Hw2'). cbv zeta.
  rewrite HL1.
  replace ((h + j - (h + n) mod xLength s) mod xLength s) with ((j - n) mod xLength s)
    by (rewrite Zminus_mod_idemp_r; f_equal; lia).
  assert (Hkeep : byte_at s1 (h + j) = znth b1 ((h + j) mod xLength s)) by (rewrite Hs1; done).
  rewrite Hkeep, H1 by lia. destruct (Z.ltb_spec j n).
  - replace ((j - n) mod xLength s) with (j - n + xLength s) by (apply (Z.mod_unique _ _ (-1)); lia).
    rewrite (proj2 (Z.ltb_ge _ m)), (proj2 (Z.ltb_lt j (n + m))) by lia.
    unfold znth. by rewrite app_nth1 by lia.
  - rewrite (Z.mod_small (j - n)) by lia.
    destruct (Z.ltb_spec (j - n) m), (Z.ltb_spec j (n + m)); try lia.
    unfold znth. rewrite app_nth2 by lia. f_equal. lia.
Qed.

Lemma written_wf h n data s s' :
  wf_sb s -> 0 <= n <= Z.of_nat (length data) -> Forall (in_range 8) data ->
  written_at h n data s s' -> wf_sb s'.
Proof.
  intros Hwf Hn Hd (b & -> & Hl & Hb). pose proof Hwf as [HL Ht Hh Hlen Hbytes].
  split; cbn [xLength xTail xHead pucBuffer set_pucBuffer]; [done..|lia|].
  apply Forall_lookup. intros i x Hi. pose proof (lookup_lt_Some _ _ _ Hi) as Hlt.
  specialize (Hb ((Z.of_nat i - h) mod xLength s) ltac:(apply Z.mod_pos_bound; lia)).
  rewrite ring_offset, (Z.mod_small (Z.of_nat i)) in Hb by lia.
  unfold znth in Hb at 1. rewrite Nat2Z.id, (nth_lookup_Some _ _ _ _ Hi) in Hb. rewrite Hb.
  assert (Hin : forall l j, Forall (in_range 8) l -> in_range 8 (znth l j)).
  { intros l j Hl'. unfold znth. rewrite nth_lookup. destruct (l !! Z.to_nat j) eqn:E; cbn; [|by vm_compute].
    by eapply Forall_lookup_1. }
  destruct (_ <? n); by apply Hin.
Qed.

Lemma tail_offset s : wf_sb s -> used s <> 0 -> (xTail s - xHead s) mod xLength s = xLength s - used s.
Proof.
  intros Hwf Hu. pose proof (used_range s Hwf). symmetry. rewrite used_cases in * by done.
  destruct Hwf as [HL Ht Hh _ _].
  destruct (Z.leb_spec (xTail s) (xHead s)); [apply (Z.mod_unique _ _ (-1)); lia|].
  apply (Z.mod_unique _ _ 0); lia.
Qed.

(** What is written past the head is not visible. *)
Lemma unpublished_ok data n s s' :
  wf_sb s -> Forall (in_range 8) data -> 0 <= n <= Z.of_nat (length data) ->
  n <= xLength s - 1 - used s -> written_at (xHead s) n data s s' ->
  wf_sb s' /\ contents s' = contents s.
Proof.
  intros Hwf Hd Hn Hsp Hw. split; [by eapply written_wf|]. pose proof Hw as (b & Hs' & _).
  unfold contents. replace (used s') with (used s) by (by rewrite Hs').
  replace (xTail s') with (xTail s) by (by rewrite Hs').
  destruct (Z.eq_dec (used s) 0) as [He|He]; [by rewrite He|].
  pose proof (used_range s Hwf). pose proof (wf_length s Hwf).
  apply (written_kept (xHead s) n data); [lia|done|rewrite tail_offset by (done || lia); lia..].
Qed.

(** Publishing a new head makes the bytes up to it visible. *)
Lemma publish_ok n s :
  wf_sb s -> 0 <= n <= xLength s - 1 - used s ->
  let s' := set_xHead ((xHead s + n) mod xLength s) s in
  wf_sb s' /\ used s' = used s + n /\ contents s' = contents s ++ slice s (xHead s) (Z.to_nat n).
Proof.
  intros Hwf Hn. pose proof Hwf as [HL Ht Hh Hlen Hb]. pose proof (used_range s Hwf) as Hu. cbv zeta.
  assert (Hu' : used (set_xHead ((xHead s + n) mod xLength s) s) = used s + n).
  { unfold used. cbn [xLength xTail xHead set_xHead].
    rewrite Zminus_mod_idemp_l. replace (xHead s + n - xTail s) with (xHead s - xTail s + n) by lia.
    rewrite <- Zplus_mod_idemp_l. apply Z.mod_small. unfold used in *. lia. }
  split; [|split; [done|]].
  { split; cbn [xLength xTail xHead pucBuffer set_xHead]; try done. apply Z.mod_pos_bound. lia. }
  unfold contents. rewrite Hu', Z2Nat.inj_add by lia. cbn [xTail set_xHead].
  change (slice (set_xHead ((xHead s + n) mod xLength s) s)) with (slice s).
  rewrite slice_app. f_equal. rewrite Z2Nat.id by lia. rewrite <- (slice_mod s).
  replace ((xTail s + used s) mod xLength s) with (xHead s); [done|].
  unfold used. rewrite Zplus_mod_idemp_r. rewrite <- (Z.mod_small (xHead s) (xLength s)) at 1 by lia.
  f_equal. lia.
Qed.

(** Writing at the head and publishing appends. *)
Lemma append_ok data n s s' :
  wf_sb s -> Forall (in_range 8) data -> 0 <= n <= Z.of_nat (length data) ->
  n <= xLength s - 1 - used s -> written_at (xHead s) n data s s' ->
  let s'' := set_xHead ((xHead s + n) mod xLength s) s' in
  wf_sb s'' /\ contents s'' = contents s ++ take (Z.to_nat n) data.
Proof.
  intros Hwf Hd Hn Hsp Hw. pose proof Hw as (b & Hs' & _). pose proof (wf_length s Hwf).
  pose proof (used_range s Hwf).
  destruct (unpublished_ok data n s s') as [Hwf' Hc]; [done..|].
  assert (used s' = used s /\ xHead s' = xHead s /\ xLength s' = xLength s) as (Hu & Hh & HL) by (by rewrite Hs').
  destruct (publish_ok n s') as (Hwf'' & _ & Hc''); [done|rewrite HL, Hu; lia|]. cbv zeta.
  rewrite Hh, HL in *. split; [done|]. rewrite Hc'', Hc. f_equal. apply (written_slice _ _ _ s); [lia..|done].
Qed.

(** Moving the tail consumes. *)
Lemma consume_ok n s :
  wf_sb s -> 0 <= n <= used s ->
  let s' := set_xTail ((xTail s + n) mod xLength s) s in
  wf_sb s' /\ used s' = used s - n /\ contents s' = drop (Z.to_nat n) (contents s).
Proof.
  intros Hwf Hn. pose proof Hwf as [HL Ht Hh Hlen Hb]. pose proof (used_range s Hwf) as Hu. cbv zeta. split.
  { split; cbn [xLength xTail xHead pucBuffer set_xTail]; try done. apply Z.mod_pos_bound. lia. }
  assert (Hu' : used (set_xTail ((xTail s + n) mod xLength s) s) = used s - n).
  { unfold used. cbn [xLength xTail xHead set_xTail]. rewrite Zminus_mod_idemp_r.
    replace (xHead s - (xTail s + n)) with (xHead s - xTail s - n) by lia.
    rewrite <- Zminus_mod_idemp_l. apply Z.mod_small. unfold used in *. lia. }
  split; [done|]. unfold contents. rewrite Hu'. cbn [xTail set_xTail].
  change (slice (set_xTail ((xTail s + n) mod xLength s) s)) with (slice s). rewrite slice_mod.
  replace (Z.to_nat (used s)) with (Z.to_nat n + Z.to_nat (used s - n))%nat by lia.
  rewrite slice_app, drop_app_length' by (rewrite slice_length; done). f_equal. lia.
Qed.

(** [n] bytes of the contents, from the offset [o]. *)
Lemma contents_slice o n s : wf_sb s -> 0 <= o -> 0 <= n -> o + n <= used s ->
  slice s ((xTail s + o) mod xLength s) (Z.to_nat n) = take (Z.to_nat n) (drop (Z.to_nat o) (contents s)).
Proof.
  intros Hwf Ho Hn Hon. rewrite slice_mod. unfold contents.
  replace (Z.to_nat (used s)) with (Z.to_nat o + (Z.to_nat n + Z.to_nat (used s - o - n)))%nat by lia.
  rewrite !slice_app, drop_app_length', take_app_length' by (by rewrite slice_length).
  f_equal. lia.
Qed.

(** ** What a buffer holds

    A stream buffer holds bytes and a message buffer messages: how they are
    laid out, what fits, and what a read takes. *)

Class Discipline (A : Type) : Type := {
  d_message : bool;
  d_enc : A -> list Z;
  d_ok : A -> Prop;
  d_empty : A;
  d_put : Z -> list Z -> A -> Z * A;
  d_take : Z -> A -> list Z * A;
  d_next : A -> Z;
}.

(** A queue of bytes. *)
#[export] Instance stream_discipline : Discipline (list Z) := {|
  d_message := false;
  d_enc q := q;
  d_ok q := True;
  d_empty := [];
  d_put free data q := let n := Z.min (Z.of_nat (length data)) free in (n, q ++ take (Z.to_nat n) data);
  d_take room q := (take (Z.to_nat room) q, drop (Z.to_nat room) q);
  d_next q := 0;
|}.

(** A queue of messages, each behind its length. *)
Definition frame (m : list Z) : list Z := stn_he_p 4 (Z.of_nat (length m)) ++ m.

Definition message_ok (m : list Z) : Prop := 0 < Z.of_nat (length m) < 2 ^ 32.

#[export] Instance message_discipline : Discipline (list (list Z)) := {|
  d_message := true;
  d_enc ms := concat (frame <$> ms);
  d_ok ms := Forall message_ok ms;
  d_empty := [];
  d_put free data ms :=
    if (0 <? Z.of_nat (length data)) && (Z.of_nat (length data) + 4 <=? free)
    then (Z.of_nat (length data), ms ++ [data]) else (0, ms);
  d_take room ms :=
    match ms with
    | m :: rest => if Z.of_nat (length m) <=? room then (m, rest) else ([], ms)
    | [] => ([], [])
    end;
  d_next ms := match ms with m :: _ => Z.of_nat (length m) | [] => 0 end;
|}.

(** The buffer [s] holds [a]. *)
Record holds {A} `{Discipline A} (s : StreamBuffer_t) (a : A) : Prop := {
  holds_wf : wf_sb s;
  holds_flag : is_message_buffer s = d_message;
  holds_enc : contents s = d_enc a;
  holds_ok : d_ok a;
}.

(** [s'] differs from [s] in the data and the positions only. *)
Definition same_control (s s' : StreamBuffer_t) : Prop :=
  xLength s' = xLength s /\ xTriggerLevelBytes s' = xTriggerLevelBytes s /\
  xTaskWaitingToReceive s' = xTaskWaitingToReceive s /\
  xTaskWaitingToSend s' = xTaskWaitingToSend s /\ ucFlags s' = ucFlags s /\
  uxStreamBufferNumber s' = uxStreamBufferNumber s.

(** Data that a task can pass. *)
Definition data_ok (data : list Z) : Prop :=
  Forall (in_range 8) data /\ Z.of_nat (length data) + 4 < 2 ^ 32.

(** The copy functions implement the discipline. *)
Class DisciplineLaws (A : Type) `{Discipline A} : Prop := {
  empty_law : d_enc (d_empty : A) = [] /\ d_ok (d_empty : A);
  put_law : forall s (a : A) data space req,
    holds s a -> data_ok data -> 0 <= space <= xLength s - 1 - used s ->
    (d_message = true -> req = Z.of_nat (length data) + 4) ->
    exists s', prvWriteMessageToBuffer data (Z.of_nat (length data)) space req s =
        Ok (fst (d_put space data a), s') /\
      same_control s s' /\ holds s' (snd (d_put space data a));
  take_law : forall s (a : A) rx,
    holds s a -> Z.of_nat (length rx) < 2 ^ 32 ->
    let '(bs, a') := d_take (Z.of_nat (length rx)) a in
    if used s >? bytes_to_store_message_length s then
      exists s', prvReadMessageFromBuffer rx (Z.of_nat (length rx)) (used s) s =
          Ok (Z.of_nat (length bs), bs ++ drop (length bs) rx, s') /\
        same_control s s' /\ holds s' a'
    else bs = [] /\ a' = a;
  next_law : forall s (a : A),
    holds s a -> xStreamBufferNextMessageLengthBytes s = Ok (d_next a);
}.

Lemma firstn_min {A} n (l : list A) : take (n `min` length l) l = take n l.
Proof.
  destruct (decide (n <= length l)%nat); [by rewrite Nat.min_l by lia|].
  by rewrite !take_ge by lia.
Qed.

Lemma configMIN_min a b : configMIN a b = Z.min a b.
Proof. unfold configMIN. destruct (Z.ltb_spec a b); lia. Qed.

Lemma same_control_refl s : same_control s s.
Proof. done. Qed.

Lemma same_control_flag s s' : same_control s s' -> is_message_buffer s' = is_message_buffer s.
Proof. intros (_ & _ & _ & _ & Hf & _). unfold is_message_buffer. by rewrite Hf. Qed.

Lemma written_control h n data s s' x : written_at h n data s s' -> same_control s (set_xHead x s').
Proof. by intros (b & -> & _). Qed.

Lemma stream_put s (q data : list Z) space req :
  holds s q -> data_ok data -> 0 <= space <= xLength s - 1 - used s ->
  exists s', prvWriteMessageToBuffer data (Z.of_nat (length data)) space req s =
      Ok (fst (d_put space data q), s') /\
    same_control s s' /\ holds s' (snd (d_put space data q)).
Proof.
  intros [Hwf Hflag Henc _] [Hd Hlen] Hspace. cbn [d_message d_enc d_put stream_discipline fst snd] in *.
  pose proof (used_range s Hwf) as Hu. pose proof (wf_head s Hwf). unfold prvWriteMessageToBuffer.
  rewrite Hflag, res_bind_Ok, configMIN_min. set (n := Z.min _ _).
  destruct (Z.eqb_spec n 0) as [Hn|Hn]; cbn [negb].
  - exists s. rewrite Hn. split; [done|]. split; [done|]. split; try done.
    cbn [Z.to_nat take d_enc stream_discipline]. by rewrite app_nil_r.
  - destruct (write_bytes_ok data n (xHead s) s) as (s1 & Hs1 & Hw); [done|unfold n in *; lia..|].
    rewrite Hs1, res_bind_Ok. eexists. split; [done|].
    destruct (append_ok data n s s1) as [Hwf' Hc]; [done..|unfold n in *; lia|unfold n; lia|done|].
    pose proof (written_control _ _ _ _ _ ((xHead s + n) mod xLength s) Hw) as Hsc.
    split; [done|]. split; [done|by rewrite (same_control_flag _ _ Hsc)| |done].
    rewrite Hc. cbn [d_enc stream_discipline]. by rewrite Henc.
Qed.

Lemma stream_take s (q rx : list Z) :
  holds s q -> Z.of_nat (length rx) < 2 ^ 32 ->
  let '(bs, q') := d_take (Z.of_nat (length rx)) q in
  if used s >? bytes_to_store_message_length s then
    exists s', prvReadMessageFromBuffer rx (Z.of_nat (length rx)) (used s) s =
        Ok (Z.of_nat (length bs), bs ++ drop (length bs) rx, s') /\
      same_control s s' /\ holds s' q'
  else bs = [] /\ q' = q.
Proof.
  intros [Hwf Hflag Henc _] Hrx. cbn [d_message d_enc d_take stream_discipline] in *.
  pose proof (used_range s Hwf) as Hu. pose proof (contents_length s Hwf) as Hcl. rewrite Henc in Hcl.
  pose proof (wf_tail s Hwf). unfold bytes_to_store_message_length. rewrite Hflag.
  destruct (Z.gtb_spec (used s) 0) as [Hpos|Hz].
  - unfold prvReadMessageFromBuffer. rewrite Hflag, res_bind_Ok, configMIN_min. rewrite length_take.
    replace (Z.of_nat (Z.to_nat (Z.of_nat (length rx)) `min` length q)) with (Z.min (Z.of_nat (length rx)) (used s)) by lia.
    set (n := Z.min _ _). destruct (Z.eqb_spec n 0) as [Hn|Hn]; cbn [negb].
    + exists s. assert (length rx = 0%nat) as Hr by (unfold n in *; lia).
      apply nil_length_inv in Hr as ->. rewrite Hn. done.
    + rewrite read_bytes_ok by (done || unfold n in *; lia). rewrite res_bind_Ok.
      destruct (consume_ok n s) as (Hwf' & _ & Hc); [done|unfold n; lia|].
      assert (Hnn : Z.to_nat n = (Z.to_nat (Z.of_nat (length rx)) `min` length q)%nat) by (unfold n; lia).
      eexists. split; [|split; [|split; [exact Hwf'|done| |done]]]; [|done|].
      *  rewrite <- (Z.add_0_r (xTail s)) at 1. rewrite <- slice_mod, contents_slice by (done || unfold n; lia).
         rewrite Henc. change (drop (Z.to_nat 0) q) with q. by rewrite Hnn, firstn_min.
      *  rewrite Hc, Henc, Hnn. cbn [d_enc stream_discipline].
         destruct (decide (Z.to_nat (Z.of_nat (length rx)) <= length q)%nat).
         -- by rewrite Nat.min_l by lia.
         -- by rewrite !drop_ge by lia.
  - assert (length q = 0%nat) as Hq by lia. apply nil_length_inv in Hq as ->.
    by rewrite take_nil, drop_nil.
Qed.

#[export] Instance stream_laws : DisciplineLaws (list Z).
Proof.
  split; [done|..].
  - intros. by apply stream_put.
  - intros. by apply stream_take.
  - intros s q [_ Hflag _ _]. unfold xStreamBufferNextMessageLengthBytes. by rewrite Hflag.
Qed.

(** *** Messages *)

Lemma frame_length m : length (frame m) = (4 + length m)%nat.
Proof. unfold frame. rewrite length_app. by rewrite (proj1 (stn_he_p_bytes 4 _)). Qed.

Lemma frame_bytes m : Forall (in_range 8) m -> Forall (in_range 8) (frame m).
Proof.
  intros Hm. apply Forall_app. split; [|done]. apply Forall_forall. apply stn_he_p_bytes.
Qed.

(** Writing the length and then the data writes the frame. *)
Lemma write_frame data s :
  wf_sb s -> data_ok data -> 0 < Z.of_nat (length data) ->
  Z.of_nat (length data) + 4 <= xLength s - 1 - used s ->
  exists s1 s2, prvWriteBytesToBuffer (stn_he_p 4 (Z.of_nat (length data))) 4 (xHead s) s =
      Ok (s1, (xHead s + 4) mod xLength s) /\
    prvWriteBytesToBuffer data (Z.of_nat (length data)) ((xHead s + 4) mod xLength s) s1 =
      Ok (s2, (xHead s + (4 + Z.of_nat (length data))) mod xLength s) /\
    written_at (xHead s) (4 + Z.of_nat (length data)) (frame data) s s2.
Proof.
  intros Hwf [Hd Hlen] Hpos Hsp. pose proof (used_range s Hwf) as Hu. pose proof (wf_head s Hwf).
  destruct (stn_he_p_bytes 4 (Z.of_nat (length data))) as [Hl4 Hb4].
  destruct (write_bytes_ok (stn_he_p 4 (Z.of_nat (length data))) 4 (xHead s) s)
    as (s1 & Hs1 & Hw1); [done|lia..|].
  assert (Hwf1 : wf_sb s1).
  { eapply written_wf; [done| |by apply Forall_forall|exact Hw1]. lia. }
  pose proof (written_length _ _ _ _ _ Hw1) as HL1.
  destruct (write_bytes_ok data (Z.of_nat (length data)) ((xHead s + 4) mod xLength s) s1)
    as (s2 & Hs2 & Hw2); [done|rewrite HL1; apply Z.mod_pos_bound; lia|lia..|].
  exists s1, s2. split; [done|]. split.
  - rewrite Hs2, HL1. do 2 f_equal. rewrite Zplus_mod_idemp_l. f_equal. lia.
  - apply (written_at_app _ _ _ _ _ s s1); [lia..|done|done].
Qed.

Lemma message_put s (ms : list (list Z)) data space req :
  holds s ms -> data_ok data -> 0 <= space <= xLength s - 1 - used s -> req = Z.of_nat (length data) + 4 ->
  exists s', prvWriteMessageToBuffer data (Z.of_nat (length data)) space req s =
      Ok (fst (d_put space data ms), s') /\
    same_control s s' /\ holds s' (snd (d_put space data ms)).
Proof.
  intros [Hwf Hflag Henc Hok] [Hd Hlen] Hspace ->. cbn [d_message d_enc d_ok d_put message_discipline] in *.
  pose proof (used_range s Hwf) as Hu. pose proof (wf_head s Hwf). unfold prvWriteMessageToBuffer.
  rewrite Hflag, (wrapu_small 32) by lia. rewrite Z.eqb_refl. cbn [c_assert]. rewrite res_bind_Ok.
  unfold sbBYTES_TO_STORE_MESSAGE_LENGTH. rewrite Z.geb_leb.
  destruct (Z.leb_spec (Z.of_nat (length data) + 4) space) as [Hfit|Hfit];
    [|rewrite res_bind_Ok, andb_false_r; by exists s].
  destruct (Z.ltb_spec 0 (Z.of_nat (length data))) as [Hpos|Hz]; cbn [andb fst snd].
  - destruct (write_frame data s) as (s1 & s2 & H1 & H2 & Hw); [done..|lia|].
    rewrite H1, !res_bind_Ok. rewrite (proj2 (Z.eqb_neq _ 0)) by lia. cbn [negb]. rewrite H2, res_bind_Ok.
    eexists. split; [done|].
    destruct (append_ok (frame data) (4 + Z.of_nat (length data)) s s2) as [Hwf' Hc];
      [done|by apply frame_bytes|rewrite frame_length; lia|lia|done|].
    split; [by eapply written_control|]. split; [done|..].
    + rewrite (same_control_flag s); [done|by eapply written_control].
    + rewrite Hc, Henc. cbn [d_enc message_discipline]. rewrite fmap_app, concat_app. f_equal. cbn [fmap list_fmap concat].
      rewrite app_nil_r, take_ge; [done|]. rewrite frame_length. lia.
    + apply Forall_app. split; [done|]. apply Forall_singleton. unfold message_ok. lia.
  - destruct (stn_he_p_bytes 4 (Z.of_nat (length data))) as [Hl4 Hb4].
    destruct (write_bytes_ok (stn_he_p 4 (Z.of_nat (length data))) 4 (xHead s) s)
      as (s1 & Hs1 & Hw1); [done|lia..|].
    rewrite Hs1, !res_bind_Ok. replace (Z.of_nat (length data)) with 0 by lia. cbn [Z.eqb negb].
    exists s1. split; [done|]. pose proof Hw1 as (b & Hb & _). split; [by rewrite Hb|].
    destruct (unpublished_ok _ 4 s s1 Hwf (proj2 (Forall_forall _ _) Hb4)) as [Hwf1 Hc1]; [lia..|done|].
    split; [done|by rewrite Hb|by rewrite Hc1|done].
Qed.

(** The length in front of the first message. *)
Lemma read_length s m ms :
  holds s (m :: ms) ->
  prvReadBytesFromBuffer (replicate 4 0) 4 (xTail s) s =
    Ok (stn_he_p 4 (Z.of_nat (length m)), (xTail s + 4) mod xLength s) /\
  used s = 4 + Z.of_nat (length m) + Z.of_nat (length (concat (frame <$> ms))).
Proof.
  intros [Hwf Hflag Henc Hok]. cbn [d_message d_enc d_ok message_discipline] in *.
  pose proof (used_range s Hwf) as Hu. pose proof (wf_tail s Hwf).
  assert (Hused : used s = 4 + Z.of_nat (length m) + Z.of_nat (length (concat (frame <$> ms)))).
  { rewrite <- contents_length by done. rewrite Henc. cbn [fmap list_fmap concat]. rewrite length_app, frame_length. lia. }
  split; [|done]. rewrite read_bytes_ok by (done || lia || (rewrite length_replicate; lia)).
  do 2 f_equal. rewrite <- (Z.add_0_r (xTail s)) at 1. rewrite <- slice_mod, contents_slice by (done || lia).
  rewrite Henc. cbn [fmap list_fmap concat]. unfold frame at 1. rewrite <- app_assoc.
  change (Z.to_nat 0) with 0%nat. rewrite drop_0, take_app_length'; [by rewrite app_nil_r|].
  by rewrite (proj1 (stn_he_p_bytes 4 (Z.of_nat (length m)))).
Qed.

Lemma message_take s (ms : list (list Z)) rx :
  holds s ms -> Z.of_nat (length rx) < 2 ^ 32 ->
  let '(bs, ms') := d_take (Z.of_nat (length rx)) ms in
  if used s >? bytes_to_store_message_length s then
    exists s', prvReadMessageFromBuffer rx (Z.of_nat (length rx)) (used s) s =
        Ok (Z.of_nat (length bs), bs ++ drop (length bs) rx, s') /\
      same_control s s' /\ holds s' ms'
  else bs = [] /\ ms' = ms.
Proof.
  intros Hh Hrx. pose proof Hh as [Hwf Hflag Henc Hok].
  cbn [d_message d_enc d_ok d_take message_discipline] in *.
  pose proof (used_range s Hwf) as Hu. pose proof (wf_tail s Hwf). pose proof (wf_length s Hwf).
  unfold bytes_to_store_message_length. rewrite Hflag. unfold sbBYTES_TO_STORE_MESSAGE_LENGTH.
  destruct ms as [|m ms].
  { pose proof (contents_length s Hwf) as Hcl. rewrite Henc in Hcl. cbn in Hcl.
    rewrite <- Hcl. done. }
  apply Forall_cons in Hok as [Hm Hok]. unfold message_ok in Hm.
  destruct (read_length s m ms Hh) as [Hrd Hused].
  set (r := concat (frame <$> ms)) in *.
  rewrite (proj2 (Z.gtb_lt _ _)) by lia.
  unfold prvReadMessageFromBuffer, sbBYTES_TO_STORE_MESSAGE_LENGTH. rewrite Hflag, Hrd, !res_bind_Ok.
  rewrite ldn_stn by (unfold in_range; cbn; lia). rewrite (wrapu_small 32 (used s - 4)) by lia.
  rewrite configMIN_min, Z.gtb_ltb, Z.ltb_antisym.
  destruct (Z.leb_spec (Z.of_nat (length m)) (Z.of_nat (length rx))) as [Hroom|Hroom]; cbn [negb].
  - rewrite Z.min_l by lia. rewrite (proj2 (Z.eqb_neq _ 0)) by lia. cbn [negb].
    rewrite read_bytes_ok by (done || lia || (apply Z.mod_pos_bound; lia)). rewrite res_bind_Ok.
    rewrite contents_slice by (done || lia). rewrite Nat2Z.id, Zplus_mod_idemp_l, <- Z.add_assoc.
    destruct (consume_ok (4 + Z.of_nat (length m)) s) as (Hwf' & _ & Hc); [done|lia|].
    assert (Hdrop : contents s = frame m ++ r) by done.
    eexists. split; [|split; [|split; [exact Hwf'|done| |done]]]; [|done|].
    + do 3 f_equal. rewrite Hdrop. f_equal. unfold frame. rewrite <- app_assoc.
      rewrite drop_app_length' by (by rewrite (proj1 (stn_he_p_bytes 4 (Z.of_nat (length m))))).
      by apply take_app_length'.
    + rewrite Hc, Hdrop. apply drop_app_length'. rewrite frame_length. lia.
  - rewrite Z.min_l by lia. cbn [Z.eqb negb]. exists s. split; [done|]. split; [done|].
    split; [done..|]. by apply Forall_cons.
Qed.

#[export] Instance message_laws : DisciplineLaws (list (list Z)).
Proof.
  split; [by split; [|constructor]|..].
  - intros s ms data space req Hh Hd Hsp Hreq. apply message_put; [done..|by apply Hreq].
  - intros. by apply message_take.
  - intros s ms Hh. pose proof Hh as [Hwf Hflag Henc Hok].
    unfold xStreamBufferNextMessageLengthBytes. rewrite Hflag, bytes_in_buffer by done.
    unfold sbBYTES_TO_STORE_MESSAGE_LENGTH. destruct ms as [|m ms].
    + pose proof (contents_length s Hwf) as Hcl. rewrite Henc in Hcl. cbn in Hcl. by rewrite <- Hcl.
    + destruct (read_length s m ms Hh) as [Hrd Hused]. cbn in Hok.
      apply Forall_cons in Hok as [Hm _]. unfold message_ok in Hm. rewrite (proj2 (Z.gtb_lt _ _)) by lia.
      rewrite Hrd, res_bind_Ok. by rewrite ldn_stn by (unfold in_range; cbn; lia).
Qed.
