(* ===== verification/FreeRTOSStreamProps.v ===== *)
(** * Properties of stream buffers and message buffers

    The calls that do not wait refine a queue, in any order and for both
    disciplines; a sending task that waits sends what it should; and one
    writer and one reader that run concurrently, without a critical section,
    pass every byte once and in order. *)

From S2P Require Import Prelude Access AccessTheory FreeRTOSHeap FreeRTOSStreamBuffer FreeRTOSStreamTheory.

(** ** The abstract buffer *)

Record spec (A : Type) : Type := mkSpec {
  sp_items : A;
  sp_length : Z;
  sp_trigger : Z;
  sp_receiver : option nat;
  sp_sender : option nat;
}.
Arguments mkSpec {A}.
Arguments sp_items {A}.
Arguments sp_length {A}.
Arguments sp_trigger {A}.
Arguments sp_receiver {A}.
Arguments sp_sender {A}.

(** The calls, with the arguments that matter; [rx] is the caller's array. *)
Inductive sb_call : Type :=
  | SendFromISR (data : list Z) (woken : bool)
  | ReceiveFromISR (rx : list Z) (woken : bool)
  | SendNow (data : list Z)
  | ReceiveNow (rx : list Z)
  | SendCompletedFromISR (woken : bool)
  | ReceiveCompletedFromISR (woken : bool)
  | SetTriggerLevel (level : Z)
  | Reset
  | BytesAvailable
  | SpacesAvailable
  | IsEmpty
  | IsFull
  | NextMessageLengthBytes.

Definition call_ok (c : sb_call) : Prop :=
  match c with
  | SendFromISR data _ | SendNow data => data_ok data
  | ReceiveFromISR rx _ | ReceiveNow rx => Z.of_nat (length rx) < 2 ^ 32
  | _ => True
  end.

(** The value returned, the caller's array and [*pxHigherPriorityTaskWoken]. *)
Inductive answer : Type :=
  | Answer (value : Z) (rx : list Z) (woken : bool)
  | StillBlocked.

Section Calls.
Context {K : Type} {Notify : TaskNotify K}.

Definition sb_run_call (c : sb_call) (s : StreamBuffer_t) (k : K) : res (answer * StreamBuffer_t * K) :=
  match c with
  | SendFromISR data woken =>
      '(n, woken, s, k) ← xStreamBufferSendFromISR data (Z.of_nat (length data)) woken s k;
      Ok (Answer n [] woken, s, k)
  | ReceiveFromISR rx woken =>
      '(n, rx, woken, s, k) ← xStreamBufferReceiveFromISR rx (Z.of_nat (length rx)) woken s k;
      Ok (Answer n rx woken, s, k)
  | SendNow data =>
      o ← xStreamBufferSend data (Z.of_nat (length data)) 0 [] s k;
      Ok (match o with Returns n s k => (Answer n [] false, s, k) | Blocks s k => (StillBlocked, s, k) end)
  | ReceiveNow rx =>
      o ← xStreamBufferReceive rx (Z.of_nat (length rx)) 0 [] s k;
      Ok (match o with
          | Returns (n, rx) s k => (Answer n rx false, s, k)
          | Blocks s k => (StillBlocked, s, k)
          end)
  | SendCompletedFromISR woken =>
      let '(b, woken, s, k) := xStreamBufferSendCompletedFromISR woken s k in
      Ok (Answer (Z.b2z b) [] woken, s, k)
  | ReceiveCompletedFromISR woken =>
      let '(b, woken, s, k) := xStreamBufferReceiveCompletedFromISR woken s k in
      Ok (Answer (Z.b2z b) [] woken, s, k)
  | SetTriggerLevel level =>
      let '(b, s) := xStreamBufferSetTriggerLevel level s in Ok (Answer (Z.b2z b) [] false, s, k)
  | Reset => let '(b, s) := xStreamBufferReset s in Ok (Answer (Z.b2z b) [] false, s, k)
  | BytesAvailable => Ok (Answer (xStreamBufferBytesAvailable s) [] false, s, k)
  | SpacesAvailable => Ok (Answer (xStreamBufferSpacesAvailable s) [] false, s, k)
  | IsEmpty => Ok (Answer (Z.b2z (xStreamBufferIsEmpty s)) [] false, s, k)
  | IsFull => Ok (Answer (Z.b2z (xStreamBufferIsFull s)) [] false, s, k)
  | NextMessageLengthBytes =>
      n ← xStreamBufferNextMessageLengthBytes s; Ok (Answer n [] false, s, k)
  end.

Context {A : Type} {Disc : Discipline A} {Laws : DisciplineLaws A}.

Definition set_items (x : A) (a : spec A) : spec A :=
  mkSpec x (sp_length a) (sp_trigger a) (sp_receiver a) (sp_sender a).
Definition set_trigger (x : Z) (a : spec A) : spec A :=
  mkSpec (sp_items a) (sp_length a) x (sp_receiver a) (sp_sender a).

Definition sp_used (a : spec A) : Z := Z.of_nat (length (d_enc (sp_items a))).
Definition sp_free (a : spec A) : Z := sp_length a - 1 - sp_used a.

(** Waking the task that waits: [isr] is [None] in a task, and the value of
    [*pxHigherPriorityTaskWoken] in an interrupt. *)
Definition notify (isr : option bool) (t : nat) (k : K) : bool * K :=
  match isr with
  | Some woken => xTaskNotifyFromISR t woken k
  | None => (false, xTaskNotify t k)
  end.

Definition woken_before (isr : option bool) : bool := default false isr.

Definition wake_receiver (isr : option bool) (a : spec A) (k : K) : bool * bool * spec A * K :=
  match sp_receiver a with
  | Some t => let '(w, k) := notify isr t k in
              (true, w, mkSpec (sp_items a) (sp_length a) (sp_trigger a) None (sp_sender a), k)
  | None => (false, woken_before isr, a, k)
  end.

Definition wake_sender (isr : option bool) (a : spec A) (k : K) : bool * bool * spec A * K :=
  match sp_sender a with
  | Some t => let '(w, k) := notify isr t k in
              (true, w, mkSpec (sp_items a) (sp_length a) (sp_trigger a) (sp_receiver a) None, k)
  | None => (false, woken_before isr, a, k)
  end.

(** Append what fits; wake the receiver when that reaches the trigger level. *)
Definition spec_send (isr : option bool) (data : list Z) (a : spec A) (k : K) : answer * spec A * K :=
  let '(n, items) := d_put (sp_free a) data (sp_items a) in
  let a := set_items items a in
  if (n >? 0) && (sp_used a >=? sp_trigger a) then
    let '(_, w, a, k) := wake_receiver isr a k in (Answer n [] w, a, k)
  else (Answer n [] (woken_before isr), a, k).

(** Take what there is room for; wake the sender when that is something. *)
Definition spec_receive (isr : option bool) (rx : list Z) (a : spec A) (k : K) : answer * spec A * K :=
  let '(bs, items) := d_take (Z.of_nat (length rx)) (sp_items a) in
  let rx := bs ++ drop (length bs) rx in
  let a := set_items items a in
  match bs with
  | [] => (Answer 0 rx (woken_before isr), a, k)
  | _ => let '(_, w, a, k) := wake_sender isr a k in (Answer (Z.of_nat (length bs)) rx w, a, k)
  end.

Definition spec_call (c : sb_call) (a : spec A) (k : K) : answer * spec A * K :=
  match c with
  | SendFromISR data woken => spec_send (Some woken) data a k
  | ReceiveFromISR rx woken => spec_receive (Some woken) rx a k
  | SendNow data => spec_send None data a k
  | ReceiveNow rx => spec_receive None rx a k
  | SendCompletedFromISR woken =>
      let '(b, w, a, k) := wake_receiver (Some woken) a k in (Answer (Z.b2z b) [] w, a, k)
  | ReceiveCompletedFromISR woken =>
      let '(b, w, a, k) := wake_sender (Some woken) a k in (Answer (Z.b2z b) [] w, a, k)
  | SetTriggerLevel level =>
      let level := if level =? 0 then 1 else level in
      if level <? sp_length a then (Answer 1 [] false, set_trigger level a, k)
      else (Answer 0 [] false, a, k)
  | Reset =>
      match sp_receiver a, sp_sender a with
      | None, None => (Answer 1 [] false, set_items d_empty a, k)
      | _, _ => (Answer 0 [] false, a, k)
      end
  | BytesAvailable => (Answer (sp_used a) [] false, a, k)
  | SpacesAvailable => (Answer (sp_free a) [] false, a, k)
  | IsEmpty => (Answer (Z.b2z (sp_used a =? 0)) [] false, a, k)
  | IsFull => (Answer (Z.b2z (sp_free a <=? if d_message then 4 else 0)) [] false, a, k)
  | NextMessageLengthBytes => (Answer (d_next (sp_items a)) [] false, a, k)
  end.

(** The buffer [s] represents the abstract one. *)
Record represents (s : StreamBuffer_t) (a : spec A) : Prop := {
  rep_holds : holds s (sp_items a);
  rep_length : xLength s = sp_length a;
  rep_trigger : xTriggerLevelBytes s = sp_trigger a;
  rep_receiver : xTaskWaitingToReceive s = sp_receiver a;
  rep_sender : xTaskWaitingToSend s = sp_sender a;
}.

Lemma rep_used s a : represents s a -> used s = sp_used a.
Proof.
  intros [[Hwf _ Henc _] _ _ _ _]. unfold sp_used. by rewrite <- Henc, contents_length.
Qed.

Lemma rep_free s a : represents s a -> xLength s - 1 - used s = sp_free a.
Proof. intros Hr. unfold sp_free. by rewrite (rep_used s a), (rep_length s a). Qed.

Lemma rep_control s s' a x : represents s a -> same_control s s' -> holds s' x -> represents s' (set_items x a).
Proof.
  intros [_ HL Ht Hr Hs] (H1 & H2 & H3 & H4 & _) Hx.
  split; cbn [sp_items sp_length sp_trigger sp_receiver sp_sender set_items]; congruence.
Qed.

Lemma holds_fields s s' (x : A) :
  xTail s' = xTail s -> xHead s' = xHead s -> xLength s' = xLength s ->
  pucBuffer s' = pucBuffer s -> ucFlags s' = ucFlags s -> holds s x -> holds s' x.
Proof.
  destruct s, s'. cbn. intros -> -> -> -> -> [[] Hf He Ho]. split; [by split|done..].
Qed.

(** The completion macros. *)
Lemma send_complete_isr w s a k : represents s a ->
  let '(_, w', a', k') := wake_receiver (Some w) a k in
  exists s', sbSEND_COMPLETE_FROM_ISR w s k = (w', s', k') /\ represents s' a'.
Proof.
  intros Hr. pose proof Hr as [Hh HL Ht Hrc Hsn]. unfold wake_receiver, sbSEND_COMPLETE_FROM_ISR. rewrite Hrc.
  destruct (sp_receiver a) as [t|]; [|by eauto]. cbn [notify].
  destruct (xTaskNotifyFromISR t w k) as [w' k']. eexists. split; [done|].
  split; [by eapply holds_fields; [..|exact Hh]|done..].
Qed.

Lemma receive_completed_isr w s a k : represents s a ->
  let '(_, w', a', k') := wake_sender (Some w) a k in
  exists s', sbRECEIVE_COMPLETED_FROM_ISR w s k = (w', s', k') /\ represents s' a'.
Proof.
  intros Hr. pose proof Hr as [Hh HL Ht Hrc Hsn]. unfold wake_sender, sbRECEIVE_COMPLETED_FROM_ISR. rewrite Hsn.
  destruct (sp_sender a) as [t|]; [|by eauto]. cbn [notify].
  destruct (xTaskNotifyFromISR t w k) as [w' k']. eexists. split; [done|].
  split; [by eapply holds_fields; [..|exact Hh]|done..].
Qed.

Lemma send_completed s a k : represents s a ->
  let '(_, w', a', k') := wake_receiver None a k in
  w' = false /\ exists s', sbSEND_COMPLETED s k = (s', k') /\ represents s' a'.
Proof.
  intros Hr. pose proof Hr as [Hh HL Ht Hrc Hsn]. unfold wake_receiver, sbSEND_COMPLETED. rewrite Hrc.
  destruct (sp_receiver a) as [t|]; [|by eauto]. cbn [notify]. split; [done|]. eexists. split; [done|].
  split; [by eapply holds_fields; [..|exact Hh]|done..].
Qed.

Lemma receive_completed s a k : represents s a ->
  let '(_, w', a', k') := wake_sender None a k in
  w' = false /\ exists s', sbRECEIVE_COMPLETED s k = (s', k') /\ represents s' a'.
Proof.
  intros Hr. pose proof Hr as [Hh HL Ht Hrc Hsn]. unfold wake_sender, sbRECEIVE_COMPLETED. rewrite Hsn.
  destruct (sp_sender a) as [t|]; [|by eauto]. cbn [notify]. split; [done|]. eexists. split; [done|].
  split; [by eapply holds_fields; [..|exact Hh]|done..].
Qed.

(** The data part of a send and of a receive. *)
Lemma send_data s a data space req :
  represents s a -> data_ok data -> 0 <= space <= sp_free a ->
  (d_message = true -> req = Z.of_nat (length data) + 4) ->
  let '(n, items) := d_put space data (sp_items a) in
  exists s', prvWriteMessageToBuffer data (Z.of_nat (length data)) space req s = Ok (n, s') /\
    represents s' (set_items items a) /\
    (prvBytesInBuffer s' >=? xTriggerLevelBytes s') =
      (sp_used (set_items items a) >=? sp_trigger (set_items items a)).
Proof.
  intros Hr Hd Hsp Hreq. pose proof (rep_holds s a Hr) as Hh. rewrite <- (rep_free s a) in Hsp by done.
  destruct (put_law s (sp_items a) data space req) as (s' & Hs' & Hc & Hh'); [done..|].
  destruct (d_put space data (sp_items a)) as [n items]. cbn [fst snd] in *.
  exists s'. split; [done|]. pose proof (rep_control s s' a items Hr Hc Hh') as Hr'. split; [done|].
  by rewrite bytes_in_buffer, (rep_used s' _ Hr'), (rep_trigger s' _ Hr') by apply Hh'.
Qed.

Lemma rep_spaces s a : represents s a -> xStreamBufferSpacesAvailable s = sp_free a /\ 0 <= sp_free a.
Proof.
  intros Hr. pose proof (holds_wf _ _ (rep_holds s a Hr)) as Hwf. rewrite <- (rep_free s a) by done.
  split; [by apply spaces_available|]. pose proof (used_range s Hwf). lia.
Qed.

Lemma receive_data s a rx :
  represents s a -> Z.of_nat (length rx) < 2 ^ 32 ->
  let '(bs, items) := d_take (Z.of_nat (length rx)) (sp_items a) in
  if prvBytesInBuffer s >? bytes_to_store_message_length s then
    exists s', prvReadMessageFromBuffer rx (Z.of_nat (length rx)) (prvBytesInBuffer s) s =
        Ok (Z.of_nat (length bs), bs ++ drop (length bs) rx, s') /\ represents s' (set_items items a)
  else bs = [] /\ set_items items a = a.
Proof.
  intros Hr Hrx. pose proof (rep_holds s a Hr) as Hh.
  rewrite bytes_in_buffer by apply Hh. pose proof (take_law s (sp_items a) rx Hh Hrx) as Ht.
  destruct (d_take (Z.of_nat (length rx)) (sp_items a)) as [bs items].
  destruct (used s >? bytes_to_store_message_length s).
  - destruct Ht as (s' & Hs' & Hc & Hh'). exists s'. split; [done|]. by apply (rep_control s).
  - destruct Ht as [-> ->]. split; [done|]. by destruct a.
Qed.

(** *** Each call *)

Ltac answered := eexists; split; [reflexivity|].

Definition refines_call (c : sb_call) (s : StreamBuffer_t) (a : spec A) (k : K) : Prop :=
  let '(ans, a', k') := spec_call c a k in
  exists s', sb_run_call c s k = Ok (ans, s', k') /\ represents s' a'.

Lemma message_flag s a : represents s a -> is_message_buffer s = d_message.
Proof. intros Hr. by destruct (rep_holds s a Hr). Qed.

Lemma send_isr_refines data w s a k :
  represents s a -> data_ok data -> refines_call (SendFromISR data w) s a k.
Proof.
  intros Hr Hd. unfold refines_call. cbn [spec_call sb_run_call]. unfold spec_send, xStreamBufferSendFromISR.
  rewrite (message_flag s a Hr). pose proof Hd as [Hb Hlen].
  destruct (rep_spaces s a Hr) as [-> Hfree].
  pose proof (send_data s a data (sp_free a) (if d_message then u32 (Z.of_nat (length data) + sbBYTES_TO_STORE_MESSAGE_LENGTH)
                                  else Z.of_nat (length data)) Hr Hd ltac:(lia)) as Hs.
  destruct (d_put (sp_free a) data (sp_items a)) as [n items].
  destruct Hs as (s' & -> & Hr' & Htr).
  { intros ->. apply wrapu_small. unfold sbBYTES_TO_STORE_MESSAGE_LENGTH. lia. }
  rewrite res_bind_Ok, Htr. clear Htr. destruct (n >? 0); cbn [andb]; [|by answered].
  destruct (_ >=? _); [|by answered].
  pose proof (send_complete_isr w s' _ k Hr') as Hw.
  destruct (wake_receiver (Some w) (set_items items a) k) as [[[b w'] a'] k'].
  destruct Hw as (s'' & -> & Hr''). by answered.
Qed.

Lemma receive_isr_refines rx w s a k :
  represents s a -> Z.of_nat (length rx) < 2 ^ 32 -> refines_call (ReceiveFromISR rx w) s a k.
Proof.
  intros Hr Hrx. unfold refines_call. cbn [spec_call sb_run_call]. unfold spec_receive, xStreamBufferReceiveFromISR.
  pose proof (receive_data s a rx Hr Hrx) as Hd.
  destruct (d_take (Z.of_nat (length rx)) (sp_items a)) as [bs items].
  destruct (prvBytesInBuffer s >? bytes_to_store_message_length s).
  - destruct Hd as (s' & -> & Hr'). rewrite res_bind_Ok. destruct bs as [|b bs]; cbn [length Z.of_nat Z.eqb negb].
    + by answered.
    + rewrite (proj2 (Z.eqb_neq _ 0)) by lia. cbn [negb].
      pose proof (receive_completed_isr w s' _ k Hr') as Hw.
      destruct (wake_sender (Some w) (set_items items a) k) as [[[b' w'] a'] k'].
      destruct Hw as (s'' & -> & Hr''). by answered.
  - destruct Hd as [-> ->]. by answered.
Qed.

Lemma send_now_refines data s a k :
  represents s a -> data_ok data -> refines_call (SendNow data) s a k.
Proof.
  intros Hr Hd. unfold refines_call. cbn [spec_call sb_run_call]. unfold spec_send, xStreamBufferSend, send_now.
  rewrite (message_flag s a Hr). pose proof Hd as [Hb Hlen].
  set (req := if d_message then u32 (Z.of_nat (length data) + sbBYTES_TO_STORE_MESSAGE_LENGTH)
              else if Z.of_nat (length data) >? u32 (xLength s - 1) then u32 (xLength s - 1)
                   else Z.of_nat (length data)).
  assert (Hreq : d_message = true -> req = Z.of_nat (length data) + 4).
  { unfold req. intros ->. apply wrapu_small. unfold sbBYTES_TO_STORE_MESSAGE_LENGTH. lia. }
  match goal with |- context [?p ≫= (fun y => let '(_, _) := y in _)] =>
    assert (Hp : p = Ok (req, 0)) end.
  { unfold req in *. destruct d_message; [|done]. rewrite Hreq by done.
    rewrite (proj2 (Z.gtb_lt (Z.of_nat (length data) + 4) (Z.of_nat (length data)))) by lia. cbn [c_assert]. rewrite res_bind_Ok. by destruct (_ >? _). }
  rewrite Hp, res_bind_Ok. cbn [Z.eqb negb].
  destruct (rep_spaces s a Hr) as [-> Hfree].
  pose proof (send_data s a data (sp_free a) req Hr Hd ltac:(lia) Hreq) as Hs.
  destruct (d_put (sp_free a) data (sp_items a)) as [n items].
  destruct Hs as (s' & -> & Hr' & Htr). rewrite res_bind_Ok, Htr. clear Htr.
  destruct (n >? 0); cbn [andb]; [|by answered].
  destruct (_ >=? _); [|by answered].
  pose proof (send_completed s' _ k Hr') as Hw.
  destruct (wake_receiver None (set_items items a) k) as [[[b w'] a'] k'].
  destruct Hw as (-> & s'' & -> & Hr''). by answered.
Qed.

Lemma receive_now_refines rx s a k :
  represents s a -> Z.of_nat (length rx) < 2 ^ 32 -> refines_call (ReceiveNow rx) s a k.
Proof.
  intros Hr Hrx. unfold refines_call. cbn [spec_call sb_run_call].
  unfold spec_receive, xStreamBufferReceive, receive_now. cbn [Z.eqb negb andb].
  pose proof (receive_data s a rx Hr Hrx) as Hd.
  destruct (d_take (Z.of_nat (length rx)) (sp_items a)) as [bs items].
  destruct (prvBytesInBuffer s >? bytes_to_store_message_length s).
  - destruct Hd as (s' & -> & Hr'). rewrite res_bind_Ok. destruct bs as [|b bs]; cbn [length Z.of_nat Z.eqb negb].
    + by answered.
    + rewrite (proj2 (Z.eqb_neq _ 0)) by lia. cbn [negb].
      pose proof (receive_completed s' _ k Hr') as Hw.
      destruct (wake_sender None (set_items items a) k) as [[[b' w'] a'] k'].
      destruct Hw as (-> & s'' & -> & Hr''). by answered.
  - destruct Hd as [-> ->]. by answered.
Qed.

Lemma reset_holds s (x : A) : holds s x ->
  holds (prvInitialiseNewStreamBuffer (xLength s) (xTriggerLevelBytes s) (ucFlags s)) (d_empty : A).
Proof.
  intros [[HL Ht Hh Hlen Hb] Hf _ _]. destruct empty_law as [He Ho].
  split; [split| |by rewrite He|done]; cbn [xLength xTail xHead pucBuffer prvInitialiseNewStreamBuffer]; [lia..| | |done].
  - rewrite length_replicate. lia.
  - apply Forall_replicate. by vm_compute.
Qed.

Lemma reset_refines s a k : represents s a -> refines_call Reset s a k.
Proof.
  intros Hr. pose proof Hr as [Hh HL Ht Hrc Hsn]. unfold refines_call. cbn [spec_call sb_run_call].
  unfold xStreamBufferReset. rewrite Hrc, Hsn.
  destruct (sp_receiver a) eqn:Er, (sp_sender a) eqn:Es; try by answered.
  answered. split; cbn [sp_items sp_length sp_trigger sp_receiver sp_sender set_items];
    [|done..|by rewrite Er|by rewrite Es].
  by eapply holds_fields; [..|exact (reset_holds s (sp_items a) Hh)].
Qed.

Lemma completed_isr_refines c s a k :
  (exists w, c = SendCompletedFromISR w \/ c = ReceiveCompletedFromISR w) ->
  represents s a -> refines_call c s a k.
Proof.
  intros (w & [-> | ->]) [Hh HL Ht Hrc Hsn]; unfold refines_call; cbn [spec_call sb_run_call];
    unfold wake_receiver, wake_sender, xStreamBufferSendCompletedFromISR, xStreamBufferReceiveCompletedFromISR;
    rewrite ?Hrc, ?Hsn.
  - destruct (sp_receiver a) as [t|] eqn:Er; [|answered; split; congruence]. cbn [notify].
    destruct (xTaskNotifyFromISR t w k). answered. split; [by eapply holds_fields; [..|exact Hh]|done..].
  - destruct (sp_sender a) as [t|] eqn:Er; [|answered; split; congruence]. cbn [notify].
    destruct (xTaskNotifyFromISR t w k). answered. split; [by eapply holds_fields; [..|exact Hh]|done..].
Qed.

Lemma is_empty_ok s : wf_sb s -> xStreamBufferIsEmpty s = (used s =? 0).
Proof.
  intros Hwf. rewrite used_cases by done. destruct Hwf as [HL Ht Hh _ _]. unfold xStreamBufferIsEmpty.
  destruct (Z.leb_spec (xTail s) (xHead s)), (Z.eqb_spec (xHead s) (xTail s)); symmetry;
    (apply Z.eqb_eq || apply Z.eqb_neq); lia.
Qed.

Lemma call_refines c s a k : represents s a -> call_ok c -> refines_call c s a k.
Proof.
  intros Hr Hc. pose proof (rep_holds s a Hr) as Hh. pose proof (holds_wf s _ Hh) as Hwf.
  destruct c; cbn [call_ok] in Hc.
  - by apply send_isr_refines.
  - by apply receive_isr_refines.
  - by apply send_now_refines.
  - by apply receive_now_refines.
  - apply completed_isr_refines; eauto.
  - apply completed_isr_refines; eauto.
  - unfold refines_call. cbn [spec_call sb_run_call]. unfold xStreamBufferSetTriggerLevel.
    rewrite (rep_length s a Hr). destruct (_ <? sp_length a); answered; [|done].
    destruct Hr as [Hh' HL Ht Hrc Hsn]. by split; [eapply holds_fields; [..|exact Hh']|..].
  - by apply reset_refines.
  - exists s. split; [|done]. cbn [sb_run_call]. unfold xStreamBufferBytesAvailable.
    by rewrite bytes_in_buffer, (rep_used s a).
  - exists s. split; [|done]. cbn [sb_run_call]. by rewrite spaces_available, (rep_free s a).
  - exists s. split; [|done]. cbn [sb_run_call]. by rewrite is_empty_ok, (rep_used s a).
  - exists s. split; [|done]. cbn [sb_run_call]. unfold xStreamBufferIsFull, bytes_to_store_message_length.
    by rewrite spaces_available, (rep_free s a), (message_flag s a).
  - exists s. split; [|done]. cbn [sb_run_call]. by rewrite (next_law s (sp_items a)).
Qed.

(** *** Sequences of calls *)

Fixpoint sb_run (cs : list sb_call) (s : StreamBuffer_t) (k : K) : res (list answer * StreamBuffer_t * K) :=
  match cs with
  | [] => Ok ([], s, k)
  | c :: cs =>
      '(ans, s, k) ← sb_run_call c s k;
      '(anss, s, k) ← sb_run cs s k;
      Ok (ans :: anss, s, k)
  end.

Fixpoint spec_run (cs : list sb_call) (a : spec A) (k : K) : list answer * spec A * K :=
  match cs with
  | [] => ([], a, k)
  | c :: cs =>
      let '(ans, a, k) := spec_call c a k in
      let '(anss, a, k) := spec_run cs a k in
      (ans :: anss, a, k)
  end.

Lemma run_refines cs s a k : represents s a -> Forall call_ok cs ->
  let '(anss, a', k') := spec_run cs a k in
  exists s', sb_run cs s k = Ok (anss, s', k') /\ represents s' a'.
Proof.
  revert s a k. induction cs as [|c cs IH]; intros s a k Hr Hok; [by exists s|].
  apply Forall_cons in Hok as [Hc Hok]. cbn [sb_run spec_run].
  pose proof (call_refines c s a k Hr Hc) as H1. unfold refines_call in H1.
  destruct (spec_call c a k) as [[ans a1] k1]. destruct H1 as (s1 & -> & Hr1).
  rewrite res_bind_Ok. specialize (IH s1 a1 k1 Hr1 Hok).
  destruct (spec_run cs a1 k1) as [[anss a2] k2]. destruct IH as (s2 & -> & Hr2). by exists s2.
Qed.

(** A new buffer is empty. *)
Definition new_spec (size level : Z) : spec A :=
  mkSpec d_empty (size + 1) (if level =? 0 then 1 else level) None None.

Lemma create_represents ucHeap size level h addr s h' :
  in_range 31 size ->
  xStreamBufferGenericCreate ucHeap size level d_message h = Ok (Some (addr, s), h') ->
  represents s (new_spec size level).
Proof.
  intros Hsize Hc. unfold in_range in Hsize. unfold xStreamBufferGenericCreate in Hc.
  apply res_bind_inv in Hc as (flags & Hf & Hc). apply res_bind_inv in Hc as ([] & _ & Hc).
  assert (Hflags : truthy (flags .& sbFLAGS_IS_MESSAGE_BUFFER) = d_message /\ 0 < size).
  { unfold sbBYTES_TO_STORE_MESSAGE_LENGTH in Hf.
    destruct d_message; apply res_bind_inv in Hf as ([] & Ha & [= <-]);
      apply c_assert_inv, Z.gtb_lt in Ha; split; (done || lia). }
  destruct Hflags as [Hflags Hpos].
  destruct (_ <? _); [|discriminate]. cbv zeta in Hc. rewrite (wrapu_small 32 (size + 1)) in Hc by lia.
  destruct (pvPortMalloc _ _ _) as [[a|] h1]; [|discriminate]. injection Hc as <- <- <-.
  destruct empty_law as [He Ho]. split; [split; [split|..]|done..];
    cbn [xLength xTail xHead pucBuffer prvInitialiseNewStreamBuffer new_spec sp_items]; try done; try lia.
  - rewrite length_replicate. lia.
  - apply Forall_replicate. by vm_compute.
Qed.

(** *** A sending task that waits

    While it waits, the others only read: they leave the buffer well formed,
    with at least as much space. *)
Definition reader_step (a a' : spec A) : Prop :=
  sp_length a' = sp_length a /\ sp_free a <= sp_free a' /\
  (sp_sender a' = sp_sender a \/ sp_sender a' = None).

Definition only_readers (w : wait (K := K)) : Prop :=
  forall s k a, represents s a ->
    exists s' k' a', others w s k = Ok (s', k') /\ represents s' a' /\ reader_step a a'.

Lemma rep_set_sender s a t : represents s a ->
  represents (set_xTaskWaitingToSend t s) (mkSpec (sp_items a) (sp_length a) (sp_trigger a) (sp_receiver a) t).
Proof.
  intros [Hh HL Ht Hrc Hsn]. split; [by eapply holds_fields; [..|exact Hh]|done..].
Qed.

(** The loop ends with space that is still there, or the task is blocked. *)
Lemma send_wait_ok waits req s a k :
  represents s a -> sp_sender a = None -> Forall only_readers waits ->
  Forall (fun w => timed_out w = false) waits ->
  (exists space s' k' a', send_wait waits req s k = Ok (Returns space s' k') /\
     represents s' a' /\ sp_length a' = sp_length a /\ req <= space <= sp_free a') \/
  (exists s' k', send_wait waits req s k = Ok (Blocks s' k') /\
     xTaskWaitingToSend s' = Some (xTaskGetCurrentTaskHandle k') /\ xStreamBufferSpacesAvailable s' < req).
Proof.
  revert s a k. induction waits as [|w waits IH]; intros s a k Hr Hns Hro Hto; cbn [send_wait];
    destruct (rep_spaces s a Hr) as [Hsp _]; rewrite Hsp;
    (destruct (Z.ltb_spec (sp_free a) req) as [Hlt|Hge];
       [|left; exists (sp_free a), s, k, a; do 3 (split; [done|]); lia]);
    rewrite (rep_sender s a Hr), Hns; cbn [c_assert]; rewrite res_bind_Ok.
  - right. do 2 eexists. split; [done|]. split; [done|]. by rewrite <- Hsp in Hlt.
  - apply Forall_cons in Hro as [Hw Hro]. apply Forall_cons in Hto as [Ht Hto].
    destruct (Hw _ (xTaskNotifyStateClear k) _ (rep_set_sender s a (Some (xTaskGetCurrentTaskHandle (xTaskNotifyStateClear k))) Hr))
      as (s1 & k1 & a1 & -> & Hr1 & HL1 & Hf1 & _).
    rewrite res_bind_Ok, Ht.
    destruct (IH (set_xTaskWaitingToSend None s1) _ k1 (rep_set_sender s1 a1 None Hr1) eq_refl Hro Hto)
      as [(space & s2 & k2 & a2 & Hs2 & Hr2 & HL2 & Hsp2)|Hblocked]; [left|by right].
    exists space, s2, k2, a2. split; [done|]. split; [done|]. split; [|done]. rewrite HL2. done.
Qed.

Lemma send_now_ok data space req s a k :
  represents s a -> data_ok data -> 0 < space <= sp_free a ->
  (d_message = true -> req = Z.of_nat (length data) + 4) ->
  exists s' k' a', send_now data (Z.of_nat (length data)) space req s k =
      Ok (Returns (fst (d_put space data (sp_items a))) s' k') /\
    represents s' a' /\ sp_items a' = snd (d_put space data (sp_items a)).
Proof.
  intros Hr Hd Hsp Hreq. unfold send_now. rewrite (proj2 (Z.eqb_neq space 0)) by lia.
  pose proof (send_data s a data space req Hr Hd ltac:(lia) Hreq) as Hs.
  destruct (d_put space data (sp_items a)) as [n items]. destruct Hs as (s' & -> & Hr' & _).
  rewrite res_bind_Ok. cbn [fst snd].
  assert (Hdone : exists s2 k2 a2, Ok (Returns n s' k) = Ok (Returns n s2 k2) /\ represents s2 a2 /\ sp_items a2 = items)
    by (exists s', k, (set_items items a); done).
  destruct (n >? 0); [|done]. destruct (_ >=? _); [|done].
  pose proof (send_completed s' _ k Hr') as Hw. unfold wake_receiver in Hw.
  destruct (sp_receiver (set_items items a)); cbn [notify] in Hw;
    destruct Hw as (_ & s'' & -> & Hr''); (do 3 eexists; split; [reflexivity|split; [exact Hr''|done]]).
Qed.

End Calls.

(** ** One writer and one reader, concurrently

    A stream buffer may be written by one task or interrupt and read by another
    without a critical section.  A step is one access to the shared fields.
    While the writer copies, the storage it was given is in any state at all
    ([step_torn]); the reader fetches the bytes one at a time. *)

Inductive writer : Type :=
  | WIdle
  | WTail (data : list Z) (xOriginalTail : Z)
  | WCheck (data : list Z) (xOriginalTail xSpace : Z)
  | WSpace (data : list Z) (xSpace : Z)
  | WCopy (data : list Z) (n : Z)
  | WCopied (data : list Z) (n xNextHead : Z).

Inductive reader : Type :=
  | RIdle
  | RAvail (room xBytesAvailable : Z)
  | RCopy (n : Z) (fetched : list Z).

(** [w_sent] and [w_received] are the bytes published and consumed so far. *)
Record world : Type := mkWorld {
  w_sb : StreamBuffer_t;
  w_writer : writer;
  w_reader : reader;
  w_sent : list Z;
  w_received : list Z;
}.

(** The position after [n] more bytes, as both copy functions compute it. *)
Definition advance (L p n : Z) : Z :=
  if u32 (p + n) >=? L then u32 (u32 (p + n) - L) else u32 (p + n).

Inductive concurrent_step : world -> world -> Prop :=
  | step_send s r o i data : data_ok data ->
      concurrent_step (mkWorld s WIdle r o i) (mkWorld s (WTail data (xTail s)) r o i)
  | step_tail s r o i data t :
      concurrent_step (mkWorld s (WTail data t) r o i)
        (mkWorld s (WCheck data t (spaces_of (xTail s) (xHead s) (xLength s))) r o i)
  | step_again s r o i data t space : t <> xTail s ->
      concurrent_step (mkWorld s (WCheck data t space) r o i) (mkWorld s (WTail data (xTail s)) r o i)
  | step_space s r o i data t space : t = xTail s ->
      concurrent_step (mkWorld s (WCheck data t space) r o i) (mkWorld s (WSpace data space) r o i)
  | step_full s r o i data space : configMIN (Z.of_nat (length data)) space = 0 ->
      concurrent_step (mkWorld s (WSpace data space) r o i) (mkWorld s WIdle r o i)
  | step_begin s r o i data space n : configMIN (Z.of_nat (length data)) space = n -> n <> 0 ->
      concurrent_step (mkWorld s (WSpace data space) r o i) (mkWorld s (WCopy data n) r o i)
  | step_torn s s' r o i data n junk :
      Forall (in_range 8) junk -> Z.of_nat (length junk) = n -> written_at (xHead s) n junk s s' ->
      concurrent_step (mkWorld s (WCopy data n) r o i) (mkWorld s' (WCopy data n) r o i)
  | step_copied s s' r o i data n next :
      prvWriteBytesToBuffer data n (xHead s) s = Ok (s', next) ->
      concurrent_step (mkWorld s (WCopy data n) r o i) (mkWorld s' (WCopied data n next) r o i)
  | step_publish s r o i data n next :
      concurrent_step (mkWorld s (WCopied data n next) r o i)
        (mkWorld (set_xHead next s) WIdle r (o ++ take (Z.to_nat n) data) i)
  | step_receive s w o i room : 0 <= room ->
      concurrent_step (mkWorld s w RIdle o i) (mkWorld s w (RAvail room (prvBytesInBuffer s)) o i)
  | step_none s w o i room avail : configMIN room avail = 0 ->
      concurrent_step (mkWorld s w (RAvail room avail) o i) (mkWorld s w RIdle o i)
  | step_take s w o i room avail n : configMIN room avail = n -> n <> 0 ->
      concurrent_step (mkWorld s w (RAvail room avail) o i) (mkWorld s w (RCopy n []) o i)
  | step_byte s w o i n bs : Z.of_nat (length bs) < n ->
      concurrent_step (mkWorld s w (RCopy n bs) o i)
        (mkWorld s w (RCopy n (bs ++ [byte_at s (xTail s + Z.of_nat (length bs))])) o i)
  | step_consume s w o i n bs : Z.of_nat (length bs) = n ->
      concurrent_step (mkWorld s w (RCopy n bs) o i)
        (mkWorld (set_xTail (advance (xLength s) (xTail s) n) s) w RIdle o (i ++ bs)).

(** What each side knows of the buffer. *)
Definition free (s : StreamBuffer_t) : Z := xLength s - 1 - used s.

Definition writer_ok (s : StreamBuffer_t) (w : writer) : Prop :=
  match w with
  | WIdle => True
  | WTail data _ => data_ok data
  | WCheck data _ space | WSpace data space => data_ok data /\ 0 <= space <= free s
  | WCopy data n => data_ok data /\ 0 < n <= Z.of_nat (length data) /\ n <= free s
  | WCopied data n next =>
      data_ok data /\ 0 < n <= Z.of_nat (length data) /\ n <= free s /\
      next = (xHead s + n) mod xLength s /\ slice s (xHead s) (Z.to_nat n) = take (Z.to_nat n) data
  end.

Definition reader_ok (s : StreamBuffer_t) (r : reader) : Prop :=
  match r with
  | RIdle => True
  | RAvail room avail => 0 <= room /\ 0 <= avail <= used s
  | RCopy n bs => 0 < n <= used s /\ Z.of_nat (length bs) <= n /\ bs = take (length bs) (contents s)
  end.

Record world_ok (w : world) : Prop := {
  ok_wf : wf_sb (w_sb w);
  ok_fifo : w_received w ++ contents (w_sb w) = w_sent w;
  ok_writer : writer_ok (w_sb w) (w_writer w);
  ok_reader : reader_ok (w_sb w) (w_reader w);
}.

(** The reader's knowledge survives what the writer does. *)
Lemma reader_ok_grows s s' r :
  reader_ok s r -> wf_sb s -> wf_sb s' -> (exists more, contents s' = contents s ++ more) -> reader_ok s' r.
Proof.
  intros Hr Hwf Hwf' [more Hc].
  pose proof (contents_length s Hwf) as H1. pose proof (contents_length s' Hwf') as H2.
  rewrite Hc, length_app in H2. destruct r as [|room avail|n bs]; cbn [reader_ok] in *; [done|lia|].
  destruct Hr as (Hn & Hl & Hb). split; [lia|]. split; [done|]. rewrite Hc, take_app_le by lia. done.
Qed.

(** The writer's knowledge survives the reader's progress. *)
Lemma writer_ok_consumed s n w :
  writer_ok s w -> wf_sb s -> 0 <= n <= used s -> writer_ok (set_xTail ((xTail s + n) mod xLength s) s) w.
Proof.
  intros Hw Hwf Hn. destruct (consume_ok n s Hwf Hn) as (_ & Hu & _). unfold writer_ok, free in *.
  rewrite Hu. destruct w; cbn [xLength xHead set_xTail] in *; intuition lia.
Qed.

(** The copy, and any state on the way, leaves what is published alone. *)
Lemma copying_ok s s' n data r :
  wf_sb s -> Forall (in_range 8) data -> 0 <= n <= Z.of_nat (length data) -> n <= free s ->
  written_at (xHead s) n data s s' -> reader_ok s r ->
  wf_sb s' /\ contents s' = contents s /\ free s' = free s /\ xHead s' = xHead s /\
  xLength s' = xLength s /\ reader_ok s' r.
Proof.
  intros Hwf Hd Hn Hf Hw Hr. destruct (unpublished_ok data n s s') as [Hwf' Hc]; [done..|].
  pose proof Hw as (b & Hs' & _). split; [done|]. split; [done|].
  do 3 (split; [by rewrite Hs'|]). apply (reader_ok_grows s); [done..|].
  exists []. by rewrite app_nil_r.
Qed.

Lemma step_publish_ok s r o i data n next :
  world_ok (mkWorld s (WCopied data n next) r o i) ->
  world_ok (mkWorld (set_xHead next s) WIdle r (o ++ take (Z.to_nat n) data) i).
Proof.
  intros [Hwf Hf (Hd & Hn & Hfr & -> & Hsl) Hr]. cbn [w_sb w_writer w_reader w_sent w_received] in *.
  destruct (publish_ok n s Hwf) as (Hwf' & _ & Hc); [unfold free in *; lia|].
  rewrite Hsl in Hc. split; cbn [w_sb w_writer w_reader w_sent w_received]; [done| |done|].
  - by rewrite Hc, app_assoc, Hf.
  - apply (reader_ok_grows s); eauto.
Qed.

Lemma step_consume_ok s w o i n bs :
  world_ok (mkWorld s w (RCopy n bs) o i) -> Z.of_nat (length bs) = n ->
  world_ok (mkWorld (set_xTail (advance (xLength s) (xTail s) n) s) w RIdle o (i ++ bs)).
Proof.
  intros [Hwf Hf Hw (Hn & Hl & Hb)] Hlen. cbn [w_sb w_writer w_reader w_sent w_received] in *.
  pose proof Hwf as [HL Ht Hh _ _]. pose proof (used_range s Hwf).
  unfold advance. rewrite next_position by lia.
  destruct (consume_ok n s Hwf) as (Hwf' & _ & Hc); [lia|].
  split; cbn [w_sb w_writer w_reader w_sent w_received]; [done| |apply writer_ok_consumed; (done || lia)|done].
  rewrite Hc, <- Hf, <- app_assoc. f_equal. rewrite Hb. rewrite <- (take_drop (Z.to_nat n) (contents s)) at 3.
  do 2 f_equal. lia.
Qed.

Lemma step_byte_ok s w o i n bs :
  world_ok (mkWorld s w (RCopy n bs) o i) -> Z.of_nat (length bs) < n ->
  world_ok (mkWorld s w (RCopy n (bs ++ [byte_at s (xTail s + Z.of_nat (length bs))])) o i).
Proof.
  intros [Hwf Hf Hw (Hn & Hl & Hb)] Hlt. cbn [w_sb w_writer w_reader w_sent w_received] in *.
  split; [done..|]. cbn [w_sb w_reader reader_ok]. rewrite length_app. cbn [length].
  split; [done|]. split; [lia|].
  rewrite Nat.add_1_r. erewrite take_S_r; [by rewrite <- Hb|].
  unfold contents. by rewrite slice_lookup, decide_True by lia.
Qed.

Lemma spaces_free s : wf_sb s -> spaces_of (xTail s) (xHead s) (xLength s) = free s /\ 0 <= free s.
Proof.
  intros Hwf. split; [by apply spaces_available|]. pose proof (used_range s Hwf). unfold free. lia.
Qed.

Lemma concurrent_step_ok w w' : concurrent_step w w' -> world_ok w -> world_ok w'.
Proof.
  intros Hstep Hok.
  destruct Hstep; [..|by eapply step_byte_ok|by eapply step_consume_ok];
    try (by eapply step_publish_ok);
    destruct Hok as [Hwf Hf Hw Hr]; cbn [w_sb w_writer w_reader w_sent w_received writer_ok reader_ok] in *;
    try (split; cbn [w_sb w_writer w_reader w_sent w_received writer_ok reader_ok]; done).
  - destruct (spaces_free s Hwf) as [Heq Hge].
    split; cbn [w_sb w_writer w_reader w_sent w_received writer_ok]; try done. rewrite Heq. split; [done|lia].
  - split; cbn [w_sb w_writer w_reader w_sent w_received writer_ok]; try done. by destruct Hw.
  - destruct Hw as [Hd Hsp]. rewrite configMIN_min in *.
    split; cbn [w_sb w_writer w_reader w_sent w_received writer_ok]; try done. split; [done|lia].
  - destruct Hw as (Hd & Hn & Hfr).
    destruct (copying_ok s s' n junk r) as (? & Hc & Hf' & Hh & HL & ?); [done..|lia|done|done|done|].
    split; cbn [w_sb w_writer w_reader w_sent w_received writer_ok]; [done|by rewrite Hc|by rewrite Hf'|done].
  - destruct Hw as (Hd & Hn & Hfr). pose proof (wf_head s Hwf). pose proof (used_range s Hwf).
    destruct (write_bytes_ok data n (xHead s) s) as (s1 & Hs1 & Hwr); [done|done|unfold free in *; lia|lia|].
    replace s1 with s' in * by congruence. replace next with ((xHead s + n) mod xLength s) by congruence.
    destruct (copying_ok s s' n data r) as (? & Hc & Hf' & Hh & HL & ?); [done|apply Hd|lia|done..|].
    split; cbn [w_sb w_writer w_reader w_sent w_received writer_ok]; [done|by rewrite Hc| |done].
    rewrite Hf', Hh, HL. do 4 (split; [done|]). apply (written_slice _ _ _ s); [unfold free in *; lia|lia|lia|done].
  - pose proof (used_range s Hwf).
    split; cbn [w_sb w_writer w_reader w_sent w_received reader_ok]; try done.
    split; [done|]. rewrite bytes_in_buffer by done. lia.
  - rewrite configMIN_min in *.
    split; cbn [w_sb w_writer w_reader w_sent w_received reader_ok]; try done. cbn [length]. split; [lia|]. split; [lia|done].
Qed.

(** A buffer that nobody uses yet. *)
Definition idle_world (s : StreamBuffer_t) : world := mkWorld s WIdle RIdle (contents s) [].

Lemma concurrent_reachable_ok s w : wf_sb s -> rtc concurrent_step (idle_world s) w -> world_ok w.
Proof.
  intros Hwf Hreach. assert (Hok : world_ok (idle_world s)) by (by split).
  induction Hreach; [done|]. eauto using concurrent_step_ok.
Qed.

(** ** The properties *)

(** Notifications recorded in order, latest first. *)
#[export] Instance trace_notify : TaskNotify (list nat) := {|
  xTaskNotify t k := t :: k;
  xTaskNotifyFromISR t _ k := (true, t :: k);
  xTaskNotifyStateClear k := k;
  xTaskGetCurrentTaskHandle _ := 7%nat;
|}.


Definition demo_stream : StreamBuffer_t := prvInitialiseNewStreamBuffer 5 2 0.

Definition demo_calls : list sb_call :=
  [SendFromISR [1; 2; 3] false; ReceiveNow [0; 0]; SendNow [4; 5; 6; 7]; IsFull; ReceiveFromISR [0; 0; 0; 0; 0; 0] false].


(** Any sequence of the calls that do not wait, on a message buffer that
    [xStreamBufferGenericCreate] returned, gives the answers of a queue of
    messages: a message is stored whole or not at all, comes out whole and in
    order, stays in the buffer when the caller's array is too small, and its
    length is what [xStreamBufferNextMessageLengthBytes] reports. *)
Theorem message_buffer_is_message_queue {K} `{TaskNotify K} ucHeap size level h addr s h' cs (k : K) :
  in_range 31 size ->
  xStreamBufferGenericCreate ucHeap size level true h = Ok (Some (addr, s), h') ->
  Forall call_ok cs ->
  exists anss q k' s', spec_run cs (new_spec (A := list (list Z)) size level) k = (anss, q, k') /\
    sb_run cs s k = Ok (anss, s', k') /\ contents s' = concat (frame <$> sp_items q).
Proof.
  intros Hsize Hc Hcs. pose proof (create_represents (A := list (list Z)) _ _ _ _ _ _ _ Hsize Hc) as Hr.
  pose proof (run_refines cs s _ k Hr Hcs) as Hrun.
  destruct (spec_run cs (new_spec size level) k) as [[anss q] k']. destruct Hrun as (s' & Hs' & Hr').
  exists anss, q, k', s'. split; [done|]. split; [done|]. by destruct (rep_holds s' q Hr').
Qed.

Definition demo_messages : list sb_call :=
  [SendNow [1; 2; 3]; SendFromISR [4] false; SendNow [5; 6; 7; 8]; NextMessageLengthBytes; ReceiveNow [0];
   ReceiveNow [0; 0; 0; 0]; ReceiveFromISR [0; 0; 0; 0] true; ReceiveNow [0]].

Lemma message_buffer_is_message_queue_witness :
  exists anss q k' s', spec_run demo_messages (new_spec (A := list (list Z)) 14 0) ([] : list nat) = (anss, q, k') /\
    sb_run demo_messages (prvInitialiseNewStreamBuffer 15 1 1) [] = Ok (anss, s', k') /\
    contents s' = concat (frame <$> sp_items q).
Proof.
  refine (message_buffer_is_message_queue 0x20400000 14 0 heap_init 0x20400000 _
           (mkHeapState 56 (Some 0x20400000)) demo_messages [] _ _ _).
  - vm_compute. split; [discriminate|reflexivity].
  - vm_compute. reflexivity.
  - unfold demo_messages. repeat constructor; cbn; lia.
Defined.

(** A task that sends to a stream buffer and is willing to wait, while the
    others only read, either is still blocked with its handle recorded as the
    waiting sender, or returns with all its bytes sent, up to the capacity of
    the buffer; they follow what the readers left. *)
Theorem stream_send_waits_for_space {K} `{TaskNotify K} data ticks waits s q (k : K) :
  represents (A := list Z) s q -> sp_sender q = None -> data_ok data -> 0 < Z.of_nat (length data) ->
  ticks <> 0 -> Forall (only_readers (A := list Z)) waits -> Forall (fun w => timed_out w = false) waits ->
  let n := Z.min (Z.of_nat (length data)) (xLength s - 1) in
  (exists s' k', xStreamBufferSend data (Z.of_nat (length data)) ticks waits s k = Ok (Blocks s' k') /\
     xTaskWaitingToSend s' = Some (xTaskGetCurrentTaskHandle k')) \/
  (exists s' k' left, xStreamBufferSend data (Z.of_nat (length data)) ticks waits s k = Ok (Returns n s' k') /\
     contents s' = left ++ take (Z.to_nat n) data).
Proof.
  intros Hr Hns Hd Hpos Hticks Hro Hto. cbv zeta. pose proof (rep_holds s q Hr) as Hh.
  pose proof (wf_length s (holds_wf _ _ Hh)) as HL. unfold xStreamBufferSend.
  rewrite (message_flag s q Hr). cbn [d_message stream_discipline]. rewrite res_bind_Ok.
  rewrite (proj2 (Z.eqb_neq ticks 0)) by done. cbn [negb]. rewrite (wrapu_small 32 (xLength s - 1)) by lia.
  assert (Hreq : (if Z.of_nat (length data) >? xLength s - 1 then xLength s - 1 else Z.of_nat (length data)) =
                 Z.min (Z.of_nat (length data)) (xLength s - 1))
    by (destruct (Z.gtb_spec (Z.of_nat (length data)) (xLength s - 1)); lia).
  rewrite Hreq. set (n := Z.min _ _) in *.
  destruct (send_wait_ok waits n s q k Hr Hns Hro Hto)
    as [(space & s1 & k1 & q1 & -> & Hr1 & HL1 & Hsp)|(s1 & k1 & -> & Hw & _)]; rewrite res_bind_Ok; [right|left; by eauto].
  destruct (send_now_ok data space n s1 q1 k1 Hr1 Hd) as (s2 & k2 & q2 & Hs2 & Hr2 & Hq2); [unfold n in *; lia|done|].
  assert (Hn : Z.min (Z.of_nat (length data)) space = n).
  { assert (space <= xLength s - 1); [|unfold n in *; lia].
    rewrite (rep_length s q Hr), <- HL1. unfold sp_free, sp_used in Hsp. lia. }
  cbn [d_put stream_discipline fst snd] in *. rewrite Hn in *.
  exists s2, k2, (sp_items q1). split; [done|]. rewrite <- Hq2. by destruct (rep_holds s2 q2 Hr2).
Qed.

(** An interrupt that reads. *)
Definition reading {K} `{TaskNotify K} (rx : list Z) : wait (K := K) :=
  mkWait (fun s k => '(_, s, k) ← sb_run_call (ReceiveFromISR rx false) s k; Ok (s, k)) false.

Lemma reading_only {K} `{TaskNotify K} rx :
  Z.of_nat (length rx) < 2 ^ 32 -> only_readers (A := list Z) (reading (K := K) rx).
Proof.
  intros Hrx s k a Hr. pose proof (receive_isr_refines rx false s a k Hr Hrx) as Hc.
  unfold refines_call in Hc. cbn [others reading]. cbn [spec_call] in Hc.
  destruct (spec_receive (Some false) rx a k) as [[ans a'] k'] eqn:E. destruct Hc as (s' & -> & Hr').
  rewrite res_bind_Ok. exists s', k', a'. split; [done|]. split; [done|].
  unfold spec_receive, wake_sender in E. cbn [d_take stream_discipline] in E.
  set (bs := take _ _) in E. destruct (sp_sender (set_items (drop (Z.to_nat (Z.of_nat (length rx))) (sp_items a)) a)) eqn:Es;
    cbn [notify] in E; [destruct (xTaskNotifyFromISR _ _ _)|]; destruct bs; injection E as <- <- <-;
    (split; [done|]; split; [|by (left + right)]);
    unfold sp_free, sp_used, set_items; cbn [sp_items sp_length d_enc stream_discipline]; rewrite length_drop; lia.
Qed.

Lemma demo_stream_represented : represents (A := list Z) demo_stream (new_spec 4 2).
Proof.
  apply (create_represents (A := list Z) 0x20400000 4 2 heap_init 0x20400000 demo_stream (mkHeapState 48 (Some 0x20400000)));
    vm_compute; [split; [discriminate|reflexivity]|reflexivity].
Qed.

Definition demo_full : StreamBuffer_t := mkSB 0 4 5 2 None None [1; 2; 3; 4; 0x55] 0 0.

Lemma demo_full_represented : represents (A := list Z) demo_full (mkSpec [1; 2; 3; 4] 5 2 None None).
Proof.
  split; [|done..]. split; [|done..]. split; cbn; [lia..|done|]. repeat constructor; cbn; lia.
Qed.

Lemma stream_send_waits_for_space_witness :
  (exists s' k', xStreamBufferSend [5; 6] 2 100 [reading [0]; reading [0; 0]] demo_full [] = Ok (Blocks s' k') /\
     xTaskWaitingToSend s' = Some (xTaskGetCurrentTaskHandle k')) \/
  (exists s' k' left, xStreamBufferSend [5; 6] 2 100 [reading [0]; reading [0; 0]] demo_full [] = Ok (Returns 2 s' k') /\
     contents s' = left ++ [5; 6]).
Proof.
  refine (stream_send_waits_for_space [5; 6] 100 [reading [0]; reading [0; 0]] demo_full _ []
            demo_full_represented eq_refl _ _ _ _ _).
  - split; [repeat constructor; cbn; lia|cbn; lia].
  - cbn. lia.
  - discriminate.
  - repeat constructor; apply reading_only; cbn; lia.
  - repeat constructor.
Defined.

(** C12: One writer and one reader of a stream buffer that run concurrently,
    with no critical section and in any interleaving of their accesses, pass
    the bytes in order: what was received followed by what is in the buffer is
    what was sent.  The bytes the reader has fetched are the oldest ones, never
    ones that the writer is copying, and the writer's copy stays inside the
    storage. *)
Theorem stream_buffer_concurrent_fifo s w :
  wf_sb s -> rtc concurrent_step (idle_world s) w ->
  w_received w ++ contents (w_sb w) = w_sent w /\
  (forall n bs, w_reader w = RCopy n bs -> exists rest, contents (w_sb w) = bs ++ rest) /\
  (forall data n, w_writer w = WCopy data n ->
     is_ok (prvWriteBytesToBuffer data n (xHead (w_sb w)) (w_sb w)) = true).
Proof.
  intros Hwf Hreach. destruct (concurrent_reachable_ok s w Hwf Hreach) as [Hwf' Hf Hw Hr].
  split; [done|]. split.
  - intros n bs E. rewrite E in Hr. destruct Hr as (_ & _ & Hb).
    exists (drop (length bs) (contents (w_sb w))). rewrite Hb at 1. symmetry. apply take_drop.
  - intros data n E. rewrite E in Hw. destruct Hw as (_ & Hn & Hfr). unfold free in Hfr.
    pose proof (used_range _ Hwf').
    destruct (write_bytes_ok data n (xHead (w_sb w)) (w_sb w)) as (s' & -> & _); [done|apply Hwf'|lia..|done].
Qed.

Lemma stream_buffer_concurrent_fifo_witness :
  let w := mkWorld demo_full WIdle (RCopy 2 [1; 2]) [1; 2; 3; 4] [] in
  w_received w ++ contents (w_sb w) = w_sent w /\
  (forall n bs, w_reader w = RCopy n bs -> exists rest, contents (w_sb w) = bs ++ rest) /\
  (forall data n, w_writer w = WCopy data n ->
     is_ok (prvWriteBytesToBuffer data n (xHead (w_sb w)) (w_sb w)) = true).
Proof.
  apply (stream_buffer_concurrent_fifo demo_full).
  - exact (holds_wf _ _ (rep_holds _ _ demo_full_represented)).
  - eapply rtc_l; [apply (step_receive _ _ _ _ 2); lia|].
    eapply rtc_l; [apply (step_take _ _ _ _ _ _ 2); [vm_compute; reflexivity|discriminate]|].
    eapply rtc_l; [apply step_byte; cbn; lia|]. eapply rtc_l; [apply step_byte; cbn; lia|].
    vm_compute. apply rtc_refl.
Defined.
