(* ===== verification/DemoApp.v ===== *)
(** * The demo application

    [FreeRTOS_Demo/src/main.c]: the two tasks, the callback of the DMA channel and the
    buffers they share.  The tasks are programs with a program counter; a step is a call
    or a round of a loop.  A binary semaphore is a flag, as the theorems about the
    kernel's queues allow.  The channel is configured for one request of 128 bytes
    ([FreeRTOS_Demo/generate/src/Dma_Ip_PBcfg.c]): a request copies the source buffer to
    the destination buffer and then calls the callback.  The serial port sends a message
    by interrupts, which come before the next step of a task; it reads the buffer when
    it sends.  The random numbers of the C library are parameters. *)

From stdpp Require Import strings pretty.
From S2P Require Import Prelude.

(** ** Messages *)

Definition newline : string := String (Ascii.ascii_of_nat 10) EmptyString.
Definition SETUP_MSG : string := ("Setup completed" +:+ newline)%string.
Definition DMA_TRANSFER_SUCCESS_MSG : string := ("DMA transfer completed successfully" +:+ newline)%string.
Definition DMA_TRANSFER_FAILURE_MSG : string := ("DMA transfer failed" +:+ newline)%string.
Definition SEED_MSG : string := "Insert a seed between 0 and 9: "%string.

(** [snprintf]: at most [n - 1] characters of the text. *)
Definition snprintf (n : nat) (text : string) : string := String.substring 0 (n - 1) text.
(** The formats [%u] and [%lu]. *)
Definition decimal (v : Z) : string := pretty (Z.to_N v).

Definition echo_text (seed : Z) : string := snprintf 10 (decimal seed +:+ newline).
Definition counter_text (n : Z) : string := snprintf 50 ("DMA callback counter: " +:+ decimal n +:+ newline).
Definition first_text (v : Z) : string := snprintf 50 ("First number generated: " +:+ decimal v +:+ newline).

(** [atoi]: white space, a sign, digits; no answer when it reads past the buffer. *)
Definition is_digit (c : Z) : bool := (48 <=? c) && (c <=? 57).
Definition is_space (c : Z) : bool := (c =? 32) || ((9 <=? c) && (c <=? 13)).
Fixpoint atoi_digits (l : list Z) (acc : Z) : option Z :=
  match l with
  | [] => None
  | c :: l => if is_digit c then atoi_digits l (acc * 10 + (c - 48)) else Some acc
  end.
Fixpoint atoi (l : list Z) : option Z :=
  match l with
  | [] => None
  | c :: l' =>
      if is_space c then atoi l'
      else if c =? 45 then Z.opp <$> atoi_digits l' 0
      else if c =? 43 then atoi_digits l' 0
      else atoi_digits l 0
  end.

Definition DMA_CH0_BUFFER_DIMENSION : nat := 128.
Definition MAX : Z := 10.
Definition MIN : Z := 1.

(** ** State *)

(** Where the tasks are; [S_fill i] and [R_compare i] are rounds of their loops. *)
Inductive send_pc : Set :=
  | S_take | S_prompt | S_receive | S_seed | S_format | S_echo | S_list | S_fill (i : nat) | S_start | S_delay.
Inductive receive_pc : Set :=
  | R_take | R_compare (i : nat) | R_report (ok : bool) | R_counter | R_counter_send | R_first | R_first_send | R_give.

Inductive dma_channel : Set := Idle | Requested | Completed.

(** What the serial port sends: a constant text, or the buffer [msg] of ReceiveTask. *)
Inductive tx_buffer : Set := Const (s : string) | Msg.

Record app (R : Type) : Type := mkApp {
  producer_go : bool;
  consumer_go : bool;
  g_DmaCh0_CallbackCounter : Z;
  DmaCh0_SourceBuffer : list Z;
  DmaCh0_DestinationBuffer : list Z;
  transfer_list : bool;
  channel : dma_channel;
  tx : option tx_buffer;
  out : list string;
  seed_buf : list Z;
  seed : Z;
  send_msg : string;
  receive_msg : string;
  rng : R;
  spc : send_pc;
  rpc : receive_pc
}.
Arguments mkApp {R} _ _ _ _ _ _ _ _ _ _ _ _ _ _ _ _.
Arguments producer_go {R} _.
Arguments consumer_go {R} _.
Arguments g_DmaCh0_CallbackCounter {R} _.
Arguments DmaCh0_SourceBuffer {R} _.
Arguments DmaCh0_DestinationBuffer {R} _.
Arguments transfer_list {R} _.
Arguments channel {R} _.
Arguments tx {R} _.
Arguments out {R} _.
Arguments seed_buf {R} _.
Arguments seed {R} _.
Arguments send_msg {R} _.
Arguments receive_msg {R} _.
Arguments rng {R} _.
Arguments spc {R} _.
Arguments rpc {R} _.

Definition set_producer_go {R} (v : bool) (a : app R) : app R :=
  mkApp v (consumer_go a) (g_DmaCh0_CallbackCounter a) (DmaCh0_SourceBuffer a) (DmaCh0_DestinationBuffer a)
    (transfer_list a) (channel a) (tx a) (out a) (seed_buf a) (seed a) (send_msg a) (receive_msg a) (rng a) (spc
    a) (rpc a).
Definition set_consumer_go {R} (v : bool) (a : app R) : app R :=
  mkApp (producer_go a) v (g_DmaCh0_CallbackCounter a) (DmaCh0_SourceBuffer a) (DmaCh0_DestinationBuffer a)
    (transfer_list a) (channel a) (tx a) (out a) (seed_buf a) (seed a) (send_msg a) (receive_msg a) (rng a) (spc
    a) (rpc a).
Definition set_counter {R} (v : Z) (a : app R) : app R :=
  mkApp (producer_go a) (consumer_go a) v (DmaCh0_SourceBuffer a) (DmaCh0_DestinationBuffer a) (transfer_list a)
    (channel a) (tx a) (out a) (seed_buf a) (seed a) (send_msg a) (receive_msg a) (rng a) (spc a) (rpc a).
Definition set_source {R} (v : list Z) (a : app R) : app R :=
  mkApp (producer_go a) (consumer_go a) (g_DmaCh0_CallbackCounter a) v (DmaCh0_DestinationBuffer a)
    (transfer_list a) (channel a) (tx a) (out a) (seed_buf a) (seed a) (send_msg a) (receive_msg a) (rng a) (spc
    a) (rpc a).
Definition set_destination {R} (v : list Z) (a : app R) : app R :=
  mkApp (producer_go a) (consumer_go a) (g_DmaCh0_CallbackCounter a) (DmaCh0_SourceBuffer a) v (transfer_list a)
    (channel a) (tx a) (out a) (seed_buf a) (seed a) (send_msg a) (receive_msg a) (rng a) (spc a) (rpc a).
Definition set_transfer_list {R} (v : bool) (a : app R) : app R :=
  mkApp (producer_go a) (consumer_go a) (g_DmaCh0_CallbackCounter a) (DmaCh0_SourceBuffer a)
    (DmaCh0_DestinationBuffer a) v (channel a) (tx a) (out a) (seed_buf a) (seed a) (send_msg a) (receive_msg a)
    (rng a) (spc a) (rpc a).
Definition set_channel {R} (v : dma_channel) (a : app R) : app R :=
  mkApp (producer_go a) (consumer_go a) (g_DmaCh0_CallbackCounter a) (DmaCh0_SourceBuffer a)
    (DmaCh0_DestinationBuffer a) (transfer_list a) v (tx a) (out a) (seed_buf a) (seed a) (send_msg a)
    (receive_msg a) (rng a) (spc a) (rpc a).
Definition set_tx {R} (v : option tx_buffer) (a : app R) : app R :=
  mkApp (producer_go a) (consumer_go a) (g_DmaCh0_CallbackCounter a) (DmaCh0_SourceBuffer a)
    (DmaCh0_DestinationBuffer a) (transfer_list a) (channel a) v (out a) (seed_buf a) (seed a) (send_msg a)
    (receive_msg a) (rng a) (spc a) (rpc a).
Definition set_out {R} (v : list string) (a : app R) : app R :=
  mkApp (producer_go a) (consumer_go a) (g_DmaCh0_CallbackCounter a) (DmaCh0_SourceBuffer a)
    (DmaCh0_DestinationBuffer a) (transfer_list a) (channel a) (tx a) v (seed_buf a) (seed a) (send_msg a)
    (receive_msg a) (rng a) (spc a) (rpc a).
Definition set_seed_buf {R} (v : list Z) (a : app R) : app R :=
  mkApp (producer_go a) (consumer_go a) (g_DmaCh0_CallbackCounter a) (DmaCh0_SourceBuffer a)
    (DmaCh0_DestinationBuffer a) (transfer_list a) (channel a) (tx a) (out a) v (seed a) (send_msg a)
    (receive_msg a) (rng a) (spc a) (rpc a).
Definition set_seed {R} (v : Z) (a : app R) : app R :=
  mkApp (producer_go a) (consumer_go a) (g_DmaCh0_CallbackCounter a) (DmaCh0_SourceBuffer a)
    (DmaCh0_DestinationBuffer a) (transfer_list a) (channel a) (tx a) (out a) (seed_buf a) v (send_msg a)
    (receive_msg a) (rng a) (spc a) (rpc a).
Definition set_send_msg {R} (v : string) (a : app R) : app R :=
  mkApp (producer_go a) (consumer_go a) (g_DmaCh0_CallbackCounter a) (DmaCh0_SourceBuffer a)
    (DmaCh0_DestinationBuffer a) (transfer_list a) (channel a) (tx a) (out a) (seed_buf a) (seed a) v
    (receive_msg a) (rng a) (spc a) (rpc a).
Definition set_receive_msg {R} (v : string) (a : app R) : app R :=
  mkApp (producer_go a) (consumer_go a) (g_DmaCh0_CallbackCounter a) (DmaCh0_SourceBuffer a)
    (DmaCh0_DestinationBuffer a) (transfer_list a) (channel a) (tx a) (out a) (seed_buf a) (seed a) (send_msg a)
    v (rng a) (spc a) (rpc a).
Definition set_rng {R} (v : R) (a : app R) : app R :=
  mkApp (producer_go a) (consumer_go a) (g_DmaCh0_CallbackCounter a) (DmaCh0_SourceBuffer a)
    (DmaCh0_DestinationBuffer a) (transfer_list a) (channel a) (tx a) (out a) (seed_buf a) (seed a) (send_msg a)
    (receive_msg a) v (spc a) (rpc a).
Definition set_spc {R} (v : send_pc) (a : app R) : app R :=
  mkApp (producer_go a) (consumer_go a) (g_DmaCh0_CallbackCounter a) (DmaCh0_SourceBuffer a)
    (DmaCh0_DestinationBuffer a) (transfer_list a) (channel a) (tx a) (out a) (seed_buf a) (seed a) (send_msg a)
    (receive_msg a) (rng a) v (rpc a).
Definition set_rpc {R} (v : receive_pc) (a : app R) : app R :=
  mkApp (producer_go a) (consumer_go a) (g_DmaCh0_CallbackCounter a) (DmaCh0_SourceBuffer a)
    (DmaCh0_DestinationBuffer a) (transfer_list a) (channel a) (tx a) (out a) (seed_buf a) (seed a) (send_msg a)
    (receive_msg a) (rng a) (spc a) v.

(** ** Steps *)

Section Steps.
Context {R : Type} (srand : Z -> R) (rand : R -> Z * R).

(** [Lpuart_Uart_Ip_SyncSend] and [Lpuart_Uart_Ip_AsyncSend]; a busy driver drops the
    message, the tasks do not look at the status. *)
Definition sync_send (s : string) (a : app R) : app R :=
  match tx a with Some _ => a | None => set_out (out a ++ [s]) a end.
Definition async_send (b : tx_buffer) (a : app R) : app R :=
  match tx a with Some _ => a | None => set_tx (Some b) a end.

(** [SendTask]; [v] is the byte that [Lpuart_Uart_Ip_SyncReceive] stores.  No answer when
    the task is blocked, or when [atoi] leaves its buffer. *)
Definition SendTask (v : Z) (a : app R) : option (app R) :=
  match spc a with
  | S_take => if producer_go a then Some (set_spc S_prompt (set_producer_go false a)) else None
  | S_prompt => Some (set_spc S_receive (sync_send SEED_MSG a))
  | S_receive => Some (set_spc S_seed (set_seed_buf (<[0%nat := u8 v]> (seed_buf a)) a))
  | S_seed => z ← atoi (seed_buf a); Some (set_spc S_format (set_rng (srand (u32 z)) (set_seed (u32 z) a)))
  | S_format => Some (set_spc S_echo (set_send_msg (echo_text (seed a)) a))
  | S_echo => Some (set_spc S_list (sync_send (send_msg a) a))
  | S_list => Some (set_spc (S_fill 0) (set_transfer_list true a))
  | S_fill i =>
      let '(n, r) := rand (rng a) in
      Some (set_spc (if (S i <? DMA_CH0_BUFFER_DIMENSION)%nat then S_fill (S i) else S_start)
              (set_rng r (set_source (<[i := u8 (Z.rem n (MAX - MIN + 1) + MIN)]> (DmaCh0_SourceBuffer a)) a)))
  | S_start => Some (set_spc S_delay (set_channel Requested a))
  | S_delay => Some (set_spc S_take a)
  end.

(** [CHECK_Uint8_BufferCompare]: the rounds of its loop. *)
Definition compare_round (i : nat) (a : app R) : receive_pc :=
  if (i <? DMA_CH0_BUFFER_DIMENSION)%nat then
    if decide (DmaCh0_SourceBuffer a !! i = DmaCh0_DestinationBuffer a !! i) then R_compare (S i) else R_report false
  else R_report true.

Definition ReceiveTask (a : app R) : option (app R) :=
  match rpc a with
  | R_take => if consumer_go a then Some (set_rpc (R_compare 0) (set_consumer_go false a)) else None
  | R_compare i => Some (set_rpc (compare_round i a) a)
  | R_report ok => Some (set_rpc R_counter (async_send (Const (if ok then DMA_TRANSFER_SUCCESS_MSG else DMA_TRANSFER_FAILURE_MSG)) a))
  | R_counter => Some (set_rpc R_counter_send (set_receive_msg (counter_text (g_DmaCh0_CallbackCounter a)) a))
  | R_counter_send => Some (set_rpc R_first (async_send Msg a))
  | R_first => Some (set_rpc R_first_send (set_receive_msg (first_text (nth 0 (DmaCh0_SourceBuffer a) 0)) a))
  | R_first_send => Some (set_rpc R_give (async_send Msg a))
  | R_give => Some (set_rpc R_take (set_producer_go true a))
  end.

(** [DmaCh0_Callback] *)
Definition DmaCh0_Callback (a : app R) : app R :=
  set_consumer_go true (set_counter (u32 (g_DmaCh0_CallbackCounter a + 1)) a).

(** The channel: the transfer between the buffers of the list, then the interrupt. *)
Definition dma_step (a : app R) : option (app R) :=
  match channel a with
  | Idle => None
  | Requested =>
      Some (set_channel Completed (if transfer_list a then set_destination (DmaCh0_SourceBuffer a) a else a))
  | Completed => Some (DmaCh0_Callback (set_channel Idle a))
  end.

(** The interrupts of the serial port: the message goes out. *)
Definition uart_step (a : app R) : option (app R) :=
  match tx a with
  | Some b => Some (set_tx None (set_out (out a ++ [match b with Const s => s | Msg => receive_msg a end]) a))
  | None => None
  end.

(** The interrupts come before the next step of a task. *)
Inductive app_step : app R -> app R -> Prop :=
  | step_send v a a' : tx a = None -> SendTask v a = Some a' -> app_step a a'
  | step_receive a a' : tx a = None -> ReceiveTask a = Some a' -> app_step a a'
  | step_dma a a' : dma_step a = Some a' -> app_step a a'
  | step_uart a a' : uart_step a = Some a' -> app_step a a'.

(** What [main] leaves behind when the scheduler starts: the greeting is on its way
    and [producer_go] has been given; the buffers are cleared, the stacks are not. *)
Definition app_initial (buf : list Z) (s : Z) (m m' : string) (r : R) : app R :=
  mkApp true false 0 (replicate DMA_CH0_BUFFER_DIMENSION 0) (replicate DMA_CH0_BUFFER_DIMENSION 0) false Idle
    (Some (Const SETUP_MSG)) [] buf s m m' r S_take R_take.

(** [app_run n a]: the application reaches [a] in [n] steps. *)
Inductive app_run : nat -> app R -> Prop :=
  | run_start buf s m m' r : length buf = 10%nat -> app_run 0 (app_initial buf s m m' r)
  | run_step n a a' : app_run n a -> app_step a a' -> app_run (S n) a'.

End Steps.
