(* ===== verification/DemoAppProps.v ===== *)
(** * Correctness of the demo application

    The two semaphores pass one token around: SendTask, the DMA channel, ReceiveTask.
    The invariant says where it is and what has been written so far. *)

From stdpp Require Import strings pretty.
From S2P Require Import Prelude DemoApp.

Section App.
Context {R : Type} (srand : Z -> R) (rand : R -> Z * R).

(** ** The specification *)

(** The numbers drawn after [srand]. *)
Fixpoint draws (n : nat) (r : R) : list Z :=
  match n with
  | O => []
  | S n => u8 (Z.rem (rand r).1 10 + 1) :: draws n (rand r).2
  end.
Fixpoint rng_after (n : nat) (r : R) : R := match n with O => r | S n => (rand (rng_after n r)).2 end.
Definition seed_block (s : Z) : list Z := draws DMA_CH0_BUFFER_DIMENSION (srand s).

(** The messages of the [k]th round and of all of them. *)
Definition round_text (k : nat) (s : Z) : list string :=
  [SEED_MSG; echo_text s; DMA_TRANSFER_SUCCESS_MSG; counter_text (u32 (Z.of_nat k)); first_text (nth 0 (seed_block s) 0)].
Definition transcript (seeds : list Z) : list string := SETUP_MSG :: mjoin (imap (fun i s => round_text (S i) s) seeds).

Lemma transcript_snoc seeds s : transcript (seeds ++ [s]) = transcript seeds ++ round_text (S (length seeds)) s.
Proof.
  unfold transcript. rewrite imap_app, join_app. cbn [imap mjoin list_join]. rewrite app_nil_r, Nat.add_0_r. done.
Qed.

Lemma transcript_length seeds : length (transcript seeds) = S (5 * length seeds).
Proof.
  induction seeds as [|s seeds IH] using rev_ind; [done|]. rewrite transcript_snoc, !length_app, IH. cbn. lia.
Qed.

Lemma draws_length n r : length (draws n r) = n.
Proof. revert r. induction n as [|n IH]; intros r; [done|]. cbn. by rewrite IH. Qed.

Lemma draws_lookup n : forall i r, (i < n)%nat -> draws n r !! i = Some (u8 (Z.rem (rand (rng_after i r)).1 10 + 1)).
Proof.
  induction n as [|n IH]; intros i r Hi; [lia|]. destruct i as [|i]; [done|]. cbn [draws lookup list_lookup].
  rewrite IH by lia. do 5 f_equal. clear -i. induction i as [|i IHi]; [done|]. cbn. by rewrite IHi.
Qed.

(** ** The invariant *)

(** The round as far as SendTask writes to the serial port. *)
Definition prompted (seeds : list Z) : list string := transcript seeds ++ [SEED_MSG].
Definition echoed (seeds : list Z) (a : app R) : list string := transcript seeds ++ [SEED_MSG; echo_text (seed a)].

Definition send_pos (p : send_pc) : nat :=
  match p with
  | S_take => 0 | S_prompt => 1 | S_receive => 2 | S_seed => 3 | S_format => 4 | S_echo => 5 | S_list => 6
  | S_fill i => 7 + i | S_start => 135 | S_delay => 136
  end.

(** What holds while SendTask prepares a transfer. *)
Definition sending_data (seeds : list Z) (a : app R) : Prop :=
  match spc a with
  | S_prompt => out a = transcript seeds
  | S_receive | S_seed => out a = prompted seeds
  | S_format => out a = prompted seeds /\ rng a = srand (seed a)
  | S_echo => out a = prompted seeds /\ rng a = srand (seed a) /\ send_msg a = echo_text (seed a)
  | S_list => out a = echoed seeds a /\ rng a = srand (seed a)
  | S_fill i =>
      out a = echoed seeds a /\ transfer_list a = true /\ (i < 128)%nat /\ rng a = rng_after i (srand (seed a)) /\
      take i (DmaCh0_SourceBuffer a) = take i (seed_block (seed a))
  | S_start => out a = echoed seeds a /\ transfer_list a = true /\ DmaCh0_SourceBuffer a = seed_block (seed a)
  | _ => False
  end.

(** Whether SendTask has finished its delay. *)
Definition after_delay (d : bool) : send_pc := if d then S_take else S_delay.

(** What holds while ReceiveTask has the token, with the position in the round. *)
Definition receiving_data (seeds : list Z) (a : app R) (pos : nat) : Prop :=
  let c := counter_text (u32 (Z.of_nat (S (length seeds)))) in
  let o1 := echoed seeds a ++ [DMA_TRANSFER_SUCCESS_MSG] in
  let f := first_text (nth 0 (seed_block (seed a)) 0) in
  match rpc a, tx a with
  | R_compare i, None => out a = echoed seeds a /\ (i <= 128)%nat /\ pos = (139 + i)%nat
  | R_report ok, None => out a = echoed seeds a /\ ok = true /\ pos = 268%nat
  | R_counter, Some b => out a = echoed seeds a /\ b = Const DMA_TRANSFER_SUCCESS_MSG /\ pos = 269%nat
  | R_counter, None => out a = o1 /\ pos = 270%nat
  | R_counter_send, None => out a = o1 /\ receive_msg a = c /\ pos = 271%nat
  | R_first, Some b => out a = o1 /\ b = Msg /\ receive_msg a = c /\ pos = 272%nat
  | R_first, None => out a = o1 ++ [c] /\ pos = 273%nat
  | R_first_send, None => out a = o1 ++ [c] /\ receive_msg a = f /\ pos = 274%nat
  | R_give, Some b => out a = o1 ++ [c] /\ b = Msg /\ receive_msg a = f /\ pos = 275%nat
  | R_give, None => out a = (o1 ++ [c]) ++ [f] /\ pos = 276%nat
  | _, _ => False
  end.

(** Where the token is; the number is the position in the round. *)
Inductive round_phase (seeds : list Z) : nat -> app R -> Prop :=
  | ph_ready a d :
      producer_go a = true -> consumer_go a = false -> channel a = Idle -> rpc a = R_take -> tx a = None -> spc a = after_delay d ->
      g_DmaCh0_CallbackCounter a = u32 (Z.of_nat (length seeds)) -> length (DmaCh0_SourceBuffer a) = 128%nat -> out a = transcript seeds ->
      round_phase seeds (Nat.b2n d) a
  | ph_send a pos :
      producer_go a = false -> consumer_go a = false -> channel a = Idle -> rpc a = R_take -> tx a = None ->
      g_DmaCh0_CallbackCounter a = u32 (Z.of_nat (length seeds)) -> length (DmaCh0_SourceBuffer a) = 128%nat -> sending_data seeds a ->
      pos = S (send_pos (spc a)) -> round_phase seeds pos a
  | ph_requested a d :
      producer_go a = false -> consumer_go a = false -> channel a = Requested -> rpc a = R_take -> tx a = None -> spc a = after_delay d ->
      g_DmaCh0_CallbackCounter a = u32 (Z.of_nat (length seeds)) -> transfer_list a = true ->
      DmaCh0_SourceBuffer a = seed_block (seed a) -> out a = echoed seeds a ->
      round_phase seeds (137 + Nat.b2n d) a
  | ph_completed a d :
      producer_go a = false -> consumer_go a = false -> channel a = Completed -> rpc a = R_take -> tx a = None -> spc a = after_delay d ->
      g_DmaCh0_CallbackCounter a = u32 (Z.of_nat (length seeds)) -> DmaCh0_DestinationBuffer a = DmaCh0_SourceBuffer a ->
      DmaCh0_SourceBuffer a = seed_block (seed a) -> out a = echoed seeds a ->
      round_phase seeds (138 + Nat.b2n d) a
  | ph_given a d :
      producer_go a = false -> consumer_go a = true -> channel a = Idle -> rpc a = R_take -> tx a = None -> spc a = after_delay d ->
      g_DmaCh0_CallbackCounter a = u32 (Z.of_nat (S (length seeds))) -> DmaCh0_DestinationBuffer a = DmaCh0_SourceBuffer a ->
      DmaCh0_SourceBuffer a = seed_block (seed a) -> out a = echoed seeds a ->
      round_phase seeds (139 + Nat.b2n d) a
  | ph_receive a d pos pos' :
      producer_go a = false -> consumer_go a = false -> channel a = Idle -> spc a = after_delay d ->
      g_DmaCh0_CallbackCounter a = u32 (Z.of_nat (S (length seeds))) -> DmaCh0_DestinationBuffer a = DmaCh0_SourceBuffer a ->
      DmaCh0_SourceBuffer a = seed_block (seed a) -> receiving_data seeds a pos ->
      pos' = (S pos + Nat.b2n d)%nat -> round_phase seeds pos' a.

(** After [n] steps; the first step sends the greeting. *)
Definition app_inv (seeds : list Z) (n : nat) (a : app R) : Prop :=
  (n = 0%nat /\ seeds = [] /\ exists buf s m m' r, a = app_initial buf s m m' r) \/
  exists pos, n = (278 * length seeds + pos)%nat /\ round_phase seeds pos a.

#[local] Arguments seed_block _ : simpl never.
#[local] Arguments transcript _ : simpl never.
#[local] Arguments prompted _ : simpl never.
#[local] Arguments echoed _ _ : simpl never.
#[local] Arguments wrapu _ _ : simpl never.
#[local] Arguments echo_text _ : simpl never.
#[local] Arguments counter_text _ : simpl never.
#[local] Arguments first_text _ : simpl never.
#[local] Arguments SEED_MSG : simpl never.

(** ** Preservation *)

Definition goes_on (seeds : list Z) (pos : nat) (a' : app R) : Prop :=
  exists seeds' pos', (278 * length seeds' + pos' = 278 * length seeds + S pos)%nat /\ round_phase seeds' pos' a'.

Lemma goes_on_one seeds pos a' : round_phase seeds (S pos) a' -> goes_on seeds pos a'.
Proof. intros H. by exists seeds, (S pos). Qed.

(** The cases of a step in a state whose program counters are known. *)
Ltac steps H :=
  inversion H as [v ? ? Htx Hs|? ? Htx Hs|? ? Hs|? ? Hs]; clear H; subst;
  unfold SendTask, ReceiveTask, dma_step, uart_step in Hs; cbn in *; simplify_eq; cbn in *.

Lemma step_ready seeds a d a' :
  producer_go a = true -> consumer_go a = false -> channel a = Idle -> rpc a = R_take -> tx a = None -> spc a = after_delay d ->
  g_DmaCh0_CallbackCounter a = u32 (Z.of_nat (length seeds)) -> length (DmaCh0_SourceBuffer a) = 128%nat -> out a = transcript seeds ->
  app_step srand rand a a' -> goes_on seeds (Nat.b2n d) a'.
Proof.
  destruct a as [pg cg cnt src dst tl ch t o sb sd sm rm rg sp rp]. cbn. intros -> -> -> -> -> -> -> Hsrc -> H.
  destruct d; cbn [after_delay] in H; steps H; apply goes_on_one.
  - by apply (ph_send seeds).
  - by apply (ph_ready seeds _ true).
Qed.

Lemma step_requested seeds a d a' :
  producer_go a = false -> consumer_go a = false -> channel a = Requested -> rpc a = R_take -> tx a = None -> spc a = after_delay d ->
  g_DmaCh0_CallbackCounter a = u32 (Z.of_nat (length seeds)) -> transfer_list a = true ->
  DmaCh0_SourceBuffer a = seed_block (seed a) -> out a = echoed seeds a ->
  app_step srand rand a a' -> goes_on seeds (137 + Nat.b2n d) a'.
Proof.
  destruct a as [pg cg cnt src dst tl ch t o sb sd sm rm rg sp rp]. cbn. intros -> -> -> -> -> -> -> -> -> -> H.
  destruct d; cbn [after_delay] in H; steps H; apply goes_on_one.
  - by apply (ph_completed seeds _ true).
  - by apply (ph_requested seeds _ true).
  - by apply (ph_completed seeds _ false).
Qed.

Lemma step_completed seeds a d a' :
  producer_go a = false -> consumer_go a = false -> channel a = Completed -> rpc a = R_take -> tx a = None -> spc a = after_delay d ->
  g_DmaCh0_CallbackCounter a = u32 (Z.of_nat (length seeds)) -> DmaCh0_DestinationBuffer a = DmaCh0_SourceBuffer a ->
  DmaCh0_SourceBuffer a = seed_block (seed a) -> out a = echoed seeds a ->
  app_step srand rand a a' -> goes_on seeds (138 + Nat.b2n d) a'.
Proof.
  destruct a as [pg cg cnt src dst tl ch t o sb sd sm rm rg sp rp]. cbn. intros -> -> -> -> -> -> -> -> -> -> H.
  assert (Hc : u32 (u32 (Z.of_nat (length seeds)) + 1) = u32 (Z.of_nat (S (length seeds)))) by (rewrite wrapu_add_l; f_equal; lia).
  destruct d; cbn [after_delay] in H; steps H; apply goes_on_one.
  - by apply (ph_given seeds _ true).
  - by apply (ph_completed seeds _ true).
  - by apply (ph_given seeds _ false).
Qed.

Lemma step_given seeds a d a' :
  producer_go a = false -> consumer_go a = true -> channel a = Idle -> rpc a = R_take -> tx a = None -> spc a = after_delay d ->
  g_DmaCh0_CallbackCounter a = u32 (Z.of_nat (S (length seeds))) -> DmaCh0_DestinationBuffer a = DmaCh0_SourceBuffer a ->
  DmaCh0_SourceBuffer a = seed_block (seed a) -> out a = echoed seeds a ->
  app_step srand rand a a' -> goes_on seeds (139 + Nat.b2n d) a'.
Proof.
  destruct a as [pg cg cnt src dst tl ch t o sb sd sm rm rg sp rp]. cbn. intros -> -> -> -> -> -> -> -> -> -> H.
  destruct d; cbn [after_delay] in H; steps H; apply goes_on_one.
  - apply (ph_receive seeds _ true 139); try done. split; [done|split; [lia|done]].
  - by apply (ph_given seeds _ true).
  - apply (ph_receive seeds _ false 139); try done. split; [done|split; [lia|done]].
Qed.

(** One more number in the buffer. *)
Lemma fill_next (l b : list Z) i x : (i < length l)%nat -> take i l = take i b -> b !! i = Some x -> take (S i) (<[i := x]> l) = take (S i) b.
Proof.
  intros Hi Ht Hb. rewrite (take_S_r b i x Hb), <- Ht. rewrite (take_S_r _ i x) by (by rewrite list_lookup_insert_eq).
  by rewrite take_insert_ge by lia.
Qed.

Lemma seed_block_lookup s i : (i < 128)%nat -> seed_block s !! i = Some (u8 (Z.rem (rand (rng_after i (srand s))).1 10 + 1)).
Proof. apply draws_lookup. Qed.

Lemma step_fill seeds a i a' :
  producer_go a = false -> consumer_go a = false -> channel a = Idle -> rpc a = R_take -> tx a = None -> spc a = S_fill i ->
  g_DmaCh0_CallbackCounter a = u32 (Z.of_nat (length seeds)) -> length (DmaCh0_SourceBuffer a) = 128%nat -> sending_data seeds a ->
  app_step srand rand a a' -> goes_on seeds (8 + i) a'.
Proof.
  destruct a as [pg cg cnt src dst tl ch t o sb sd sm rm rg sp rp]. cbn. intros -> -> -> -> -> -> -> Hsrc Hd H.
  unfold sending_data in Hd. cbn in Hd. destruct Hd as (Ho & -> & Hi & -> & Ht).
  change (echoed seeds _) with (transcript seeds ++ [SEED_MSG; echo_text sd]) in Ho.
  inversion H as [v ? ? Htx Hs|? ? Htx Hs|? ? Hs|? ? Hs]; clear H; subst; [|done..].
  unfold SendTask in Hs. cbn [spc rng] in Hs. destruct (rand (rng_after i (srand sd))) as [n r] eqn:Hr.
  assert (Hn : take (S i) (<[i := u8 (Z.rem n (MAX - MIN + 1) + MIN)]> src) = take (S i) (seed_block sd)).
  { apply fill_next; [lia|done|]. rewrite seed_block_lookup by done. by rewrite Hr. }
  assert (Hlen : length (<[i := u8 (Z.rem n (MAX - MIN + 1) + MIN)]> src) = 128%nat) by (by rewrite length_insert).
  injection Hs as <-. apply goes_on_one. apply ph_send; try done.
  - unfold DMA_CH0_BUFFER_DIMENSION. destruct (Nat.ltb_spec (S i) 128); cbn.
    + split_and!; first [done | by rewrite Hr].
    + repeat (split; [done|]). assert (i = 127%nat) as -> by lia.
      assert (Hb : length (seed_block sd) = 128%nat) by apply draws_length.
      rewrite (take_ge (<[_ := _]> src)), (take_ge (seed_block sd)) in Hn by lia. done.
  - unfold DMA_CH0_BUFFER_DIMENSION. destruct (Nat.ltb_spec (S i) 128); cbn; lia.
Qed.

Lemma step_sending seeds a a' :
  producer_go a = false -> consumer_go a = false -> channel a = Idle -> rpc a = R_take -> tx a = None ->
  g_DmaCh0_CallbackCounter a = u32 (Z.of_nat (length seeds)) -> length (DmaCh0_SourceBuffer a) = 128%nat -> sending_data seeds a ->
  app_step srand rand a a' -> goes_on seeds (S (send_pos (spc a))) a'.
Proof.
  intros Hpg Hcg Hch Hr Htx Hc Hsrc Hd H. destruct (spc a) as [| | | | | | |i| |] eqn:Hsp;
    try (unfold sending_data in Hd; rewrite Hsp in Hd; done); try (by apply (step_fill seeds a i)).
  all: destruct a as [pg cg cnt src dst tl ch t o sb sd sm rm rg sp rp]; cbn in *; subst; steps H.
  all: try (apply goes_on_one; apply ph_send; try done; cbn in *; intuition (subst; done)).
  - apply bind_Some in Hs as (z & _ & [= <-]). apply goes_on_one. by apply ph_send.
  - destruct Hd as (-> & -> & ->). apply goes_on_one. apply ph_send; try done. cbn. split; [|done].
    unfold prompted. by rewrite <- app_assoc.
  - destruct Hd as (-> & ->). apply goes_on_one. apply ph_send; try done. cbn. split_and!; first [done | lia].
  - destruct Hd as (-> & -> & ->). apply goes_on_one. by apply (ph_requested seeds _ false).
Qed.

Lemma step_receiving seeds a d pos a' :
  producer_go a = false -> consumer_go a = false -> channel a = Idle -> spc a = after_delay d ->
  g_DmaCh0_CallbackCounter a = u32 (Z.of_nat (S (length seeds))) -> DmaCh0_DestinationBuffer a = DmaCh0_SourceBuffer a ->
  DmaCh0_SourceBuffer a = seed_block (seed a) -> receiving_data seeds a pos ->
  app_step srand rand a a' -> goes_on seeds (S pos + Nat.b2n d) a'.
Proof.
  destruct a as [pg cg cnt src dst tl ch t o sb sd sm rm rg sp rp]. cbn [producer_go consumer_go channel spc g_DmaCh0_CallbackCounter
    DmaCh0_DestinationBuffer DmaCh0_SourceBuffer seed]. intros -> -> -> -> -> -> -> Hd H.
  inversion H as [v ? ? Htx Hs|? ? Htx Hs|? ? Hs|? ? Hs]; clear H; subst; cbn in *; subst.
  - destruct d; cbn in Hs; [done|]. injection Hs as <-. apply goes_on_one. apply (ph_receive seeds _ true pos); (done || cbn; lia).
  - unfold receiving_data in Hd. cbn [rpc tx] in Hd. unfold ReceiveTask in Hs. cbn [rpc] in Hs. destruct rp; try done; injection Hs as <-.
    all: cbn in Hd.
    + destruct Hd as (-> & Hi & ->). apply goes_on_one. unfold compare_round, DMA_CH0_BUFFER_DIMENSION. cbn [DmaCh0_SourceBuffer DmaCh0_DestinationBuffer].
      destruct (Nat.ltb_spec i 128); [rewrite decide_True by done|].
      * by apply (ph_receive seeds _ d (139 + S i)).
      * assert (i = 128%nat) as -> by lia. by apply (ph_receive seeds _ d 268).
    + destruct Hd as (-> & -> & ->). apply goes_on_one. apply (ph_receive seeds _ d 269); (done || cbn; lia).
    + destruct Hd as (-> & ->). apply goes_on_one. apply (ph_receive seeds _ d 271); (done || cbn; lia).
    + destruct Hd as (-> & -> & ->). apply goes_on_one. apply (ph_receive seeds _ d 272); (done || cbn; lia).
    + destruct Hd as (-> & ->). apply goes_on_one. apply (ph_receive seeds _ d 274); (done || cbn; lia).
    + destruct Hd as (-> & -> & ->). apply goes_on_one. apply (ph_receive seeds _ d 275); (done || cbn; lia).
    + destruct Hd as (-> & ->). exists (seeds ++ [sd]), (Nat.b2n d). rewrite length_app. split; [cbn; lia|].
      apply ph_ready; try done; cbn; [by rewrite length_app, Nat.add_1_r|].
      rewrite transcript_snoc. unfold echoed, round_text. by rewrite <- !app_assoc.
  - done.
  - unfold receiving_data in Hd. cbn [rpc tx] in Hd. unfold uart_step in Hs. cbn [tx] in Hs. destruct t as [b|]; [|done]. injection Hs as <-.
    apply goes_on_one. destruct rp; try done; cbn in Hd.
    + destruct Hd as (-> & -> & ->). apply (ph_receive seeds _ d 270); (done || cbn; lia).
    + destruct Hd as (-> & -> & -> & ->). apply (ph_receive seeds _ d 273); (done || cbn; lia).
    + destruct Hd as (-> & -> & -> & ->). apply (ph_receive seeds _ d 276); (done || cbn; lia).
Qed.

Lemma phase_step seeds pos a a' : round_phase seeds pos a -> app_step srand rand a a' -> goes_on seeds pos a'.
Proof.
  intros Hp H. destruct Hp as [a d|a pos|a d|a d|a d|a d pos pos'].
  - by eapply (step_ready seeds a d).
  - subst. by apply step_sending.
  - by eapply (step_requested seeds a d).
  - by eapply (step_completed seeds a d).
  - by eapply (step_given seeds a d).
  - subst. by eapply (step_receiving seeds a d).
Qed.

Lemma initial_step seeds buf s m m' r a' :
  seeds = [] -> app_step srand rand (app_initial buf s m m' r) a' -> round_phase seeds 1 a'.
Proof.
  intros -> H. inversion H as [v ? ? Htx Hs|? ? Htx Hs|? ? Hs|? ? Hs]; clear H; subst; try done.
  cbn in Hs. injection Hs as <-. by apply (ph_ready [] _ true).
Qed.

Lemma run_inv n a : app_run srand rand n a -> exists seeds, app_inv seeds n a.
Proof.
  induction 1 as [buf s m m' r Hb|n a a' Hr [seeds Hi] Hs].
  - exists []. left. split; [done|]. split; [done|]. by exists buf, s, m, m', r.
  - destruct Hi as [(-> & -> & buf & s & m & m' & r & ->)|(pos & -> & Hp)].
    + exists []. right. exists 1%nat. split; [done|]. by eapply initial_step.
    + destruct (phase_step _ _ _ _ Hp Hs) as (seeds' & pos' & He & Hp'). exists seeds'. right. exists pos'. split; [lia|done].
Qed.

(** ** What the invariant says *)

Lemma prefix_app_mono {A} (l m k : list A) : m `prefix_of` k -> l ++ m `prefix_of` l ++ k.
Proof. intros [x ->]. exists x. by rewrite app_assoc. Qed.

(** The messages of a round so far are [l]. *)
Ltac messages l :=
  exists l; split; [match goal with H : out _ = _ |- _ => rewrite H end; unfold prompted, echoed; by rewrite ?app_nil_r, <- ?app_assoc|];
  split; [by eexists|first [left; cbn; lia | right; cbn; lia]].

Lemma phase_messages seeds pos a :
  round_phase seeds pos a ->
  exists l, out a = transcript seeds ++ l /\ l `prefix_of` round_text (S (length seeds)) (seed a) /\
    ((pos < 278)%nat \/ (pos <= 278 /\ length l = 5)%nat).
Proof.
  intros H. destruct H as [a d|a pos|a d|a d|a d|a d pos pos'];
    try (assert (Hd : (Nat.b2n d <= 1)%nat) by (destruct d; cbn; lia)).
  - messages (@nil string).
  - subst. unfold sending_data in *. destruct (spc a) as [| | | | | | |i| |]; try done; destruct_and?; simplify_eq.
    1: messages (@nil string).
    1-4: messages [SEED_MSG].
    all: messages [SEED_MSG; echo_text (seed a)].
  - messages [SEED_MSG; echo_text (seed a)].
  - messages [SEED_MSG; echo_text (seed a)].
  - messages [SEED_MSG; echo_text (seed a)].
  - subst. unfold receiving_data in *. set (c := counter_text _) in *. set (f := first_text _) in *.
    destruct (rpc a) as [|i|ok| | | | |], (tx a) as [b|]; try done; destruct_and?; subst.
    1-3: messages [SEED_MSG; echo_text (seed a)].
    1-3: messages [SEED_MSG; echo_text (seed a); DMA_TRANSFER_SUCCESS_MSG].
    1-3: messages [SEED_MSG; echo_text (seed a); DMA_TRANSFER_SUCCESS_MSG; c].
    messages [SEED_MSG; echo_text (seed a); DMA_TRANSFER_SUCCESS_MSG; c; f].
Qed.

(** Where the token can be. *)
Definition holds_send (p : send_pc) : bool := match p with S_take | S_delay => false | _ => true end.
Definition holds_receive (p : receive_pc) : bool := match p with R_take => false | _ => true end.
Definition transferring (c : dma_channel) : bool := match c with Idle => false | _ => true end.
Definition tokens (a : app R) : nat :=
  Nat.b2n (producer_go a) + Nat.b2n (holds_send (spc a)) + Nat.b2n (transferring (channel a)) + Nat.b2n (consumer_go a) + Nat.b2n (holds_receive (rpc a)).

Lemma phase_tokens seeds pos a : round_phase seeds pos a -> tokens a = 1%nat.
Proof.
  intros H. unfold tokens. destruct H as [a d Hpg Hcg Hch Hr Htx Hs|a pos Hpg Hcg Hch Hr Htx _ _ Hd|a d Hpg Hcg Hch Hr Htx Hs|a d Hpg Hcg Hch Hr Htx Hs
    |a d Hpg Hcg Hch Hr Htx Hs|a d pos pos' Hpg Hcg Hch Hs _ _ _ Hd]; rewrite Hpg, Hcg, Hch.
  1,3,4,5: rewrite Hr, Hs; by destruct d.
  - rewrite Hr. unfold sending_data in Hd. by destruct (spc a).
  - rewrite Hs. unfold receiving_data in Hd. destruct (rpc a); [by destruct (tx a)|by destruct d..].
Qed.

Lemma phase_progress seeds pos a :
  round_phase seeds pos a -> (spc a = S_seed -> atoi (seed_buf a) <> None) -> exists a', app_step srand rand a a'.
Proof.
  intros H Hseed. destruct (tx a) as [b|] eqn:Htx.
  { eexists. apply step_uart. unfold uart_step. by rewrite Htx. }
  destruct H as [a d Hpg Hcg Hch Hr _ Hs|a pos Hpg Hcg Hch Hr _ _ _ Hd|a d Hpg Hcg Hch Hr _ Hs|a d Hpg Hcg Hch Hr _ Hs
    |a d Hpg Hcg Hch Hr _ Hs|a d pos pos' Hpg Hcg Hch Hs _ _ _ Hd].
  - destruct d; eexists; (apply (step_send _ _ 0); [done|]); unfold SendTask; rewrite Hs; cbn; [by rewrite Hpg|done].
  - unfold sending_data in Hd. destruct (spc a) as [| | | | | | |i| |] eqn:E; try done; destruct (rand (rng a)) as [? ?] eqn:Hrand;
      try (eexists; apply (step_send _ _ 0); [done|]; unfold SendTask; rewrite E; by rewrite ?Hrand).
    destruct (atoi (seed_buf a)) as [k|] eqn:Hz; [|by destruct Hseed].
    eexists. apply (step_send _ _ 0); [done|]. unfold SendTask. by rewrite E, Hz.
  - eexists. apply step_dma. unfold dma_step. by rewrite Hch.
  - eexists. apply step_dma. unfold dma_step. by rewrite Hch.
  - eexists. apply step_receive; [done|]. unfold ReceiveTask. by rewrite Hr, Hcg.
  - unfold receiving_data in Hd. rewrite Htx in Hd.
    destruct (rpc a) eqn:E; try done; eexists; (apply step_receive; [done|]); unfold ReceiveTask; by rewrite E.
Qed.

Lemma seed_block_range s : (forall r, 0 <= (rand r).1) -> Forall (fun x => MIN <= x <= MAX) (seed_block s).
Proof.
  intros Hr. unfold seed_block. generalize (srand s). generalize DMA_CH0_BUFFER_DIMENSION. intros n. induction n as [|n IH]; intros r; [constructor|].
  cbn [draws]. constructor; [|apply IH]. specialize (Hr r). pose proof (Z.rem_bound_pos (rand r).1 10 Hr ltac:(lia)).
  unfold MIN, MAX. rewrite wrapu_small by lia. lia.
Qed.

End App.

(** ** Properties *)


(** C20: The semaphores hand one token around: in every reachable state exactly one of the two
    semaphores, SendTask between its semaphore and the request, the DMA channel and
    ReceiveTask between its semaphores has it, so that the buffers are never written while
    they are copied or compared and no semaphore is given twice; and the application never
    stops: some step is possible, if [atoi] finds an end of the number in the buffer of the
    seed, which the code does not ensure. *)
Theorem demo_app_handshake {R} (srand : Z -> R) (rand : R -> Z * R) n a :
  app_run srand rand n a ->
  tokens a = 1%nat /\
  (forall i, spc a = S_fill i -> channel a = Idle /\ rpc a = R_take) /\
  ((spc a = S_seed -> atoi (seed_buf a) <> None) -> exists a', app_step srand rand a a').
Proof.
  intros Hrun. destruct (run_inv _ _ _ _ Hrun) as [seeds [(-> & -> & buf & s & m & m' & r & ->)|(pos & -> & Hp)]].
  - split; [done|]. split; [done|]. intros _. eexists. by apply step_uart.
  - pose proof (phase_tokens _ _ _ _ _ Hp) as Ht. split; [done|]. split; [|by eapply phase_progress].
    intros i E. unfold tokens in Ht. rewrite E in Ht. destruct (channel a), (rpc a); cbn in Ht; first [done | lia].
Qed.

(** A digit left on the stack becomes part of the seed. *)
Lemma stale_digit_in_seed : atoi (<[0%nat := 51]> [0; 53; 0; 0; 0; 0; 0; 0; 0; 0]) = Some 35.
Proof. done. Qed.

(** ** Witnesses *)

(** A scheduler: interrupts first, then ReceiveTask, then SendTask with the input [v]. *)
Section Scheduler.
Context {R : Type} (srand : Z -> R) (rand : R -> Z * R).

Definition schedule (v : Z) (a : app R) : option (app R) :=
  match uart_step a with
  | Some a' => Some a'
  | None =>
      match dma_step a with
      | Some a' => Some a'
      | None =>
          match tx a with
          | Some _ => None
          | None => match ReceiveTask a with Some a' => Some a' | None => SendTask srand rand v a end
          end
      end
  end.

Fixpoint execute (n : nat) (v : Z) (a : app R) : option (app R) :=
  match n with O => Some a | S n => a ← execute n v a; schedule v a end.

Lemma schedule_step v a a' : schedule v a = Some a' -> app_step srand rand a a'.
Proof.
  unfold schedule. destruct (uart_step a) eqn:Hu; [intros [= <-]; by apply step_uart|].
  destruct (dma_step a) eqn:Hd; [intros [= <-]; by apply step_dma|]. destruct (tx a) eqn:Ht; [done|].
  destruct (ReceiveTask a) eqn:Hr; [intros [= <-]; by apply step_receive|]. by apply step_send.
Qed.

Lemma execute_run n v buf s m m' r a :
  length buf = 10%nat -> execute n v (app_initial buf s m m' r) = Some a -> app_run srand rand n a.
Proof.
  intros Hb. revert a. induction n as [|n IH]; cbn; [intros a [= <-]; by apply run_start|].
  intros a (a0 & H0 & H)%bind_Some. eapply run_step; [by apply IH|by eapply schedule_step].
Qed.

End Scheduler.

(** A generator of random numbers. *)
Definition demo_rand (r : Z) : Z * Z := (r mod 32768, (r * 1103515245 + 12345) mod 2 ^ 31).
Definition demo_stack : list Z := replicate 10 0.
(** After the answer 7 and a round. *)
Definition app_demo_run (n : nat) : option (app Z) := execute id demo_rand n 55 (app_initial demo_stack 0 EmptyString EmptyString 0).

Lemma app_demo_run_ok n a : app_demo_run n = Some a -> app_run id demo_rand n a.
Proof. by apply execute_run. Qed.

Lemma demo_rand_positive r : 0 <= (demo_rand r).1.
Proof. cbn. apply Z.mod_pos_bound. lia. Qed.


Lemma demo_app_handshake_witness :
  exists a, app_demo_run 100 = Some a /\ spc a = S_fill 92 /\
    tokens a = 1%nat /\ (forall i, spc a = S_fill i -> channel a = Idle /\ rpc a = R_take) /\
    ((spc a = S_seed -> atoi (seed_buf a) <> None) -> exists a', app_step id demo_rand a a').
Proof.
  destruct (app_demo_run 100) as [a|] eqn:E; [|by vm_compute in E].
  exists a. split; [done|]. split; [vm_compute in E; injection E as <-; by vm_compute|].
  apply (demo_app_handshake id demo_rand 100 a), app_demo_run_ok, E.
Defined.
